(* ===== verification/_CoqProject ===== *)
-Q . S2P
Prelude.v
Utf8.v
HexText.v
Text.v
Crates.v
TronAddress.v
TonBits.v
TonCell.v
TonAddress.v
TonIndex.v
TonRawCell.v
TonBag.v
Protobuf.v
SuiProto.v
SuiTransaction.v
TronContract.v
TronSigning.v
BitcoinPlanner.v
ChainRegistry.v
Assets.v
Transactions.v
Wallets.v
DynodeTracker.v
DynodeConfig.v
DynodeSelection.v
DynodeMonitor.v
DynodeProxy.v
Cardano.v
TransferAmount.v
TransferRules.v
Confirm.v
Signing.v
NearSigner.v
StellarSigner.v
AlgorandSigner.v
PolkadotSigner.v
NumberFormatter.v
ValueFormatter.v
XrpSigner.v
CosmosSigner.v
SolanaTransaction.v
SolanaSigner.v
Aptos.v
AptosFacts.v
Floats.v
RewardsStore.v
RewardsLedger.v
RewardsRepository.v
RewardsFacts.v
RiskScore.v
RiskSignals.v
RiskFacts.v
RateLimits.v
RewardsServices.v
RewardsServicesFacts.v
RewardsNotices.v
TransactionStates.v
TransactionTracker.v
TransactionStateFacts.v
