(* ===== verification/Prelude.v ===== *)
(** * Gem Wallet Core: a verification library

    Gem Wallet is a self-custody wallet for some fifty chains.  Its Rust core, [src/core], holds what both mobile
    applications share ([gemstone], the library they link), the crates of the chains ([crates/gem_*]), the data they
    exchange ([crates/primitives]) and the servers behind them ([apps]; of these, [dynode] is the proxy that picks a
    node for every request of a chain).  This library models the parts of that code on which the safety of funds and
    the availability of the nodes rest: what is signed, how its bytes are encoded, what it spends, what is shown
    before it is confirmed, what is sent and recorded after, and which node answers.

    ** How the parts interact

    A transfer starts as a [GemTransferData] ([TransferRules]) over the assets and chains of the registry
    ([ChainRegistry], [Assets]).  Its amount is entered against a balance ([AmountRules]) and, once the network
    returned a fee, calculated ([TransferAmount]); the confirmation service loads it, offers the fees, signs, sends
    and records it ([Confirm], [Transactions], [Wallets]); until it is completed, the tracker polls its state
    ([TransactionStates], [TransactionTracker]).  Signing is the chain's: unspent outputs are selected for
    Bitcoin and its relatives ([BitcoinPlanner]) and for Cardano ([Cardano], with CBOR); Tron signs protobuf messages
    ([Protobuf], [TronContract], [TronSigning]), Cosmos protobuf documents ([CosmosSigner]); NEAR writes Borsh
    ([NearSigner]), Stellar XDR ([StellarSigner]), Algorand MessagePack ([AlgorandSigner]), Polkadot SCALE
    ([PolkadotSigner]), XRP its own fields ([XrpSigner]), Aptos BCS ([Aptos]) and Solana compiled messages
    ([SolanaTransaction], [SolanaSigner]); what these signers share is in [Signing].  Sui speaks protobuf with its nodes
    ([SuiProto]); TON serializes trees of cells ([TonBits] to [TonBag]).  Amounts are typed and shown as decimal text
    ([NumberFormatter], [ValueFormatter]).  Every request to a chain goes through dynode, which tracks the failures of
    a node ([DynodeTracker]), observes and chooses nodes ([DynodeSelection]), switches between them
    ([DynodeMonitor]) and retries and batches requests ([DynodeProxy]) under its configuration ([DynodeConfig]).  The
    servers also keep the rewards of users: names, referrals, points and redemptions ([RewardsStore], [RewardsLedger]); the
    services around them screen referrals, limit requests and look for abuse ([RewardsServices]).

    ** The files

    Shared: this file (the [result] type with [let?] and [let??] for the [?] operator on results and options,
    machine integers as integers with their wrap-around written out, byte strings, the tactics [zlia] and [zbool]);
    [Utf8], [Text] and [HexText] (text of the standard library and [primitives/src/hex.rs]); [Floats] (an [f64] as a [spec_float]
    with the operations and casts of IEEE 754); [Crates] (classes of
    functions of third-party crates with their documented laws, and concrete instances for the witnesses).

    TON, [crates/gem_ton/src]: [TonBits] ([tvm/writer.rs], [tvm/reader.rs]), [TonCell] ([tvm/cell.rs],
    [tvm/builder.rs]), [TonAddress] ([address.rs]), [TonIndex] ([tvm/indexed_cell.rs]), [TonRawCell]
    ([tvm/raw_cell.rs], [tvm/header.rs]), [TonBag] ([tvm/bag.rs]).  A bag of cells that is serialized is parsed back
    ([boc_roundtrip]); what is parsed is well formed ([parse_well_formed]); the index of the cells is a topological order
    ([index_topological]); cells stay within their limits ([cell_invariant]); snake data and addresses are recovered.

    Tron, [crates/gem_tron/src]: [TronAddress] ([address], [trc20.rs]), [TronContract] ([models/contract_type.rs],
    [signing]), [TronSigning] (the theorems).  The bytes that are signed determine the contract
    ([raw_data_injective]); what a dapp asks to sign is what the wallet shows ([signed_request_is_shown]).

    Sui and the wire format, [crates/gem_encoding/src/protobuf] and [crates/gem_sui/src/rpc]: [Protobuf], [SuiProto],
    [SuiTransaction].  The field visitor terminates and reads every field in order ([visit_fields_terminates],
    [visit_fields_stream]); a transaction survives its encoding ([transaction_view]).

    Unspent outputs: [BitcoinPlanner] ([crates/gem_bitcoin/src/signer]) and [Cardano] ([crates/gem_cardano/src]).
    Plans conserve value and pay their fee ([plan_conserves], [exact_selection], [transfer_conserves]); the bytes
    signed on Cardano determine the transaction ([signed_bytes_injective]).

    The signers of accounts: [Signing] (prefix codes, keys, the input of a signer), [NearSigner] ([crates/gem_near]),
    [StellarSigner], [AlgorandSigner], [PolkadotSigner], [XrpSigner], [CosmosSigner], [SolanaTransaction] and
    [SolanaSigner], [Aptos] and [AptosFacts], each the [signer] and the address module of its crate.  For each chain an
    independent reader of its format finds in the signed text exactly the requested transfer, under the requested
    account, sequence and fee, with the signature of those bytes ([near_request_signed], [stellar_request_signed],
    [algorand_request_signed], [polkadot_request_signed], [xrp_request_signed], [cosmos_request_signed],
    [solana_transfer_shown], [aptos_request_signed]); the bytes that are signed determine the document
    ([cosmos_signing_injective], [aptos_transaction_injective]); a compiled message grants the privileges of its
    instructions and no other ([legacy_transaction_means]), and is read as a transfer only if it is one
    ([simple_transfer_exact]); an issued amount keeps its value ([token_amount_exact]); Move types survive their text and
    every argument has the type of its parameter ([type_tag_roundtrip], [entry_function_typed]).

    Amounts as text, [crates/number_formatter/src]: [NumberFormatter] ([big_number_formatter.rs]) and
    [ValueFormatter] ([value_formatter.rs]).  A typed amount stands for the integer it says ([amount_scaling]), and a
    displayed one is never more than what is there ([displayed_amount]).

    The data of the wallet, [crates/primitives/src]: [ChainRegistry] ([chain.rs], [chain_config.rs] and the families
    of chains), [Assets], [Transactions], [Wallets], [TransferAmount] ([transfer_amount.rs],
    [transaction_input_type.rs] and the data of stakes, swaps and calls).  No look-up of the registry fails
    ([registry_total]); the texts of ids are recovered; a transaction shows what happened to the owner's
    addresses ([finalize_view]); an accepted transfer is covered by its balances and a refused one is not
    ([transfer_is_covered], [refusal_is_shortage], [smaller_is_affordable], [swap_value_branches]).

    The client, [gemstone/src]: [TransferRules] ([services/transfer], [services/amount], [models/transaction.rs]) and
    [Confirm] ([services/confirm]).  The maximum that is offered can be confirmed ([entered_stake_is_accepted]); the
    destination that is shown is the recipient ([destination_is_recipient]); nothing is sent unsigned, unchecked or
    from another account, and a result or an error names the hashes of the gateway ([execute_sends_signed]); what it accepted is recorded
    ([sent_is_recorded], [recorded_transaction]); an offered confirmation passed the scan and is covered
    ([preload_is_covered]); the fees of the rows agree with the loaded fee ([fee_rows_consistent]).
    [TransactionStates] ([services/transaction_state]: the rules, the updates and what is done after them),
    [TransactionTracker] (its [tracker.rs], the store of the mobile applications and the world of polls as a step relation) and
    [TransactionStateFacts]: a sent transaction is owned by at most one poll in every interleaving
    ([tracking_exclusive]), polls end in time ([polling_ends]) and leave it settled or gone ([poll_settles]), and an update that
    nothing interrupts never moves a transaction back ([update_progresses]).

    Dynode, [apps/dynode/src]: [DynodeTracker] ([monitoring/failure_tracker.rs]), [DynodeConfig] ([config],
    [jsonrpc_types.rs]), [DynodeSelection] ([monitoring/selection.rs], [evaluator.rs], [observation.rs]),
    [DynodeMonitor] ([monitoring/chain_monitor.rs], [worker.rs]; the interleaving of requests and monitor as a step
    relation), [DynodeProxy] ([node_service.rs], [proxy/jsonrpc]).  The counters refine a log of samples
    ([tracker_refines]) with bounded memory ([buckets_bounded]); the monitor's view follows the node in use
    ([monitor_tracks_current]) and a reported failure is checked eventually ([failure_is_checked]); the lazy
    selection equals the selection over all observations ([lazy_selection]); retries visit every node once
    ([retry_order]); a batch gets one answer for each call, from the cache or the node ([batch_answers]); the allowlist admits only what
    it lists ([allowlist_sound]).

    The rewards of users, [crates/storage/src] and [crates/primitives/src/rewards.rs]: [RewardsStore] (the rows and the
    statements of [database/usernames.rs], [rewards.rs], [rewards_redemptions.rs] and [referrals.rs], as transactions over
    tables with their keys, references and checks), [RewardsLedger] (what holds of the tables), [RewardsRepository] (the
    handlers of [repositories/rewards_repository.rs] and [rewards_redemptions_repository.rs], and the consumer of
    [apps/daemon] that pays redemptions) and [RewardsFacts].  Whatever statements run and in whatever order, points are
    events less redemptions and no option is oversold ([rewards_ledger]); a redemption takes points and item together or
    nothing at all ([redemption_exact]); every handler is a run of statements ([handlers_refine_store]), and handlers that
    run one after the other award a referral once ([referral_awarded_once]) and pay a redemption once
    ([redemption_paid_once]).
    Around the handlers: [RiskScore] (the answers about an address and the score of [crates/gem_rewards/src/risk_scoring]),
    [RiskSignals] (what the store counts of the signals), [RiskFacts], [RateLimits] (windows, counters and keys of the
    configuration), [RewardsServices] (the clients of [apps/api] that screen a referral, create names and redeem within
    limits, and the jobs of [apps/daemon] that promote users and disable abusers), [RewardsServicesFacts] and
    [RewardsNotices] (the leaderboard and the notifications of events).  A referral of a user that is no source of
    attribution was scored from the signals of the store, and its score is below the limit ([referral_screened]); the score does not depend on
    the order of the signals ([score_order_independent]), and a device and address of another referrer refuse it
    under every configuration that is strict enough ([shared_device_refused]); the sliding window finds the busiest window ([window_finds_busiest]).  A redemption leaves
    every window within its limit ([redemption_within_limits]); the job against abuse looks at all who referred enough
    and disables exactly those it gets to whose score reaches the threshold ([abuse_disables_exactly]); the services run statements of the store
    ([services_refine_store]); the boards leave out nobody with more invitations ([leaderboard_ranks]), and an event is
    announced to its user or its referrer ([event_notified]).
    ** Conventions

    A [u64] and the like is an integer with an explicit [wrap] where the source can overflow (a release build does
    not check additions); a [BigInt] is an integer.  A [String] is its UTF-8 bytes, as a Rocq [string] or a list of
    integers below 256.  A [Result] is [result], an [Option] is [option]; a panic is an error or [None], and a theorem
    excludes it or states when it happens.  A [HashMap] is a [gmap], a [HashSet] a [gset], a [BTreeMap] a map whose
    keys are enumerated in order.  Functions of third-party crates (hashes, base64, bech32, JSON) and answers of the
    network are classes; their laws state the documented behaviour, and the witnesses run with concrete instances.

    ** Fuel

    Loops that consume their input carry fuel: [Protobuf.visit_fields] and the decoders the number of bytes that
    remain, since every step reads at least one; [Text.split] the length of the string; the cells of a bag the
    number of its cells; the checks of dynode the number of configured attempts.  [visit_fields_terminates] and the
    totality parts of the other theorems show that the fuel is never what ends a loop.  The sliding
    window over the times of signals carries one step for each time and one more; [window_finds_busiest] shows that it
    always answers.  The loops that bring an XRP
    amount into its range carry 40: a mantissa has at most 39 digits and needs at most 23 divisions, or 16
    multiplications.  A type tag of Aptos nests at most 65 levels, the limit of its parser.  The address readers and
    decimal writers carry the length of their input.

    ** Not modelled

    Cryptography and key storage (third-party crates behind [gem_keystore], [gem_derivation]); requests to nodes and
    the mapping of their JSON (the [provider] modules of the chains); most of storage (a schema generated by diesel, and
    queries without rules of their own); floating-point prices, rates and profits, and with them the pricing services,
    perpetual prices and the [f64] functions and currency formats of [number_formatter]; the swap providers; the display
    of simulations and the other views of [gemstone]; the mobile applications.  Of the signers: EVM, whose calls are
    encoded by a macro of a third-party crate; the Zcash and script part of Bitcoin; versioned Solana transactions with
    look-up tables, which [solana_primitives] builds; typed data. *)
From Stdlib Require Export ZArith Lia Bool Ascii.
From stdpp Require Export base numbers list strings pretty gmap.

Declare Scope rust_scope.
Delimit Scope rust_scope with rust.
Open Scope Z_scope.

(** ** [Result] and its [?] operator *)

Inductive result (E A : Type) : Type :=
| Ok (a : A)
| Err (e : E).
Arguments Ok {E A} a.
Arguments Err {E A} e.

(** [let? x := e in k] is Rust's [let x = e?; k] on a [Result]. *)
Notation "'let?' x := e 'in' k" :=
  (match e with Ok x => k | Err err__ => Err err__ end)
  (at level 10, x pattern, e at level 200, k at level 200) : rust_scope.

(** [let?? x := e in k] is the same operator on an [Option]. *)
Notation "'let??' x := e 'in' k" :=
  (match e with Some x => k | None => None end)
  (at level 10, x pattern, e at level 200, k at level 200) : rust_scope.
Open Scope rust_scope.

Definition ok_or {E A} (o : option A) (e : E) : result E A :=
  match o with Some a => Ok a | None => Err e end.

Definition ok {E A} (r : result E A) : option A :=
  match r with Ok a => Some a | Err _ => None end.

Definition is_ok {E A} (r : result E A) : bool :=
  match r with Ok _ => true | Err _ => false end.

Definition map_err {E F A} (f : E -> F) (r : result E A) : result F A :=
  match r with Ok a => Ok a | Err e => Err (f e) end.

(** [iter.map(f).collect::<Result<Vec<_>, _>>()]: the first error wins. *)
Fixpoint collect {E A B} (f : A -> result E B) (l : list A) : result E (list B) :=
  match l with
  | [] => Ok []
  | x :: l' => let? y := f x in let? ys := collect f l' in Ok (y :: ys)
  end.

(** [iter.try_fold(init, f)] *)
Fixpoint try_fold {E A S} (f : S -> A -> result E S) (s : S) (l : list A) : result E S :=
  match l with
  | [] => Ok s
  | x :: l' => let? s' := f s x in try_fold f s' l'
  end.

(** A stateful reader run [n] times: [(0..n).map(|_| step(reader)).collect()]. *)
Fixpoint repeat_state {E S B} (n : nat) (step : S -> result E (B * S)) (s : S)
  : result E (list B * S) :=
  match n with
  | O => Ok ([], s)
  | S n' =>
      let? (b, s1) := step s in
      let? (bs, s2) := repeat_state n' step s1 in
      Ok (b :: bs, s2)
  end.

#[export] Instance result_eq_dec {E A} `{EqDecision E, EqDecision A} : EqDecision (result E A).
Proof. solve_decision. Defined.

(** ** Machine integers

    A [w]-bit unsigned integer is a [Z] in [[0, 2^w)]; [wrap w] is the
    truncation of an [as] cast. *)

Definition in_width (w z : Z) : Prop := 0 <= z < 2 ^ w.
Abbreviation is_byte := (in_width 8).
Abbreviation is_u16 := (in_width 16).
Abbreviation is_u32 := (in_width 32).
Abbreviation is_u64 := (in_width 64).
Abbreviation is_u128 := (in_width 128).
Abbreviation bytes := (list Z).
Abbreviation all_bytes := (Forall is_byte).

Definition U64_MAX : Z := 2 ^ 64 - 1.
Definition wrap (w z : Z) : Z := z mod 2 ^ w.
Definition as_u8 : Z -> Z := wrap 8.
Definition as_u16 : Z -> Z := wrap 16.
Definition as_u32 : Z -> Z := wrap 32.
Definition as_u64 : Z -> Z := wrap 64.

(** [u64::checked_add], [checked_sub], [checked_mul], [saturating_sub],
    [saturating_mul] *)
Definition checked_add (a b : Z) : option Z := if a + b <=? U64_MAX then Some (a + b) else None.
Definition checked_sub (a b : Z) : option Z := if b <=? a then Some (a - b) else None.
Definition checked_mul (a b : Z) : option Z := if a * b <=? U64_MAX then Some (a * b) else None.
Definition saturating_sub (a b : Z) : Z := if b <=? a then a - b else 0.
Definition saturating_mul (a b : Z) : Z := Z.min (a * b) U64_MAX.
(** [div_ceil] on unsigned integers *)
Definition div_ceil (a b : Z) : Z := (a + (b - 1)) / b.
Definition ndiv_ceil (a b : nat) : nat := ((a + (b - 1)) / b)%nat.

(** [slice.get(i)] with a [usize] index *)
Definition get {A} (l : list A) (i : Z) : option A :=
  if i <? Z.of_nat (length l) then l !! Z.to_nat i else None.

(** [to_le_bytes] / [from_le_bytes] and the big-endian pair *)
Fixpoint le_bytes (n : nat) (z : Z) : bytes :=
  match n with
  | O => []
  | S n' => z mod 256 :: le_bytes n' (z / 256)
  end.
Definition be_bytes (n : nat) (z : Z) : bytes := rev (le_bytes n z).
Definition of_le (bs : bytes) : Z := foldr (fun b acc => b + 256 * acc) 0 bs.
Definition of_be (bs : bytes) : Z := fold_left (fun acc b => acc * 256 + b) bs 0.

(** ** Automation *)

Create HintDb rust discriminated.
Create HintDb rust_len discriminated.

(** Split the match a hypothesis [let? .. = Ok _] or [... = Some _] stops at. *)
Ltac res_step :=
  match goal with
  | H : Ok _ = Ok _ |- _ => injection H; clear H; intros; subst
  | H : Some _ = Some _ |- _ => injection H; clear H; intros; subst
  | H : Err _ = Ok _ |- _ => discriminate H
  | H : Ok _ = Err _ |- _ => discriminate H
  | H : None = Some _ |- _ => discriminate H
  | H : Some _ = None |- _ => discriminate H
  | H : (match ?e with Ok _ => _ | Err _ => _ end) = Ok _ |- _ =>
      let E := fresh "E" in destruct e eqn:E; [|discriminate H]
  | H : (match ?e with Some _ => _ | None => _ end) = Some _ |- _ =>
      let E := fresh "E" in destruct e eqn:E; [|discriminate H]
  | H : (if ?b then Err _ else _) = Ok _ |- _ =>
      let E := fresh "E" in destruct b eqn:E; [discriminate H|]
  | H : (if ?b then None else _) = Some _ |- _ =>
      let E := fresh "E" in destruct b eqn:E; [discriminate H|]
  | H : (if ?b then _ else Err _) = Ok _ |- _ =>
      let E := fresh "E" in destruct b eqn:E; [|discriminate H]
  | H : (let '(_, _) := ?p in _) = _ |- _ => let E := fresh "E" in destruct p eqn:E
  end.
Ltac res_inv := repeat (res_step; simpl in *).

(** Boolean comparisons as propositions, in the context and the goal. *)
Ltac zbool :=
  repeat match goal with
  | H : (_ <=? _) = true |- _ => apply Z.leb_le in H
  | H : (_ <=? _) = false |- _ => apply Z.leb_gt in H
  | H : (_ <? _) = true |- _ => apply Z.ltb_lt in H
  | H : (_ <? _) = false |- _ => apply Z.ltb_ge in H
  | H : (_ =? _) = true |- _ => apply Z.eqb_eq in H
  | H : (_ =? _) = false |- _ => apply Z.eqb_neq in H
  | H : (_ <=? _)%nat = true |- _ => apply Nat.leb_le in H
  | H : (_ <=? _)%nat = false |- _ => apply Nat.leb_gt in H
  | H : (_ <? _)%nat = true |- _ => apply Nat.ltb_lt in H
  | H : (_ <? _)%nat = false |- _ => apply Nat.ltb_ge in H
  | H : (_ =? _)%nat = true |- _ => apply Nat.eqb_eq in H
  | H : (_ =? _)%nat = false |- _ => apply Nat.eqb_neq in H
  | H : (_ && _) = true |- _ => apply andb_true_iff in H as [? ?]
  | H : (_ && _) = false |- _ => apply andb_false_iff in H
  | H : (_ || _) = true |- _ => apply orb_true_iff in H
  | H : (_ || _) = false |- _ => apply orb_false_iff in H as [? ?]
  | H : negb _ = true |- _ => apply negb_true_iff in H
  | H : negb _ = false |- _ => apply negb_false_iff in H
  end.

(** Linear arithmetic with machine-width bounds unfolded. *)
Ltac zlia := unfold in_width, U64_MAX in *; zbool; lia.

(** Solve a boolean test that the context decides. *)
Ltac btrue := first
  [ apply Z.leb_le | apply Z.ltb_lt | apply Z.eqb_eq | apply Nat.leb_le | apply Nat.ltb_lt
  | apply Nat.eqb_eq ]; zlia.
Ltac bfalse := first
  [ apply Z.leb_gt | apply Z.ltb_ge | apply Z.eqb_neq | apply Nat.leb_gt | apply Nat.ltb_ge
  | apply Nat.eqb_neq ]; zlia.

(** Rewrite with the value of a test: [decide_test (a <=? b)]. *)
Ltac test_true b := let H := fresh "T" in assert (b = true) as H by btrue; rewrite H; clear H.
Ltac test_false b := let H := fresh "T" in assert (b = false) as H by bfalse; rewrite H; clear H.

#[global] Arguments Nat.div : simpl never.
#[global] Arguments Nat.modulo : simpl never.
#[global] Arguments ndiv_ceil : simpl never.
#[global] Arguments div_ceil : simpl never.
#[global] Arguments wrap : simpl never.
#[global] Arguments Z.of_nat : simpl never.

(** ** Facts on results *)

Section results.
Context {E A B S : Type}.

Lemma collect_ok_map (f : A -> result E B) (g : A -> B) (l : list A) :
  (forall x, x ∈ l -> f x = Ok (g x)) -> collect f l = Ok (map g l).
Proof.
  induction l as [|x l IH]; intros H; simpl; [done|].
  rewrite (H x) by set_solver. rewrite IH; [done|]. intros y Hy. apply H. set_solver.
Qed.

Lemma collect_ok_iff (f : A -> result E B) (l : list A) (bs : list B) :
  collect f l = Ok bs <-> Forall2 (fun x y => f x = Ok y) l bs.
Proof.
  revert bs; induction l as [|x l IH]; intros bs; simpl; split; intros H.
  - res_inv. constructor.
  - by inversion H.
  - res_inv. constructor; [done|]. by apply IH.
  - inversion H as [|? y ? ys Hy Hys]; subst. rewrite Hy. apply IH in Hys. by rewrite Hys.
Qed.

Lemma collect_length (f : A -> result E B) (l : list A) (bs : list B) :
  collect f l = Ok bs -> length bs = length l.
Proof. intros H%collect_ok_iff. symmetry. by eapply Forall2_length. Qed.

Lemma try_fold_app (f : S -> A -> result E S) s l1 l2 :
  try_fold f s (l1 ++ l2) = let? s1 := try_fold f s l1 in try_fold f s1 l2.
Proof.
  revert s; induction l1 as [|x l1 IH]; intros s; simpl; [done|].
  destruct (f s x); [apply IH|done].
Qed.
End results.

Lemma filter_all {A} (P : A -> Prop) `{forall x, Decision (P x)} (l : list A) :
  Forall P l -> filter P l = l.
Proof. induction 1 as [|x l Hx _ IH]; [done|]. by rewrite filter_cons, decide_True, IH. Qed.

Lemma get_nat {A} (l : list A) (n : nat) : get l (Z.of_nat n) = l !! n.
Proof.
  unfold get. rewrite Nat2Z.id. destruct (Z.of_nat n <? Z.of_nat (length l)) eqn:E; [done|]. zbool.
  symmetry. apply lookup_ge_None_2. lia.
Qed.

(** ** Facts on byte encodings *)

Lemma is_byte_mod z : is_byte (z mod 256).
Proof. unfold in_width. change (2 ^ 8) with 256. apply Z.mod_pos_bound. lia. Qed.

Lemma wrap_width w z : 0 <= w -> in_width w (wrap w z).
Proof. intros. unfold in_width, wrap. apply Z.mod_pos_bound. by apply Z.pow_pos_nonneg. Qed.

Lemma wrap_small w z : in_width w z -> wrap w z = z.
Proof. unfold in_width, wrap. intros. by apply Z.mod_small. Qed.

Lemma as_u8_small z : is_byte z -> as_u8 z = z.
Proof. apply wrap_small. Qed.

Lemma pow_8S n : 2 ^ (8 * Z.of_nat (S n)) = 256 * 2 ^ (8 * Z.of_nat n).
Proof. rewrite Nat2Z.inj_succ. replace (8 * Z.succ (Z.of_nat n)) with (8 + 8 * Z.of_nat n) by lia.
  rewrite Z.pow_add_r by lia. reflexivity. Qed.

Lemma le_bytes_length n z : length (le_bytes n z) = n.
Proof. revert z; induction n as [|n IH]; intros z; simpl; [done|]. by rewrite IH. Qed.

Lemma be_bytes_length n z : length (be_bytes n z) = n.
Proof. unfold be_bytes. by rewrite length_rev, le_bytes_length. Qed.

Lemma le_bytes_bytes n z : all_bytes (le_bytes n z).
Proof. revert z; induction n; intros z; simpl; constructor; auto using is_byte_mod. Qed.

Lemma be_bytes_bytes n z : all_bytes (be_bytes n z).
Proof. unfold be_bytes. apply Forall_rev, le_bytes_bytes. Qed.

Lemma of_le_le_bytes n z : of_le (le_bytes n z) = z mod 2 ^ (8 * Z.of_nat n).
Proof.
  revert z; induction n as [|n IH]; intros z.
  - simpl. by rewrite Z.mod_1_r.
  - simpl le_bytes. simpl of_le. fold (of_le (le_bytes n (z / 256))).
    rewrite IH, pow_8S, Z.rem_mul_r; [lia|lia|].
    apply Z.pow_pos_nonneg; lia.
Qed.

Lemma of_be_rev bs : of_be (rev bs) = of_le bs.
Proof.
  unfold of_be, of_le. rewrite <- fold_left_rev_right, rev_involutive.
  induction bs; simpl; lia.
Qed.

Lemma of_be_be_bytes n z : of_be (be_bytes n z) = z mod 2 ^ (8 * Z.of_nat n).
Proof. unfold be_bytes. by rewrite of_be_rev, of_le_le_bytes. Qed.

Lemma of_le_be_small n z : in_width (8 * Z.of_nat n) z ->
  of_le (le_bytes n z) = z /\ of_be (be_bytes n z) = z.
Proof. intros. rewrite of_be_be_bytes, of_le_le_bytes. by rewrite Z.mod_small. Qed.

Lemma of_le_bound bs : all_bytes bs -> 0 <= of_le bs < 2 ^ (8 * Z.of_nat (length bs)).
Proof.
  induction 1 as [|b bs Hb _ IH]; [done|].
  simpl length. simpl of_le. fold (of_le bs). rewrite pow_8S. unfold in_width in *. lia.
Qed.

Lemma le_bytes_of_le bs : all_bytes bs -> le_bytes (length bs) (of_le bs) = bs.
Proof.
  induction 1 as [|b bs Hb _ IH]; [done|].
  simpl. fold (of_le bs). unfold in_width in Hb.
  f_equal.
  - rewrite Z.mul_comm, Z.mod_add by lia. apply Z.mod_small. lia.
  - rewrite Z.mul_comm, Z.div_add by lia. by rewrite Z.div_small by lia.
Qed.

Lemma be_bytes_of_be bs : all_bytes bs -> be_bytes (length bs) (of_be bs) = bs.
Proof.
  intros H. unfold be_bytes. rewrite <- (rev_involutive bs) at 2.
  rewrite of_be_rev. rewrite <- (length_rev bs), le_bytes_of_le; [by rewrite rev_involutive|].
  by apply Forall_rev.
Qed.

Lemma of_be_bound bs : all_bytes bs -> 0 <= of_be bs < 2 ^ (8 * Z.of_nat (length bs)).
Proof.
  intros H. rewrite <- (rev_involutive bs), of_be_rev, length_rev.
  apply of_le_bound. by apply Forall_rev.
Qed.

Lemma of_be_acc bs a :
  fold_left (fun acc b => acc * 256 + b) bs a = a * 2 ^ (8 * Z.of_nat (length bs)) + of_be bs.
Proof.
  unfold of_be. revert a; induction bs as [|b bs IH]; intros a; cbn [fold_left length].
  - change (2 ^ (8 * Z.of_nat 0)) with 1. lia.
  - rewrite IH, (IH (0 * 256 + b)), pow_8S. lia.
Qed.

Lemma of_be_zeros k bs : of_be (replicate k 0 ++ bs) = of_be bs.
Proof. induction k as [|k IH]; [done|]. unfold of_be in *. by cbn [replicate app fold_left]. Qed.

Lemma be_bytes_padded n bs : all_bytes bs -> (length bs <= n)%nat ->
  be_bytes n (of_be bs) = replicate (n - length bs) 0 ++ bs.
Proof.
  intros Hb Hl. rewrite <- (of_be_zeros (n - length bs)).
  assert (length (replicate (n - length bs) 0 ++ bs) = n) as Hn by (rewrite length_app, length_replicate; lia).
  rewrite <- Hn at 1. apply be_bytes_of_be. apply Forall_app. split; [by apply Forall_replicate|done].
Qed.

Lemma of_be_cons b bs : of_be (b :: bs) = b * 2 ^ (8 * Z.of_nat (length bs)) + of_be bs.
Proof. unfold of_be at 1. cbn [fold_left]. rewrite of_be_acc. lia. Qed.

#[export] Hint Resolve is_byte_mod le_bytes_bytes be_bytes_bytes : rust.
#[export] Hint Rewrite le_bytes_length be_bytes_length @length_app @length_take @length_drop
  @length_cons @length_nil @length_map : rust_len.

(** ** Facts on division rounded up *)

Lemma div_ceil_spec a b : 0 < b -> b * div_ceil a b - b < a <= b * div_ceil a b.
Proof. intros. unfold div_ceil. pose proof (Z.div_mod (a + (b - 1)) b).
  pose proof (Z.mod_pos_bound (a + (b - 1)) b). lia. Qed.

Lemma div_ceil_mono a a' b : 0 < b -> a <= a' -> div_ceil a b <= div_ceil a' b.
Proof. intros. unfold div_ceil. apply Z.div_le_mono; lia. Qed.

(** ** Facts on bit operations *)

Lemma in_width_land w a : 0 <= w -> in_width w a <-> Z.land a (Z.ones w) = a.
Proof.
  intros. unfold in_width. rewrite Z.land_ones by done. split; [apply Z.mod_small|].
  intros <-. apply Z.mod_pos_bound. by apply Z.pow_pos_nonneg.
Qed.

Lemma in_width_lor w a b : 0 <= w -> in_width w a -> in_width w b -> in_width w (Z.lor a b).
Proof.
  intros Hw Ha%in_width_land Hb%in_width_land; [|done..].
  apply in_width_land; [done|]. by rewrite Z.land_lor_distr_l, Ha, Hb.
Qed.

(** Disjoint bits add up. *)
Lemma lor_add_disjoint a b k : 0 <= k -> in_width k b -> Z.lor (Z.shiftl a k) b = a * 2 ^ k + b.
Proof.
  intros Hk Hb. rewrite <- Z.shiftl_mul_pow2 by lia. symmetry. apply Z.add_nocarry_lor.
  apply in_width_land in Hb; [|done]. rewrite <- Hb, (Z.land_comm b), Z.land_assoc.
  rewrite (Z.land_ones (Z.shiftl a k)), Z.shiftl_mul_pow2, Z.mod_mul by
    (try apply Z.pow_nonzero; lia).
  apply Z.land_0_l.
Qed.

(** ** Standard-library functions on text *)

(** [str::split_once(c)]: split at the first occurrence. *)
Fixpoint split_once (c : Ascii.ascii) (s : string) : option (string * string) :=
  match s with
  | EmptyString => None
  | String a s' =>
      if Ascii.eqb a c then Some (EmptyString, s')
      else let?? (l, r) := split_once c s' in Some (String a l, r)
  end.

Definition digit_value (a : Ascii.ascii) : option Z :=
  let n := Z.of_nat (Ascii.nat_of_ascii a) - 48 in
  if (0 <=? n) && (n <=? 9) then Some n else None.

Fixpoint parse_digits (acc : Z) (s : string) : option Z :=
  match s with
  | EmptyString => Some acc
  | String a s' => let?? d := digit_value a in parse_digits (acc * 10 + d) s'
  end.

(** [str::parse::<i32>()]: an optional sign, at least one digit, in range. *)
Definition parse_i32 (s : string) : option Z :=
  let '(sign, body) :=
    match s with
    | String a s' => if Ascii.eqb a "-"%char then (-1, s') else if Ascii.eqb a "+"%char then (1, s') else (1, s)
    | EmptyString => (1, s)
    end in
  match body with
  | EmptyString => None
  | _ => let?? v := parse_digits 0 body in
         let v := sign * v in
         if (- 2 ^ 31 <=? v) && (v <? 2 ^ 31) then Some v else None
  end.

(** Signed casts: [x as i8 as u8] and [b as i8 as i32]. *)
Definition i8_of_byte (b : Z) : Z := if b <? 128 then b else b - 256.

Lemma i8_of_byte_wrap w : -128 <= w < 128 -> i8_of_byte (as_u8 w) = w.
Proof.
  intros Hw. unfold i8_of_byte, as_u8, wrap. change (2 ^ 8) with 256.
  destruct (decide (0 <= w)).
  - rewrite Z.mod_small by lia. by test_true (w <? 128).
  - replace (w mod 256) with (w + 256)
      by (symmetry; rewrite <- (Z.mod_add w 1 256) by lia; apply Z.mod_small; lia).
    test_false (w + 256 <? 128). lia.
Qed.

Lemma as_u8_i8_of_byte b : is_byte b -> as_u8 (i8_of_byte b) = b.
Proof.
  unfold in_width, i8_of_byte, as_u8, wrap. change (2 ^ 8) with 256. intros Hb.
  destruct (Z.ltb_spec b 128); [apply Z.mod_small; lia|].
  rewrite <- (Z.mod_add (b - 256) 1 256) by lia. rewrite Z.mod_small; lia.
Qed.

(** A string literal as its bytes. *)
Fixpoint bytes_of_string (s : string) : bytes :=
  match s with
  | EmptyString => []
  | String a s => Z.of_nat (Ascii.nat_of_ascii a) :: bytes_of_string s
  end.
