(* ===== verification/Utf8.v ===== *)
(** UTF-8 as the Rust standard library checks it: [str::from_utf8] and
    [str::is_char_boundary].  A [String] is the byte string it holds. *)
From S2P Require Import Prelude.

(** A continuation byte, [10xxxxxx]. *)
Definition is_cont (b : Z) : bool := (0x80 <=? b) && (b <=? 0xBF).

(** The second byte of a sequence of three or four bytes. *)
Definition second3 (b0 b1 : Z) : bool :=
  if b0 =? 0xE0 then (0xA0 <=? b1) && (b1 <=? 0xBF)
  else if b0 =? 0xED then (0x80 <=? b1) && (b1 <=? 0x9F)
  else is_cont b1.
Definition second4 (b0 b1 : Z) : bool :=
  if b0 =? 0xF0 then (0x90 <=? b1) && (b1 <=? 0xBF)
  else if b0 =? 0xF4 then (0x80 <=? b1) && (b1 <=? 0x8F)
  else is_cont b1.

Fixpoint utf8_valid (bs : bytes) : bool :=
  match bs with
  | [] => true
  | b0 :: r0 =>
      if b0 <? 0x80 then utf8_valid r0
      else if (0xC2 <=? b0) && (b0 <=? 0xDF) then
        match r0 with
        | b1 :: r1 => is_cont b1 && utf8_valid r1
        | _ => false
        end
      else if (0xE0 <=? b0) && (b0 <=? 0xEF) then
        match r0 with
        | b1 :: b2 :: r2 => second3 b0 b1 && is_cont b2 && utf8_valid r2
        | _ => false
        end
      else if (0xF0 <=? b0) && (b0 <=? 0xF4) then
        match r0 with
        | b1 :: b2 :: b3 :: r3 => second4 b0 b1 && is_cont b2 && is_cont b3 && utf8_valid r3
        | _ => false
        end
      else false
  end.

(** [str::is_char_boundary(i)] *)
Definition is_char_boundary (s : bytes) (i : nat) : bool :=
  (i =? 0)%nat ||
  match s !! i with
  | Some b => negb (is_cont b)
  | None => (i =? length s)%nat
  end.

(** [str::chars] by the bytes of each character: split before every byte that
    is not a continuation. *)
Fixpoint utf8_chars (bs : bytes) : list bytes :=
  match bs with
  | [] => []
  | b :: r =>
      match utf8_chars r with
      | c :: cs =>
          match c with
          | b1 :: _ => if is_cont b1 then (b :: c) :: cs else [b] :: c :: cs
          | [] => [b] :: cs
          end
      | [] => [[b]]
      end
  end.

Lemma utf8_chars_concat bs : concat (utf8_chars bs) = bs.
Proof.
  induction bs as [|b r IH]; [done|]. simpl. destruct (utf8_chars r) as [|[|b1 c] cs]; simpl in *.
  - by rewrite <- IH.
  - by rewrite IH.
  - destruct (is_cont b1); simpl; by rewrite IH.
Qed.

Lemma is_cont_second b0 b1 : second3 b0 b1 = true \/ second4 b0 b1 = true -> is_cont b1 = true.
Proof.
  unfold second3, second4, is_cont. intros H. apply andb_true_iff.
  destruct (b0 =? 0xE0), (b0 =? 0xED), (b0 =? 0xF0), (b0 =? 0xF4), H; zbool; split; apply Z.leb_le; lia.
Qed.

(** Valid text does not start with a continuation byte. *)
Lemma utf8_valid_head b bs : utf8_valid (b :: bs) = true -> is_cont b = false.
Proof.
  simpl. unfold is_cont. destruct (b <? 0x80) eqn:E1; [zbool; intros _; apply andb_false_iff; left; bfalse|].
  destruct ((0xC2 <=? b) && (b <=? 0xDF)) eqn:E2; [zbool; intros _; apply andb_false_iff; right; bfalse|].
  destruct ((0xE0 <=? b) && (b <=? 0xEF)) eqn:E3; [zbool; intros _; apply andb_false_iff; right; bfalse|].
  destruct ((0xF0 <=? b) && (b <=? 0xF4)) eqn:E4; [zbool; intros _; apply andb_false_iff; right; bfalse|done].
Qed.

(** Splitting valid text at a character boundary gives valid texts. *)
Lemma utf8_split n bs i : (length bs <= n)%nat -> utf8_valid bs = true -> is_char_boundary bs i = true ->
  utf8_valid (take i bs) = true /\ utf8_valid (drop i bs) = true.
Proof.
  revert bs i. induction n as [|n IH]; intros bs i Hn Hv Hb.
  { destruct bs; [by destruct i|simpl in Hn; lia]. }
  destruct i as [|i]; [by rewrite drop_0|]. destruct bs as [|b0 r0]; [done|].
  assert (forall pre r, b0 :: r0 = pre ++ r -> (length pre <= S i)%nat -> pre <> [] -> utf8_valid r = true ->
    is_char_boundary r (S i - length pre) = true) as Hshift.
  { intros pre r He Hle Hne Hr. rewrite He in Hb. unfold is_char_boundary in *. change (S i =? 0)%nat with false in Hb. cbn [orb] in Hb.
    destruct (S i - length pre =? 0)%nat eqn:E; [done|]. zbool. cbn [orb].
    rewrite lookup_app_r in Hb by lia. destruct (r !! (S i - length pre)%nat); [done|].
    rewrite length_app in Hb. apply Nat.eqb_eq in Hb. apply Nat.eqb_eq. lia. }
  assert (forall b, (b0 :: r0) !! S i = Some b -> is_cont b = false) as Hnc.
  { intros b Hnth. unfold is_char_boundary in Hb. change (S i =? 0)%nat with false in Hb. cbn [orb] in Hb.
    rewrite Hnth in Hb. by apply negb_true_iff in Hb. }
  simpl in Hv. simpl take. simpl drop. simpl utf8_valid.
  destruct (b0 <? 0x80) eqn:E1.
  { apply IH; [simpl in Hn; lia|done|]. pose proof (Hshift [b0] r0 eq_refl) as Hs. simpl in Hs.
    rewrite Nat.sub_0_r in Hs. apply Hs; [lia|done|done]. }
  destruct ((0xC2 <=? b0) && (b0 <=? 0xDF)) eqn:E2.
  { destruct r0 as [|b1 r1]; [done|]. apply andb_true_iff in Hv as [Hc Hv].
    destruct i as [|i]; [specialize (Hnc b1 eq_refl); congruence|]. simpl. rewrite Hc. simpl.
    apply IH; [simpl in Hn; lia|done|]. pose proof (Hshift [b0; b1] r1 eq_refl) as Hs. simpl in Hs.
    rewrite Nat.sub_0_r in Hs. apply Hs; [lia|done|done]. }
  destruct ((0xE0 <=? b0) && (b0 <=? 0xEF)) eqn:E3.
  { destruct r0 as [|b1 [|b2 r2]]; [done..|]. apply andb_true_iff in Hv as [[H1 Hc]%andb_true_iff Hv].
    pose proof (is_cont_second b0 b1 (or_introl H1)) as Hc1.
    destruct i as [|[|i]]; [specialize (Hnc b1 eq_refl); congruence|specialize (Hnc b2 eq_refl); congruence|].
    simpl. rewrite H1, Hc. simpl. apply IH; [simpl in Hn; lia|done|].
    pose proof (Hshift [b0; b1; b2] r2 eq_refl) as Hs. simpl in Hs. rewrite Nat.sub_0_r in Hs. apply Hs; [lia|done|done]. }
  destruct ((0xF0 <=? b0) && (b0 <=? 0xF4)) eqn:E4; [|done].
  destruct r0 as [|b1 [|b2 [|b3 r3]]]; [done..|].
  apply andb_true_iff in Hv as [[[H1 Hc2]%andb_true_iff Hc3]%andb_true_iff Hv].
  pose proof (is_cont_second b0 b1 (or_intror H1)) as Hc1.
  destruct i as [|[|[|i]]]; [specialize (Hnc b1 eq_refl); congruence|specialize (Hnc b2 eq_refl); congruence|
    specialize (Hnc b3 eq_refl); congruence|].
  simpl. rewrite H1, Hc2, Hc3. simpl. apply IH; [simpl in Hn; lia|done|].
  pose proof (Hshift [b0; b1; b2; b3] r3 eq_refl) as Hs. simpl in Hs. rewrite Nat.sub_0_r in Hs. apply Hs; [lia|done|done].
Qed.

(** ** Texts by characters *)

Lemma utf8_chars_head b r : exists c cs, utf8_chars (b :: r) = (b :: c) :: cs.
Proof.
  cbn [utf8_chars]. destruct (utf8_chars r) as [|[|b1 c] cs]; [by exists [], []|by exists [], cs|].
  destruct (is_cont b1); [by exists (b1 :: c), cs|by exists [], ((b1 :: c) :: cs)].
Qed.

(** A byte, its continuation bytes, and then something else. *)
Lemma utf8_chars_char conts : forall b rest, Forall (fun x => is_cont x = true) conts ->
  (forall x r, rest = x :: r -> is_cont x = false) ->
  utf8_chars ((b :: conts) ++ rest) = (b :: conts) :: utf8_chars rest.
Proof.
  induction conts as [|x conts IH]; intros b rest F R.
  - cbn [app utf8_chars]. destruct rest as [|y rest]; [done|].
    destruct (utf8_chars_head y rest) as (c & cs & E). rewrite E. by rewrite (R y rest eq_refl).
  - apply Forall_cons in F as [Hx F]. specialize (IH x rest F R).
    change (utf8_chars ((b :: x :: conts) ++ rest)) with
      (match utf8_chars ((x :: conts) ++ rest) with
        | c :: cs =>
            match c with
            | b1 :: _ => if is_cont b1 then (b :: c) :: cs else [b] :: c :: cs
            | [] => [b] :: cs
            end
        | [] => [[b]]
        end).
    by rewrite IH, Hx.
Qed.

(** Valid text starts with a valid character of at most four bytes, followed by valid text. *)
Lemma utf8_step b0 r0 : utf8_valid (b0 :: r0) = true -> exists conts rest,
  r0 = conts ++ rest /\ (length conts <= 3)%nat /\ Forall (fun x => is_cont x = true) conts
  /\ utf8_valid rest = true /\ forall s, utf8_valid ((b0 :: conts) ++ s) = utf8_valid s.
Proof.
  intros V. cbn [utf8_valid] in V. destruct (b0 <? 0x80) eqn:E1.
  { exists [], r0. split; [done|]. split; [cbn; lia|]. split; [constructor|]. split; [done|].
    intros s. cbn [app utf8_valid]. by rewrite E1. }
  destruct ((0xC2 <=? b0) && (b0 <=? 0xDF)) eqn:E2.
  { destruct r0 as [|b1 r1]; [done|]. apply andb_true_iff in V as [C V].
    exists [b1], r1. split; [done|]. split; [cbn; lia|]. split; [by repeat constructor|]. split; [done|].
    intros s. cbn [app utf8_valid]. by rewrite E1, E2, C. }
  destruct ((0xE0 <=? b0) && (b0 <=? 0xEF)) eqn:E3.
  { destruct r0 as [|b1 [|b2 r2]]; [done..|]. apply andb_true_iff in V as [[S C]%andb_true_iff V].
    pose proof (is_cont_second b0 b1 (or_introl S)) as C1.
    exists [b1; b2], r2. split; [done|]. split; [cbn; lia|]. split; [by repeat constructor|]. split; [done|].
    intros s. cbn [app utf8_valid]. by rewrite E1, E2, E3, S, C. }
  destruct ((0xF0 <=? b0) && (b0 <=? 0xF4)) eqn:E4; [|done].
  destruct r0 as [|b1 [|b2 [|b3 r3]]]; [done..|].
  apply andb_true_iff in V as [[[S C2]%andb_true_iff C3]%andb_true_iff V].
  pose proof (is_cont_second b0 b1 (or_intror S)) as C1.
  exists [b1; b2; b3], r3. split; [done|]. split; [cbn; lia|]. split; [by repeat constructor|]. split; [done|].
  intros s. cbn [app utf8_valid]. by rewrite E1, E2, E3, E4, S, C2, C3.
Qed.

(** Induction on valid text, character by character. *)
Lemma utf8_induction (P : bytes -> Prop) : P [] ->
  (forall c rest, (1 <= length c <= 4)%nat -> utf8_valid c = true -> utf8_valid rest = true ->
     (forall s, utf8_valid (c ++ s) = utf8_valid s) ->
     utf8_chars (c ++ rest) = c :: utf8_chars rest -> P rest -> P (c ++ rest)) ->
  forall bs, utf8_valid bs = true -> P bs.
Proof.
  intros H0 Hc bs. remember (length bs) as n eqn:Hn. revert bs Hn.
  induction n as [n IH] using lt_wf_ind. intros [|b0 r0] -> V; [done|].
  destruct (utf8_step b0 r0 V) as (conts & rest & -> & L & F & R & S).
  change (b0 :: conts ++ rest) with ((b0 :: conts) ++ rest). apply Hc; [cbn; lia| |done|done| |].
  - rewrite <- (app_nil_r (b0 :: conts)). by rewrite S.
  - apply utf8_chars_char; [done|]. intros x r ->. by eapply utf8_valid_head.
  - eapply IH; [|done|done]. cbn. rewrite length_app. lia.
Qed.

Lemma utf8_valid_app a b : utf8_valid a = true -> utf8_valid b = true -> utf8_valid (a ++ b) = true.
Proof.
  intros Va Vb. revert a Va. apply utf8_induction; [done|]. intros c rest _ _ _ S _ IH.
  by rewrite <- app_assoc, S.
Qed.

Lemma utf8_chars_valid bs : utf8_valid bs = true ->
  Forall (fun c => (1 <= length c <= 4)%nat /\ utf8_valid c = true) (utf8_chars bs).
Proof.
  revert bs. apply utf8_induction; [constructor|]. intros c rest L V _ _ E IH. rewrite E. by constructor.
Qed.
