(* ===== verification/HexText.v ===== *)
(** Hexadecimal text: [primitives/src/hex.rs] over the [hex] crate, and the
    string functions of the standard library it uses ([str::trim],
    [str::strip_prefix], [u64::from_str_radix]). *)
From S2P Require Import Prelude Utf8.

(** The [hex] crate: lower-case digits out, digits of either case in. *)
Class Hex : Type := {
  hex_encode : bytes -> string;
  hex_decode : string -> option bytes;
}.

(** The digits [hex::encode] writes. *)
Definition is_hex_digit (a : Ascii.ascii) : bool :=
  let n := Z.of_nat (Ascii.nat_of_ascii a) in
  ((48 <=? n) && (n <=? 57)) || ((97 <=? n) && (n <=? 102)).

Fixpoint string_forall (p : Ascii.ascii -> bool) (s : string) : bool :=
  match s with
  | EmptyString => true
  | String a s => p a && string_forall p s
  end.

Class HexLaws `{Hex} : Prop := {
  hex_roundtrip : forall bs, all_bytes bs -> hex_decode (hex_encode bs) = Some bs;
  hex_decode_bytes : forall s bs, hex_decode s = Some bs -> all_bytes bs;
  hex_encode_digits : forall bs, all_bytes bs -> string_forall is_hex_digit (hex_encode bs) = true;
  hex_encode_length : forall bs, all_bytes bs -> String.length (hex_encode bs) = (2 * length bs)%nat;
}.

(** ** Standard-library functions *)

Fixpoint string_of_bytes (bs : bytes) : string :=
  match bs with
  | [] => EmptyString
  | b :: bs => String (Ascii.ascii_of_nat (Z.to_nat b)) (string_of_bytes bs)
  end.

(** [char::is_whitespace] (the Unicode property White_Space), by the UTF-8
    bytes of the character. *)
Definition white_space : list bytes :=
  [[9]; [10]; [11]; [12]; [13]; [32]; [0xC2; 0x85]; [0xC2; 0xA0]; [0xE1; 0x9A; 0x80]]
  ++ map (fun b => [0xE2; 0x80; b]) [0x80; 0x81; 0x82; 0x83; 0x84; 0x85; 0x86; 0x87; 0x88; 0x89; 0x8A; 0xA8; 0xA9; 0xAF]
  ++ [[0xE2; 0x81; 0x9F]; [0xE3; 0x80; 0x80]].
Definition is_whitespace (c : bytes) : bool := bool_decide (c ∈ white_space).

Fixpoint drop_whitespace (cs : list bytes) : list bytes :=
  match cs with
  | c :: cs' => if is_whitespace c then drop_whitespace cs' else cs
  | [] => []
  end.

Definition trim_chars (cs : list bytes) : list bytes := rev (drop_whitespace (rev (drop_whitespace cs))).
Definition trim (s : string) : string :=
  string_of_bytes (concat (trim_chars (utf8_chars (bytes_of_string s)))).

Fixpoint strip_prefix (p s : string) : option string :=
  match p, s with
  | EmptyString, _ => Some s
  | String a p, String b s => if Ascii.eqb a b then strip_prefix p s else None
  | String _ _, EmptyString => None
  end.

(** [char::to_digit(radix)] *)
Definition to_digit (radix : Z) (a : Ascii.ascii) : option Z :=
  let n := Z.of_nat (Ascii.nat_of_ascii a) in
  let d := if (48 <=? n) && (n <=? 57) then n - 48
           else if (97 <=? n) && (n <=? 122) then n - 87
           else if (65 <=? n) && (n <=? 90) then n - 55 else radix in
  if d <? radix then Some d else None.

(** [u64::from_str_radix]: an optional plus sign, at least one digit, no overflow. *)
Fixpoint radix_digits (radix acc : Z) (s : string) : option Z :=
  match s with
  | EmptyString => Some acc
  | String a s =>
      let?? d := to_digit radix a in
      let v := acc * radix + d in
      if v <=? U64_MAX then radix_digits radix v s else None
  end.
Definition u64_from_str_radix (radix : Z) (s : string) : option Z :=
  let body := match s with String a s' => if Ascii.eqb a "+"%char then s' else s | EmptyString => s end in
  match body with
  | EmptyString => None
  | _ => radix_digits radix 0 body
  end.

(** ** [hex.rs] *)

Module HexCodec.

Inductive HexError : Type := Invalid | WrongLength (expected got : nat).

Section codec.
Context `{Hex}.

Definition encode (data : bytes) : string := hex_encode data.
Definition encode_with_0x (data : bytes) : string := ("0x" +:+ encode data)%string.

Definition decode_hex (value : string) : result HexError bytes :=
  let stripped := match strip_prefix "0x" (trim value) with Some s => s | None => trim value end in
  match stripped with
  | EmptyString => Ok []
  | _ =>
      let normalized := if (String.length stripped mod 2 =? 1)%nat then String "0" stripped else stripped in
      ok_or (hex_decode normalized) Invalid
  end.

Definition decode_hex_array (n : nat) (value : string) : result HexError bytes :=
  let? bs := decode_hex value in
  if (length bs =? n)%nat then Ok bs else Err (WrongLength n (length bs)).

Definition decode_hex_utf8 (value : string) : option string :=
  let?? bs := ok (decode_hex value) in
  if utf8_valid bs then Some (string_of_bytes bs) else None.

End codec.

Definition parse_u64_from_hex_or_decimal (value : string) : option Z :=
  let number_text := trim value in
  match (match strip_prefix "0x" number_text with Some s => Some s | None => strip_prefix "0X" number_text end) with
  | Some hex_number_text => u64_from_str_radix 16 hex_number_text
  | None => u64_from_str_radix 10 number_text
  end.

End HexCodec.

(** ** Facts *)

Module HexFacts.
Import HexCodec.

Lemma string_of_bytes_of_string s : string_of_bytes (bytes_of_string s) = s.
Proof.
  induction s as [|a s IH]; [done|]. cbn [bytes_of_string string_of_bytes].
  by rewrite Nat2Z.id, Ascii.ascii_nat_embedding, IH.
Qed.

Lemma bytes_of_string_app s t : bytes_of_string (s +:+ t) = bytes_of_string s ++ bytes_of_string t.
Proof. induction s as [|a s IH]; [done|]. cbn. by rewrite <- IH. Qed.

Lemma bytes_of_string_of_bytes bs : all_bytes bs -> bytes_of_string (string_of_bytes bs) = bs.
Proof.
  induction 1 as [|b bs Hb _ IH]; [done|]. cbn [bytes_of_string string_of_bytes].
  unfold in_width in Hb. rewrite Ascii.nat_ascii_embedding by lia. by rewrite Z2Nat.id, IH by lia.
Qed.

Lemma bytes_of_string_length s : length (bytes_of_string s) = String.length s.
Proof. induction s as [|a s IH]; [done|]. cbn. by rewrite IH. Qed.

Lemma string_forall_app p s t : string_forall p (s +:+ t) = string_forall p s && string_forall p t.
Proof.
  induction s as [|a s IH]; [done|]. change (String a s +:+ t) with (String a (s +:+ t)).
  cbn [string_forall]. by rewrite IH, andb_assoc.
Qed.

(** The characters of ASCII text without white space. *)
Definition plain (b : Z) : bool := (33 <=? b) && (b <? 128).

Lemma chars_nonempty r c cs : utf8_chars r = c :: cs -> exists b, head c = Some b /\ head r = Some b.
Proof.
  destruct r as [|b r]; [done|]. intros E. exists b. split; [|done]. simpl in E.
  destruct (utf8_chars r) as [|[|b2 c2] cs2]; [..|destruct (is_cont b2)]; by injection E as <- <-.
Qed.

Lemma chars_app b conts r : forallb is_cont conts = true ->
  match r with b1 :: _ => is_cont b1 = false | [] => True end ->
  utf8_chars ((b :: conts) ++ r) = (b :: conts) :: utf8_chars r.
Proof.
  intros Hc Hr.
  revert b. induction conts as [|c conts IH]; intros b.
  - cbn [app utf8_chars]. destruct (utf8_chars r) as [|[|b1 c] cs] eqn:E; [done|..].
    + by destruct (chars_nonempty _ _ _ E) as (? & ? & _).
    + destruct (chars_nonempty _ _ _ E) as (b2 & [= <-] & Hr2). destruct r as [|b3 r]; [done|].
      injection Hr2 as ->. by rewrite Hr.
  - cbn in Hc. apply andb_true_iff in Hc as [Hc1 Hc2]. specialize (IH Hc2 c). cbn [app] in IH |- *.
    cbn [utf8_chars]. cbn [utf8_chars] in IH. rewrite IH. by rewrite Hc1.
Qed.

Lemma plain_chars bs : forallb plain bs = true -> utf8_chars bs = map (fun b => [b]) bs.
Proof.
  induction bs as [|b bs IH]; [done|]. cbn [forallb]. intros [Hb Hbs]%andb_true_iff.
  change (b :: bs) with ([b] ++ bs) at 1. rewrite (chars_app b []), IH; [done..|].
  destruct bs as [|b1 bs]; [done|]. cbn in Hbs. apply andb_true_iff in Hbs as [H1 _].
  unfold plain in H1. unfold is_cont. zbool. apply andb_false_iff. left. bfalse.
Qed.

Lemma plain_not_white b : plain b = true -> is_whitespace [b] = false.
Proof.
  intros Hb. unfold plain in Hb. zbool. apply bool_decide_eq_false_2. unfold white_space. cbn [map app].
  rewrite !elem_of_cons. intros Hin.
  repeat (destruct Hin as [Hin|Hin]; [try discriminate Hin; injection Hin; lia|]).
  by apply elem_of_nil in Hin.
Qed.

Lemma white_char c : is_whitespace c = true -> exists b conts, c = b :: conts /\ forallb is_cont conts = true /\ is_cont b = false.
Proof.
  intros H%bool_decide_eq_true. unfold white_space in H. cbn [map app] in H.
  repeat (apply elem_of_cons in H as [->|H]; [eexists _, _; split; [reflexivity|by split]|]). by apply elem_of_nil in H.
Qed.

Lemma white_chars ws r : forallb is_whitespace ws = true ->
  match r with b1 :: _ => is_cont b1 = false | [] => True end ->
  utf8_chars (concat ws ++ r) = ws ++ utf8_chars r /\
  match concat ws ++ r with b1 :: _ => is_cont b1 = false | [] => True end.
Proof.
  intros Hw Hr. induction ws as [|w ws IH]; [done|]. cbn in Hw. apply andb_true_iff in Hw as [Hw Hws].
  destruct (IH Hws) as [IH1 IH2]. destruct (white_char w Hw) as (b & conts & -> & Hc & Hb). split; [|done].
  cbn [concat]. rewrite <- app_assoc, chars_app by done. cbn [app]. by rewrite IH1.
Qed.

Lemma drop_white_app ws r : forallb is_whitespace ws = true -> drop_whitespace (ws ++ r) = drop_whitespace r.
Proof. induction ws as [|w ws IH]; [done|]. cbn. intros [-> H]%andb_true_iff. by apply IH. Qed.

Lemma drop_white_plain b cs : plain b = true -> drop_whitespace ([b] :: cs) = [b] :: cs.
Proof. intros Hb. cbn [drop_whitespace]. by rewrite plain_not_white. Qed.

Lemma concat_singletons (bs : bytes) : concat (map (fun b => [b]) bs) = bs.
Proof. induction bs as [|b bs IH]; [done|]. cbn. by rewrite IH. Qed.

Lemma forallb_reversed {A} (p : A -> bool) l : forallb p (rev l) = forallb p l.
Proof.
  induction l as [|a l IH]; [done|]. cbn [rev forallb]. rewrite forallb_app, IH. cbn. rewrite andb_true_r. apply andb_comm.
Qed.

(** *** Numbers *)

Lemma radix_digits_u64 radix s acc v : is_u64 acc -> 0 <= radix -> radix_digits radix acc s = Some v -> is_u64 v.
Proof.
  intros A R. revert acc A. induction s as [|a s IH]; intros acc A; cbn [radix_digits]; [by intros [= <-]|].
  destruct (to_digit radix a) as [d|] eqn:D; [|done]. destruct (Z.leb_spec (acc * radix + d) U64_MAX); [|done]. apply IH.
  assert (0 <= d).
  { unfold to_digit in D. set (n := Z.of_nat _) in D. destruct ((48 <=? n) && (n <=? 57)) eqn:B1;
      [|destruct ((97 <=? n) && (n <=? 122)) eqn:B2; [|destruct ((65 <=? n) && (n <=? 90)) eqn:B3]];
      destruct (_ <? radix); try done; inversion D; rewrite ?andb_true_iff, ?Z.leb_le in *; lia. }
  unfold in_width, U64_MAX in *. nia.
Qed.

Lemma from_str_radix_u64 radix s v : 0 <= radix -> u64_from_str_radix radix s = Some v -> is_u64 v.
Proof.
  intros R. unfold u64_from_str_radix. destruct (match s with EmptyString => s | String a s => _ end); [done|].
  intros V. by eapply radix_digits_u64; [| |exact V].
Qed.

(** [trim] of plain text between two runs of white space. *)
Lemma trim_plain ws1 s ws2 : forallb is_whitespace ws1 = true -> forallb is_whitespace ws2 = true ->
  all_bytes (concat ws1) -> all_bytes (concat ws2) -> forallb plain (bytes_of_string s) = true ->
  trim (string_of_bytes (concat ws1) +:+ s +:+ string_of_bytes (concat ws2)) = s.
Proof.
  intros H1 H2 Hb1 Hb2 Hs. unfold trim. rewrite !bytes_of_string_app, !bytes_of_string_of_bytes by done.
  assert (utf8_chars (bytes_of_string s ++ concat ws2) = map (fun b => [b]) (bytes_of_string s) ++ ws2 /\
    match bytes_of_string s ++ concat ws2 with b1 :: _ => is_cont b1 = false | [] => True end) as [E1 E2].
  { pose proof (white_chars ws2 [] H2 I) as [W1 W2]. cbn [utf8_chars] in W1. rewrite !app_nil_r in W1, W2.
    revert Hs. generalize (bytes_of_string s). intros bs. induction bs as [|b bs IH]; [intros _; rewrite app_nil_r in W1; exact (conj W1 W2)|].
    cbn [forallb]. intros [Hb Hbs]%andb_true_iff. destruct (IH Hbs) as [I1 I2]. split.
    - change ((b :: bs) ++ concat ws2) with ([b] ++ (bs ++ concat ws2)). rewrite (chars_app b []) by done. by rewrite I1.
    - unfold plain in Hb. cbn. unfold is_cont. zbool. apply andb_false_iff. left. bfalse. }
  destruct (white_chars ws1 _ H1 E2) as [-> _]. rewrite E1. unfold trim_chars.
  rewrite drop_white_app by done.
  assert (drop_whitespace (map (fun b => [b]) (bytes_of_string s) ++ ws2)
    = match s with EmptyString => [] | _ => map (fun b => [b]) (bytes_of_string s) ++ ws2 end) as ->.
  { destruct s as [|a s]; cbn [bytes_of_string map app].
    - rewrite <- (app_nil_r ws2), drop_white_app by done. done.
    - rewrite drop_white_plain; [done|]. cbn in Hs. by apply andb_true_iff in Hs as [? _]. }
  destruct s as [|a s]; [done|]. rewrite rev_app_distr, drop_white_app by (by rewrite forallb_reversed).
  rewrite <- map_rev.
  rewrite <- forallb_reversed in Hs.
  destruct (rev (bytes_of_string (String a s))) as [|b bs] eqn:E.
  { apply (f_equal (@length _)) in E. by rewrite length_rev in E. }
  cbn [map]. rewrite drop_white_plain by (by apply andb_true_iff in Hs as [? _]).
  change ([b] :: map (fun b => [b]) bs) with (map (fun b : Z => [b]) (b :: bs)). rewrite <- E, <- map_rev, rev_involutive.
  by rewrite concat_singletons, string_of_bytes_of_string.
Qed.

Lemma hex_digits_plain s : string_forall is_hex_digit s = true -> forallb plain (bytes_of_string s) = true.
Proof.
  induction s as [|a s IH]; [done|]. cbn [string_forall bytes_of_string forallb].
  intros [Ha Hs]%andb_true_iff. rewrite IH by done. rewrite andb_true_r. unfold is_hex_digit in Ha. unfold plain.
  apply orb_true_iff in Ha as [Ha|Ha]; zbool; apply andb_true_iff; split; [apply Z.leb_le|apply Z.ltb_lt|apply Z.leb_le|apply Z.ltb_lt]; lia.
Qed.

Lemma strip_0x_digits s : string_forall is_hex_digit s = true -> strip_prefix "0x" s = None.
Proof.
  destruct s as [|a [|b s]]; [done|by cbn [strip_prefix]; intros _; destruct (Ascii.eqb "0" a)|].
  cbn [string_forall strip_prefix]. intros [Ha [Hb _]%andb_true_iff]%andb_true_iff.
  destruct (Ascii.eqb "0" a); [|done]. destruct (Ascii.eqb_spec "x" b) as [<-|]; [|done]. discriminate Hb.
Qed.

End HexFacts.

(** ** A concrete [hex] crate, for the witnesses *)

Module HexConcrete.


Definition hex_digit (d : Z) : Ascii.ascii :=
  Ascii.ascii_of_nat (Z.to_nat (if d <? 10 then 48 + d else 87 + d)).
Definition hex_value (a : Ascii.ascii) : option Z :=
  let n := Z.of_nat (Ascii.nat_of_ascii a) in
  if (48 <=? n) && (n <=? 57) then Some (n - 48)
  else if (97 <=? n) && (n <=? 102) then Some (n - 87)
  else if (65 <=? n) && (n <=? 70) then Some (n - 55) else None.

Fixpoint to_hex (bs : bytes) : string :=
  match bs with
  | [] => ""
  | b :: bs => String (hex_digit (b / 16)) (String (hex_digit (b mod 16)) (to_hex bs))
  end.
Fixpoint of_hex (s : string) : option bytes :=
  match s with
  | EmptyString => Some []
  | String a (String b s) =>
      let?? x := hex_value a in let?? y := hex_value b in let?? bs := of_hex s in Some (x * 16 + y :: bs)
  | _ => None
  end.

Lemma hex_digits_ok d : 0 <= d < 16 -> hex_value (hex_digit d) = Some d.
Proof.
  intros Hd. assert (forallb (fun d => bool_decide (hex_value (hex_digit d) = Some d)) (seqZ 0 16) = true) as H
    by (by vm_compute).
  rewrite forallb_forall in H. specialize (H d). rewrite bool_decide_eq_true in H.
  apply H, list_elem_of_In, elem_of_seqZ. lia.
Qed.

Lemma of_to_hex bs : all_bytes bs -> of_hex (to_hex bs) = Some bs.
Proof.
  induction 1 as [|b bs Hb _ IH]; [done|]. cbn [to_hex of_hex]. unfold in_width in Hb.
  pose proof (Z.mod_pos_bound b 16). pose proof (Z.div_mod b 16). 
  assert (0 <= b / 16 < 16) by (split; [apply Z.div_pos|apply Z.div_lt_upper_bound]; lia).
  rewrite !hex_digits_ok, IH by lia. do 2 f_equal. lia.
Qed.

Lemma hex_value_bound a d : hex_value a = Some d -> 0 <= d < 16.
Proof. unfold hex_value. repeat case_match; intros [= <-]; zbool; lia. Qed.

Lemma of_hex_bytes s bs : of_hex s = Some bs -> all_bytes bs.
Proof.
  revert bs. induction s as [s IH] using (induction_ltof1 _ String.length). intros bs.
  destruct s as [|a [|b s]]; simpl; [by intros [= <-]|done|].
  destruct (hex_value a) eqn:Ha; [|done]. destruct (hex_value b) eqn:Hb; [|done].
  destruct (of_hex s) eqn:Hs; [|done]. intros [= <-].
  apply hex_value_bound in Ha. apply hex_value_bound in Hb. constructor; [zlia|].
  eapply (IH s); [|done]. unfold ltof. simpl. lia.
Qed.

Lemma to_hex_digits bs : all_bytes bs ->
  string_forall is_hex_digit (to_hex bs) = true /\ String.length (to_hex bs) = (2 * length bs)%nat.
Proof.
  assert (forall d, 0 <= d < 16 -> is_hex_digit (hex_digit d) = true) as Hd.
  { intros d Hd. assert (forallb (fun d => is_hex_digit (hex_digit d)) (seqZ 0 16) = true) as H by (by vm_compute).
    rewrite forallb_forall in H. apply H, list_elem_of_In, elem_of_seqZ. lia. }
  induction 1 as [|b bs Hb _ [IH1 IH2]]; [done|]. cbn [to_hex string_forall String.length length]. unfold in_width in Hb.
  pose proof (Z.mod_pos_bound b 16). 
  assert (0 <= b / 16 < 16) by (split; [apply Z.div_pos|apply Z.div_lt_upper_bound]; lia).
  rewrite !Hd, IH1, IH2 by lia. split; [done|lia].
Qed.

#[export] Instance hex_impl : Hex := {| hex_encode := to_hex; hex_decode := of_hex |}.
#[export] Instance hex_impl_laws : HexLaws.
Proof.
  split; [exact of_to_hex|exact of_hex_bytes|apply to_hex_digits|apply to_hex_digits].
Qed.

End HexConcrete.

(** ** Properties *)

Section properties.
Import HexCodec HexFacts.
Context `{HexLaws}.

(** Encoded bytes have no prefix and an even number of digits. *)
Lemma decode_encoded bs (prefixed : bool) : all_bytes bs ->
  forall s, trim s = ((if prefixed then "0x" else "") +:+ hex_encode bs)%string -> decode_hex s = Ok bs.
Proof.
  intros Hb s Hs. unfold decode_hex. rewrite Hs.
  pose proof (hex_encode_digits bs Hb) as Hd. pose proof (hex_encode_length bs Hb) as Hl.
  assert (match strip_prefix "0x" ((if prefixed then "0x" else "") +:+ hex_encode bs) with
          | Some s' => s' | None => ((if prefixed then "0x" else "") +:+ hex_encode bs)%string end = hex_encode bs) as ->.
  { destruct prefixed; [by destruct (hex_encode bs)|].
    change ("" +:+ hex_encode bs) with (hex_encode bs). by rewrite strip_0x_digits. }
  destruct (hex_encode bs) as [|a t] eqn:E; [by destruct bs|].
  rewrite Hl, Nat.mul_comm, Nat.Div0.mod_mul. change (0 =? 1)%nat with false. cbv iota.
  by rewrite <- E, hex_roundtrip.
Qed.

Lemma append_nil (s : string) : ("" +:+ s +:+ "")%string = s.
Proof. change ("" +:+ s +:+ "")%string with (s +:+ "")%string. induction s as [|a s IH]; [done|]. change (String a (s +:+ "") = String a s). by rewrite IH. Qed.

Lemma trim_digits s : string_forall is_hex_digit s = true -> trim s = s.
Proof.
  intros Hs%hex_digits_plain. pose proof (trim_plain [] s [] eq_refl eq_refl) as Ht.
  cbn [concat string_of_bytes] in Ht. rewrite append_nil in Ht. by apply Ht.
Qed.

Lemma trim_0x_digits s : string_forall is_hex_digit s = true -> trim ("0x" +:+ s) = ("0x" +:+ s)%string.
Proof.
  intros Hs%hex_digits_plain. pose proof (trim_plain [] ("0x" +:+ s) [] eq_refl eq_refl) as Ht.
  cbn [concat string_of_bytes] in Ht. rewrite append_nil in Ht. apply Ht; [constructor..|].
  by rewrite bytes_of_string_app, forallb_app, Hs.
Qed.

Lemma decode_hex_encode bs : all_bytes bs -> decode_hex (hex_encode bs) = Ok bs.
Proof. intros Hb. apply (decode_encoded bs false Hb), trim_digits. by apply hex_encode_digits. Qed.

Lemma decode_hex_bytes s bs : decode_hex s = Ok bs -> all_bytes bs.
Proof.
  unfold decode_hex. destruct (match strip_prefix "0x" (trim s) with Some s' => s' | None => trim s end) as [|c u].
  - intros [= <-]. constructor.
  - generalize (if (String.length (String c u) mod 2 =? 1)%nat then String "0" (String c u) else String c u).
    intros v. destruct (hex_decode v) eqn:E; [|done]. intros [= <-]. by eapply hex_decode_bytes.
Qed.

(** [decode_hex] reads what [encode] and [encode_with_0x] write, with any
    Unicode white space around it; [decode_hex_array] accepts it exactly at
    its own length. *)
Theorem decode_hex_roundtrip (before after : list bytes) (prefixed : bool) (bs : bytes) (n : nat) :
  forallb is_whitespace before = true -> forallb is_whitespace after = true ->
  all_bytes (concat before) -> all_bytes (concat after) -> all_bytes bs ->
  let text := (string_of_bytes (concat before)
               +:+ (if prefixed then encode_with_0x bs else encode bs) +:+ string_of_bytes (concat after))%string in
  decode_hex text = Ok bs /\
  decode_hex_array n text = (if (length bs =? n)%nat then Ok bs else Err (WrongLength n (length bs))).
Proof.
  intros H1 H2 Hb1 Hb2 Hb text. assert (decode_hex text = Ok bs) as Hd.
  { apply (decode_encoded bs prefixed Hb). unfold text. rewrite trim_plain; [by destruct prefixed|done..|].
    pose proof (hex_digits_plain _ (hex_encode_digits bs Hb)) as Hp. destruct prefixed; [|done].
    unfold encode_with_0x, encode. rewrite bytes_of_string_app, forallb_app. by rewrite Hp. }
  split; [done|]. unfold decode_hex_array. by rewrite Hd.
Qed.

End properties.

Section witnesses.
Import HexConcrete.

Lemma decode_hex_roundtrip_witness :
  HexCodec.decode_hex (string_of_bytes [0xC2; 0xA0; 32] +:+ "0x0aff" +:+ string_of_bytes [10]) = Ok [0x0a; 0xff].
Proof.
  refine (proj1 (decode_hex_roundtrip [[0xC2; 0xA0]; [32]] [[10]] true [0x0a; 0xff] 2 _ _ _ _ _));
    [by vm_compute|by vm_compute|by repeat constructor|by repeat constructor|by repeat constructor].
Defined.

End witnesses.
