(* ===== verification/Text.v ===== *)
(** Strings: the functions [split_once] at a string, [split], [join], [contains] and [starts_with] of the standard
    library, with the lemmas that printing and parsing share. *)
From S2P Require Import Prelude Utf8 HexText.

(** [s.split_once(sep)] for a separator that is not empty *)
Fixpoint split_once_str (sep s : string) : option (string * string) :=
  match strip_prefix sep s with
  | Some rest => Some (EmptyString, rest)
  | None =>
      match s with
      | EmptyString => None
      | String a s => let?? (first, second) := split_once_str sep s in Some (String a first, second)
      end
  end.

(** [s.split(sep)]; every step but the last consumes a separator. *)
Fixpoint split_loop (fuel : nat) (sep s : string) : list string :=
  match fuel with
  | O => [s]
  | S fuel => match split_once_str sep s with
              | Some (first, second) => first :: split_loop fuel sep second
              | None => [s]
              end
  end.
Definition split (sep s : string) : list string := split_loop (String.length s) sep s.

(** [ids.join(sep)] *)
Fixpoint join (sep : string) (l : list string) : string :=
  match l with
  | [] => EmptyString
  | [s] => s
  | s :: l => s +:+ sep +:+ join sep l
  end.

Definition starts_with (prefix s : string) : bool :=
  match strip_prefix prefix s with Some _ => true | None => false end.

(** [str::strip_suffix] *)
Fixpoint strip_suffix (suffix s : string) : option string :=
  if String.eqb suffix s then Some EmptyString
  else match s with
    | EmptyString => None
    | String a s => let?? rest := strip_suffix suffix s in Some (String a rest)
    end.

(** [str::contains] *)
Fixpoint contains (pattern s : string) : bool :=
  match strip_prefix pattern s with
  | Some _ => true
  | None => match s with EmptyString => false | String _ s => contains pattern s end
  end.

Definition starts_with_char (c : Ascii.ascii) (s : string) : bool :=
  match s with EmptyString => false | String a _ => Ascii.eqb a c end.

Definition ascii_lower (a : Ascii.ascii) : Ascii.ascii :=
  let n := Z.of_nat (Ascii.nat_of_ascii a) in
  if (65 <=? n) && (n <=? 90) then Ascii.ascii_of_nat (Z.to_nat (n + 32)) else a.

Fixpoint to_ascii_lowercase (s : string) : string :=
  match s with EmptyString => EmptyString | String a s => String (ascii_lower a) (to_ascii_lowercase s) end.

(** [str::eq_ignore_ascii_case] *)
Fixpoint eq_ignore_ascii_case (s t : string) : bool :=
  match s, t with
  | EmptyString, EmptyString => true
  | String a s, String b t => Ascii.eqb (ascii_lower a) (ascii_lower b) && eq_ignore_ascii_case s t
  | _, _ => false
  end.

(** [s.parse::<i32>()] *)
Definition i32_from_str (s : string) : option Z :=
  match s with
  | String "-" (String _ _ as digits) =>
      let?? value := radix_digits 10 0 digits in if value <=? 2 ^ 31 then Some (- value) else None
  | _ => let?? value := u64_from_str_radix 10 s in if value <? 2 ^ 31 then Some value else None
  end.

(** A string without the character [c]. *)
Definition free_of (c : Ascii.ascii) (s : string) : bool := string_forall (fun a => negb (Ascii.eqb a c)) s.

(** ** Facts *)

Lemma string_length_app s t : String.length (s +:+ t)%string = (String.length s + String.length t)%nat.
Proof.
  induction s as [|a s IH]; [done|].
  change (S (String.length (s +:+ t)) = S (String.length s + String.length t)). by rewrite IH.
Qed.

Lemma string_app_cons a s t : (String a s +:+ t)%string = String a (s +:+ t).
Proof. done. Qed.

Lemma string_app_assoc r s t : ((r +:+ s) +:+ t)%string = (r +:+ s +:+ t)%string.
Proof. induction r as [|a r IH]; [done|]. rewrite !string_app_cons. by rewrite IH. Qed.

Lemma strip_prefix_iff p s rest : strip_prefix p s = Some rest <-> s = (p +:+ rest)%string.
Proof.
  revert s. induction p as [|a p IH]; intros s.
  - change (EmptyString +:+ rest)%string with rest. cbn. split; [by intros [= ->]|by intros ->].
  - rewrite string_app_cons. destruct s as [|b s]; [done|]. cbn [strip_prefix]. destruct (Ascii.eqb_spec a b) as [->|N].
    + rewrite IH. split; [by intros ->|by intros [= ->]].
    + split; [done|]. by intros [= ? _].
Qed.

Lemma starts_with_iff p s : starts_with p s = true <-> exists rest, s = (p +:+ rest)%string.
Proof.
  unfold starts_with. destruct (strip_prefix p s) as [rest|] eqn:E; (split; [|try done]).
  - intros _. exists rest. by apply strip_prefix_iff.
  - done.
  - intros [rest R]. apply strip_prefix_iff in R. congruence.
Qed.

Lemma split_once_str_Some sep s first second : split_once_str sep s = Some (first, second) ->
  s = (first +:+ sep +:+ second)%string.
Proof.
  revert first. induction s as [|a s IH]; intros first; cbn [split_once_str];
    destruct (strip_prefix sep _) as [rest|] eqn:E; [..|destruct (split_once_str sep s) as [[f g]|]; [|done]];
    try done; intros [= <- <-].
  - by apply strip_prefix_iff in E.
  - by apply strip_prefix_iff in E.
  - rewrite string_app_cons. by rewrite (IH f).
Qed.

Section separator.
Context (c : Ascii.ascii) (sep : string).

Lemma split_once_str_free first second : free_of c first = true ->
  split_once_str (String c sep) (first +:+ String c sep +:+ second) = Some (first, second).
Proof.
  induction first as [|a first IH]; intros F.
  - change (EmptyString +:+ String c sep +:+ second)%string with (String c sep +:+ second)%string.
    assert (strip_prefix (String c sep) (String c sep +:+ second) = Some second) as E by by apply strip_prefix_iff.
    rewrite string_app_cons in E |- *. cbn [split_once_str]. by rewrite E.
  - rewrite string_app_cons. cbn [split_once_str strip_prefix]. cbn in F. apply andb_true_iff in F as [A F].
    rewrite Ascii.eqb_sym. destruct (Ascii.eqb a c); [done|]. by rewrite IH.
Qed.

Lemma split_once_str_none s : free_of c s = true -> split_once_str (String c sep) s = None.
Proof.
  induction s as [|a s IH]; intros F; [done|]. cbn [split_once_str strip_prefix]. cbn in F.
  apply andb_true_iff in F as [A F]. rewrite Ascii.eqb_sym. destruct (Ascii.eqb a c); [done|]. by rewrite IH.
Qed.

Lemma split_join l : l <> [] -> Forall (fun s => free_of c s = true) l ->
  split (String c sep) (join (String c sep) l) = l.
Proof.
  intros N F. unfold split.
  assert (forall fuel, (length l <= S fuel)%nat -> split_loop fuel (String c sep) (join (String c sep) l) = l) as L.
  { induction F as [|s l Hs _ IH]; intros fuel Hf; [done|].
    destruct l as [|t l].
    - cbn [join]. destruct fuel; [done|]. cbn [split_loop]. by rewrite split_once_str_none.
    - destruct fuel as [|fuel]; [cbn in Hf; lia|]. cbn [split_loop].
        change (join (String c sep) (s :: t :: l)) with (s +:+ String c sep +:+ join (String c sep) (t :: l))%string.
        rewrite split_once_str_free by done. f_equal. apply IH; [done|]. cbn in Hf |- *. lia. }
  apply L. destruct l as [|s l]; [done|]. clear -c. revert s. induction l as [|t l IH]; intros s; [cbn; lia|].
  change (join (String c sep) (s :: t :: l)) with (s +:+ String c sep +:+ join (String c sep) (t :: l))%string.
  rewrite !string_length_app. specialize (IH t). cbn [length String.length] in *. lia.
Qed.

End separator.
