(* ===== verification/Crates.v ===== *)
(** The functions of other crates that several components call, as classes of
    operations with the laws their documentation states, and concrete
    instances (module [Concrete]) to evaluate the model on inputs. *)
From S2P Require Import Prelude.

(** [gem_hash::sha2::sha256], a wrapper of the [sha2] crate. *)
Class Sha256 : Type := sha256 : bytes -> bytes.
Class Sha256Laws `{Sha256} : Prop := {
  sha256_length : forall bs, length (sha256 bs) = 32%nat;
  sha256_bytes : forall bs, all_bytes (sha256 bs);
}.

(** [num_bigint::BigUint]: a non-negative [Z] with the operations the
    code calls on it. *)
Class BigUint : Type := {
  biguint_bits : Z -> Z;
  biguint_to_bytes_be : Z -> bytes;
}.
(** As documented by the crate: [bits] is the minimal width (0 for zero) and
    [to_bytes_be] has no leading zero byte, except that zero is one byte. *)
Class BigUintLaws `{BigUint} : Prop := {
  biguint_bits_spec : forall v, 0 <= v -> biguint_bits v = if v =? 0 then 0 else Z.log2 v + 1;
  biguint_bytes_value : forall v, 0 <= v -> of_be (biguint_to_bytes_be v) = v;
  biguint_bytes_bytes : forall v, 0 <= v -> all_bytes (biguint_to_bytes_be v);
  biguint_bytes_length : forall v, 0 <= v ->
    Z.of_nat (length (biguint_to_bytes_be v)) = Z.max 1 (div_ceil (biguint_bits v) 8);
}.

(** [str::parse::<BigUint>()] *)
Class BigUintParse : Type := biguint_parse : string -> option Z.
Class BigUintParseLaws `{BigUintParse} : Prop := {
  biguint_parse_nonneg : forall s v, biguint_parse s = Some v -> 0 <= v;
}.

(** [BigUint::from_bytes_be] *)
Class BigUintFromBytes : Type := biguint_from_bytes_be : bytes -> Z.
Class BigUintFromBytesLaws `{BigUintFromBytes} : Prop := {
  biguint_from_bytes_be_value : forall bs, all_bytes bs -> biguint_from_bytes_be bs = of_be bs;
}.

(** [str::to_lowercase], by the Unicode tables *)
Class Lowercase : Type := to_lowercase : string -> string.

(** The [bs58] crate with its checksum. *)
Class Base58Check : Type := {
  bs58_encode_check : bytes -> string;
  bs58_decode_check : string -> option bytes;
}.
Class Base58CheckLaws `{Base58Check} : Prop := {
  bs58_roundtrip : forall bs, all_bytes bs -> bs58_decode_check (bs58_encode_check bs) = Some bs;
  bs58_decode_bytes : forall s bs, bs58_decode_check s = Some bs -> all_bytes bs;
}.

(** Concrete parameters, to evaluate the model on inputs. *)
Module Concrete.

(** Any 32-byte function of the input serves as a hash. *)
#[export] Instance toy_sha256 : Sha256 :=
  fun bs => be_bytes 32 (fold_left (fun acc b => (acc * 257 + b + 1) mod (2 ^ 256 - 189)) bs 7).
#[export] Instance toy_sha256_laws : Sha256Laws.
Proof. split; intros bs; [apply be_bytes_length|apply be_bytes_bytes]. Qed.

#[export] Instance z_biguint : BigUint := {
  biguint_bits v := if v =? 0 then 0 else Z.log2 v + 1;
  biguint_to_bytes_be v :=
    be_bytes (Z.to_nat (Z.max 1 (div_ceil (if v =? 0 then 0 else Z.log2 v + 1) 8))) v;
}.
#[export] Instance z_biguint_laws : BigUintLaws.
Proof.
  split; simpl; intros v Hv; [done| |apply be_bytes_bytes|rewrite be_bytes_length; lia].
  rewrite of_be_be_bytes. apply Z.mod_small. split; [done|].
  set (k := if v =? 0 then 0 else Z.log2 v + 1). pose proof (div_ceil_spec k 8 eq_refl).
  assert (v < 2 ^ k) as Hk.
  { unfold k. destruct (Z.eqb_spec v 0); [lia|]. apply Z.log2_spec. lia. }
  eapply Z.lt_le_trans; [exact Hk|]. apply Z.pow_le_mono_r; lia.
Qed.

#[export] Instance z_biguint_from : BigUintFromBytes := of_be.
#[export] Instance z_biguint_from_laws : BigUintFromBytesLaws.
Proof. by split. Qed.

End Concrete.
