(* ===== verification/TronAddress.v ===== *)
(** Tron addresses, [gem_tron/src/address/mod.rs] (module [TronAddress]), and the
    TRC-20 calls that carry them, [gem_tron/src/trc20.rs] (module [Trc20]). *)
From S2P Require Import Prelude Utf8 HexText Crates.

Module TronAddress.
Import HexCodec.

Definition ADDRESS_PREFIX : Z := 0x41.
Definition ADDRESS_LEN : nat := 20.
Definition PREFIXED_ADDRESS_LEN : nat := 21.
Definition ABI_ADDRESS_PARAMETER_HEX_LEN : nat := 64.

(** [struct TronAddress([u8; 21])] *)
Record t : Type := Mk { raw : bytes }.

#[export] Instance address_eq_dec : EqDecision t.
Proof. solve_decision. Defined.

(** [impl From<[u8; ADDRESS_LEN]>] *)
Definition from_account (account_id : bytes) : t := Mk (ADDRESS_PREFIX :: account_id).

Definition as_bytes (a : t) : bytes := raw a.
Definition account_id (a : t) : bytes := drop 1 (raw a).

(** [str::get(n..)] *)
Definition str_get_from (s : string) (n : nat) : option string :=
  let bs := bytes_of_string s in
  if is_char_boundary bs n then Some (string_of_bytes (drop n bs)) else None.

(** [format!("{:0>width$}", s)] *)
Definition pad_zeros (width : nat) (s : string) : string :=
  (string_of_bytes (replicate (width - String.length s) 48) +:+ s)%string.

Definition all_zero (bs : bytes) : bool := forallb (fun value => value =? 0) bs.

Section address.
Context `{Hex} `{Base58Check}.

Definition from_hex (hex_value : string) : option t :=
  let?? bs := ok (decode_hex hex_value) in
  if (length bs =? PREFIXED_ADDRESS_LEN)%nat && bool_decide (head bs = Some ADDRESS_PREFIX) then Some (Mk bs)
  else if (length bs =? ADDRESS_LEN)%nat then Some (from_account bs)
  else None.

(** [impl AddressTrait]: [try_parse] and [encode] *)
Definition try_parse (address : string) : option t :=
  let?? decoded := bs58_decode_check address in
  let payload := match decoded with
                 | b :: payload => if b =? ADDRESS_PREFIX then payload else decoded
                 | [] => decoded
                 end in
  if (length payload =? ADDRESS_LEN)%nat then Some (from_account payload) else None.

Definition encode (a : t) : string := bs58_encode_check (raw a).

Definition is_valid (address : string) : bool :=
  match try_parse address with Some _ => true | None => false end.
Definition validate_address (address : string) : bool := is_valid address.

Definition parse (address : string) : result string t :=
  ok_or (try_parse address) ("invalid Tron address: " +:+ address)%string.

Definition from_hex_or_base58 (value : string) : option t :=
  match try_parse value with Some a => Some a | None => from_hex value end.

Definition parse_hex_or_base58 (value : string) : result string t :=
  ok_or (from_hex_or_base58 value) ("invalid Tron address: " +:+ value)%string.

Definition abi_address_parameter (a : t) : string :=
  pad_zeros ABI_ADDRESS_PARAMETER_HEX_LEN (hex_encode (account_id a)).

Definition from_topic (topic : string) : option t :=
  if (String.length topic <? ADDRESS_LEN * 2)%nat then None else
  let?? s := str_get_from topic (String.length topic - ADDRESS_LEN * 2) in
  from_hex s.

Definition from_abi_word (word : bytes) : option t :=
  if negb (length word =? ABI_ADDRESS_PARAMETER_HEX_LEN / 2)%nat then None else
  let prefixed_offset := (length word - PREFIXED_ADDRESS_LEN)%nat in
  if all_zero (take prefixed_offset word) && bool_decide (word !! prefixed_offset = Some ADDRESS_PREFIX)
  then from_hex (hex_encode (drop prefixed_offset word)) else
  let account_id_offset := (length word - ADDRESS_LEN)%nat in
  if all_zero (take account_id_offset word)
  then from_hex (hex_encode (drop account_id_offset word)) else
  None.

End address.

(** What every address holds: the prefix and twenty bytes. *)
Definition wf (a : t) : Prop :=
  length (raw a) = PREFIXED_ADDRESS_LEN /\ head (raw a) = Some ADDRESS_PREFIX /\ all_bytes (raw a).

End TronAddress.

Module Trc20.

Definition ABI_WORD_LEN : nat := 32.
Definition GASFREE_PERMIT_TRANSFER_SELECTOR : bytes := [0x6f; 0x21; 0xb8; 0x98].
Definition TRC20_APPROVE_SELECTOR : bytes := [0x09; 0x5e; 0xa7; 0xb3].
Definition TRC20_TRANSFER_SELECTOR : bytes := [0xa9; 0x05; 0x9c; 0xbb].

Record ApprovalCall : Type := MkApprovalCall { spender : TronAddress.t; value : Z }.

Definition pad_left (data : bytes) (len : nat) : result string bytes :=
  if (len <? length data)%nat then Err "value does not fit padded length"%string
  else Ok (replicate (len - length data) 0 ++ data).

Section calls.
Context `{Hex} `{BigUint} `{BigUintParse} `{BigUintFromBytes}.

Definition encode_transfer (destination : TronAddress.t) (value : string) : result string bytes :=
  let? amount := ok_or (biguint_parse value) "invalid TRC20 amount"%string in
  let? to_word := pad_left (TronAddress.as_bytes destination) ABI_WORD_LEN in
  let? amount_word := pad_left (biguint_to_bytes_be amount) ABI_WORD_LEN in
  Ok (TRC20_TRANSFER_SELECTOR ++ to_word ++ amount_word).

Definition encode_approval_max (spender : TronAddress.t) : result string bytes :=
  let? spender_word := pad_left (TronAddress.as_bytes spender) ABI_WORD_LEN in
  Ok (TRC20_APPROVE_SELECTOR ++ spender_word ++ replicate ABI_WORD_LEN 0xff).

Definition decode_approval (data : bytes) : option ApprovalCall :=
  if negb (length data =? length TRC20_APPROVE_SELECTOR + ABI_WORD_LEN * 2)%nat
     || negb (bool_decide (take 4 data = TRC20_APPROVE_SELECTOR)) then None else
  let?? spender := TronAddress.from_abi_word (take ABI_WORD_LEN (drop 4 data)) in
  Some (MkApprovalCall spender (biguint_from_bytes_be (drop (4 + ABI_WORD_LEN) data))).

Definition decode_approval_hex (data : string) : option ApprovalCall :=
  let?? bs := hex_decode data in decode_approval bs.

(** [chunks_exact(32)] *)
Fixpoint chunks_exact (fuel n : nat) (data : bytes) : list bytes :=
  match fuel with
  | O => []
  | S fuel => if (length data <? n)%nat then [] else take n data :: chunks_exact fuel n (drop n data)
  end.

(** [words.next(); words.nth(4)]: the words 0, 2 and 3 are read and word 8 must
    exist. *)
Definition decode_gasfree_permit_transfer (data : bytes) : option (TronAddress.t * TronAddress.t * Z) :=
  if negb (bool_decide (take 4 data = GASFREE_PERMIT_TRANSFER_SELECTOR)) then None else
  let arguments := drop 4 data in
  let words := chunks_exact (length arguments) ABI_WORD_LEN arguments in
  let?? w0 := words !! 0%nat in
  let?? token := TronAddress.from_abi_word w0 in
  let?? w2 := words !! 2%nat in
  let?? receiver := TronAddress.from_abi_word w2 in
  let?? w3 := words !! 3%nat in
  let?? _ := words !! 8%nat in
  Some (token, receiver, biguint_from_bytes_be w3).

Definition decode_gasfree_permit_transfer_hex (data : string) : option (TronAddress.t * TronAddress.t * Z) :=
  let?? bs := hex_decode data in decode_gasfree_permit_transfer bs.

End calls.
End Trc20.

(** ** Facts *)

Module TronAddressFacts.
Import TronAddress HexCodec.

Lemma wf_parts a : wf a -> raw a = ADDRESS_PREFIX :: account_id a /\ length (account_id a) = ADDRESS_LEN /\
  all_bytes (account_id a).
Proof.
  intros (Hl & Hh & Hb). unfold account_id. destruct (raw a) as [|b bs]; [done|]. injection Hh as ->.
  apply Forall_cons_1 in Hb as [_ Hb]. split; [done|]. split; [exact (eq_add_S _ _ Hl)|done].
Qed.

Lemma from_account_wf bs : all_bytes bs -> length bs = ADDRESS_LEN -> wf (from_account bs).
Proof. intros Hb Hl. split; [exact (f_equal S Hl)|]. split; [done|]. by constructor. Qed.

Lemma from_account_id a : wf a -> from_account (account_id a) = a.
Proof. intros Hwf. destruct (wf_parts a Hwf) as [H _]. destruct a. cbn in *. unfold from_account. by rewrite <- H. Qed.

Lemma wf_eq a b : wf a -> wf b -> as_bytes a = as_bytes b -> a = b.
Proof. destruct a, b. by intros _ _ [= ->]. Qed.

Lemma all_zero_spec bs : all_zero bs = true <-> bs = replicate (length bs) 0.
Proof.
  induction bs as [|b bs IH]; [done|]. cbn. rewrite andb_true_iff, Z.eqb_eq. split.
  - intros [-> H]. by rewrite <- (proj1 IH H).
  - intros [= -> H]. split; [done|]. by apply IH.
Qed.

Lemma all_zero_replicate n : all_zero (replicate n 0) = true.
Proof. apply all_zero_spec. by rewrite length_replicate. Qed.

Section facts.
Context `{HexLaws}.

(** [from_hex] on decoded bytes. *)
Definition of_decoded (bs : bytes) : option t :=
  if (length bs =? PREFIXED_ADDRESS_LEN)%nat && bool_decide (head bs = Some ADDRESS_PREFIX) then Some (Mk bs)
  else if (length bs =? ADDRESS_LEN)%nat then Some (from_account bs)
  else None.

Lemma from_hex_encoded bs : all_bytes bs -> from_hex (hex_encode bs) = of_decoded bs.
Proof. intros Hb. unfold from_hex. by rewrite decode_hex_encode. Qed.

Lemma of_decoded_raw a : wf a -> of_decoded (raw a) = Some a.
Proof. intros (Hl & Hh & _). unfold of_decoded. rewrite Hl, Hh. by destruct a. Qed.

Lemma of_decoded_account a : wf a -> of_decoded (account_id a) = Some a.
Proof.
  intros Hwf. unfold of_decoded. destruct (wf_parts a Hwf) as (_ & Hl & _). rewrite Hl. cbn.
  by rewrite from_account_id.
Qed.

Lemma of_decoded_wf bs a : all_bytes bs -> of_decoded bs = Some a -> wf a /\ (bs = raw a \/ bs = account_id a).
Proof.
  intros Hb. unfold of_decoded. destruct ((length bs =? PREFIXED_ADDRESS_LEN)%nat && _) eqn:E1.
  - apply andb_true_iff in E1 as [E1 E2%bool_decide_eq_true]. zbool. intros [= <-]. by repeat split; [..|left].
  - destruct (length bs =? ADDRESS_LEN)%nat eqn:E2; [|done]. zbool. intros [= <-].
    split; [by apply from_account_wf|by right].
Qed.

Lemma from_hex_wf s a : from_hex s = Some a -> wf a.
Proof.
  unfold from_hex. destruct (decode_hex s) as [bs|] eqn:E; [|done]. intros Ha.
  by destruct (of_decoded_wf bs a (decode_hex_bytes _ _ E) Ha).
Qed.

(** The two words [from_abi_word] accepts. *)
Lemma from_abi_word_spec word a : all_bytes word ->
  from_abi_word word = Some a <->
  wf a /\ (word = replicate 11 0 ++ raw a \/ word = replicate 12 0 ++ account_id a).
Proof.
  intros Hb. unfold from_abi_word. change (ABI_ADDRESS_PARAMETER_HEX_LEN / 2)%nat with 32%nat.
  unfold PREFIXED_ADDRESS_LEN, ADDRESS_LEN. split.
  - destruct (length word =? 32)%nat eqn:El; [|done]. zbool. rewrite El.
    change (32 - 21)%nat with 11%nat. change (32 - 20)%nat with 12%nat. cbn [negb].
    assert (forall n, all_zero (take n word) = true -> (n <= 32)%nat -> from_hex (hex_encode (drop n word)) = Some a ->
      wf a /\ word = replicate n 0 ++ drop n word /\ (drop n word = raw a \/ drop n word = account_id a)) as Hgen.
    { intros n Hz Hn Ha. rewrite from_hex_encoded in Ha by (by apply Forall_drop).
      apply of_decoded_wf in Ha as [Hwf Hd]; [|by apply Forall_drop]. split; [done|]. split; [|done].
      apply all_zero_spec in Hz. rewrite length_take in Hz. replace (n `min` length word)%nat with n in Hz by lia.
      by rewrite <- Hz, take_drop. }
    assert (forall n, (n <= 32)%nat -> length (drop n word) = (32 - n)%nat) as Hdl by (intros; rewrite length_drop; lia).
    destruct (all_zero (take 11 word) && _) eqn:E1.
    + apply andb_true_iff in E1 as [Hz _]. intros Ha. destruct (Hgen 11%nat Hz) as (Hwf & Hw & [Hd|Hd]); [lia|done|..].
      * split; [done|]. left. by rewrite <- Hd.
      * apply (f_equal length) in Hd. destruct (wf_parts a Hwf) as (_ & Hl & _). rewrite Hl, Hdl in Hd by lia. discriminate Hd.
    + destruct (all_zero (take 12 word)) eqn:Hz; [|done]. intros Ha.
      destruct (Hgen 12%nat Hz) as (Hwf & Hw & [Hd|Hd]); [lia|done|..].
      * apply (f_equal length) in Hd. destruct Hwf as (Hl & _). rewrite Hl, Hdl in Hd by lia. discriminate Hd.
      * split; [done|]. right. by rewrite <- Hd.
  - intros [Hwf Hw]. destruct (wf_parts a Hwf) as (Hr & Hl & Hab). pose proof Hwf as (Hl1 & Hh & Hb1).
    destruct Hw as [->| ->]; rewrite length_app, length_replicate.
    + rewrite Hl1. change (11 + PREFIXED_ADDRESS_LEN)%nat with 32%nat. cbn [Nat.eqb negb]. change (32 - 21)%nat with 11%nat.
      rewrite take_app_length', drop_app_length' by done. rewrite all_zero_replicate, lookup_app_r, length_replicate by done.
      change (11 - 11)%nat with 0%nat. rewrite bool_decide_true by (by rewrite Hr). cbn [andb].
      rewrite from_hex_encoded by done. by apply of_decoded_raw.
    + rewrite Hl. change (12 + ADDRESS_LEN)%nat with 32%nat. cbn [Nat.eqb negb]. change (32 - 21)%nat with 11%nat.
      change (32 - 20)%nat with 12%nat. rewrite lookup_app_l by (rewrite length_replicate; lia).
      change (replicate 12 0 !! 11%nat) with (Some 0). rewrite bool_decide_false by done. rewrite andb_false_r.
      rewrite take_app_length', drop_app_length' by done. rewrite all_zero_replicate.
      rewrite from_hex_encoded by done. by apply of_decoded_account.
Qed.

Lemma pad_left_word a : wf a -> Trc20.pad_left (as_bytes a) Trc20.ABI_WORD_LEN = Ok (replicate 11 0 ++ raw a).
Proof. intros (Hl & _). unfold Trc20.pad_left, as_bytes. by rewrite Hl. Qed.

End facts.
End TronAddressFacts.

(** ** Properties *)

Section properties.
Import TronAddress TronAddressFacts Trc20.
Context `{HexLaws} `{Base58CheckLaws}.

(** Every way to read an address yields the prefix byte 0x41 and twenty bytes:
    base58check, hexadecimal, the last forty characters of a log topic and
    an ABI word; an ABI word is accepted exactly when it is the zero-padded
    form of an address, with or without its prefix byte. *)
Theorem address_sources_valid (text : string) (word : bytes) (a : t) : all_bytes word ->
  (try_parse text = Some a \/ from_hex text = Some a \/ from_hex_or_base58 text = Some a \/ from_topic text = Some a -> wf a) /\
  (from_abi_word word = Some a <-> wf a /\ (word = replicate 11 0 ++ raw a \/ word = replicate 12 0 ++ account_id a)).
Proof.
  intros Hb. split; [|by apply from_abi_word_spec].
  assert (try_parse text = Some a -> wf a) as Htry.
  { unfold try_parse. destruct (bs58_decode_check text) as [d|] eqn:E; [|done]. apply bs58_decode_bytes in E.
    destruct (length _ =? ADDRESS_LEN)%nat eqn:El; [|done]. zbool. intros [= <-]. apply from_account_wf; [|done].
    destruct d as [|b d]; [constructor|]. destruct (b =? ADDRESS_PREFIX); [by apply Forall_cons_1 in E as [_ E]|done]. }
  intros [Ha|[Ha|[Ha|Ha]]]; [by apply Htry|by eapply from_hex_wf| |].
  - unfold from_hex_or_base58 in Ha. destruct (try_parse text) eqn:E; [by apply Htry|by eapply from_hex_wf].
  - unfold from_topic in Ha. destruct (_ <? _)%nat; [done|]. destruct (str_get_from _ _); [|done]. by eapply from_hex_wf.
Qed.

Lemma topic_suffix s k : string_forall is_hex_digit s = true -> String.length s = (2 * ADDRESS_LEN)%nat ->
  str_get_from (string_of_bytes (replicate k 48) +:+ s) k = Some s.
Proof.
  intros Hs Hl. unfold str_get_from. rewrite HexFacts.bytes_of_string_app, HexFacts.bytes_of_string_of_bytes
    by (by apply Forall_replicate).
  rewrite drop_app_length', HexFacts.string_of_bytes_of_string by (by rewrite length_replicate).
  assert (is_char_boundary (replicate k 48 ++ bytes_of_string s) k = true) as ->; [|done].
  unfold is_char_boundary. rewrite lookup_app_r, length_replicate, Nat.sub_diag by (by rewrite length_replicate).
  apply HexFacts.hex_digits_plain in Hs. destruct s as [|c s]; [done|]. cbn in Hs |- *.
  apply andb_true_iff in Hs as [Hc _]. apply orb_true_iff. right. apply negb_true_iff, andb_false_iff. left.
  unfold HexFacts.plain in Hc. zbool. bfalse.
Qed.

(** The text and ABI forms of an address read back as the same address: base58
    with the prefix, hexadecimal with and without it, the zero-padded ABI
    parameter as a topic and the prefixed ABI word. *)
Theorem address_roundtrips (a : t) : wf a ->
  try_parse (encode a) = Some a /\ parse (encode a) = Ok a /\
  from_hex (hex_encode (as_bytes a)) = Some a /\ from_hex (hex_encode (account_id a)) = Some a /\
  from_topic (abi_address_parameter a) = Some a /\
  (let? word := pad_left (as_bytes a) ABI_WORD_LEN in ok_or (from_abi_word word) ""%string) = Ok a.
Proof.
  intros Hwf. pose proof (wf_parts a Hwf) as (Hr & Hl & Hab). pose proof Hwf as (_ & _ & Hb).
  assert (try_parse (encode a) = Some a) as Htry.
  { unfold try_parse, encode. rewrite bs58_roundtrip, Hr by done. rewrite Z.eqb_refl. cbv iota.
    by rewrite Hl, Nat.eqb_refl, from_account_id. }
  split; [done|]. split; [unfold parse; by rewrite Htry|].
  split; [rewrite from_hex_encoded by done; by apply of_decoded_raw|].
  split; [rewrite from_hex_encoded by done; by apply of_decoded_account|]. split.
  - unfold abi_address_parameter, pad_zeros. pose proof (hex_encode_length _ Hab) as Hlen. rewrite Hl in Hlen.
    rewrite Hlen. change (ABI_ADDRESS_PARAMETER_HEX_LEN - 2 * ADDRESS_LEN)%nat with 24%nat. unfold from_topic.
    assert (String.length (string_of_bytes (replicate 24 48) +:+ hex_encode (account_id a)) = 64%nat) as Hlt.
    { rewrite <- HexFacts.bytes_of_string_length, HexFacts.bytes_of_string_app, length_app, !HexFacts.bytes_of_string_length.
      by rewrite Hlen. }
    rewrite Hlt. change (64 <? ADDRESS_LEN * 2)%nat with false. change (64 - ADDRESS_LEN * 2)%nat with 24%nat. cbv iota.
    rewrite topic_suffix by (try apply hex_encode_digits; done).
    rewrite from_hex_encoded by done. by apply of_decoded_account.
  - rewrite pad_left_word by done. rewrite (proj2 (from_abi_word_spec _ a ltac:(apply Forall_app; split; [by apply Forall_replicate|done]))); [done|].
    split; [done|by left].
Qed.

(** An unprefixed base58check payload of twenty bytes is accepted and given the
    prefix, unless its first byte happens to be 0x41: that byte is then taken
    for the prefix, nineteen bytes are left and the address is rejected,
    although the hexadecimal form of the same payload is accepted. *)
Theorem unprefixed_payload (account : bytes) : all_bytes account -> length account = ADDRESS_LEN ->
  try_parse (bs58_encode_check account)
  = (if bool_decide (head account = Some ADDRESS_PREFIX) then None else Some (from_account account)) /\
  from_hex (hex_encode account) = Some (from_account account).
Proof.
  intros Hb Hl. split.
  - unfold try_parse. rewrite bs58_roundtrip by done. destruct account as [|b bs]; [done|]. cbn [head].
    destruct (Z.eqb_spec b ADDRESS_PREFIX) as [->|Hne].
    + rewrite bool_decide_true by done. injection Hl as Hl. by rewrite Hl.
    + rewrite bool_decide_false by congruence. by rewrite Hl, Nat.eqb_refl.
  - rewrite from_hex_encoded by done. unfold of_decoded. by rewrite Hl.
Qed.

Context `{BigUintLaws} `{BigUintParse} `{BigUintFromBytesLaws}.

Lemma approval_max_decoded (a : t) : wf a ->
  (let? d := encode_approval_max a in ok_or (decode_approval d) ""%string) = Ok (MkApprovalCall a (2 ^ 256 - 1)).
Proof.
  intros Hwf.
  unfold encode_approval_max. rewrite pad_left_word by done. unfold decode_approval.
  pose proof Hwf as (Hl & Hh & Hb).
  assert (length (TRC20_APPROVE_SELECTOR ++ (replicate 11 0 ++ raw a) ++ replicate ABI_WORD_LEN 255) = 68%nat) as Hlen
    by (rewrite !length_app, !length_replicate, Hl; done).
  rewrite Hlen. change (negb (68 =? length TRC20_APPROVE_SELECTOR + ABI_WORD_LEN * 2)%nat) with false.
  rewrite take_app_length', bool_decide_true by done. cbn [orb negb]. rewrite drop_app_length' by done.
  rewrite take_app_length' by (rewrite length_app, length_replicate, Hl; done).
  assert (all_bytes (replicate 11 0 ++ raw a)) as Hwb by (apply Forall_app; split; [by apply Forall_replicate|done]).
  rewrite (proj2 (from_abi_word_spec _ a Hwb)) by (split; [done|by left]). cbn [ok_or]. do 2 f_equal.
  rewrite app_assoc, drop_app_length' by (rewrite !length_app, length_replicate, Hl; done).
  rewrite biguint_from_bytes_be_value by (by apply Forall_replicate). by vm_compute.
Qed.

Lemma approval_decoded (data : bytes) (call : ApprovalCall) : all_bytes data -> decode_approval data = Some call ->
  wf (spender call) /\ 0 <= Trc20.value call < 2 ^ 256 /\
  (data = TRC20_APPROVE_SELECTOR ++ (replicate 11 0 ++ raw (spender call)) ++ be_bytes 32 (Trc20.value call) \/
   data = TRC20_APPROVE_SELECTOR ++ (replicate 12 0 ++ account_id (spender call)) ++ be_bytes 32 (Trc20.value call)).
Proof.
  intros Hd.
  unfold decode_approval. destruct (negb _ || _) eqn:E; [done|].
  apply orb_false_iff in E as [E%negb_false_iff%Nat.eqb_eq E0%negb_false_iff%bool_decide_eq_true].
  change (length TRC20_APPROVE_SELECTOR + ABI_WORD_LEN * 2)%nat with 68%nat in E.
  destruct (from_abi_word _) as [s|] eqn:Hs; [|done]. intros [= <-]. cbn [spender Trc20.value].
  apply from_abi_word_spec in Hs as [Hs Hw]; [|by apply Forall_take, Forall_drop].
  assert (all_bytes (drop (4 + ABI_WORD_LEN) data)) as Hb by (by apply Forall_drop).
  assert (length (drop (4 + ABI_WORD_LEN) data) = 32%nat) as Hlen by (rewrite length_drop, E; done).
  rewrite biguint_from_bytes_be_value by done. split; [done|]. split.
  + pose proof (of_be_bound _ Hb) as Hbd. by rewrite Hlen in Hbd.
  + pose proof (be_bytes_of_be _ Hb) as Hbe. rewrite Hlen in Hbe.
    change (4 + ABI_WORD_LEN)%nat with (S (S (S (S ABI_WORD_LEN)))) in *. rewrite Hbe.
    assert (data = TRC20_APPROVE_SELECTOR ++ take ABI_WORD_LEN (drop 4 data) ++ drop (4 + ABI_WORD_LEN) data) as Hdata.
    { rewrite <- E0, <- drop_drop, !take_drop. done. }
    destruct Hw as [Hw|Hw]; [left|right]; by rewrite <- Hw.
Qed.

Lemma transfer_encoded (a : t) (value : string) (amount : Z) :
  wf a -> biguint_parse value = Some amount -> 0 <= amount ->
  encode_transfer a value =
    (if amount <? 2 ^ 256 then Ok (TRC20_TRANSFER_SELECTOR ++ (replicate 11 0 ++ raw a) ++ be_bytes 32 amount)
     else Err "value does not fit padded length"%string).
Proof.
  intros Hwf Hv Hpos.
  unfold encode_transfer. rewrite Hv. cbn [ok_or]. rewrite pad_left_word by done. unfold pad_left.
  pose proof (biguint_bytes_value amount Hpos) as Hval. pose proof (biguint_bytes_bytes amount Hpos) as Hbytes.
  pose proof (biguint_bytes_length amount Hpos) as Hlen. rewrite biguint_bits_spec in Hlen by done.
  set (bs := biguint_to_bytes_be amount) in *.
  destruct (amount <? 2 ^ 256) eqn:E; zbool.
  + assert (length bs <= 32)%nat as Hle.
    { assert (Z.of_nat (length bs) <= 32); [|lia]. rewrite Hlen. apply Z.max_lub; [lia|].
      assert (div_ceil 256 8 = 32) as <- by done. apply div_ceil_mono; [lia|].
      destruct (amount =? 0) eqn:E0; zbool; [lia|]. apply Z.log2_lt_pow2 in E; lia. }
    assert ((ABI_WORD_LEN <? length bs)%nat = false) as -> by (apply Nat.ltb_ge; exact Hle).
    by rewrite <- Hval, be_bytes_padded.
  + assert (32 < length bs)%nat as Hlt.
    { pose proof (of_be_bound bs Hbytes) as Hbd. rewrite Hval in Hbd. destruct (decide (length bs <= 32)%nat); [|lia].
      assert (2 ^ (8 * Z.of_nat (length bs)) <= 2 ^ 256) by (apply Z.pow_le_mono_r; lia). lia. }
    assert ((ABI_WORD_LEN <? length bs)%nat = true) as -> by (apply Nat.ltb_lt; exact Hlt). done.
Qed.

(** TRC-20 calls.  The unlimited approval that is signed decodes to its spender
    and 2^256 - 1; whatever approval is decoded from data was the encoding of
    a valid spender and of an amount below 2^256; and a transfer is encoded
    exactly for amounts that fit one word, as selector, prefixed address and
    big-endian amount, 68 bytes in all. *)
Theorem trc20_calls (a : t) (data : bytes) (call : ApprovalCall) (value : string) (amount : Z) :
  wf a -> all_bytes data -> biguint_parse value = Some amount -> 0 <= amount ->
  (let? d := encode_approval_max a in ok_or (decode_approval d) ""%string) = Ok (MkApprovalCall a (2 ^ 256 - 1)) /\
  (decode_approval data = Some call ->
     wf (spender call) /\ 0 <= Trc20.value call < 2 ^ 256 /\
     (data = TRC20_APPROVE_SELECTOR ++ (replicate 11 0 ++ raw (spender call)) ++ be_bytes 32 (Trc20.value call) \/
      data = TRC20_APPROVE_SELECTOR ++ (replicate 12 0 ++ account_id (spender call)) ++ be_bytes 32 (Trc20.value call))) /\
  encode_transfer a value =
    (if amount <? 2 ^ 256 then Ok (TRC20_TRANSFER_SELECTOR ++ (replicate 11 0 ++ raw a) ++ be_bytes 32 amount)
     else Err "value does not fit padded length"%string).
Proof.
  intros Hwf Hd Hv Hpos.
  split; [by apply approval_max_decoded|]. split; [by apply approval_decoded|by apply transfer_encoded].
Qed.

End properties.

(** ** Witnesses *)

Section witnesses.
Import TronAddress Trc20 Concrete HexConcrete.

(** Any injective text form serves for base58 with a checksum. *)
#[local] Instance text_base58 : Base58Check := {| bs58_encode_check := to_hex; bs58_decode_check := of_hex |}.
#[local] Instance text_base58_laws : Base58CheckLaws.
Proof. split; [exact of_to_hex|exact of_hex_bytes]. Qed.
#[local] Instance decimal_biguint : BigUintParse := fun s => parse_digits 0 s.

Definition sample_address : TronAddress.t := from_account (seqZ 1 20).

Lemma sample_address_wf : wf sample_address.
Proof. split; [done|]. split; [done|]. by apply (bool_decide_unpack _); vm_compute. Qed.

Lemma address_sources_valid_witness : wf sample_address.
Proof.
  assert (all_bytes (replicate 12 0 ++ seqZ 1 20)) as Hb by (apply (bool_decide_unpack _); by vm_compute).
  refine (proj1 (proj1 (proj2 (address_sources_valid "" _ sample_address Hb)) _)). by vm_compute.
Defined.

Lemma address_roundtrips_witness : from_topic (abi_address_parameter sample_address) = Some sample_address.
Proof. apply (address_roundtrips sample_address sample_address_wf). Defined.

Lemma unprefixed_payload_witness : try_parse (bs58_encode_check (seqZ 0x41 20)) = None.
Proof.
  refine (proj1 (unprefixed_payload (seqZ 0x41 20) _ eq_refl)). apply (bool_decide_unpack _); by vm_compute.
Defined.

Lemma trc20_calls_witness :
  encode_transfer sample_address "1000000" = Ok (TRC20_TRANSFER_SELECTOR ++ (replicate 11 0 ++ raw sample_address) ++ be_bytes 32 1000000).
Proof.
  refine (proj2 (proj2 (trc20_calls sample_address [] (MkApprovalCall sample_address 0) "1000000" 1000000
    sample_address_wf (Forall_nil_2 _) _ _))); [by vm_compute|lia].
Defined.

End witnesses.
