(* ===== verification/TonBits.v ===== *)
(** Bit-level input and output of TON cells: [gem_ton/src/tvm/writer.rs] (module
    [BitWriter]) and [gem_ton/src/tvm/reader.rs] (module [BitReader]).  Both are
    related to a plain list of bits, most significant bit first. *)
From S2P Require Import Prelude.

(** ** Bits of a byte string *)

Definition byte_bits (b : Z) : list bool := map (fun k => Z.testbit b (7 - Z.of_nat k)) (seq 0 8).
Definition bytes_bits (bs : bytes) : list bool := flat_map byte_bits bs.
(** The [n] low bits of [v], most significant first. *)
Definition uint_bits (n : nat) (v : Z) : list bool := map (fun s => Z.testbit v (Z.of_nat s)) (rev (seq 0 n)).
Definition uint_of_bits (l : list bool) : Z := fold_left (fun acc b => 2 * acc + Z.b2z b) l 0.

(** [(x >> s) & 1 == 1] *)
Definition bit_at (x : Z) (s : nat) : bool := Z.land (Z.shiftr x (Z.of_nat s)) 1 =? 1.

Definition MAX_CELL_BITS : nat := 1023.
Definition MAX_CELL_REFERENCES : nat := 4.

Module BitWriter.

Record t : Type := Mk { bytes : list Z; bit_len : nat }.

Definition default : t := Mk [] 0.

(** The indexed [|=] cannot be out of range on a well-formed writer ([Repr]). *)
Definition write_bit (w : t) (value : bool) : result string t :=
  if (bit_len w =? MAX_CELL_BITS)%nat then Err "cell exceeds 1023 bits"%string else
  let bs := if (bit_len w mod 8 =? 0)%nat then bytes w ++ [0] else bytes w in
  let bs :=
    if value then
      let byte_index := (bit_len w / 8)%nat in
      let bit_index := (7 - bit_len w mod 8)%nat in
      alter (fun b => Z.lor b (Z.shiftl 1 (Z.of_nat bit_index))) byte_index bs
    else bs in
  Ok (Mk bs (bit_len w + 1)).

Definition write_uint (w : t) (n : nat) (value : Z) : result string t :=
  if (64 <? n)%nat then Err "fixed-size integers above 64 bits are not supported"%string else
  if (n <? 64)%nat && negb (Z.shiftr value (Z.of_nat n) =? 0)
  then Err "integer does not fit requested bit length"%string else
  try_fold (fun w shift => write_bit w (bit_at value shift)) w (rev (seq 0 n)).

Definition write_bits (w : t) (src : list Z) (n : nat) : result string t :=
  if (length src * 8 <? n)%nat then Err "bit length exceeds input bytes"%string else
  try_fold (fun w index => write_bit w (bit_at (src !!! (index / 8)%nat) (7 - index mod 8)))
    w (seq 0 n).

Definition write_bytes (w : t) (src : list Z) : result string t :=
  write_bits w src (length src * 8).

(** The writer [w] holds exactly the bits [l]: they are followed by zero
    padding up to a whole number of bytes. *)
Definition Repr (w : t) (l : list bool) : Prop :=
  bit_len w = length l /\ all_bytes (bytes w) /\ (length l <= MAX_CELL_BITS)%nat /\
  length (bytes w) = ndiv_ceil (length l) 8 /\
  bytes_bits (bytes w) = l ++ replicate (length (bytes w) * 8 - length l) false.

End BitWriter.

Module BitReader.

Record t : Type := Mk { bytes : list Z; bit_len : nat; bit_position : nat }.

Definition new (bs : list Z) : t := Mk bs (length bs * 8) 0.

Definition from_bits (bs : list Z) (n : nat) : result string t :=
  if (length bs * 8 <? n)%nat then Err "bit length exceeds input bytes"%string
  else Ok (Mk bs n 0).

Definition position (r : t) : nat := (bit_position r / 8)%nat.

(** [saturating_sub] on [usize] is the truncated subtraction of [nat]. *)
Definition remaining_bits (r : t) : nat := (bit_len r - bit_position r)%nat.

Definition remaining (r : t) : nat := ndiv_ceil (remaining_bits r) 8.

Definition read_bit (r : t) : result string (bool * t) :=
  if (bit_len r <=? bit_position r)%nat then Err "unexpected end of input"%string else
  let byte := bytes r !!! (bit_position r / 8)%nat in
  let shift := (7 - bit_position r mod 8)%nat in
  Ok (bit_at byte shift, Mk (bytes r) (bit_len r) (bit_position r + 1)).

(** [value = (value << 1) | u64::from(bit)]; the shift drops the top bit. *)
Fixpoint read_uint_loop (n : nat) (value : Z) (r : t) : result string (Z * t) :=
  match n with
  | O => Ok (value, r)
  | S n' =>
      let? (b, r') := read_bit r in
      read_uint_loop n' (Z.lor (as_u64 (Z.shiftl value 1)) (Z.b2z b)) r'
  end.

Definition read_uint (r : t) (n : nat) : result string (Z * t) :=
  if (64 <? n)%nat then Err "fixed-size integers above 64 bits are not supported"%string
  else read_uint_loop n 0 r.

Definition read_u8 (r : t) : result string (Z * t) :=
  let? (v, r') := read_uint r 8 in Ok (as_u8 v, r').

Definition read_u32 (r : t) : result string (Z * t) :=
  let? (v, r') := read_uint r 32 in Ok (as_u32 v, r').

Definition read_bytes (r : t) (len : nat) : result string (list Z * t) :=
  if negb (bit_position r mod 8 =? 0)%nat
  then Err "byte reads require byte-aligned position"%string else
  let? n := ok_or (checked_mul (Z.of_nat len) 8) "invalid read length"%string in
  if Z.of_nat (remaining_bits r) <? n then Err "unexpected end of input"%string else
  let start := position r in
  let? stop := ok_or (checked_add (Z.of_nat start) (Z.of_nat len)) "invalid read length"%string in
  Ok (take (Z.to_nat stop - start) (drop start (bytes r)),
      Mk (bytes r) (bit_len r) (bit_position r + Z.to_nat n)).

Definition skip (r : t) (len : nat) : result string t :=
  let? (_, r') := read_bytes r len in Ok r'.

Definition read_u32_le (r : t) : result string (Z * t) :=
  let? (bs, r') := read_bytes r 4 in
  if (length bs =? 4)%nat then Ok (of_le bs, r') else Err "invalid u32"%string.

(** The fold is on [usize]: [acc << 8] drops the bits above 64. *)
Definition read_var_uint (r : t) (size : nat) : result string (Z * t) :=
  let? (bs, r') := read_bytes r size in
  Ok (fold_left (fun acc byte => Z.lor (as_u64 (Z.shiftl acc 8)) byte) bs 0, r').

(** The bits still to be read. *)
Definition rest (r : t) : list bool := drop (bit_position r) (take (bit_len r) (bytes_bits (bytes r))).

(** What every reader built by [new] or [from_bits] and advanced by the
    operations satisfies. *)
Definition wf (r : t) : Prop :=
  (bit_len r <= length (bytes r) * 8)%nat /\ (bit_position r <= bit_len r)%nat /\
  Z.of_nat (length (bytes r) * 8) <= U64_MAX /\ all_bytes (bytes r).

End BitReader.

(** ** Bit lists *)

Lemma bit_at_testbit x s : bit_at x s = Z.testbit x (Z.of_nat s).
Proof.
  unfold bit_at. rewrite Z.testbit_odd, (Z.land_ones _ 1), Zmod_odd by lia.
  by destruct (Z.odd _).
Qed.

Lemma byte_bits_length b : length (byte_bits b) = 8%nat.
Proof. done. Qed.

Lemma bytes_bits_cons b bs : bytes_bits (b :: bs) = byte_bits b ++ bytes_bits bs.
Proof. done. Qed.

Lemma bytes_bits_length bs : length (bytes_bits bs) = (length bs * 8)%nat.
Proof.
  induction bs as [|b bs IH]; [done|].
  rewrite bytes_bits_cons, length_app, byte_bits_length, IH. simpl. lia.
Qed.

Lemma bytes_bits_app bs1 bs2 : bytes_bits (bs1 ++ bs2) = bytes_bits bs1 ++ bytes_bits bs2.
Proof. unfold bytes_bits. apply flat_map_app. Qed.

Lemma uint_bits_length n v : length (uint_bits n v) = n.
Proof. unfold uint_bits. by rewrite length_map, length_rev, length_seq. Qed.

#[export] Hint Rewrite bytes_bits_length uint_bits_length : rust_len.

Lemma bytes_bits_lookup bs n :
  bytes_bits bs !! n = (fun b => Z.testbit b (7 - Z.of_nat (n mod 8))) <$> bs !! (n / 8)%nat.
Proof.
  revert n; induction bs as [|b bs IH]; intros n.
  - by rewrite !lookup_nil.
  - rewrite bytes_bits_cons.
    destruct (decide (n < 8)%nat) as [Hn|Hn].
    + rewrite lookup_app_l by (rewrite byte_bits_length; lia).
      rewrite Nat.div_small, Nat.mod_small by lia. unfold byte_bits.
      change (list_fmap ?f ?l) with (f <$> l). rewrite list_lookup_fmap.
      by rewrite lookup_seq_lt by lia.
    + rewrite lookup_app_r by (rewrite byte_bits_length; lia). rewrite byte_bits_length, IH.
      replace (n / 8)%nat with (S ((n - 8) / 8)).
      2:{ replace n with ((n - 8) + 1 * 8)%nat at 2 by lia. rewrite Nat.div_add by lia. lia. }
      replace (n mod 8)%nat with ((n - 8) mod 8)%nat; [done|].
      replace n with ((n - 8) + 1 * 8)%nat at 2 by lia. by rewrite Nat.Div0.mod_add.
Qed.

Lemma uint_bits_S n v : uint_bits (S n) v = Z.testbit v (Z.of_nat n) :: uint_bits n v.
Proof. unfold uint_bits. by rewrite seq_S, rev_app_distr. Qed.

Lemma uint_of_bits_acc l a :
  fold_left (fun acc b => 2 * acc + Z.b2z b) l a = a * 2 ^ Z.of_nat (length l) + uint_of_bits l.
Proof.
  unfold uint_of_bits. revert a; induction l as [|b l IH]; intros a; simpl fold_left; [simpl; lia|].
  rewrite IH, (IH (2 * 0 + _)). simpl length. rewrite Nat2Z.inj_succ, Z.pow_succ_r by lia. lia.
Qed.

Lemma uint_of_bits_cons b l : uint_of_bits (b :: l) = Z.b2z b * 2 ^ Z.of_nat (length l) + uint_of_bits l.
Proof. unfold uint_of_bits at 1. simpl fold_left. rewrite uint_of_bits_acc. lia. Qed.

Lemma uint_of_bits_app l1 l2 :
  uint_of_bits (l1 ++ l2) = uint_of_bits l1 * 2 ^ Z.of_nat (length l2) + uint_of_bits l2.
Proof. unfold uint_of_bits at 1. rewrite fold_left_app. apply uint_of_bits_acc. Qed.

Lemma uint_of_bits_bound l : 0 <= uint_of_bits l < 2 ^ Z.of_nat (length l).
Proof.
  induction l as [|b l IH]; [done|]. rewrite uint_of_bits_cons. simpl length.
  rewrite Nat2Z.inj_succ, Z.pow_succ_r by lia. destruct b; simpl Z.b2z; lia.
Qed.

Lemma uint_of_bits_uint_bits n v : uint_of_bits (uint_bits n v) = v mod 2 ^ Z.of_nat n.
Proof.
  induction n as [|n IH]; [by rewrite Z.mod_1_r|].
  rewrite uint_bits_S, uint_of_bits_cons, IH, uint_bits_length.
  rewrite Nat2Z.inj_succ, Z.pow_succ_r, (Z.mul_comm 2), Z.rem_mul_r by lia.
  rewrite Z.testbit_spec' by lia. lia.
Qed.

(** The bits of an integer are those of its big-endian bytes. *)
Lemma uint_bits_app n m v : uint_bits (n + m) v = uint_bits n (Z.shiftr v (Z.of_nat m)) ++ uint_bits m v.
Proof.
  induction n as [|n IH]; [done|]. simpl Nat.add. rewrite !uint_bits_S, IH.
  rewrite Z.shiftr_spec, Nat2Z.inj_add by lia. done.
Qed.

Lemma byte_bits_uint b : byte_bits b = uint_bits 8 b.
Proof. reflexivity. Qed.

Lemma uint_bits_mod n m v : (n <= m)%nat -> uint_bits n (v mod 2 ^ Z.of_nat m) = uint_bits n v.
Proof.
  intros Hnm. unfold uint_bits. apply map_ext_in. intros s Hs%in_rev%in_seq.
  rewrite Z.mod_pow2_bits_low by lia. done.
Qed.

Lemma bytes_bits_be n v : bytes_bits (be_bytes n v) = uint_bits (n * 8) v.
Proof.
  revert v; induction n as [|n IH]; intros v; [done|].
  unfold be_bytes in *. cbn [le_bytes rev]. rewrite bytes_bits_app, IH.
  replace (S n * 8)%nat with (n * 8 + 8)%nat by lia. rewrite uint_bits_app.
  rewrite bytes_bits_cons, app_nil_r, byte_bits_uint.
  change 256 with (2 ^ Z.of_nat 8). rewrite uint_bits_mod by lia.
  by rewrite Z.shiftr_div_pow2 by lia.
Qed.

Lemma uint_of_bits_bytes bs : all_bytes bs -> uint_of_bits (bytes_bits bs) = of_be bs.
Proof.
  intros H. rewrite <- (be_bytes_of_be bs H) at 1. rewrite bytes_bits_be, uint_of_bits_uint_bits.
  apply Z.mod_small. pose proof (of_be_bound bs H).
  by replace (Z.of_nat (length bs * 8)) with (8 * Z.of_nat (length bs)) by lia.
Qed.

(** A byte string is determined by its bits. *)
Lemma bytes_bits_inj bs1 bs2 : all_bytes bs1 -> all_bytes bs2 ->
  bytes_bits bs1 = bytes_bits bs2 -> bs1 = bs2.
Proof.
  intros H1 H2 H. assert (length bs1 = length bs2) as HL.
  { apply (f_equal length) in H. rewrite !bytes_bits_length in H. lia. }
  rewrite <- (be_bytes_of_be bs1), <- (be_bytes_of_be bs2), HL by done.
  f_equal. by rewrite <- !uint_of_bits_bytes, H.
Qed.

Lemma bytes_bits_take bs n : bytes_bits (take n bs) = take (n * 8) (bytes_bits bs).
Proof.
  rewrite <- (take_drop n bs) at 2. rewrite bytes_bits_app.
  destruct (decide (n <= length bs)%nat).
  - rewrite take_app_le by (autorewrite with rust_len; lia).
    symmetry. apply take_ge. autorewrite with rust_len. lia.
  - rewrite (drop_ge bs n) by lia. rewrite app_nil_r. symmetry. apply take_ge.
    autorewrite with rust_len. lia.
Qed.

Lemma bytes_bits_drop bs n : bytes_bits (drop n bs) = drop (n * 8) (bytes_bits bs).
Proof.
  destruct (decide (n <= length bs)%nat).
  - rewrite <- (take_drop n bs) at 2. rewrite bytes_bits_app.
    rewrite drop_app_ge by (autorewrite with rust_len; lia). autorewrite with rust_len.
    by replace (n * 8 - n `min` length bs * 8)%nat with 0%nat by lia.
  - rewrite drop_ge by lia. symmetry. apply drop_ge. autorewrite with rust_len. lia.
Qed.

(** ** The writer appends bits *)

Module WriterFacts.
Import BitWriter.

Lemma bytes_bits_set bs n :
  bytes_bits (alter (fun b => Z.lor b (Z.shiftl 1 (Z.of_nat (7 - n mod 8)))) (n / 8)%nat bs)
  = alter (fun _ => true) n (bytes_bits bs).
Proof.
  apply list_eq. intros j. rewrite bytes_bits_lookup, !list_lookup_alter.
  pose proof (Nat.mod_upper_bound n 8). pose proof (Nat.mod_upper_bound j 8).
  pose proof (Nat.div_mod_eq n 8). pose proof (Nat.div_mod_eq j 8).
  assert (forall b, Z.testbit (Z.lor b (Z.shiftl 1 (Z.of_nat (7 - n mod 8)))) (7 - Z.of_nat (j mod 8))
    = Z.testbit b (7 - Z.of_nat (j mod 8)) || (7 - Z.of_nat (n mod 8) =? 7 - Z.of_nat (j mod 8))) as Ht.
  { intros b. rewrite Z.lor_spec, Z.shiftl_1_l, Z.pow2_bits_eqb by lia.
    f_equal. f_equal. lia. }
  destruct (decide (n = j)) as [->|Hne].
  - rewrite decide_True by done. rewrite bytes_bits_lookup. rewrite <- !list_fmap_compose || idtac.
    destruct (bs !! (j / 8)%nat); simpl; [|done]. by rewrite Ht, Z.eqb_refl, orb_true_r.
  - rewrite bytes_bits_lookup. destruct (decide (n / 8 = j / 8)%nat) as [He|]; [|done].
    rewrite He. destruct (bs !! (j / 8)%nat); simpl; [|done]. rewrite Ht.
    rewrite (proj2 (Z.eqb_neq _ _)), orb_false_r by lia. done.
Qed.

Lemma set_bit_bytes bs i k : (k <= 7)%nat -> all_bytes bs ->
  all_bytes (alter (fun b => Z.lor b (Z.shiftl 1 (Z.of_nat k))) i bs).
Proof.
  intros Hk Hbs. apply Forall_lookup. intros j x. rewrite list_lookup_alter.
  rewrite Forall_lookup in Hbs. destruct (decide _); [|apply Hbs].
  destruct (bs !! i) eqn:Hi; simpl; intros [= <-]. apply in_width_lor; [lia|by eapply Hbs|].
  rewrite Z.shiftl_1_l. unfold in_width. split; [lia|]. apply Z.pow_lt_mono_r; lia.
Qed.

Lemma Repr_default : Repr default [].
Proof. unfold Repr. simpl. repeat split; [constructor|unfold MAX_CELL_BITS; lia]. Qed.

Lemma ndiv_ceil_8 n : ndiv_ceil n 8 = (n / 8 + if (n mod 8 =? 0)%nat then 0 else 1)%nat.
Proof.
  unfold ndiv_ceil. pose proof (Nat.div_mod_eq n 8). pose proof (Nat.mod_upper_bound n 8).
  destruct (n mod 8 =? 0)%nat eqn:E; zbool;
    [symmetry; apply (Nat.div_unique _ _ _ 7)|symmetry; apply (Nat.div_unique _ _ _ (n mod 8 - 1))]; lia.
Qed.

(** The bytes of the writer once room for one more bit is made. *)
Lemma grow_repr w l : Repr w l ->
  let bs := if (bit_len w mod 8 =? 0)%nat then bytes w ++ [0] else bytes w in
  all_bytes bs /\ length bs = ndiv_ceil (S (length l)) 8 /\ (length l < length bs * 8)%nat /\
  bytes_bits bs = l ++ replicate (length bs * 8 - length l) false.
Proof.
  intros (Hlen & Hb & Hmax & Hl & Hbits). rewrite Hlen. cbv zeta.
  rewrite ndiv_ceil_8 in Hl. pose proof (Nat.div_mod_eq (length l) 8).
  pose proof (Nat.mod_upper_bound (length l) 8).
  assert (ndiv_ceil (S (length l)) 8 = length l / 8 + 1)%nat as Hc.
  { unfold ndiv_ceil. symmetry. apply (Nat.div_unique _ _ _ (length l mod 8)); lia. }
  rewrite Hc.
  destruct (length l mod 8 =? 0)%nat eqn:E; zbool.
  - autorewrite with rust_len. split; [apply Forall_app; split; [done|]; repeat constructor; zlia|].
    split; [lia|]. split; [lia|]. rewrite bytes_bits_app, Hbits.
    replace (length (bytes w) * 8 - length l)%nat with 0%nat by lia. rewrite app_nil_r.
    simpl length. replace ((length (bytes w) + 1) * 8 - length l)%nat with 8%nat by lia. done.
  - split; [done|]. split; [lia|]. split; [lia|done].
Qed.

Lemma write_bit_repr w l b : Repr w l -> (length l < MAX_CELL_BITS)%nat ->
  exists w', write_bit w b = Ok w' /\ Repr w' (l ++ [b]).
Proof.
  intros HR Hlt. pose proof (grow_repr w l HR) as (Hb & Hlen & Hroom & Hbits).
  destruct HR as (Hn & _). unfold write_bit. rewrite Hn in *.
  test_false (length l =? MAX_CELL_BITS)%nat.
  set (bs := if (length l mod 8 =? 0)%nat then bytes w ++ [0] else bytes w) in *.
  eexists; split; [done|]. pose proof (Nat.mod_upper_bound (length l) 8).
  assert (length (if b then alter (fun x => Z.lor x (Z.shiftl 1 (Z.of_nat (7 - length l mod 8))))
    (length l / 8)%nat bs else bs) = length bs) as HL by (destruct b; rewrite ?length_alter; done).
  repeat split; simpl; rewrite ?HL; autorewrite with rust_len; simpl length.
  - lia.
  - destruct b; [apply set_bit_bytes; [lia|done]|done].
  - unfold MAX_CELL_BITS in *; lia.
  - by rewrite Hlen, Nat.add_1_r.
  - rewrite <- app_assoc. simpl.
    replace (length bs * 8 - length l)%nat with (S (length bs * 8 - (length l + 1)))%nat in Hbits by lia.
    destruct b; [|done]. rewrite bytes_bits_set, Hbits. simpl replicate.
    rewrite alter_app_r_alt, Nat.sub_diag by lia. done.
Qed.

(** Writing a list of bits. *)
Definition write_all (w : t) (l : list bool) : result string t := try_fold write_bit w l.

Lemma write_all_repr w l0 l : Repr w l0 -> (length l0 + length l <= MAX_CELL_BITS)%nat ->
  exists w', write_all w l = Ok w' /\ Repr w' (l0 ++ l).
Proof.
  revert w l0; induction l as [|b l IH]; intros w l0 HR Hlen.
  - exists w. rewrite app_nil_r. done.
  - simpl length in Hlen. destruct (write_bit_repr w l0 b HR) as (w1 & H1 & HR1); [lia|].
    destruct (IH w1 (l0 ++ [b]) HR1) as (w2 & H2 & HR2); [autorewrite with rust_len; simpl; lia|].
    exists w2. unfold write_all. simpl. rewrite H1. split; [done|]. by rewrite <- app_assoc in HR2.
Qed.

Lemma write_all_full w l0 l : Repr w l0 -> (MAX_CELL_BITS < length l0 + length l)%nat ->
  write_all w l = Err "cell exceeds 1023 bits"%string.
Proof.
  revert w l0; induction l as [|b l IH]; intros w l0 HR Hlen; simpl in Hlen.
  { destruct HR as (_ & _ & Hmax & _). lia. }
  unfold write_all. simpl. destruct (decide (length l0 = MAX_CELL_BITS)) as [He|].
  - unfold write_bit. destruct HR as (-> & _). by test_true (length l0 =? MAX_CELL_BITS)%nat.
  - destruct (write_bit_repr w l0 b HR) as (w1 & -> & HR1).
    { destruct HR as (_ & _ & Hmax & _). lia. }
    apply (IH w1 (l0 ++ [b]) HR1). autorewrite with rust_len. simpl. lia.
Qed.

Lemma try_fold_map {A : Type} (f : A -> bool) w l :
  try_fold (fun w x => write_bit w (f x)) w l = write_all w (map f l).
Proof. revert w; induction l as [|x l IH]; intros w; [done|]. simpl.
  unfold write_all. simpl. destruct (write_bit w (f x)); [apply IH|done]. Qed.

Lemma write_uint_all w n v : (n <= 64)%nat -> 0 <= v < 2 ^ Z.of_nat n ->
  write_uint w n v = write_all w (uint_bits n v).
Proof.
  intros Hn Hv. unfold write_uint. test_false (64 <? n)%nat.
  rewrite Z.shiftr_div_pow2, Z.div_small, andb_false_r by lia.
  rewrite try_fold_map. f_equal. apply map_ext. intros. apply bit_at_testbit.
Qed.

Lemma write_bits_all w bs n : all_bytes bs -> (n <= length bs * 8)%nat ->
  write_bits w bs n = write_all w (take n (bytes_bits bs)).
Proof.
  intros Hb Hn. unfold write_bits. test_false (length bs * 8 <? n)%nat.
  rewrite try_fold_map. f_equal. apply list_eq. intros i.
  destruct (decide (i < n)%nat) as [Hi|].
  - rewrite lookup_take_lt, bytes_bits_lookup by done.
    change (map ?f ?l) with (f <$> l). rewrite list_lookup_fmap, lookup_seq_lt by done. simpl.
    destruct (lookup_lt_is_Some_2 bs (i / 8)) as [x Hx]; [apply Nat.Div0.div_lt_upper_bound; lia|].
    rewrite (list_lookup_total_correct _ _ _ Hx), Hx. simpl. rewrite bit_at_testbit. repeat f_equal.
    pose proof (Nat.mod_upper_bound i 8). lia.
  - rewrite !lookup_ge_None_2; [done|..]; rewrite ?length_take, ?length_map, ?length_seq; lia.
Qed.

Lemma write_bytes_all w bs : all_bytes bs -> write_bytes w bs = write_all w (bytes_bits bs).
Proof.
  intros. unfold write_bytes. rewrite write_bits_all by done.
  by rewrite take_ge by (autorewrite with rust_len; lia).
Qed.

End WriterFacts.

(** ** The reader consumes bits *)

Module ReaderFacts.
Import BitReader.

Lemma rest_length r : wf r -> length (rest r) = remaining_bits r.
Proof. intros (H1 & H2 & _). unfold rest, remaining_bits. autorewrite with rust_len. lia. Qed.

Lemma rest_lookup r i : (bit_position r + i < bit_len r)%nat ->
  rest r !! i = bytes_bits (bytes r) !! (bit_position r + i)%nat.
Proof. intros. unfold rest. by rewrite lookup_drop, lookup_take_lt. Qed.

Lemma rest_step r : rest (Mk (bytes r) (bit_len r) (bit_position r + 1)) = drop 1 (rest r).
Proof. unfold rest. simpl. by rewrite drop_drop. Qed.

Lemma read_bit_cons r b l : wf r -> rest r = b :: l ->
  read_bit r = Ok (b, Mk (bytes r) (bit_len r) (bit_position r + 1)) /\
  rest (Mk (bytes r) (bit_len r) (bit_position r + 1)) = l /\
  wf (Mk (bytes r) (bit_len r) (bit_position r + 1)).
Proof.
  intros Hwf Hr. pose proof (rest_length r Hwf) as HL. rewrite Hr in HL. simpl in HL.
  destruct Hwf as (H1 & H2 & H3 & H4). unfold remaining_bits in HL.
  split; [|split; [by rewrite rest_step, Hr|unfold wf; simpl; repeat split; auto; lia]].
  unfold read_bit. test_false (bit_len r <=? bit_position r)%nat. do 3 f_equal.
  assert (rest r !! 0%nat = Some b) as Hb by (by rewrite Hr).
  rewrite rest_lookup, Nat.add_0_r, bytes_bits_lookup in Hb by lia.
  destruct (bytes r !! (bit_position r / 8)%nat) as [x|] eqn:E; [|done].
  rewrite (list_lookup_total_correct _ _ _ E), bit_at_testbit. simpl in Hb. injection Hb as <-.
  f_equal. pose proof (Nat.mod_upper_bound (bit_position r) 8). lia.
Qed.

Lemma read_bit_end r : wf r -> rest r = [] -> read_bit r = Err "unexpected end of input"%string.
Proof.
  intros Hwf Hr. pose proof (rest_length r Hwf) as HL. rewrite Hr in HL. simpl in HL.
  unfold read_bit, remaining_bits in *. by test_true (bit_len r <=? bit_position r)%nat.
Qed.

Definition advance (r : t) (n : nat) : t := Mk (bytes r) (bit_len r) (bit_position r + n).

Lemma advance_wf r n : wf r -> (n <= length (rest r))%nat -> wf (advance r n).
Proof.
  intros Hwf Hn. rewrite rest_length in Hn by done. unfold remaining_bits in Hn.
  destruct Hwf as (H1 & H2 & H3 & H4). unfold wf; simpl. repeat split; auto; lia.
Qed.

Lemma advance_rest r n : rest (advance r n) = drop n (rest r).
Proof. unfold rest, advance. simpl. by rewrite drop_drop. Qed.

Lemma read_uint_loop_spec n r acc : wf r -> (n <= length (rest r))%nat ->
  0 <= acc -> acc * 2 ^ Z.of_nat n + 2 ^ Z.of_nat n <= 2 ^ 64 ->
  read_uint_loop n acc r = Ok (acc * 2 ^ Z.of_nat n + uint_of_bits (take n (rest r)), advance r n).
Proof.
  revert r acc; induction n as [|n IH]; intros r acc Hwf Hn Hacc Hmax.
  { simpl. unfold advance. destruct r. simpl. rewrite Nat.add_0_r. do 3 f_equal.
    unfold uint_of_bits. simpl. lia. }
  destruct (rest r) as [|b l] eqn:Hr; [simpl in Hn; lia|].
  destruct (read_bit_cons r b l Hwf Hr) as (H1 & H2 & H3).
  simpl read_uint_loop. rewrite H1. rewrite Nat2Z.inj_succ, Z.pow_succ_r in Hmax |- * by lia.
  assert (0 < 2 ^ Z.of_nat n) by (apply Z.pow_pos_nonneg; lia).
  assert (acc * 2 + 2 <= 2 ^ 64) by nia.
  assert (Z.lor (as_u64 (acc ≪ 1)) (Z.b2z b) = 2 * acc + Z.b2z b) as ->.
  { unfold as_u64. rewrite wrap_small.
    2:{ unfold in_width. rewrite Z.shiftl_mul_pow2 by lia. change (2 ^ 1) with 2. lia. }
    rewrite lor_add_disjoint; [change (2 ^ 1) with 2; lia|lia|destruct b; unfold in_width; simpl; lia]. }
  rewrite IH; [|done|rewrite H2; simpl in Hn; lia|destruct b; simpl; lia|destruct b; simpl; nia].
  rewrite H2. simpl take. rewrite uint_of_bits_cons, length_take_le by (simpl in Hn; lia).
  unfold advance. cbn [bytes bit_len bit_position]. do 2 f_equal; [ring|].
  f_equal. lia.
Qed.

Lemma read_uint_spec r n : wf r -> (n <= 64)%nat -> (n <= length (rest r))%nat ->
  read_uint r n = Ok (uint_of_bits (take n (rest r)), advance r n).
Proof.
  intros Hwf Hn Hl. unfold read_uint. test_false (64 <? n)%nat.
  rewrite read_uint_loop_spec; [done|done|done|lia|].
  rewrite Z.mul_0_l, Z.add_0_l. apply Z.pow_le_mono_r; lia.
Qed.

Lemma read_uint_short r n : wf r -> (length (rest r) < n)%nat -> (n <= 64)%nat ->
  read_uint r n = Err "unexpected end of input"%string.
Proof.
  intros Hwf Hl Hn. unfold read_uint. test_false (64 <? n)%nat. clear Hn. generalize 0 at 1.
  revert r Hwf Hl; induction n as [|n IH]; intros r Hwf Hl acc; [lia|].
  simpl. destruct (rest r) as [|b l] eqn:Hr; [by rewrite read_bit_end|].
  destruct (read_bit_cons r b l Hwf Hr) as (-> & H2 & H3). apply IH; [done|].
  rewrite H2. simpl in Hl. lia.
Qed.

(** *** Byte-aligned readers *)

(** The reader over [pre ++ post] that has consumed [pre]. *)
Definition reader_at (pre post : list Z) : t :=
  Mk (pre ++ post) (length (pre ++ post) * 8) (length pre * 8).

Lemma new_reader_at bs : new bs = reader_at [] bs.
Proof. done. Qed.

Lemma reader_at_position pre post : position (reader_at pre post) = length pre.
Proof. unfold position. simpl. by rewrite Nat.div_mul. Qed.

Lemma reader_at_remaining pre post : remaining (reader_at pre post) = length post.
Proof.
  unfold remaining, remaining_bits. simpl. rewrite length_app.
  replace ((length pre + length post) * 8 - length pre * 8)%nat with (length post * 8)%nat by lia.
  unfold ndiv_ceil. symmetry. apply (Nat.div_unique _ _ _ 7); lia.
Qed.

Lemma reader_at_wf pre post : all_bytes (pre ++ post) ->
  Z.of_nat (length (pre ++ post) * 8) <= U64_MAX -> wf (reader_at pre post).
Proof. intros. unfold wf; simpl. repeat split; auto; rewrite ?length_app; lia. Qed.

Lemma reader_at_rest pre post : rest (reader_at pre post) = bytes_bits post.
Proof.
  unfold rest, reader_at. simpl. rewrite take_ge by (autorewrite with rust_len; lia).
  rewrite bytes_bits_app. rewrite drop_app_ge by (autorewrite with rust_len; lia).
  autorewrite with rust_len. by rewrite Nat.sub_diag.
Qed.

Lemma reader_at_advance pre bs post :
  advance (reader_at pre (bs ++ post)) (length bs * 8) = reader_at (pre ++ bs) post.
Proof. unfold advance, reader_at. simpl. rewrite app_assoc, (length_app pre bs). f_equal. lia. Qed.

Lemma read_bytes_at pre bs post : Z.of_nat (length (pre ++ bs ++ post) * 8) <= U64_MAX ->
  read_bytes (reader_at pre (bs ++ post)) (length bs) = Ok (bs, reader_at (pre ++ bs) post).
Proof.
  intros Hmax. unfold read_bytes. simpl. rewrite Nat.Div0.mod_mul. simpl.
  rewrite !length_app in Hmax. unfold checked_mul. test_true (Z.of_nat (length bs) * 8 <=? U64_MAX).
  simpl. unfold remaining_bits. simpl. rewrite !length_app.
  test_false (Z.of_nat ((length pre + (length bs + length post)) * 8 - length pre * 8)
    <? Z.of_nat (length bs) * 8).
  rewrite reader_at_position. unfold checked_add.
  test_true (Z.of_nat (length pre) + Z.of_nat (length bs) <=? U64_MAX). simpl.
  rewrite drop_app_length. f_equal. f_equal.
  - rewrite take_app_le by lia. apply take_ge. lia.
  - rewrite <- reader_at_advance. unfold advance, reader_at. simpl. f_equal; rewrite ?length_app; lia.
Qed.

(** A read past the end fails. *)
Lemma read_bytes_short pre post n : (length post < n)%nat -> Z.of_nat n * 8 <= U64_MAX ->
  read_bytes (reader_at pre post) n = Err "unexpected end of input"%string.
Proof.
  intros Hn Hmax. unfold read_bytes. simpl. rewrite Nat.Div0.mod_mul. simpl.
  unfold checked_mul. test_true (Z.of_nat n * 8 <=? U64_MAX). simpl.
  unfold remaining_bits. simpl. rewrite length_app.
  by test_true (Z.of_nat ((length pre + length post) * 8 - length pre * 8) <? Z.of_nat n * 8).
Qed.

Lemma read_uint_at pre bs post k : all_bytes (pre ++ bs ++ post) -> k = (length bs * 8)%nat ->
  (length bs <= 8)%nat -> Z.of_nat (length (pre ++ bs ++ post) * 8) <= U64_MAX ->
  read_uint (reader_at pre (bs ++ post)) k = Ok (of_be bs, reader_at (pre ++ bs) post).
Proof.
  intros Hb -> Hn Hmax. rewrite read_uint_spec;
    [|by apply reader_at_wf|lia|rewrite reader_at_rest; autorewrite with rust_len; lia].
  rewrite reader_at_rest, reader_at_advance, bytes_bits_app, take_app_le, take_ge
    by (autorewrite with rust_len; lia).
  rewrite uint_of_bits_bytes; [done|]. apply Forall_app in Hb as [_ Hb]. by apply Forall_app in Hb as [? _].
Qed.

Lemma read_u8_at pre b post : all_bytes (pre ++ b :: post) ->
  Z.of_nat (length (pre ++ b :: post) * 8) <= U64_MAX ->
  read_u8 (reader_at pre (b :: post)) = Ok (b, reader_at (pre ++ [b]) post).
Proof.
  intros Hb Hmax. unfold read_u8. change (b :: post) with ([b] ++ post) in *.
  rewrite (read_uint_at pre [b] post 8) by (done || simpl; lia).
  assert (is_byte b) by (apply Forall_app in Hb as [_ Hb]; by inversion Hb).
  unfold of_be; simpl. rewrite as_u8_small; [done|zlia].
Qed.

Lemma read_u32_at pre bs post : all_bytes (pre ++ bs ++ post) -> length bs = 4%nat ->
  Z.of_nat (length (pre ++ bs ++ post) * 8) <= U64_MAX ->
  read_u32 (reader_at pre (bs ++ post)) = Ok (of_be bs, reader_at (pre ++ bs) post).
Proof.
  intros Hb Hl Hmax. unfold read_u32. rewrite (read_uint_at pre bs post 32) by (done || lia).
  unfold as_u32. rewrite wrap_small; [done|].
  apply Forall_app in Hb as [_ Hb]. apply Forall_app in Hb as [Hb _].
  pose proof (of_be_bound bs Hb) as HB. rewrite Hl in HB. exact HB.
Qed.

Lemma var_uint_fold bs acc : all_bytes bs -> 0 <= acc ->
  (acc + 1) * 2 ^ (8 * Z.of_nat (length bs)) <= 2 ^ 64 ->
  fold_left (fun a b => Z.lor (as_u64 (Z.shiftl a 8)) b) bs acc = fold_left (fun a b => a * 256 + b) bs acc.
Proof.
  intros Hb. revert acc. induction Hb as [|b bs Hb Hbs IH]; intros acc Ha Hm; [done|].
  simpl length in Hm. rewrite pow_8S in Hm.
  assert (0 < 2 ^ (8 * Z.of_nat (length bs))) by (apply Z.pow_pos_nonneg; lia).
  unfold in_width in Hb. change (2 ^ 8) with 256 in Hb. simpl fold_left.
  assert (Z.lor (as_u64 (acc ≪ 8)) b = acc * 256 + b) as ->.
  { unfold as_u64. rewrite wrap_small.
    - rewrite lor_add_disjoint; [change (2 ^ 8) with 256; lia|lia|done].
    - unfold in_width. rewrite Z.shiftl_mul_pow2 by lia. change (2 ^ 8) with 256. nia. }
  apply IH; [lia|nia].
Qed.

Lemma read_var_uint_at pre bs post : all_bytes bs -> (length bs <= 8)%nat ->
  Z.of_nat (length (pre ++ bs ++ post) * 8) <= U64_MAX ->
  read_var_uint (reader_at pre (bs ++ post)) (length bs) = Ok (of_be bs, reader_at (pre ++ bs) post).
Proof.
  intros Hb Hl Hmax. unfold read_var_uint. rewrite read_bytes_at by done.
  rewrite var_uint_fold; [done|done|lia|].
  rewrite Z.mul_1_l. apply Z.pow_le_mono_r; lia.
Qed.

Lemma read_u32_le_at pre bs post : length bs = 4%nat ->
  Z.of_nat (length (pre ++ bs ++ post) * 8) <= U64_MAX ->
  read_u32_le (reader_at pre (bs ++ post)) = Ok (of_le bs, reader_at (pre ++ bs) post).
Proof.
  intros Hl Hmax. unfold read_u32_le. rewrite <- Hl at 1. rewrite read_bytes_at by done.
  by rewrite Hl.
Qed.

(** *** Reading back what was written *)

Lemma read_uint_rest r n v l : wf r -> (n <= 64)%nat -> 0 <= v < 2 ^ Z.of_nat n ->
  rest r = uint_bits n v ++ l ->
  read_uint r n = Ok (v, advance r n) /\ wf (advance r n) /\ rest (advance r n) = l.
Proof.
  intros Hwf Hn Hv Hr. assert (n <= length (rest r))%nat as Hle
    by (rewrite Hr; autorewrite with rust_len; lia).
  rewrite read_uint_spec, advance_rest, Hr by done.
  rewrite take_app_le, take_ge by (autorewrite with rust_len; lia).
  rewrite drop_app_ge by (autorewrite with rust_len; lia). autorewrite with rust_len.
  rewrite Nat.sub_diag, uint_of_bits_uint_bits, Z.mod_small by done.
  split; [done|]. split; [by apply advance_wf|done].
Qed.

Lemma read_u8_rest r b l : wf r -> is_byte b -> rest r = byte_bits b ++ l ->
  read_u8 r = Ok (b, advance r 8) /\ wf (advance r 8) /\ rest (advance r 8) = l.
Proof.
  intros Hwf Hb Hr. destruct (read_uint_rest r 8 b l Hwf) as (H1 & H2 & H3); [lia|exact Hb|done|].
  unfold read_u8. rewrite H1, as_u8_small by done. done.
Qed.

Lemma read_u8_repeat bs r l : wf r -> all_bytes bs -> rest r = bytes_bits bs ++ l ->
  exists r', repeat_state (length bs) read_u8 r = Ok (bs, r') /\ wf r' /\ rest r' = l.
Proof.
  intros Hwf Hbs. revert r Hwf. induction Hbs as [|b bs Hb _ IH]; intros r Hwf Hr; [by exists r|].
  rewrite bytes_bits_cons, <- app_assoc in Hr.
  destruct (read_u8_rest r b _ Hwf Hb Hr) as (H1 & H2 & H3). simpl. rewrite H1.
  destruct (IH _ H2 H3) as (r' & -> & H4 & H5). by exists r'.
Qed.

End ReaderFacts.

(** ** Properties *)

Section properties.
Import BitWriter BitReader.

(** One [write_uint] per item, and the reads with the same widths. *)
Definition write_items (w : BitWriter.t) (items : list (nat * Z)) : result string BitWriter.t :=
  try_fold (fun w '(n, v) => write_uint w n v) w items.

Fixpoint read_items (r : BitReader.t) (items : list (nat * Z)) : result string (list Z * BitReader.t) :=
  match items with
  | [] => Ok ([], r)
  | (n, _) :: items =>
      let? (v, r) := read_uint r n in
      let? (vs, r) := read_items r items in
      Ok (v :: vs, r)
  end.

Definition item_bits (items : list (nat * Z)) : list bool := flat_map (fun '(n, v) => uint_bits n v) items.
Definition item_ok (item : nat * Z) : Prop := (item.1 <= 64)%nat /\ 0 <= item.2 < 2 ^ Z.of_nat item.1.

Lemma write_items_repr w l items : Repr w l -> Forall item_ok items ->
  (length l + length (item_bits items) <= MAX_CELL_BITS)%nat ->
  exists w', write_items w items = Ok w' /\ Repr w' (l ++ item_bits items).
Proof.
  intros HR Hok. revert w l HR. induction Hok as [|[n v] items [Hn Hv] _ IH]; intros w l HR Hl.
  - exists w. by rewrite app_nil_r.
  - simpl in *. rewrite length_app in Hl.
    unfold write_items. simpl. rewrite WriterFacts.write_uint_all by done.
    destruct (WriterFacts.write_all_repr w l (uint_bits n v) HR) as (w1 & -> & HR1); [lia|].
    destruct (IH w1 _ HR1) as (w2 & H2 & HR2); [rewrite length_app; lia|].
    exists w2. split; [exact H2|]. by rewrite <- app_assoc in HR2.
Qed.

Lemma read_items_rest r items l : wf r -> Forall item_ok items -> rest r = item_bits items ++ l ->
  exists r', read_items r items = Ok (items.*2, r') /\ wf r' /\ rest r' = l.
Proof.
  intros Hwf Hok. revert r Hwf. induction Hok as [|[n v] items [Hn Hv] _ IH]; intros r Hwf Hr.
  - by exists r.
  - simpl in *. rewrite <- app_assoc in Hr.
    destruct (ReaderFacts.read_uint_rest r n v _ Hwf Hn Hv Hr) as (-> & H2 & H3).
    destruct (IH _ H2 H3) as (r' & -> & H4 & H5). by exists r'.
Qed.

Lemma from_bits_repr w l : Repr w l ->
  exists r, from_bits (BitWriter.bytes w) (BitWriter.bit_len w) = Ok r /\ wf r /\ rest r = l.
Proof.
  intros (Hn & Hb & Hmax & Hl & Hbits). unfold from_bits.
  rewrite WriterFacts.ndiv_ceil_8 in Hl. pose proof (Nat.div_mod_eq (length l) 8).
  pose proof (Nat.mod_upper_bound (length l) 8).
  assert (length l <= length (BitWriter.bytes w) * 8 /\ length (BitWriter.bytes w) <= 128)%nat as [Hle Hle'].
  { unfold MAX_CELL_BITS in Hmax. destruct (length l mod 8 =? 0)%nat eqn:E; zbool; lia. }
  rewrite Hn. test_false (length (BitWriter.bytes w) * 8 <? length l)%nat.
  eexists; split; [done|]. split.
  - unfold wf, U64_MAX; simpl. repeat split; auto; lia.
  - unfold rest. simpl. by rewrite drop_0, Hbits, take_app_length.
Qed.

(** Bit-level round trip: any sequence of integers of at most 64 bits that fits
    a cell is written without error into an empty [BitWriter], and a
    [BitReader] over the written bits reads exactly those integers back and
    ends with no bit left. *)
Theorem write_read_uints (items : list (nat * Z)) :
  Forall item_ok items -> (length (item_bits items) <= MAX_CELL_BITS)%nat ->
  exists w r r', write_items BitWriter.default items = Ok w /\
    from_bits (BitWriter.bytes w) (BitWriter.bit_len w) = Ok r /\
    read_items r items = Ok (items.*2, r') /\ remaining_bits r' = 0%nat.
Proof.
  intros Hok Hl.
  destruct (write_items_repr BitWriter.default [] items) as (w & Hw & HR);
    [apply WriterFacts.Repr_default|done|simpl; lia|].
  destruct (from_bits_repr w _ HR) as (r & Hr & Hwf & Hrest). simpl in Hrest.
  rewrite <- (app_nil_r (item_bits items)) in Hrest.
  destruct (read_items_rest r items [] Hwf Hok Hrest) as (r' & Hr' & Hwf' & Hend).
  exists w, r, r'. repeat split; auto. by rewrite <- ReaderFacts.rest_length, Hend.
Qed.

Lemma write_read_uints_witness :
  exists w r r', write_items BitWriter.default [(3%nat, 5); (64%nat, 2 ^ 64 - 1); (0%nat, 0); (13%nat, 4097)] = Ok w /\
    from_bits (BitWriter.bytes w) (BitWriter.bit_len w) = Ok r /\
    read_items r [(3%nat, 5); (64%nat, 2 ^ 64 - 1); (0%nat, 0); (13%nat, 4097)]
      = Ok ([5; 2 ^ 64 - 1; 0; 4097], r') /\ remaining_bits r' = 0%nat.
Proof.
  apply (write_read_uints [(3%nat, 5); (64%nat, 2 ^ 64 - 1); (0%nat, 0); (13%nat, 4097)]).
  - repeat constructor; simpl; lia.
  - vm_compute. lia.
Defined.

(** [BitWriter::write_uint] on every branch: a width above 64, a value
    that does not fit the width and a cell without room are the three
    errors, tested in that order; otherwise exactly the [n] bits of the
    value, most significant first, are appended. *)
Theorem write_uint_branches (w : BitWriter.t) (l : list bool) (n : nat) (value : Z) :
  Repr w l -> is_u64 value ->
  if (64 <? n)%nat then write_uint w n value = Err "fixed-size integers above 64 bits are not supported"%string
  else if 2 ^ Z.of_nat n <=? value then write_uint w n value = Err "integer does not fit requested bit length"%string
  else if (MAX_CELL_BITS <? length l + n)%nat then write_uint w n value = Err "cell exceeds 1023 bits"%string
  else exists w', write_uint w n value = Ok w' /\ Repr w' (l ++ uint_bits n value).
Proof.
  intros HR Hv. unfold in_width in Hv. destruct (64 <? n)%nat eqn:H64.
  { unfold write_uint. by rewrite H64. }
  destruct (2 ^ Z.of_nat n <=? value) eqn:Hfit; zbool.
  - unfold write_uint. test_false (64 <? n)%nat.
    assert (n < 64)%nat by (destruct (decide (n = 64%nat)) as [->|]; [change (2 ^ Z.of_nat 64) with (2 ^ 64) in Hfit|]; lia).
    test_true (n <? 64)%nat. rewrite Z.shiftr_div_pow2 by lia.
    assert (1 <= value / 2 ^ Z.of_nat n) by (apply Z.div_le_lower_bound; lia).
    by test_false (value / 2 ^ Z.of_nat n =? 0).
  - rewrite WriterFacts.write_uint_all by lia.
    destruct (MAX_CELL_BITS <? length l + n)%nat eqn:Hroom; zbool.
    + apply (WriterFacts.write_all_full w l); [done|]. rewrite uint_bits_length. lia.
    + apply WriterFacts.write_all_repr; [done|]. rewrite uint_bits_length. lia.
Qed.

Lemma write_uint_branches_witness :
  write_uint (BitWriter.Mk [160] 3) 4 16 = Err "integer does not fit requested bit length"%string.
Proof.
  apply (write_uint_branches (BitWriter.Mk [160] 3) [true; false; true] 4 16).
  - repeat split; simpl; [by constructor|unfold MAX_CELL_BITS; lia].
  - done.
Defined.

End properties.
