(* ===== verification/TonCell.v ===== *)
(** Cells and the cell builder: [gem_ton/src/tvm/cell.rs] (module [Cell]) and
    [gem_ton/src/tvm/builder.rs] (module [CellBuilder]). *)
From S2P Require Import Prelude Crates TonBits.

Module Cell.

(** [struct Cell]; [Arc<Cell>] is sharing without mutation. *)
Inductive t : Type := Mk {
  data : bytes;
  bit_len : nat;
  references : list t;
  depth : Z;
  hash : bytes;
}.

Definition bits_descriptor (n : nat) : option Z :=
  let data_len := ndiv_ceil n 8 in
  if (128 <? data_len)%nat then None
  else Some (as_u8 (Z.of_nat data_len * 2 - (if (n mod 8 =? 0)%nat then 0 else 1))).

Definition serialized_bits (d : bytes) (n : nat) : bytes :=
  let data_len := ndiv_ceil n 8 in
  if (data_len =? 0)%nat then [] else
  let serialized := take data_len d in
  if negb (n mod 8 =? 0)%nat then
    let marker_shift := (8 - n mod 8 - 1)%nat in
    let last_index := (length serialized - 1)%nat in
    alter (fun b => Z.lor b (Z.shiftl 1 (Z.of_nat marker_shift))) last_index serialized
  else serialized.

(** [references.iter().map(|r| r.depth).max()] *)
Definition max_depth (refs : list t) : option Z :=
  match map depth refs with
  | [] => None
  | d :: ds => Some (fold_left Z.max ds d)
  end.

(** [u16::checked_add(1)] *)
Definition checked_succ_u16 (d : Z) : option Z := if d + 1 <? 2 ^ 16 then Some (d + 1) else None.

Section with_hash.
Context `{Sha256}.

Definition representation (d : bytes) (descriptor : Z) (n : nat) (refs : list t) : bytes :=
  [as_u8 (Z.of_nat (length refs))] ++ [descriptor] ++ serialized_bits d n
  ++ flat_map (fun r => be_bytes 2 (depth r)) refs ++ flat_map hash refs.

Definition try_new (d : bytes) (n : nat) (refs : list t) : option t :=
  if (MAX_CELL_BITS <? n)%nat || (MAX_CELL_REFERENCES <? length refs)%nat
     || negb (length d =? ndiv_ceil n 8)%nat
  then None else
  let?? dep := match refs with
               | [] => Some 0
               | _ => let?? m := max_depth refs in checked_succ_u16 m
               end in
  let?? descriptor := bits_descriptor n in
  Some (Mk d n refs dep (sha256 (representation d descriptor n refs))).

Definition new (d : bytes) (n : nat) (refs : list t) : result string t :=
  ok_or (try_new d n refs) "invalid cell"%string.

(** Bits past [n] in the last byte are zero. *)
Definition zero_padded (d : bytes) (n : nat) : Prop :=
  bytes_bits d = take n (bytes_bits d) ++ replicate (length d * 8 - n) false.

(** A cell produced by [new] from well-formed cells and zero-padded data. *)
Inductive wf : t -> Prop :=
| wf_new d n refs c :
    all_bytes d -> zero_padded d n -> Forall wf refs -> try_new d n refs = Some c -> wf c.

(** The data bits of a cell. *)
Definition bits (c : t) : list bool := take (bit_len c) (bytes_bits (data c)).

End with_hash.
End Cell.

Module CellBuilder.

Record t : Type := Mk { writer : BitWriter.t; references : list Cell.t }.

Definition new : t := Mk BitWriter.default [].

(** Every [store_*] returns the builder so that calls chain. *)
Definition on_writer (b : t) (r : result string BitWriter.t) : result string t :=
  let? w := r in Ok (Mk w (references b)).

Definition store_bit (b : t) (value : bool) : result string t :=
  on_writer b (BitWriter.write_bit (writer b) value).

Definition store_u8 (b : t) (n : nat) (value : Z) : result string t :=
  on_writer b (BitWriter.write_uint (writer b) n value).

Definition store_u32 (b : t) (n : nat) (value : Z) : result string t :=
  on_writer b (BitWriter.write_uint (writer b) n value).

(** [value as u32 as u64] *)
Definition store_i32 (b : t) (n : nat) (value : Z) : result string t :=
  on_writer b (BitWriter.write_uint (writer b) n (as_u32 value)).

Definition store_u64 (b : t) (n : nat) (value : Z) : result string t :=
  on_writer b (BitWriter.write_uint (writer b) n value).

Definition store_slice (b : t) (slice : bytes) : result string t :=
  on_writer b (BitWriter.write_bytes (writer b) slice).

Definition remaining_bits (b : t) : nat := (MAX_CELL_BITS - BitWriter.bit_len (writer b))%nat.

Definition store_reference (b : t) (cell : Cell.t) : result string t :=
  let next_len := (length (references b) + 1)%nat in
  if (MAX_CELL_REFERENCES <? next_len)%nat then Err "cell exceeds 4 references"%string
  else Ok (Mk (writer b) (references b ++ [cell])).

Definition store_maybe_reference (b : t) (cell : option Cell.t) : result string t :=
  match cell with
  | Some cell => let? b := store_bit b true in store_reference b cell
  | None => store_bit b false
  end.

Definition store_child (b : t) (cell : Cell.t) : result string t := store_reference b cell.

Definition store_cell_data (b : t) (cell : Cell.t) : result string t :=
  on_writer b (BitWriter.write_bits (writer b) (Cell.data cell) (Cell.bit_len cell)).

Definition store_cell (b : t) (cell : Cell.t) : result string t :=
  let? b := store_cell_data b cell in
  try_fold store_reference b (Cell.references cell).

Section with_hash.
Context `{Sha256}.

Definition build (b : t) : result string Cell.t :=
  Cell.new (BitWriter.bytes (writer b)) (BitWriter.bit_len (writer b)) (references b).

(** The recursion is on the tail of the slice: [fuel] bounds its depth. *)
Fixpoint store_slice_snake_fuel (fuel : nat) (b : t) (slice : bytes) : result string t :=
  match fuel with
  | O => Err "out of fuel"%string
  | S fuel' =>
      let byte_capacity := (remaining_bits b / 8)%nat in
      if (length slice <=? byte_capacity)%nat then store_slice b slice else
      let head := take byte_capacity slice in
      let tail := drop byte_capacity slice in
      let? b := store_slice b head in
      let? child := store_slice_snake_fuel fuel' new tail in
      let? cell := build child in
      store_child b cell
  end.

(** Two more than the bytes of the slice: only the first call can have no room. *)
Definition store_slice_snake (b : t) (slice : bytes) : result string t :=
  store_slice_snake_fuel (length slice + 2) b slice.

Definition store_string_snake (b : t) (value : bytes) : result string t :=
  store_slice_snake b value.
End with_hash.

Section with_biguint.
Context `{BigUint}.

Definition store_uint (b : t) (n : nat) (value : Z) : result string t :=
  let used_bits := Z.to_nat (biguint_bits value) in
  if (n <? used_bits)%nat
  then Err ("value does not fit in " +:+ pretty (N.of_nat n) +:+ " bits")%string else
  let leading_zero_bits := (n - used_bits)%nat in
  let leading_zero_bytes := (leading_zero_bits / 8)%nat in
  let? b := try_fold (fun b _ => store_u8 b 8 0) b (seq 0 leading_zero_bytes) in
  let extra_zero_bits := (leading_zero_bits mod 8)%nat in
  let? b := try_fold (fun b _ => store_bit b false) b (seq 0 extra_zero_bits) in
  match biguint_to_bytes_be value with
  | [] => Ok b
  | high_byte :: rest =>
      let high_bits :=
        if (used_bits =? 0)%nat then 0%nat
        else let k := (used_bits mod 8)%nat in if (k =? 0)%nat then 8%nat else k in
      let? b := (if (0 <? high_bits)%nat
                 then try_fold (fun b shift => store_bit b (bit_at high_byte shift)) b
                        (rev (seq 0 high_bits))
                 else Ok b) in
      try_fold (fun b byte => store_u8 b 8 byte) b rest
  end.

Definition store_coins (b : t) (value : Z) : result string t :=
  if value =? 0 then store_u8 b 4 0 else
  let bs := biguint_to_bytes_be value in
  let? b := store_u8 b 4 (as_u8 (Z.of_nat (length bs))) in
  store_uint b (length bs * 8) value.
End with_biguint.

(** The builder [b] holds the bits [l] and the references [rs]. *)
Definition Repr (b : t) (l : list bool) (rs : list Cell.t) : Prop :=
  BitWriter.Repr (writer b) l /\ references b = rs /\ (length rs <= MAX_CELL_REFERENCES)%nat.

End CellBuilder.

#[global] Arguments Cell.max_depth : simpl never.
#[global] Arguments Cell.try_new : simpl never.

(** ** Facts on cells *)

Module CellFacts.
Import Cell.
Section facts.
Context `{Sha256}.

(** Induction over the tree of a well-formed cell. *)
Lemma wf_tree_ind (P : t -> Prop) :
  (forall d n refs c, all_bytes d -> zero_padded d n -> Forall wf refs -> Forall P refs ->
     try_new d n refs = Some c -> P c) ->
  forall c, wf c -> P c.
Proof.
  intros Hstep. fix IH 2. intros c [d n refs c' Hd Hp Hrefs Hc].
  refine (Hstep d n refs c' Hd Hp Hrefs _ Hc). clear Hc.
  induction Hrefs as [|r rs Hr _ IHrs]; constructor; [by apply IH|exact IHrs].
Qed.

Lemma max_depth_bound refs m r : max_depth refs = Some m -> r ∈ refs -> depth r <= m.
Proof.
  unfold max_depth. destruct refs as [|r0 rs]; simpl; [done|]. intros [= <-] Hr.
  assert (forall l a x, (x = a \/ x ∈ l) -> x <= fold_left Z.max l a) as Hf.
  { induction l as [|y l IH]; intros a x Hx; simpl;
      [destruct Hx as [->|Hx%elem_of_nil]; [lia|done]|].
    assert (x = a \/ x = y \/ x ∈ l) as Hx' by (rewrite elem_of_cons in Hx; tauto).
    destruct Hx' as [He|[He|He]]; [| |apply IH; by right].
    all: transitivity (a `max` y); [lia|]; apply IH; by left. }
  apply Hf. apply elem_of_cons in Hr as [->|Hr]; [by left|right].
  apply list_elem_of_fmap. eauto.
Qed.

Lemma max_depth_least refs m b : max_depth refs = Some m -> Forall (fun r => depth r <= b) refs -> m <= b.
Proof.
  unfold max_depth. destruct refs as [|r0 rs]; simpl; [done|]. intros [= <-] Hall.
  inversion Hall as [|? ? H0 Hrs]; subst. clear Hall. revert H0. generalize (depth r0).
  induction Hrs as [|r rs Hr _ IH]; intros a Ha; simpl; [done|]. apply IH. lia.
Qed.

Lemma try_new_inv d n refs c : try_new d n refs = Some c ->
  (n <= MAX_CELL_BITS)%nat /\ (length refs <= MAX_CELL_REFERENCES)%nat /\
  length d = ndiv_ceil n 8 /\ data c = d /\ bit_len c = n /\ references c = refs.
Proof.
  unfold try_new. intros Hc. destruct (_ || _) eqn:E in Hc; [done|]. zbool. res_inv. done.
Qed.

Lemma try_new_depth d n refs c : try_new d n refs = Some c -> Forall (fun r => 0 <= depth r) refs ->
  0 <= depth c < 2 ^ 16 /\ Forall (fun r => depth r < depth c) refs.
Proof.
  unfold try_new. intros Hc Hrefs. destruct (_ || _) eqn:E in Hc; [done|]. zbool. res_inv.
  destruct refs as [|r0 rs]; res_inv; [split; [lia|constructor]|].
  unfold checked_succ_u16 in *. destruct (_ <? _) eqn:Hlt; [|done]. res_inv. zbool.
  assert (Forall (fun r => depth r <= z1) (r0 :: rs)) as Hall.
  { apply Forall_forall. intros r Hr. by eapply max_depth_bound. }
  split; [|eapply Forall_impl; [exact Hall|simpl; lia]].
  inversion Hrefs; inversion Hall; subst. lia.
Qed.

Lemma wf_depth c : wf c -> 0 <= depth c < 2 ^ 16 /\ Forall (fun r => depth r < depth c) (references c).
Proof.
  revert c. apply wf_tree_ind. intros d n refs c _ _ _ IH Hc.
  assert (Forall (fun r => 0 <= depth r) refs) as Hpos
    by (eapply Forall_impl; [exact IH|]; simpl; intros ? [? _]; lia).
  destruct (try_new_inv _ _ _ _ Hc) as (_ & _ & _ & _ & _ & ->). by eapply try_new_depth.
Qed.

Lemma wf_inv c : wf c ->
  all_bytes (data c) /\ zero_padded (data c) (bit_len c) /\ Forall wf (references c) /\
  try_new (data c) (bit_len c) (references c) = Some c /\
  (bit_len c <= MAX_CELL_BITS)%nat /\ (length (references c) <= MAX_CELL_REFERENCES)%nat /\
  length (data c) = ndiv_ceil (bit_len c) 8.
Proof.
  intros [d n refs c' Hd Hp Hr Hc]. pose proof (try_new_inv _ _ _ _ Hc) as (? & ? & ? & -> & -> & ->).
  done.
Qed.

(** [try_new] only fails on its guards and on the depth of the references. *)
Lemma try_new_some d n refs : (n <= MAX_CELL_BITS)%nat -> (length refs <= MAX_CELL_REFERENCES)%nat ->
  length d = ndiv_ceil n 8 -> Forall (fun r => depth r < 65535) refs ->
  exists c, try_new d n refs = Some c.
Proof.
  intros Hn Hr Hd Hdep. unfold try_new.
  test_false (MAX_CELL_BITS <? n)%nat. test_false (MAX_CELL_REFERENCES <? length refs)%nat.
  rewrite Hd, Nat.eqb_refl. simpl. unfold bits_descriptor.
  assert (ndiv_ceil n 8 <= 128)%nat as Hdc.
  { unfold ndiv_ceil. apply Nat.lt_succ_r. apply Nat.Div0.div_lt_upper_bound.
    unfold MAX_CELL_BITS in Hn. lia. }
  test_false (128 <? ndiv_ceil n 8)%nat.
  destruct refs as [|r rs]; [by eexists|].
  destruct (max_depth (r :: rs)) as [m|] eqn:Hm; [|done].
  assert (m <= 65534) as Hm'.
  { eapply max_depth_least; [exact Hm|]. eapply Forall_impl; [exact Hdep|]. simpl. lia. }
  unfold checked_succ_u16. test_true (m + 1 <? 2 ^ 16). by eexists.
Qed.

Lemma wf_hash_length `{!Sha256Laws} c : wf c -> length (hash c) = 32%nat /\ all_bytes (hash c).
Proof.
  intros [d n refs c' _ _ _ Hc]. unfold try_new in Hc. destruct (_ || _) in Hc; [done|].
  res_inv. simpl. split; [apply sha256_length|apply sha256_bytes].
Qed.

End facts.
End CellFacts.

(** ** Facts on the builder *)

Module BuilderFacts.
Import CellBuilder.

(** [op] appends the bits [k] and the references [ks] whenever they fit. *)
Definition appends (op : t -> result string t) (k : list bool) (ks : list Cell.t) : Prop :=
  forall b l rs, Repr b l rs -> (length l + length k <= MAX_CELL_BITS)%nat ->
    (length rs + length ks <= MAX_CELL_REFERENCES)%nat ->
    exists b', op b = Ok b' /\ Repr b' (l ++ k) (rs ++ ks).

Lemma Repr_new : Repr new [] [].
Proof. unfold Repr. simpl. split; [apply WriterFacts.Repr_default|]. split; [done|]. simpl. lia. Qed.

Lemma appends_ok : appends Ok [] [].
Proof. intros b l rs HR _ _. exists b. by rewrite !app_nil_r. Qed.

Lemma appends_bind op1 op2 k1 k2 ks1 ks2 : appends op1 k1 ks1 -> appends op2 k2 ks2 ->
  appends (fun b => let? b := op1 b in op2 b) (k1 ++ k2) (ks1 ++ ks2).
Proof.
  intros H1 H2 b l rs HR Hk Hks. rewrite length_app in Hk, Hks.
  destruct (H1 b l rs HR) as (b1 & -> & HR1); [lia..|].
  destruct (H2 b1 _ _ HR1) as (b2 & -> & HR2); [rewrite length_app; lia..|].
  exists b2. by rewrite !app_assoc.
Qed.

Lemma appends_write (f : BitWriter.t -> result string BitWriter.t) k :
  (forall w, f w = WriterFacts.write_all w k) ->
  appends (fun b => on_writer b (f (writer b))) k [].
Proof.
  intros Hf b l rs (HW & Hrs & Hlen) Hk _. unfold on_writer. rewrite Hf.
  destruct (WriterFacts.write_all_repr _ _ _ HW Hk) as (w' & -> & HW').
  eexists; split; [done|]. rewrite app_nil_r. split; [done|]. simpl. done.
Qed.

Lemma appends_bit v : appends (fun b => store_bit b v) [v] [].
Proof.
  apply (appends_write (fun w => BitWriter.write_bit w v)). intros w.
  unfold WriterFacts.write_all. simpl. by destruct (BitWriter.write_bit w v).
Qed.

Lemma appends_uint n v : (n <= 64)%nat -> 0 <= v < 2 ^ Z.of_nat n ->
  appends (fun b => on_writer b (BitWriter.write_uint (writer b) n v)) (uint_bits n v) [].
Proof.
  intros. apply (appends_write (fun w => BitWriter.write_uint w n v)).
  intros. by apply WriterFacts.write_uint_all.
Qed.

Lemma appends_slice bs : all_bytes bs -> appends (fun b => store_slice b bs) (bytes_bits bs) [].
Proof.
  intros. apply (appends_write (fun w => BitWriter.write_bytes w bs)).
  intros. by apply WriterFacts.write_bytes_all.
Qed.

Lemma appends_reference c : appends (fun b => store_reference b c) [] [c].
Proof.
  intros b l rs (HW & Hrs & Hlen) _ Hks. simpl in Hks. unfold store_reference. rewrite Hrs.
  test_false (MAX_CELL_REFERENCES <? length rs + 1)%nat. eexists; split; [done|].
  rewrite app_nil_r. split; [done|]. simpl. rewrite length_app. simpl. split; [done|lia].
Qed.

Lemma appends_fold {A : Type} (f : t -> A -> result string t) (g : A -> list bool) (h : A -> list Cell.t)
  (xs : list A) : (forall x, x ∈ xs -> appends (fun b => f b x) (g x) (h x)) ->
  appends (fun b => try_fold f b xs) (flat_map g xs) (flat_map h xs).
Proof.
  induction xs as [|x xs IH]; intros Hf; simpl; [apply appends_ok|].
  apply (appends_bind (fun b => f b x)); [apply Hf; set_solver|]. apply IH. set_solver.
Qed.

Lemma appends_cell c : Forall is_byte (Cell.data c) -> (Cell.bit_len c <= length (Cell.data c) * 8)%nat ->
  appends (fun b => store_cell b c) (Cell.bits c) (Cell.references c).
Proof.
  intros Hb Hn. unfold store_cell.
  rewrite <- (app_nil_r (Cell.bits c)), <- (app_nil_l (Cell.references c)).
  apply (appends_bind (fun b => store_cell_data b c)).
  - apply (appends_write (fun w => BitWriter.write_bits w (Cell.data c) (Cell.bit_len c))).
    intros. by apply WriterFacts.write_bits_all.
  - pose proof (appends_fold store_reference (fun _ => []) (fun r => [r]) (Cell.references c)
      (fun r _ => appends_reference r)) as Hf.
    assert (forall rs : list Cell.t, flat_map (fun _ => @nil bool) rs = [] /\ flat_map (fun r => [r]) rs = rs)
      as Hid by (intros rs; induction rs as [|r rs [IH1 IH2]]; simpl; [done|by rewrite IH1, IH2]).
    destruct (Hid (Cell.references c)) as [H1 H2]. by rewrite H1, H2 in Hf.
Qed.

(** An operation whose bits do not fit fails. *)
Lemma on_writer_full b l rs f k : Repr b l rs ->
  (forall w, f w = WriterFacts.write_all w k) -> (MAX_CELL_BITS < length l + length k)%nat ->
  on_writer b (f (writer b)) = Err "cell exceeds 1023 bits"%string.
Proof.
  intros (HW & _) Hf Hk. unfold on_writer. by rewrite Hf, (WriterFacts.write_all_full _ l).
Qed.

Section with_hash.
Context `{Sha256}.

Lemma build_repr b l rs : Repr b l rs -> Forall Cell.wf rs ->
  Forall (fun r => Cell.depth r < 65535) rs ->
  exists c, build b = Ok c /\ Cell.wf c /\ Cell.bits c = l /\ Cell.bit_len c = length l /\
    Cell.references c = rs.
Proof.
  intros (HW & Hrs & Hlen) Hwf Hdep. destruct HW as (Hn & Hb & Hmax & Hl & Hbits).
  unfold build, Cell.new. rewrite Hrs, Hn.
  destruct (CellFacts.try_new_some (BitWriter.bytes (writer b)) (length l) rs) as [c Hc];
    [done..|]. rewrite Hc. exists c. simpl.
  destruct (CellFacts.try_new_inv _ _ _ _ Hc) as (_ & _ & _ & Hd & Hn' & Hr).
  assert (take (length l) (bytes_bits (BitWriter.bytes (writer b))) = l) as Ht
    by (by rewrite Hbits, take_app_length).
  repeat split; [|unfold Cell.bits; by rewrite Hd, Hn'|done..].
  econstructor; [exact Hb| |exact Hwf|exact Hc]. unfold Cell.zero_padded. by rewrite Ht.
Qed.

End with_hash.

(** *** Integers of arbitrary width *)

Section with_biguint.
Context `{BigUintLaws}.

Lemma uint_bits_zeros n m v : 0 <= v < 2 ^ Z.of_nat m ->
  uint_bits (n + m) v = replicate n false ++ uint_bits m v.
Proof.
  intros Hv. rewrite uint_bits_app. f_equal.
  rewrite Z.shiftr_div_pow2, Z.div_small by lia.
  induction n as [|n IH]; [done|]. rewrite uint_bits_S, IH, Z.testbit_0_l. done.
Qed.

Lemma bits_range v : 0 <= v -> 0 <= biguint_bits v /\ v < 2 ^ biguint_bits v /\
  forall n, 0 <= n -> v < 2 ^ n -> biguint_bits v <= n.
Proof.
  intros Hv. rewrite biguint_bits_spec by done. destruct (Z.eqb_spec v 0) as [->|Hne].
  - split; [lia|]. split; [done|]. lia.
  - pose proof (Z.log2_spec v). pose proof (Z.log2_nonneg v). split; [lia|]. split; [lia|].
    intros n Hn Hlt. assert (Z.log2 v < n) by (apply Z.log2_lt_pow2; lia). lia.
Qed.

(** The high bits of the first byte and the full bytes after it. *)
Lemma biguint_split v high rest : 0 < v -> biguint_to_bytes_be v = high :: rest ->
  let used := Z.to_nat (biguint_bits v) in
  let high_bits := if (used mod 8 =? 0)%nat then 8%nat else (used mod 8)%nat in
  used = (high_bits + length rest * 8)%nat /\ (1 <= used)%nat /\
  uint_bits used v = uint_bits high_bits high ++ bytes_bits rest.
Proof.
  intros Hv Hb used high_bits. assert (0 <= v) as Hv0 by lia.
  pose proof (bits_range v Hv0) as (Hpos & Hlt & Hmin).
  pose proof (biguint_bytes_length v Hv0) as Hlen. pose proof (biguint_bytes_value v Hv0) as Hval.
  pose proof (biguint_bytes_bytes v Hv0) as Hbytes. rewrite Hb in *.
  apply Forall_cons in Hbytes as [Hhigh Hrest].
  assert (1 <= biguint_bits v) as H1.
  { destruct (decide (biguint_bits v = 0)) as [He|]; [rewrite He in Hlt; change (2 ^ 0) with 1 in Hlt|]; lia. }
  simpl length in Hlen. pose proof (div_ceil_spec (biguint_bits v) 8 eq_refl).
  assert (used = high_bits + length rest * 8)%nat as Hused.
  { unfold high_bits, used. pose proof (Nat.div_mod_eq (Z.to_nat (biguint_bits v)) 8).
    pose proof (Nat.mod_upper_bound (Z.to_nat (biguint_bits v)) 8).
    destruct (Z.to_nat (biguint_bits v) mod 8 =? 0)%nat eqn:E; zbool.
    all: clear - H1 H2 H3 H4 Hlen E; revert H1 H2 H3 H4 Hlen E.
    all: generalize (Z.to_nat (biguint_bits v) `mod` 8)%nat (Z.to_nat (biguint_bits v) / 8)%nat
      (div_ceil (biguint_bits v) 8) (biguint_bits v); intros; lia. }
  split; [done|]. split; [unfold used; lia|]. rewrite Hused, uint_bits_app.
  rewrite of_be_cons in Hval. pose proof (of_be_bound rest Hrest) as HB. symmetry in Hval.
  f_equal.
  - rewrite Z.shiftr_div_pow2 by lia. f_equal.
    replace (Z.of_nat (length rest * 8)) with (8 * Z.of_nat (length rest)) by lia.
    rewrite Hval, Z.div_add_l, Z.div_small by (try apply Z.pow_nonzero; lia). lia.
  - rewrite <- (be_bytes_of_be rest Hrest) at 2. rewrite bytes_bits_be.
    rewrite <- (uint_bits_mod _ (length rest * 8) v) by lia. f_equal.
    replace (Z.of_nat (length rest * 8)) with (8 * Z.of_nat (length rest)) by lia.
    rewrite Hval, Z.add_comm, Z.mod_add by (apply Z.pow_nonzero; lia). by apply Z.mod_small.
Qed.


Lemma zeros_flat (n m : nat) {A} (l : list A) : length l = n ->
  flat_map (fun _ => replicate m false) l = replicate (n * m) false.
Proof. intros <-. induction l as [|x l IH]; [done|]. simpl. by rewrite IH, replicate_add. Qed.

Lemma uint_bits_0 n : uint_bits n 0 = replicate n false.
Proof. pose proof (uint_bits_zeros n 0 0) as Hz. rewrite Nat.add_0_r, app_nil_r in Hz. apply Hz. done. Qed.

Lemma flat_map_nil {A B} (l : list A) : flat_map (fun _ => @nil B) l = [].
Proof. by induction l. Qed.

Lemma map_const_replicate {A B} (y : B) (l : list A) : map (fun _ => y) l = replicate (length l) y.
Proof. induction l as [|x l IH]; simpl; [done|by rewrite IH]. Qed.

(** [op] is the loop that writes the bits [k] one by one. *)
Definition writes (op : t -> result string t) (k : list bool) : Prop :=
  forall b, op b = on_writer b (WriterFacts.write_all (writer b) k).

Lemma writes_ok : writes Ok [].
Proof. by intros []. Qed.

Lemma writes_bind op1 op2 k1 k2 : writes op1 k1 -> writes op2 k2 ->
  writes (fun b => let? b := op1 b in op2 b) (k1 ++ k2).
Proof.
  intros H1 H2 b. rewrite H1. unfold on_writer, WriterFacts.write_all. rewrite try_fold_app.
  destruct (try_fold _ (writer b) k1) as [w|]; [|done]. by rewrite H2.
Qed.

Lemma writes_bit v : writes (fun b => store_bit b v) [v].
Proof. intros b. unfold store_bit, WriterFacts.write_all. simpl. by destruct (BitWriter.write_bit _ v). Qed.

Lemma writes_u8 n v : (n <= 64)%nat -> 0 <= v < 2 ^ Z.of_nat n -> writes (fun b => store_u8 b n v) (uint_bits n v).
Proof. intros Hn Hv b. unfold store_u8. by rewrite WriterFacts.write_uint_all. Qed.

Lemma writes_fold {A : Type} (f : t -> A -> result string t) (g : A -> list bool) (xs : list A) :
  (forall x, x ∈ xs -> writes (fun b => f b x) (g x)) ->
  writes (fun b => try_fold f b xs) (flat_map g xs).
Proof.
  induction xs as [|x xs IH]; intros Hf; simpl; [apply writes_ok|].
  apply (writes_bind (fun b => f b x)); [apply Hf; set_solver|]. apply IH. set_solver.
Qed.

Lemma writes_zero_bytes n :
  writes (fun b => try_fold (fun b _ => store_u8 b 8 0) b (seq 0 n)) (replicate (n * 8) false).
Proof.
  rewrite <- (zeros_flat n 8 (seq 0 n)) by apply length_seq.
  apply (writes_fold (fun b (_ : nat) => store_u8 b 8 0)). intros _ _. apply (writes_u8 8 0); simpl; lia.
Qed.

Lemma writes_bits_of {A} (f : A -> bool) (xs : list A) :
  writes (fun b => try_fold (fun b x => store_bit b (f x)) b xs) (map f xs).
Proof.
  assert (map f xs = flat_map (fun x => [f x]) xs) as ->
    by (induction xs as [|x xs IH]; simpl; [done|by rewrite IH]).
  apply (writes_fold (fun b x => store_bit b (f x))). intros. apply writes_bit.
Qed.

Lemma writes_bytes_loop bs : all_bytes bs ->
  writes (fun b => try_fold (fun b byte => store_u8 b 8 byte) b bs) (bytes_bits bs).
Proof.
  intros Hbs. apply (writes_fold (fun b x => store_u8 b 8 x) byte_bits). intros x Hx.
  rewrite Forall_forall in Hbs. apply (writes_u8 8 x); [lia|exact (Hbs x Hx)].
Qed.

(** The leading zeros of [store_uint]. *)
Lemma writes_zeros n :
  writes (fun b => let? b := try_fold (fun b _ => store_u8 b 8 0) b (seq 0 (n / 8)) in
                   try_fold (fun b _ => store_bit b false) b (seq 0 (n mod 8))) (replicate n false).
Proof.
  replace (replicate n false) with (replicate (n / 8 * 8) false ++ replicate (n mod 8) false)
    by (rewrite <- replicate_add; f_equal; pose proof (Nat.div_mod_eq n 8); lia).
  apply (writes_bind (fun b => try_fold (fun b _ => store_u8 b 8 0) b (seq 0 (n / 8)))).
  - apply writes_zero_bytes.
  - pose proof (writes_bits_of (fun _ : nat => false) (seq 0 (n mod 8))) as Hz.
    by rewrite map_const_replicate, length_seq in Hz.
Qed.

(** The significant bits of [store_uint]. *)
Lemma writes_significant v high rest : 0 <= v -> biguint_to_bytes_be v = high :: rest ->
  let used := Z.to_nat (biguint_bits v) in
  let high_bits := if (used =? 0)%nat then 0%nat else
    let k := (used mod 8)%nat in if (k =? 0)%nat then 8%nat else k in
  writes (fun b => let? b := (if (0 <? high_bits)%nat
                 then try_fold (fun b shift => store_bit b (bit_at high shift)) b (rev (seq 0 high_bits))
                 else Ok b) in
          try_fold (fun b byte => store_u8 b 8 byte) b rest) (uint_bits used v).
Proof.
  intros Hv Hb. pose proof (biguint_bytes_bytes v Hv) as Hbytes. rewrite Hb in Hbytes.
  apply Forall_cons in Hbytes as [_ Hrest]. destruct (decide (v = 0)) as [->|Hne].
  - pose proof (biguint_bytes_length 0 Hv) as HL.
    rewrite Hb, biguint_bits_spec in * by lia. cbn [Z.eqb length] in HL.
    change (div_ceil 0 8) with 0 in HL. destruct rest; [|simpl in HL; lia]. apply writes_ok.
  - destruct (biguint_split v high rest) as (Hused & Hu1 & Hbits); [lia|done|]. cbv zeta in *.
    set (used := Z.to_nat (biguint_bits v)) in *. test_false (used =? 0)%nat. rewrite Hbits.
    set (hb := if (used mod 8 =? 0)%nat then 8%nat else (used mod 8)%nat) in *.
    assert (0 < hb)%nat by (unfold hb; destruct (used mod 8 =? 0)%nat eqn:?; zbool; lia).
    test_true (0 <? hb)%nat.
    apply (writes_bind (fun b => try_fold (fun b s => store_bit b (bit_at high s)) b (rev (seq 0 hb)))).
    + pose proof (writes_bits_of (bit_at high) (rev (seq 0 hb))) as Hh.
      by replace (uint_bits hb high) with (map (bit_at high) (rev (seq 0 hb)))
        by (apply map_ext; intros; apply bit_at_testbit).
    + by apply writes_bytes_loop.
Qed.

Lemma writes_store_uint n v : 0 <= v < 2 ^ Z.of_nat n -> writes (fun b => store_uint b n v) (uint_bits n v).
Proof.
  intros [Hv Hn] b. pose proof (bits_range v Hv) as (Hpos & Hlt & Hmin).
  specialize (Hmin (Z.of_nat n)). unfold store_uint. set (used := Z.to_nat (biguint_bits v)).
  assert (used <= n)%nat as Hu by (unfold used; lia). test_false (n <? used)%nat.
  destruct (biguint_to_bytes_be v) as [|high rest] eqn:Hb.
  { pose proof (biguint_bytes_length v Hv) as HL. rewrite Hb in HL. simpl in HL. lia. }
  replace (uint_bits n v) with (replicate (n - used) false ++ uint_bits used v).
  2:{ rewrite <- uint_bits_zeros by (unfold used; rewrite Z2Nat.id; lia). f_equal. lia. }
  etransitivity; [|exact (writes_bind _ _ _ _ (writes_zeros (n - used)) (writes_significant v high rest Hv Hb) b)].
  cbv beta zeta. by destruct (try_fold _ b _).
Qed.

Lemma writes_appends op k : writes op k -> appends op k [].
Proof.
  intros Hop b l rs HR Hk Hks. rewrite Hop.
  by apply (appends_write (fun w => WriterFacts.write_all w k) k (fun w => eq_refl) b l rs HR).
Qed.

(** Either the bits fit, or the error of a full cell. *)
Lemma writes_cases op k b l rs : writes op k -> Repr b l rs ->
  if (MAX_CELL_BITS <? length l + length k)%nat then op b = Err "cell exceeds 1023 bits"%string
  else exists b', op b = Ok b' /\ Repr b' (l ++ k) rs.
Proof.
  intros Hop HR. destruct (MAX_CELL_BITS <? _)%nat eqn:E; zbool.
  - rewrite Hop. by eapply (on_writer_full b l rs (fun w => WriterFacts.write_all w k)).
  - destruct (writes_appends op k Hop b l rs HR) as (b' & Hb' & HR'); [lia| |].
    + destruct HR as (_ & _ & ?). simpl. lia.
    + rewrite app_nil_r in HR'. eauto.
Qed.

End with_biguint.
End BuilderFacts.

(** ** Long byte strings: a chain of cells *)

Module SnakeFacts.
Import CellBuilder BuilderFacts.
Section facts.
Context `{Sha256}.

(** The data of a chain: the bits of a cell, then those of its first reference. *)
Fixpoint snake_bits (c : Cell.t) : list bool :=
  match c with
  | Cell.Mk d n refs _ _ =>
      take n (bytes_bits d) ++ match refs with r :: _ => snake_bits r | [] => [] end
  end.

Lemma snake_bits_eq c : snake_bits c = Cell.bits c ++
  match Cell.references c with r :: _ => snake_bits r | [] => [] end.
Proof. by destruct c. Qed.

Lemma depth_le c k : Cell.wf c -> Forall (fun r => Cell.depth r <= k) (Cell.references c) -> 0 <= k ->
  Cell.depth c <= if (length (Cell.references c) =? 0)%nat then 0 else k + 1.
Proof.
  intros Hwf Hrefs Hk. apply CellFacts.wf_inv in Hwf as (_ & _ & _ & Hc & _ & _ & _).
  revert Hrefs Hc. generalize (Cell.references c) (Cell.bit_len c) (Cell.data c). intros rs n d Hrefs Hc.
  unfold Cell.try_new in Hc. destruct (_ || _) in Hc; [done|].
  destruct rs as [|r rs']; [res_inv; lia|].
  destruct (Cell.max_depth (r :: rs')) as [m|] eqn:Hm; [|done].
  pose proof (CellFacts.max_depth_least _ _ k Hm Hrefs).
  unfold Cell.checked_succ_u16 in Hc. destruct (_ <? _) in Hc; [|done]. res_inv. lia.
Qed.

(** What a builder holds after [store_slice_snake]: the slice itself, or its
    head and a reference to a chain with the rest. *)
Definition stored (l : list bool) (rs : list Cell.t) (slice : bytes) (b' : t) : Prop :=
  (Repr b' (l ++ bytes_bits slice) rs /\ (length l + length slice * 8 <= MAX_CELL_BITS)%nat) \/
  (exists head c, ((MAX_CELL_BITS - length l) / 8 < length slice)%nat /\
     Repr b' (l ++ head) (rs ++ [c]) /\ Cell.wf c /\
     head ++ snake_bits c = bytes_bits slice /\
     Cell.depth c <= Z.of_nat ((length slice - (MAX_CELL_BITS - length l) / 8 - 1) / 127)).

Lemma store_slice_snake_fuel_spec fuel b l rs slice :
  Repr b l rs -> all_bytes slice -> (length rs < MAX_CELL_REFERENCES)%nat ->
  Z.of_nat (length slice / 127) < 65535 ->
  (length slice + (if (8 <=? MAX_CELL_BITS - length l)%nat then 1 else 2) <= fuel)%nat ->
  exists b', store_slice_snake_fuel fuel b slice = Ok b' /\ stored l rs slice b'.
Proof.
  revert b l rs slice. induction fuel as [|fuel IH]; intros b l rs slice HR Hb Hrs Hd Hf.
  { destruct (8 <=? MAX_CELL_BITS - length l)%nat; lia. }
  assert (remaining_bits b = MAX_CELL_BITS - length l)%nat as Hrem.
  { unfold remaining_bits. by destruct HR as ((-> & _) & _). }
  assert (length l <= MAX_CELL_BITS)%nat as Hl by (by destruct HR as ((_ & _ & ? & _) & _)).
  simpl store_slice_snake_fuel. rewrite Hrem. set (cap := ((MAX_CELL_BITS - length l) / 8)%nat).
  pose proof (Nat.div_mod_eq (MAX_CELL_BITS - length l) 8) as Hdm.
  pose proof (Nat.mod_upper_bound (MAX_CELL_BITS - length l) 8). fold cap in Hdm.
  destruct (length slice <=? cap)%nat eqn:Hcap; zbool.
  - destruct (appends_slice slice Hb b l rs HR) as (b' & -> & HR');
      [autorewrite with rust_len; lia|simpl; lia|].
    exists b'. split; [done|left]. rewrite app_nil_r in HR'. split; [done|lia].
  - set (tail := drop cap slice).
    assert (length tail = length slice - cap)%nat as Htl by (unfold tail; autorewrite with rust_len; lia).
    destruct (appends_slice (take cap slice) (Forall_take _ _ _ Hb) b l rs HR) as (b1 & -> & HR1);
      [autorewrite with rust_len; lia|simpl; lia|]. rewrite app_nil_r in HR1.
    assert (length tail / 127 <= length slice / 127)%nat as Hdt
      by (apply Nat.Div0.div_le_mono; lia).
    assert ((length tail - 1) / 127 <= length tail / 127)%nat as Hdt1
      by (apply Nat.Div0.div_le_mono; lia).
    destruct (IH new [] [] tail) as (child & -> & Hchild);
      [apply Repr_new|by apply Forall_drop|simpl; unfold MAX_CELL_REFERENCES; lia|lia| |].
    { change (8 <=? MAX_CELL_BITS - length (@nil bool))%nat with true. cbv iota.
      destruct (8 <=? MAX_CELL_BITS - length l)%nat eqn:E8; zbool; lia. }
    assert (exists c, build child = Ok c /\ Cell.wf c /\ snake_bits c = bytes_bits tail /\
      Cell.depth c <= Z.of_nat ((length tail - 1) / 127)) as (c & -> & Hwf & Hsb & Hdc).
    { destruct Hchild as [[HRc _]|(hd & c0 & Hlong & HRc & Hwf0 & Hsb0 & Hd0)]; simpl in HRc.
      - destruct (build_repr child _ _ HRc) as (c & Hc & Hwfc & Hbits & _ & Hrefs); [constructor..|].
        exists c. rewrite snake_bits_eq, Hbits, Hrefs, app_nil_r. repeat split; auto.
        pose proof (depth_le c 0 Hwfc) as Hle. rewrite Hrefs in Hle. simpl in Hle.
        specialize (Hle (Forall_nil_2 _)). lia.
      - change ((MAX_CELL_BITS - length (@nil bool)) / 8)%nat with 127%nat in Hd0, Hlong.
        assert ((length tail - 127 - 1) / 127 + 1 = (length tail - 1) / 127)%nat as Hstep.
        { replace (length tail - 1)%nat with ((length tail - 127 - 1) + 1 * 127)%nat by lia.
          by rewrite Nat.div_add by lia. }
        destruct (build_repr child _ _ HRc) as (c & Hc & Hwfc & Hbits & _ & Hrefs);
          [by apply Forall_singleton|apply Forall_singleton; lia|].
        exists c. rewrite snake_bits_eq, Hbits, Hrefs. repeat split; auto.
        pose proof (depth_le c (Cell.depth c0) Hwfc) as Hle. rewrite Hrefs in Hle. simpl in Hle.
        pose proof (CellFacts.wf_depth c0 Hwf0) as [[? _] _].
        assert (Cell.depth c <= Cell.depth c0 + 1) as Hc1 by (apply Hle; [apply Forall_singleton; lia|lia]).
        lia. }
    destruct (appends_reference c b1 _ _ HR1) as (b2 & Hb2 & HR2);
      [simpl; rewrite Nat.add_0_r; by destruct HR1 as ((_ & _ & ? & _) & _)|simpl; lia|].
    exists b2. split; [exact Hb2|right]. exists (bytes_bits (take cap slice)), c.
    rewrite app_nil_r in HR2. fold cap. split; [done|]. split; [done|]. split; [done|].
    rewrite Hsb, Htl in *. unfold tail. by rewrite <- bytes_bits_app, take_drop.
Qed.
End facts.
End SnakeFacts.

(** ** Properties *)

Section properties.
Import CellBuilder BuilderFacts.
Context `{Sha256}.

(** [CellBuilder::store_uint] on every branch: a value wider than [n] bits is
    rejected; otherwise the chunked loops (zero bytes, zero bits, the high
    bits of the first byte, full bytes) append exactly the [n]-bit big-endian
    value, or fail with the error of a full cell when it does not fit. *)
Theorem store_uint_branches `{BigUintLaws} (b : t) (l : list bool) (rs : list Cell.t) (n : nat) (v : Z) :
  Repr b l rs -> 0 <= v ->
  if 2 ^ Z.of_nat n <=? v
  then store_uint b n v = Err ("value does not fit in " +:+ pretty (N.of_nat n) +:+ " bits")%string
  else if (MAX_CELL_BITS <? length l + n)%nat then store_uint b n v = Err "cell exceeds 1023 bits"%string
  else exists b', store_uint b n v = Ok b' /\ Repr b' (l ++ uint_bits n v) rs.
Proof.
  intros HR Hv. destruct (2 ^ Z.of_nat n <=? v) eqn:E; zbool.
  - unfold store_uint. pose proof (bits_range v Hv) as (Hpos & Hlt & _).
    assert (Z.of_nat n < biguint_bits v).
    { apply Z.nle_gt. intros Hle. apply (Z.pow_le_mono_r 2) in Hle; lia. }
    by test_true (n <? Z.to_nat (biguint_bits v))%nat.
  - pose proof (writes_cases _ _ b l rs (writes_store_uint n v (conj Hv E)) HR) as Hc.
    by rewrite uint_bits_length in Hc.
Qed.

(** The reader of a [VarUInteger 16], as the on-chain format defines it. *)
Definition read_coins_bits (l : list bool) : Z * list bool :=
  let len := Z.to_nat (uint_of_bits (take 4 l)) in
  (uint_of_bits (take (len * 8) (drop 4 l)), drop (4 + len * 8) l).

Lemma biguint_bytes_120 `{BigUintLaws} v : 0 < v ->
  (Z.of_nat (length (biguint_to_bytes_be v)) < 16 <-> v < 2 ^ 120) /\
  v < 2 ^ Z.of_nat (length (biguint_to_bytes_be v) * 8).
Proof.
  intros Hv. assert (0 <= v) as Hv0 by lia. pose proof (bits_range v Hv0) as (Hpos & Hlt & Hmin).
  rewrite biguint_bytes_length by done. pose proof (div_ceil_spec (biguint_bits v) 8 eq_refl) as Hd.
  split; [split; intros Hle|].
  - eapply Z.lt_le_trans; [exact Hlt|]. apply Z.pow_le_mono_r; lia.
  - specialize (Hmin 120 ltac:(lia) Hle). lia.
  - eapply Z.lt_le_trans; [exact Hlt|]. apply Z.pow_le_mono_r; [lia|].
    pose proof (biguint_bytes_length v Hv0). lia.
Qed.

Lemma uint_bits_read n v l : 0 <= v < 2 ^ Z.of_nat n ->
  uint_of_bits (take n (uint_bits n v ++ l)) = v /\ drop n (uint_bits n v ++ l) = l.
Proof.
  intros Hv. rewrite take_app_length', drop_app_length' by (by rewrite uint_bits_length).
  by rewrite uint_of_bits_uint_bits, Z.mod_small.
Qed.

(** [CellBuilder::store_coins] writes a [VarUInteger 16]: an amount below
    [2^120] that fits the cell is stored so that the on-chain reading (a 4-bit
    byte count, then that many bytes) gives the amount back and consumes
    exactly the bits written. *)
Theorem store_coins_roundtrip `{BigUintLaws} (b : t) (l : list bool) (rs : list Cell.t) (v : Z) :
  Repr b l rs -> 0 <= v < 2 ^ 120 -> (length l + 124 <= MAX_CELL_BITS)%nat ->
  exists b' k, store_coins b v = Ok b' /\ Repr b' (l ++ k) rs /\ read_coins_bits k = (v, []).
Proof.
  intros HR Hv Hl. unfold store_coins. destruct (Z.eqb_spec v 0) as [->|Hne].
  - destruct (writes_appends _ _ (writes_u8 4 0 ltac:(lia) ltac:(simpl; lia)) b l rs HR) as (b' & -> & HR');
      [rewrite uint_bits_length; lia|destruct HR as (_ & _ & ?); simpl; lia|].
    rewrite app_nil_r in HR'. by exists b', (uint_bits 4 0).
  - pose proof (biguint_bytes_120 v) as [H120 Hfit]; [lia|]. set (n := length (biguint_to_bytes_be v)) in *.
    pose proof (proj2 H120 (proj2 Hv)) as Hn.
    assert (as_u8 (Z.of_nat n) = Z.of_nat n) as -> by (apply as_u8_small; unfold in_width; lia).
    assert (0 <= Z.of_nat n < 2 ^ Z.of_nat 4) as Hn4 by (change (2 ^ Z.of_nat 4) with 16; lia).
    assert (0 <= v < 2 ^ Z.of_nat (n * 8)) as Hvn by lia.
    pose proof (writes_bind _ _ _ _ (writes_u8 4 (Z.of_nat n) ltac:(lia) Hn4) (writes_store_uint (n * 8) v Hvn)) as Hw.
    destruct (writes_appends _ _ Hw b l rs HR) as (b' & Hb' & HR').
    + rewrite length_app, !uint_bits_length. lia.
    + destruct HR as (_ & _ & ?). simpl. lia.
    + cbv beta in Hb'. rewrite app_nil_r in HR'. eexists b', _. split; [exact Hb'|]. split; [exact HR'|].
      unfold read_coins_bits. rewrite <- (app_nil_r (uint_bits (n * 8) v)).
      destruct (uint_bits_read 4 (Z.of_nat n) (uint_bits (n * 8) v ++ []) Hn4) as [-> Hdrop].
      rewrite Nat2Z.id, <- drop_drop, Hdrop. by destruct (uint_bits_read (n * 8) v [] Hvn) as [-> ->].
Qed.

(** Errors of [CellBuilder::store_coins]: an amount of [2^120] or more is never
    stored, whatever the builder holds, although the byte count is truncated
    by [as u8] before it is written. *)
Theorem store_coins_too_large `{BigUintLaws} (b : t) (l : list bool) (rs : list Cell.t) (v : Z) :
  Repr b l rs -> 2 ^ 120 <= v -> is_ok (store_coins b v) = false.
Proof.
  intros HR Hv. unfold store_coins. test_false (v =? 0).
  pose proof (biguint_bytes_120 v) as [H120 Hfit]; [lia|]. set (n := length (biguint_to_bytes_be v)) in *.
  assert (16 <= Z.of_nat n) as Hn by lia.
  destruct (decide (as_u8 (Z.of_nat n) < 16)) as [Hsmall|Hbig].
  - (* the count wrapped around: the value is far longer than a cell *)
    assert (256 <= Z.of_nat n).
    { apply Z.nlt_ge. intros Hlt. rewrite as_u8_small in Hsmall; unfold in_width; lia. }
    assert (0 <= as_u8 (Z.of_nat n) < 2 ^ Z.of_nat 4) as H4.
    { change (2 ^ Z.of_nat 4) with 16. pose proof (wrap_width 8 (Z.of_nat n)) as Hw. unfold as_u8, in_width in *. lia. }
    pose proof (writes_bind _ _ _ _ (writes_u8 4 _ ltac:(lia) H4) (writes_store_uint (n * 8) v ltac:(lia))) as Hw.
    pose proof (writes_cases _ _ b l rs Hw HR) as Hc. cbv beta in Hc.
    rewrite length_app, !uint_bits_length in Hc.
    assert (MAX_CELL_BITS < length l + (4 + n * 8))%nat as Hroom by (unfold MAX_CELL_BITS; lia).
    apply Nat.ltb_lt in Hroom. rewrite Hroom in Hc. by rewrite Hc.
  - unfold store_u8, on_writer, BitWriter.write_uint. change (64 <? 4)%nat with false.
    change (4 <? 64)%nat with true. rewrite Z.shiftr_div_pow2 by lia. change (2 ^ Z.of_nat 4) with 16.
    assert (1 <= as_u8 (Z.of_nat n) / 16) by (apply Z.div_le_lower_bound; lia).
    by test_false (as_u8 (Z.of_nat n) / 16 =? 0).
Qed.

(** Every cell built by [Cell::new] satisfies the TVM limits: at most 1023
    bits and 4 references, [ceil(bits / 8)] data bytes, a depth that is 0
    without references and otherwise one more than the deepest reference, and
    (so that the chain of cells is well founded) above that of each reference. *)
Theorem cell_invariant `{!Sha256Laws} (c : Cell.t) : Cell.wf c ->
  (Cell.bit_len c <= MAX_CELL_BITS)%nat /\ (length (Cell.references c) <= MAX_CELL_REFERENCES)%nat /\
  length (Cell.data c) = ndiv_ceil (Cell.bit_len c) 8 /\ length (Cell.hash c) = 32%nat /\
  is_u16 (Cell.depth c) /\
  Cell.depth c = match Cell.max_depth (Cell.references c) with Some m => m + 1 | None => 0 end /\
  Forall (fun r => Cell.depth r < Cell.depth c) (Cell.references c).
Proof.
  intros Hwf. destruct (CellFacts.wf_inv c Hwf) as (_ & _ & _ & Hc & Hn & Hr & Hl).
  destruct (CellFacts.wf_depth c Hwf) as [Hd Hlt]. destruct (CellFacts.wf_hash_length c Hwf) as [Hh _].
  repeat split; try done; try (unfold in_width; lia).
  clear Hlt Hh. revert Hc. generalize (Cell.data c) (Cell.bit_len c) (Cell.references c). intros d n rs Hc.
  unfold Cell.try_new in Hc. destruct (_ || _) in Hc; [done|]. destruct rs as [|r rs]; [by res_inv|].
  destruct (Cell.max_depth (r :: rs)) as [m|]; [|done].
  unfold Cell.checked_succ_u16 in Hc. destruct (_ <? _) in Hc; [|done]. by res_inv.
Qed.

(** Long strings ([store_slice_snake]): into an empty builder a byte string of any
    length up to 127 * 65535 bytes is stored without running out of cells,
    and following the first references from the cell built, the data bits
    are exactly the bits of the string. *)
Theorem snake_roundtrip (slice : bytes) :
  all_bytes slice -> Z.of_nat (length slice / 127) < 65535 ->
  exists b c, store_slice_snake new slice = Ok b /\ build b = Ok c /\ Cell.wf c /\
    SnakeFacts.snake_bits c = bytes_bits slice.
Proof.
  intros Hb Hd. unfold store_slice_snake.
  destruct (SnakeFacts.store_slice_snake_fuel_spec (length slice + 2) new [] [] slice) as (b' & Hb' & Hst);
    [apply Repr_new|done|simpl; unfold MAX_CELL_REFERENCES; lia|done|simpl; lia|].
  assert (exists l rs, Repr b' l rs /\ Forall Cell.wf rs /\ Forall (fun r => Cell.depth r < 65535) rs /\
    l ++ match rs with r :: _ => SnakeFacts.snake_bits r | [] => [] end = bytes_bits slice)
    as (l & rs & HR & Hwf & Hdep & Hbits).
  { destruct Hst as [[HR _]|(hd & c & _ & HR & Hwf & Hbits & Hdc)].
    - eexists _, []. split; [exact HR|]. by rewrite app_nil_r.
    - eexists _, [c]. split; [exact HR|]. split; [by constructor|]. split; [|done].
      apply Forall_singleton. change ((MAX_CELL_BITS - length (@nil bool)) / 8)%nat with 127%nat in Hdc.
      assert ((length slice - 127 - 1) / 127 <= length slice / 127)%nat by (apply Nat.Div0.div_le_mono; lia).
      lia. }
  destruct (build_repr b' l rs HR Hwf Hdep) as (c & Hc & Hwfc & Hcb & _ & Hcr).
  exists b', c. split; [exact Hb'|]. split; [exact Hc|]. split; [exact Hwfc|].
  by rewrite SnakeFacts.snake_bits_eq, Hcb, Hcr.
Qed.

End properties.

(** ** Witnesses *)

Section witnesses.
Import CellBuilder Concrete.

Lemma store_uint_branches_witness :
  exists b', store_uint new 13 300 = Ok b' /\ Repr b' (uint_bits 13 300) [].
Proof. exact (store_uint_branches new [] [] 13 300 BuilderFacts.Repr_new ltac:(lia)). Defined.

Lemma store_coins_roundtrip_witness :
  exists b' k, store_coins new 1000000000 = Ok b' /\ Repr b' k [] /\ read_coins_bits k = (1000000000, []).
Proof.
  apply (store_coins_roundtrip new [] [] 1000000000 BuilderFacts.Repr_new); [lia|].
  apply Nat.leb_le. reflexivity.
Defined.

Lemma store_coins_too_large_witness : is_ok (store_coins new (2 ^ 2040)) = false.
Proof. apply (store_coins_too_large new [] [] (2 ^ 2040) BuilderFacts.Repr_new). by vm_compute. Defined.

Definition leaf_cell : option Cell.t := Cell.try_new [0xAB; 0xC0] 12 [].
Definition parent_cell : option Cell.t := let?? l := leaf_cell in Cell.try_new [] 0 [l; l].

Lemma cell_invariant_witness : exists c, parent_cell = Some c /\ Cell.depth c = 1.
Proof.
  destruct leaf_cell as [l|] eqn:Hl; [|by vm_compute in Hl].
  destruct (Cell.try_new [] 0 [l; l]) as [c|] eqn:Hc; [|by injection Hl as <-; vm_compute in Hc].
  exists c. unfold parent_cell. rewrite Hl. split; [exact Hc|].
  assert (Cell.wf l) as Hwl.
  { eapply (Cell.wf_new [0xAB; 0xC0] 12 []); [by repeat constructor|by vm_compute|constructor|exact Hl]. }
  assert (Cell.wf c) as Hwc.
  { eapply (Cell.wf_new [] 0 [l; l]); [constructor|by vm_compute|by repeat constructor|exact Hc]. }
  destruct (cell_invariant c Hwc) as (_ & _ & _ & _ & _ & -> & _).
  destruct (CellFacts.try_new_inv _ _ _ _ Hc) as (_ & _ & _ & _ & _ & ->).
  injection Hl as <-. by vm_compute.
Defined.

Lemma snake_roundtrip_witness :
  exists b c, store_slice_snake new (replicate 300 65) = Ok b /\ build b = Ok c /\ Cell.wf c /\
    SnakeFacts.snake_bits c = bytes_bits (replicate 300 65).
Proof.
  apply (snake_roundtrip (replicate 300 65)); [|by vm_compute].
  apply Forall_replicate. by vm_compute.
Defined.

End witnesses.
