(* ===== verification/TonAddress.v ===== *)
(** TON addresses: [gem_ton/src/address.rs] (module [Address]) and the cell form
    of an address ([CellBuilder::store_address], [Address::from_cell]). *)
From S2P Require Import Prelude HexText Crates TonBits TonCell.

(** [gem_encoding]'s base64 alphabets (the [base64] crate). *)
Class Base64 : Type := {
  encode_base64_url : bytes -> string;
  decode_base64_url : string -> option bytes;
  decode_base64_no_pad : string -> option bytes;
}.
Class Base64Laws `{Base64} : Prop := {
  base64_url_roundtrip : forall bs, all_bytes bs -> decode_base64_url (encode_base64_url bs) = Some bs;
  base64_url_bytes : forall s bs, decode_base64_url s = Some bs -> all_bytes bs;
  base64_no_pad_bytes : forall s bs, decode_base64_no_pad s = Some bs -> all_bytes bs;
}.

(** [Crc::<u16>::new(&CRC_16_XMODEM).checksum] *)
Class Crc16 : Type := crc16 : bytes -> Z.
Class Crc16Laws `{Crc16} : Prop := { crc16_u16 : forall bs, is_u16 (crc16 bs) }.

Module Address.

Definition TAG_BOUNCEABLE_MAINNET : Z := 0x11.
Definition TAG_NON_BOUNCEABLE_MAINNET : Z := Z.lor TAG_BOUNCEABLE_MAINNET 0x40.
Definition RAW_ADDRESS_LEN : nat := 33.
Definition USER_FRIENDLY_ADDRESS_LEN : nat := 36.

Inductive UserFriendlyAddressType : Type := Bounceable | NonBounceable.

#[export] Instance address_type_eq_dec : EqDecision UserFriendlyAddressType.
Proof. solve_decision. Defined.

Definition from_tag (tag : Z) : option UserFriendlyAddressType :=
  let k := Z.land tag 0x7f in
  if k =? TAG_BOUNCEABLE_MAINNET then Some Bounceable
  else if k =? TAG_NON_BOUNCEABLE_MAINNET then Some NonBounceable
  else None.

Definition tag (ty : UserFriendlyAddressType) : Z :=
  match ty with
  | Bounceable => TAG_BOUNCEABLE_MAINNET
  | NonBounceable => TAG_NON_BOUNCEABLE_MAINNET
  end.

Definition is_bounceable (ty : UserFriendlyAddressType) : bool :=
  match ty with Bounceable => true | NonBounceable => false end.

(** [struct Address { bytes: [u8; 33] }] *)
Record t : Type := Mk { raw : bytes }.

#[export] Instance address_eq_dec : EqDecision t.
Proof. solve_decision. Defined.

Definition wf (a : t) : Prop := length (raw a) = RAW_ADDRESS_LEN /\ all_bytes (raw a).

(** [workchain as i8 as u8], then the hash part *)
Definition new (workchain : Z) (hash_part : bytes) : t := Mk (as_u8 workchain :: hash_part).

Definition workchain (a : t) : Z := i8_of_byte (raw a !!! 0%nat).
Definition hash_part (a : t) : bytes := drop 1 (raw a).

(** [Vec<u8>::try_into::<[u8; n]>().ok()] *)
Definition to_array (n : nat) (bs : bytes) : option bytes :=
  if (length bs =? n)%nat then Some bs else None.

Section with_text.
Context `{Base64} `{Hex} `{Crc16}.

Definition parse_user_friendly (base64 : string) : option (t * bool) :=
  let?? bs := match decode_base64_url base64 with
              | Some bs => Some bs
              | None => decode_base64_no_pad base64
              end in
  if negb (length bs =? USER_FRIENDLY_ADDRESS_LEN)%nat then None else
  let?? crc_bytes := to_array 2 (take 2 (drop 34 bs)) in
  let expected_crc := of_be crc_bytes in
  if negb (expected_crc =? crc16 (take 34 bs)) then None else
  let?? address_type := from_tag (bs !!! 0%nat) in
  let?? raw_bytes := to_array RAW_ADDRESS_LEN (take RAW_ADDRESS_LEN (drop 1 bs)) in
  Some (Mk raw_bytes, is_bounceable address_type).

Definition try_parse_base64 (base64 : string) : option t :=
  let?? (address, _) := parse_user_friendly base64 in Some address.

Definition try_parse_hex (hex_str : string) : option t :=
  let?? (w, h) := split_once ":"%char hex_str in
  let?? w := parse_i32 w in
  let?? h := hex_decode h in
  let?? h := to_array 32 h in
  Some (new w h).

(** [AddressTrait::try_parse] *)
Definition try_parse (address : string) : option t :=
  match try_parse_base64 address with
  | Some a => Some a
  | None => try_parse_hex address
  end.

Definition parse (value : string) : result string t :=
  ok_or (try_parse value) "invalid TON address"%string.

Definition ensure_matches (claimed : option string) (actual : string) : result string unit :=
  match claimed with
  | Some (String a s as claimed) =>
      let? c := parse claimed in
      let? p := parse actual in
      if decide (c = p) then Ok tt else Err "TON from does not match signer address"%string
  | _ => Ok tt
  end.

Definition encode_user_friendly (a : t) (ty : UserFriendlyAddressType) : string :=
  let buffer := tag ty :: raw a in
  let crc := crc16 buffer in
  encode_base64_url (buffer ++ [as_u8 (Z.land (Z.shiftr crc 8) 0xFF); as_u8 (Z.land crc 0xFF)]).

Definition encode_bounceable (a : t) : string := encode_user_friendly a Bounceable.
Definition encode_non_bounceable (a : t) : string := encode_user_friendly a NonBounceable.
(** [AddressTrait::encode] *)
Definition encode (a : t) : string := encode_bounceable a.

Definition hex_to_base64_address (hex_str : string) : option string :=
  encode <$> try_parse_hex hex_str.

Definition base64_to_hex_address (base64_str : string) : option string :=
  (fun a => pretty (workchain a) +:+ ":" +:+ hex_encode (hash_part a))%string
    <$> try_parse_base64 base64_str.

End with_text.

(** ** The cell form *)

(** [CellBuilder::store_null_address], [store_address] and [store_maybe_address] *)
Definition store_null_address (b : CellBuilder.t) : result string CellBuilder.t :=
  CellBuilder.store_u8 b 2 0.

Definition store_address (b : CellBuilder.t) (a : t) : result string CellBuilder.t :=
  let? b := CellBuilder.store_u8 b 2 2 in
  let? b := CellBuilder.store_bit b false in
  let? b := CellBuilder.store_u8 b 8 (as_u8 (workchain a)) in
  CellBuilder.store_slice b (hash_part a).

Definition store_maybe_address (b : CellBuilder.t) (a : option t) : result string CellBuilder.t :=
  match a with
  | Some a => store_address b a
  | None => store_null_address b
  end.

Section with_hash.
Context `{Sha256}.

Definition to_cell (a : t) : result string Cell.t :=
  let? b := store_address CellBuilder.new a in CellBuilder.build b.

End with_hash.

Definition from_cell (cell : Cell.t) : result string t :=
  let? r := BitReader.from_bits (Cell.data cell) (Cell.bit_len cell) in
  let? (tag, r) := BitReader.read_uint r 2 in
  if tag =? 0 then Err "address cell contains null address"%string else
  if negb (tag =? 2) then Err "address cell must contain std address"%string else
  let? (anycast, r) := BitReader.read_bit r in
  if (anycast : bool) then Err "anycast addresses are not supported"%string else
  let? (w, r) := BitReader.read_u8 r in
  let? (hash_part, _) := repeat_state 32 BitReader.read_u8 r in
  Ok (new (i8_of_byte w) hash_part).

End Address.

(** ** Facts on addresses *)

Module AddressFacts.
Import Address.

Lemma new_parts a : wf a -> new (workchain a) (hash_part a) = a.
Proof.
  destruct a as [[|b bs]]; intros [Hl Hb]; [done|]. simpl in *.
  apply Forall_cons in Hb as [Hb _]. unfold new, workchain, hash_part. simpl.
  by rewrite as_u8_i8_of_byte.
Qed.

Lemma new_wf w h : length h = 32%nat -> all_bytes h -> wf (new w h).
Proof.
  intros Hl Hh. unfold wf, new. simpl. rewrite Hl. split; [done|]. constructor; [|done].
  by apply wrap_width.
Qed.

Lemma workchain_range a : wf a -> -128 <= workchain a < 128.
Proof.
  destruct a as [[|b bs]]; intros [Hl Hb]; [done|]. simpl in *.
  apply Forall_cons in Hb as [Hb _]. unfold workchain, i8_of_byte, in_width in *. simpl.
  destruct (Z.ltb_spec b 128); lia.
Qed.

Lemma tag_from_tag ty : from_tag (tag ty) = Some ty.
Proof. by destruct ty. Qed.

Lemma tag_byte ty : is_byte (tag ty).
Proof. by destruct ty. Qed.

Lemma hash_part_wf a : wf a -> length (hash_part a) = 32%nat /\ all_bytes (hash_part a).
Proof. intros [Hl Hb]. unfold hash_part. rewrite length_drop, Hl. split; [done|]. by apply Forall_drop. Qed.

(** The two CRC bytes are the big-endian bytes of the checksum. *)
Lemma crc_bytes `{Crc16Laws} bs :
  [as_u8 (Z.land (Z.shiftr (crc16 bs) 8) 0xFF); as_u8 (Z.land (crc16 bs) 0xFF)] = be_bytes 2 (crc16 bs).
Proof.
  change 0xFF with (Z.ones 8). rewrite !Z.land_ones, Z.shiftr_div_pow2 by lia.
  unfold as_u8, wrap, be_bytes. simpl. change (2 ^ 8) with 256. by rewrite !Z.mod_mod.
Qed.

Lemma store_address_appends a : wf a ->
  BuilderFacts.appends (fun b => store_address b a)
    (uint_bits 2 2 ++ [false] ++ uint_bits 8 (as_u8 (workchain a)) ++ bytes_bits (hash_part a)) [].
Proof.
  intros Hwf. destruct (hash_part_wf a Hwf) as [Hl Hb]. unfold store_address.
  apply (BuilderFacts.appends_bind (fun b => CellBuilder.store_u8 b 2 2) _ _ _ [] []);
    [apply (BuilderFacts.appends_uint 2 2); lia|].
  apply (BuilderFacts.appends_bind (fun b => CellBuilder.store_bit b false) _ _ _ [] []);
    [apply BuilderFacts.appends_bit|].
  apply (BuilderFacts.appends_bind (fun b => CellBuilder.store_u8 b 8 (as_u8 (workchain a))) _ _ _ [] []).
  - apply (BuilderFacts.appends_uint 8); [lia|]. by apply wrap_width.
  - by apply BuilderFacts.appends_slice.
Qed.

(** Reading a cell whose bits are those of an address. *)
Lemma from_cell_bits c a : all_bytes (Cell.data c) -> length (Cell.data c) = ndiv_ceil (Cell.bit_len c) 8 ->
  (Cell.bit_len c <= MAX_CELL_BITS)%nat -> wf a ->
  Cell.bits c = uint_bits 2 2 ++ [false] ++ uint_bits 8 (as_u8 (workchain a)) ++ bytes_bits (hash_part a) ->
  from_cell c = Ok a.
Proof.
  intros Hb Hl Hn Hwf Hbits. unfold from_cell, BitReader.from_bits.
  assert (Cell.bit_len c <= length (Cell.data c) * 8 /\ length (Cell.data c) <= 128)%nat as [Hle Hle'].
  { rewrite Hl, WriterFacts.ndiv_ceil_8. pose proof (Nat.div_mod_eq (Cell.bit_len c) 8).
    pose proof (Nat.mod_upper_bound (Cell.bit_len c) 8). unfold MAX_CELL_BITS in Hn.
    destruct (Cell.bit_len c mod 8 =? 0)%nat eqn:E; zbool; lia. }
  test_false (length (Cell.data c) * 8 <? Cell.bit_len c)%nat.
  set (r := BitReader.Mk _ _ 0). assert (BitReader.wf r) as Hr.
  { unfold BitReader.wf, r, U64_MAX. simpl. repeat split; auto; lia. }
  assert (BitReader.rest r = Cell.bits c) as Hrest by (by unfold BitReader.rest, r, Cell.bits; simpl; rewrite drop_0).
  rewrite Hbits in Hrest. clear Hbits. destruct (hash_part_wf a Hwf) as [Hhl Hhb].
  destruct (ReaderFacts.read_uint_rest r 2 2 _ Hr ltac:(lia) ltac:(lia) Hrest) as (-> & H1 & H2).
  change (2 =? 0) with false. change (negb (2 =? 2)) with false. cbv beta iota.
  destruct (ReaderFacts.read_bit_cons _ _ _ H1 H2) as (-> & H3 & H4).
  destruct (ReaderFacts.read_u8_rest _ (as_u8 (workchain a)) (bytes_bits (hash_part a)) H4) as (-> & H5 & H6);
    [by apply wrap_width|exact H3|].
  rewrite <- (app_nil_r (bytes_bits (hash_part a))) in H6.
  destruct (ReaderFacts.read_u8_repeat _ _ _ H5 Hhb H6) as (r' & Hrep & _). rewrite Hhl in Hrep.
  rewrite Hrep, i8_of_byte_wrap by (by apply workchain_range). f_equal. by apply new_parts.
Qed.

(** Workchains print and parse back. *)
Definition workchain_prints (w : Z) : bool :=
  match split_once ":"%char (pretty w +:+ ":")%string, parse_i32 (pretty w) with
  | Some (l, r), Some v => bool_decide (l = pretty w) && bool_decide (r = ""%string) && (v =? w)
  | _, _ => false
  end.

Lemma all_workchains_print : forallb workchain_prints (seqZ (-128) 256) = true.
Proof. by vm_compute. Qed.

Lemma split_once_app c s l h : split_once c (s +:+ String c "")%string = Some (l, ""%string) -> l = s ->
  split_once c (s +:+ String c h)%string = Some (s, h).
Proof.
  intros H ->. induction s as [|a s IH]; simpl in *.
  - by rewrite Ascii.eqb_refl.
  - destruct (Ascii.eqb a c) eqn:E; [by injection H|].
    destruct (split_once c (s +:+ String c "")%string) as [[l r]|]; [|done].
    injection H as -> ->. by rewrite IH.
Qed.

Lemma parse_pretty_workchain w h : -128 <= w < 128 ->
  split_once ":"%char (pretty w +:+ ":" +:+ h)%string = Some (pretty w, h) /\
  parse_i32 (pretty w) = Some w.
Proof.
  intros Hw. pose proof all_workchains_print as Hall. rewrite forallb_forall in Hall.
  specialize (Hall w). unfold workchain_prints in Hall.
  destruct (split_once _ _) as [[l r]|] eqn:Hs, (parse_i32 _) as [v|] eqn:Hp.
  2-4: discriminate Hall; apply list_elem_of_In, elem_of_seqZ; lia.
  assert (v = w /\ l = pretty w /\ r = ""%string) as (-> & Hl & ->).
  { assert (In w (seqZ (-128) 256)) as Hin by (apply list_elem_of_In, elem_of_seqZ; lia).
    specialize (Hall Hin). rewrite !andb_true_iff, !bool_decide_eq_true in Hall. zbool. 
    destruct Hall as [[? ?] ?%Z.eqb_eq]. done. }
  split; [|done]. by eapply split_once_app.
Qed.

End AddressFacts.

(** ** Concrete parameters *)

Module TextConcrete.
Export HexConcrete.

(** Any injective text form serves for the two base64 alphabets. *)
#[export] Instance text_base64 : Base64 :=
  {| encode_base64_url := to_hex; decode_base64_url := of_hex; decode_base64_no_pad := of_hex |}.
#[export] Instance text_base64_laws : Base64Laws.
Proof. split; [exact of_to_hex|exact of_hex_bytes..]. Qed.

(** CRC-16/XMODEM, bit by bit. *)
Definition crc16_bit (crc : Z) : Z :=
  if Z.testbit crc 15 then Z.lxor (Z.land (Z.shiftl crc 1) 0xFFFF) 0x1021 else Z.land (Z.shiftl crc 1) 0xFFFF.
Definition crc16_byte (crc b : Z) : Z := Nat.iter 8 crc16_bit (Z.lxor crc (Z.shiftl b 8)).
#[export] Instance crc16_xmodem : Crc16 := fun bs => wrap 16 (fold_left crc16_byte bs 0).
#[export] Instance crc16_xmodem_laws : Crc16Laws.
Proof. split. intros bs. by apply wrap_width. Qed.

End TextConcrete.

(** ** Properties *)

Section properties.
Import Address AddressFacts.
Context `{Base64Laws} `{HexLaws} `{Crc16Laws}.

Lemma encode_bytes a ty : wf a ->
  all_bytes (tag ty :: raw a ++ be_bytes 2 (crc16 (tag ty :: raw a))) /\
  length (tag ty :: raw a ++ be_bytes 2 (crc16 (tag ty :: raw a))) = USER_FRIENDLY_ADDRESS_LEN.
Proof.
  intros [Hl Hb]. split.
  - constructor; [apply tag_byte|]. apply Forall_app. auto with rust.
  - cbn [length]. by rewrite length_app, Hl, be_bytes_length.
Qed.

(** The checks of [parse_user_friendly] on 36 decoded bytes. *)
Lemma parse_user_friendly_bytes s tg rw : decode_base64_url s = Some (tg :: rw ++ be_bytes 2 (crc16 (tg :: rw))) ->
  length rw = RAW_ADDRESS_LEN ->
  parse_user_friendly s = let?? ty := from_tag tg in Some (Mk rw, is_bounceable ty).
Proof.
  intros Hs Hl. unfold parse_user_friendly. rewrite Hs.
  assert (length (tg :: rw) = 34%nat) as Hl34 by (simpl; by rewrite Hl).
  change (tg :: rw ++ be_bytes 2 (crc16 (tg :: rw))) with ((tg :: rw) ++ be_bytes 2 (crc16 (tg :: rw))).
  rewrite length_app, be_bytes_length, Hl34. change (negb (34 + 2 =? USER_FRIENDLY_ADDRESS_LEN)%nat) with false.
  rewrite drop_app_length', take_app_length' by done. cbv iota.
  rewrite take_ge by (by rewrite be_bytes_length). unfold to_array. rewrite be_bytes_length. cbv iota beta.
  change (2 =? 2)%nat with true. cbv iota. rewrite of_be_be_bytes.
  rewrite Z.mod_small by (apply crc16_u16). rewrite Z.eqb_refl. cbv iota beta delta [negb].
  change (((tg :: rw) ++ be_bytes 2 (crc16 (tg :: rw))) !!! 0%nat) with tg.
  destruct (from_tag tg) as [ty|]; [|done].
  change (drop 1 ((tg :: rw) ++ ?x)) with (rw ++ x).
  by rewrite take_app_length', Hl, Nat.eqb_refl.
Qed.

(** Encoding an address in either user-friendly form and parsing it gives the
    same address and the bounceable flag of the form; [try_parse] accepts
    what [encode] prints. *)
Theorem user_friendly_roundtrip (a : t) (ty : UserFriendlyAddressType) : wf a ->
  parse_user_friendly (encode_user_friendly a ty) = Some (a, is_bounceable ty) /\
  try_parse (encode a) = Some a /\ parse (encode_non_bounceable a) = Ok a.
Proof.
  intros Hwf.
  assert (forall ty, parse_user_friendly (encode_user_friendly a ty) = Some (a, is_bounceable ty)) as Hrt.
  { intros ty'. destruct (encode_bytes a ty' Hwf) as [Hb _].
    rewrite (parse_user_friendly_bytes _ (tag ty') (raw a)).
    - rewrite tag_from_tag. by destruct a.
    - unfold encode_user_friendly. rewrite crc_bytes. by apply base64_url_roundtrip.
    - apply Hwf. }
  split; [apply Hrt|]. unfold parse, try_parse, try_parse_base64, encode, encode_bounceable, encode_non_bounceable.
  by rewrite !Hrt.
Qed.

Lemma to_array_some n bs bs' : to_array n bs = Some bs' -> bs' = bs /\ length bs = n.
Proof. unfold to_array. destruct (length bs =? n)%nat eqn:E; intros [= <-]; zbool. done. Qed.

(** Soundness of [parse_user_friendly]: whatever text it accepts decodes to 36
    bytes: a tag of a known type (the test-only bit 0x80 is ignored), the 33
    bytes of the address it returns, and the checksum of those 34 bytes; so a
    text with a wrong checksum, length or tag is never accepted. *)
Theorem parse_user_friendly_sound (s : string) (a : t) (bounceable : bool) :
  parse_user_friendly s = Some (a, bounceable) ->
  wf a /\ exists tg ty, (decode_base64_url s = Some (tg :: raw a ++ be_bytes 2 (crc16 (tg :: raw a))) \/
      decode_base64_no_pad s = Some (tg :: raw a ++ be_bytes 2 (crc16 (tg :: raw a)))) /\
    Z.land tg 0x7f = tag ty /\ bounceable = is_bounceable ty.
Proof.
  unfold parse_user_friendly. intros Hp.
  destruct (match decode_base64_url s with Some bs => Some bs | None => decode_base64_no_pad s end)
    as [bs|] eqn:Hd; [|done].
  assert (decode_base64_url s = Some bs \/ decode_base64_no_pad s = Some bs) as Hdec
    by (destruct (decode_base64_url s); [left|right]; congruence).
  assert (all_bytes bs) as Hb by (destruct Hdec; eauto using base64_url_bytes, base64_no_pad_bytes).
  clear Hd. destruct (negb (length bs =? USER_FRIENDLY_ADDRESS_LEN)%nat) eqn:Hlen; [done|]. zbool.
  destruct (to_array 2 _) as [crc|] eqn:Hcrc; [|done].
  destruct (negb (of_be crc =? crc16 (take 34 bs))) eqn:Heq; [done|]. zbool.
  destruct (from_tag _) as [ty|] eqn:Hty; [|done].
  destruct (to_array RAW_ADDRESS_LEN _) as [rw|] eqn:Hraw; [|done]. injection Hp as <- <-.
  apply to_array_some in Hcrc as [-> Hl2]. apply to_array_some in Hraw as [-> Hl33].
  destruct bs as [|tg bs]; [discriminate|]. cbn [drop] in *. change ((tg :: bs) !!! 0%nat) with tg in Hty.
  assert (take 34 (tg :: bs) = tg :: take RAW_ADDRESS_LEN bs) as H34 by done.
  split; [split; [done|]; simpl; apply Forall_cons in Hb as [_ Hb]; by apply Forall_take|].
  exists tg, ty. simpl raw. rewrite drop_0 in *. rewrite H34 in Heq. rewrite <- Heq.
  assert (all_bytes (take 2 (drop 33 bs))) as Hb2.
  { apply Forall_cons in Hb as [_ Hb]. by apply Forall_take, Forall_drop. }
  pose proof (be_bytes_of_be _ Hb2) as Hbe. rewrite Hl2 in Hbe. rewrite Hbe, (take_ge (drop 33 bs)).
  2:{ rewrite length_drop. simpl in Hlen. injection Hlen. lia. }
  change RAW_ADDRESS_LEN with 33%nat. rewrite take_drop. split; [done|].
  unfold from_tag in Hty. destruct (Z.land tg 0x7f =? TAG_BOUNCEABLE_MAINNET) eqn:E1; [|destruct (_ =? _) eqn:E2 in Hty; [|done]];
    injection Hty as <-; zbool; done.
Qed.

(** The raw form: [base64_to_hex_address] of an encoded address is
    "workchain:hash" and [try_parse_hex] reads it back to the same address;
    [hex_to_base64_address] is its inverse. *)
Theorem hex_address_roundtrip (a : t) : wf a ->
  exists text, base64_to_hex_address (encode a) = Some text /\
    try_parse_hex text = Some a /\ hex_to_base64_address text = Some (encode a).
Proof.
  intros Hwf.
  assert (try_parse_base64 (encode a) = Some a) as Hb.
  { unfold try_parse_base64, encode, encode_bounceable.
    destruct (encode_bytes a Bounceable Hwf) as [Hbs _].
    rewrite (parse_user_friendly_bytes _ (tag Bounceable) (raw a)); [by destruct a| |apply Hwf].
    unfold encode_user_friendly. rewrite crc_bytes. by apply base64_url_roundtrip. }
  unfold base64_to_hex_address. rewrite Hb. eexists; split; [done|].
  unfold hex_to_base64_address, try_parse_hex.
  destruct (hash_part_wf a Hwf) as [Hhl Hhb].
  destruct (parse_pretty_workchain (workchain a) (hex_encode (hash_part a)) (workchain_range a Hwf)) as [-> ->].
  rewrite hex_roundtrip by done. unfold to_array. rewrite Hhl. simpl. by rewrite new_parts.
Qed.

(** [try_parse_hex] truncates the workchain to 8 bits after parsing it as an
    [i32]: workchains that agree modulo 256 name the same address, so that
    "256:h" is accepted as the basechain address "0:h". *)
Theorem hex_workchain_aliases (w1 w2 h : string) (v1 v2 : Z) :
  split_once ":"%char (w1 +:+ ":" +:+ h)%string = Some (w1, h) ->
  split_once ":"%char (w2 +:+ ":" +:+ h)%string = Some (w2, h) ->
  parse_i32 w1 = Some v1 -> parse_i32 w2 = Some v2 -> v1 mod 256 = v2 mod 256 ->
  try_parse_hex (w1 +:+ ":" +:+ h)%string = try_parse_hex (w2 +:+ ":" +:+ h)%string.
Proof.
  intros Hs1 Hs2 Hv1 Hv2 Hmod. unfold try_parse_hex. rewrite Hs1, Hs2, Hv1, Hv2.
  destruct (hex_decode h) as [bs|]; [|done]. destruct (to_array 32 bs) as [hp|]; [|done].
  unfold new, as_u8, wrap. change (2 ^ 8) with 256. by rewrite Hmod.
Qed.

(** The cell form: [store_address] on an empty builder and [build] succeed for
    every well-formed address, and [from_cell] of the cell is that address. *)
Theorem cell_address_roundtrip `{Sha256} (a : t) : wf a ->
  exists c, to_cell a = Ok c /\ Cell.wf c /\ Cell.bit_len c = 267%nat /\ from_cell c = Ok a.
Proof.
  intros Hwf. destruct (hash_part_wf a Hwf) as [Hl Hb].
  destruct (store_address_appends a Hwf CellBuilder.new [] [] BuilderFacts.Repr_new) as (b & Hstore & HR);
    [autorewrite with rust_len; rewrite Hl; unfold MAX_CELL_BITS; simpl; lia|
     simpl; unfold MAX_CELL_REFERENCES; lia|].
  destruct (BuilderFacts.build_repr b _ _ HR) as (c & Hc & Hwfc & Hbits & Hn & _); [constructor..|].
  exists c. unfold to_cell. rewrite Hstore. split; [exact Hc|]. split; [done|].
  destruct (CellFacts.wf_inv c Hwfc) as (Hdb & _ & _ & _ & Hmax & _ & Hdl).
  split; [rewrite Hn; autorewrite with rust_len; by rewrite Hl|].
  by apply from_cell_bits.
Qed.

(** [from_cell] on the kinds of address it does not accept: whatever follows
    the two tag bits, a null address (00), an external or variable-length tag
    (01, 11) and a standard address with the anycast bit are rejected, each
    with its own error. *)
Theorem from_cell_rejects (c : Cell.t) (tg : Z) (anycast : bool) (l : list bool) :
  all_bytes (Cell.data c) -> (Cell.bit_len c <= length (Cell.data c) * 8)%nat ->
  (length (Cell.data c) <= 128)%nat -> 0 <= tg < 4 ->
  Cell.bits c = uint_bits 2 tg ++ anycast :: l ->
  (tg = 0 -> from_cell c = Err "address cell contains null address"%string) /\
  (tg = 1 \/ tg = 3 -> from_cell c = Err "address cell must contain std address"%string) /\
  (tg = 2 -> anycast = true -> from_cell c = Err "anycast addresses are not supported"%string).
Proof.
  intros Hb Hle Hl Htg Hbits. unfold from_cell, BitReader.from_bits.
  test_false (length (Cell.data c) * 8 <? Cell.bit_len c)%nat.
  set (r := BitReader.Mk _ _ 0). assert (BitReader.wf r) as Hr.
  { unfold BitReader.wf, r, U64_MAX. simpl. repeat split; auto; lia. }
  assert (BitReader.rest r = Cell.bits c) as Hrest by (by unfold BitReader.rest, r, Cell.bits; simpl; rewrite drop_0).
  rewrite Hbits in Hrest.
  destruct (ReaderFacts.read_uint_rest r 2 tg _ Hr ltac:(lia) Htg Hrest) as (-> & Hr2 & Hrest2).
  destruct (ReaderFacts.read_bit_cons _ _ _ Hr2 Hrest2) as (Hbit & _).
  split; [by intros ->|]. split; [by intros [-> | ->]|]. intros -> ->.
  change (2 =? 0) with false. change (negb (2 =? 2)) with false. cbv iota beta. by rewrite Hbit.
Qed.

End properties.

(** ** Witnesses *)

Section witnesses.
Import Address AddressFacts Concrete TextConcrete.

Definition sample : t := new (-1) (map Z.of_nat (seq 1 32)).

Lemma sample_wf : wf sample.
Proof. apply new_wf; [done|]. by repeat constructor. Qed.

Lemma user_friendly_roundtrip_witness :
  parse_user_friendly (encode_user_friendly sample NonBounceable) = Some (sample, false) /\
  try_parse (encode sample) = Some sample /\ parse (encode_non_bounceable sample) = Ok sample.
Proof. exact (user_friendly_roundtrip sample NonBounceable sample_wf). Defined.

Lemma parse_user_friendly_sound_witness : wf sample.
Proof.
  assert (parse_user_friendly (encode sample) = Some (sample, true)) as Hp by (by vm_compute).
  exact (proj1 (parse_user_friendly_sound (encode sample) sample true Hp)).
Defined.

Lemma hex_address_roundtrip_witness :
  exists text, base64_to_hex_address (encode sample) = Some text /\
    try_parse_hex text = Some sample /\ hex_to_base64_address text = Some (encode sample).
Proof. exact (hex_address_roundtrip sample sample_wf). Defined.

Lemma hex_workchain_aliases_witness :
  let h := hex_encode (hash_part sample) in
  try_parse_hex ("256" +:+ ":" +:+ h)%string = try_parse_hex ("0" +:+ ":" +:+ h)%string /\
  is_Some (try_parse_hex ("256" +:+ ":" +:+ h)%string).
Proof.
  split; [|by vm_compute; eauto].
  by apply (hex_workchain_aliases "256" "0" (hex_encode (hash_part sample)) 256 0).
Defined.

Lemma cell_address_roundtrip_witness :
  exists c, to_cell sample = Ok c /\ Cell.wf c /\ Cell.bit_len c = 267%nat /\ from_cell c = Ok sample.
Proof. exact (cell_address_roundtrip sample sample_wf). Defined.

Lemma from_cell_rejects_witness :
  from_cell (Cell.Mk [0xB0] 4 [] 0 []) = Err "anycast addresses are not supported"%string.
Proof.
  apply (from_cell_rejects (Cell.Mk [0xB0] 4 [] 0 []) 2 true [true]); try done.
  - by repeat constructor.
  - apply Nat.leb_le. reflexivity.
  - apply Nat.leb_le. reflexivity.
Defined.

End witnesses.
