(* ===== verification/TonIndex.v ===== *)
(** Indexing the cells of a bag: [gem_ton/src/tvm/indexed_cell.rs].  The
    [BTreeMap] is a finite map whose keys are enumerated in ascending order;
    the [RefCell] of an entry is the index stored in the map. *)
From stdpp Require Import sorting.
From S2P Require Import Prelude Crates TonBits TonCell.

Module IndexedCells.

Record IndexedCell : Type := Mk { index : Z; cell : Cell.t }.

Definition set_index (i : Z) (ic : IndexedCell) : IndexedCell := Mk i (cell ic).

Notation t := (gmap bytes IndexedCell).

(** The [Ord] of [[u8; 32]]: lexicographic. *)
Fixpoint lex_leb (a b : bytes) : bool :=
  match a, b with
  | [], _ => true
  | _ :: _, [] => false
  | x :: a, y :: b => (x <? y) || ((x =? y) && lex_leb a b)
  end.
Definition key_le (a b : bytes) : Prop := lex_leb a b = true.
#[export] Instance key_le_dec : RelDecision key_le.
Proof. intros a b. unfold key_le. apply _. Defined.

(** [BTreeMap::keys] *)
Definition keys (m : t) : list bytes := merge_sort key_le (map fst (map_to_list m)).

(** *** The breadth-first numbering *)

(** One frontier: the map, the next index and the next frontier. *)
Definition visit (st : t * Z * list Cell.t) (c : Cell.t) : t * Z * list Cell.t :=
  let '(m, next_index, next_frontier) := st in
  match m !! Cell.hash c with
  | Some _ => st
  | None => (<[Cell.hash c := Mk next_index c]> m, next_index + 1, next_frontier ++ Cell.references c)
  end.

Fixpoint number_cells (fuel : nat) (m : t) (next_index : Z) (frontier : list Cell.t) : option (t * Z) :=
  match frontier with
  | [] => Some (m, next_index)
  | _ :: _ =>
      match fuel with
      | O => None
      | S fuel =>
          let '(m, next_index, next_frontier) := fold_left visit frontier (m, next_index, []) in
          number_cells fuel m next_index next_frontier
      end
  end.

(** *** Moving references behind their parents *)

Definition reorder_reference (parent_index : Z) (st : t * Z * bool) (reference_hash : bytes) : t * Z * bool :=
  let '(m, next_index, _) := st in
  match m !! reference_hash with
  | None => st
  | Some reference =>
      if index reference <? parent_index
      then (<[reference_hash := set_index next_index reference]> m, next_index + 1, true)
      else st
  end.

Definition reorder_parent (st : t * Z * bool) (parent_hash : bytes) : t * Z * bool :=
  let '(m, _, _) := st in
  match m !! parent_hash with
  | None => st
  | Some parent =>
      let reference_hashes := map Cell.hash (Cell.references (cell parent)) in
      fold_left (reorder_reference (index parent)) reference_hashes st
  end.

Definition reorder_pass (m : t) (next_index : Z) : t * Z * bool :=
  fold_left reorder_parent (keys m) (m, next_index, false).

Fixpoint reorder (fuel : nat) (m : t) (next_index : Z) : option t :=
  match fuel with
  | O => None
  | S fuel =>
      let '(m, next_index, reordered) := reorder_pass m next_index in
      if (reordered : bool) then reorder fuel m next_index else Some m
  end.

(** A bound on the depth of the roots: both loops stop within it. *)
Definition levels (roots : list Cell.t) : nat := Z.to_nat (fold_right Z.max 0 (map Cell.depth roots)).

Definition build_index (roots : list Cell.t) : option t :=
  let?? (m, next_index) := number_cells (S (levels roots)) ∅ 0 roots in
  reorder (S (levels roots)) m next_index.

(** [sort_unstable_by_key] on distinct indexes, then the rank as the index. *)
Definition entry_le (a b : bytes * IndexedCell) : Prop := index a.2 <= index b.2.
#[export] Instance entry_le_dec : RelDecision entry_le.
Proof. intros a b. unfold entry_le. apply _. Defined.

Definition ordered_indexed_cells (m : t) : list (bytes * IndexedCell) * t :=
  let ordered := merge_sort entry_le (map_to_list m) in
  let ordered := imap (fun real_index '(h, ic) => (h, set_index (Z.of_nat real_index) ic)) ordered in
  (ordered, list_to_map ordered).

End IndexedCells.

(** ** Facts on the index *)

Module IndexFacts.
Import IndexedCells.

(** The cells of a bag. *)
Inductive Reach (roots : list Cell.t) : Cell.t -> Prop :=
| reach_root c : c ∈ roots -> Reach roots c
| reach_ref c r : Reach roots c -> r ∈ Cell.references c -> Reach roots r.

(** No two cells of the bag have the same hash. *)
Definition no_collision (roots : list Cell.t) : Prop :=
  forall a b, Reach roots a -> Reach roots b -> Cell.hash a = Cell.hash b -> a = b.

Lemma keys_spec m h : h ∈ keys m <-> is_Some (m !! h).
Proof.
  unfold keys. rewrite (merge_sort_Permutation key_le). 
  change (map fst (map_to_list m)) with ((map_to_list m).*1). rewrite list_elem_of_fmap. split.
  - intros ([h' ic] & -> & Hin%elem_of_map_to_list). simpl. eauto.
  - intros [ic Hic]. exists (h, ic). split; [done|]. by apply elem_of_map_to_list.
Qed.

(** Indexes are distinct and below the counter. *)
Definition distinct (m : t) (next : Z) : Prop :=
  (forall h ic, m !! h = Some ic -> 0 <= index ic < next) /\
  (forall h1 h2 ic1 ic2, m !! h1 = Some ic1 -> m !! h2 = Some ic2 -> index ic1 = index ic2 -> h1 = h2).

Lemma distinct_insert m next h c : 0 <= next -> distinct m next -> distinct (<[h := Mk next c]> m) (next + 1).
Proof.
  intros Hn [Hlt Hinj]. split.
  - intros h' ic [[<- <-]|[_ Hic]]%lookup_insert_Some; simpl; [lia|]. specialize (Hlt _ _ Hic). lia.
  - intros h1 h2 ic1 ic2 H1 H2 He.
    apply lookup_insert_Some in H1 as [[<- <-]|[Hne1 H1]]; apply lookup_insert_Some in H2 as [[<- <-]|[Hne2 H2]];
      simpl in He; auto.
    + specialize (Hlt _ _ H2). lia.
    + specialize (Hlt _ _ H1). lia.
    + eauto.
Qed.

(** The entries are the cells of the bag under their own hash. *)
Definition entries_ok (roots : list Cell.t) (m : t) : Prop :=
  forall h ic, m !! h = Some ic -> Cell.hash (cell ic) = h /\ Reach roots (cell ic).

(** Every cell of the bag has an entry. *)
Definition complete (roots : list Cell.t) (m : t) : Prop :=
  forall c, Reach roots c -> is_Some (m !! Cell.hash c).

Section numbering.
Context (roots : list Cell.t) (Hnc : no_collision roots).

Record visit_inv (st : t * Z * list Cell.t) (rest : list Cell.t) : Prop := {
  vi_distinct : distinct st.1.1 st.1.2;
  vi_next : 0 <= st.1.2;
  vi_entries : entries_ok roots st.1.1;
  vi_frontier : Forall (Reach roots) (rest ++ st.2);
  vi_closed : forall h ic r, st.1.1 !! h = Some ic -> r ∈ Cell.references (cell ic) ->
    is_Some (st.1.1 !! Cell.hash r) \/ r ∈ rest ++ st.2;
  vi_roots : forall r, r ∈ roots -> is_Some (st.1.1 !! Cell.hash r) \/ r ∈ rest ++ st.2;
}.

Lemma visit_step st c rest : visit_inv st (c :: rest) -> visit_inv (visit st c) rest.
Proof.
  destruct st as [[m next] nf]. intros [Hd Hn He Hf Hc Hr]. simpl in *.
  apply Forall_cons in Hf as [Hfc Hf]. destruct (m !! Cell.hash c) as [ic|] eqn:Hm.
  - constructor; simpl; auto.
    + intros h' ic' r Hl Hin. destruct (Hc _ _ _ Hl Hin) as [?|Hin']; [by left|].
      apply elem_of_cons in Hin' as [->|?]; [left; eauto|by right].
    + intros r Hin. destruct (Hr r Hin) as [?|Hin']; [by left|].
      apply elem_of_cons in Hin' as [->|?]; [left; eauto|by right].
  - constructor; simpl.
    + by apply distinct_insert.
    + lia.
    + intros h ic [[<- <-]|[_ Hic]]%lookup_insert_Some; [done|by apply He].
    + rewrite app_assoc. apply Forall_app. split; [done|]. apply Forall_forall. intros r Hin.
      by eapply reach_ref.
    + intros h ic r [[<- <-]|[_ Hic]]%lookup_insert_Some Hin; [right; simpl in Hin; set_solver|].
      destruct (Hc _ _ _ Hic Hin) as [Hs|Hin'].
      * left. destruct (decide (Cell.hash c = Cell.hash r)) as [->|];
          [rewrite lookup_insert_eq; eauto|by rewrite lookup_insert_ne].
      * apply elem_of_cons in Hin' as [->|?]; [left; rewrite lookup_insert_eq; eauto|right; set_solver].
    + intros r Hin. destruct (Hr r Hin) as [Hs|Hin'].
      * left. destruct (decide (Cell.hash c = Cell.hash r)) as [->|];
          [rewrite lookup_insert_eq; eauto|by rewrite lookup_insert_ne].
      * apply elem_of_cons in Hin' as [->|?]; [left; rewrite lookup_insert_eq; eauto|right; set_solver].
Qed.

Lemma visit_all_cells st rest : visit_inv st rest -> visit_inv (fold_left visit rest st) [].
Proof. revert st; induction rest as [|c rest IH]; intros st H; [done|]. simpl. by apply IH, visit_step. Qed.




(** The references found by a level are shallower. *)
Lemma visit_frontier_depth k rest st :
  Forall (fun r => Cell.depth r < k) st.2 ->
  Forall (fun c => Forall (fun r => Cell.depth r < k) (Cell.references c)) rest ->
  Forall (fun r => Cell.depth r < k) (fold_left visit rest st).2.
Proof.
  intros Hst Hrest. revert st Hst. induction Hrest as [|c rest Hc _ IH]; intros [[m next] nf] Hst; [done|].
  simpl. apply IH. destruct (m !! Cell.hash c); simpl in *; [done|]. by apply Forall_app.
Qed.

Lemma number_cells_spec fuel m next frontier :
  (forall c, Reach roots c -> 0 <= Cell.depth c /\ Forall (fun r => Cell.depth r < Cell.depth c) (Cell.references c)) ->
  visit_inv (m, next, []) frontier -> Forall (fun c => Cell.depth c < Z.of_nat fuel) frontier ->
  exists m' next', number_cells fuel m next frontier = Some (m', next') /\ visit_inv (m', next', []) [].
Proof.
  intros Hdep. revert m next frontier. induction fuel as [|fuel IH]; intros m next frontier Hinv Hlt.
  - destruct frontier as [|c f]; [by exists m, next|]. exfalso. apply Forall_cons in Hlt as [Hc _].
    destruct Hinv as [_ _ _ Hf _ _]. apply Forall_cons in Hf as [Hr _]. destruct (Hdep c Hr). lia.
  - destruct frontier as [|c f]; [by exists m, next|]. set (fr := c :: f) in *.
    change (number_cells (S fuel) m next fr) with
      (let '(m, next_index, next_frontier) := fold_left visit fr (m, next, []) in
       number_cells fuel m next_index next_frontier).
    pose proof (visit_all_cells _ _ Hinv) as Hinv'.
    pose proof (visit_frontier_depth (Z.of_nat fuel) fr (m, next, [])) as Hd.
    destruct (fold_left visit fr (m, next, [])) as [[m1 next1] nf]. simpl in Hd. apply IH.
    + destruct Hinv' as [H1 H2 H3 H4 H5 H6]; simpl in *. constructor; simpl; auto; rewrite app_nil_r; done.
    + apply Hd; [constructor|]. destruct Hinv as [_ _ _ Hf _ _]. simpl in Hf. rewrite app_nil_r in Hf.
      rewrite Forall_forall in Hf, Hlt |- *. intros x Hx. destruct (Hdep x (Hf x Hx)) as [_ Hrefs].
      specialize (Hlt x Hx). eapply Forall_impl; [exact Hrefs|]. simpl. lia.
Qed.

(** With nothing left to visit, every cell of the bag has its entry. *)
Lemma visit_inv_complete m next : visit_inv (m, next, []) [] -> complete roots m.
Proof.
  intros [_ _ He _ Hc Hr]. simpl in *. intros c Hreach. induction Hreach as [c Hin|c r Hreach IH Hin].
  - destruct (Hr c Hin) as [?|?%elem_of_nil]; done.
  - destruct IH as [ic Hic]. destruct (He _ _ Hic) as [Hh Hrc].
    assert (cell ic = c) as <- by (by apply Hnc).
    destruct (Hc _ _ _ Hic Hin) as [?|?%elem_of_nil]; done.
Qed.

End numbering.

(** *** The reordering loop *)

Section reordering.
Context (roots : list Cell.t) (Hnc : no_collision roots).
Context (Hdep : forall c, Reach roots c ->
  0 <= Cell.depth c /\ Forall (fun r => Cell.depth r < Cell.depth c) (Cell.references c)).

(** Every reference comes after its parent. *)
Definition ordered (m : t) : Prop := forall h ic r ic', m !! h = Some ic -> r ∈ Cell.references (cell ic) ->
  m !! Cell.hash r = Some ic' -> index ic < index ic'.

(** The same for the references at depth [k] or more. *)
Definition stable (k : Z) (m : t) : Prop := forall h ic r ic', m !! h = Some ic -> r ∈ Cell.references (cell ic) ->
  m !! Cell.hash r = Some ic' -> k <= Cell.depth r -> index ic < index ic'.

Record valid (m : t) (next : Z) : Prop := {
  va_distinct : distinct m next;
  va_next : 0 <= next;
  va_entries : entries_ok roots m;
  va_complete : complete roots m;
}.

Lemma entry_reach m next c : valid m next -> Reach roots c ->
  exists ic, m !! Cell.hash c = Some ic /\ cell ic = c.
Proof.
  intros [_ _ He Hco] Hr. destruct (Hco c Hr) as [ic Hic]. exists ic. split; [done|].
  destruct (He _ _ Hic) as [Hh Hrc]. by apply Hnc.
Qed.

Lemma set_index_valid m next h ic : valid m next -> m !! h = Some ic ->
  valid (<[h := set_index next ic]> m) (next + 1).
Proof.
  intros [Hd Hn He Hc] Hh. constructor; [by apply distinct_insert|lia| |].
  - intros h' ic' [[<- <-]|[_ Hic]]%lookup_insert_Some; [exact (He _ _ Hh)|by apply He].
  - intros c Hr. destruct (decide (h = Cell.hash c)) as [->|];
      [rewrite lookup_insert_eq; eauto|rewrite lookup_insert_ne by done; by apply Hc].
Qed.

(** Passing from one map to a later one: indexes only grow. *)
Definition grows (m m' : t) : Prop := forall h ic, m !! h = Some ic ->
  exists ic', m' !! h = Some ic' /\ cell ic' = cell ic /\ index ic <= index ic'.

Lemma grows_refl m : grows m m.
Proof. intros h ic Hic. eauto with lia. Qed.

Lemma grows_trans m1 m2 m3 : grows m1 m2 -> grows m2 m3 -> grows m1 m3.
Proof.
  intros H12 H23 h ic Hic. destruct (H12 _ _ Hic) as (ic2 & H2 & Hc2 & Hle2).
  destruct (H23 _ _ H2) as (ic3 & H3 & Hc3 & Hle3). exists ic3. repeat split; [done|congruence|lia].
Qed.

Section pass.
Context (m0 : t) (next0 k : Z) (Hv0 : valid m0 next0).

(** Entries at depth [k] or more have not moved since [m0]. *)
Definition kept (m : t) : Prop := forall h ic, m0 !! h = Some ic -> k <= Cell.depth (cell ic) -> m !! h = Some ic.

Definition pass_inv (st : t * Z * bool) : Prop := valid st.1.1 st.1.2 /\ kept st.1.1.

Lemma reference_step pi st r : pass_inv st -> Reach roots r -> pi < st.1.2 ->
  (k <= Cell.depth r -> exists ic, m0 !! Cell.hash r = Some ic /\ pi <= index ic) ->
  let st' := reorder_reference pi st (Cell.hash r) in
  pass_inv st' /\ grows st.1.1 st'.1.1 /\ st.1.2 <= st'.1.2 /\
  (forall ic, st'.1.1 !! Cell.hash r = Some ic -> pi <= index ic).
Proof.
  destruct st as [[m next] b]. intros [Hv Hk] Hr Hpi Hdeep. simpl in *.
  destruct (entry_reach m next r Hv Hr) as (ic & Hic & Hcell). rewrite Hic.
  destruct (index ic <? pi) eqn:Hlt; zbool; simpl.
  2:{ split; [done|]. split; [apply grows_refl|]. split; [lia|]. intros ic' Hic'. congruence. }
  split; [split|].
  - by apply set_index_valid.
  - intros h ich Hm0 Hd. destruct (decide (Cell.hash r = h)) as [<-|];
      [|simpl; rewrite lookup_insert_ne by done; by apply Hk].
    exfalso. pose proof (Hk _ _ Hm0 Hd) as Hm. simpl in Hm. rewrite Hm in Hic. injection Hic as ->.
    rewrite Hcell in Hd. destruct (Hdeep Hd) as (ic' & Hic' & Hle). rewrite Hic' in Hm0. injection Hm0 as ->. lia.
  - split; [|split; [lia|]].
    + intros h ich Hh. destruct (decide (Cell.hash r = h)) as [<-|].
      * rewrite Hic in Hh. injection Hh as ->. eexists. rewrite lookup_insert_eq. repeat split.
        simpl. destruct Hv as [[Hlt' _] _ _ _]. specialize (Hlt' _ _ Hic). lia.
      * exists ich. rewrite lookup_insert_ne by done. repeat split; [done|lia].
    + intros ic'. rewrite lookup_insert_eq. intros [= <-]. simpl. lia.
Qed.

Lemma references_fold pi rs st : pass_inv st -> Forall (Reach roots) rs -> pi < st.1.2 ->
  (forall r, r ∈ rs -> k <= Cell.depth r -> exists ic, m0 !! Cell.hash r = Some ic /\ pi <= index ic) ->
  let st' := fold_left (reorder_reference pi) (map Cell.hash rs) st in
  pass_inv st' /\ grows st.1.1 st'.1.1 /\ st.1.2 <= st'.1.2 /\
  (forall r ic, r ∈ rs -> st'.1.1 !! Cell.hash r = Some ic -> pi <= index ic).
Proof.
  intros Hinv Hrs. revert st Hinv. induction Hrs as [|r rs Hr _ IH]; intros st Hinv Hpi Hdeep; simpl.
  - split; [done|]. split; [apply grows_refl|]. split; [lia|]. by intros r ic ?%elem_of_nil.
  - destruct (reference_step pi st r Hinv Hr Hpi) as (Hinv1 & Hg1 & Hn1 & Hr1); [apply Hdeep; set_solver|].
    destruct (IH _ Hinv1) as (Hinv2 & Hg2 & Hn2 & Hr2); [lia|intros; apply Hdeep; set_solver|].
    split; [done|]. split; [by eapply grows_trans|]. split; [lia|].
    intros r' ic [->|Hin]%elem_of_cons Hic; [|by eapply Hr2].
    destruct (entry_reach _ _ r (proj1 Hinv1) Hr) as (ic1 & Hic1 & _).
    destruct (Hg2 _ _ Hic1) as (ic2 & Hic2 & _ & Hle). rewrite Hic in Hic2. injection Hic2 as ->.
    specialize (Hr1 _ Hic1). lia.
Qed.

Context (Hstable : stable k m0).

(** One parent: afterwards its references are not before it. *)
Lemma parent_step st h : pass_inv st -> grows m0 st.1.1 ->
  let st' := reorder_parent st h in
  pass_inv st' /\ grows st.1.1 st'.1.1 /\
  (forall p r ic, m0 !! h = Some p -> k <= Cell.depth (cell p) -> r ∈ Cell.references (cell p) ->
     st'.1.1 !! Cell.hash r = Some ic -> index p <= index ic).
Proof.
  destruct st as [[m next] b]. intros [Hv Hk] Hg. simpl in *.
  destruct (m !! h) as [parent|] eqn:Hp; simpl.
  2:{ split; [done|]. split; [apply grows_refl|]. intros p r ic Hm0 Hd. rewrite (Hk _ _ Hm0 Hd) in Hp. done. }
  pose proof Hv as [Hd _ He _]. destruct (He _ _ Hp) as [Hh Hrp]. destruct (Hdep _ Hrp) as [_ Hrefs].
  rewrite Forall_forall in Hrefs.
  destruct (references_fold (index parent) (Cell.references (cell parent)) (m, next, b)) as (H1 & H2 & _ & H4).
  - done.
  - apply Forall_forall. intros r Hr. by eapply reach_ref.
  - simpl. by destruct (proj1 Hd _ _ Hp).
  - intros r Hr Hkr. specialize (Hrefs _ Hr).
    destruct (entry_reach _ _ _ Hv0 Hrp) as (p & Hm0 & _). rewrite Hh in Hm0.
    destruct (Hg _ _ Hm0) as (p' & Hp' & Hcell & _). rewrite Hp in Hp'. injection Hp' as <-.
    assert (k <= Cell.depth (cell p)) as Hkp by (rewrite <- Hcell; lia).
    rewrite (Hk _ _ Hm0 Hkp) in Hp. injection Hp as ->.
    destruct (entry_reach _ _ r Hv0) as (ic & Hic & _); [by eapply reach_ref|].
    exists ic. split; [done|]. pose proof (Hstable _ _ _ _ Hm0 Hr Hic Hkr). lia.
  - split; [done|]. split; [done|]. intros p r ic Hm0 Hkp Hr Hic.
    pose proof (Hk _ _ Hm0 Hkp) as Hpp. rewrite Hp in Hpp. injection Hpp as ->. by eapply H4.
Qed.

Lemma parents_fold hs st : pass_inv st -> grows m0 st.1.1 ->
  let st' := fold_left reorder_parent hs st in
  pass_inv st' /\ grows st.1.1 st'.1.1 /\
  (forall h p r ic, h ∈ hs -> m0 !! h = Some p -> k <= Cell.depth (cell p) -> r ∈ Cell.references (cell p) ->
     st'.1.1 !! Cell.hash r = Some ic -> index p <= index ic).
Proof.
  revert st; induction hs as [|h hs IH]; intros st Hinv Hg; simpl.
  - split; [done|]. split; [apply grows_refl|]. by intros ???? ?%elem_of_nil.
  - destruct (parent_step st h Hinv Hg) as (H1 & Hg1 & Hr1).
    destruct (IH _ H1) as (H2 & Hg2 & Hr2); [by eapply grows_trans|].
    split; [done|]. split; [by eapply grows_trans|].
    intros h' p r ic [->|Hin]%elem_of_cons Hm0 Hkp Hr Hic; [|by eapply Hr2].
    assert (Reach roots r) as Hrr by (eapply reach_ref; [apply (va_entries _ _ Hv0 _ _ Hm0)|done]).
    destruct (entry_reach _ _ r (proj1 H1) Hrr) as (ic1 & Hic1 & _).
    destruct (Hg2 _ _ Hic1) as (ic2 & Hic2 & _ & Hle). rewrite Hic in Hic2. injection Hic2 as ->.
    specialize (Hr1 _ _ _ Hm0 Hkp Hr Hic1). lia.
Qed.

(** A pass settles one more level. *)
Lemma pass_progress m1 next1 b1 : reorder_pass m0 next0 = (m1, next1, b1) ->
  valid m1 next1 /\ stable (k - 1) m1.
Proof.
  unfold reorder_pass. intros Hp.
  destruct (parents_fold (keys m0) (m0, next0, false)) as ([Hv Hk] & Hg & Hr);
    [split; [done|by intros h ic]|apply grows_refl|].
  rewrite Hp in *. simpl in *. split; [done|]. intros h p r ic Hp1 Hin Hic Hkr.
  pose proof (va_entries _ _ Hv _ _ Hp1) as [Hh Hrp].
  destruct (Hdep _ Hrp) as [_ Hrefs]. rewrite Forall_forall in Hrefs. specialize (Hrefs _ Hin).
  destruct (entry_reach _ _ _ Hv0 Hrp) as (p0 & Hp0 & Hc0). rewrite Hh in Hp0.
  assert (k <= Cell.depth (cell p0)) as Hkp by (rewrite Hc0; lia).
  pose proof (Hk _ _ Hp0 Hkp) as Hpp. rewrite Hp1 in Hpp. injection Hpp as <-.
  assert (index p <= index ic) as Hle.
  { eapply Hr; [|exact Hp0|done|done|done]. apply keys_spec. eauto. }
  destruct (decide (index p = index ic)) as [He|]; [|lia].
  pose proof (proj2 (va_distinct _ _ Hv) _ _ _ _ Hp1 Hic He) as Hhr. rewrite <- Hh in Hhr.
  apply Hnc in Hhr; [|done|by eapply reach_ref]. rewrite Hhr in Hrefs. lia.
Qed.
End pass.

(** A pass over an ordered map changes nothing. *)
Lemma pass_ordered m next : ordered m -> reorder_pass m next = (m, next, false).
Proof.
  intros Ho. unfold reorder_pass. generalize (keys m). intros hs.
  induction hs as [|h hs IH]; [done|]. simpl.
  destruct (m !! h) as [p|] eqn:Hp; [|exact IH].
  enough (forall rs, (forall r, r ∈ rs -> r ∈ Cell.references (cell p)) ->
    fold_left (reorder_reference (index p)) (map Cell.hash rs) (m, next, false) = (m, next, false)) as ->
    by (exact IH || set_solver).
  induction rs as [|r rs IHrs]; intros Hin; [done|]. simpl.
  destruct (m !! Cell.hash r) as [ic|] eqn:Hic; [|apply IHrs; set_solver].
  assert (index p < index ic) as Hlt by (eapply Ho; [done| |done]; set_solver).
  test_false (index ic <? index p). apply IHrs. set_solver.
Qed.

(** A pass that reports no change found an ordered map. *)
Lemma references_unchanged pi hs st m next : fold_left (reorder_reference pi) hs st = (m, next, false) ->
  st = (m, next, false) /\ (forall h ic, h ∈ hs -> m !! h = Some ic -> pi <= index ic).
Proof.
  revert st; induction hs as [|h hs IH]; intros st; simpl; [intros ->; split; [done|]; by intros h ic ?%elem_of_nil|].
  intros Hf. apply IH in Hf as [Hst Hall]. destruct st as [[m1 next1] b1]. simpl in Hst.
  destruct (m1 !! h) as [ic|] eqn:Hic.
  - destruct (index ic <? pi) eqn:Hlt; [congruence|]. zbool. injection Hst as -> -> ->. split; [done|].
    intros h' ic' [->|Hin]%elem_of_cons Hic'; [congruence|by eapply Hall].
  - injection Hst as -> -> ->. split; [done|]. intros h' ic' [->|Hin]%elem_of_cons Hic'; [congruence|by eapply Hall].
Qed.

Lemma parents_unchanged hs st m next : fold_left reorder_parent hs st = (m, next, false) ->
  st = (m, next, false) /\ (forall h p r ic, h ∈ hs -> m !! h = Some p -> r ∈ Cell.references (cell p) ->
    m !! Cell.hash r = Some ic -> index p <= index ic).
Proof.
  revert st; induction hs as [|h hs IH]; intros st; simpl; [intros ->; split; [done|]; by intros ???? ?%elem_of_nil|].
  intros Hf. apply IH in Hf as [Hst Hall]. destruct st as [[m1 next1] b1]. simpl in Hst.
  destruct (m1 !! h) as [p|] eqn:Hp.
  - apply references_unchanged in Hst as [Hst Hrs]. injection Hst as -> -> ->. split; [done|].
    intros h' p' r ic [->|Hin]%elem_of_cons Hp' Hr Hic; [|by eapply Hall].
    rewrite Hp in Hp'. injection Hp' as ->. eapply Hrs; [|done]. by apply list_elem_of_fmap_2.
  - injection Hst as -> -> ->. split; [done|].
    intros h' p' r ic [->|Hin]%elem_of_cons Hp' Hr Hic; [congruence|by eapply Hall].
Qed.

Lemma valid_strict m next : valid m next ->
  (forall h p r ic, m !! h = Some p -> r ∈ Cell.references (cell p) -> m !! Cell.hash r = Some ic ->
    index p <= index ic) -> ordered m.
Proof.
  intros Hv Hall h p r ic Hp Hin Hic. pose proof (Hall _ _ _ _ Hp Hin Hic).
  destruct (decide (index p = index ic)) as [He|]; [|lia].
  pose proof (proj2 (va_distinct _ _ Hv) _ _ _ _ Hp Hic He) as Hhr.
  destruct (va_entries _ _ Hv _ _ Hp) as [Hh Hrp]. rewrite <- Hh in Hhr.
  apply Hnc in Hhr; [|done|by eapply reach_ref].
  destruct (Hdep _ Hrp) as [_ Hrefs]. rewrite Forall_forall in Hrefs. specialize (Hrefs _ Hin).
  rewrite Hhr in Hrefs. lia.
Qed.

(** [n + 1] passes settle a map whose references at depth [n] are settled. *)
Lemma reorder_spec n m next : valid m next -> stable (Z.of_nat n) m ->
  exists m' next', reorder (S n) m next = Some m' /\ valid m' next' /\ ordered m'.
Proof.
  revert m next; induction n as [|n IH]; intros m next Hv Hs.
  - assert (ordered m) as Ho.
    { intros h p r ic Hp Hin Hic. eapply Hs; try done.
      destruct (Hdep r) as [? _]; [|done]. eapply reach_ref; [|done]. by apply (va_entries _ _ Hv _ _ Hp). }
    exists m, next. simpl. rewrite pass_ordered by done. done.
  - change (reorder (S (S n)) m next) with
      (let '(m, next_index, reordered) := reorder_pass m next in
       if (reordered : bool) then reorder (S n) m next_index else Some m).
    destruct (reorder_pass m next) as [[m1 next1] b] eqn:Hp. destruct b.
    + destruct (pass_progress m next (Z.of_nat (S n)) Hv Hs _ _ _ Hp) as [Hv1 Hs1].
      apply (IH m1 next1 Hv1). by replace (Z.of_nat n) with (Z.of_nat (S n) - 1) by lia.
    + unfold reorder_pass in Hp. apply parents_unchanged in Hp as [Hst Hall]. injection Hst as -> ->.
      exists m1, next1. split; [done|]. split; [done|]. apply (valid_strict m1 next1 Hv).
      intros h p r ic Hpp Hin Hic. apply (Hall h p r ic); [apply keys_spec; eauto|done..].
Qed.

Lemma depth_levels c : Reach roots c -> Cell.depth c <= Z.of_nat (levels roots).
Proof.
  assert (forall l x, x ∈ l -> x <= fold_right Z.max 0 l) as Hmax.
  { induction l as [|y l IH]; intros x Hx; [by apply elem_of_nil in Hx|].
    apply elem_of_cons in Hx as [->|Hx]; simpl; [lia|]. specialize (IH x Hx). lia. }
  intros Hr. unfold levels. induction Hr as [c Hin|c r Hr IH Hin].
  - specialize (Hmax (map Cell.depth roots) (Cell.depth c) (list_elem_of_fmap_2 _ _ _ Hin)). lia.
  - destruct (Hdep c Hr) as [_ Hrefs]. rewrite Forall_forall in Hrefs. specialize (Hrefs _ Hin). lia.
Qed.

Lemma build_index_spec : exists m next, build_index roots = Some m /\ valid m next /\ ordered m.
Proof.
  unfold build_index.
  destruct (number_cells_spec roots Hnc (S (levels roots)) ∅ 0 roots) as (m & next & -> & Hinv).
  - done.
  - constructor; simpl; rewrite ?app_nil_r; try done.
    + by apply Forall_forall, reach_root.
    + intros r Hr. by right.
  - apply Forall_forall. intros c Hc. pose proof (depth_levels c (reach_root _ _ Hc)). lia.
  - assert (valid m next) as Hv.
    { pose proof (visit_inv_complete roots Hnc _ _ Hinv). destruct Hinv. by constructor. }
    destruct (reorder_spec (levels roots) m next Hv) as (m' & next' & Hm' & Hv' & Ho); [|by exists m', next'].
    intros h p r ic Hp Hin Hic Hk. exfalso. destruct (va_entries _ _ Hv _ _ Hp) as [_ Hrp].
    destruct (Hdep _ Hrp) as [_ Hrefs]. rewrite Forall_forall in Hrefs. specialize (Hrefs _ Hin).
    pose proof (depth_levels _ Hrp). lia.
Qed.

End reordering.

(** *** The ordered list *)

Lemma strongly_sorted_lt l i j a b : StronglySorted entry_le l -> l !! i = Some a -> l !! j = Some b ->
  index a.2 < index b.2 -> (i < j)%nat.
Proof.
  intros Hs. revert i j. induction Hs as [|x l Hs IH Hx]; intros i j Hi Hj Hlt; [done|].
  destruct i as [|i], j as [|j]; simpl in *; [|lia| |].
  - injection Hi as ->. injection Hj as ->. lia.
  - injection Hj as ->. rewrite Forall_lookup in Hx. specialize (Hx _ _ Hi). unfold entry_le in Hx. lia.
  - assert (i < j)%nat by (by eapply IH). lia.
Qed.

#[export] Instance entry_le_trans : Transitive entry_le.
Proof. intros a b c. unfold entry_le. lia. Qed.
#[export] Instance entry_le_total : Total entry_le.
Proof. intros a b. unfold entry_le. lia. Qed.

(** The list holds the entries of the map, with their rank as the index, and
    the returned map agrees with it. *)
Lemma ordered_list_spec m L m' : ordered_indexed_cells m = (L, m') ->
  length L = size m /\ NoDup L.*1 /\
  (forall i h ic, L !! i = Some (h, ic) -> index ic = Z.of_nat i /\ exists ic0, m !! h = Some ic0 /\ cell ic = cell ic0) /\
  (forall h ic0, m !! h = Some ic0 -> exists i ic, L !! i = Some (h, ic) /\ m' !! h = Some ic /\ cell ic = cell ic0) /\
  (forall i j hi hj ci cj ci0 cj0, L !! i = Some (hi, ci) -> L !! j = Some (hj, cj) ->
     m !! hi = Some ci0 -> m !! hj = Some cj0 -> index ci0 < index cj0 -> (i < j)%nat).
Proof.
  unfold ordered_indexed_cells. set (S := merge_sort entry_le (map_to_list m)).
  set (f := fun (real_index : nat) '((h, ic) : bytes * IndexedCell) => (h, set_index (Z.of_nat real_index) ic)).
  intros [= <- <-].
  assert (S ≡ₚ map_to_list m) as HP by apply merge_sort_Permutation.
  assert (StronglySorted entry_le S) as HS by (apply StronglySorted_merge_sort; apply _).
  assert (forall h ic, (h, ic) ∈ S <-> m !! h = Some ic) as Hin by (intros; rewrite HP; apply elem_of_map_to_list).
  assert (forall i h ic, imap f S !! i = Some (h, ic) -> exists ic0, S !! i = Some (h, ic0) /\ ic = set_index (Z.of_nat i) ic0) as Hlook.
  { intros i h ic. rewrite list_lookup_imap. destruct (S !! i) as [[h' ic']|]; [|done]. simpl.
    intros [= <- <-]. eauto. }
  assert (NoDup (imap f S).*1) as Hnd.
  { assert ((imap f S).*1 = S.*1) as ->.
    { apply list_eq. intros i. rewrite !list_lookup_fmap, list_lookup_imap. by destruct (S !! i) as [[??]|]. }
    rewrite HP. apply NoDup_fst_map_to_list. }
  split; [|split; [done|split; [|split]]].
  - rewrite length_imap. change S with (merge_sort entry_le (map_to_list m)). rewrite merge_sort_Permutation. apply length_map_to_list.
  - intros i h ic Hi. destruct (Hlook _ _ _ Hi) as (ic0 & Hi0 & ->). split; [done|]. exists ic0. split; [|done].
    apply Hin. by eapply list_elem_of_lookup_2.
  - intros h ic0 Hm. apply Hin in Hm. apply list_elem_of_lookup_1 in Hm as [i Hi].
    assert (imap f S !! i = Some (h, set_index (Z.of_nat i) ic0)) as Hl by (by rewrite list_lookup_imap, Hi).
    exists i, (set_index (Z.of_nat i) ic0). split; [done|]. split; [|done].
    apply elem_of_list_to_map_1; [done|]. by eapply list_elem_of_lookup_2.
  - intros i j hi hj ci cj ci0 cj0 Hi Hj Hmi Hmj Hlt.
    destruct (Hlook _ _ _ Hi) as (ci1 & Hi1 & ->). destruct (Hlook _ _ _ Hj) as (cj1 & Hj1 & ->).
    eapply strongly_sorted_lt; [exact HS|exact Hi1|exact Hj1|]. simpl.
    assert (ci1 = ci0) as -> by (apply list_elem_of_lookup_2, Hin in Hi1; congruence).
    assert (cj1 = cj0) as -> by (apply list_elem_of_lookup_2, Hin in Hj1; congruence). done.
Qed.

Lemma reach_wf `{Sha256} roots c : Forall Cell.wf roots -> Reach roots c -> Cell.wf c.
Proof.
  intros Hwf Hr. rewrite Forall_forall in Hwf. induction Hr as [c Hin|c r Hr IH Hin]; [by apply Hwf|].
  apply CellFacts.wf_inv in IH as (_ & _ & Hrefs & _). rewrite Forall_forall in Hrefs. by apply Hrefs.
Qed.

(** Where [serialize] finds the cells of a bag. *)
Record layout (roots : list Cell.t) (L : list (bytes * IndexedCell)) (m : t) : Prop := {
  la_entry : forall i h ic, L !! i = Some (h, ic) ->
    Reach roots (cell ic) /\ h = Cell.hash (cell ic) /\ index ic = Z.of_nat i;
  la_cell : forall c, Reach roots c ->
    exists i ic, L !! i = Some (Cell.hash c, ic) /\ cell ic = c /\ m !! Cell.hash c = Some ic;
  la_unique : forall i j h ci cj, L !! i = Some (h, ci) -> L !! j = Some (h, cj) -> i = j;
  la_order : forall i j hi hj ci cj, L !! i = Some (hi, ci) -> L !! j = Some (hj, cj) ->
    cell cj ∈ Cell.references (cell ci) -> (i < j)%nat;
}.

Lemma layout_nodup roots L m : layout roots L m -> NoDup (map (fun e => cell e.2) L).
Proof.
  intros [Hent _ Huniq _]. apply NoDup_alt. intros i j c. change (map ?f L) with (f <$> L).
  rewrite !list_lookup_fmap. destruct (L !! i) as [[h1 ic1]|] eqn:Hi, (L !! j) as [[h2 ic2]|] eqn:Hj; try done.
  simpl. intros [= <-] [= Hc]. destruct (Hent _ _ _ Hi) as (_ & -> & _). destruct (Hent _ _ _ Hj) as (_ & -> & _).
  rewrite Hc in Hj. by eapply Huniq.
Qed.

Lemma index_layout `{Sha256} roots : Forall Cell.wf roots -> no_collision roots ->
  exists m L m', build_index roots = Some m /\ ordered_indexed_cells m = (L, m') /\ layout roots L m'.
Proof.
  intros Hwf Hnc.
  destruct (build_index_spec roots Hnc) as (m & next & Hm & Hv & Ho).
  { intros c Hr. pose proof (CellFacts.wf_depth c (reach_wf _ _ Hwf Hr)). intuition lia. }
  destruct (ordered_indexed_cells m) as [L m'] eqn:HL. exists m, L, m'. split; [done|]. split; [done|].
  destruct (ordered_list_spec _ _ _ HL) as (Hlen & Hnd & Hent & Hall & Hord).
  assert (forall i h ic, L !! i = Some (h, ic) ->
    Reach roots (cell ic) /\ h = Cell.hash (cell ic) /\ index ic = Z.of_nat i) as Hentry.
  { intros i h ic Hi. destruct (Hent _ _ _ Hi) as (Hix & ic0 & Hm0 & Hc).
    destruct (va_entries _ _ _ Hv _ _ Hm0). by rewrite Hc. }
  constructor; [done| | |].
  - intros c Hr. destruct (entry_reach roots Hnc _ _ _ Hv Hr) as (ic & Hic & Hc).
    destruct (Hall _ _ Hic) as (i & ic' & Hi & Hm' & Hc'). exists i, ic'. split; [done|]. split; [congruence|done].
  - intros i j h ci cj Hi Hj. eapply (NoDup_lookup L.*1); [done|..]; by rewrite list_lookup_fmap, ?Hi, ?Hj.
  - intros i j hi hj ci cj Hi Hj Hin.
    destruct (Hentry _ _ _ Hi) as (_ & -> & _). destruct (Hentry _ _ _ Hj) as (_ & -> & _).
    destruct (Hent _ _ _ Hi) as (_ & ci0 & Hmi & Hci). destruct (Hent _ _ _ Hj) as (_ & cj0 & Hmj & Hcj).
    eapply Hord; try done. rewrite Hci in Hin. eapply Ho; done.
Qed.

End IndexFacts.

(** ** Properties *)

Section properties.
Import IndexedCells IndexFacts.
Context `{Sha256}.

(** (C35) Indexing a bag terminates, and the list of cells it gives is a topological
    order of the bag: [build_index]'s breadth-first numbering visits every
    cell and its reordering loop stops (within one pass per level of depth);
    each distinct cell occurs exactly once, at the position stored as its
    index, and every reference is placed after all the cells that refer to
    it.  The only assumption on the hash is that two different cells of this
    bag do not collide. *)
Theorem index_topological (roots : list Cell.t) : Forall Cell.wf roots -> no_collision roots ->
  exists m L m', build_index roots = Some m /\ ordered_indexed_cells m = (L, m') /\
    let cells := map (fun e => cell e.2) L in
    NoDup cells /\ (forall c, c ∈ cells <-> Reach roots c) /\
    (forall i c, cells !! i = Some c -> index <$> m' !! Cell.hash c = Some (Z.of_nat i)) /\
    (forall i j c r, cells !! i = Some c -> cells !! j = Some r -> r ∈ Cell.references c -> (i < j)%nat).
Proof.
  intros Hwf Hnc. destruct (index_layout roots Hwf Hnc) as (m & L & m' & Hm & HL & Hlay).
  pose proof Hlay as [Hent Hcell Huniq Hord].
  exists m, L, m'. split; [done|]. split; [done|]. cbv zeta.
  assert (forall i c, map (fun e => cell e.2) L !! i = Some c ->
    exists h ic, L !! i = Some (h, ic) /\ cell ic = c /\ Reach roots c /\ m' !! Cell.hash c = Some ic /\ index ic = Z.of_nat i)
    as Hlook.
  { intros i c. change (map ?f L) with (f <$> L). rewrite list_lookup_fmap.
    destruct (L !! i) as [[h ic]|] eqn:Hi; [|done]. simpl. intros [= <-].
    destruct (Hent _ _ _ Hi) as (Hr & -> & Hix). destruct (Hcell _ Hr) as (j & ic' & Hj & Hc & Hm').
    destruct (Hent _ _ _ Hj) as (_ & _ & Hix').
    assert (i = j) as -> by (by eapply Huniq). rewrite Hi in Hj. injection Hj as <-. eauto 10. }
  split; [|split; [|split]].
  - by apply (layout_nodup roots L m').
  - intros c. split.
    + intros [i Hi]%list_elem_of_lookup_1. by destruct (Hlook _ _ Hi) as (_ & _ & _ & _ & ? & _).
    + intros Hr. destruct (Hcell _ Hr) as (i & ic & Hi & <- & _).
      apply (list_elem_of_fmap_2 (fun e => cell e.2) L (Cell.hash (cell ic), ic)). by eapply list_elem_of_lookup_2.
  - intros i c Hi. destruct (Hlook _ _ Hi) as (h & ic & _ & _ & _ & -> & Hix). simpl. by rewrite Hix.
  - intros i j c r Hi Hj Hin. destruct (Hlook _ _ Hi) as (h1 & ic1 & Hi1 & <- & _).
    destruct (Hlook _ _ Hj) as (h2 & ic2 & Hj2 & <- & _). by eapply Hord.
Qed.

End properties.

(** ** Witnesses *)

(** A bag on which the breadth-first numbering alone is not topological: the
    root refers to a shared cell directly and through a longer path. *)
Module SampleBag.
Import Concrete IndexedCells IndexFacts.

Definition cell_of (d : bytes) (refs : list Cell.t) : Cell.t :=
  match Cell.try_new d (length d * 8) refs with Some c => c | None => Cell.Mk [] 0 [] 0 [] end.

Definition shared : Cell.t := cell_of [1] [].
Definition middle : Cell.t := cell_of [2] [shared].
Definition outer : Cell.t := cell_of [3; 4] [middle].
Definition root : Cell.t := cell_of [5] [shared; outer; middle].

Lemma cell_of_wf d refs : all_bytes d -> Forall Cell.wf refs ->
  Cell.try_new d (length d * 8) refs = Some (cell_of d refs) -> Cell.wf (cell_of d refs).
Proof.
  intros Hd Hr Hc. eapply Cell.wf_new; [exact Hd| |exact Hr|exact Hc]. unfold Cell.zero_padded.
  rewrite take_ge by (autorewrite with rust_len; lia). by rewrite Nat.sub_diag, app_nil_r.
Qed.

Lemma root_wf : Cell.wf root.
Proof.
  assert (Cell.wf shared) by (apply cell_of_wf; [by repeat constructor|constructor|by vm_compute]).
  assert (Cell.wf middle) by (apply cell_of_wf; [by repeat constructor|by repeat constructor|by vm_compute]).
  assert (Cell.wf outer) by (apply cell_of_wf; [by repeat constructor|by repeat constructor|by vm_compute]).
  apply cell_of_wf; [by repeat constructor|by repeat constructor|by vm_compute].
Qed.

Lemma reach_diamond (a b c d x : Cell.t) : Cell.references a = [d; b; c] -> Cell.references b = [c] ->
  Cell.references c = [d] -> Cell.references d = [] -> Reach [a] x -> x ∈ [a; b; c; d].
Proof.
  intros Ha Hb Hc Hd. induction 1 as [x Hx|x r _ IH Hr]; [set_solver|].
  rewrite !elem_of_cons in IH. destruct IH as [->|[->|[->|[->|[]%elem_of_nil]]]];
    rewrite ?Ha, ?Hb, ?Hc, ?Hd, ?elem_of_cons, ?elem_of_nil in Hr; rewrite !elem_of_cons; tauto.
Qed.

Lemma no_collision_list l roots : (forall x, Reach roots x -> x ∈ l) -> NoDup (map Cell.hash l) -> no_collision roots.
Proof.
  intros Hl Hnd a b Ha%Hl Hb%Hl He. apply list_elem_of_lookup_1 in Ha as [i Hi], Hb as [j Hj].
  assert (i = j) as ->; [|congruence].
  apply (NoDup_lookup (Cell.hash <$> l) i j (Cell.hash b) Hnd); rewrite list_lookup_fmap, ?Hi, ?Hj; simpl; congruence.
Qed.

Lemma root_no_collision : no_collision [root].
Proof.
  apply (no_collision_list [root; outer; middle; shared]).
  - intros x. apply reach_diamond; by vm_compute.
  - by apply (bool_decide_unpack _); vm_compute.
Qed.

Lemma root_cells_wf : Forall Cell.wf [root].
Proof. constructor; [exact root_wf|constructor]. Qed.

Definition order_of (roots : list Cell.t) : option (list bytes) :=
  let?? m := build_index roots in Some (map (fun e => Cell.data (cell e.2)) (ordered_indexed_cells m).1).

Example sample_order : order_of [root] = Some [[5]; [3; 4]; [2]; [1]].
Proof. by vm_compute. Qed.

Lemma index_topological_witness :
  exists m L m', build_index [root] = Some m /\ ordered_indexed_cells m = (L, m') /\
    NoDup (map (fun e => cell e.2) L) /\ (forall c, c ∈ map (fun e => cell e.2) L <-> Reach [root] c).
Proof.
  destruct (index_topological [root] root_cells_wf root_no_collision) as (m & L & m' & Hm & HL & Hnd & Hin & _).
  exists m, L, m'. split; [exact Hm|]. split; [exact HL|]. split; [exact Hnd|exact Hin].
Defined.

End SampleBag.
