(* ===== verification/TonRawCell.v ===== *)
(** The wire form of one cell and the header of a bag of cells:
    [gem_ton/src/tvm/raw_cell.rs] (module [RawCell]) and
    [gem_ton/src/tvm/header.rs] (module [BocHeader]). *)
From S2P Require Import Prelude Crates TonBits TonCell TonIndex.

Definition write_var_uint (value : Z) (size : nat) : bytes :=
  map (fun shift => as_u8 (Z.land (Z.shiftr value (Z.of_nat shift * 8)) 0xff)) (rev (seq 0 size)).

Module RawCell.

Record t : Type := Mk { data : bytes; bit_len : nat; references : list Z }.

#[export] Instance raw_cell_eq_dec : EqDecision t.
Proof. solve_decision. Defined.

(** [u8::trailing_zeros]: the position of the lowest set bit, 8 if there is none. *)
Fixpoint trailing_zeros_from (n : nat) (i : nat) (b : Z) : nat :=
  match n with
  | O => i
  | S n => if Z.testbit b (Z.of_nat i) then i else trailing_zeros_from n (S i) b
  end.
Definition trailing_zeros (b : Z) : nat := trailing_zeros_from 8 0 b.

(** [last & !(1 << k)] on a byte *)
Definition clear_bit (b : Z) (k : nat) : Z := Z.land b (Z.lxor 0xff (Z.shiftl 1 (Z.of_nat k))).

Definition unpad_cell_bits (d : bytes) (full_bytes : bool) : option (bytes * nat) :=
  match last d with
  | None => Some (d, 0%nat)
  | Some l =>
      if full_bytes then Some (d, length d * 8)%nat else
      let tz := trailing_zeros l in
      if (8 <=? tz)%nat then None
      else Some (alter (fun b => clear_bit b tz) (length d - 1)%nat d, length d * 8 - (tz + 1))%nat
  end.

Definition try_parse (r : BitReader.t) (ref_size : nat) : option (t * BitReader.t) :=
  let?? (refs_descriptor, r) := ok (BitReader.read_u8 r) in
  let?? (bits_descriptor, r) := ok (BitReader.read_u8 r) in
  let ref_count := Z.to_nat (Z.land refs_descriptor 7) in
  let is_exotic := negb (Z.land refs_descriptor 8 =? 0) in
  let has_hashes := negb (Z.land refs_descriptor 16 =? 0) in
  let level_mask := Z.shiftr refs_descriptor 5 in
  if is_exotic || has_hashes || negb (level_mask =? 0) then None else
  let data_size := Z.to_nat (Z.shiftr bits_descriptor 1 + Z.land bits_descriptor 1) in
  let full_bytes := Z.land bits_descriptor 1 =? 0 in
  let?? (d, r) := ok (BitReader.read_bytes r data_size) in
  let?? (d, n) := unpad_cell_bits d full_bytes in
  let?? (refs, r) := ok (repeat_state ref_count (fun r => BitReader.read_var_uint r ref_size) r) in
  Some (Mk d n refs, r).

Definition parse (r : BitReader.t) (ref_size : nat) : result string (t * BitReader.t) :=
  ok_or (try_parse r ref_size) "invalid BoC cell"%string.

Definition from_cell (c : Cell.t) (indexed_cells : IndexedCells.t) : result string t :=
  let? refs := collect (fun r => ok_or (IndexedCells.index <$> indexed_cells !! Cell.hash r)
                                   "missing referenced cell"%string) (Cell.references c) in
  Ok (Mk (Cell.data c) (Cell.bit_len c) refs).

Definition size (c : t) (ref_size : nat) : nat :=
  (2 + ndiv_ceil (bit_len c) 8 + length (references c) * ref_size)%nat.

Definition write (c : t) (ref_size : nat) : bytes :=
  let full_bytes := (bit_len c mod 8 =? 0)%nat in
  let data_len := ndiv_ceil (bit_len c) 8 in
  [as_u8 (Z.of_nat (length (references c)));
   as_u8 (Z.of_nat data_len * 2 - (if full_bytes then 0 else 1))]
  ++ (if negb full_bytes && (0 <? data_len)%nat
      then take (data_len - 1) (data c)
           ++ [Z.lor (data c !!! (data_len - 1)%nat) (Z.shiftl 1 (Z.of_nat (8 - bit_len c mod 8 - 1)))]
      else take data_len (data c))
  ++ flat_map (fun r => write_var_uint r ref_size) (references c).

(** What [from_cell] produces from a well-formed cell: data of the right
    length with zero padding, few references that fit [ref_size] bytes. *)
Definition wf (ref_size : nat) (c : t) : Prop :=
  (bit_len c <= MAX_CELL_BITS)%nat /\ length (data c) = ndiv_ceil (bit_len c) 8 /\ all_bytes (data c) /\
  Cell.zero_padded (data c) (bit_len c) /\ (length (references c) <= MAX_CELL_REFERENCES)%nat /\
  Forall (in_width (8 * Z.of_nat ref_size)) (references c).

End RawCell.

Module BocHeader.

Definition BOC_MAGIC : Z := 0xb5ee9c72.
Definition MAX_CELLS : Z := 4096.
Definition REF_SIZE_MASK : Z := 7.
Definition HAS_IDX_FLAG : Z := 0x80.
Definition HAS_CRC32C_FLAG : Z := 0x40.
Definition MAX_REF_BYTES : Z := 4.
Definition MAX_OFF_BYTES : Z := 8.

Record t : Type := Mk {
  has_idx : bool;
  has_crc32c : bool;
  ref_bytes : Z;
  off_bytes : Z;
  cells_count : Z;
  roots_count : Z;
  total_cells_size : Z;
}.

Definition try_parse (r : BitReader.t) : option (t * BitReader.t) :=
  let?? (magic, r) := ok (BitReader.read_u32 r) in
  if negb (magic =? BOC_MAGIC) then None else
  let?? (flags, r) := ok (BitReader.read_u8 r) in
  let ref_bytes := Z.land flags REF_SIZE_MASK in
  if (ref_bytes =? 0) || (MAX_REF_BYTES <? ref_bytes) then None else
  let?? (off_bytes, r) := ok (BitReader.read_u8 r) in
  if (off_bytes =? 0) || (MAX_OFF_BYTES <? off_bytes) then None else
  let?? (cells_count, r) := ok (BitReader.read_var_uint r (Z.to_nat ref_bytes)) in
  let?? (roots_count, r) := ok (BitReader.read_var_uint r (Z.to_nat ref_bytes)) in
  let?? (absent_count, r) := ok (BitReader.read_var_uint r (Z.to_nat ref_bytes)) in
  let?? (total_cells_size, r) := ok (BitReader.read_var_uint r (Z.to_nat off_bytes)) in
  if (cells_count =? 0) || (MAX_CELLS <? cells_count) then None else
  if (roots_count =? 0) || (cells_count <? roots_count) then None else
  if cells_count <? as_u64 (roots_count + absent_count) then None else
  Some (Mk (negb (Z.land flags HAS_IDX_FLAG =? 0)) (negb (Z.land flags HAS_CRC32C_FLAG =? 0))
          ref_bytes off_bytes cells_count roots_count total_cells_size, r).

Definition parse (r : BitReader.t) : result string (t * BitReader.t) :=
  ok_or (try_parse r) "invalid BoC header"%string.

Definition read_raw_cells (h : t) (r : BitReader.t) : result string (list RawCell.t * BitReader.t) :=
  let start := BitReader.position r in
  let? (raw_cells, r) :=
    repeat_state (Z.to_nat (cells_count h)) (fun r => RawCell.parse r (Z.to_nat (ref_bytes h))) r in
  if negb (Z.of_nat (BitReader.position r - start) =? total_cells_size h)
  then Err "BoC cell size does not match header"%string
  else Ok (raw_cells, r).

End BocHeader.

(** ** Facts *)

Module RawCellFacts.
Import RawCell.

Lemma write_var_uint_be v size : write_var_uint v size = be_bytes size v.
Proof.
  unfold be_bytes, write_var_uint. rewrite map_rev. f_equal.
  assert (forall n k v, 0 <= Z.of_nat k -> map (fun shift => as_u8 (Z.land (Z.shiftr v (Z.of_nat shift * 8)) 0xff)) (seq k n)
    = le_bytes n (Z.shiftr v (Z.of_nat k * 8))) as Hgen.
  { clear v. induction n as [|n IH]; intros k v Hk; [done|]. cbn [seq map le_bytes]. f_equal.
    - change 0xff with (Z.ones 8). rewrite Z.land_ones by lia. unfold as_u8, wrap.
      change (2 ^ 8) with 256. by rewrite Z.mod_mod.
    - rewrite IH by lia. f_equal. change 256 with (2 ^ 8). rewrite <- Z.shiftr_div_pow2, Z.shiftr_shiftr by lia.
      f_equal. lia. }
  by rewrite Hgen, Z.shiftr_0_r by lia.
Qed.

Lemma write_var_uint_length v size : length (write_var_uint v size) = size.
Proof. by rewrite write_var_uint_be, be_bytes_length. Qed.

Lemma write_var_uint_bytes v size : all_bytes (write_var_uint v size).
Proof. rewrite write_var_uint_be. auto with rust. Qed.

(** Reading an integer written with [write_var_uint]. *)
Lemma read_write_var_uint pre v size post : in_width (8 * Z.of_nat size) v -> (size <= 8)%nat ->
  Z.of_nat (length (pre ++ write_var_uint v size ++ post) * 8) <= U64_MAX ->
  BitReader.read_var_uint (ReaderFacts.reader_at pre (write_var_uint v size ++ post)) size
  = Ok (v, ReaderFacts.reader_at (pre ++ write_var_uint v size) post).
Proof.
  intros Hv Hs Hmax. pose proof (write_var_uint_length v size) as Hl.
  pose proof (ReaderFacts.read_var_uint_at pre (write_var_uint v size) post (write_var_uint_bytes v size)) as Hr.
  rewrite Hl in Hr. rewrite Hr by done.
  by rewrite write_var_uint_be, of_be_be_bytes, Z.mod_small.
Qed.

Lemma read_write_var_uints pre vs size post : Forall (in_width (8 * Z.of_nat size)) vs -> (size <= 8)%nat ->
  let out := flat_map (fun v => write_var_uint v size) vs in
  Z.of_nat (length (pre ++ out ++ post) * 8) <= U64_MAX ->
  repeat_state (length vs) (fun r => BitReader.read_var_uint r size) (ReaderFacts.reader_at pre (out ++ post))
  = Ok (vs, ReaderFacts.reader_at (pre ++ out) post).
Proof.
  intros Hvs Hs. revert pre. induction Hvs as [|v vs Hv _ IH]; intros pre out Hmax.
  - unfold out. simpl. by rewrite app_nil_r.
  - unfold out in *. cbn [flat_map length repeat_state] in *. rewrite <- app_assoc.
    rewrite read_write_var_uint by (done || by rewrite <- app_assoc in Hmax).
    rewrite IH by (by rewrite <- !app_assoc in * ). by rewrite <- app_assoc.
Qed.

(** *** The padding bit of the last byte *)

Definition padding_ok (p : nat) (b : Z) : bool :=
  negb (forallb (fun j => negb (Z.testbit b (Z.of_nat j))) (seq 0 (8 - p))) ||
  (let m := Z.lor b (Z.shiftl 1 (Z.of_nat (8 - p - 1))) in
   (trailing_zeros m =? 7 - p)%nat && (clear_bit m (7 - p) =? b) && (0 <=? m) && (m <? 256)).

Lemma padding_all : forallb (fun p => forallb (padding_ok p) (seqZ 0 256)) (seq 1 7) = true.
Proof. by vm_compute. Qed.

Lemma padding_spec p b : (1 <= p <= 7)%nat -> is_byte b ->
  (forall j, (j < 8 - p)%nat -> Z.testbit b (Z.of_nat j) = false) ->
  let m := Z.lor b (Z.shiftl 1 (Z.of_nat (8 - p - 1))) in
  trailing_zeros m = (7 - p)%nat /\ clear_bit m (7 - p) = b /\ is_byte m.
Proof.
  intros Hp Hb Hz m. pose proof padding_all as Hall. rewrite forallb_forall in Hall.
  specialize (Hall p). rewrite in_seq in Hall. specialize (Hall ltac:(lia)). rewrite forallb_forall in Hall.
  specialize (Hall b). rewrite <- list_elem_of_In, elem_of_seqZ in Hall. unfold in_width in Hb.
  change (2 ^ 8) with 256 in *. specialize (Hall ltac:(lia)). unfold padding_ok in Hall.
  apply orb_true_iff in Hall as [Hall|Hall].
  - apply negb_true_iff in Hall. exfalso. apply not_true_iff_false in Hall. apply Hall.
    apply forallb_forall. intros j Hj%in_seq. rewrite Hz by lia. done.
  - fold m in Hall. cbv zeta in Hall. zbool. unfold in_width. change (2 ^ 8) with 256. done.
Qed.

(** Zero padding, read off the last byte. *)
Lemma zero_padded_last d n b : Cell.zero_padded d n -> length d = ndiv_ceil n 8 -> (n mod 8 <> 0)%nat ->
  last d = Some b -> forall j, (j < 8 - n mod 8)%nat -> Z.testbit b (Z.of_nat j) = false.
Proof.
  intros Hz Hl Hm Hlast j Hj. rewrite last_lookup in Hlast.
  pose proof (Nat.div_mod_eq n 8) as Hdm. pose proof (Nat.mod_upper_bound n 8).
  rewrite WriterFacts.ndiv_ceil_8 in Hl. destruct (n mod 8 =? 0)%nat eqn:E; zbool; [done|].
  assert (pred (length d) = n / 8)%nat as Hp by lia. rewrite Hp in Hlast.
  pose proof (bytes_bits_lookup d (n / 8 * 8 + (7 - j))) as Hb.
  replace ((n / 8 * 8 + (7 - j)) / 8)%nat with (n / 8)%nat in Hb
    by (rewrite Nat.div_add_l, (Nat.div_small (7 - j)); lia).
  rewrite Hlast in Hb.
  replace ((n / 8 * 8 + (7 - j)) mod 8)%nat with (7 - j)%nat in Hb
    by (rewrite Nat.add_comm, Nat.Div0.mod_add, Nat.mod_small; lia). simpl in Hb.
  replace (7 - Z.of_nat (7 - j)) with (Z.of_nat j) in Hb by lia.
  rewrite Hz, lookup_app_r in Hb by (rewrite length_take, bytes_bits_length; lia).
  rewrite length_take, bytes_bits_length in Hb. rewrite lookup_replicate_2 in Hb by lia. congruence.
Qed.


(** The data of a cell as [write] pads it. *)
Definition padded (c : t) : bytes :=
  let data_len := ndiv_ceil (bit_len c) 8 in
  if negb (bit_len c mod 8 =? 0)%nat && (0 <? data_len)%nat
  then take (data_len - 1) (data c)
       ++ [Z.lor (data c !!! (data_len - 1)%nat) (Z.shiftl 1 (Z.of_nat (8 - bit_len c mod 8 - 1)))]
  else take data_len (data c).

Lemma write_eq c rs : write c rs =
  [as_u8 (Z.of_nat (length (references c)))] ++
  [as_u8 (Z.of_nat (ndiv_ceil (bit_len c) 8) * 2 - (if (bit_len c mod 8 =? 0)%nat then 0 else 1))]
  ++ padded c ++ flat_map (fun r => write_var_uint r rs) (references c).
Proof. done. Qed.

Lemma unpad_padded rs c : wf rs c ->
  length (padded c) = ndiv_ceil (bit_len c) 8 /\ all_bytes (padded c) /\
  unpad_cell_bits (padded c) (bit_len c mod 8 =? 0)%nat = Some (data c, bit_len c).
Proof.
  intros (Hn & Hl & Hb & Hz & _). unfold padded. destruct c as [d n refs]. simpl in *.
  pose proof (Nat.div_mod_eq n 8) as Hdm. pose proof (Nat.mod_upper_bound n 8).
  pose proof (WriterFacts.ndiv_ceil_8 n) as Hc. destruct (n mod 8 =? 0)%nat eqn:E; zbool.
  - simpl. rewrite <- Hl, take_ge by lia. split; [done|]. split; [done|]. unfold unpad_cell_bits.
    destruct (last d) as [b|] eqn:Hlast.
    + do 2 f_equal. lia.
    + apply last_None in Hlast as ->. simpl in Hl. f_equal. f_equal. lia.
  - assert (0 < ndiv_ceil n 8)%nat by lia. test_true (0 <? ndiv_ceil n 8)%nat. cbn [negb andb].
    destruct d as [|b d' _] using rev_ind;
      [simpl in Hl; lia|].
    rewrite length_app in Hl. simpl in Hl. rewrite <- Hl.
    replace (length d' + 1 - 1)%nat with (length d') by lia.
    rewrite take_app_length. rewrite (list_lookup_total_correct _ _ b) by (by apply list_lookup_middle).
    apply Forall_app in Hb as [Hb' [Hb _]%Forall_cons].
    assert (length (d' ++ [b]) = ndiv_ceil n 8) as Hl' by (rewrite length_app; simpl; lia).
    destruct (padding_spec (n mod 8) b) as (Htz & Hcl & Hm); [lia|done| |].
    { intros j Hj. eapply zero_padded_last; [exact Hz|done|done| |done]. by rewrite last_snoc. }
    set (m := Z.lor b (Z.shiftl 1 (Z.of_nat (8 - n mod 8 - 1)))) in *.
    split; [by rewrite length_app|]. split; [apply Forall_app; split; [done|by constructor]|].
    unfold unpad_cell_bits. rewrite last_snoc, Htz. test_false (8 <=? 7 - n mod 8)%nat.
    rewrite length_app. simpl length. replace (length d' + 1 - 1)%nat with (length d') by lia.
    f_equal. f_equal; [|lia]. rewrite alter_app_r_alt by lia. rewrite Nat.sub_diag. simpl. by rewrite Hcl.
Qed.

Lemma refs_descriptor_ok n : (n <= MAX_CELL_REFERENCES)%nat ->
  as_u8 (Z.of_nat n) = Z.of_nat n /\ Z.to_nat (Z.land (Z.of_nat n) 7) = n /\
  Z.land (Z.of_nat n) 8 = 0 /\ Z.land (Z.of_nat n) 16 = 0 /\ Z.shiftr (Z.of_nat n) 5 = 0.
Proof. unfold MAX_CELL_REFERENCES. intros Hn. do 5 (destruct n as [|n]; [by vm_compute|]). lia. Qed.

Lemma bits_descriptor_ok n : (n <= MAX_CELL_BITS)%nat ->
  let d := as_u8 (Z.of_nat (ndiv_ceil n 8) * 2 - (if (n mod 8 =? 0)%nat then 0 else 1)) in
  is_byte d /\ Z.to_nat (Z.shiftr d 1 + Z.land d 1) = ndiv_ceil n 8 /\ (Z.land d 1 =? 0) = (n mod 8 =? 0)%nat.
Proof.
  intros Hn d. unfold MAX_CELL_BITS in Hn.
  pose proof (Nat.div_mod_eq n 8) as Hdm. pose proof (Nat.mod_upper_bound n 8).
  pose proof (WriterFacts.ndiv_ceil_8 n) as Hc.
  assert (d = Z.of_nat (ndiv_ceil n 8) * 2 - (if (n mod 8 =? 0)%nat then 0 else 1) /\ is_byte d) as [Hd Hb].
  { unfold d. split; [apply as_u8_small|by apply wrap_width].
    unfold in_width. change (2 ^ 8) with 256. destruct (n mod 8 =? 0)%nat eqn:E; zbool; lia. }
  split; [done|]. clearbody d. rewrite Hd, Z.shiftr_div_pow2 by lia.
  change (Z.land ?x 1) with (Z.land x (Z.ones 1)).
  destruct (n mod 8 =? 0)%nat eqn:E; zbool.
  - rewrite Z.sub_0_r, Z.land_ones by lia. change (2 ^ 1) with 2.
    rewrite Z.div_mul, Z.mod_mul by lia. rewrite Z.add_0_r, Nat2Z.id. done.
  - set (k := ndiv_ceil n 8) in *. replace (Z.of_nat k * 2 - 1) with (1 + (Z.of_nat k - 1) * 2) by lia.
    rewrite Z.land_ones by lia. change (2 ^ 1) with 2. rewrite Z.div_add, Z.mod_add by lia.
    change (1 / 2) with 0. change (1 mod 2) with 1. split; [lia|done].
Qed.

Lemma write_length rs c : wf rs c -> length (write c rs) = size c rs.
Proof.
  intros Hwf. destruct (unpad_padded rs c Hwf) as (Hl & _ & _). rewrite write_eq, !length_app, Hl.
  unfold size. cbn [length]. assert (length (flat_map (fun r => write_var_uint r rs) (references c)) = length (references c) * rs)%nat
    as ->; [|lia].
  induction (references c) as [|r refs IH]; [done|]. cbn [flat_map length]. rewrite length_app, write_var_uint_length, IH. lia.
Qed.

Lemma write_bytes rs c : wf rs c -> all_bytes (write c rs).
Proof.
  intros Hwf. destruct (unpad_padded rs c Hwf) as (_ & Hb & _). rewrite write_eq.
  repeat (apply Forall_app; split); try done; try (apply Forall_singleton; by apply wrap_width).
  induction (references c) as [|r refs IH]; [constructor|]. cbn [flat_map]. apply Forall_app. split; [|done].
  apply write_var_uint_bytes.
Qed.

(** Parsing what [write] printed, with anything before and after it. *)
Lemma parse_write pre c rs post : wf rs c -> (rs <= 8)%nat -> all_bytes (pre ++ write c rs ++ post) ->
  Z.of_nat (length (pre ++ write c rs ++ post) * 8) <= U64_MAX ->
  try_parse (ReaderFacts.reader_at pre (write c rs ++ post)) rs
  = Some (c, ReaderFacts.reader_at (pre ++ write c rs) post).
Proof.
  intros Hwf Hrs Hb Hmax. pose proof Hwf as (Hn & _ & _ & _ & Hr & Hrw).
  destruct (unpad_padded rs c Hwf) as (Hpl & Hpb & Hunpad).
  destruct (refs_descriptor_ok _ Hr) as (Hd1 & Hd1n & Hd1e & Hd1h & Hd1l).
  destruct (bits_descriptor_ok _ Hn) as (Hd2b & Hd2n & Hd2f). rewrite write_eq in *.
  set (d2 := as_u8 (_ - _)) in *. rewrite Hd1 in *. set (d1 := Z.of_nat (length (references c))) in *.
  rewrite <- !app_assoc in *. unfold try_parse.
  change (([d1] ++ ?x)) with (d1 :: x) in *.
  rewrite ReaderFacts.read_u8_at by done. cbn [ok].
  change ([d2] ++ padded c ++ ?x ++ post) with (d2 :: padded c ++ x ++ post) in *.
  rewrite ReaderFacts.read_u8_at by (by rewrite <- app_assoc). cbn [ok].
  rewrite Hd1n, Hd1e, Hd1h, Hd1l, Hd2n, Hd2f. change (negb (0 =? 0)) with false. cbn [orb].
  rewrite <- Hpl, ReaderFacts.read_bytes_at by (by rewrite <- !app_assoc). cbn [ok].
  rewrite Hunpad.
  rewrite read_write_var_uints by (done || by rewrite <- !app_assoc). cbn [ok].
  rewrite <- !app_assoc. by destruct c.
Qed.

End RawCellFacts.
