(* ===== verification/TonBag.v ===== *)
(** Bags of cells: [gem_ton/src/tvm/bag.rs] (module [BagOfCells]).  The theorems
    show that parsing inverts serialization, and that whatever is parsed is a
    bag of well-formed cells within the limits of the format. *)
From S2P Require Import Prelude Crates TonBits TonCell TonIndex TonRawCell.

(** [Crc::<u32>::new(&CRC_32_ISCSI).checksum] *)
Class Crc32c : Type := crc32c : bytes -> Z.
Class Crc32cLaws `{Crc32c} : Prop := { crc32c_u32 : forall bs, is_u32 (crc32c bs) }.

(** [gem_encoding]'s standard base64. *)
Class Base64Std : Type := {
  encode_base64 : bytes -> string;
  decode_base64 : string -> option bytes;
}.
Class Base64StdLaws `{Base64Std} : Prop := {
  base64_roundtrip : forall bs, all_bytes bs -> decode_base64 (encode_base64 bs) = Some bs;
}.

Module BagOfCells.

Record t : Type := Mk { roots : list Cell.t }.

Definition from_root (root : Cell.t) : t := Mk [root].

(** [usize::BITS - leading_zeros] is the position of the highest bit. *)
Definition bytes_needed (value : Z) : Z :=
  let value := Z.max value 1 in
  let bits := Z.log2 value + 1 in
  div_ceil bits 8.

Section with_hash.
Context `{Sha256}.

(** [build_cell_tree]: from the last cell to the first; the vector starts full
    of [None]. *)
Definition build_cell (raw_cells : list RawCell.t) (cells : list (option Cell.t)) (ix : nat)
  : result string (list (option Cell.t)) :=
  match raw_cells !! ix with
  | None => Err "index out of bounds"%string
  | Some raw =>
      let? refs := collect (fun reference =>
        if reference <=? Z.of_nat ix then Err "BoC references must point to later cells"%string
        else ok_or (mjoin (get cells reference)) "BoC reference out of bounds"%string) (RawCell.references raw) in
      let? c := Cell.new (RawCell.data raw) (RawCell.bit_len raw) refs in
      Ok (<[ix := Some c]> cells)
  end.

Definition build_cell_tree (raw_cells : list RawCell.t) : result string (list Cell.t) :=
  let n := length raw_cells in
  let? cells := try_fold (build_cell raw_cells) (replicate n None) (rev (seq 0 n)) in
  collect (fun cell => ok_or cell "BoC cell out of bounds"%string) cells.

Section with_crc.
Context `{Crc32c}.

Definition validate_crc32c (r : BitReader.t) (bs : bytes) : result string BitReader.t :=
  let? (expected, r) := BitReader.read_u32_le r in
  let? payload_end := ok_or (checked_sub (Z.of_nat (length bs)) 4) "invalid BoC length"%string in
  if negb (expected =? crc32c (take (Z.to_nat payload_end) bs)) then Err "invalid BoC crc32c"%string
  else Ok r.

Definition parse (bs : bytes) : result string t :=
  let r := BitReader.new bs in
  let? (header, r) := BocHeader.parse r in
  let? (root_indexes, r) := repeat_state (Z.to_nat (BocHeader.roots_count header))
      (fun r => BitReader.read_var_uint r (Z.to_nat (BocHeader.ref_bytes header))) r in
  let? r := if BocHeader.has_idx header
            then BitReader.skip r (Z.to_nat (BocHeader.cells_count header * BocHeader.off_bytes header))
            else Ok r in
  let? (raw_cells, r) := BocHeader.read_raw_cells header r in
  let? r := if BocHeader.has_crc32c header then validate_crc32c r bs else Ok r in
  if negb (BitReader.remaining r =? 0)%nat then Err "unexpected trailing BoC bytes"%string else
  let? cells := build_cell_tree raw_cells in
  let? roots := collect (fun index => ok_or (get cells index) "BoC root out of bounds"%string) root_indexes in
  Ok (Mk roots).

Definition serialize (b : t) (with_crc32c : bool) : result string bytes :=
  let? indexed_cells := ok_or (IndexedCells.build_index (roots b)) "out of fuel"%string in
  let '(ordered_cells, indexed_cells) := IndexedCells.ordered_indexed_cells indexed_cells in
  let? raw_cells := collect (fun e => RawCell.from_cell (IndexedCells.cell e.2) indexed_cells) ordered_cells in
  let? root_indexes := collect (fun root =>
      ok_or (IndexedCells.index <$> indexed_cells !! Cell.hash root) "missing BoC root"%string) (roots b) in
  let ref_bytes := bytes_needed (Z.of_nat (length raw_cells)) in
  let total_cells_size :=
    fold_left Z.add (map (fun c => Z.of_nat (RawCell.size c (Z.to_nat ref_bytes))) raw_cells) 0 in
  let offset_bytes := bytes_needed (Z.max total_cells_size 1) in
  let output :=
    be_bytes 4 BocHeader.BOC_MAGIC
    ++ [Z.lor (as_u8 (Z.shiftl (Z.b2z with_crc32c) 6)) (as_u8 ref_bytes)]
    ++ [as_u8 offset_bytes]
    ++ write_var_uint (Z.of_nat (length raw_cells)) (Z.to_nat ref_bytes)
    ++ write_var_uint (Z.of_nat (length root_indexes)) (Z.to_nat ref_bytes)
    ++ write_var_uint 0 (Z.to_nat ref_bytes)
    ++ write_var_uint total_cells_size (Z.to_nat offset_bytes)
    ++ flat_map (fun i => write_var_uint i (Z.to_nat ref_bytes)) root_indexes
    ++ flat_map (fun c => RawCell.write c (Z.to_nat ref_bytes)) raw_cells in
  Ok (output ++ if with_crc32c then le_bytes 4 (crc32c output) else []).

Definition get_single_root (b : t) : result string Cell.t :=
  match roots b with
  | [root] => Ok root
  | _ => Err "BoC must contain exactly one root"%string
  end.

Definition parse_base64 `{Base64Std} (value : string) : result string t :=
  let? bs := ok_or (decode_base64 value) "invalid base64 BoC"%string in parse bs.

Definition parse_base64_root `{Base64Std} (value : string) : result string Cell.t :=
  let? b := parse_base64 value in get_single_root b.

Definition to_base64 `{Base64Std} (b : t) (with_crc32c : bool) : result string string :=
  let? bs := serialize b with_crc32c in Ok (encode_base64 bs).

End with_crc.
End with_hash.
End BagOfCells.

Module BagFacts.
Import BagOfCells IndexedCells IndexFacts.

Lemma bytes_needed_spec v : 0 <= v -> 1 <= bytes_needed v /\ v < 2 ^ (8 * bytes_needed v) /\
  forall k, 1 <= k -> v < 2 ^ (8 * k) -> bytes_needed v <= k.
Proof.
  intros Hv. unfold bytes_needed. set (w := Z.max v 1). pose proof (Z.log2_spec w) as Hl.
  pose proof (Z.log2_nonneg w). pose proof (div_ceil_spec (Z.log2 w + 1) 8 eq_refl) as Hd.
  split; [lia|]. split.
  - assert (v < 2 ^ Z.succ (Z.log2 w)) by lia. eapply Z.lt_le_trans; [eassumption|].
    apply Z.pow_le_mono_r; lia.
  - intros k Hk Hvk. assert (Z.log2 w < 8 * k); [|lia]. apply Z.log2_lt_pow2; [lia|].
    assert (1 < 2 ^ (8 * k)) by (apply Z.pow_gt_1; lia). lia.
Qed.

(** *** The cells *)

Lemma read_cells pre cs rs post : Forall (RawCell.wf rs) cs -> (rs <= 8)%nat ->
  let out := flat_map (fun c => RawCell.write c rs) cs in
  all_bytes (pre ++ out ++ post) -> Z.of_nat (length (pre ++ out ++ post) * 8) <= U64_MAX ->
  repeat_state (length cs) (fun r => RawCell.parse r rs) (ReaderFacts.reader_at pre (out ++ post))
  = Ok (cs, ReaderFacts.reader_at (pre ++ out) post).
Proof.
  intros Hcs Hrs. revert pre. induction Hcs as [|c cs Hc _ IH]; intros pre out Hb Hmax.
  - unfold out. simpl. by rewrite app_nil_r.
  - unfold out in *. cbn [flat_map length repeat_state] in *. rewrite <- app_assoc in *.
    unfold RawCell.parse at 1. rewrite RawCellFacts.parse_write by done. cbn [ok_or].
    rewrite IH by (by rewrite <- !app_assoc). by rewrite <- !app_assoc.
Qed.

Lemma cells_size cs rs : Forall (RawCell.wf rs) cs ->
  Z.of_nat (length (flat_map (fun c => RawCell.write c rs) cs))
  = fold_left Z.add (map (fun c => Z.of_nat (RawCell.size c rs)) cs) 0.
Proof.
  intros Hcs. rewrite <- (Z.add_0_l (Z.of_nat _)). generalize 0.
  induction Hcs as [|c cs Hc _ IH]; intros a; cbn [flat_map map fold_left]; [simpl; lia|].
  rewrite <- IH, length_app, RawCellFacts.write_length by done. lia.
Qed.

Lemma cells_bytes cs rs : Forall (RawCell.wf rs) cs -> all_bytes (flat_map (fun c => RawCell.write c rs) cs).
Proof.
  induction 1 as [|c cs Hc _ IH]; [constructor|]. cbn [flat_map]. apply Forall_app.
  split; [by apply RawCellFacts.write_bytes|done].
Qed.

Lemma size_bound c rs : RawCell.wf rs c -> (RawCell.size c rs <= 130 + 4 * rs)%nat.
Proof.
  intros (Hn & _ & _ & _ & Hr & _). unfold RawCell.size, MAX_CELL_BITS, MAX_CELL_REFERENCES in *.
  assert (ndiv_ceil (RawCell.bit_len c) 8 <= 128)%nat; [|nia].
  unfold ndiv_ceil. apply Nat.lt_succ_r, Nat.Div0.div_lt_upper_bound. lia.
Qed.

Lemma cells_length_bound cs rs : Forall (RawCell.wf rs) cs ->
  (length (flat_map (fun c => RawCell.write c rs) cs) <= length cs * (130 + 4 * rs))%nat.
Proof.
  induction 1 as [|c cs Hc _ IH]; [done|]. cbn [flat_map length]. rewrite length_app, RawCellFacts.write_length by done.
  pose proof (size_bound c rs Hc). lia.
Qed.

(** *** The tree *)

Section tree.
Context `{Sha256} (cells : list Cell.t) (pos : Cell.t -> Z).
Definition raw_of (c : Cell.t) : RawCell.t := RawCell.Mk (Cell.data c) (Cell.bit_len c) (map pos (Cell.references c)).
Context (Hwf : Forall Cell.wf cells).
Context (Hpos : forall i c r, cells !! i = Some c -> r ∈ Cell.references c ->
  exists j, (i < j)%nat /\ pos r = Z.of_nat j /\ cells !! j = Some r).

(** The vector once the cells from [i] on are built. *)
Definition built (i : nat) : list (option Cell.t) :=
  replicate i None ++ map Some (drop i cells).

Lemma built_length i : (i <= length cells)%nat -> length (built i) = length cells.
Proof. intros. unfold built. rewrite length_app, length_replicate, length_map, length_drop. lia. Qed.

Lemma built_lookup i j : (i <= j)%nat -> built i !! j = Some <$> cells !! j.
Proof.
  intros. unfold built. rewrite lookup_app_r by (rewrite length_replicate; lia). rewrite length_replicate.
  change (map Some ?l) with (Some <$> l). rewrite list_lookup_fmap, lookup_drop. by replace (i + (j - i))%nat with j by lia.
Qed.

Lemma built_step i c : cells !! i = Some c -> <[i := Some c]> (built (S i)) = built i.
Proof.
  intros Hc. pose proof (lookup_lt_Some _ _ _ Hc). unfold built. rewrite (drop_S _ _ _ Hc). simpl map.
  rewrite replicate_S_end, <- app_assoc. rewrite insert_app_r_alt by (rewrite length_replicate; lia).
  by rewrite length_replicate, Nat.sub_diag.
Qed.

Lemma build_cell_ok i c : cells !! i = Some c ->
  build_cell (map raw_of cells) (built (S i)) i = Ok (built i).
Proof.
  intros Hc. unfold build_cell. change (map raw_of cells) with (raw_of <$> cells).
  rewrite list_lookup_fmap, Hc. cbn [fmap option_fmap option_map raw_of RawCell.references RawCell.data RawCell.bit_len].
  assert (forall refs, (forall r, r ∈ refs -> r ∈ Cell.references c) -> collect (fun reference =>
    if reference <=? Z.of_nat i then Err "BoC references must point to later cells"%string
    else ok_or (mjoin (get (built (S i)) reference)) "BoC reference out of bounds"%string)
    (map pos refs) = Ok refs) as ->; [| |done].
  - induction refs as [|r refs IH]; intros Hin; [done|]. cbn [map collect].
    destruct (Hpos i c r Hc) as (j & Hj & -> & Hr); [set_solver|].
    test_false (Z.of_nat j <=? Z.of_nat i). rewrite get_nat, built_lookup, Hr by lia. simpl.
    rewrite IH by set_solver. done.
  - rewrite Forall_lookup in Hwf. destruct (CellFacts.wf_inv c (Hwf _ _ Hc)) as (_ & _ & _ & Hnew & _).
    unfold Cell.new. rewrite Hnew. cbn [ok_or]. by rewrite built_step.
Qed.

Lemma build_cells_from n : (n <= length cells)%nat ->
  try_fold (build_cell (map raw_of cells)) (built n) (rev (seq 0 n)) = Ok (built 0).
Proof.
  induction n as [|n IH]; intros Hn; [done|]. rewrite seq_S, rev_app_distr. cbn [rev app try_fold].
  destruct (lookup_lt_is_Some_2 cells n) as [c Hc]; [lia|]. simpl Nat.add.
  rewrite (build_cell_ok n c Hc). apply IH. lia.
Qed.

Lemma build_cell_tree_ok : build_cell_tree (map raw_of cells) = Ok cells.
Proof.
  unfold build_cell_tree. rewrite length_map.
  assert (replicate (length cells) None = built (length cells)) as ->
    by (unfold built; by rewrite drop_all, app_nil_r).
  rewrite build_cells_from by lia. unfold built. cbn [replicate app]. rewrite drop_0. clear.
  induction cells as [|c l IH]; [done|]. cbn [map collect]. cbn [ok_or]. by rewrite IH.
Qed.

End tree.

(** *** The header *)

Definition flags_of (crc : bool) (ref_bytes : Z) : Z := Z.lor (as_u8 (Z.shiftl (Z.b2z crc) 6)) (as_u8 ref_bytes).

Definition header_bytes (h : BocHeader.t) : bytes :=
  be_bytes 4 BocHeader.BOC_MAGIC ++ [flags_of (BocHeader.has_crc32c h) (BocHeader.ref_bytes h)]
  ++ [as_u8 (BocHeader.off_bytes h)]
  ++ write_var_uint (BocHeader.cells_count h) (Z.to_nat (BocHeader.ref_bytes h))
  ++ write_var_uint (BocHeader.roots_count h) (Z.to_nat (BocHeader.ref_bytes h))
  ++ write_var_uint 0 (Z.to_nat (BocHeader.ref_bytes h))
  ++ write_var_uint (BocHeader.total_cells_size h) (Z.to_nat (BocHeader.off_bytes h)).

Record header_ok (h : BocHeader.t) : Prop := {
  ho_idx : BocHeader.has_idx h = false;
  ho_ref : 1 <= BocHeader.ref_bytes h <= 4;
  ho_off : 1 <= BocHeader.off_bytes h <= 8;
  ho_cells : 1 <= BocHeader.cells_count h <= 4096;
  ho_roots : 1 <= BocHeader.roots_count h <= BocHeader.cells_count h;
  ho_cells_fit : BocHeader.cells_count h < 2 ^ (8 * BocHeader.ref_bytes h);
  ho_total : in_width (8 * BocHeader.off_bytes h) (BocHeader.total_cells_size h);
}.

Lemma flags_ok crc rb : 1 <= rb <= 4 ->
  is_byte (flags_of crc rb) /\ Z.land (flags_of crc rb) BocHeader.REF_SIZE_MASK = rb /\
  negb (Z.land (flags_of crc rb) BocHeader.HAS_IDX_FLAG =? 0) = false /\
  negb (Z.land (flags_of crc rb) BocHeader.HAS_CRC32C_FLAG =? 0) = crc.
Proof.
  intros Hrb. assert (rb = 1 \/ rb = 2 \/ rb = 3 \/ rb = 4) as H by lia.
  destruct H as [->|[->|[->| ->]]]; destruct crc; by vm_compute.
Qed.

Lemma header_bytes_bytes h : header_ok h -> all_bytes (header_bytes h).
Proof.
  intros Hok. unfold header_bytes.
  destruct (flags_ok (BocHeader.has_crc32c h) (BocHeader.ref_bytes h) (ho_ref h Hok)) as (Hf & _).
  repeat (apply Forall_app; split); auto using RawCellFacts.write_var_uint_bytes with rust.
  repeat constructor; by apply wrap_width.
Qed.

Lemma header_bytes_length h : header_ok h -> (length (header_bytes h) <= 26)%nat.
Proof.
  intros Hok. unfold header_bytes. rewrite !length_app, !RawCellFacts.write_var_uint_length, be_bytes_length.
  destruct Hok. cbn [length]. lia.
Qed.

Ltac reassoc := first [done | by rewrite <- ?app_assoc].

Lemma header_roundtrip h post : header_ok h -> all_bytes (header_bytes h ++ post) ->
  Z.of_nat (length (header_bytes h ++ post) * 8) <= U64_MAX ->
  BocHeader.parse (ReaderFacts.reader_at [] (header_bytes h ++ post))
  = Ok (h, ReaderFacts.reader_at (header_bytes h) post).
Proof.
  intros Hok Hb Hmax. destruct h as [idx crc rb off cc rc tot].
  destruct Hok as [Hidx Href Hoff Hcc Hrc Hccf Htot]. simpl in Hidx, Href, Hoff, Hcc, Hrc, Hccf, Htot. subst idx.
  destruct (flags_ok crc rb Href) as (Hfb & Hfr & Hfi & Hfc).
  unfold header_bytes in *. cbn [BocHeader.has_crc32c BocHeader.ref_bytes BocHeader.off_bytes BocHeader.cells_count
    BocHeader.roots_count BocHeader.total_cells_size] in *.
  assert (as_u8 off = off) as Hoffb by (apply as_u8_small; unfold in_width; lia). rewrite Hoffb in *.
  rewrite <- !app_assoc in *. unfold BocHeader.parse, BocHeader.try_parse.
  change BocHeader.MAX_REF_BYTES with 4. change BocHeader.MAX_OFF_BYTES with 8. change BocHeader.MAX_CELLS with 4096.
  rewrite ReaderFacts.read_u32_at by reassoc. cbn [ok].
  change (of_be (be_bytes 4 BocHeader.BOC_MAGIC)) with BocHeader.BOC_MAGIC. rewrite Z.eqb_refl. cbn [negb].
  change ([flags_of crc rb] ++ ?x) with (flags_of crc rb :: x) in *.
  change ([off] ++ ?x) with (off :: x) in *.
  rewrite ReaderFacts.read_u8_at by reassoc. cbn [ok]. rewrite Hfr, Hfi, Hfc.
  test_false (rb =? 0). test_false (4 <? rb). cbn [orb].
  rewrite ReaderFacts.read_u8_at by reassoc. cbn [ok].
  test_false (off =? 0). test_false (8 <? off). cbn [orb].
  assert (0 < 2 ^ (8 * rb)) by (apply Z.pow_pos_nonneg; lia).
  do 4 (rewrite RawCellFacts.read_write_var_uint
    by (reassoc || lia || (unfold in_width in *; rewrite Z2Nat.id by lia; lia)); cbn [ok]).
  test_false (cc =? 0). test_false (4096 <? cc). test_false (rc =? 0).
  test_false (cc <? rc). cbn [orb].
  assert (as_u64 (rc + 0) = rc) as ->.
  { unfold as_u64. rewrite Z.add_0_r. apply wrap_small. unfold in_width. lia. }
  test_false (cc <? rc). cbn [ok_or]. by rewrite <- !app_assoc.
Qed.

(** *** The whole bag *)

Section roundtrip.
Context `{Sha256} `{Crc32cLaws}.

(** Parsing the parts [serialize] writes. *)
Lemma parse_parts h root_indexes raw_cells cells roots :
  header_ok h -> BocHeader.cells_count h = Z.of_nat (length raw_cells) ->
  BocHeader.roots_count h = Z.of_nat (length root_indexes) ->
  Forall (in_width (8 * BocHeader.ref_bytes h)) root_indexes ->
  Forall (RawCell.wf (Z.to_nat (BocHeader.ref_bytes h))) raw_cells ->
  BocHeader.total_cells_size h = Z.of_nat (length (flat_map (fun c => RawCell.write c (Z.to_nat (BocHeader.ref_bytes h))) raw_cells)) ->
  build_cell_tree raw_cells = Ok cells -> collect (fun index => ok_or (get cells index) "BoC root out of bounds"%string) root_indexes = Ok roots ->
  let output := header_bytes h
    ++ flat_map (fun i => write_var_uint i (Z.to_nat (BocHeader.ref_bytes h))) root_indexes
    ++ flat_map (fun c => RawCell.write c (Z.to_nat (BocHeader.ref_bytes h))) raw_cells in
  parse (output ++ if BocHeader.has_crc32c h then le_bytes 4 (crc32c output) else []) = Ok (BagOfCells.Mk roots).
Proof.
  intros Hok Hcc Hrc Hri Hraw Htot Htree Hroots output.
  set (rb := Z.to_nat (BocHeader.ref_bytes h)) in *. set (ri := flat_map _ root_indexes) in *.
  set (cs := flat_map _ raw_cells) in *. set (tail := if BocHeader.has_crc32c h then le_bytes 4 (crc32c output) else []).
  pose proof (ho_ref h Hok) as Href. assert (rb <= 4)%nat as Hrb by (unfold rb; lia).
  assert (all_bytes (header_bytes h ++ ri ++ cs ++ tail)) as Hb.
  { rewrite !Forall_app. split; [by apply header_bytes_bytes|]. split; [|split; [by apply cells_bytes|]].
    - unfold ri. clear. induction root_indexes as [|i l IH]; [constructor|]. cbn [flat_map].
      apply Forall_app. split; [apply RawCellFacts.write_var_uint_bytes|done].
    - unfold tail. destruct (BocHeader.has_crc32c h); auto with rust. }
  assert (length ri = length root_indexes * rb)%nat as Hril.
  { unfold ri. clear. induction root_indexes as [|i l IH]; [done|]. cbn [flat_map length].
    rewrite length_app, RawCellFacts.write_var_uint_length, IH. lia. }
  assert (Z.of_nat (length (header_bytes h ++ ri ++ cs ++ tail) * 8) <= U64_MAX) as Hmax.
  { rewrite !length_app, Hril. pose proof (header_bytes_length h Hok). pose proof (cells_length_bound raw_cells rb Hraw) as Hcl.
    fold cs in Hcl. assert (length tail <= 4)%nat by (unfold tail; destruct (BocHeader.has_crc32c h); rewrite ?le_bytes_length; simpl; lia).
    pose proof (ho_cells h Hok). pose proof (ho_roots h Hok).
    assert (length root_indexes <= 4096 /\ length raw_cells <= 4096)%nat as [] by lia.
    assert (length root_indexes * rb <= 4096 * 4)%nat by (apply Nat.mul_le_mono; lia).
    assert (length raw_cells * (130 + 4 * rb) <= 4096 * 146)%nat by (apply Nat.mul_le_mono; lia).
    unfold U64_MAX. lia. }
  assert (output ++ tail = header_bytes h ++ ri ++ cs ++ tail) as Hout by (unfold output; by rewrite <- !app_assoc).
  unfold parse. rewrite Hout, ReaderFacts.new_reader_at, header_roundtrip by done.
  rewrite Hrc, Nat2Z.id. fold rb. unfold ri. rewrite RawCellFacts.read_write_var_uints;
    [|by (unfold rb; rewrite Z2Nat.id by lia)|lia|done].
  fold ri. rewrite (ho_idx h Hok). unfold BocHeader.read_raw_cells. fold rb. rewrite Hcc, Nat2Z.id.
  unfold cs. rewrite read_cells by (done || lia || by rewrite <- app_assoc). fold cs.
  rewrite !ReaderFacts.reader_at_position.
  replace (length ((header_bytes h ++ ri) ++ cs) - length (header_bytes h ++ ri))%nat with (length cs)
    by (rewrite (length_app _ cs); lia).
  rewrite Htot, Z.eqb_refl. cbn [negb]. unfold tail at 1. 
  unfold tail in *. destruct (BocHeader.has_crc32c h).
  - unfold validate_crc32c. pose proof (ReaderFacts.read_u32_le_at ((header_bytes h ++ ri) ++ cs) (le_bytes 4 (crc32c output)) []) as Hcrc.
    rewrite app_nil_r in Hcrc. rewrite Hcrc; [|done|by rewrite <- !app_assoc].
    rewrite <- Hout, length_app, le_bytes_length. unfold checked_sub.
    test_true (4 <=? Z.of_nat (length output + 4)). cbn [ok_or].
    replace (Z.to_nat (Z.of_nat (length output + 4) - 4)) with (length output) by lia.
    rewrite take_app_length. pose proof (crc32c_u32 output) as Hu.
    rewrite (proj1 (of_le_be_small 4 (crc32c output) Hu)), Z.eqb_refl. cbn [negb].
    rewrite ReaderFacts.reader_at_remaining. cbn [length Nat.eqb negb]. by rewrite Htree, Hroots.
  - rewrite ReaderFacts.reader_at_remaining. cbn [length Nat.eqb negb]. by rewrite Htree, Hroots.
Qed.

End roundtrip.
End BagFacts.

(** ** Properties *)

Section properties.
Import BagOfCells IndexedCells IndexFacts BagFacts.
Context `{Sha256} `{Crc32cLaws}.

Lemma from_cell_ok m pos c :
  (forall r, r ∈ Cell.references c -> IndexedCells.index <$> m !! Cell.hash r = Some (pos r)) ->
  RawCell.from_cell c m = Ok (raw_of pos c).
Proof.
  intros Hpos. unfold RawCell.from_cell.
  rewrite (collect_ok_map _ pos); [done|]. intros r Hr. by rewrite Hpos.
Qed.

Lemma raw_of_wf pos rs c : Cell.wf c -> (forall r, r ∈ Cell.references c -> in_width (8 * Z.of_nat rs) (pos r)) ->
  RawCell.wf rs (raw_of pos c).
Proof.
  intros Hwf Hpos. destruct (CellFacts.wf_inv c Hwf) as (Hb & Hz & _ & _ & Hn & Hr & Hl).
  unfold RawCell.wf, raw_of. simpl. rewrite length_map. repeat split; auto.
  apply Forall_forall. intros z Hz'. apply list_elem_of_fmap in Hz' as (r & -> & Hin). by apply Hpos.
Qed.

(** The cells of a layout as a list, and the position of each. *)
Definition cells_of (L : list (bytes * IndexedCell)) : list Cell.t := map (fun e => cell e.2) L.
Definition pos_in (m : IndexedCells.t) (c : Cell.t) : Z :=
  match m !! Cell.hash c with Some ic => index ic | None => 0 end.

Record positions (rts : list Cell.t) (m : IndexedCells.t) (cells : list Cell.t) : Prop := {
  po_nodup : NoDup cells;
  po_cell : forall c, Reach rts c -> exists i, cells !! i = Some c /\ pos_in m c = Z.of_nat i /\
    index <$> m !! Cell.hash c = Some (Z.of_nat i);
  po_reach : forall i c, cells !! i = Some c -> Reach rts c;
  po_topo : forall i c r, cells !! i = Some c -> r ∈ Cell.references c ->
    exists j, (i < j)%nat /\ pos_in m r = Z.of_nat j /\ cells !! j = Some r;
}.

Lemma cells_of_lookup L i : cells_of L !! i = (fun e => cell e.2) <$> L !! i.
Proof. unfold cells_of. change (map ?f L) with (f <$> L). apply list_lookup_fmap. Qed.

Lemma layout_positions rts L m : layout rts L m -> positions rts m (cells_of L).
Proof.
  intros Hlay. pose proof Hlay as [Hent Hcell Huniq Hord].
  assert (forall c, Reach rts c -> exists i, cells_of L !! i = Some c /\ pos_in m c = Z.of_nat i /\
    index <$> m !! Cell.hash c = Some (Z.of_nat i)) as Hpos.
  { intros c Hr. destruct (Hcell c Hr) as (i & ic & Hi & Hc & Hm'). destruct (Hent _ _ _ Hi) as (_ & _ & Hix).
    exists i. unfold pos_in. rewrite Hm', cells_of_lookup, Hi. simpl. by rewrite Hix, Hc. }
  assert (forall i c, cells_of L !! i = Some c -> Reach rts c) as Hreach.
  { intros i c. rewrite cells_of_lookup. destruct (L !! i) as [[h ic]|] eqn:Hi; [|done]. simpl.
    intros [= <-]. by destruct (Hent _ _ _ Hi). }
  constructor; [by apply (layout_nodup rts L m)|done|done|].
  intros i c r Hi Hin. destruct (Hpos r) as (j & Hj & Hpj & _); [eapply reach_ref; [by eapply Hreach|done]|].
  exists j. split; [|done]. revert Hi Hj. rewrite !cells_of_lookup.
  destruct (L !! i) as [[h1 ic1]|] eqn:Hi1, (L !! j) as [[h2 ic2]|] eqn:Hj2; try done. simpl.
  intros [= <-] [= <-]. by eapply Hord.
Qed.

Section positions.
Context (rts : list Cell.t) (m : IndexedCells.t) (cells : list Cell.t) (Hp : positions rts m cells).
Context (Hwf : Forall Cell.wf rts).

Lemma cells_count_bounds all : rts <> [] -> NoDup rts -> (forall c, Reach rts c -> c ∈ all) ->
  (1 <= length rts <= length cells)%nat /\ (length cells <= length all)%nat.
Proof.
  intros Hne Hnd Hall. split; [split|]; [by destruct rts; [|simpl; lia]|..];
    (apply submseteq_length, NoDup_submseteq; [done || apply (po_nodup _ _ _ Hp)|]).
  - intros c Hin. destruct (po_cell _ _ _ Hp c (reach_root _ _ Hin)) as (i & Hi & _).
    by eapply list_elem_of_lookup_2.
  - intros c [i Hi]%list_elem_of_lookup_1. by eapply Hall, (po_reach _ _ _ Hp).
Qed.

Lemma pos_width rb c : Z.of_nat (length cells) < 2 ^ (8 * rb) -> Reach rts c -> in_width (8 * rb) (pos_in m c).
Proof.
  intros Hfit Hr. destruct (po_cell _ _ _ Hp c Hr) as (i & Hi & -> & _). apply lookup_lt_Some in Hi.
  unfold in_width. lia.
Qed.

Lemma raws_wf rb : 0 <= rb -> Z.of_nat (length cells) < 2 ^ (8 * rb) ->
  Forall (RawCell.wf (Z.to_nat rb)) (map (raw_of (pos_in m)) cells).
Proof.
  intros Hrb Hfit. apply Forall_forall. intros raw Hin.
  apply list_elem_of_fmap in Hin as (c & -> & [i Hi]%list_elem_of_lookup_1).
  pose proof (po_reach _ _ _ Hp _ _ Hi) as Hr. apply raw_of_wf; [by eapply reach_wf|].
  intros r Hin. rewrite Z2Nat.id by done. apply pos_width; [done|by eapply reach_ref].
Qed.

Lemma roots_found : collect (fun index => ok_or (get cells index) "BoC root out of bounds"%string)
  (map (pos_in m) rts) = Ok rts.
Proof.
  assert (forall l, (forall r, r ∈ l -> Reach rts r) -> collect (fun index =>
    ok_or (get cells index) "BoC root out of bounds"%string) (map (pos_in m) l) = Ok l) as Hl;
    [|apply Hl, reach_root].
  induction l as [|r l IH]; intros Hin; [done|]. cbn [map collect].
  destruct (po_cell _ _ _ Hp r) as (j & Hj & -> & _); [apply Hin, elem_of_cons; by left|].
  rewrite get_nat, Hj. cbn [ok_or]. rewrite IH; [done|]. intros r' Hr'. apply Hin, elem_of_cons. by right.
Qed.

Lemma raws_collected L : layout rts L m -> cells = cells_of L ->
  collect (fun e => RawCell.from_cell (cell e.2) m) L = Ok (map (raw_of (pos_in m)) cells) /\
  collect (fun root => ok_or (index <$> m !! Cell.hash root) "missing BoC root"%string) rts
    = Ok (map (pos_in m) rts).
Proof.
  intros Hlay ->. split.
  - rewrite (collect_ok_map _ (fun e => raw_of (pos_in m) (cell e.2))); [by unfold cells_of; rewrite map_map|].
    intros e [i Hi]%list_elem_of_lookup_1. destruct e as [h ic].
    destruct (la_entry _ _ _ Hlay _ _ _ Hi) as (Hr & _). apply from_cell_ok. intros r Hin.
    destruct (po_cell _ _ _ Hp r) as (j & _ & -> & ->); [by eapply reach_ref|done].
  - rewrite (collect_ok_map _ (pos_in m)); [done|]. intros r Hin.
    by destruct (po_cell _ _ _ Hp r (reach_root _ _ Hin)) as (j & _ & -> & ->).
Qed.

(** The header [serialize] writes for these cells. *)
Definition bag_header (crc : bool) : BocHeader.t :=
  let rb := bytes_needed (Z.of_nat (length cells)) in
  let total := fold_left Z.add (map (fun c => Z.of_nat (RawCell.size c (Z.to_nat rb))) (map (raw_of (pos_in m)) cells)) 0 in
  BocHeader.Mk false crc rb (bytes_needed (Z.max total 1)) (Z.of_nat (length cells)) (Z.of_nat (length rts)) total.

Lemma bag_header_ok crc : (1 <= length rts <= length cells)%nat -> Z.of_nat (length cells) <= 4096 ->
  header_ok (bag_header crc) /\ Z.of_nat (length cells) < 2 ^ (8 * BocHeader.ref_bytes (bag_header crc)) /\
  BocHeader.total_cells_size (bag_header crc) = Z.of_nat (length (flat_map
    (fun c => RawCell.write c (Z.to_nat (BocHeader.ref_bytes (bag_header crc)))) (map (raw_of (pos_in m)) cells))).
Proof.
  intros Hr Hn. unfold bag_header. set (rb := bytes_needed (Z.of_nat (length cells))). cbv zeta.
  set (raws := map (raw_of (pos_in m)) cells). set (total := fold_left Z.add _ 0).
  destruct (bytes_needed_spec (Z.of_nat (length cells))) as (Hrb1 & Hfit & Hmin); [lia|]. fold rb in Hrb1, Hfit, Hmin.
  assert (rb <= 2) as Hrb2 by (apply Hmin; [lia|]; change (2 ^ (8 * 2)) with 65536; lia).
  assert (Forall (RawCell.wf (Z.to_nat rb)) raws) as Hraws by (apply raws_wf; [lia|done]).
  pose proof (cells_size raws (Z.to_nat rb) Hraws) as Htotal. fold total in Htotal.
  pose proof (cells_length_bound raws (Z.to_nat rb) Hraws) as Hbound. unfold raws in Hbound at 2. rewrite length_map in Hbound.
  assert (length cells * (130 + 4 * Z.to_nat rb) <= 4096 * 138)%nat as Hb2 by (apply Nat.mul_le_mono; lia).
  destruct (bytes_needed_spec (Z.max total 1)) as (Hob1 & Hofit & Homin); [lia|].
  assert (bytes_needed (Z.max total 1) <= 3) as Hob2 by (apply Homin; [lia|]; change (2 ^ (8 * 3)) with 16777216; lia).
  split; [|done]. constructor; cbn [BocHeader.has_idx BocHeader.ref_bytes BocHeader.off_bytes BocHeader.cells_count
    BocHeader.roots_count BocHeader.total_cells_size]; unfold in_width; try done; lia.
Qed.

End positions.

(** (C1) Bag-of-cells round trip: for every bag of well-formed cells with distinct
    roots, at most 4096 different cells and no two different cells with the
    same hash, [serialize] succeeds (the indexing loops end, every reference
    has an index) and [parse] of the bytes it gives, with or without the
    CRC-32C trailer, returns the same bag. *)
Theorem boc_roundtrip (bag : BagOfCells.t) (with_crc32c : bool) (all : list Cell.t) :
  roots bag <> [] -> NoDup (roots bag) -> Forall Cell.wf (roots bag) -> no_collision (roots bag) ->
  (forall c, Reach (roots bag) c -> c ∈ all) -> Z.of_nat (length all) <= 4096 ->
  exists bs, serialize bag with_crc32c = Ok bs /\ parse bs = Ok bag.
Proof.
  destruct bag as [rts]. cbn [roots]. intros Hne Hnd Hwf Hnc Hall Hmax.
  destruct (index_layout rts Hwf Hnc) as (ix & L & m & Hm & HL & Hlay).
  pose proof (layout_positions _ _ _ Hlay) as Hp. remember (cells_of L) as cells eqn:Hcells.
  destruct (cells_count_bounds rts m cells Hp Hwf all Hne Hnd Hall) as [Hr Hn].
  destruct (bag_header_ok rts m cells Hp Hwf with_crc32c Hr) as (Hok & Hfit & Htotal); [lia|].
  destruct (raws_collected rts m cells Hp L Hlay Hcells) as [Hraws Hindexes].
  set (h := bag_header rts m cells with_crc32c) in *.
  assert (0 <= BocHeader.ref_bytes h) as Hrb by (pose proof (ho_ref h Hok); lia).
  eexists. split.
  - unfold serialize. cbn [roots]. rewrite Hm. cbn [ok_or]. rewrite HL, Hraws, Hindexes.
    rewrite !length_map. reflexivity.
  - assert (Forall (in_width (8 * BocHeader.ref_bytes h)) (map (pos_in m) rts)) as Hpw.
    { apply Forall_forall. intros z Hz. apply list_elem_of_fmap in Hz as (r & -> & Hin).
      by eapply pos_width, reach_root. }
    assert (build_cell_tree (map (raw_of (pos_in m)) cells) = Ok cells) as Htree.
    { apply build_cell_tree_ok; [|by apply (po_topo _ _ _ Hp)]. apply Forall_forall.
      intros c [i Hi]%list_elem_of_lookup_1. eapply reach_wf; [done|]. by eapply (po_reach _ _ _ Hp). }
    pose proof (parse_parts h (map (pos_in m) rts) (map (raw_of (pos_in m)) cells) cells rts Hok
      ltac:(by rewrite length_map) ltac:(by rewrite length_map) Hpw (raws_wf rts m cells Hp Hwf _ Hrb Hfit)
      Htotal Htree (roots_found rts m cells Hp)) as Hparse.
    rewrite <- Hparse. f_equal. unfold header_bytes, flags_of, h, bag_header. cbv zeta.
    cbn [BocHeader.cells_count BocHeader.roots_count BocHeader.ref_bytes BocHeader.off_bytes
      BocHeader.total_cells_size BocHeader.has_crc32c]. by rewrite <- !app_assoc.
Qed.

End properties.

(** *** What parsing accepts *)

Module ParseFacts.
Import BagOfCells.

(** A read leaves the bytes of the reader alone. *)
Definition keeps {A} (f : BitReader.t -> result string (A * BitReader.t)) : Prop :=
  forall r a r', f r = Ok (a, r') -> BitReader.bytes r' = BitReader.bytes r.

Lemma read_uint_keeps n : keeps (fun r => BitReader.read_uint r n).
Proof.
  intros r v r'. unfold BitReader.read_uint. destruct (64 <? n)%nat; [done|]. generalize 0 at 1.
  revert r; induction n as [|n IH]; intros r acc; cbn [BitReader.read_uint_loop]; [by intros [= _ <-]|].
  unfold BitReader.read_bit. destruct (_ <=? _)%nat; [done|]. intros Hr. by apply IH in Hr.
Qed.

Lemma read_u8_keeps : keeps BitReader.read_u8.
Proof. intros r v r'. unfold BitReader.read_u8. destruct (BitReader.read_uint r 8) as [[x y]|] eqn:E; [|done].
  intros [= _ <-]. by apply read_uint_keeps in E. Qed.

Lemma read_u32_keeps : keeps BitReader.read_u32.
Proof. intros r v r'. unfold BitReader.read_u32. destruct (BitReader.read_uint r 32) as [[x y]|] eqn:E; [|done].
  intros [= _ <-]. by apply read_uint_keeps in E. Qed.

Lemma read_bytes_keeps n : keeps (fun r => BitReader.read_bytes r n).
Proof.
  intros r v r'. unfold BitReader.read_bytes. destruct (negb _); [done|].
  destruct (checked_mul _ _); [|done]. simpl. destruct (_ <? _); [done|].
  destruct (checked_add _ _); [|done]. simpl. by intros [= _ <-].
Qed.

Lemma read_bytes_bytes n r v r' : all_bytes (BitReader.bytes r) -> BitReader.read_bytes r n = Ok (v, r') -> all_bytes v.
Proof.
  intros Hb. unfold BitReader.read_bytes. destruct (negb _); [done|].
  destruct (checked_mul _ _); [|done]. simpl. destruct (_ <? _); [done|].
  destruct (checked_add _ _); [|done]. simpl. intros [= <- _]. by apply Forall_take, Forall_drop.
Qed.

Lemma read_var_uint_keeps n : keeps (fun r => BitReader.read_var_uint r n).
Proof. intros r v r'. unfold BitReader.read_var_uint. destruct (BitReader.read_bytes r n) as [[x y]|] eqn:E; [|done].
  intros [= _ <-]. by apply read_bytes_keeps in E. Qed.

Lemma read_var_uint_nonneg n r v r' : all_bytes (BitReader.bytes r) ->
  BitReader.read_var_uint r n = Ok (v, r') -> 0 <= v.
Proof.
  intros Hb. unfold BitReader.read_var_uint. destruct (BitReader.read_bytes r n) as [[bs y]|] eqn:E; [|done].
  intros [= <- _]. pose proof (read_bytes_bytes _ _ _ _ Hb E) as Hbs. clear E.
  enough (forall acc, 0 <= acc -> 0 <= fold_left (fun acc byte => Z.lor (as_u64 (Z.shiftl acc 8)) byte) bs acc) as Hf
    by (by apply Hf).
  induction Hbs as [|b bs Hb0 _ IH]; intros acc Hacc; [done|]. cbn [fold_left]. apply IH.
  apply Z.lor_nonneg. pose proof (wrap_width 64 (Z.shiftl acc 8)) as Hw. unfold as_u64, in_width in *. lia.
Qed.

Lemma repeat_keeps {A} n (f : BitReader.t -> result string (A * BitReader.t)) : keeps f -> keeps (repeat_state n f).
Proof.
  intros Hf. induction n as [|n IH]; intros r l r'; simpl; [by intros [= _ <-]|].
  destruct (f r) as [[a r1]|] eqn:E; [|done]. destruct (repeat_state n f r1) as [[bs r2]|] eqn:E2; [|done].
  intros [= _ <-]. rewrite (IH _ _ _ E2). by apply Hf in E.
Qed.

(** Clearing the lowest set bit of the last byte leaves zero padding. *)
Definition cleared_ok (b : Z) : bool :=
  let tz := RawCell.trailing_zeros b in
  (8 <=? tz)%nat ||
  (bool_decide (byte_bits (RawCell.clear_bit b tz)
     = take (7 - tz) (byte_bits (RawCell.clear_bit b tz)) ++ replicate (tz + 1) false)
   && (0 <=? RawCell.clear_bit b tz) && (RawCell.clear_bit b tz <? 256)).

Lemma cleared_all : forallb cleared_ok (seqZ 0 256) = true.
Proof. by vm_compute. Qed.

Lemma unpad_padded_bits d full d' n : all_bytes d -> RawCell.unpad_cell_bits d full = Some (d', n) ->
  all_bytes d' /\ Cell.zero_padded d' n.
Proof.
  intros Hb. unfold RawCell.unpad_cell_bits, Cell.zero_padded.
  destruct d as [|l ds _] using rev_ind; [by intros [= <- <-]|]. rewrite last_snoc.
  destruct full; [intros [= <- <-]; split; [done|]|].
  { rewrite take_ge by (rewrite bytes_bits_length; lia). by rewrite Nat.sub_diag, app_nil_r. }
  apply Forall_app in Hb as [Hds [Hl _]%Forall_cons].
  pose proof cleared_all as Hall. rewrite forallb_forall in Hall. specialize (Hall l).
  rewrite <- list_elem_of_In, elem_of_seqZ in Hall. unfold in_width in Hl. change (2 ^ 8) with 256 in Hl.
  specialize (Hall ltac:(lia)). unfold cleared_ok in Hall. set (tz := RawCell.trailing_zeros l) in *.
  destruct (8 <=? tz)%nat eqn:Htz; [done|]. cbn [orb] in Hall. zbool.
  match goal with H : bool_decide _ = true |- _ => apply bool_decide_eq_true_1 in H; rename H into Hbits end.
  rewrite length_app. simpl length. replace (length ds + 1 - 1)%nat with (length ds) by lia.
  rewrite alter_app_r_alt, Nat.sub_diag by lia. simpl alter. intros [= <- <-].
  split; [apply Forall_app; split; [done|]; repeat constructor; zlia|].
  rewrite length_app, bytes_bits_app. simpl length. set (c := RawCell.clear_bit l tz) in *.
  change (bytes_bits [c]) with (byte_bits c ++ []). rewrite app_nil_r.
  replace ((length ds + 1) * 8 - ((length ds + 1) * 8 - (tz + 1)))%nat with (tz + 1)%nat by lia.
  replace ((length ds + 1) * 8 - (tz + 1))%nat with (length (bytes_bits ds) + (7 - tz))%nat
    by (rewrite bytes_bits_length; lia).
  rewrite take_app_add', <- app_assoc by done. f_equal. exact Hbits.
Qed.

Lemma raw_cell_parsed r rs c r' : all_bytes (BitReader.bytes r) -> RawCell.parse r rs = Ok (c, r') ->
  BitReader.bytes r' = BitReader.bytes r /\ all_bytes (RawCell.data c) /\
  Cell.zero_padded (RawCell.data c) (RawCell.bit_len c).
Proof.
  intros Hb. unfold RawCell.parse, RawCell.try_parse. intros Hp.
  destruct (BitReader.read_u8 r) as [[d1 r1]|] eqn:E1; [|done]. cbn [ok] in Hp.
  destruct (BitReader.read_u8 r1) as [[d2 r2]|] eqn:E2; [|done]. cbn [ok] in Hp.
  destruct (_ || _) in Hp; [done|].
  destruct (BitReader.read_bytes r2 _) as [[d r3]|] eqn:E3; [|done]. cbn [ok] in Hp.
  destruct (RawCell.unpad_cell_bits d _) as [[d' n]|] eqn:Eu; [|done].
  destruct (repeat_state _ _ r3) as [[refs r4]|] eqn:E4; [|done]. cbn [ok ok_or] in Hp. injection Hp as <- <-.
  apply read_u8_keeps in E1 as K1. apply read_u8_keeps in E2 as K2. apply read_bytes_keeps in E3 as K3.
  apply (repeat_keeps _ _ (read_var_uint_keeps rs)) in E4. split; [congruence|].
  eapply unpad_padded_bits; [|exact Eu]. eapply read_bytes_bytes; [|exact E3]. congruence.
Qed.

Lemma raw_cells_parsed n rs r cs r' : all_bytes (BitReader.bytes r) ->
  repeat_state n (fun r => RawCell.parse r rs) r = Ok (cs, r') -> length cs = n /\
  Forall (fun c => all_bytes (RawCell.data c) /\ Cell.zero_padded (RawCell.data c) (RawCell.bit_len c)) cs.
Proof.
  revert r cs r'. induction n as [|n IH]; intros r cs r' Hb; cbn [repeat_state]; [intros [= <- _]; split; [done|constructor]|].
  destruct (RawCell.parse r rs) as [[c r1]|] eqn:E1; [|done].
  destruct (repeat_state n _ r1) as [[cs' r2]|] eqn:E2; [|done]. intros [= <- _].
  destruct (raw_cell_parsed _ _ _ _ Hb E1) as (Hk & Hc). apply IH in E2 as [Hl Hcs]; [|by rewrite Hk].
  split; [simpl; by rewrite Hl|by constructor].
Qed.

Lemma header_parsed r h r' : all_bytes (BitReader.bytes r) -> BocHeader.parse r = Ok (h, r') -> BitReader.bytes r' = BitReader.bytes r /\
  1 <= BocHeader.cells_count h <= 4096 /\ BocHeader.roots_count h <> 0 /\
  0 <= BocHeader.roots_count h <= BocHeader.cells_count h.
Proof.
  unfold BocHeader.parse, BocHeader.try_parse. intros Hb Hp.
  destruct (BitReader.read_u32 r) as [[d1 r1]|] eqn:E1; [|done]. cbn [ok] in Hp. destruct (negb _) in Hp; [done|].
  destruct (BitReader.read_u8 r1) as [[d2 r2]|] eqn:E2; [|done]. cbn [ok] in Hp. destruct (_ || _) in Hp; [done|].
  destruct (BitReader.read_u8 r2) as [[d3 r3]|] eqn:E3; [|done]. cbn [ok] in Hp. destruct (_ || _) in Hp; [done|].
  destruct (BitReader.read_var_uint r3 _) as [[cc r4]|] eqn:E4; [|done]. cbn [ok] in Hp.
  destruct (BitReader.read_var_uint r4 _) as [[rc r5]|] eqn:E5; [|done]. cbn [ok] in Hp.
  destruct (BitReader.read_var_uint r5 _) as [[ac r6]|] eqn:E6; [|done]. cbn [ok] in Hp.
  destruct (BitReader.read_var_uint r6 _) as [[tc r7]|] eqn:E7; [|done]. cbn [ok] in Hp.
  destruct ((cc =? 0) || (BocHeader.MAX_CELLS <? cc)) eqn:Ecc; [done|].
  destruct ((rc =? 0) || (cc <? rc)) eqn:Erc; [done|]. destruct (_ <? _) in Hp; [done|].
  cbn [ok_or] in Hp. injection Hp as <- <-. simpl. zbool. unfold BocHeader.MAX_CELLS in *.
  apply read_u32_keeps in E1 as K1. apply read_u8_keeps in E2 as K2. apply read_u8_keeps in E3 as K3.
  apply read_var_uint_keeps in E4 as K4. apply read_var_uint_keeps in E5 as K5.
  apply read_var_uint_keeps in E6 as K6. apply read_var_uint_keeps in E7 as K7.
  apply read_var_uint_nonneg in E4; [|congruence]. apply read_var_uint_nonneg in E5; [|congruence].
  split; [congruence|lia].
Qed.

Section tree.
Context `{Sha256}.

(** The vector of [build_cell_tree] holds well-formed cells only. *)
Lemma build_cell_wf raws cells ix cells' :
  Forall (fun c => all_bytes (RawCell.data c) /\ Cell.zero_padded (RawCell.data c) (RawCell.bit_len c)) raws ->
  (forall c, Some c ∈ cells -> Cell.wf c) -> build_cell raws cells ix = Ok cells' ->
  (forall c, Some c ∈ cells' -> Cell.wf c).
Proof.
  intros Hraws Hcells. unfold build_cell. destruct (raws !! ix) as [raw|] eqn:Hraw; [|done].
  destruct (collect _ _) as [refs|] eqn:Hrefs; [|done]. unfold Cell.new.
  destruct (Cell.try_new _ _ refs) as [c|] eqn:Hc; [|done]. cbn [ok_or]. intros [= <-] c' Hin.
  apply list_elem_of_lookup_1 in Hin as [j Hj]. apply list_lookup_insert_Some in Hj as [(_ & [= ->] & _)|[_ Hj]].
  2:{ apply Hcells. by eapply list_elem_of_lookup_2. }
  rewrite Forall_lookup in Hraws. destruct (Hraws _ _ Hraw) as [Hd Hz].
  eapply Cell.wf_new; [exact Hd|exact Hz| |exact Hc].
  apply collect_ok_iff in Hrefs. apply Forall_lookup. intros k r Hr.
  destruct (Forall2_lookup_r _ _ _ _ _ Hrefs Hr) as (ref & _ & Hget).
  destruct (ref <=? _) in Hget; [done|]. destruct (get cells ref) as [[x|]|] eqn:Eg; cbn in Hget; [|done..].
  injection Hget as ->. apply Hcells. unfold get in Eg. destruct (_ <? _) in Eg; [|done]. by eapply list_elem_of_lookup_2.
Qed.

Lemma build_cell_tree_wf raws cells :
  Forall (fun c => all_bytes (RawCell.data c) /\ Cell.zero_padded (RawCell.data c) (RawCell.bit_len c)) raws ->
  build_cell_tree raws = Ok cells -> Forall Cell.wf cells.
Proof.
  intros Hraws. unfold build_cell_tree. destruct (try_fold _ _ _) as [vec|] eqn:Hf; [|done]. intros Hcol.
  assert (forall c, Some c ∈ vec -> Cell.wf c) as Hvec.
  { assert (forall c, Some c ∈ replicate (length raws) (@None Cell.t) -> Cell.wf c) as H0
      by (intros c [? _]%elem_of_replicate; done).
    revert H0 Hf. generalize (replicate (length raws) (@None Cell.t)). induction (rev (seq 0 (length raws))) as [|i l IH];
      intros v0 H0; cbn [try_fold]; [by intros [= <-]|].
    destruct (build_cell raws v0 i) as [v1|] eqn:E; [|done]. apply IH. by eapply build_cell_wf. }
  apply collect_ok_iff in Hcol. apply Forall_lookup. intros k c Hc.
  destruct (Forall2_lookup_r _ _ _ _ _ Hcol Hc) as ([x|] & Hx & Hok); cbn in Hok; [|done].
  injection Hok as ->. apply Hvec. by eapply list_elem_of_lookup_2.
Qed.

End tree.
End ParseFacts.

Section parsing.
Import BagOfCells ParseFacts.
Context `{Sha256} `{Crc32c}.

(** (C36) Whatever bytes [parse] accepts, the bag it returns has between 1 and 4096
    roots and every one of them is a well-formed cell: its bits, its
    references, its depth and its hash are those [Cell::new] computes, so
    none of the stored data is trusted. *)
Theorem parse_well_formed (bs : bytes) (bag : BagOfCells.t) : all_bytes bs -> parse bs = Ok bag ->
  Forall Cell.wf (roots bag) /\ 1 <= Z.of_nat (length (roots bag)) <= 4096.
Proof.
  intros Hb. unfold parse. intros Hp.
  destruct (BocHeader.parse (BitReader.new bs)) as [[h r1]|] eqn:Eh; [|done].
  destruct (header_parsed (BitReader.new bs) _ _ Hb Eh) as (K1 & Hcc & Hrc0 & Hrc).
  destruct (repeat_state _ _ r1) as [[ixs r2]|] eqn:Ei; [|done].
  assert (length ixs = Z.to_nat (BocHeader.roots_count h)) as Hil.
  { clear - Ei. revert r1 ixs r2 Ei. induction (Z.to_nat (BocHeader.roots_count h)) as [|n IH]; intros r1 ixs r2; cbn [repeat_state];
      [by intros [= <- _]|]. destruct (BitReader.read_var_uint _ _) as [[v r3]|]; [|done].
    destruct (repeat_state _ _ r3) as [[vs r4]|] eqn:E; [|done]. intros [= <- _]. simpl. f_equal. by eapply IH. }
  apply (repeat_keeps _ _ (read_var_uint_keeps _)) in Ei as K2.
  destruct (if BocHeader.has_idx h then _ else _) as [r3|] eqn:Es in Hp; [|done].
  assert (BitReader.bytes r3 = bs) as K3.
  { transitivity (BitReader.bytes r2); [|rewrite K2, K1; done]. destruct (BocHeader.has_idx h); [|congruence].
    unfold BitReader.skip in Es. destruct (BitReader.read_bytes _ _) as [[x y]|] eqn:E; [|done].
    injection Es as <-. by apply read_bytes_keeps in E. }
  unfold BocHeader.read_raw_cells in Hp.
  destruct (repeat_state _ _ r3) as [[raws r4]|] eqn:Er; [|done]. destruct (negb _) in Hp; [done|].
  apply raw_cells_parsed in Er as [_ Hraws]; [|by rewrite K3].
  destruct (if BocHeader.has_crc32c h then _ else _) as [r5|] in Hp; [|done].
  destruct (negb _) in Hp; [done|]. destruct (build_cell_tree raws) as [cells|] eqn:Et; [|done].
  apply build_cell_tree_wf in Et; [|done]. destruct (collect _ ixs) as [rts|] eqn:Ec; [|done].
  injection Hp as <-. simpl. apply collect_length in Ec as Hl. apply collect_ok_iff in Ec.
  split; [|lia]. apply Forall_lookup. intros k c Hc.
  destruct (Forall2_lookup_r _ _ _ _ _ Ec Hc) as (i & _ & Hget).
  destruct (get cells i) as [x|] eqn:Eg; cbn in Hget; [|done]. injection Hget as ->.
  unfold get in Eg. destruct (_ <? _) in Eg; [|done]. rewrite Forall_lookup in Et. by eapply Et.
Qed.

End parsing.

(** ** Witnesses *)

Section witnesses.
Import BagOfCells IndexedCells IndexFacts Concrete SampleBag.

(** Any 32-bit function of the bytes serves as the checksum. *)
#[local] Instance toy_crc32c : Crc32c := fun bs => wrap 32 (fold_left (fun acc b => acc * 31 + b) bs 7).
#[local] Instance toy_crc32c_laws : Crc32cLaws.
Proof. split. intros bs. by apply wrap_width. Qed.

Lemma boc_roundtrip_witness :
  exists bs, serialize (from_root SampleBag.root) true = Ok bs /\ parse bs = Ok (from_root SampleBag.root).
Proof.
  apply (boc_roundtrip (from_root SampleBag.root) true [SampleBag.root; outer; middle; shared]).
  - discriminate.
  - apply NoDup_singleton.
  - exact root_cells_wf.
  - exact root_no_collision.
  - intros c. apply reach_diamond; by vm_compute.
  - by vm_compute.
Defined.

Definition sample_boc : bytes :=
  [0xb5; 0xee; 0x9c; 0x72; 1; 1; 2; 1; 0; 7; 0; 1; 2; 0xAB; 1; 0; 1; 0xC0].

Lemma parse_well_formed_witness : exists bag, parse sample_boc = Ok bag /\ Forall Cell.wf (roots bag).
Proof.
  destruct (parse sample_boc) as [bag|e] eqn:E.
  - exists bag. split; [reflexivity|]. assert (all_bytes sample_boc) as Hb by (by repeat constructor).
    exact (proj1 (parse_well_formed sample_boc bag Hb E)).
  - exfalso. by vm_compute in E.
Defined.

End witnesses.
