(* ===== verification/Protobuf.v ===== *)
(** The protobuf codec of [gem_encoding/src/protobuf]: varints and fields
    ([encode.rs], [decode.rs]), the field codecs the message macros combine
    ([field_codec.rs]) and the gRPC frame ([grpc.rs]). *)
From S2P Require Import Prelude Utf8.

(** [Box<dyn Error>], by its source. *)
Inductive proto_error : Type :=
| Message (text : string)
| Utf8Error
| ParseBigIntError.

Abbreviation MessageResult := (result proto_error).

(** [trait MessageEncode] and [trait MessageDecode] *)
Class MessageEncode (T : Type) : Type := encode_message : T -> bytes.
Class MessageDecode (T : Type) : Type := decode_message : bytes -> MessageResult T.
(** [Default::default()] *)
Class Default (T : Type) : Type := default_value : T.

Module Wire.
Definition WIRE_VARINT : Z := 0.
Definition WIRE_FIXED64 : Z := 1.
Definition WIRE_LENGTH_DELIMITED : Z := 2.
Definition WIRE_FIXED32 : Z := 5.
End Wire.

Module Encode.
Import Wire.

(** The [while value >= 0x80] loop; a [u64] takes at most nine turns. *)
Fixpoint varint_loop (fuel : nat) (value : Z) : bytes :=
  match fuel with
  | O => [as_u8 value]
  | S fuel =>
      if 0x80 <=? value then Z.lor (as_u8 value) 0x80 :: varint_loop fuel (Z.shiftr value 7)
      else [as_u8 value]
  end.
Definition encode_varint (value : Z) : bytes := varint_loop 9 value.

Definition field_tag (field_number wire_type : Z) : bytes :=
  encode_varint (Z.lor (Z.shiftl field_number 3) wire_type).

Definition encode_raw_varint_field (field_number value : Z) : bytes :=
  field_tag field_number WIRE_VARINT ++ encode_varint value.

Definition encode_varint_field (field_number value : Z) : bytes :=
  if value =? 0 then [] else encode_raw_varint_field field_number value.

Definition encode_bytes_field (field_number : Z) (data : bytes) : bytes :=
  match data with
  | [] => []
  | _ =>
      field_tag field_number WIRE_LENGTH_DELIMITED
      ++ encode_varint (Z.of_nat (length data)) ++ data
  end.

Definition encode_string_field (field_number : Z) (value : bytes) : bytes := encode_bytes_field field_number value.

Definition encode_message_field (field_number : Z) (message : bytes) : bytes :=
  match message with
  | [] => []
  | _ => encode_bytes_field field_number message
  end.

(** [value.map(f).unwrap_or_default()] *)
Definition map_or_default {A} (f : A -> bytes) (value : option A) : bytes :=
  match value with Some v => f v | None => [] end.

Definition encode_optional_message_field `{MessageEncode T} (field_number : Z) (value : option T) : bytes :=
  map_or_default (fun v => encode_message_field field_number (encode_message v)) value.
Definition encode_optional_string_field (field_number : Z) (value : option bytes) : bytes :=
  map_or_default (encode_string_field field_number) value.
Definition encode_optional_bytes_field (field_number : Z) (value : option bytes) : bytes :=
  map_or_default (encode_bytes_field field_number) value.
Definition encode_optional_u64_field (field_number : Z) (value : option Z) : bytes :=
  map_or_default (encode_raw_varint_field field_number) value.
Definition encode_optional_bool_field (field_number : Z) (value : option bool) : bytes :=
  map_or_default (fun v => encode_raw_varint_field field_number (Z.b2z v)) value.

(** The macro [proto_encode!]: the encodings of the fields, in order. *)
Definition proto_encode {T} (fields : list (T -> bytes)) (value : T) : bytes :=
  flat_map (fun f => f value) fields.

End Encode.

Module Decode.
Import Wire.

Inductive FieldValue : Type :=
| Varint (v : Z)
| Fixed64 (v : Z)
| Bytes (bs : bytes)
| Fixed32.

Record Field : Type := Mk { number : Z; value : FieldValue }.

Definition wrong_type (number : Z) (what : string) : proto_error :=
  Message ("protobuf field " +:+ pretty number +:+ " is not " +:+ what)%string.

Definition varint (f : Field) : MessageResult Z :=
  match value f with Varint v => Ok v | _ => Err (wrong_type (number f) "a varint") end.
Definition fixed64 (f : Field) : MessageResult Z :=
  match value f with Fixed64 v => Ok v | _ => Err (wrong_type (number f) "fixed64") end.
Definition field_bytes (f : Field) : MessageResult bytes :=
  match value f with Bytes bs => Ok bs | _ => Err (wrong_type (number f) "length-delimited") end.
Definition field_string (f : Field) : MessageResult bytes :=
  let? bs := field_bytes f in
  if utf8_valid bs then Ok bs else Err Utf8Error.
Definition field_message `{MessageDecode T} (f : Field) : MessageResult T :=
  let? bs := field_bytes f in decode_message bs.

(** The loop of [read_varint]: [shift] takes the values 0, 7, .., 63. *)
Fixpoint varint_loop (fuel : nat) (data : bytes) (position : nat) (res shift : Z) : MessageResult (Z * nat) :=
  match fuel with
  | O => Err (Message "out of fuel")
  | S fuel =>
      match data !! position with
      | None => Err (Message "truncated protobuf varint")
      | Some byte =>
          let position := S position in
          let v := Z.land byte 0x7f in
          if (shift =? 63) && (1 <? v) then Err (Message "protobuf varint overflows u64") else
          let res := Z.lor res (as_u64 (Z.shiftl v shift)) in
          if Z.land byte 0x80 =? 0 then Ok (res, position) else
          let shift := shift + 7 in
          if 64 <=? shift then Err (Message "protobuf varint is too long")
          else varint_loop fuel data position res shift
      end
  end.
Definition read_varint (data : bytes) (position : nat) : MessageResult (Z * nat) :=
  varint_loop 10 data position 0 0.

Definition read_fixed64 (data : bytes) (position : nat) : MessageResult (Z * nat) :=
  let? stop := ok_or (checked_add (Z.of_nat position) 8) (Message "invalid protobuf fixed64 length") in
  if Z.of_nat (length data) <? stop then Err (Message "truncated protobuf fixed64") else
  Ok (of_le (take 8 (drop position data)), Z.to_nat stop).

Definition skip_fixed32 (data : bytes) (position : nat) : MessageResult nat :=
  let? stop := ok_or (checked_add (Z.of_nat position) 4) (Message "invalid protobuf fixed32 length") in
  if Z.of_nat (length data) <? stop then Err (Message "truncated protobuf fixed32") else
  Ok (Z.to_nat stop).

(** One turn of the loop of [visit_fields]: the field at [position]. *)
Definition read_field (data : bytes) (position : nat) : MessageResult (Field * nat) :=
  let? (tag, position) := read_varint data position in
  let number := as_u32 (Z.shiftr tag 3) in
  let wire_type := as_u8 (Z.land tag 7) in
  if wire_type =? WIRE_VARINT then
    let? (v, position) := read_varint data position in Ok (Mk number (Varint v), position)
  else if wire_type =? WIRE_FIXED64 then
    let? (v, position) := read_fixed64 data position in Ok (Mk number (Fixed64 v), position)
  else if wire_type =? WIRE_LENGTH_DELIMITED then
    let? (len, position) := read_varint data position in
    let? stop := ok_or (checked_add (Z.of_nat position) len) (Message "invalid protobuf length") in
    if Z.of_nat (length data) <? stop then Err (Message "truncated protobuf length-delimited field") else
    Ok (Mk number (Bytes (take (Z.to_nat stop - position) (drop position data))), Z.to_nat stop)
  else if wire_type =? WIRE_FIXED32 then
    let? position := skip_fixed32 data position in Ok (Mk number Fixed32, position)
  else Err (Message ("unsupported protobuf wire type " +:+ pretty wire_type)%string).

(** [visit_fields]; the visitor updates a state it captures.  Every turn
    consumes at least one byte. *)
Fixpoint visit_fields_fuel {S} (fuel : nat) (data : bytes) (visitor : S -> Field -> MessageResult S)
  (position : nat) (s : S) : MessageResult S :=
  if (position <? length data)%nat then
    match fuel with
    | O => Err (Message "out of fuel")
    | Datatypes.S fuel =>
        let? (field, position) := read_field data position in
        let? s := visitor s field in
        visit_fields_fuel fuel data visitor position s
    end
  else Ok s.
Definition visit_fields {S} (data : bytes) (visitor : S -> Field -> MessageResult S) (s : S) : MessageResult S :=
  visit_fields_fuel (length data) data visitor 0 s.

(** The macro [proto_decode!]: the first arm with the number of the field
    handles it, other fields are skipped. *)
Definition visit_arm {T} (arms : list (Z * (T -> Field -> MessageResult T))) (v : T) (field : Field) : MessageResult T :=
  match find (fun arm => arm.1 =? number field) arms with
  | Some arm => arm.2 v field
  | None => Ok v
  end.
Definition proto_decode `{Default T} (arms : list (Z * (T -> Field -> MessageResult T))) (data : bytes)
  : MessageResult T :=
  visit_fields data (visit_arm arms) default_value.

End Decode.

(** ** The field codecs *)

Module optional_string.
Definition decode (_ : option bytes) (f : Decode.Field) : MessageResult (option bytes) :=
  let? s := Decode.field_string f in Ok (Some s).
Definition encode (field_number : Z) (value : option bytes) : bytes :=
  Encode.encode_optional_string_field field_number value.
End optional_string.

Module proto_string.
Definition decode (_ : bytes) (f : Decode.Field) : MessageResult bytes := Decode.field_string f.
End proto_string.

Module optional_bytes.
Definition decode (_ : option bytes) (f : Decode.Field) : MessageResult (option bytes) :=
  let? s := Decode.field_bytes f in Ok (Some s).
Definition encode (field_number : Z) (value : option bytes) : bytes :=
  Encode.encode_optional_bytes_field field_number value.
End optional_bytes.

Module optional_bool.
Definition decode (_ : option bool) (f : Decode.Field) : MessageResult (option bool) :=
  let? v := Decode.varint f in Ok (Some (negb (v =? 0))).
Definition encode (field_number : Z) (value : option bool) : bytes :=
  Encode.encode_optional_bool_field field_number value.
End optional_bool.

Module optional_varint_u32.
Definition decode (_ : option Z) (f : Decode.Field) : MessageResult (option Z) :=
  let? v := Decode.varint f in Ok (Some (as_u32 v)).
Definition encode (field_number : Z) (value : option Z) : bytes :=
  Encode.encode_optional_u64_field field_number value.
End optional_varint_u32.

Module optional_varint_u64.
Definition decode (_ : option Z) (f : Decode.Field) : MessageResult (option Z) :=
  let? v := Decode.varint f in Ok (Some v).
Definition encode (field_number : Z) (value : option Z) : bytes :=
  Encode.encode_optional_u64_field field_number value.
End optional_varint_u64.

Module varint_u64.
Definition decode (_ : Z) (f : Decode.Field) : MessageResult Z := Decode.varint f.
End varint_u64.

(** [as i32] and [as i64] keep the low bits as a two's complement number. *)
Definition as_signed (w v : Z) : Z :=
  let m := wrap w v in if m <? 2 ^ (w - 1) then m else m - 2 ^ w.

Module optional_varint_i32.
Definition decode (_ : option Z) (f : Decode.Field) : MessageResult (option Z) :=
  let? v := Decode.varint f in Ok (Some (as_signed 32 v)).
(** [value as u64] extends the sign. *)
Definition encode (field_number : Z) (value : option Z) : bytes :=
  Encode.encode_optional_u64_field field_number (as_u64 <$> value).
End optional_varint_i32.

Module varint_i32.
Definition decode (_ : Z) (f : Decode.Field) : MessageResult Z :=
  let? v := Decode.varint f in Ok (as_signed 32 v).
End varint_i32.

Module varint_i64.
Definition decode (_ : Z) (f : Decode.Field) : MessageResult Z :=
  let? v := Decode.varint f in Ok (as_signed 64 v).
End varint_i64.

Module optional_enum_varint.
(** [T: Into<u64>] *)
Definition encode {T} (into : T -> Z) (field_number : Z) (value : option T) : bytes :=
  Encode.encode_optional_u64_field field_number (into <$> value).
End optional_enum_varint.

Module optional_message.
Definition decode `{MessageDecode T} (_ : option T) (f : Decode.Field) : MessageResult (option T) :=
  let? v := Decode.field_message f in Ok (Some v).
Definition encode `{MessageEncode T} (field_number : Z) (value : option T) : bytes :=
  Encode.encode_optional_message_field field_number value.
End optional_message.

Module repeated_message.
Definition decode `{MessageDecode T} (v : list T) (f : Decode.Field) : MessageResult (list T) :=
  let? m := Decode.field_message f in Ok (v ++ [m]).
Definition encode `{MessageEncode T} (field_number : Z) (value : list T) : bytes :=
  flat_map (fun v => Encode.encode_message_field field_number (encode_message v)) value.
End repeated_message.

Module repeated_string.
Definition encode (field_number : Z) (value : list bytes) : bytes :=
  flat_map (Encode.encode_string_field field_number) value.
End repeated_string.

Module repeated_bytes.
Definition encode (field_number : Z) (value : list bytes) : bytes :=
  flat_map (Encode.encode_bytes_field field_number) value.
End repeated_bytes.

(** ** The gRPC frame *)

Module Grpc.

Definition encode_grpc_frame (payload : bytes) : bytes :=
  [0] ++ be_bytes 4 (as_u32 (Z.of_nat (length payload))) ++ payload.

Definition encode_grpc_message `{MessageEncode M} (message : M) : bytes :=
  encode_grpc_frame (encode_message message).

Definition decode_grpc_frame (body : bytes) : MessageResult bytes :=
  if (length body <? 5)%nat then Err (Message "gRPC response is missing message frame") else
  if negb (body !!! 0%nat =? 0) then Err (Message "compressed gRPC responses are not supported") else
  let len := of_be (take 4 (drop 1 body)) in
  let? stop := ok_or (checked_add 5 len) (Message "invalid gRPC response frame length") in
  if Z.of_nat (length body) <? stop then Err (Message "truncated gRPC response frame") else
  Ok (take (Z.to_nat stop - 5) (drop 5 body)).

Definition decode_grpc_message `{MessageDecode M} (body : bytes) : MessageResult M :=
  let? payload := decode_grpc_frame body in decode_message payload.

End Grpc.

(** ** Facts on varints *)

Module VarintFacts.

Lemma group_more v : 0 <= v -> Z.land (Z.lor (as_u8 v) 0x80) 0x7f = v mod 128 /\ Z.land (Z.lor (as_u8 v) 0x80) 0x80 <> 0.
Proof.
  intros Hv. split.
  - rewrite Z.land_lor_distr_l. change (Z.land 0x80 0x7f) with 0. rewrite Z.lor_0_r.
    unfold as_u8, wrap. change 0x7f with (Z.ones 7). rewrite Z.land_ones by lia.
    change (2 ^ 8) with (128 * 2). rewrite Z.rem_mul_r by lia. change (2 ^ 7) with 128.
    rewrite Z.mul_comm, Z.mod_add, Z.mod_mod by lia. done.
  - rewrite Z.land_lor_distr_l. change (Z.land 0x80 0x80) with 0x80. intros [_ H]%Z.lor_eq_0_iff. done.
Qed.

Lemma group_last v : 0 <= v < 128 -> as_u8 v = v /\ Z.land v 0x7f = v /\ Z.land v 0x80 = 0.
Proof.
  intros Hv. assert (Z.land v 0x7f = v) as H by (apply (in_width_land 7); [lia|exact Hv]).
  split; [apply as_u8_small; unfold in_width; lia|]. split; [done|].
  rewrite <- H, <- Z.land_assoc. apply Z.land_0_r.
Qed.

Lemma accumulate res x shift : 0 <= shift -> in_width shift res -> 0 <= x -> x * 2 ^ shift < 2 ^ 64 ->
  Z.lor res (as_u64 (Z.shiftl x shift)) = res + x * 2 ^ shift.
Proof.
  intros Hs Hr Hx Hlt. unfold as_u64. rewrite wrap_small.
  - rewrite Z.lor_comm, lor_add_disjoint by done. lia.
  - rewrite Z.shiftl_mul_pow2 by done. unfold in_width. pose proof (Z.pow_pos_nonneg 2 shift). nia.
Qed.

(** Decoding an encoded value, started in the middle. *)
Lemma varint_loops fe fd k pre v post res :
  (fd + k = 10)%nat -> 0 <= v < 2 ^ (7 * (Z.of_nat fe + 1)) -> in_width (7 * Z.of_nat k) res ->
  v * 2 ^ (7 * Z.of_nat k) < 2 ^ 64 -> (k <= 9)%nat ->
  Decode.varint_loop fd (pre ++ Encode.varint_loop fe v ++ post) (length pre) res (7 * Z.of_nat k)
  = Ok (res + v * 2 ^ (7 * Z.of_nat k), (length pre + length (Encode.varint_loop fe v))%nat).
Proof.
  revert fd k pre v res. induction fe as [|fe IH]; intros fd k pre v res Hfd Hv Hres Hmax Hk.
  - destruct fd as [|fd]; [lia|]. change (7 * (Z.of_nat 0 + 1)) with 7 in Hv. change (2 ^ 7) with 128 in Hv.
    destruct (group_last v Hv) as (Hb & Hg & Hm). cbn [Encode.varint_loop app Decode.varint_loop]. rewrite Hb.
    rewrite list_lookup_middle by done. rewrite Hg, Hm.
    assert ((7 * Z.of_nat k =? 63) && (1 <? v) = false) as ->.
    { apply andb_false_iff. destruct (decide (k = 9%nat)) as [->|]; [right|left; bfalse].
      change (2 ^ (7 * Z.of_nat 9)) with (2 ^ 63) in Hmax. bfalse. }
    rewrite accumulate by (done || lia). cbn [Z.eqb length]. by rewrite Nat.add_1_r.
  - destruct fd as [|fd]; [lia|]. cbn [Encode.varint_loop]. destruct (0x80 <=? v) eqn:Hge; zbool.
    + destruct (group_more v) as [Hg Hm]; [lia|]. cbn [app Decode.varint_loop].
      rewrite list_lookup_middle by done. rewrite Hg.
      assert (k <= 8)%nat as Hk8.
      { destruct (decide (k = 9%nat)) as [->|]; [|lia]. change (2 ^ (7 * Z.of_nat 9)) with (2 ^ 63) in Hmax. lia. }
      assert ((7 * Z.of_nat k =? 63) = false) as -> by bfalse. cbn [andb].
      apply Z.eqb_neq in Hm as ->. test_false (64 <=? 7 * Z.of_nat k + 7).
      assert (2 ^ (7 * Z.of_nat (S k)) = 2 ^ (7 * Z.of_nat k) * 128) as Hpow.
      { replace (7 * Z.of_nat (S k)) with (7 * Z.of_nat k + 7) by lia. rewrite Z.pow_add_r by lia. done. }
      pose proof (Z.mod_pos_bound v 128 eq_refl). pose proof (Z.div_mod v 128 ltac:(lia)) as Hdm.
      pose proof (Z.pow_pos_nonneg 2 (7 * Z.of_nat k) ltac:(lia) ltac:(lia)) as Hpos.
      rewrite Z.shiftr_div_pow2 by lia. change (2 ^ 7) with 128. 
      assert (0 <= v / 128) by (apply Z.div_pos; lia).
      rewrite accumulate by (done || nia).
      replace (7 * Z.of_nat k + 7) with (7 * Z.of_nat (S k)) by lia.
      set (b := Z.lor (as_u8 v) 0x80).
      replace (pre ++ b :: Encode.varint_loop fe (v / 128) ++ post)
        with ((pre ++ [b]) ++ Encode.varint_loop fe (v / 128) ++ post) by (by rewrite <- app_assoc).
      replace (S (length pre)) with (length (pre ++ [b])) by (rewrite length_app; simpl; lia).
      rewrite IH; [|lia| | | |lia].
      * rewrite Hpow, length_app. simpl length. do 2 f_equal; [|lia]. nia.
      * split; [done|]. apply Z.div_lt_upper_bound; [lia|].
        replace (7 * (Z.of_nat (S fe) + 1)) with (7 + 7 * (Z.of_nat fe + 1)) in Hv by lia.
        rewrite Z.pow_add_r in Hv by lia. exact (proj2 Hv).
      * unfold in_width in *. rewrite Hpow. nia.
      * rewrite Hpow. nia.
    + destruct (group_last v) as (Hb & Hg & Hm); [lia|]. cbn [app Decode.varint_loop]. rewrite Hb.
      rewrite list_lookup_middle by done. rewrite Hg, Hm.
      assert ((7 * Z.of_nat k =? 63) && (1 <? v) = false) as ->.
      { apply andb_false_iff. destruct (decide (k = 9%nat)) as [->|]; [right|left; bfalse].
        change (2 ^ (7 * Z.of_nat 9)) with (2 ^ 63) in Hmax. bfalse. }
      rewrite accumulate by (done || lia). cbn [Z.eqb length]. by rewrite Nat.add_1_r.
Qed.

Lemma read_encode pre v post : is_u64 v ->
  Decode.read_varint (pre ++ Encode.encode_varint v ++ post) (length pre)
  = Ok (v, (length pre + length (Encode.encode_varint v))%nat).
Proof.
  intros Hv. unfold in_width in Hv. unfold Decode.read_varint, Encode.encode_varint.
  pose proof (varint_loops 9 10 0 pre v post 0) as Hl. change (7 * Z.of_nat 0) with 0 in Hl.
  rewrite Hl; [do 2 f_equal; change (2 ^ 0) with 1; lia|done| |done|change (2 ^ 0) with 1; lia|lia].
  split; [lia|]. eapply Z.lt_le_trans; [apply Hv|]. by vm_compute.
Qed.

(** The value of a group of varint bytes. *)
Definition groups_value (bs : bytes) : Z := foldr (fun b acc => Z.land b 0x7f + 128 * acc) 0 bs.

Lemma varint_loop_sound fuel k data pos res v pos' : (fuel + k = 10)%nat -> all_bytes data ->
  in_width (7 * Z.of_nat k) res -> (k <= 9)%nat ->
  Decode.varint_loop fuel data pos res (7 * Z.of_nat k) = Ok (v, pos') ->
  (pos < pos' <= length data)%nat /\ (pos' - pos <= fuel)%nat /\ is_u64 v /\
  v = res + 2 ^ (7 * Z.of_nat k) * groups_value (take (pos' - pos) (drop pos data)).
Proof.
  revert k pos res. induction fuel as [|fuel IH]; intros k pos res Hf Hb Hres Hk; [done|].
  cbn [Decode.varint_loop]. destruct (data !! pos) as [byte|] eqn:Hd; [|done].
  pose proof (lookup_lt_Some _ _ _ Hd) as Hlt. rewrite Forall_lookup in Hb. pose proof (Hb _ _ Hd) as Hbyte.
  rewrite <- Forall_lookup in Hb.
  set (x := Z.land byte 0x7f). assert (0 <= x < 128) as Hx.
  { unfold x. change 0x7f with (Z.ones 7). rewrite Z.land_ones by lia. by apply Z.mod_pos_bound. }
  destruct ((7 * Z.of_nat k =? 63) && (1 <? x)) eqn:Hov; [done|].
  pose proof (Z.pow_pos_nonneg 2 (7 * Z.of_nat k) ltac:(lia) ltac:(lia)) as Hpos.
  assert (2 ^ (7 * Z.of_nat (S k)) = 2 ^ (7 * Z.of_nat k) * 128) as Hpow.
  { replace (7 * Z.of_nat (S k)) with (7 * Z.of_nat k + 7) by lia. rewrite Z.pow_add_r by lia. done. }
  assert (x * 2 ^ (7 * Z.of_nat k) + 2 ^ (7 * Z.of_nat k) <= 2 ^ 64) as Hmax.
  { destruct (decide (k = 9%nat)) as [->|Hne].
    - change (7 * Z.of_nat 9) with 63 in *. change (63 =? 63) with true in Hov. cbn [andb] in Hov.
      zbool. change (2 ^ 64) with (2 * 2 ^ 63). nia.
    - assert (2 ^ (7 * Z.of_nat (S k)) <= 2 ^ 63) as H63 by (apply Z.pow_le_mono_r; lia).
      change (2 ^ 64) with (2 * 2 ^ 63). nia. }
  unfold in_width in Hres. rewrite accumulate by (unfold in_width; lia).
  assert (drop pos data = byte :: drop (S pos) data) as Hdrop by (by apply drop_S).
  destruct (Z.land byte 0x80 =? 0) eqn:Hlast.
  - intros [= <- <-]. split; [lia|]. split; [lia|]. unfold in_width. split; [nia|].
    replace (S pos - pos)%nat with 1%nat by lia. rewrite Hdrop. simpl. fold x. ring.
  - destruct (64 <=? 7 * Z.of_nat k + 7) eqn:Hlong; [done|]. zbool.
    replace (7 * Z.of_nat k + 7) with (7 * Z.of_nat (S k)) by lia. intros Hloop.
    apply IH in Hloop as (Hp & Hn & Hu & Hval); [|lia|done|unfold in_width; nia|lia].
    split; [lia|]. split; [lia|]. split; [done|]. rewrite Hval, Hpow, Hdrop.
    replace (pos' - pos)%nat with (S (pos' - S pos)) by lia. simpl. fold x. 
    fold (groups_value (take (pos' - S pos) (drop (S pos) data))). ring.
Qed.

Lemma varint_no_fuel_error fuel k data pos res : (fuel + k = 10)%nat -> (k <= 9)%nat ->
  Decode.varint_loop fuel data pos res (7 * Z.of_nat k) <> Err (Message "out of fuel").
Proof.
  revert k pos res. induction fuel as [|fuel IH]; intros k pos res Hf Hk; [lia|].
  cbn [Decode.varint_loop]. destruct (data !! pos); [|done]. destruct (_ && _); [done|].
  destruct (_ =? _); [done|]. destruct (64 <=? _) eqn:E; [done|]. zbool.
  replace (7 * Z.of_nat k + 7) with (7 * Z.of_nat (S k)) by lia. apply IH; lia.
Qed.

Lemma encode_varint_nonempty v : (1 <= length (Encode.encode_varint v))%nat.
Proof.
  unfold Encode.encode_varint. generalize 9%nat as fuel. intros [|fuel]; cbn [Encode.varint_loop]; [simpl; lia|].
  destruct (0x80 <=? v); cbn [length]; lia.
Qed.

End VarintFacts.

(** ** Facts on fields *)

Module FieldFacts.
Import Encode Decode Wire.

(** The bytes of a field; a [Fixed32] field is skipped, so its payload is free. *)
Definition wire (f : Field) : bytes :=
  match value f with
  | Varint v => field_tag (number f) WIRE_VARINT ++ encode_varint v
  | Fixed64 v => field_tag (number f) WIRE_FIXED64 ++ le_bytes 8 v
  | Bytes bs => field_tag (number f) WIRE_LENGTH_DELIMITED ++ encode_varint (Z.of_nat (length bs)) ++ bs
  | Fixed32 => field_tag (number f) WIRE_FIXED32 ++ [0; 0; 0; 0]
  end.

Definition field_ok (f : Field) : Prop :=
  is_u32 (number f) /\ match value f with Varint v | Fixed64 v => is_u64 v | _ => True end.

Lemma tag_ok n w : is_u32 n -> 0 <= w < 8 ->
  is_u64 (Z.lor (Z.shiftl n 3) w) /\ as_u32 (Z.shiftr (Z.lor (Z.shiftl n 3) w) 3) = n /\
  as_u8 (Z.land (Z.lor (Z.shiftl n 3) w) 7) = w.
Proof.
  intros Hn Hw. unfold in_width in Hn. rewrite lor_add_disjoint by (unfold in_width; lia). change (2 ^ 3) with 8.
  split; [unfold in_width; lia|]. split.
  - rewrite Z.shiftr_div_pow2 by lia. change (2 ^ 3) with 8. rewrite Z.div_add_l, Z.div_small, Z.add_0_r by lia.
    by apply wrap_small.
  - change 7 with (Z.ones 3). rewrite Z.land_ones by lia. change (2 ^ 3) with 8.
    rewrite Z.add_comm, Z.mod_add, Z.mod_small by lia. apply as_u8_small. unfold in_width. lia.
Qed.

(** Reading the tag leaves the payload. *)
Lemma read_field_tag pre n w post : is_u32 n -> 0 <= w < 8 ->
  read_varint (pre ++ field_tag n w ++ post) (length pre)
  = Ok (Z.lor (Z.shiftl n 3) w, length (pre ++ field_tag n w)).
Proof.
  intros Hn Hw. unfold field_tag. destruct (tag_ok n w Hn Hw) as [Hu _].
  by rewrite VarintFacts.read_encode, length_app.
Qed.

Lemma read_field_wire pre f post : field_ok f -> Z.of_nat (length (pre ++ wire f ++ post)) <= U64_MAX ->
  read_field (pre ++ wire f ++ post) (length pre) = Ok (f, length (pre ++ wire f)).
Proof.
  destruct f as [n v]. intros [Hn Hv] Hmax. simpl in Hn, Hv. unfold wire, read_field in *. cbn [number value] in *.
  destruct v as [v|v|bs|]; rewrite <- ?app_assoc in *; (rewrite read_field_tag by (done || by vm_compute)).
  - destruct (tag_ok n WIRE_VARINT Hn ltac:(by vm_compute)) as (_ & -> & ->). cbn [Z.eqb WIRE_VARINT].
    rewrite (app_assoc pre). rewrite VarintFacts.read_encode by done. by rewrite (app_assoc pre), <- length_app.
  - destruct (tag_ok n WIRE_FIXED64 Hn ltac:(by vm_compute)) as (_ & -> & ->).
    change (WIRE_FIXED64 =? WIRE_VARINT) with false. change (WIRE_FIXED64 =? WIRE_FIXED64) with true. cbv iota.
    rewrite (app_assoc pre) in *. set (p := pre ++ field_tag n WIRE_FIXED64) in *.
    rewrite !length_app, le_bytes_length in Hmax. unfold read_fixed64, checked_add.
    test_true (Z.of_nat (length p) + 8 <=? U64_MAX). cbn [ok_or]. rewrite !length_app, le_bytes_length.
    test_false (Z.of_nat (length p + (8 + length post)) <? Z.of_nat (length p) + 8).
    rewrite drop_app_length, take_app_length' by (by rewrite le_bytes_length).
    rewrite (proj1 (of_le_be_small 8 v Hv)). do 2 f_equal. unfold p. rewrite ?length_app. lia.
  - destruct (tag_ok n WIRE_LENGTH_DELIMITED Hn ltac:(by vm_compute)) as (_ & -> & ->).
    change (WIRE_LENGTH_DELIMITED =? WIRE_VARINT) with false. change (WIRE_LENGTH_DELIMITED =? WIRE_FIXED64) with false.
    change (WIRE_LENGTH_DELIMITED =? WIRE_LENGTH_DELIMITED) with true. cbv iota.
    rewrite (app_assoc pre) in *. set (p := pre ++ field_tag n WIRE_LENGTH_DELIMITED) in *.
    rewrite !length_app in Hmax.
    rewrite VarintFacts.read_encode by (unfold in_width, U64_MAX in *; lia).
    set (l := encode_varint (Z.of_nat (length bs))) in *. unfold checked_add.
    test_true (Z.of_nat (length p + length l) + Z.of_nat (length bs) <=? U64_MAX). cbn [ok_or]. rewrite !length_app.
    test_false (Z.of_nat (length p + (length l + (length bs + length post)))
      <? Z.of_nat (length p + length l) + Z.of_nat (length bs)).
    rewrite (app_assoc p l), drop_app_length' by (by rewrite length_app).
    replace (Z.to_nat (Z.of_nat (length p + length l) + Z.of_nat (length bs)) - (length p + length l))%nat
      with (length bs) by lia.
    rewrite take_app_length. do 2 f_equal. unfold p. rewrite ?length_app. lia.
  - destruct (tag_ok n WIRE_FIXED32 Hn ltac:(by vm_compute)) as (_ & -> & ->).
    change (WIRE_FIXED32 =? WIRE_VARINT) with false. change (WIRE_FIXED32 =? WIRE_FIXED64) with false.
    change (WIRE_FIXED32 =? WIRE_LENGTH_DELIMITED) with false. change (WIRE_FIXED32 =? WIRE_FIXED32) with true. cbv iota.
    rewrite (app_assoc pre) in *. set (p := pre ++ field_tag n WIRE_FIXED32) in *.
    rewrite !length_app in Hmax. unfold skip_fixed32, checked_add. change (length [0; 0; 0; 0]) with 4%nat in *.
    test_true (Z.of_nat (length p) + 4 <=? U64_MAX). cbn [ok_or]. rewrite !length_app. change (length [0; 0; 0; 0]) with 4%nat.
    test_false (Z.of_nat (length p + (4 + length post)) <? Z.of_nat (length p) + 4).
    do 2 f_equal. unfold p. rewrite ?length_app. lia.
Qed.

Lemma wire_nonempty f : (1 <= length (wire f))%nat.
Proof.
  unfold wire, field_tag. destruct (value f); rewrite length_app;
    match goal with |- context [encode_varint (Z.lor ?a ?b)] => pose proof (VarintFacts.encode_varint_nonempty (Z.lor a b)) end; lia.
Qed.

Section visit.
Context {S : Type} (visitor : S -> Field -> MessageResult S).

Lemma visit_wire fuel pre fs s : Forall field_ok fs -> Z.of_nat (length (pre ++ flat_map wire fs)) <= U64_MAX ->
  (length (flat_map wire fs) <= fuel)%nat ->
  visit_fields_fuel fuel (pre ++ flat_map wire fs) visitor (length pre) s = try_fold visitor s fs.
Proof.
  revert fuel pre s. induction fs as [|f fs IH]; intros fuel pre s Hok Hmax Hf; cbn [flat_map try_fold] in *.
  - destruct fuel; cbn [visit_fields_fuel]; rewrite app_nil_r, Nat.ltb_irrefl; done.
  - apply Forall_cons in Hok as [Hf1 Hok]. pose proof (wire_nonempty f) as Hne. rewrite length_app in Hf.
    destruct fuel as [|fuel]; [lia|]. cbn [visit_fields_fuel].
    assert ((length pre <? length (pre ++ wire f ++ flat_map wire fs))%nat = true) as ->
      by (apply Nat.ltb_lt; rewrite !length_app; lia).
    rewrite read_field_wire by done. destruct (visitor s f) as [s'|e]; [|done].
    rewrite app_assoc in *. apply IH; [done|done|lia].
Qed.

Lemma visit_all fs s : Forall field_ok fs -> Z.of_nat (length (flat_map wire fs)) <= U64_MAX ->
  visit_fields (flat_map wire fs) visitor s = try_fold visitor s fs.
Proof. intros Hok Hmax. apply (visit_wire _ [] fs s); done. Qed.

Lemma read_field_progress data pos f pos' : all_bytes data -> read_field data pos = Ok (f, pos') -> (pos < pos')%nat.
Proof.
  intros Hb. unfold read_field. destruct (read_varint data pos) as [[tag p]|] eqn:E; [|done].
  assert (forall a v b, read_varint data a = Ok (v, b) -> (a < b)%nat) as Hprog.
  { intros a v b Hr. unfold read_varint in Hr. eapply (VarintFacts.varint_loop_sound 10 0) in Hr; [lia|done|done|by vm_compute|lia]. }
  apply Hprog in E. destruct (_ =? _).
  { destruct (read_varint data p) as [[v p']|] eqn:E2; [|done]. intros [= _ <-]. apply Hprog in E2. lia. }
  destruct (_ =? _).
  { unfold read_fixed64, checked_add. destruct (_ <=? _); cbn [ok_or]; [|done]. destruct (_ <? _); [done|]. intros [= _ <-]. lia. }
  destruct (_ =? _).
  { destruct (read_varint data p) as [[v p']|] eqn:E2; [|done].
    assert (0 <= v) as Hv.
    { unfold read_varint in E2. eapply (VarintFacts.varint_loop_sound 10 0) in E2 as (_ & _ & [? _] & _); [done|done|done|by vm_compute|lia]. }
    apply Hprog in E2. unfold checked_add. destruct (_ <=? _); cbn [ok_or]; [|done].
    destruct (_ <? _); [done|]. intros [= _ <-]. lia. }
  destruct (_ =? _); [|done].
  unfold skip_fixed32, checked_add. destruct (_ <=? _); cbn [ok_or]; [|done]. destruct (_ <? _); [done|]. intros [= _ <-]. lia.
Qed.

Lemma visit_more_fuel data : all_bytes data -> forall f1 f2 pos s, (length data - pos <= f1)%nat -> (length data - pos <= f2)%nat ->
  visit_fields_fuel f1 data visitor pos s = visit_fields_fuel f2 data visitor pos s.
Proof.
  intros Hb. induction f1 as [|f1 IH]; intros f2 pos s H1 H2; destruct f2 as [|f2]; cbn [visit_fields_fuel];
    destruct (pos <? length data)%nat eqn:E; try done; zbool; [lia|lia|].
  destruct (read_field data pos) as [[f p]|] eqn:Er; [|done]. apply read_field_progress in Er; [|done].
  destruct (visitor s f); [|done]. apply IH; lia.
Qed.
End visit.
End FieldFacts.

(** ** What the encoders write, as fields *)

Module Fields.
Import Encode Decode Wire FieldFacts.

Definition bytes_fields (n : Z) (bs : bytes) : list Field :=
  match bs with [] => [] | _ => [Mk n (Bytes bs)] end.
Definition varint_fields (n v : Z) : list Field := [Mk n (Varint v)].
(** [encode_varint_field] leaves a zero out. *)
Definition nonzero_fields (n v : Z) : list Field := if v =? 0 then [] else varint_fields n v.
Definition opt_fields {A} (f : A -> list Field) (o : option A) : list Field :=
  match o with Some v => f v | None => [] end.

Lemma bytes_fields_wire n bs : encode_bytes_field n bs = flat_map wire (bytes_fields n bs).
Proof. destruct bs as [|b bs]; [done|]. cbn [bytes_fields flat_map]. by rewrite app_nil_r. Qed.

Lemma message_fields_wire n bs : encode_message_field n bs = flat_map wire (bytes_fields n bs).
Proof. destruct bs as [|b bs]; [done|]. apply (bytes_fields_wire n (b :: bs)). Qed.

Lemma varint_fields_wire n v : encode_raw_varint_field n v = flat_map wire (varint_fields n v).
Proof. cbn [varint_fields flat_map]. by rewrite app_nil_r. Qed.

Lemma nonzero_fields_wire n v : encode_varint_field n v = flat_map wire (nonzero_fields n v).
Proof. unfold encode_varint_field, nonzero_fields. destruct (v =? 0); [done|apply varint_fields_wire]. Qed.

Lemma opt_fields_wire {A} (f : A -> bytes) (g : A -> list Field) (o : option A) :
  (forall a, f a = flat_map wire (g a)) -> map_or_default f o = flat_map wire (opt_fields g o).
Proof. intros H. destruct o; [apply H|done]. Qed.

Lemma opt_bytes_wire n o : encode_optional_bytes_field n o = flat_map wire (opt_fields (bytes_fields n) o).
Proof. apply opt_fields_wire, bytes_fields_wire. Qed.

Lemma opt_string_wire n o : encode_optional_string_field n o = flat_map wire (opt_fields (bytes_fields n) o).
Proof. apply opt_fields_wire, bytes_fields_wire. Qed.

Lemma opt_u64_wire n o : encode_optional_u64_field n o = flat_map wire (opt_fields (varint_fields n) o).
Proof. apply opt_fields_wire, varint_fields_wire. Qed.

Lemma opt_bool_wire n o : encode_optional_bool_field n o = flat_map wire (opt_fields (fun v => varint_fields n (Z.b2z v)) o).
Proof. apply opt_fields_wire. intros. apply varint_fields_wire. Qed.

Lemma opt_message_wire `{MessageEncode T} n (o : option T) :
  encode_optional_message_field n o = flat_map wire (opt_fields (fun v => bytes_fields n (encode_message v)) o).
Proof. apply opt_fields_wire. intros. apply message_fields_wire. Qed.

Lemma repeated_wire {A} (f : A -> bytes) (g : A -> list Field) (l : list A) :
  (forall a, f a = flat_map wire (g a)) -> flat_map f l = flat_map wire (flat_map g l).
Proof.
  intros H. induction l as [|a l IH]; [done|]. cbn [flat_map]. by rewrite flat_map_app, H, IH.
Qed.

Lemma repeated_message_wire `{MessageEncode T} n (l : list T) :
  repeated_message.encode n l = flat_map wire (flat_map (fun v => bytes_fields n (encode_message v)) l).
Proof. apply repeated_wire. intros. apply message_fields_wire. Qed.

Lemma repeated_bytes_wire n l : repeated_bytes.encode n l = flat_map wire (flat_map (bytes_fields n) l).
Proof. apply repeated_wire, bytes_fields_wire. Qed.

Lemma repeated_string_wire n l : repeated_string.encode n l = flat_map wire (flat_map (bytes_fields n) l).
Proof. apply repeated_wire, bytes_fields_wire. Qed.

(** Well-formedness of the fields written. *)
Lemma bytes_fields_ok n bs : is_u32 n -> Forall field_ok (bytes_fields n bs).
Proof. intros Hn. destruct bs; constructor; [by split|constructor]. Qed.

Lemma varint_fields_ok n v : is_u32 n -> is_u64 v -> Forall field_ok (varint_fields n v).
Proof. intros. constructor; [done|constructor]. Qed.

Lemma nonzero_fields_ok n v : is_u32 n -> is_u64 v -> Forall field_ok (nonzero_fields n v).
Proof. intros. unfold nonzero_fields. destruct (v =? 0); [constructor|by apply varint_fields_ok]. Qed.

Lemma opt_fields_ok {A} (f : A -> list Field) o : (forall a, o = Some a -> Forall field_ok (f a)) ->
  Forall field_ok (opt_fields f o).
Proof. destruct o; intros H; [by apply H|constructor]. Qed.

Lemma flat_fields_ok {A} (f : A -> list Field) l : (forall a, a ∈ l -> Forall field_ok (f a)) ->
  Forall field_ok (flat_map f l).
Proof.
  induction l as [|a l IH]; intros H; [constructor|]. cbn [flat_map]. apply Forall_app.
  split; [apply H, elem_of_cons; by left|]. apply IH. intros b Hb. apply H, elem_of_cons. by right.
Qed.

Lemma repeated_ok {A} n (g : A -> bytes) l : is_u32 n -> Forall field_ok (flat_map (fun v => bytes_fields n (g v)) l).
Proof. intros Hn. apply flat_fields_ok. intros. by apply bytes_fields_ok. Qed.

(** What an optional payload keeps: an empty one is written like an absent one. *)
Definition nonempty_bytes (o : option bytes) : option bytes :=
  match o with Some [] => None | _ => o end.

Lemma inner_length n bs : (length bs <= length (flat_map wire (bytes_fields n bs)))%nat.
Proof.
  destruct bs as [|b bs]; [done|]. cbn [bytes_fields flat_map]. rewrite app_nil_r. unfold wire. cbn [value].
  rewrite !length_app. lia.
Qed.

(** The length of a slice is a [usize]. *)
Definition fits (bs : bytes) : Prop := Z.of_nat (length bs) <= U64_MAX.

Lemma fits_field n bs rest1 rest2 : fits (flat_map wire (rest1 ++ bytes_fields n bs ++ rest2)) -> fits bs.
Proof.
  unfold fits. rewrite !flat_map_app, !length_app. pose proof (inner_length n bs). lia.
Qed.

Lemma fits_repeated n l bs : fits (flat_map wire (flat_map (bytes_fields n) l)) -> bs ∈ l -> fits bs.
Proof.
  intros Hf Hin. apply list_elem_of_split in Hin as (l1 & l2 & ->). rewrite flat_map_app in Hf. cbn [flat_map] in Hf.
  by eapply fits_field.
Qed.

(** The fields of one number, out of the fields of a message. *)
Definition select (n : Z) (fs : list Field) : list Field := List.filter (fun f => number f =? n) fs.

Lemma select_app n fs gs : select n (fs ++ gs) = select n fs ++ select n gs.
Proof. apply List.filter_app. Qed.

Lemma select_bytes n m bs : select n (bytes_fields m bs) = if m =? n then bytes_fields m bs else [].
Proof. destruct bs as [|b bs]; cbn; by destruct (m =? n). Qed.

Lemma select_varint n m v : select n (varint_fields m v) = if m =? n then varint_fields m v else [].
Proof. cbn. by destruct (m =? n). Qed.

Lemma select_nonzero n m v : select n (nonzero_fields m v) = if m =? n then nonzero_fields m v else [].
Proof. unfold nonzero_fields. destruct (v =? 0); [by destruct (m =? n)|apply select_varint]. Qed.

Lemma select_opt_bytes n m o : select n (opt_fields (bytes_fields m) o) = if m =? n then opt_fields (bytes_fields m) o else [].
Proof. destruct o; [apply select_bytes|by destruct (m =? n)]. Qed.

Lemma select_opt_varint n m o : select n (opt_fields (varint_fields m) o) = if m =? n then opt_fields (varint_fields m) o else [].
Proof. destruct o; [apply select_varint|by destruct (m =? n)]. Qed.

Lemma select_opt_bool n m o : select n (opt_fields (fun v => varint_fields m (Z.b2z v)) o)
  = if m =? n then opt_fields (fun v => varint_fields m (Z.b2z v)) o else [].
Proof. destruct o; [apply select_varint|by destruct (m =? n)]. Qed.

Lemma select_opt_message {A} n m (g : A -> bytes) o : select n (opt_fields (fun v => bytes_fields m (g v)) o)
  = if m =? n then opt_fields (fun v => bytes_fields m (g v)) o else [].
Proof. destruct o; [apply select_bytes|by destruct (m =? n)]. Qed.

Lemma select_repeated {A} n m (g : A -> bytes) l : select n (flat_map (fun v => bytes_fields m (g v)) l)
  = if m =? n then flat_map (fun v => bytes_fields m (g v)) l else [].
Proof.
  induction l as [|a l IH]; [by destruct (m =? n)|]. cbn [flat_map]. rewrite select_app, IH, select_bytes. by destruct (m =? n).
Qed.

(** Each kind of field determines its value, up to empty payloads. *)
Lemma bytes_fields_inj n a b : bytes_fields n a = bytes_fields n b -> a = b.
Proof. destruct a, b; [done|discriminate 1|discriminate 1|by intros [= -> ->]]. Qed.

Lemma nonzero_fields_inj n v w : nonzero_fields n v = nonzero_fields n w -> v = w.
Proof. unfold nonzero_fields. destruct (Z.eqb_spec v 0), (Z.eqb_spec w 0); intros [=]; congruence. Qed.

Lemma opt_bytes_inj n o o' : opt_fields (bytes_fields n) o = opt_fields (bytes_fields n) o' -> nonempty_bytes o = nonempty_bytes o'.
Proof. destruct o as [[]|], o' as [[]|]; cbn; try done; by intros [= -> ->]. Qed.

Lemma opt_varint_inj n o o' : opt_fields (varint_fields n) o = opt_fields (varint_fields n) o' -> o = o'.
Proof. destruct o, o'; cbn; try done; by intros [= ->]. Qed.

Lemma repeated_inj n l l' : Forall (fun v => v <> []) l -> Forall (fun v => v <> []) l' ->
  flat_map (bytes_fields n) l = flat_map (bytes_fields n) l' -> l = l'.
Proof.
  intros Hl. revert l'. induction Hl as [|[|b a] l Ha _ IH]; intros l' Hl'; [|done|]; destruct Hl' as [|[|b' a'] l' Ha' Hl']; try done.
  cbn. intros [= -> -> H]. by rewrite (IH l').
Qed.

Lemma repeated_map {A} n (g : A -> bytes) l : flat_map (fun v => bytes_fields n (g v)) l = flat_map (bytes_fields n) (map g l).
Proof. induction l as [|a l IH]; [done|]. cbn [flat_map map]. by rewrite IH. Qed.

(** The bytes of a message determine its fields. *)
Lemma wire_inj fs gs : Forall field_ok fs -> Forall field_ok gs -> Z.of_nat (length (flat_map wire fs)) <= U64_MAX ->
  flat_map wire fs = flat_map wire gs -> fs = gs.
Proof.
  intros Hf Hg Hl Heq. set (visitor := fun (s : list Field) (f : Field) => Ok (s ++ [f]) : MessageResult (list Field)).
  assert (forall hs s, try_fold visitor s hs = Ok (s ++ hs)) as Hfold.
  { induction hs as [|h hs IH]; intros s; cbn; [by rewrite app_nil_r|]. by rewrite IH, <- app_assoc. }
  pose proof (visit_all visitor fs [] Hf Hl) as H1. pose proof (visit_all visitor gs [] Hg) as H2.
  rewrite <- Heq, H1, !Hfold in H2. specialize (H2 Hl). by injection H2.
Qed.

End Fields.

#[export] Hint Resolve Fields.bytes_fields_ok Fields.varint_fields_ok Fields.nonzero_fields_ok : rust.
#[export] Hint Rewrite Fields.opt_bytes_wire Fields.opt_string_wire Fields.opt_u64_wire Fields.opt_bool_wire
  @Fields.opt_message_wire @Fields.repeated_message_wire Fields.repeated_bytes_wire Fields.repeated_string_wire
  Fields.message_fields_wire Fields.bytes_fields_wire Fields.varint_fields_wire Fields.nonzero_fields_wire : proto_wire.

#[export] Hint Rewrite Fields.select_app Fields.select_bytes Fields.select_varint Fields.select_nonzero Fields.select_opt_bytes Fields.select_opt_varint
  Fields.select_opt_bool @Fields.select_opt_message @Fields.select_repeated : proto_select.

(** Compare the fields of number [n] of two messages with equal field lists. *)
Ltac select_field n H :=
  let E := fresh "Efield" in
  pose proof (f_equal (Fields.select n) H) as E; autorewrite with proto_select in E; cbn [Z.eqb Pos.eqb] in E;
  rewrite ?app_nil_l, ?app_nil_r in E.

(** ** Properties *)

Section properties.
Import Encode Decode FieldFacts VarintFacts.

(** A varint decodes to the value that was encoded, wherever it stands in the
    data, and the position moves to its end: every [u64] is covered, the
    encoder's loop and the decoder's overflow test (at shift 63) included. *)
Theorem varint_roundtrip (pre post : bytes) (v : Z) : is_u64 v ->
  read_varint (pre ++ encode_varint v ++ post) (length pre)
  = Ok (v, (length pre + length (encode_varint v))%nat).
Proof. apply read_encode. Qed.

Lemma varint_roundtrip_witness :
  read_varint ([1; 2] ++ encode_varint (2 ^ 64 - 1) ++ [7]) 2 = Ok (2 ^ 64 - 1, 12%nat).
Proof. apply (varint_roundtrip [1; 2] [7] (2 ^ 64 - 1)). by vm_compute. Defined.

(** What [read_varint] accepts: it consumes between one and ten bytes inside
    the data and returns the exact base-128 value of their groups, which is a
    [u64]; an encoding that does not fit 64 bits is never wrapped around. *)
Theorem read_varint_sound (data : bytes) (position : nat) (v : Z) (position' : nat) :
  all_bytes data -> read_varint data position = Ok (v, position') ->
  (position < position' <= length data)%nat /\ (position' - position <= 10)%nat /\ is_u64 v /\
  v = groups_value (take (position' - position) (drop position data)).
Proof.
  intros Hb Hr. unfold read_varint in Hr. change 0 with (7 * Z.of_nat 0) in Hr at 2.
  apply (varint_loop_sound 10 0) in Hr as (H1 & H2 & H3 & H4); [|done|done|by vm_compute|lia].
  split; [done|]. split; [done|]. split; [done|]. rewrite H4. by rewrite Z.mul_1_l.
Qed.

Lemma read_varint_sound_witness : groups_value [0x96; 0x01] = 150.
Proof.
  assert (read_varint [0x96; 0x01; 0x55] 0 = Ok (150, 2%nat)) as Hr by (by vm_compute).
  assert (all_bytes [0x96; 0x01; 0x55]) as Hb by (by repeat constructor).
  destruct (read_varint_sound [0x96; 0x01; 0x55] 0 150 2 Hb Hr) as (_ & _ & _ & Hv). symmetry. exact Hv.
Defined.

(** [visit_fields] over the concatenation of any well-formed fields calls the
    visitor once per field, in order, with exactly that field, and stops at
    the first error: it is [try_fold] on the list of fields. *)
Theorem visit_fields_stream {S} (visitor : S -> Field -> MessageResult S) (fs : list Field) (s : S) :
  Forall field_ok fs -> Z.of_nat (length (flat_map wire fs)) <= U64_MAX ->
  visit_fields (flat_map wire fs) visitor s = try_fold visitor s fs.
Proof. apply visit_all. Qed.

Lemma visit_fields_stream_witness :
  visit_fields (flat_map wire [Mk 1 (Varint 300); Mk 2 (Bytes [104; 105]); Mk 3 Fixed32; Mk 4 (Fixed64 9)])
    (fun s f => Ok (s ++ [f])) [] = Ok [Mk 1 (Varint 300); Mk 2 (Bytes [104; 105]); Mk 3 Fixed32; Mk 4 (Fixed64 9)].
Proof.
  apply (visit_fields_stream (fun s f => Ok (s ++ [f]))
    [Mk 1 (Varint 300); Mk 2 (Bytes [104; 105]); Mk 3 Fixed32; Mk 4 (Fixed64 9)] []).
  - repeat (apply Forall_cons; split; [by vm_compute|]). constructor.
  - by vm_compute.
Defined.

(** Termination of the two loops on arbitrary input: [read_varint] never runs
    out of its ten turns, and [visit_fields] gives the same result with any
    larger number of turns than the length of the data, because every field
    read consumes at least one byte. *)
Theorem visit_fields_terminates {S} (visitor : S -> Field -> MessageResult S) (data : bytes) (s : S) (extra position : nat) :
  all_bytes data ->
  visit_fields_fuel (length data + extra) data visitor 0 s = visit_fields data visitor s /\
  read_varint data position <> Err (Message "out of fuel").
Proof.
  intros Hb. split.
  - apply (visit_more_fuel visitor data Hb); lia.
  - unfold read_varint. change 0 with (7 * Z.of_nat 0) at 2. apply varint_no_fuel_error; lia.
Qed.

Lemma visit_fields_terminates_witness :
  visit_fields_fuel (3 + 5) [8; 1; 7] (fun s f => Ok (s ++ [f])) 0 [] = Err (Message "unsupported protobuf wire type 7").
Proof.
  assert (all_bytes [8; 1; 7]) as Hb by (by repeat constructor).
  refine (eq_trans (proj1 (visit_fields_terminates (fun s f => Ok (s ++ [f])) [8; 1; 7] [] 5 0 Hb)) _). by vm_compute.
Defined.

(** The repeated codecs drop their empty elements: [repeated_string] and
    [repeated_bytes] write the same bytes for a list and for its non-empty
    elements only, and so does [repeated_message] for the messages whose
    encoding is empty; a decoder cannot recover the length of the list. *)
Theorem repeated_drops_empty `{MessageEncode T} (n : Z) (values : list bytes) (messages : list T) :
  repeated_string.encode n values = repeated_string.encode n (filter (fun v => v <> []) values) /\
  repeated_bytes.encode n values = repeated_bytes.encode n (filter (fun v => v <> []) values) /\
  repeated_message.encode n messages
    = repeated_message.encode n (filter (fun m => encode_message m <> []) messages).
Proof.
  assert (forall A (f : A -> bytes) (P : A -> Prop) `{forall a, Decision (P a)} l, (forall a, ~ P a -> f a = []) ->
    flat_map f l = flat_map f (filter P l)) as Hgen.
  { intros A f P ? l Hf. induction l as [|a l IH]; [done|]. rewrite filter_cons. destruct (decide (P a)) as [Hp|Hp];
      cbn [flat_map]; [by rewrite IH|by rewrite Hf]. }
  split; [|split]; apply Hgen.
  - intros [|b v] Hv; [done|]. destruct Hv. done.
  - intros [|b v] Hv; [done|]. destruct Hv. done.
  - intros m Hm. destruct (encode_message m) eqn:E; [done|]. destruct Hm. done.
Qed.

(** The gRPC frame on every branch: the frame of a payload below 4 GiB is
    decoded to that payload whatever follows it; a compressed frame and a
    frame cut short, at any byte, are rejected with their own errors. *)
Theorem grpc_frame_branches (payload rest : bytes) (flag : Z) (n : nat) :
  all_bytes payload -> Z.of_nat (length payload) < 2 ^ 32 ->
  Grpc.decode_grpc_frame (Grpc.encode_grpc_frame payload ++ rest) = Ok payload /\
  (flag <> 0 -> Grpc.decode_grpc_frame (flag :: drop 1 (Grpc.encode_grpc_frame payload) ++ rest)
     = Err (Message "compressed gRPC responses are not supported")) /\
  ((n < 5 + length payload)%nat -> Grpc.decode_grpc_frame (take n (Grpc.encode_grpc_frame payload))
     = Err (Message (if (n <? 5)%nat then "gRPC response is missing message frame"
                     else "truncated gRPC response frame"))).
Proof.
  intros Hb Hlen. unfold Grpc.encode_grpc_frame. set (len := as_u32 (Z.of_nat (length payload))).
  assert (of_be (be_bytes 4 len) = Z.of_nat (length payload)) as Hlenv.
  { unfold len, as_u32. rewrite wrap_small by (unfold in_width; lia).
    exact (proj2 (of_le_be_small 4 (Z.of_nat (length payload)) (conj (Nat2Z.is_nonneg _) Hlen))). }
  assert (length (be_bytes 4 len) = 4%nat) as Hbl by apply be_bytes_length.
  destruct (be_bytes 4 len) as [|x0 [|x1 [|x2 [|x3 [|]]]]] eqn:Hbe; try discriminate Hbl.
  split; [|split].
  - cbn [app]. unfold Grpc.decode_grpc_frame. cbn [length drop take].
    rewrite take_0, Hlenv. change ((0 :: x0 :: x1 :: x2 :: x3 :: payload ++ rest) !!! 0%nat) with 0. cbn [Z.eqb negb].
    assert ((S (S (S (S (S (length (payload ++ rest)))))) <? 5)%nat = false) as -> by done.
    unfold checked_add. test_true (5 + Z.of_nat (length payload) <=? U64_MAX). cbn [ok_or]. rewrite length_app.
    test_false (Z.of_nat (S (S (S (S (S (length payload + length rest)))))) <? 5 + Z.of_nat (length payload)).
    replace (Z.to_nat (5 + Z.of_nat (length payload)) - 5)%nat with (length payload) by lia.
    by rewrite drop_0, take_app_length.
  - intros Hf. cbn [app drop]. unfold Grpc.decode_grpc_frame. cbn [length].
    assert ((S (S (S (S (S (length (payload ++ rest)))))) <? 5)%nat = false) as -> by done.
    change ((flag :: ?x) !!! 0%nat) with flag. apply Z.eqb_neq in Hf. by rewrite Hf.
  - intros Hn. unfold Grpc.decode_grpc_frame. cbn [app].
    rewrite length_take. cbn [length]. replace (n `min` S (S (S (S (S (length payload))))))%nat with n by lia.
    destruct (n <? 5)%nat eqn:E; [done|]. zbool.
    do 5 (destruct n as [|n]; [lia|]). cbn [take drop]. change ((0 :: ?x) !!! 0%nat) with 0. cbn [Z.eqb negb].
    rewrite take_0, Hlenv. unfold checked_add. test_true (5 + Z.of_nat (length payload) <=? U64_MAX). cbn [ok_or].
    by test_true (Z.of_nat (S (S (S (S (S n))))) <? 5 + Z.of_nat (length payload)).
Qed.

Lemma grpc_frame_branches_witness :
  Grpc.decode_grpc_frame (Grpc.encode_grpc_frame [1; 2; 3] ++ [9]) = Ok [1; 2; 3].
Proof.
  apply (grpc_frame_branches [1; 2; 3] [9] 1 0); [by repeat constructor|by vm_compute].
Defined.

End properties.
