(* ===== verification/SuiProto.v ===== *)
(** The protobuf messages of the Sui gRPC client, [gem_sui/src/rpc/proto]: one
    record per struct, with the [proto_encode!] and [proto_decode!] schemas of
    the source.  A [String] or [Vec<u8>] is its bytes. *)
From S2P Require Import Prelude Utf8 Protobuf.
Import Encode Decode.

(** [serde_json::Value] and its map, and [BigInt::from_str]: other crates. *)
Class Json : Type := {
  json : Type;
  json_map : Type;
  json_null : json;
  json_bool : bool -> json;
  json_string : bytes -> json;
  json_array : list json -> json;
  json_object : json_map -> json;
  json_map_new : json_map;
  json_map_insert : json_map -> bytes -> json -> json_map;
  (** [Number::from_f64(f64::from_bits(bits))] as a value *)
  json_number_from_bits : Z -> option json;
}.
Class BigIntFromStr : Type := bigint_from_str : bytes -> option Z.

Module Sui.

Section messages.
Context `{JSON : Json} `{BIG : BigIntFromStr}.

(** *** [json.rs]: google.protobuf.Value; [fuel] bounds the nesting *)

#[local] Instance json_default : Default json := json_null.
#[local] Instance json_list_default : Default (list json) := [].
#[local] Instance json_map_default : Default json_map := json_map_new.
#[local] Instance json_entry_default : Default (bytes * json) := ([], json_null).

Definition JsonList_decode (value_decode : bytes -> MessageResult json) : bytes -> MessageResult (list json) :=
  proto_decode [
  (1, fun v f => let? bs := field_bytes f in let? x := value_decode bs in Ok (v ++ [x]))].

Definition JsonStructField_decode (value_decode : bytes -> MessageResult json) : bytes -> MessageResult (bytes * json) :=
  proto_decode [
  (1, fun v f => let? x := field_string f in Ok (x, v.2));
  (2, fun v f => let? bs := field_bytes f in let? x := value_decode bs in Ok (v.1, x))].

Definition JsonStruct_decode (value_decode : bytes -> MessageResult json) : bytes -> MessageResult json_map :=
  proto_decode [
  (1, fun v f => let? bs := field_bytes f in let? entry := JsonStructField_decode value_decode bs in
                 Ok (json_map_insert v entry.1 entry.2))].

Fixpoint JsonValue_decode (fuel : nat) (data : bytes) : MessageResult json :=
  match fuel with
  | O => Err (Message "out of fuel")
  | S fuel =>
      proto_decode [
      (1, fun v f => Ok json_null);
      (2, fun v f => let? x := fixed64 f in
                     Ok (match json_number_from_bits x with Some n => n | None => json_null end));
      (3, fun v f => let? x := field_string f in Ok (json_string x));
      (4, fun v f => let? x := varint f in Ok (json_bool (negb (x =? 0))));
      (5, fun v f => let? bs := field_bytes f in let? x := JsonStruct_decode (JsonValue_decode fuel) bs in
                     Ok (json_object x));
      (6, fun v f => let? bs := field_bytes f in let? x := JsonList_decode (JsonValue_decode fuel) bs in
                     Ok (json_array x))] data
  end.

(** A nested value is at least one byte shorter than the value around it. *)
Definition decode_json_value (data : bytes) : MessageResult json := JsonValue_decode (S (length data)) data.

(** *** [bcs.rs] *)

Record Bcs : Type := mk_Bcs {
  Bcs_name : option bytes;
  Bcs_value : option bytes;
}.
#[export] Instance Bcs_default : Default Bcs := mk_Bcs None None.
#[export] Instance Bcs_encode : MessageEncode Bcs := proto_encode [
  fun v => optional_string.encode 1 (Bcs_name v);
  fun v => optional_bytes.encode 2 (Bcs_value v)].
#[export] Instance Bcs_decode : MessageDecode Bcs := proto_decode [
  (1, fun v f => let? x := optional_string.decode (Bcs_name v) f in
       Ok (mk_Bcs x (Bcs_value v)));
  (2, fun v f => let? x := optional_bytes.decode (Bcs_value v) f in
       Ok (mk_Bcs (Bcs_name v) x))].

Definition Bcs_new (name value : bytes) : Bcs := mk_Bcs (Some name) (Some value).

(** *** [field.rs] *)

Record FieldMask : Type := mk_FieldMask {
  FieldMask_paths : list bytes;
}.
#[export] Instance FieldMask_default : Default FieldMask := mk_FieldMask [].
#[export] Instance FieldMask_encode : MessageEncode FieldMask := proto_encode [
  fun v => repeated_string.encode 1 (FieldMask_paths v)].

Definition FieldMask_from_paths (paths : list bytes) : FieldMask := mk_FieldMask paths.

(** *** [timestamp.rs] *)

Record Timestamp : Type := mk_Timestamp {
  Timestamp_seconds : Z;
  Timestamp_nanos : Z;
}.
#[export] Instance Timestamp_default : Default Timestamp := mk_Timestamp 0 0.
#[export] Instance Timestamp_decode : MessageDecode Timestamp := proto_decode [
  (1, fun v f => let? x := varint_i64.decode (Timestamp_seconds v) f in
       Ok (mk_Timestamp x (Timestamp_nanos v)));
  (2, fun v f => let? x := varint_i32.decode (Timestamp_nanos v) f in
       Ok (mk_Timestamp (Timestamp_seconds v) x))].

(** [i64::saturating_mul]; the sum is a plain [i64] addition. *)
Definition i64_saturating_mul (a b : Z) : Z := Z.max (- 2 ^ 63) (Z.min (a * b) (2 ^ 63 - 1)).
Definition Timestamp_millis (t : Timestamp) : Z :=
  as_signed 64 (i64_saturating_mul (Timestamp_seconds t) 1000 + Z.quot (Timestamp_nanos t) 1000000).

(** *** [status.rs] *)

Record Status : Type := mk_Status {
  Status_code : Z;
  Status_message : bytes;
}.
#[export] Instance Status_default : Default Status := mk_Status 0 [].
#[export] Instance Status_decode : MessageDecode Status := proto_decode [
  (1, fun v f => let? x := varint_i32.decode (Status_code v) f in
       Ok (mk_Status x (Status_message v)));
  (2, fun v f => let? x := proto_string.decode (Status_message v) f in
       Ok (mk_Status (Status_code v) x))].

(** *** [objects.rs] *)

Record Owner : Type := mk_Owner {
  Owner_kind : option Z;
  Owner_address : option bytes;
  Owner_version : option Z;
}.
#[export] Instance Owner_default : Default Owner := mk_Owner None None None.
#[export] Instance Owner_decode : MessageDecode Owner := proto_decode [
  (1, fun v f => let? x := optional_varint_i32.decode (Owner_kind v) f in
       Ok (mk_Owner x (Owner_address v) (Owner_version v)));
  (2, fun v f => let? x := optional_string.decode (Owner_address v) f in
       Ok (mk_Owner (Owner_kind v) x (Owner_version v)));
  (3, fun v f => let? x := optional_varint_u64.decode (Owner_version v) f in
       Ok (mk_Owner (Owner_kind v) (Owner_address v) x))].

Inductive OwnerKind : Type :=
| OwnerUnknown | OwnerAddress | OwnerObject | OwnerShared | OwnerImmutable | OwnerConsensusAddress.

Definition OwnerKind_from_i32 (value : Z) : OwnerKind :=
  if value =? 1 then OwnerAddress else if value =? 2 then OwnerObject else if value =? 3 then OwnerShared
  else if value =? 4 then OwnerImmutable else if value =? 5 then OwnerConsensusAddress else OwnerUnknown.

Definition Owner_kind_of (o : Owner) : OwnerKind :=
  OwnerKind_from_i32 (match Owner_kind o with Some k => k | None => 0 end).

Record Object : Type := mk_Object {
  Object_object_id : option bytes;
  Object_version : option Z;
  Object_digest : option bytes;
  Object_owner : option Owner;
  Object_object_type : option bytes;
  Object_contents : option Bcs;
  Object_json : option json;
  Object_balance : option Z;
}.
#[export] Instance Object_default : Default Object := mk_Object None None None None None None None None.
#[export] Instance Object_decode : MessageDecode Object := proto_decode [
  (2, fun v f => let? x := field_string f in
       Ok (mk_Object (Some x) (Object_version v) (Object_digest v) (Object_owner v) (Object_object_type v) (Object_contents v) (Object_json v) (Object_balance v)));
  (3, fun v f => let? x := varint f in
       Ok (mk_Object (Object_object_id v) (Some x) (Object_digest v) (Object_owner v) (Object_object_type v) (Object_contents v) (Object_json v) (Object_balance v)));
  (4, fun v f => let? x := field_string f in
       Ok (mk_Object (Object_object_id v) (Object_version v) (Some x) (Object_owner v) (Object_object_type v) (Object_contents v) (Object_json v) (Object_balance v)));
  (5, fun v f => let? x := field_message f in
       Ok (mk_Object (Object_object_id v) (Object_version v) (Object_digest v) (Some x) (Object_object_type v) (Object_contents v) (Object_json v) (Object_balance v)));
  (6, fun v f => let? x := field_string f in
       Ok (mk_Object (Object_object_id v) (Object_version v) (Object_digest v) (Object_owner v) (Some x) (Object_contents v) (Object_json v) (Object_balance v)));
  (8, fun v f => let? x := field_message f in
       Ok (mk_Object (Object_object_id v) (Object_version v) (Object_digest v) (Object_owner v) (Object_object_type v) (Some x) (Object_json v) (Object_balance v)));
  (100, fun v f => let? x := (let? bs := field_bytes f in decode_json_value bs) in
       Ok (mk_Object (Object_object_id v) (Object_version v) (Object_digest v) (Object_owner v) (Object_object_type v) (Object_contents v) (Some x) (Object_balance v)));
  (101, fun v f => let? x := varint f in
       Ok (mk_Object (Object_object_id v) (Object_version v) (Object_digest v) (Object_owner v) (Object_object_type v) (Object_contents v) (Object_json v) (Some x)))].

Record ListOwnedObjectsRequest : Type := mk_ListOwnedObjectsRequest {
  ListOwnedObjectsRequest_owner : option bytes;
  ListOwnedObjectsRequest_page_size : option Z;
  ListOwnedObjectsRequest_page_token : option bytes;
  ListOwnedObjectsRequest_read_mask : option FieldMask;
  ListOwnedObjectsRequest_object_type : option bytes;
}.
#[export] Instance ListOwnedObjectsRequest_default : Default ListOwnedObjectsRequest := mk_ListOwnedObjectsRequest None None None None None.
#[export] Instance ListOwnedObjectsRequest_encode : MessageEncode ListOwnedObjectsRequest := proto_encode [
  fun v => optional_string.encode 1 (ListOwnedObjectsRequest_owner v);
  fun v => optional_varint_u32.encode 2 (ListOwnedObjectsRequest_page_size v);
  fun v => optional_bytes.encode 3 (ListOwnedObjectsRequest_page_token v);
  fun v => optional_message.encode 4 (ListOwnedObjectsRequest_read_mask v);
  fun v => optional_string.encode 5 (ListOwnedObjectsRequest_object_type v)].

Record ListOwnedObjectsResponse : Type := mk_ListOwnedObjectsResponse {
  ListOwnedObjectsResponse_objects : list Object;
  ListOwnedObjectsResponse_next_page_token : option bytes;
}.
#[export] Instance ListOwnedObjectsResponse_default : Default ListOwnedObjectsResponse := mk_ListOwnedObjectsResponse [] None.
#[export] Instance ListOwnedObjectsResponse_decode : MessageDecode ListOwnedObjectsResponse := proto_decode [
  (1, fun v f => let? x := repeated_message.decode (ListOwnedObjectsResponse_objects v) f in
       Ok (mk_ListOwnedObjectsResponse x (ListOwnedObjectsResponse_next_page_token v)));
  (2, fun v f => let? x := optional_bytes.decode (ListOwnedObjectsResponse_next_page_token v) f in
       Ok (mk_ListOwnedObjectsResponse (ListOwnedObjectsResponse_objects v) x))].

Record GetObjectRequest : Type := mk_GetObjectRequest {
  GetObjectRequest_object_id : option bytes;
  GetObjectRequest_read_mask : option FieldMask;
}.
#[export] Instance GetObjectRequest_default : Default GetObjectRequest := mk_GetObjectRequest None None.
#[export] Instance GetObjectRequest_encode : MessageEncode GetObjectRequest := proto_encode [
  fun v => optional_string.encode 1 (GetObjectRequest_object_id v);
  fun v => optional_message.encode 3 (GetObjectRequest_read_mask v)].

Record GetObjectResponse : Type := mk_GetObjectResponse {
  GetObjectResponse_object : option Object;
}.
#[export] Instance GetObjectResponse_default : Default GetObjectResponse := mk_GetObjectResponse None.
#[export] Instance GetObjectResponse_decode : MessageDecode GetObjectResponse := proto_decode [
  (1, fun v f => let? x := optional_message.decode (GetObjectResponse_object v) f in
       Ok (mk_GetObjectResponse x))].

Record BatchGetObjectsRequest : Type := mk_BatchGetObjectsRequest {
  BatchGetObjectsRequest_requests : list GetObjectRequest;
  BatchGetObjectsRequest_read_mask : option FieldMask;
}.
#[export] Instance BatchGetObjectsRequest_default : Default BatchGetObjectsRequest := mk_BatchGetObjectsRequest [] None.
#[export] Instance BatchGetObjectsRequest_encode : MessageEncode BatchGetObjectsRequest := proto_encode [
  fun v => repeated_message.encode 1 (BatchGetObjectsRequest_requests v);
  fun v => optional_message.encode 2 (BatchGetObjectsRequest_read_mask v)].

Inductive GetObjectResult : Type :=
| ObjectResult (o : Object) | ObjectError (s : Status) | ObjectUnknown.
#[export] Instance GetObjectResult_default : Default GetObjectResult := ObjectUnknown.
#[export] Instance GetObjectResult_decode : MessageDecode GetObjectResult := proto_decode [
  (1, fun v f => let? x := field_message f in Ok (ObjectResult x));
  (2, fun v f => let? x := field_message f in Ok (ObjectError x))].

Record BatchGetObjectsResponse : Type := mk_BatchGetObjectsResponse {
  BatchGetObjectsResponse_objects : list GetObjectResult;
}.
#[export] Instance BatchGetObjectsResponse_default : Default BatchGetObjectsResponse := mk_BatchGetObjectsResponse [].
#[export] Instance BatchGetObjectsResponse_decode : MessageDecode BatchGetObjectsResponse := proto_decode [
  (1, fun v f => let? x := repeated_message.decode (BatchGetObjectsResponse_objects v) f in
       Ok (mk_BatchGetObjectsResponse x))].

(** *** [transaction_data/argument.rs] *)

Record Argument : Type := mk_Argument {
  Argument_kind : option Z;
  Argument_input : option Z;
  Argument_result : option Z;
  Argument_subresult : option Z;
}.
#[export] Instance Argument_default : Default Argument := mk_Argument None None None None.
#[export] Instance Argument_encode : MessageEncode Argument := proto_encode [
  fun v => optional_varint_i32.encode 1 (Argument_kind v);
  fun v => optional_varint_u32.encode 2 (Argument_input v);
  fun v => optional_varint_u32.encode 3 (Argument_result v);
  fun v => optional_varint_u32.encode 4 (Argument_subresult v)].

Definition ARGUMENT_KIND_INPUT : Z := 2.
Definition Argument_new_input (input : Z) : Argument := mk_Argument (Some ARGUMENT_KIND_INPUT) (Some input) None None.

(** *** [transaction_data/command.rs] *)

Record MoveCall : Type := mk_MoveCall {
  MoveCall_package : option bytes;
  MoveCall_module : option bytes;
  MoveCall_function : option bytes;
  MoveCall_type_arguments : list bytes;
  MoveCall_arguments : list Argument;
}.
#[export] Instance MoveCall_default : Default MoveCall := mk_MoveCall None None None [] [].
#[export] Instance MoveCall_encode : MessageEncode MoveCall := proto_encode [
  fun v => optional_string.encode 1 (MoveCall_package v);
  fun v => optional_string.encode 2 (MoveCall_module v);
  fun v => optional_string.encode 3 (MoveCall_function v);
  fun v => repeated_string.encode 4 (MoveCall_type_arguments v);
  fun v => repeated_message.encode 5 (MoveCall_arguments v)].
#[export] Instance MoveCall_decode : MessageDecode MoveCall := proto_decode [
  (1, fun v f => let? x := optional_string.decode (MoveCall_package v) f in
       Ok (mk_MoveCall x (MoveCall_module v) (MoveCall_function v) (MoveCall_type_arguments v) (MoveCall_arguments v)))].

Record TransferObjects : Type := mk_TransferObjects {
  TransferObjects_objects : list Argument;
  TransferObjects_address : option Argument;
}.
#[export] Instance TransferObjects_default : Default TransferObjects := mk_TransferObjects [] None.
#[export] Instance TransferObjects_encode : MessageEncode TransferObjects := proto_encode [
  fun v => repeated_message.encode 1 (TransferObjects_objects v);
  fun v => optional_message.encode 2 (TransferObjects_address v)].

Record SplitCoins : Type := mk_SplitCoins {
  SplitCoins_coin : option Argument;
  SplitCoins_amounts : list Argument;
}.
#[export] Instance SplitCoins_default : Default SplitCoins := mk_SplitCoins None [].
#[export] Instance SplitCoins_encode : MessageEncode SplitCoins := proto_encode [
  fun v => optional_message.encode 1 (SplitCoins_coin v);
  fun v => repeated_message.encode 2 (SplitCoins_amounts v)].

Record MergeCoins : Type := mk_MergeCoins {
  MergeCoins_coin : option Argument;
  MergeCoins_coins_to_merge : list Argument;
}.
#[export] Instance MergeCoins_default : Default MergeCoins := mk_MergeCoins None [].
#[export] Instance MergeCoins_encode : MessageEncode MergeCoins := proto_encode [
  fun v => optional_message.encode 1 (MergeCoins_coin v);
  fun v => repeated_message.encode 2 (MergeCoins_coins_to_merge v)].

Record Publish : Type := mk_Publish {
  Publish_modules : list bytes;
  Publish_dependencies : list bytes;
}.
#[export] Instance Publish_default : Default Publish := mk_Publish [] [].
#[export] Instance Publish_encode : MessageEncode Publish := proto_encode [
  fun v => repeated_bytes.encode 1 (Publish_modules v);
  fun v => repeated_string.encode 2 (Publish_dependencies v)].

Record MakeMoveVector : Type := mk_MakeMoveVector {
  MakeMoveVector_element_type : option bytes;
  MakeMoveVector_elements : list Argument;
}.
#[export] Instance MakeMoveVector_default : Default MakeMoveVector := mk_MakeMoveVector None [].
#[export] Instance MakeMoveVector_encode : MessageEncode MakeMoveVector := proto_encode [
  fun v => optional_string.encode 1 (MakeMoveVector_element_type v);
  fun v => repeated_message.encode 2 (MakeMoveVector_elements v)].

Record Upgrade : Type := mk_Upgrade {
  Upgrade_modules : list bytes;
  Upgrade_dependencies : list bytes;
  Upgrade_package : option bytes;
  Upgrade_ticket : option Argument;
}.
#[export] Instance Upgrade_default : Default Upgrade := mk_Upgrade [] [] None None.
#[export] Instance Upgrade_encode : MessageEncode Upgrade := proto_encode [
  fun v => repeated_bytes.encode 1 (Upgrade_modules v);
  fun v => repeated_string.encode 2 (Upgrade_dependencies v);
  fun v => optional_string.encode 3 (Upgrade_package v);
  fun v => optional_message.encode 4 (Upgrade_ticket v)].

Definition MoveCall_from_parts (package module function : bytes) (arguments : list Argument) : MoveCall :=
  mk_MoveCall (Some package) (Some module) (Some function) [] arguments.

Inductive Command : Type :=
| CommandMoveCall (value : MoveCall)
| CommandTransferObjects (value : TransferObjects)
| CommandSplitCoins (value : SplitCoins)
| CommandMergeCoins (value : MergeCoins)
| CommandPublish (value : Publish)
| CommandMakeMoveVector (value : MakeMoveVector)
| CommandUpgrade (value : Upgrade)
| CommandUnknown.
#[export] Instance Command_default : Default Command := CommandUnknown.
#[export] Instance Command_encode : MessageEncode Command := proto_encode [
  fun v => match v with
           | CommandMoveCall value => encode_message_field 1 (encode_message value)
           | CommandTransferObjects value => encode_message_field 2 (encode_message value)
           | CommandSplitCoins value => encode_message_field 3 (encode_message value)
           | CommandMergeCoins value => encode_message_field 4 (encode_message value)
           | CommandPublish value => encode_message_field 5 (encode_message value)
           | CommandMakeMoveVector value => encode_message_field 6 (encode_message value)
           | CommandUpgrade value => encode_message_field 7 (encode_message value)
           | CommandUnknown => []
           end].
#[export] Instance Command_decode : MessageDecode Command := proto_decode [
  (1, fun v f => let? x := field_message f in Ok (CommandMoveCall x))].

(** *** [transaction_data/input.rs] *)

Record FundsWithdrawal : Type := mk_FundsWithdrawal {
  FundsWithdrawal_amount : option Z;
  FundsWithdrawal_coin_type : option bytes;
  FundsWithdrawal_source : option Z;
}.
#[export] Instance FundsWithdrawal_default : Default FundsWithdrawal := mk_FundsWithdrawal None None None.
#[export] Instance FundsWithdrawal_encode : MessageEncode FundsWithdrawal := proto_encode [
  fun v => optional_varint_u64.encode 1 (FundsWithdrawal_amount v);
  fun v => optional_string.encode 2 (FundsWithdrawal_coin_type v);
  fun v => optional_varint_i32.encode 3 (FundsWithdrawal_source v)].

Record Input : Type := mk_Input {
  Input_kind : option Z;
  Input_pure : option bytes;
  Input_object_id : option bytes;
  Input_version : option Z;
  Input_digest : option bytes;
  Input_mutable : option bool;
  Input_mutability : option Z;
  Input_funds_withdrawal : option FundsWithdrawal;
}.
#[export] Instance Input_default : Default Input := mk_Input None None None None None None None None.
#[export] Instance Input_encode : MessageEncode Input := proto_encode [
  fun v => optional_varint_i32.encode 1 (Input_kind v);
  fun v => optional_bytes.encode 2 (Input_pure v);
  fun v => optional_string.encode 3 (Input_object_id v);
  fun v => optional_varint_u64.encode 4 (Input_version v);
  fun v => optional_string.encode 5 (Input_digest v);
  fun v => optional_bool.encode 6 (Input_mutable v);
  fun v => optional_varint_i32.encode 7 (Input_mutability v);
  fun v => optional_message.encode 8 (Input_funds_withdrawal v)].

Definition Input_pure_value (value : bytes) : Input := mk_Input None (Some value) None None None None None None.

(** *** [transaction_data/transaction.rs] *)

Record ProgrammableTransaction : Type := mk_ProgrammableTransaction {
  ProgrammableTransaction_inputs : list Input;
  ProgrammableTransaction_commands : list Command;
}.
#[export] Instance ProgrammableTransaction_default : Default ProgrammableTransaction := mk_ProgrammableTransaction [] [].
#[export] Instance ProgrammableTransaction_encode : MessageEncode ProgrammableTransaction := proto_encode [
  fun v => repeated_message.encode 1 (ProgrammableTransaction_inputs v);
  fun v => repeated_message.encode 2 (ProgrammableTransaction_commands v)].
#[export] Instance ProgrammableTransaction_decode : MessageDecode ProgrammableTransaction := proto_decode [
  (2, fun v f => let? x := repeated_message.decode (ProgrammableTransaction_commands v) f in
       Ok (mk_ProgrammableTransaction (ProgrammableTransaction_inputs v) x))].

Record TransactionKind : Type := mk_TransactionKind {
  TransactionKind_kind : option Z;
  TransactionKind_programmable_transaction : option ProgrammableTransaction;
}.
#[export] Instance TransactionKind_default : Default TransactionKind := mk_TransactionKind None None.
#[export] Instance TransactionKind_encode : MessageEncode TransactionKind := proto_encode [
  fun v => optional_varint_i32.encode 1 (TransactionKind_kind v);
  fun v => optional_message.encode 2 (TransactionKind_programmable_transaction v)].
#[export] Instance TransactionKind_decode : MessageDecode TransactionKind := proto_decode [
  (2, fun v f => let? x := optional_message.decode (TransactionKind_programmable_transaction v) f in
       Ok (mk_TransactionKind (TransactionKind_kind v) x))].

Record Transaction : Type := mk_Transaction {
  Transaction_bcs : option Bcs;
  Transaction_kind : option TransactionKind;
  Transaction_sender : option bytes;
}.
#[export] Instance Transaction_default : Default Transaction := mk_Transaction None None None.
#[export] Instance Transaction_encode : MessageEncode Transaction := proto_encode [
  fun v => optional_message.encode 1 (Transaction_bcs v);
  fun v => optional_message.encode 4 (Transaction_kind v);
  fun v => optional_string.encode 5 (Transaction_sender v)].
#[export] Instance Transaction_decode : MessageDecode Transaction := proto_decode [
  (4, fun v f => let? x := optional_message.decode (Transaction_kind v) f in
       Ok (mk_Transaction (Transaction_bcs v) x (Transaction_sender v)))].

Definition KIND_PROGRAMMABLE_TRANSACTION : Z := 1.
Definition TransactionKind_programmable (transaction : ProgrammableTransaction) : TransactionKind :=
  mk_TransactionKind (Some KIND_PROGRAMMABLE_TRANSACTION) (Some transaction).
Definition Transaction_from_kind (kind : TransactionKind) (sender : bytes) : Transaction :=
  mk_Transaction None (Some kind) (Some sender).
Definition Transaction_from_transaction_bcs (value : bytes) : Transaction :=
  mk_Transaction (Some (Bcs_new (bytes_of_string "TransactionData") value)) None None.

(** *** [transaction_data/signature.rs] *)

Record UserSignature : Type := mk_UserSignature {
  UserSignature_bcs : option Bcs;
  UserSignature_scheme : option Z;
}.
#[export] Instance UserSignature_default : Default UserSignature := mk_UserSignature None None.
#[export] Instance UserSignature_encode : MessageEncode UserSignature := proto_encode [
  fun v => optional_message.encode 1 (UserSignature_bcs v);
  fun v => optional_varint_i32.encode 2 (UserSignature_scheme v)].

(** *** [transactions.rs] *)

Record GetTransactionRequest : Type := mk_GetTransactionRequest {
  GetTransactionRequest_digest : option bytes;
  GetTransactionRequest_read_mask : option FieldMask;
}.
#[export] Instance GetTransactionRequest_default : Default GetTransactionRequest := mk_GetTransactionRequest None None.
#[export] Instance GetTransactionRequest_encode : MessageEncode GetTransactionRequest := proto_encode [
  fun v => optional_string.encode 1 (GetTransactionRequest_digest v);
  fun v => optional_message.encode 2 (GetTransactionRequest_read_mask v)].

Record BatchGetTransactionsRequest : Type := mk_BatchGetTransactionsRequest {
  BatchGetTransactionsRequest_digests : list bytes;
  BatchGetTransactionsRequest_read_mask : option FieldMask;
}.
#[export] Instance BatchGetTransactionsRequest_default : Default BatchGetTransactionsRequest := mk_BatchGetTransactionsRequest [] None.
#[export] Instance BatchGetTransactionsRequest_encode : MessageEncode BatchGetTransactionsRequest := proto_encode [
  fun v => repeated_string.encode 1 (BatchGetTransactionsRequest_digests v);
  fun v => optional_message.encode 2 (BatchGetTransactionsRequest_read_mask v)].

Record ExecuteTransactionRequest : Type := mk_ExecuteTransactionRequest {
  ExecuteTransactionRequest_transaction : option Transaction;
  ExecuteTransactionRequest_signatures : list UserSignature;
  ExecuteTransactionRequest_read_mask : option FieldMask;
}.
#[export] Instance ExecuteTransactionRequest_default : Default ExecuteTransactionRequest := mk_ExecuteTransactionRequest None [] None.
#[export] Instance ExecuteTransactionRequest_encode : MessageEncode ExecuteTransactionRequest := proto_encode [
  fun v => optional_message.encode 1 (ExecuteTransactionRequest_transaction v);
  fun v => repeated_message.encode 2 (ExecuteTransactionRequest_signatures v);
  fun v => optional_message.encode 3 (ExecuteTransactionRequest_read_mask v)].

Inductive TransactionChecks : Type := ChecksEnabled | ChecksDisabled.
Definition TransactionChecks_into (c : TransactionChecks) : Z :=
  match c with ChecksEnabled => 0 | ChecksDisabled => 1 end.

Record SimulateTransactionRequest : Type := mk_SimulateTransactionRequest {
  SimulateTransactionRequest_transaction : option Transaction;
  SimulateTransactionRequest_read_mask : option FieldMask;
  SimulateTransactionRequest_checks : option TransactionChecks;
}.
#[export] Instance SimulateTransactionRequest_default : Default SimulateTransactionRequest := mk_SimulateTransactionRequest None None None.
#[export] Instance SimulateTransactionRequest_encode : MessageEncode SimulateTransactionRequest := proto_encode [
  fun v => optional_message.encode 1 (SimulateTransactionRequest_transaction v);
  fun v => optional_message.encode 2 (SimulateTransactionRequest_read_mask v);
  fun v => optional_enum_varint.encode TransactionChecks_into 3 (SimulateTransactionRequest_checks v)].

Definition SimulateTransactionRequest_new (transaction : Transaction) : SimulateTransactionRequest :=
  mk_SimulateTransactionRequest (Some transaction) None None.

Record CommandOutput : Type := mk_CommandOutput {
  CommandOutput_value : option Bcs;
}.
#[export] Instance CommandOutput_default : Default CommandOutput := mk_CommandOutput None.
#[export] Instance CommandOutput_decode : MessageDecode CommandOutput := proto_decode [
  (2, fun v f => let? x := optional_message.decode (CommandOutput_value v) f in
       Ok (mk_CommandOutput x))].

Record CommandResult : Type := mk_CommandResult {
  CommandResult_return_values : list CommandOutput;
}.
#[export] Instance CommandResult_default : Default CommandResult := mk_CommandResult [].
#[export] Instance CommandResult_decode : MessageDecode CommandResult := proto_decode [
  (1, fun v f => let? x := repeated_message.decode (CommandResult_return_values v) f in
       Ok (mk_CommandResult x))].

Record ExecutionError : Type := mk_ExecutionError {
  ExecutionError_description : option bytes;
}.
#[export] Instance ExecutionError_default : Default ExecutionError := mk_ExecutionError None.
#[export] Instance ExecutionError_decode : MessageDecode ExecutionError := proto_decode [
  (1, fun v f => let? x := optional_string.decode (ExecutionError_description v) f in
       Ok (mk_ExecutionError x))].

Record ExecutionStatus : Type := mk_ExecutionStatus {
  ExecutionStatus_success : option bool;
  ExecutionStatus_error : option ExecutionError;
}.
#[export] Instance ExecutionStatus_default : Default ExecutionStatus := mk_ExecutionStatus None None.
#[export] Instance ExecutionStatus_decode : MessageDecode ExecutionStatus := proto_decode [
  (1, fun v f => let? x := optional_bool.decode (ExecutionStatus_success v) f in
       Ok (mk_ExecutionStatus x (ExecutionStatus_error v)));
  (2, fun v f => let? x := optional_message.decode (ExecutionStatus_error v) f in
       Ok (mk_ExecutionStatus (ExecutionStatus_success v) x))].

Record GasCostSummary : Type := mk_GasCostSummary {
  GasCostSummary_computation_cost : option Z;
  GasCostSummary_storage_cost : option Z;
  GasCostSummary_storage_rebate : option Z;
  GasCostSummary_non_refundable_storage_fee : option Z;
}.
#[export] Instance GasCostSummary_default : Default GasCostSummary := mk_GasCostSummary None None None None.
#[export] Instance GasCostSummary_decode : MessageDecode GasCostSummary := proto_decode [
  (1, fun v f => let? x := optional_varint_u64.decode (GasCostSummary_computation_cost v) f in
       Ok (mk_GasCostSummary x (GasCostSummary_storage_cost v) (GasCostSummary_storage_rebate v) (GasCostSummary_non_refundable_storage_fee v)));
  (2, fun v f => let? x := optional_varint_u64.decode (GasCostSummary_storage_cost v) f in
       Ok (mk_GasCostSummary (GasCostSummary_computation_cost v) x (GasCostSummary_storage_rebate v) (GasCostSummary_non_refundable_storage_fee v)));
  (3, fun v f => let? x := optional_varint_u64.decode (GasCostSummary_storage_rebate v) f in
       Ok (mk_GasCostSummary (GasCostSummary_computation_cost v) (GasCostSummary_storage_cost v) x (GasCostSummary_non_refundable_storage_fee v)));
  (4, fun v f => let? x := optional_varint_u64.decode (GasCostSummary_non_refundable_storage_fee v) f in
       Ok (mk_GasCostSummary (GasCostSummary_computation_cost v) (GasCostSummary_storage_cost v) (GasCostSummary_storage_rebate v) x))].

Record ChangedObject : Type := mk_ChangedObject {
  ChangedObject_input_owner : option Owner;
  ChangedObject_output_owner : option Owner;
}.
#[export] Instance ChangedObject_default : Default ChangedObject := mk_ChangedObject None None.
#[export] Instance ChangedObject_decode : MessageDecode ChangedObject := proto_decode [
  (5, fun v f => let? x := optional_message.decode (ChangedObject_input_owner v) f in
       Ok (mk_ChangedObject x (ChangedObject_output_owner v)));
  (9, fun v f => let? x := optional_message.decode (ChangedObject_output_owner v) f in
       Ok (mk_ChangedObject (ChangedObject_input_owner v) x))].

Record TransactionEffects : Type := mk_TransactionEffects {
  TransactionEffects_status : option ExecutionStatus;
  TransactionEffects_gas_used : option GasCostSummary;
  TransactionEffects_gas_object : option ChangedObject;
}.
#[export] Instance TransactionEffects_default : Default TransactionEffects := mk_TransactionEffects None None None.
#[export] Instance TransactionEffects_decode : MessageDecode TransactionEffects := proto_decode [
  (4, fun v f => let? x := optional_message.decode (TransactionEffects_status v) f in
       Ok (mk_TransactionEffects x (TransactionEffects_gas_used v) (TransactionEffects_gas_object v)));
  (6, fun v f => let? x := optional_message.decode (TransactionEffects_gas_used v) f in
       Ok (mk_TransactionEffects (TransactionEffects_status v) x (TransactionEffects_gas_object v)));
  (8, fun v f => let? x := optional_message.decode (TransactionEffects_gas_object v) f in
       Ok (mk_TransactionEffects (TransactionEffects_status v) (TransactionEffects_gas_used v) x))].

Record BalanceChange : Type := mk_BalanceChange {
  BalanceChange_address : option bytes;
  BalanceChange_coin_type : option bytes;
  BalanceChange_amount : option Z;
}.
#[export] Instance BalanceChange_default : Default BalanceChange := mk_BalanceChange None None None.
#[export] Instance BalanceChange_decode : MessageDecode BalanceChange := proto_decode [
  (1, fun v f => let? x := field_string f in
       Ok (mk_BalanceChange (Some x) (BalanceChange_coin_type v) (BalanceChange_amount v)));
  (2, fun v f => let? x := field_string f in
       Ok (mk_BalanceChange (BalanceChange_address v) (Some x) (BalanceChange_amount v)));
  (3, fun v f => let? x := (let? s := field_string f in ok_or (bigint_from_str s) ParseBigIntError) in
       Ok (mk_BalanceChange (BalanceChange_address v) (BalanceChange_coin_type v) (Some x)))].

Record Event : Type := mk_Event {
  Event_package_id : option bytes;
  Event_event_type : option bytes;
  Event_json : option json;
}.
#[export] Instance Event_default : Default Event := mk_Event None None None.
#[export] Instance Event_decode : MessageDecode Event := proto_decode [
  (1, fun v f => let? x := field_string f in
       Ok (mk_Event (Some x) (Event_event_type v) (Event_json v)));
  (4, fun v f => let? x := field_string f in
       Ok (mk_Event (Event_package_id v) (Some x) (Event_json v)));
  (6, fun v f => let? x := (let? bs := field_bytes f in decode_json_value bs) in
       Ok (mk_Event (Event_package_id v) (Event_event_type v) (Some x)))].

Record TransactionEvents : Type := mk_TransactionEvents {
  TransactionEvents_events : list Event;
}.
#[export] Instance TransactionEvents_default : Default TransactionEvents := mk_TransactionEvents [].
#[export] Instance TransactionEvents_decode : MessageDecode TransactionEvents := proto_decode [
  (3, fun v f => let? x := repeated_message.decode (TransactionEvents_events v) f in
       Ok (mk_TransactionEvents x))].

Record ExecutedTransaction : Type := mk_ExecutedTransaction {
  ExecutedTransaction_digest : option bytes;
  ExecutedTransaction_transaction : option Transaction;
  ExecutedTransaction_effects : option TransactionEffects;
  ExecutedTransaction_events : option TransactionEvents;
  ExecutedTransaction_timestamp : option Timestamp;
  ExecutedTransaction_balance_changes : list BalanceChange;
}.
#[export] Instance ExecutedTransaction_default : Default ExecutedTransaction := mk_ExecutedTransaction None None None None None [].
#[export] Instance ExecutedTransaction_decode : MessageDecode ExecutedTransaction := proto_decode [
  (1, fun v f => let? x := optional_string.decode (ExecutedTransaction_digest v) f in
       Ok (mk_ExecutedTransaction x (ExecutedTransaction_transaction v) (ExecutedTransaction_effects v) (ExecutedTransaction_events v) (ExecutedTransaction_timestamp v) (ExecutedTransaction_balance_changes v)));
  (2, fun v f => let? x := optional_message.decode (ExecutedTransaction_transaction v) f in
       Ok (mk_ExecutedTransaction (ExecutedTransaction_digest v) x (ExecutedTransaction_effects v) (ExecutedTransaction_events v) (ExecutedTransaction_timestamp v) (ExecutedTransaction_balance_changes v)));
  (4, fun v f => let? x := optional_message.decode (ExecutedTransaction_effects v) f in
       Ok (mk_ExecutedTransaction (ExecutedTransaction_digest v) (ExecutedTransaction_transaction v) x (ExecutedTransaction_events v) (ExecutedTransaction_timestamp v) (ExecutedTransaction_balance_changes v)));
  (5, fun v f => let? x := optional_message.decode (ExecutedTransaction_events v) f in
       Ok (mk_ExecutedTransaction (ExecutedTransaction_digest v) (ExecutedTransaction_transaction v) (ExecutedTransaction_effects v) x (ExecutedTransaction_timestamp v) (ExecutedTransaction_balance_changes v)));
  (7, fun v f => let? x := optional_message.decode (ExecutedTransaction_timestamp v) f in
       Ok (mk_ExecutedTransaction (ExecutedTransaction_digest v) (ExecutedTransaction_transaction v) (ExecutedTransaction_effects v) (ExecutedTransaction_events v) x (ExecutedTransaction_balance_changes v)));
  (8, fun v f => let? x := repeated_message.decode (ExecutedTransaction_balance_changes v) f in
       Ok (mk_ExecutedTransaction (ExecutedTransaction_digest v) (ExecutedTransaction_transaction v) (ExecutedTransaction_effects v) (ExecutedTransaction_events v) (ExecutedTransaction_timestamp v) x))].

Definition TransactionEffects_execution_success (e : TransactionEffects) : bool :=
  match TransactionEffects_status e with
  | Some status => match ExecutionStatus_success status with Some b => b | None => false end
  | None => false
  end.
Definition TransactionEffects_execution_error (e : TransactionEffects) : option bytes :=
  let?? status := TransactionEffects_status e in
  let?? error := ExecutionStatus_error status in
  ExecutionError_description error.
Definition ExecutedTransaction_execution_success (t : ExecutedTransaction) : bool :=
  match ExecutedTransaction_effects t with Some e => TransactionEffects_execution_success e | None => false end.
Definition ExecutedTransaction_execution_error (t : ExecutedTransaction) : option bytes :=
  let?? e := ExecutedTransaction_effects t in TransactionEffects_execution_error e.

Record GetTransactionResponse : Type := mk_GetTransactionResponse {
  GetTransactionResponse_transaction : option ExecutedTransaction;
}.
#[export] Instance GetTransactionResponse_default : Default GetTransactionResponse := mk_GetTransactionResponse None.
#[export] Instance GetTransactionResponse_decode : MessageDecode GetTransactionResponse := proto_decode [
  (1, fun v f => let? x := optional_message.decode (GetTransactionResponse_transaction v) f in
       Ok (mk_GetTransactionResponse x))].

Inductive GetTransactionResult : Type :=
| TransactionResult (t : ExecutedTransaction) | TransactionError (s : Status) | TransactionUnknown.
#[export] Instance GetTransactionResult_default : Default GetTransactionResult := TransactionUnknown.
#[export] Instance GetTransactionResult_decode : MessageDecode GetTransactionResult := proto_decode [
  (1, fun v f => let? x := field_message f in Ok (TransactionResult x));
  (2, fun v f => let? x := field_message f in Ok (TransactionError x))].

Record BatchGetTransactionsResponse : Type := mk_BatchGetTransactionsResponse {
  BatchGetTransactionsResponse_transactions : list GetTransactionResult;
}.
#[export] Instance BatchGetTransactionsResponse_default : Default BatchGetTransactionsResponse := mk_BatchGetTransactionsResponse [].
#[export] Instance BatchGetTransactionsResponse_decode : MessageDecode BatchGetTransactionsResponse := proto_decode [
  (1, fun v f => let? x := repeated_message.decode (BatchGetTransactionsResponse_transactions v) f in
       Ok (mk_BatchGetTransactionsResponse x))].

Record ExecuteTransactionResponse : Type := mk_ExecuteTransactionResponse {
  ExecuteTransactionResponse_transaction : option ExecutedTransaction;
}.
#[export] Instance ExecuteTransactionResponse_default : Default ExecuteTransactionResponse := mk_ExecuteTransactionResponse None.
#[export] Instance ExecuteTransactionResponse_decode : MessageDecode ExecuteTransactionResponse := proto_decode [
  (1, fun v f => let? x := optional_message.decode (ExecuteTransactionResponse_transaction v) f in
       Ok (mk_ExecuteTransactionResponse x))].

Record SimulateTransactionResponse : Type := mk_SimulateTransactionResponse {
  SimulateTransactionResponse_transaction : option ExecutedTransaction;
  SimulateTransactionResponse_command_outputs : list CommandResult;
}.
#[export] Instance SimulateTransactionResponse_default : Default SimulateTransactionResponse := mk_SimulateTransactionResponse None [].
#[export] Instance SimulateTransactionResponse_decode : MessageDecode SimulateTransactionResponse := proto_decode [
  (1, fun v f => let? x := optional_message.decode (SimulateTransactionResponse_transaction v) f in
       Ok (mk_SimulateTransactionResponse x (SimulateTransactionResponse_command_outputs v)));
  (2, fun v f => let? x := repeated_message.decode (SimulateTransactionResponse_command_outputs v) f in
       Ok (mk_SimulateTransactionResponse (SimulateTransactionResponse_transaction v) x))].

(** *** [balances.rs] *)

Record GetBalanceRequest : Type := mk_GetBalanceRequest {
  GetBalanceRequest_owner : option bytes;
  GetBalanceRequest_coin_type : option bytes;
}.
#[export] Instance GetBalanceRequest_default : Default GetBalanceRequest := mk_GetBalanceRequest None None.
#[export] Instance GetBalanceRequest_encode : MessageEncode GetBalanceRequest := proto_encode [
  fun v => optional_string.encode 1 (GetBalanceRequest_owner v);
  fun v => optional_string.encode 2 (GetBalanceRequest_coin_type v)].

Record Balance : Type := mk_Balance {
  Balance_coin_type : option bytes;
  Balance_balance : option Z;
  Balance_address_balance : option Z;
}.
#[export] Instance Balance_default : Default Balance := mk_Balance None None None.
#[export] Instance Balance_decode : MessageDecode Balance := proto_decode [
  (1, fun v f => let? x := optional_string.decode (Balance_coin_type v) f in
       Ok (mk_Balance x (Balance_balance v) (Balance_address_balance v)));
  (3, fun v f => let? x := optional_varint_u64.decode (Balance_balance v) f in
       Ok (mk_Balance (Balance_coin_type v) x (Balance_address_balance v)));
  (4, fun v f => let? x := optional_varint_u64.decode (Balance_address_balance v) f in
       Ok (mk_Balance (Balance_coin_type v) (Balance_balance v) x))].

Record GetBalanceResponse : Type := mk_GetBalanceResponse {
  GetBalanceResponse_balance : option Balance;
}.
#[export] Instance GetBalanceResponse_default : Default GetBalanceResponse := mk_GetBalanceResponse None.
#[export] Instance GetBalanceResponse_decode : MessageDecode GetBalanceResponse := proto_decode [
  (1, fun v f => let? x := optional_message.decode (GetBalanceResponse_balance v) f in
       Ok (mk_GetBalanceResponse x))].

Record ListBalancesRequest : Type := mk_ListBalancesRequest {
  ListBalancesRequest_owner : option bytes;
  ListBalancesRequest_page_size : option Z;
  ListBalancesRequest_page_token : option bytes;
}.
#[export] Instance ListBalancesRequest_default : Default ListBalancesRequest := mk_ListBalancesRequest None None None.
#[export] Instance ListBalancesRequest_encode : MessageEncode ListBalancesRequest := proto_encode [
  fun v => optional_string.encode 1 (ListBalancesRequest_owner v);
  fun v => optional_varint_u32.encode 2 (ListBalancesRequest_page_size v);
  fun v => optional_bytes.encode 3 (ListBalancesRequest_page_token v)].

Record ListBalancesResponse : Type := mk_ListBalancesResponse {
  ListBalancesResponse_balances : list Balance;
  ListBalancesResponse_next_page_token : option bytes;
}.
#[export] Instance ListBalancesResponse_default : Default ListBalancesResponse := mk_ListBalancesResponse [] None.
#[export] Instance ListBalancesResponse_decode : MessageDecode ListBalancesResponse := proto_decode [
  (1, fun v f => let? x := repeated_message.decode (ListBalancesResponse_balances v) f in
       Ok (mk_ListBalancesResponse x (ListBalancesResponse_next_page_token v)));
  (2, fun v f => let? x := optional_bytes.decode (ListBalancesResponse_next_page_token v) f in
       Ok (mk_ListBalancesResponse (ListBalancesResponse_balances v) x))].

Record GetCoinInfoRequest : Type := mk_GetCoinInfoRequest {
  GetCoinInfoRequest_coin_type : option bytes;
}.
#[export] Instance GetCoinInfoRequest_default : Default GetCoinInfoRequest := mk_GetCoinInfoRequest None.
#[export] Instance GetCoinInfoRequest_encode : MessageEncode GetCoinInfoRequest := proto_encode [
  fun v => optional_string.encode 1 (GetCoinInfoRequest_coin_type v)].

Record CoinMetadata : Type := mk_CoinMetadata {
  CoinMetadata_decimals : option Z;
  CoinMetadata_name : option bytes;
  CoinMetadata_symbol : option bytes;
}.
#[export] Instance CoinMetadata_default : Default CoinMetadata := mk_CoinMetadata None None None.
#[export] Instance CoinMetadata_decode : MessageDecode CoinMetadata := proto_decode [
  (2, fun v f => let? x := optional_varint_u32.decode (CoinMetadata_decimals v) f in
       Ok (mk_CoinMetadata x (CoinMetadata_name v) (CoinMetadata_symbol v)));
  (3, fun v f => let? x := optional_string.decode (CoinMetadata_name v) f in
       Ok (mk_CoinMetadata (CoinMetadata_decimals v) x (CoinMetadata_symbol v)));
  (4, fun v f => let? x := optional_string.decode (CoinMetadata_symbol v) f in
       Ok (mk_CoinMetadata (CoinMetadata_decimals v) (CoinMetadata_name v) x))].

Record GetCoinInfoResponse : Type := mk_GetCoinInfoResponse {
  GetCoinInfoResponse_metadata : option CoinMetadata;
}.
#[export] Instance GetCoinInfoResponse_default : Default GetCoinInfoResponse := mk_GetCoinInfoResponse None.
#[export] Instance GetCoinInfoResponse_decode : MessageDecode GetCoinInfoResponse := proto_decode [
  (2, fun v f => let? x := optional_message.decode (GetCoinInfoResponse_metadata v) f in
       Ok (mk_GetCoinInfoResponse x))].

(** *** [move_package.rs] *)

Record GetFunctionRequest : Type := mk_GetFunctionRequest {
  GetFunctionRequest_package_id : option bytes;
  GetFunctionRequest_module_name : option bytes;
  GetFunctionRequest_name : option bytes;
}.
#[export] Instance GetFunctionRequest_default : Default GetFunctionRequest := mk_GetFunctionRequest None None None.
#[export] Instance GetFunctionRequest_encode : MessageEncode GetFunctionRequest := proto_encode [
  fun v => optional_string.encode 1 (GetFunctionRequest_package_id v);
  fun v => optional_string.encode 2 (GetFunctionRequest_module_name v);
  fun v => optional_string.encode 3 (GetFunctionRequest_name v)].

Record OpenSignature : Type := mk_OpenSignature {
  OpenSignature_reference : option Z;
}.
#[export] Instance OpenSignature_default : Default OpenSignature := mk_OpenSignature None.
#[export] Instance OpenSignature_decode : MessageDecode OpenSignature := proto_decode [
  (1, fun v f => let? x := optional_varint_i32.decode (OpenSignature_reference v) f in
       Ok (mk_OpenSignature x))].

Record FunctionDescriptor : Type := mk_FunctionDescriptor {
  FunctionDescriptor_parameters : list OpenSignature;
}.
#[export] Instance FunctionDescriptor_default : Default FunctionDescriptor := mk_FunctionDescriptor [].
#[export] Instance FunctionDescriptor_decode : MessageDecode FunctionDescriptor := proto_decode [
  (8, fun v f => let? x := repeated_message.decode (FunctionDescriptor_parameters v) f in
       Ok (mk_FunctionDescriptor x))].

Record GetFunctionResponse : Type := mk_GetFunctionResponse {
  GetFunctionResponse_function : option FunctionDescriptor;
}.
#[export] Instance GetFunctionResponse_default : Default GetFunctionResponse := mk_GetFunctionResponse None.
#[export] Instance GetFunctionResponse_decode : MessageDecode GetFunctionResponse := proto_decode [
  (1, fun v f => let? x := optional_message.decode (GetFunctionResponse_function v) f in
       Ok (mk_GetFunctionResponse x))].

Inductive Reference : Type := ReferenceUnknown | ReferenceImmutable | ReferenceMutable.
Definition Reference_try_from (value : Z) : result Z Reference :=
  if value =? 0 then Ok ReferenceUnknown else if value =? 1 then Ok ReferenceImmutable
  else if value =? 2 then Ok ReferenceMutable else Err value.

(** *** [checkpoints.rs] *)

Record GetCheckpointRequest : Type := mk_GetCheckpointRequest {
  GetCheckpointRequest_sequence_number : option Z;
  GetCheckpointRequest_read_mask : option FieldMask;
}.
#[export] Instance GetCheckpointRequest_default : Default GetCheckpointRequest := mk_GetCheckpointRequest None None.
#[export] Instance GetCheckpointRequest_encode : MessageEncode GetCheckpointRequest := proto_encode [
  fun v => optional_varint_u64.encode 1 (GetCheckpointRequest_sequence_number v);
  fun v => optional_message.encode 3 (GetCheckpointRequest_read_mask v)].

Record CheckpointedTransactionInfo : Type := mk_CheckpointedTransactionInfo {
  CheckpointedTransactionInfo_transaction : option bytes;
}.
#[export] Instance CheckpointedTransactionInfo_default : Default CheckpointedTransactionInfo := mk_CheckpointedTransactionInfo None.
#[export] Instance CheckpointedTransactionInfo_decode : MessageDecode CheckpointedTransactionInfo := proto_decode [
  (1, fun v f => let? x := optional_string.decode (CheckpointedTransactionInfo_transaction v) f in
       Ok (mk_CheckpointedTransactionInfo x))].

Record CheckpointContents : Type := mk_CheckpointContents {
  CheckpointContents_transactions : list CheckpointedTransactionInfo;
}.
#[export] Instance CheckpointContents_default : Default CheckpointContents := mk_CheckpointContents [].
#[export] Instance CheckpointContents_decode : MessageDecode CheckpointContents := proto_decode [
  (4, fun v f => let? x := repeated_message.decode (CheckpointContents_transactions v) f in
       Ok (mk_CheckpointContents x))].

Record CheckpointSummary : Type := mk_CheckpointSummary {
  CheckpointSummary_epoch : option Z;
  CheckpointSummary_total_network_transactions : option Z;
  CheckpointSummary_previous_digest : option bytes;
  CheckpointSummary_timestamp : option Timestamp;
}.
#[export] Instance CheckpointSummary_default : Default CheckpointSummary := mk_CheckpointSummary None None None None.
#[export] Instance CheckpointSummary_decode : MessageDecode CheckpointSummary := proto_decode [
  (3, fun v f => let? x := optional_varint_u64.decode (CheckpointSummary_epoch v) f in
       Ok (mk_CheckpointSummary x (CheckpointSummary_total_network_transactions v) (CheckpointSummary_previous_digest v) (CheckpointSummary_timestamp v)));
  (5, fun v f => let? x := optional_varint_u64.decode (CheckpointSummary_total_network_transactions v) f in
       Ok (mk_CheckpointSummary (CheckpointSummary_epoch v) x (CheckpointSummary_previous_digest v) (CheckpointSummary_timestamp v)));
  (7, fun v f => let? x := optional_string.decode (CheckpointSummary_previous_digest v) f in
       Ok (mk_CheckpointSummary (CheckpointSummary_epoch v) (CheckpointSummary_total_network_transactions v) x (CheckpointSummary_timestamp v)));
  (9, fun v f => let? x := optional_message.decode (CheckpointSummary_timestamp v) f in
       Ok (mk_CheckpointSummary (CheckpointSummary_epoch v) (CheckpointSummary_total_network_transactions v) (CheckpointSummary_previous_digest v) x))].

Record Checkpoint : Type := mk_Checkpoint {
  Checkpoint_sequence_number : option Z;
  Checkpoint_digest : option bytes;
  Checkpoint_summary : option CheckpointSummary;
  Checkpoint_contents : option CheckpointContents;
}.
#[export] Instance Checkpoint_default : Default Checkpoint := mk_Checkpoint None None None None.
#[export] Instance Checkpoint_decode : MessageDecode Checkpoint := proto_decode [
  (1, fun v f => let? x := optional_varint_u64.decode (Checkpoint_sequence_number v) f in
       Ok (mk_Checkpoint x (Checkpoint_digest v) (Checkpoint_summary v) (Checkpoint_contents v)));
  (2, fun v f => let? x := optional_string.decode (Checkpoint_digest v) f in
       Ok (mk_Checkpoint (Checkpoint_sequence_number v) x (Checkpoint_summary v) (Checkpoint_contents v)));
  (3, fun v f => let? x := optional_message.decode (Checkpoint_summary v) f in
       Ok (mk_Checkpoint (Checkpoint_sequence_number v) (Checkpoint_digest v) x (Checkpoint_contents v)));
  (5, fun v f => let? x := optional_message.decode (Checkpoint_contents v) f in
       Ok (mk_Checkpoint (Checkpoint_sequence_number v) (Checkpoint_digest v) (Checkpoint_summary v) x))].

Record GetCheckpointResponse : Type := mk_GetCheckpointResponse {
  GetCheckpointResponse_checkpoint : option Checkpoint;
}.
#[export] Instance GetCheckpointResponse_default : Default GetCheckpointResponse := mk_GetCheckpointResponse None.
#[export] Instance GetCheckpointResponse_decode : MessageDecode GetCheckpointResponse := proto_decode [
  (1, fun v f => let? x := optional_message.decode (GetCheckpointResponse_checkpoint v) f in
       Ok (mk_GetCheckpointResponse x))].

Definition GetCheckpointRequest_by_sequence_number (sequence_number : Z) : GetCheckpointRequest :=
  mk_GetCheckpointRequest (Some sequence_number) None.

(** *** [service.rs] *)

Record GetServiceInfoRequest : Type := mk_GetServiceInfoRequest { }.
#[export] Instance GetServiceInfoRequest_default : Default GetServiceInfoRequest := mk_GetServiceInfoRequest.
#[export] Instance GetServiceInfoRequest_encode : MessageEncode GetServiceInfoRequest := proto_encode [].

Record GetServiceInfoResponse : Type := mk_GetServiceInfoResponse {
  GetServiceInfoResponse_chain_id : option bytes;
  GetServiceInfoResponse_chain : option bytes;
  GetServiceInfoResponse_checkpoint_height : option Z;
}.
#[export] Instance GetServiceInfoResponse_default : Default GetServiceInfoResponse := mk_GetServiceInfoResponse None None None.
#[export] Instance GetServiceInfoResponse_decode : MessageDecode GetServiceInfoResponse := proto_decode [
  (1, fun v f => let? x := optional_string.decode (GetServiceInfoResponse_chain_id v) f in
       Ok (mk_GetServiceInfoResponse x (GetServiceInfoResponse_chain v) (GetServiceInfoResponse_checkpoint_height v)));
  (2, fun v f => let? x := optional_string.decode (GetServiceInfoResponse_chain v) f in
       Ok (mk_GetServiceInfoResponse (GetServiceInfoResponse_chain_id v) x (GetServiceInfoResponse_checkpoint_height v)));
  (4, fun v f => let? x := optional_varint_u64.decode (GetServiceInfoResponse_checkpoint_height v) f in
       Ok (mk_GetServiceInfoResponse (GetServiceInfoResponse_chain_id v) (GetServiceInfoResponse_chain v) x))].

Record GetEpochRequest : Type := mk_GetEpochRequest {
  GetEpochRequest_epoch : option Z;
  GetEpochRequest_read_mask : option FieldMask;
}.
#[export] Instance GetEpochRequest_default : Default GetEpochRequest := mk_GetEpochRequest None None.
#[export] Instance GetEpochRequest_encode : MessageEncode GetEpochRequest := proto_encode [
  fun v => optional_varint_u64.encode 1 (GetEpochRequest_epoch v);
  fun v => optional_message.encode 2 (GetEpochRequest_read_mask v)].

Record StakingPool : Type := mk_StakingPool {
  StakingPool_id : option bytes;
  StakingPool_sui_balance : option Z;
  StakingPool_pool_token_balance : option Z;
}.
#[export] Instance StakingPool_default : Default StakingPool := mk_StakingPool None None None.
#[export] Instance StakingPool_decode : MessageDecode StakingPool := proto_decode [
  (1, fun v f => let? x := optional_string.decode (StakingPool_id v) f in
       Ok (mk_StakingPool x (StakingPool_sui_balance v) (StakingPool_pool_token_balance v)));
  (4, fun v f => let? x := optional_varint_u64.decode (StakingPool_sui_balance v) f in
       Ok (mk_StakingPool (StakingPool_id v) x (StakingPool_pool_token_balance v)));
  (6, fun v f => let? x := optional_varint_u64.decode (StakingPool_pool_token_balance v) f in
       Ok (mk_StakingPool (StakingPool_id v) (StakingPool_sui_balance v) x))].

Record Validator : Type := mk_Validator {
  Validator_address : option bytes;
  Validator_staking_pool : option StakingPool;
}.
#[export] Instance Validator_default : Default Validator := mk_Validator None None.
#[export] Instance Validator_decode : MessageDecode Validator := proto_decode [
  (2, fun v f => let? x := optional_string.decode (Validator_address v) f in
       Ok (mk_Validator x (Validator_staking_pool v)));
  (32, fun v f => let? x := optional_message.decode (Validator_staking_pool v) f in
       Ok (mk_Validator (Validator_address v) x))].

Record ValidatorSet : Type := mk_ValidatorSet {
  ValidatorSet_active_validators : list Validator;
}.
#[export] Instance ValidatorSet_default : Default ValidatorSet := mk_ValidatorSet [].
#[export] Instance ValidatorSet_decode : MessageDecode ValidatorSet := proto_decode [
  (2, fun v f => let? x := repeated_message.decode (ValidatorSet_active_validators v) f in
       Ok (mk_ValidatorSet x))].

Record SystemParameters : Type := mk_SystemParameters {
  SystemParameters_stake_subsidy_start_epoch : option Z;
}.
#[export] Instance SystemParameters_default : Default SystemParameters := mk_SystemParameters None.
#[export] Instance SystemParameters_decode : MessageDecode SystemParameters := proto_decode [
  (2, fun v f => let? x := optional_varint_u64.decode (SystemParameters_stake_subsidy_start_epoch v) f in
       Ok (mk_SystemParameters x))].

Record SystemState : Type := mk_SystemState {
  SystemState_validators : option ValidatorSet;
  SystemState_parameters : option SystemParameters;
}.
#[export] Instance SystemState_default : Default SystemState := mk_SystemState None None.
#[export] Instance SystemState_decode : MessageDecode SystemState := proto_decode [
  (4, fun v f => let? x := optional_message.decode (SystemState_validators v) f in
       Ok (mk_SystemState x (SystemState_parameters v)));
  (6, fun v f => let? x := optional_message.decode (SystemState_parameters v) f in
       Ok (mk_SystemState (SystemState_validators v) x))].

Record Epoch : Type := mk_Epoch {
  Epoch_epoch : Z;
  Epoch_system_state : option SystemState;
  Epoch_start : option Timestamp;
  Epoch_end : option Timestamp;
  Epoch_reference_gas_price : option Z;
}.
#[export] Instance Epoch_default : Default Epoch := mk_Epoch 0 None None None None.
#[export] Instance Epoch_decode : MessageDecode Epoch := proto_decode [
  (1, fun v f => let? x := varint_u64.decode (Epoch_epoch v) f in
       Ok (mk_Epoch x (Epoch_system_state v) (Epoch_start v) (Epoch_end v) (Epoch_reference_gas_price v)));
  (3, fun v f => let? x := optional_message.decode (Epoch_system_state v) f in
       Ok (mk_Epoch (Epoch_epoch v) x (Epoch_start v) (Epoch_end v) (Epoch_reference_gas_price v)));
  (6, fun v f => let? x := optional_message.decode (Epoch_start v) f in
       Ok (mk_Epoch (Epoch_epoch v) (Epoch_system_state v) x (Epoch_end v) (Epoch_reference_gas_price v)));
  (7, fun v f => let? x := optional_message.decode (Epoch_end v) f in
       Ok (mk_Epoch (Epoch_epoch v) (Epoch_system_state v) (Epoch_start v) x (Epoch_reference_gas_price v)));
  (8, fun v f => let? x := optional_varint_u64.decode (Epoch_reference_gas_price v) f in
       Ok (mk_Epoch (Epoch_epoch v) (Epoch_system_state v) (Epoch_start v) (Epoch_end v) x))].

Record GetEpochResponse : Type := mk_GetEpochResponse {
  GetEpochResponse_epoch : option Epoch;
}.
#[export] Instance GetEpochResponse_default : Default GetEpochResponse := mk_GetEpochResponse None.
#[export] Instance GetEpochResponse_decode : MessageDecode GetEpochResponse := proto_decode [
  (1, fun v f => let? x := optional_message.decode (GetEpochResponse_epoch v) f in
       Ok (mk_GetEpochResponse x))].

End messages.
End Sui.
