(* ===== verification/SuiTransaction.v ===== *)
(** Theorems on the Sui messages: what survives of a transaction when its
    encoding is decoded by the client's own schemas, and termination of the
    JSON decoder. *)
From S2P Require Import Prelude Utf8 Protobuf SuiProto.
Import Encode Decode FieldFacts Fields Sui.

Module SuiFacts.
Section facts.
Context `{JSON : Json}.

(** *** Nested messages *)

(** [optional_message] writes nothing for a message with an empty encoding. *)
Definition kept_message {T U} `{MessageEncode T} (f : T -> U) (o : option T) : option U :=
  match o with
  | Some v => match encode_message v with [] => None | _ => Some (f v) end
  | None => None
  end.

(** *** The view the decoder keeps *)

Definition view_call (m : MoveCall) : MoveCall := mk_MoveCall (nonempty_bytes (MoveCall_package m)) None None [] [].

Definition view_command (c : Command) : Command :=
  match c with CommandMoveCall m => CommandMoveCall (view_call m) | _ => CommandUnknown end.

Definition has_encoding (c : Command) : Prop := encode_message c <> [].
#[export] Instance has_encoding_dec c : Decision (has_encoding c).
Proof. unfold has_encoding. apply _. Defined.

Definition view_programmable (p : ProgrammableTransaction) : ProgrammableTransaction :=
  mk_ProgrammableTransaction [] (map view_command (filter has_encoding (ProgrammableTransaction_commands p))).

(** Package names are text. *)
Definition text_ok (c : Command) : Prop :=
  match c with
  | CommandMoveCall m => match MoveCall_package m with Some s => utf8_valid s = true | None => True end
  | _ => True
  end.

Definition call_fields (m : MoveCall) : list Field :=
  opt_fields (bytes_fields 1) (MoveCall_package m) ++ opt_fields (bytes_fields 2) (MoveCall_module m)
  ++ opt_fields (bytes_fields 3) (MoveCall_function m) ++ flat_map (bytes_fields 4) (MoveCall_type_arguments m)
  ++ flat_map (fun v => bytes_fields 5 (encode_message v)) (MoveCall_arguments m).

Lemma call_wire m : encode_message m = flat_map wire (call_fields m).
Proof.
  unfold encode_message, MoveCall_encode, proto_encode, call_fields. cbn [flat_map].
  unfold optional_string.encode. autorewrite with proto_wire. by rewrite !flat_map_app, app_nil_r.
Qed.

Lemma call_fields_ok m : Forall field_ok (call_fields m).
Proof.
  unfold call_fields. rewrite !Forall_app.
  repeat split; try (apply opt_fields_ok; intros); try (apply flat_fields_ok; intros); by apply bytes_fields_ok.
Qed.

(** Arms that do not know the number of a field keep the value. *)
Lemma skip_fields {T} (arms : list (Z * (T -> Field -> MessageResult T))) fs v :
  Forall (fun f => find (fun arm => arm.1 =? number f) arms = None) fs -> try_fold (visit_arm arms) v fs = Ok v.
Proof. induction 1 as [|f fs Hf _ IH]; [done|]. cbn [try_fold]. unfold visit_arm at 1. by rewrite Hf. Qed.

Lemma bytes_fields_number (P : Field -> Prop) n bs : (forall b, P (Mk n (Bytes b))) -> Forall P (bytes_fields n bs).
Proof. intros HP. destruct bs; constructor; [apply HP|constructor]. Qed.

Lemma opt_fields_all {A} (P : Field -> Prop) (f : A -> list Field) o :
  (forall a, Forall P (f a)) -> Forall P (opt_fields f o).
Proof. intros H. destruct o; [apply H|constructor]. Qed.

Lemma flat_fields_all {A} (P : Field -> Prop) (f : A -> list Field) l :
  (forall a, Forall P (f a)) -> Forall P (flat_map f l).
Proof. intros H. induction l; [constructor|]. cbn [flat_map]. by apply Forall_app. Qed.

Ltac all_fields := rewrite ?Forall_app; repeat split;
  repeat first [apply opt_fields_all; intros | apply flat_fields_all; intros | apply bytes_fields_number; intros
               | apply Forall_cons; split | apply Forall_nil_2]; try done.

Lemma call_decoded m : text_ok (CommandMoveCall m) -> Z.of_nat (length (encode_message m)) <= U64_MAX ->
  decode_message (T := MoveCall) (encode_message m) = Ok (view_call m).
Proof.
  intros Htext Hlen. rewrite call_wire in *. unfold decode_message, MoveCall_decode, proto_decode.
  rewrite visit_all by (done || apply call_fields_ok). unfold call_fields. rewrite try_fold_app.
  set (arms := [_]). unfold view_call.
  assert (try_fold (visit_arm arms) default_value (opt_fields (bytes_fields 1) (MoveCall_package m))
    = Ok (mk_MoveCall (nonempty_bytes (MoveCall_package m)) None None [] [])) as ->.
  { simpl in Htext. destruct (MoveCall_package m) as [[|b s]|]; [done| |done]. cbn [opt_fields bytes_fields try_fold].
    unfold visit_arm, arms. cbn [find number fst Z.eqb Pos.eqb snd]. unfold optional_string.decode, field_string, field_bytes.
    cbn [value]. rewrite Htext. done. }
  apply skip_fields. all_fields.
Qed.

Definition command_fields (c : Command) : list Field :=
  match c with
  | CommandMoveCall v => bytes_fields 1 (encode_message v)
  | CommandTransferObjects v => bytes_fields 2 (encode_message v)
  | CommandSplitCoins v => bytes_fields 3 (encode_message v)
  | CommandMergeCoins v => bytes_fields 4 (encode_message v)
  | CommandPublish v => bytes_fields 5 (encode_message v)
  | CommandMakeMoveVector v => bytes_fields 6 (encode_message v)
  | CommandUpgrade v => bytes_fields 7 (encode_message v)
  | CommandUnknown => []
  end.

Lemma command_wire c : encode_message c = flat_map wire (command_fields c).
Proof.
  unfold encode_message, Command_encode, proto_encode. cbn [flat_map]. rewrite app_nil_r.
  destruct c; try apply message_fields_wire. done.
Qed.

Lemma command_decoded c : text_ok c -> has_encoding c -> Z.of_nat (length (encode_message c)) <= U64_MAX ->
  decode_message (T := Command) (encode_message c) = Ok (view_command c).
Proof.
  unfold has_encoding. rewrite command_wire. intros Htext Hne Hlen. unfold decode_message, Command_decode, proto_decode.
  rewrite visit_all.
  2:{ destruct c; try by apply bytes_fields_ok. constructor. }
  2:{ done. }
  destruct c as [m| | | | | | |]; cbn [command_fields view_command] in *; try (apply skip_fields; all_fields).
  destruct (encode_message m) as [|b bs] eqn:E; [done|]. cbn [bytes_fields try_fold].
  unfold visit_arm. cbn [find number fst Z.eqb Pos.eqb snd]. unfold field_message, field_bytes. cbn [value].
  rewrite <- E, call_decoded; [done|done|]. pose proof (inner_length 1 (encode_message m)) as Hi. rewrite E in *. lia.
Qed.

Definition programmable_fields (p : ProgrammableTransaction) : list Field :=
  flat_map (fun v => bytes_fields 1 (encode_message v)) (ProgrammableTransaction_inputs p)
  ++ flat_map (fun v => bytes_fields 2 (encode_message v)) (ProgrammableTransaction_commands p).

Lemma programmable_wire p : encode_message p = flat_map wire (programmable_fields p).
Proof.
  unfold encode_message, ProgrammableTransaction_encode, proto_encode, programmable_fields. cbn [flat_map].
  autorewrite with proto_wire. by rewrite !flat_map_app, app_nil_r.
Qed.

(** The repeated commands, one at a time. *)
Lemma commands_decoded arms cs acc : arms = [(2, fun (v : ProgrammableTransaction) f =>
    let? x := repeated_message.decode (ProgrammableTransaction_commands v) f in
    Ok (mk_ProgrammableTransaction (ProgrammableTransaction_inputs v) x))] ->
  Forall text_ok cs ->
  Z.of_nat (length (flat_map wire (flat_map (fun v => bytes_fields 2 (encode_message v)) cs))) <= U64_MAX ->
  try_fold (visit_arm arms) (mk_ProgrammableTransaction [] acc) (flat_map (fun v => bytes_fields 2 (encode_message v)) cs)
  = Ok (mk_ProgrammableTransaction [] (acc ++ map view_command (filter has_encoding cs))).
Proof.
  intros -> Htext. revert acc. induction Htext as [|c cs Hc _ IH]; intros acc Hlen.
  - by rewrite app_nil_r.
  - cbn [flat_map] in *. rewrite flat_map_app, length_app in Hlen. rewrite try_fold_app, filter_cons.
    destruct (encode_message c) as [|b bs] eqn:E.
    + rewrite decide_False by (unfold has_encoding; rewrite E; by intros []). cbn [bytes_fields try_fold].
      apply IH. lia.
    + assert (has_encoding c) as Hne by (unfold has_encoding; by rewrite E). rewrite decide_True by done.
      cbn [bytes_fields try_fold]. unfold visit_arm at 1. cbn [find number fst Z.eqb Pos.eqb snd].
      unfold repeated_message.decode, field_message, field_bytes. cbn [value]. rewrite <- E.
      pose proof (inner_length 2 (encode_message c)) as Hi. rewrite command_decoded; [|done|done|rewrite E in *; lia].
      cbn [ProgrammableTransaction_commands ProgrammableTransaction_inputs].
      rewrite IH by lia. cbn [map]. by rewrite <- app_assoc.
Qed.

Lemma programmable_decoded p : Forall text_ok (ProgrammableTransaction_commands p) ->
  Z.of_nat (length (encode_message p)) <= U64_MAX ->
  decode_message (T := ProgrammableTransaction) (encode_message p) = Ok (view_programmable p).
Proof.
  intros Htext Hlen. rewrite programmable_wire in *. unfold decode_message, ProgrammableTransaction_decode, proto_decode.
  rewrite visit_all.
  2:{ unfold programmable_fields. rewrite Forall_app. split; apply flat_fields_ok; intros; by apply bytes_fields_ok. }
  2:{ done. }
  unfold programmable_fields in *. rewrite flat_map_app, length_app in Hlen. rewrite try_fold_app, skip_fields by all_fields.
  unfold default_value, ProgrammableTransaction_default. rewrite commands_decoded with (acc := []) by (done || lia).
  done.
Qed.

Definition kind_fields (k : TransactionKind) : list Field :=
  opt_fields (varint_fields 1) (as_u64 <$> TransactionKind_kind k)
  ++ opt_fields (fun v => bytes_fields 2 (encode_message v)) (TransactionKind_programmable_transaction k).

Lemma kind_wire k : encode_message k = flat_map wire (kind_fields k).
Proof.
  unfold encode_message, TransactionKind_encode, proto_encode, kind_fields. cbn [flat_map].
  unfold optional_varint_i32.encode, optional_message.encode. autorewrite with proto_wire.
  by rewrite !flat_map_app, app_nil_r.
Qed.

Lemma kind_fields_ok k : Forall field_ok (kind_fields k).
Proof.
  unfold kind_fields. rewrite Forall_app. split; apply opt_fields_ok; intros a Ha.
  - apply varint_fields_ok; [done|]. destruct (TransactionKind_kind k); [|done]. injection Ha as <-. by apply wrap_width.
  - by apply bytes_fields_ok.
Qed.

Lemma kind_decoded k : match TransactionKind_programmable_transaction k with
    Some p => Forall text_ok (ProgrammableTransaction_commands p) | None => True end ->
  Z.of_nat (length (encode_message k)) <= U64_MAX ->
  decode_message (T := TransactionKind) (encode_message k)
  = Ok (mk_TransactionKind None (kept_message view_programmable (TransactionKind_programmable_transaction k))).
Proof.
  intros Htext Hlen. rewrite kind_wire in *. unfold decode_message, TransactionKind_decode, proto_decode.
  rewrite visit_all by (done || apply kind_fields_ok). unfold kind_fields in *.
  rewrite flat_map_app, length_app in Hlen. rewrite try_fold_app, skip_fields.
  2:{ apply opt_fields_all. intros. repeat constructor. }
  destruct (TransactionKind_programmable_transaction k) as [p|]; [|done]. cbn [opt_fields kept_message] in *.
  destruct (encode_message p) as [|b bs] eqn:E; [done|]. cbn [bytes_fields try_fold]. unfold visit_arm.
  cbn [find number fst Z.eqb Pos.eqb snd]. unfold optional_message.decode, field_message, field_bytes. cbn [value].
  rewrite <- E. pose proof (inner_length 2 (encode_message p)) as Hi. rewrite programmable_decoded; [done|done|].
  rewrite E in *. lia.
Qed.

Definition transaction_fields (t : Transaction) : list Field :=
  opt_fields (fun v => bytes_fields 1 (encode_message v)) (Transaction_bcs t)
  ++ opt_fields (fun v => bytes_fields 4 (encode_message v)) (Transaction_kind t)
  ++ opt_fields (bytes_fields 5) (Transaction_sender t).

Lemma transaction_wire t : encode_message t = flat_map wire (transaction_fields t).
Proof.
  unfold encode_message, Transaction_encode, proto_encode, transaction_fields. cbn [flat_map].
  unfold optional_string.encode, optional_message.encode. autorewrite with proto_wire.
  by rewrite !flat_map_app, app_nil_r.
Qed.

(** *** The JSON decoder *)

Lemma varint_loop_progress fuel data pos res shift v pos' :
  varint_loop fuel data pos res shift = Ok (v, pos') -> (pos < pos')%nat.
Proof.
  revert pos res shift. induction fuel as [|fuel IH]; intros pos res shift; [done|]. cbn [varint_loop].
  destruct (data !! pos); [|done]. destruct (_ && _); [done|]. destruct (_ =? _); [intros [= _ <-]; lia|].
  destruct (_ <=? _); [done|]. intros Hl. apply IH in Hl. lia.
Qed.

Lemma read_field_bytes_length data pos n bs pos' : (pos < length data)%nat ->
  read_field data pos = Ok (Mk n (Bytes bs), pos') -> (length bs < length data)%nat.
Proof.
  intros Hpos. unfold read_field. destruct (read_varint data pos) as [[tag p]|] eqn:E; [|done].
  apply varint_loop_progress in E. destruct (_ =? _); [destruct (read_varint data p) as [[]|]; done|].
  destruct (_ =? _); [destruct (read_fixed64 data p) as [[]|]; done|]. destruct (_ =? _).
  - destruct (read_varint data p) as [[v p']|] eqn:E2; [|done]. apply varint_loop_progress in E2.
    destruct (checked_add _ _); cbn [ok_or]; [|done].
    destruct (_ <? _); [done|]. intros [= _ <- _]. rewrite length_take, length_drop. lia.
  - destruct (_ =? _); [|done]. by destruct (skip_fixed32 data p).
Qed.

Lemma visit_ext {S} (v1 v2 : S -> Field -> MessageResult S) data fuel pos s :
  (forall s f, (forall bs, value f = Bytes bs -> (length bs < length data)%nat) -> v1 s f = v2 s f) ->
  visit_fields_fuel fuel data v1 pos s = visit_fields_fuel fuel data v2 pos s.
Proof.
  intros Hv. revert pos s. induction fuel as [|fuel IH]; intros pos s; cbn [visit_fields_fuel]; [done|].
  destruct (pos <? length data)%nat eqn:Hp; [|done]. zbool. destruct (read_field data pos) as [[f p]|] eqn:E; [|done].
  rewrite Hv; [destruct (v2 s f); [apply IH|done]|]. intros bs Hbs. destruct f as [n x]. simpl in Hbs. subst x.
  by eapply read_field_bytes_length.
Qed.

(** Two decoders whose arms agree on shorter payloads agree. *)
Lemma proto_decode_ext `{Default T} (a1 a2 : list (Z * (T -> Field -> MessageResult T))) data :
  (forall s f, (forall bs, value f = Bytes bs -> (length bs < length data)%nat) -> visit_arm a1 s f = visit_arm a2 s f) ->
  proto_decode a1 data = proto_decode a2 data.
Proof. intros Ha. by apply visit_ext. Qed.

End facts.
End SuiFacts.

Section properties.
Import SuiFacts.
Context `{JSON : Json}.

(** What the client keeps of a transaction it encoded: decoding the bytes of a
    [Transaction] message with the client's own schemas succeeds and gives
    the commands of its programmable transaction in order, each move call
    with its package and every other command as [Unknown]; commands with an
    empty encoding disappear.  Fields of other numbers (inputs, sender, BCS,
    arguments) are skipped at every level of nesting. *)
Theorem transaction_view (t : Transaction) :
  match Transaction_kind t with
  | Some k => match TransactionKind_programmable_transaction k with
              | Some p => Forall text_ok (ProgrammableTransaction_commands p)
              | None => True
              end
  | None => True
  end ->
  Z.of_nat (length (encode_message t)) <= U64_MAX ->
  decode_message (T := Transaction) (encode_message t)
  = Ok (mk_Transaction None
          (kept_message (fun k => mk_TransactionKind None
             (kept_message view_programmable (TransactionKind_programmable_transaction k))) (Transaction_kind t)) None).
Proof.
  intros Htext Hlen. rewrite transaction_wire in *. unfold decode_message, Transaction_decode, proto_decode.
  rewrite visit_all; [|unfold transaction_fields; rewrite !Forall_app; repeat split; apply opt_fields_ok; intros;
    by apply bytes_fields_ok|done].
  unfold transaction_fields in *. rewrite !flat_map_app, !length_app in Hlen.
  rewrite try_fold_app, skip_fields by (apply opt_fields_all; intros; by apply bytes_fields_number).
  rewrite try_fold_app. destruct (Transaction_kind t) as [k|]; cbn [opt_fields kept_message try_fold] in *.
  2:{ rewrite skip_fields; [done|]. apply opt_fields_all. intros. by apply bytes_fields_number. }
  destruct (encode_message k) as [|b bs] eqn:E; cbn [bytes_fields try_fold].
  { rewrite skip_fields; [done|]. apply opt_fields_all. intros. by apply bytes_fields_number. }
  unfold visit_arm at 1. cbn [find number fst Z.eqb Pos.eqb snd].
  unfold optional_message.decode, field_message, field_bytes. cbn [value]. rewrite <- E.
  pose proof (inner_length 4 (encode_message k)) as Hi. rewrite kind_decoded; [|done|rewrite E in *; lia].
  rewrite skip_fields; [done|]. apply opt_fields_all. intros. by apply bytes_fields_number.
Qed.

(** The JSON decoder ([google.protobuf.Value], with structs and lists nested to
    any depth) ends on every input: [decode_json_value] has the same result
    as the decoder run with any larger bound on the nesting. *)
Theorem json_decode_terminates (data : bytes) (extra : nat) :
  JsonValue_decode (S (length data) + extra) data = decode_json_value data.
Proof.
  unfold decode_json_value.
  enough (forall n data f1 f2, (length data <= n)%nat -> (length data < f1)%nat -> (length data < f2)%nat ->
    JsonValue_decode f1 data = JsonValue_decode f2 data) as Hgen by (apply (Hgen (length data)); lia).
  clear. induction n as [n IH] using lt_wf_ind. intros data [|f1] [|f2] Hn H1 H2; [lia..|].
  cbn [JsonValue_decode]. apply proto_decode_ext. intros s f Hf. unfold visit_arm. destruct f as [k v]. cbn [number value] in *.
  assert (forall bs, (length bs < length data)%nat -> JsonValue_decode f1 bs = JsonValue_decode f2 bs) as Hrec
    by (intros bs Hbs; apply (IH (length bs)); lia).
  repeat (cbn [find fst snd]; match goal with |- context [?a =? k] => destruct (a =? k); cbn [snd]; [try done|] end);
    [| |done]; unfold field_bytes; destruct v as [| |bs|]; cbn [value]; try done; specialize (Hf bs eq_refl);
    (match goal with |- match ?a with _ => _ end = match ?b with _ => _ end => enough (a = b) as -> by done end);
    unfold JsonStruct_decode, JsonList_decode; apply proto_decode_ext; intros s' [k' v'] Hf'; unfold visit_arm;
    cbn [find fst snd number value] in *; (destruct (1 =? k'); [|done]); cbn [snd]; unfold field_bytes; cbn [value];
    destruct v' as [| |bs'|]; try done; specialize (Hf' bs' eq_refl).
  - enough (JsonStructField_decode (JsonValue_decode f1) bs' = JsonStructField_decode (JsonValue_decode f2) bs') as -> by done.
    unfold JsonStructField_decode. apply proto_decode_ext. intros s'' [k'' v''] Hf''. unfold visit_arm.
    cbn [find fst snd number value] in *. destruct (1 =? k''); [done|]. destruct (2 =? k''); [|done]. cbn [snd].
    unfold field_bytes; cbn [value]. destruct v'' as [| |bs''|]; try done. specialize (Hf'' bs'' eq_refl).
    by rewrite Hrec by lia.
  - by rewrite Hrec by lia.
Qed.

End properties.

(** ** Witnesses *)

Section witnesses.
Import SuiFacts.

Definition sample_call : MoveCall :=
  MoveCall_from_parts [48; 120; 50] [99; 111; 105; 110] [122] [Argument_new_input 0].
Definition sample_transaction : Transaction :=
  Transaction_from_kind (TransactionKind_programmable
    (mk_ProgrammableTransaction [Input_pure_value [1; 2]]
       [CommandMoveCall sample_call; CommandSplitCoins (mk_SplitCoins (Some (Argument_new_input 1)) []); CommandUnknown]))
    [48; 120; 49].

Lemma transaction_view_witness :
  decode_message (T := Transaction) (encode_message sample_transaction)
  = Ok (mk_Transaction None (Some (mk_TransactionKind None (Some (mk_ProgrammableTransaction []
      [CommandMoveCall (mk_MoveCall (Some [48; 120; 50]) None None [] []); CommandUnknown])))) None).
Proof. refine (transaction_view sample_transaction _ _); [by repeat constructor|by vm_compute]. Defined.

End witnesses.
