(* ===== verification/TronContract.v ===== *)
(** Tron contracts and the raw transaction data that is signed:
    [gem_tron/src/models/contract_type.rs], [signing/contract.rs],
    [signing/protobuf.rs] (module [TronProtobuf]), [signing/raw_data.rs] and
    [signing/wallet_connect.rs]. *)
From S2P Require Import Prelude Utf8 HexText Text Crates TronAddress Protobuf.
Import Encode.

Inductive SignerError : Type :=
| InvalidInput (message : string)
| HexFailure (e : HexCodec.HexError)
| JsonFailure (message : string).

(** ** [contract_type.rs] *)

Module TronContractType.

Inductive t : Type :=
| Transfer | TransferAsset | VoteWitness | WithdrawBalance | TriggerSmart | FreezeBalanceV2
| UnfreezeBalanceV2 | WithdrawExpireUnfreeze | DelegateResource | UnDelegateResource.

#[export] Instance type_eq_dec : EqDecision t.
Proof. solve_decision. Defined.

Definition TYPE_URL_PREFIX : string := "type.googleapis.com/protocol.".

(** [#[strum(serialize = ..)]] *)
Definition to_string (k : t) : string :=
  match k with
  | Transfer => "TransferContract"
  | TransferAsset => "TransferAssetContract"
  | VoteWitness => "VoteWitnessContract"
  | WithdrawBalance => "WithdrawBalanceContract"
  | TriggerSmart => "TriggerSmartContract"
  | FreezeBalanceV2 => "FreezeBalanceV2Contract"
  | UnfreezeBalanceV2 => "UnfreezeBalanceV2Contract"
  | WithdrawExpireUnfreeze => "WithdrawExpireUnfreezeContract"
  | DelegateResource => "DelegateResourceContract"
  | UnDelegateResource => "UnDelegateResourceContract"
  end.

(** [self as u64] *)
Definition id (k : t) : Z :=
  match k with
  | Transfer => 1
  | TransferAsset => 2
  | VoteWitness => 4
  | WithdrawBalance => 13
  | TriggerSmart => 31
  | FreezeBalanceV2 => 54
  | UnfreezeBalanceV2 => 55
  | WithdrawExpireUnfreeze => 56
  | DelegateResource => 57
  | UnDelegateResource => 58
  end.

Definition type_url (k : t) : string := (TYPE_URL_PREFIX +:+ to_string k)%string.

End TronContractType.

(** ** [contract.rs] *)

Inductive Resource : Type := ResourceBandwidth | ResourceEnergy.

Module TronResource.
Inductive t : Type := Bandwidth | Energy.
Definition from (resource : Resource) : t :=
  match resource with ResourceBandwidth => Bandwidth | ResourceEnergy => Energy end.
(** [impl From<TronResource> for u64] *)
Definition into (resource : t) : Z := match resource with Bandwidth => 0 | Energy => 1 end.
End TronResource.

(** [primitives::TronVote] *)
Record TronVote : Type := MkTronVote { vote_validator : string; vote_count : Z }.

Record TronContractVote : Type := MkVote { address : TronAddress.t; count : Z }.

Inductive TronContract : Type :=
| Transfer (owner to : TronAddress.t) (amount : Z)
| TriggerSmart (owner contract : TronAddress.t) (data : bytes) (call_value call_token_value token_id : option Z)
| VoteWitness (owner : TronAddress.t) (votes : list TronContractVote) (support : bool)
| FreezeBalanceV2 (owner : TronAddress.t) (frozen_balance : Z) (resource : TronResource.t)
| UnfreezeBalanceV2 (owner : TronAddress.t) (unfreeze_balance : Z) (resource : TronResource.t)
| WithdrawBalance (owner : TronAddress.t)
| WithdrawExpireUnfreeze (owner : TronAddress.t).

(** [impl TryFrom<&TronVote> for TronContractVote] *)
Definition vote_try_from `{Base58Check} (vote : TronVote) : result string TronContractVote :=
  let? a := TronAddress.parse (vote_validator vote) in Ok (MkVote a (vote_count vote)).

Definition vote_witness `{Base58Check} (owner : TronAddress.t) (votes : list TronVote) : result string TronContract :=
  let? votes := collect vote_try_from votes in Ok (VoteWitness owner votes true).

Definition kind (c : TronContract) : TronContractType.t :=
  match c with
  | Transfer _ _ _ => TronContractType.Transfer
  | TriggerSmart _ _ _ _ _ _ => TronContractType.TriggerSmart
  | VoteWitness _ _ _ => TronContractType.VoteWitness
  | FreezeBalanceV2 _ _ _ => TronContractType.FreezeBalanceV2
  | UnfreezeBalanceV2 _ _ _ => TronContractType.UnfreezeBalanceV2
  | WithdrawBalance _ => TronContractType.WithdrawBalance
  | WithdrawExpireUnfreeze _ => TronContractType.WithdrawExpireUnfreeze
  end.

(** [option.filter(|value| *value > 0)] and [(value > 0).then_some(value)] *)
Definition filter_positive (o : option Z) : option Z :=
  match o with Some v => if 0 <? v then Some v else None | None => None end.
Definition positive (v : Z) : option Z := if 0 <? v then Some v else None.

(** The typed values of the JSON form. *)
Record TransferContractValue : Type := MkTransferValue { tv_amount : Z; tv_owner : TronAddress.t; tv_to : TronAddress.t }.
Record TriggerSmartContractValue : Type := MkTriggerValue {
  gv_contract : TronAddress.t; gv_data : bytes; gv_owner : TronAddress.t;
  gv_call_value : option Z; gv_call_token_value : option Z; gv_token_id : option Z;
}.
Record VoteValue : Type := MkVoteValue { vv_address : TronAddress.t; vv_count : Z }.
Record VoteWitnessContractValue : Type := MkVoteWitnessValue { wv_owner : TronAddress.t; wv_support : bool; wv_votes : list VoteValue }.
Record FreezeBalanceV2ContractValue : Type := MkFreezeValue { fv_frozen_balance : Z; fv_owner : TronAddress.t; fv_resource : TronResource.t }.
Record UnfreezeBalanceV2ContractValue : Type := MkUnfreezeValue { uv_owner : TronAddress.t; uv_resource : TronResource.t; uv_unfreeze_balance : Z }.
Record OwnerContractValue : Type := MkOwnerValue { ov_owner : TronAddress.t }.

Inductive TronContractValueJson : Type :=
| TransferValue (v : TransferContractValue)
| TriggerSmartValue (v : TriggerSmartContractValue)
| VoteWitnessValue (v : VoteWitnessContractValue)
| FreezeBalanceV2Value (v : FreezeBalanceV2ContractValue)
| UnfreezeBalanceV2Value (v : UnfreezeBalanceV2ContractValue)
| OwnerValue (v : OwnerContractValue).

Definition vote_value_from (vote : TronContractVote) : VoteValue := MkVoteValue (address vote) (count vote).
Definition vote_from_value (vote : VoteValue) : TronContractVote := MkVote (vv_address vote) (vv_count vote).

Definition value_json (c : TronContract) : TronContractValueJson :=
  match c with
  | Transfer owner to amount => TransferValue (MkTransferValue amount owner to)
  | TriggerSmart owner contract data call_value call_token_value token_id =>
      TriggerSmartValue (MkTriggerValue contract data owner
        (filter_positive call_value) (filter_positive call_token_value) (filter_positive token_id))
  | VoteWitness owner votes support => VoteWitnessValue (MkVoteWitnessValue owner support (map vote_value_from votes))
  | FreezeBalanceV2 owner frozen_balance resource => FreezeBalanceV2Value (MkFreezeValue frozen_balance owner resource)
  | UnfreezeBalanceV2 owner unfreeze_balance resource => UnfreezeBalanceV2Value (MkUnfreezeValue owner resource unfreeze_balance)
  | WithdrawBalance owner | WithdrawExpireUnfreeze owner => OwnerValue (MkOwnerValue owner)
  end.

Record TronContractParameterJson : Type := MkParameterJson { pj_type_url : string; pj_value : TronContractValueJson }.
Record TronContractJson : Type := MkContractJson { cj_parameter : TronContractParameterJson; cj_contract_type : TronContractType.t }.

Definition contract_json (c : TronContract) : TronContractJson :=
  MkContractJson (MkParameterJson (TronContractType.type_url (kind c)) (value_json c)) (kind c).

(** Values the Rust types can hold: valid addresses, [u64] numbers, bytes. *)
Definition opt_u64 (o : option Z) : Prop := match o with Some v => is_u64 v | None => True end.
Definition value_wf (v : TronContractValueJson) : Prop :=
  match v with
  | TransferValue v => TronAddress.wf (tv_owner v) /\ TronAddress.wf (tv_to v) /\ is_u64 (tv_amount v)
  | TriggerSmartValue v =>
      TronAddress.wf (gv_owner v) /\ TronAddress.wf (gv_contract v) /\ all_bytes (gv_data v) /\
      opt_u64 (gv_call_value v) /\ opt_u64 (gv_call_token_value v) /\ opt_u64 (gv_token_id v)
  | VoteWitnessValue v =>
      TronAddress.wf (wv_owner v) /\ Forall (fun w => TronAddress.wf (vv_address w) /\ is_u64 (vv_count w)) (wv_votes v)
  | FreezeBalanceV2Value v => TronAddress.wf (fv_owner v) /\ is_u64 (fv_frozen_balance v)
  | UnfreezeBalanceV2Value v => TronAddress.wf (uv_owner v) /\ is_u64 (uv_unfreeze_balance v)
  | OwnerValue v => TronAddress.wf (ov_owner v)
  end.

(** [serde_json::from_value] at the types the code derives [Deserialize] for,
    and the [Serialize] side of the untagged enum. *)
Class TronSerde (Value : Type) : Type := {
  to_value : TronContractValueJson -> Value;
  from_value_transfer : Value -> result string TransferContractValue;
  from_value_trigger_smart : Value -> result string TriggerSmartContractValue;
  from_value_vote_witness : Value -> result string VoteWitnessContractValue;
  from_value_freeze : Value -> result string FreezeBalanceV2ContractValue;
  from_value_unfreeze : Value -> result string UnfreezeBalanceV2ContractValue;
  from_value_owner : Value -> result string OwnerContractValue;
}.
(** A derived deserializer reads what the derived serializer of its type wrote,
    and yields values of its type. *)
Class TronSerdeLaws `{TronSerde Value} : Prop := {
  serde_transfer : forall v, value_wf (TransferValue v) -> from_value_transfer (to_value (TransferValue v)) = Ok v;
  serde_trigger_smart : forall v, value_wf (TriggerSmartValue v) -> from_value_trigger_smart (to_value (TriggerSmartValue v)) = Ok v;
  serde_vote_witness : forall v, value_wf (VoteWitnessValue v) -> from_value_vote_witness (to_value (VoteWitnessValue v)) = Ok v;
  serde_freeze : forall v, value_wf (FreezeBalanceV2Value v) -> from_value_freeze (to_value (FreezeBalanceV2Value v)) = Ok v;
  serde_unfreeze : forall v, value_wf (UnfreezeBalanceV2Value v) -> from_value_unfreeze (to_value (UnfreezeBalanceV2Value v)) = Ok v;
  serde_owner : forall v, value_wf (OwnerValue v) -> from_value_owner (to_value (OwnerValue v)) = Ok v;
  read_transfer : forall x v, from_value_transfer x = Ok v -> value_wf (TransferValue v);
  read_trigger_smart : forall x v, from_value_trigger_smart x = Ok v -> value_wf (TriggerSmartValue v);
  read_vote_witness : forall x v, from_value_vote_witness x = Ok v -> value_wf (VoteWitnessValue v);
  read_freeze : forall x v, from_value_freeze x = Ok v -> value_wf (FreezeBalanceV2Value v);
  read_unfreeze : forall x v, from_value_unfreeze x = Ok v -> value_wf (UnfreezeBalanceV2Value v);
  read_owner : forall x v, from_value_owner x = Ok v -> value_wf (OwnerValue v);
}.

Definition from_json_value `{TronSerde Value} (contract_type : TronContractType.t) (value : Value) : result SignerError TronContract :=
  match contract_type with
  | TronContractType.Transfer =>
      let? v := map_err JsonFailure (from_value_transfer value) in Ok (Transfer (tv_owner v) (tv_to v) (tv_amount v))
  | TronContractType.TriggerSmart =>
      let? v := map_err JsonFailure (from_value_trigger_smart value) in
      Ok (TriggerSmart (gv_owner v) (gv_contract v) (gv_data v)
            (filter_positive (gv_call_value v)) (filter_positive (gv_call_token_value v)) (filter_positive (gv_token_id v)))
  | TronContractType.VoteWitness =>
      let? v := map_err JsonFailure (from_value_vote_witness value) in
      Ok (VoteWitness (wv_owner v) (map vote_from_value (wv_votes v)) (wv_support v))
  | TronContractType.FreezeBalanceV2 =>
      let? v := map_err JsonFailure (from_value_freeze value) in
      Ok (FreezeBalanceV2 (fv_owner v) (fv_frozen_balance v) (fv_resource v))
  | TronContractType.UnfreezeBalanceV2 =>
      let? v := map_err JsonFailure (from_value_unfreeze value) in
      Ok (UnfreezeBalanceV2 (uv_owner v) (uv_unfreeze_balance v) (uv_resource v))
  | TronContractType.WithdrawBalance =>
      let? v := map_err JsonFailure (from_value_owner value) in Ok (WithdrawBalance (ov_owner v))
  | TronContractType.WithdrawExpireUnfreeze =>
      let? v := map_err JsonFailure (from_value_owner value) in Ok (WithdrawExpireUnfreeze (ov_owner v))
  | TronContractType.TransferAsset | TronContractType.DelegateResource | TronContractType.UnDelegateResource =>
      Err (InvalidInput ("unsupported Tron contract type: " +:+ TronContractType.to_string contract_type))
  end.

Definition contract_wf (c : TronContract) : Prop :=
  match c with
  | Transfer owner to amount => TronAddress.wf owner /\ TronAddress.wf to /\ is_u64 amount
  | TriggerSmart owner contract data call_value call_token_value token_id =>
      TronAddress.wf owner /\ TronAddress.wf contract /\ all_bytes data /\
      opt_u64 call_value /\ opt_u64 call_token_value /\ opt_u64 token_id
  | VoteWitness owner votes _ =>
      TronAddress.wf owner /\ Forall (fun w => TronAddress.wf (address w) /\ is_u64 (count w)) votes
  | FreezeBalanceV2 owner balance _ | UnfreezeBalanceV2 owner balance _ => TronAddress.wf owner /\ is_u64 balance
  | WithdrawBalance owner | WithdrawExpireUnfreeze owner => TronAddress.wf owner
  end.

(** A contract with its absent amounts written in one way. *)
Definition normalize (c : TronContract) : TronContract :=
  match c with
  | TriggerSmart owner contract data call_value call_token_value token_id =>
      TriggerSmart owner contract data (filter_positive call_value) (filter_positive call_token_value) (filter_positive token_id)
  | _ => c
  end.

(** ** [protobuf.rs] *)

Module TronProtobuf.

Record AnyParameter : Type := mk_AnyParameter {
  AnyParameter_type_url : option bytes;
  AnyParameter_value : option bytes;
}.
#[export] Instance AnyParameter_encode : MessageEncode AnyParameter := proto_encode [
  fun v => optional_string.encode 1 (AnyParameter_type_url v);
  fun v => optional_bytes.encode 2 (AnyParameter_value v)].

Record ContractEnvelope : Type := mk_ContractEnvelope {
  ContractEnvelope_contract_type : option Z;
  ContractEnvelope_parameter : option AnyParameter;
}.
#[export] Instance ContractEnvelope_encode : MessageEncode ContractEnvelope := proto_encode [
  fun v => optional_varint_u64.encode 1 (ContractEnvelope_contract_type v);
  fun v => optional_message.encode 2 (ContractEnvelope_parameter v)].

Record RawData : Type := mk_RawData {
  RawData_ref_block_bytes : option bytes;
  RawData_ref_block_hash : option bytes;
  RawData_expiration : option Z;
  RawData_data : option bytes;
  RawData_contracts : list ContractEnvelope;
  RawData_timestamp : option Z;
  RawData_fee_limit : option Z;
}.
#[export] Instance RawData_encode : MessageEncode RawData := proto_encode [
  fun v => optional_bytes.encode 1 (RawData_ref_block_bytes v);
  fun v => optional_bytes.encode 4 (RawData_ref_block_hash v);
  fun v => optional_varint_u64.encode 8 (RawData_expiration v);
  fun v => optional_bytes.encode 10 (RawData_data v);
  fun v => repeated_message.encode 11 (RawData_contracts v);
  fun v => optional_varint_u64.encode 14 (RawData_timestamp v);
  fun v => optional_varint_u64.encode 18 (RawData_fee_limit v)].

Record BlockHeaderRaw : Type := mk_BlockHeaderRaw {
  BlockHeaderRaw_timestamp : option Z;
  BlockHeaderRaw_tx_trie_root : option bytes;
  BlockHeaderRaw_parent_hash : option bytes;
  BlockHeaderRaw_number : option Z;
  BlockHeaderRaw_witness_address : option bytes;
  BlockHeaderRaw_version : option Z;
}.
#[export] Instance BlockHeaderRaw_encode : MessageEncode BlockHeaderRaw := proto_encode [
  fun v => optional_varint_u64.encode 1 (BlockHeaderRaw_timestamp v);
  fun v => optional_bytes.encode 2 (BlockHeaderRaw_tx_trie_root v);
  fun v => optional_bytes.encode 3 (BlockHeaderRaw_parent_hash v);
  fun v => optional_varint_u64.encode 7 (BlockHeaderRaw_number v);
  fun v => optional_bytes.encode 9 (BlockHeaderRaw_witness_address v);
  fun v => optional_varint_u64.encode 10 (BlockHeaderRaw_version v)].

Record TransferContract : Type := mk_TransferContract {
  TransferContract_owner_address : option bytes;
  TransferContract_to_address : option bytes;
  TransferContract_amount : option Z;
}.
#[export] Instance TransferContract_encode : MessageEncode TransferContract := proto_encode [
  fun v => optional_bytes.encode 1 (TransferContract_owner_address v);
  fun v => optional_bytes.encode 2 (TransferContract_to_address v);
  fun v => optional_varint_u64.encode 3 (TransferContract_amount v)].

Record TriggerSmartContract : Type := mk_TriggerSmartContract {
  TriggerSmartContract_owner_address : option bytes;
  TriggerSmartContract_contract_address : option bytes;
  TriggerSmartContract_call_value : option Z;
  TriggerSmartContract_data : option bytes;
  TriggerSmartContract_call_token_value : option Z;
  TriggerSmartContract_token_id : option Z;
}.
#[export] Instance TriggerSmartContract_encode : MessageEncode TriggerSmartContract := proto_encode [
  fun v => optional_bytes.encode 1 (TriggerSmartContract_owner_address v);
  fun v => optional_bytes.encode 2 (TriggerSmartContract_contract_address v);
  fun v => optional_varint_u64.encode 3 (TriggerSmartContract_call_value v);
  fun v => optional_bytes.encode 4 (TriggerSmartContract_data v);
  fun v => optional_varint_u64.encode 5 (TriggerSmartContract_call_token_value v);
  fun v => optional_varint_u64.encode 6 (TriggerSmartContract_token_id v)].

Record Vote : Type := mk_Vote {
  Vote_vote_address : option bytes;
  Vote_vote_count : option Z;
}.
#[export] Instance Vote_encode : MessageEncode Vote := proto_encode [
  fun v => optional_bytes.encode 1 (Vote_vote_address v);
  fun v => optional_varint_u64.encode 2 (Vote_vote_count v)].

Record VoteWitnessContract : Type := mk_VoteWitnessContract {
  VoteWitnessContract_owner_address : option bytes;
  VoteWitnessContract_votes : list Vote;
  VoteWitnessContract_support : option bool;
}.
#[export] Instance VoteWitnessContract_encode : MessageEncode VoteWitnessContract := proto_encode [
  fun v => optional_bytes.encode 1 (VoteWitnessContract_owner_address v);
  fun v => repeated_message.encode 2 (VoteWitnessContract_votes v);
  fun v => optional_bool.encode 3 (VoteWitnessContract_support v)].

Record FreezeBalanceV2Contract : Type := mk_FreezeBalanceV2Contract {
  FreezeBalanceV2Contract_owner_address : option bytes;
  FreezeBalanceV2Contract_frozen_balance : option Z;
  FreezeBalanceV2Contract_resource : option Z;
}.
#[export] Instance FreezeBalanceV2Contract_encode : MessageEncode FreezeBalanceV2Contract := proto_encode [
  fun v => optional_bytes.encode 1 (FreezeBalanceV2Contract_owner_address v);
  fun v => optional_varint_u64.encode 2 (FreezeBalanceV2Contract_frozen_balance v);
  fun v => optional_varint_u64.encode 3 (FreezeBalanceV2Contract_resource v)].

Record UnfreezeBalanceV2Contract : Type := mk_UnfreezeBalanceV2Contract {
  UnfreezeBalanceV2Contract_owner_address : option bytes;
  UnfreezeBalanceV2Contract_unfreeze_balance : option Z;
  UnfreezeBalanceV2Contract_resource : option Z;
}.
#[export] Instance UnfreezeBalanceV2Contract_encode : MessageEncode UnfreezeBalanceV2Contract := proto_encode [
  fun v => optional_bytes.encode 1 (UnfreezeBalanceV2Contract_owner_address v);
  fun v => optional_varint_u64.encode 2 (UnfreezeBalanceV2Contract_unfreeze_balance v);
  fun v => optional_varint_u64.encode 3 (UnfreezeBalanceV2Contract_resource v)].

Record OwnerContract : Type := mk_OwnerContract {
  OwnerContract_owner_address : option bytes;
}.
#[export] Instance OwnerContract_encode : MessageEncode OwnerContract := proto_encode [
  fun v => optional_bytes.encode 1 (OwnerContract_owner_address v)].

Definition vote_from (vote : TronContractVote) : Vote :=
  mk_Vote (Some (TronAddress.as_bytes (address vote))) (positive (count vote)).

Definition contract_value (contract : TronContract) : bytes :=
  match contract with
  | Transfer owner to amount =>
      encode_message (mk_TransferContract (Some (TronAddress.as_bytes owner)) (Some (TronAddress.as_bytes to)) (positive amount))
  | TriggerSmart owner contract data call_value call_token_value token_id =>
      encode_message (mk_TriggerSmartContract (Some (TronAddress.as_bytes owner)) (Some (TronAddress.as_bytes contract))
        (filter_positive call_value) (Some data) (filter_positive call_token_value) (filter_positive token_id))
  | VoteWitness owner votes support =>
      encode_message (mk_VoteWitnessContract (Some (TronAddress.as_bytes owner)) (map vote_from votes)
        (if support then Some true else None))
  | FreezeBalanceV2 owner frozen_balance resource =>
      encode_message (mk_FreezeBalanceV2Contract (Some (TronAddress.as_bytes owner)) (positive frozen_balance)
        (positive (TronResource.into resource)))
  | UnfreezeBalanceV2 owner unfreeze_balance resource =>
      encode_message (mk_UnfreezeBalanceV2Contract (Some (TronAddress.as_bytes owner)) (positive unfreeze_balance)
        (positive (TronResource.into resource)))
  | WithdrawBalance owner | WithdrawExpireUnfreeze owner =>
      encode_message (mk_OwnerContract (Some (TronAddress.as_bytes owner)))
  end.

(** [impl From<&TronContract> for ContractEnvelope] *)
Definition envelope_from (contract : TronContract) : ContractEnvelope :=
  let contract_type := kind contract in
  mk_ContractEnvelope (Some (TronContractType.id contract_type))
    (Some (mk_AnyParameter (Some (bytes_of_string (TronContractType.type_url contract_type)))
                           (Some (contract_value contract)))).

End TronProtobuf.

(** ** [raw_data.rs] *)

Definition EXPIRATION_DURATION_MS : Z := 10 * 60 * 60 * 1000.
Definition BLOCK_HASH_LEN : nat := 32.

Module TronRawData.
Import TronProtobuf HexCodec.

Record t : Type := Mk {
  ref_block_bytes : bytes;
  ref_block_hash : bytes;
  expiration : Z;
  data : option bytes;
  contract : TronContract;
  timestamp : Z;
  fee_limit : Z;
}.

(** The part of [SignerInput] the constructor reads: the fields of
    [TransactionLoadMetadata::Tron], when the metadata is of that variant, and
    the memo. *)
Record TronMetadata : Type := MkMetadata {
  block_number : Z;
  block_version : Z;
  block_timestamp : Z;
  transaction_tree_root : string;
  parent_hash : string;
  witness_address : string;
}.
Record SignerInput : Type := MkInput { metadata : option TronMetadata; memo : option string }.

(** The empty memo is none. *)
Definition get_memo (input : SignerInput) : option string :=
  match memo input with Some text => if String.eqb text EmptyString then None else Some text | None => None end.

Definition from_input_with_data `{Sha256} `{Hex} (input : SignerInput) (contract : TronContract) (fee_limit : Z)
  (data : option bytes) : result SignerError t :=
  let? m := ok_or (metadata input) (InvalidInput "Missing tron metadata") in
  let? tree_root := map_err HexFailure (decode_hex_array BLOCK_HASH_LEN (transaction_tree_root m)) in
  let? parent := map_err HexFailure (decode_hex_array BLOCK_HASH_LEN (parent_hash m)) in
  let? witness := ok_or (TronAddress.from_hex (witness_address m)) (InvalidInput "invalid Tron witness address") in
  let header := mk_BlockHeaderRaw (positive (block_timestamp m)) (Some tree_root) (Some parent) (positive (block_number m))
                  (Some (TronAddress.as_bytes witness)) (positive (block_version m)) in
  let block_hash := sha256 (encode_message header) in
  let block_number_bytes := be_bytes 8 (block_number m) in
  let? expiration := ok_or (checked_add (block_timestamp m) EXPIRATION_DURATION_MS) (InvalidInput "Tron expiration overflow") in
  Ok (Mk (take 2 (drop 6 block_number_bytes)) (take 8 (drop 8 block_hash)) expiration
        (match data with Some d => Some d | None => bytes_of_string <$> get_memo input end)
        contract (block_timestamp m) fee_limit).

Definition encode (r : t) : bytes :=
  encode_message (mk_RawData (Some (ref_block_bytes r)) (Some (ref_block_hash r)) (positive (expiration r)) (data r)
    [envelope_from (contract r)] (positive (timestamp r)) (positive (fee_limit r))).

Record TronRawDataJson : Type := MkJson {
  json_contract : list TronContractJson;
  json_expiration : Z;
  json_fee_limit : option Z;
  json_ref_block_bytes : string;
  json_ref_block_hash : string;
  json_data : option string;
  json_timestamp : Z;
}.

Definition json `{Hex} (r : t) : TronRawDataJson :=
  MkJson [contract_json (contract r)] (expiration r) (positive (fee_limit r)) (hex_encode (ref_block_bytes r))
    (hex_encode (ref_block_hash r)) (hex_encode <$> data r) (timestamp r).

Record SignedTransactionJson : Type := MkSigned {
  raw_data : TronRawDataJson;
  raw_data_hex : string;
  signature : list string;
  transaction_id : string;
}.

Definition signed_new `{Hex} (raw_data : TronRawDataJson) (raw_data_bytes transaction_id : bytes) (signature : string)
  : SignedTransactionJson :=
  MkSigned raw_data (hex_encode raw_data_bytes) [signature] (hex_encode transaction_id).

End TronRawData.

(** The JSON form a dApp supplies. *)
Module RawDataJson.
Import TronProtobuf.

(** [struct RawContractJson], with [struct RawParameterJson] inlined *)
Record RawContractJson {Value : Type} : Type := MkContract { contract_type : TronContractType.t; parameter_value : Value }.
Arguments RawContractJson : clear implicits.

Record t {Value : Type} : Type := Mk {
  contract : list (RawContractJson Value);
  expiration : Z;
  ref_block_bytes : bytes;
  ref_block_hash : bytes;
  timestamp : Z;
  fee_limit : option Z;
  data : option bytes;
}.
Arguments t : clear implicits.

Section encode.
Context `{TronSerde Value}.

(** The contracts of the request, before their protobuf envelopes. *)
Definition contracts (j : t Value) : result SignerError (list TronContract) :=
  collect (fun c => from_json_value (contract_type c) (parameter_value c)) (contract j).

Definition encode (j : t Value) : result SignerError bytes :=
  let? envelopes := collect (fun c => let? contract := from_json_value (contract_type c) (parameter_value c) in
                                      Ok (envelope_from contract)) (contract j) in
  Ok (encode_message (mk_RawData (Some (ref_block_bytes j)) (Some (ref_block_hash j)) (positive (expiration j)) (data j)
        envelopes (positive (timestamp j)) (filter_positive (fee_limit j)))).

End encode.
End RawDataJson.

(** ** [wallet_connect.rs] *)

Module WalletConnect.

Inductive TransferDataOutputType : Type := EncodedTransaction | Signature.

(** [extra] is the map of the other JSON fields. *)
Record WalletConnectTransaction {Value Extra : Type} : Type := MkTransaction {
  raw_data : option Value;
  raw_data_hex : bytes;
  transaction_id : option string;
  signature : option (list string);
  extra : Extra;
}.
Arguments WalletConnectTransaction : clear implicits.

Record WalletConnectPayload {Value Extra : Type} : Type := MkPayload {
  transaction : WalletConnectTransaction Value Extra;
  output_type : TransferDataOutputType;
}.
Arguments WalletConnectPayload : clear implicits.

(** [serde_json::from_value::<RawDataJson>] and [serde_json::to_string] *)
Class WalletSerde (Value Extra : Type) : Type := {
  from_value_raw_data : Value -> result string (RawDataJson.t Value);
  transaction_to_string : WalletConnectTransaction Value Extra -> result string string;
}.

Section wallet.
Context {Value Extra : Type} `{!TronSerde Value} `{!WalletSerde Value Extra} `{Sha256} `{Hex}.

Definition hash (tx : WalletConnectTransaction Value Extra) : result SignerError bytes :=
  let transaction_hash := sha256 (raw_data_hex tx) in
  let computed_id := hex_encode transaction_hash in
  let? raw_data_json := ok_or (raw_data tx) (InvalidInput "Missing raw_data") in
  if match transaction_id tx with Some provided => negb (eq_ignore_ascii_case provided computed_id) | None => false end
  then Err (InvalidInput "transaction ID does not match hash of raw_data_hex") else
  let? parsed := map_err JsonFailure (from_value_raw_data raw_data_json) in
  let? encoded := RawDataJson.encode parsed in
  if negb (bool_decide (encoded = raw_data_hex tx)) then Err (InvalidInput "raw_data does not match raw_data_hex") else
  Ok transaction_hash.

Definition into_signed_json (tx : WalletConnectTransaction Value Extra) (transaction_id signature_hex : string)
  : result SignerError string :=
  map_err JsonFailure (transaction_to_string
    (MkTransaction _ _ (raw_data tx) (raw_data_hex tx) (Some transaction_id) (Some [signature_hex]) (extra tx))).

Definition transaction_hash (p : WalletConnectPayload Value Extra) : result SignerError bytes := hash (transaction p).

Definition into_output (p : WalletConnectPayload Value Extra) (transaction_hash : bytes) (signature_hex : string)
  : result SignerError string :=
  match output_type p with
  | Signature => Ok signature_hex
  | EncodedTransaction => into_signed_json (transaction p) (hex_encode transaction_hash) signature_hex
  end.

End wallet.
End WalletConnect.
