(* ===== verification/TronSigning.v ===== *)
(** What is signed on Tron: the bytes of the raw data determine the contract, so
    the JSON a wallet shows and the bytes it signs describe the same
    transaction (facts on [TronProtobuf], [TronRawData], [RawDataJson] and
    [WalletConnect]). *)
From S2P Require Import Prelude Utf8 HexText Text Crates TronAddress Protobuf TronContract.
Import Encode Decode FieldFacts Fields TronProtobuf.

Module TronFacts.

Ltac message_wire := unfold encode_message, proto_encode; cbn [flat_map];
  unfold optional_bytes.encode, optional_string.encode, optional_varint_u64.encode, optional_bool.encode,
    optional_message.encode; autorewrite with proto_wire; rewrite <- ?flat_map_app, ?app_nil_r.
Ltac fields_ok := repeat (apply Forall_app; split); try (apply opt_fields_ok; intros); try apply flat_fields_ok; intros;
  auto with rust; try (apply bytes_fields_ok; done); try (apply varint_fields_ok; done).

(** *** The fields of each message *)

Definition any_fields (m : AnyParameter) : list Field :=
  opt_fields (bytes_fields 1) (AnyParameter_type_url m) ++ opt_fields (bytes_fields 2) (AnyParameter_value m).
Definition envelope_fields (m : ContractEnvelope) : list Field :=
  opt_fields (varint_fields 1) (ContractEnvelope_contract_type m) ++
  opt_fields (fun v => bytes_fields 2 (encode_message v)) (ContractEnvelope_parameter m).
Definition raw_fields (m : RawData) : list Field :=
  opt_fields (bytes_fields 1) (RawData_ref_block_bytes m) ++ opt_fields (bytes_fields 4) (RawData_ref_block_hash m) ++
  opt_fields (varint_fields 8) (RawData_expiration m) ++ opt_fields (bytes_fields 10) (RawData_data m) ++
  flat_map (fun v => bytes_fields 11 (encode_message v)) (RawData_contracts m) ++
  opt_fields (varint_fields 14) (RawData_timestamp m) ++ opt_fields (varint_fields 18) (RawData_fee_limit m).
Definition transfer_fields (m : TransferContract) : list Field :=
  opt_fields (bytes_fields 1) (TransferContract_owner_address m) ++ opt_fields (bytes_fields 2) (TransferContract_to_address m) ++
  opt_fields (varint_fields 3) (TransferContract_amount m).
Definition trigger_fields (m : TriggerSmartContract) : list Field :=
  opt_fields (bytes_fields 1) (TriggerSmartContract_owner_address m) ++
  opt_fields (bytes_fields 2) (TriggerSmartContract_contract_address m) ++
  opt_fields (varint_fields 3) (TriggerSmartContract_call_value m) ++ opt_fields (bytes_fields 4) (TriggerSmartContract_data m) ++
  opt_fields (varint_fields 5) (TriggerSmartContract_call_token_value m) ++
  opt_fields (varint_fields 6) (TriggerSmartContract_token_id m).
Definition vote_fields (m : Vote) : list Field :=
  opt_fields (bytes_fields 1) (Vote_vote_address m) ++ opt_fields (varint_fields 2) (Vote_vote_count m).
Definition witness_fields (m : VoteWitnessContract) : list Field :=
  opt_fields (bytes_fields 1) (VoteWitnessContract_owner_address m) ++
  flat_map (fun v => bytes_fields 2 (encode_message v)) (VoteWitnessContract_votes m) ++
  opt_fields (fun v => varint_fields 3 (Z.b2z v)) (VoteWitnessContract_support m).
Definition freeze_fields (m : FreezeBalanceV2Contract) : list Field :=
  opt_fields (bytes_fields 1) (FreezeBalanceV2Contract_owner_address m) ++
  opt_fields (varint_fields 2) (FreezeBalanceV2Contract_frozen_balance m) ++
  opt_fields (varint_fields 3) (FreezeBalanceV2Contract_resource m).
Definition unfreeze_fields (m : UnfreezeBalanceV2Contract) : list Field :=
  opt_fields (bytes_fields 1) (UnfreezeBalanceV2Contract_owner_address m) ++
  opt_fields (varint_fields 2) (UnfreezeBalanceV2Contract_unfreeze_balance m) ++
  opt_fields (varint_fields 3) (UnfreezeBalanceV2Contract_resource m).
Definition owner_fields (m : OwnerContract) : list Field := opt_fields (bytes_fields 1) (OwnerContract_owner_address m).

Lemma any_wire m : encode_message m = flat_map wire (any_fields m).
Proof. unfold AnyParameter_encode, any_fields. message_wire. by rewrite !flat_map_app. Qed.
Lemma envelope_wire m : encode_message m = flat_map wire (envelope_fields m).
Proof. unfold ContractEnvelope_encode, envelope_fields. message_wire. by rewrite !flat_map_app. Qed.
Lemma raw_wire m : encode_message m = flat_map wire (raw_fields m).
Proof. unfold RawData_encode, raw_fields. message_wire. by rewrite !flat_map_app. Qed.
Lemma transfer_wire m : encode_message m = flat_map wire (transfer_fields m).
Proof. unfold TransferContract_encode, transfer_fields. message_wire. by rewrite !flat_map_app. Qed.
Lemma trigger_wire m : encode_message m = flat_map wire (trigger_fields m).
Proof. unfold TriggerSmartContract_encode, trigger_fields. message_wire. by rewrite !flat_map_app. Qed.
Lemma vote_wire m : encode_message m = flat_map wire (vote_fields m).
Proof. unfold Vote_encode, vote_fields. message_wire. by rewrite !flat_map_app. Qed.
Lemma witness_wire m : encode_message m = flat_map wire (witness_fields m).
Proof. unfold VoteWitnessContract_encode, witness_fields. message_wire. by rewrite !flat_map_app. Qed.
Lemma freeze_wire m : encode_message m = flat_map wire (freeze_fields m).
Proof. unfold FreezeBalanceV2Contract_encode, freeze_fields. message_wire. by rewrite !flat_map_app. Qed.
Lemma unfreeze_wire m : encode_message m = flat_map wire (unfreeze_fields m).
Proof. unfold UnfreezeBalanceV2Contract_encode, unfreeze_fields. message_wire. by rewrite !flat_map_app. Qed.
Lemma owner_wire m : encode_message m = flat_map wire (owner_fields m).
Proof. unfold OwnerContract_encode, owner_fields. message_wire. done. Qed.

Lemma cons_parts {A} (x y : A) l k : x :: l = y :: k -> x = y /\ l = k.
Proof. by intros [= -> ->]. Qed.

(** *** Amounts, addresses and their encodings *)

Lemma positive_u64 v : is_u64 v -> opt_u64 (positive v).
Proof. unfold positive. by destruct (0 <? v). Qed.
Lemma filter_positive_u64 o : opt_u64 o -> opt_u64 (filter_positive o).
Proof. destruct o as [v|]; [|done]. cbn. by destruct (0 <? v). Qed.
Lemma resource_u64 r : is_u64 (TronResource.into r).
Proof. by destruct r. Qed.

Lemma positive_inj v w : is_u64 v -> is_u64 w -> positive v = positive w -> v = w.
Proof.
  unfold positive. intros Hv Hw. destruct (0 <? v) eqn:E1, (0 <? w) eqn:E2; intros H; try discriminate H; [by injection H|].
  zlia.
Qed.

Lemma resource_inj r r' : positive (TronResource.into r) = positive (TronResource.into r') -> r = r'.
Proof. by destruct r, r'. Qed.

Lemma filter_positive_twice o : filter_positive (filter_positive o) = filter_positive o.
Proof. destruct o as [v|]; [|done]. cbn. destruct (0 <? v) eqn:E; [|done]. cbn. by rewrite E. Qed.

Lemma address_nonempty a : TronAddress.wf a -> TronAddress.as_bytes a <> [].
Proof. intros (Hl & _) H. unfold TronAddress.as_bytes in H. rewrite H in Hl. discriminate Hl. Qed.

Lemma address_inj n a b : TronAddress.wf a -> TronAddress.wf b ->
  bytes_fields n (TronAddress.as_bytes a) = bytes_fields n (TronAddress.as_bytes b) -> a = b.
Proof. intros Ha Hb H%bytes_fields_inj. by apply TronAddressFacts.wf_eq. Qed.

Lemma opt_bytes_ok n o : is_u32 n -> Forall field_ok (opt_fields (bytes_fields n) o).
Proof. intros Hn. apply opt_fields_ok. intros. by apply bytes_fields_ok. Qed.
Lemma opt_varint_ok n o : is_u32 n -> opt_u64 o -> Forall field_ok (opt_fields (varint_fields n) o).
Proof. intros Hn Ho. apply opt_fields_ok. intros a ->. by apply varint_fields_ok. Qed.
Lemma opt_bool_ok n o : is_u32 n -> Forall field_ok (opt_fields (fun v => varint_fields n (Z.b2z v)) o).
Proof. intros Hn. apply opt_fields_ok. intros a _. apply varint_fields_ok; [done|by destruct a]. Qed.
Lemma opt_message_ok {A} n (g : A -> bytes) o : is_u32 n -> Forall field_ok (opt_fields (fun v => bytes_fields n (g v)) o).
Proof. intros Hn. apply opt_fields_ok. intros. by apply bytes_fields_ok. Qed.

Create HintDb tron discriminated.
#[local] Hint Resolve opt_bytes_ok opt_varint_ok opt_bool_ok @opt_message_ok @repeated_ok positive_u64 filter_positive_u64
  resource_u64 : tron.
#[local] Hint Extern 1 (is_u32 _) => (by vm_compute) : tron.
#[local] Hint Extern 1 (opt_u64 (Some _)) => (by vm_compute) : tron.

Ltac fields_of := rewrite ?Forall_app; repeat match goal with |- _ /\ _ => split end; eauto with tron.

Ltac projections := cbn [Vote_vote_address Vote_vote_count VoteWitnessContract_owner_address VoteWitnessContract_votes
  VoteWitnessContract_support TransferContract_owner_address TransferContract_to_address TransferContract_amount
  TriggerSmartContract_owner_address TriggerSmartContract_contract_address TriggerSmartContract_call_value
  TriggerSmartContract_data TriggerSmartContract_call_token_value TriggerSmartContract_token_id
  FreezeBalanceV2Contract_owner_address FreezeBalanceV2Contract_frozen_balance FreezeBalanceV2Contract_resource
  UnfreezeBalanceV2Contract_owner_address UnfreezeBalanceV2Contract_unfreeze_balance UnfreezeBalanceV2Contract_resource
  OwnerContract_owner_address AnyParameter_type_url AnyParameter_value ContractEnvelope_contract_type
  ContractEnvelope_parameter RawData_ref_block_bytes RawData_ref_block_hash RawData_expiration RawData_data
  RawData_contracts RawData_timestamp RawData_fee_limit].

(** Equal bytes: equal fields, the fields being well formed. *)
Ltac same_fields H := apply wire_inj in H; [|fields_of|fields_of|done].
Lemma vote_inj v w : TronAddress.wf (address v) /\ is_u64 (count v) -> TronAddress.wf (address w) /\ is_u64 (count w) ->
  fits (encode_message (vote_from v)) -> encode_message (vote_from v) = encode_message (vote_from w) -> v = w.
Proof.
  intros [Ha Hc] [Ha' Hc'] Hfit H. unfold fits in Hfit. rewrite !vote_wire in *.
  unfold vote_fields, vote_from in *. projections. same_fields H.
  select_field 1 H. select_field 2 H. apply (address_inj 1) in Efield; [|done..].
  apply opt_varint_inj, positive_inj in Efield0; [|done..]. destruct v, w. by f_equal.
Qed.

Lemma vote_nonempty v : TronAddress.wf (address v) -> encode_message (vote_from v) <> [].
Proof.
  intros Ha. rewrite vote_wire. unfold vote_fields, vote_from. projections. cbn [opt_fields].
  pose proof (address_nonempty _ Ha) as Hne. destruct (TronAddress.as_bytes (address v)) as [|b bs]; [done|]. cbn [bytes_fields app flat_map].
  pose proof (wire_nonempty (Mk 1 (Bytes (b :: bs)))). intros H0%(f_equal (@length Z)). rewrite length_app in H0. cbn [length] in H0. lia.
Qed.

Lemma votes_inj n l l' :
  Forall (fun w => TronAddress.wf (address w) /\ is_u64 (count w)) l ->
  Forall (fun w => TronAddress.wf (address w) /\ is_u64 (count w)) l' ->
  fits (flat_map wire (flat_map (fun v => bytes_fields n (encode_message v)) (map vote_from l))) ->
  flat_map (fun v => bytes_fields n (encode_message v)) (map vote_from l)
  = flat_map (fun v => bytes_fields n (encode_message v)) (map vote_from l') -> l = l'.
Proof.
  intros Hl Hl' Hfit H. rewrite (repeated_map n encode_message (map vote_from l)) in *.
  rewrite (repeated_map n encode_message (map vote_from l')) in *. apply repeated_inj in H.
  - assert (forall v, v ∈ l -> fits (encode_message (vote_from v))) as Hf.
    { intros v Hv. eapply fits_repeated; [exact Hfit|]. apply list_elem_of_fmap. exists (vote_from v). split; [done|].
      apply list_elem_of_fmap. eauto. }
    clear Hfit. revert l' Hl' H. induction Hl as [|v l Hv Hl IH]; intros [|v' l'] Hl' H; try done.
    cbn [map] in H. apply cons_parts in H as [H1 H2]. apply Forall_cons in Hl' as [Hv' Hl']. f_equal.
    + apply vote_inj; [done..|apply Hf, elem_of_cons; by left|done].
    + apply IH; [intros w Hw; apply Hf, elem_of_cons; by right|done..].
  - apply Forall_fmap, Forall_fmap. eapply Forall_impl; [exact Hl|]. intros v [Hv _]. by apply vote_nonempty.
  - apply Forall_fmap, Forall_fmap. eapply Forall_impl; [exact Hl'|]. intros v [Hv _]. by apply vote_nonempty.
Qed.

Lemma support_inj n (b b' : bool) :
  opt_fields (fun v => varint_fields n (Z.b2z v)) (if b then Some true else None)
  = opt_fields (fun v => varint_fields n (Z.b2z v)) (if b' then Some true else None) -> b = b'.
Proof. by destruct b, b'. Qed.

Lemma witness_inj owner owner' votes votes' support support' :
  contract_wf (VoteWitness owner votes support) -> contract_wf (VoteWitness owner' votes' support') ->
  fits (contract_value (VoteWitness owner votes support)) ->
  contract_value (VoteWitness owner votes support) = contract_value (VoteWitness owner' votes' support') ->
  VoteWitness owner votes support = VoteWitness owner' votes' support'.
Proof.
  intros [Ho Hv] [Ho' Hv'] Hfit H. unfold contract_value, fits in *. rewrite !witness_wire in *. unfold witness_fields in *.
  revert Hfit H. projections. intros Hfit H. same_fields H. select_field 1 H. select_field 2 H. select_field 3 H.
  apply (address_inj 1) in Efield; [|done..]. apply support_inj in Efield1.
  apply votes_inj in Efield0; [by subst|done..|]. unfold fits. rewrite !flat_map_app, !length_app in Hfit. lia.
Qed.

(** The value of a contract determines it, given its kind. *)
Lemma contract_value_inj c c' : contract_wf c -> contract_wf c' -> kind c = kind c' -> fits (contract_value c) ->
  contract_value c = contract_value c' -> normalize c = normalize c'.
Proof.
  intros Hc Hc' Hk Hfit H. destruct c, c'; try discriminate Hk; clear Hk;
    try (cbn [normalize]; by apply witness_inj);
    unfold contract_value, fits in *; cbn [contract_wf] in *; rewrite ?transfer_wire, ?trigger_wire, ?freeze_wire, ?unfreeze_wire, ?owner_wire in *;
    unfold transfer_fields, trigger_fields, freeze_fields, unfreeze_fields, owner_fields in *; revert Hfit H; projections;
    intros Hfit H; repeat match goal with Hw : _ /\ _ |- _ => destruct Hw end; same_fields H; select_field 1 H.
  all: apply (address_inj 1) in Efield; [subst|done..].
  - select_field 2 H. select_field 3 H. apply (address_inj 2) in Efield; [|done..].
    apply opt_varint_inj, positive_inj in Efield0; [by subst|done..].
  - select_field 2 H. select_field 3 H. select_field 4 H. select_field 5 H. select_field 6 H.
    apply (address_inj 2) in Efield; [|done..]. apply (bytes_fields_inj 4) in Efield1.
    apply opt_varint_inj in Efield0, Efield2, Efield3. cbn [normalize]. by rewrite Efield0, Efield1, Efield2, Efield3, Efield.
  - select_field 2 H. select_field 3 H. apply opt_varint_inj, positive_inj in Efield; [|done..].
    apply opt_varint_inj, resource_inj in Efield0. by subst.
  - select_field 2 H. select_field 3 H. apply opt_varint_inj, positive_inj in Efield; [|done..].
    apply opt_varint_inj, resource_inj in Efield0. by subst.
  - done.
  - done.
Qed.

Lemma kind_id c c' : TronContractType.id (kind c) = TronContractType.id (kind c') -> kind c = kind c'.
Proof. by destruct c, c'. Qed.

Lemma kind_id_u64 c : is_u64 (TronContractType.id (kind c)).
Proof. by destruct c. Qed.
#[local] Hint Extern 1 (opt_u64 (Some (TronContractType.id (kind _)))) => (apply kind_id_u64) : tron.

Lemma any_inj (m m' : AnyParameter) : fits (encode_message m) -> encode_message m = encode_message m' ->
  opt_fields (bytes_fields 2) (AnyParameter_value m) = opt_fields (bytes_fields 2) (AnyParameter_value m').
Proof.
  unfold fits. rewrite !any_wire. unfold any_fields. intros Hfit H. same_fields H. by select_field 2 H.
Qed.

Lemma value_fits c : fits (encode_message (mk_AnyParameter (Some (bytes_of_string (TronContractType.type_url (kind c)))) (Some (contract_value c)))) ->
  fits (contract_value c).
Proof.
  intros Hfit. rewrite any_wire in Hfit. unfold any_fields in Hfit. cbn [AnyParameter_value AnyParameter_type_url opt_fields] in Hfit.
  rewrite <- (app_nil_r (bytes_fields 2 _)) in Hfit. by eapply fits_field.
Qed.

Lemma envelope_parts t t' p p' : opt_u64 (Some t) -> opt_u64 (Some t') ->
  fits (encode_message (mk_ContractEnvelope (Some t) (Some p))) ->
  encode_message (mk_ContractEnvelope (Some t) (Some p)) = encode_message (mk_ContractEnvelope (Some t') (Some p')) ->
  t = t' /\ encode_message p = encode_message p' /\ fits (encode_message p).
Proof.
  intros Ht Ht' Hfit H. pose proof Hfit as Hfit'. unfold fits in Hfit. rewrite !envelope_wire in *.
  unfold envelope_fields in *. revert Hfit Hfit' H. projections. intros Hfit Hfit' H. same_fields H.
  select_field 1 H. select_field 2 H. apply opt_varint_inj in Efield. injection Efield as Hk.
  cbn [opt_fields] in Efield0, Hfit'. apply bytes_fields_inj in Efield0.
  rewrite <- (app_nil_r (bytes_fields 2 _)) in Hfit'. by apply fits_field in Hfit'.
Qed.

Lemma envelope_inj c c' : contract_wf c -> contract_wf c' -> fits (encode_message (envelope_from c)) ->
  encode_message (envelope_from c) = encode_message (envelope_from c') -> normalize c = normalize c'.
Proof.
  intros Hc Hc' Hfit H. unfold envelope_from in *.
  destruct (envelope_parts _ _ _ _ (kind_id_u64 c) (kind_id_u64 c') Hfit H) as (Hk%kind_id & Hp & Hfit').
  pose proof (any_inj _ _ Hfit' Hp) as Hv. apply (bytes_fields_inj 2) in Hv. apply value_fits in Hfit'.
  by apply contract_value_inj.
Qed.

Lemma envelope_nonempty c : encode_message (envelope_from c) <> [].
Proof.
  rewrite envelope_wire. unfold envelope_fields, envelope_from. projections. cbn [opt_fields varint_fields app flat_map].
  intros H%(f_equal (@length Z)). rewrite length_app in H.
  pose proof (wire_nonempty (Mk 1 (Varint (TronContractType.id (kind c))))). cbn [length] in H. lia.
Qed.

Lemma envelopes_inj n l l' : Forall contract_wf l -> Forall contract_wf l' ->
  fits (flat_map wire (flat_map (fun v => bytes_fields n (encode_message v)) (map envelope_from l))) ->
  flat_map (fun v => bytes_fields n (encode_message v)) (map envelope_from l)
  = flat_map (fun v => bytes_fields n (encode_message v)) (map envelope_from l') -> map normalize l = map normalize l'.
Proof.
  intros Hl Hl' Hfit H. rewrite (repeated_map n encode_message (map envelope_from l)) in *.
  rewrite (repeated_map n encode_message (map envelope_from l')) in *. apply repeated_inj in H;
    [|apply Forall_fmap, Forall_fmap, Forall_forall; intros c _; apply envelope_nonempty..].
  assert (forall c, c ∈ l -> fits (encode_message (envelope_from c))) as Hf.
  { intros c Hin. eapply fits_repeated; [exact Hfit|]. apply list_elem_of_fmap. exists (envelope_from c). split; [done|].
    apply list_elem_of_fmap. eauto. }
  clear Hfit. revert l' Hl' H. induction Hl as [|c l Hc Hl IH]; intros [|c' l'] Hl' H; try done.
  cbn [map] in *. apply cons_parts in H as [H1 H2]. apply Forall_cons in Hl' as [Hc' Hl']. f_equal.
  - apply envelope_inj; [done..|apply Hf, elem_of_cons; by left|done].
  - apply IH; [intros w Hw; apply Hf, elem_of_cons; by right|done..].
Qed.

(** The bytes of raw data determine everything in it, an empty memo being the
    same as none. *)
Lemma raw_inj bb bh e d cs ts fl bb' bh' e' d' cs' ts' fl' :
  Forall contract_wf cs -> Forall contract_wf cs' -> opt_u64 e -> opt_u64 ts -> opt_u64 fl -> opt_u64 e' -> opt_u64 ts' -> opt_u64 fl' ->
  let m := mk_RawData (Some bb) (Some bh) e d (map envelope_from cs) ts fl in
  let m' := mk_RawData (Some bb') (Some bh') e' d' (map envelope_from cs') ts' fl' in
  fits (encode_message m) -> encode_message m = encode_message m' ->
  bb = bb' /\ bh = bh' /\ e = e' /\ nonempty_bytes d = nonempty_bytes d' /\ map normalize cs = map normalize cs' /\
  ts = ts' /\ fl = fl'.
Proof.
  intros Hcs Hcs' He Hts Hfl He' Hts' Hfl' m m' Hfit H. unfold fits in Hfit. rewrite !raw_wire in *. unfold raw_fields, m, m' in *.
  clear m m'. revert Hfit H. projections. intros Hfit H. same_fields H.
  select_field 1 H. select_field 4 H. select_field 8 H. select_field 10 H. select_field 11 H. select_field 14 H. select_field 18 H.
  apply (bytes_fields_inj 1) in Efield. apply (bytes_fields_inj 4) in Efield0. apply opt_varint_inj in Efield1, Efield4, Efield5.
  apply opt_bytes_inj in Efield2. apply envelopes_inj in Efield3; [|done..|].
  - done.
  - unfold fits. rewrite !flat_map_app, !length_app in Hfit. lia.
Qed.

End TronFacts.

(** ** Properties *)

Section properties.
Import TronFacts.
Context `{Hex} `{Sha256} {Value Extra : Type} `{TronSerdeLaws Value} `{!WalletConnect.WalletSerde Value Extra}.

(** The numbers of the raw data are [u64]s and its contract is well formed. *)
Definition raw_wf (r : TronRawData.t) : Prop :=
  contract_wf (TronRawData.contract r) /\ is_u64 (TronRawData.expiration r) /\ is_u64 (TronRawData.timestamp r) /\
  is_u64 (TronRawData.fee_limit r).
Definition request_wf (j : RawDataJson.t Value) : Prop :=
  is_u64 (RawDataJson.expiration j) /\ is_u64 (RawDataJson.timestamp j) /\ opt_u64 (RawDataJson.fee_limit j).

(** (C3) The signed bytes determine the transaction: raw data with equal encodings
    has the same block reference, expiration, timestamp, fee limit, memo (an
    empty memo being the same as none) and the same contract, up to amounts
    of zero written as absent.  No two contract kinds share an encoding. *)
Theorem raw_data_injective (r r' : TronRawData.t) : raw_wf r -> raw_wf r' -> fits (TronRawData.encode r) ->
  TronRawData.encode r = TronRawData.encode r' ->
  TronRawData.ref_block_bytes r = TronRawData.ref_block_bytes r' /\
  TronRawData.ref_block_hash r = TronRawData.ref_block_hash r' /\
  TronRawData.expiration r = TronRawData.expiration r' /\
  nonempty_bytes (TronRawData.data r) = nonempty_bytes (TronRawData.data r') /\
  normalize (TronRawData.contract r) = normalize (TronRawData.contract r') /\
  TronRawData.timestamp r = TronRawData.timestamp r' /\ TronRawData.fee_limit r = TronRawData.fee_limit r'.
Proof.
  intros (Hc & He & Ht & Hf) (Hc' & He' & Ht' & Hf') Hfit Heq. unfold TronRawData.encode in *.
  change [envelope_from (TronRawData.contract r)] with (map envelope_from [TronRawData.contract r]) in *.
  change [envelope_from (TronRawData.contract r')] with (map envelope_from [TronRawData.contract r']) in *.
  apply raw_inj in Heq as (-> & -> & E & -> & C & T & F); [|auto using positive_u64..|done].
  apply positive_inj in E, T, F; [|done..]. by apply cons_parts in C as [-> _].
Qed.

Lemma from_json_wf k x c : from_json_value k x = Ok c -> contract_wf c.
Proof.
  destruct k; cbn [from_json_value]; try discriminate;
    match goal with |- context [map_err JsonFailure ?e] => destruct e as [v|] eqn:E; [|discriminate] end;
    cbn [map_err]; intros [= <-]; cbn [contract_wf].
  - by apply read_transfer in E.
  - apply read_vote_witness in E as [Ho Hv]. split; [done|]. by apply Forall_fmap.
  - by apply read_owner in E.
  - apply read_trigger_smart in E as (? & ? & ? & ? & ? & ?). auto 10 using filter_positive_u64.
  - by apply read_freeze in E.
  - by apply read_unfreeze in E.
  - by apply read_owner in E.
Qed.

(** The request's encoder, contract by contract. *)
Lemma request_encode j bs : RawDataJson.encode j = Ok bs -> exists cs, RawDataJson.contracts j = Ok cs /\ Forall contract_wf cs /\
  bs = encode_message (mk_RawData (Some (RawDataJson.ref_block_bytes j)) (Some (RawDataJson.ref_block_hash j))
         (positive (RawDataJson.expiration j)) (RawDataJson.data j) (map envelope_from cs)
         (positive (RawDataJson.timestamp j)) (filter_positive (RawDataJson.fee_limit j))).
Proof.
  unfold RawDataJson.encode, RawDataJson.contracts. destruct (collect _ (RawDataJson.contract j)) as [es|] eqn:E; [|done].
  intros [= <-].
  assert (exists cs, collect (fun c => from_json_value (RawDataJson.contract_type c) (RawDataJson.parameter_value c))
    (RawDataJson.contract j) = Ok cs /\ Forall contract_wf cs /\ es = map envelope_from cs) as (cs & -> & Hwf & ->); [|by exists cs].
  revert es E. induction (RawDataJson.contract j) as [|c l IH]; intros es E; cbn [collect] in *.
  - injection E as <-. by exists [].
  - destruct (from_json_value _ _) as [x|] eqn:Ex; [|done]. destruct (collect _ l) as [ys|]; [|done].
    injection E as <-. destruct (IH ys eq_refl) as (cs & -> & Hwf & ->). exists (x :: cs). split; [done|].
    split; [|done]. constructor; [by eapply from_json_wf|done].
Qed.

(** (C4) A WalletConnect request is signed only for what its JSON says.  When [hash]
    accepts, the JSON parses to contracts whose encoding is exactly the bytes
    that are hashed; and any other request that encodes to those bytes has
    the same contracts (up to amounts of zero), expiration, timestamp, fee
    limit, memo and block reference.  Without JSON, with a wrong transaction
    id or with other bytes, the request is rejected. *)
Theorem signed_request_is_shown (tx : WalletConnect.WalletConnectTransaction Value Extra) (h : bytes) (j' : RawDataJson.t Value) :
  (forall x j, WalletConnect.from_value_raw_data x = Ok j -> request_wf j) -> request_wf j' ->
  fits (WalletConnect.raw_data_hex tx) -> WalletConnect.hash tx = Ok h ->
  exists x j cs, WalletConnect.raw_data tx = Some x /\ WalletConnect.from_value_raw_data x = Ok j /\
    RawDataJson.contracts j = Ok cs /\ RawDataJson.encode j = Ok (WalletConnect.raw_data_hex tx) /\
    h = sha256 (WalletConnect.raw_data_hex tx) /\
    (RawDataJson.encode j' = Ok (WalletConnect.raw_data_hex tx) ->
     exists cs', RawDataJson.contracts j' = Ok cs' /\ map normalize cs' = map normalize cs /\
       RawDataJson.expiration j' = RawDataJson.expiration j /\ RawDataJson.timestamp j' = RawDataJson.timestamp j /\
       filter_positive (RawDataJson.fee_limit j') = filter_positive (RawDataJson.fee_limit j) /\
       nonempty_bytes (RawDataJson.data j') = nonempty_bytes (RawDataJson.data j) /\
       RawDataJson.ref_block_bytes j' = RawDataJson.ref_block_bytes j /\
       RawDataJson.ref_block_hash j' = RawDataJson.ref_block_hash j).
Proof.
  intros Hserde (He' & Ht' & Hf') Hfit Hhash. unfold WalletConnect.hash in Hhash.
  destruct (WalletConnect.raw_data tx) as [x|] eqn:Hx; [|discriminate Hhash]. cbn [ok_or] in Hhash.
  destruct (match WalletConnect.transaction_id tx with Some _ => _ | None => _ end); [discriminate Hhash|].
  destruct (WalletConnect.from_value_raw_data x) as [j|] eqn:Hj; [|discriminate Hhash]. cbn [map_err] in Hhash.
  destruct (RawDataJson.encode j) as [bs|] eqn:Hbs; [|discriminate Hhash].
  destruct (bool_decide (bs = _)) eqn:Hd; [|discriminate Hhash]. apply bool_decide_eq_true in Hd. injection Hhash as <-.
  destruct (Hserde x j Hj) as (He & Ht & Hf). destruct (request_encode j bs Hbs) as (cs & Hcs & Hwf & Hb).
  rewrite Hd in Hbs, Hb.
  exists x, j, cs. split; [done|]. split; [done|]. split; [done|]. split; [done|]. split; [done|].
  intros (cs' & Hcs' & Hwf' & Hb')%request_encode. exists cs'. split; [done|].
  rewrite Hb in Hb', Hfit. symmetry in Hb'.
  apply raw_inj in Hb' as (B & B' & E & D & C & T & F); [|auto using positive_u64, filter_positive_u64..|by rewrite Hb'].
  apply positive_inj in E, T; [|done..]. repeat split; done.
Qed.

(** The JSON of raw data, as [RawDataJson] parses it. *)
Definition parsed_json (r : TronRawData.t) : RawDataJson.t Value :=
  RawDataJson.Mk _
    [RawDataJson.MkContract _ (kind (TronRawData.contract r)) (to_value (value_json (TronRawData.contract r)))]
    (TronRawData.expiration r) (TronRawData.ref_block_bytes r) (TronRawData.ref_block_hash r) (TronRawData.timestamp r)
    (positive (TronRawData.fee_limit r)) (TronRawData.data r).

Lemma value_json_wf c : contract_wf c -> value_wf (value_json c).
Proof.
  destruct c; cbn [contract_wf value_json value_wf]; try done.
  - intros (? & ? & ? & ? & ? & ?). cbn. auto 10 using filter_positive_u64.
  - intros [? Hv]. split; [done|]. cbn. by apply Forall_fmap.
Qed.

Lemma from_value_json c : contract_wf c -> from_json_value (kind c) (to_value (value_json c)) = Ok (normalize c).
Proof.
  intros Hwf. pose proof (value_json_wf c Hwf) as Hv. destruct c; cbn [kind value_json from_json_value normalize] in *.
  - by rewrite serde_transfer.
  - rewrite serde_trigger_smart by done. cbn [map_err gv_owner gv_contract gv_data gv_call_value gv_call_token_value gv_token_id].
    by rewrite !filter_positive_twice.
  - rewrite serde_vote_witness by done. cbn [map_err wv_owner wv_votes wv_support]. do 2 f_equal.
    rewrite map_map. cbn. rewrite <- (map_id votes) at 2. apply map_ext. by intros [].
  - by rewrite serde_freeze.
  - by rewrite serde_unfreeze.
  - by rewrite serde_owner.
  - by rewrite serde_owner.
Qed.

Lemma envelope_normalize c : envelope_from (normalize c) = envelope_from c.
Proof. destruct c; try done. unfold envelope_from. cbn [normalize kind contract_value]. by rewrite !filter_positive_twice. Qed.

(** The two forms of a transaction the wallet outputs agree: the JSON of the raw
    data, read back the way a dApp request is, encodes to the very bytes that
    were signed, for every contract kind. *)
Theorem own_json_encodes (r : TronRawData.t) : raw_wf r ->
  RawDataJson.encode (parsed_json r) = Ok (TronRawData.encode r).
Proof.
  intros (Hc & _ & _ & Hf). unfold RawDataJson.encode, parsed_json, TronRawData.encode.
  cbn [RawDataJson.contract RawDataJson.contract_type RawDataJson.parameter_value RawDataJson.ref_block_bytes
    RawDataJson.ref_block_hash RawDataJson.expiration RawDataJson.timestamp RawDataJson.data RawDataJson.fee_limit collect].
  rewrite from_value_json by done. rewrite envelope_normalize.
  assert (filter_positive (positive (TronRawData.fee_limit r)) = positive (TronRawData.fee_limit r)) as ->; [|done].
  exact (filter_positive_twice (Some (TronRawData.fee_limit r))).
Qed.

(** [from_input_with_data] on Tron metadata with well-formed hashes and witness:
    it fails only when the timestamp plus ten hours does not fit a [u64];
    otherwise the reference is the last two bytes of the block number and
    eight bytes of the header's hash, the expiration is ten hours after the
    block, an explicit [data] wins over the memo, an empty memo is none, and
    the result is well formed. *)
Theorem from_input_branches `{!HexLaws} `{!Sha256Laws} (m : TronRawData.TronMetadata) (memo : option string) (c : TronContract)
  (fee : Z) (data : option bytes) (tree parent : bytes) (witness : TronAddress.t) :
  is_u64 (TronRawData.block_timestamp m) -> is_u64 fee -> contract_wf c -> TronAddress.wf witness ->
  all_bytes tree -> length tree = 32%nat -> all_bytes parent -> length parent = 32%nat ->
  TronRawData.transaction_tree_root m = hex_encode tree -> TronRawData.parent_hash m = HexCodec.encode_with_0x parent ->
  TronRawData.witness_address m = hex_encode (TronAddress.as_bytes witness) ->
  match TronRawData.from_input_with_data (TronRawData.MkInput (Some m) memo) c fee data with
  | Ok r =>
      TronRawData.block_timestamp m + 36000000 < 2 ^ 64 /\ raw_wf r /\
      TronRawData.ref_block_bytes r = be_bytes 2 (TronRawData.block_number m) /\
      length (TronRawData.ref_block_hash r) = 8%nat /\
      TronRawData.expiration r = TronRawData.block_timestamp m + 36000000 /\
      TronRawData.data r = (match data with Some d => Some d | None => bytes_of_string <$> TronRawData.get_memo (TronRawData.MkInput (Some m) memo) end) /\
      TronRawData.contract r = c /\ TronRawData.fee_limit r = fee
  | Err e => e = InvalidInput "Tron expiration overflow" /\ 2 ^ 64 <= TronRawData.block_timestamp m + 36000000
  end /\
  TronRawData.from_input_with_data (TronRawData.MkInput None memo) c fee data = Err (InvalidInput "Missing tron metadata").
Proof.
  intros Ht Hf Hc Hw Ht1 Ht2 Hp1 Hp2 E1 E2 E3. split; [|done]. unfold TronRawData.from_input_with_data.
  cbn [TronRawData.metadata ok_or]. rewrite E1, E2, E3. unfold HexCodec.decode_hex_array.
  rewrite decode_hex_encode, Ht2 by done. change (32 =? BLOCK_HASH_LEN)%nat with true. cbn [map_err].
  rewrite (decode_encoded parent true Hp1) by (apply trim_0x_digits; by apply hex_encode_digits).
  rewrite Hp2. change (32 =? BLOCK_HASH_LEN)%nat with true. cbn [map_err].
  pose proof (TronAddressFacts.wf_parts witness Hw) as (Hr & Hl & _). pose proof Hw as (_ & _ & Hwb).
  unfold TronAddress.as_bytes at 1. rewrite TronAddressFacts.from_hex_encoded, TronAddressFacts.of_decoded_raw by done. cbn [ok_or].
  unfold checked_add. change EXPIRATION_DURATION_MS with 36000000.
  destruct (TronRawData.block_timestamp m + 36000000 <=? U64_MAX) eqn:E; cbn [ok_or]; zbool; unfold U64_MAX in E; [|by split; [|lia]].
  split; [lia|]. split; [|split; [reflexivity|split; [|done]]].
  - split; [done|]. split; [|by split]. cbn. unfold in_width in *. lia.
  - cbn [TronRawData.ref_block_hash]. rewrite length_take, length_drop, sha256_length. done.
Qed.

End properties.

(** ** Witnesses *)

Section witnesses.
Import Concrete HexConcrete TronFacts.

#[local] Instance opt_u64_dec o : Decision (opt_u64 o).
Proof. destruct o; cbn; unfold in_width; apply _. Defined.
#[local] Instance address_wf_dec a : Decision (TronAddress.wf a).
Proof. unfold TronAddress.wf, in_width. apply _. Defined.
#[local] Instance value_wf_dec v : Decision (value_wf v).
Proof. destruct v; cbn [value_wf]; unfold in_width; apply _. Defined.

(** A typed value stands for its own JSON. *)
Definition read {A} (view : TronContractValueJson -> option A) (x : TronContractValueJson) : result string A :=
  match view x with
  | Some v => if decide (value_wf x) then Ok v else Err "invalid value"%string
  | None => Err "missing field"%string
  end.
#[local] Instance typed_serde : TronSerde TronContractValueJson := {
  to_value v := v;
  from_value_transfer := read (fun x => match x with TransferValue v => Some v | _ => None end);
  from_value_trigger_smart := read (fun x => match x with TriggerSmartValue v => Some v | _ => None end);
  from_value_vote_witness := read (fun x => match x with VoteWitnessValue v => Some v | _ => None end);
  from_value_freeze := read (fun x => match x with FreezeBalanceV2Value v => Some v | _ => None end);
  from_value_unfreeze := read (fun x => match x with UnfreezeBalanceV2Value v => Some v | _ => None end);
  from_value_owner := read (fun x => match x with OwnerValue v => Some v | _ => None end);
}.
#[local] Instance typed_serde_laws : TronSerdeLaws.
Proof.
  split; cbn; unfold read; intros v; try (by intros ?; rewrite decide_True);
    intros w; destruct v; try done; destruct (decide _); try done; by intros [= <-].
Qed.

Definition owner : TronAddress.t := TronAddress.from_account (seqZ 1 20).
Definition recipient : TronAddress.t := TronAddress.from_account (seqZ 31 20).
Definition sample_raw (c : TronContract) : TronRawData.t :=
  TronRawData.Mk [0x12; 0x34] (seqZ 1 8) 36000000 None c 0 0.

(** The only JSON request of the sample wallet. *)
#[local] Instance sample_wallet : WalletConnect.WalletSerde TronContractValueJson unit := {
  WalletConnect.from_value_raw_data v :=
    Ok (RawDataJson.Mk _ [RawDataJson.MkContract _ TronContractType.Transfer v] 36000000 [0x12; 0x34] (seqZ 1 8) 0 None None);
  WalletConnect.transaction_to_string _ := Ok ""%string;
}.

Lemma sample_addresses : TronAddress.wf owner /\ TronAddress.wf recipient.
Proof. split; apply (bool_decide_unpack _); by vm_compute. Qed.

Lemma sample_raw_wf : raw_wf (sample_raw (Transfer owner recipient 5)).
Proof. destruct sample_addresses. split; [|by vm_compute]. by split; [|split]. Qed.

Lemma raw_data_injective_witness :
  TronRawData.encode (sample_raw (Transfer owner recipient 5)) = TronRawData.encode (sample_raw (Transfer owner recipient 5)) /\
  Transfer owner recipient 5 = normalize (Transfer owner recipient 5).
Proof.
  pose proof (raw_data_injective (sample_raw (Transfer owner recipient 5)) (sample_raw (Transfer owner recipient 5))
    sample_raw_wf sample_raw_wf ltac:(by vm_compute) eq_refl) as (_ & _ & _ & _ & E & _).
  split; [reflexivity|exact E].
Defined.

Lemma own_json_encodes_witness :
  RawDataJson.encode (parsed_json (sample_raw (Transfer owner recipient 5)))
  = Ok (TronRawData.encode (sample_raw (Transfer owner recipient 5))).
Proof. apply (own_json_encodes _ sample_raw_wf). Defined.

Definition sample_request : WalletConnect.WalletConnectTransaction TronContractValueJson unit :=
  WalletConnect.MkTransaction _ _ (Some (TransferValue (MkTransferValue 5 owner recipient)))
    (TronRawData.encode (sample_raw (Transfer owner recipient 5))) None None tt.

Lemma signed_request_is_shown_witness :
  exists j, RawDataJson.contracts (Value := TronContractValueJson) j = Ok [Transfer owner recipient 5] /\
    RawDataJson.encode j = Ok (TronRawData.encode (sample_raw (Transfer owner recipient 5))).
Proof.
  assert (forall x (j : RawDataJson.t TronContractValueJson), WalletConnect.from_value_raw_data x = Ok j -> request_wf j) as Hs
    by (intros x j [= <-]; by vm_compute).
  assert (request_wf (parsed_json (sample_raw (Transfer owner recipient 5)))) as Hw by (by vm_compute).
  assert (fits (WalletConnect.raw_data_hex sample_request)) as Hf by (by vm_compute).
  assert (WalletConnect.hash sample_request = Ok (sha256 (WalletConnect.raw_data_hex sample_request))) as Hh by (by vm_compute).
  destruct (signed_request_is_shown sample_request _ (parsed_json (sample_raw (Transfer owner recipient 5))) Hs Hw Hf Hh)
    as (x & j & cs & [= <-] & [= <-] & Hcs & He & _). eexists. split; [|exact He]. reflexivity.
Defined.

Definition sample_metadata : TronRawData.TronMetadata :=
  TronRawData.MkMetadata 0x1234 30 1700000000000 (hex_encode (replicate 32 7)) (HexCodec.encode_with_0x (replicate 32 8))
    (hex_encode (TronAddress.as_bytes owner)).

Lemma from_input_branches_witness :
  TronRawData.from_input_with_data (TronRawData.MkInput None None) (Transfer owner recipient 5) 0 None
  = Err (InvalidInput "Missing tron metadata").
Proof.
  destruct sample_addresses as [Ho Hr].
  refine (proj2 (from_input_branches sample_metadata None (Transfer owner recipient 5) 0 None (replicate 32 7) (replicate 32 8) owner
    _ _ _ Ho _ eq_refl _ eq_refl eq_refl eq_refl eq_refl)); try (by vm_compute); try (by apply Forall_replicate).
Defined.

End witnesses.
