(* ===== verification/BitcoinPlanner.v ===== *)
(** Bitcoin-family transactions: choosing inputs, outputs and the fee,
    [gem_bitcoin/src/signer/planner/] and [signer/encoding.rs], with the checks
    [signer/transaction.rs] makes on a plan before it is signed. *)
From Stdlib Require Import Sorting.Sorted.
From S2P Require Import Prelude HexText Crates.

(** ** [encoding.rs] *)

Module BitcoinEncoding.

Definition encode_varint (value : Z) : bytes :=
  if value <? 0xfd then [as_u8 value]
  else if value <=? 0xffff then 0xfd :: le_bytes 2 (as_u16 value)
  else if value <=? 0xffffffff then 0xfe :: le_bytes 4 (as_u32 value)
  else 0xff :: le_bytes 8 value.

Definition varint_len (value : Z) : Z :=
  if value <=? 0xfc then 1
  else if value <=? 0xffff then 3
  else if value <=? 0xffffffff then 5
  else 9.

End BitcoinEncoding.

Module BitcoinPlanner.
Import BitcoinEncoding.

Inductive BitcoinChain : Type := Bitcoin | BitcoinCash | Litecoin | Doge | Zcash.

Inductive SignerError : Type :=
| InvalidInput (message : string)
| InvalidInputOn (chain : BitcoinChain) (reason : string)
| SigningError (message : string)
| DustThreshold
| InsufficientFunds.

(** [BitcoinChain::minimum_byte_fee] and [minimum_custom_fee_rate] *)
Definition minimum_byte_fee (chain : BitcoinChain) : Z :=
  match chain with Bitcoin => 1 | BitcoinCash => 5 | Litecoin => 5 | Doge => 1000 | Zcash => 1 end.
Definition minimum_custom_fee_rate (chain : BitcoinChain) : Z :=
  match chain with Bitcoin => 1 | BitcoinCash => 50 | Litecoin => 50 | Doge => 10000 | Zcash => 10 end.

(** [FeeUnitType::SatVb.scale_factor()]: [10u64.pow(1)] *)
Inductive FeeUnitType : Type := SatVb | Gwei | Native.
Definition decimals (u : FeeUnitType) : Z := match u with Native => 0 | SatVb => 1 | Gwei => 9 end.
Definition scale_factor (u : FeeUnitType) : Z := 10 ^ decimals u.

(** [primitives::UTXO]; [value] is a [BigUint] *)
Record UTXO : Type := MkUTXO { transaction_id : string; utxo_vout : Z; utxo_value : Z; utxo_address : string }.
Definition value_u64 (u : UTXO) : option Z := if utxo_value u <=? U64_MAX then Some (utxo_value u) else None.

(** *** [address/script.rs], the part that classifies scripts *)

Inductive LockingScript : Type := LockP2pkh | LockP2sh | LockP2wpkh | LockP2wsh | LockP2tr.
Inductive UnlockingScript : Type := P2pkh | P2wpkh.

#[export] Instance unlocking_script_eq_dec : EqDecision UnlockingScript.
Proof. solve_decision. Defined.

(** A script is its bytes. *)
Record AddressScript : Type := MkAddressScript { address_script_pubkey : bytes; locking_script : LockingScript }.

(** The [bitcoin] crate: predicates and builders on scripts, transaction ids;
    and the decoding of addresses ([signer/address/], over the [bitcoin],
    [bech32], [bs58] and [bitcoincash_addr] crates). *)
Class BitcoinCrate : Type := {
  is_p2pkh : bytes -> bool;
  is_p2wpkh : bytes -> bool;
  is_op_return : bytes -> bool;
  minimal_non_dust : bytes -> Z;
  push_bytes_fit : bytes -> bool;
  op_return_script : bytes -> bytes;
  txid_from_str : string -> option bytes;
  txid_cmp : bytes -> bytes -> comparison;
  script_for_address : BitcoinChain -> string -> result SignerError AddressScript;
}.
(** A script built from [OP_RETURN] and a push is an [OP_RETURN] script, and
    the dust limit is an amount. *)
Class BitcoinCrateLaws `{BitcoinCrate} : Prop := {
  op_return_script_is : forall data, is_op_return (op_return_script data) = true;
  minimal_non_dust_u64 : forall script, is_u64 (minimal_non_dust script);
}.

Definition HASH160_LEN : nat := 20.
Definition P2PKH_HASH_OFFSET : nat := 3.
Definition P2WPKH_HASH_OFFSET : nat := 2.

(** *** [types.rs] *)

Record OutPoint : Type := MkOutPoint { txid : bytes; vout : Z }.

Record PlanInput : Type := MkInput {
  previous_output : OutPoint;
  input_value : Z;
  input_script_pubkey : bytes;
  unlocking : UnlockingScript;
  sequence : Z;
}.

Record PlanOutput : Type := MkOutput { value : Z; script_pubkey : bytes }.

Record SpendPlan : Type := MkPlan { inputs : list PlanInput; outputs : list PlanOutput; fee : Z }.

Definition serialized_len (o : PlanOutput) : Z :=
  let len := Z.of_nat (length (script_pubkey o)) in 8 + varint_len len + len.

(** [iter.map(f).sum()] on [u128] *)
Definition sum {A} (f : A -> Z) (l : list A) : Z := foldr (fun a acc => f a + acc) 0 l.

(** *** [fee.rs] *)

Definition WITNESS_SCALE_FACTOR : Z := 4.
Definition TRANSACTION_FIXED_BYTES : Z := 8.
Definition SEGWIT_MARKER_FLAG_WEIGHT : Z := 2.
Definition P2PKH_INPUT_BYTES : Z := 148.
Definition P2WPKH_INPUT_BASE_BYTES : Z := 41.
Definition P2WPKH_INPUT_WITNESS_BYTES : Z := 108.
Definition ZCASH_MARGINAL_FEE : Z := 5000.
Definition ZCASH_GRACE_ACTIONS : Z := 2.
Definition ZCASH_P2PKH_INPUT_SIZE : Z := 150.
Definition ZCASH_P2PKH_OUTPUT_SIZE : Z := 34.

Definition transaction_base_weight (input_count output_count : nat) (has_witness : bool) : Z :=
  let base_bytes := TRANSACTION_FIXED_BYTES + varint_len (Z.of_nat input_count) + varint_len (Z.of_nat output_count) in
  base_bytes * WITNESS_SCALE_FACTOR + (if has_witness then SEGWIT_MARKER_FLAG_WEIGHT else 0).

Definition input_weight (input : PlanInput) : Z :=
  match unlocking input with
  | P2pkh => P2PKH_INPUT_BYTES * WITNESS_SCALE_FACTOR
  | P2wpkh => P2WPKH_INPUT_BASE_BYTES * WITNESS_SCALE_FACTOR + P2WPKH_INPUT_WITNESS_BYTES
  end.

Definition transaction_weight (inputs : list PlanInput) (outputs : list PlanOutput) : Z :=
  let has_witness := existsb (fun input => match unlocking input with P2wpkh => true | P2pkh => false end) inputs in
  transaction_base_weight (length inputs) (length outputs) has_witness + sum input_weight inputs
  + sum (fun output => serialized_len output * WITNESS_SCALE_FACTOR) outputs.

Definition estimate_bitcoin_fee (inputs : list PlanInput) (outputs : list PlanOutput) (fee_rate : Z) : Z :=
  div_ceil (div_ceil (transaction_weight inputs outputs) WITNESS_SCALE_FACTOR * fee_rate) (scale_factor SatVb).

Definition estimate_zcash_fee (inputs : list PlanInput) (outputs : list PlanOutput) : Z :=
  let input_total_size := Z.of_nat (length inputs) * ZCASH_P2PKH_INPUT_SIZE in
  let output_total_size := sum serialized_len outputs in
  let input_actions := div_ceil input_total_size ZCASH_P2PKH_INPUT_SIZE in
  let output_actions := div_ceil output_total_size ZCASH_P2PKH_OUTPUT_SIZE in
  ZCASH_MARGINAL_FEE * Z.max ZCASH_GRACE_ACTIONS (Z.max input_actions output_actions).

Definition fee_u128 (chain : BitcoinChain) (inputs : list PlanInput) (outputs : list PlanOutput) (fee_rate : Z) : Z :=
  match chain with
  | Zcash => estimate_zcash_fee inputs outputs
  | Bitcoin | BitcoinCash | Litecoin | Doge => estimate_bitcoin_fee inputs outputs fee_rate
  end.
(** [fee as u64] *)
Definition estimate_fee (chain : BitcoinChain) (inputs : list PlanInput) (outputs : list PlanOutput) (fee_rate : Z) : Z :=
  as_u64 (fee_u128 chain inputs outputs fee_rate).

(** *** [request.rs] *)

Record SpendRequest : Type := MkRequest {
  chain : BitcoinChain;
  sender_address : string;
  destination_address : string;
  amount : Z;
  is_max : bool;
  fee_rate : Z;
  memo : option bytes;
  utxos : list UTXO;
}.

(** [gas_price] is [input.fee.gas_price_u64()] *)
Definition spend_fee_rate (chain : BitcoinChain) (gas_price : result SignerError Z) : result SignerError Z :=
  let? rate := gas_price in Ok (Z.max rate (minimum_custom_fee_rate chain)).

Inductive SpendTarget : Type := Exact (value : Z) | Max.

(** [sort_by]: the stable sort. *)
Fixpoint insert_by {A} (cmp : A -> A -> comparison) (x : A) (l : list A) : list A :=
  match l with
  | [] => [x]
  | y :: l' => match cmp x y with Gt => y :: insert_by cmp x l' | _ => x :: l end
  end.
Definition sort_by {A} (cmp : A -> A -> comparison) (l : list A) : list A := foldr (insert_by cmp) [] l.

Section planner.
Context `{BitcoinCrate}.

(** *** [inputs.rs] *)

Definition FINAL_SEQUENCE : Z := 0xffffffff.
Definition RBF_SEQUENCE : Z := 0xfffffffd.

Definition public_key_hash (a : AddressScript) : option bytes :=
  let?? offset := match locking_script a with
                  | LockP2pkh => if is_p2pkh (address_script_pubkey a) then Some P2PKH_HASH_OFFSET else None
                  | LockP2wpkh => if is_p2wpkh (address_script_pubkey a) then Some P2WPKH_HASH_OFFSET else None
                  | LockP2sh | LockP2wsh | LockP2tr => None
                  end in
  if (offset + HASH160_LEN <=? length (address_script_pubkey a))%nat
  then Some (take HASH160_LEN (drop offset (address_script_pubkey a))) else None.

Definition unlocking_script (a : AddressScript) : option UnlockingScript :=
  match locking_script a, public_key_hash a with
  | LockP2pkh, Some _ => Some P2pkh
  | LockP2wpkh, Some _ => Some P2wpkh
  | _, _ => None
  end.

(** [address.unlocking_script().zip(address.public_key_hash())] *)
Definition key_script (a : AddressScript) : option (UnlockingScript * bytes) :=
  let?? u := unlocking_script a in let?? h := public_key_hash a in Some (u, h).

Definition sequence_on (chain : BitcoinChain) : Z :=
  match chain with Bitcoin | BitcoinCash | Litecoin | Doge => RBF_SEQUENCE | Zcash => FINAL_SEQUENCE end.

(** One turn of the loop over the UTXOs. *)
Definition spendable_input (chain : BitcoinChain) (sender_hash : bytes) (utxo : UTXO) : result SignerError PlanInput :=
  let? address := script_for_address chain (utxo_address utxo) in
  let? (unlocking, hash) := ok_or (key_script address) (InvalidInputOn chain "UTXO address type is unsupported") in
  if negb (bool_decide (hash = sender_hash)) then Err (InvalidInputOn chain "UTXO address does not match sender address") else
  let? value := ok_or (value_u64 utxo) (InvalidInput "UTXO amount is too large") in
  if value =? 0 then Err (InvalidInputOn chain "UTXO amount is zero") else
  if utxo_vout utxo <? 0 then Err (InvalidInputOn chain "UTXO output index is invalid") else
  let? id := ok_or (txid_from_str (transaction_id utxo)) (InvalidInputOn chain "UTXO transaction id is invalid") in
  Ok (MkInput (MkOutPoint id (utxo_vout utxo)) value (address_script_pubkey address) unlocking (sequence_on chain)).

Definition spendable_inputs (chain : BitcoinChain) (sender_address : string) (utxos : list UTXO) : result SignerError (list PlanInput) :=
  let? sender := script_for_address chain sender_address in
  let? (_, sender_hash) := ok_or (key_script sender) (InvalidInputOn chain "sender address type is unsupported") in
  collect (spendable_input chain sender_hash) utxos.

(** *** [outputs.rs] *)

Definition MAX_OP_RETURN_BYTES : nat := 80.

Definition spend_outputs (amount : Z) (payment_script : bytes) (memo_output : option PlanOutput) : list PlanOutput :=
  MkOutput amount payment_script :: match memo_output with Some output => [output] | None => [] end.

Definition op_return_output (data : bytes) : result SignerError PlanOutput :=
  if (MAX_OP_RETURN_BYTES <? length data)%nat then Err (InvalidInput "Bitcoin memo is too large")
  else if push_bytes_fit data then Ok (MkOutput 0 (op_return_script data))
  else Err (InvalidInput "push bytes").

Definition dust_threshold (chain : BitcoinChain) (script_pubkey : bytes) : Z :=
  if is_op_return script_pubkey then 0 else
  let threshold := minimal_non_dust script_pubkey in
  match chain with
  | Doge => saturating_mul threshold (minimum_byte_fee chain)
  | Bitcoin | BitcoinCash | Litecoin | Zcash => threshold
  end.

(** *** [spend.rs] *)

Definition build_max_plan (chain : BitcoinChain) (fee_rate : Z) (payment_script : bytes) (memo_output : option PlanOutput)
  (selected : list PlanInput) (selected_amount : Z) : result SignerError SpendPlan :=
  let outputs := spend_outputs 0 payment_script memo_output in
  let fee := estimate_fee chain selected outputs fee_rate in
  let? value := ok_or (checked_sub selected_amount fee) InsufficientFunds in
  if (value =? 0) || (value <? dust_threshold chain payment_script) then Err InsufficientFunds
  else Ok (MkPlan selected (spend_outputs value payment_script memo_output) fee).

(** [selected_amount.checked_sub(value).and_then(|remaining| remaining.checked_sub(fee))] *)
Definition remainder_after (selected_amount value fee : Z) : option Z :=
  let?? remaining := checked_sub selected_amount value in checked_sub remaining fee.

Definition build_exact_plan (chain : BitcoinChain) (value fee_rate : Z) (payment_script change_script : bytes)
  (memo_output : option PlanOutput) (selected : list PlanInput) (selected_amount : Z) : option SpendPlan :=
  let outputs := spend_outputs value payment_script memo_output in
  let outputs_with_change := outputs ++ [MkOutput 0 change_script] in
  let fee_with_change := estimate_fee chain selected outputs_with_change fee_rate in
  let?? remainder := remainder_after selected_amount value fee_with_change in
  if dust_threshold chain change_script <=? remainder
  then Some (MkPlan selected (outputs ++ [MkOutput remainder change_script]) fee_with_change) else
  let fee_without_change := estimate_fee chain selected outputs fee_rate in
  let?? remainder := remainder_after selected_amount value fee_without_change in
  Some (MkPlan selected outputs (as_u64 (fee_without_change + remainder))).

(** [left.value.cmp(&right.value).then_with(|| left.previous_output.cmp(&right.previous_output))] *)
Definition input_cmp (left right : PlanInput) : comparison :=
  match input_value left ?= input_value right with
  | Eq => match txid_cmp (txid (previous_output left)) (txid (previous_output right)) with
          | Eq => vout (previous_output left) ?= vout (previous_output right)
          | c => c
          end
  | c => c
  end.

(** The loop over the sorted candidates. *)
Fixpoint select_loop (chain : BitcoinChain) (target : SpendTarget) (fee_rate : Z) (payment_script change_script : bytes)
  (memo_output : option PlanOutput) (input_count : nat) (candidates : list PlanInput) (index : nat)
  (selected : list PlanInput) (selected_amount : Z) : result SignerError SpendPlan :=
  match candidates with
  | [] => Err InsufficientFunds
  | candidate :: rest =>
      let selected_amount := as_u64 (selected_amount + input_value candidate) in
      let selected := selected ++ [candidate] in
      let continue := select_loop chain target fee_rate payment_script change_script memo_output input_count rest (S index)
                        selected selected_amount in
      match target with
      | Max => if (index + 1 <? input_count)%nat then continue
               else build_max_plan chain fee_rate payment_script memo_output selected selected_amount
      | Exact value =>
          match build_exact_plan chain value fee_rate payment_script change_script memo_output selected selected_amount with
          | Some plan => Ok plan
          | None => continue
          end
      end
  end.

Definition select_inputs_and_build_plan (chain : BitcoinChain) (target : SpendTarget) (fee_rate : Z)
  (payment_script change_script : bytes) (memo_output : option PlanOutput) (spendable_inputs : list PlanInput)
  : result SignerError SpendPlan :=
  let sorted := sort_by input_cmp spendable_inputs in
  let total := sum input_value sorted in
  if U64_MAX <? total then Err (InvalidInput "Bitcoin amount overflow") else
  select_loop chain target fee_rate payment_script change_script memo_output (length sorted) sorted 0 [] 0.

Definition plan (request : SpendRequest) : result SignerError SpendPlan :=
  if (length (utxos request) =? 0)%nat then Err (InvalidInput "missing input UTXOs") else
  if negb (is_max request) && (amount request =? 0) then Err (InvalidInput "invalid transaction amount") else
  let? payment := script_for_address (chain request) (destination_address request) in
  let payment_script := address_script_pubkey payment in
  if negb (is_max request) && (amount request <? dust_threshold (chain request) payment_script) then Err DustThreshold else
  let? change := script_for_address (chain request) (sender_address request) in
  let change_script := address_script_pubkey change in
  let? memo_output := match memo request with
                      | Some data => let? output := op_return_output data in Ok (Some output)
                      | None => Ok None
                      end in
  let? spendable := spendable_inputs (chain request) (sender_address request) (utxos request) in
  let target := if is_max request then Max else Exact (amount request) in
  select_inputs_and_build_plan (chain request) target (fee_rate request) payment_script change_script memo_output spendable.

(** *** [transaction.rs]: what is checked of a plan before it is signed *)

Definition validate_chain_input_types (chain : BitcoinChain) (plan : SpendPlan) : result SignerError unit :=
  match chain with
  | Bitcoin | Litecoin | Doge => Ok tt
  | BitcoinCash | Zcash =>
      try_fold (fun _ input => if bool_decide (unlocking input = P2pkh) then Ok tt
                               else Err (InvalidInputOn chain "UTXO address type is unsupported")) tt (inputs plan)
  end.

Definition validate_plan_amounts (chain : BitcoinChain) (plan : SpendPlan) : result SignerError unit :=
  let input_total := sum input_value (inputs plan) in
  let output_total := sum value (outputs plan) in
  if input_total =? output_total + fee plan then Ok tt else Err (InvalidInputOn chain "plan amount mismatch").

End planner.
End BitcoinPlanner.

(** ** Facts *)

Module PlannerFacts.
Import BitcoinEncoding BitcoinPlanner.

#[local] Arguments spend_outputs : simpl never.

(** *** Sums and the sort *)

Lemma sum_app {A} (f : A -> Z) l k : sum f (l ++ k) = sum f l + sum f k.
Proof. unfold sum. induction l as [|a l IH]; cbn; lia. Qed.

Lemma sum_nonneg {A} (f : A -> Z) l : Forall (fun a => 0 <= f a) l -> 0 <= sum f l.
Proof. unfold sum. induction 1; cbn; lia. Qed.

Lemma sum_permutation {A} (f : A -> Z) l k : Permutation l k -> sum f l = sum f k.
Proof. unfold sum. induction 1; cbn in *; lia. Qed.

Lemma sum_ext {A B} (f : A -> Z) (g : B -> Z) l k : Forall2 (fun a b => f a = g b) l k -> sum f l = sum g k.
Proof. unfold sum. induction 1; cbn in *; lia. Qed.

Lemma insert_permutation {A} cmp (x : A) l : Permutation (insert_by cmp x l) (x :: l).
Proof.
  induction l as [|y l IH]; cbn; [done|]. destruct (cmp x y); [done..|]. rewrite IH. apply perm_swap.
Qed.

Lemma sort_permutation {A} cmp (l : list A) : Permutation (sort_by cmp l) l.
Proof. induction l as [|x l IH]; cbn; [done|]. unfold sort_by in *. cbn. rewrite insert_permutation. by constructor. Qed.

(** *** Sizes and fees *)

Lemma varint_len_pos v : 1 <= varint_len v.
Proof. unfold varint_len. repeat destruct (_ <=? _); lia. Qed.

Lemma varint_len_mono v w : v <= w -> varint_len v <= varint_len w.
Proof.
  intros. unfold varint_len. destruct (v <=? 0xfc) eqn:?, (w <=? 0xfc) eqn:?, (v <=? 0xffff) eqn:?, (w <=? 0xffff) eqn:?,
    (v <=? 0xffffffff) eqn:?, (w <=? 0xffffffff) eqn:?; zbool; lia.
Qed.

Lemma serialized_len_pos o : 0 < serialized_len o.
Proof. unfold serialized_len. pose proof (varint_len_pos (Z.of_nat (length (script_pubkey o)))). lia. Qed.

(** The size, and so the fee, does not depend on the values. *)
Definition same_scripts (os os' : list PlanOutput) : Prop := Forall2 (fun o o' => script_pubkey o = script_pubkey o') os os'.

Lemma estimate_scripts chain ins os os' rate : same_scripts os os' -> estimate_fee chain ins os rate = estimate_fee chain ins os' rate.
Proof.
  intros Hs. unfold estimate_fee. f_equal.
  assert (forall k, sum (fun o => serialized_len o * k) os = sum (fun o => serialized_len o * k) os') as Hsum.
  { intros k. apply sum_ext. eapply Forall2_impl; [exact Hs|]. intros o o' Ho. unfold serialized_len. by rewrite Ho. }
  assert (sum serialized_len os = sum serialized_len os') as Hsum1.
  { apply sum_ext. eapply Forall2_impl; [exact Hs|]. intros o o' Ho. unfold serialized_len. by rewrite Ho. }
  pose proof (Forall2_length _ _ _ Hs) as Hl.
  destruct chain; unfold fee_u128, estimate_bitcoin_fee, transaction_weight, estimate_zcash_fee; by rewrite ?Hl, ?Hsum, ?Hsum1.
Qed.

Lemma same_scripts_spend v w script memo rest rest' : same_scripts rest rest' ->
  same_scripts (spend_outputs v script memo ++ rest) (spend_outputs w script memo ++ rest').
Proof. intros Hr. constructor; [done|]. destruct memo; cbn; [by constructor|done]. Qed.

Lemma same_scripts_value v w script memo : same_scripts (spend_outputs v script memo) (spend_outputs w script memo).
Proof. constructor; [done|]. destruct memo; by repeat constructor. Qed.

Lemma sum_serialized_nonneg os k : 0 <= k -> 0 <= sum (fun o => serialized_len o * k) os.
Proof.
  intros Hk. apply sum_nonneg, Forall_forall. intros o _. pose proof (serialized_len_pos o). apply Z.mul_nonneg_nonneg; lia.
Qed.

Lemma input_weight_sum_nonneg ins : 0 <= sum input_weight ins.
Proof. apply sum_nonneg, Forall_forall. intros i _. unfold input_weight. by destruct (unlocking i). Qed.

Lemma weight_nonneg ins os : 0 <= transaction_weight ins os.
Proof.
  unfold transaction_weight, transaction_base_weight, TRANSACTION_FIXED_BYTES, WITNESS_SCALE_FACTOR, SEGWIT_MARKER_FLAG_WEIGHT.
  pose proof (varint_len_pos (Z.of_nat (length ins))). pose proof (varint_len_pos (Z.of_nat (length os))).
  pose proof (sum_serialized_nonneg os 4). pose proof (input_weight_sum_nonneg ins). destruct (existsb _ ins); lia.
Qed.

(** One more output never lowers the fee. *)
Lemma fee_mono chain ins os o rate : 0 <= rate -> 0 <= fee_u128 chain ins os rate <= fee_u128 chain ins (os ++ [o]) rate.
Proof.
  intros Hr. assert (transaction_weight ins os <= transaction_weight ins (os ++ [o])) as Hw.
  { unfold transaction_weight, transaction_base_weight, WITNESS_SCALE_FACTOR. rewrite sum_app, length_app. cbn [length sum foldr].
    pose proof (varint_len_mono (Z.of_nat (length os)) (Z.of_nat (length os + 1))). pose proof (serialized_len_pos o). lia. }
  pose proof (weight_nonneg ins os) as Hw0.
  assert (forall a b, 0 <= a -> 0 < b -> 0 <= div_ceil a b) as Hdiv by (intros a b ??; apply Z.div_pos; lia).
  assert (0 <= estimate_bitcoin_fee ins os rate <= estimate_bitcoin_fee ins (os ++ [o]) rate).
  { unfold estimate_bitcoin_fee. change (scale_factor SatVb) with 10. split.
    - apply Hdiv; [|lia]. apply Z.mul_nonneg_nonneg; [|done]. by apply Hdiv.
    - apply div_ceil_mono; [lia|]. apply Z.mul_le_mono_nonneg_r; [done|]. by apply div_ceil_mono. }
  destruct chain; cbn [fee_u128]; try done. unfold estimate_zcash_fee, ZCASH_MARGINAL_FEE, ZCASH_GRACE_ACTIONS.
  rewrite sum_app. assert (div_ceil (sum serialized_len os) ZCASH_P2PKH_OUTPUT_SIZE
    <= div_ceil (sum serialized_len os + sum serialized_len [o]) ZCASH_P2PKH_OUTPUT_SIZE).
  { apply div_ceil_mono; [done|]. pose proof (serialized_len_pos o). cbn. lia. }
  lia.
Qed.

Section planner.
Context `{BitcoinCrate}.

(** *** Plans for one selection *)

Lemma remainder_spec a v f r : remainder_after a v f = Some r <-> a = v + f + r /\ v <= a /\ 0 <= r.
Proof.
  unfold remainder_after, checked_sub. destruct (v <=? a) eqn:E1; [|split; [done|intros (_ & ? & _); zbool; lia]].
  destruct (f <=? a - v) eqn:E2; zbool; split; try done; [intros [= <-]; lia|intros (? & ? & ?); f_equal; lia|intros; lia].
Qed.

Lemma remainder_none a v f : 0 <= f -> remainder_after a v f = None <-> a < v + f.
Proof.
  intros Hf. unfold remainder_after, checked_sub. destruct (v <=? a) eqn:E1; [|split; [|done]; zbool; lia].
  destruct (f <=? a - v) eqn:E2; zbool; split; try done; lia.
Qed.

Lemma estimate_nonneg chain ins os rate : 0 <= estimate_fee chain ins os rate.
Proof. unfold estimate_fee, as_u64. apply wrap_width. lia. Qed.

(** A plan for the payment of [v]: what is spent is what is paid plus the fee,
    and the fee is at least the estimate for the transaction planned. *)
Definition plan_for (c : BitcoinChain) (rate v : Z) (payment change : bytes) (memo : option PlanOutput)
  (selected : list PlanInput) (p : SpendPlan) : Prop :=
  inputs p = selected /\ sum input_value selected = sum value (outputs p) + fee p /\
  estimate_fee c selected (outputs p) rate <= fee p /\
  (outputs p = spend_outputs v payment memo \/
   exists r, outputs p = spend_outputs v payment memo ++ [MkOutput r change] /\ dust_threshold c change <= r).

Definition memo_value (memo : option PlanOutput) : Z := match memo with Some o => value o | None => 0 end.

Lemma sum_spend v payment memo : sum value (spend_outputs v payment memo) = v + memo_value memo.
Proof. unfold spend_outputs. destruct memo; cbn; lia. Qed.

Lemma ok_inj {E A} (a b : A) : Ok (E := E) a = Ok b -> a = b.
Proof. by intros [= ->]. Qed.

Lemma exact_plan_for c v rate payment change memo selected p :
  memo_value memo = 0 -> 0 <= v -> sum input_value selected <= U64_MAX ->
  build_exact_plan c v rate payment change memo selected (sum input_value selected) = Some p ->
  plan_for c rate v payment change memo selected p.
Proof.
  intros Hm Hv Hu. unfold build_exact_plan, plan_for. destruct (remainder_after _ _ _) as [r|] eqn:E; [|done].
  apply remainder_spec in E as (E & _ & Hr).
  destruct (dust_threshold c change <=? r) eqn:Ed.
  - intros <-%(inj Some). cbn [inputs outputs fee]. split; [done|]. rewrite sum_app, sum_spend, Hm. cbn [sum foldr value].
    split; [lia|]. split; [|right; exists r; split; [done|zbool; lia]].
    apply Z.eq_le_incl, estimate_scripts, same_scripts_spend. by constructor.
  - destruct (remainder_after _ _ (estimate_fee c selected (spend_outputs v payment memo) rate)) as [r'|] eqn:E'; [|done].
    apply remainder_spec in E' as (E' & _ & Hr'). intros <-%(inj Some). cbn [inputs outputs fee].
    pose proof (estimate_nonneg c selected (spend_outputs v payment memo) rate).
    unfold as_u64. rewrite wrap_small by zlia. rewrite sum_spend, Hm. split; [done|]. split; [lia|]. split; [lia|by left].
Qed.

Lemma max_plan_for c rate payment change memo selected p :
  memo_value memo = 0 -> build_max_plan c rate payment memo selected (sum input_value selected) = Ok p ->
  exists v, plan_for c rate v payment change memo selected p /\ 0 < v /\ dust_threshold c payment <= v /\
    outputs p = spend_outputs v payment memo.
Proof.
  intros Hm. unfold build_max_plan. destruct (checked_sub _ _) as [v|] eqn:E; [|done]. cbn [ok_or].
  unfold checked_sub in E. destruct (_ <=? _) eqn:E1; [|done]. injection E as <-. zbool.
  set (f := estimate_fee _ _ _ _) in *. destruct ((_ =? 0) || _) eqn:E2; [done|].
  apply orb_false_iff in E2 as [E2 E3]. zbool. intros <-%ok_inj.
  exists (sum input_value selected - f). unfold plan_for. cbn [inputs outputs fee]. rewrite sum_spend, Hm. split; [|split; [lia|split; [lia|done]]].
  split; [done|]. split; [lia|]. split; [|by left]. apply Z.eq_le_incl. unfold f. apply estimate_scripts.
  apply same_scripts_value.
Qed.

(** [build_exact_plan] succeeds exactly when the fee with a change output can
    be paid. *)
Lemma exact_plan_iff c v rate payment change memo selected :
  0 <= rate -> fee_u128 c selected (spend_outputs v payment memo ++ [MkOutput 0 change]) rate < 2 ^ 64 ->
  build_exact_plan c v rate payment change memo selected (sum input_value selected) = None <->
  sum input_value selected < v + estimate_fee c selected (spend_outputs v payment memo ++ [MkOutput 0 change]) rate.
Proof.
  intros Hr Hfit. pose proof (fee_mono c selected (spend_outputs v payment memo) (MkOutput 0 change) rate Hr) as Hmono.
  rewrite <- (remainder_none _ _ _ (estimate_nonneg _ _ _ _)). unfold build_exact_plan.
  destruct (remainder_after _ _ _) as [r|] eqn:E; [|done]. split; [|done]. apply remainder_spec in E as (E & Hv & Hr').
  destruct (_ <=? r); [done|]. destruct (remainder_after _ _ (estimate_fee c selected (spend_outputs v payment memo) rate)) as [r'|] eqn:E'; [done|].
  apply remainder_none in E'; [|apply estimate_nonneg]. unfold estimate_fee, as_u64 in *.
  rewrite wrap_small in E by (unfold in_width; lia). rewrite wrap_small in E' by (unfold in_width; lia). lia.
Qed.

(** *** The loop *)

(** The loop for an exact amount returns the plan of the shortest prefix that
    has one. *)
Lemma exact_loop c v rate payment change memo n candidates index selected :
  Forall (fun i => 0 <= input_value i) (selected ++ candidates) -> sum input_value (selected ++ candidates) <= U64_MAX ->
  let build l := build_exact_plan c v rate payment change memo l (sum input_value l) in
  let result := select_loop c (Exact v) rate payment change memo n candidates index selected (sum input_value selected) in
  (exists k p, (1 <= k <= length candidates)%nat /\ build (selected ++ take k candidates) = Some p /\ result = Ok p /\
     forall j, (1 <= j < k)%nat -> build (selected ++ take j candidates) = None) \/
  (result = Err InsufficientFunds /\ forall j, (1 <= j <= length candidates)%nat -> build (selected ++ take j candidates) = None).
Proof.
  revert index selected. induction candidates as [|x candidates IH]; intros index selected Hpos Hsum build result.
  { right. split; [done|]. intros j Hj. cbn in Hj. lia. }
  assert (as_u64 (sum input_value selected + input_value x) = sum input_value (selected ++ [x])) as Hadd.
  { rewrite sum_app. cbn [sum foldr]. rewrite Z.add_0_r. unfold as_u64. apply wrap_small.
    rewrite sum_app in Hsum. apply Forall_app in Hpos as [H1 H2]. apply Forall_cons in H2 as [H2 H3].
    pose proof (sum_nonneg _ _ H1). pose proof (sum_nonneg _ _ H3). cbn [sum foldr] in Hsum.
    change (foldr _ 0 candidates) with (sum input_value candidates) in Hsum. zlia. }
  unfold result. cbn [select_loop]. rewrite Hadd. fold (build (selected ++ [x])).
  destruct (build (selected ++ [x])) as [p|] eqn:Ep.
  { left. exists 1%nat, p. cbn [length take]. rewrite take_0. split; [lia|]. split; [done|]. split; [done|]. lia. }
  specialize (IH (S index) (selected ++ [x])). rewrite <- app_assoc in IH. cbn [app] in IH.
  destruct (IH Hpos Hsum) as [(k & p & Hk & Hb & Hres & Hmin)|[Hres Hmin]].
  - left. exists (S k), p. cbn [length take]. rewrite <- app_assoc in Hb. cbn [app] in Hb. split; [lia|]. split; [done|]. split; [done|].
    intros [|[|j]] Hj; [lia|by cbn [take]; rewrite take_0|]. specialize (Hmin (S j) ltac:(lia)).
    rewrite <- app_assoc in Hmin. exact Hmin.
  - right. split; [done|]. cbn [length]. intros [|[|j]] Hj; [lia|by cbn [take]; rewrite take_0|].
    specialize (Hmin (S j) ltac:(lia)). rewrite <- app_assoc in Hmin. exact Hmin.
Qed.

(** The loop for the maximum builds one plan, from every input. *)
Lemma max_loop c rate payment change memo n candidates index selected :
  Forall (fun i => 0 <= input_value i) (selected ++ candidates) -> sum input_value (selected ++ candidates) <= U64_MAX ->
  candidates <> [] -> n = (index + length candidates)%nat ->
  select_loop c Max rate payment change memo n candidates index selected (sum input_value selected)
  = build_max_plan c rate payment memo (selected ++ candidates) (sum input_value (selected ++ candidates)).
Proof.
  revert index selected. induction candidates as [|x candidates IH]; intros index selected Hpos Hsum Hne Hn; [done|].
  assert (as_u64 (sum input_value selected + input_value x) = sum input_value (selected ++ [x])) as Hadd.
  { rewrite sum_app. cbn [sum foldr]. rewrite Z.add_0_r. unfold as_u64. apply wrap_small.
    rewrite sum_app in Hsum. apply Forall_app in Hpos as [H1 H2]. apply Forall_cons in H2 as [H2 H3].
    pose proof (sum_nonneg _ _ H1). pose proof (sum_nonneg _ _ H3). cbn [sum foldr] in Hsum.
    change (foldr _ 0 candidates) with (sum input_value candidates) in Hsum. zlia. }
  cbn [select_loop]. rewrite Hadd. destruct candidates as [|y candidates].
  - cbn [length] in Hn. test_false (index + 1 <? n)%nat. done.
  - cbn [length] in Hn. test_true (index + 1 <? n)%nat. rewrite IH; rewrite <- ?app_assoc; try done. cbn [length]. lia.
Qed.

End planner.
End PlannerFacts.

(** ** Properties *)

Section properties.
Import BitcoinEncoding BitcoinPlanner PlannerFacts.

(** Variable-length integers: the length the fee estimate counts is the length
    of the bytes that are written, and the bytes are uniquely decodable, in
    front of any data. *)
Theorem varint_faithful (v w : Z) (rest rest' : bytes) : is_u64 v -> is_u64 w ->
  varint_len v = Z.of_nat (length (encode_varint v)) /\
  (encode_varint v ++ rest = encode_varint w ++ rest' -> v = w /\ rest = rest').
Proof.
  assert (forall n x y a b, in_width (8 * Z.of_nat n) x -> in_width (8 * Z.of_nat n) y ->
    le_bytes n x ++ a = le_bytes n y ++ b -> x = y /\ a = b) as Hle.
  { intros n x y a b Hx Hy H. apply app_inj_1 in H as [H ->]; [|by rewrite !le_bytes_length]. split; [|done].
    rewrite <- (proj1 (of_le_be_small n x Hx)), <- (proj1 (of_le_be_small n y Hy)). by rewrite H. }
  intros Hv Hw. split.
  - unfold varint_len, encode_varint. destruct (v <? 0xfd) eqn:E1, (v <=? 0xfc) eqn:E2; zbool; try lia; [done|].
    destruct (v <=? 0xffff); [done|]. by destruct (v <=? 0xffffffff).
  - unfold encode_varint, as_u8, as_u16, as_u32.
    destruct (v <? 0xfd) eqn:E1, (w <? 0xfd) eqn:E2; zbool.
    1:{ rewrite !wrap_small by zlia. by intros [= -> ->]. }
    1:{ rewrite wrap_small by zlia. destruct (w <=? 0xffff), (w <=? 0xffffffff); cbn [app]; intros Heq; injection Heq; lia. }
    1:{ rewrite (wrap_small 8 w) by zlia. destruct (v <=? 0xffff), (v <=? 0xffffffff); cbn [app]; intros Heq; injection Heq; lia. }
    destruct (v <=? 0xffff) eqn:E3, (w <=? 0xffff) eqn:E4, (v <=? 0xffffffff) eqn:E5, (w <=? 0xffffffff) eqn:E6; zbool; try lia;
      cbn [app]; try discriminate; rewrite ?wrap_small by zlia; intros H; apply (f_equal (drop 1)) in H; cbn [drop] in H.
    + apply (Hle 2%nat) in H; [done|zlia..].
    + apply (Hle 4%nat) in H; [done|zlia..].
    + apply (Hle 8%nat) in H; done.
Qed.

Context `{BitcoinCrate}.

Lemma sorted_insert (x : PlanInput) l : Sorted (fun a b => input_value a <= input_value b) l ->
  Sorted (fun a b => input_value a <= input_value b) (insert_by input_cmp x l).
Proof.
  assert (forall a b, match input_cmp a b with Gt => input_value b <= input_value a | _ => input_value a <= input_value b end) as Hcmp.
  { intros a b. unfold input_cmp. destruct (Z.compare_spec (input_value a) (input_value b)) as [E|E|E]; [|lia..].
    destruct (txid_cmp _ _); [destruct (_ ?= _)|..]; lia. }
  induction 1 as [|y l Hs IH Hy]; cbn; [by repeat constructor|]. specialize (Hcmp x y).
  destruct (input_cmp x y) eqn:E; [by repeat constructor..|]. constructor; [done|].
  destruct Hy as [|z l Hz]; cbn; [by constructor|]. destruct (input_cmp x z); by constructor.
Qed.

Lemma sorted_inputs l : Sorted (fun a b => input_value a <= input_value b) (sort_by input_cmp l).
Proof. induction l as [|x l IH]; [constructor|]. by apply sorted_insert. Qed.

Lemma sorted_facts spendable : Forall (fun i => 0 <= input_value i) spendable ->
  Forall (fun i => 0 <= input_value i) (sort_by input_cmp spendable) /\
  sum input_value (sort_by input_cmp spendable) = sum input_value spendable /\
  length (sort_by input_cmp spendable) = length spendable.
Proof.
  intros Hpos. pose proof (sort_permutation input_cmp spendable) as Hp.
  split; [|split; [by apply sum_permutation|by apply Permutation_length]].
  rewrite Forall_forall in *. intros i Hi. apply Hpos. by rewrite <- Hp.
Qed.

(** Which inputs pay an exact amount.  The candidates are tried in order of
    value; the plan spends the shortest prefix that covers the amount and the
    fee of a transaction with a change output, and funds are insufficient
    exactly when no prefix does, even when they would cover the amount and
    the fee of the transaction without change. *)
Theorem exact_selection (c : BitcoinChain) (v rate : Z) (payment change : bytes) (memo : option PlanOutput) (spendable : list PlanInput) :
  let sorted := sort_by input_cmp spendable in
  let affordable k := v + estimate_fee c (take k sorted) (spend_outputs v payment memo ++ [MkOutput 0 change]) rate
                      <= sum input_value (take k sorted) in
  Forall (fun i => 0 <= input_value i) spendable -> sum input_value spendable <= U64_MAX -> 0 <= rate ->
  (forall k, fee_u128 c (take k sorted) (spend_outputs v payment memo ++ [MkOutput 0 change]) rate < 2 ^ 64) ->
  Sorted (fun a b => input_value a <= input_value b) sorted /\ Permutation sorted spendable /\
  match select_inputs_and_build_plan c (Exact v) rate payment change memo spendable with
  | Ok p => exists k, (1 <= k <= length spendable)%nat /\ inputs p = take k sorted /\ affordable k /\
              forall j, (1 <= j < k)%nat -> ~ affordable j
  | Err e => e = InsufficientFunds /\ forall j, (1 <= j <= length spendable)%nat -> ~ affordable j
  end.
Proof.
  intros sorted affordable Hpos Hsum Hr Hfit. split; [apply sorted_inputs|]. split; [apply sort_permutation|].
  destruct (sorted_facts spendable Hpos) as (Hp & Hs & Hl). fold sorted in Hp, Hs, Hl.
  unfold select_inputs_and_build_plan. fold sorted. rewrite Hs. test_false (U64_MAX <? sum input_value spendable).
  assert (forall k, build_exact_plan c v rate payment change memo (take k sorted) (sum input_value (take k sorted)) = None -> ~ affordable k) as Hno.
  { intros k Hk. apply exact_plan_iff in Hk; [|done|apply Hfit]. unfold affordable. lia. }
  assert (forall k p, build_exact_plan c v rate payment change memo (take k sorted) (sum input_value (take k sorted)) = Some p ->
    inputs p = take k sorted /\ affordable k) as Hyes.
  { intros k p Hk. split.
    - unfold build_exact_plan in Hk. destruct (remainder_after _ _ _); [|done]. destruct (_ <=? _); [by injection Hk as <-|].
      destruct (remainder_after _ _ _); [|done]. by injection Hk as <-.
    - unfold affordable. destruct (decide (v + estimate_fee c (take k sorted) (spend_outputs v payment memo ++ [MkOutput 0 change]) rate
        <= sum input_value (take k sorted))) as [|Hn]; [done|]. exfalso.
      enough (build_exact_plan c v rate payment change memo (take k sorted) (sum input_value (take k sorted)) = None) by congruence.
      apply exact_plan_iff; [done|apply Hfit|lia]. }
  destruct (exact_loop c v rate payment change memo (length sorted) sorted 0 []) as [(k & p & Hk & Hb & Hres & Hmin)|[Hres Hmin]];
    [done|cbn [app]; lia|..]; cbn [app] in *; cbn [sum foldr] in Hres; rewrite Hres; rewrite <- Hl.
  - exists k. destruct (Hyes k p Hb). eauto 10.
  - split; [done|]. eauto.
Qed.

Lemma spendable_values chain address us l : spendable_inputs chain address us = Ok l -> Forall (fun u => 0 <= utxo_value u) us ->
  Forall (fun i => 0 <= input_value i) l.
Proof.
  unfold spendable_inputs. destruct (script_for_address chain address); [|done]. destruct (key_script _) as [[? hash]|]; [|done]. cbn [ok_or].
  intros Hc%collect_ok_iff Hpos. clear -Hc Hpos; induction Hc as [|w i us' l' Hu _ IH]; [constructor|]. apply Forall_cons in Hpos as [Hu0 Hpos].
  constructor; [|by apply IH]. unfold spendable_input in Hu. destruct (script_for_address _ _); [|done].
  destruct (key_script _) as [[? ?]|]; [|done]. cbn [ok_or] in Hu. destruct (negb _); [done|].
  unfold value_u64 in Hu. destruct (_ <=? U64_MAX); [|done]. cbn [ok_or] in Hu. destruct (_ =? 0); [done|]. destruct (_ <? 0); [done|].
  destruct (txid_from_str _); [|done]. by injection Hu as <-.
Qed.

Lemma spendable_length chain address us l : spendable_inputs chain address us = Ok l -> length l = length us.
Proof.
  unfold spendable_inputs. destruct (script_for_address chain address); [|done]. destruct (key_script _) as [[? hash]|]; [|done].
  apply collect_length.
Qed.

Lemma memo_output_value m o : match m with Some data => let? output := op_return_output data in Ok (Some output) | None => Ok None end = Ok o ->
  memo_value o = 0 /\ o = (fun data => MkOutput 0 (op_return_script data)) <$> m /\
  match m with Some data => (length data <= MAX_OP_RETURN_BYTES)%nat | None => True end.
Proof.
  destruct m as [data|]; [|by intros [= <-]]. unfold op_return_output. destruct (MAX_OP_RETURN_BYTES <? length data)%nat eqn:E; [done|].
  destruct (push_bytes_fit data); [|done]. intros [= <-]. split; [done|]. split; [done|]. by apply Nat.ltb_ge in E.
Qed.

(** (C10) Every plan conserves value: the inputs, all of the sender's and taken from
    the request in order of value, are worth exactly the outputs and the fee.
    The first output pays the requested amount (everything but the fee when
    the maximum is sent) and is not dust, a memo of at most 80 bytes follows
    it, change is returned to the sender only when it is not dust, and the
    fee is at least the estimate for the transaction as planned.  The check
    before signing accepts the plan. *)
Theorem plan_conserves (request : SpendRequest) (p : SpendPlan) :
  Forall (fun u => 0 <= utxo_value u) (utxos request) -> 0 <= amount request -> plan request = Ok p ->
  exists payment change spendable v k,
    script_for_address (chain request) (destination_address request) = Ok payment /\
    script_for_address (chain request) (sender_address request) = Ok change /\
    spendable_inputs (chain request) (sender_address request) (utxos request) = Ok spendable /\
    inputs p = take k (sort_by input_cmp spendable) /\
    (if is_max request then inputs p = sort_by input_cmp spendable else v = amount request) /\
    0 < v /\ dust_threshold (chain request) (address_script_pubkey payment) <= v /\
    plan_for (chain request) (fee_rate request) v (address_script_pubkey payment) (address_script_pubkey change)
      ((fun data => MkOutput 0 (op_return_script data)) <$> memo request) (inputs p) p /\
    match memo request with Some data => (length data <= MAX_OP_RETURN_BYTES)%nat | None => True end /\
    validate_plan_amounts (chain request) p = Ok tt.
Proof.
  intros Hpos Ham. unfold plan. destruct (length (utxos request) =? 0)%nat eqn:Hne; [done|].
  destruct (negb (is_max request) && (amount request =? 0)) eqn:Hzero; [done|].
  destruct (script_for_address (chain request) (destination_address request)) as [payment|] eqn:Hpay; [|done].
  destruct (negb (is_max request) && (amount request <? _)) eqn:Hdust; [done|].
  destruct (script_for_address (chain request) (sender_address request)) as [change|] eqn:Hch; [|done].
  destruct (match memo request with Some data => _ | None => _ end) as [m|] eqn:Hmemo; [|done].
  destruct (memo_output_value _ _ Hmemo) as (Hmz & Hm & Hml). clear Hmemo. subst m.
  destruct (spendable_inputs _ _ _) as [spendable|] eqn:Hsp; [|done]. pose proof (spendable_values _ _ _ _ Hsp Hpos) as Hv.
  destruct (sorted_facts spendable Hv) as (Hsp0 & Hsum & Hlen).
  unfold select_inputs_and_build_plan. set (sorted := sort_by input_cmp spendable) in *.
  destruct (U64_MAX <? sum input_value sorted) eqn:Hover; [done|]. zbool. set (m := _ <$> memo request) in *. intros Hplan.
  assert (forall w l, plan_for (chain request) (fee_rate request) w (address_script_pubkey payment) (address_script_pubkey change) m l p ->
    inputs p = l -> validate_plan_amounts (chain request) p = Ok tt) as Hval.
  { intros w l (_ & Hcons & _) Hi. unfold validate_plan_amounts. by rewrite Hi, Hcons, Z.eqb_refl. }
  destruct (is_max request) eqn:Hmax; cbn [negb andb] in Hzero, Hdust.
  - assert (sorted <> []) as Hsorted.
    { intros E. rewrite E in Hlen. cbn in Hlen. pose proof (spendable_length _ _ _ _ Hsp). lia. }
    rewrite (max_loop _ _ _ _ _ _ sorted 0 []) in Hplan by (cbn [app]; try done; lia). cbn [app] in Hplan.
    destruct (max_plan_for _ _ _ (address_script_pubkey change) _ _ _ Hmz Hplan) as (w & Hfor & Hw & Hd & _).
    assert (inputs p = sorted) as Hi by apply Hfor.
    exists payment, change, spendable, w, (length sorted). rewrite Hi, firstn_all.
    do 7 (split; [done|]). split; [done|]. split; [done|]. by eapply Hval.
  - destruct (exact_loop (chain request) (amount request) (fee_rate request) (address_script_pubkey payment)
      (address_script_pubkey change) m (length sorted) sorted 0 []) as [(k & q & Hk & Hb & Hres & _)|[Hres _]];
      [done|cbn [app]; lia|..]; cbn [app sum foldr] in *; rewrite Hres in Hplan; [|done].
    apply ok_inj in Hplan as ->. zbool.
    assert (sum input_value (take k sorted) <= U64_MAX) as Hk2.
    { rewrite <- (take_drop k sorted), sum_app in Hover. pose proof (sum_nonneg _ _ (Forall_drop _ k _ Hsp0)). lia. }
    pose proof (exact_plan_for _ _ _ _ _ _ _ _ Hmz Ham Hk2 Hb) as Hfor. assert (inputs p = take k sorted) as Hi by apply Hfor.
    exists payment, change, spendable, (amount request), k. rewrite Hi.
    assert (0 < amount request) by lia. do 6 (split; [done|]). split; [destruct Hdust; [done|by apply Z.ltb_ge]|].
    split; [done|]. split; [done|]. by eapply Hval.
Qed.

End properties.

(** ** Witnesses *)

Section witnesses.
Import BitcoinEncoding BitcoinPlanner PlannerFacts.

(** Every address is a P2WPKH one, its key hash being its characters. *)
#[local] Instance sample_crate : BitcoinCrate := {
  is_p2pkh s := false;
  is_p2wpkh s := bool_decide (take 2 s = [0x00; 0x14]);
  is_op_return s := bool_decide (head s = Some 0x6a);
  minimal_non_dust s := 294;
  push_bytes_fit data := true;
  op_return_script data := 0x6a :: Z.of_nat (length data) :: data;
  txid_from_str s := Some (bytes_of_string s);
  txid_cmp a b := of_be a ?= of_be b;
  script_for_address c s := Ok (MkAddressScript (0x00 :: 0x14 :: take 20 (bytes_of_string s ++ replicate 20 0)) LockP2wpkh);
}.
#[local] Instance sample_crate_laws : BitcoinCrateLaws.
Proof. split; [done|]. intros. by vm_compute. Qed.

Lemma varint_faithful_witness : varint_len 300 = Z.of_nat (length (encode_varint 300)).
Proof. refine (proj1 (varint_faithful 300 0 [] [] _ _)); by vm_compute. Defined.

(** Two coins, one of which would pay alone. *)
Definition sample_request : SpendRequest :=
  MkRequest Bitcoin "sender" "destination" 50000 false 20 (Some [1; 2; 3])
    [MkUTXO "a" 0 1000 "sender"; MkUTXO "b" 1 100000 "sender"].

Definition sample_plan : SpendPlan :=
  match plan sample_request with Ok p => p | Err _ => MkPlan [] [] 0 end.

(** Trying the smallest coins first spends both coins, where the larger one
    alone would do: the number of inputs is not minimal. *)
Example smallest_first_not_fewest :
  map input_value (inputs sample_plan) = [1000; 100000] /\
  exists p, build_exact_plan Bitcoin 50000 20 [] [] None (drop 1 (inputs sample_plan)) 100000 = Some p.
Proof. split; [by vm_compute|]. eexists. by vm_compute. Qed.

Lemma plan_conserves_witness : validate_plan_amounts Bitcoin sample_plan = Ok tt.
Proof.
  assert (Forall (fun u => 0 <= utxo_value u) (utxos sample_request)) as Hu by (repeat (apply Forall_cons; split; [done|]); constructor).
  assert (plan sample_request = Ok sample_plan) as Hp by (by vm_compute).
  destruct (plan_conserves sample_request sample_plan Hu ltac:(done) Hp) as (? & ? & ? & ? & ? & _ & _ & _ & _ & _ & _ & _ & _ & _ & Hv).
  exact Hv.
Defined.

Definition lone_coin (value : Z) : PlanInput := MkInput (MkOutPoint [1] 0) value [0x00; 0x14] P2wpkh RBF_SEQUENCE.
Definition sample_payment : bytes := 0x00 :: 0x14 :: replicate 20 7.

(** A coin worth the amount and the fee of a transaction without change is
    refused: the fee of a transaction with change is not covered. *)
Lemma exact_selection_witness :
  select_inputs_and_build_plan Bitcoin (Exact 50000) 20 sample_payment sample_payment None
    [lone_coin (50000 + estimate_fee Bitcoin [lone_coin 0] (spend_outputs 50000 sample_payment None) 20)]
  = Err InsufficientFunds.
Proof.
  set (coin := lone_coin _).
  assert (Forall (fun i => 0 <= input_value i) [coin]) as H1 by (repeat constructor; by vm_compute).
  assert (sum input_value [coin] <= U64_MAX) as H2 by (by vm_compute).
  assert (forall k, fee_u128 Bitcoin (take k (sort_by input_cmp [coin]))
    (spend_outputs 50000 sample_payment None ++ [MkOutput 0 sample_payment]) 20 < 2 ^ 64) as H3
    by (intros [|[|k]]; by vm_compute).
  destruct (exact_selection Bitcoin 50000 20 sample_payment sample_payment None [coin] H1 H2 ltac:(lia) H3) as (_ & _ & Hres).
  destruct (select_inputs_and_build_plan _ _ _ _ _ _ _) as [p|e].
  - destruct Hres as (k & Hk & _ & Haff & _). exfalso. assert (k = 1%nat) as -> by (cbn in Hk; lia). by vm_compute in Haff.
  - by destruct Hres as [-> _].
Defined.

End witnesses.
