(* ===== verification/ChainRegistry.v ===== *)
(** * The chain registry

    Models [primitives/src/chain_config.rs] (the table of chains and [get_chain_config]), [chain.rs],
    [chain_type.rs], [asset_type.rs] and the sub-families of chains of [chain_evm.rs], [chain_stake.rs] and
    [chain_cosmos.rs].  The table is translated entry by entry.  A look-up that panics in the source is an
    [option] here; the theorems show that none does ([registry_total]) and which chain a numeric network
    id denotes ([chain_ids]).

    [AsRefStr] and [EnumString] with [serialize_all = "lowercase"] give the names in lower case, and
    [EnumIter] iterates in the order of the declaration. *)
From S2P Require Import Prelude HexText.

Module Chains.

Inductive Chain : Type :=
| Bitcoin | BitcoinCash | Litecoin | Ethereum | SmartChain | Solana | Polygon | Thorchain
| Mayachain | Cosmos | Osmosis | Arbitrum | Ton | Tron | Doge | Zcash | Optimism | Aptos | Base
| AvalancheC | Sui | Xrp | OpBNB | Fantom | Gnosis | Celestia | Injective | Sei | SeiEvm | Manta
| Blast | Noble | ZkSync | Linea | Mantle | Celo | Near | World | Stellar | Sonic | Algorand
| Polkadot | Plasma | Cardano | Abstract | Berachain | Ink | Unichain | Hyperliquid | HyperCore
| Monad | XLayer | Robinhood | Stable | Tempo.

#[export] Instance Chain_eq_dec : EqDecision Chain.
Proof. solve_decision. Defined.

(** [Chain::iter] *)
Definition all : list Chain :=
  [Bitcoin; BitcoinCash; Litecoin; Ethereum; SmartChain; Solana; Polygon; Thorchain; Mayachain; Cosmos;
   Osmosis; Arbitrum; Ton; Tron; Doge; Zcash; Optimism; Aptos; Base; AvalancheC; Sui; Xrp; OpBNB;
   Fantom; Gnosis; Celestia; Injective; Sei; SeiEvm; Manta; Blast; Noble; ZkSync; Linea; Mantle; Celo;
   Near; World; Stellar; Sonic; Algorand; Polkadot; Plasma; Cardano; Abstract; Berachain; Ink;
   Unichain; Hyperliquid; HyperCore; Monad; XLayer; Robinhood; Stable; Tempo].

(** [Chain::as_ref] and [Chain::from_str] *)
Definition as_ref (self : Chain) : string :=
  match self with
  | Bitcoin => "bitcoin"
  | BitcoinCash => "bitcoincash"
  | Litecoin => "litecoin"
  | Ethereum => "ethereum"
  | SmartChain => "smartchain"
  | Solana => "solana"
  | Polygon => "polygon"
  | Thorchain => "thorchain"
  | Mayachain => "mayachain"
  | Cosmos => "cosmos"
  | Osmosis => "osmosis"
  | Arbitrum => "arbitrum"
  | Ton => "ton"
  | Tron => "tron"
  | Doge => "doge"
  | Zcash => "zcash"
  | Optimism => "optimism"
  | Aptos => "aptos"
  | Base => "base"
  | AvalancheC => "avalanchec"
  | Sui => "sui"
  | Xrp => "xrp"
  | OpBNB => "opbnb"
  | Fantom => "fantom"
  | Gnosis => "gnosis"
  | Celestia => "celestia"
  | Injective => "injective"
  | Sei => "sei"
  | SeiEvm => "seievm"
  | Manta => "manta"
  | Blast => "blast"
  | Noble => "noble"
  | ZkSync => "zksync"
  | Linea => "linea"
  | Mantle => "mantle"
  | Celo => "celo"
  | Near => "near"
  | World => "world"
  | Stellar => "stellar"
  | Sonic => "sonic"
  | Algorand => "algorand"
  | Polkadot => "polkadot"
  | Plasma => "plasma"
  | Cardano => "cardano"
  | Abstract => "abstract"
  | Berachain => "berachain"
  | Ink => "ink"
  | Unichain => "unichain"
  | Hyperliquid => "hyperliquid"
  | HyperCore => "hypercore"
  | Monad => "monad"
  | XLayer => "xlayer"
  | Robinhood => "robinhood"
  | Stable => "stable"
  | Tempo => "tempo"
  end.

Definition from_str (s : string) : option Chain :=
  snd <$> list_find (fun chain => as_ref chain = s) all.

#[export] Instance Chain_countable : Countable Chain.
Proof.
  refine (inj_countable as_ref from_str _). intros chain. by destruct chain.
Defined.

End Chains.

Module ChainTypes.

Inductive ChainType : Type :=
| Ethereum | Bitcoin | Solana | Cosmos | Ton | Tron | Aptos | Sui | Xrp | Near | Stellar | Algorand
| Polkadot | Cardano | HyperCore.

#[export] Instance ChainType_eq_dec : EqDecision ChainType.
Proof. solve_decision. Defined.

(** [ChainType::as_ref] *)
Definition as_ref (self : ChainType) : string :=
  match self with
  | Ethereum => "ethereum"
  | Bitcoin => "bitcoin"
  | Solana => "solana"
  | Cosmos => "cosmos"
  | Ton => "ton"
  | Tron => "tron"
  | Aptos => "aptos"
  | Sui => "sui"
  | Xrp => "xrp"
  | Near => "near"
  | Stellar => "stellar"
  | Algorand => "algorand"
  | Polkadot => "polkadot"
  | Cardano => "cardano"
  | HyperCore => "hypercore"
  end.

Definition from_str (s : string) : option ChainType :=
  snd <$> list_find (fun x => as_ref x = s)
    [Ethereum; Bitcoin; Solana; Cosmos; Ton; Tron; Aptos; Sui;
     Xrp; Near; Stellar; Algorand; Polkadot; Cardano; HyperCore].

#[export] Instance ChainType_countable : Countable ChainType.
Proof.
  refine (inj_countable as_ref from_str _). intros x. by destruct x.
Defined.

End ChainTypes.

Module AssetTypes.

Inductive AssetType : Type :=
| NATIVE | ERC20 | BEP20 | SPL | SPL2022 | TRC20 | TIP20 | TOKEN | IBC | JETTON | SYNTH | ASA
| PERPETUAL | SPOT.

#[export] Instance AssetType_eq_dec : EqDecision AssetType.
Proof. solve_decision. Defined.

End AssetTypes.

(** ** [chain_cosmos.rs] *)

Module CosmosChains.

Inductive CosmosDenom : Type :=
| Rune | Cacao | Uatom | Uosmo | Utia | Inj | Usei | Uusdc.

Inductive CosmosChain : Type :=
| Cosmos | Osmosis | Celestia | Thorchain | Mayachain | Injective | Sei | Noble.

Definition all : list CosmosChain :=
  [Cosmos; Osmosis; Celestia; Thorchain; Mayachain; Injective; Sei; Noble].

Definition as_ref (self : CosmosChain) : string :=
  match self with
  | Cosmos => "cosmos"
  | Osmosis => "osmosis"
  | Celestia => "celestia"
  | Thorchain => "thorchain"
  | Mayachain => "mayachain"
  | Injective => "injective"
  | Sei => "sei"
  | Noble => "noble"
  end.

Definition denom_as_ref (self : CosmosDenom) : string :=
  match self with
  | Rune => "rune"
  | Cacao => "cacao"
  | Uatom => "uatom"
  | Uosmo => "uosmo"
  | Utia => "utia"
  | Inj => "inj"
  | Usei => "usei"
  | Uusdc => "uusdc"
  end.

Definition hrp (self : CosmosChain) : string :=
  match self with
  | Cosmos => "cosmos"
  | Osmosis => "osmo"
  | Celestia => "celestia"
  | Thorchain => "thor"
  | Mayachain => "maya"
  | Injective => "inj"
  | Sei => "sei"
  | Noble => "noble"
  end.

Definition denom (self : CosmosChain) : CosmosDenom :=
  match self with
  | Cosmos => Uatom
  | Osmosis => Uosmo
  | Celestia => Utia
  | Thorchain => Rune
  | Mayachain => Cacao
  | Injective => Inj
  | Sei => Usei
  | Noble => Uusdc
  end.

Definition from_chain (chain : Chains.Chain) : option CosmosChain :=
  snd <$> list_find (fun x => as_ref x = Chains.as_ref chain) all.
(** [None] where the source's [unwrap] panics. *)
Definition as_chain (self : CosmosChain) : option Chains.Chain := Chains.from_str (as_ref self).

End CosmosChains.

(** ** [chain_config.rs] *)

Module ChainConfigs.
Import Chains.

Definition NO_NATIVE_ASSET_RANK : Z := -1.

Inductive ChainStack : Type := StackNative | StackOptimism | StackZkSync.

#[export] Instance ChainStack_eq_dec : EqDecision ChainStack.
Proof. solve_decision. Defined.

Record EvmChainConfig := MkEvm {
  min_priority_fee : Z;
  chain_stack : ChainStack;
  is_ethereum_layer2 : bool;
  weth_contract : option string
}.

Record StakeChainConfig := MkStake {
  lock_time : Z;
  min_stake_amount : Z;
  change_amount_on_unstake : bool;
  can_redelegate : bool;
  can_withdraw : bool;
  can_claim_rewards : bool;
  can_claim_all_rewards : bool;
  reserved_for_fees : Z
}.

Record ChainConfig := MkConfig {
  chain : Chain;
  network_id : string;
  denom : option string;
  slip44 : Z;
  chain_type : ChainTypes.ChainType;
  default_asset_type : option AssetTypes.AssetType;
  account_activation_fee : option Z;
  token_activation_fee : option Z;
  minimum_account_balance : option Z;
  block_time : Z;
  rank : Z;
  is_swap_supported : bool;
  is_nft_supported : bool;
  is_defi_supported : bool;
  is_utxo : bool;
  evm : option EvmChainConfig;
  stake : option StakeChainConfig
}.

Definition ARBITRUM_WETH_TOKEN_ID : string := "0x82aF49447D8a07e3bd95BD0d56f35241523fBab1".
Definition BASE_WETH_TOKEN_ID : string := "0x4200000000000000000000000000000000000006".
Definition BLAST_WETH_TOKEN_ID : string := "0x4300000000000000000000000000000000000004".
Definition CELO_WETH_TOKEN_ID : string := "0x471EcE3750Da237f93B8E339c536989b8978a438".
Definition ETHEREUM_WETH_TOKEN_ID : string := "0xC02aaA39b223FE8D0A0e5C4F27eAD9083C756Cc2".
Definition INK_WETH_TOKEN_ID : string := "0x4200000000000000000000000000000000000006".
Definition LINEA_WETH_TOKEN_ID : string := "0xe5D7C2a44FfDDf6b295A15c148167daaAf5Cf34f".
Definition OPBNB_WETH_TOKEN_ID : string := "0x4200000000000000000000000000000000000006".
Definition OPTIMISM_WETH_TOKEN_ID : string := "0x4200000000000000000000000000000000000006".
Definition ROBINHOOD_WETH_TOKEN_ID : string := "0x0Bd7D308f8E1639FAb988df18A8011f41EAcAD73".
Definition UNICHAIN_WETH_TOKEN_ID : string := "0x4200000000000000000000000000000000000006".
Definition WORLD_WETH_TOKEN_ID : string := "0x4200000000000000000000000000000000000006".
Definition ZKSYNC_WETH_TOKEN_ID : string := "0x5AEa5775959fBC2557Cc8789bC1bf90A239D9a91".

Definition config_Bitcoin : ChainConfig := {|
  chain := Bitcoin;
  network_id := "000000000019d6689c085ae165831e934ff763ae46a2a6c172b3f1b60a8ce26f";
  denom := None;
  slip44 := 0;
  chain_type := ChainTypes.Bitcoin;
  default_asset_type := None;
  account_activation_fee := None;
  token_activation_fee := None;
  minimum_account_balance := None;
  block_time := 600000;
  rank := 100;
  is_swap_supported := true;
  is_nft_supported := false;
  is_defi_supported := false;
  is_utxo := true;
  evm := None;
  stake := None |}.

Definition config_BitcoinCash : ChainConfig := {|
  chain := BitcoinCash;
  network_id := "000000000019d6689c085ae165831e934ff763ae46a2a6c172b3f1b60a8ce26f";
  denom := None;
  slip44 := 145;
  chain_type := ChainTypes.Bitcoin;
  default_asset_type := None;
  account_activation_fee := None;
  token_activation_fee := None;
  minimum_account_balance := None;
  block_time := 600000;
  rank := 40;
  is_swap_supported := true;
  is_nft_supported := false;
  is_defi_supported := false;
  is_utxo := true;
  evm := None;
  stake := None |}.

Definition config_Litecoin : ChainConfig := {|
  chain := Litecoin;
  network_id := "12a765e31ffd4059bada1e25190f6e98c99d9714d334efa41a195a7e7e04bfe2";
  denom := None;
  slip44 := 2;
  chain_type := ChainTypes.Bitcoin;
  default_asset_type := None;
  account_activation_fee := None;
  token_activation_fee := None;
  minimum_account_balance := None;
  block_time := 120000;
  rank := 30;
  is_swap_supported := true;
  is_nft_supported := false;
  is_defi_supported := false;
  is_utxo := true;
  evm := None;
  stake := None |}.

Definition config_Ethereum : ChainConfig := {|
  chain := Ethereum;
  network_id := "1";
  denom := None;
  slip44 := 60;
  chain_type := ChainTypes.Ethereum;
  default_asset_type := Some AssetTypes.ERC20;
  account_activation_fee := None;
  token_activation_fee := None;
  minimum_account_balance := None;
  block_time := 12000;
  rank := 85;
  is_swap_supported := true;
  is_nft_supported := true;
  is_defi_supported := true;
  is_utxo := false;
  evm := Some {|
      min_priority_fee := 100000000;
      chain_stack := StackNative;
      is_ethereum_layer2 := false;
      weth_contract := Some ETHEREUM_WETH_TOKEN_ID |};
  stake := Some {|
      lock_time := 259200;
      min_stake_amount := 10000000000000000;
      change_amount_on_unstake := true;
      can_redelegate := false;
      can_withdraw := true;
      can_claim_rewards := false;
      can_claim_all_rewards := false;
      reserved_for_fees := 5000000000000000 |} |}.

Definition config_SmartChain : ChainConfig := {|
  chain := SmartChain;
  network_id := "56";
  denom := None;
  slip44 := 9006;
  chain_type := ChainTypes.Ethereum;
  default_asset_type := Some AssetTypes.BEP20;
  account_activation_fee := None;
  token_activation_fee := None;
  minimum_account_balance := None;
  block_time := 1000;
  rank := 80;
  is_swap_supported := true;
  is_nft_supported := true;
  is_defi_supported := true;
  is_utxo := false;
  evm := Some {|
      min_priority_fee := 50000000;
      chain_stack := StackNative;
      is_ethereum_layer2 := false;
      weth_contract := Some "0xbb4CdB9CBd36B01bD1cBaEBF2De08d9173bc095c" |};
  stake := Some {|
      lock_time := 604800;
      min_stake_amount := 1000000000000000000;
      change_amount_on_unstake := true;
      can_redelegate := true;
      can_withdraw := true;
      can_claim_rewards := false;
      can_claim_all_rewards := false;
      reserved_for_fees := 250000000000000 |} |}.

Definition config_Solana : ChainConfig := {|
  chain := Solana;
  network_id := "5eykt4UsFv8P8NJdTREpY1vzqKqZKvdpKuc147dw2N9d";
  denom := None;
  slip44 := 501;
  chain_type := ChainTypes.Solana;
  default_asset_type := Some AssetTypes.SPL;
  account_activation_fee := None;
  token_activation_fee := Some 2039280;
  minimum_account_balance := Some 890880;
  block_time := 500;
  rank := 80;
  is_swap_supported := true;
  is_nft_supported := true;
  is_defi_supported := true;
  is_utxo := false;
  evm := None;
  stake := Some {|
      lock_time := 259200;
      min_stake_amount := 1000000000;
      change_amount_on_unstake := false;
      can_redelegate := false;
      can_withdraw := true;
      can_claim_rewards := false;
      can_claim_all_rewards := false;
      reserved_for_fees := 5000000 |} |}.

Definition config_Polygon : ChainConfig := {|
  chain := Polygon;
  network_id := "137";
  denom := None;
  slip44 := 60;
  chain_type := ChainTypes.Ethereum;
  default_asset_type := Some AssetTypes.ERC20;
  account_activation_fee := None;
  token_activation_fee := None;
  minimum_account_balance := None;
  block_time := 3000;
  rank := 30;
  is_swap_supported := true;
  is_nft_supported := true;
  is_defi_supported := true;
  is_utxo := false;
  evm := Some {|
      min_priority_fee := 30000000000;
      chain_stack := StackNative;
      is_ethereum_layer2 := false;
      weth_contract := Some "0x0d500B1d8E8eF31E21C99d1Db9A6444d3ADf1270" |};
  stake := None |}.

Definition config_Thorchain : ChainConfig := {|
  chain := Thorchain;
  network_id := "thorchain-1";
  denom := Some (CosmosChains.denom_as_ref (CosmosChains.denom CosmosChains.Thorchain));
  slip44 := 931;
  chain_type := ChainTypes.Cosmos;
  default_asset_type := None;
  account_activation_fee := None;
  token_activation_fee := None;
  minimum_account_balance := None;
  block_time := 2000;
  rank := 30;
  is_swap_supported := true;
  is_nft_supported := false;
  is_defi_supported := false;
  is_utxo := false;
  evm := None;
  stake := None |}.

Definition config_Mayachain : ChainConfig := {|
  chain := Mayachain;
  network_id := "mayachain-mainnet-v1";
  denom := Some (CosmosChains.denom_as_ref (CosmosChains.denom CosmosChains.Mayachain));
  slip44 := 931;
  chain_type := ChainTypes.Cosmos;
  default_asset_type := None;
  account_activation_fee := None;
  token_activation_fee := None;
  minimum_account_balance := None;
  block_time := 6000;
  rank := 30;
  is_swap_supported := false;
  is_nft_supported := false;
  is_defi_supported := false;
  is_utxo := false;
  evm := None;
  stake := None |}.

Definition config_Cosmos : ChainConfig := {|
  chain := Cosmos;
  network_id := "cosmoshub-4";
  denom := Some (CosmosChains.denom_as_ref (CosmosChains.denom CosmosChains.Cosmos));
  slip44 := 118;
  chain_type := ChainTypes.Cosmos;
  default_asset_type := None;
  account_activation_fee := None;
  token_activation_fee := None;
  minimum_account_balance := None;
  block_time := 6000;
  rank := 40;
  is_swap_supported := true;
  is_nft_supported := false;
  is_defi_supported := false;
  is_utxo := false;
  evm := None;
  stake := Some {|
      lock_time := 1814400;
      min_stake_amount := 0;
      change_amount_on_unstake := true;
      can_redelegate := true;
      can_withdraw := false;
      can_claim_rewards := true;
      can_claim_all_rewards := true;
      reserved_for_fees := 25000 |} |}.

Definition config_Osmosis : ChainConfig := {|
  chain := Osmosis;
  network_id := "osmosis-1";
  denom := Some (CosmosChains.denom_as_ref (CosmosChains.denom CosmosChains.Osmosis));
  slip44 := 118;
  chain_type := ChainTypes.Cosmos;
  default_asset_type := None;
  account_activation_fee := None;
  token_activation_fee := None;
  minimum_account_balance := None;
  block_time := 6000;
  rank := 50;
  is_swap_supported := true;
  is_nft_supported := false;
  is_defi_supported := false;
  is_utxo := false;
  evm := None;
  stake := Some {|
      lock_time := 1209600;
      min_stake_amount := 0;
      change_amount_on_unstake := true;
      can_redelegate := true;
      can_withdraw := false;
      can_claim_rewards := true;
      can_claim_all_rewards := true;
      reserved_for_fees := 10000 |} |}.

Definition config_Arbitrum : ChainConfig := {|
  chain := Arbitrum;
  network_id := "42161";
  denom := None;
  slip44 := 60;
  chain_type := ChainTypes.Ethereum;
  default_asset_type := Some AssetTypes.ERC20;
  account_activation_fee := None;
  token_activation_fee := None;
  minimum_account_balance := None;
  block_time := 1000;
  rank := 30;
  is_swap_supported := true;
  is_nft_supported := false;
  is_defi_supported := true;
  is_utxo := false;
  evm := Some {|
      min_priority_fee := 10000000;
      chain_stack := StackNative;
      is_ethereum_layer2 := true;
      weth_contract := Some ARBITRUM_WETH_TOKEN_ID |};
  stake := None |}.

Definition config_Ton : ChainConfig := {|
  chain := Ton;
  network_id := "F6OpKZKqvqeFp6CQmFomXNMfMj2EnaUSOXN+Mh+wVWk=";
  denom := None;
  slip44 := 607;
  chain_type := ChainTypes.Ton;
  default_asset_type := Some AssetTypes.JETTON;
  account_activation_fee := None;
  token_activation_fee := None;
  minimum_account_balance := None;
  block_time := 5000;
  rank := 50;
  is_swap_supported := true;
  is_nft_supported := true;
  is_defi_supported := false;
  is_utxo := false;
  evm := None;
  stake := None |}.

Definition config_Tron : ChainConfig := {|
  chain := Tron;
  network_id := "0x2b6653dc";
  denom := None;
  slip44 := 195;
  chain_type := ChainTypes.Tron;
  default_asset_type := Some AssetTypes.TRC20;
  account_activation_fee := None;
  token_activation_fee := None;
  minimum_account_balance := None;
  block_time := 3000;
  rank := 70;
  is_swap_supported := true;
  is_nft_supported := false;
  is_defi_supported := false;
  is_utxo := false;
  evm := None;
  stake := Some {|
      lock_time := 1209600;
      min_stake_amount := 1000000;
      change_amount_on_unstake := true;
      can_redelegate := true;
      can_withdraw := true;
      can_claim_rewards := true;
      can_claim_all_rewards := true;
      reserved_for_fees := 10000000 |} |}.

Definition config_Doge : ChainConfig := {|
  chain := Doge;
  network_id := "1a91e3dace36e2be3bf030a65679fe821aa1d6ef92e7c9902eb318182c355691";
  denom := None;
  slip44 := 3;
  chain_type := ChainTypes.Bitcoin;
  default_asset_type := None;
  account_activation_fee := None;
  token_activation_fee := None;
  minimum_account_balance := None;
  block_time := 60000;
  rank := 30;
  is_swap_supported := true;
  is_nft_supported := false;
  is_defi_supported := false;
  is_utxo := true;
  evm := None;
  stake := None |}.

Definition config_Zcash : ChainConfig := {|
  chain := Zcash;
  network_id := "00040fe8ec8471911baa1db1266ea15dd06b4a8a5c453883c000b031973dce08";
  denom := None;
  slip44 := 133;
  chain_type := ChainTypes.Bitcoin;
  default_asset_type := None;
  account_activation_fee := None;
  token_activation_fee := None;
  minimum_account_balance := None;
  block_time := 75000;
  rank := 30;
  is_swap_supported := true;
  is_nft_supported := false;
  is_defi_supported := false;
  is_utxo := true;
  evm := None;
  stake := None |}.

Definition config_Optimism : ChainConfig := {|
  chain := Optimism;
  network_id := "10";
  denom := None;
  slip44 := 60;
  chain_type := ChainTypes.Ethereum;
  default_asset_type := Some AssetTypes.ERC20;
  account_activation_fee := None;
  token_activation_fee := None;
  minimum_account_balance := None;
  block_time := 2000;
  rank := 30;
  is_swap_supported := true;
  is_nft_supported := false;
  is_defi_supported := true;
  is_utxo := false;
  evm := Some {|
      min_priority_fee := 1000000;
      chain_stack := StackOptimism;
      is_ethereum_layer2 := true;
      weth_contract := Some OPTIMISM_WETH_TOKEN_ID |};
  stake := None |}.

Definition config_Aptos : ChainConfig := {|
  chain := Aptos;
  network_id := "1";
  denom := Some "0x1::aptos_coin::AptosCoin";
  slip44 := 637;
  chain_type := ChainTypes.Aptos;
  default_asset_type := Some AssetTypes.TOKEN;
  account_activation_fee := None;
  token_activation_fee := None;
  minimum_account_balance := None;
  block_time := 500;
  rank := 40;
  is_swap_supported := true;
  is_nft_supported := false;
  is_defi_supported := false;
  is_utxo := false;
  evm := None;
  stake := Some {|
      lock_time := 2592000;
      min_stake_amount := 1100000000;
      change_amount_on_unstake := false;
      can_redelegate := false;
      can_withdraw := true;
      can_claim_rewards := false;
      can_claim_all_rewards := false;
      reserved_for_fees := 1000000 |} |}.

Definition config_Base : ChainConfig := {|
  chain := Base;
  network_id := "8453";
  denom := None;
  slip44 := 60;
  chain_type := ChainTypes.Ethereum;
  default_asset_type := Some AssetTypes.ERC20;
  account_activation_fee := None;
  token_activation_fee := None;
  minimum_account_balance := None;
  block_time := 2000;
  rank := 30;
  is_swap_supported := true;
  is_nft_supported := false;
  is_defi_supported := true;
  is_utxo := false;
  evm := Some {|
      min_priority_fee := 5000000;
      chain_stack := StackOptimism;
      is_ethereum_layer2 := true;
      weth_contract := Some BASE_WETH_TOKEN_ID |};
  stake := None |}.

Definition config_AvalancheC : ChainConfig := {|
  chain := AvalancheC;
  network_id := "43114";
  denom := None;
  slip44 := 9005;
  chain_type := ChainTypes.Ethereum;
  default_asset_type := Some AssetTypes.ERC20;
  account_activation_fee := None;
  token_activation_fee := None;
  minimum_account_balance := None;
  block_time := 2000;
  rank := 30;
  is_swap_supported := true;
  is_nft_supported := false;
  is_defi_supported := true;
  is_utxo := false;
  evm := Some {|
      min_priority_fee := 25000000000;
      chain_stack := StackNative;
      is_ethereum_layer2 := false;
      weth_contract := Some "0xB31f66AA3C1e785363F0875A1B74E27b85FD66c7" |};
  stake := None |}.

Definition config_Sui : ChainConfig := {|
  chain := Sui;
  network_id := "35834a8a";
  denom := Some "0x2::sui::SUI";
  slip44 := 784;
  chain_type := ChainTypes.Sui;
  default_asset_type := Some AssetTypes.TOKEN;
  account_activation_fee := None;
  token_activation_fee := None;
  minimum_account_balance := None;
  block_time := 500;
  rank := 40;
  is_swap_supported := true;
  is_nft_supported := false;
  is_defi_supported := false;
  is_utxo := false;
  evm := None;
  stake := Some {|
      lock_time := 86400;
      min_stake_amount := 1000000000;
      change_amount_on_unstake := false;
      can_redelegate := false;
      can_withdraw := false;
      can_claim_rewards := false;
      can_claim_all_rewards := false;
      reserved_for_fees := 100000000 |} |}.

Definition config_Xrp : ChainConfig := {|
  chain := Xrp;
  network_id := "0";
  denom := None;
  slip44 := 144;
  chain_type := ChainTypes.Xrp;
  default_asset_type := Some AssetTypes.TOKEN;
  account_activation_fee := Some 1000000;
  token_activation_fee := Some 200000;
  minimum_account_balance := None;
  block_time := 4000;
  rank := 40;
  is_swap_supported := true;
  is_nft_supported := false;
  is_defi_supported := false;
  is_utxo := false;
  evm := None;
  stake := None |}.

Definition config_OpBNB : ChainConfig := {|
  chain := OpBNB;
  network_id := "204";
  denom := None;
  slip44 := 60;
  chain_type := ChainTypes.Ethereum;
  default_asset_type := Some AssetTypes.BEP20;
  account_activation_fee := None;
  token_activation_fee := None;
  minimum_account_balance := None;
  block_time := 1000;
  rank := 30;
  is_swap_supported := true;
  is_nft_supported := false;
  is_defi_supported := false;
  is_utxo := false;
  evm := Some {|
      min_priority_fee := 1000000;
      chain_stack := StackOptimism;
      is_ethereum_layer2 := false;
      weth_contract := Some OPBNB_WETH_TOKEN_ID |};
  stake := None |}.

Definition config_Fantom : ChainConfig := {|
  chain := Fantom;
  network_id := "250";
  denom := None;
  slip44 := 60;
  chain_type := ChainTypes.Ethereum;
  default_asset_type := Some AssetTypes.ERC20;
  account_activation_fee := None;
  token_activation_fee := None;
  minimum_account_balance := None;
  block_time := 1000;
  rank := 30;
  is_swap_supported := true;
  is_nft_supported := false;
  is_defi_supported := true;
  is_utxo := false;
  evm := Some {|
      min_priority_fee := 3500000000;
      chain_stack := StackNative;
      is_ethereum_layer2 := false;
      weth_contract := Some "0x21be370D5312f44cB42ce377BC9b8a0cEF1A4C83" |};
  stake := None |}.

Definition config_Gnosis : ChainConfig := {|
  chain := Gnosis;
  network_id := "100";
  denom := None;
  slip44 := 60;
  chain_type := ChainTypes.Ethereum;
  default_asset_type := Some AssetTypes.ERC20;
  account_activation_fee := None;
  token_activation_fee := None;
  minimum_account_balance := None;
  block_time := 5000;
  rank := 30;
  is_swap_supported := true;
  is_nft_supported := false;
  is_defi_supported := true;
  is_utxo := false;
  evm := Some {|
      min_priority_fee := 3000000000;
      chain_stack := StackNative;
      is_ethereum_layer2 := false;
      weth_contract := Some "0xe91D153E0b41518A2Ce8Dd3D7944Fa863463a97d" |};
  stake := None |}.

Definition config_Celestia : ChainConfig := {|
  chain := Celestia;
  network_id := "celestia";
  denom := Some (CosmosChains.denom_as_ref (CosmosChains.denom CosmosChains.Celestia));
  slip44 := 118;
  chain_type := ChainTypes.Cosmos;
  default_asset_type := None;
  account_activation_fee := None;
  token_activation_fee := None;
  minimum_account_balance := None;
  block_time := 6000;
  rank := 40;
  is_swap_supported := false;
  is_nft_supported := false;
  is_defi_supported := false;
  is_utxo := false;
  evm := None;
  stake := Some {|
      lock_time := 1209600;
      min_stake_amount := 0;
      change_amount_on_unstake := true;
      can_redelegate := true;
      can_withdraw := false;
      can_claim_rewards := true;
      can_claim_all_rewards := true;
      reserved_for_fees := 100000 |} |}.

Definition config_Injective : ChainConfig := {|
  chain := Injective;
  network_id := "injective-1";
  denom := Some (CosmosChains.denom_as_ref (CosmosChains.denom CosmosChains.Injective));
  slip44 := 60;
  chain_type := ChainTypes.Cosmos;
  default_asset_type := None;
  account_activation_fee := None;
  token_activation_fee := None;
  minimum_account_balance := None;
  block_time := 6000;
  rank := 40;
  is_swap_supported := false;
  is_nft_supported := false;
  is_defi_supported := false;
  is_utxo := false;
  evm := None;
  stake := Some {|
      lock_time := 1814400;
      min_stake_amount := 0;
      change_amount_on_unstake := true;
      can_redelegate := true;
      can_withdraw := false;
      can_claim_rewards := true;
      can_claim_all_rewards := true;
      reserved_for_fees := 10000000000000000 |} |}.

Definition config_Sei : ChainConfig := {|
  chain := Sei;
  network_id := "pacific-1";
  denom := Some (CosmosChains.denom_as_ref (CosmosChains.denom CosmosChains.Sei));
  slip44 := 118;
  chain_type := ChainTypes.Cosmos;
  default_asset_type := None;
  account_activation_fee := None;
  token_activation_fee := None;
  minimum_account_balance := None;
  block_time := 1000;
  rank := 30;
  is_swap_supported := false;
  is_nft_supported := false;
  is_defi_supported := false;
  is_utxo := false;
  evm := None;
  stake := Some {|
      lock_time := 1814400;
      min_stake_amount := 0;
      change_amount_on_unstake := true;
      can_redelegate := true;
      can_withdraw := false;
      can_claim_rewards := true;
      can_claim_all_rewards := true;
      reserved_for_fees := 100000 |} |}.

Definition config_SeiEvm : ChainConfig := {|
  chain := SeiEvm;
  network_id := "1329";
  denom := None;
  slip44 := 60;
  chain_type := ChainTypes.Ethereum;
  default_asset_type := Some AssetTypes.ERC20;
  account_activation_fee := None;
  token_activation_fee := None;
  minimum_account_balance := None;
  block_time := 400;
  rank := 30;
  is_swap_supported := true;
  is_nft_supported := false;
  is_defi_supported := false;
  is_utxo := false;
  evm := Some {|
      min_priority_fee := 1000000000;
      chain_stack := StackNative;
      is_ethereum_layer2 := false;
      weth_contract := Some "0xE30feDd158A2e3b13e9badaeABaFc5516e95e8C7" |};
  stake := None |}.

Definition config_Manta : ChainConfig := {|
  chain := Manta;
  network_id := "169";
  denom := None;
  slip44 := 60;
  chain_type := ChainTypes.Ethereum;
  default_asset_type := Some AssetTypes.ERC20;
  account_activation_fee := None;
  token_activation_fee := None;
  minimum_account_balance := None;
  block_time := 2000;
  rank := 30;
  is_swap_supported := true;
  is_nft_supported := false;
  is_defi_supported := false;
  is_utxo := false;
  evm := Some {|
      min_priority_fee := 10000000;
      chain_stack := StackNative;
      is_ethereum_layer2 := false;
      weth_contract := Some "0x0dc808adce2099a9f62aa87d9670745aba741746" |};
  stake := None |}.

Definition config_Blast : ChainConfig := {|
  chain := Blast;
  network_id := "81457";
  denom := None;
  slip44 := 60;
  chain_type := ChainTypes.Ethereum;
  default_asset_type := Some AssetTypes.ERC20;
  account_activation_fee := None;
  token_activation_fee := None;
  minimum_account_balance := None;
  block_time := 2000;
  rank := 30;
  is_swap_supported := true;
  is_nft_supported := false;
  is_defi_supported := false;
  is_utxo := false;
  evm := Some {|
      min_priority_fee := 200000000;
      chain_stack := StackNative;
      is_ethereum_layer2 := true;
      weth_contract := Some BLAST_WETH_TOKEN_ID |};
  stake := None |}.

Definition config_Noble : ChainConfig := {|
  chain := Noble;
  network_id := "noble-1";
  denom := Some (CosmosChains.denom_as_ref (CosmosChains.denom CosmosChains.Noble));
  slip44 := 118;
  chain_type := ChainTypes.Cosmos;
  default_asset_type := None;
  account_activation_fee := None;
  token_activation_fee := None;
  minimum_account_balance := None;
  block_time := 6000;
  rank := 20;
  is_swap_supported := false;
  is_nft_supported := false;
  is_defi_supported := false;
  is_utxo := false;
  evm := None;
  stake := None |}.

Definition config_ZkSync : ChainConfig := {|
  chain := ZkSync;
  network_id := "324";
  denom := None;
  slip44 := 60;
  chain_type := ChainTypes.Ethereum;
  default_asset_type := Some AssetTypes.ERC20;
  account_activation_fee := None;
  token_activation_fee := None;
  minimum_account_balance := None;
  block_time := 1000;
  rank := 30;
  is_swap_supported := true;
  is_nft_supported := false;
  is_defi_supported := true;
  is_utxo := false;
  evm := Some {|
      min_priority_fee := 20000000;
      chain_stack := StackZkSync;
      is_ethereum_layer2 := true;
      weth_contract := Some ZKSYNC_WETH_TOKEN_ID |};
  stake := None |}.

Definition config_Linea : ChainConfig := {|
  chain := Linea;
  network_id := "59144";
  denom := None;
  slip44 := 60;
  chain_type := ChainTypes.Ethereum;
  default_asset_type := Some AssetTypes.ERC20;
  account_activation_fee := None;
  token_activation_fee := None;
  minimum_account_balance := None;
  block_time := 1000;
  rank := 30;
  is_swap_supported := true;
  is_nft_supported := false;
  is_defi_supported := true;
  is_utxo := false;
  evm := Some {|
      min_priority_fee := 50000000;
      chain_stack := StackNative;
      is_ethereum_layer2 := true;
      weth_contract := Some LINEA_WETH_TOKEN_ID |};
  stake := None |}.

Definition config_Mantle : ChainConfig := {|
  chain := Mantle;
  network_id := "5000";
  denom := None;
  slip44 := 60;
  chain_type := ChainTypes.Ethereum;
  default_asset_type := Some AssetTypes.ERC20;
  account_activation_fee := None;
  token_activation_fee := None;
  minimum_account_balance := None;
  block_time := 1000;
  rank := 30;
  is_swap_supported := true;
  is_nft_supported := false;
  is_defi_supported := false;
  is_utxo := false;
  evm := Some {|
      min_priority_fee := 10000000;
      chain_stack := StackNative;
      is_ethereum_layer2 := true;
      weth_contract := Some "0x78c1b0C915c4FAA5FffA6CAbf0219DA63d7f4cb8" |};
  stake := None |}.

Definition config_Celo : ChainConfig := {|
  chain := Celo;
  network_id := "42220";
  denom := None;
  slip44 := 60;
  chain_type := ChainTypes.Ethereum;
  default_asset_type := Some AssetTypes.ERC20;
  account_activation_fee := None;
  token_activation_fee := None;
  minimum_account_balance := None;
  block_time := 1000;
  rank := 30;
  is_swap_supported := true;
  is_nft_supported := false;
  is_defi_supported := true;
  is_utxo := false;
  evm := Some {|
      min_priority_fee := 10000000;
      chain_stack := StackOptimism;
      is_ethereum_layer2 := true;
      weth_contract := Some CELO_WETH_TOKEN_ID |};
  stake := None |}.

Definition config_Near : ChainConfig := {|
  chain := Near;
  network_id := "mainnet";
  denom := None;
  slip44 := 397;
  chain_type := ChainTypes.Near;
  default_asset_type := Some AssetTypes.TOKEN;
  account_activation_fee := None;
  token_activation_fee := None;
  minimum_account_balance := None;
  block_time := 1000;
  rank := 30;
  is_swap_supported := true;
  is_nft_supported := false;
  is_defi_supported := false;
  is_utxo := false;
  evm := None;
  stake := None |}.

Definition config_World : ChainConfig := {|
  chain := World;
  network_id := "480";
  denom := None;
  slip44 := 60;
  chain_type := ChainTypes.Ethereum;
  default_asset_type := Some AssetTypes.ERC20;
  account_activation_fee := None;
  token_activation_fee := None;
  minimum_account_balance := None;
  block_time := 2000;
  rank := 30;
  is_swap_supported := true;
  is_nft_supported := false;
  is_defi_supported := false;
  is_utxo := false;
  evm := Some {|
      min_priority_fee := 1000000;
      chain_stack := StackOptimism;
      is_ethereum_layer2 := true;
      weth_contract := Some WORLD_WETH_TOKEN_ID |};
  stake := None |}.

Definition config_Stellar : ChainConfig := {|
  chain := Stellar;
  network_id := "Public Global Stellar Network ; September 2015";
  denom := None;
  slip44 := 148;
  chain_type := ChainTypes.Stellar;
  default_asset_type := Some AssetTypes.TOKEN;
  account_activation_fee := Some 10000000;
  token_activation_fee := None;
  minimum_account_balance := None;
  block_time := 6000;
  rank := 30;
  is_swap_supported := true;
  is_nft_supported := false;
  is_defi_supported := false;
  is_utxo := false;
  evm := None;
  stake := None |}.

Definition config_Sonic : ChainConfig := {|
  chain := Sonic;
  network_id := "146";
  denom := None;
  slip44 := 60;
  chain_type := ChainTypes.Ethereum;
  default_asset_type := Some AssetTypes.ERC20;
  account_activation_fee := None;
  token_activation_fee := None;
  minimum_account_balance := None;
  block_time := 500;
  rank := 30;
  is_swap_supported := true;
  is_nft_supported := false;
  is_defi_supported := false;
  is_utxo := false;
  evm := Some {|
      min_priority_fee := 10000000;
      chain_stack := StackNative;
      is_ethereum_layer2 := false;
      weth_contract := Some "0x039e2fB66102314Ce7b64Ce5Ce3E5183bc94aD38" |};
  stake := None |}.

Definition config_Algorand : ChainConfig := {|
  chain := Algorand;
  network_id := "mainnet-v1.0";
  denom := None;
  slip44 := 283;
  chain_type := ChainTypes.Algorand;
  default_asset_type := Some AssetTypes.ASA;
  account_activation_fee := Some 100000;
  token_activation_fee := None;
  minimum_account_balance := None;
  block_time := 4000;
  rank := 30;
  is_swap_supported := true;
  is_nft_supported := false;
  is_defi_supported := false;
  is_utxo := false;
  evm := None;
  stake := None |}.

Definition config_Polkadot : ChainConfig := {|
  chain := Polkadot;
  network_id := "Polkadot Asset Hub";
  denom := None;
  slip44 := 354;
  chain_type := ChainTypes.Polkadot;
  default_asset_type := None;
  account_activation_fee := None;
  token_activation_fee := None;
  minimum_account_balance := Some 10000000000;
  block_time := 5000;
  rank := 40;
  is_swap_supported := false;
  is_nft_supported := false;
  is_defi_supported := false;
  is_utxo := false;
  evm := None;
  stake := None |}.

Definition config_Plasma : ChainConfig := {|
  chain := Plasma;
  network_id := "9745";
  denom := None;
  slip44 := 60;
  chain_type := ChainTypes.Ethereum;
  default_asset_type := Some AssetTypes.ERC20;
  account_activation_fee := None;
  token_activation_fee := None;
  minimum_account_balance := None;
  block_time := 2000;
  rank := 30;
  is_swap_supported := true;
  is_nft_supported := false;
  is_defi_supported := false;
  is_utxo := false;
  evm := Some {|
      min_priority_fee := 100000;
      chain_stack := StackNative;
      is_ethereum_layer2 := false;
      weth_contract := Some "0x6100E367285b01F48D07953803A2d8dCA5D19873" |};
  stake := None |}.

Definition config_Cardano : ChainConfig := {|
  chain := Cardano;
  network_id := "764824073";
  denom := None;
  slip44 := 1815;
  chain_type := ChainTypes.Cardano;
  default_asset_type := None;
  account_activation_fee := None;
  token_activation_fee := None;
  minimum_account_balance := None;
  block_time := 20000;
  rank := 30;
  is_swap_supported := true;
  is_nft_supported := false;
  is_defi_supported := false;
  is_utxo := true;
  evm := None;
  stake := None |}.

Definition config_Abstract : ChainConfig := {|
  chain := Abstract;
  network_id := "2741";
  denom := None;
  slip44 := 60;
  chain_type := ChainTypes.Ethereum;
  default_asset_type := Some AssetTypes.ERC20;
  account_activation_fee := None;
  token_activation_fee := None;
  minimum_account_balance := None;
  block_time := 1000;
  rank := 35;
  is_swap_supported := true;
  is_nft_supported := false;
  is_defi_supported := false;
  is_utxo := false;
  evm := Some {|
      min_priority_fee := 1000000;
      chain_stack := StackZkSync;
      is_ethereum_layer2 := true;
      weth_contract := Some "0x3439153EB7AF838Ad19d56E1571FBD09333C2809" |};
  stake := None |}.

Definition config_Berachain : ChainConfig := {|
  chain := Berachain;
  network_id := "80094";
  denom := None;
  slip44 := 60;
  chain_type := ChainTypes.Ethereum;
  default_asset_type := Some AssetTypes.ERC20;
  account_activation_fee := None;
  token_activation_fee := None;
  minimum_account_balance := None;
  block_time := 2000;
  rank := 35;
  is_swap_supported := true;
  is_nft_supported := false;
  is_defi_supported := false;
  is_utxo := false;
  evm := Some {|
      min_priority_fee := 1000000000;
      chain_stack := StackNative;
      is_ethereum_layer2 := false;
      weth_contract := Some "0x6969696969696969696969696969696969696969" |};
  stake := None |}.

Definition config_Ink : ChainConfig := {|
  chain := Ink;
  network_id := "57073";
  denom := None;
  slip44 := 60;
  chain_type := ChainTypes.Ethereum;
  default_asset_type := Some AssetTypes.ERC20;
  account_activation_fee := None;
  token_activation_fee := None;
  minimum_account_balance := None;
  block_time := 1000;
  rank := 35;
  is_swap_supported := true;
  is_nft_supported := false;
  is_defi_supported := false;
  is_utxo := false;
  evm := Some {|
      min_priority_fee := 1000000;
      chain_stack := StackOptimism;
      is_ethereum_layer2 := true;
      weth_contract := Some INK_WETH_TOKEN_ID |};
  stake := None |}.

Definition config_Unichain : ChainConfig := {|
  chain := Unichain;
  network_id := "130";
  denom := None;
  slip44 := 60;
  chain_type := ChainTypes.Ethereum;
  default_asset_type := Some AssetTypes.ERC20;
  account_activation_fee := None;
  token_activation_fee := None;
  minimum_account_balance := None;
  block_time := 1000;
  rank := 35;
  is_swap_supported := true;
  is_nft_supported := false;
  is_defi_supported := false;
  is_utxo := false;
  evm := Some {|
      min_priority_fee := 1000000;
      chain_stack := StackOptimism;
      is_ethereum_layer2 := true;
      weth_contract := Some UNICHAIN_WETH_TOKEN_ID |};
  stake := None |}.

Definition config_Hyperliquid : ChainConfig := {|
  chain := Hyperliquid;
  network_id := "999";
  denom := None;
  slip44 := 60;
  chain_type := ChainTypes.Ethereum;
  default_asset_type := Some AssetTypes.ERC20;
  account_activation_fee := None;
  token_activation_fee := None;
  minimum_account_balance := None;
  block_time := 2000;
  rank := 40;
  is_swap_supported := true;
  is_nft_supported := false;
  is_defi_supported := false;
  is_utxo := false;
  evm := Some {|
      min_priority_fee := 1000000000;
      chain_stack := StackNative;
      is_ethereum_layer2 := false;
      weth_contract := Some "0x5555555555555555555555555555555555555555" |};
  stake := None |}.

Definition config_HyperCore : ChainConfig := {|
  chain := HyperCore;
  network_id := "1337";
  denom := None;
  slip44 := 60;
  chain_type := ChainTypes.HyperCore;
  default_asset_type := Some AssetTypes.TOKEN;
  account_activation_fee := None;
  token_activation_fee := None;
  minimum_account_balance := None;
  block_time := 2000;
  rank := 40;
  is_swap_supported := true;
  is_nft_supported := false;
  is_defi_supported := false;
  is_utxo := false;
  evm := None;
  stake := Some {|
      lock_time := 604800;
      min_stake_amount := 1000000;
      change_amount_on_unstake := true;
      can_redelegate := false;
      can_withdraw := false;
      can_claim_rewards := false;
      can_claim_all_rewards := false;
      reserved_for_fees := 0 |} |}.

Definition config_Monad : ChainConfig := {|
  chain := Monad;
  network_id := "143";
  denom := None;
  slip44 := 60;
  chain_type := ChainTypes.Ethereum;
  default_asset_type := Some AssetTypes.ERC20;
  account_activation_fee := None;
  token_activation_fee := None;
  minimum_account_balance := None;
  block_time := 500;
  rank := 40;
  is_swap_supported := true;
  is_nft_supported := false;
  is_defi_supported := false;
  is_utxo := false;
  evm := Some {|
      min_priority_fee := 1000000000;
      chain_stack := StackNative;
      is_ethereum_layer2 := false;
      weth_contract := Some "0x3bd359C1119dA7Da1D913D1C4D2B7c461115433A" |};
  stake := Some {|
      lock_time := 86400;
      min_stake_amount := 100000000000000000;
      change_amount_on_unstake := true;
      can_redelegate := false;
      can_withdraw := true;
      can_claim_rewards := true;
      can_claim_all_rewards := false;
      reserved_for_fees := 50000000000000000 |} |}.

Definition config_XLayer : ChainConfig := {|
  chain := XLayer;
  network_id := "196";
  denom := None;
  slip44 := 60;
  chain_type := ChainTypes.Ethereum;
  default_asset_type := Some AssetTypes.ERC20;
  account_activation_fee := None;
  token_activation_fee := None;
  minimum_account_balance := None;
  block_time := 2000;
  rank := 30;
  is_swap_supported := true;
  is_nft_supported := false;
  is_defi_supported := false;
  is_utxo := false;
  evm := Some {|
      min_priority_fee := 1000000000;
      chain_stack := StackNative;
      is_ethereum_layer2 := true;
      weth_contract := Some "0xe538905cf8410324e03a5a23c1c177a474d59b2b" |};
  stake := None |}.

Definition config_Robinhood : ChainConfig := {|
  chain := Robinhood;
  network_id := "4663";
  denom := None;
  slip44 := 60;
  chain_type := ChainTypes.Ethereum;
  default_asset_type := Some AssetTypes.ERC20;
  account_activation_fee := None;
  token_activation_fee := None;
  minimum_account_balance := None;
  block_time := 1000;
  rank := 30;
  is_swap_supported := true;
  is_nft_supported := false;
  is_defi_supported := false;
  is_utxo := false;
  evm := Some {|
      min_priority_fee := 1000000;
      chain_stack := StackNative;
      is_ethereum_layer2 := true;
      weth_contract := Some ROBINHOOD_WETH_TOKEN_ID |};
  stake := None |}.

Definition config_Stable : ChainConfig := {|
  chain := Stable;
  network_id := "988";
  denom := None;
  slip44 := 60;
  chain_type := ChainTypes.Ethereum;
  default_asset_type := Some AssetTypes.ERC20;
  account_activation_fee := None;
  token_activation_fee := None;
  minimum_account_balance := None;
  block_time := 1000;
  rank := 30;
  is_swap_supported := false;
  is_nft_supported := false;
  is_defi_supported := false;
  is_utxo := false;
  evm := Some {|
      min_priority_fee := 1000000;
      chain_stack := StackNative;
      is_ethereum_layer2 := false;
      weth_contract := Some "0x779Ded0c9e1022225f8E0630b35a9b54bE713736" |};
  stake := None |}.

Definition config_Tempo : ChainConfig := {|
  chain := Tempo;
  network_id := "4217";
  denom := None;
  slip44 := 60;
  chain_type := ChainTypes.Ethereum;
  default_asset_type := Some AssetTypes.TIP20;
  account_activation_fee := None;
  token_activation_fee := None;
  minimum_account_balance := None;
  block_time := 500;
  rank := NO_NATIVE_ASSET_RANK;
  is_swap_supported := true;
  is_nft_supported := false;
  is_defi_supported := false;
  is_utxo := false;
  evm := Some {|
      min_priority_fee := 0;
      chain_stack := StackNative;
      is_ethereum_layer2 := false;
      weth_contract := None |};
  stake := None |}.

Definition CHAIN_CONFIGS : list ChainConfig :=
  [config_Bitcoin; config_BitcoinCash; config_Litecoin; config_Ethereum; config_SmartChain;
   config_Solana; config_Polygon; config_Thorchain; config_Mayachain; config_Cosmos; config_Osmosis;
   config_Arbitrum; config_Ton; config_Tron; config_Doge; config_Zcash; config_Optimism; config_Aptos;
   config_Base; config_AvalancheC; config_Sui; config_Xrp; config_OpBNB; config_Fantom; config_Gnosis;
   config_Celestia; config_Injective; config_Sei; config_SeiEvm; config_Manta; config_Blast;
   config_Noble; config_ZkSync; config_Linea; config_Mantle; config_Celo; config_Near; config_World;
   config_Stellar; config_Sonic; config_Algorand; config_Polkadot; config_Plasma; config_Cardano;
   config_Abstract; config_Berachain; config_Ink; config_Unichain; config_Hyperliquid;
   config_HyperCore; config_Monad; config_XLayer; config_Robinhood; config_Stable; config_Tempo].

(** [None] where the source panics. *)
Definition get_chain_config (c : Chain) : option ChainConfig :=
  snd <$> list_find (fun config => chain config = c) CHAIN_CONFIGS.

End ChainConfigs.

(** ** [chain.rs] *)

Module ChainMethods.
Import Chains ChainConfigs.

(** [None] where [get_chain_config] panics. *)
Definition config (self : Chain) : option ChainConfig := get_chain_config self.

Definition as_denom (self : Chain) : option (option string) := denom <$> config self.
Definition network_id (self : Chain) : option string := ChainConfigs.network_id <$> config self.

Definition network_id_value (self : Chain) : option Z :=
  let?? network_id := network_id self in
  match u64_from_str_radix 10 network_id with
  | Some value => Some value
  | None => let?? hex := strip_prefix "0x" network_id in u64_from_str_radix 16 hex
  end.

Definition from_chain_id (chain_id : Z) : option Chain :=
  snd <$> list_find (fun chain => network_id_value chain = Some chain_id) all.

Definition is_utxo (self : Chain) : option bool := ChainConfigs.is_utxo <$> config self.
Definition as_slip44 (self : Chain) : option Z := slip44 <$> config self.
Definition chain_type (self : Chain) : option ChainTypes.ChainType := ChainConfigs.chain_type <$> config self.
Definition default_asset_type (self : Chain) : option (option AssetTypes.AssetType) :=
  ChainConfigs.default_asset_type <$> config self.
Definition account_activation_fee (self : Chain) : option (option Z) :=
  ChainConfigs.account_activation_fee <$> config self.
Definition token_activation_fee (self : Chain) : option (option Z) :=
  ChainConfigs.token_activation_fee <$> config self.
Definition minimum_account_balance (self : Chain) : option (option Z) :=
  ChainConfigs.minimum_account_balance <$> config self.
Definition is_swap_supported (self : Chain) : option bool := ChainConfigs.is_swap_supported <$> config self.
Definition is_stake_supported (self : Chain) : option bool :=
  (fun config => match stake config with Some _ => true | None => false end) <$> config self.
Definition is_nft_supported (self : Chain) : option bool := ChainConfigs.is_nft_supported <$> config self.
Definition is_defi_supported (self : Chain) : option bool := ChainConfigs.is_defi_supported <$> config self.
Definition block_time (self : Chain) : option Z := ChainConfigs.block_time <$> config self.
Definition rank (self : Chain) : option Z := ChainConfigs.rank <$> config self.
Definition has_native_asset (self : Chain) : option bool :=
  (fun rank => negb (rank =? NO_NATIVE_ASSET_RANK)) <$> rank self.
Definition stakeable : list Chain := filter (fun x => is_stake_supported x = Some true) all.
Definition perpetual_chains : list Chain := [HyperCore].

End ChainMethods.

(** ** [chain_evm.rs] *)

Module EvmChains.
Import Chains ChainConfigs.

Inductive EVMChain : Type :=
| EvmEthereum | EvmSmartChain | EvmPolygon | EvmPlasma | EvmArbitrum | EvmOptimism | EvmBase
| EvmAvalancheC | EvmOpBNB | EvmFantom | EvmGnosis | EvmManta | EvmBlast | EvmZkSync | EvmLinea
| EvmMantle | EvmCelo | EvmWorld | EvmSonic | EvmSeiEvm | EvmAbstract | EvmBerachain | EvmInk
| EvmUnichain | EvmHyperliquid | EvmMonad | EvmXLayer | EvmRobinhood | EvmStable | EvmTempo.

Definition all : list EVMChain :=
  [EvmEthereum; EvmSmartChain; EvmPolygon; EvmPlasma; EvmArbitrum; EvmOptimism; EvmBase; EvmAvalancheC;
   EvmOpBNB; EvmFantom; EvmGnosis; EvmManta; EvmBlast; EvmZkSync; EvmLinea; EvmMantle; EvmCelo;
   EvmWorld; EvmSonic; EvmSeiEvm; EvmAbstract; EvmBerachain; EvmInk; EvmUnichain; EvmHyperliquid;
   EvmMonad; EvmXLayer; EvmRobinhood; EvmStable; EvmTempo].

Definition as_ref (self : EVMChain) : string :=
  match self with
  | EvmEthereum => "ethereum"
  | EvmSmartChain => "smartchain"
  | EvmPolygon => "polygon"
  | EvmPlasma => "plasma"
  | EvmArbitrum => "arbitrum"
  | EvmOptimism => "optimism"
  | EvmBase => "base"
  | EvmAvalancheC => "avalanchec"
  | EvmOpBNB => "opbnb"
  | EvmFantom => "fantom"
  | EvmGnosis => "gnosis"
  | EvmManta => "manta"
  | EvmBlast => "blast"
  | EvmZkSync => "zksync"
  | EvmLinea => "linea"
  | EvmMantle => "mantle"
  | EvmCelo => "celo"
  | EvmWorld => "world"
  | EvmSonic => "sonic"
  | EvmSeiEvm => "seievm"
  | EvmAbstract => "abstract"
  | EvmBerachain => "berachain"
  | EvmInk => "ink"
  | EvmUnichain => "unichain"
  | EvmHyperliquid => "hyperliquid"
  | EvmMonad => "monad"
  | EvmXLayer => "xlayer"
  | EvmRobinhood => "robinhood"
  | EvmStable => "stable"
  | EvmTempo => "tempo"
  end.

(** [None] where the source's [unwrap] panics. *)
Definition to_chain (self : EVMChain) : option Chain := from_str (as_ref self).
Definition from_chain (chain : Chain) : option EVMChain :=
  snd <$> list_find (fun x => as_ref x = Chains.as_ref chain) all.

(** [None] where the source panics. *)
Definition config (self : EVMChain) : option ChainConfigs.EvmChainConfig :=
  let?? chain := to_chain self in
  let?? config := ChainMethods.config chain in
  ChainConfigs.evm config.

Definition min_priority_fee (self : EVMChain) : option Z := ChainConfigs.min_priority_fee <$> config self.
Definition chain_id (self : EVMChain) : option Z :=
  let?? chain := to_chain self in
  let?? network_id := ChainMethods.network_id chain in
  u64_from_str_radix 10 network_id.
Definition chain_stack (self : EVMChain) : option ChainConfigs.ChainStack :=
  ChainConfigs.chain_stack <$> config self.
Definition is_ethereum_layer2 (self : EVMChain) : option bool :=
  ChainConfigs.is_ethereum_layer2 <$> config self.
Definition is_opstack (self : EVMChain) : option bool :=
  (fun stack => bool_decide (stack = ChainConfigs.StackOptimism)) <$> chain_stack self.
Definition is_zkstack (self : EVMChain) : option bool :=
  (fun stack => bool_decide (stack = ChainConfigs.StackZkSync)) <$> chain_stack self.
Definition weth_contract (self : EVMChain) : option (option string) :=
  ChainConfigs.weth_contract <$> config self.
Definition native_asset_contract (self : EVMChain) : option (option string) :=
  match self with EvmCelo => weth_contract self | _ => Some None end.

End EvmChains.

(** ** [chain_stake.rs] *)

Module StakeChains.
Import Chains.

Inductive StakeChain : Type :=
| StakeCosmos | StakeOsmosis | StakeInjective | StakeSei | StakeCelestia | StakeEthereum
| StakeSolana | StakeSui | StakeSmartChain | StakeMonad | StakeTron | StakeAptos | StakeHyperCore.

Definition all : list StakeChain :=
  [StakeCosmos; StakeOsmosis; StakeInjective; StakeSei; StakeCelestia; StakeEthereum; StakeSolana;
   StakeSui; StakeSmartChain; StakeMonad; StakeTron; StakeAptos; StakeHyperCore].

Definition as_ref (self : StakeChain) : string :=
  match self with
  | StakeCosmos => "cosmos"
  | StakeOsmosis => "osmosis"
  | StakeInjective => "injective"
  | StakeSei => "sei"
  | StakeCelestia => "celestia"
  | StakeEthereum => "ethereum"
  | StakeSolana => "solana"
  | StakeSui => "sui"
  | StakeSmartChain => "smartchain"
  | StakeMonad => "monad"
  | StakeTron => "tron"
  | StakeAptos => "aptos"
  | StakeHyperCore => "hypercore"
  end.

(** [None] where the source's [unwrap] panics. *)
Definition chain (self : StakeChain) : option Chain := from_str (as_ref self).

(** [None] where the source panics. *)
Definition config (self : StakeChain) : option ChainConfigs.StakeChainConfig :=
  let?? chain := chain self in
  let?? config := ChainMethods.config chain in
  ChainConfigs.stake config.

Definition get_lock_time (self : StakeChain) : option Z := ChainConfigs.lock_time <$> config self.
Definition get_min_stake_amount (self : StakeChain) : option Z := ChainConfigs.min_stake_amount <$> config self.
Definition get_change_amount_on_unstake (self : StakeChain) : option bool :=
  ChainConfigs.change_amount_on_unstake <$> config self.
Definition get_uses_freeze (self : StakeChain) : bool := match self with StakeTron => true | _ => false end.
Definition get_uses_whole_amounts (self : StakeChain) : bool := match self with StakeTron => true | _ => false end.
Definition get_can_redelegate (self : StakeChain) : option bool := ChainConfigs.can_redelegate <$> config self.
Definition get_can_withdraw (self : StakeChain) : option bool := ChainConfigs.can_withdraw <$> config self.
Definition get_can_claim_rewards (self : StakeChain) : option bool :=
  ChainConfigs.can_claim_rewards <$> config self.
Definition get_can_claim_all_rewards (self : StakeChain) : option bool :=
  ChainConfigs.can_claim_all_rewards <$> config self.
Definition get_reserved_for_fees (self : StakeChain) : option Z := ChainConfigs.reserved_for_fees <$> config self.

End StakeChains.

(** ** Properties *)

Module RegistryFacts.
Import Chains ChainTypes.

Lemma evm_from_chain_type chain :
  is_Some (EvmChains.from_chain chain) <-> ChainMethods.chain_type chain = Some ChainTypes.Ethereum.
Proof. destruct chain; vm_compute; split; (discriminate || by eauto || by intros [? [=]]). Qed.

Lemma cosmos_from_chain_type chain :
  is_Some (CosmosChains.from_chain chain) <-> ChainMethods.chain_type chain = Some ChainTypes.Cosmos.
Proof. destruct chain; vm_compute; split; (discriminate || by eauto || by intros [? [=]]). Qed.

Lemma stakeable_chains chain :
  ChainMethods.is_stake_supported chain = Some true <-> chain ∈ omap StakeChains.chain StakeChains.all.
Proof.
  assert (E : ChainMethods.is_stake_supported chain
    = Some (bool_decide (chain ∈ omap StakeChains.chain StakeChains.all))) by (by destruct chain; vm_compute).
  rewrite E. split; [intros H; apply (inj Some) in H; by apply bool_decide_eq_true in H|].
  intros H. by rewrite bool_decide_eq_true_2.
Qed.

(** no look-up of the registry panics.  Every chain has exactly one configuration, which is the one
    [get_chain_config] finds; every EVM chain has a chain, an EVM configuration and a numeric chain id, and
    the EVM chains are those of chain type Ethereum; the Cosmos chains are those of chain type Cosmos; and
    the chains with a staking configuration are exactly the [StakeChain]s. *)
Theorem registry_total :
  (forall chain, exists config, ChainConfigs.get_chain_config chain = Some config
     /\ ChainConfigs.chain config = chain
     /\ filter (fun c => ChainConfigs.chain c = chain) ChainConfigs.CHAIN_CONFIGS = [config])
  /\ (forall e, exists chain config id, EvmChains.to_chain e = Some chain
        /\ EvmChains.from_chain chain = Some e /\ EvmChains.config e = Some config
        /\ EvmChains.chain_id e = Some id)
  /\ (forall chain, is_Some (EvmChains.from_chain chain)
        <-> ChainMethods.chain_type chain = Some ChainTypes.Ethereum)
  /\ (forall x, exists chain, CosmosChains.as_chain x = Some chain /\ CosmosChains.from_chain chain = Some x)
  /\ (forall chain, is_Some (CosmosChains.from_chain chain)
        <-> ChainMethods.chain_type chain = Some ChainTypes.Cosmos)
  /\ (forall s, exists chain config, StakeChains.chain s = Some chain /\ StakeChains.config s = Some config)
  /\ (forall chain, ChainMethods.is_stake_supported chain = Some true
        <-> chain ∈ omap StakeChains.chain StakeChains.all).
Proof.
  split; [intros chain; destruct chain; eexists; by split; [vm_compute|]|].
  split; [intros e; destruct e; do 3 eexists; by repeat split; vm_compute|].
  split; [exact evm_from_chain_type|].
  split; [intros x; exists (match CosmosChains.as_chain x with Some c => c | None => Chains.Bitcoin end);
          destruct x; by split; vm_compute|].
  split; [exact cosmos_from_chain_type|].
  split; [intros s; destruct s; do 2 eexists; by split; vm_compute|].
  exact stakeable_chains.
Qed.

Lemma from_chain_id_sound id chain :
  ChainMethods.from_chain_id id = Some chain -> ChainMethods.network_id_value chain = Some id.
Proof.
  unfold ChainMethods.from_chain_id. destruct (list_find _ _) as [[i c]|] eqn:E; [|done].
  intros [= ->]. by apply list_find_Some in E as (_ & ? & _).
Qed.

Lemma from_network_id chain : match ChainMethods.network_id_value chain with
  | Some id => ChainMethods.from_chain_id id = Some (if decide (chain = Chains.Aptos) then Chains.Ethereum else chain)
  | None => True
  end.
Proof. by destruct chain; vm_compute. Qed.

(** a numeric network id denotes one chain.  The chain found for an id has that id; the id of every
    chain that has one leads back to it, except that Aptos and Ethereum share the id 1, which denotes
    Ethereum; in particular the chain id of every EVM chain denotes that chain. *)
Theorem chain_ids :
  (forall id chain, ChainMethods.from_chain_id id = Some chain -> ChainMethods.network_id_value chain = Some id)
  /\ (forall chain id, ChainMethods.network_id_value chain = Some id ->
        ChainMethods.from_chain_id id = Some (if decide (chain = Chains.Aptos) then Chains.Ethereum else chain))
  /\ (forall e chain id, EvmChains.to_chain e = Some chain -> EvmChains.chain_id e = Some id ->
        ChainMethods.from_chain_id id = Some chain).
Proof.
  split; [exact from_chain_id_sound|]. split.
  - intros chain id E. pose proof (from_network_id chain) as P. by rewrite E in P.
  - intros e chain id E C. destruct e; vm_compute in E; injection E as <-;
      vm_compute in C; injection C as <-; by vm_compute.
Qed.

Lemma chain_ids_witness :
  ChainMethods.network_id_value Chains.Tron = Some 728126428
  /\ ChainMethods.from_chain_id 728126428 = Some Chains.Tron
  /\ ChainMethods.from_chain_id 1 = Some Chains.Ethereum
  /\ ChainMethods.from_chain_id 1329 = Some SeiEvm.
Proof.
  split; [by vm_compute|].
  split; [apply (proj1 (proj2 chain_ids) Chains.Tron); by vm_compute|].
  split; [apply (proj1 (proj2 chain_ids) Chains.Aptos); by vm_compute|].
  refine (proj2 (proj2 chain_ids) EvmChains.EvmSeiEvm SeiEvm 1329 _ _); by vm_compute.
Defined.

End RegistryFacts.
