(* ===== verification/Assets.v ===== *)
(** * Assets

    Models [primitives/src/asset_id.rs] (module [AssetIds]), [asset_score.rs] ([AssetScores]), [asset.rs]
    ([Assets]), the asset ids of [asset_constants.rs] ([AssetConstants]) and the tokens of [known_assets.rs]
    ([KnownAssets]).  The tables are translated entry by entry.  The theorems show that an asset id is
    recovered from its text, and what the tables contain. *)
From S2P Require Import Prelude HexText Text ChainRegistry.

#[export] Existing Instances Chains.Chain_eq_dec AssetTypes.AssetType_eq_dec.

(** ** [asset_id.rs] *)

Module AssetIds.
Import Chains.

Definition CHAIN_SEPARATOR : string := "_".
Definition TOKEN_ID_SEPARATOR : string := "::".

Record AssetId := MkAssetId { chain : Chain; token_id : option string }.

#[export] Instance AssetId_eq_dec : EqDecision AssetId.
Proof. solve_decision. Defined.

Definition to_string (self : AssetId) : string :=
  match token_id self with
  | Some token_id => as_ref (chain self) +:+ CHAIN_SEPARATOR +:+ token_id
  | None => as_ref (chain self)
  end.

Definition new (asset_id : string) : option AssetId :=
  match split_once_str CHAIN_SEPARATOR asset_id with
  | Some (chain, token_id) => let?? chain := from_str chain in Some (MkAssetId chain (Some token_id))
  | None => let?? chain := from_str asset_id in Some (MkAssetId chain None)
  end.

Definition from (chain : Chain) (token_id : option string) : AssetId := MkAssetId chain token_id.
Definition from_token (chain : Chain) (token_id : string) : AssetId := MkAssetId chain (Some token_id).
Definition from_chain (chain : Chain) : AssetId := MkAssetId chain None.

Definition sub_token_id (ids : list string) : string := join TOKEN_ID_SEPARATOR ids.
Definition decode_token_id (token_id : string) : list string := split TOKEN_ID_SEPARATOR token_id.

Definition split_sub_token_parts (self : AssetId) : option (string * string) :=
  let?? token_id := token_id self in split_once_str TOKEN_ID_SEPARATOR token_id.

Definition is_native (self : AssetId) : bool := match token_id self with None => true | Some _ => false end.
Definition is_token (self : AssetId) : bool := match token_id self with None => false | Some _ => true end.

Definition token_components (self : AssetId) : option (string * option string * option Z) :=
  let?? token_id := token_id self in
  let parts := decode_token_id token_id in
  let?? symbol := parts !! 0%nat in
  let contract := let?? value := parts !! 1%nat in if String.eqb value EmptyString then None else Some value in
  let index := let?? value := parts !! 2%nat in i32_from_str value in
  Some (symbol, contract, index).

End AssetIds.

#[export] Existing Instance AssetIds.AssetId_eq_dec.

(** ** [asset_score.rs] *)

Module AssetScores.

Inductive AssetRank :=
| High | Medium | Low | Trivial | Inactive | Abandoned | Suspended | Migrated | Deprecated | Spam | Fraudulent
| Unknown.

#[export] Instance AssetRank_eq_dec : EqDecision AssetRank.
Proof. solve_decision. Defined.

(** [AssetRank::iter] *)
Definition all : list AssetRank :=
  [High; Medium; Low; Trivial; Inactive; Abandoned; Suspended; Migrated; Deprecated; Spam; Fraudulent; Unknown].

Definition threshold (self : AssetRank) : Z :=
  match self with
  | High => 100
  | Medium => 50
  | Low => 25
  | Trivial => 15
  | Unknown => 0
  | Inactive => -2
  | Abandoned => -5
  | Suspended => -8
  | Migrated => -10
  | Deprecated => -12
  | Spam => -15
  | Fraudulent => -20
  end.

Definition from_rank (rank : Z) : AssetRank :=
  match list_find (fun variant => threshold variant <= rank) all with Some (_, variant) => variant | None => Unknown end.

Record AssetScore := MkScore { rank : Z; rank_type : AssetRank }.
Definition score_new (rank : Z) : AssetScore := MkScore rank (from_rank rank).
Definition score_default : AssetScore := score_new 15.

End AssetScores.

(** ** [asset.rs] *)

Module Assets.
Import Chains AssetIds.

Record Asset := MkAsset {
  id : AssetId;
  name : string;
  symbol : string;
  decimals : Z;
  asset_type : AssetTypes.AssetType
}.

#[export] Instance Asset_eq_dec : EqDecision Asset.
Proof. solve_decision. Defined.

Record ChainAsset := MkChainAsset { asset : Asset; network_name : string }.

(** [Chain::as_asset_id] *)
Definition as_asset_id (self : Chain) : AssetId := from_chain self.

Definition new_asset (self : Chain) (name symbol : string) (decimals : Z) (asset_type : AssetTypes.AssetType) : Asset :=
  MkAsset (as_asset_id self) name symbol decimals asset_type.

Definition with_network_name (chain : Chain) (network_name name symbol : string) (decimals : Z) : ChainAsset :=
  MkChainAsset (new_asset chain name symbol decimals AssetTypes.NATIVE) network_name.

Definition chain_asset_new (chain : Chain) (name symbol : string) (decimals : Z) : ChainAsset :=
  with_network_name chain name name symbol decimals.

Definition chain_asset_from_chain (chain : Chain) : ChainAsset :=
  match chain with
  | Ethereum => chain_asset_new chain "Ethereum" "ETH" 18
  | Bitcoin => chain_asset_new chain "Bitcoin" "BTC" 8
  | BitcoinCash => chain_asset_new chain "Bitcoin Cash" "BCH" 8
  | Litecoin => chain_asset_new chain "Litecoin" "LTC" 8
  | SmartChain => chain_asset_new chain "BNB Chain" "BNB" 18
  | Polygon => chain_asset_new chain "Polygon" "POL" 18
  | AvalancheC => chain_asset_new chain "Avalanche" "AVAX" 18
  | Solana => chain_asset_new chain "Solana" "SOL" 9
  | Thorchain => chain_asset_new chain "Thorchain" "RUNE" 8
  | Mayachain => chain_asset_new chain "Maya" "CACAO" 10
  | Cosmos => chain_asset_new chain "Cosmos" "ATOM" 6
  | Osmosis => chain_asset_new chain "Osmosis" "OSMO" 6
  | Celestia => chain_asset_new chain "Celestia" "TIA" 6
  | Arbitrum => with_network_name chain "Arbitrum" "Arbitrum ETH" "ETH" 18
  | Ton => with_network_name chain "TON" "Gram" "GRAM" 9
  | Tron => chain_asset_new chain "TRON" "TRX" 6
  | Doge => chain_asset_new chain "Dogecoin" "DOGE" 8
  | Zcash => chain_asset_new chain "Zcash" "ZEC" 8
  | Optimism => with_network_name chain "Optimism" "Optimism ETH" "ETH" 18
  | Aptos => chain_asset_new chain "Aptos" "APT" 8
  | Base => with_network_name chain "Base" "Base ETH" "ETH" 18
  | Sui => chain_asset_new chain "Sui" "SUI" 9
  | Xrp => chain_asset_new chain "XRP" "XRP" 6
  | OpBNB => chain_asset_new chain "opBNB" "BNB" 18
  | Fantom => chain_asset_new chain "Fantom" "FTM" 18
  | Gnosis => chain_asset_new chain "Gnosis Chain" "xDai" 18
  | Injective => chain_asset_new chain "Injective" "INJ" 18
  | Sei => chain_asset_new chain "Sei" "SEI" 6
  | SeiEvm => chain_asset_new chain "Sei EVM" "SEI" 18
  | Manta => with_network_name chain "Manta" "Manta ETH" "ETH" 18
  | Blast => with_network_name chain "Blast" "Blast ETH" "ETH" 18
  | Noble => chain_asset_new chain "Noble" "USDC" 6
  | ZkSync => with_network_name chain "zkSync" "zkSync ETH" "ETH" 18
  | Linea => with_network_name chain "Linea" "Linea ETH" "ETH" 18
  | Mantle => chain_asset_new chain "Mantle" "MNT" 18
  | Celo => chain_asset_new chain "Celo" "CELO" 18
  | Near => chain_asset_new chain "Near" "NEAR" 24
  | World => with_network_name chain "World" "World ETH" "ETH" 18
  | Stellar => chain_asset_new chain "Stellar" "XLM" 7
  | Sonic => chain_asset_new chain "Sonic" "S" 18
  | Algorand => chain_asset_new chain "Algorand" "ALGO" 6
  | Polkadot => chain_asset_new chain "Polkadot" "DOT" 10
  | Plasma => chain_asset_new chain "Plasma" "XPL" 18
  | Cardano => chain_asset_new chain "Cardano" "ADA" 6
  | Abstract => chain_asset_new chain "Abstract" "ETH" 18
  | Berachain => chain_asset_new chain "Berachain" "BERA" 18
  | Ink => with_network_name chain "Ink" "Ink ETH" "ETH" 18
  | Unichain => with_network_name chain "Unichain" "Unichain ETH" "ETH" 18
  | Hyperliquid => chain_asset_new chain "HyperEVM" "HYPE" 18
  | HyperCore => chain_asset_new chain "Hyperliquid" "HYPE" 8
  | Monad => chain_asset_new chain "Monad" "MON" 18
  | XLayer => chain_asset_new chain "X Layer" "OKB" 18
  | Robinhood => with_network_name chain "Robinhood" "Robinhood ETH" "ETH" 18
  | Stable => chain_asset_new chain "Stable" "USDT0" 18
  | Tempo => chain_asset_new chain "Tempo" "USD" 6
  end.

Definition asset_from_chain (chain : Chain) : Asset := asset (chain_asset_from_chain chain).

Definition chain_of (self : Asset) : Chain := chain (id self).
Definition full_name (self : Asset) : string := name self +:+ " (" +:+ symbol self +:+ ")".

(** [AssetVecExt] *)
Definition ids (self : list Asset) : list AssetId := map id self.
Definition find_asset (self : list Asset) (asset_id : AssetId) : option Asset :=
  snd <$> list_find (fun x => id x = asset_id) self.

End Assets.

#[export] Existing Instance Assets.Asset_eq_dec.

(** ** [asset_constants.rs] *)

Module AssetConstants.
Import Chains ChainConfigs AssetIds.

Definition ARBITRUM_ACX_TOKEN_ID : string := "0x53691596d1BCe8CEa565b84d4915e69e03d9C99d".
Definition ARBITRUM_ACX_ASSET_ID : AssetId := from_token Arbitrum ARBITRUM_ACX_TOKEN_ID.
Definition ETHEREUM_ACX_TOKEN_ID : string := "0x44108f0223A3C3028F5Fe7AEC7f9bb2E66beF82F".
Definition ETHEREUM_ACX_ASSET_ID : AssetId := from_token Ethereum ETHEREUM_ACX_TOKEN_ID.
Definition OPTIMISM_ACX_TOKEN_ID : string := "0xFf733b2A3557a7ed6697007ab5D11B79FdD1b76B".
Definition OPTIMISM_ACX_ASSET_ID : AssetId := from_token Optimism OPTIMISM_ACX_TOKEN_ID.
Definition POLYGON_ACX_TOKEN_ID : string := "0xF328b73B6c685831F238c30a23Fc19140CB4D8FC".
Definition POLYGON_ACX_ASSET_ID : AssetId := from_token Polygon POLYGON_ACX_TOKEN_ID.
Definition ARBITRUM_ARB_TOKEN_ID : string := "0x912CE59144191C1204E64559FE8253a0e49E6548".
Definition ARBITRUM_ARB_ASSET_ID : AssetId := from_token Arbitrum ARBITRUM_ARB_TOKEN_ID.
Definition ETHEREUM_ARB_TOKEN_ID : string := "0x44108f0223A3C3028F5Fe7AEC7f9bb2E66beF82F".
Definition ETHEREUM_ARB_ASSET_ID : AssetId := from_token Ethereum ETHEREUM_ARB_TOKEN_ID.
Definition SMARTCHAIN_CAKE_TOKEN_ID : string := "0x0E09FaBB73Bd3Ade0a17ECC321fD13a19e81cE82".
Definition SMARTCHAIN_CAKE_ASSET_ID : AssetId := from_token SmartChain SMARTCHAIN_CAKE_TOKEN_ID.
Definition ARBITRUM_DAI_TOKEN_ID : string := "0xDA10009cBd5D07dd0CeCc66161FC93D7c9000da1".
Definition ARBITRUM_DAI_ASSET_ID : AssetId := from_token Arbitrum ARBITRUM_DAI_TOKEN_ID.
Definition BASE_DAI_TOKEN_ID : string := "0xDA10009cBd5D07dd0CeCc66161FC93D7c9000da1".
Definition BASE_DAI_ASSET_ID : AssetId := from_token Base BASE_DAI_TOKEN_ID.
Definition ETHEREUM_DAI_TOKEN_ID : string := "0x6B175474E89094C44Da98b954EedeAC495271d0F".
Definition ETHEREUM_DAI_ASSET_ID : AssetId := from_token Ethereum ETHEREUM_DAI_TOKEN_ID.
Definition LINEA_DAI_TOKEN_ID : string := "0xDA10009cBd5D07dd0CeCc66161FC93D7c9000da1".
Definition LINEA_DAI_ASSET_ID : AssetId := from_token Linea LINEA_DAI_TOKEN_ID.
Definition OPTIMISM_DAI_TOKEN_ID : string := "0xDA10009cBd5D07dd0CeCc66161FC93D7c9000da1".
Definition OPTIMISM_DAI_ASSET_ID : AssetId := from_token Optimism OPTIMISM_DAI_TOKEN_ID.
Definition POLYGON_DAI_TOKEN_ID : string := "0x8f3Cf7ad23Cd3CaDbD9735AFf958023239c6A063".
Definition POLYGON_DAI_ASSET_ID : AssetId := from_token Polygon POLYGON_DAI_TOKEN_ID.
Definition ZKSYNC_DAI_TOKEN_ID : string := "0xDA10009cBd5D07dd0CeCc66161FC93D7c9000da1".
Definition ZKSYNC_DAI_ASSET_ID : AssetId := from_token ZkSync ZKSYNC_DAI_TOKEN_ID.
Definition UNICHAIN_DAI_TOKEN_ID : string := "0x20CAb320A855b39F724131C69424240519573f81".
Definition UNICHAIN_DAI_ASSET_ID : AssetId := from_token Unichain UNICHAIN_DAI_TOKEN_ID.
Definition SMARTCHAIN_ETH_TOKEN_ID : string := "0x2170Ed0880ac9A755fd29B2688956BD959F933F8".
Definition SMARTCHAIN_ETH_ASSET_ID : AssetId := from_token SmartChain SMARTCHAIN_ETH_TOKEN_ID.
Definition ARBITRUM_USDC_TOKEN_ID : string := "0xaf88d065e77c8cC2239327C5EDb3A432268e5831".
Definition ARBITRUM_USDC_ASSET_ID : AssetId := from_token Arbitrum ARBITRUM_USDC_TOKEN_ID.
Definition BASE_USDC_TOKEN_ID : string := "0x833589fCD6eDb6E08f4c7C32D4f71b54bdA02913".
Definition BASE_USDC_ASSET_ID : AssetId := from_token Base BASE_USDC_TOKEN_ID.
Definition ETHEREUM_USDC_TOKEN_ID : string := "0xA0b86991c6218b36c1d19D4a2e9Eb0cE3606eB48".
Definition ETHEREUM_USDC_ASSET_ID : AssetId := from_token Ethereum ETHEREUM_USDC_TOKEN_ID.
Definition OPTIMISM_USDC_TOKEN_ID : string := "0x0b2C639c533813f4Aa9D7837CAf62653d097Ff85".
Definition OPTIMISM_USDC_ASSET_ID : AssetId := from_token Optimism OPTIMISM_USDC_TOKEN_ID.
Definition POLYGON_USDC_TOKEN_ID : string := "0x3c499c542cEF5E3811e1192ce70d8cC03d5c3359".
Definition POLYGON_USDC_ASSET_ID : AssetId := from_token Polygon POLYGON_USDC_TOKEN_ID.
Definition GNOSIS_USDC_TOKEN_ID : string := "0x2a22f9c3b484c3629090FeED35F17Ff8F88f76F0".
Definition GNOSIS_USDC_ASSET_ID : AssetId := from_token Gnosis GNOSIS_USDC_TOKEN_ID.
Definition MANTLE_USDC_TOKEN_ID : string := "0x09Bc4E0D864854c6aFB6eB9A9cdF58aC190D0dF9".
Definition MANTLE_USDC_ASSET_ID : AssetId := from_token Mantle MANTLE_USDC_TOKEN_ID.
Definition INK_USDC_TOKEN_ID : string := "0x2D270e6886d130D724215A266106e6832161EAEd".
Definition INK_USDC_ASSET_ID : AssetId := from_token Ink INK_USDC_TOKEN_ID.
Definition SOLANA_USDC_TOKEN_ID : string := "EPjFWdd5AufqSSqeM2qN1xzybapC8G4wEGGkZwyTDt1v".
Definition SOLANA_USDC_ASSET_ID : AssetId := from_token Solana SOLANA_USDC_TOKEN_ID.
Definition NEAR_USDC_TOKEN_ID : string := "17208628f84f5d6ad33f0da3bbbeb27ffcb398eac501a31bd6ad2011e36133a1".
Definition NEAR_USDC_ASSET_ID : AssetId := from_token Near NEAR_USDC_TOKEN_ID.
Definition UNICHAIN_USDC_TOKEN_ID : string := "0x078D782b760474a361dDA0AF3839290b0EF57AD6".
Definition UNICHAIN_USDC_ASSET_ID : AssetId := from_token Unichain UNICHAIN_USDC_TOKEN_ID.
Definition HYPEREVM_USDC_TOKEN_ID : string := "0xb88339CB7199b77E23DB6E890353E22632Ba630f".
Definition HYPEREVM_USDC_ASSET_ID : AssetId := from_token Hyperliquid HYPEREVM_USDC_TOKEN_ID.
Definition MONAD_USDC_TOKEN_ID : string := "0x754704Bc059F8C67012fEd69BC8A327a5aafb603".
Definition MONAD_USDC_ASSET_ID : AssetId := from_token Monad MONAD_USDC_TOKEN_ID.
Definition SMARTCHAIN_USDC_TOKEN_ID : string := "0x8AC76a51cc950d9822D68b83fE1Ad97B32Cd580d".
Definition SMARTCHAIN_USDC_ASSET_ID : AssetId := from_token SmartChain SMARTCHAIN_USDC_TOKEN_ID.
Definition AVALANCHE_USDC_TOKEN_ID : string := "0xB97EF9Ef8734C71904D8002F8b6Bc66Dd9c48a6E".
Definition AVALANCHE_USDC_ASSET_ID : AssetId := from_token AvalancheC AVALANCHE_USDC_TOKEN_ID.
Definition SUI_USDC_TOKEN_ID : string := "0xdba34672e30cb065b1f93e3ab55318768fd6fef66c15942c9f7cb846e2f900e7::usdc::USDC".
Definition SUI_USDC_ASSET_ID : AssetId := from_token Sui SUI_USDC_TOKEN_ID.
Definition ARBITRUM_USDC_E_TOKEN_ID : string := "0xFF970A61A04b1cA14834A43f5dE4533eBDDB5CC8".
Definition ARBITRUM_USDC_E_ASSET_ID : AssetId := from_token Arbitrum ARBITRUM_USDC_E_TOKEN_ID.
Definition BASE_USDC_E_TOKEN_ID : string := "0x833589fCD6eDb6E08f4c7C32D4f71b54bdA02913".
Definition BASE_USDC_E_ASSET_ID : AssetId := from_token Base BASE_USDC_E_TOKEN_ID.
Definition ETHEREUM_USDC_E_TOKEN_ID : string := "0xA0b86991c6218b36c1d19D4a2e9Eb0cE3606eB48".
Definition ETHEREUM_USDC_E_ASSET_ID : AssetId := from_token Ethereum ETHEREUM_USDC_E_TOKEN_ID.
Definition LINEA_USDC_E_TOKEN_ID : string := "0x176211869cA2b568f2A7D4EE941E073a821EE1ff".
Definition LINEA_USDC_E_ASSET_ID : AssetId := from_token Linea LINEA_USDC_E_TOKEN_ID.
Definition OPTIMISM_USDC_E_TOKEN_ID : string := "0x7F5c764cBc14f9669B88837ca1490cCa17c31607".
Definition OPTIMISM_USDC_E_ASSET_ID : AssetId := from_token Optimism OPTIMISM_USDC_E_TOKEN_ID.
Definition POLYGON_USDC_E_TOKEN_ID : string := "0x2791Bca1f2de4661ED88A30C99A7a9449Aa84174".
Definition POLYGON_USDC_E_ASSET_ID : AssetId := from_token Polygon POLYGON_USDC_E_TOKEN_ID.
Definition WORLD_USDC_E_TOKEN_ID : string := "0x79A02482A880bCE3F13e09Da970dC34db4CD24d1".
Definition WORLD_USDC_E_ASSET_ID : AssetId := from_token World WORLD_USDC_E_TOKEN_ID.
Definition ZKSYNC_USDC_E_TOKEN_ID : string := "0x3355df6D4c9C3035724Fd0e3914dE96A5a83aaf4".
Definition ZKSYNC_USDC_E_ASSET_ID : AssetId := from_token ZkSync ZKSYNC_USDC_E_TOKEN_ID.
Definition SEIEVM_USDC_TOKEN_ID : string := "0xe15fC38F6D8c56aF07bbCBe3BAf5708A2Bf42392".
Definition SEIEVM_USDC_ASSET_ID : AssetId := from_token SeiEvm SEIEVM_USDC_TOKEN_ID.
Definition ARBITRUM_USDT_TOKEN_ID : string := "0xFd086bC7CD5C481DCC9C85ebE478A1C0b69FCbb9".
Definition ARBITRUM_USDT_ASSET_ID : AssetId := from_token Arbitrum ARBITRUM_USDT_TOKEN_ID.
Definition ETHEREUM_USDT_TOKEN_ID : string := "0xdAC17F958D2ee523a2206206994597C13D831ec7".
Definition ETHEREUM_USDT_ASSET_ID : AssetId := from_token Ethereum ETHEREUM_USDT_TOKEN_ID.
Definition LINEA_USDT_TOKEN_ID : string := "0xA219439258ca9da29E9Cc4cE5596924745e12B93".
Definition LINEA_USDT_ASSET_ID : AssetId := from_token Linea LINEA_USDT_TOKEN_ID.
Definition OPTIMISM_USDT_TOKEN_ID : string := "0x94b008aA00579c1307B0EF2c499aD98a8ce58e58".
Definition OPTIMISM_USDT_ASSET_ID : AssetId := from_token Optimism OPTIMISM_USDT_TOKEN_ID.
Definition POLYGON_USDT_TOKEN_ID : string := "0xc2132D05D31c914a87C6611C10748AEb04B58e8F".
Definition POLYGON_USDT_ASSET_ID : AssetId := from_token Polygon POLYGON_USDT_TOKEN_ID.
Definition ZKSYNC_USDT_TOKEN_ID : string := "0x493257fD37EDB34451f62EDf8D2a0C418852bA4C".
Definition ZKSYNC_USDT_ASSET_ID : AssetId := from_token ZkSync ZKSYNC_USDT_TOKEN_ID.
Definition SMARTCHAIN_USDT_TOKEN_ID : string := "0x55d398326f99059fF775485246999027B3197955".
Definition SMARTCHAIN_USDT_ASSET_ID : AssetId := from_token SmartChain SMARTCHAIN_USDT_TOKEN_ID.
Definition AVALANCHE_USDT_TOKEN_ID : string := "0x9702230A8Ea53601f5cD2dc00fDBc13d4dF4A8c7".
Definition AVALANCHE_USDT_ASSET_ID : AssetId := from_token AvalancheC AVALANCHE_USDT_TOKEN_ID.
Definition CELO_USDT_TOKEN_ID : string := "0x48065fbBE25f71C9282ddf5e1cD6D6A887483D5e".
Definition CELO_USDT_ASSET_ID : AssetId := from_token Celo CELO_USDT_TOKEN_ID.
Definition SOLANA_USDT_TOKEN_ID : string := "Es9vMFrzaCERmJfrF4H2FYD4KCoNkY11McCe8BenwNYB".
Definition SOLANA_USDT_ASSET_ID : AssetId := from_token Solana SOLANA_USDT_TOKEN_ID.
Definition SOLANA_PYUSD_TOKEN_ID : string := "2b1kV6DkPAnxd5ixfnxCpjxmKwqjjaYmCZfHsFu24GXo".
Definition SOLANA_PYUSD_ASSET_ID : AssetId := from_token Solana SOLANA_PYUSD_TOKEN_ID.
Definition TRON_USDT_TOKEN_ID : string := "TR7NHqjeKQxGTCi8q8ZY4pL8otSzgjLj6t".
Definition TRON_USDT_ASSET_ID : AssetId := from_token Tron TRON_USDT_TOKEN_ID.
Definition TON_USDT_TOKEN_ID : string := "EQCxE6mUtQJKFnGfaROTKOt1lZbDiiX1kCixRv7Nw2Id_sDs".
Definition TON_USDT_ASSET_ID : AssetId := from_token Ton TON_USDT_TOKEN_ID.
Definition TON_STON_TOKEN_ID : string := "EQA2kCVNwVsil2EM2mB0SkXytxCqQjS4mttjDpnXmwG9T6bO".
Definition TON_STON_ASSET_ID : AssetId := from_token Ton TON_STON_TOKEN_ID.
Definition TON_DUST_TOKEN_ID : string := "EQBlqsm144Dq6SjbPI4jjZvA1hqTIP3CvHovbIfW_t-SCALE".
Definition TON_DUST_ASSET_ID : AssetId := from_token Ton TON_DUST_TOKEN_ID.
Definition NEAR_USDT_TOKEN_ID : string := "usdt.tether-token.near".
Definition NEAR_USDT_ASSET_ID : AssetId := from_token Near NEAR_USDT_TOKEN_ID.
Definition INK_USDT_TOKEN_ID : string := "0x3baD7AD0728f9917d1Bf08af5782dCbD516cDd96".
Definition INK_USDT_ASSET_ID : AssetId := from_token Ink INK_USDT_TOKEN_ID.
Definition INK_USDT0_TOKEN_ID : string := "0x0200C29006150606B650577BBE7B6248F58470c1".
Definition INK_USDT0_ASSET_ID : AssetId := from_token Ink INK_USDT0_TOKEN_ID.
Definition HYPEREVM_USDT_TOKEN_ID : string := "0xB8CE59FC3717ada4C02eaDF9682A9e934F625ebb".
Definition HYPEREVM_USDT_ASSET_ID : AssetId := from_token Hyperliquid HYPEREVM_USDT_TOKEN_ID.
Definition SEIEVM_USDT_TOKEN_ID : string := "0x9151434b16b9763660705744891fA906F660EcC5".
Definition SEIEVM_USDT_ASSET_ID : AssetId := from_token SeiEvm SEIEVM_USDT_TOKEN_ID.
Definition PLASMA_USDT_TOKEN_ID : string := "0xB8CE59FC3717ada4C02eaDF9682A9e934F625ebb".
Definition PLASMA_USDT_ASSET_ID : AssetId := from_token Plasma PLASMA_USDT_TOKEN_ID.
Definition MONAD_USDT_TOKEN_ID : string := "0xe7cd86e13AC4309349F30B3435a9d337750fC82D".
Definition MONAD_USDT_ASSET_ID : AssetId := from_token Monad MONAD_USDT_TOKEN_ID.
Definition APTOS_USDT_TOKEN_ID : string := "0x357b0b74bc833e95a115ad22604854d6b0fca151cecd94111770e5d6ffc9dc2b".
Definition APTOS_USDT_ASSET_ID : AssetId := from_token Aptos APTOS_USDT_TOKEN_ID.
Definition APTOS_USDC_TOKEN_ID : string := "0xbae207659db88bea0cbead6da0ed00aac12edcdda169e591cd41c94180b46f3b".
Definition APTOS_USDC_ASSET_ID : AssetId := from_token Aptos APTOS_USDC_TOKEN_ID.
Definition ARBITRUM_WBTC_TOKEN_ID : string := "0x2f2a2543B76A4166549F7aaB2e75Bef0aefC5B0f".
Definition ARBITRUM_WBTC_ASSET_ID : AssetId := from_token Arbitrum ARBITRUM_WBTC_TOKEN_ID.
Definition BLAST_WBTC_TOKEN_ID : string := "0xF7bc58b8D8f97ADC129cfC4c9f45Ce3C0E1D2692".
Definition BLAST_WBTC_ASSET_ID : AssetId := from_token Blast BLAST_WBTC_TOKEN_ID.
Definition ETHEREUM_WBTC_TOKEN_ID : string := "0x2260FAC5E5542a773Aa44fBCfeDf7C193bc2C599".
Definition ETHEREUM_WBTC_ASSET_ID : AssetId := from_token Ethereum ETHEREUM_WBTC_TOKEN_ID.
Definition LINEA_WBTC_TOKEN_ID : string := "0x3aAB2285ddcDdaD8edf438C1bAB47e1a9D05a9b4".
Definition LINEA_WBTC_ASSET_ID : AssetId := from_token Linea LINEA_WBTC_TOKEN_ID.
Definition OPTIMISM_WBTC_TOKEN_ID : string := "0x68f180fcCe6836688e9084f035309E29Bf0A2095".
Definition OPTIMISM_WBTC_ASSET_ID : AssetId := from_token Optimism OPTIMISM_WBTC_TOKEN_ID.
Definition POLYGON_WBTC_TOKEN_ID : string := "0x1BFD67037B42Cf73acF2047067bd4F2C47D9BfD6".
Definition POLYGON_WBTC_ASSET_ID : AssetId := from_token Polygon POLYGON_WBTC_TOKEN_ID.
Definition SONIC_WBTC_TOKEN_ID : string := "0x0555E30da8f98308EdB960aa94C0Db47230d2B9c".
Definition SONIC_WBTC_ASSET_ID : AssetId := from_token Sonic SONIC_WBTC_TOKEN_ID.
Definition WORLD_WBTC_TOKEN_ID : string := "0x03C7054BCB39f7b2e5B2c7AcB37583e32D70Cfa3".
Definition WORLD_WBTC_ASSET_ID : AssetId := from_token World WORLD_WBTC_TOKEN_ID.
Definition ZKSYNC_WBTC_TOKEN_ID : string := "0xBBeB516fb02a01611cBBE0453Fe3c580D7281011".
Definition ZKSYNC_WBTC_ASSET_ID : AssetId := from_token ZkSync ZKSYNC_WBTC_TOKEN_ID.
Definition ARBITRUM_WETH_ASSET_ID : AssetId := from_token Arbitrum ARBITRUM_WETH_TOKEN_ID.
Definition BLAST_WETH_ASSET_ID : AssetId := from_token Blast BLAST_WETH_TOKEN_ID.
Definition ETHEREUM_WETH_ASSET_ID : AssetId := from_token Ethereum ETHEREUM_WETH_TOKEN_ID.
Definition LINEA_WETH_ASSET_ID : AssetId := from_token Linea LINEA_WETH_TOKEN_ID.
Definition BASE_WETH_ASSET_ID : AssetId := from_token Base BASE_WETH_TOKEN_ID.
Definition OPTIMISM_WETH_ASSET_ID : AssetId := from_token Optimism OPTIMISM_WETH_TOKEN_ID.
Definition OPBNB_WETH_ASSET_ID : AssetId := from_token OpBNB OPBNB_WETH_TOKEN_ID.
Definition POLYGON_WETH_TOKEN_ID : string := "0x7ceB23fD6bC0adD59E62ac25578270cFf1b9f619".
Definition POLYGON_WETH_ASSET_ID : AssetId := from_token Polygon POLYGON_WETH_TOKEN_ID.
Definition GNOSIS_WETH_TOKEN_ID : string := "0x6A023CCD1ff6F2045C3309768eAd9E68F978f6e1".
Definition GNOSIS_WETH_ASSET_ID : AssetId := from_token Gnosis GNOSIS_WETH_TOKEN_ID.
Definition WORLD_WETH_ASSET_ID : AssetId := from_token World WORLD_WETH_TOKEN_ID.
Definition INK_WETH_ASSET_ID : AssetId := from_token Ink INK_WETH_TOKEN_ID.
Definition ZKSYNC_WETH_ASSET_ID : AssetId := from_token ZkSync ZKSYNC_WETH_TOKEN_ID.
Definition UNICHAIN_WETH_ASSET_ID : AssetId := from_token Unichain UNICHAIN_WETH_TOKEN_ID.
Definition ROBINHOOD_WETH_ASSET_ID : AssetId := from_token Robinhood ROBINHOOD_WETH_TOKEN_ID.
Definition ROBINHOOD_USDG_TOKEN_ID : string := "0x5fc5360D0400a0Fd4f2af552ADD042D716F1d168".
Definition ROBINHOOD_USDG_ASSET_ID : AssetId := from_token Robinhood ROBINHOOD_USDG_TOKEN_ID.
Definition SOLANA_USDG_TOKEN_ID : string := "2u1tszSeqZ3qBWF3uNGPFc8TzMk2tdiwknnRMWGWjGWH".
Definition SOLANA_USDG_ASSET_ID : AssetId := from_token Solana SOLANA_USDG_TOKEN_ID.
Definition CELO_WETH_ASSET_ID : AssetId := from_token Celo CELO_WETH_TOKEN_ID.
Definition BASE_CBBTC_TOKEN_ID : string := "0xcbB7C0000aB88B473b1f5aFd9ef808440eed33Bf".
Definition BASE_CBBTC_ASSET_ID : AssetId := from_token Base BASE_CBBTC_TOKEN_ID.
Definition ETHEREUM_CBBTC_TOKEN_ID : string := "0xcbB7C0000aB88B473b1f5aFd9ef808440eed33Bf".
Definition ETHEREUM_CBBTC_ASSET_ID : AssetId := from_token Ethereum ETHEREUM_CBBTC_TOKEN_ID.
Definition ETHEREUM_LINK_TOKEN_ID : string := "0x514910771AF9Ca656af840dff83E8264EcF986CA".
Definition ETHEREUM_LINK_ASSET_ID : AssetId := from_token Ethereum ETHEREUM_LINK_TOKEN_ID.
Definition ETHEREUM_UNI_TOKEN_ID : string := "0x1f9840a85d5aF5bf1D1762F925BDADdC4201F984".
Definition ETHEREUM_UNI_ASSET_ID : AssetId := from_token Ethereum ETHEREUM_UNI_TOKEN_ID.
Definition ETHEREUM_AAVE_TOKEN_ID : string := "0x7Fc66500c84A76Ad7e9c93437bFc5Ac33E2DDaE9".
Definition ETHEREUM_AAVE_ASSET_ID : AssetId := from_token Ethereum ETHEREUM_AAVE_TOKEN_ID.
Definition OPTIMISM_OP_TOKEN_ID : string := "0x4200000000000000000000000000000000000042".
Definition OPTIMISM_OP_ASSET_ID : AssetId := from_token Optimism OPTIMISM_OP_TOKEN_ID.
Definition BERACHAIN_USDT_TOKEN_ID : string := "0x779Ded0c9e1022225f8e0630b35a9b54be713736".
Definition BERACHAIN_USDT_ASSET_ID : AssetId := from_token Berachain BERACHAIN_USDT_TOKEN_ID.
Definition GNOSIS_USDT_TOKEN_ID : string := "0x4ECaBa5870353805a9F068101A40E0f32ed605C6".
Definition GNOSIS_USDT_ASSET_ID : AssetId := from_token Gnosis GNOSIS_USDT_TOKEN_ID.
Definition STELLAR_USDC_TOKEN_ID : string := "GA5ZSEJYB37JRC5AVCIA5MOP4RHTM335X2KGX3IHOJAPP5RE34K4KZVN::USDC".
Definition STELLAR_USDC_ASSET_ID : AssetId := from_token Stellar STELLAR_USDC_TOKEN_ID.
Definition XRP_RLUSD_TOKEN_ID : string := "rMxCKbEDwqr76QuheSUMdEGf4B9xJ8m5De".
Definition XLAYER_USDC_TOKEN_ID : string := "0x74b7f16337b8972027F6196A17a631aC6dE26d22".
Definition XLAYER_USDC_ASSET_ID : AssetId := from_token XLayer XLAYER_USDC_TOKEN_ID.
Definition XLAYER_USDT_TOKEN_ID : string := "0x779Ded0c9e1022225f8e0630b35a9b54be713736".
Definition XLAYER_USDT_ASSET_ID : AssetId := from_token XLayer XLAYER_USDT_TOKEN_ID.
Definition ETHEREUM_STETH_TOKEN_ID : string := "0xae7ab96520DE3A18E5e111B5EaAb095312D7fE84".
Definition ETHEREUM_STETH_ASSET_ID : AssetId := from_token Ethereum ETHEREUM_STETH_TOKEN_ID.
Definition ETHEREUM_USDS_TOKEN_ID : string := "0xdC035D45d973E3EC169d2276DDab16f1e407384F".
Definition ETHEREUM_USDS_ASSET_ID : AssetId := from_token Ethereum ETHEREUM_USDS_TOKEN_ID.
Definition ETHEREUM_FLIP_TOKEN_ID : string := "0x826180541412D574cf1336d22c0C0a287822678A".
Definition ETHEREUM_FLIP_ASSET_ID : AssetId := from_token Ethereum ETHEREUM_FLIP_TOKEN_ID.
Definition BASE_USDS_TOKEN_ID : string := "0x820C137fa70C8691f0e44Dc420a5e53c168921Dc".
Definition BASE_USDS_ASSET_ID : AssetId := from_token Base BASE_USDS_TOKEN_ID.
Definition BASE_WBTC_TOKEN_ID : string := "0x0555E30da8f98308EdB960aa94C0Db47230d2B9c".
Definition BASE_WBTC_ASSET_ID : AssetId := from_token Base BASE_WBTC_TOKEN_ID.
Definition SMARTCHAIN_WBTC_TOKEN_ID : string := "0x0555E30da8f98308EdB960aa94C0Db47230d2B9c".
Definition SMARTCHAIN_WBTC_ASSET_ID : AssetId := from_token SmartChain SMARTCHAIN_WBTC_TOKEN_ID.
Definition SOLANA_USDS_TOKEN_ID : string := "USDSwr9ApdHk5bvJKMjzff41FfuX8bSxdKcR81vTwcA".
Definition SOLANA_USDS_ASSET_ID : AssetId := from_token Solana SOLANA_USDS_TOKEN_ID.
Definition SOLANA_WBTC_TOKEN_ID : string := "3NZ9JMVBmGAqocybic2c7LQCJScmgsAZ6vQqTDzcqmJh".
Definition SOLANA_WBTC_ASSET_ID : AssetId := from_token Solana SOLANA_WBTC_TOKEN_ID.
Definition SOLANA_CBBTC_TOKEN_ID : string := "cbbtcf3aa214zXHbiAZQwf4122FBYbraNdFqgw4iMij".
Definition SOLANA_CBBTC_ASSET_ID : AssetId := from_token Solana SOLANA_CBBTC_TOKEN_ID.
Definition SOLANA_JITO_SOL_TOKEN_ID : string := "J1toso1uCk3RLmjorhTtrVwY9HJ7X8V9yYac6Y7kGCPn".
Definition SOLANA_JITO_SOL_ASSET_ID : AssetId := from_token Solana SOLANA_JITO_SOL_TOKEN_ID.
Definition HYPERCORE_SPOT_HYPE_TOKEN_ID : string := "HYPE::0x0d01dc56dcaaca66ad901c959b4011ec::150".
Definition HYPERCORE_SPOT_HYPE_ASSET_ID : AssetId := from_token HyperCore HYPERCORE_SPOT_HYPE_TOKEN_ID.
Definition HYPERCORE_SPOT_USDC_TOKEN_ID : string := "USDC::0x6d1e7cde53ba9467b783cb7c530ce054::0".
Definition HYPERCORE_SPOT_USDC_ASSET_ID : AssetId := from_token HyperCore HYPERCORE_SPOT_USDC_TOKEN_ID.
Definition HYPERCORE_PERPETUAL_USDC_TOKEN_ID : string := "perpetual::USDC".
Definition HYPERCORE_PERPETUAL_USDC_ASSET_ID : AssetId := from_token HyperCore HYPERCORE_PERPETUAL_USDC_TOKEN_ID.
Definition HYPERCORE_SPOT_UBTC_TOKEN_ID : string := "UBTC::0x8f254b963e8468305d409b33aa137c67::197".
Definition HYPERCORE_SPOT_UBTC_ASSET_ID : AssetId := from_token HyperCore HYPERCORE_SPOT_UBTC_TOKEN_ID.
Definition HYPERCORE_CORE_HYPE_TOKEN_ID : string := "HYPE:0x0d01dc56dcaaca66ad901c959b4011ec".
Definition SUI_WAL_TOKEN_ID : string := "0x356a26eb9e012a68958082340d4c4116e7f55615cf27affcff209cf0ae544f59::wal::WAL".
Definition SUI_WAL_ASSET_ID : AssetId := from_token Sui SUI_WAL_TOKEN_ID.
Definition SUI_SBUSDT_TOKEN_ID : string := "0x375f70cf2ae4c00bf37117d0c85a2c71545e6ee05c4a5c7d282cd66a4504b068::usdt::USDT".
Definition SUI_SBUSDT_ASSET_ID : AssetId := from_token Sui SUI_SBUSDT_TOKEN_ID.
Definition THORCHAIN_TCY_TOKEN_ID : string := "tcy".
Definition THORCHAIN_TCY_ASSET_ID : AssetId := from_token Thorchain THORCHAIN_TCY_TOKEN_ID.
Definition COSMOS_USDC_TOKEN_ID : string := "ibc/F663521BF1836B00F5F177680F74BFB9A8B5654A694D0D2BC249E03CF2509013".
Definition COSMOS_USDC_ASSET_ID : AssetId := from_token Cosmos COSMOS_USDC_TOKEN_ID.
Definition OSMOSIS_USDC_TOKEN_ID : string := "ibc/498A0751C798A0D9A389AA3691123DADA57DAA4FE165D5C75894505B876BA6E4".
Definition OSMOSIS_USDC_ASSET_ID : AssetId := from_token Osmosis OSMOSIS_USDC_TOKEN_ID.
Definition OSMOSIS_USDT_TOKEN_ID : string := "ibc/4ABBEF4C8926DDDB320AE5188CFD63267ABBCEFC0583E4AE05D6E5AA2401DDAB".
Definition OSMOSIS_USDT_ASSET_ID : AssetId := from_token Osmosis OSMOSIS_USDT_TOKEN_ID.
Definition INJECTIVE_USDC_TOKEN_ID : string := "ibc/7E1AF94AD246BE522892751046F0C959B768642E5671CC3742264068D49553C0".
Definition INJECTIVE_USDC_ASSET_ID : AssetId := from_token Injective INJECTIVE_USDC_TOKEN_ID.
Definition SEI_USDC_TOKEN_ID : string := "ibc/CA6FBFAF399474A06263E10D0CE5AEBBE15189D6D4B2DD9ADE61007E68EB9DB0".
Definition SEI_USDC_ASSET_ID : AssetId := from_token Sei SEI_USDC_TOKEN_ID.
Definition TEMPO_BRIDGED_USDC_TOKEN_ID : string := "0x20C000000000000000000000b9537d11c60E8b50".
Definition TEMPO_BRIDGED_USDC_ASSET_ID : AssetId := from_token Tempo TEMPO_BRIDGED_USDC_TOKEN_ID.
Definition TEMPO_USDT0_TOKEN_ID : string := "0x20C00000000000000000000014f22CA97301EB73".
Definition TEMPO_USDT0_ASSET_ID : AssetId := from_token Tempo TEMPO_USDT0_TOKEN_ID.
Definition TEMPO_PATHUSD_TOKEN_ID : string := "0x20C0000000000000000000000000000000000000".
Definition TEMPO_PATHUSD_ASSET_ID : AssetId := from_token Tempo TEMPO_PATHUSD_TOKEN_ID.

(** The asset ids above, in order *)
Definition asset_ids : list AssetId :=
  [ARBITRUM_ACX_ASSET_ID; ETHEREUM_ACX_ASSET_ID; OPTIMISM_ACX_ASSET_ID; POLYGON_ACX_ASSET_ID;
   ARBITRUM_ARB_ASSET_ID; ETHEREUM_ARB_ASSET_ID; SMARTCHAIN_CAKE_ASSET_ID; ARBITRUM_DAI_ASSET_ID;
   BASE_DAI_ASSET_ID; ETHEREUM_DAI_ASSET_ID; LINEA_DAI_ASSET_ID; OPTIMISM_DAI_ASSET_ID;
   POLYGON_DAI_ASSET_ID; ZKSYNC_DAI_ASSET_ID; UNICHAIN_DAI_ASSET_ID; SMARTCHAIN_ETH_ASSET_ID;
   ARBITRUM_USDC_ASSET_ID; BASE_USDC_ASSET_ID; ETHEREUM_USDC_ASSET_ID; OPTIMISM_USDC_ASSET_ID;
   POLYGON_USDC_ASSET_ID; GNOSIS_USDC_ASSET_ID; MANTLE_USDC_ASSET_ID; INK_USDC_ASSET_ID;
   SOLANA_USDC_ASSET_ID; NEAR_USDC_ASSET_ID; UNICHAIN_USDC_ASSET_ID; HYPEREVM_USDC_ASSET_ID;
   MONAD_USDC_ASSET_ID; SMARTCHAIN_USDC_ASSET_ID; AVALANCHE_USDC_ASSET_ID; SUI_USDC_ASSET_ID;
   ARBITRUM_USDC_E_ASSET_ID; BASE_USDC_E_ASSET_ID; ETHEREUM_USDC_E_ASSET_ID; LINEA_USDC_E_ASSET_ID;
   OPTIMISM_USDC_E_ASSET_ID; POLYGON_USDC_E_ASSET_ID; WORLD_USDC_E_ASSET_ID; ZKSYNC_USDC_E_ASSET_ID;
   SEIEVM_USDC_ASSET_ID; ARBITRUM_USDT_ASSET_ID; ETHEREUM_USDT_ASSET_ID; LINEA_USDT_ASSET_ID;
   OPTIMISM_USDT_ASSET_ID; POLYGON_USDT_ASSET_ID; ZKSYNC_USDT_ASSET_ID; SMARTCHAIN_USDT_ASSET_ID;
   AVALANCHE_USDT_ASSET_ID; CELO_USDT_ASSET_ID; SOLANA_USDT_ASSET_ID; SOLANA_PYUSD_ASSET_ID;
   TRON_USDT_ASSET_ID; TON_USDT_ASSET_ID; TON_STON_ASSET_ID; TON_DUST_ASSET_ID; NEAR_USDT_ASSET_ID;
   INK_USDT_ASSET_ID; INK_USDT0_ASSET_ID; HYPEREVM_USDT_ASSET_ID; SEIEVM_USDT_ASSET_ID;
   PLASMA_USDT_ASSET_ID; MONAD_USDT_ASSET_ID; APTOS_USDT_ASSET_ID; APTOS_USDC_ASSET_ID;
   ARBITRUM_WBTC_ASSET_ID; BLAST_WBTC_ASSET_ID; ETHEREUM_WBTC_ASSET_ID; LINEA_WBTC_ASSET_ID;
   OPTIMISM_WBTC_ASSET_ID; POLYGON_WBTC_ASSET_ID; SONIC_WBTC_ASSET_ID; WORLD_WBTC_ASSET_ID;
   ZKSYNC_WBTC_ASSET_ID; ARBITRUM_WETH_ASSET_ID; BLAST_WETH_ASSET_ID; ETHEREUM_WETH_ASSET_ID;
   LINEA_WETH_ASSET_ID; BASE_WETH_ASSET_ID; OPTIMISM_WETH_ASSET_ID; OPBNB_WETH_ASSET_ID;
   POLYGON_WETH_ASSET_ID; GNOSIS_WETH_ASSET_ID; WORLD_WETH_ASSET_ID; INK_WETH_ASSET_ID;
   ZKSYNC_WETH_ASSET_ID; UNICHAIN_WETH_ASSET_ID; ROBINHOOD_WETH_ASSET_ID; ROBINHOOD_USDG_ASSET_ID;
   SOLANA_USDG_ASSET_ID; CELO_WETH_ASSET_ID; BASE_CBBTC_ASSET_ID; ETHEREUM_CBBTC_ASSET_ID;
   ETHEREUM_LINK_ASSET_ID; ETHEREUM_UNI_ASSET_ID; ETHEREUM_AAVE_ASSET_ID; OPTIMISM_OP_ASSET_ID;
   BERACHAIN_USDT_ASSET_ID; GNOSIS_USDT_ASSET_ID; STELLAR_USDC_ASSET_ID; XLAYER_USDC_ASSET_ID;
   XLAYER_USDT_ASSET_ID; ETHEREUM_STETH_ASSET_ID; ETHEREUM_USDS_ASSET_ID; ETHEREUM_FLIP_ASSET_ID;
   BASE_USDS_ASSET_ID; BASE_WBTC_ASSET_ID; SMARTCHAIN_WBTC_ASSET_ID; SOLANA_USDS_ASSET_ID;
   SOLANA_WBTC_ASSET_ID; SOLANA_CBBTC_ASSET_ID; SOLANA_JITO_SOL_ASSET_ID; HYPERCORE_SPOT_HYPE_ASSET_ID;
   HYPERCORE_SPOT_USDC_ASSET_ID; HYPERCORE_PERPETUAL_USDC_ASSET_ID; HYPERCORE_SPOT_UBTC_ASSET_ID;
   SUI_WAL_ASSET_ID; SUI_SBUSDT_ASSET_ID; THORCHAIN_TCY_ASSET_ID; COSMOS_USDC_ASSET_ID;
   OSMOSIS_USDC_ASSET_ID; OSMOSIS_USDT_ASSET_ID; INJECTIVE_USDC_ASSET_ID; SEI_USDC_ASSET_ID;
   TEMPO_BRIDGED_USDC_ASSET_ID; TEMPO_USDT0_ASSET_ID; TEMPO_PATHUSD_ASSET_ID].

End AssetConstants.

(** ** [known_assets.rs] *)

Module KnownAssets.
Import Chains ChainConfigs AssetScores AssetConstants Assets.

Definition token_asset (chain : Chain) (token_id name symbol : string) (decimals : Z)
  (asset_type : AssetTypes.AssetType) : Asset :=
  MkAsset (AssetIds.from_token chain token_id) name symbol decimals asset_type.

Definition USDT_NAME : string := "Tether".
Definition USDT_SYMBOL : string := "USDT".
Definition USDC_NAME : string := "USDC".
Definition USDC_SYMBOL : string := "USDC".
Definition WBTC_SYMBOL : string := "WBTC".
Definition WBTC_NAME : string := "Wrapped BTC".
Definition DAI_NAME : string := "Dai Stablecoin".
Definition DAI_SYMBOL : string := "DAI".
Definition WETH_NAME : string := "Wrapped Ether".
Definition WETH_SYMBOL : string := "WETH".
Definition CBBTC_NAME : string := "Coinbase BTC".
Definition CBBTC_SYMBOL : string := "cbBTC".
Definition USDS_NAME : string := "USDS Stablecoin".
Definition USDS_SYMBOL : string := "USDS".
Definition USDG_NAME : string := "Global Dollar".
Definition USDG_SYMBOL : string := "USDG".
Definition ETHEREUM_USDT : Asset := token_asset Ethereum ETHEREUM_USDT_TOKEN_ID USDT_NAME USDT_SYMBOL 6 AssetTypes.ERC20.
Definition ETHEREUM_USDC : Asset := token_asset Ethereum ETHEREUM_USDC_TOKEN_ID USDC_NAME USDC_SYMBOL 6 AssetTypes.ERC20.
Definition ETHEREUM_WBTC : Asset := token_asset Ethereum ETHEREUM_WBTC_TOKEN_ID WBTC_NAME WBTC_SYMBOL 8 AssetTypes.ERC20.
Definition ETHEREUM_DAI : Asset := token_asset Ethereum ETHEREUM_DAI_TOKEN_ID DAI_NAME DAI_SYMBOL 18 AssetTypes.ERC20.
Definition ETHEREUM_WETH : Asset := token_asset Ethereum ETHEREUM_WETH_TOKEN_ID WETH_NAME WETH_SYMBOL 18 AssetTypes.ERC20.
Definition ETHEREUM_USDS : Asset := token_asset Ethereum ETHEREUM_USDS_TOKEN_ID USDS_NAME USDS_SYMBOL 18 AssetTypes.ERC20.
Definition ETHEREUM_STETH : Asset := token_asset Ethereum ETHEREUM_STETH_TOKEN_ID "stETH" "stETH" 18 AssetTypes.ERC20.
Definition ETHEREUM_CBBTC : Asset := token_asset Ethereum ETHEREUM_CBBTC_TOKEN_ID CBBTC_NAME CBBTC_SYMBOL 8 AssetTypes.ERC20.
Definition ETHEREUM_FLIP : Asset := token_asset Ethereum ETHEREUM_FLIP_TOKEN_ID "Chainflip" "FLIP" 18 AssetTypes.ERC20.
Definition ARBITRUM_WETH : Asset := token_asset Arbitrum ARBITRUM_WETH_TOKEN_ID WETH_NAME WETH_SYMBOL 18 AssetTypes.ERC20.
Definition ARBITRUM_USDC : Asset := token_asset Arbitrum ARBITRUM_USDC_TOKEN_ID USDC_NAME USDC_SYMBOL 6 AssetTypes.ERC20.
Definition ARBITRUM_USDT : Asset := token_asset Arbitrum ARBITRUM_USDT_TOKEN_ID USDT_NAME USDT_SYMBOL 6 AssetTypes.ERC20.
Definition BASE_WETH : Asset := token_asset Base BASE_WETH_TOKEN_ID WETH_NAME WETH_SYMBOL 18 AssetTypes.ERC20.
Definition BASE_USDC : Asset := token_asset Base BASE_USDC_TOKEN_ID USDC_NAME USDC_SYMBOL 6 AssetTypes.ERC20.
Definition BASE_CBBTC : Asset := token_asset Base BASE_CBBTC_TOKEN_ID CBBTC_NAME CBBTC_SYMBOL 8 AssetTypes.ERC20.
Definition BASE_USDS : Asset := token_asset Base BASE_USDS_TOKEN_ID USDS_NAME USDS_SYMBOL 18 AssetTypes.ERC20.
Definition BASE_WBTC : Asset := token_asset Base BASE_WBTC_TOKEN_ID WBTC_NAME WBTC_SYMBOL 8 AssetTypes.ERC20.
Definition BLAST_WETH : Asset := token_asset Blast BLAST_WETH_TOKEN_ID WETH_NAME WETH_SYMBOL 18 AssetTypes.ERC20.
Definition LINEA_WETH : Asset := token_asset Linea LINEA_WETH_TOKEN_ID WETH_NAME WETH_SYMBOL 18 AssetTypes.ERC20.
Definition LINEA_USDC : Asset := token_asset Linea LINEA_USDC_E_TOKEN_ID USDC_NAME USDC_SYMBOL 6 AssetTypes.ERC20.
Definition LINEA_USDT : Asset := token_asset Linea LINEA_USDT_TOKEN_ID USDT_NAME USDT_SYMBOL 6 AssetTypes.ERC20.
Definition OPTIMISM_WETH : Asset := token_asset Optimism OPTIMISM_WETH_TOKEN_ID WETH_NAME WETH_SYMBOL 18 AssetTypes.ERC20.
Definition OPTIMISM_USDC : Asset := token_asset Optimism OPTIMISM_USDC_TOKEN_ID USDC_NAME USDC_SYMBOL 6 AssetTypes.ERC20.
Definition OPTIMISM_USDT : Asset := token_asset Optimism OPTIMISM_USDT_TOKEN_ID USDT_NAME USDT_SYMBOL 6 AssetTypes.ERC20.
Definition POLYGON_WETH : Asset := token_asset Polygon POLYGON_WETH_TOKEN_ID WETH_NAME WETH_SYMBOL 18 AssetTypes.ERC20.
Definition POLYGON_USDC : Asset := token_asset Polygon POLYGON_USDC_TOKEN_ID USDC_NAME USDC_SYMBOL 6 AssetTypes.ERC20.
Definition POLYGON_USDT : Asset := token_asset Polygon POLYGON_USDT_TOKEN_ID USDT_NAME USDT_SYMBOL 6 AssetTypes.ERC20.
Definition ZKSYNC_WETH : Asset := token_asset ZkSync ZKSYNC_WETH_TOKEN_ID WETH_NAME WETH_SYMBOL 18 AssetTypes.ERC20.
Definition ZKSYNC_USDT : Asset := token_asset ZkSync ZKSYNC_USDT_TOKEN_ID USDT_NAME USDT_SYMBOL 6 AssetTypes.ERC20.
Definition WORLD_WETH : Asset := token_asset World WORLD_WETH_TOKEN_ID WETH_NAME WETH_SYMBOL 18 AssetTypes.ERC20.
Definition SMARTCHAIN_ETH : Asset := token_asset SmartChain SMARTCHAIN_ETH_TOKEN_ID "Binance-Peg Ethereum" "ETH" 18 AssetTypes.ERC20.
Definition SMARTCHAIN_USDT : Asset := token_asset SmartChain SMARTCHAIN_USDT_TOKEN_ID USDT_NAME USDT_SYMBOL 18 AssetTypes.BEP20.
Definition SMARTCHAIN_USDC : Asset := token_asset SmartChain SMARTCHAIN_USDC_TOKEN_ID USDC_NAME USDC_SYMBOL 18 AssetTypes.BEP20.
Definition SMARTCHAIN_WBTC : Asset := token_asset SmartChain SMARTCHAIN_WBTC_TOKEN_ID WBTC_NAME WBTC_SYMBOL 8 AssetTypes.BEP20.
Definition AVALANCHE_USDT : Asset := token_asset AvalancheC AVALANCHE_USDT_TOKEN_ID USDT_NAME USDT_SYMBOL 6 AssetTypes.ERC20.
Definition AVALANCHE_USDC : Asset := token_asset AvalancheC AVALANCHE_USDC_TOKEN_ID USDC_NAME USDC_SYMBOL 6 AssetTypes.ERC20.
Definition INK_WETH : Asset := token_asset Ink INK_WETH_TOKEN_ID WETH_NAME WETH_SYMBOL 18 AssetTypes.ERC20.
Definition INK_USDT : Asset := token_asset Ink INK_USDT_TOKEN_ID USDT_NAME USDT_SYMBOL 6 AssetTypes.ERC20.
Definition UNICHAIN_WETH : Asset := token_asset Unichain UNICHAIN_WETH_TOKEN_ID WETH_NAME WETH_SYMBOL 18 AssetTypes.ERC20.
Definition UNICHAIN_USDC : Asset := token_asset Unichain UNICHAIN_USDC_TOKEN_ID USDC_NAME USDC_SYMBOL 6 AssetTypes.ERC20.
Definition UNICHAIN_DAI : Asset := token_asset Unichain UNICHAIN_DAI_TOKEN_ID DAI_NAME DAI_SYMBOL 18 AssetTypes.ERC20.
Definition MONAD_MON : Asset := asset_from_chain Monad.
Definition MONAD_USDC : Asset := token_asset Monad MONAD_USDC_TOKEN_ID USDC_NAME USDC_SYMBOL 6 AssetTypes.ERC20.
Definition MONAD_USDT : Asset := token_asset Monad MONAD_USDT_TOKEN_ID USDT_NAME USDT_SYMBOL 6 AssetTypes.ERC20.
Definition HYPERCORE_HYPE : Asset := asset_from_chain HyperCore.
Definition HYPERCORE_SPOT_HYPE : Asset := MkAsset HYPERCORE_SPOT_HYPE_ASSET_ID "Hyperliquid" "HYPE" 8 AssetTypes.TOKEN.
Definition HYPERCORE_SPOT_USDC : Asset := MkAsset HYPERCORE_SPOT_USDC_ASSET_ID USDC_NAME USDC_SYMBOL 8 AssetTypes.TOKEN.
Definition HYPERCORE_PERPETUAL_USDC : Asset := MkAsset HYPERCORE_PERPETUAL_USDC_ASSET_ID USDC_NAME USDC_SYMBOL 6 AssetTypes.PERPETUAL.
Definition HYPERCORE_SPOT_UBTC : Asset := MkAsset HYPERCORE_SPOT_UBTC_ASSET_ID "Bitcoin" "UBTC" 10 AssetTypes.TOKEN.
Definition HYPEREVM_HYPE : Asset := asset_from_chain Hyperliquid.
Definition HYPEREVM_USDC : Asset := token_asset Hyperliquid HYPEREVM_USDC_TOKEN_ID USDC_NAME USDC_SYMBOL 6 AssetTypes.ERC20.
Definition HYPEREVM_USDT : Asset := token_asset Hyperliquid HYPEREVM_USDT_TOKEN_ID USDT_NAME USDT_SYMBOL 6 AssetTypes.ERC20.
Definition PLASMA_USDT : Asset := token_asset Plasma PLASMA_USDT_TOKEN_ID USDT_NAME USDT_SYMBOL 6 AssetTypes.ERC20.
Definition ROBINHOOD_USDG : Asset := token_asset Robinhood ROBINHOOD_USDG_TOKEN_ID USDG_NAME USDG_SYMBOL 6 AssetTypes.ERC20.
Definition SOLANA_USDC : Asset := token_asset Solana SOLANA_USDC_TOKEN_ID USDC_NAME USDC_SYMBOL 6 AssetTypes.SPL.
Definition SOLANA_USDT : Asset := token_asset Solana SOLANA_USDT_TOKEN_ID USDT_NAME USDT_SYMBOL 6 AssetTypes.SPL.
Definition SOLANA_USDS : Asset := token_asset Solana SOLANA_USDS_TOKEN_ID USDS_NAME USDS_SYMBOL 6 AssetTypes.SPL.
Definition SOLANA_WBTC : Asset := token_asset Solana SOLANA_WBTC_TOKEN_ID WBTC_NAME WBTC_SYMBOL 8 AssetTypes.SPL.
Definition SOLANA_CBBTC : Asset := token_asset Solana SOLANA_CBBTC_TOKEN_ID CBBTC_NAME CBBTC_SYMBOL 8 AssetTypes.SPL.
Definition SOLANA_JITO_SOL : Asset := token_asset Solana SOLANA_JITO_SOL_TOKEN_ID "Jito Staked SOL" "JitoSOL" 9 AssetTypes.SPL.
Definition SUI_USDC : Asset := token_asset Sui SUI_USDC_TOKEN_ID USDC_NAME USDC_SYMBOL 6 AssetTypes.TOKEN.
Definition SUI_SBUSDT : Asset := token_asset Sui SUI_SBUSDT_TOKEN_ID "Sui Bridged USDT" "sbUSDT" 6 AssetTypes.TOKEN.
Definition SUI_WAL : Asset := token_asset Sui SUI_WAL_TOKEN_ID "Walrus" "WAL" 9 AssetTypes.TOKEN.
Definition THORCHAIN_TCY : Asset := token_asset Thorchain THORCHAIN_TCY_TOKEN_ID "TCY" "TCY" 8 AssetTypes.TOKEN.
Definition TRON_USDT : Asset := token_asset Tron TRON_USDT_TOKEN_ID USDT_NAME USDT_SYMBOL 6 AssetTypes.TRC20.
Definition TEMPO_BRIDGED_USDC : Asset := token_asset Tempo TEMPO_BRIDGED_USDC_TOKEN_ID "Bridged USDC" "USDC.e" 6 AssetTypes.TIP20.
Definition TEMPO_USDT0 : Asset := token_asset Tempo TEMPO_USDT0_TOKEN_ID "USDT0" "USDT0" 6 AssetTypes.TIP20.
Definition TEMPO_PATHUSD : Asset := token_asset Tempo TEMPO_PATHUSD_TOKEN_ID "pathUSD" "pathUSD" 6 AssetTypes.TIP20.

Record WalletDefaultAsset := MkDefault { default_asset : Asset; default_rank : Z }.

Definition WALLET_DEFAULT_ASSETS : list WalletDefaultAsset :=
  [MkDefault HYPERCORE_PERPETUAL_USDC (rank score_default); MkDefault HYPERCORE_SPOT_USDC 32; MkDefault
   SOLANA_USDC 34; MkDefault SOLANA_USDT 34; MkDefault TEMPO_BRIDGED_USDC 18; MkDefault TEMPO_PATHUSD 16;
   MkDefault TEMPO_USDT0 26; MkDefault TRON_USDT 33].

Definition wallet_default_assets (chain : Chain) : list Asset :=
  map default_asset (filter (fun default => chain_of (default_asset default) = chain) WALLET_DEFAULT_ASSETS).

Definition default_token_rank (asset_id : AssetIds.AssetId) : Z :=
  match list_find (fun default => id (default_asset default) = asset_id) WALLET_DEFAULT_ASSETS with
  | Some (_, default) => default_rank default
  | None => rank score_default
  end.

(** [AssetId::default_rank]; [None] where the chain has no configuration, which does not happen. *)
Definition asset_default_rank (self : AssetIds.AssetId) : option Z :=
  if AssetIds.is_native self then ChainMethods.rank (AssetIds.chain self) else Some (default_token_rank self).

End KnownAssets.

(** ** Properties *)

Module AssetFacts.
Import Chains AssetIds Assets.

Lemma chain_text c : free_of "_" (as_ref c) = true /\ from_str (as_ref c) = Some c.
Proof. by destruct c. Qed.

Lemma from_str_text s c : from_str s = Some c -> as_ref c = s.
Proof.
  unfold from_str. intros E. apply fmap_Some in E as [[i x] [L ->]]. by apply list_find_Some in L as (_ & P & _).
Qed.

(** An asset id is recovered from its text, also when the token id contains the separator, and only the
    text of an id is read as that id; the parts of a composed token id are recovered when no part contains a
    colon. *)
Theorem asset_id_roundtrip :
  (forall a, new (to_string a) = Some a) /\
  (forall s a, new s = Some a -> to_string a = s) /\
  (forall parts, parts <> [] -> Forall (fun s => free_of ":" s = true) parts ->
     decode_token_id (sub_token_id parts) = parts).
Proof.
  split; [|split].
  - intros [c [t|]]; unfold new, to_string; cbn [chain token_id]; destruct (chain_text c) as [F P].
    + unfold CHAIN_SEPARATOR. rewrite split_once_str_free by done. by rewrite P.
    + unfold CHAIN_SEPARATOR. rewrite split_once_str_none by done. by rewrite P.
  - intros s a. unfold new. destruct (split_once_str CHAIN_SEPARATOR s) as [[c t]|] eqn:E.
    + apply split_once_str_Some in E as ->. destruct (from_str c) as [x|] eqn:P; [|done]. intros [= <-].
      unfold to_string. cbn. by rewrite (from_str_text c).
    + destruct (from_str s) as [x|] eqn:P; [|done]. intros [= <-]. unfold to_string. cbn. by apply from_str_text.
  - intros parts N F. by apply split_join.
Qed.

Lemma asset_id_roundtrip_witness :
  new "hypercore_perpetual::USDC" = Some (from_token HyperCore "perpetual::USDC") /\
  to_string (from_token HyperCore "perpetual::USDC") = "hypercore_perpetual::USDC" /\
  decode_token_id (sub_token_id ["USDC"; "0xeb62"; "0"]) = ["USDC"; "0xeb62"; "0"].
Proof.
  split; [by vm_compute|]. split.
  - apply (proj1 (proj2 asset_id_roundtrip)). by vm_compute.
  - apply (proj2 (proj2 asset_id_roundtrip)); [done|]. by repeat constructor.
Defined.

(** A chain's asset is its native one, with a name, a symbol and at most 24 decimals. *)
Lemma chain_assets_native c : id (asset_from_chain c) = AssetIds.from_chain c /\
  asset_type (asset_from_chain c) = AssetTypes.NATIVE /\ 6 <= decimals (asset_from_chain c) <= 24.
Proof. by destruct c; split_and!. Qed.

(** The asset ids of the table are distinct but for three pairs: ACX and ARB on Ethereum share an address,
    and so do USDC and bridged USDC on Base and on Ethereum. *)
Lemma constants_distinct :
  NoDup (filter (fun a => a ∉ [AssetConstants.ETHEREUM_ARB_ASSET_ID; AssetConstants.BASE_USDC_E_ASSET_ID;
    AssetConstants.ETHEREUM_USDC_E_ASSET_ID]) AssetConstants.asset_ids) /\
  AssetConstants.ETHEREUM_ARB_ASSET_ID = AssetConstants.ETHEREUM_ACX_ASSET_ID /\
  AssetConstants.BASE_USDC_E_ASSET_ID = AssetConstants.BASE_USDC_ASSET_ID /\
  AssetConstants.ETHEREUM_USDC_E_ASSET_ID = AssetConstants.ETHEREUM_USDC_ASSET_ID.
Proof. split; [by apply (bool_decide_unpack _); vm_compute|done]. Qed.

(** The rank [Unknown] is the last variant: ranks from 0 to 14, at or above its threshold, are [Inactive]. *)
Lemma ranks_from_zero rank : 0 <= rank < 15 -> AssetScores.from_rank rank = AssetScores.Inactive.
Proof.
  intros R. unfold AssetScores.from_rank, AssetScores.all.
  cbn [list_find AssetScores.threshold]. do 4 (rewrite decide_False by lia). by rewrite decide_True by lia.
Qed.

End AssetFacts.
