(* ===== verification/Transactions.v ===== *)
(** * Transactions

    Models of [primitives/src]: [transaction_type.rs], [transaction_state.rs], [transaction_direction.rs],
    [transaction_id.rs], [transaction_utxo.rs], the metadata of [transaction_metadata_types.rs] and
    [transaction.rs].  Metadata is a JSON value; its parsers (derived by serde) are the class
    [TransactionJson].  An amount is an integer that is not negative, a point in time an integer, and a [HashSet] a
    [gset]; [finalize] is [None] where the source panics, which [finalize_view] excludes. *)
From S2P Require Import Prelude HexText Text ChainRegistry Assets.
Import Assets.AssetIds.

#[export] Existing Instance Chains.Chain_countable.

#[export] Instance AssetId_countable : Countable AssetId.
Proof. by apply (inj_countable' (fun a => (chain a, token_id a)) (fun p => MkAssetId (fst p) (snd p))); intros []. Defined.

(** ** [transaction_type.rs], [transaction_state.rs] and [transaction_direction.rs] *)

Module TransactionTypes.

Inductive TransactionType :=
| Transfer | TransferNFT | Swap | TokenApproval | StakeDelegate | StakeUndelegate | StakeRewards | StakeRedelegate
| StakeWithdraw | StakeFreeze | StakeUnfreeze | AssetActivation | SmartContractCall | PerpetualOpenPosition
| PerpetualClosePosition | PerpetualModifyPosition | EarnDeposit | EarnWithdraw.

#[export] Instance TransactionType_eq_dec : EqDecision TransactionType.
Proof. solve_decision. Defined.

Definition staking_types : list TransactionType := [StakeDelegate; StakeUndelegate; StakeRedelegate; StakeRewards].

Inductive TransactionState := Pending | Confirmed | InTransit | Failed | Reverted | Refunded.

#[export] Instance TransactionState_eq_dec : EqDecision TransactionState.
Proof. solve_decision. Defined.

Definition is_completed (self : TransactionState) : bool :=
  match self with
  | Confirmed | Failed | Reverted | Refunded => true
  | Pending | InTransit => false
  end.

Definition merged_with (self updated : TransactionState) : TransactionState :=
  if bool_decide (self = Pending) || is_completed updated then updated else self.

Inductive TransactionDirection := SelfTransfer | Outgoing | Incoming.

#[export] Instance TransactionDirection_eq_dec : EqDecision TransactionDirection.
Proof. solve_decision. Defined.

End TransactionTypes.

(** ** [transaction_id.rs] *)

Module TransactionIds.

Record TransactionId := MkTransactionId { chain : Chains.Chain; hash : string }.

Definition to_string (self : TransactionId) : string :=
  Chains.as_ref (chain self) +:+ CHAIN_SEPARATOR +:+ hash self.

Definition from_str (s : string) : option TransactionId :=
  let?? (chain_str, hash_str) := split_once_str CHAIN_SEPARATOR s in
  let?? chain := Chains.from_str chain_str in
  Some (MkTransactionId chain hash_str).

End TransactionIds.

(** ** [transaction.rs] *)

Module Transactions.
Import TransactionTypes.

Record TransactionUtxoInput := MkUtxo { utxo_address : string; utxo_value : Z }.

Record TransactionAssetTransfer := MkAssetTransfer {
  transfer_asset_id : AssetId;
  transfer_from : string;
  transfer_to : string;
  transfer_value : Z
}.

Record TransactionSwapMetadata := MkSwapMetadata {
  from_asset : AssetId;
  from_value : Z;
  to_asset : AssetId;
  to_value : Z;
  swap_provider : option string
}.

(** [TransactionAssetTransfersMetadata::deserialize], [TransactionSwapMetadata::deserialize] *)
Class TransactionJson := {
  JsonValue : Type;
  asset_transfers : JsonValue -> option (list TransactionAssetTransfer);
  swap_of : JsonValue -> option TransactionSwapMetadata
}.

Record AssetAddress := MkAssetAddress { aa_asset_id : AssetId; aa_address : string; aa_value : option Z }.

Definition asset_address (asset_id : AssetId) (address : string) : AssetAddress := MkAssetAddress asset_id address None.

#[export] Instance AssetAddress_eq_dec : EqDecision AssetAddress.
Proof. solve_decision. Defined.
#[export] Instance AssetAddress_countable : Countable AssetAddress.
Proof.
  by apply (inj_countable' (fun a => (aa_asset_id a, aa_address a, aa_value a))
    (fun p => MkAssetAddress (fst (fst p)) (snd (fst p)) (snd p))); intros [].
Defined.

Section transaction.
Context `{TransactionJson}.

Record Transaction := MkTransaction {
  id : TransactionIds.TransactionId;
  asset_id : AssetId;
  from : string;
  to : string;
  contract : option string;
  transaction_type : TransactionType;
  state : TransactionState;
  block_number : option string;
  sequence : option string;
  fee : Z;
  fee_asset_id : AssetId;
  value : Z;
  memo : option string;
  direction : TransactionDirection;
  utxo_inputs : option (list TransactionUtxoInput);
  utxo_outputs : option (list TransactionUtxoInput);
  metadata : option JsonValue;
  data : option string;
  created_at : Z
}.

Definition new (hash : string) (asset_id : AssetId) (from_address to_address : string) (contract : option string)
  (transaction_type : TransactionType) (state : TransactionState) (fee : Z) (fee_asset_id : AssetId) (value : Z)
  (memo : option string) (metadata : option JsonValue) (created_at : Z) : Transaction :=
  MkTransaction (TransactionIds.MkTransactionId (chain asset_id) hash) asset_id from_address to_address contract
    transaction_type state (Some EmptyString) (Some EmptyString) fee fee_asset_id value memo SelfTransfer
    (Some []) (Some []) metadata None created_at.

Definition new_with_utxo (hash : string) (asset_id : AssetId) (transaction_type : TransactionType)
  (state : TransactionState) (fee : Z) (fee_asset_id : AssetId) (value : Z) (memo : option string)
  (utxo_inputs utxo_outputs : option (list TransactionUtxoInput)) (metadata : option JsonValue) (created_at : Z)
  : Transaction :=
  MkTransaction (TransactionIds.MkTransactionId (chain asset_id) hash) asset_id EmptyString EmptyString None
    transaction_type state (Some EmptyString) (Some EmptyString) fee fee_asset_id value memo SelfTransfer
    (Some (default [] utxo_inputs)) (Some (default [] utxo_outputs)) metadata None created_at.

(** The struct updates of [finalize], of [project_asset_transfer] and of the methods below *)
Definition with_view (self : Transaction) (from to : string) (value : Z) (direction : TransactionDirection)
  : Transaction :=
  MkTransaction (id self) (asset_id self) from to (contract self) (transaction_type self) (state self)
    (block_number self) (sequence self) (fee self) (fee_asset_id self) value (memo self) direction (utxo_inputs self)
    (utxo_outputs self) (metadata self) (data self) (created_at self).

Definition with_transfer (self : Transaction) (transfer : TransactionAssetTransfer) (direction : TransactionDirection)
  : Transaction :=
  MkTransaction (id self) (transfer_asset_id transfer) (transfer_from transfer) (transfer_to transfer) (contract self)
    Transfer (state self) (block_number self) (sequence self) (fee self) (fee_asset_id self) (transfer_value transfer)
    (memo self) direction (utxo_inputs self) (utxo_outputs self) None (data self) (created_at self).

Definition without_utxo (self : Transaction) : Transaction :=
  MkTransaction (id self) (asset_id self) (from self) (to self) (contract self) (transaction_type self) (state self)
    (block_number self) (sequence self) (fee self) (fee_asset_id self) (value self) (memo self) (direction self) None
    None (metadata self) (data self) (created_at self).

Definition with_data (self : Transaction) (data : option string) : Transaction :=
  MkTransaction (id self) (asset_id self) (from self) (to self) (contract self) (transaction_type self) (state self)
    (block_number self) (sequence self) (fee self) (fee_asset_id self) (value self) (memo self) (direction self)
    (utxo_inputs self) (utxo_outputs self) (metadata self) data (created_at self).

Definition with_swap_state (self : Transaction) (state : TransactionState) (metadata_ : option JsonValue)
  : Transaction :=
  MkTransaction (id self) (asset_id self) (from self) (to self) (contract self) Swap state (block_number self)
    (sequence self) (fee self) (fee_asset_id self) (value self) (memo self) (direction self) (utxo_inputs self)
    (utxo_outputs self) (match metadata_ with Some m => Some m | None => metadata self end) (data self)
    (created_at self).

Definition hash (self : Transaction) : string := TransactionIds.hash (id self).

Definition input_addresses (self : Transaction) : list string :=
  match utxo_inputs self with None => [] | Some v => map utxo_address v end.
Definition output_addresses (self : Transaction) : list string :=
  match utxo_outputs self with None => [] | Some v => map utxo_address v end.

Definition is_sent (self : Transaction) (address : string) : bool :=
  bool_decide (address ∈ input_addresses self) || String.eqb (from self) address.

Definition swap_metadata (self : Transaction) : option TransactionSwapMetadata := metadata self ≫= swap_of.
Definition asset_transfers_metadata (self : Transaction) : option (list TransactionAssetTransfer) :=
  metadata self ≫= asset_transfers.

(** [retain(|address| !address.is_empty() && unique.insert(address))] *)
Fixpoint retain_unique (unique : gset string) (addresses : list string) : list string :=
  match addresses with
  | [] => []
  | address :: addresses =>
      if String.eqb address EmptyString || bool_decide (address ∈ unique) then retain_unique unique addresses
      else address :: retain_unique ({[address]} ∪ unique) addresses
  end.

Definition addresses (self : Transaction) : list string :=
  let addresses := [from self; to self] ++ input_addresses self ++ output_addresses self in
  let addresses := addresses ++ match asset_transfers_metadata self with
    | Some transfers => flat_map (fun transfer => [transfer_from transfer; transfer_to transfer]) transfers
    | None => []
    end in
  retain_unique ∅ addresses.

Definition utxo_calculate_value (values : list TransactionUtxoInput) (addresses : gset string) : Z :=
  foldr (fun x sum => (if bool_decide (utxo_address x ∈ addresses) then utxo_value x else 0) + sum) 0 values.

(** [addresses.iter().any(|candidate| candidate.eq_ignore_ascii_case(address))] *)
Definition contains_ignore_case (addresses : list string) (address : string) : bool :=
  existsb (fun candidate => eq_ignore_ascii_case candidate address) addresses.

Definition project_asset_transfer (self : Transaction) (transfers : list TransactionAssetTransfer)
  (addresses : list string) : option Transaction :=
  let contains := contains_ignore_case addresses in
  match List.filter (fun transfer => contains (transfer_from transfer) || contains (transfer_to transfer)) transfers with
  | [transfer] =>
      let direction :=
        if contains (transfer_from transfer) then
          if contains (transfer_to transfer) then SelfTransfer else Outgoing
        else Incoming in
      Some (with_transfer self transfer direction)
  | _ => None
  end.

(** [iter().find(..).unwrap()] *)
Definition find_unwrap {A} (P : A -> bool) (l : list A) : option A := List.find P l.

Definition utxo_direction (user_set input_set output_set : gset string) : TransactionDirection :=
  if bool_decide (user_set ∩ input_set ≠ ∅) then
    if bool_decide (output_set ⊆ user_set) then SelfTransfer else Outgoing
  else Incoming.

(** The part of [finalize] after its early returns *)
Definition finalize_utxo (self : Transaction) (user_set : gset string) (direction : TransactionDirection)
  : option Transaction :=
  let?? utxo_inputs := utxo_inputs self in
  let?? utxo_outputs := utxo_outputs self in
  let?? first_input := head utxo_inputs in
  let from := utxo_address first_input in
  let?? (to, value) :=
    match direction with
    | Incoming =>
        let?? to := find_unwrap (fun x => bool_decide (x ∈ user_set)) (output_addresses self) in
        Some (to, utxo_calculate_value utxo_outputs user_set)
    | Outgoing =>
        let?? to := find_unwrap (fun x => negb (bool_decide (x ∈ user_set))) (output_addresses self) in
        let?? output := find_unwrap (fun x => String.eqb (utxo_address x) to) utxo_outputs in
        Some (to, utxo_value output)
    | SelfTransfer =>
        let?? output := head utxo_outputs in
        Some (utxo_address output, utxo_calculate_value utxo_outputs user_set)
    end in
  Some (with_view self from to value direction).

Definition finalize (self : Transaction) (addresses : list string) : option Transaction :=
  let?? is_utxo := ChainMethods.is_utxo (chain (asset_id self)) in
  if negb is_utxo then
    match asset_transfers_metadata self with
    | None => Some self
    | Some transfers => Some (default self (project_asset_transfer self transfers addresses))
    end
  else if (length addresses =? 0)%nat || (length (input_addresses self) =? 0)%nat
          || (length (output_addresses self) =? 0)%nat then Some self
  else
    let user_set : gset string := list_to_set addresses in
    let input_set : gset string := list_to_set (input_addresses self) in
    let output_set : gset string := list_to_set (output_addresses self) in
    if bool_decide (user_set ## input_set) && bool_decide (user_set ## output_set) then Some self
    else finalize_utxo self user_set (utxo_direction user_set input_set output_set).

Definition asset_ids (self : Transaction) : gset AssetId :=
  let asset_ids := match transaction_type self with
    | Swap => match swap_metadata self with Some metadata => [from_asset metadata; to_asset metadata] | None => [] end
    | _ => [asset_id self]
    end in
  let transfers := match asset_transfers_metadata self with
    | Some transfers => map transfer_asset_id transfers
    | None => []
    end in
  list_to_set (asset_ids ++ transfers).

Definition associated_asset_ids (self : Transaction) : gset AssetId :=
  asset_ids self ∪ {[asset_id self; fee_asset_id self]}.

Definition assets_addresses (self : Transaction) : gset AssetAddress :=
  match asset_transfers_metadata self with
  | Some transfers =>
      list_to_set (flat_map (fun transfer =>
        [asset_address (transfer_asset_id transfer) (transfer_from transfer);
         asset_address (transfer_asset_id transfer) (transfer_to transfer)]) transfers)
  | None =>
      match transaction_type self with
      | Transfer | TransferNFT => list_to_set (map (asset_address (asset_id self)) (addresses self))
      | TokenApproval => {[asset_address (asset_id self) (from self)]}
      | Swap =>
          match swap_metadata self with
          | Some metadata => {[asset_address (from_asset metadata) (from self); asset_address (to_asset metadata) (to self)]}
          | None => ∅
          end
      | _ => {[asset_address (asset_id self) (to self)]}
      end
  end.

Definition assets_addresses_with_fee (self : Transaction) : gset AssetAddress :=
  assets_addresses self ∪ {[asset_address (fee_asset_id self) (from self)]}.

End transaction.
End Transactions.

(** ** Properties *)

Module TransactionFacts.
Import TransactionTypes Transactions.

(** The text of a transaction id is read as that id, whatever the hash is. *)
Lemma transaction_id_roundtrip t : TransactionIds.from_str (TransactionIds.to_string t) = Some t.
Proof.
  destruct t as [c h]. unfold TransactionIds.from_str, TransactionIds.to_string, CHAIN_SEPARATOR. cbn [TransactionIds.chain TransactionIds.hash].
  destruct (AssetFacts.chain_text c) as [F P]. rewrite split_once_str_free by done. by rewrite P.
Qed.

(** Updates of a state in any order: the last completed one decides; without one a transaction is in transit
    once it was reported so. *)
Lemma merged_states updates s :
  fold_left merged_with updates s =
  match List.find is_completed (rev updates) with
  | Some completed => completed
  | None => if bool_decide (s = Pending) && bool_decide (InTransit ∈ updates) then InTransit else s
  end.
Proof.
  revert s. induction updates as [|u updates IH]; intros s; cbn [fold_left rev].
  - cbn. by rewrite (bool_decide_eq_false_2 (InTransit ∈ [])), andb_false_r by (apply not_elem_of_nil).
  - rewrite IH. assert (forall l, List.find is_completed (l ++ [u]) = match List.find is_completed l with
      | Some c => Some c | None => if is_completed u then Some u else None end) as F.
    { induction l as [|x l IHl]; cbn; [done|]. by destruct (is_completed x). }
    rewrite F. destruct (List.find is_completed (rev updates)); [done|].
    assert (bool_decide (InTransit ∈ u :: updates) = bool_decide (u = InTransit) || bool_decide (InTransit ∈ updates)) as ->.
    { destruct (decide (u = InTransit)) as [->|N]; [by rewrite !bool_decide_eq_true_2 by set_solver|].
      rewrite (bool_decide_eq_false_2 (u = InTransit)) by done. apply bool_decide_ext. set_solver. }
    by destruct u, s, (bool_decide (InTransit ∈ updates)).
Qed.

Lemma retain_unique_spec seen l : NoDup (retain_unique seen l) /\
  forall a, a ∈ retain_unique seen l <-> a ∈ l /\ a <> EmptyString /\ a ∉ seen.
Proof.
  revert seen. induction l as [|x l IH]; intros seen; cbn [retain_unique].
  { split; [constructor|]. set_solver. }
  destruct (String.eqb_spec x EmptyString) as [->|N]; cbn [orb].
  { destruct (IH seen) as [I1 I2]. split; [done|]. intros a. rewrite I2. set_solver. }
  destruct (bool_decide_reflect (x ∈ seen)) as [S|S].
  { destruct (IH seen) as [I1 I2]. split; [done|]. intros a. rewrite I2. set_solver. }
  destruct (IH ({[x]} ∪ seen)) as [I1 I2]. split.
  - constructor; [|done]. rewrite I2. set_solver.
  - intros a. rewrite elem_of_cons, I2. split; [|destruct (decide (a = x)); set_solver].
    intros [->|(? & ? & ?)]; set_solver.
Qed.

Section view.
Context `{TransactionJson}.

(** The addresses of a transaction are listed once each, and none is empty. *)
Lemma addresses_unique self : NoDup (addresses self) /\ EmptyString ∉ addresses self.
Proof. unfold addresses. edestruct retain_unique_spec as [N E]. split; [exact N|]. rewrite E. set_solver. Qed.

Lemma find_unwrap_Some {A} (P : A -> bool) l x : In x l -> P x = true ->
  exists y, find_unwrap P l = Some y /\ In y l /\ P y = true.
Proof.
  intros I T. unfold find_unwrap. destruct (List.find P l) as [y|] eqn:F.
  - exists y. by apply List.find_some in F as [? ?].
  - exfalso. pose proof (List.find_none _ _ F x I). congruence.
Qed.

(** What a view of a UTXO transaction shows to the owner of [user]. *)
Definition shows (user : gset string) (ins outs : list TransactionUtxoInput) (t : Transaction) : Prop :=
  from <$> Some t = utxo_address <$> head ins /\
  match direction t with
  | Incoming => (forall i, i ∈ ins -> utxo_address i ∉ user) /\ to t ∈ user /\
      value t = utxo_calculate_value outs user
  | Outgoing => (exists i, i ∈ ins /\ utxo_address i ∈ user) /\ to t ∉ user /\ MkUtxo (to t) (value t) ∈ outs
  | SelfTransfer => (exists i, i ∈ ins /\ utxo_address i ∈ user) /\
      (forall o, o ∈ outs -> utxo_address o ∈ user) /\ value t = utxo_calculate_value outs user
  end.

Lemma finalize_utxo_shows self (user : gset string) ins outs :
  utxo_inputs self = Some ins -> utxo_outputs self = Some outs -> ins <> [] -> outs <> [] ->
  ~ (user ## list_to_set (input_addresses self) /\ user ## list_to_set (output_addresses self)) ->
  exists t, finalize_utxo self user (utxo_direction user (list_to_set (input_addresses self))
      (list_to_set (output_addresses self))) = Some t /\
    id t = id self /\ asset_id t = asset_id self /\ fee t = fee self /\ state t = state self /\ shows user ins outs t.
Proof.
  intros Ei Eo Ni No D. unfold utxo_direction, finalize_utxo. unfold input_addresses, output_addresses in *.
  rewrite Ei, Eo in D |- *. destruct ins as [|i0 ins]; [done|]. destruct outs as [|o0 outs]; [done|].
  set (ia := map utxo_address (i0 :: ins)) in *. set (oa := map utxo_address (o0 :: outs)) in *.
  cbn [head]. unfold shows.
  assert (M : forall l a, a ∈ map utxo_address l <-> exists i, i ∈ l /\ utxo_address i = a).
  { intros l a. rewrite (list_elem_of_fmap utxo_address). naive_solver. }
  destruct (bool_decide_reflect (user ∩ list_to_set ia ≠ ∅)) as [I|I].
  - assert (exists i, i ∈ i0 :: ins /\ utxo_address i ∈ user) as Mine.
    { apply set_choose_L in I as [a [A1 A2]%elem_of_intersection]. apply elem_of_list_to_set, M in A2 as (i & I1 & <-).
      by exists i. }
    destruct (bool_decide_reflect (list_to_set oa ⊆ user)) as [S|S].
    + eexists. split; [reflexivity|]. cbn. split_and!; try done. intros o Ho. apply S, elem_of_list_to_set, M. eauto.
    + assert (exists a, In a oa /\ negb (bool_decide (a ∈ user)) = true) as (a & A1 & A2).
      { destruct (decide (Exists (fun a => a ∉ user) oa)) as [E|E].
        - apply Exists_exists in E as (a & A1 & A2). exists a. split; [by apply list_elem_of_In|].
          by rewrite bool_decide_eq_false_2.
        - exfalso. apply S. intros a A%elem_of_list_to_set. destruct (decide (a ∈ user)); [done|].
          exfalso. apply E, Exists_exists. eauto. }
      destruct (find_unwrap_Some (fun x => negb (bool_decide (x ∈ user))) oa a A1 A2) as (dest & -> & B1 & B2).
      cbn beta iota.
      apply list_elem_of_In, M in B1 as (o & O1 & O2). apply list_elem_of_In in O1.
      destruct (find_unwrap_Some (fun x => String.eqb (utxo_address x) dest) _ o O1) as (out & -> & C1 & C2).
      { by apply String.eqb_eq. }
      eexists. split; [reflexivity|]. cbn. apply String.eqb_eq in C2. apply negb_true_iff, bool_decide_eq_false in B2.
      split_and!; try done. apply list_elem_of_In. by destruct out as [? ?]; cbn in *; subst.
  - assert (exists a, In a oa /\ bool_decide (a ∈ user) = true) as (a & A1 & A2).
    { destruct (decide (Exists (fun a => a ∈ user) oa)) as [E|E].
      - apply Exists_exists in E as (a & A1 & A2). exists a. split; [by apply list_elem_of_In|].
        by apply bool_decide_eq_true.
      - exfalso. apply D. split; [set_solver|]. intros a Ha Hb%elem_of_list_to_set. apply E, Exists_exists. eauto. }
    destruct (find_unwrap_Some (fun x => bool_decide (x ∈ user)) oa a A1 A2) as (dest & -> & B1 & B2). cbn beta iota.
    eexists. split; [reflexivity|]. cbn. apply bool_decide_eq_true in B2. split_and!; try done.
    intros i Hi U. apply I. intros E. assert (utxo_address i ∈ user ∩ list_to_set ia) as X; [|by rewrite E in X].
    apply elem_of_intersection. split; [done|]. apply elem_of_list_to_set, M. eauto.
Qed.

(** Seen by the owner of some addresses a transaction keeps its id, its fee and its state, and the view
    never panics.  On a UTXO chain it is incoming exactly when no input is the owner's, and then its value is what
    the owner's outputs receive; outgoing, it shows an output that is not the owner's with its value; and to self,
    every output is the owner's. *)
Theorem finalize_view self addresses : exists t, finalize self addresses = Some t /\
  id t = id self /\ fee t = fee self /\ state t = state self /\
  forall ins outs, ChainMethods.is_utxo (chain (asset_id self)) = Some true ->
    utxo_inputs self = Some ins -> utxo_outputs self = Some outs ->
    (exists u, u ∈ ins ++ outs /\ utxo_address u ∈ addresses) -> ins <> [] -> outs <> [] ->
    shows (list_to_set addresses) ins outs t.
Proof.
  unfold finalize. destruct (ChainMethods.is_utxo (chain (asset_id self))) as [[|]|] eqn:U; cbn [negb].
  - destruct (_ || _) eqn:E.
    { exists self. do 4 (split; [done|]). intros ins outs _ Ei Eo (u & _ & Hu) Ni No. exfalso.
      unfold input_addresses, output_addresses in E. rewrite Ei, Eo in E.
      destruct addresses, ins, outs; try done. by apply elem_of_nil in Hu. }
    apply orb_false_iff in E as [E E3]. apply orb_false_iff in E as [E1 E2]. zbool.
    unfold input_addresses, output_addresses in E2, E3.
    destruct (utxo_inputs self) as [ins|] eqn:Ei; [|done]. destruct (utxo_outputs self) as [outs|] eqn:Eo; [|done].
    destruct (bool_decide (_ ## _) && bool_decide (_ ## _)) eqn:D.
    { exists self. do 4 (split; [done|]). intros ins' outs' _ [= <-] [= <-] (u & Hu & Ha) _ _. exfalso.
      apply andb_true_iff in D as [D1%bool_decide_eq_true D2%bool_decide_eq_true].
      unfold input_addresses, output_addresses in D1, D2. rewrite Ei in D1. rewrite Eo in D2.
      apply elem_of_app in Hu as [Hu|Hu]; [apply (D1 (utxo_address u))|apply (D2 (utxo_address u))];
        rewrite elem_of_list_to_set; try done; by apply list_elem_of_fmap_2. }
    destruct (finalize_utxo_shows self (list_to_set addresses) ins outs Ei Eo) as (t & -> & I & _ & F & S & V).
    { by destruct ins. } { by destruct outs. }
    { intros [D1 D2]. rewrite !bool_decide_eq_true_2 in D by done. done. }
    exists t. do 4 (split; [done|]). by intros ins' outs' _ [= <-] [= <-].
  - destruct (asset_transfers_metadata self) as [transfers|]; [|exists self; by split_and!].
    eexists. split; [reflexivity|]. unfold project_asset_transfer.
    destruct (List.filter _ _) as [|transfer [|]]; cbn; by split_and!.
  - exfalso. revert U. generalize (chain (asset_id self)). intros c. by destruct c.
Qed.

End view.
End TransactionFacts.

Module TransactionConcrete.
Import TransactionTypes Transactions TransactionFacts.

#[local] Instance no_metadata : TransactionJson :=
  {| JsonValue := unit; asset_transfers := fun _ => None; swap_of := fun _ => None |}.

(** Two inputs of the owner; the first output pays someone else, the second returns change. *)
Definition payment : Transaction :=
  new_with_utxo "id" (from_chain Chains.Bitcoin) Transfer Confirmed 10 (from_chain Chains.Bitcoin) 0 None
    (Some [MkUtxo "mine" 60; MkUtxo "also mine" 50]) (Some [MkUtxo "theirs" 70; MkUtxo "mine" 30]) None 0.

Lemma finalize_view_witness : exists t, finalize payment ["mine"; "also mine"] = Some t /\
  direction t = Outgoing /\ from t = "mine" /\ to t = "theirs" /\ value t = 70 /\
  shows (list_to_set ["mine"; "also mine"]) [MkUtxo "mine" 60; MkUtxo "also mine" 50]
    [MkUtxo "theirs" 70; MkUtxo "mine" 30] t.
Proof.
  destruct (finalize_view payment ["mine"; "also mine"]) as (t & E & _ & _ & _ & V). exists t. split; [done|].
  vm_compute in E. injection E as <-. split; [done|]. split; [done|]. split; [done|]. split; [done|].
  apply V; try done. exists (MkUtxo "mine" 60). split; [by left|by left].
Defined.

End TransactionConcrete.
