(* ===== verification/Wallets.v ===== *)
(** * Wallets

    Models [primitives/src]: [wallet_type.rs], [wallet_id.rs], [account.rs] and the accounts of a wallet
    ([wallet.rs]; module [Wallets]).  The theorems show that the id of a wallet is recovered from its text, and that
    [address_chains] groups every account under its address exactly once. *)
From Stdlib Require Import OrdersEx Sorted.
From S2P Require Import Prelude HexText Text ChainRegistry Assets.

(** ** [wallet_type.rs] and [wallet_id.rs] *)

Module WalletIds.
Import Assets.AssetIds.

Inductive WalletType := Multicoin | Single | PrivateKey | View.

#[export] Instance WalletType_eq_dec : EqDecision WalletType.
Proof. solve_decision. Defined.

Definition as_ref (self : WalletType) : string :=
  match self with
  | Multicoin => "multicoin" | Single => "single" | PrivateKey => "privateKey" | View => "view"
  end.

Definition wallet_types : list WalletType := [Multicoin; Single; PrivateKey; View].

Definition type_from_str (s : string) : option WalletType :=
  snd <$> list_find (fun t => as_ref t = s) wallet_types.

Definition rank (self : WalletType) : Z :=
  match self with Multicoin => 0 | Single => 1 | PrivateKey => 2 | View => 3 end.

Inductive WalletId :=
| MulticoinId (address : string)
| SingleId (chain : Chains.Chain) (address : string)
| PrivateKeyId (chain : Chains.Chain) (address : string)
| ViewId (chain : Chains.Chain) (address : string).

#[export] Instance WalletId_eq_dec : EqDecision WalletId.
Proof. solve_decision. Defined.

Definition wallet_type (self : WalletId) : WalletType :=
  match self with
  | MulticoinId _ => Multicoin | SingleId _ _ => Single | PrivateKeyId _ _ => PrivateKey | ViewId _ _ => View
  end.

Definition address (self : WalletId) : string :=
  match self with
  | MulticoinId address | SingleId _ address | PrivateKeyId _ address | ViewId _ address => address
  end.

Definition chain (self : WalletId) : option Chains.Chain :=
  match self with
  | MulticoinId _ => None
  | SingleId chain _ | PrivateKeyId chain _ | ViewId chain _ => Some chain
  end.

Definition to_string (self : WalletId) : string :=
  match self with
  | MulticoinId address => as_ref Multicoin +:+ CHAIN_SEPARATOR +:+ address
  | SingleId chain address | PrivateKeyId chain address | ViewId chain address =>
      as_ref (wallet_type self) +:+ CHAIN_SEPARATOR +:+ Chains.as_ref chain +:+ CHAIN_SEPARATOR +:+ address
  end.

Inductive WalletIdError :=
| TwoPartsExpected (s : string)
| InvalidWalletType (wallet_type : string)
| ThreePartsExpected (wallet_type : WalletType) (s : string)
| InvalidChain (chain : string).

Definition from_str (s : string) : result WalletIdError WalletId :=
  let? (wallet_type_str, rest) := ok_or (split_once_str CHAIN_SEPARATOR s) (TwoPartsExpected s) in
  let? wallet_type := ok_or (type_from_str wallet_type_str) (InvalidWalletType wallet_type_str) in
  let in_chain (id : Chains.Chain -> string -> WalletId) :=
    let? (chain_str, address) := ok_or (split_once_str CHAIN_SEPARATOR rest) (ThreePartsExpected wallet_type s) in
    let? chain := ok_or (Chains.from_str chain_str) (InvalidChain chain_str) in
    Ok (id chain address) in
  match wallet_type with
  | Multicoin => Ok (MulticoinId rest)
  | Single => in_chain SingleId
  | PrivateKey => in_chain PrivateKeyId
  | View => in_chain ViewId
  end.

Definition from_id (id : string) : option WalletId := ok (from_str id).

End WalletIds.

(** ** [account.rs] and [wallet.rs] *)

Module Wallets.

Record Account := MkAccount {
  account_chain : Chains.Chain;
  address : string;
  derivation_path : string;
  extended_public_key : option string
}.

Record AddressChains := MkAddressChains { group_address : string; group_chains : list Chains.Chain }.

(** [WalletSource] and the picture of a wallet, which no operation here reads, are left out. *)
Record Wallet := MkWallet {
  id : WalletIds.WalletId;
  external_id : option string;
  name : string;
  index : Z;
  wallet_type : WalletIds.WalletType;
  accounts : list Account;
  is_pinned : bool
}.

Definition account (self : Wallet) (chain : Chains.Chain) : option Account :=
  List.find (fun account => bool_decide (account_chain account = chain)) (accounts self).

(** The place of a chain in the derived order *)
Definition chain_order (chain : Chains.Chain) : nat :=
  match list_find (fun c => c = chain) Chains.all with Some (i, _) => i | None => length Chains.all end.

(** A [BTreeMap<&str, BTreeSet<Chain>>]: the addresses in the order of their bytes, the chains in the order of
    their declaration *)
Fixpoint insert_chain (chain : Chains.Chain) (chains : list Chains.Chain) : list Chains.Chain :=
  match chains with
  | [] => [chain]
  | c :: rest =>
      if (chain_order chain =? chain_order c)%nat then chains
      else if (chain_order chain <? chain_order c)%nat then chain :: chains
      else c :: insert_chain chain rest
  end.

Fixpoint insert_account (address : string) (chain : Chains.Chain) (groups : list AddressChains) : list AddressChains :=
  match groups with
  | [] => [MkAddressChains address [chain]]
  | g :: rest =>
      match String_as_OT.compare address (group_address g) with
      | Eq => MkAddressChains address (insert_chain chain (group_chains g)) :: rest
      | Lt => MkAddressChains address [chain] :: groups
      | Gt => g :: insert_account address chain rest
      end
  end.

Definition address_chains (self : Wallet) : list AddressChains :=
  fold_left (fun groups account => insert_account (address account) (account_chain account) groups) (accounts self) [].

End Wallets.

(** ** Facts *)

Module WalletFacts.
Import WalletIds Wallets.

Lemma chain_order_inj c d : chain_order c = chain_order d -> c = d.
Proof.
  intros E. assert (H : bool_decide (Forall (fun c => Forall (fun d => chain_order c = chain_order d -> c = d) Chains.all)
    Chains.all) = true) by (by vm_compute).
  apply bool_decide_eq_true in H. rewrite Forall_forall in H.
  assert (A : forall c, c ∈ Chains.all) by (intros []; apply (bool_decide_unpack _); by vm_compute).
  specialize (H c (A c)). rewrite Forall_forall in H. exact (H d (A d) E).
Qed.

(** The id of a wallet is recovered from its text, and only the text of an id is read as that id. *)
Theorem wallet_id_roundtrip :
  (forall w, from_str (to_string w) = Ok w) /\ (forall s w, from_str s = Ok w -> to_string w = s).
Proof.
  assert (T : forall t, free_of "_" (as_ref t) = true) by (intros []; by vm_compute).
  assert (P : forall t, type_from_str (as_ref t) = Some t) by (intros []; by vm_compute).
  split.
  - intros w. unfold from_str, AssetIds.CHAIN_SEPARATOR.
    destruct w as [a|c a|c a|c a]; unfold to_string, AssetIds.CHAIN_SEPARATOR; rewrite split_once_str_free by apply T;
      cbn [ok_or mbind]; rewrite P; cbn [ok_or WalletIds.wallet_type]; try done;
      destruct (AssetFacts.chain_text c) as [F C]; rewrite split_once_str_free by done; cbn [ok_or]; by rewrite C.
  - intros s w. unfold from_str. destruct (split_once_str _ s) as [[t rest]|] eqn:S; [|done]. cbn [ok_or].
    apply split_once_str_Some in S as ->. destruct (type_from_str t) as [k|] eqn:K; [|done]. cbn [ok_or].
    assert (t = as_ref k) as ->.
    { unfold type_from_str in K. apply fmap_Some in K as [[i x] [L ->]]. by apply list_find_Some in L as (_ & <- & _). }
    destruct k; [by intros [= <-]|..];
      (destruct (split_once_str _ rest) as [[c a]|] eqn:S; [|done]; cbn [ok_or];
       apply split_once_str_Some in S as ->; destruct (Chains.from_str c) as [d|] eqn:C; [|done]; cbn [ok_or];
       intros [= <-]; apply AssetFacts.from_str_text in C as <-; reflexivity).
Qed.

Lemma wallet_id_roundtrip_witness :
  to_string (ViewId Chains.Ethereum "a_b") = "view_ethereum_a_b"
  /\ from_str "view_ethereum_a_b" = Ok (ViewId Chains.Ethereum "a_b").
Proof.
  split.
  - apply (proj2 wallet_id_roundtrip). by vm_compute.
  - exact (proj1 wallet_id_roundtrip (ViewId Chains.Ethereum "a_b")).
Defined.

(** The groups are in the order of their addresses, the chains of each in the order of the chains. *)
Definition group_lt (g h : AddressChains) : Prop := String_as_OT.lt (group_address g) (group_address h).
Definition chains_lt (c d : Chains.Chain) : Prop := (chain_order c < chain_order d)%nat.

Definition has (groups : list AddressChains) (address : string) (chain : Chains.Chain) : Prop :=
  exists g, g ∈ groups /\ group_address g = address /\ chain ∈ group_chains g.

Lemma insert_chain_elem c chains d : d ∈ insert_chain c chains <-> d = c \/ d ∈ chains.
Proof.
  induction chains as [|x chains IH]; cbn [insert_chain]; [rewrite list_elem_of_singleton; set_solver|].
  destruct (chain_order c =? chain_order x)%nat eqn:E.
  { apply Nat.eqb_eq, chain_order_inj in E as ->. set_solver. }
  destruct (_ <? _)%nat; set_solver.
Qed.

Lemma insert_chain_sorted c chains : StronglySorted chains_lt chains -> StronglySorted chains_lt (insert_chain c chains).
Proof.
  induction 1 as [|x chains S IH F]; cbn [insert_chain]; [repeat constructor|].
  destruct (chain_order c =? chain_order x)%nat eqn:E; [by constructor|].
  destruct (chain_order c <? chain_order x)%nat eqn:L.
  - apply Nat.ltb_lt in L. constructor; [by constructor|]. constructor; [done|].
    eapply Forall_impl; [exact F|]. unfold chains_lt. intros; cbn in *; lia.
  - apply Nat.eqb_neq in E. apply Nat.ltb_ge in L. constructor; [done|]. apply Forall_forall. intros d D.
    apply insert_chain_elem in D as [->|D]; [unfold chains_lt; lia|]. by eapply Forall_forall in F.
Qed.

Lemma has_nil a c : ~ has [] a c.
Proof. intros (g & G & _). by apply not_elem_of_nil in G. Qed.

Lemma has_cons h l a c : has (h :: l) a c <-> (group_address h = a /\ c ∈ group_chains h) \/ has l a c.
Proof.
  split.
  - intros (g & [->|G]%elem_of_cons & E & D); [by left|right; by exists g].
  - intros [[E D]|(g & G & E & D)]; [exists h|exists g]; split_and!; rewrite ?elem_of_cons; auto.
Qed.

Lemma insert_account_has a c groups b d :
  has (insert_account a c groups) b d <-> (b = a /\ d = c) \/ has groups b d.
Proof.
  induction groups as [|g groups IH]; cbn [insert_account].
  { rewrite has_cons. cbn [group_address group_chains]. rewrite list_elem_of_singleton. naive_solver. }
  destruct (String_as_OT.compare_spec a (group_address g)) as [E|E|E]; rewrite !has_cons; cbn [group_address group_chains].
  - rewrite insert_chain_elem. rewrite <- E. naive_solver.
  - rewrite list_elem_of_singleton. naive_solver.
  - rewrite IH. naive_solver.
Qed.

Lemma insert_account_addresses a c groups g :
  g ∈ insert_account a c groups -> group_address g = a \/ exists h, h ∈ groups /\ group_address g = group_address h.
Proof.
  induction groups as [|h groups IH]; cbn [insert_account].
  { intros ->%list_elem_of_singleton. by left. }
  destruct (String_as_OT.compare a (group_address h)) eqn:E; rewrite !elem_of_cons; cbn.
  - intros [->|H]; [by left|right; exists g; set_solver].
  - intros [->|[->|H]]; [by left|right; exists h; set_solver|right; exists g; set_solver].
  - intros [->|H]; [right; exists h; set_solver|]. destruct (IH H) as [|(x & X & Y)]; [by left|right; exists x; set_solver].
Qed.

Definition well_grouped (groups : list AddressChains) : Prop :=
  StronglySorted group_lt groups /\ Forall (fun g => StronglySorted chains_lt (group_chains g) /\ group_chains g <> []) groups.

Lemma insert_account_sorted a c groups : well_grouped groups -> well_grouped (insert_account a c groups).
Proof.
  intros [S F]. induction S as [|g groups S IH G]; cbn [insert_account].
  { split; [repeat constructor|]. constructor; [split; [repeat constructor|done]|constructor]. }
  inversion_clear F as [|? ? [F1 F2] F']. destruct (IH F') as [S1 S2].
  destruct (String_as_OT.compare_spec a (group_address g)) as [E|E|E].
  - split; constructor; try done.
    + eapply Forall_impl; [exact G|]. intros h H. unfold group_lt in *. cbn. by rewrite E.
    + cbn. split; [by apply insert_chain_sorted|]. destruct (group_chains g); cbn; [done|]. by repeat case_match.
  - split.
    + constructor; [by constructor|]. constructor; [done|]. eapply Forall_impl; [exact G|]. intros h H.
      unfold group_lt in *. cbn. by etransitivity.
    + constructor; [split; [repeat constructor|done]|]. by constructor.
  - split; constructor; try done. apply Forall_forall. intros h H.
    apply insert_account_addresses in H as [H|(y & Y & H)]; unfold group_lt; rewrite H; [done|].
    by eapply Forall_forall in G.
Qed.

(** The chains of a wallet by address: an address has a chain exactly when an account of the wallet has it; the
    addresses are in strictly increasing order, so each appears once, each with its chains in strictly increasing
    order; no group is empty. *)
Theorem address_chains_group w :
  (forall a c, has (address_chains w) a c <->
     exists x, x ∈ accounts w /\ Wallets.address x = a /\ account_chain x = c)
  /\ well_grouped (address_chains w).
Proof.
  unfold address_chains.
  assert (H : forall l groups, well_grouped groups ->
    let groups' := fold_left (fun groups x => insert_account (Wallets.address x) (account_chain x) groups) l groups in
    (forall a c, has groups' a c <-> has groups a c \/ exists x, x ∈ l /\ Wallets.address x = a /\ account_chain x = c)
    /\ well_grouped groups').
  { induction l as [|x l IH]; intros groups W; cbn [fold_left].
    { split; [|done]. intros a c. split; [by left|]. intros [H|(x & X & _)]; [done|]. by apply not_elem_of_nil in X. }
    destruct (IH _ (insert_account_sorted (Wallets.address x) (account_chain x) _ W)) as [I1 I2].
    split; [|done]. intros a c. rewrite I1, insert_account_has.
    split.
    - intros [[[-> ->]|H]|(y & Y & E & D)]; [right; exists x|by left|right; exists y]; rewrite elem_of_cons; auto.
    - intros [H|(y & [->|Y]%elem_of_cons & <- & <-)]; [by left; right|by left; left|right; exists y; auto]. }
  destruct (H (accounts w) []) as [H1 H2]; [split; constructor|]. split; [|done].
  intros a c. rewrite H1. pose proof (has_nil a c). naive_solver.
Qed.

End WalletFacts.
