(* ===== verification/DynodeTracker.v ===== *)
(** * Dynode: when request failures trigger a check of the node

    Models [apps/dynode/src/monitoring/failure_tracker.rs] (module [FailureTracker]) and the trigger
    configuration of [apps/dynode/src/config/mod.rs] (module [TriggerConfig]).  An [Instant] and a
    [Duration] are numbers of nanoseconds; [duration_since] saturates at zero.  The counters are
    [usize]: their additions and subtractions wrap, as they do in a release build.

    Module [SlidingLog] is the specification: a list of the samples themselves, each with the time it
    was recorded and the start of its bucket.  The theorems show that the counters implement it
    ([tracker_refines]), when a check is triggered ([triggers_justified]), and how many buckets are
    kept ([buckets_bounded]). *)
From Stdlib Require Import Sorting.Sorted.
From S2P Require Import Prelude.

Definition usize_add (a b : Z) : Z := as_u64 (a + b).
Definition usize_sub (a b : Z) : Z := as_u64 (a - b).
(** [Instant::duration_since] *)
Definition duration_since (now earlier : Z) : Z := Z.max 0 (now - earlier).

Module TriggerConfig.

Record FailureTriggerConfig := MkTrigger {
  failures : Z;
  rate : Z;
  window : Z;
  latency : option Z
}.

Inductive ConfigError := Message (message : string).

Definition validate (self : FailureTriggerConfig) : result ConfigError unit :=
  if failures self =? 0 then Err (Message "monitoring.trigger.failures must be greater than zero")
  else if negb ((1 <=? rate self) && (rate self <=? 100)) then
    Err (Message "monitoring.trigger.rate must be between 1 and 100")
  else if window self =? 0 then Err (Message "monitoring.trigger.window must be greater than zero")
  else if match latency self with Some latency => latency =? 0 | None => false end then
    Err (Message "monitoring.trigger.latency must be greater than zero")
  else Ok ().

(** The ranges of the field types. *)
Definition typed (self : FailureTriggerConfig) : Prop :=
  0 <= failures self <= U64_MAX /\ 0 <= rate self < 256 /\ 0 <= window self.

End TriggerConfig.

Module FailureTracker.
Import TriggerConfig.

Definition MAX_BUCKETS : Z := 60.

Record FailureBucket := MkBucket {
  started_at : Z;
  bucket_requests : Z;
  bucket_failures : Z
}.

Record FailureTracker := MkTracker {
  buckets : list FailureBucket;
  requests : Z;
  total_failures : Z;
  consecutive_failures : Z;
  last_triggered_at : option Z
}.

Definition default : FailureTracker := MkTracker [] 0 0 0 None.

Definition bucket_width (window : Z) : Z := Z.max (window / MAX_BUCKETS) 1.

Fixpoint prune_loop (now window : Z) (bs : list FailureBucket) (requests failures : Z)
  : list FailureBucket * Z * Z :=
  match bs with
  | [] => ([], requests, failures)
  | bucket :: rest =>
      if window <=? duration_since now (started_at bucket) then
        prune_loop now window rest (usize_sub requests (bucket_requests bucket))
          (usize_sub failures (bucket_failures bucket))
      else (bs, requests, failures)
  end.

Definition prune (now window : Z) (self : FailureTracker) : FailureTracker :=
  let '(bs, r, f) := prune_loop now window (buckets self) (requests self) (total_failures self) in
  MkTracker bs r f (consecutive_failures self) (last_triggered_at self).

(** [back_mut] *)
Fixpoint update_back (f : FailureBucket -> FailureBucket) (bs : list FailureBucket) : list FailureBucket :=
  match bs with
  | [] => []
  | [bucket] => [f bucket]
  | bucket :: rest => bucket :: update_back f rest
  end.

Definition count_in (failed : bool) (bucket : FailureBucket) : FailureBucket :=
  MkBucket (started_at bucket) (usize_add (bucket_requests bucket) 1)
    (if failed then usize_add (bucket_failures bucket) 1 else bucket_failures bucket).

Definition record_sample (failed : bool) (now window : Z) (self : FailureTracker) : FailureTracker :=
  let pushed :=
    if match last (buckets self) with
       | None => true
       | Some bucket => bucket_width window <=? duration_since now (started_at bucket)
       end
    then buckets self ++ [MkBucket now 0 0]
    else buckets self in
  MkTracker (update_back (count_in failed) pushed) (requests self) (total_failures self)
    (consecutive_failures self) (last_triggered_at self).

Definition clear_samples (self : FailureTracker) : FailureTracker :=
  MkTracker [] 0 0 0 (last_triggered_at self).

Definition count (failed : bool) (self : FailureTracker) : FailureTracker :=
  MkTracker (buckets self) (usize_add (requests self) 1)
    (if failed then usize_add (total_failures self) 1 else total_failures self)
    (if failed then usize_add (consecutive_failures self) 1 else 0)
    (last_triggered_at self).

Definition rate_reached (config : FailureTriggerConfig) (self : FailureTracker) : bool :=
  (failures config <=? total_failures self)
  && (saturating_mul (rate config) (requests self) <=? saturating_mul (total_failures self) 100).

Definition triggered_within (window now : Z) (self : FailureTracker) : bool :=
  match last_triggered_at self with
  | Some triggered_at => duration_since now triggered_at <? window
  | None => false
  end.

Definition record (failed : bool) (now : Z) (config : FailureTriggerConfig) (self : FailureTracker)
  : bool * FailureTracker :=
  let self := prune now (window config) self in
  let self := record_sample failed now (window config) self in
  let self := count failed self in
  if (consecutive_failures self <? failures config) && negb (rate_reached config self) then (false, self)
  else if triggered_within (window config) now self then (false, clear_samples self)
  else
    let self := clear_samples self in
    (true, MkTracker (buckets self) (requests self) (total_failures self) (consecutive_failures self)
             (Some now)).

(** The outcomes of a series of reports. *)
Fixpoint record_all (config : FailureTriggerConfig) (events : list (bool * Z)) (self : FailureTracker)
  : list bool * FailureTracker :=
  match events with
  | [] => ([], self)
  | (failed, now) :: events =>
      let '(triggered, self) := record failed now config self in
      let '(outcomes, self) := record_all config events self in
      (triggered :: outcomes, self)
  end.

End FailureTracker.

(** ** The specification: the samples of the window *)

Module SlidingLog.
Import TriggerConfig.

Record Sample := MkSample { at_ : Z; tag : Z; failed : bool }.

Record Log := MkLog {
  samples : list Sample;
  streak : Z;
  last_trigger : option Z
}.

Definition empty : Log := MkLog [] 0 None.

(** The samples whose bucket started less than [window] ago. *)
Definition kept (now window : Z) (l : list Sample) : list Sample :=
  filter (fun s => now - tag s < window) l.

Definition failed_samples (l : list Sample) : list Sample := filter (fun s => failed s = true) l.

(** The bucket a sample recorded [now] falls in, after the samples [l]. *)
Definition next_tag (width now : Z) (l : list Sample) : Z :=
  match last l with
  | Some s => if now - tag s <? width then tag s else now
  | None => now
  end.

Definition add_sample (width now window : Z) (outcome : bool) (l : list Sample) : list Sample :=
  kept now window l ++ [MkSample now (next_tag width now (kept now window l)) outcome].

Definition reached (config : FailureTriggerConfig) (l : list Sample) (streak : Z) : bool :=
  let n := Z.of_nat (length l) in
  let f := Z.of_nat (length (failed_samples l)) in
  (failures config <=? streak) || ((failures config <=? f) && (rate config * n <=? 100 * f)).

Definition record (width : Z) (outcome : bool) (now : Z) (config : FailureTriggerConfig) (log : Log)
  : bool * Log :=
  let l := add_sample width now (window config) outcome (samples log) in
  let streak := if outcome then streak log + 1 else 0 in
  if negb (reached config l streak) then (false, MkLog l streak (last_trigger log))
  else if match last_trigger log with Some t => now - t <? window config | None => false end
  then (false, MkLog [] 0 (last_trigger log))
  else (true, MkLog [] 0 (Some now)).

Fixpoint record_all (width : Z) (config : FailureTriggerConfig) (events : list (bool * Z)) (log : Log)
  : list bool * Log :=
  match events with
  | [] => ([], log)
  | (outcome, now) :: events =>
      let '(triggered, log) := record width outcome now config log in
      let '(outcomes, log) := record_all width config events log in
      (triggered :: outcomes, log)
  end.

Definition ordered (width : Z) (l : list Sample) : Prop :=
  StronglySorted (fun s1 s2 => tag s1 = tag s2 \/ tag s1 + width <= tag s2) l.

(** The log after a report at [clock]: buckets start in order, at least [width] apart and less than the
    window ago, no sample is in the future, and the streak has not reached the trigger. *)
Record Inv (config : FailureTriggerConfig) (width clock : Z) (log : Log) : Prop := MkInv {
  inv_tags : ordered width (samples log);
  inv_times : Forall (fun s => tag s <= at_ s < tag s + width /\ at_ s <= clock) (samples log);
  inv_window : Forall (fun s => clock - tag s < window config) (samples log);
  inv_streak : 0 <= streak log < failures config;
  inv_trigger : match last_trigger log with Some t => t <= clock | None => True end
}.

End SlidingLog.

(** ** The abstraction function *)

Module TrackerAbstraction.
Import TriggerConfig FailureTracker SlidingLog.

Definition failure_of (s : Sample) : Z := if failed s then 1 else 0.

(** The buckets of a list of samples: adjacent samples with the same tag are counted together. *)
Fixpoint bucketize (l : list Sample) : list FailureBucket :=
  match l with
  | [] => []
  | s :: l =>
      match bucketize l with
      | b :: rest =>
          if started_at b =? tag s
          then MkBucket (tag s) (bucket_requests b + 1) (bucket_failures b + failure_of s) :: rest
          else MkBucket (tag s) 1 (failure_of s) :: b :: rest
      | [] => [MkBucket (tag s) 1 (failure_of s)]
      end
  end.

Definition size (l : list Sample) : Z := Z.of_nat (length l).
Definition failed_size (l : list Sample) : Z := Z.of_nat (length (failed_samples l)).

(** [represents log tracker]: the counters of the tracker are those of the samples of the log. *)
Definition represents (log : Log) (tracker : FailureTracker) : Prop :=
  tracker = MkTracker (bucketize (samples log)) (size (samples log)) (failed_size (samples log))
    (streak log) (last_trigger log).

(** Far below the range of [usize], so that no counter and no product by 100 overflows. *)
Definition MAX_SAMPLES : Z := 2 ^ 57.

Lemma size_cons s l : size (s :: l) = size l + 1.
Proof. unfold size. cbn [length]. lia. Qed.

Lemma failed_size_cons s l : failed_size (s :: l) = failed_size l + failure_of s.
Proof.
  unfold failed_size, failed_samples, failure_of. rewrite filter_cons.
  destruct (failed s) eqn:F; [rewrite decide_True by done; cbn [length]; lia|].
  rewrite decide_False by done. lia.
Qed.

Lemma size_snoc l s : size (l ++ [s]) = size l + 1.
Proof. unfold size. rewrite length_app. cbn [length]. lia. Qed.

Lemma failed_size_snoc l s : failed_size (l ++ [s]) = failed_size l + failure_of s.
Proof.
  induction l as [|x l IH]; [by rewrite app_nil_l, failed_size_cons|].
  rewrite <- app_comm_cons, !failed_size_cons, IH. lia.
Qed.

Lemma failed_size_le l : 0 <= failed_size l <= size l.
Proof.
  induction l as [|s l IH]; [done|]. rewrite failed_size_cons, size_cons.
  unfold failure_of. destruct (failed s); lia.
Qed.

Lemma size_nonneg l : 0 <= size l.
Proof. unfold size. lia. Qed.

Lemma as_u64_small z : 0 <= z < 2 ^ 64 -> as_u64 z = z.
Proof. intros H. apply wrap_small. exact H. Qed.

Lemma bucketize_head s l : exists r f rest,
  bucketize (s :: l) = MkBucket (tag s) r f :: rest.
Proof.
  cbn [bucketize]. destruct (bucketize l) as [|b rest]; [eauto|].
  destruct (_ =? _); eauto.
Qed.

Lemma bucketize_counts l : Forall (fun b =>
  0 < bucket_requests b <= size l /\ 0 <= bucket_failures b <= size l) (bucketize l).
Proof.
  induction l as [|s l IH]; [constructor|]. cbn [bucketize].
  assert (F : 0 <= failure_of s <= 1) by (unfold failure_of; destruct (failed s); lia).
  pose proof (size_nonneg l) as N. rewrite size_cons.
  destruct (bucketize l) as [|b rest].
  { repeat constructor; cbn [bucket_requests bucket_failures]; lia. }
  destruct (proj1 (Forall_cons _ _ _) IH) as [[Hr Hf] R].
  assert (R' : Forall (fun b => 0 < bucket_requests b <= size l + 1 /\ 0 <= bucket_failures b <= size l + 1) rest)
    by (eapply Forall_impl; [exact R|cbn; lia]).
  destruct (_ =? _); repeat (apply Forall_cons; split); cbn [bucket_requests bucket_failures];
    [lia|done|lia|lia|done].
Qed.

Lemma bucketize_last l : started_at <$> last (bucketize l) = tag <$> last l.
Proof.
  induction l as [|s l IH]; [done|]. cbn [bucketize].
  destruct l as [|s' l]; [done|].
  destruct (bucketize_head s' l) as (r & f & rest & E). rewrite E in *.
  rewrite last_cons_cons, <- IH. cbn [started_at].
  destruct (tag s' =? tag s) eqn:T; [|by rewrite last_cons_cons].
  destruct rest as [|b' rest]; [cbn; f_equal; lia|by rewrite !last_cons_cons].
Qed.

Lemma update_back_cons f b b' rest :
  update_back f (b :: b' :: rest) = b :: update_back f (b' :: rest).
Proof. done. Qed.

Lemma update_back_snoc f bs b : update_back f (bs ++ [b]) = bs ++ [f b].
Proof.
  induction bs as [|x bs IH]; [done|]. rewrite <- !app_comm_cons.
  destruct bs as [|y bs]; [done|]. cbn [app] in *. by rewrite update_back_cons, IH.
Qed.

(** Counting without overflow. *)
Definition count_exact (outcome : bool) (b : FailureBucket) : FailureBucket :=
  MkBucket (started_at b) (bucket_requests b + 1)
    (if outcome then bucket_failures b + 1 else bucket_failures b).

(** A sample of the last bucket is counted in it. *)
Lemma bucketize_same l s : tag <$> last l = Some (tag s) ->
  bucketize (l ++ [s]) = update_back (count_exact (failed s)) (bucketize l).
Proof.
  induction l as [|y l IH]; [done|]. intros L. destruct l as [|z l].
  { injection L as L. cbn [app bucketize started_at update_back].
    rewrite L, Z.eqb_refl. unfold count_exact, failure_of.
    by destruct (failed s), (failed y). }
  rewrite last_cons_cons in L. specialize (IH L).
  rewrite <- app_comm_cons.
  change (bucketize (y :: (z :: l) ++ [s])) with
    (match bucketize ((z :: l) ++ [s]) with
      | b :: rest =>
          if started_at b =? tag y
          then MkBucket (tag y) (bucket_requests b + 1) (bucket_failures b + failure_of y) :: rest
          else MkBucket (tag y) 1 (failure_of y) :: b :: rest
      | [] => [MkBucket (tag y) 1 (failure_of y)]
      end).
  rewrite IH. change (bucketize (y :: z :: l)) with
    (match bucketize (z :: l) with
      | b :: rest =>
          if started_at b =? tag y
          then MkBucket (tag y) (bucket_requests b + 1) (bucket_failures b + failure_of y) :: rest
          else MkBucket (tag y) 1 (failure_of y) :: b :: rest
      | [] => [MkBucket (tag y) 1 (failure_of y)]
      end).
  destruct (bucketize_head z l) as (r & f & rest & E). rewrite E.
  destruct rest as [|b rest].
  - cbn [update_back count_exact started_at bucket_requests bucket_failures].
    destruct (tag z =? tag y); cbn [update_back count_exact started_at bucket_requests bucket_failures]; [|done].
    unfold count_exact. cbn [started_at bucket_requests bucket_failures]. repeat f_equal.
    destruct (failed s); lia.
  - rewrite update_back_cons. cbn [started_at bucket_requests bucket_failures].
    by destruct (tag z =? tag y).
Qed.

(** A sample of another bucket starts one. *)
Lemma bucketize_new l s : (forall x, last l = Some x -> tag x <> tag s) ->
  bucketize (l ++ [s]) = bucketize l ++ [MkBucket (tag s) 1 (failure_of s)].
Proof.
  induction l as [|y l IH]; [done|]. intros L. destruct l as [|z l].
  { cbn [app bucketize started_at]. specialize (L y eq_refl).
    by rewrite (proj2 (Z.eqb_neq _ _) (not_eq_sym L)). }
  assert (L' : forall x, last (z :: l) = Some x -> tag x <> tag s)
    by (intros x Hx; apply L; by rewrite last_cons_cons).
  specialize (IH L'). rewrite <- app_comm_cons. cbn [bucketize app] in *.
  rewrite IH. clear IH.
  destruct (bucketize l) as [|b rest]; [cbn [app started_at]; by destruct (_ =? _)|].
  destruct (started_at b =? tag z); cbn [app started_at]; by destruct (_ =? _).
Qed.

(** *** Pruning is dropping the samples that left the window *)

Lemma kept_all now window l : Forall (fun s => now - tag s < window) l -> kept now window l = l.
Proof. apply filter_all. Qed.

Lemma Forall_kept P now window l : Forall P l -> Forall P (kept now window l).
Proof.
  unfold kept. induction 1 as [|s l Hs _ IH]; [constructor|]. rewrite filter_cons.
  destruct (decide _); [by constructor|done].
Qed.

Lemma ordered_tail width s l : 0 <= width -> ordered width (s :: l) ->
  ordered width l /\ Forall (fun x => tag s <= tag x) l.
Proof.
  intros W [O F]%StronglySorted_inv. split; [done|]. eapply Forall_impl; [exact F|]. cbn. lia.
Qed.

Lemma prune_bucketize now window width l :
  0 < window -> 0 <= width -> ordered width l -> size l < MAX_SAMPLES ->
  prune_loop now window (bucketize l) (size l) (failed_size l)
  = (bucketize (kept now window l), size (kept now window l), failed_size (kept now window l)).
Proof.
  intros Hw W. induction l as [|s l IH]; [done|]. intros O N.
  destruct (ordered_tail _ _ _ W O) as [O' F]. rewrite size_cons in N.
  pose proof (failed_size_le l) as P. pose proof (eq_refl : MAX_SAMPLES <? 2 ^ 64 = true) as M.
  apply Z.ltb_lt in M.
  destruct (decide (now - tag s < window)) as [I|I].
  - rewrite kept_all.
    2: { apply Forall_cons; split; [done|]. eapply Forall_impl; [exact F|]. cbn. lia. }
    destruct (bucketize_head s l) as (r & f & rest & E). rewrite E. cbn [prune_loop started_at].
    unfold duration_since. by test_false (window <=? Z.max 0 (now - tag s)).
  - assert (K : kept now window (s :: l) = kept now window l)
      by (unfold kept; by rewrite filter_cons, decide_False).
    rewrite K, <- IH by (done || lia). rewrite size_cons, failed_size_cons. clear K IH.
    assert (G : forall t, tag s = t -> window <=? duration_since now t = true)
      by (intros t <-; unfold duration_since; btrue).
    assert (B : 0 <= failure_of s <= 1) by (unfold failure_of; destruct (failed s); lia).
    assert (U : usize_sub (size l + 1) 1 = size l)
      by (unfold usize_sub; rewrite as_u64_small; lia).
    assert (V : usize_sub (failed_size l + failure_of s) (failure_of s) = failed_size l)
      by (unfold usize_sub; rewrite as_u64_small; lia).
    cbn [bucketize]. destruct (bucketize l) as [|b rest].
    { cbn [prune_loop started_at bucket_requests bucket_failures]. by rewrite (G (tag s) eq_refl), U, V. }
    destruct (Z.eqb_spec (started_at b) (tag s)) as [T|T];
      cbn [prune_loop started_at bucket_requests bucket_failures]; rewrite (G (tag s) eq_refl).
    + rewrite (G (started_at b) (eq_sym T)). unfold usize_sub. f_equal; f_equal; lia.
    + by rewrite U, V.
Qed.

(** *** Recording a sample *)

Lemma next_tag_bounds width now l : 0 < width -> Forall (fun s => tag s <= now) l ->
  next_tag width now l <= now < next_tag width now l + width.
Proof.
  intros W F. unfold next_tag. destruct (last l) as [s|] eqn:L; [|lia].
  assert (tag s <= now) by (eapply Forall_forall in F; [exact F|]; apply last_Some in L as [l' ->]; set_solver).
  destruct (Z.ltb_spec (now - tag s) width); lia.
Qed.

Lemma record_sample_bucketize outcome now window l r f c t :
  0 < window -> Forall (fun s => tag s <= now) l -> size l + 1 < MAX_SAMPLES ->
  record_sample outcome now window (MkTracker (bucketize l) r f c t)
  = MkTracker (bucketize (l ++ [MkSample now (next_tag (bucket_width window) now l) outcome])) r f c t.
Proof.
  intros Hw F N. unfold record_sample. cbn [buckets requests total_failures consecutive_failures last_triggered_at].
  f_equal. pose proof (bucketize_last l) as L. unfold next_tag.
  pose proof (bucketize_counts l) as C. pose proof (eq_refl : MAX_SAMPLES <? 2 ^ 64 = true) as M.
  apply Z.ltb_lt in M.
  assert (new : update_back (count_in outcome) (bucketize l ++ [MkBucket now 0 0])
    = bucketize l ++ [MkBucket now 1 (if outcome then 1 else 0)])
    by (rewrite update_back_snoc; by destruct outcome).
  destruct (last l) as [s|] eqn:Ll.
  2: { destruct (last (bucketize l)); [done|]. rewrite new, bucketize_new; [done|]. by rewrite Ll. }
  destruct (last (bucketize l)) as [b|] eqn:Lb; [|done]. apply (inj Some) in L. rewrite L.
  assert (tag s <= now) by (eapply Forall_forall in F; [exact F|]; apply last_Some in Ll as [l' ->]; set_solver).
  assert (W : 0 < bucket_width window) by (unfold bucket_width; lia).
  unfold duration_since. destruct (Z.ltb_spec (now - tag s) (bucket_width window)).
  - test_false (bucket_width window <=? Z.max 0 (now - tag s)).
    rewrite bucketize_same by (rewrite Ll; done). cbn [failed].
    apply last_Some in Lb as [bs Hbs]. rewrite Hbs in *. rewrite !update_back_snoc. do 2 f_equal.
    apply Forall_app in C as [_ [[? ?] _]%Forall_cons].
    unfold count_in, count_exact, usize_add. f_equal; [|destruct outcome; [|done]]; rewrite as_u64_small; lia.
  - test_true (bucket_width window <=? Z.max 0 (now - tag s)).
    rewrite new, bucketize_new; [done|]. rewrite Ll. intros x [= <-]. cbn [tag]. lia.
Qed.

(** *** One report *)

Section record.
Context (config : FailureTriggerConfig) (T : typed config) (V : validate config = Ok ()).

Let width := bucket_width (window config).

Lemma valid_config : 1 <= failures config /\ 1 <= rate config <= 100 /\ 1 <= window config.
Proof using T V.
  destruct T as (? & ? & ?). unfold validate in V. revert V.
  destruct (Z.eqb_spec (failures config) 0); [done|].
  destruct (Z.leb_spec 1 (rate config)), (Z.leb_spec (rate config) 100); try done. cbn [andb negb].
  destruct (Z.eqb_spec (window config) 0); [done|]. lia.
Qed.

Lemma width_pos : 0 < width.
Proof. unfold width, bucket_width. lia. Qed.

Lemma kept_length now l : (length (kept now (window config) l) <= length l)%nat.
Proof. apply length_filter. Qed.

Lemma kept_ordered now l : ordered width l -> ordered width (kept now (window config) l).
Proof using Type.
  unfold kept. induction 1 as [|s l O IH F]; [constructor|]. rewrite filter_cons.
  destruct (decide _); [|done]. constructor; [done|by apply Forall_kept].
Qed.

Lemma kept_window now l : Forall (fun s => now - tag s < window config) (kept now (window config) l).
Proof.
  unfold kept. induction l as [|s l IH]; [constructor|]. rewrite filter_cons.
  destruct (decide _); [by constructor|done].
Qed.

Lemma ordered_snoc l s : ordered width l ->
  (forall x, last l = Some x -> tag x = tag s \/ tag x + width <= tag s) -> ordered width (l ++ [s]).
Proof using Type.
  pose proof width_pos as W.
  induction l as [|y l IH]; [by repeat constructor|]. intros O L. rewrite <- app_comm_cons.
  destruct l as [|z l].
  { constructor; [repeat constructor|]. apply Forall_singleton. by apply L. }
  apply StronglySorted_inv in O as [O F].
  assert (L' : forall x, last (z :: l) = Some x -> tag x = tag s \/ tag x + width <= tag s)
    by (intros x Hx; apply L; by rewrite last_cons_cons).
  constructor; [by apply IH|]. apply Forall_app; split; [done|]. apply Forall_singleton.
  destruct (last (z :: l)) as [x|] eqn:Hx; [|by apply last_None in Hx].
  specialize (L' x eq_refl). apply last_Some in Hx as [l' E]. rewrite E in F.
  apply Forall_app in F as [_ [F _]%Forall_cons]. lia.
Qed.

Lemma add_sample_inv outcome now clock log : Inv config width clock log -> clock <= now ->
  let l := add_sample width now (window config) outcome (samples log) in
  ordered width l /\ Forall (fun s => tag s <= at_ s < tag s + width /\ at_ s <= now) l
  /\ Forall (fun s => now - tag s < window config) l.
Proof using T V.
  intros [O F _ _ _] C. destruct valid_config as (_ & _ & W1). cbv zeta. unfold add_sample.
  assert (F' : Forall (fun s => tag s <= at_ s < tag s + width /\ at_ s <= now)
    (kept now (window config) (samples log))).
  { apply Forall_kept. eapply Forall_impl; [exact F|]. cbn. lia. }
  pose proof (next_tag_bounds width now (kept now (window config) (samples log)) width_pos) as B.
  pose proof (Z.div_le_upper_bound (window config) MAX_BUCKETS (window config) eq_refl) as D.
  assert (B' : width <= window config) by (unfold width, bucket_width, MAX_BUCKETS in *; lia).
  split; [|split].
  - apply ordered_snoc; [by apply kept_ordered|]. cbn [tag]. intros x L. unfold next_tag. rewrite L.
    destruct (Z.ltb_spec (now - tag x) width); lia.
  - apply Forall_app; split; [done|]. apply Forall_singleton. cbn [at_ tag].
    enough (next_tag width now (kept now (window config) (samples log)) <= now
      < next_tag width now (kept now (window config) (samples log)) + width) by lia.
    apply B. eapply Forall_impl; [exact F'|]. cbn. lia.
  - apply Forall_app; split; [apply kept_window|]. apply Forall_singleton. cbn [tag].
    enough (now < next_tag width now (kept now (window config) (samples log)) + width) by lia.
    apply B. eapply Forall_impl; [exact F'|]. cbn. lia.
Qed.

Lemma rate_reached_spec l c t : size l < MAX_SAMPLES ->
  rate_reached config (MkTracker (bucketize l) (size l) (failed_size l) c t)
  = (failures config <=? failed_size l) && (rate config * size l <=? 100 * failed_size l).
Proof using T V.
  intros N. unfold rate_reached. cbn [total_failures requests]. f_equal.
  pose proof (failed_size_le l) as P. destruct valid_config as (_ & R & _).
  unfold saturating_mul. rewrite !Z.min_l.
  - f_equal. lia.
  - unfold U64_MAX. change MAX_SAMPLES with 144115188075855872 in N. lia.
  - unfold U64_MAX. change MAX_SAMPLES with 144115188075855872 in N. nia.
Qed.

Lemma record_refines outcome now clock log tracker :
  Inv config width clock log -> clock <= now -> size (samples log) + 1 < MAX_SAMPLES ->
  represents log tracker ->
  let '(b, tracker') := FailureTracker.record outcome now config tracker in
  let '(b', log') := SlidingLog.record width outcome now config log in
  b = b' /\ represents log' tracker' /\ Inv config width now log' /\ size (samples log') <= size (samples log) + 1.
Proof using T V.
  intros I C N ->. destruct valid_config as (F1 & R1 & W1).
  destruct (add_sample_inv outcome now clock log I C) as (O' & F' & K').
  destruct I as [O F _ S L]. destruct T as (F2 & _ & _).
  unfold FailureTracker.record, SlidingLog.record, prune.
  cbn [buckets requests total_failures consecutive_failures last_triggered_at].
  pose proof width_pos as W.
  rewrite (prune_bucketize now (window config) width) by (done || lia).
  set (k := kept now (window config) (samples log)) in *.
  assert (Nk : size k <= size (samples log)).
  { unfold size, k. pose proof (kept_length now (samples log)). lia. }
  rewrite record_sample_bucketize; [|lia| |lia].
  2: { apply Forall_kept. eapply Forall_impl; [exact F|]. cbn. lia. }
  unfold add_sample in *. fold k in O', F', K' |- *. fold width.
  set (l := k ++ [MkSample now (next_tag width now k) outcome]) in *.
  unfold count. cbn [buckets requests total_failures consecutive_failures last_triggered_at].
  assert (M : MAX_SAMPLES < 2 ^ 64) by done.
  assert (El : size l = size k + 1) by apply size_snoc.
  assert (Ef : failed_size l = if outcome then failed_size k + 1 else failed_size k)
    by (unfold l; rewrite failed_size_snoc; unfold failure_of; cbn [failed]; destruct outcome; lia).
  pose proof (failed_size_le k) as Pk.
  replace (usize_add (size k) 1) with (size l) by (unfold usize_add; rewrite as_u64_small; lia).
  replace (if outcome then usize_add (failed_size k) 1 else failed_size k) with (failed_size l)
    by (rewrite Ef; destruct outcome; [unfold usize_add; rewrite as_u64_small|]; lia).
  replace (if outcome then usize_add (streak log) 1 else 0) with (if outcome then streak log + 1 else 0)
    by (destruct outcome; [unfold usize_add, U64_MAX in *; rewrite as_u64_small|]; lia).
  set (st := if outcome then streak log + 1 else 0).
  assert (Hst : 0 <= st) by (unfold st; destruct outcome; lia).
  rewrite rate_reached_spec by lia. cbn [consecutive_failures].
  unfold reached. fold (size l). fold (failed_size l). rewrite negb_orb.
  replace (negb (failures config <=? st)) with (st <? failures config)
    by (rewrite Z.ltb_antisym; done).
  destruct (Z.ltb_spec st (failures config)) as [Lt|Ge]; cbn [andb].
  1: destruct (_ && _); cbn [negb].
  2: { cbn [samples]. split; [done|]. split; [done|]. split; [|lia].
       constructor; cbn [samples streak last_trigger]; [done|done|done|lia|].
       clear - L C. destruct (last_trigger log); lia. }
  all: unfold triggered_within; cbn [last_triggered_at];
    replace (match last_trigger log with
      | Some triggered_at => duration_since now triggered_at <? window config | None => false end)
    with (match last_trigger log with Some t => now - t <? window config | None => false end)
    by (clear - L C; revert L; destruct (last_trigger log) as [t|]; [|done]; intros L;
        unfold duration_since; rewrite Z.max_r by lia; done);
    pose proof (size_nonneg (samples log)) as Sz;
    destruct (match last_trigger log with Some t => now - t <? window config | None => false end);
    (split; [done|]; split; [done|]; split; [|cbn [samples]; change (size []) with 0; lia]);
    constructor; cbn [samples streak last_trigger]; try (by constructor); try lia;
    clear - L C; destruct (last_trigger log); lia.
Qed.

End record.

End TrackerAbstraction.

(** ** Properties *)

Module TrackerFacts.
Import TriggerConfig FailureTracker SlidingLog TrackerAbstraction.

(** The times of the reports, read from a monotonic clock while the state is locked. *)
Fixpoint chronological (clock : Z) (events : list (bool * Z)) : Prop :=
  match events with
  | [] => True
  | (_, now) :: events => clock <= now /\ chronological now events
  end.

(** The times at which a check was triggered. *)
Fixpoint trigger_times (events : list (bool * Z)) (outcomes : list bool) : list Z :=
  match events, outcomes with
  | (_, now) :: events, triggered :: outcomes =>
      if triggered then now :: trigger_times events outcomes else trigger_times events outcomes
  | _, _ => []
  end.

Definition failures_in (events : list (bool * Z)) : list (bool * Z) := filter (fun e => fst e = true) events.

(** Why a check may be triggered after the reports [past]: the most recent ones either are enough
    consecutive failures, or were all made within the window before [now], with enough failures both in
    number and in proportion. *)
Definition justified (config : FailureTriggerConfig) (now : Z) (past : list (bool * Z)) : Prop :=
  exists older recent, past = older ++ recent /\
  ((failures config <= Z.of_nat (length recent) /\ Forall (fun e => fst e = true) recent)
   \/ (Forall (fun e => now - snd e < window config) recent
       /\ failures config <= Z.of_nat (length (failures_in recent))
       /\ rate config * Z.of_nat (length recent) <= 100 * Z.of_nat (length (failures_in recent)))).

Definition event_of (s : Sample) : bool * Z := (failed s, at_ s).

(** What a log remembers of the reports made so far. *)
Definition remembers (past : list (bool * Z)) (log : Log) : Prop :=
  (exists older, past = older ++ map event_of (samples log))
  /\ (exists older recent, past = older ++ recent /\ Z.of_nat (length recent) = streak log
        /\ Forall (fun e => fst e = true) recent).

Lemma failures_in_events l : Z.of_nat (length (failures_in (map event_of l))) = failed_size l.
Proof.
  unfold failures_in, failed_size, failed_samples. induction l as [|s l IH]; [done|].
  cbn [map]. rewrite !filter_cons. cbn [fst event_of].
  destruct (decide (failed s = true)); cbn [length]; lia.
Qed.

Lemma inv_empty config width clock : 1 <= failures config -> Inv config width clock empty.
Proof. intros F. constructor; cbn [samples empty streak last_trigger]; try constructor; lia. Qed.

Lemma represents_default : represents empty default.
Proof. done. Qed.

Lemma remembers_empty past : remembers past empty.
Proof. split; [exists past|exists past, []]; rewrite app_nil_r; repeat split; auto. Qed.

Section run.
Context (config : FailureTriggerConfig) (T : typed config) (V : validate config = Ok ()).

Notation width := (bucket_width (window config)).

Lemma kept_suffix now clock log : Inv config width clock log -> exists older,
  samples log = older ++ kept now (window config) (samples log).
Proof using Type.
  intros [O _ _ _ _]. revert O. generalize (samples log). clear. intros l O.
  induction l as [|s l IH]; [by exists []|].
  destruct (ordered_tail width s l) as [O' F]; [unfold bucket_width; lia|done|].
  destruct (decide (now - tag s < window config)) as [I|I].
  - exists []. rewrite kept_all; [done|]. apply Forall_cons; split; [done|].
    eapply Forall_impl; [exact F|]. cbn. lia.
  - destruct (IH O') as [older E]. exists (s :: older). unfold kept. rewrite filter_cons, decide_False by done.
    cbn [app]. f_equal. exact E.
Qed.

Lemma remembers_record past outcome now clock log triggered log' :
  Inv config width clock log -> clock <= now -> remembers past log ->
  SlidingLog.record width outcome now config log = (triggered, log') ->
  remembers (past ++ [(outcome, now)]) log'
  /\ (triggered = true -> justified config now (past ++ [(outcome, now)])).
Proof using T V.
  intros I C [[older Hs] (older' & recent & Hp & Hl & Hr)].
  destruct (kept_suffix now clock log I) as [gone Hk].
  destruct (add_sample_inv config T V outcome now clock log I C) as (_ & F & W).
  unfold SlidingLog.record. set (l := add_sample width now (window config) outcome (samples log)) in *.
  assert (Pl : past ++ [(outcome, now)] = (older ++ map event_of gone) ++ map event_of l).
  { unfold l, add_sample. rewrite Hs, Hk at 1. rewrite !map_app, <- !app_assoc. done. }
  assert (Pr : exists older recent, past ++ [(outcome, now)] = older ++ recent
    /\ Z.of_nat (length recent) = (if outcome then streak log + 1 else 0) /\ Forall (fun e => fst e = true) recent).
  { destruct outcome; [|exists (past ++ [(false, now)]), []; rewrite app_nil_r; auto].
    exists older', (recent ++ [(true, now)]). rewrite Hp, <- app_assoc, length_app. cbn [length].
    split; [done|]. split; [lia|]. apply Forall_app; split; [done|]. by apply Forall_singleton. }
  assert (R : reached config l (if outcome then streak log + 1 else 0) = true ->
    justified config now (past ++ [(outcome, now)])).
  { unfold reached. fold (size l). fold (failed_size l). intros [S|[S1 S2]%andb_prop]%orb_prop.
    - destruct Pr as (o & r & E & El & Fr). exists o, r. split; [done|]. left. split; [lia|done].
    - exists (older ++ map event_of gone), (map event_of l). split; [done|]. right.
      rewrite failures_in_events, length_map. fold (size l). split; [|lia].
      apply Forall_map. eapply Forall_impl; [exact (proj2 (Forall_and _ _) (conj F W))|]. cbn. lia. }
  destruct (reached _ _ _); cbn [negb].
  2: { intros [= <- <-]. split; [split; [by eexists|exact Pr]|done]. }
  destruct (match last_trigger log with Some t => now - t <? window config | None => false end);
    intros [= <- <-]; (split; [apply remembers_empty|auto]).
Qed.

Lemma run_refines events : forall clock log tracker,
  chronological clock events -> Inv config width clock log -> represents log tracker ->
  size (samples log) + Z.of_nat (length events) < MAX_SAMPLES ->
  let '(outcomes, tracker') := FailureTracker.record_all config events tracker in
  let '(outcomes', log') := SlidingLog.record_all width config events log in
  outcomes = outcomes' /\ represents log' tracker' /\ exists clock', Inv config width clock' log'.
Proof using T V.
  induction events as [|[outcome now] events IH]; intros clock log tracker C I R N.
  { cbn. repeat split; eauto. }
  destruct C as [C1 C2]. cbn [length FailureTracker.record_all SlidingLog.record_all] in *.
  assert (N1 : size (samples log) + 1 < MAX_SAMPLES) by lia.
  pose proof (record_refines config T V outcome now clock log tracker I C1 N1 R) as P.
  destruct (FailureTracker.record outcome now config tracker) as [b tracker1].
  destruct (SlidingLog.record width outcome now config log) as [b' log1].
  destruct P as (<- & R1 & I1 & S1).
  assert (N2 : size (samples log1) + Z.of_nat (length events) < MAX_SAMPLES) by lia.
  specialize (IH now log1 tracker1 C2 I1 R1 N2).
  destruct (FailureTracker.record_all config events tracker1) as [os tracker2].
  destruct (SlidingLog.record_all width config events log1) as [os' log2].
  destruct IH as (<- & ? & ?). auto.
Qed.

Lemma record_inv outcome now clock log : Inv config width clock log -> clock <= now ->
  size (samples log) + 1 < MAX_SAMPLES ->
  Inv config width now (snd (SlidingLog.record width outcome now config log))
  /\ size (samples (snd (SlidingLog.record width outcome now config log))) <= size (samples log) + 1.
Proof using T V.
  intros I C N. pose proof (record_refines config T V outcome now clock log _ I C N eq_refl) as P.
  destruct (FailureTracker.record _ _ _ _) as [b t], (SlidingLog.record _ _ _ _ _) as [b' log'].
  cbn [snd]. tauto.
Qed.

Lemma run_spec events : forall past clock log,
  chronological clock events -> Inv config width clock log -> remembers past log ->
  size (samples log) + Z.of_nat (length events) < MAX_SAMPLES ->
  let outcomes := fst (SlidingLog.record_all width config events log) in
  Forall (fun t => match last_trigger log with Some t0 => window config <= t - t0 | None => True end)
    (trigger_times events outcomes)
  /\ StronglySorted (fun t1 t2 => window config <= t2 - t1) (trigger_times events outcomes)
  /\ (forall i failed now, outcomes !! i = Some true -> events !! i = Some (failed, now) ->
        justified config now (past ++ take (S i) events)).
Proof using T V.
  induction events as [|[outcome now] events IH]; intros past clock log C I H N.
  { cbn. repeat split; [constructor|constructor|]. by intros i ? ? [=]. }
  destruct C as [C1 C2]. cbn [length SlidingLog.record_all] in *.
  destruct (record_inv outcome now clock log I C1) as [I1 S1]; [lia|].
  destruct (SlidingLog.record width outcome now config log) as [b log1] eqn:E. cbn [snd] in *.
  destruct (remembers_record past outcome now clock log b log1 I C1 H E) as [H1 J1].
  specialize (IH (past ++ [(outcome, now)]) now log1 C2 I1 H1).
  destruct (SlidingLog.record_all width config events log1) as [os log2]. cbn [fst trigger_times] in *.
  destruct IH as (A & B & D); [lia|].
  assert (D' : forall i failed t, (b :: os) !! i = Some true -> ((outcome, now) :: events) !! i = Some (failed, t) ->
    justified config t (past ++ take (S i) ((outcome, now) :: events))).
  { intros [|i] failed t; cbn [lookup list_lookup take].
    - intros [= ->] [= <- <-]. rewrite firstn_O. auto.
    - intros Ho He. specialize (D i failed t Ho He). by rewrite <- app_assoc in D. }
  unfold SlidingLog.record in E. destruct (reached _ _ _); cbn [negb] in E.
  2: { injection E as <- <-. auto. }
  destruct (last_trigger log) as [t0|] eqn:L0; [destruct (Z.ltb_spec (now - t0) (window config))|];
    injection E as <- <-; cbn [last_trigger] in *; [auto| |].
  - split; [|split; [by constructor|done]]. apply Forall_cons; split; [lia|].
    eapply Forall_impl; [exact A|]. cbn. pose proof (inv_trigger _ _ _ _ I) as Q. rewrite L0 in Q. lia.
  - split; [by apply Forall_true|]. split; [by constructor|done].
Qed.

End run.

Lemma bucketize_span width l : 0 < width -> forall s x, ordered width (s :: l) -> last (s :: l) = Some x ->
  width * (Z.of_nat (length (bucketize (s :: l))) - 1) <= tag x - tag s.
Proof.
  intros W. induction l as [|y l IH]; intros s x O L; [injection L as <-; cbn; lia|].
  rewrite last_cons_cons in L. apply StronglySorted_inv in O as [O [F _]%Forall_cons].
  specialize (IH y x O L).
  change (bucketize (s :: y :: l)) with
    (match bucketize (y :: l) with
      | b :: rest =>
          if started_at b =? tag s
          then MkBucket (tag s) (bucket_requests b + 1) (bucket_failures b + failure_of s) :: rest
          else MkBucket (tag s) 1 (failure_of s) :: b :: rest
      | [] => [MkBucket (tag s) 1 (failure_of s)]
      end).
  destruct (bucketize_head y l) as (r & f & rest & E). rewrite E in *. cbn [length started_at] in *.
  destruct (Z.eqb_spec (tag y) (tag s)); cbn [length]; lia.
Qed.

Lemma bucket_count config clock log : 1 <= window config -> Inv config (bucket_width (window config)) clock log ->
  bucket_width (window config) * (Z.of_nat (length (bucketize (samples log))) - 1) < window config.
Proof.
  intros W [O F K _ _]. destruct (samples log) as [|s l] eqn:E.
  { cbn. unfold bucket_width. lia. }
  destruct (last (s :: l)) as [x|] eqn:L; [|by apply last_None in L].
  pose proof (bucketize_span (bucket_width (window config)) l) as P.
  specialize (P ltac:(unfold bucket_width; lia) s x O L).
  apply last_Some in L as [l' E']. rewrite E' in F.
  apply Forall_app in F as [_ [F _]%Forall_cons]. apply Forall_cons in K as [K _]. lia.
Qed.

(** (C20) the failure tracker is refined by counters: fed the same reports, the buckets and counters of
    [FailureTracker] trigger exactly when the specification, which keeps the samples themselves, does; and
    afterwards its buckets and counters are those of the specification's samples.  No counter overflows
    and no subtraction underflows. *)
Theorem tracker_refines config clock events :
  typed config -> validate config = Ok () -> chronological clock events ->
  Z.of_nat (length events) < MAX_SAMPLES ->
  let '(outcomes, tracker) := FailureTracker.record_all config events default in
  let '(outcomes', log) := SlidingLog.record_all (bucket_width (window config)) config events empty in
  outcomes = outcomes' /\ represents log tracker.
Proof.
  intros T V C N. destruct (valid_config config T V) as (F & _).
  pose proof (run_refines config T V events clock empty default C (inv_empty _ _ _ F) represents_default) as P.
  destruct (FailureTracker.record_all _ _ _), (SlidingLog.record_all _ _ _ _).
  destruct P as (? & ? & _); [exact N|auto].
Qed.

(** checks are triggered at least a window apart; and when one is, the most recent reports either
    were [failures] failures in a row, or were all made within the window with at least [failures]
    failures among them and a proportion of failures of at least [rate] percent. *)
Theorem triggers_justified config clock events :
  typed config -> validate config = Ok () -> chronological clock events ->
  Z.of_nat (length events) < MAX_SAMPLES ->
  let outcomes := fst (FailureTracker.record_all config events default) in
  StronglySorted (fun t1 t2 => window config <= t2 - t1) (trigger_times events outcomes)
  /\ forall i failed now, outcomes !! i = Some true -> events !! i = Some (failed, now) ->
        justified config now (take (S i) events).
Proof.
  intros T V C N. destruct (valid_config config T V) as (F & _).
  pose proof (run_refines config T V events clock empty default C (inv_empty _ _ _ F) represents_default) as P.
  pose proof (run_spec config T V events [] clock empty C (inv_empty _ _ _ F) (remembers_empty _)) as Q.
  destruct (FailureTracker.record_all _ _ _), (SlidingLog.record_all _ _ _ _).
  destruct P as (-> & _); [exact N|]. cbn [fst] in *. apply Q. exact N.
Qed.

(** the tracker keeps a bounded number of buckets, whatever the number of reports: consecutive
    buckets start a bucket width apart and all within the window, which makes at most [MAX_BUCKETS] of them
    when 60 divides the window and one more for any window of at least 3600 nanoseconds. *)
Theorem buckets_bounded config clock events :
  typed config -> validate config = Ok () -> chronological clock events ->
  Z.of_nat (length events) < MAX_SAMPLES ->
  let n := Z.of_nat (length (buckets (snd (FailureTracker.record_all config events default)))) in
  bucket_width (window config) * (n - 1) < window config
  /\ (window config mod MAX_BUCKETS = 0 -> n <= MAX_BUCKETS)
  /\ (3600 <= window config -> n <= MAX_BUCKETS + 1).
Proof.
  intros T V C N. destruct (valid_config config T V) as (F & _ & W).
  pose proof (run_refines config T V events clock empty default C (inv_empty _ _ _ F) represents_default) as P.
  destruct (FailureTracker.record_all _ _ _) as [os tracker], (SlidingLog.record_all _ _ _ _) as [os' log].
  destruct P as (_ & -> & clock' & I); [exact N|]. cbn [snd buckets].
  pose proof (bucket_count config clock' _ W I) as B. revert B.
  generalize (Z.of_nat (length (bucketize (samples log)))). unfold bucket_width, MAX_BUCKETS.
  pose proof (Z.div_mod (window config) 60 ltac:(lia)) as D.
  pose proof (Z.mod_pos_bound (window config) 60 ltac:(lia)) as M. revert D M.
  generalize (window config / 60), (window config mod 60). intros w r D M n B.
  repeat split; [exact B|intros ->; nia|intros G; nia].
Qed.

(** *** Witnesses: three failures, at least half of the reports, within a minute *)

Section witnesses.

Let SECOND : Z := 10 ^ 9.
Let config : FailureTriggerConfig := MkTrigger 3 50 (60 * SECOND) None.
Let events : list (bool * Z) :=
  [(true, 0); (false, 1); (true, SECOND); (true, SECOND); (true, 2 * SECOND); (true, 30 * SECOND);
   (true, 30 * SECOND); (true, 31 * SECOND); (true, 61 * SECOND); (true, 61 * SECOND); (true, 62 * SECOND)].

Lemma tracker_refines_witness :
  let '(outcomes, tracker) := FailureTracker.record_all config events default in
  let '(outcomes', log) := SlidingLog.record_all (bucket_width (window config)) config events empty in
  outcomes = outcomes' /\ represents log tracker.
Proof.
  refine (tracker_refines config 0 events _ eq_refl _ eq_refl).
  - by repeat split.
  - by repeat split.
Defined.

Lemma triggers_justified_witness :
  let outcomes := fst (FailureTracker.record_all config events default) in
  trigger_times events outcomes = [SECOND; 61 * SECOND]
  /\ justified config (61 * SECOND) (take 10 events)
  /\ StronglySorted (fun t1 t2 => window config <= t2 - t1) (trigger_times events outcomes).
Proof.
  assert (T : typed config) by (by repeat split). assert (C : chronological 0 events) by (by repeat split).
  destruct (triggers_justified config 0 events T eq_refl C eq_refl) as [A B].
  split; [by vm_compute|]. split; [|exact A]. exact (B 9%nat true (61 * SECOND) eq_refl eq_refl).
Defined.

Lemma buckets_bounded_witness :
  Z.of_nat (length (buckets (snd (FailureTracker.record_all config events default)))) <= MAX_BUCKETS.
Proof.
  refine (proj1 (proj2 (buckets_bounded config 0 events _ eq_refl _ eq_refl)) eq_refl); by repeat split.
Defined.

(** A window of ten seconds is not a multiple of 60 nanoseconds: reports exactly a bucket width apart
    fill 61 buckets. *)
Example more_than_max_buckets :
  let config := MkTrigger 1000 100 (10 * SECOND) None in
  let events := map (fun i => (false, Z.of_nat i * (10 * SECOND / 60))) (seq 0 61) in
  length (buckets (snd (FailureTracker.record_all config events default))) = 61%nat.
Proof. by vm_compute. Qed.

(** A successful report can trigger a check: it drops the old successes out of the window. *)
Example success_triggers :
  let config := MkTrigger 2 50 (60 * SECOND) None in
  fst (FailureTracker.record_all config
    [(false, 0); (false, 0); (false, 0); (true, SECOND); (false, 2 * SECOND); (true, 3 * SECOND);
     (false, 60 * SECOND)] default)
  = [false; false; false; false; false; false; true].
Proof. by vm_compute. Qed.

End witnesses.

End TrackerFacts.
