(* ===== verification/DynodeConfig.v ===== *)
(** * Dynode: requests, node configuration and the allowlist

    Models of [apps/dynode/src]: [jsonrpc_types.rs] (module [JsonRpc]), [config/url.rs] and
    [config/domain.rs] (module [NodeConfig]), [config/allowlist.rs] and [config/chain_types.rs] (module
    [Allowlist]), the retry settings of [config/mod.rs] (module [Retry]).  The JSON values and their
    parser belong to serde_json and are parameters ([Json]).  A [HashMap] is a [gmap]; a [Duration] is a
    number of nanoseconds. *)
From S2P Require Import Prelude HexText Text ChainRegistry DynodeTracker.

#[export] Existing Instances Chains.Chain_eq_dec Chains.Chain_countable ChainTypes.ChainType_eq_dec
  ChainTypes.ChainType_countable.

(** ** Text *)

(** [config/mod.rs]: [path_without_query] *)
Definition path_without_query (path : string) : string :=
  match split_once "?"%char path with Some (path, _) => path | None => path end.

(** ** JSON-RPC requests *)

(** What the code uses of [serde_json]: the values, their [null] and the parser of a request body. *)
Class Json := {
  Value : Type;
  is_null : Value -> bool;
  to_string : Value -> string;
  base64_url : bytes -> string
}.

Module JsonRpc.
Section jsonrpc.
Context `{Json}.

Record JsonRpcCall := MkCall {
  jsonrpc : string;
  method : string;
  params : Value;
  id : Z
}.

(** [format!("{}:POST:{}:{}", host, path, method)], with the parameters when there are any *)
Definition call_cache_key (self : JsonRpcCall) (host path : string) : string :=
  let base := (host +:+ ":POST:" +:+ path +:+ ":" +:+ method self)%string in
  if is_null (params self) then base else (base +:+ ":" +:+ to_string (params self))%string.

Inductive JsonRpcRequest := Single (call : JsonRpcCall) | Batch (calls : list JsonRpcCall).

Inductive RequestType :=
| Regular (path method : string) (body : bytes)
| JsonRpcReq (request : JsonRpcRequest).

(** [serde_json::from_slice] at the two types of the source *)
Variable parse_call : bytes -> option JsonRpcCall.
Variable parse_calls : bytes -> option (list JsonRpcCall).

Definition from_request (method path : string) (body : bytes) : RequestType :=
  if String.eqb method "POST" then
    match parse_call body with
    | Some call => JsonRpcReq (Single call)
    | None =>
        match parse_calls body with
        | Some (c :: calls) => JsonRpcReq (Batch (c :: calls))
        | _ => Regular path method body
        end
    end
  else Regular path method body.

Definition rpc_methods_for_metrics (self : JsonRpcRequest) : list string :=
  match self with
  | Single call => [method call]
  | Batch calls => map method calls
  end.

Definition get_methods_for_metrics (self : RequestType) : list string :=
  match self with
  | JsonRpcReq request => rpc_methods_for_metrics request
  | Regular path _ _ => [path]
  end.

Definition cache_key (self : RequestType) (host : string) : option string :=
  match self with
  | Regular path method body =>
      Some (host +:+ ":" +:+ method +:+ ":" +:+ path +:+ ":" +:+ base64_url body)%string
  | JsonRpcReq _ => None
  end.

End jsonrpc.
End JsonRpc.

(** ** The allowlist *)

Module Allowlist.
Section allowlist.
Context `{Json}.
Import JsonRpc.

Record AllowlistRule := MkRule {
  rule_path : option string;
  rule_method : option string;
  rule_rpc_method : option string
}.

Definition AllowlistConfig : Type := list AllowlistRule.

Definition matches_path_request (self : AllowlistRule) (path method : string) : bool :=
  match rule_method self with
  | None => false
  | Some rule_method =>
      if negb (String.eqb method rule_method) then false
      else match rule_path self with
        | None => false
        | Some rule_path =>
            let path := path_without_query path in
            match strip_suffix "/**" rule_path with
            | Some prefix =>
                match strip_prefix prefix path with
                | Some rest => starts_with_char "/"%char rest
                | None => false
                end
            | None => String.eqb path rule_path
            end
        end
  end.

Definition matches_rpc (self : AllowlistRule) (rpc_method : string) : bool :=
  match rule_rpc_method self with Some method => String.eqb method rpc_method | None => false end.

Definition is_empty (self : AllowlistConfig) : bool := match self with [] => true | _ => false end.

Definition allows (self : AllowlistConfig) (request_type : RequestType) : bool :=
  if is_empty self then true
  else match request_type with
    | Regular path method _ => existsb (fun rule => matches_path_request rule path method) self
    | JsonRpcReq (Single call) => existsb (fun rule => matches_rpc rule (method call)) self
    | JsonRpcReq (Batch calls) =>
        forallb (fun call => existsb (fun rule => matches_rpc rule (method call)) self) calls
    end.

(** [chain_types.rs]: the policy of a chain type and of its chains *)
Record ChainPolicyConfig := MkPolicy { policy_allowlist : option AllowlistConfig }.

Record ChainTypeConfig := MkChainType {
  policy : ChainPolicyConfig;
  chains : gmap Chains.Chain ChainPolicyConfig
}.

Fixpoint any_allows (allowlists : list AllowlistConfig) (request_type : RequestType) (has_rules : bool) : bool :=
  match allowlists with
  | [] => negb has_rules
  | allowlist :: rest =>
      if is_empty allowlist then any_allows rest request_type has_rules
      else if allows allowlist request_type then true
      else any_allows rest request_type true
  end.

Definition chain_type_allows (self : ChainTypeConfig) (chain : Chains.Chain) (request_type : RequestType) : bool :=
  let allowlists :=
    [policy_allowlist (policy self); let?? config := chains self !! chain in policy_allowlist config] in
  any_allows (omap (fun allowlist => allowlist) allowlists) request_type false.

End allowlist.
End Allowlist.

(** ** Nodes *)

Module NodeConfig.

Record Url := MkUrl { url : string; headers : option (gmap string string) }.

#[export] Instance Url_eq_dec : EqDecision Url.
Proof. solve_decision. Defined.

Record Override := MkOverride {
  override_rpc_method : option string;
  override_path : option string;
  override_url : string
}.

(** The check profile, which selects requests, is not modelled. *)
Record NodeMonitoringConfig := MkMonitoring {
  enabled : bool;
  interval : Z;
  trigger : TriggerConfig.FailureTriggerConfig
}.

Record ChainConfig := MkChainConfig {
  chain : Chains.Chain;
  poll_interval_seconds : option Z;
  latency : option Z;
  overrides : option (list Override);
  allowlist : option Allowlist.AllowlistConfig;
  urls : list Url
}.

Definition NANOS_PER_SECOND : Z := 10 ^ 9.

Definition monitoring_interval (self : ChainConfig) (monitoring_config : NodeMonitoringConfig) : Z :=
  match poll_interval_seconds self with
  | Some seconds => seconds * NANOS_PER_SECOND
  | None => interval monitoring_config
  end.

Definition monitoring_latency (self : ChainConfig) (monitoring_config : NodeMonitoringConfig) : option Z :=
  match latency self with
  | Some latency => Some latency
  | None => TriggerConfig.latency (trigger monitoring_config)
  end.

Definition override_matches (rpc_method request_path : option string) (o : Override) : bool :=
  match override_rpc_method o with Some m => bool_decide (Some m = rpc_method) | None => true end
  && match override_path o with Some p => bool_decide (Some p = request_path) | None => true end.

Definition resolve_url (self : ChainConfig) (base_url : Url) (rpc_method request_path : option string) : Url :=
  match overrides self with
  | None => base_url
  | Some overrides =>
      match find (override_matches rpc_method request_path) overrides with
      | Some o => MkUrl (override_url o) (headers base_url)
      | None => base_url
      end
  end.

Record NodeDomain := MkNode { node_url : Url; node_config : ChainConfig }.

Section allows.
Context `{Json}.

Definition ChainTypesConfig : Type := gmap ChainTypes.ChainType Allowlist.ChainTypeConfig.

Definition chain_type_config (self : ChainTypesConfig) (chain_config : ChainConfig)
  : option Allowlist.ChainTypeConfig :=
  let?? chain_type := ChainMethods.chain_type (chain chain_config) in self !! chain_type.

Definition allows (self : ChainTypesConfig) (chain_config : ChainConfig) (request_type : JsonRpc.RequestType)
  : bool :=
  match allowlist chain_config with
  | Some allowlist => Allowlist.allows allowlist request_type
  | None =>
      match chain_type_config self chain_config with
      | Some config => Allowlist.chain_type_allows config (chain chain_config) request_type
      | None => true
      end
  end.

End allows.
End NodeConfig.

(** ** Retries *)

Module Retry.

Record ErrorMatcherConfig := MkMatcher {
  status_codes : list Z;
  error_messages : list string
}.

Definition matches_status (self : ErrorMatcherConfig) (status : Z) : bool :=
  existsb (Z.eqb status) (status_codes self).

Definition matches_message (self : ErrorMatcherConfig) (message : string) : bool :=
  if String.eqb message EmptyString then false
  else
    let message_lower := to_ascii_lowercase message in
    existsb (fun pattern =>
      let pattern := trim pattern in
      negb (String.eqb pattern EmptyString) && contains (to_ascii_lowercase pattern) message_lower)
      (error_messages self).

Record RetryConfig := MkRetry {
  retry_enabled : bool;
  max_attempts : nat;
  errors : ErrorMatcherConfig
}.

Definition effective_max_attempts (self : RetryConfig) (urls_count : nat) : nat :=
  if (max_attempts self =? 0)%nat then urls_count else Nat.min (max_attempts self) urls_count.

Fixpoint normalize_loop (seen : gset string) (messages : list string) : list string :=
  match messages with
  | [] => []
  | message :: rest =>
      let value := to_ascii_lowercase (trim message) in
      if String.eqb value EmptyString then normalize_loop seen rest
      else if bool_decide (value ∈ seen) then normalize_loop seen rest
      else value :: normalize_loop ({[value]} ∪ seen) rest
  end.

Definition normalize_error_messages (messages : list string) : list string := normalize_loop ∅ messages.

Definition normalize_matcher (matcher : ErrorMatcherConfig) : ErrorMatcherConfig :=
  MkMatcher (status_codes matcher) (normalize_error_messages (error_messages matcher)).

End Retry.

(** ** Properties *)

Module AllowlistFacts.
Import JsonRpc Allowlist.

Lemma strip_suffix_app suffix rest : strip_suffix suffix (rest +:+ suffix)%string = Some rest.
Proof.
  induction rest as [|a rest IH].
  - change (EmptyString +:+ suffix)%string with suffix.
    destruct suffix as [|b suffix]; cbn [strip_suffix]; [done|]. by rewrite String.eqb_refl.
  - rewrite string_app_cons. cbn [strip_suffix].
    destruct (String.eqb_spec suffix (String a (rest +:+ suffix))) as [E|_].
    + apply (f_equal String.length) in E. cbn [String.length] in E. rewrite string_length_app in E. lia.
    + by rewrite IH.
Qed.

Lemma strip_suffix_Some suffix s rest : strip_suffix suffix s = Some rest -> s = (rest +:+ suffix)%string.
Proof.
  revert rest. induction s as [|a s IH]; intros rest; cbn [strip_suffix].
  { destruct (String.eqb_spec suffix EmptyString) as [->|N]; [by intros [= <-]|done]. }
  destruct (String.eqb_spec suffix (String a s)) as [->|N]; [by intros [= <-]|].
  destruct (strip_suffix suffix s) as [r|]; [|done]. intros [= <-]. by rewrite (IH r).
Qed.

Lemma starts_with_char_iff c s : starts_with_char c s = true <-> exists rest, s = String c rest.
Proof.
  destruct s as [|a s]; cbn; [split; [done|by intros [? ?]]|].
  destruct (Ascii.eqb_spec a c) as [->|N]; split; eauto; [done|]. by intros [? [= ? _]].
Qed.

(** What a rule for paths covers: [prefix/**] covers the paths below [prefix], any other path itself. *)
Definition covers (rule_path path : string) : Prop :=
  (exists prefix rest, rule_path = (prefix +:+ "/**")%string /\ path = (prefix +:+ "/" +:+ rest)%string)
  \/ ((forall prefix, rule_path <> (prefix +:+ "/**")%string) /\ path = rule_path).

Lemma matches_path_iff rule path method : matches_path_request rule path method = true <->
  rule_method rule = Some method
  /\ exists rule_path', rule_path rule = Some rule_path' /\ covers rule_path' (path_without_query path).
Proof.
  unfold matches_path_request, covers.
  destruct (rule_method rule) as [m|]; [|split; [done|by intros [? _]]].
  destruct (String.eqb_spec method m) as [->|N]; cbn [negb]; [|split; [done|by intros [[= ->] _]]].
  destruct (rule_path rule) as [p|]; [|split; [done|by intros (_ & ? & ? & _)]].
  transitivity (covers p (path_without_query path)).
  2: { unfold covers. split; [intros C; split; [done|by eexists]|by intros (_ & ? & [= <-] & C)]. }
  unfold covers. destruct (strip_suffix "/**" p) as [prefix|] eqn:S.
  - apply strip_suffix_Some in S as ->.
    destruct (strip_prefix prefix (path_without_query path)) as [rest|] eqn:R.
    + apply strip_prefix_iff in R. rewrite starts_with_char_iff. split.
      * intros [rest' ->]. left. by exists prefix, rest'.
      * intros [(prefix' & rest' & E & E')|[N _]]; [|by destruct (N prefix)].
        apply (f_equal (strip_suffix "/**")) in E. rewrite !strip_suffix_app in E. injection E as <-.
        rewrite E' in R. apply strip_prefix_iff in R. exists rest'.
        assert (R' : strip_prefix prefix (prefix +:+ "/" +:+ rest') = Some ("/" +:+ rest')%string)
          by by apply strip_prefix_iff.
        rewrite R in R'. by injection R' as ->.
    + split; [done|]. intros [(prefix' & rest' & E & E')|[N _]]; [|by destruct (N prefix)].
      apply (f_equal (strip_suffix "/**")) in E. rewrite !strip_suffix_app in E. injection E as <-.
      apply strip_prefix_iff in E'. congruence.
  - assert (N : forall prefix, p <> (prefix +:+ "/**")%string)
      by (intros prefix ->; by rewrite strip_suffix_app in S).
    destruct (String.eqb_spec (path_without_query path) p) as [E|E].
    + split; [|done]. intros _. right. done.
    + split; [done|]. intros [(prefix & ? & -> & _)|[_ ?]]; [by destruct (N prefix)|done].
Qed.

Section facts.
Context `{Json}.

Lemma allows_batch (list : AllowlistConfig) calls call :
  allows list (JsonRpcReq (Batch calls)) = true -> call ∈ calls ->
  allows list (JsonRpcReq (Single call)) = true.
Proof.
  unfold allows. destruct (is_empty list); [done|]. intros A I.
  apply forallb_forall with (x := call) in A; [done|]. by apply list_elem_of_In.
Qed.

Lemma any_allows_batch lists calls call has_rules :
  any_allows lists (JsonRpcReq (Batch calls)) has_rules = true -> call ∈ calls ->
  any_allows lists (JsonRpcReq (Single call)) has_rules = true.
Proof.
  revert has_rules. induction lists as [|l lists IH]; intros has_rules; cbn [any_allows]; [done|].
  destruct (is_empty l); [by apply IH|]. intros A I.
  destruct (allows l (JsonRpcReq (Batch calls))) eqn:B.
  - by rewrite (allows_batch l calls call B I).
  - destruct (allows l (JsonRpcReq (Single call))); [done|by apply IH].
Qed.

(** The allowlist cannot be bypassed: a batch is let through only if each of its calls would be on its
    own; and, where there is an allowlist of the chain, a plain request is let through exactly when the list
    is empty or has a rule for its HTTP method whose path is the request's path without its query, or ends
    with a double star and covers what is below its prefix. *)
Theorem allowlist_sound (config : NodeConfig.ChainTypesConfig) (chain_config : NodeConfig.ChainConfig) :
  (forall calls call, NodeConfig.allows config chain_config (JsonRpcReq (Batch calls)) = true ->
     call ∈ calls -> NodeConfig.allows config chain_config (JsonRpcReq (Single call)) = true)
  /\ (forall list path method body, NodeConfig.allowlist chain_config = Some list ->
     (NodeConfig.allows config chain_config (Regular path method body) = true
      <-> list = [] \/ exists rule, rule ∈ list /\ rule_method rule = Some method
            /\ exists p, rule_path rule = Some p /\ covers p (path_without_query path))).
Proof.
  split.
  - intros calls call. unfold NodeConfig.allows.
    destruct (NodeConfig.allowlist chain_config) as [list|]; [by apply allows_batch|].
    destruct (NodeConfig.chain_type_config config chain_config) as [c|]; [|done]. apply any_allows_batch.
  - intros list path method body E. unfold NodeConfig.allows. rewrite E. unfold allows.
    destruct list as [|r list]; cbn [is_empty]; [split; auto|]. rewrite existsb_exists. split.
    + intros (rule & I & M%matches_path_iff). right. exists rule. by rewrite list_elem_of_In.
    + intros [[=]|(rule & I & M)]. exists rule. rewrite <- list_elem_of_In. split; [done|].
      by apply matches_path_iff.
Qed.

End facts.

(** *** Witness: the rules of the source's tests *)

Section witnesses.

#[local] Instance unit_json : Json := Build_Json unit (fun _ => true) (fun _ => EmptyString) string_of_bytes.

Let call (m : string) : JsonRpcCall := MkCall "2.0" m () 1.
Let rpc (m : string) : AllowlistRule := MkRule None None (Some m).
Let rules : AllowlistConfig :=
  [rpc "eth_call"; rpc "eth_chainId"; MkRule (Some "/api/v2/address/**") (Some "GET") None].
Let node : NodeConfig.ChainConfig := NodeConfig.MkChainConfig Chains.Bitcoin None None None (Some rules) [].

Lemma allowlist_sound_witness :
  NodeConfig.allows ∅ node (JsonRpcReq (Single (call "eth_call"))) = true
  /\ NodeConfig.allows ∅ node (Regular "/api/v2/address/bc1qtest?pageSize=25" "GET" []) = true
  /\ NodeConfig.allows ∅ node (Regular "/api/v2/block/900000" "GET" []) = false.
Proof.
  split; [|split; [|by vm_compute]].
  - refine (proj1 (allowlist_sound ∅ node) [call "eth_call"; call "eth_chainId"] _ _ _); [by vm_compute|].
    apply list_elem_of_here.
  - apply (proj2 (allowlist_sound ∅ node) rules); [done|]. right.
    exists (MkRule (Some "/api/v2/address/**") (Some "GET") None).
    split; [by do 2 apply list_elem_of_further; apply list_elem_of_here|]. split; [done|].
    eexists. split; [done|]. left. exists "/api/v2/address", "bc1qtest". by vm_compute.
Defined.

(** The lists of a chain type and of its chain are not joined for a batch: each call is allowed, the batch
    is not. *)
Example mixed_batch_rejected :
  let policies := MkChainType (MkPolicy (Some [rpc "eth_call"]))
    {[Chains.Ethereum := MkPolicy (Some [rpc "eth_chainId"])]} in
  let allows := chain_type_allows policies Chains.Ethereum in
  allows (JsonRpcReq (Single (call "eth_call"))) = true
  /\ allows (JsonRpcReq (Single (call "eth_chainId"))) = true
  /\ allows (JsonRpcReq (Batch [call "eth_call"; call "eth_chainId"])) = false.
Proof. by vm_compute. Qed.

End witnesses.

End AllowlistFacts.
