(* ===== verification/DynodeSelection.v ===== *)
(** * Dynode: observing the nodes of a chain and choosing one

    Models of [apps/dynode/src]: [failure_reason.rs] (module [FailureReason]), [monitoring/switch_reason.rs]
    and [monitoring/observation.rs] (module [Observation]), [monitoring/selection.rs] (module [Selection])
    and the parts of [monitoring/evaluator.rs] that are functions of their inputs (module [Evaluator]);
    the interleaving of the evaluator with requests is in [DynodeMonitor].

    What a node answers is not code of the repository: a check asks [observe k url], the observation its
    [k]-th request makes of [url]. *)
From S2P Require Import Prelude HexText ChainRegistry DynodeTracker DynodeConfig.
Import NodeConfig.

Module FailureReason.

Inductive FailureReason := Status (status : Z) | Timeout | ConnectError | RequestError.

#[export] Instance FailureReason_eq_dec : EqDecision FailureReason.
Proof. solve_decision. Defined.

(** [gem_client::ClientError] *)
Inductive ClientError :=
| Network (message : string)
| ClientTimeout
| Http (status : Z) (body : bytes)
| Serialization (message : string).

(** What [downcast_ref] finds in an error: one of the repository's client errors, one of reqwest's, with
    its answers to [is_timeout] and [is_connect], or neither. *)
Inductive DynError :=
| AsClientError (error : ClientError)
| AsReqwestError (is_timeout is_connect : bool)
| OtherError.

Definition from_error (error : DynError) : FailureReason :=
  match error with
  | AsClientError ClientTimeout => Timeout
  | AsClientError (Http status _) => Status status
  | AsClientError (Network _) | AsClientError (Serialization _) => RequestError
  | AsReqwestError is_timeout is_connect =>
      if is_timeout then Timeout else if is_connect then ConnectError else RequestError
  | OtherError => RequestError
  end.

(** [Display], derived by strum *)
Definition display (self : FailureReason) : string :=
  match self with
  | Status status => ("status=" +:+ pretty status)%string
  | Timeout => "timeout"
  | ConnectError => "connect_error"
  | RequestError => "request_error"
  end.

End FailureReason.

Module Observation.
Import FailureReason.

Inductive NodeMonitorError := Upstream (reason : FailureReason) | Request | NodeCheck.

Definition from_error (error : DynError) : NodeMonitorError :=
  match FailureReason.from_error error with
  | (Status _ | Timeout | ConnectError) as reason => Upstream reason
  | RequestError => Request
  end.

Definition reason (self : NodeMonitorError) : FailureReason :=
  match self with Upstream reason => reason | Request | NodeCheck => RequestError end.

Inductive NodeSwitchReason :=
| BlockHeight
| CurrentNodeError (error : NodeMonitorError) (message : string)
| Latency
| PreferredNode.

Definition metric_reason (self : NodeSwitchReason) : string :=
  match self with
  | BlockHeight => "block_height"
  | CurrentNodeError error _ => display (reason error)
  | Latency => "latency"
  | PreferredNode => "preferred_node"
  end.

(** [primitives/src/node_sync_status.rs] *)
Record NodeSyncStatus := MkSync {
  in_sync : bool;
  latest_block_number : option Z;
  current_block_number : option Z
}.

Inductive NodeStatusState := Healthy (status : NodeSyncStatus) | StateError (message : string).

Definition is_healthy (self : NodeStatusState) : bool :=
  match self with Healthy status => in_sync status | StateError _ => false end.

Record NodeStatusObservation := MkObservation {
  obs_url : Url;
  state : NodeStatusState;
  latency : Z;
  monitor_error : NodeMonitorError
}.

Definition new (url : Url) (state : NodeStatusState) (latency : Z) : NodeStatusObservation :=
  MkObservation url state latency Request.

Definition with_monitor_error (self : NodeStatusObservation) (monitor_error : NodeMonitorError)
  : NodeStatusObservation :=
  MkObservation (obs_url self) (state self) (latency self) monitor_error.

Definition is_usable (latency_threshold : option Z) (self : NodeStatusObservation) : bool :=
  is_healthy (state self)
  && match latency_threshold with Some threshold => latency self <=? threshold | None => true end.

(** [monitoring/node_observer.rs]: the observation made of a node, from the answers of the libraries: the
    headers of the request, the HTTP client, the node's status and, for a node that answers, the error of the
    check report. *)
Definition observe_node (url : Url) (elapsed : Z)
  (headers client : result string unit)
  (status : result (DynError * string) NodeSyncStatus) (report_error : NodeSyncStatus -> option string)
  : NodeStatusObservation :=
  let observation state := new url state elapsed in
  match headers with
  | Err error => with_monitor_error (observation (StateError error)) Request
  | Ok _ =>
      match client with
      | Err error => with_monitor_error (observation (StateError error)) Request
      | Ok _ =>
          match status with
          | Ok status =>
              match report_error status with
              | Some error => with_monitor_error (observation (StateError error)) NodeCheck
              | None => observation (Healthy status)
              end
          | Err (error, message) => with_monitor_error (observation (StateError message)) (from_error error)
          end
      end
  end.

End Observation.

Module Selection.
Import Observation.

Record NodeSwitchResult := MkSwitch { observation : NodeStatusObservation; switch_reason_ : NodeSwitchReason }.

Definition switch_reason (current_observation : NodeStatusObservation) (current_usable : bool)
  : NodeSwitchReason :=
  match state current_observation with
  | StateError message => CurrentNodeError (monitor_error current_observation) message
  | Healthy status =>
      if negb (in_sync status) then BlockHeight
      else if negb current_usable then Latency
      else PreferredNode
  end.

Definition is_candidate (current : Url) (latency_threshold : option Z) (o : NodeStatusObservation) : bool :=
  negb (bool_decide (obs_url o = current)) && is_usable latency_threshold o.

Definition select_node (current : Url) (configured_observations : list NodeStatusObservation)
  (latency_threshold : option Z) : option NodeSwitchResult :=
  let?? (current_index, current_observation) :=
    list_find (fun observation => obs_url observation = current) configured_observations in
  let current_usable := is_usable latency_threshold current_observation in
  let candidates :=
    if current_usable then take current_index configured_observations else configured_observations in
  let?? candidate := find (is_candidate current latency_threshold) candidates in
  Some (MkSwitch candidate (switch_reason current_observation current_usable)).

End Selection.

Module Evaluator.
Import Observation Selection.

Section evaluator.
Context (observe : nat -> Url -> NodeStatusObservation) (latency_threshold : option Z) (urls : list Url).

Definition probe_indices (node_count current_index : nat) (current_healthy : bool) : list nat :=
  let search_end := if current_healthy then current_index else node_count in
  filter (fun index => index <> current_index) (seq 0 search_end).

(** The loop of [observe_nodes]; [k] counts the observations made.  The index is below [urls.len()]
    ([probe_indices_bound]), so that indexing does not panic. *)
Fixpoint probe_loop (k : nat) (indices : list nat) (observations : list (option NodeStatusObservation))
  : list (option NodeStatusObservation) :=
  match indices with
  | [] => observations
  | index :: indices =>
      match urls !! index with
      | None => observations
      | Some url =>
          let observation := observe k url in
          let selected := is_usable latency_threshold observation in
          let observations := <[index := Some observation]> observations in
          if selected then observations else probe_loop (S k) indices observations
      end
  end.

Definition observe_nodes (current : Url) : list NodeStatusObservation :=
  let current_observation := observe 0%nat current in
  match fst <$> list_find (fun url => url = current) urls with
  | None => [current_observation]
  | Some current_index =>
      let current_usable := is_usable latency_threshold current_observation in
      if (current_index =? 0)%nat && current_usable then [current_observation]
      else
        let observations := <[current_index := Some current_observation]> (replicate (length urls) None) in
        omap (fun o => o)
          (probe_loop 1%nat (probe_indices (length urls) current_index current_usable) observations)
  end.

Lemma probe_indices_bound n current_index healthy : (current_index < n)%nat ->
  Forall (fun i => (i < n)%nat /\ i <> current_index) (probe_indices n current_index healthy).
Proof.
  intros H. unfold probe_indices. apply Forall_forall. intros i [N I%elem_of_seq]%list_elem_of_filter.
  destruct healthy; lia.
Qed.

End evaluator.
End Evaluator.

(** ** Properties *)

Module SelectionFacts.
Import Observation Selection Evaluator.

Lemma find_app {A} (f : A -> bool) l1 l2 :
  find f (l1 ++ l2) = match find f l1 with Some x => Some x | None => find f l2 end.
Proof. induction l1 as [|x l1 IH]; [done|]. cbn. by destruct (f x). Qed.

Section selection.
Context (threshold : option Z) (current : Url).

Notation usable := (is_usable threshold).
Notation candidate := (is_candidate current threshold).

(** The observations up to the first usable one. *)
Fixpoint upto (l : list NodeStatusObservation) : list NodeStatusObservation :=
  match l with
  | [] => []
  | o :: l => if usable o then [o] else o :: upto l
  end.

Lemma upto_all l : existsb usable l = false -> upto l = l.
Proof.
  induction l as [|o l IH]; [done|]. cbn. intros [-> E]%orb_false_iff. by rewrite IH.
Qed.

Lemma find_upto l : Forall (fun o => usable o = true -> obs_url o <> current) l ->
  find candidate (upto l) = find candidate l.
Proof.
  induction 1 as [|o l Ho _ IH]; [done|]. cbn [upto].
  destruct (usable o) eqn:U; cbn [find].
  - unfold is_candidate. by rewrite U, bool_decide_eq_false_2 by auto.
  - unfold is_candidate at 1 3. rewrite U, andb_false_r. exact IH.
Qed.

Lemma find_candidate l : Forall (fun o => usable o = true -> obs_url o <> current) l ->
  find candidate l = find usable l.
Proof.
  induction 1 as [|o l Ho _ IH]; [done|]. cbn [find]. unfold is_candidate at 1.
  destruct (usable o) eqn:U; [by rewrite bool_decide_eq_false_2 by auto|by rewrite andb_false_r].
Qed.

Lemma find_some_usable l : existsb usable l = true -> is_Some (find usable l).
Proof. induction l as [|o l IH]; [done|]. cbn. destruct (usable o); eauto. Qed.

(** Selecting from observations whose first one of the current node is [c]. *)
Lemma select_split before c after :
  Forall (fun o => obs_url o <> current) before -> obs_url c = current ->
  select_node current (before ++ c :: after) threshold
  = let?? o := find candidate (if usable c then before else before ++ after) in
    Some (MkSwitch o (switch_reason c (usable c))).
Proof.
  intros B C. unfold select_node.
  replace (list_find (fun observation => obs_url observation = current) (before ++ c :: after))
    with (Some (length before, c)).
  2: { symmetry. apply list_find_Some. split; [by rewrite list_lookup_middle|]. split; [done|].
       intros j y Hj L. rewrite lookup_app_l in Hj by done. by eapply Forall_lookup_1 in B. }
  destruct (usable c) eqn:U.
  - by rewrite take_app_length' by done.
  - rewrite !find_app. cbn [find]. unfold is_candidate at 2. by rewrite U, andb_false_r.
Qed.

End selection.

Section lazy.
Context (observe : nat -> Url -> NodeStatusObservation) (obs : Url -> NodeStatusObservation).
Context (threshold : option Z) (urls : list Url).
Context (Hobs : forall k url, observe k url = obs url) (Hurl : forall url, obs_url (obs url) = url).

Notation usable := (is_usable threshold).
Notation flatten := (omap (fun o : option NodeStatusObservation => o)).

Lemma flatten_some l : flatten (map Some l) = l.
Proof. induction l as [|o l IH]; [done|]. cbn. by rewrite IH. Qed.

Lemma flatten_none n : flatten (replicate n None) = [].
Proof. by induction n. Qed.

(** Probing a segment of the nodes stops at its first usable one, or goes on. *)
Lemma probe_segment seg : forall k before after rest pre post,
  urls = before ++ seg ++ after -> length before = length pre ->
  flatten (probe_loop observe threshold urls k (seq (length pre) (length seg) ++ rest)
             (pre ++ replicate (length seg) None ++ post))
  = if existsb usable (map obs seg) then flatten pre ++ upto threshold (map obs seg) ++ flatten post
    else flatten (probe_loop observe threshold urls (k + length seg) rest
                    (pre ++ map Some (map obs seg) ++ post)).
Proof using Hobs.
  induction seg as [|u seg IH]; intros k before after rest pre post E L; cbn [map existsb length replicate app seq].
  { by rewrite Nat.add_0_r. }
  assert (Lu : urls !! length pre = Some u)
    by (rewrite E, <- app_comm_cons; by apply list_lookup_middle).
  cbn [probe_loop]. rewrite Lu, Hobs, insert_app_r_alt, Nat.sub_diag by lia. cbn [insert list_insert].
  destruct (usable (obs u)) eqn:U; cbn [orb].
  - rewrite !omap_app. f_equal. cbn [omap list_omap upto]. rewrite U, omap_app, flatten_none. done.
  - specialize (IH (S k) (before ++ [u]) after rest (pre ++ [Some (obs u)]) post).
    rewrite !length_app in IH. cbn [length] in IH.
    rewrite <- !app_assoc in IH. cbn [app] in IH. rewrite !Nat.add_1_r in IH.
    rewrite IH by (done || lia). destruct (existsb usable (map obs seg)).
    + rewrite !omap_app, <- !app_assoc. f_equal. cbn [upto]. by rewrite U.
    + rewrite Nat.add_succ_r. done.
Qed.

Lemma probe_before ci n : (ci < n)%nat -> probe_indices n ci true = seq 0 ci.
Proof.
  intros H. unfold probe_indices. apply filter_all, Forall_forall. intros i I%elem_of_seq. lia.
Qed.

Lemma probe_others ci n : (ci < n)%nat ->
  probe_indices n ci false = seq 0 ci ++ seq (S ci) (n - S ci).
Proof.
  intros H. unfold probe_indices.
  replace n with (ci + (1 + (n - S ci)))%nat at 1 by lia. rewrite !seq_app, !filter_app. cbn [seq Nat.add].
  rewrite filter_cons, decide_False by (intros N; by apply N).
  change (filter (fun index => index <> ci) []) with (@nil nat). cbn [app]. f_equal.
  - apply filter_all, Forall_forall. intros i I%elem_of_seq. lia.
  - rewrite filter_all; [f_equal; lia|]. apply Forall_forall. intros i I%elem_of_seq. lia.
Qed.

(** The first usable node of the configuration, unless it is the current one. *)
Definition preferred (current : Url) : option NodeSwitchResult :=
  let?? best := find usable (map obs urls) in
  if decide (obs_url best = current) then None
  else Some (MkSwitch best (switch_reason (obs current) (usable (obs current)))).

Lemma obs_not_current current l : current ∉ l -> Forall (fun o => obs_url o <> current) (map obs l).
Proof using Hurl.
  intros N. apply Forall_map, Forall_forall. intros u U. rewrite Hurl. by intros ->.
Qed.

Lemma obs_unusable current l : usable (obs current) = false ->
  Forall (fun o => usable o = true -> obs_url o <> current) (map obs l).
Proof using Hurl.
  intros N. apply Forall_map, Forall_forall. intros u _ U. rewrite Hurl. intros ->. congruence.
Qed.

Lemma upto_forall (P : NodeStatusObservation -> Prop) l : Forall P l -> Forall P (upto threshold l).
Proof.
  induction 1 as [|o l Ho _ IH]; [constructor|]. cbn [upto]. destruct (usable o); by repeat constructor.
Qed.

Lemma observed_others current us1 us2 n : urls = us1 ++ current :: us2 ->
  n = (length us1 + S (length us2))%nat ->
  flatten (probe_loop observe threshold urls 1 (probe_indices n (length us1) false)
    (replicate (length us1) None ++ Some (obs current) :: replicate (length us2) None))
  = upto threshold (map obs us1) ++ obs current
    :: (if existsb usable (map obs us1) then [] else upto threshold (map obs us2)).
Proof using Hobs.
  intros E ->. rewrite probe_others by lia.
  replace (length us1 + S (length us2) - S (length us1))%nat with (length us2) by lia.
  pose proof (probe_segment us1 1 [] (current :: us2) (seq (S (length us1)) (length us2)) []
    (Some (obs current) :: replicate (length us2) None) E eq_refl) as P.
  pose proof (probe_segment us2 (1 + length us1) (us1 ++ [current]) [] []
    (map Some (map obs us1) ++ [Some (obs current)]) []) as P2.
  cbn [app length] in P. rewrite P. cbn [omap list_omap]. rewrite flatten_none.
  destruct (existsb usable (map obs us1)) eqn:X; [done|].
  rewrite !app_nil_r, <- !app_assoc, !length_app, !length_map in P2. cbn [app length] in P2.
  rewrite !Nat.add_1_r in P2. rewrite P2 by (exact E || reflexivity).
  rewrite (upto_all threshold (map obs us1)) by done.
  destruct (existsb usable (map obs us2)) eqn:X2; cbn [probe_loop];
    rewrite !omap_app, !flatten_some; cbn [omap list_omap]; rewrite ?app_nil_r, <- ?app_assoc; [done|].
  by rewrite flatten_some, upto_all.
Qed.

(** What [observe_nodes] observes, for a current node that occurs first between [us1] and [us2]: the nodes
    before it up to the first usable one; and when neither these nor the current one are usable, the nodes
    after it up to the first usable one. *)
Lemma observed current us1 us2 : urls = us1 ++ current :: us2 -> current ∉ us1 ->
  observe_nodes observe threshold urls current
  = upto threshold (map obs us1) ++ obs current
    :: (if usable (obs current) || existsb usable (map obs us1) then [] else upto threshold (map obs us2)).
Proof using Hobs.
  intros E N.
  assert (F : list_find (fun url => url = current) urls = Some (length us1, current)).
  { apply list_find_Some. split; [by rewrite E, list_lookup_middle|]. split; [done|].
    intros j y Hj L ->. rewrite E, lookup_app_l in Hj by done. by apply list_elem_of_lookup_2 in Hj. }
  assert (Ln : length urls = (length us1 + S (length us2))%nat) by (rewrite E, length_app; done).
  unfold observe_nodes. rewrite F, Hobs. cbn [fmap option_fmap option_map fst].
  destruct (Nat.eqb_spec (length us1) 0) as [Z0|Z0]; destruct (usable (obs current)) eqn:U; cbn [andb orb].
  1: by destruct us1.
  all: replace (<[length us1 := Some (obs current)]> (replicate (length urls) None))
    with (replicate (length us1) None ++ Some (obs current) :: replicate (length us2) None)
    by (rewrite Ln, replicate_add, insert_app_r_alt, length_replicate, Nat.sub_diag
          by (rewrite length_replicate; lia); done).
  2: { rewrite probe_before by lia. rewrite <- (app_nil_r (seq 0 _)).
       pose proof (probe_segment us1 1 [] (current :: us2) [] [] (Some (obs current) :: replicate (length us2) None) E eq_refl) as P.
       cbn [app length] in P. rewrite P. cbn [omap list_omap]. rewrite flatten_none.
       destruct (existsb usable (map obs us1)) eqn:X; [done|].
       cbn [probe_loop]. rewrite omap_app, flatten_some. cbn [omap list_omap]. by rewrite flatten_none, upto_all. }
  all: by apply observed_others.
Qed.

Lemma find_usable_split current us1 us2 : urls = us1 ++ current :: us2 ->
  find usable (map obs urls)
  = match find usable (map obs us1) with
    | Some o => Some o
    | None => if usable (obs current) then Some (obs current) else find usable (map obs us2)
    end.
Proof using Type. intros ->. by rewrite map_app, find_app. Qed.

Lemma preferred_switch current l o : Forall (fun o => usable o = true -> obs_url o <> current) l ->
  find usable l = Some o -> obs_url o <> current.
Proof using Type.
  intros F S. apply find_some in S as [I U]. eapply Forall_forall in F; [by apply F|by apply list_elem_of_In].
Qed.

Lemma select_observed current : current ∈ urls ->
  select_node current (observe_nodes observe threshold urls current) threshold = preferred current.
Proof using Hobs Hurl.
  intros I. destruct (list_elem_of_split_l _ _ I) as (us1 & us2 & E & N).
  pose proof (obs_not_current current us1 N) as A.
  assert (A' : Forall (fun o => usable o = true -> obs_url o <> current) (map obs us1))
    by (eapply Forall_impl; [exact A|auto]).
  rewrite (observed current us1 us2 E N), select_split; [|by apply upto_forall|by rewrite Hurl].
  unfold preferred. rewrite (find_usable_split current us1 us2 E).
  destruct (usable (obs current)) eqn:U; cbn [orb].
  - rewrite find_upto, find_candidate by done.
    destruct (find usable (map obs us1)) as [o|] eqn:F.
    + by rewrite decide_False by (by eapply preferred_switch in F).
    + by rewrite Hurl, decide_True.
  - pose proof (obs_unusable current us2 U) as B. rewrite find_app, find_upto, find_candidate by done.
    destruct (find usable (map obs us1)) as [o|] eqn:F.
    + by rewrite decide_False by (by eapply preferred_switch in F).
    + destruct (existsb usable (map obs us1)) eqn:X.
      { apply find_some_usable in X as [o X]. congruence. }
      rewrite find_upto, find_candidate by done.
      destruct (find usable (map obs us2)) as [o|] eqn:G; [|done].
      by rewrite decide_False by (by eapply preferred_switch in G).
Qed.

Lemma select_unknown current : current ∉ urls ->
  select_node current (observe_nodes observe threshold urls current) threshold = None.
Proof using Hobs Hurl.
  intros N. unfold observe_nodes. rewrite Hobs.
  destruct (list_find (fun url => url = current) urls) as [[i u]|] eqn:F.
  { apply list_find_Some in F as (L & -> & _). by apply list_elem_of_lookup_2 in L. }
  cbn [fmap option_fmap option_map].
  pose proof (select_split threshold current [] (obs current) [] (Forall_nil_2 _) (Hurl current)) as P.
  cbn [app] in P. rewrite P. by destruct (usable _).
Qed.

End lazy.

(** (C23) Observing lazily does not change the choice.  [observe_nodes] stops probing as soon as the outcome is
    settled; if during a check the observation of a node depends on its URL only, then what [select_node]
    chooses from the observations made is the first usable node of the configuration, with the reason given by
    the state of the current node, and nothing when that node is the current one, when no node is usable or
    when the current node is not configured. *)
Theorem lazy_selection (observe : nat -> Url -> NodeStatusObservation) (obs : Url -> NodeStatusObservation)
  (threshold : option Z) (urls : list Url) (current : Url) :
  (forall k url, observe k url = obs url) -> (forall url, obs_url (obs url) = url) ->
  select_node current (observe_nodes observe threshold urls current) threshold
  = if decide (current ∈ urls) then preferred obs threshold urls current else None.
Proof.
  intros Hobs Hurl. destruct (decide _) as [I|N]; [by apply select_observed|by apply (select_unknown observe obs)].
Qed.

(** Switching does not flap: after switching to the node that was selected, the same observations select
    nothing else. *)
Theorem selection_stable (obs : Url -> NodeStatusObservation) (threshold : option Z) (urls : list Url)
  (current : Url) (switch : NodeSwitchResult) :
  (forall url, obs_url (obs url) = url) ->
  select_node current (observe_nodes (fun _ => obs) threshold urls current) threshold = Some switch ->
  let selected := obs_url (observation switch) in
  selected ∈ urls /\ selected <> current /\ is_usable threshold (observation switch) = true
  /\ select_node selected (observe_nodes (fun _ => obs) threshold urls selected) threshold = None.
Proof.
  intros Hurl S. rewrite (lazy_selection _ obs) in * by done.
  destruct (decide (current ∈ urls)) as [I|]; [|done]. unfold preferred in S.
  destruct (find (is_usable threshold) (map obs urls)) as [best|] eqn:F; [|done].
  destruct (decide (obs_url best = current)) as [|N]; [done|]. injection S as <-. cbn [observation].
  apply find_some in F as F'. destruct F' as [M U]. apply in_map_iff in M as (u & <- & M).
  apply list_elem_of_In in M. rewrite Hurl in *. split; [done|]. split; [done|]. split; [done|].
  rewrite (lazy_selection _ obs), decide_True by done. unfold preferred. by rewrite F, Hurl, decide_True.
Qed.

(** *** Witnesses: three nodes, of which the current one fails *)

Section witnesses.

Let node (name : string) : Url := MkUrl name None.
Let urls : list Url := [node "a"; node "b"; node "c"].
Let obs (u : Url) : NodeStatusObservation :=
  if String.eqb (url u) "b" then new u (StateError "timeout") 10
  else new u (Healthy (MkSync true None None)) (if String.eqb (url u) "a" then 900 else 20).

Lemma lazy_selection_witness :
  select_node (node "b") (observe_nodes (fun _ => obs) (Some 500) urls (node "b")) (Some 500)
  = Some (MkSwitch (obs (node "c")) (CurrentNodeError Request "timeout")).
Proof.
  rewrite (lazy_selection (fun _ => obs) obs (Some 500) urls (node "b")).
  - by vm_compute.
  - done.
  - intros u. unfold obs. by destruct (String.eqb (url u) "b").
Defined.

Lemma selection_stable_witness :
  select_node (node "c") (observe_nodes (fun _ => obs) (Some 500) urls (node "c")) (Some 500) = None.
Proof.
  refine (proj2 (proj2 (proj2 (selection_stable obs (Some 500) urls (node "b")
    (MkSwitch (obs (node "c")) (CurrentNodeError Request "timeout")) _ _)))).
  - intros u. unfold obs. by destruct (String.eqb (url u) "b").
  - by vm_compute.
Defined.

End witnesses.

End SelectionFacts.
