(* ===== verification/DynodeMonitor.v ===== *)
(** * Dynode: the monitor of a chain and the requests that report to it

    Models of [apps/dynode/src/monitoring]: [request_failure.rs] (module [Signal]), the atomic parts of
    [evaluator.rs] and [chain_monitor.rs] with their interleavings (module [Monitor]) and [worker.rs] (module
    [Worker]).

    The monitor of a chain is a task; the requests to the chain are others, which report their outcome to it
    through the mutex and the notification of a [RequestFailureSignal].  [Monitor.step] is one atomic step of
    one of them: a critical section, a read or write of the table of nodes under its lock, a poll.  Whatever a
    check observes of the nodes is an oracle that may differ from step to step, and which only has to give the
    URL it was asked about.  Tokio's [Notify] is a class, [Notify], with the documented behaviour the code
    relies on as its laws, [NotifyLaws]. *)
From S2P Require Import Prelude HexText ChainRegistry DynodeTracker DynodeConfig DynodeSelection.
Import NodeConfig.

(** ** [tokio::sync::Notify], with one task that waits *)

(** [poll] polls the future of [notified()]: whether it is ready, which consumes the notification.
    [drop_waiter] drops a future that was polled. *)
Class Notify := {
  notify : Type;
  notify_new : notify;
  notify_one : notify -> notify;
  poll : notify -> bool * notify;
  drop_waiter : notify -> notify
}.

(** A notification makes the next poll ready, whether the task was waiting or not; and dropping a waiting
    future does not lose a notification. *)
Record NotifyLaws `{Notify} : Prop := {
  poll_notified : forall n, fst (poll (notify_one n)) = true;
  drop_keeps : forall n, fst (poll n) = true -> fst (poll (drop_waiter n)) = true
}.

(** ** [request_failure.rs] *)

Module Signal.

Record RequestFailureState := MkState {
  active_url : Url;
  tracker : FailureTracker.FailureTracker;
  pending : bool
}.

Definition new (active_url : Url) : RequestFailureState := MkState active_url FailureTracker.default false.

(** The critical section of [report]; the flag says that [notify_one] is to be called after it. *)
Definition report (config : TriggerConfig.FailureTriggerConfig) (url : Url) (failed : bool) (now : Z)
  (self : RequestFailureState) : bool * RequestFailureState :=
  if negb (bool_decide (active_url self = url)) then (false, self)
  else
    let '(triggered, tracker) := FailureTracker.record failed now config (tracker self) in
    if triggered then (true, MkState (active_url self) tracker true)
    else (false, MkState (active_url self) tracker (pending self)).

Definition take_pending (self : RequestFailureState) : option Url * RequestFailureState :=
  if pending self then (Some (active_url self), MkState (active_url self) (tracker self) false)
  else (None, self).

Definition check_completed (url : Url) (self : RequestFailureState) : RequestFailureState :=
  if negb (bool_decide (active_url self = url)) then MkState url FailureTracker.default false
  else MkState (active_url self) (FailureTracker.clear_samples (tracker self)) false.

End Signal.

(** ** [evaluator.rs] and [chain_monitor.rs] *)

Module Monitor.
Import Observation Selection Evaluator Signal.

Inductive MonitorCycleSource := Scheduled | FailureTrigger.

(** Where a check is in [NodeHealthEvaluator::check]. *)
Inductive CheckPoint :=
| ReadCurrent
| Observing (current : Url)
| Switching (current selected : Url)
| ReadAfter
| Completing (url : option Url).

(** Where the task is in [ChainMonitor::run] and [RequestFailureSignal::wait]. *)
Inductive ProgramPoint :=
| Sleeping
| Checking (source : MonitorCycleSource) (point : CheckPoint)
| Selecting
| Polling
| Parked
| Woken (url : Url).

Definition Nodes : Type := gmap Chains.Chain NodeDomain.

Definition current_url (chain : Chains.Chain) (nodes : Nodes) : option Url := node_url <$> nodes !! chain.

Definition is_current (chain : Chains.Chain) (url : Url) (nodes : Nodes) : bool :=
  bool_decide (current_url chain nodes = Some url).

(** The critical section of [switch_if_current]. *)
Definition switch_if_current (config : ChainConfig) (expected selected : Url) (nodes : Nodes) : bool * Nodes :=
  match nodes !! chain config with
  | None => (false, nodes)
  | Some active_node =>
      if bool_decide (node_url active_node <> expected) || bool_decide (node_url active_node = selected)
      then (false, nodes)
      else (true, <[chain config := MkNode selected config]> nodes)
  end.

(** What [check] does with the observations: the next point. *)
Definition after_observations (current : Url) (threshold : option Z) (observations : list NodeStatusObservation)
  : CheckPoint :=
  match find (fun o => bool_decide (obs_url o = current)) observations with
  | None => ReadAfter
  | Some _ =>
      match select_node current observations threshold with
      | Some switch => Switching current (obs_url (observation switch))
      | None => ReadAfter
      end
  end.

Section monitor.
Context `{Notify} (config : ChainConfig) (trigger : TriggerConfig.FailureTriggerConfig).
Context (latency_threshold : option Z).

Record World := MkWorld {
  nodes : Nodes;
  signal : RequestFailureState;
  notifier : notify;
  (** the requests that left the critical section of [report] and have yet to call [notify_one] *)
  in_flight : nat;
  clock : Z;
  point : ProgramPoint
}.

Definition at_point (w : World) (p : ProgramPoint) : World :=
  MkWorld (nodes w) (signal w) (notifier w) (in_flight w) (clock w) p.

Inductive Label := ByMonitor | ByTimer | ByRequest | ByNotify | ByOther.

(** One step of the monitor's task. *)
Inductive monitor_step (w : World) : World -> Prop :=
| step_start : point w = Sleeping -> monitor_step w (at_point w (Checking Scheduled ReadCurrent))
| step_missing source : point w = Checking source ReadCurrent -> nodes w !! chain config = None ->
    monitor_step w (at_point w Selecting)
| step_read source node : point w = Checking source ReadCurrent -> nodes w !! chain config = Some node ->
    monitor_step w (at_point w (Checking source (Observing (node_url node))))
| step_observe source current (observe : nat -> Url -> NodeStatusObservation) :
    point w = Checking source (Observing current) ->
    (forall k url, obs_url (observe k url) = url) ->
    monitor_step w (at_point w (Checking source (after_observations current latency_threshold
      (observe_nodes observe latency_threshold (urls config) current))))
| step_switch source current selected : point w = Checking source (Switching current selected) ->
    monitor_step w (MkWorld (snd (switch_if_current config current selected (nodes w))) (signal w)
      (notifier w) (in_flight w) (clock w) (Checking source ReadAfter))
| step_read_after source : point w = Checking source ReadAfter ->
    monitor_step w (at_point w (Checking source (Completing (current_url (chain config) (nodes w)))))
| step_complete source url : point w = Checking source (Completing (Some url)) ->
    monitor_step w (MkWorld (nodes w) (check_completed url (signal w)) (notifier w) (in_flight w) (clock w)
      Selecting)
| step_complete_none source : point w = Checking source (Completing None) ->
    monitor_step w (at_point w Selecting)
| step_take url signal' : point w = Selecting -> take_pending (signal w) = (Some url, signal') ->
    monitor_step w (MkWorld (nodes w) signal' (notifier w) (in_flight w) (clock w) (Woken url))
| step_nothing signal' : point w = Selecting -> take_pending (signal w) = (None, signal') ->
    monitor_step w (MkWorld (nodes w) signal' (notifier w) (in_flight w) (clock w) Polling)
| step_poll ready notifier' : point w = Polling \/ point w = Parked -> poll (notifier w) = (ready, notifier') ->
    monitor_step w (MkWorld (nodes w) (signal w) notifier' (in_flight w) (clock w)
      (if ready then Selecting else Parked))
| step_woken url : point w = Woken url ->
    monitor_step w (at_point w
      (if is_current (chain config) url (nodes w) then Checking FailureTrigger ReadCurrent else Selecting)).

Inductive step : Label -> World -> World -> Prop :=
| by_monitor w w' : monitor_step w w' -> step ByMonitor w w'
(** [select!] takes the branch of the timer and drops the future of [wait]. *)
| by_timer_selecting w : point w = Selecting ->
    step ByTimer w (at_point w (Checking Scheduled ReadCurrent))
| by_timer_parked w : point w = Parked ->
    step ByTimer w (MkWorld (nodes w) (signal w) (drop_waiter (notifier w)) (in_flight w) (clock w)
      (Checking Scheduled ReadCurrent))
(** A request reports its outcome. *)
| by_request w url failed now should_notify signal' : clock w <= now ->
    report trigger url failed now (signal w) = (should_notify, signal') ->
    step ByRequest w (MkWorld (nodes w) signal' (notifier w)
      (if should_notify then S (in_flight w) else in_flight w) now (point w))
| by_notify w n : in_flight w = S n ->
    step ByNotify w (MkWorld (nodes w) (signal w) (notify_one (notifier w)) n (clock w) (point w))
(** The monitor of another chain switches its node. *)
| by_other w other node : other <> chain config ->
    step ByOther w (MkWorld (<[other := node]> (nodes w)) (signal w) (notifier w) (in_flight w) (clock w) (point w)).

(** [NodeService::new] puts the first URL of a chain in the table, and [NodeMonitor::new] in the signal. *)
Definition initial (first : Url) (nodes : Nodes) (w : World) : Prop :=
  head (urls config) = Some first /\ nodes !! chain config = Some (MkNode first config)
  /\ w = MkWorld nodes (new first) notify_new 0 (clock w) Sleeping.

Inductive reachable : World -> Prop :=
| reach_initial first nodes w : initial first nodes w -> reachable w
| reach_step label w w' : reachable w -> step label w w' -> reachable w'.

End monitor.
End Monitor.

(** ** [worker.rs] *)

Module Worker.

(** A [ChainMonitor] before it is started. *)
Record ChainMonitor := MkMonitor {
  chain_config : ChainConfig;
  latency_threshold : option Z;
  monitor_interval : Z;
  initial_delay : Z;
  monitor_signal : Signal.RequestFailureState
}.

Definition NANOS_PER_MILLI : Z := 10 ^ 6.

Fixpoint monitors_loop (monitoring_config : NodeMonitoringConfig) (index : Z) (chains : list ChainConfig)
  : list ChainMonitor :=
  match chains with
  | [] => []
  | config :: chains =>
      let rest := monitors_loop monitoring_config (index + 1) chains in
      match urls config with
      | url :: _ :: _ =>
          MkMonitor config (monitoring_latency config monitoring_config)
            (monitoring_interval config monitoring_config)
            (as_u64 (as_u64 (index + 1) * 250) * NANOS_PER_MILLI) (Signal.new url) :: rest
      | _ => rest
      end
  end.

(** [NodeMonitor::new]: the monitors, and the signals by chain. *)
Definition new (chains : list ChainConfig) (monitoring_config : NodeMonitoringConfig)
  : list ChainMonitor * gmap Chains.Chain Signal.RequestFailureState :=
  if negb (enabled monitoring_config) then ([], ∅)
  else
    let monitors := monitors_loop monitoring_config 0 chains in
    (monitors, foldl (fun signals m => <[chain (chain_config m) := monitor_signal m]> signals) ∅ monitors).

(** [NodeMonitor::report], on the signals' states *)
Definition report (trigger : TriggerConfig.FailureTriggerConfig) (now : Z) (chain : Chains.Chain) (url : Url)
  (failed : bool) (signals : gmap Chains.Chain Signal.RequestFailureState)
  : gmap Chains.Chain Signal.RequestFailureState :=
  match signals !! chain with
  | Some signal => <[chain := snd (Signal.report trigger url failed now signal)]> signals
  | None => signals
  end.

End Worker.

(** ** Properties *)

Module MonitorFacts.
Import Observation Selection Evaluator Signal Monitor.

Section facts.
Context `{N : Notify} (L : NotifyLaws).
Context (config : ChainConfig) (trigger : TriggerConfig.FailureTriggerConfig) (latency_threshold : option Z).

Notation monitor_step := (monitor_step config latency_threshold).
Notation step := (step config trigger latency_threshold).
Notation reachable := (reachable config trigger latency_threshold).

(** *** What a check may switch to *)

Lemma probe_loop_urls (observe : nat -> Url -> NodeStatusObservation) threshold us indices :
  (forall k url, obs_url (observe k url) = url) -> forall k l (P : Url -> Prop),
  Forall P us -> Forall (fun o => match o with Some o => P (obs_url o) | None => True end) l ->
  Forall (fun o => match o with Some o => P (obs_url o) | None => True end)
    (probe_loop observe threshold us k indices l).
Proof.
  intros Hurl. induction indices as [|i indices IH]; intros k l P U F; [done|]. cbn [probe_loop].
  destruct (us !! i) as [u|] eqn:E; [|done].
  assert (F' : Forall (fun o => match o with Some o => P (obs_url o) | None => True end)
    (<[i := Some (observe k u)]> l)).
  { apply Forall_insert; [done|]. rewrite Hurl. by eapply Forall_lookup_1 in E. }
  destruct (is_usable threshold (observe k u)); [done|by apply IH].
Qed.

Lemma observe_nodes_urls (observe : nat -> Url -> NodeStatusObservation) threshold us current :
  (forall k url, obs_url (observe k url) = url) ->
  Forall (fun o => obs_url o = current \/ obs_url o ∈ us) (observe_nodes observe threshold us current).
Proof.
  intros Hurl. unfold observe_nodes.
  assert (C : Forall (fun o => obs_url o = current \/ obs_url o ∈ us) [observe 0%nat current])
    by (apply Forall_singleton; left; apply Hurl).
  destruct (fst <$> _) as [ci|]; [|done]. destruct (_ && _); [done|].
  assert (P : Forall (fun o => match o with Some o => obs_url o = current \/ obs_url o ∈ us | None => True end)
    (probe_loop observe threshold us 1 (probe_indices (length us) ci (is_usable threshold (observe 0%nat current)))
       (<[ci := Some (observe 0%nat current)]> (replicate (length us) None)))).
  { apply (probe_loop_urls observe threshold us _ Hurl) with (P := fun u => u = current \/ u ∈ us).
    - apply Forall_forall. auto.
    - apply Forall_insert; [by apply Forall_replicate|]. left. apply Hurl. }
  revert P. generalize (probe_loop observe threshold us 1
    (probe_indices (length us) ci (is_usable threshold (observe 0%nat current)))
    (<[ci := Some (observe 0%nat current)]> (replicate (length us) None))).
  intros l P. induction P as [|[o|] l Ho _ IH]; [constructor| |done].
  change (Forall (fun o => obs_url o = current \/ obs_url o ∈ us) (o :: omap (fun o => o) l)). by constructor.
Qed.

(** The point after the observations: done, or switching to another configured node. *)
Lemma after_observations_spec observe current :
  (forall k url, obs_url (observe k url) = url) ->
  let p := after_observations current latency_threshold
    (observe_nodes observe latency_threshold (urls config) current) in
  p = ReadAfter \/ exists selected, p = Switching current selected /\ selected ∈ urls config /\ selected <> current.
Proof.
  intros Hurl p. unfold p, after_observations.
  destruct (find _ _); [|auto]. unfold select_node.
  destruct (list_find _ _) as [[i c]|]; [|auto].
  destruct (find _ _) as [o|] eqn:F; [|auto]. right. exists (obs_url o). split; [done|].
  apply find_some in F as [I C]. apply andb_prop in C as [C _].
  apply negb_true_iff, bool_decide_eq_false in C. split; [|done].
  assert (I' : In o (observe_nodes observe latency_threshold (urls config) current)).
  { destruct (is_usable _ c); [|done]. apply list_elem_of_In in I. apply list_elem_of_In.
    apply elem_of_take in I as (k & I & _). by apply list_elem_of_lookup_2 in I. }
  pose proof (observe_nodes_urls observe latency_threshold (urls config) current Hurl) as P.
  apply list_elem_of_In in I'. eapply Forall_forall in P; [|exact I']. destruct P; [contradiction|done].
Qed.

(** *** The invariant *)

(** The node of the table is configured, and wherever the monitor is not in the middle of a switch, it is
    the node whose failures are counted; and a failure that is pending while the monitor is about to wait or
    waits is going to wake it. *)
Definition tracks (w : World) (node : NodeDomain) : Prop :=
  match point w with
  | Checking _ (Observing current) => current = node_url node /\ active_url (signal w) = node_url node
  | Checking _ (Switching current selected) =>
      current = node_url node /\ selected ∈ urls config /\ selected <> current
      /\ active_url (signal w) = node_url node
  | Checking _ ReadAfter => True
  | Checking _ (Completing url) => url = Some (node_url node)
  | Woken url => url = node_url node /\ active_url (signal w) = node_url node
  | Sleeping | Checking _ ReadCurrent | Selecting | Polling | Parked => active_url (signal w) = node_url node
  end.

Definition wakes (w : World) : Prop :=
  match point w with
  | Polling | Parked => pending (signal w) = true -> (0 < in_flight w)%nat \/ fst (poll (notifier w)) = true
  | _ => True
  end.

Definition Inv (w : World) : Prop :=
  (exists node, nodes w !! chain config = Some node /\ node_url node ∈ urls config /\ tracks w node) /\ wakes w.

Lemma report_active url failed now s : active_url (snd (report trigger url failed now s)) = active_url s.
Proof.
  unfold report. destruct (negb _); [done|]. by destruct (FailureTracker.record _ _ _ _) as [[] ?].
Qed.

Lemma report_pending url failed now s :
  (pending (snd (report trigger url failed now s)) = true -> pending s = true \/ fst (report trigger url failed now s) = true)
  /\ (pending s = true -> pending (snd (report trigger url failed now s)) = true).
Proof.
  unfold report. destruct (negb _); [cbn; auto|]. destruct (FailureTracker.record _ _ _ _) as [[] ?]; cbn; auto.
Qed.

Lemma check_completed_active url s :
  active_url (check_completed url s) = url /\ pending (check_completed url s) = false.
Proof.
  unfold check_completed. destruct (bool_decide _) eqn:E; cbn; [|done].
  by apply bool_decide_eq_true in E.
Qed.

Lemma switch_succeeds current selected (ns : Nodes) node :
  ns !! chain config = Some node -> node_url node = current -> selected <> current ->
  switch_if_current config current selected ns
  = (true, <[chain config := MkNode selected config]> ns).
Proof.
  intros E C D. unfold switch_if_current. rewrite E, C.
  by rewrite (bool_decide_eq_false_2 (current <> current)), bool_decide_eq_false_2 by auto.
Qed.

Lemma Inv_initial first ns w : initial config first ns w -> Inv w.
Proof.
  intros (F & E & ->). split; [|done]. exists (MkNode first config). cbn. split; [done|]. split; [|done].
  destruct (urls config); [done|]. injection F as ->. apply list_elem_of_here.
Qed.

Lemma Inv_monitor w w' : Inv w -> monitor_step w w' -> Inv w'.
Proof using N.
  intros [(node & E & U & T) W] S. unfold tracks in T. unfold wakes in W.
  destruct S as [P|source P M|source node' P M|source current observe P Hurl|source current selected P
    |source P|source url P|source P|url s' P K|s' P K|ready n' P K|url P].
  all: try (rewrite P in T, W).
  - split; [|done]. by exists node.
  - congruence.
  - rewrite E in M. injection M as <-. split; [|done]. exists node. by rewrite <- E.
  - split; [|done]. exists node. split; [done|]. split; [done|]. destruct T as [-> A].
    destruct (after_observations_spec observe (node_url node) Hurl) as [->|(selected & -> & I & D)]; by unfold tracks.
  - destruct T as (-> & I & D & A). rewrite (switch_succeeds _ _ _ node) by done. split; [|done].
    exists (MkNode selected config). split; [apply lookup_insert_eq|done].
  - split; [|done]. exists node. split; [done|]. split; [done|]. cbn. unfold current_url. by rewrite E.
  - split; [|done]. exists node. split; [done|]. split; [done|]. injection T as ->.
    apply (check_completed_active (node_url node) (signal w)).
  - done.
  - split; [|done]. exists node. split; [done|]. split; [done|]. unfold take_pending in K.
    destruct (pending (signal w)); [|done]. injection K as <- <-. cbn. by rewrite T.
  - unfold take_pending in K. destruct (pending (signal w)) eqn:Q; [done|]. injection K as <-.
    split; [by exists node|]. intros Q'. cbn in Q'. congruence.
  - split.
    + exists node. split; [done|]. split; [done|]. destruct P as [P|P]; rewrite P in T; by destruct ready.
    + destruct ready; [done|]. intros Q. cbn in *. left.
      destruct P as [P|P]; rewrite P in W; destruct (W Q) as [?|R]; try done; by rewrite K in R.
  - destruct T as [-> A]. unfold is_current, current_url. rewrite E, bool_decide_eq_true_2 by done.
    split; [|done]. by exists node.
Qed.

Lemma Inv_step label w w' : Inv w -> step label w w' -> Inv w'.
Proof using L.
  intros I S. destruct S as [w w' S|w P|w P|w url failed now notify s' C R|w n F|w other node D].
  { by eapply Inv_monitor. }
  all: destruct I as [(node' & E & U & T) W]; unfold tracks in T; unfold wakes in W.
  1,2: rewrite P in T; split; [|done]; by exists node'.
  - assert (A : active_url s' = active_url (signal w))
      by (pose proof (report_active url failed now (signal w)) as A; by rewrite R in A).
    split.
    + exists node'. split; [done|]. split; [done|]. unfold tracks. cbn. by rewrite A.
    + pose proof (proj1 (report_pending url failed now (signal w))) as Q. rewrite R in Q. cbn in Q.
      unfold wakes. cbn. destruct (point w); try done.
      all: intros Q'; destruct (Q Q') as [Q''| ->]; [|left; lia];
        destruct (W Q''); [left; destruct notify; lia|by right].
  - split; [by exists node'|]. unfold wakes. cbn. destruct (point w); try done.
    all: intros _; right; apply (poll_notified L).
  - split; [|done]. exists node'. split; [|done]. etransitivity; [by apply lookup_insert_ne|done].
Qed.

Lemma reachable_Inv w : reachable w -> Inv w.
Proof using L. induction 1; [by eapply Inv_initial|by eapply Inv_step]. Qed.

(** (C21) The monitor and the table of nodes agree.  In every reachable state, whatever the interleaving of
    requests, notifications, checks and other chains: the node of the chain is a configured one; outside of a
    check, and in a check until it switches, the URL whose failures are counted is that of this node; the URL
    that a failure wakes the monitor with is still current, so that a check follows; and a switch is always
    to another configured node and never finds that the node has changed in the meantime. *)
Theorem monitor_tracks_current (w : World) : reachable w ->
  exists node, nodes w !! chain config = Some node /\ node_url node ∈ urls config
  /\ match point w with
     | Checking _ (Switching current selected) =>
         selected ∈ urls config /\ switch_if_current config current selected (nodes w)
           = (true, <[chain config := MkNode selected config]> (nodes w))
     | Checking _ ReadAfter => True
     | Checking _ (Completing url) => url = Some (node_url node)
     | Woken url => active_url (signal w) = node_url node /\ is_current (chain config) url (nodes w) = true
     | _ => active_url (signal w) = node_url node
     end.
Proof using L.
  intros R. destruct (reachable_Inv w R) as [(node & E & U & T) _]. exists node. split; [done|]. split; [done|].
  unfold tracks in T. destruct (point w) as [|source []| | | |]; try tauto.
  - destruct T as (T & I & D & A). split; [done|]. by eapply switch_succeeds.
  - destruct T as [-> A]. split; [done|]. unfold is_current, current_url. by rewrite E, bool_decide_eq_true_2.
Qed.

(** *** Liveness *)

Definition monitor_label (label : Label) : bool :=
  match label with ByMonitor | ByTimer => true | _ => false end.

(** Infinite runs of the program that are fair: a request that left its critical section eventually calls
    [notify_one]; and the executor polls the monitor's task again and again, except when the task waits and
    has not been notified. *)
Record fair_run (run : nat -> World) (label : nat -> Label) : Prop := {
  run_initial : exists first ns, initial config first ns (run 0%nat);
  run_steps : forall i, step (label i) (run i) (run (S i));
  notify_fair : forall i, (0 < in_flight (run i))%nat -> exists j, (i <= j)%nat /\ label j = ByNotify;
  monitor_fair : forall i, exists j, (i <= j)%nat /\
    (monitor_label (label j) = true \/ (point (run j) = Parked /\ fst (poll (notifier (run j))) = false))
}.

Lemma monitor_or_timer l w w' : monitor_label l = true -> step l w w' ->
  (l = ByMonitor /\ monitor_step w w')
  \/ ((point w = Selecting \/ point w = Parked) /\ point w' = Checking Scheduled ReadCurrent).
Proof using Type. intros M S. destruct S; try discriminate M; auto. Qed.

Lemma step_from_sleeping w w' : point w = Sleeping -> monitor_step w w' ->
  point w' = Checking Scheduled ReadCurrent.
Proof using Type.
  intros P S. destruct S as [Q|source' Q M|source' node' Q M|source' current observe Q Hurl|source' current selected Q
    |source' Q|source' url Q|source' Q|url s' Q K|s' Q K|ready n' Q K|url Q];
    first [destruct Q as [Q|Q]; congruence | rewrite P in Q; try discriminate Q]. done.
Qed.

Lemma step_from_woken w w' url : Inv w -> point w = Woken url -> monitor_step w w' ->
  point w' = Checking FailureTrigger ReadCurrent.
Proof using Type.
  intros [(node & E & U & T) _] P S. unfold tracks in T. rewrite P in T. destruct T as [-> _].
  destruct S as [Q|source' Q M|source' node' Q M|source' current observe Q Hurl|source' current selected Q
    |source' Q|source' url Q|source' Q|url s' Q K|s' Q K|ready n' Q K|url Q];
    first [destruct Q as [Q|Q]; congruence | rewrite P in Q; try discriminate Q].
  injection Q as <-. cbn. unfold is_current, current_url. by rewrite E, bool_decide_eq_true_2.
Qed.

Lemma step_from_selecting w w' : point w = Selecting -> pending (signal w) = true -> monitor_step w w' ->
  exists url, point w' = Woken url.
Proof using Type.
  intros P D S. destruct S as [Q|source' Q M|source' node' Q M|source' current observe Q Hurl|source' current selected Q
    |source' Q|source' url Q|source' Q|url s' Q K|s' Q K|ready n' Q K|url Q];
    first [destruct Q as [Q|Q]; congruence | rewrite P in Q; try discriminate Q]; [by exists url|].
  unfold take_pending in K. rewrite D in K. discriminate K.
Qed.

Lemma step_from_poll w w' : point w = Polling \/ point w = Parked -> monitor_step w w' ->
  signal w' = signal w /\ in_flight w' = in_flight w
  /\ (point w' = Selecting \/ (point w' = Parked /\ fst (poll (notifier w)) = false)).
Proof using Type.
  intros P S. destruct S as [Q|source' Q M|source' node' Q M|source' current observe Q Hurl|source' current selected Q
    |source' Q|source' url Q|source' Q|url s' Q K|s' Q K|ready n' Q K|url Q];
    try (rewrite Q in P; by destruct P). rewrite K. by destruct ready; auto.
Qed.

Section run.
Context (run : nat -> World) (label : nat -> Label) (F : fair_run run label).

Lemma run_reachable i : reachable (run i).
Proof using F.
  induction i as [|i IH]; [|eapply reach_step; [exact IH|apply F]].
  destruct (run_initial _ _ F) as (first & ns & I). by eapply reach_initial.
Qed.

Lemma run_inv i : Inv (run i).
Proof using F L. apply reachable_Inv, run_reachable. Qed.

(** The other tasks do not move the monitor, and do not take a pending failure or a notification away. *)
Lemma others_step i : monitor_label (label i) = false ->
  point (run (S i)) = point (run i)
  /\ (pending (signal (run i)) = true -> pending (signal (run (S i))) = true)
  /\ (fst (poll (notifier (run i))) = true -> fst (poll (notifier (run (S i)))) = true)
  /\ (label i = ByNotify -> fst (poll (notifier (run (S i)))) = true).
Proof using F L.
  intros M. pose proof (run_steps _ _ F i) as S. revert M S. generalize (label i), (run i), (run (S i)).
  intros l w w' M S. destruct S as [w w' S|w P|w P|w url failed now should s' C R|w n Fl|w other node D];
    try discriminate M; cbn [point signal notifier].
  - split; [done|]. split; [|done]. intros Q.
    pose proof (proj2 (report_pending url failed now (signal w)) Q) as P. by rewrite R in P.
  - split; [done|]. split; [done|]. split; intros _; apply (poll_notified L).
  - done.
Qed.

(** A task that is not parked takes its next step where it is. *)
Lemma next_step i : point (run i) <> Parked -> exists j, (i <= j)%nat /\ monitor_label (label j) = true
  /\ point (run j) = point (run i) /\ (pending (signal (run i)) = true -> pending (signal (run j)) = true).
Proof using F L.
  intros P. destruct (monitor_fair _ _ F i) as (k & K & E).
  remember (k - i)%nat as d eqn:D. revert i P K D. induction d as [|d IH]; intros i P K D.
  - assert (k = i) as -> by lia. exists i. destruct E as [E|[E _]]; [auto|contradiction].
  - destruct (monitor_label (label i)) eqn:M; [by exists i; auto|].
    destruct (others_step i M) as (S1 & S2 & _). rewrite <- S1 in P.
    destruct (IH (S i) P) as (j & J & M' & P' & Q); [lia|lia|].
    exists j. rewrite <- S1. split; [lia|]. auto.
Qed.

(** A notified task that is parked takes its next step. *)
Lemma next_step_notified i : point (run i) = Parked -> fst (poll (notifier (run i))) = true ->
  exists j, (i <= j)%nat /\ monitor_label (label j) = true /\ point (run j) = Parked
  /\ fst (poll (notifier (run j))) = true /\ (pending (signal (run i)) = true -> pending (signal (run j)) = true).
Proof using F L.
  intros P R. destruct (monitor_fair _ _ F i) as (k & K & E).
  remember (k - i)%nat as d eqn:D. revert i P R K D. induction d as [|d IH]; intros i P R K D.
  - assert (k = i) as -> by lia. exists i. destruct E as [E|[_ E]]; [auto|congruence].
  - destruct (monitor_label (label i)) eqn:M; [by exists i; auto|].
    destruct (others_step i M) as (S1 & S2 & S3 & _). rewrite <- S1 in P.
    destruct (IH (S i) P (S3 R)) as (j & J & M' & P' & R' & Q); [lia|lia|]. exists j.
    split; [lia|]. split_and!; auto.
Qed.

(** A check completes after [i]. *)
Definition completes (i : nat) : Prop := exists j source url, (i <= j)%nat
  /\ label j = ByMonitor /\ point (run j) = Checking source (Completing (Some url))
  /\ pending (signal (run (S j))) = false.

Lemma completes_later i j : (i <= j)%nat -> completes j -> completes i.
Proof using Type. intros H (k & source & url & K & R). exists k, source, url. split; [lia|done]. Qed.

Definition rank (p : CheckPoint) : nat :=
  match p with ReadCurrent => 4 | Observing _ => 3 | Switching _ _ => 2 | ReadAfter => 1 | Completing _ => 0 end.

Lemma check_step w w' source p : Inv w -> point w = Checking source p -> monitor_step w w' ->
  match p with
  | Completing url => exists u, url = Some u /\ pending (signal w') = false
  | _ => exists p', point w' = Checking source p' /\ (rank p' < rank p)%nat
  end.
Proof using Type.
  intros [(node & E & U & T) _] P S. unfold tracks in T. rewrite P in T.
  destruct S as [Q|source' Q M|source' node' Q M|source' current observe Q Hurl|source' current selected Q
    |source' Q|source' url Q|source' Q|url s' Q K|s' Q K|ready n' Q K|url Q]; try (rewrite P in Q; try discriminate Q).
  all: try (injection Q as ->; subst p).
  - congruence.
  - eexists. split; [done|]. cbn. lia.
  - eexists. split; [done|].
    destruct (after_observations_spec observe current Hurl) as [->|(selected & -> & _)]; cbn; lia.
  - eexists. split; [done|]. cbn. lia.
  - eexists. split; [done|]. cbn. lia.
  - exists url. split; [done|]. apply (check_completed_active url (signal w)).
  - done.
  - by destruct Q.
Qed.

Lemma checking_completes i source p : point (run i) = Checking source p -> completes i.
Proof using F L.
  remember (rank p) as r eqn:Hr. revert i p Hr. induction r as [r IH] using lt_wf_ind. intros i p -> P.
  destruct (next_step i) as (j & J & M & Pj & _); [by rewrite P|]. rewrite P in Pj.
  pose proof (run_inv j) as I.
  destruct (monitor_or_timer _ _ _ M (run_steps _ _ F j)) as [[Lj S']|[[Q|Q] _]]; [|congruence..].
  pose proof (check_step _ _ source p I Pj S') as C.
  destruct p; try (destruct C as (p' & P' & R); apply (completes_later i (S j)); [lia|];
    by apply (IH (rank p') R (S j) p')).
  destruct C as (u & -> & D). exists j, source, u. split; [done|]. split; [done|]. by split.
Qed.

Lemma woken_completes i url : point (run i) = Woken url -> completes i.
Proof using F L.
  intros P. destruct (next_step i) as (j & J & M & Pj & _); [by rewrite P|]. rewrite P in Pj.
  apply (completes_later i (S j)); [lia|].
  destruct (monitor_or_timer _ _ _ M (run_steps _ _ F j)) as [[_ S]|[[Q|Q] _]]; [|congruence..].
  eapply checking_completes. by eapply step_from_woken; [apply run_inv| |].
Qed.

Lemma selecting_completes i : point (run i) = Selecting -> pending (signal (run i)) = true -> completes i.
Proof using F L.
  intros P D. destruct (next_step i) as (j & J & M & Pj & Dj); [by rewrite P|]. rewrite P in Pj.
  apply (completes_later i (S j)); [lia|].
  destruct (monitor_or_timer _ _ _ M (run_steps _ _ F j)) as [[_ S]|[_ Q]]; [|by eapply checking_completes].
  destruct (step_from_selecting _ _ Pj (Dj D) S) as [url W]. by eapply woken_completes.
Qed.

(** A parked task with a pending failure is notified, or leaves before. *)
Lemma parked_completes i : point (run i) = Parked -> pending (signal (run i)) = true -> completes i.
Proof using F L.
  assert (R : forall i, point (run i) = Parked -> pending (signal (run i)) = true ->
    fst (poll (notifier (run i))) = true -> completes i).
  { clear i. intros i P D N'. destruct (next_step_notified i P N') as (j & J & M & Pj & Nj & Dj).
    apply (completes_later i (S j)); [lia|].
    destruct (monitor_or_timer _ _ _ M (run_steps _ _ F j)) as [[_ S]|[_ Q]]; [|by eapply checking_completes].
    destruct (step_from_poll _ _ (or_intror Pj) S) as (Es & _ & [Q|[_ Q]]); [|congruence].
    apply selecting_completes; [done|]. rewrite Es. auto. }
  intros P D. destruct (run_inv i) as [_ W]. unfold wakes in W. rewrite P in W.
  destruct (W D) as [Fl|]; [|by apply R]. destruct (notify_fair _ _ F i Fl) as (k & K & E). clear W Fl.
  remember (k - i)%nat as d eqn:Hd. revert i P D K Hd. induction d as [|d IH]; intros i P D K Hd.
  - assert (k = i) as -> by lia. assert (M : monitor_label (label i) = false) by by rewrite E.
    destruct (others_step i M) as (S1 & S2 & _ & S4). apply (completes_later i (S i)); [lia|].
    apply R; [congruence|auto|auto].
  - apply (completes_later i (S i)); [lia|]. destruct (monitor_label (label i)) eqn:M.
    + destruct (monitor_or_timer _ _ _ M (run_steps _ _ F i)) as [[_ S]|[_ Q]]; [|by eapply checking_completes].
      destruct (step_from_poll _ _ (or_intror P) S) as (Es & _ & [Q|[Q _]]); rewrite <- Es in D.
      * by apply selecting_completes.
      * apply IH; (done || lia).
    + destruct (others_step i M) as (S1 & S2 & _). apply IH; [congruence|auto|lia|lia].
Qed.

Lemma polling_completes i : point (run i) = Polling -> pending (signal (run i)) = true -> completes i.
Proof using F L.
  intros P D. destruct (next_step i) as (j & J & M & Pj & Dj); [by rewrite P|]. rewrite P in Pj.
  apply (completes_later i (S j)); [lia|].
  destruct (monitor_or_timer _ _ _ M (run_steps _ _ F j)) as [[_ S]|[_ Q]]; [|by eapply checking_completes].
  destruct (step_from_poll _ _ (or_introl Pj) S) as (Es & _ & [Q|[Q _]]);
    [apply selecting_completes|apply parked_completes]; rewrite ?Es; auto.
Qed.

Lemma sleeping_completes i : point (run i) = Sleeping -> completes i.
Proof using F L.
  intros P. destruct (next_step i) as (j & J & M & Pj & _); [by rewrite P|]. rewrite P in Pj.
  apply (completes_later i (S j)); [lia|].
  destruct (monitor_or_timer _ _ _ M (run_steps _ _ F j)) as [[_ S]|[[Q|Q] _]]; [|congruence..].
  eapply checking_completes. by eapply step_from_sleeping.
Qed.

End run.

(** (C22) A reported failure is checked.  In every fair run, whenever a trigger is pending, a check of the
    chain's nodes completes at that time or later, and leaves nothing pending: the notification cannot be lost,
    however the report, the poll of the waiting task, the timer and the checks interleave. *)
Theorem failure_is_checked (run : nat -> World) (label : nat -> Label) (i : nat) :
  fair_run run label -> pending (signal (run i)) = true ->
  exists j source url, (i <= j)%nat /\ label j = ByMonitor
    /\ point (run j) = Checking source (Completing (Some url)) /\ pending (signal (run (S j))) = false.
Proof using L.
  intros F D. change (completes run label i). destruct (point (run i)) as [|source p| | | |url] eqn:P.
  - by eapply sleeping_completes.
  - by eapply checking_completes.
  - by eapply selecting_completes.
  - by eapply polling_completes.
  - by eapply parked_completes.
  - by eapply woken_completes.
Qed.

End facts.

End MonitorFacts.

(** *** Witnesses: a permit as a boolean, two nodes, and one failed request *)

Module MonitorConcrete.
Import Observation Selection Evaluator Signal Monitor MonitorFacts.

#[local] Instance permit : Notify :=
  {| notify := bool; notify_new := false; notify_one := fun _ => true; poll := fun n => (n, false);
     drop_waiter := fun n => n |}.

Lemma permit_laws : NotifyLaws.
Proof. by constructor. Qed.

Definition first : Url := MkUrl "https://first" None.
Definition fallback : Url := MkUrl "https://fallback" None.
Definition config : ChainConfig := MkChainConfig Chains.Bitcoin None None None None [first; fallback].
Definition trigger : TriggerConfig.FailureTriggerConfig := TriggerConfig.MkTrigger 1 100 60 None.
Definition healthy (k : nat) (url : Url) : NodeStatusObservation := Observation.new url (Healthy (MkSync true None None)) 5.

Definition table : Nodes := {[Chains.Bitcoin := MkNode first config]}.
Definition idle : RequestFailureState := Signal.new first.
Definition failing : RequestFailureState := snd (report trigger first true 0 idle).
Definition checked : RequestFailureState := check_completed first failing.

(** A request fails before the first check; the check runs; then the monitor waits, while a request to
    another node is reported again and again. *)
Definition prefix : list (Label * World) := [
  (ByRequest, MkWorld table idle false 0 0 Sleeping);
  (ByNotify, MkWorld table failing false 1 0 Sleeping);
  (ByMonitor, MkWorld table failing true 0 0 Sleeping);
  (ByMonitor, MkWorld table failing true 0 0 (Checking Scheduled ReadCurrent));
  (ByMonitor, MkWorld table failing true 0 0 (Checking Scheduled (Observing first)));
  (ByMonitor, MkWorld table failing true 0 0 (Checking Scheduled ReadAfter));
  (ByMonitor, MkWorld table failing true 0 0 (Checking Scheduled (Completing (Some first))));
  (ByMonitor, MkWorld table checked true 0 0 Selecting);
  (ByMonitor, MkWorld table checked true 0 0 Polling);
  (ByMonitor, MkWorld table checked false 0 0 Selecting);
  (ByMonitor, MkWorld table checked false 0 0 Polling)].

Definition parked : Label * World := (ByRequest, MkWorld table checked false 0 0 Parked).

Definition label (i : nat) : Label := fst (nth i prefix parked).
Definition run (i : nat) : World := snd (nth i prefix parked).

Lemma run_step i : step config trigger None (label i) (run i) (run (S i)).
Proof.
  destruct i as [|[|[|[|[|[|[|[|[|[|[|i]]]]]]]]]]].
  - exact (by_request config trigger None (MkWorld table idle false 0 0 Sleeping) first true 0 true failing (Z.le_refl _) eq_refl).
  - exact (by_notify config trigger None (MkWorld table failing false 1 0 Sleeping) 0 eq_refl).
  - apply by_monitor. exact (step_start _ _ (MkWorld table failing true 0 0 Sleeping) eq_refl).
  - apply by_monitor.
    exact (step_read config _ (MkWorld table failing true 0 0 (Checking Scheduled ReadCurrent)) Scheduled
      (MkNode first config) eq_refl eq_refl).
  - apply by_monitor.
    exact (step_observe config None (MkWorld table failing true 0 0 (Checking Scheduled (Observing first)))
      Scheduled first healthy eq_refl (fun _ _ => eq_refl)).
  - apply by_monitor.
    exact (step_read_after config _ (MkWorld table failing true 0 0 (Checking Scheduled ReadAfter)) Scheduled eq_refl).
  - apply by_monitor.
    exact (step_complete config _ (MkWorld table failing true 0 0 (Checking Scheduled (Completing (Some first))))
      Scheduled first eq_refl).
  - apply by_monitor. exact (step_nothing config _ (MkWorld table checked true 0 0 Selecting) checked eq_refl eq_refl).
  - apply by_monitor.
    exact (step_poll config _ (MkWorld table checked true 0 0 Polling) true false (or_introl eq_refl) eq_refl).
  - apply by_monitor. exact (step_nothing config _ (MkWorld table checked false 0 0 Selecting) checked eq_refl eq_refl).
  - apply by_monitor.
    exact (step_poll config _ (MkWorld table checked false 0 0 Polling) false false (or_introl eq_refl) eq_refl).
  - unfold label, run. rewrite !nth_overflow by (cbn; lia).
    exact (by_request config trigger None (MkWorld table checked false 0 0 Parked) fallback true 0 false checked (Z.le_refl _) eq_refl).
Qed.

Lemma run_fair : fair_run config trigger None run label.
Proof.
  constructor.
  - by exists first, table.
  - exact run_step.
  - intros i H. exists 1%nat.
    destruct i as [|[|[|[|[|[|[|[|[|[|[|i]]]]]]]]]]]; try (cbn in H; lia); [by split; [lia|]..|].
    unfold run in H. rewrite nth_overflow in H by (cbn; lia). cbn in H. lia.
  - intros i. exists (i + 11)%nat. split; [lia|]. right. unfold run.
    by rewrite nth_overflow by (cbn; lia).
Qed.

Lemma monitor_tracks_current_witness : exists node,
  nodes (run 6) !! Chains.Bitcoin = Some node /\ Some first = Some (node_url node).
Proof.
  assert (R : reachable config trigger None (run 6)) by exact (run_reachable config trigger None run label run_fair 6).
  destruct (monitor_tracks_current permit_laws config trigger None (run 6) R) as (node & E & _ & C).
  exists node. by split.
Defined.

Lemma failure_is_checked_witness : pending (signal (run 1)) = true
  /\ exists j source url, (1 <= j)%nat /\ label j = ByMonitor
    /\ point (run j) = Checking source (Completing (Some url)) /\ pending (signal (run (S j))) = false.
Proof.
  split; [by vm_compute|]. refine (failure_is_checked permit_laws config trigger None run label 1 run_fair _).
  by vm_compute.
Defined.

End MonitorConcrete.
