(* ===== verification/DynodeProxy.v ===== *)
(** * Dynode: retries over the nodes of a chain, and JSON-RPC batches

    Models of [apps/dynode/src]: the order of the nodes and the retries of [node_service.rs] (module
    [NodeService]), and [proxy/jsonrpc.rs] with [proxy/jsonrpc/cache.rs] (module [JsonRpcHandler]).

    What the upstream node answers is a parameter: [upstream index url] for the attempt with that index,
    [fetch calls] for the calls of a batch.  Headers, metrics and logging are left out.  JSON values belong to
    serde_json; [JsonValue] is what the code uses of them, with the laws [JsonValueLaws]. *)
From S2P Require Import Prelude HexText ChainRegistry DynodeTracker DynodeConfig DynodeSelection.
Import NodeConfig.

(** ** [node_service.rs] *)

Module NodeService.
Import JsonRpc Retry.

Inductive NodeServiceError :=
| ChainNotConfigured (chain : Chains.Chain)
| NodeNotFound
| RequestNotAllowed
| UpstreamStatus (status : Z)
| UpstreamsFailed.

Definition error_status (self : NodeServiceError) : Z :=
  match self with
  | RequestNotAllowed => 403
  | ChainNotConfigured _ | NodeNotFound | UpstreamStatus _ | UpstreamsFailed => 500
  end.

Record ProxyResponse := MkResponse { status : Z; body : bytes; from_cache : bool }.

(** [swap(0, index)] *)
Definition swap_first (index : nat) (l : list Url) : list Url :=
  match l !! 0%nat, l !! index with
  | Some first, Some url => <[0%nat := url]> (<[index := first]> l)
  | _, _ => l
  end.

Definition rotate_left (offset : nat) (l : list Url) : list Url := drop offset l ++ take offset l.

(** [hash] is [DefaultHasher] on the id of the request. *)
Definition rotate_fallback_urls (hash : string -> Z) (request_id : string) (urls : list Url) : list Url :=
  match urls with
  | first :: (_ :: _ :: _) as tail =>
      let tail_len := length tail in
      let offset := Z.to_nat (as_u64 (hash request_id) mod Z.of_nat tail_len) in
      first :: (if (0 <? offset)%nat then rotate_left offset tail else tail)
  | _ => urls
  end.

Definition get_ordered_urls (hash : string -> Z) (urls : list Url) (current : Url) (request_id : string) : list Url :=
  let ordered_urls :=
    match fst <$> list_find (fun url => url = current) urls with
    | Some current_index => swap_first current_index urls
    | None => urls
    end in
  rotate_fallback_urls hash request_id ordered_urls.

Definition resolve_request_urls (hash : string -> Z) (chain_config : ChainConfig)
  (nodes : gmap Chains.Chain NodeDomain) (request_id : string) : option (list Url) :=
  match urls chain_config with
  | [] => None
  | [url] => Some [url]
  | _ =>
      let?? current_node := nodes !! chain chain_config in
      Some (get_ordered_urls hash (urls chain_config) (node_url current_node) request_id)
  end.

(** What a request is answered with: the response of a node, an error response the service makes, with the
    body of the failing node, or an error that is passed on. *)
Inductive Reply {Value : Type} :=
| Respond (response : ProxyResponse)
| ErrorResponse (error : NodeServiceError) (data : option Value)
| Failed (error : FailureReason.DynError).
Arguments Reply : clear implicits.

Section service.
Context `{Json}.
(** [serde_json::from_slice] at [Value], and at [JsonRpcErrorResponse], of which the message is used *)
Context (parse_value : bytes -> option Value) (parse_error_message : bytes -> option string).
Context (retry_config : RetryConfig).

Definition matches_response_error_signal (request_type : RequestType) (response : ProxyResponse)
  (matcher : ErrorMatcherConfig) : bool :=
  if matches_status matcher (status response) then true
  else match request_type with
    | JsonRpcReq _ =>
        if status response =? 200 then
          match parse_error_message (body response) with
          | Some message => matches_message matcher message
          | None => false
          end
        else false
    | Regular _ _ _ => false
    end.

Section attempts.
Context (request_type : RequestType) (upstream : nat -> Url -> result FailureReason.DynError ProxyResponse).

(** The loop over the nodes, and the outcomes it reports to the monitor. *)
Fixpoint attempts (index : nat) (urls : list Url) (last_error_data : option Value)
  : Reply Value * list (Url * bool) :=
  match urls with
  | [] => (ErrorResponse UpstreamsFailed last_error_data, [])
  | url :: urls =>
      let report failed := if (index =? 0)%nat then [(url, failed)] else [] in
      match upstream index url with
      | Ok response =>
          let retry_error := matches_response_error_signal request_type response (errors retry_config) in
          let reported := if from_cache response then [] else report retry_error in
          if negb retry_error then (Respond response, reported)
          else
            let upstream_data := parse_value (body response) in
            if negb (retry_enabled retry_config) then
              (ErrorResponse (UpstreamStatus (status response)) upstream_data, reported)
            else
              let '(reply, reports) := attempts (S index) urls upstream_data in (reply, reported ++ reports)
      | Err error =>
          let reported := report true in
          if negb (retry_enabled retry_config) then (Failed error, reported)
          else
            let '(reply, reports) := attempts (S index) urls last_error_data in (reply, reported ++ reports)
      end
  end.

Definition max_attempts_of (urls : list Url) : nat :=
  if retry_enabled retry_config then effective_max_attempts retry_config (length urls) else 1%nat.

Definition handle_request_inner (hash : string -> Z) (chain_types : ChainTypesConfig)
  (chains : gmap Chains.Chain ChainConfig) (nodes : gmap Chains.Chain NodeDomain)
  (chain : Chains.Chain) (request_id : string) : Reply Value * list (Url * bool) :=
  match chains !! chain with
  | None => (ErrorResponse (ChainNotConfigured chain) None, [])
  | Some chain_config =>
      if negb (allows chain_types chain_config request_type) then (ErrorResponse RequestNotAllowed None, [])
      else match resolve_request_urls hash chain_config nodes request_id with
        | None => (ErrorResponse NodeNotFound None, [])
        | Some [url] =>
            (match upstream 0%nat url with Ok response => Respond response | Err error => Failed error end, [])
        | Some urls => attempts 0 (take (max_attempts_of urls) urls) None
        end
  end.

End attempts.
End service.
End NodeService.

(** ** [proxy/jsonrpc.rs] *)

Class JsonValue `{Json} := {
  as_array : Value -> option (list Value);
  array : list Value -> Value;
  value_id : Value -> option Z;
  value_result : Value -> option Value;
  of_success : string -> Value -> option Z -> Value;
  of_error : string -> Z -> string -> option Z -> Value
}.

(** An array is read back; and a serialized success has the id it was made with. *)
Record JsonValueLaws `{JsonValue} : Prop := {
  as_array_array : forall l, as_array (array l) = Some l;
  value_id_success : forall jsonrpc v id, value_id (of_success jsonrpc v (Some id)) = Some id
}.

Module JsonRpcHandler.
Import JsonRpc.

Inductive CacheStatus := Hit | Miss | Partial.

Inductive BatchError :=
| UpstreamError (error : FailureReason.DynError)
| ParseError (status : Z) (body : bytes)
| InvalidLength
| InvalidIds
| NotAnArray
| PartialLength.

Section handler.
Context `{JsonValue}.

Inductive JsonRpcResult :=
| Success (jsonrpc : string) (result : Value) (id : option Z)
| Error (jsonrpc : string) (code : Z) (message : string) (id : option Z).

(** [JsonRpcResult::id] *)
Definition result_id (self : JsonRpcResult) : option Z :=
  match self with Success _ _ id => id | Error _ _ _ id => id end.

(** [serde_json::to_value] *)
Definition to_value (self : JsonRpcResult) : Value :=
  match self with
  | Success jsonrpc result id => of_success jsonrpc result id
  | Error jsonrpc code message id => of_error jsonrpc code message id
  end.

Definition request_ids (calls : list JsonRpcCall) : gset Z := list_to_set (map id calls).

Definition results_by_id (results : list Value) : gmap Z Value :=
  foldl (fun m v => match value_id v with Some id => <[id := v]> m | None => m end) ∅ results.

Definition order_batch (calls : list JsonRpcCall) (response : Value) : result BatchError Value :=
  match as_array response with
  | None => Ok response
  | Some results =>
      if negb (size (request_ids calls) =? length calls)%nat then Ok (array results)
      else if negb (length results =? length calls)%nat then Err InvalidLength
      else
        let by_id := results_by_id results in
        if negb (size by_id =? length calls)%nat || negb (bool_decide (dom by_id ⊆ request_ids calls))
        then Err InvalidIds
        else Ok (array (omap (fun call => by_id !! id call) calls))
  end.

Fixpoint merge_batch_results (cached_results : list (option JsonRpcResult)) (upstream_results : list Value)
  : result BatchError (list Value) :=
  match cached_results with
  | [] => match upstream_results with [] => Ok [] | _ => Err PartialLength end
  | Some r :: cached_results =>
      let? results := merge_batch_results cached_results upstream_results in Ok (to_value r :: results)
  | None :: cached_results =>
      match upstream_results with
      | [] => Err PartialLength
      | v :: upstream_results =>
          let? results := merge_batch_results cached_results upstream_results in Ok (v :: results)
      end
  end.

(** *** [proxy/jsonrpc/cache.rs]; [lookup] is the cache, by key *)

Context (host path : string) (lookup : string -> option bytes) (parse : bytes -> option Value).
Context (should_cache_call : JsonRpcCall -> option Z).

Definition cached_result (call : JsonRpcCall) (cached : bytes) : option JsonRpcResult :=
  let?? result := parse cached in Some (Success (jsonrpc call) result (Some (id call))).

Definition cache_get (call : JsonRpcCall) : option JsonRpcResult :=
  let?? response := lookup (call_cache_key call host path) in cached_result call response.

Definition get_many (calls : list JsonRpcCall) (ttls : list (option Z)) : list (option JsonRpcResult) :=
  zip_with (fun call (ttl : option Z) => match ttl with Some _ => cache_get call | None => None end) calls ttls.

(** The entries [set_many] writes: the key, the result and the time to live. *)
Definition set_many (calls : list JsonRpcCall) (ttls : list (option Z)) (responses : list Value)
  : list (string * Value * Z) :=
  if negb (length calls =? length ttls)%nat || negb (length calls =? length responses)%nat then []
  else if existsb (fun p => negb (bool_decide (value_id (snd p) = Some (id (fst p))))) (zip calls responses) then []
  else
    omap (fun p : JsonRpcCall * option Z * Value =>
      match snd (fst p), value_result (snd p) with
      | Some ttl, Some result => Some (call_cache_key (fst (fst p)) host path, result, ttl)
      | _, _ => None
      end) (zip (zip calls ttls) responses).

(** *** [handle_batch_request] *)

(** The body of the reply: results to serialize, or the bytes of the node. *)
Inductive BatchBody := Results (results : list Value) | RawValue (value : Value) | Raw (body : bytes).

Record BatchReply := MkBatch {
  batch_body : BatchBody;
  batch_status : Z;
  cache_status : CacheStatus;
  cache_writes : list (string * Value * Z)
}.

Context (fetch : list JsonRpcCall -> result BatchError (bytes * Z)).

Definition parse_response (status : Z) (body : bytes) : result BatchError Value :=
  ok_or (parse body) (ParseError status body).

Definition is_missing {A} (p : A * option JsonRpcResult) : bool := match snd p with None => true | Some _ => false end.

Definition cache_ttls (calls : list JsonRpcCall) : list (option Z) :=
  if (size (request_ids calls) =? length calls)%nat then map should_cache_call calls
  else replicate (length calls) None.

Definition handle_batch_request (calls : list JsonRpcCall) : result BatchError BatchReply :=
  let ttls := cache_ttls calls in
  let cached_results := get_many calls ttls in
  let cache_hits := length (filter (fun r : option JsonRpcResult => is_Some r) cached_results) in
  let missing_calls := map fst (List.filter is_missing (zip calls cached_results)) in
  let missing_ttls := map fst (List.filter is_missing (zip ttls cached_results)) in
  match missing_calls with
  | [] => Ok (MkBatch (Results (map to_value (omap (fun r => r) cached_results))) 200 Hit [])
  | _ =>
      let? (body, missing_status) := fetch missing_calls in
      let? response := parse_response missing_status body in
      match as_array response with
      | Some _ =>
          let? ordered := order_batch missing_calls response in
          let? results := ok_or (as_array ordered) NotAnArray in
          let writes := if missing_status =? 200 then set_many missing_calls missing_ttls results else [] in
          let? merged := merge_batch_results cached_results results in
          Ok (MkBatch (Results merged) missing_status (if (cache_hits =? 0)%nat then Miss else Partial) writes)
      | None =>
          if (0 <? cache_hits)%nat then
            let? (body, status) := fetch calls in
            let? response := parse_response status body in
            match as_array response with
            | Some _ =>
                let? ordered := order_batch calls response in
                Ok (MkBatch (RawValue ordered) status Miss [])
            | None => Ok (MkBatch (Raw body) status Miss [])
            end
          else Ok (MkBatch (Raw body) missing_status Miss [])
      end
  end.

End handler.
End JsonRpcHandler.

(** ** Properties *)

Module RetryFacts.
Import JsonRpc Retry NodeService.

Lemma swap_first_spec index l url : l !! index = Some url ->
  Permutation (swap_first index l) l /\ head (swap_first index l) = Some url.
Proof.
  intros E. unfold swap_first. destruct l as [|first l]; [done|]. cbn [lookup list_lookup]. rewrite E.
  destruct index as [|index].
  - injection E as ->. done.
  - change ((first :: l) !! S index) with (l !! index) in E.
    apply list_elem_of_split_length in E as (a & b & -> & ->).
    replace (<[S (length a) := first]> (first :: a ++ url :: b)) with (first :: a ++ first :: b).
    2: { change (first :: a ++ first :: b = first :: <[length a := first]> (a ++ url :: b)). f_equal.
         by rewrite insert_app_r_alt, Nat.sub_diag by lia. }
    change (<[0%nat := url]> (first :: a ++ first :: b)) with (url :: a ++ first :: b). split; [|done].
    rewrite <- Permutation_middle. rewrite <- (Permutation_middle a b url). apply perm_swap.
Qed.

Lemma rotate_fallback_spec hash request_id l :
  Permutation (rotate_fallback_urls hash request_id l) l
  /\ head (rotate_fallback_urls hash request_id l) = head l.
Proof.
  unfold rotate_fallback_urls. destruct l as [|first [|x [|y tail]]]; try done. cbv zeta.
  split; [|done]. constructor. destruct (_ <? _)%nat; [|done]. unfold rotate_left.
  rewrite Permutation_app_comm, take_drop. done.
Qed.

(** The order of the attempts: every node once, the current one first. *)
Lemma ordered_urls_spec hash us current request_id :
  Permutation (get_ordered_urls hash us current request_id) us
  /\ (current ∈ us -> head (get_ordered_urls hash us current request_id) = Some current).
Proof.
  unfold get_ordered_urls. destruct (list_find (fun url => url = current) us) as [[i u]|] eqn:F;
    cbn [fmap option_fmap option_map fst].
  - apply list_find_Some in F as (E & -> & _). destruct (swap_first_spec i us current E) as [P Hd].
    destruct (rotate_fallback_spec hash request_id (swap_first i us)) as [P' Hd'].
    split; [by rewrite P'|]. intros _. by rewrite Hd'.
  - split; [apply rotate_fallback_spec|]. intros I. apply list_find_None in F.
    by eapply Forall_forall in F.
Qed.

Section retry.
Context `{Json} (parse_value : bytes -> option Value) (parse_error_message : bytes -> option string).
Context (retry_config : RetryConfig) (request_type : RequestType).
Context (upstream : nat -> Url -> result FailureReason.DynError ProxyResponse).

Notation attempts := (attempts parse_value parse_error_message retry_config request_type upstream).

(** An attempt fails when the node does, or when its response is one that the configuration retries. *)
Definition fails (index : nat) (url : Url) : bool :=
  match upstream index url with
  | Ok response => matches_response_error_signal parse_error_message request_type response (errors retry_config)
  | Err _ => true
  end.

(** What the monitor is told: the outcome of the first attempt, unless the answer came from the cache. *)
Definition reports_of (urls : list Url) : list (Url * bool) :=
  match urls with
  | url :: _ =>
      match upstream 0%nat url with
      | Ok response => if from_cache response then [] else [(url, fails 0 url)]
      | Err _ => [(url, true)]
      end
  | [] => []
  end.

(** The first attempt that does not fail. *)
Fixpoint first_success (index : nat) (urls : list Url) : option (nat * Url) :=
  match urls with
  | [] => None
  | url :: urls => if fails index url then first_success (S index) urls else Some (index, url)
  end.

Lemma attempts_reports_later index us data : snd (attempts (S index) us data) = [].
Proof.
  revert index data. induction us as [|url us IH]; intros index data; [done|]. cbn.
  destruct (upstream _ _) as [r|e].
  - destruct (negb _); [by destruct (from_cache r)|]. destruct (negb (retry_enabled _)); [by destruct (from_cache r)|].
    specialize (IH (S index) (parse_value (body r))). destruct (NodeService.attempts _ _ _ _ _ _ _ _).
    cbn in *. rewrite IH. by destruct (from_cache r).
  - destruct (negb _); [done|]. specialize (IH (S index) data).
    by destruct (NodeService.attempts _ _ _ _ _ _ _ _).
Qed.

Lemma attempts_reply index us data : retry_enabled retry_config = true ->
  match first_success index us with
  | Some (i, url) => exists response, upstream i url = Ok response /\ fst (attempts index us data) = Respond response
  | None => exists data', fst (attempts index us data) = ErrorResponse UpstreamsFailed data'
  end.
Proof.
  intros R. revert index data. induction us as [|url us IH]; intros index data; [by exists data|].
  cbn [first_success NodeService.attempts]. unfold fails. destruct (upstream index url) as [r|e] eqn:U.
  - destruct (matches_response_error_signal _ _ _ _); cbn [negb].
    + rewrite R. cbn [negb]. specialize (IH (S index) (parse_value (body r))).
      destruct (attempts (S index) us (parse_value (body r))) as [reply reports]. exact IH.
    + by exists r.
  - rewrite R. cbn [negb]. specialize (IH (S index) data).
    destruct (attempts (S index) us data) as [reply reports]. exact IH.
Qed.

Lemma attempts_reports us data : snd (attempts 0 us data) = reports_of us.
Proof.
  destruct us as [|url us]; [done|]. cbn [NodeService.attempts reports_of]. unfold fails.
  destruct (upstream 0%nat url) as [r|e].
  - destruct (negb _); [by destruct (from_cache r)|]. destruct (negb (retry_enabled _)); [by destruct (from_cache r)|].
    pose proof (attempts_reports_later 0 us (parse_value (body r))) as P.
    destruct (attempts 1 us (parse_value (body r))) as [reply reports]. cbn in *. rewrite P, app_nil_r.
    by destruct (from_cache r).
  - destruct (negb _); [done|]. pose proof (attempts_reports_later 0 us data) as P.
    destruct (attempts 1 us data) as [reply reports]. cbn in *. by rewrite P.
Qed.

Lemma first_success_some f us : (forall i url, fails i url = f url) -> forall index,
  (exists url, url ∈ us /\ f url = false) -> exists i url, first_success index us = Some (i, url) /\ url ∈ us /\ f url = false.
Proof.
  intros F. induction us as [|url us IH]; intros index (u & I & E); [by apply elem_of_nil in I|].
  cbn [first_success]. rewrite F. destruct (f url) eqn:Fu.
  - destruct (IH (S index)) as (i & url' & S' & I' & E').
    { exists u. split; [|done]. apply elem_of_cons in I as [->|]; [congruence|done]. }
    exists i, url'. split; [done|]. split; [by apply elem_of_cons; right|done].
  - exists index, url. split; [done|]. split; [apply elem_of_cons; by left|done].
Qed.

End retry.

(** Retries.  For a chain with several nodes and retries enabled, a request that is allowed is tried on a
    list of distinct positions of the configured nodes that starts with the current one, at most
    [max_attempts] of them or all when it is zero: it is answered with the first response that is not to be
    retried, and with an error only when every attempt failed, which is not the case when all nodes are tried
    and some node answers; the monitor is told the outcome of the attempt
    on the current node, and of no other, unless the answer came from the cache. *)
Theorem retry_order `{Json} parse_value parse_error_message retry_config request_type upstream hash
  (chain_types : ChainTypesConfig) (chains : gmap Chains.Chain ChainConfig) (nodes : gmap Chains.Chain NodeDomain)
  chain config node request_id :
  retry_enabled retry_config = true -> chains !! chain = Some config -> NodeConfig.chain config = chain ->
  nodes !! chain = Some node -> node_url node ∈ urls config -> (1 < length (urls config))%nat ->
  allows chain_types config request_type = true ->
  let '(reply, reports) := handle_request_inner parse_value parse_error_message retry_config request_type upstream
    hash chain_types chains nodes chain request_id in
  exists ordered, Permutation ordered (urls config) /\ head ordered = Some (node_url node)
  /\ let tried := take (effective_max_attempts retry_config (length ordered)) ordered in
     reports = reports_of parse_error_message retry_config request_type upstream tried
     /\ match first_success parse_error_message retry_config request_type upstream 0 tried with
        | Some (i, url) => exists response, upstream i url = Ok response /\ reply = Respond response
        | None => exists data, reply = ErrorResponse UpstreamsFailed data
        end
     /\ (max_attempts retry_config = 0%nat -> forall f : Url -> bool,
          (forall i url, fails parse_error_message retry_config request_type upstream i url = f url) ->
          (exists url, url ∈ urls config /\ f url = false) -> exists response, reply = Respond response).
Proof.
  intros R C <- E I Ln A. unfold handle_request_inner. rewrite C, A. cbn [negb].
  unfold resolve_request_urls. destruct (urls config) as [|u1 [|u2 us]] eqn:U; [cbn in Ln; lia..|].
  rewrite <- U in *. clear u1 u2 us U. rewrite E. set (ordered := get_ordered_urls hash (urls config) (node_url node) request_id).
  destruct (ordered_urls_spec hash (urls config) (node_url node) request_id) as [P Hd]. fold ordered in P, Hd.
  assert (Lo : length ordered = length (urls config)) by (by apply Permutation_length).
  destruct ordered as [|u1 [|u2 us]] eqn:U; [cbn in Lo; lia..|]. rewrite <- U in *. clear u1 u2 us U.
  unfold max_attempts_of. rewrite R.
  pose proof (attempts_reply parse_value parse_error_message retry_config request_type upstream 0
    (take (effective_max_attempts retry_config (length ordered)) ordered) None R) as Q.
  pose proof (attempts_reports parse_value parse_error_message retry_config request_type upstream
    (take (effective_max_attempts retry_config (length ordered)) ordered) None) as Rp.
  destruct (attempts _ _ _ _ _ _ _ _) as [reply reports]. cbn [fst snd] in *.
  exists ordered. split; [done|]. split; [by apply Hd|]. split; [done|]. split; [done|].
  intros M f F (url & Iu & Fu). unfold effective_max_attempts in Q. rewrite M in Q.
  change (0 =? 0)%nat with true in Q. cbn [negb] in Q. rewrite firstn_all in Q.
  destruct (first_success_some parse_error_message retry_config request_type upstream f ordered F 0) as (i & u & S & _).
  { exists url. by rewrite P. }
  rewrite S in Q. destruct Q as (response & _ & ->). by exists response.
Qed.

(** *** Witness: the current node times out, the other answers *)

Section witness.

#[local] Instance unit_json : Json := Build_Json unit (fun _ => true) (fun _ => EmptyString) string_of_bytes.

Let node (name : string) : Url := MkUrl name None.
Let config : ChainConfig := MkChainConfig Chains.Bitcoin None None None None [node "a"; node "b"; node "c"].
Let retries : RetryConfig := MkRetry true 0 (MkMatcher [429] []).
Let nodes : gmap Chains.Chain NodeDomain := {[Chains.Bitcoin := MkNode (node "b") config]}.
Let upstream (_ : nat) (u : Url) : result FailureReason.DynError ProxyResponse :=
  if bool_decide (u = node "a") then Ok (MkResponse 200 [] false)
  else Err (FailureReason.AsClientError FailureReason.ClientTimeout).

Lemma retry_order_witness : exists response,
  fst (handle_request_inner (fun _ => None) (fun _ => None) retries (Regular "/" "GET" []) upstream (fun _ => 5)
    ∅ {[Chains.Bitcoin := config]} nodes Chains.Bitcoin "request") = Respond response.
Proof.
  pose proof (retry_order (fun _ => None) (fun _ => None) retries (Regular "/" "GET" []) upstream (fun _ => 5)
    ∅ {[Chains.Bitcoin := config]} nodes Chains.Bitcoin config (MkNode (node "b") config) "request") as P.
  destruct (handle_request_inner _ _ _ _ _ _ _ _ _ _ _) as [reply reports]. cbn [fst].
  destruct P as (ordered & _ & _ & _ & _ & A); [done|by vm_compute|done|by vm_compute| |by vm_compute; lia|by vm_compute|].
  { by apply (bool_decide_unpack _); vm_compute. }
  refine (A eq_refl (fun u => negb (bool_decide (u = node "a"))) _ _).
  - intros i u. unfold fails, upstream. by destruct (bool_decide (u = node "a")).
  - exists (node "a"). split; [apply list_elem_of_here|done].
Defined.

End witness.

End RetryFacts.

Module BatchFacts.
Import JsonRpc JsonRpcHandler.

Section batch.
Context `{JsonValue} (L : JsonValueLaws).

Definition answers (call : JsonRpcCall) (v : Value) : Prop := value_id v = Some (id call).

Lemma results_by_id_lookup results : forall (m : gmap Z Value) k v,
  foldl (fun (m : gmap Z Value) v => match value_id v with Some id => <[id := v]> m | None => m end) m results !! k = Some v ->
  (v ∈ results /\ value_id v = Some k) \/ m !! k = Some v.
Proof.
  induction results as [|r results IH]; intros m k v E; [by right|]. cbn in E.
  destruct (IH _ _ _ E) as [[I V]|M]; [left; split; [by apply elem_of_cons; right|done]|].
  destruct (value_id r) as [i|] eqn:V; [|by right].
  destruct (decide (i = k)) as [->|N].
  - rewrite lookup_insert_eq in M. injection M as <-. left. split; [apply list_elem_of_here|done].
  - rewrite lookup_insert_ne in M by done. by right.
Qed.

Lemma omap_lookups (R : JsonRpcCall -> Value -> Prop) (m : gmap Z Value) (calls : list JsonRpcCall) :
  Forall (fun call => exists v, m !! id call = Some v /\ R call v) calls ->
  Forall2 R calls (omap (fun call => m !! id call) calls).
Proof.
  induction 1 as [|call calls (v & E & A) _ IH]; [constructor|]. cbn. rewrite E. by constructor.
Qed.

Lemma size_request_ids (calls : list JsonRpcCall) : NoDup (map id calls) -> size (request_ids calls) = length calls.
Proof. intros N. unfold request_ids. rewrite size_list_to_set by done. by rewrite length_map. Qed.

(** Ordering puts each result where its call is. *)
Lemma order_batch_answers calls response ordered results :
  as_array response = Some results -> NoDup (map id calls) -> order_batch calls response = Ok ordered ->
  exists vs, ordered = array vs /\ Forall2 (fun call v => v ∈ results /\ answers call v) calls vs.
Proof.
  intros A N. unfold order_batch. rewrite A, size_request_ids, Nat.eqb_refl by done. cbn [negb].
  destruct (negb (length results =? length calls)%nat); [done|].
  destruct (Nat.eqb_spec (size (results_by_id results)) (length calls)) as [S|]; cbn [negb orb]; [|done].
  destruct (bool_decide _) eqn:D; cbn [negb]; [|done]. apply bool_decide_eq_true in D. intros [= <-].
  eexists. split; [done|]. apply omap_lookups, Forall_forall. intros call I.
  assert (E : dom (results_by_id results) ≡ request_ids calls).
  { apply set_subseteq_size_equiv; [done|]. rewrite size_dom, S, size_request_ids by done. lia. }
  assert (Ic : id call ∈ dom (results_by_id results)).
  { rewrite E. unfold request_ids. apply elem_of_list_to_set, list_elem_of_In, in_map. by apply list_elem_of_In. }
  apply elem_of_dom in Ic as [v V]. exists v. split; [done|].
  apply results_by_id_lookup in V as [V|V]; [done|]. by rewrite lookup_empty in V.
Qed.

Lemma merge_answers (R : JsonRpcCall -> Value -> Prop) (calls : list JsonRpcCall) : forall (cached : list (option JsonRpcResult)) results merged,
  Forall2 (fun call r => forall x, r = Some x -> R call (to_value x)) calls cached ->
  Forall2 R (map fst (List.filter is_missing (zip calls cached))) results ->
  merge_batch_results cached results = Ok merged -> Forall2 R calls merged.
Proof using Type.
  induction calls as [|call calls IH]; intros cached results merged C Rm M.
  - apply Forall2_nil_inv_l in C as ->. cbn in Rm. apply Forall2_nil_inv_l in Rm as ->. injection M as <-. constructor.
  - apply Forall2_cons_inv_l in C as (r & cached' & Hr & C & ->).
    destruct r as [x|]; cbn in Rm, M.
    + destruct (merge_batch_results cached' results) as [rest|] eqn:E; [|done]. injection M as <-.
      constructor; [by apply Hr|]. by eapply IH.
    + apply Forall2_cons_inv_l in Rm as (v & results' & Hv & Rm & ->).
      destruct (merge_batch_results cached' results') as [rest|] eqn:E; [|done]. injection M as <-.
      constructor; [done|]. by eapply IH.
Qed.

Lemma missing_sublist {A B} (l : list A) (cached : list B) f :
  sublist (map fst (List.filter f (zip l cached))) l.
Proof using Type.
  revert cached. induction l as [|x l IH]; intros cached; [constructor|].
  destruct cached as [|r cached]; cbn; [apply sublist_nil_l|]. destruct (f (x, r)); cbn; by constructor.
Qed.

Lemma sublist_map {A B} (f : A -> B) l1 l2 : sublist l1 l2 -> sublist (map f l1) (map f l2).
Proof using Type. induction 1; cbn; by constructor. Qed.

Lemma missing_map {A B} (g : A -> B) (l : list A) (cached : list (option JsonRpcResult)) :
  map fst (List.filter is_missing (zip (map g l) cached)) = map g (map fst (List.filter is_missing (zip l cached))).
Proof using Type.
  revert cached. induction l as [|x l IH]; intros [|r cached]; cbn; try done.
  destruct r; cbn; [apply IH|f_equal; apply IH].
Qed.

Section reply.
Context (host path : string) (lookup : string -> option bytes) (parse : bytes -> option Value).
Context (should_cache_call : JsonRpcCall -> option Z) (fetch : list JsonRpcCall -> result BatchError (bytes * Z)).

Notation handle_batch_request := (handle_batch_request host path lookup parse should_cache_call fetch).
Notation get_many := (get_many host path lookup parse).

(** What the cache holds for a call, under the key of the call, if it is one that is cached; the calls the node is asked for; and
    what the node is taken to have answered to one of them *)
Definition cached (call : JsonRpcCall) : option Value :=
  let?? _ := should_cache_call call in let?? body := lookup (call_cache_key call host path) in parse body.
Definition asked (calls : list JsonRpcCall) : list JsonRpcCall := List.filter (fun call => negb (bool_decide (is_Some (cached call)))) calls.
Definition node_answers (asked : list JsonRpcCall) (call : JsonRpcCall) (v : Value) : Prop :=
  exists body status response results, fetch asked = Ok (body, status) /\ parse body = Some response /\ as_array response = Some results
    /\ v ∈ results /\ answers call v.
Definition replies (calls : list JsonRpcCall) (call : JsonRpcCall) (v : Value) : Prop :=
  answers call v /\
  match cached call with
  | Some result => v = of_success (jsonrpc call) result (Some (id call))
  | None => node_answers (asked calls) call v
  end.

Definition cached_success (call : JsonRpcCall) : option JsonRpcResult :=
  (fun result => Success (jsonrpc call) result (Some (id call))) <$> cached call.
Lemma get_many_cached calls : get_many calls (map should_cache_call calls) = map cached_success calls.
Proof using Type.
  induction calls as [|call calls IH]; [done|]. unfold JsonRpcHandler.get_many in *. cbn [map zip_with]. f_equal; [|exact IH].
  unfold cached_success, cached, cache_get, cached_result. destruct (should_cache_call call); [|done]. cbn. destruct (lookup _) as [body|]; [|done].
  cbn. by destruct (parse body).
Qed.
Lemma missing_asked calls : map fst (List.filter is_missing (zip calls (map cached_success calls))) = asked calls.
Proof using Type.
  induction calls as [|call calls IH]; [done|]. cbn [map zip_with zip List.filter]. unfold asked in *. cbn [List.filter].
  unfold is_missing at 1, cached_success at 1. cbn [snd]. rewrite <- IH. by destruct (cached call).
Qed.
Lemma asked_uncached calls call : call ∈ asked calls -> call ∈ calls /\ cached call = None.
Proof using Type.
  unfold asked. rewrite list_elem_of_In, filter_In, <- list_elem_of_In, negb_true_iff. intros [I B].
  apply bool_decide_eq_false in B. split; [done|]. by apply eq_None_not_Some.
Qed.
Lemma cached_replies calls batch : Forall2 (fun call r => forall x, r = Some x -> replies batch call (to_value x)) calls (map cached_success calls).
Proof using L.
  induction calls as [|call calls IH]; constructor; [|done]. intros x E. unfold cached_success in E.
  destruct (cached call) as [result|] eqn:C; [|done]. injection E as <-. split; [apply (value_id_success L)|by rewrite C].
Qed.
Lemma Forall2_asked (R S : JsonRpcCall -> Value -> Prop) calls vs : Forall2 R (asked calls) vs ->
  (forall call v, cached call = None -> R call v -> S call v) -> Forall2 S (asked calls) vs.
Proof using Type.
  intros F RS. assert (Forall (fun call => cached call = None) (asked calls)) as U by (apply Forall_forall; intros call I; by apply asked_uncached in I as [_ ?]).
  induction F as [|call v cs vs Rv F IH]; [constructor|]. apply Forall_cons in U as [Uc U]. constructor; auto.
Qed.

Lemma set_many_writes (calls : list JsonRpcCall) responses key v ttl :
  (key, v, ttl) ∈ set_many host path calls (map should_cache_call calls) responses ->
  exists call response, (call, response) ∈ zip calls responses /\ answers call response /\ value_result response = Some v
    /\ key = call_cache_key call host path /\ should_cache_call call = Some ttl.
Proof using Type.
  unfold set_many. destruct (_ || _); [by intros I%elem_of_nil|].
  destruct (existsb _ (zip calls responses)) eqn:X; [by intros I%elem_of_nil|].
  revert responses X. induction calls as [|call calls IH]; intros [|r responses] X I; try by apply elem_of_nil in I.
  cbn in X. apply orb_false_iff in X as [Xc X]. apply negb_false_iff, bool_decide_eq_true in Xc. cbn in I, Xc.
  assert (R : (key, v, ttl) ∈ omap (fun p : JsonRpcCall * option Z * Value =>
      match snd (fst p), value_result (snd p) with
      | Some ttl, Some result => Some (call_cache_key (fst (fst p)) host path, result, ttl)
      | _, _ => None
      end) (zip (zip calls (map should_cache_call calls)) responses) ->
    exists call' response, (call', response) ∈ (call, r) :: zip calls responses /\ answers call' response /\ value_result response = Some v
      /\ key = call_cache_key call' host path /\ should_cache_call call' = Some ttl).
  { intros I'. destruct (IH responses X I') as (c & r' & Ic & R). exists c, r'. split; [by apply elem_of_cons; right|done]. }
  destruct (should_cache_call call) as [t|] eqn:T; [|by apply R].
  destruct (value_result r) as [w|] eqn:V; [|by apply R]. apply elem_of_cons in I as [[= -> -> ->]|I]; [|by apply R].
  exists call, r. split; [apply list_elem_of_here|]. by repeat split.
Qed.

Lemma Forall2_zip {A B} (R : A -> B -> Prop) l k x y : Forall2 R l k -> (x, y) ∈ zip l k -> R x y.
Proof using Type. induction 1 as [|a b l k Rab F IH]; cbn; [by intros I%elem_of_nil|]. intros [[= -> ->]|I]%elem_of_cons; auto. Qed.
Lemma merge_hits calls : asked calls = [] ->
  merge_batch_results (map cached_success calls) [] = Ok (map to_value (omap (fun r => r) (map cached_success calls))).
Proof using Type.
  unfold asked. induction calls as [|call calls IH]; [done|]. cbn [map List.filter]. unfold cached_success at 1 3.
  destruct (cached call); cbn; [|done]. intros E. by rewrite (IH E).
Qed.
Lemma no_hits calls : (0 <? length (filter (fun r : option JsonRpcResult => is_Some r) (map cached_success calls)))%nat = false ->
  Forall (fun call => cached call = None) calls.
Proof using Type.
  induction calls as [|call calls IH]; [constructor|]. cbn [map]. unfold cached_success at 1. destruct (cached call) eqn:C; cbn; [done|].
  intros E. constructor; [done|by apply IH].
Qed.

(** (C24) Batches are answered call by call.  For a batch whose calls have distinct ids: when the reply is a list
    of results, there is one for each call, in the order of the calls and with the id of the call; it is what the cache holds under
    the key of the call, if the call is one that is cached and the cache has it, and otherwise a result with that id that the node
    answered when it was asked for exactly the calls that the cache does not have.  When the node does not answer these by a list,
    the reply is its answer to the whole batch, each result at the place of its call, or its bytes.  And whatever is written to the cache is the
    result of the node for a call that the cache does not have, under the key of that call and for its time to live. *)
Theorem batch_answers (calls : list JsonRpcCall) (reply : BatchReply) :
  NoDup (map id calls) -> handle_batch_request calls = Ok reply ->
  match batch_body reply with
  | Results vs => Forall2 (replies calls) calls vs
  | RawValue v => exists vs, v = array vs /\ Forall2 (node_answers calls) calls vs
  | Raw body => cache_status reply = Miss /\ exists to_ask, fetch to_ask = Ok (body, batch_status reply)
      /\ (to_ask = calls \/ to_ask = asked calls /\ Forall (fun call => cached call = None) calls)
  end
  /\ forall key v ttl, (key, v, ttl) ∈ cache_writes reply ->
       exists call response, call ∈ calls /\ cached call = None /\ node_answers (asked calls) call response /\ value_result response = Some v
         /\ key = call_cache_key call host path /\ should_cache_call call = Some ttl.
Proof using L.
  intros N. unfold JsonRpcHandler.handle_batch_request, cache_ttls.
  rewrite size_request_ids, Nat.eqb_refl by done. rewrite missing_map, get_many_cached, missing_asked.
  pose proof (cached_replies calls calls) as C.
  assert (S : sublist (asked calls) calls) by (rewrite <- missing_asked; apply missing_sublist).
  assert (Nm : NoDup (map id (asked calls))) by (eapply sublist_NoDup; [exact N|]; by apply sublist_map).
  destruct (asked calls) as [|m ms] eqn:E.
  { intros [= <-]. cbn [batch_body cache_writes]. split; [|by intros ? ? ? I%elem_of_nil].
    apply (merge_answers _ calls (map cached_success calls) []); [done|rewrite missing_asked, E; constructor|]. by apply merge_hits. }
  rewrite <- E in *. clear E.
  destruct (fetch (asked calls)) as [[body status]|] eqn:Fe; [|done]. unfold parse_response.
  destruct (parse body) as [response|] eqn:P; [cbn [ok_or]|done].
  destruct (as_array response) as [results|] eqn:A.
  - destruct (order_batch (asked calls) response) as [ordered|] eqn:O; [|done].
    destruct (order_batch_answers (asked calls) response ordered results A Nm O) as (vs & -> & F).
    rewrite (as_array_array L). cbn [ok_or].
    destruct (merge_batch_results _ vs) as [merged|] eqn:M; [|done]. intros [= <-]. cbn [batch_body cache_writes]. split.
    + eapply merge_answers; [exact C| |exact M]. rewrite missing_asked. eapply Forall2_asked; [exact F|].
      intros call v U [I An]. split; [done|]. rewrite U. by exists body, status, response, results.
    + intros key v ttl I. destruct (status =? 200); [|by apply elem_of_nil in I].
      apply set_many_writes in I as (call & r & Z & _ & R). destruct (Forall2_zip _ _ _ _ _ F Z) as [Ir An]. apply elem_of_zip_l in Z as Ic. apply asked_uncached in Ic as [Ic U]. exists call, r.
      split_and!; [done|done| |apply R..]. by exists body, status, response, results.
  - destruct (_ <? _)%nat eqn:Hits.
    + destruct (fetch calls) as [[body' status']|] eqn:Fc; [|done].
      destruct (parse body') as [response'|] eqn:P'; [cbn [ok_or]|done].
      destruct (as_array response') as [results|] eqn:A'.
      * destruct (order_batch calls response') as [ordered|] eqn:O; [|done].
        destruct (order_batch_answers calls response' ordered results A' N O) as (vs & -> & F).
        intros [= <-]. cbn [batch_body cache_writes]. split; [|by intros ? ? ? I%elem_of_nil]. exists vs. split; [done|].
        eapply Forall2_impl; [exact F|]. intros call v [I An]. by exists body', status', response', results.
      * intros [= <-]. split; [|by intros ? ? ? I%elem_of_nil]. split; [done|]. exists calls. auto.
    + intros [= <-]. split; [|by intros ? ? ? I%elem_of_nil]. split; [done|]. exists (asked calls). split; [done|]. right. split; [done|].
      by apply no_hits.
Qed.

End reply.

End batch.

(** *** Witness: one call from the cache, two answered by the node in the other order *)

Section witness.

Inductive SmallJson := SmallNull | SmallArray (l : list SmallJson) | SmallObject (id : option Z) (result : string).

#[local] Instance small_json : Json :=
  Build_Json SmallJson (fun v => match v with SmallNull => true | _ => false end) (fun _ => EmptyString) string_of_bytes.
#[local] Instance small_value : @JsonValue small_json :=
  @Build_JsonValue small_json
    (fun v => match v with SmallArray l => Some l | _ => None end)
    SmallArray
    (fun v => match v with SmallObject id _ => id | _ => None end)
    (fun v => match v with SmallObject _ text => Some (SmallObject None text) | _ => None end)
    (fun _ v id => match v with SmallObject _ text => SmallObject id text | _ => SmallObject id EmptyString end)
    (fun _ _ message id => SmallObject id message).

Let call (i : Z) (m : string) : JsonRpcCall := MkCall "2.0" m SmallNull i.
Let calls : list JsonRpcCall := [call 1 "eth_chainId"; call 2 "eth_blockNumber"; call 3 "eth_gasPrice"].
Let lookup (key : string) : option bytes := if String.eqb key "host:POST:/:eth_chainId" then Some [1] else None.
Let parse (body : bytes) : option SmallJson :=
  if bool_decide (body = [1]) then Some (SmallObject None "0x1")
  else Some (SmallArray [SmallObject (Some 3) "0x9"; SmallObject (Some 2) "0x7"]).

Lemma batch_answers_witness :
  exists reply vs, handle_batch_request "host" "/" lookup parse (fun _ => Some 60) (fun _ => Ok ([2], 200)) calls = Ok reply
  /\ batch_body reply = Results vs
  /\ vs = [SmallObject (Some 1) "0x1"; SmallObject (Some 2) "0x7"; SmallObject (Some 3) "0x9"]
  /\ asked (H:=small_json) "host" "/" lookup parse (fun _ => Some 60) calls = [call 2 "eth_blockNumber"; call 3 "eth_gasPrice"]
  /\ Forall2 (replies (H:=small_json) "host" "/" lookup parse (fun _ => Some 60) (fun _ => Ok ([2], 200)) calls) calls vs.
Proof.
  destruct (handle_batch_request (H:=small_json) "host" "/" lookup parse (fun _ => Some 60) (fun _ => Ok ([2], 200)) calls) as [reply|] eqn:E;
    [|vm_compute in E; discriminate].
  assert (B : batch_body reply = Results [SmallObject (Some 1) "0x1"; SmallObject (Some 2) "0x7"; SmallObject (Some 3) "0x9"])
    by (vm_compute in E; injection E as <-; reflexivity).
  assert (Laws : @JsonValueLaws small_json small_value) by (constructor; [done|]; by intros ? []).
  assert (N : NoDup (map id calls)) by (apply (bool_decide_unpack _); by vm_compute).
  pose proof (proj1 (@batch_answers small_json small_value Laws "host" "/" lookup parse (fun _ => Some 60) (fun _ => Ok ([2], 200)) calls reply N E)) as P.
  rewrite B in P. exists reply. eexists. split; [reflexivity|]. split; [exact B|]. split; [reflexivity|]. split; [by vm_compute|exact P].
Defined.

End witness.

End BatchFacts.
