(* ===== verification/Cardano.v ===== *)
(** * Cardano transactions

    Models of [gem_cardano/src]: the CBOR encoder [cbor.rs] (module [Cbor]), addresses [address.rs]
    (module [ShelleyAddress]), transactions and their memos [transaction.rs] (module [CardanoTransaction])
    and the planner [planner.rs] (module [CardanoPlanner]).  Bech32 and the BLAKE2b hash belong to other
    crates and are the class [CardanoCrates].  A string is its bytes; a [u64] is an integer whose unchecked
    additions wrap. *)
From Stdlib Require Import Sorting.Sorted.
From S2P Require Import Prelude Utf8 HexText Text ChainRegistry BitcoinPlanner.

#[export] Existing Instance Chains.Chain_eq_dec.

(** [bech32::decode] and [encode], and [gem_hash::blake2::blake2b_256] *)
Class CardanoCrates := {
  bech32_decode : string -> option (string * bytes);
  bech32_encode : string -> bytes -> option string;
  blake2b_256 : bytes -> bytes
}.

(** Bech32 decodes what it encodes, when the human-readable part is in lower case (as the decoder gives it back) and the payload
    is bytes; a hash has 32 bytes. *)
Record CardanoCratesLaws `{CardanoCrates} : Prop := {
  bech32_roundtrip : forall hrp bs s, Text.to_ascii_lowercase hrp = hrp -> all_bytes bs -> bech32_encode hrp bs = Some s -> bech32_decode s = Some (hrp, bs);
  blake2b_length : forall bs, length (blake2b_256 bs) = 32%nat;
  blake2b_bytes : forall bs, all_bytes (blake2b_256 bs)
}.

(** ** [cbor.rs] *)

Module Cbor.

Definition CborEncoder : Type := bytes.

Definition new : CborEncoder := [].
Definition raw (bs : bytes) (self : CborEncoder) : CborEncoder := self ++ bs.

Definition major_type (major value : Z) (self : CborEncoder) : CborEncoder :=
  let prefix := as_u8 (Z.shiftl major 5) in
  if value <=? 23 then self ++ [Z.lor prefix (as_u8 value)]
  else if value <=? 0xff then self ++ [Z.lor prefix 24; as_u8 value]
  else if value <=? 0xffff then self ++ [Z.lor prefix 25] ++ be_bytes 2 (as_u16 value)
  else if value <=? 0xffffffff then self ++ [Z.lor prefix 26] ++ be_bytes 4 (as_u32 value)
  else self ++ [Z.lor prefix 27] ++ be_bytes 8 value.

Definition unsigned (value : Z) : CborEncoder -> CborEncoder := major_type 0 value.
Definition bytes_value (value : bytes) (self : CborEncoder) : CborEncoder :=
  major_type 2 (Z.of_nat (length value)) self ++ value.
Definition text (value : bytes) (self : CborEncoder) : CborEncoder :=
  major_type 3 (Z.of_nat (length value)) self ++ value.
Definition array (len : nat) : CborEncoder -> CborEncoder := major_type 4 (Z.of_nat len).
Definition map_value (len : nat) : CborEncoder -> CborEncoder := major_type 5 (Z.of_nat len).
Definition null (self : CborEncoder) : CborEncoder := self ++ [0xf6].
Definition true_value (self : CborEncoder) : CborEncoder := self ++ [0xf5].
Definition tag (value : Z) : CborEncoder -> CborEncoder := major_type 6 value.

End Cbor.

(** ** [address.rs] *)

Module ShelleyAddress.
Import BitcoinPlanner.

Definition ADDRESS_HRP : string := "addr".
Definition MAINNET_NETWORK_ID : Z := 1.
Definition BASE_KEY_ADDRESS_TYPE : Z := 0.
Definition ENTERPRISE_KEY_ADDRESS_TYPE : Z := 6.
Definition ADDRESS_HEADER_LENGTH : nat := 1.
Definition KEY_HASH_LENGTH : nat := 28.
Definition ENTERPRISE_ADDRESS_LENGTH : nat := ADDRESS_HEADER_LENGTH + KEY_HASH_LENGTH.
Definition BASE_ADDRESS_LENGTH : nat := ADDRESS_HEADER_LENGTH + KEY_HASH_LENGTH + KEY_HASH_LENGTH.
Definition MAINNET_BASE_KEY_ADDRESS_HEADER : Z := Z.lor (Z.shiftl BASE_KEY_ADDRESS_TYPE 4) MAINNET_NETWORK_ID.

Definition ShelleyAddress : Type := bytes.

(** [self.bytes[0]] is read of a non-empty address only. *)
Definition header (self : ShelleyAddress) : Z := match self with b :: _ => b | [] => 0 end.
Definition address_type (self : ShelleyAddress) : Z := Z.shiftr (header self) 4.
Definition network_id (self : ShelleyAddress) : Z := Z.land (header self) 0x0f.

(** [None] where slicing panics. *)
Definition payment_hash (self : ShelleyAddress) : option bytes :=
  if (ADDRESS_HEADER_LENGTH + KEY_HASH_LENGTH <=? length self)%nat
  then Some (take KEY_HASH_LENGTH (drop ADDRESS_HEADER_LENGTH self)) else None.

Definition from_bytes (bs : bytes) : result SignerError ShelleyAddress :=
  match bs with
  | [] => Err (InvalidInput "invalid Cardano address")
  | _ =>
      if negb (network_id bs =? MAINNET_NETWORK_ID) then
        Err (InvalidInput "unsupported Cardano address network")
      else if address_type bs =? BASE_KEY_ADDRESS_TYPE then
        if negb (length bs =? BASE_ADDRESS_LENGTH)%nat then Err (InvalidInput "invalid Cardano base address")
        else Ok bs
      else if address_type bs =? ENTERPRISE_KEY_ADDRESS_TYPE then
        if negb (length bs =? ENTERPRISE_ADDRESS_LENGTH)%nat then
          Err (InvalidInput "invalid Cardano enterprise address")
        else Ok bs
      else Err (InvalidInput "unsupported Cardano address type")
  end.

Definition from_public_key_hashes (payment_hash stake_hash : bytes) : ShelleyAddress :=
  MAINNET_BASE_KEY_ADDRESS_HEADER :: payment_hash ++ stake_hash.

Section bech32.
Context `{CardanoCrates}.

Definition parse (address : string) : result SignerError ShelleyAddress :=
  let? (hrp, bs) := ok_or (bech32_decode address) (InvalidInput "invalid Cardano address") in
  if negb (String.eqb hrp ADDRESS_HRP) then Err (InvalidInput "unsupported Cardano address network")
  else from_bytes bs.

Definition encode (self : ShelleyAddress) : result SignerError string :=
  ok_or (bech32_encode ADDRESS_HRP self) (InvalidInput "invalid Cardano address bytes").

(** [lib.rs] *)
Definition validate_address (address : string) : bool := is_ok (parse address).

End bech32.
End ShelleyAddress.

(** ** [transaction.rs] *)

Module CardanoTransaction.
Import Cbor.

Definition AUXILIARY_DATA_TAG : Z := 259.
Definition MAYA_PROTOCOL_AUXILIARY_KEY : Z := 6676.
Definition MEMO_SEGMENT_SIZE : nat := 64.

Record TransactionInput := MkInput { transaction_hash : bytes; output_index : Z }.
Record TransactionOutput := MkOutput { address : bytes; amount : Z }.
Record Transaction := MkTransaction {
  inputs : list TransactionInput;
  outputs : list TransactionOutput;
  fee : Z;
  expiration_block_number : Z;
  memo : option string
}.

(** [&memo[start..end]] *)
Definition slice (memo : bytes) (start end_ : nat) : bytes := take (end_ - start) (drop start memo).

(** The loop over [char_indices]: the segments it pushes, and the last [start]. *)
Fixpoint chunk_loop (memo : bytes) (chars : list bytes) (index start : nat) : list bytes * nat :=
  match chars with
  | [] => ([], start)
  | character :: chars =>
      let end_ := (index + length character)%nat in
      if (start <? index)%nat && (MEMO_SEGMENT_SIZE <? end_ - start)%nat then
        let '(segments, start') := chunk_loop memo chars end_ index in
        (slice memo start index :: segments, start')
      else chunk_loop memo chars end_ start
  end.

Definition chunk_memo_segments (memo : bytes) : list bytes :=
  let '(segments, start) := chunk_loop memo (utf8_chars memo) 0 0 in
  if (start <? length memo)%nat then segments ++ [drop start memo] else segments.

Section transaction.
Context `{CardanoCrates}.

Definition auxiliary_data_bytes (self : Transaction) : option bytes :=
  match memo self with
  | None => None
  | Some EmptyString => None
  | Some memo =>
      let segments := chunk_memo_segments (bytes_of_string memo) in
      let encoder := new in
      let encoder := tag AUXILIARY_DATA_TAG encoder in
      let encoder := map_value 1 encoder in
      let encoder := unsigned 0 encoder in
      let encoder := map_value 1 encoder in
      let encoder := unsigned 0 encoder in
      let encoder := map_value 1 encoder in
      let encoder := unsigned MAYA_PROTOCOL_AUXILIARY_KEY encoder in
      let encoder := map_value 1 encoder in
      let encoder := text (bytes_of_string "memo") encoder in
      let encoder := array (length segments) encoder in
      Some (foldl (fun encoder segment => text segment encoder) encoder segments)
  end.

Definition encode_input (encoder : CborEncoder) (input : TransactionInput) : CborEncoder :=
  unsigned (output_index input) (bytes_value (transaction_hash input) (array 2 encoder)).

Definition encode_output (encoder : CborEncoder) (output : TransactionOutput) : CborEncoder :=
  unsigned (amount output) (bytes_value (address output) (array 2 encoder)).

Definition body_bytes (self : Transaction) : bytes :=
  let auxiliary_data := auxiliary_data_bytes self in
  let encoder := map_value (match auxiliary_data with Some _ => 5 | None => 4 end) new in
  let encoder := array (length (inputs self)) (unsigned 0 encoder) in
  let encoder := foldl encode_input encoder (inputs self) in
  let encoder := array (length (outputs self)) (unsigned 1 encoder) in
  let encoder := foldl encode_output encoder (outputs self) in
  let encoder := unsigned (fee self) (unsigned 2 encoder) in
  let encoder := unsigned (expiration_block_number self) (unsigned 3 encoder) in
  match auxiliary_data with
  | Some auxiliary_data => bytes_value (blake2b_256 auxiliary_data) (unsigned 7 encoder)
  | None => encoder
  end.

Definition transaction_id (self : Transaction) : bytes := blake2b_256 (body_bytes self).

Definition signed_bytes (self : Transaction) (public_key signature : bytes) : bytes :=
  let encoder := array 4 new in
  let encoder := raw (body_bytes self) encoder in
  let encoder := unsigned 0 (map_value 1 encoder) in
  let encoder := array 2 (array 1 encoder) in
  let encoder := bytes_value signature (bytes_value public_key encoder) in
  let encoder := true_value encoder in
  match auxiliary_data_bytes self with
  | Some auxiliary_data => raw auxiliary_data encoder
  | None => null encoder
  end.

Definition signed_size (self : Transaction) : nat :=
  length (signed_bytes self (replicate 32 0) (replicate 64 0)).

End transaction.
End CardanoTransaction.

(** ** [planner.rs] *)

Module CardanoPlanner.
Import BitcoinPlanner CardanoTransaction ShelleyAddress.

Definition CARDANO_EXPIRATION_BLOCK_OFFSET : Z := 7200.
Definition FEE_ESTIMATE_LOVELACE : Z := 170000.
Definition MIN_OUTPUT_LOVELACE : Z := 1000000.
Definition FEE_CONSTANT_MILLI_LOVELACE : Z := 155881000.
Definition FEE_COEFFICIENT_MILLI_LOVELACE : Z := 44046.
Definition MILLI_LOVELACE : Z := 1000.

(** What the planner reads of [TransactionInputType]: the kind, the chain of the asset and whether it is the
    native one, and of a swap its destination and memo. *)
Inductive InputType :=
| Transfer (chain : Chains.Chain) (is_native : bool)
| Swap (chain : Chains.Chain) (is_native : bool) (to : string) (swap_memo : option string)
| OtherType.

(** [TransactionLoadInput]; the metadata gives the UTXOs and the block number, or an error. *)
Record LoadInput := MkLoadInput {
  input_type : InputType;
  sender_address : string;
  destination_address : string;
  value : Z;
  is_max_value : bool;
  input_memo : option string;
  metadata_utxos : result SignerError (list UTXO);
  metadata_block_number : result SignerError Z
}.

Record TransactionPlan := MkTransactionPlan {
  utxos : list UTXO;
  plan_amount : Z;
  plan_fee : Z;
  plan_change : Z
}.

Definition check_input_type (t : InputType) : result SignerError unit :=
  match t with
  | Transfer chain is_native =>
      if bool_decide (chain = Chains.Cardano) && is_native then Ok ()
      else Err (InvalidInput "unsupported Cardano token transfer")
  | Swap chain is_native _ _ =>
      if bool_decide (chain = Chains.Cardano) && is_native then Ok ()
      else Err (InvalidInput "unsupported Cardano token swap")
  | OtherType => Err (InvalidInput "unsupported Cardano transaction type")
  end.

Definition value_as_u64 (input : LoadInput) : result SignerError Z :=
  if value input <=? U64_MAX then Ok (value input) else Err (InvalidInput "transaction amount is too large").

Definition amount_overflow : SignerError := InvalidInput "Cardano amount overflow".

Definition utxo_amount (utxo : UTXO) : result SignerError Z :=
  let? amount := ok_or (value_u64 utxo)
    (InvalidInput ("UTXO amount is too large: " +:+ pretty (utxo_value utxo))) in
  if amount =? 0 then Err (InvalidInput "invalid Cardano UTXO amount") else Ok amount.

(** The candidates with their amounts, the largest first. *)
Definition largest_first (left right : UTXO * Z) : comparison := snd right ?= snd left.

Fixpoint select_loop (target : Z) (candidates : list (UTXO * Z)) (selected_amount : Z)
  : result SignerError (list UTXO) :=
  match candidates with
  | [] => Ok []
  | (utxo, amount) :: candidates =>
      let? selected_amount := ok_or (checked_add selected_amount amount) amount_overflow in
      if target <=? selected_amount then Ok [utxo]
      else let? selected := select_loop target candidates selected_amount in Ok (utxo :: selected)
  end.

Definition selection_target (amount : Z) : option Z :=
  let?? value := checked_mul amount 4 in
  let?? value := checked_add (value / 3) FEE_ESTIMATE_LOVELACE in
  checked_add value MIN_OUTPUT_LOVELACE.

Definition select_utxos (utxos : list UTXO) (amount : Z) (max_amount : bool) : result SignerError (list UTXO) :=
  if max_amount then Ok utxos
  else
    let? target := ok_or (selection_target amount) amount_overflow in
    let? candidates := collect (fun utxo => let? amount := utxo_amount utxo in Ok (utxo, amount)) utxos in
    let? selected := select_loop target (sort_by largest_first candidates) 0 in
    match selected with
    | [] => Err (InvalidInput "missing input UTXOs")
    | _ => Ok selected
    end.

Definition sum_amounts (utxos : list UTXO) : result SignerError Z :=
  try_fold (fun sum utxo =>
    let? amount := utxo_amount utxo in ok_or (checked_add sum amount) amount_overflow) 0 utxos.

Definition transaction_fee (transaction_size : Z) : Z :=
  div_ceil (as_u64 (FEE_CONSTANT_MILLI_LOVELACE + as_u64 (transaction_size * FEE_COEFFICIENT_MILLI_LOVELACE)))
    MILLI_LOVELACE.

Definition transaction_destination_address (input : LoadInput) : string :=
  match input_type input with Swap _ _ to _ => to | _ => destination_address input end.

(** [TransactionLoadInput::get_memo]: the empty memo is none. *)
Definition get_memo (input : LoadInput) : option string :=
  match input_memo input with
  | Some EmptyString => None
  | memo => memo
  end.

Definition transaction_memo (input : LoadInput) : option string :=
  match get_memo input with
  | Some memo => Some memo
  | None => match input_type input with Swap _ _ _ memo => memo | _ => None end
  end.

Section planner.
Context `{Hex, CardanoCrates}.

Definition utxo_transaction_input (utxo : UTXO) : result SignerError TransactionInput :=
  let? transaction_hash := map_err (fun _ => InvalidInput "invalid Cardano UTXO transaction id")
    (HexCodec.decode_hex_array 32 (BitcoinPlanner.transaction_id utxo)) in
  let? output_index := ok_or (if 0 <=? utxo_vout utxo then Some (utxo_vout utxo) else None)
    (InvalidInput "invalid Cardano UTXO output index") in
  Ok (MkInput transaction_hash output_index).

Definition check_utxo (sender : ShelleyAddress) (utxo : UTXO) : result SignerError unit :=
  let? _ := utxo_transaction_input utxo in
  let? _ := utxo_amount utxo in
  let? address := parse (utxo_address utxo) in
  if bool_decide (payment_hash address = payment_hash sender) then Ok ()
  else Err (InvalidInput "Cardano UTXO address does not match sender address").

Definition utxos_from_metadata (metadata : result SignerError (list UTXO)) (sender_address : string)
  : result SignerError (list UTXO) :=
  let? sender := parse sender_address in
  let? utxos := metadata in
  let? _ := collect (check_utxo sender) utxos in
  Ok utxos.

Definition transaction_from_plan (input : LoadInput) (plan : TransactionPlan) : result SignerError Transaction :=
  let? destination := parse (transaction_destination_address input) in
  let? block_number := metadata_block_number input in
  let expiration_block_number := as_u64 (block_number + CARDANO_EXPIRATION_BLOCK_OFFSET) in
  let outputs := [MkOutput destination (plan_amount plan)] in
  let? outputs :=
    if 0 <? plan_change plan then
      let? change := parse (sender_address input) in
      Ok (outputs ++ [MkOutput change (plan_change plan)])
    else Ok outputs in
  let? inputs := collect utxo_transaction_input (utxos plan) in
  Ok (MkTransaction inputs outputs (plan_fee plan) expiration_block_number (transaction_memo input)).

Definition estimate_fee (input : LoadInput) (selected_utxos : list UTXO) (requested_amount : Z)
  (max_amount : bool) : result SignerError Z :=
  let? available_amount := sum_amounts selected_utxos in
  let amount :=
    if max_amount then saturating_sub available_amount FEE_ESTIMATE_LOVELACE
    else Z.min requested_amount (saturating_sub available_amount FEE_ESTIMATE_LOVELACE) in
  let change := saturating_sub (saturating_sub available_amount amount) FEE_ESTIMATE_LOVELACE in
  let plan := MkTransactionPlan selected_utxos amount FEE_ESTIMATE_LOVELACE change in
  let? transaction := transaction_from_plan input plan in
  Ok (transaction_fee (Z.of_nat (signed_size transaction))).

Definition plan_transfer (input : LoadInput) : result SignerError TransactionPlan :=
  let? _ := check_input_type (input_type input) in
  let? requested_amount := value_as_u64 input in
  let? utxos := utxos_from_metadata (metadata_utxos input) (sender_address input) in
  match utxos with
  | [] => Err (InvalidInput "missing input UTXOs")
  | _ =>
      let? selected_utxos := select_utxos utxos requested_amount (is_max_value input) in
      let? available_amount := sum_amounts selected_utxos in
      let? fee := estimate_fee input selected_utxos requested_amount (is_max_value input) in
      let? amount :=
        if is_max_value input then ok_or (checked_sub available_amount fee) InsufficientFunds
        else Ok requested_amount in
      let? spent := ok_or (checked_add amount fee) amount_overflow in
      if available_amount <? spent then Err InsufficientFunds
      else
        let change := available_amount - spent in
        if (0 <? change) && (change <? MIN_OUTPUT_LOVELACE) then
          Ok (MkTransactionPlan selected_utxos amount (as_u64 (fee + change)) 0)
        else Ok (MkTransactionPlan selected_utxos amount fee change)
  end.

(** [sign_transfer]: the checks before a transaction is signed. *)
Definition transfer_transaction (input : LoadInput) (payment_key_hash : bytes) : result SignerError Transaction :=
  let? plan := plan_transfer input in
  let? sender := parse (sender_address input) in
  if bool_decide (payment_hash sender = Some payment_key_hash) then transaction_from_plan input plan
  else Err (InvalidInput "Cardano private key does not match sender address").

End planner.
End CardanoPlanner.

(** ** A reference for CBOR: the data items, their encoding and its inverse *)

Module CborSpec.
Import Cbor.

(** The data items the encoder can write.  A map is the list of its keys and values in turn. *)
Inductive Item :=
| CUint (value : Z)
| CBytes (value : bytes)
| CText (value : bytes)
| CArray (items : list Item)
| CMap (items : list Item)
| CTag (value : Z) (item : Item)
| CTrue
| CNull.

Fixpoint encode (c : Item) : bytes :=
  match c with
  | CUint v => major_type 0 v []
  | CBytes bs => major_type 2 (Z.of_nat (length bs)) [] ++ bs
  | CText bs => major_type 3 (Z.of_nat (length bs)) [] ++ bs
  | CArray l => major_type 4 (Z.of_nat (length l)) [] ++ concat (map encode l)
  | CMap l => major_type 5 (Z.of_nat (Nat.div2 (length l))) [] ++ concat (map encode l)
  | CTag v c => major_type 6 v [] ++ encode c
  | CTrue => [0xf5]
  | CNull => [0xf6]
  end.

(** The first byte and the argument of an item. *)
Definition head (bs : bytes) : option (Z * Z * bytes) :=
  match bs with
  | [] => None
  | b :: r =>
      let major := Z.shiftr b 5 in
      let low := Z.land b 31 in
      let argument n := if (n <=? length r)%nat then Some (major, of_be (take n r), drop n r) else None in
      if low <=? 23 then Some (major, low, r)
      else if low =? 24 then argument 1%nat
      else if low =? 25 then argument 2%nat
      else if low =? 26 then argument 4%nat
      else if low =? 27 then argument 8%nat
      else None
  end.

Fixpoint decode_seq (decode : bytes -> option (Item * bytes)) (n : nat) (bs : bytes) : option (list Item * bytes) :=
  match n with
  | O => Some ([], bs)
  | S n =>
      let?? (c, bs) := decode bs in
      let?? (l, bs) := decode_seq decode n bs in
      Some (c :: l, bs)
  end.

Definition decode_bytes (v : Z) (bs : bytes) : option (bytes * bytes) :=
  if v <=? Z.of_nat (length bs) then Some (take (Z.to_nat v) bs, drop (Z.to_nat v) bs) else None.

(** [fuel] bounds the nesting of items. *)
Fixpoint decode (fuel : nat) (bs : bytes) : option (Item * bytes) :=
  match fuel with
  | O => None
  | S fuel =>
      let?? (major, v, r) := head bs in
      if major =? 0 then Some (CUint v, r)
      else if major =? 2 then let?? (b, r) := decode_bytes v r in Some (CBytes b, r)
      else if major =? 3 then let?? (b, r) := decode_bytes v r in Some (CText b, r)
      else if major =? 4 then let?? (l, r) := decode_seq (decode fuel) (Z.to_nat v) r in Some (CArray l, r)
      else if major =? 5 then let?? (l, r) := decode_seq (decode fuel) (2 * Z.to_nat v) r in Some (CMap l, r)
      else if major =? 6 then let?? (c, r) := decode fuel r in Some (CTag v c, r)
      else if v =? 21 then Some (CTrue, r)
      else if v =? 22 then Some (CNull, r)
      else None
  end.

Definition fits {A} (l : list A) : Prop := Z.of_nat (length l) < 2 ^ 64.

Fixpoint wf (c : Item) : Prop :=
  match c with
  | CUint v => is_u64 v
  | CBytes bs | CText bs => fits bs
  | CArray l => fits l /\ foldr (fun c P => wf c /\ P) True l
  | CMap l => fits l /\ Nat.Even (length l) /\ foldr (fun c P => wf c /\ P) True l
  | CTag v c => is_u64 v /\ wf c
  | CTrue | CNull => True
  end.

Fixpoint depth (c : Item) : nat :=
  match c with
  | CArray l | CMap l => S (foldr (fun c n => Nat.max (depth c) n) O l)
  | CTag _ c => S (depth c)
  | _ => 1
  end.

Lemma Item_induction (P : Item -> Prop) :
  (forall v, P (CUint v)) -> (forall bs, P (CBytes bs)) -> (forall bs, P (CText bs)) ->
  (forall l, Forall P l -> P (CArray l)) -> (forall l, Forall P l -> P (CMap l)) ->
  (forall v c, P c -> P (CTag v c)) -> P CTrue -> P CNull -> forall c, P c.
Proof.
  intros Hu Hb Ht Ha Hm Hg H1 H0.
  refine (fix IH c :=
    let list := fix go l : Forall P l :=
      match l with [] => Forall_nil_2 _ | c :: l => Forall_cons_2 _ _ _ (IH c) (go l) end in
    match c with
    | CUint v => Hu v | CBytes bs => Hb bs | CText bs => Ht bs
    | CArray l => Ha l (list l) | CMap l => Hm l (list l)
    | CTag v c => Hg v c (IH c) | CTrue => H1 | CNull => H0
    end).
Qed.

Lemma major_type_app m v self : major_type m v self = self ++ major_type m v [].
Proof. unfold major_type. repeat (destruct (_ <=? _); [done|]). done. Qed.

Lemma initial_byte m x : 0 <= m < 8 -> 0 <= x < 32 ->
  Z.shiftr (Z.lor (as_u8 (Z.shiftl m 5)) x) 5 = m /\ Z.land (Z.lor (as_u8 (Z.shiftl m 5)) x) 31 = x.
Proof.
  intros Hm Hx. rewrite as_u8_small by (rewrite Z.shiftl_mul_pow2 by lia; unfold in_width; lia).
  rewrite lor_add_disjoint by (unfold in_width; lia).
  rewrite Z.shiftr_div_pow2 by lia. change 31 with (Z.ones 5). rewrite Z.land_ones by lia.
  split; [symmetry; apply (Z.div_unique _ _ _ x)|symmetry; apply (Z.mod_unique _ _ m)]; lia.
Qed.

Lemma head_major m v r : 0 <= m < 8 -> is_u64 v -> head (major_type m v [] ++ r) = Some (m, v, r).
Proof.
  intros Hm Hv. unfold major_type, head. change (2 ^ 64) with 18446744073709551616 in *.
  assert (B : forall n w, in_width (8 * Z.of_nat n) w -> of_be (be_bytes n w) = w)
    by (intros n w W; rewrite of_be_be_bytes; apply Z.mod_small; exact W).
  unfold is_u64, in_width in *.
  destruct (Z.leb_spec v 23).
  { cbn [app]. rewrite (as_u8_small v) by (unfold in_width; lia). destruct (initial_byte m v) as [-> ->]; [lia..|].
    by test_true (v <=? 23). }
  destruct (Z.leb_spec v 255).
  { cbn [app]. rewrite (as_u8_small v) by (unfold in_width; lia). destruct (initial_byte m 24) as [-> ->]; [lia..|].
    cbn. by rewrite drop_0. }
  destruct (Z.leb_spec v 65535).
  { cbn [app]. unfold as_u16. rewrite (wrap_small 16 v) by (unfold in_width; lia).
    destruct (initial_byte m 25) as [-> ->]; [lia..|]. cbn [Z.leb Z.eqb Z.compare Pos.compare Pos.compare_cont Pos.eqb].
    rewrite length_app, be_bytes_length, take_app_length', drop_app_length', B
      by (rewrite ?be_bytes_length; unfold in_width; lia). done. }
  destruct (Z.leb_spec v 4294967295).
  { cbn [app]. unfold as_u32. rewrite (wrap_small 32 v) by (unfold in_width; lia).
    destruct (initial_byte m 26) as [-> ->]; [lia..|]. cbn [Z.leb Z.eqb Z.compare Pos.compare Pos.compare_cont Pos.eqb].
    rewrite length_app, be_bytes_length, take_app_length', drop_app_length', B
      by (rewrite ?be_bytes_length; unfold in_width; lia). done. }
  cbn [app]. destruct (initial_byte m 27) as [-> ->]; [lia..|].
  cbn [Z.leb Z.eqb Z.compare Pos.compare Pos.compare_cont Pos.eqb].
  rewrite length_app, be_bytes_length, take_app_length', drop_app_length', B
    by (rewrite ?be_bytes_length; unfold in_width; lia). done.
Qed.

Lemma encode_cons c : encode c <> [].
Proof.
  assert (M : forall m v r, major_type m v [] ++ r <> [])
    by (intros m v r; unfold major_type; repeat (destruct (_ <=? _); [done|]); done).
  destruct c; try done; cbn [encode]; try apply M. pose proof (M 0 value []) as N. by rewrite app_nil_r in N.
Qed.

Definition wf_items (l : list Item) : Prop := foldr (fun c P => wf c /\ P) True l.

Lemma wf_items_Forall l : wf_items l <-> Forall wf l.
Proof. induction l; cbn; [done|]. rewrite Forall_cons. unfold wf_items in *. by rewrite IHl. Qed.

Definition depth_items (l : list Item) : nat := foldr (fun c n => Nat.max (depth c) n) O l.

Lemma depth_items_le l fuel : (depth_items l <= fuel)%nat -> Forall (fun c => (depth c <= fuel)%nat) l.
Proof. induction l; cbn; [constructor|]. intros. constructor; [lia|]. apply IHl. unfold depth_items. lia. Qed.

Definition decodes (c : Item) : Prop :=
  wf c -> forall fuel r, (depth c <= fuel)%nat -> decode fuel (encode c ++ r) = Some (c, r).

Lemma decode_items l fuel r : Forall decodes l -> wf_items l -> (depth_items l <= fuel)%nat ->
  decode_seq (decode fuel) (length l) (concat (map encode l) ++ r) = Some (l, r).
Proof.
  intros D W%wf_items_Forall F%depth_items_le. revert r.
  induction l as [|c l IH]; intros r; [done|]. inversion D; subst. inversion W; subst. inversion F; subst.
  cbn [length decode_seq map concat]. rewrite <- app_assoc. rewrite (H1 H3 fuel) by done. by rewrite IH.
Qed.

Lemma decode_bytes_app bs r : decode_bytes (Z.of_nat (length bs)) (bs ++ r) = Some (bs, r).
Proof.
  unfold decode_bytes. rewrite length_app. test_true (Z.of_nat (length bs) <=? Z.of_nat (length bs + length r)).
  by rewrite Nat2Z.id, take_app_length, drop_app_length.
Qed.

(** What is encoded is decoded again, whatever follows it. *)
Lemma decode_encode c : decodes c.
Proof.
  induction c using Item_induction; intros W fuel r F; (destruct fuel as [|fuel]; [cbn in F; lia|]);
    cbn [wf depth encode] in *; cbn [decode]; rewrite <- ?app_assoc.
  - by rewrite head_major by (done || lia).
  - rewrite head_major by (unfold fits, in_width in *; lia). cbn [Z.eqb Pos.eqb]. by rewrite decode_bytes_app.
  - rewrite head_major by (unfold fits, in_width in *; lia). cbn [Z.eqb Pos.eqb]. by rewrite decode_bytes_app.
  - destruct W as [L W]. rewrite head_major by (unfold fits, in_width in *; lia). cbn [Z.eqb Pos.eqb].
    rewrite Nat2Z.id, decode_items; [done|done|done|]. unfold depth_items. lia.
  - destruct W as (L & E & W). pose proof (Nat.div2_decr (length l) (length l) ltac:(lia)) as Half.
    rewrite head_major by (unfold fits, in_width in *; clear -L Half; generalize dependent (Nat.div2 (length l)); lia).
    cbn [Z.eqb Pos.eqb]. apply Nat.Even_double in E. unfold Nat.double in E.
    rewrite Nat2Z.id. replace (2 * Nat.div2 (length l))%nat with (length l) by lia.
    rewrite decode_items; [done|done|done|]. unfold depth_items. lia.
  - destruct W as [L W]. rewrite head_major by (done || lia). cbn [Z.eqb Pos.eqb].
    rewrite IHc; [done|done|lia].
  - done.
  - done.
Qed.

Lemma encode_inj c1 c2 r1 r2 : wf c1 -> wf c2 -> encode c1 ++ r1 = encode c2 ++ r2 -> c1 = c2 /\ r1 = r2.
Proof.
  intros W1 W2 E. pose proof (decode_encode c1 W1 (depth c1 + depth c2)%nat r1 ltac:(lia)) as D.
  rewrite E, decode_encode in D by (done || lia). by simplify_eq.
Qed.

End CborSpec.

(** ** Memos *)

Module MemoFacts.
Import CardanoTransaction.

(** What a segment of a memo is: text of 1 to 64 bytes. *)
Definition segment_ok (segment : bytes) : Prop :=
  (1 <= length segment <= MEMO_SEGMENT_SIZE)%nat /\ utf8_valid segment = true.

(** The segments the loop pushes from a state, with the last one. *)
Definition segments_from (memo : bytes) (chars : list bytes) (index start : nat) : list bytes :=
  let '(segments, start) := chunk_loop memo chars index start in
  if (start <? length memo)%nat then segments ++ [drop start memo] else segments.

Lemma segments_from_push memo c chars index start :
  (start < index)%nat -> (MEMO_SEGMENT_SIZE < index + length c - start)%nat ->
  segments_from memo (c :: chars) index start
  = slice memo start index :: segments_from memo chars (index + length c) index.
Proof.
  intros Hs He. unfold segments_from. cbn [chunk_loop]. test_true (start <? index)%nat.
  test_true (MEMO_SEGMENT_SIZE <? index + length c - start)%nat. cbn [andb].
  destruct (chunk_loop memo chars (index + length c) index) as [segments start'].
  by destruct (start' <? length memo)%nat.
Qed.

Lemma segments_from_keep memo c chars index start :
  ((index <= start)%nat \/ (index + length c - start <= MEMO_SEGMENT_SIZE)%nat) ->
  segments_from memo (c :: chars) index start = segments_from memo chars (index + length c) start.
Proof.
  intros H. unfold segments_from. cbn [chunk_loop].
  replace ((start <? index)%nat && (MEMO_SEGMENT_SIZE <? index + length c - start)%nat) with false; [done|].
  symmetry. apply andb_false_iff. destruct H; [left|right]; bfalse.
Qed.

(** A state of the loop: [pre] is pushed, [mid] is the segment being filled, [rest] is to come. *)
Lemma segments_from_ok rest : utf8_valid rest = true -> forall pre mid,
  utf8_valid mid = true -> (length mid <= MEMO_SEGMENT_SIZE)%nat ->
  let segments := segments_from (pre ++ mid ++ rest) (utf8_chars rest) (length pre + length mid) (length pre) in
  concat segments = mid ++ rest /\ Forall segment_ok segments.
Proof.
  revert rest. apply (utf8_induction (fun rest => forall pre mid, utf8_valid mid = true ->
    (length mid <= MEMO_SEGMENT_SIZE)%nat ->
    let segments := segments_from (pre ++ mid ++ rest) (utf8_chars rest) (length pre + length mid) (length pre) in
    concat segments = mid ++ rest /\ Forall segment_ok segments)); cbv zeta.
  - intros pre mid V L. unfold segments_from. cbn [utf8_chars chunk_loop]. rewrite app_nil_r, length_app.
    destruct mid as [|b mid].
    + rewrite Nat.add_0_r. test_false (length pre <? length pre)%nat. done.
    + cbn [length]. test_true (length pre <? length pre + S (length mid))%nat. cbn [app]. rewrite drop_app_length. cbn. rewrite app_nil_r. split; [done|].
      constructor; [|constructor]. split; [cbn in *; lia|done].
  - intros c rest Lc Vc Vr _ E IH pre mid Vm Lm. rewrite E.
    destruct (decide ((0 < length mid)%nat /\ (MEMO_SEGMENT_SIZE < length mid + length c)%nat)) as [[P G]|N].
    + rewrite segments_from_push by lia.
      destruct (IH (pre ++ mid) c Vc ltac:(unfold MEMO_SEGMENT_SIZE; lia)) as [C F].
      rewrite <- app_assoc, length_app in C, F. cbn [concat]. rewrite C. unfold slice.
      replace (length pre + length mid - length pre)%nat with (length mid) by lia.
      rewrite drop_app_length, take_app_length. split; [done|]. constructor; [split; [lia|done]|done].
    + rewrite segments_from_keep by lia.
      destruct (IH pre (mid ++ c) (utf8_valid_app _ _ Vm Vc)) as [C F].
      { rewrite length_app. unfold MEMO_SEGMENT_SIZE in *. lia. }
      rewrite <- app_assoc, length_app, Nat.add_assoc in C, F. done.
Qed.

(** A memo is split into text segments of 1 to 64 bytes, none of which cuts a character, and the
    segments together are the memo: the metadata carries the memo the user gave, in pieces the ledger takes. *)
Theorem memo_segments memo : utf8_valid memo = true ->
  concat (chunk_memo_segments memo) = memo /\ Forall segment_ok (chunk_memo_segments memo).
Proof. intros V. exact (segments_from_ok memo V [] [] eq_refl (Nat.le_0_l _)). Qed.

(** 100 characters of three bytes: segments end on a character, not on the 64th byte. *)
Lemma memo_segments_witness :
  let memo := concat (replicate 100 [0xe2; 0x82; 0xac]) in
  utf8_valid memo = true /\ map length (chunk_memo_segments memo) = [63; 63; 63; 63; 48]%nat /\
  concat (chunk_memo_segments memo) = memo.
Proof. split; [by vm_compute|]. split; [by vm_compute|]. apply memo_segments. by vm_compute. Defined.

End MemoFacts.

(** ** What a signed transaction says *)

Module TransactionFacts.
Import Cbor CborSpec CardanoTransaction MemoFacts.

Definition input_item (input : TransactionInput) : Item :=
  CArray [CBytes (transaction_hash input); CUint (output_index input)].
Definition output_item (output : TransactionOutput) : Item :=
  CArray [CBytes (address output); CUint (amount output)].

(** The metadata: [259({0: {0: {6676: {"memo": [segment, ...]}}}})]. *)
Definition auxiliary_item (segments : list bytes) : Item :=
  CTag AUXILIARY_DATA_TAG (CMap [CUint 0; CMap [CUint 0; CMap [CUint MAYA_PROTOCOL_AUXILIARY_KEY;
    CMap [CText (bytes_of_string "memo"); CArray (map CText segments)]]]]).

Definition memo_text (self : Transaction) : string := default EmptyString (memo self).

Definition auxiliary (self : Transaction) : option Item :=
  match memo_text self with
  | EmptyString => None
  | text => Some (auxiliary_item (chunk_memo_segments (bytes_of_string text)))
  end.

Section transaction.
Context `{CardanoCrates}.

Definition hash_entry (self : Transaction) : list Item :=
  match auxiliary self with Some item => [CUint 7; CBytes (blake2b_256 (encode item))] | None => [] end.

(** The body: a map of the inputs, the outputs, the fee, the expiry and the hash of the metadata. *)
Definition body_item (self : Transaction) : Item :=
  CMap ([CUint 0; CArray (map input_item (inputs self)); CUint 1; CArray (map output_item (outputs self));
         CUint 2; CUint (fee self); CUint 3; CUint (expiration_block_number self)] ++ hash_entry self).

(** The signed transaction: the body, the witnesses, validity and the metadata. *)
Definition signed_item (self : Transaction) (public_key signature : bytes) : Item :=
  CArray [body_item self; CMap [CUint 0; CArray [CArray [CBytes public_key; CBytes signature]]]; CTrue;
          default CNull (auxiliary self)].

Lemma foldl_encoder {A} (f : CborEncoder -> A -> CborEncoder) (g : A -> Item) l encoder :
  (forall encoder x, f encoder x = encoder ++ encode (g x)) ->
  foldl f encoder l = encoder ++ concat (map encode (map g l)).
Proof.
  intros F. revert encoder. induction l as [|x l IH]; intros encoder; cbn; [by rewrite app_nil_r|].
  by rewrite IH, F, <- app_assoc.
Qed.

(** An encoder appends the item its call describes. *)
Lemma unsigned_app v encoder : unsigned v encoder = encoder ++ encode (CUint v).
Proof. apply major_type_app. Qed.
Lemma bytes_app v encoder : bytes_value v encoder = encoder ++ encode (CBytes v).
Proof. unfold bytes_value. by rewrite major_type_app, <- app_assoc. Qed.
Lemma text_app v encoder : text v encoder = encoder ++ encode (CText v).
Proof. unfold text. by rewrite major_type_app, <- app_assoc. Qed.
Lemma array_app n encoder : array n encoder = encoder ++ major_type 4 (Z.of_nat n) [].
Proof. apply major_type_app. Qed.
Lemma map_app n encoder : map_value n encoder = encoder ++ major_type 5 (Z.of_nat n) [].
Proof. apply major_type_app. Qed.
Lemma tag_app v encoder : tag v encoder = encoder ++ major_type 6 v [].
Proof. apply major_type_app. Qed.

#[local] Arguments major_type : simpl never.

Lemma encode_input_app encoder input : encode_input encoder input = encoder ++ encode (input_item input).
Proof.
  unfold encode_input. rewrite unsigned_app, bytes_app, array_app. cbn [encode input_item map concat length].
  by rewrite <- !app_assoc, app_nil_r.
Qed.

Lemma encode_output_app encoder output : encode_output encoder output = encoder ++ encode (output_item output).
Proof.
  unfold encode_output. rewrite unsigned_app, bytes_app, array_app. cbn [encode output_item map concat length].
  by rewrite <- !app_assoc, app_nil_r.
Qed.

Lemma auxiliary_bytes self : auxiliary_data_bytes self = encode <$> auxiliary self.
Proof.
  unfold auxiliary_data_bytes, auxiliary, memo_text. destruct (memo self) as [[|a m]|]; [done| |done].
  cbn [default from_option id fmap option_fmap option_map]. f_equal. cbv zeta.
  rewrite (foldl_encoder _ CText) by (intros; apply text_app).
  rewrite array_app, text_app, !map_app, !unsigned_app, tag_app.
  unfold auxiliary_item. cbn [encode List.map concat length Nat.div2 new]. rewrite length_map.
  by rewrite <- ?app_assoc, ?app_nil_r.
Qed.

Lemma body_encode self : body_bytes self = encode (body_item self).
Proof.
  unfold body_bytes, body_item, hash_entry. rewrite auxiliary_bytes. cbv zeta.
  rewrite (foldl_encoder encode_output output_item) by apply encode_output_app.
  rewrite (foldl_encoder encode_input input_item) by apply encode_input_app.
  rewrite !array_app, !map_app, !unsigned_app. cbn [encode List.map concat].
  destruct (auxiliary self) as [item|]; cbn [fmap option_fmap option_map];
    try rewrite bytes_app, unsigned_app; cbn [encode List.map concat app length Nat.div2 new]; rewrite ?length_map;
    by rewrite <- ?app_assoc, ?app_nil_r.
Qed.

Lemma signed_encode self public_key signature :
  signed_bytes self public_key signature = encode (signed_item self public_key signature).
Proof.
  unfold signed_bytes, signed_item. rewrite body_encode, auxiliary_bytes. cbv zeta. unfold raw, null, true_value.
  rewrite !bytes_app, !array_app, unsigned_app, map_app.
  generalize (body_item self). intros body.
  destruct (auxiliary self) as [item|]; cbn [fmap option_fmap option_map default from_option id];
    cbn [encode List.map concat app length Nat.div2 new]; by rewrite <- ?app_assoc, ?app_nil_r.
Qed.

Lemma map_inj {A B} (f : A -> B) l1 l2 : (forall x y, f x = f y -> x = y) -> map f l1 = map f l2 -> l1 = l2.
Proof. intros I. revert l2. induction l1; intros [|]; cbn; [done..|]. intros [= Ex El]. f_equal; auto. Qed.

(** What the types of the source give: 32-byte hashes, [u64] amounts, a memo that is text. *)
Record transaction_ok (self : Transaction) : Prop := {
  inputs_ok : fits (inputs self) /\
    Forall (fun i => length (transaction_hash i) = 32%nat /\ is_u64 (output_index i)) (inputs self);
  outputs_ok : fits (outputs self) /\ Forall (fun o => fits (address o) /\ is_u64 (amount o)) (outputs self);
  fee_ok : is_u64 (fee self);
  expiration_ok : is_u64 (expiration_block_number self);
  memo_ok : utf8_valid (bytes_of_string (memo_text self)) = true /\ fits (bytes_of_string (memo_text self))
}.

Lemma fits_small {A} (l : list A) n : length l = n -> (n <= 1000)%nat -> fits l.
Proof. unfold fits. intros -> ?. change (2 ^ 64) with 18446744073709551616. lia. Qed.

Lemma segments_fit bs l : Forall segment_ok l -> concat l = bs -> fits bs -> fits l /\ Forall fits l.
Proof.
  intros F <- L. assert (length l <= length (concat l) /\ Forall (fun x => (length x <= length (concat l))%nat) l)%nat
    as [B1 B2].
  { clear L. induction F as [|x l [[Hx _] _] _ [I1 I2]]; cbn; [by split|]. rewrite length_app.
    split; [lia|]. constructor; [lia|]. eapply Forall_impl; [exact I2|]. cbn. lia. }
  unfold fits in *. split; [lia|]. eapply Forall_impl; [exact B2|]. cbn. lia.
Qed.

Lemma wf_auxiliary self item : transaction_ok self -> auxiliary self = Some item -> wf item.
Proof.
  intros [_ _ _ _ [V L]]. unfold auxiliary. destruct (memo_text self) as [|a m]; [done|]. intros E.
  assert (item = auxiliary_item (chunk_memo_segments (bytes_of_string (String a m)))) as -> by congruence.
  destruct (memo_segments _ V) as [C F]. destruct (segments_fit _ _ F C L) as [L1 L2].
  unfold auxiliary_item. revert L1 L2. generalize (chunk_memo_segments (bytes_of_string (String a m))). intros l L1 L2.
  assert (wf_items (map CText l) /\ fits (map CText l)) as [W1 W2].
  { split; [|unfold fits; by rewrite length_map]. apply wf_items_Forall, Forall_map. exact L2. }
  cbn [wf foldr]. fold (wf_items (map CText l)).
  split_and!; try done; try (by exists 1%nat).
Qed.

Lemma wf_signed (laws : CardanoCratesLaws) self public_key signature : transaction_ok self ->
  fits public_key -> fits signature -> wf (signed_item self public_key signature).
Proof.
  intros ok Fp Fs. assert (wf (body_item self)) as W.
  { destruct ok as [[I1 I2] [O1 O2] F E _]. unfold body_item.
    assert (wf_items (map input_item (inputs self))) as Wi.
    { apply wf_items_Forall, Forall_map. eapply Forall_impl; [exact I2|]. intros i [Hi1 Hi2]. cbn.
      split_and!; try done. eapply fits_small; [exact Hi1|lia]. }
    assert (wf_items (map output_item (outputs self))) as Wo.
    { apply wf_items_Forall, Forall_map. eapply Forall_impl; [exact O2|]. intros i [Hi1 Hi2]. cbn.
      by split_and!. }
    assert (fits (map input_item (inputs self)) /\ fits (map output_item (outputs self))) as [L1 L2]
      by (unfold fits; by rewrite !length_map).
    unfold hash_entry. destruct (auxiliary self) as [item|];
      cbn [app wf foldr]; fold (wf_items (map input_item (inputs self)));
      fold (wf_items (map output_item (outputs self))).
    - split_and!; try done; [by exists 5%nat|]. eapply fits_small; [apply blake2b_length; exact laws|lia].
    - split_and!; try done. by exists 4%nat. }
  unfold signed_item. cbn [wf foldr]. split_and!; try done; [by exists 1%nat|].
  destruct (auxiliary self) as [item|] eqn:A; [|done]. by eapply wf_auxiliary.
Qed.

Lemma auxiliary_item_inj l1 l2 : auxiliary_item l1 = auxiliary_item l2 -> l1 = l2.
Proof. intros [= E]. apply map_inj in E; congruence. Qed.

Lemma auxiliary_inj self1 self2 : transaction_ok self1 -> transaction_ok self2 ->
  default CNull (auxiliary self1) = default CNull (auxiliary self2) -> memo_text self1 = memo_text self2.
Proof.
  intros [_ _ _ _ [V1 _]] [_ _ _ _ [V2 _]]. unfold auxiliary.
  destruct (memo_text self1) as [|a1 m1], (memo_text self2) as [|a2 m2]; [done|done|done|]. intros E.
  apply memo_segments in V1 as [C1 _], V2 as [C2 _].
  apply auxiliary_item_inj in E. rewrite E, C2 in C1.
  by rewrite <- (HexFacts.string_of_bytes_of_string (String a1 m1)), <- C1, HexFacts.string_of_bytes_of_string.
Qed.

(** (C2) The bytes submitted determine the transaction: two transactions with the same signed bytes spend
    the same outputs, pay the same addresses the same amounts and fee, expire at the same slot, carry the
    same memo (no memo and the empty one are the same) and the same key and signature. *)
Theorem signed_bytes_injective (laws : CardanoCratesLaws) self1 self2 key1 key2 signature1 signature2 :
  transaction_ok self1 -> transaction_ok self2 ->
  fits key1 -> fits key2 -> fits signature1 -> fits signature2 ->
  signed_bytes self1 key1 signature1 = signed_bytes self2 key2 signature2 ->
  inputs self1 = inputs self2 /\ outputs self1 = outputs self2 /\ fee self1 = fee self2 /\
  expiration_block_number self1 = expiration_block_number self2 /\ memo_text self1 = memo_text self2 /\
  key1 = key2 /\ signature1 = signature2.
Proof.
  intros ok1 ok2 K1 K2 S1 S2 E. rewrite !signed_encode in E.
  pose proof (wf_signed laws _ _ _ ok1 K1 S1) as W1. pose proof (wf_signed laws _ _ _ ok2 K2 S2) as W2.
  apply (f_equal (fun bs => bs ++ [])) in E. apply (encode_inj _ _ _ _ W1 W2) in E as [E _]. clear W1 W2.
  injection E as Ei Eo Ef Ee _ Ek Es Ea.
  apply map_inj in Ei; [|by intros [] [] [= <- <-]]. apply map_inj in Eo; [|by intros [] [] [= <- <-]].
  repeat split; try done. by apply auxiliary_inj.
Qed.

End transaction.

End TransactionFacts.

(** ** Addresses are well formed *)

Module AddressFacts.
Import BitcoinPlanner ShelleyAddress.

(** A mainnet base address of a payment and a stake key, or an enterprise address of a payment key. *)
Definition address_ok (a : ShelleyAddress) : Prop :=
  (header a = 0x01 /\ length a = 57%nat) \/ (header a = 0x61 /\ length a = 29%nat).

Lemma header_of_nibbles a t n : address_type a = t -> network_id a = n -> header a = 16 * t + n.
Proof.
  unfold address_type, network_id. intros <- <-. change 0x0f with (Z.ones 4).
  rewrite Z.shiftr_div_pow2, Z.land_ones by lia. apply Z.div_mod. done.
Qed.

Lemma from_bytes_ok_iff bs a : from_bytes bs = Ok a <-> bs = a /\ address_ok a.
Proof.
  split.
  - unfold from_bytes. destruct bs as [|b bs]; [done|]. set (a' := b :: bs).
    destruct (network_id a' =? _) eqn:N; [|done]. cbn [negb]. zbool.
    destruct (address_type a' =? BASE_KEY_ADDRESS_TYPE) eqn:B; zbool.
    + destruct (length a' =? _)%nat eqn:L; [|done]. cbn [negb]. zbool. intros [= <-]. split; [done|].
      left. split; [by apply (header_of_nibbles a' 0 1)|done].
    + destruct (address_type a' =? ENTERPRISE_KEY_ADDRESS_TYPE) eqn:T; [|done]. zbool.
      destruct (length a' =? _)%nat eqn:L; [|done]. cbn [negb]. zbool. intros [= <-]. split; [done|].
      right. split; [by apply (header_of_nibbles a' 6 1)|done].
  - intros [-> O]. unfold from_bytes. destruct a as [|b a]; [by destruct O as [[? ?]|[? ?]]|].
    unfold network_id, address_type.
    destruct O as [[-> L]|[-> L]]; rewrite L; done.
Qed.

Lemma payment_hash_ok a : address_ok a -> exists hash, payment_hash a = Some hash /\ length hash = 28%nat.
Proof.
  intros O. exists (take KEY_HASH_LENGTH (drop ADDRESS_HEADER_LENGTH a)). unfold payment_hash.
  assert (29 <= length a)%nat as L by (destruct O as [[_ ?]|[_ ?]]; lia).
  replace (ADDRESS_HEADER_LENGTH + KEY_HASH_LENGTH <=? length a)%nat with true
    by (symmetry; apply Nat.leb_le; exact L).
  split; [done|]. rewrite length_take, length_drop. unfold KEY_HASH_LENGTH, ADDRESS_HEADER_LENGTH. lia.
Qed.

Section address.
Context `{CardanoCrates} (laws : CardanoCratesLaws).

(** An address the wallet accepts is a mainnet base or enterprise address of its exact length, so its
    payment hash of 28 bytes can be read without a panic; an address built from two key hashes is one, and
    an encoded address, which is bytes, is parsed to itself. *)
Theorem address_well_formed :
  (forall s a, parse s = Ok a -> address_ok a /\ exists hash, payment_hash a = Some hash /\ length hash = 28%nat) /\
  (forall payment stake, length payment = 28%nat -> length stake = 28%nat ->
     address_ok (from_public_key_hashes payment stake) /\
     payment_hash (from_public_key_hashes payment stake) = Some payment) /\
  (forall a s, address_ok a -> all_bytes a -> encode a = Ok s -> parse s = Ok a).
Proof.
  split; [|split].
  - intros s a. unfold parse. destruct (bech32_decode s) as [[hrp bs]|]; [|done]. cbn.
    destruct (String.eqb hrp ADDRESS_HRP); [|done]. intros [-> O]%from_bytes_ok_iff.
    split; [done|by apply payment_hash_ok].
  - intros payment stake Lp Ls. split.
    + left. split; [done|]. unfold from_public_key_hashes. cbn [length]. rewrite length_app. lia.
    + unfold payment_hash, from_public_key_hashes. cbn [length]. rewrite length_app, Lp, Ls. cbn -[take].
      f_equal. by apply take_app_length'.
  - intros a s O By. unfold encode, parse. destruct (bech32_encode ADDRESS_HRP a) as [s'|] eqn:E; [|done].
    intros [= <-]. apply (bech32_roundtrip laws) in E; [|done..]. rewrite E. cbn. by apply from_bytes_ok_iff.
Qed.

End address.
End AddressFacts.

(** ** Plans conserve value *)

Module CardanoFacts.
Import BitcoinPlanner CardanoTransaction ShelleyAddress CardanoPlanner AddressFacts.

Definition total (utxos : list UTXO) : Z := sum utxo_value utxos.

Lemma utxo_amount_ok u a : utxo_amount u = Ok a -> a = utxo_value u /\ a <= U64_MAX /\ a <> 0.
Proof.
  unfold utxo_amount, value_u64. destruct (utxo_value u <=? U64_MAX) eqn:E; [|done]. cbn [ok_or].
  destruct (utxo_value u =? 0) eqn:Z0; [done|]. intros [= <-]. zbool. done.
Qed.

Lemma sum_amounts_from utxos s a : try_fold (fun sum utxo =>
    let? amount := utxo_amount utxo in ok_or (checked_add sum amount) amount_overflow) s utxos = Ok a ->
  s <= U64_MAX -> a = s + total utxos /\ a <= U64_MAX.
Proof.
  revert s. induction utxos as [|u utxos IH]; intros s; cbn [try_fold].
  - intros [= <-] L. unfold total. cbn. lia.
  - destruct (utxo_amount u) as [v|] eqn:V; [|done]. apply utxo_amount_ok in V as (-> & _ & _).
    unfold checked_add. destruct (s + utxo_value u <=? U64_MAX) eqn:L; [|done]. cbn [ok_or]. zbool.
    intros A _. apply IH in A as [-> A]; [|done]. change (total (u :: utxos)) with (utxo_value u + total utxos). lia.
Qed.

Lemma sum_amounts_ok utxos a : sum_amounts utxos = Ok a -> a = total utxos /\ a <= U64_MAX.
Proof. intros A. apply sum_amounts_from in A; [|done]. by rewrite Z.add_0_l in A. Qed.

Lemma select_loop_prefix target candidates s selected : select_loop target candidates s = Ok selected ->
  exists k, selected = map fst (take k candidates).
Proof.
  revert s selected. induction candidates as [|[u a] candidates IH]; intros s selected; cbn [select_loop].
  - intros [= <-]. by exists O.
  - destruct (checked_add s a) as [s'|]; [|done]. cbn [ok_or]. destruct (target <=? s'); [intros [= <-]; by exists 1%nat|].
    destruct (select_loop target candidates s') as [l|] eqn:L; [|done]. intros [= <-].
    apply IH in L as [k ->]. by exists (S k).
Qed.

(** What is selected are some of the UTXOs, none of them twice. *)
Lemma select_utxos_sub utxos amount max_amount selected :
  select_utxos utxos amount max_amount = Ok selected -> selected ⊆+ utxos.
Proof.
  unfold select_utxos. destruct max_amount; [by intros [= <-]|].
  destruct (selection_target amount) as [target|]; [|done]. cbn [ok_or].
  destruct (collect _ utxos) as [candidates|] eqn:C; [|done].
  destruct (select_loop target _ 0) as [l|] eqn:L; [|done]. intros E.
  assert (l = selected) as -> by (destruct l; congruence). apply select_loop_prefix in L as [k ->].
  assert (map fst candidates = utxos) as <-.
  { clear -C. apply collect_ok_iff in C. induction C as [|u [u' a] us cs Hu _ IH]; [done|]. cbn.
    destruct (utxo_amount u); [|done]. injection Hu as <- _. by rewrite IH. }
  apply (fmap_submseteq fst). transitivity (sort_by largest_first candidates).
  - apply sublist_submseteq, sublist_take.
  - apply Permutation_submseteq, PlannerFacts.sort_permutation.
Qed.

Section planner.
Context `{Hex, CardanoCrates}.

(** The UTXOs a plan may spend. *)
Definition spendable (input : LoadInput) (sender : ShelleyAddress) (utxos : list UTXO) : Prop :=
  metadata_utxos input = Ok utxos /\
  Forall (fun u => exists a, parse (utxo_address u) = Ok a /\ payment_hash a = payment_hash sender) utxos.

Lemma utxos_from_metadata_ok input utxos : utxos_from_metadata (metadata_utxos input) (sender_address input) = Ok utxos ->
  exists sender, parse (sender_address input) = Ok sender /\ spendable input sender utxos.
Proof.
  unfold utxos_from_metadata. destruct (parse (sender_address input)) as [sender|] eqn:P; [|done].
  destruct (metadata_utxos input) as [us|] eqn:M; [|done].
  destruct (collect (check_utxo sender) us) as [l|] eqn:C; [|done]. intros [= <-]. exists sender. split; [done|].
  split; [done|]. apply collect_ok_iff in C. clear -C. induction C as [|u y us l U _ IH]; constructor; [|done].
  unfold check_utxo in U. destruct (utxo_transaction_input u); [|done]. destruct (utxo_amount u); [|done].
  destruct (parse (utxo_address u)) as [address|] eqn:A; [|done]. destruct (bool_decide _) eqn:B; [|done].
  exists address. split; [done|]. by apply bool_decide_eq_true in B.
Qed.

Lemma estimate_fee_nonneg input utxos amount max fee : estimate_fee input utxos amount max = Ok fee -> 0 <= fee.
Proof.
  unfold estimate_fee. destruct (sum_amounts utxos); [|done]. cbv zeta.
  destruct (transaction_from_plan input _) as [tx|]; [|done]. intros [= <-]. unfold transaction_fee.
  pose proof (div_ceil_spec (as_u64 (FEE_CONSTANT_MILLI_LOVELACE + as_u64 (Z.of_nat (signed_size tx) * FEE_COEFFICIENT_MILLI_LOVELACE)))
    MILLI_LOVELACE eq_refl) as [_ U].
  pose proof (wrap_width 64 (FEE_CONSTANT_MILLI_LOVELACE + as_u64 (Z.of_nat (signed_size tx) * FEE_COEFFICIENT_MILLI_LOVELACE)) ltac:(lia)) as [L _].
  fold (as_u64 (FEE_CONSTANT_MILLI_LOVELACE + as_u64 (Z.of_nat (signed_size tx) * FEE_COEFFICIENT_MILLI_LOVELACE))) in L.
  unfold MILLI_LOVELACE in *. lia.
Qed.

(** What a plan promises. *)
Record plan_ok (input : LoadInput) (sender : ShelleyAddress) (plan : TransactionPlan) : Prop := {
  plan_sender : parse (sender_address input) = Ok sender;
  plan_utxos : exists all, spendable input sender all /\ utxos plan ⊆+ all;
  plan_conserves : total (utxos plan) = plan_amount plan + plan_fee plan + plan_change plan;
  plan_change_ok : plan_change plan = 0 \/ MIN_OUTPUT_LOVELACE <= plan_change plan;
  plan_amount_ok : if is_max_value input then plan_change plan = 0 else plan_amount plan = value input;
  plan_range : 0 <= plan_amount plan /\ 0 <= plan_fee plan /\ total (utxos plan) <= U64_MAX
}.

Lemma plan_transfer_ok input plan : 0 <= value input -> plan_transfer input = Ok plan ->
  exists sender, plan_ok input sender plan.
Proof.
  intros V. unfold plan_transfer. destruct (check_input_type (input_type input)); [|done].
  unfold value_as_u64. destruct (value input <=? U64_MAX); [|done].
  destruct (utxos_from_metadata _ _) as [all|] eqn:M; [|done]. apply utxos_from_metadata_ok in M as (sender & P & S).
  destruct all as [|u all]; [done|]. set (us := u :: all) in *.
  destruct (select_utxos us (value input) (is_max_value input)) as [selected|] eqn:Sel; [|done].
  apply select_utxos_sub in Sel.
  destruct (sum_amounts selected) as [available|] eqn:A; [|done]. apply sum_amounts_ok in A as [-> A].
  destruct (estimate_fee _ _ _ _) as [fee|] eqn:F; [|done]. apply estimate_fee_nonneg in F.
  intros E. exists sender.
  assert (exists amount, 0 <= amount /\ amount + fee <= total selected /\
    (if is_max_value input then amount + fee = total selected else amount = value input) /\
    plan = if (0 <? total selected - (amount + fee)) && (total selected - (amount + fee) <? MIN_OUTPUT_LOVELACE)
           then MkTransactionPlan selected amount (as_u64 (fee + (total selected - (amount + fee)))) 0
           else MkTransactionPlan selected amount fee (total selected - (amount + fee))) as (amount & A0 & A1 & A2 & ->).
  { exists (if is_max_value input then total selected - fee else value input). unfold checked_sub, checked_add in E.
    destruct (is_max_value input); [destruct (fee <=? total selected) eqn:L; [|done]|]; cbn [ok_or] in E;
      (destruct (_ + fee <=? U64_MAX); [|done]); cbn [ok_or] in E;
      (destruct (total selected <? _) eqn:T; [done|]); cbv zeta in E; zbool;
      (split; [lia|]; split; [lia|]; split; [lia|]); destruct (_ && _); by injection E as <-. }
  clear E. set (change := total selected - (amount + fee)) in *.
  destruct ((0 <? change) && (change <? MIN_OUTPUT_LOVELACE)) eqn:D.
  - zbool. assert (as_u64 (fee + change) = fee + change) as W
      by (apply wrap_small; unfold in_width, U64_MAX, change in *; lia).
    split; cbn [utxos plan_amount plan_fee plan_change]; rewrite ?W; try done.
    + by exists us.
    + unfold change. lia.
    + by left.
    + by destruct (is_max_value input).
    + repeat split; unfold change in *; lia.
  - split; cbn [utxos plan_amount plan_fee plan_change]; try done.
    + by exists us.
    + unfold change. lia.
    + apply andb_false_iff in D as [D|D]; zbool; unfold change in *; lia.
    + destruct (is_max_value input); unfold change; [lia|done].
Qed.

(** A part of a list in which every item gives something keeps the items apart that the whole list keeps apart. *)
Lemma collect_NoDup {A B E} (f : A -> result E B) spent all bs : spent ⊆+ all -> collect f spent = Ok bs ->
  NoDup (omap (fun x => ok (f x)) all) -> NoDup bs.
Proof.
  intros [k P]%submseteq_Permutation C N. assert (omap (fun x => ok (f x)) spent = bs) as <-.
  { apply collect_ok_iff in C. clear P N. induction C as [|x y spent bs Fx _ IH]; cbn; [done|]. rewrite Fx. cbn. by f_equal. }
  rewrite P, omap_app in N. by apply NoDup_app in N as [N _].
Qed.

(** (C11) A transaction that is signed spends only UTXOs of the signing key, each at most as often as the metadata lists it - so
    that no output is spent twice unless the node lists it twice - and what they hold is exactly what the outputs and the fee add up to.  It pays the destination the amount asked for (or,
    for the whole balance, all but the fee, with no change) and returns change only to the sender, of at
    least the ledger's minimum; smaller change goes to the fee. *)
Theorem transfer_conserves input key tx : 0 <= value input -> transfer_transaction input key = Ok tx ->
  exists sender destination spent all amount,
    parse (sender_address input) = Ok sender /\ payment_hash sender = Some key /\
    parse (transaction_destination_address input) = Ok destination /\
    spendable input sender all /\ spent ⊆+ all /\ collect utxo_transaction_input spent = Ok (inputs tx) /\
    (NoDup (omap (fun utxo => ok (utxo_transaction_input utxo)) all) -> NoDup (inputs tx)) /\
    total spent = sum CardanoTransaction.amount (outputs tx) + fee tx /\
    (outputs tx = [MkOutput destination amount] \/
     is_max_value input = false /\ exists change, MIN_OUTPUT_LOVELACE <= change /\
       outputs tx = [MkOutput destination amount; MkOutput sender change]) /\
    (is_max_value input = false -> amount = value input).
Proof.
  intros V. unfold transfer_transaction. destruct (plan_transfer input) as [plan|] eqn:P; [|done].
  destruct (plan_transfer_ok input plan V P) as [sender [Ps (all & Sp & Sub) Co Ch Am (R0 & R1 & _)]]. rewrite Ps.
  destruct (bool_decide _) eqn:K; [|done]. apply bool_decide_eq_true in K.
  unfold transaction_from_plan. destruct (parse (transaction_destination_address input)) as [destination|]; [|done].
  destruct (metadata_block_number input) as [block|]; [|done]. cbv zeta. rewrite Ps.
  destruct (0 <? plan_change plan) eqn:C; zbool;
    (destruct (collect utxo_transaction_input (utxos plan)) as [ins|] eqn:I; [|done]); intros [= <-];
    exists sender, destination, (utxos plan), all, (plan_amount plan);
    cbn [inputs outputs fee app sum CardanoTransaction.amount];
    (do 6 (split; [done|])); (split; [by eapply collect_NoDup|]); (split; [cbn; unfold MIN_OUTPUT_LOVELACE in *; lia|]).
  - destruct (is_max_value input); [lia|]. split; [right|done]. split; [done|]. exists (plan_change plan).
    split; [|done]. lia.
  - split; [by left|]. intros E. by rewrite E in Am.
Qed.

End planner.
End CardanoFacts.

(** ** Concrete transfers *)

Module CardanoConcrete.
Import BitcoinPlanner CardanoTransaction ShelleyAddress CardanoPlanner AddressFacts TransactionFacts CardanoFacts HexConcrete.

(** An address text of hexadecimal digits and a constant hash, in place of the crates. *)
Definition text_of (hrp : string) (bs : bytes) : option string :=
  if bool_decide (all_bytes bs) && String.eqb hrp "addr" then Some ("addr1" +:+ to_hex bs) else None.
Definition bytes_of (s : string) : option (string * bytes) :=
  match s with
  | String "a" (String "d" (String "d" (String "r" (String "1" digits)))) => pair "addr" <$> of_hex digits
  | _ => None
  end.

#[local] Instance crates : CardanoCrates :=
  {| bech32_decode := bytes_of; bech32_encode := text_of; blake2b_256 := fun _ => replicate 32 7 |}.

Lemma crates_laws : CardanoCratesLaws.
Proof.
  split.
  - intros hrp bs s _ _. cbn [bech32_encode crates]. unfold text_of. destruct (bool_decide (all_bytes bs)) eqn:B; [|done].
    apply bool_decide_eq_true in B. destruct (String.eqb_spec hrp "addr") as [->|]; [|done]. intros [= <-].
    cbn [bech32_decode crates]. change (pair "addr" <$> of_hex (to_hex bs) = Some ("addr", bs)). by rewrite of_to_hex.
  - intros bs. apply length_replicate.
  - intros bs. apply Forall_replicate. by unfold in_width.
Qed.

Definition payment : bytes := replicate 28 17.
Definition sender : bytes := from_public_key_hashes payment (replicate 28 34).
Definition recipient : bytes := 0x61 :: replicate 28 51.
Definition sender_text : string := "addr1" +:+ to_hex sender.
Definition recipient_text : string := "addr1" +:+ to_hex recipient.
Definition coin (id : Z) (value : Z) : UTXO := MkUTXO (to_hex (replicate 32 id)) 0 value sender_text.

Definition request (coins : list UTXO) (value : Z) (all : bool) : LoadInput :=
  MkLoadInput (Transfer Chains.Cardano true) sender_text recipient_text value all None (Ok coins) (Ok 100000).

Lemma address_well_formed_witness :
  parse sender_text = Ok sender /\ exists hash, payment_hash sender = Some hash /\ length hash = 28%nat.
Proof. split; [by vm_compute|]. apply (proj1 (address_well_formed crates_laws) sender_text). by vm_compute. Defined.

(** Two coins, 2 ADA sent: the larger coin is enough and the rest comes back. *)
Definition coins : list UTXO := [coin 1 3000000; coin 2 5000000].
Definition sent : result SignerError Transaction := transfer_transaction (request coins 2000000 false) payment.

Lemma transfer_conserves_witness : exists tx, sent = Ok tx /\
  map CardanoTransaction.amount (outputs tx) = [2000000; 2832578] /\ fee tx = 167422 /\
  NoDup (inputs tx) /\
  exists spent, spent ⊆+ coins /\ total spent = sum CardanoTransaction.amount (outputs tx) + fee tx.
Proof.
  destruct sent as [tx|] eqn:E; [|by vm_compute in E]. exists tx.
  destruct (transfer_conserves (request coins 2000000 false) payment tx ltac:(done) E)
    as (sd & dst & spent & all & amount & _ & _ & _ & [A _] & Sub & _ & N & T & _).
  split; [done|]. split; [vm_compute in E; by injection E as <-|]. split; [vm_compute in E; by injection E as <-|].
  injection A as <-. split; [apply N; vm_compute; apply NoDup_cons; split; [by intros [= ?]%list_elem_of_singleton|apply NoDup_singleton]|].
  by exists spent.
Defined.

(** The fee is estimated for a transaction whose change is smaller than the one signed.  Where the two lie
    on different sides of 2^32 the change takes four bytes more and the fee is below the ledger's minimum. *)
Example fee_below_minimum :
  match transfer_transaction (request [coin 1 (2 ^ 32 + 2169000)] 2000000 false) payment with
  | Ok tx => (fee tx, transaction_fee (Z.of_nat (signed_size tx))) = (167422, 167598)
  | Err _ => False
  end.
Proof. by vm_compute. Qed.

(** No memo and the empty memo are the same bytes. *)
Definition payment_with (memo : option string) : Transaction :=
  MkTransaction [MkInput (replicate 32 1) 0] [MkOutput recipient 2000000] 170000 107200 memo.

Lemma signed_bytes_injective_witness :
  let tx1 := payment_with None in let tx2 := payment_with (Some EmptyString) in
  transaction_ok tx1 /\ transaction_ok tx2 /\ inputs tx1 = inputs tx2 /\ memo_text tx1 = memo_text tx2.
Proof.
  intros tx1 tx2. assert (transaction_ok tx1 /\ transaction_ok tx2) as [ok1 ok2].
  { split; split; cbn; unfold CborSpec.fits, in_width; split_and!; try done;
      repeat constructor; try done; by rewrite ?length_replicate. }
  split; [done|]. split; [done|].
  destruct (signed_bytes_injective crates_laws tx1 tx2 [1] [1] [2] [2] ok1 ok2) as (I & _ & _ & _ & M & _);
    try done; by vm_compute.
Defined.

End CardanoConcrete.
