(* ===== verification/TransferAmount.v ===== *)
(** * What a transaction spends

    Models of [primitives/src]: gas prices and fees ([gas_price_type.rs], [transaction_fee.rs]; module
    [GasPrices]), the data of stakes, swaps and calls ([Payloads]), the kinds of transactions
    ([transaction_input_type.rs]; [InputTypes]) and the amount a transfer takes from a balance
    ([transfer_amount.rs]; [TransferAmounts]).  A [BigInt] is an integer, a [BigUint] one that is not negative.
    Floating-point fields (prices, rates, profits), which no operation here reads, are left out of the records. *)
From S2P Require Import Prelude ChainRegistry Assets Transactions BitcoinPlanner.
Import Assets.AssetIds Assets.Assets.

(** ** [gas_price_type.rs] and [transaction_fee.rs] *)

Module GasPrices.
Import BitcoinPlanner.

Inductive GasPriceType :=
| Regular (gas_price : Z)
| Eip1559 (gas_price priority_fee : Z)
| SolanaPrice (gas_price priority_fee unit_price : Z).

Definition gas_price (self : GasPriceType) : Z :=
  match self with Regular gas_price | Eip1559 gas_price _ | SolanaPrice gas_price _ _ => gas_price end.

Definition priority_fee (self : GasPriceType) : Z :=
  match self with Regular _ => 0 | Eip1559 _ priority_fee | SolanaPrice _ priority_fee _ => priority_fee end.

Definition unit_price (self : GasPriceType) : Z :=
  match self with Regular _ | Eip1559 _ _ => 0 | SolanaPrice _ _ unit_price => unit_price end.

Definition total_fee (self : GasPriceType) : Z := gas_price self + priority_fee self.

Definition custom (self : GasPriceType) (gas_price : Z) : GasPriceType :=
  match self with
  | Regular _ => Regular gas_price
  | Eip1559 _ priority_fee => let tip := Z.min priority_fee gas_price in Eip1559 (gas_price - tip) tip
  | SolanaPrice _ priority_fee unit_price => SolanaPrice gas_price priority_fee unit_price
  end.

Inductive FeeOption := TokenAccountCreation.

#[export] Instance FeeOption_eq_dec : EqDecision FeeOption.
Proof. solve_decision. Defined.

(** The options are the entries of a [HashMap]: their keys are distinct. *)
Record TransactionFee := MkFee {
  fee : Z;
  gas_price_type : GasPriceType;
  gas_limit : Z;
  options : list (FeeOption * Z);
  fee_asset : AssetId
}.

Definition new_from_fee (fee : Z) (fee_asset : AssetId) : TransactionFee := MkFee fee (Regular fee) 0 [] fee_asset.

Definition new_from_fee_with_option (fee : Z) (option : FeeOption) (option_value : Z) (fee_asset : AssetId)
  : TransactionFee :=
  MkFee (fee + option_value) (Regular fee) 0 [(option, option_value)] fee_asset.

Definition new_gas_price_type (gas_price_type : GasPriceType) (base_fee gas_limit : Z) (options : list (FeeOption * Z))
  (fee_asset : AssetId) : TransactionFee :=
  MkFee (base_fee + sum snd options) gas_price_type gas_limit options fee_asset.

Definition calculate (gas_limit : Z) (gas_price_type : GasPriceType) (fee_asset : AssetId) : TransactionFee :=
  MkFee (gas_price gas_price_type * gas_limit) gas_price_type gas_limit [] fee_asset.

(** [to_u64] of a [BigInt] *)
Definition to_u64 (value : Z) : option Z := if (0 <=? value) && (value <=? U64_MAX) then Some value else None.

Definition fee_u64 (self : TransactionFee) : result SignerError Z :=
  ok_or (to_u64 (fee self)) (InvalidInput "invalid fee").

Definition gas_limit_u64 (self : TransactionFee) : result SignerError Z :=
  let? gas_limit := ok_or (to_u64 (gas_limit self)) (InvalidInput "invalid gas limit") in
  if gas_limit =? 0 then Err (InvalidInput "missing gas limit") else Ok gas_limit.

Definition gas_price_u64 (self : TransactionFee) : result SignerError Z :=
  ok_or (to_u64 (gas_price (gas_price_type self))) (InvalidInput "invalid gas price").
Definition priority_fee_u64 (self : TransactionFee) : result SignerError Z :=
  ok_or (to_u64 (priority_fee (gas_price_type self))) (InvalidInput "invalid priority fee").
Definition unit_price_u64 (self : TransactionFee) : result SignerError Z :=
  ok_or (to_u64 (unit_price (gas_price_type self))) (InvalidInput "invalid unit price").

End GasPrices.

(** ** [swap_provider.rs] *)

Module SwapProviders.

Inductive SwapProvider :=
| UniswapV3 | UniswapV4 | PancakeswapV3 | Aerodrome | Panora | Thorchain | Jupiter | Okx | Across | Oku | Wagmi | StonfiV2
| Mayan | Chainflip | NearIntents | CetusAggregator | CetusClmm | Relay | Hyperliquid | Orca | Squid | Mayachain | SwapsXyz.

#[export] Instance SwapProvider_eq_dec : EqDecision SwapProvider.
Proof. solve_decision. Defined.

(** The names that [AsRefStr] and serde derive (snake case) *)
Definition as_ref (self : SwapProvider) : string :=
  match self with
  | UniswapV3 => "uniswap_v3" | UniswapV4 => "uniswap_v4" | PancakeswapV3 => "pancakeswap_v3"
  | Aerodrome => "aerodrome" | Panora => "panora" | Thorchain => "thorchain" | Jupiter => "jupiter" | Okx => "okx"
  | Across => "across" | Oku => "oku" | Wagmi => "wagmi" | StonfiV2 => "stonfi_v2" | Mayan => "mayan"
  | Chainflip => "chainflip" | NearIntents => "near_intents" | CetusAggregator => "cetus_aggregator"
  | CetusClmm => "cetus_clmm" | Relay => "relay" | Hyperliquid => "hyperliquid" | Orca => "orca" | Squid => "squid"
  | Mayachain => "mayachain" | SwapsXyz => "swaps_xyz"
  end.

Definition all : list SwapProvider :=
  [UniswapV3; UniswapV4; PancakeswapV3; Aerodrome; Panora; Thorchain; Jupiter; Okx; Across; Oku; Wagmi; StonfiV2;
   Mayan; Chainflip; NearIntents; CetusAggregator; CetusClmm; Relay; Hyperliquid; Orca; Squid; Mayachain; SwapsXyz].

Definition is_cross_chain (self : SwapProvider) : bool :=
  match self with
  | Thorchain | Mayachain | Across | Mayan | Chainflip | NearIntents | Relay | Hyperliquid | Squid | SwapsXyz => true
  | UniswapV3 | UniswapV4 | PancakeswapV3 | Panora | Jupiter | Okx | Oku | Wagmi | CetusAggregator | CetusClmm
  | StonfiV2 | Aerodrome | Orca => false
  end.

Definition cross_chain_providers : list SwapProvider := List.filter is_cross_chain all.

Definition name (self : SwapProvider) : string :=
  match self with
  | UniswapV3 | UniswapV4 => "Uniswap"
  | PancakeswapV3 => "PancakeSwap"
  | Aerodrome => "Aerodrome"
  | Panora => "Panora"
  | Thorchain => "THORChain"
  | Mayachain => "Maya"
  | Jupiter => "Jupiter"
  | Okx => "OKX (DEX)"
  | Across => "Across"
  | Oku => "Oku"
  | Wagmi => "Wagmi"
  | CetusAggregator | CetusClmm => "Cetus"
  | StonfiV2 => "STON.fi"
  | Mayan => "Mayan"
  | Chainflip => "Chainflip"
  | NearIntents => "NEAR Intents"
  | Relay => "Relay"
  | Hyperliquid => "Hyperliquid"
  | Orca => "Orca"
  | Squid => "Squid"
  | SwapsXyz => "Swaps.xyz"
  end.

Definition protocol_name (self : SwapProvider) : string :=
  match self with
  | UniswapV3 => "Uniswap v3"
  | UniswapV4 => "Uniswap v4"
  | PancakeswapV3 => "PancakeSwap v3"
  | Panora => "Panora"
  | Across => "Across v3"
  | Oku => "Oku"
  | StonfiV2 => "STON.fi v2"
  | CetusAggregator | CetusClmm => "Cetus"
  | Thorchain | Mayachain | Jupiter | Okx | Wagmi | Mayan | Chainflip | NearIntents | Aerodrome | Relay | Hyperliquid
  | Orca | Squid | SwapsXyz => name self
  end.

End SwapProviders.

(** ** The data of stakes, swaps, calls and perpetuals *)

Module Payloads.
Import GasPrices TransactionTypes.

(** [delegation.rs], [stake_type.rs] and [earn_type.rs] *)
Record DelegationValidator := MkValidator { validator_chain : Chains.Chain; validator_id : string; validator_name : string }.

Record DelegationBase := MkDelegationBase {
  delegation_asset_id : AssetId;
  balance : Z;
  shares : Z;
  rewards : Z;
  delegation_id : string;
  base_validator_id : string
}.

Record Delegation := MkDelegation { base : DelegationBase; validator : DelegationValidator }.

Record RedelegateData := MkRedelegate { redelegate_delegation : Delegation; to_validator : DelegationValidator }.

Inductive Resource := Bandwidth | Energy.
Definition resource_as_ref (self : Resource) : string :=
  match self with Bandwidth => "bandwidth" | Energy => "energy" end.

Inductive StakeType :=
| Stake (validator : DelegationValidator)
| Unstake (delegation : Delegation)
| Redelegate (data : RedelegateData)
| Rewards (validators : list DelegationValidator)
| Withdraw (delegation : Delegation)
| Freeze (resource : Resource)
| Unfreeze (resource : Resource).

Inductive EarnType := EarnDepositTo (provider : DelegationValidator) | EarnWithdrawFrom (delegation : Delegation).

(** [swap/approval.rs] and [contract_call_data.rs] *)
Record ApprovalData := MkApproval { token : string; spender : string; approval_value : Z; is_unlimited : bool }.

(** [Contract] and [Transfer] *)
Inductive SwapQuoteDataType := ContractCall | PlainTransfer.

Record SwapQuoteData := MkQuoteData {
  quote_to : string;
  data_type : SwapQuoteDataType;
  quote_value : Z;
  quote_data : string;
  quote_memo : option string;
  quote_approval : option ApprovalData;
  quote_gas_limit : option string
}.

Definition gas_limit_as_u32 (self : SwapQuoteData) : result string Z :=
  let? gas_limit := ok_or (quote_gas_limit self) "gas_limit is required" in
  match HexText.u64_from_str_radix 10 gas_limit with
  | Some gas_limit => if gas_limit <? 2 ^ 32 then Ok gas_limit else Err "invalid gas_limit"
  | None => Err "invalid gas_limit"
  end.

Definition new_contract (to : string) (value : Z) (data : string) (approval : option ApprovalData)
  (gas_limit : option string) : SwapQuoteData :=
  MkQuoteData to ContractCall value data None approval gas_limit.

Definition new_transfer (to : string) (value : Z) (memo : option string) : SwapQuoteData :=
  MkQuoteData to PlainTransfer value EmptyString memo None None.

Record SwapProviderData := MkProvider {
  provider : SwapProviders.SwapProvider;
  provider_name : string;
  protocol_name : string
}.

Record SwapQuote := MkQuote {
  from_address : string;
  from_value : Z;
  min_from_value : option Z;
  to_address : string;
  to_value : Z;
  provider_data : SwapProviderData;
  slippage_bps : Z;
  eta_in_seconds : option Z;
  use_max_amount : option bool
}.

Record SwapData := MkSwapData { quote : SwapQuote; swap_data : SwapQuoteData }.

Record ContractCallData := MkCall {
  contract_address : string;
  call_data : string;
  call_approval : option ApprovalData;
  call_gas_limit : option string
}.

(** [application_metadata.rs] and [transfer_data_extra.rs] *)
Inductive ApplicationMetadataSource := WalletConnectSource | PaymentSource.
Record ApplicationMetadata := MkMetadata {
  app_name : string;
  app_description : string;
  app_url : string;
  app_icon : string;
  app_source : ApplicationMetadataSource
}.

Inductive TransferDataOutputType := EncodedTransaction | Signature.
Inductive TransferDataOutputAction := Sign | Send.

Record TransferDataExtra := MkExtra {
  extra_to : string;
  extra_gas_limit : option Z;
  extra_gas_price : option GasPriceType;
  extra_data : option bytes;
  output_type : TransferDataOutputType;
  output_action : TransferDataOutputAction;
  extra_transaction_type : TransactionType
}.

(** [perpetual.rs]: the kinds of orders, with the direction of the position *)
Inductive PerpetualDirection := Short | Long.
Inductive PerpetualType :=
| OpenPosition (direction : PerpetualDirection)
| ClosePosition (direction : PerpetualDirection)
| ModifyPosition
| IncreasePosition (direction : PerpetualDirection)
| ReducePosition (direction position_direction : PerpetualDirection).

(** [nft.rs]: the id and the name of an NFT *)
Record NFTAsset := MkNft { nft_id : string; nft_name : string; nft_contract_address : option string; nft_token_id : string }.

End Payloads.

(** ** [transaction_input_type.rs] *)

Module InputTypes.
Import GasPrices Payloads BitcoinPlanner.

(** [AccountDataType] has one value, [Activate]. *)
Inductive TransactionInputType :=
| Transfer (asset : Asset)
| Deposit (asset : Asset)
| Swap (from_asset to_asset : Asset) (swap_data : SwapData)
| StakeInput (asset : Asset) (stake_type : StakeType)
| TokenApprove (asset : Asset) (approval : ApprovalData)
| Generic (asset : Asset) (metadata : ApplicationMetadata) (extra : TransferDataExtra)
| TransferNft (asset : Asset) (nft : NFTAsset)
| AccountActivate (asset : Asset)
| Perpetual (asset : Asset) (perpetual_type : PerpetualType)
| Earn (asset : Asset) (earn_type : EarnType) (data : ContractCallData).

Definition get_asset (self : TransactionInputType) : Asset :=
  match self with
  | Transfer asset | Deposit asset | Swap asset _ _ | StakeInput asset _ | TokenApprove asset _ | Generic asset _ _
  | TransferNft asset _ | AccountActivate asset | Perpetual asset _ | Earn asset _ _ => asset
  end.

Definition get_recipient_asset (self : TransactionInputType) : Asset :=
  match self with
  | Transfer asset | Deposit asset | Swap _ asset _ | StakeInput asset _ | TokenApprove asset _ | Generic asset _ _
  | TransferNft asset _ | AccountActivate asset | Perpetual asset _ | Earn asset _ _ => asset
  end.

Definition get_swap_data (self : TransactionInputType) : result string SwapData :=
  match self with Swap _ _ swap_data => Ok swap_data | _ => Err "expected swap transaction" end.
Definition get_generic_data (self : TransactionInputType) : result string TransferDataExtra :=
  match self with Generic _ _ extra => Ok extra | _ => Err "expected generic transaction" end.
Definition get_application_metadata (self : TransactionInputType) : result string ApplicationMetadata :=
  match self with Generic _ metadata _ => Ok metadata | _ => Err "expected generic transaction" end.
Definition get_approval_data (self : TransactionInputType) : result string ApprovalData :=
  match self with TokenApprove _ approval => Ok approval | _ => Err "expected token approval transaction" end.
Definition get_nft_asset (self : TransactionInputType) : result string NFTAsset :=
  match self with TransferNft _ nft => Ok nft | _ => Err "expected NFT transfer transaction" end.
Definition get_earn_data (self : TransactionInputType) : result string ContractCallData :=
  match self with Earn _ _ data => Ok data | _ => Err "expected earn transaction" end.
Definition get_stake_type (self : TransactionInputType) : result string StakeType :=
  match self with StakeInput _ stake_type => Ok stake_type | _ => Err "expected stake transaction" end.
Definition get_perpetual_type (self : TransactionInputType) : result string PerpetualType :=
  match self with Perpetual _ perpetual_type => Ok perpetual_type | _ => Err "expected perpetual transaction" end.

Definition swap_to_address (self : TransactionInputType) : option string :=
  match self with Swap _ _ swap => Some (quote_to (swap_data swap)) | _ => None end.

Definition transaction_type (self : TransactionInputType) : TransactionTypes.TransactionType :=
  match self with
  | Transfer _ | Deposit _ => TransactionTypes.Transfer
  | Swap _ _ _ => TransactionTypes.Swap
  | StakeInput _ stake_type =>
      match stake_type with
      | Stake _ => TransactionTypes.StakeDelegate
      | Unstake _ => TransactionTypes.StakeUndelegate
      | Redelegate _ => TransactionTypes.StakeRedelegate
      | Rewards _ => TransactionTypes.StakeRewards
      | Withdraw _ => TransactionTypes.StakeWithdraw
      | Freeze _ => TransactionTypes.StakeFreeze
      | Unfreeze _ => TransactionTypes.StakeUnfreeze
      end
  | TokenApprove _ _ => TransactionTypes.TokenApproval
  | Generic _ _ extra => extra_transaction_type extra
  | TransferNft _ _ => TransactionTypes.TransferNFT
  | AccountActivate _ => TransactionTypes.AssetActivation
  | Perpetual _ perpetual_type =>
      match perpetual_type with
      | OpenPosition _ | IncreasePosition _ => TransactionTypes.PerpetualOpenPosition
      | ClosePosition _ | ReducePosition _ _ => TransactionTypes.PerpetualClosePosition
      | ModifyPosition => TransactionTypes.PerpetualModifyPosition
      end
  | Earn _ earn_type _ =>
      match earn_type with
      | EarnDepositTo _ => TransactionTypes.EarnDeposit
      | EarnWithdrawFrom _ => TransactionTypes.EarnWithdraw
      end
  end.

(** [transfer_amount.rs] *)
Definition spends_balance (self : TransactionInputType) : bool :=
  match self with
  | Transfer _ | Deposit _ | Swap _ _ _ | Generic _ _ _ => true
  | StakeInput _ stake_type =>
      match stake_type with
      | Stake _ | Freeze _ => true
      | Unstake _ | Unfreeze _ | Redelegate _ | Rewards _ | Withdraw _ => false
      end
  | Earn _ earn_type _ => match earn_type with EarnDepositTo _ => true | EarnWithdrawFrom _ => false end
  | Perpetual _ _ | TokenApprove _ _ | AccountActivate _ | TransferNft _ _ => false
  end.

(** [TransactionLoadMetadata], which no operation here reads, is left out. *)
Record TransactionLoadInput := MkLoadInput {
  input_type : TransactionInputType;
  sender_address : string;
  destination_address : string;
  input_value : Z;
  gas_price : GasPriceType;
  memo : option string;
  is_max_value : bool
}.

Definition default_fee (self : TransactionLoadInput) : TransactionFee :=
  MkFee (total_fee (gas_price self)) (gas_price self) 0 [] (from_chain (chain_of (get_asset (input_type self)))).

Definition get_memo (self : TransactionLoadInput) : option string :=
  match memo self with Some m => if bool_decide (m = "") then None else Some m | None => None end.

Definition value_as_u64 (self : TransactionLoadInput) : result SignerError Z :=
  ok_or (to_u64 (input_value self)) (InvalidInput "transaction amount is too large").

Record SignerInput := MkSignerInput { input : TransactionLoadInput; fee : TransactionFee }.

Inductive SwapError := Signer (error : SignerError) | SwapValueBelowMinimum.

(** [gas_limit.parse::<u64>()] is [u64_from_str_radix 10]. *)
Definition swap_gas_limit (self : SignerInput) : result SignerError Z :=
  let? swap := map_err InvalidInput (get_swap_data (input_type (input self))) in
  match quote_approval (swap_data swap) with
  | Some _ =>
      ok_or (let?? gas_limit := quote_gas_limit (swap_data swap) in HexText.u64_from_str_radix 10 gas_limit)
        (InvalidInput "missing swap gas limit")
  | None => gas_limit_u64 (fee self)
  end.

Definition swap_value (self : SignerInput) : result SwapError Z :=
  let? swap := map_err (fun e => Signer (InvalidInput e)) (get_swap_data (input_type (input self))) in
  let value := quote_value (swap_data swap) in
  if negb (default (is_max_value (input self)) (use_max_amount (quote swap)))
     || negb (is_native (id (get_asset (input_type (input self))))) then Ok value
  else match data_type (swap_data swap) with
    | ContractCall => Ok value
    | PlainTransfer =>
        let value := value - GasPrices.fee (fee self) in
        if value <? 0 then Err (Signer InsufficientFunds)
        else match min_from_value (quote swap) with
          | Some min_from_value => if value <? min_from_value then Err SwapValueBelowMinimum else Ok value
          | None => Ok value
          end
    end.

Definition swap_value_u64 (self : SignerInput) : result SwapError Z :=
  let? value := swap_value self in ok_or (to_u64 value) (Signer (InvalidInput "invalid transaction amount")).

End InputTypes.

(** ** [transfer_amount.rs] *)

Module TransferAmounts.
Import InputTypes.

Record TransferAmount := MkAmount { value : Z; network_fee : Z; is_max_amount : bool }.

Inductive TransferAmountError :=
| InsufficientBalance (asset_id : AssetId) (required available : Z)
| InsufficientNetworkFee (asset_id : AssetId) (required available : Z)
| MinimumAccountBalanceTooLow (asset_id : AssetId) (required available : Z).

Record TransferAmountInput := MkAmountInput {
  input_type : TransactionInputType;
  input_value : Z;
  available_value : Z;
  fee_asset : AssetId;
  fee_asset_balance : Z;
  fee : Z;
  input_is_max_amount : bool;
  minimum_value : option Z
}.

(** [should_deduct_fee] *)
Definition should_deduct_fee (self : TransferAmountInput) : bool :=
  spends_balance (input_type self) && bool_decide (id (get_asset (input_type self)) = fee_asset self).

Definition amount_value (self : TransferAmountInput) : Z :=
  if input_is_max_amount self && should_deduct_fee self
  then Z.min (input_value self) (available_value self - fee self) else input_value self.

Definition required (self : TransferAmountInput) : Z :=
  match spends_balance (input_type self), should_deduct_fee self with
  | false, _ => 0
  | true, false => amount_value self
  | true, true => amount_value self + fee self
  end.

Definition should_skip_fee_check (self : TransferAmountInput) : bool :=
  bool_decide (chain_of (get_asset (input_type self)) = Chains.HyperCore) && negb (spends_balance (input_type self)).

(** [None] where the chain has no configuration, which does not happen ([registry_total]) *)
Definition minimum_account_balance (self : TransferAmountInput) : option Z :=
  match ChainMethods.minimum_account_balance (chain_of (get_asset (input_type self))) with
  | Some (Some minimum) =>
      if bool_decide (asset_type (get_asset (input_type self)) = AssetTypes.NATIVE)
         && negb (input_is_max_amount self) && spends_balance (input_type self)
      then Some minimum else None
  | _ => None
  end.

Definition calculate (self : TransferAmountInput) : result TransferAmountError TransferAmount :=
  let asset := get_asset (input_type self) in
  let value := amount_value self in
  let required := required self in
  let remaining_balance := available_value self - required in
  if available_value self <? required then
    match minimum_account_balance self with
    | Some minimum =>
        if value <=? available_value self then Err (MinimumAccountBalanceTooLow (id asset) minimum remaining_balance)
        else Err (InsufficientBalance (id asset) required (available_value self))
    | None => Err (InsufficientBalance (id asset) required (available_value self))
    end
  else if (fee_asset_balance self <? fee self) && negb (should_skip_fee_check self) then
    Err (InsufficientNetworkFee (fee_asset self) (fee self) (fee_asset_balance self))
  else if match minimum_account_balance self with Some minimum => remaining_balance <? minimum | None => false end then
    Err (MinimumAccountBalanceTooLow (id asset) (default 0 (minimum_account_balance self)) remaining_balance)
  else match minimum_value self with
    | Some minimum_value =>
        if value <? minimum_value then Err (InsufficientBalance (id asset) minimum_value value)
        else Ok (MkAmount value (fee self) (input_is_max_amount self))
    | None => Ok (MkAmount value (fee self) (input_is_max_amount self))
    end.

End TransferAmounts.

(** ** Facts *)

Module AmountFacts.
Import Payloads InputTypes TransferAmounts.

(** The configured minima are not negative; a chain without one is [None]. *)
Lemma configured_minimum_nonneg c m : ChainMethods.minimum_account_balance c = Some (Some m) -> 0 <= m.
Proof. destruct c; vm_compute; intros [=]; subst; done. Qed.

Lemma minimum_account_balance_Some i m :
  minimum_account_balance i = Some m ->
  0 <= m /\ ChainMethods.minimum_account_balance (chain_of (get_asset (input_type i))) = Some (Some m)
  /\ asset_type (get_asset (input_type i)) = AssetTypes.NATIVE /\ input_is_max_amount i = false
  /\ spends_balance (input_type i) = true.
Proof.
  unfold minimum_account_balance.
  destruct (ChainMethods.minimum_account_balance _) as [[m'|]|] eqn:E; try done.
  destruct (_ && _ && _) eqn:B; [|done]. intros [= <-].
  apply andb_true_iff in B as [[N%bool_decide_eq_true M%negb_true_iff]%andb_true_iff S].
  split_and!; try done. by eapply configured_minimum_nonneg.
Qed.

(** The five conditions of a transfer that is accepted, in the words of the program *)
Lemma calculate_Ok i a :
  calculate i = Ok a <->
  a = MkAmount (amount_value i) (fee i) (input_is_max_amount i)
  /\ required i <= available_value i
  /\ (fee i <= fee_asset_balance i \/ should_skip_fee_check i = true)
  /\ (forall m, minimum_account_balance i = Some m -> m <= available_value i - required i)
  /\ (forall m, minimum_value i = Some m -> m <= amount_value i).
Proof.
  unfold calculate. destruct (available_value i <? required i) eqn:R; zbool.
  { split; [|intros (_ & A & _); lia].
    by destruct (minimum_account_balance i) as [m|]; [destruct (amount_value i <=? _)|]. }
  destruct ((fee_asset_balance i <? fee i) && negb (should_skip_fee_check i)) eqn:F.
  { split; [done|]. apply andb_true_iff in F as [F S%negb_true_iff]. intros (_ & _ & [B|B] & _); [zbool; lia|congruence]. }
  assert (fee i <= fee_asset_balance i \/ should_skip_fee_check i = true) as F'.
  { apply andb_false_iff in F as [F|F%negb_false_iff]; [left; zbool; lia|by right]. }
  destruct (match minimum_account_balance i with Some m => _ | None => false end) eqn:M.
  { split; [done|]. intros (_ & _ & _ & A & _). destruct (minimum_account_balance i) as [m|]; [|done].
    specialize (A m eq_refl). zbool. lia. }
  assert (forall m, minimum_account_balance i = Some m -> m <= available_value i - required i) as M'.
  { intros m E. rewrite E in M. zbool. lia. }
  destruct (minimum_value i) as [v|] eqn:V.
  - destruct (amount_value i <? v) eqn:B; zbool.
    + split; [done|]. intros (_ & _ & _ & _ & A). specialize (A v eq_refl). lia.
    + split; [intros [= <-]|intros (-> & _); done]. split_and!; try done. intros m [= <-]. lia.
  - split; [intros [= <-]|intros (-> & _); done]. split_and!; done.
Qed.

Lemma amount_value_bounds i :
  amount_value i <= input_value i
  /\ (input_is_max_amount i = false \/ should_deduct_fee i = false -> amount_value i = input_value i)
  /\ (amount_value i = input_value i \/ amount_value i + fee i = available_value i).
Proof.
  unfold amount_value. destruct (input_is_max_amount i), (should_deduct_fee i); cbn; split_and!; try lia.
Qed.

Lemma required_spent i :
  required i = (if spends_balance (input_type i) then amount_value i else 0) + (if should_deduct_fee i then fee i else 0).
Proof.
  unfold required. destruct (spends_balance _) eqn:S.
  - destruct (should_deduct_fee i); lia.
  - unfold should_deduct_fee. by rewrite S.
Qed.

(** (C37) A transfer that is accepted is covered: the amount is the one asked for, lowered only for a maximal
    transfer that pays its fee from the same asset, and then to all that is left after the fee; amount and fee
    together do not exceed the available balance; the fee is covered by the balance of its own asset, except for
    the actions on HyperCore that spend nothing; what a transfer of a native asset leaves behind keeps the
    account alive; the smallest amount is reached. *)
Theorem transfer_is_covered i a :
  calculate i = Ok a ->
  let taken := if should_deduct_fee i then value a + fee i else value a in
  network_fee a = fee i /\ value a <= input_value i
  /\ (value a = input_value i
      \/ input_is_max_amount i = true /\ should_deduct_fee i = true /\ value a + fee i = available_value i)
  /\ (spends_balance (input_type i) = true -> taken <= available_value i)
  /\ (fee i <= fee_asset_balance i
      \/ chain_of (get_asset (input_type i)) = Chains.HyperCore /\ spends_balance (input_type i) = false)
  /\ (forall m, ChainMethods.minimum_account_balance (chain_of (get_asset (input_type i))) = Some (Some m) ->
        asset_type (get_asset (input_type i)) = AssetTypes.NATIVE -> spends_balance (input_type i) = true ->
        input_is_max_amount i = true \/ m <= available_value i - taken)
  /\ (forall m, minimum_value i = Some m -> m <= value a).
Proof.
  intros (-> & R & F & M & V)%calculate_Ok taken. cbn [value network_fee] in *.
  pose proof (amount_value_bounds i) as (B1 & B2 & B3). rewrite required_spent in R, M.
  split_and!; try done.
  - destruct (input_is_max_amount i), (should_deduct_fee i); destruct B3; auto.
  - intros S. subst taken. rewrite S in R. destruct (should_deduct_fee i); lia.
  - destruct F as [F|F]; [by left|right]. unfold should_skip_fee_check in F.
    by apply andb_true_iff in F as [?%bool_decide_eq_true ?%negb_true_iff].
  - intros m C N S. destruct (input_is_max_amount i) eqn:X; [by left|right].
    specialize (M m). unfold minimum_account_balance in M. rewrite C, X, S, bool_decide_true in M by done.
    specialize (M eq_refl). subst taken. destruct (should_deduct_fee i); lia.
Qed.

(** (C38) Every refusal names a shortage: the amount it requires exceeds the amount it says is there; the network
    fee is blamed only when the fee asset does not cover it, and the minimum of an account only for a transfer
    of a native asset of a chain with that minimum. *)
Theorem refusal_is_shortage i e :
  calculate i = Err e ->
  match e with
  | InsufficientBalance a needed available =>
      a = id (get_asset (input_type i)) /\ available < needed
      /\ (needed = required i /\ available = available_value i
          \/ minimum_value i = Some needed /\ available = amount_value i)
  | InsufficientNetworkFee a needed available =>
      a = fee_asset i /\ needed = fee i /\ available = fee_asset_balance i /\ available < needed
      /\ should_skip_fee_check i = false
  | MinimumAccountBalanceTooLow a needed remaining =>
      a = id (get_asset (input_type i)) /\ remaining = available_value i - required i /\ remaining < needed
      /\ ChainMethods.minimum_account_balance (chain_of (get_asset (input_type i))) = Some (Some needed)
      /\ asset_type (get_asset (input_type i)) = AssetTypes.NATIVE /\ input_is_max_amount i = false
  end.
Proof.
  unfold calculate. destruct (available_value i <? required i) eqn:R; zbool.
  { destruct (minimum_account_balance i) as [m|] eqn:M; [destruct (amount_value i <=? _)|];
      intros [= <-]; split_and!; auto; try lia; by apply minimum_account_balance_Some in M as (? & ? & ? & ? & ?); try lia. }
  destruct ((fee_asset_balance i <? fee i) && negb (should_skip_fee_check i)) eqn:F.
  { intros [= <-]. apply andb_true_iff in F as [F S%negb_true_iff]. zbool. split_and!; done. }
  destruct (minimum_account_balance i) as [m|] eqn:M.
  - destruct (available_value i - required i <? m) eqn:B.
    { intros [= <-]. zbool. cbn. apply minimum_account_balance_Some in M as (? & ? & ? & ? & ?). split_and!; done. }
    destruct (minimum_value i) as [v|] eqn:V; [|done]. destruct (amount_value i <? v) eqn:L; [|done].
    intros [= <-]. zbool. split_and!; auto.
  - destruct (minimum_value i) as [v|] eqn:V; [|done]. destruct (amount_value i <? v) eqn:L; [|done].
    intros [= <-]. zbool. split_and!; auto.
Qed.

Definition with_value (i : TransferAmountInput) (v : Z) : TransferAmountInput :=
  MkAmountInput (input_type i) v (available_value i) (fee_asset i) (fee_asset_balance i) (fee i)
    (input_is_max_amount i) (minimum_value i).

(** Affordability is downward closed: when an amount that is not the maximum is accepted, so is every smaller one
    that reaches the smallest amount, and it is accepted as it stands; and a maximal transfer that pays its fee
    from the same asset is never refused for its amount. *)
Theorem smaller_is_affordable i :
  (forall a v, calculate i = Ok a -> input_is_max_amount i = false -> v <= input_value i ->
     (forall m, minimum_value i = Some m -> m <= v) ->
     calculate (with_value i v) = Ok (MkAmount v (fee i) false))
  /\ (input_is_max_amount i = true -> should_deduct_fee i = true -> fee i <= fee_asset_balance i ->
      minimum_value i = None -> calculate i = Ok (MkAmount (Z.min (input_value i) (available_value i - fee i)) (fee i) true)).
Proof.
  split.
  - intros a v (_ & R & F & M & _)%calculate_Ok X L V. rewrite required_spent in R, M.
    assert (amount_value (with_value i v) = v) as E1 by (unfold amount_value, with_value; cbn; by rewrite X).
    assert (amount_value i = input_value i) as E2 by (unfold amount_value; by rewrite X).
    assert (required (with_value i v) = (if spends_balance (input_type i) then v else 0)
              + (if should_deduct_fee i then fee i else 0)) as E3 by (rewrite required_spent, E1; done).
    rewrite E2 in R, M. apply calculate_Ok. rewrite E1, E3. cbn [with_value available_value fee fee_asset_balance minimum_value input_is_max_amount].
    rewrite X. split_and!; try done.
    + destruct (spends_balance _); lia.
    + intros m Hm. specialize (M m Hm). destruct (spends_balance _); lia.
  - intros X D F V. apply calculate_Ok.
    assert (amount_value i = Z.min (input_value i) (available_value i - fee i)) as E
      by (unfold amount_value; by rewrite X, D).
    assert (spends_balance (input_type i) = true) as S by (by apply andb_true_iff in D as [? _]).
    rewrite required_spent, E, S, D, X. split_and!; auto; try lia.
    + intros m Hm. apply minimum_account_balance_Some in Hm as (_ & _ & _ & H & _). congruence.
    + intros m Hm. congruence.
Qed.

(** The amount of a swap is what was quoted, except for a maximal plain transfer of a native asset, which leaves
    the fee out, is refused when the fee exceeds it or the rest is below the smallest amount of the quote, and
    then never exceeds what was quoted. *)
Theorem swap_value_branches s swap from to :
  InputTypes.input_type (input s) = Swap from to swap ->
  0 <= GasPrices.fee (InputTypes.fee s) -> 0 <= quote_value (swap_data swap) ->
  let all := default (is_max_value (input s)) (use_max_amount (quote swap)) in
  let rest := quote_value (swap_data swap) - GasPrices.fee (InputTypes.fee s) in
  match swap_value s with
  | Ok v =>
      0 <= v <= quote_value (swap_data swap)
      /\ (v <> quote_value (swap_data swap) ->
          v = rest /\ all = true /\ is_native (id from) = true /\ data_type (swap_data swap) = PlainTransfer)
      /\ (all = true -> is_native (id from) = true -> data_type (swap_data swap) = PlainTransfer ->
          v = rest /\ forall m, min_from_value (quote swap) = Some m -> m <= v)
  | Err (Signer e) => e = BitcoinPlanner.InsufficientFunds /\ rest < 0
  | Err SwapValueBelowMinimum => 0 <= rest /\ exists m, min_from_value (quote swap) = Some m /\ rest < m
  end.
Proof.
  intros E F Q all rest. unfold swap_value. rewrite E. cbn [get_swap_data map_err mbind get_asset].
  fold all. fold rest.
  destruct all; cbn [negb orb]; [|split_and!; done || lia].
  destruct (is_native (id from)) eqn:N; cbn [negb]; [|split_and!; done || lia].
  destruct (data_type (swap_data swap)) eqn:D; [split_and!; done || lia|].
  destruct (rest <? 0) eqn:R; zbool; [done|].
  destruct (min_from_value (quote swap)) as [m|] eqn:M.
  - destruct (rest <? m) eqn:L; zbool; [split; [lia|by exists m]|].
    split_and!; try (subst rest; lia); try done. intros _ _ _. split; [done|]. intros m' [= <-]. lia.
  - split_and!; try (subst rest; lia); done.
Qed.

End AmountFacts.

(** ** Concrete transfers *)

Module AmountConcrete.
Import GasPrices Payloads InputTypes TransferAmounts AmountFacts.

Definition trx : Asset := MkAsset (from_chain Chains.Tron) "Tron" "TRX" 6 AssetTypes.NATIVE.
Definition sol : Asset := MkAsset (from_chain Chains.Solana) "Solana" "SOL" 9 AssetTypes.NATIVE.

Definition sol_transfer (value available : Z) (max : bool) : TransferAmountInput :=
  MkAmountInput (Transfer sol) value available (from_chain Chains.Solana) available 10 max None.

Example minimum_kept :
  calculate (sol_transfer 1000000 1890890 false) = Ok (MkAmount 1000000 10 false)
  /\ calculate (sol_transfer 1000001 1890890 false)
     = Err (MinimumAccountBalanceTooLow (from_chain Chains.Solana) 890880 890879)
  /\ calculate (sol_transfer 1890890 1890890 false)
     = Err (MinimumAccountBalanceTooLow (from_chain Chains.Solana) 890880 (-10))
  /\ calculate (sol_transfer 1890890 1890890 true) = Ok (MkAmount 1890880 10 true).
Proof. split_and!; by vm_compute. Qed.

Lemma transfer_is_covered_witness :
  calculate (sol_transfer 1890890 1890890 true) = Ok (MkAmount 1890880 10 true) /\ 1890880 + 10 <= 1890890.
Proof.
  assert (E : calculate (sol_transfer 1890890 1890890 true) = Ok (MkAmount 1890880 10 true)) by (by vm_compute).
  split; [exact E|].
  destruct (transfer_is_covered _ _ E) as (_ & _ & _ & H & _). apply H. by vm_compute.
Defined.

Lemma refusal_is_shortage_witness :
  calculate (sol_transfer 1000001 1890890 false)
  = Err (MinimumAccountBalanceTooLow (from_chain Chains.Solana) 890880 890879) /\ 890879 < 890880.
Proof.
  assert (E : calculate (sol_transfer 1000001 1890890 false)
              = Err (MinimumAccountBalanceTooLow (from_chain Chains.Solana) 890880 890879)) by (by vm_compute).
  split; [exact E|]. exact (proj1 (proj2 (proj2 (refusal_is_shortage _ _ E)))).
Defined.

Lemma smaller_is_affordable_witness :
  calculate (with_value (sol_transfer 1000000 1890890 false) 7) = Ok (MkAmount 7 10 false).
Proof.
  assert (E : calculate (sol_transfer 1000000 1890890 false) = Ok (MkAmount 1000000 10 false)) by (by vm_compute).
  apply (proj1 (smaller_is_affordable (sol_transfer 1000000 1890890 false)) _ 7 E); [done|cbn; lia|done].
Defined.

Definition near_intents : SwapProviderData :=
  MkProvider SwapProviders.NearIntents (SwapProviders.name SwapProviders.NearIntents)
    (SwapProviders.protocol_name SwapProviders.NearIntents).

(** A maximal swap of 100 units of a native asset by a plain transfer, with a fee of 3 *)
Definition max_swap : SignerInput :=
  let quote := MkQuote "a" 100 (Some 90) "b" 55 near_intents 50 None None in
  let data := MkQuoteData "deposit" PlainTransfer 100 "" None None None in
  let input := Swap sol trx (MkSwapData quote data) in
  MkSignerInput (MkLoadInput input "a" "b" 100 (Regular 3) None true) (new_from_fee 3 (from_chain Chains.Solana)).

Lemma swap_value_branches_witness :
  swap_value max_swap = Ok 97 /\ 0 <= 97 <= 100.
Proof.
  assert (E : swap_value max_swap = Ok 97) by (by vm_compute).
  split; [exact E|].
  assert (F : 0 <= GasPrices.fee (InputTypes.fee max_swap)) by done.
  assert (Q : 0 <= quote_value (swap_data (MkSwapData (MkQuote "a" 100 (Some 90) "b" 55 near_intents 50 None None)
                (MkQuoteData "deposit" PlainTransfer 100 "" None None None)))) by done.
  pose proof (swap_value_branches max_swap _ _ _ eq_refl F Q) as H. rewrite E in H. exact (proj1 H).
Defined.

(** A vote on Tron spends frozen votes, yet its fee, which is paid from the liquid balance, is deducted from them:
    with 5 TRX frozen, 10 TRX liquid and a fee of 0.3 TRX, voting with all 5 is refused, and a maximal vote is
    lowered; with fewer votes than the fee, the accepted maximum is negative. *)
Definition tron_vote (value votes liquid fee : Z) (max : bool) : TransferAmountInput :=
  MkAmountInput (StakeInput trx (Stake (MkValidator Chains.Tron "v" "validator"))) value votes
    (from_chain Chains.Tron) liquid fee max None.

Example tron_vote_pays_fee_twice :
  calculate (tron_vote 5000000 5000000 10000000 300000 false)
  = Err (InsufficientBalance (from_chain Chains.Tron) 5300000 5000000)
  /\ calculate (tron_vote 5000000 5000000 10000000 300000 true) = Ok (MkAmount 4700000 300000 true)
  /\ calculate (tron_vote 200000 200000 10000000 300000 true) = Ok (MkAmount (-100000) 300000 true).
Proof. split_and!; by vm_compute. Qed.

End AmountConcrete.
