(* ===== verification/TransferRules.v ===== *)
(** * The rules of a transfer in the client

    Models what gemstone decides about a transfer before it is confirmed: the metadata a network returns for a
    transaction ([primitives/src/transaction_load_metadata.rs]; module [LoadMetadata]), the kinds of transactions of
    the client ([gemstone/src/models/transaction.rs]; [GemInputTypes]), the rules of
    [gemstone/src/services/transfer/rules.rs] ([TransferRules]) and of [services/amount/rules.rs] ([AmountRules]).
    Floating-point values are left out: the profit and price of a perpetual's metadata, which are zero, and the
    smallest order of a perpetual, a parameter of [minimum_value].  The JSON of a metadata value is the class
    [MetadataJson], and the clock a parameter. *)
From stdpp Require Import pretty.
From S2P Require Import Prelude Utf8 HexText Text ChainRegistry Assets Transactions Wallets BitcoinPlanner TransferAmount.
Import BitcoinPlanner Assets.AssetIds Assets.Assets Payloads GasPrices.

#[export] Existing Instances TransactionTypes.TransactionType_eq_dec SwapProviders.SwapProvider_eq_dec.

(** ** [transaction_load_metadata.rs], [solana_token_program.rs], [solana_nft.rs] and the votes of [stake_type.rs] *)

Module LoadMetadata.

Inductive SolanaTokenProgramId := Token | Token2022.

Definition from_asset_type (asset_type : AssetTypes.AssetType) : option SolanaTokenProgramId :=
  match asset_type with
  | AssetTypes.SPL => Some Token
  | AssetTypes.SPL2022 => Some Token2022
  | _ => None
  end.
Definition program_asset_type (self : SolanaTokenProgramId) : AssetTypes.AssetType :=
  match self with Token => AssetTypes.SPL | Token2022 => AssetTypes.SPL2022 end.

Inductive SolanaNftStandard :=
| NonFungible
| ProgrammableNonFungible (rule_set : option string)
| Core (collection : option string).

Record TronVote := MkVote { vote_validator : string; vote_count : Z }.
Record TronUnfreeze := MkUnfreeze { unfreeze_resource : Resource; unfreeze_amount : Z }.
Inductive TronStakeData := Votes (votes : list TronVote) | UnfreezeData (unfreezes : list TronUnfreeze).

Record HyperliquidOrder := MkOrder {
  approve_agent_required : bool;
  approve_referral_required : bool;
  approve_builder_required : bool;
  builder_fee_bps : Z;
  agent_name : string;
  agent_address : string;
  agent_private_key : string
}.

Inductive TransactionLoadMetadata :=
| NoMetadata
| Solana (sender_token_address recipient_token_address : option string) (token_program : option SolanaTokenProgramId)
    (nft : option SolanaNftStandard) (block_hash : string) (references : list string)
| Ton (sender_token_address recipient_token_address : option string) (sequence : Z)
| Cosmos (account_number sequence : Z) (chain_id : string)
| BitcoinMetadata (utxos : list UTXO)
| ZcashMetadata (utxos : list UTXO) (branch_id : string)
| Cardano (utxos : list UTXO) (block_number : Z)
| Evm (nonce chain_id : Z) (contract_call : option ContractCallData)
| Near (sequence : Z) (block_hash : string)
| Stellar (sequence : Z) (is_destination_address_exist : bool)
| Xrp (sequence block_number : Z)
| Algorand (sequence : Z) (block_hash chain_id : string)
| Aptos (sequence : Z) (data : option string)
| Polkadot (sequence : Z) (genesis_hash block_hash : string)
    (block_number spec_version transaction_version period : Z)
| Tron (block_number block_version block_timestamp : Z) (transaction_tree_root parent_hash witness_address : string)
    (stake_data : TronStakeData)
| Sui (message_bytes : string)
| Hyperliquid (order : option HyperliquidOrder).

Definition get_sequence (self : TransactionLoadMetadata) : result string Z :=
  match self with
  | Ton _ _ sequence | Cosmos _ sequence _ | Near sequence _ | Stellar sequence _ | Xrp sequence _
  | Algorand sequence _ _ | Aptos sequence _ | Polkadot sequence _ _ _ _ _ _ => Ok sequence
  | Evm nonce _ _ => Ok nonce
  | _ => Err "Sequence not available for this metadata type"
  end.

Definition get_block_number (self : TransactionLoadMetadata) : result string Z :=
  match self with
  | Polkadot _ _ _ block_number _ _ _ | Tron block_number _ _ _ _ _ _ | Xrp _ block_number
  | Cardano _ block_number => Ok block_number
  | _ => Err "Block number not available for this metadata type"
  end.

Definition get_block_hash (self : TransactionLoadMetadata) : result string string :=
  match self with
  | Solana _ _ _ _ block_hash _ | Near _ block_hash | Algorand _ block_hash _ | Polkadot _ _ block_hash _ _ _ _ =>
      Ok block_hash
  | _ => Err "Block hash not available for this metadata type"
  end.

(** Zcash branch id is big-endian hex from the rpc node. *)
Definition get_zcash_branch_id `{Hex} (self : TransactionLoadMetadata) : option Z :=
  match self with
  | ZcashMetadata _ branch_id =>
      let?? bytes := ok (HexCodec.decode_hex branch_id) in
      if (length bytes =? 4)%nat then Some (of_be bytes) else None
  | _ => None
  end.

Definition get_account_number (self : TransactionLoadMetadata) : result string Z :=
  match self with
  | Cosmos account_number _ _ => Ok account_number
  | _ => Err "Account number not available for this metadata type"
  end.

Definition get_chain_id (self : TransactionLoadMetadata) : result string string :=
  match self with
  | Cosmos _ _ chain_id | Algorand _ _ chain_id => Ok chain_id
  | Evm _ chain_id _ => Ok (pretty chain_id)
  | _ => Err "Chain ID not available for this metadata type"
  end.

Definition get_utxos (self : TransactionLoadMetadata) : result string (list UTXO) :=
  match self with
  | BitcoinMetadata utxos | ZcashMetadata utxos _ | Cardano utxos _ => Ok utxos
  | _ => Err "UTXOs not available for this metadata type"
  end.

Definition get_is_destination_address_exist (self : TransactionLoadMetadata) : result string bool :=
  match self with
  | Stellar _ is_destination_address_exist => Ok is_destination_address_exist
  | _ => Err "Destination existence flag not available for this metadata type"
  end.

Definition get_recipient_token_address (self : TransactionLoadMetadata) : result string (option string) :=
  match self with
  | Solana _ recipient_token_address _ _ _ _ | Ton _ recipient_token_address _ => Ok recipient_token_address
  | _ => Err "Recipient token address not available for this metadata type"
  end.

Definition get_sender_token_address (self : TransactionLoadMetadata) : result string (option string) :=
  match self with
  | Solana sender_token_address _ _ _ _ _ | Ton sender_token_address _ _ => Ok sender_token_address
  | _ => Err "Sender token address not available for this metadata type"
  end.

Definition get_solana_token_program_id (self : TransactionLoadMetadata) : result string (option SolanaTokenProgramId) :=
  match self with
  | Solana _ _ token_program _ _ _ => Ok token_program
  | _ => Err "Solana token program not available for this metadata type"
  end.

Definition get_solana_references (self : TransactionLoadMetadata) : result string (list string) :=
  match self with
  | Solana _ _ _ _ _ references => Ok references
  | _ => Err "Solana references not available for this metadata type"
  end.

Definition get_message_bytes (self : TransactionLoadMetadata) : result string string :=
  match self with
  | Sui message_bytes => Ok message_bytes
  | _ => Err "Message bytes not available for this metadata type"
  end.

(** The text of a failed parse is the standard library's; here it is the text that was not a number. *)
Definition get_chain_id_u64 (self : TransactionLoadMetadata) : result string Z :=
  let? chain_id := get_chain_id self in ok_or (u64_from_str_radix 10 chain_id) chain_id.

Definition get_contract_call (self : TransactionLoadMetadata) : result string ContractCallData :=
  match self with
  | Evm _ _ (Some contract_call) => Ok contract_call
  | _ => Err "Contract call not available for this metadata type"
  end.

Definition get_hyperliquid_order (self : TransactionLoadMetadata) : result string HyperliquidOrder :=
  match self with
  | Hyperliquid (Some order) => Ok order
  | _ => Err "Hyperliquid order not available for this metadata type"
  end.

(** [gemstone/src/models/transaction.rs] *)
Definition transaction_metadata_block_number (metadata : TransactionLoadMetadata) : string :=
  match metadata with
  | Polkadot _ _ _ block_number _ _ _ | Tron block_number _ _ _ _ _ _ | Xrp _ block_number
  | Cardano _ block_number => pretty block_number
  | _ => "0"
  end.

Definition transaction_metadata_sequence (metadata : TransactionLoadMetadata) : string :=
  match metadata with
  | Ton _ _ sequence | Cosmos _ sequence _ | Near sequence _ | Stellar sequence _ | Xrp sequence _
  | Algorand sequence _ _ | Aptos sequence _ | Polkadot sequence _ _ _ _ _ _ => pretty sequence
  | Evm nonce _ _ => pretty nonce
  | _ => "0"
  end.

End LoadMetadata.

(** ** [gemstone/src/models/transaction.rs]: the kinds of transactions of the client *)

Module GemInputTypes.
Import InputTypes.

Record GemTransferDataExtra := MkGemExtra {
  gem_to : string;
  gem_gas_limit : option Z;
  gem_gas_price : option GasPriceType;
  gem_data : option bytes;
  gem_output_type : TransferDataOutputType;
  gem_output_action : TransferDataOutputAction;
  gem_transaction_type : TransactionTypes.TransactionType;
  gem_approval : option ApprovalData
}.

Inductive GemTransactionInputType :=
| GemTransfer (asset : Asset)
| GemDeposit (asset : Asset)
| GemSwap (from_asset to_asset : Asset) (swap_data : SwapData)
| GemStake (asset : Asset) (stake_type : StakeType)
| GemTokenApprove (asset : Asset) (approval_data : ApprovalData)
| GemGeneric (asset : Asset) (metadata : ApplicationMetadata) (extra : GemTransferDataExtra)
| GemTransferNft (asset : Asset) (nft_asset : NFTAsset)
| GemAccount (asset : Asset)
| GemPerpetual (asset : Asset) (perpetual_type : PerpetualType)
| GemEarn (asset : Asset) (earn_type : EarnType) (data : ContractCallData)
| GemWithdrawal (asset : Asset).

Definition asset (self : GemTransactionInputType) : Asset :=
  match self with
  | GemTransfer asset | GemDeposit asset | GemStake asset _ | GemTokenApprove asset _ | GemGeneric asset _ _
  | GemTransferNft asset _ | GemAccount asset | GemPerpetual asset _ | GemEarn asset _ _ | GemWithdrawal asset
  | GemSwap asset _ _ => asset
  end.

Definition swap_data (self : GemTransactionInputType) : result string SwapData :=
  match self with GemSwap _ _ swap_data => Ok swap_data | _ => Err "Expected Swap" end.
Definition earn_data (self : GemTransactionInputType) : result string ContractCallData :=
  match self with GemEarn _ _ data => Ok data | _ => Err "Expected Earn" end.
Definition stake_type (self : GemTransactionInputType) : result string StakeType :=
  match self with GemStake _ stake_type => Ok stake_type | _ => Err "Expected Stake" end.
Definition perpetual_type (self : GemTransactionInputType) : result string PerpetualType :=
  match self with GemPerpetual _ perpetual_type => Ok perpetual_type | _ => Err "Expected Perpetual" end.

(** The conversions to and from the types of [primitives]; an extra loses its approval on the way, and a
    withdrawal becomes a transfer. *)
Definition extra_into (value : GemTransferDataExtra) : TransferDataExtra :=
  MkExtra (gem_to value) (gem_gas_limit value) (gem_gas_price value) (gem_data value) (gem_output_type value)
    (gem_output_action value) (gem_transaction_type value).

Definition extra_from (value : TransferDataExtra) : GemTransferDataExtra :=
  MkGemExtra (extra_to value) (extra_gas_limit value) (extra_gas_price value) (extra_data value) (output_type value)
    (output_action value) (extra_transaction_type value) None.

Definition into (value : GemTransactionInputType) : TransactionInputType :=
  match value with
  | GemTransfer asset => Transfer asset
  | GemDeposit asset => Deposit asset
  | GemSwap from_asset to_asset swap_data => Swap from_asset to_asset swap_data
  | GemStake asset stake_type => StakeInput asset stake_type
  | GemTokenApprove asset approval_data => TokenApprove asset approval_data
  | GemGeneric asset metadata extra => Generic asset metadata (extra_into extra)
  | GemTransferNft asset nft_asset => TransferNft asset nft_asset
  | GemAccount asset => AccountActivate asset
  | GemPerpetual asset perpetual_type => Perpetual asset perpetual_type
  | GemEarn asset earn_type data => Earn asset earn_type data
  | GemWithdrawal asset => Transfer asset
  end.

Definition from (value : TransactionInputType) : GemTransactionInputType :=
  match value with
  | Transfer asset => GemTransfer asset
  | Deposit asset => GemDeposit asset
  | Swap from_asset to_asset swap_data => GemSwap from_asset to_asset swap_data
  | StakeInput asset stake_type => GemStake asset stake_type
  | TokenApprove asset approval_data => GemTokenApprove asset approval_data
  | Generic asset metadata extra => GemGeneric asset metadata (extra_from extra)
  | TransferNft asset nft_asset => GemTransferNft asset nft_asset
  | AccountActivate asset => GemAccount asset
  | Perpetual asset perpetual_type => GemPerpetual asset perpetual_type
  | Earn asset earn_type data => GemEarn asset earn_type data
  end.

Record GemSignedTransaction := MkSigned { signed_data : string; signed_type : TransactionTypes.TransactionType }.

Record GemTransactionLoadInput := MkGemLoad {
  input_type : GemTransactionInputType;
  sender_address : string;
  destination_address : string;
  value : Z;
  gas_price : GasPriceType;
  memo : option string;
  is_max_value : bool;
  metadata : LoadMetadata.TransactionLoadMetadata
}.

(** A [GemTransactionLoadFee] has the fields of a [TransactionFee]. *)
Record GemSignerInput := MkGemSigner { input : GemTransactionLoadInput; fee : TransactionFee }.

End GemInputTypes.

(** ** [application_metadata.rs]: the short name of an application *)

Module ApplicationNames.

Definition SHORT_NAME_SEPARATORS : list string := ["-"; ":"; "|"].
Definition SHORT_NAME_MAX_LENGTH : nat := 80.

(** [name[..name.find(separator)?]] for the first separator that occurs *)
Fixpoint before_separator (separators : list string) (name : string) : option string :=
  match separators with
  | [] => None
  | separator :: separators =>
      match split_once_str separator name with
      | Some (first, _) => Some first
      | None => before_separator separators name
      end
  end.

Definition short_name (self : ApplicationMetadata) : string :=
  let name := trim (app_name self) in
  match before_separator SHORT_NAME_SEPARATORS name with
  | Some first => trim first
  | None =>
      let chars := utf8_chars (bytes_of_string name) in
      if (SHORT_NAME_MAX_LENGTH <? length chars)%nat
      then string_of_bytes (concat (take SHORT_NAME_MAX_LENGTH chars)) else name
  end.

End ApplicationNames.

(** ** [gemstone/src/services/balance/model.rs] and [services/transfer/model.rs] *)

Module TransferModels.
Import GemInputTypes.

(** The amount a [BigUint] balance keeps of each kind; the times of the chain's resources in [BalanceMetadata],
    which no rule here reads, are left out. *)
Record GemAssetBalance := MkBalance {
  balance_asset_id : AssetId;
  available : Z;
  frozen : Z;
  locked : Z;
  staked : Z;
  pending : Z;
  pending_unconfirmed : Z;
  balance_rewards : Z;
  reserved : Z;
  withdrawable : Z;
  earn : Z;
  metadata_votes : option Z
}.

Definition votes (self : GemAssetBalance) : Z := default 0 (metadata_votes self).

Record GemBalanceRequirement := MkRequirement { needed : Z; had : Z; shortfall : Z }.
Definition new_requirement (required available : Z) : GemBalanceRequirement :=
  MkRequirement required available (Z.max (required - available) 0).

Inductive RecentActivityType := RecentTransfer | RecentSwap.
Record GemRecentActivity := MkActivity {
  activity_type : RecentActivityType;
  activity_asset_id : AssetId;
  to_asset_id : option AssetId
}.

Record GemRecipient := MkRecipient {
  recipient_address : string;
  recipient_name : option string;
  recipient_memo : option string;
  recipient_references : list string
}.

Definition address (address : string) : GemRecipient := MkRecipient address None None [].
Definition named (address name : string) : GemRecipient := MkRecipient address (Some name) None [].

Record GemTransferData := MkTransfer {
  transfer_type : GemTransactionInputType;
  recipient : GemRecipient;
  transfer_value : Z;
  use_max_amount : bool;
  transfer_minimum : option Z
}.

Definition transfer_identifier (self : GemTransferData) : string :=
  join "-" [Chains.as_ref (chain_of (asset (transfer_type self))); recipient_address (recipient self);
            pretty (transfer_value self)].

Definition recipient_identifier (self : GemRecipient) : string :=
  join "_" [default EmptyString (recipient_name self); recipient_address self;
            default EmptyString (recipient_memo self)].

Record GemTransferOutput := MkOutput { transfer_output_type : TransferDataOutputType; transfer_output_action : TransferDataOutputAction }.

Inductive GemConfirmDestination :=
| ToRecipient (name : option string) (address : string)
| ToContract (address : string)
| ToValidator (name address : string)
| ToResource (resource : Resource)
| ToProvider (name address : string).

Inductive GemTransactionHeaderKind :=
| AmountHeader (shows_fiat : bool) | SwapHeader | NftHeader | SymbolHeader | AssetImageHeader.

Inductive FeePriority := Normal | Fast.
#[export] Instance FeePriority_eq_dec : EqDecision FeePriority.
Proof. solve_decision. Defined.

(** [SimulationHeader]; of a [SimulationResult] the rules read the header only. *)
Record SimulationHeader := MkHeader { header_asset_id : AssetId; header_value : option Z; is_unlimited : bool }.

End TransferModels.

(** ** [gemstone/src/services/transfer/rules.rs] *)

Module TransferRules.
Import GemInputTypes TransferModels.

Definition transaction_type (self : GemTransactionInputType) : TransactionTypes.TransactionType :=
  InputTypes.transaction_type (into self).

Definition transaction_asset (self : GemTransactionInputType) : Asset :=
  match self with
  | GemTransferNft asset _ => asset_from_chain (chain_of asset)
  | _ => asset self
  end.

Definition header_kind (self : GemTransactionInputType) : GemTransactionHeaderKind :=
  match self with
  | GemTransfer _ | GemDeposit _ | GemWithdrawal _ | GemStake _ _ | GemEarn _ _ _ | GemGeneric _ _ _ => AmountHeader true
  | GemAccount _ => AmountHeader false
  | GemTokenApprove _ _ => AssetImageHeader
  | GemTransferNft _ _ => NftHeader
  | GemSwap _ _ _ => SwapHeader
  | GemPerpetual _ _ => SymbolHeader
  end.

(** [config/chain.rs]; [None] where the chain has no configuration, which does not happen ([registry_total]) *)
Definition is_memo_supported (chain : Chains.Chain) : bool :=
  match ChainMethods.chain_type chain with
  | Some (ChainTypes.Solana | ChainTypes.Cosmos | ChainTypes.Ton | ChainTypes.Xrp | ChainTypes.Stellar
          | ChainTypes.Algorand) => true
  | _ => false
  end.

Definition shows_memo (self : GemTransactionInputType) : bool :=
  match self with
  | GemTransfer _ | GemDeposit _ | GemWithdrawal _ => is_memo_supported (chain_of (asset self))
  | _ => false
  end.

Definition default_fee_priority (self : GemTransactionInputType) : FeePriority :=
  match self with
  | GemSwap from_asset _ _ => if bool_decide (chain_of from_asset = Chains.Bitcoin) then Fast else Normal
  | _ => Normal
  end.

Definition application_short_name (self : GemTransactionInputType) : option string :=
  match self with GemGeneric _ metadata _ => Some (ApplicationNames.short_name metadata) | _ => None end.

Definition output (self : GemTransactionInputType) : GemTransferOutput :=
  match self with
  | GemGeneric _ _ extra => MkOutput (gem_output_type extra) (gem_output_action extra)
  | _ => MkOutput EncodedTransaction Send
  end.

Definition asset_ids (self : GemTransactionInputType) : list AssetId :=
  match self with
  | GemSwap from_asset to_asset _ => [id from_asset; id to_asset]
  | GemTransferNft _ _ => []
  | _ => [id (asset self)]
  end.

Definition default_asset (chain : Chains.Chain) (type : AssetTypes.AssetType) : option Asset :=
  List.find (fun asset => bool_decide (asset_type asset = type)) (KnownAssets.wallet_default_assets chain).

Definition fee_asset (self : GemTransactionInputType) : Asset :=
  let asset := transaction_asset self in
  let chain := chain_of asset in
  match self, chain with
  | GemPerpetual _ _, Chains.HyperCore => default asset (default_asset chain AssetTypes.PERPETUAL)
  | _, Chains.Tempo => asset
  | _, Chains.HyperCore => default asset (default_asset chain AssetTypes.TOKEN)
  | _, _ => if is_token (id asset) then asset_from_chain chain else asset
  end.

Definition recent_activity (self : GemTransactionInputType) : option GemRecentActivity :=
  match self with
  | GemTransfer asset => Some (MkActivity RecentTransfer (id asset) None)
  | GemSwap from_asset to_asset _ => Some (MkActivity RecentSwap (id from_asset) (Some (id to_asset)))
  | _ => None
  end.

Definition approval (self : GemTransactionInputType) (transaction_type : TransactionTypes.TransactionType)
  : result string (option ApprovalData) :=
  if bool_decide (transaction_type <> TransactionTypes.TokenApproval) then Ok None
  else match self with
    | GemSwap _ _ swap =>
        let? approval := ok_or (quote_approval (Payloads.swap_data swap)) "Missing swap approval data" in Ok (Some approval)
    | GemEarn _ _ data => let? approval := ok_or (call_approval data) "Missing earn approval data" in Ok (Some approval)
    | GemTokenApprove _ approval_data => Ok (Some approval_data)
    | GemGeneric _ _ extra => Ok (gem_approval extra)
    | GemTransfer _ | GemDeposit _ | GemStake _ _ | GemTransferNft _ _ | GemAccount _ | GemPerpetual _ _
    | GemWithdrawal _ => Err "Token approval transaction type does not match transfer data"
    end.

Definition HYPERCORE_ORDER_PREFIX : string := "order:".

Definition is_tracked (self : GemTransactionInputType) (transaction_type : TransactionTypes.TransactionType)
  (hash : string) (index count : Z) : bool :=
  if bool_decide (transaction_type = TransactionTypes.PerpetualModifyPosition) then false
  else if bool_decide (chain_of (asset self) <> Chains.HyperCore) then true
  else
    let is_intermediate := as_u32 (index + 1) <? count in
    match self with
    | GemStake _ _ => negb is_intermediate
    | GemPerpetual _ _ => starts_with HYPERCORE_ORDER_PREFIX hash
    | GemSwap _ to_asset swap =>
        negb (bool_decide (chain_of to_asset = Chains.HyperCore)
              && bool_decide (provider (provider_data (quote swap)) = SwapProviders.Hyperliquid) && is_intermediate)
    | _ => true
    end.

(** The amounts: votes are counted in whole coins. *)
Definition tron_stake_available (asset : Asset) (balance : GemAssetBalance) : Z :=
  let staked := votes balance * 10 ^ Z.max (decimals asset) 0 in
  Z.max (frozen balance + locked balance - staked) 0.

Definition unfreeze_available (resource : Resource) (balance : GemAssetBalance) : Z :=
  match resource with Bandwidth => frozen balance | Energy => locked balance end.

Definition destination_recipient (self : GemTransferData) : option GemConfirmDestination :=
  if bool_decide (recipient_address (recipient self) = "") then None
  else Some (ToRecipient (recipient_name (recipient self)) (recipient_address (recipient self))).

Definition destination_validator (validator : DelegationValidator) : GemConfirmDestination :=
  ToValidator (validator_name validator) (validator_id validator).

Definition destination (self : GemTransferData) : option GemConfirmDestination :=
  match transfer_type self with
  | GemTransfer _ | GemTransferNft _ _ | GemDeposit _ | GemWithdrawal _ => destination_recipient self
  | GemTokenApprove _ _ => Some (ToContract (recipient_address (recipient self)))
  | GemGeneric _ _ extra =>
      match gem_output_action extra with Send => destination_recipient self | Sign => None end
  | GemStake _ stake_type =>
      match stake_type with
      | Stake target => Some (destination_validator target)
      | Redelegate data => Some (destination_validator (to_validator data))
      | Unstake delegation | Withdraw delegation => Some (destination_validator (validator delegation))
      | Rewards [target] => Some (destination_validator target)
      | Rewards _ => None
      | Freeze resource | Unfreeze resource => Some (ToResource resource)
      end
  | GemEarn _ earn_type _ =>
      let provider := match earn_type with
        | EarnDepositTo provider => provider
        | EarnWithdrawFrom delegation => validator delegation
        end in
      Some (ToProvider (validator_name provider) (validator_id provider))
  | GemSwap _ _ _ | GemAccount _ | GemPerpetual _ _ => None
  end.

Definition stake_transfer_data (asset : Asset) (stake_type : StakeType) (value : Z) (use_max_amount : bool)
  : GemTransferData :=
  let to_validator v := named (validator_id v) (validator_name v) in
  let recipient := match stake_type with
    | Stake v => to_validator v
    | Redelegate data => to_validator (Payloads.to_validator data)
    | Unstake delegation | Withdraw delegation => to_validator (validator delegation)
    | Rewards (v :: _) => to_validator v
    | Rewards [] => address EmptyString
    | Freeze resource | Unfreeze resource => address (resource_as_ref resource)
    end in
  let spends := match stake_type with Stake _ | Freeze _ => true | _ => false end in
  MkTransfer (GemStake asset stake_type) recipient value (use_max_amount && spends) None.

Definition earn_transfer_data (asset : Asset) (earn_type : EarnType) (data : ContractCallData) (value : Z)
  (use_max_amount : bool) : GemTransferData :=
  let provider := match earn_type with
    | EarnDepositTo provider => provider
    | EarnWithdrawFrom delegation => validator delegation
    end in
  MkTransfer (GemEarn asset earn_type data) (named (contract_address data) (validator_name provider)) value
    use_max_amount None.

(** [GemTransferData::available_value]; it never fails. *)
Definition available_value (self : GemTransferData) (balance : GemAssetBalance) : Z :=
  let asset := asset (transfer_type self) in
  match transfer_type self with
  | GemWithdrawal _ => withdrawable balance
  | GemStake _ stake_type =>
      match stake_type with
      | Unstake delegation | Withdraw delegation => Payloads.balance (base delegation)
      | Redelegate data => Payloads.balance (base (redelegate_delegation data))
      | Rewards _ => transfer_value self
      | Unfreeze resource => unfreeze_available resource balance
      | Stake _ => if bool_decide (chain_of asset = Chains.Tron) then tron_stake_available asset balance
                   else available balance
      | Freeze _ => available balance
      end
  | GemEarn _ earn_type _ =>
      match earn_type with
      | EarnWithdrawFrom delegation => Payloads.balance (base delegation)
      | EarnDepositTo _ => available balance
      end
  | GemTransfer _ | GemDeposit _ | GemSwap _ _ _ | GemTokenApprove _ _ | GemGeneric _ _ _ | GemTransferNft _ _
  | GemAccount _ | GemPerpetual _ _ => available balance
  end.

End TransferRules.

(** ** The transaction that is recorded for a hash *)

Module PendingTransactions.
Import GemInputTypes TransferModels TransferRules Transactions.Transactions.

(** The values of [transaction_metadata_types.rs] that are written *)
Inductive MetadataValue :=
| SwapValue (metadata : TransactionSwapMetadata)
| NftValue (asset_id : string) (name : option string)
| PerpetualValue (direction : PerpetualDirection)
| ResourceValue (resource_type : Resource)
| WalletConnectValue (output_action : TransferDataOutputAction).

(** [serde_json::to_value], with the text of its error *)
Class MetadataJson `{TransactionJson} := to_value : MetadataValue -> result string JsonValue.

Definition metadata_value (self : GemTransactionInputType) : option MetadataValue :=
  match self with
  | GemSwap from_asset to_asset swap =>
      Some (SwapValue (MkSwapMetadata (Assets.Assets.id from_asset) (Payloads.from_value (quote swap))
        (Assets.Assets.id to_asset) (Payloads.to_value (quote swap))
        (Some (SwapProviders.as_ref (provider (provider_data (quote swap)))))))
  | GemTransferNft _ nft_asset => Some (NftValue (nft_id nft_asset) (Some (nft_name nft_asset)))
  | GemPerpetual _ perpetual_type =>
      match perpetual_type with
      | OpenPosition direction | ClosePosition direction | IncreasePosition direction => Some (PerpetualValue direction)
      | ReducePosition _ position_direction => Some (PerpetualValue position_direction)
      | ModifyPosition => None
      end
  | GemStake _ (Freeze data | Unfreeze data) => Some (ResourceValue data)
  | GemStake _ _ => None
  | GemGeneric _ metadata extra =>
      match app_source metadata with
      | WalletConnectSource => Some (WalletConnectValue (gem_output_action extra))
      | PaymentSource => None
      end
  | GemTransfer _ | GemDeposit _ | GemWithdrawal _ | GemTokenApprove _ _ | GemAccount _ | GemEarn _ _ _ => None
  end.

Record GemPendingTransactionInput := MkPending {
  sender : string;
  transfer : GemTransferData;
  pending_value : Z;
  pending_type : TransactionTypes.TransactionType;
  pending_hash : string;
  pending_fee : TransactionFee;
  network_fee : Z;
  pending_metadata : LoadMetadata.TransactionLoadMetadata;
  simulation_header : option SimulationHeader;
  transaction_index : Z;
  transaction_count : Z
}.

(** [BigInt::to_biguint] *)
Definition to_biguint (value : Z) : option Z := if 0 <=? value then Some value else None.

Section pending.
Context `{MetadataJson} (now : Z).

Definition metadata (self : GemTransactionInputType) : result string (option JsonValue) :=
  match metadata_value self with
  | Some value => let? json := to_value value in Ok (Some json)
  | None => Ok None
  end.

(** The recipient, the value and the memo of the transaction *)
Definition pending_view (self : GemTransferData) (approval : option ApprovalData) (header : option SimulationHeader)
  (transfer_value : Z) : string * Z * string :=
  match approval with
  | Some approval => (spender approval, approval_value approval, EmptyString)
  | None =>
      let recipient_ := match transfer_type self with
        | GemSwap _ _ swap => quote_to (Payloads.swap_data swap)
        | _ => recipient_address (recipient self)
        end in
      let value := default transfer_value (header ≫= header_value) in
      let memo := match transfer_type self with
        | GemSwap _ _ _ => EmptyString
        | _ => default EmptyString (recipient_memo (recipient self))
        end in
      (recipient_, value, memo)
  end.

Definition recorded_metadata (input_type : GemTransactionInputType) (approval : option ApprovalData)
  : result string (option JsonValue) :=
  match input_type, approval with
  | (GemSwap _ _ _ | GemEarn _ _ _), Some _ => Ok None
  | _, _ => metadata input_type
  end.

Definition with_sequence (self : Transaction) (block_number sequence : string)
  (direction : TransactionTypes.TransactionDirection) : Transaction :=
  MkTransaction (id self) (asset_id self) (Transactions.from self) (to self) (contract self)
    (Transactions.transaction_type self) (state self) (Some block_number) (Some sequence) (Transactions.fee self)
    (fee_asset_id self) (Transactions.value self) (Transactions.memo self) direction (utxo_inputs self)
    (utxo_outputs self) (Transactions.metadata self) (data self) (created_at self).

Definition pending_transaction (self : GemPendingTransactionInput) : result string (option Transaction) :=
  let input_type := transfer_type (transfer self) in
  if negb (is_tracked input_type (pending_type self) (pending_hash self) (transaction_index self) (transaction_count self))
  then Ok None
  else
    let chain := chain_of (asset input_type) in
    let? approval := approval input_type (pending_type self) in
    let header := match input_type with GemGeneric _ _ _ => simulation_header self | _ => None end in
    let? transfer_value := ok_or (to_biguint (pending_value self)) "negative transfer value" in
    let '(recipient, value, memo) := pending_view (transfer self) approval header transfer_value in
    let asset_id := match header, approval with
      | Some header, _ => header_asset_id header
      | None, Some approval => AssetIds.from chain (Some (token approval))
      | None, None => Assets.Assets.id (transaction_asset input_type)
      end in
    let direction := if String.eqb (sender self) recipient then TransactionTypes.SelfTransfer
                     else TransactionTypes.Outgoing in
    let? metadata := recorded_metadata input_type approval in
    let? fee := ok_or (to_biguint (network_fee self)) "negative network fee" in
    let transaction := new (pending_hash self) asset_id (sender self) recipient None (pending_type self)
      TransactionTypes.Pending fee (GasPrices.fee_asset (pending_fee self)) value (Some memo) metadata now in
    Ok (Some (with_sequence transaction
      (LoadMetadata.transaction_metadata_block_number (pending_metadata self))
      (LoadMetadata.transaction_metadata_sequence (pending_metadata self)) direction)).

End pending.
End PendingTransactions.

(** ** [gemstone/src/services/amount/rules.rs] *)

Module AmountRules.
Import TransferModels TransferRules.

Inductive GemAmountStakeType :=
| AmountStake
| AmountUnstake (delegation : Delegation)
| AmountRedelegate (delegation : Delegation)
| AmountWithdraw (delegation : Delegation)
| AmountRewards (delegations : list Delegation)
| AmountFreeze (resource : Resource)
| AmountUnfreeze (resource : Resource).

Inductive GemAmountEarnType := AmountEarnDeposit | AmountEarnWithdraw (delegation : Delegation).

Inductive GemAmountPerpetualPosition := OpenAmount | IncreaseAmount | ReduceAmount (available : Z).

(** The price, the leverage and the decimals of a perpetual only give the amount of its smallest order. *)
Inductive GemAmountType :=
| TransferAmount
| DepositAmount
| WithdrawAmount
| StakeAmount (stake_type : GemAmountStakeType)
| EarnAmount (earn_type : GemAmountEarnType)
| PerpetualAmount (position : GemAmountPerpetualPosition) (minimum_order_usd_amount : Z).

Record GemAmountInput := MkInput {
  input_available : Z;
  max_value : Z;
  reserved_fee : option Z;
  input_can_change : bool;
  input_shows_balance : bool
}.

Inductive GemAmountError :=
| Zero
| BelowMinimum (minimum : Z)
| InsufficientAmount (requirement : GemBalanceRequirement).

Definition USDC_SYMBOL : string := "USDC".
Definition MIN_DEPOSIT_AMOUNT : Z := 5000000.
Definition MIN_WITHDRAW_AMOUNT : Z := 2000000.

(** [StakeChain::from_str(chain.as_ref())] *)
Definition stake_chain (chain : Chains.Chain) : option StakeChains.StakeChain :=
  List.find (fun c => String.eqb (StakeChains.as_ref c) (Chains.as_ref chain)) StakeChains.all.

(** The two values of [get_stake_config] that are read; a stake chain without configuration does not exist. *)
Definition min_amount (chain : Chains.Chain) : Z :=
  default 0 (stake_chain chain ≫= StakeChains.get_min_stake_amount).
Definition reserved_for_fees (chain : Chains.Chain) : Z :=
  default 0 (stake_chain chain ≫= StakeChains.get_reserved_for_fees).

Definition amount_available (self : GemAmountType) (asset : Asset) (balance : GemAssetBalance) : Z :=
  match self with
  | TransferAmount | DepositAmount => available balance
  | WithdrawAmount => withdrawable balance
  | StakeAmount stake_type =>
      match stake_type with
      | AmountStake => if bool_decide (chain_of asset = Chains.Tron) then tron_stake_available asset balance
                       else available balance
      | AmountFreeze _ => available balance
      | AmountUnstake delegation | AmountRedelegate delegation | AmountWithdraw delegation =>
          Payloads.balance (base delegation)
      | AmountRewards delegations => sum (fun delegation => Payloads.rewards (base delegation)) delegations
      | AmountUnfreeze resource => unfreeze_available resource balance
      end
  | EarnAmount earn_type =>
      match earn_type with
      | AmountEarnDeposit => available balance
      | AmountEarnWithdraw delegation => Payloads.balance (base delegation)
      end
  | PerpetualAmount position _ =>
      match position with
      | OpenAmount | IncreaseAmount => available balance
      | ReduceAmount available => available
      end
  end.

Definition validate_value (value available minimum : Z) : result GemAmountError () :=
  if value <=? 0 then Err Zero
  else if value <? minimum then Err (BelowMinimum minimum)
  else if available <? value then Err (InsufficientAmount (new_requirement value available))
  else Ok tt.

Definition usdc_minimum (asset : Asset) (minimum : Z) : Z := if String.eqb (symbol asset) USDC_SYMBOL then minimum else 0.

Definition minimum_value (amount_type : GemAmountType) (asset : Asset) : Z :=
  match amount_type with
  | TransferAmount | EarnAmount _ => 0
  | DepositAmount => usdc_minimum asset MIN_DEPOSIT_AMOUNT
  | WithdrawAmount => usdc_minimum asset MIN_WITHDRAW_AMOUNT
  | StakeAmount (AmountStake | AmountFreeze _) => min_amount (chain_of asset)
  | StakeAmount (AmountRedelegate _) =>
      if bool_decide (chain_of asset = Chains.SmartChain) then min_amount (chain_of asset) else 0
  | StakeAmount (AmountWithdraw _ | AmountUnstake _ | AmountUnfreeze _ | AmountRewards _) => 0
  | PerpetualAmount _ minimum_order_usd_amount => minimum_order_usd_amount
  end.

Definition reserve_for_fee (amount_type : GemAmountType) (asset : Asset) : Z :=
  match amount_type with
  | StakeAmount AmountStake =>
      if bool_decide (chain_of asset <> Chains.Tron) then reserved_for_fees (chain_of asset) else 0
  | StakeAmount (AmountFreeze _) => reserved_for_fees (chain_of asset)
  | _ => 0
  end.

Definition can_change_value (amount_type : GemAmountType) (asset : Asset) : bool :=
  match amount_type with
  | StakeAmount stake_type =>
      match stake_type with
      | AmountUnstake _ => default true (stake_chain (chain_of asset) ≫= StakeChains.get_change_amount_on_unstake)
      | AmountWithdraw _ | AmountRewards _ => false
      | AmountStake | AmountRedelegate _ | AmountFreeze _ | AmountUnfreeze _ => true
      end
  | _ => true
  end.

Definition shows_asset_balance (amount_type : GemAmountType) (asset : Asset) : bool :=
  match amount_type with
  | StakeAmount (AmountRewards _) => true
  | _ => can_change_value amount_type asset
  end.

Definition reserves_fee (amount_type : GemAmountType) (reserve max_after_fee minimum : Z) : bool :=
  match amount_type with
  | StakeAmount (AmountStake | AmountFreeze _) => (0 <? reserve) && (minimum <? max_after_fee)
  | _ => false
  end.

Definition input (self : GemAmountType) (asset : Asset) (balance : GemAssetBalance) : GemAmountInput :=
  let available := amount_available self asset balance in
  let reserve := reserve_for_fee self asset in
  let max_after_fee := Z.max (available - reserve) 0 in
  let reserved_fee :=
    if reserves_fee self reserve max_after_fee (minimum_value self asset) then Some reserve else None in
  MkInput available (match reserved_fee with Some _ => max_after_fee | None => available end) reserved_fee
    (can_change_value self asset) (shows_asset_balance self asset).

Definition validate (self : GemAmountType) (asset : Asset) (balance : GemAssetBalance) (value : Z)
  : result GemAmountError () :=
  validate_value value (amount_available self asset balance) (minimum_value self asset).

End AmountRules.

(** ** Facts *)

Module TransferFacts.
Import GemInputTypes TransferModels TransferRules.

(** What comes from [primitives] is unchanged by the way through the client's type; the way back only loses the
    approval of an extra and turns a withdrawal into a transfer. *)
Lemma into_from x : into (from x) = x.
Proof. by destruct x as [| | | | |? ? []| | | |]. Qed.

Lemma from_into g :
  match g with
  | GemWithdrawal _ => from (into g) = GemTransfer (asset g)
  | GemGeneric a m e => from (into g) = GemGeneric a m (extra_from (extra_into e))
  | _ => from (into g) = g
  end.
Proof. by destruct g. Qed.

Lemma into_asset g : InputTypes.get_asset (into g) = asset g.
Proof. by destruct g. Qed.

Lemma metadata_texts m :
  LoadMetadata.transaction_metadata_sequence m
  = match LoadMetadata.get_sequence m with Ok n => pretty n | Err _ => "0" end
  /\ LoadMetadata.transaction_metadata_block_number m
     = match LoadMetadata.get_block_number m with Ok n => pretty n | Err _ => "0" end.
Proof. by destruct m. Qed.

Lemma default_asset_chain c type a : default_asset c type = Some a -> chain_of a = c /\ asset_type a = type.
Proof.
  unfold default_asset. intros [I T]%List.find_some. apply bool_decide_eq_true in T. split; [|done].
  unfold KnownAssets.wallet_default_assets in I. apply in_map_iff in I as (d & <- & I).
  apply list_elem_of_In in I. by apply list_elem_of_filter in I as [C _].
Qed.

Lemma asset_from_chain_chain c : chain_of (asset_from_chain c) = c.
Proof. unfold chain_of. by destruct (AssetFacts.chain_assets_native c) as [-> _]. Qed.

(** The fee of a transaction is paid on the chain of its asset: in the native asset, except on HyperCore, where
    a dollar token or the margin pays, and on Tempo, where the asset that is moved pays. *)
Theorem fee_asset_on_chain t :
  chain_of (fee_asset t) = chain_of (asset t)
  /\ (is_native (id (fee_asset t)) = true \/ chain_of (asset t) = Chains.HyperCore \/ chain_of (asset t) = Chains.Tempo).
Proof.
  assert (T : chain_of (transaction_asset t) = chain_of (asset t)) by (destruct t; try done; apply asset_from_chain_chain).
  assert (N : forall c, is_native (id (asset_from_chain c)) = true)
    by (intros c; by destruct (AssetFacts.chain_assets_native c) as [-> _]).
  assert (D : forall type, chain_of (default (transaction_asset t) (default_asset (chain_of (transaction_asset t)) type))
                           = chain_of (transaction_asset t)).
  { intros type. destruct (default_asset _ type) as [a|] eqn:E; [by apply default_asset_chain in E as [? _]|done]. }
  rewrite <- T. unfold fee_asset.
  destruct (decide (chain_of (transaction_asset t) = Chains.HyperCore)) as [H|H].
  { split; [|by right; left]. rewrite H in *. destruct t; apply D. }
  destruct (decide (chain_of (transaction_asset t) = Chains.Tempo)) as [P|P].
  { split; [|by right; right]. rewrite P. by destruct t. }
  assert (E : fee_asset t = if is_token (id (transaction_asset t)) then asset_from_chain (chain_of (transaction_asset t))
                            else transaction_asset t).
  { unfold fee_asset. destruct t; destruct (chain_of (transaction_asset _)); done. }
  unfold fee_asset in E. rewrite E. destruct (is_token (id (transaction_asset t))) eqn:K.
  - rewrite asset_from_chain_chain, N. auto.
  - split; [done|]. left. unfold is_native, is_token in *. by destruct (token_id _).
Qed.

(** The transfer of a stake goes to the address that is shown: the validator or the resource of the destination
    is the recipient; nothing is shown only for rewards of no or of several validators. *)
Theorem destination_is_recipient asset stake_type value max :
  let transfer := stake_transfer_data asset stake_type value max in
  match destination transfer with
  | Some (ToValidator name address) => recipient transfer = named address name
  | Some (ToResource resource) => recipient transfer = address (resource_as_ref resource)
  | Some _ => False
  | None => exists validators, stake_type = Rewards validators /\ length validators <> 1%nat
  end
  /\ (use_max_amount transfer = true -> InputTypes.spends_balance (into (transfer_type transfer)) = true).
Proof.
  destruct stake_type as [| | |validators| | |]; cbn; rewrite ?andb_false_r; try (split; done).
  destruct validators as [|? [|? ?]]; cbn; split; try done; eexists; split; done.
Qed.

(** On HyperCore, of the transactions of one stake only the last is tracked; a changed order of a perpetual never
    is; elsewhere every other transaction is. *)
Lemma tracked_once t type hash index count :
  0 <= index < count -> count <= 2 ^ 32 ->
  is_tracked t type hash index count = true ->
  type <> TransactionTypes.PerpetualModifyPosition
  /\ (chain_of (asset t) = Chains.HyperCore -> forall a s, t = GemStake a s -> index + 1 = count).
Proof.
  intros B L. unfold is_tracked. case_bool_decide as M; [done|]. case_bool_decide as C; [done|].
  intros T. split; [done|]. intros _ a s ->. apply negb_true_iff, Z.ltb_ge in T.
  destruct (decide (index + 1 = count)); [done|]. unfold as_u32 in T. rewrite (wrap_small 32) in T by zlia. lia.
Qed.

End TransferFacts.

Module PendingFacts.
Import GemInputTypes TransferModels TransferRules PendingTransactions Transactions.Transactions.

Section facts.
Context `{MetadataJson} (now : Z).

(** The transaction that is recorded for a hash: it is pending, from the sender, with the hash and the type
    that were signed and the fee of the network; an approval is recorded with its spender and its value, anything
    else with the recipient of the transfer, or of the swap, and the confirmed amount unless a simulation
    reported one; it is a transfer to oneself exactly when it goes to its sender. *)
Theorem recorded_transaction p t :
  pending_transaction now p = Ok (Some t) ->
  let input_type := transfer_type (transfer p) in
  TransactionIds.hash (Transactions.id t) = pending_hash p
  /\ Transactions.from t = sender p /\ Transactions.transaction_type t = pending_type p
  /\ state t = TransactionTypes.Pending
  /\ Transactions.fee t = network_fee p /\ 0 <= network_fee p /\ 0 <= pending_value p
  /\ (direction t = TransactionTypes.SelfTransfer <-> to t = sender p)
  /\ is_tracked input_type (pending_type p) (pending_hash p) (transaction_index p) (transaction_count p) = true
  /\ exists approval, TransferRules.approval input_type (pending_type p) = Ok approval
     /\ match approval with
        | Some approval => to t = spender approval /\ Transactions.value t = approval_value approval
        | None =>
            to t = match input_type with
              | GemSwap _ _ swap => quote_to (Payloads.swap_data swap)
              | _ => recipient_address (recipient (transfer p))
              end
            /\ (Transactions.value t = pending_value p
                \/ exists a m e, input_type = GemGeneric a m e
                   /\ (simulation_header p ≫= header_value) = Some (Transactions.value t))
        end.
Proof.
  unfold pending_transaction. cbv zeta. remember (transfer_type (transfer p)) as input_type eqn:I.
  destruct (is_tracked input_type _ _ _ _) eqn:T; [cbn [negb]|done].
  destruct (approval input_type (pending_type p)) as [app|] eqn:A; [|done].
  set (header := match input_type with GemGeneric _ _ _ => simulation_header p | _ => None end).
  unfold to_biguint. destruct (0 <=? pending_value p) eqn:V; [cbn [ok_or]|done].
  destruct (pending_view _ app header _) as [[to_ value_] memo_] eqn:P.
  destruct (recorded_metadata input_type app) as [json|]; [|done].
  destruct (0 <=? network_fee p) eqn:F; [cbn [ok_or]|done]. zbool. intros E. inversion E; subst t; clear E. cbn.
  split_and!; try done.
  - destruct (String.eqb_spec (sender p) to_) as [->|N]; [done|]. split; [done|]. by intros ->.
  - exists app. split; [done|]. unfold pending_view in P. rewrite <- I in P. destruct app as [app|]; [by inversion P|].
    inversion P; subst to_ value_ memo_; clear P. split; [by destruct input_type|].
    subst header. destruct input_type; try by left.
    destruct (simulation_header p ≫= header_value) as [v|] eqn:HV; [right|by left]. cbn.
    eexists _, _, _. split; [done|]. done.
Qed.

End facts.
End PendingFacts.

Module AmountRuleFacts.
Import GemInputTypes TransferModels TransferRules AmountRules.

(** The kind of amount that is entered for a stake *)
Definition entered (stake_type : StakeType) (rewards : list Delegation) : GemAmountStakeType :=
  match stake_type with
  | Stake _ => AmountStake
  | Unstake delegation => AmountUnstake delegation
  | Redelegate data => AmountRedelegate (redelegate_delegation data)
  | Rewards _ => AmountRewards rewards
  | Withdraw delegation => AmountWithdraw delegation
  | Freeze resource => AmountFreeze resource
  | Unfreeze resource => AmountUnfreeze resource
  end.

(** The balance that a transfer is checked against is the balance the amount was entered against, for every kind
    of stake; rewards are checked against the amount that is claimed. *)
Theorem available_agree asset stake_type rewards balance value max :
  (forall validators, stake_type = Rewards validators ->
     value = amount_available (StakeAmount (AmountRewards rewards)) asset balance) ->
  available_value (stake_transfer_data asset stake_type value max) balance
  = amount_available (StakeAmount (entered stake_type rewards)) asset balance.
Proof. destruct stake_type as [| | |validators| | |]; intros R; cbn; try done. by rewrite (R validators). Qed.

Lemma validate_Ok self asset balance value :
  validate self asset balance value = Ok tt <->
  0 < value /\ minimum_value self asset <= value <= amount_available self asset balance.
Proof.
  unfold validate, validate_value. destruct (value <=? 0) eqn:P; zbool; [split; [done|lia]|].
  destruct (value <? _) eqn:M; zbool; [split; [done|lia]|].
  destruct (_ <? value) eqn:A; zbool; [split; [done|lia]|]. split; [lia|done].
Qed.

(** The largest amount that is offered is valid when it is positive and reaches the minimum; what is reserved is
    then left over. *)
Lemma max_is_valid self asset balance :
  let i := input self asset balance in
  (0 < max_value i -> minimum_value self asset <= max_value i -> validate self asset balance (max_value i) = Ok tt)
  /\ (forall reserve, reserved_fee i = Some reserve ->
        0 < reserve /\ max_value i = amount_available self asset balance - reserve \/ max_value i = 0).
Proof.
  unfold input. set (available := amount_available self asset balance). set (reserve := reserve_for_fee self asset).
  destruct (reserves_fee _ _ _ _) eqn:R; cbn; (split; [intros P M; apply validate_Ok; fold available|]); try lia.
  - unfold reserves_fee in R. destruct self as [| | |s| |]; try done.
    destruct s; try done; apply andb_true_iff in R as [R _]; zbool; lia.
  - intros r [= <-]. unfold reserves_fee in R. destruct self as [| | |s| |]; try done.
    destruct s; try done; apply andb_true_iff in R as [R _]; zbool; lia.
  - done.
Qed.

(** The request that confirms a stake, its fee paid from the staked asset *)
Definition stake_request (asset : Asset) (stake_type : StakeType) (balance : GemAssetBalance) (value fee : Z)
  : TransferAmounts.TransferAmountInput :=
  let transfer := stake_transfer_data asset stake_type value false in
  TransferAmounts.MkAmountInput (into (transfer_type transfer)) value (available_value transfer balance)
    (id asset) (available balance) fee false (transfer_minimum transfer).

(** An amount up to the largest one offered can be confirmed: when staking reserves a part of the balance for
    the fees, and the network asks at most that part, less what keeps the account alive, the transfer of the
    entered amount is accepted as it stands. *)
Theorem entered_stake_is_accepted asset validator balance value fee reserve :
  let i := input (StakeAmount AmountStake) asset balance in
  reserved_fee i = Some reserve ->
  value <= max_value i ->
  0 <= fee -> fee + default 0 (default None (ChainMethods.minimum_account_balance (chain_of asset))) <= reserve ->
  TransferAmounts.calculate (stake_request asset (Stake validator) balance value fee)
  = Ok (TransferAmounts.MkAmount value fee false).
Proof.
  intros i R V F M.
  assert (chain_of asset <> Chains.Tron /\ 0 < reserve /\ value <= available balance - reserve /\ reserve <= available balance)
    as (T & P & L & W).
  { subst i. unfold input in *. cbn [amount_available reserve_for_fee reserves_fee] in *.
    case_bool_decide as T; [rewrite bool_decide_false in * by tauto; cbn in R; done|].
    rewrite bool_decide_true in R, V by done.
    destruct ((0 <? _) && _) eqn:E; [|done]. cbn [reserved_fee max_value] in R, V.
    assert (reserve = reserved_for_fees (chain_of asset)) as -> by congruence.
    apply andb_true_iff in E as [E G]. zbool.
    assert (0 <= min_amount (chain_of asset)) by (destruct (chain_of asset); vm_compute; done).
    cbn [minimum_value] in G. split_and!; [done|lia..]. }
  assert (A : available_value (stake_transfer_data asset (Stake validator) value false) balance = available balance).
  { cbn. by rewrite bool_decide_false. }
  assert (D : TransferAmounts.should_deduct_fee (stake_request asset (Stake validator) balance value fee) = true).
  { unfold TransferAmounts.should_deduct_fee. cbn. by rewrite bool_decide_true. }
  apply AmountFacts.calculate_Ok. unfold stake_request in *. rewrite A in *.
  split; [done|]. rewrite AmountFacts.required_spent, D. cbn.
  destruct (ChainMethods.minimum_account_balance (chain_of asset)) as [[m|]|] eqn:C; cbn in M;
    [pose proof (AmountFacts.configured_minimum_nonneg _ _ C)|..];
    (split; [lia|]; split; [left; lia|]; split; [|done]);
    intros m' K; apply AmountFacts.minimum_account_balance_Some in K as (_ & K & _);
    change (ChainMethods.minimum_account_balance (chain_of asset) = Some (Some m')) in K; rewrite C in K; try done.
  injection K as <-. lia.
Qed.

End AmountRuleFacts.

(** ** Concrete transfers *)

Module RulesConcrete.
Import GemInputTypes TransferModels TransferRules AmountRules TransferFacts PendingFacts AmountRuleFacts.
Import AmountConcrete.

#[local] Instance no_metadata : Transactions.Transactions.TransactionJson :=
  {| Transactions.Transactions.JsonValue := PendingTransactions.MetadataValue;
     Transactions.Transactions.asset_transfers := fun _ => None;
     Transactions.Transactions.swap_of := fun _ => None |}.
#[local] Instance own_metadata : PendingTransactions.MetadataJson := fun value => Ok value.

Definition holder (available : Z) : GemAssetBalance :=
  MkBalance (from_chain Chains.Solana) available 0 0 0 0 0 0 0 0 0 None.
Definition validator_a : DelegationValidator := MkValidator Chains.Solana "vote account" "Validator A".

(** A stake of all that is offered from 3 SOL: 5,000,000 are reserved. *)
Lemma entered_stake_is_accepted_witness :
  max_value (input (StakeAmount AmountStake) sol (holder 3000000000)) = 2995000000
  /\ TransferAmounts.calculate (stake_request sol (Stake validator_a) (holder 3000000000) 2995000000 5000)
     = Ok (TransferAmounts.MkAmount 2995000000 5000 false).
Proof.
  split; [by vm_compute|].
  apply (entered_stake_is_accepted sol validator_a (holder 3000000000) 2995000000 5000 5000000);
    [by vm_compute|apply Z.leb_le; by vm_compute..].
Defined.

Lemma available_agree_witness :
  available_value (stake_transfer_data trx (Stake validator_a) 5 false)
    (MkBalance (from_chain Chains.Tron) 10 4000000 3000000 0 0 0 0 0 0 0 (Some 2))
  = 5000000.
Proof.
  rewrite (available_agree trx (Stake validator_a) [] _ 5 false) by done. by vm_compute.
Defined.

(** The approval that precedes a swap is recorded with its spender; the swap itself with the address of the quote. *)
Definition token_swap : GemTransferData :=
  let approval := MkApproval "0xtoken" "0xrouter" 77 false in
  let data := MkQuoteData "0xrouter" ContractCall 0 "0x" None (Some approval) (Some "21000") in
  MkTransfer (GemSwap (asset_from_chain Chains.Ethereum) sol (MkSwapData (quote (MkSwapData
    (MkQuote "0xme" 77 None "me" 5 near_intents 50 None None) data)) data))
    (address EmptyString) 77 false None.

Definition recorded (type : TransactionTypes.TransactionType) (index : Z) :=
  PendingTransactions.MkPending "0xme" token_swap 77 type "0xhash" (new_from_fee 9 (from_chain Chains.Ethereum)) 9
    (LoadMetadata.Evm 3 1 None) None index 2.

Lemma recorded_transaction_witness :
  exists t, PendingTransactions.pending_transaction 0 (recorded TransactionTypes.TokenApproval 0) = Ok (Some t)
  /\ Transactions.Transactions.to t = "0xrouter" /\ Transactions.Transactions.value t = 77.
Proof.
  eexists. assert (E : PendingTransactions.pending_transaction 0 (recorded TransactionTypes.TokenApproval 0) = Ok (Some _))
    by (vm_compute; reflexivity).
  split; [exact E|]. destruct (recorded_transaction _ _ _ E) as (_ & _ & _ & _ & _ & _ & _ & _ & _ & a & A & B).
  vm_compute in A. injection A as <-. exact B.
Defined.

(** The identifier of a recipient joins its parts by underscores, which the parts may contain. *)
Example recipients_share_identifier :
  recipient_identifier (MkRecipient "0xabc" (Some "Alice") (Some "order_7") [])
  = recipient_identifier (MkRecipient "0xabc_order" (Some "Alice") (Some "7") []).
Proof. reflexivity. Qed.

End RulesConcrete.
