(* ===== verification/Confirm.v ===== *)
(** * Confirming a transfer

    Models [gemstone/src/services/confirm]: the fees that are offered ([rules.rs], [primitives/src/fee.rs]; module
    [FeeRules]), the rules of a confirmation ([rules.rs], [error.rs], [model.rs]; [ConfirmRules]) and the service that
    signs, sends and records it ([mod.rs], [transfer.rs]; [ConfirmService]).

    The service is written against the class [ConfirmServices] of what it calls: the signer, the gateway, the store of
    transactions.  Their answers may depend on everything that happened before, which is the list of [Event]s, the
    oldest first; every operation with an effect takes the events so far and returns the events after it.  Prices,
    which are floating-point numbers, are left out of the records; an error of another component is its text. *)
From S2P Require Import Prelude Utf8 HexText ChainRegistry Assets Transactions Wallets BitcoinPlanner TransferAmount.
From S2P Require Import TransferRules.
Import Assets.AssetIds Assets.Assets Payloads GasPrices GemInputTypes TransferModels.

#[export] Existing Instances FeePriority_eq_dec.

(** ** Fees *)

Module FeeRules.

Inductive FeeUnitType := SatVb | Gwei | NativeUnit.

Definition unit_decimals (self : FeeUnitType) : Z := match self with NativeUnit => 0 | SatVb => 1 | Gwei => 9 end.
Definition scale_factor (self : FeeUnitType) : Z := 10 ^ unit_decimals self.

Definition fee_unit_type (chain : Chains.Chain) : FeeUnitType :=
  match ChainMethods.chain_type chain with
  | Some ChainTypes.Bitcoin => SatVb
  | Some ChainTypes.Ethereum => Gwei
  | _ => NativeUnit
  end.

Definition custom_fee_enabled (chain : Chains.Chain) : bool :=
  match ChainMethods.chain_type chain with Some ChainTypes.Bitcoin => true | _ => false end.

(** [BitcoinChain::from_chain] *)
Definition bitcoin_chain (chain : Chains.Chain) : option BitcoinPlanner.BitcoinChain :=
  match chain with
  | Chains.Bitcoin => Some BitcoinPlanner.Bitcoin
  | Chains.BitcoinCash => Some BitcoinPlanner.BitcoinCash
  | Chains.Litecoin => Some BitcoinPlanner.Litecoin
  | Chains.Doge => Some BitcoinPlanner.Doge
  | Chains.Zcash => Some BitcoinPlanner.Zcash
  | _ => None
  end.

Definition minimum_custom_fee_rate (chain : Chains.Chain) : option Z :=
  match ChainMethods.chain_type chain with
  | Some ChainTypes.Bitcoin => BitcoinPlanner.minimum_custom_fee_rate <$> bitcoin_chain chain
  | _ => None
  end.

Record GemFeeRate := MkRate { priority : FeePriority; gas_price_type : GasPriceType }.

Definition find_rate (rates : list GemFeeRate) (p : FeePriority) : option GemFeeRate :=
  List.find (fun rate => bool_decide (priority rate = p)) rates.

Record CustomFee := MkCustom {
  fee_value : Z;
  max_rate : Z;
  minimum_rate : option Z;
  is_over_max : bool;
  is_below_minimum : bool;
  is_valid : bool
}.

(** The quotient of [BigInt]s rounds towards zero. *)
Definition calculate_custom (rate : option Z) (loaded_fee base_total normal_total max_multiplier : Z)
  (minimum_rate : option Z) : CustomFee :=
  let rate := match rate with Some value => if 0 <? value then Some value else None | None => None end in
  let max_rate := normal_total * max_multiplier in
  let '(fee_value, is_over_max, is_below_minimum) := match rate with
    | Some rate =>
        (if negb (base_total =? 0) then Z.quot (loaded_fee * rate) base_total else loaded_fee,
         max_rate <? rate,
         match minimum_rate with Some minimum => rate <? minimum | None => false end)
    | None => (loaded_fee, false, false)
    end in
  MkCustom fee_value max_rate minimum_rate is_over_max is_below_minimum
    (match rate with Some _ => true | None => false end && negb is_over_max && negb is_below_minimum).

Definition MAX_MULTIPLIER : Z := 10.

(** [GemCustomFee::estimate] *)
Definition estimate (chain : Chains.Chain) (rate : option Z) (loaded_fee base_total normal_total : Z) : CustomFee :=
  calculate_custom rate loaded_fee base_total normal_total MAX_MULTIPLIER (minimum_custom_fee_rate chain).

Inductive GemConfirmFeeSelection := Priority (priority : FeePriority) | CustomPrice (gas_price : Z).

Definition selected_priority (self : GemConfirmFeeSelection) : option FeePriority :=
  match self with Priority priority => Some priority | CustomPrice _ => None end.
Definition custom_gas_price (self : GemConfirmFeeSelection) : option Z :=
  match self with Priority _ => None | CustomPrice gas_price => Some gas_price end.

(** [sort_by_key] *)
Definition rate_key (rate : GemFeeRate) : Z := match priority rate with Normal => 0 | Fast => 1 end.
Definition displayed_fee_rates (rates : list GemFeeRate) : list GemFeeRate :=
  BitcoinPlanner.sort_by (fun a b => rate_key a ?= rate_key b) rates.

(** [iter().find(..).or_else(|| rates.first())] *)
Definition rate_or_first (rates : list GemFeeRate) (priority : FeePriority) : option GemFeeRate :=
  match find_rate rates priority with Some rate => Some rate | None => head rates end.

(** [None] is the error [FeeRatesMissing]. *)
Definition select_fee_rate (self : GemConfirmFeeSelection) (rates : list GemFeeRate) : option GemFeeRate :=
  match self with
  | Priority priority => rate_or_first rates priority
  | CustomPrice gas_price =>
      let?? base := rate_or_first rates Normal in
      Some (MkRate (priority base) (custom (gas_price_type base) gas_price))
  end.

Record GemFeeRateRow := MkRow { row_priority : FeePriority; unit_value : Z; row_fee : option Z }.

Record GemFeeRateRows := MkRows {
  rows : list GemFeeRateRow;
  unit_type : FeeUnitType;
  rows_unit_decimals : Z;
  supports_custom_fee : bool;
  selected_total : option Z;
  normal_total : option Z
}.

Definition rate_value (rate : GemFeeRate) : Z := total_fee (gas_price_type rate).

Definition selected_rate_total (rates : list GemFeeRate) (selection : GemConfirmFeeSelection) : option Z :=
  match selection with
  | Priority priority => rate_value <$> find_rate rates priority
  | CustomPrice gas_price => Some gas_price
  end.

Definition fee_rate_rows (chain : Chains.Chain) (fee_asset : Asset) (rates : list GemFeeRate)
  (selection : GemConfirmFeeSelection) (loaded_fee : Z) : GemFeeRateRows :=
  let selected_total := selected_rate_total rates selection in
  let base := match selected_total with Some total => if 0 <? total then Some total else None | None => None end in
  let unit_type := fee_unit_type chain in
  MkRows
    (map (fun rate => MkRow (priority rate) (rate_value rate)
       ((fun base => Z.quot (loaded_fee * rate_value rate) base) <$> base)) rates)
    unit_type
    (match unit_type with NativeUnit => as_u32 (decimals fee_asset) | SatVb | Gwei => unit_decimals unit_type end)
    (custom_fee_enabled chain && (1 <? length rates)%nat)
    selected_total
    (match find_rate rates Normal with Some rate => Some (rate_value rate) | None => rate_value <$> head rates end).

End FeeRules.

(** ** Errors *)

Module ConfirmErrors.

Inductive GemSignerError :=
| InvalidInput (msg : string) | SigningError (msg : string) | DustThreshold | InsufficientFunds | SwapValueBelowMinimum.

Inductive GemstoneError :=
| AnyError (msg : string)
| SignerError (error : GemSignerError) (msg : string)
| CancelledByUser.

Inductive GatewayError :=
| GatewayOffline
| NetworkError (msg : string)
| PlatformError (msg : string)
| NetworkIdMismatch (chain network_id : string).

Definition gateway_text (self : GatewayError) : string :=
  match self with
  | GatewayOffline => "Network offline"
  | NetworkError msg => "Network error: " +:+ msg
  | PlatformError msg => "Platform error: " +:+ msg
  | NetworkIdMismatch chain network_id => "Node reports network " +:+ network_id +:+ " for " +:+ chain
  end.

Inductive GemConfirmError :=
| ScanMalicious
| ScanMemoRequired (symbol : string)
| FeeRatesMissing
| Offline
| Network (msg : string)
| Load (msg : string)
| Broadcast (hashes : list string) (msg : string)
| Record_ (msg : string)
| AccountMissing (chain : Chains.Chain)
| BalanceMissing (asset_id : AssetId)
| InsufficientBalance (asset : Asset) (requirement : GemBalanceRequirement)
| InsufficientNetworkFee (asset : Asset) (requirement : option GemBalanceRequirement)
| MinimumAccountBalanceTooLow (asset : Asset) (requirement : GemBalanceRequirement)
| SenderMismatch (from signer : string)
| SignFailed (error : GemSignerError) (chain : Chains.Chain) (msg : string)
| ApprovalInvalid (msg : string)
| Cancelled.

Definition sign_error (chain : Chains.Chain) (error : GemstoneError) : GemConfirmError :=
  match error with
  | CancelledByUser => Cancelled
  | SignerError error msg => SignFailed error chain msg
  | AnyError msg => SignFailed (SigningError msg) chain msg
  end.

Definition load_error (error : GatewayError) : GemConfirmError :=
  match error with
  | GatewayOffline => Offline
  | NetworkError msg => Network msg
  | error => Load (gateway_text error)
  end.

Definition broadcast_error (hashes : list string) (error : GatewayError) : GemConfirmError :=
  match hashes, error with
  | [], GatewayOffline => Offline
  | [], NetworkError msg => Network msg
  | _, error => Broadcast hashes (gateway_text error)
  end.

End ConfirmErrors.

(** ** [rules.rs] and [model.rs] *)

Module ConfirmRules.
Import Wallets Assets.Assets GemInputTypes TransferModels FeeRules ConfirmErrors TransferRules PendingTransactions.

Record GemConfirmInput := MkConfirmInput { from : Account; confirm_transfer : GemTransferData }.

Record GemConfirmData := MkConfirmData {
  confirm_input : GemConfirmInput;
  confirm_fee : TransactionFee;
  confirm_priority : FeePriority;
  confirm_rates : list GemFeeRate;
  confirm_metadata : LoadMetadata.TransactionLoadMetadata;
  confirm_simulation : option SimulationHeader
}.

Record SendInput := MkSend {
  wallet : Wallet;
  confirm : GemConfirmData;
  send_value : Z;
  send_fee : Z;
  send_simulation : option SimulationHeader
}.

Record GemAssetPrice := MkPrice { price_asset_id : AssetId }.

Record GemConfirmMetadata := MkConfirmMetadata {
  asset_balance : GemAssetBalance;
  fee_asset_balance : GemAssetBalance;
  prices : list GemAssetPrice
}.

Definition price (self : GemConfirmMetadata) (asset_id : AssetId) : option GemAssetPrice :=
  List.find (fun price => bool_decide (price_asset_id price = asset_id)) (prices self).
Definition asset_price (self : GemConfirmMetadata) : option GemAssetPrice :=
  price self (balance_asset_id (asset_balance self)).
Definition fee_price (self : GemConfirmMetadata) : option GemAssetPrice :=
  price self (balance_asset_id (fee_asset_balance self)).

Record GemFeeAsset := MkFeeAsset { selectable : Asset; selectable_balance : GemAssetBalance; selectable_price : option GemAssetPrice }.

Inductive GemTransferAmountResult :=
| Amount (amount : TransferAmounts.TransferAmount)
| AmountError (error : GemConfirmError).

Inductive GemApprovalValue := ExactValue (value : Z) | Unlimited.
Inductive GemAcquireAssetFlow := OptionsFlow | FiatFlow.

(** Of a [ScanTransaction], the two verdicts that are read *)
Record ScanTransaction := MkScan { is_malicious : option bool; is_memo_required : option bool }.

Record ScanAddressTarget := MkTarget { target_asset_id : AssetId; target_address : string }.
Record ScanTransactionPayload := MkPayload {
  origin : ScanAddressTarget;
  target : ScanAddressTarget;
  website : option string;
  payload_type : TransactionTypes.TransactionType
}.

(** [iter().find(|account| account.chain == chain)]; the address is the account's when it is the sender's. *)
Definition signing_address (wallet : Wallet) (chain : Chains.Chain) (from : string) : result GemConfirmError string :=
  let? signer := ok_or (account wallet chain) (AccountMissing chain) in
  if negb (String.eqb (Wallets.address signer) from) then Err (SenderMismatch from (Wallets.address signer))
  else Ok (Wallets.address signer).

Definition input_of (self : SendInput) : GemTransactionInputType :=
  transfer_type (confirm_transfer (confirm_input (confirm self))).
Definition chain_of_send (self : SendInput) : Chains.Chain := chain_of (asset (input_of self)).

Definition signer_input (self : SendInput) : result GemConfirmError GemSignerInput :=
  let '(MkConfirmInput from transfer) := confirm_input (confirm self) in
  let? sender_address := signing_address (wallet self) (chain_of_send self) (Wallets.address from) in
  let? value := ok_or (to_biguint (send_value self)) (Load "negative transfer value") in
  let fee := confirm_fee (confirm self) in
  Ok (MkGemSigner
    (MkGemLoad (transfer_type transfer) sender_address (recipient_address (recipient transfer)) value
       (GasPrices.gas_price_type fee) (recipient_memo (recipient transfer)) (use_max_amount transfer)
       (confirm_metadata (confirm self)))
    (MkFee (send_fee self) (GasPrices.gas_price_type fee) (gas_limit fee) (options fee) (GasPrices.fee_asset fee))).

(** The ids, each at its first place *)
Definition push_new (asset_ids : list AssetId) (asset_id : AssetId) : list AssetId :=
  if bool_decide (asset_id ∈ asset_ids) then asset_ids else asset_ids ++ [asset_id].
Definition metadata_asset_ids (asset_id fee_asset_id : AssetId) (extra_asset_ids : list AssetId) : list AssetId :=
  fold_left push_new ([asset_id; fee_asset_id] ++ extra_asset_ids) [].

Definition gem_approval_value (value : Z) (is_unlimited : bool) : GemApprovalValue :=
  if is_unlimited then Unlimited else ExactValue value.

Definition approval_value (self : GemTransactionInputType) : option (AssetId * GemApprovalValue) :=
  match self with
  | GemTokenApprove asset approval_data =>
      Some (id asset, gem_approval_value (Payloads.approval_value approval_data) (Payloads.is_unlimited approval_data))
  | _ => None
  end.

Definition approval_value_from (value : option Z) (is_unlimited : bool) : GemApprovalValue :=
  match value with
  | Some value => if negb is_unlimited then ExactValue value else Unlimited
  | None => Unlimited
  end.

Definition amount_error (error : TransferAmounts.TransferAmountError) (asset fee_asset : Asset) : GemConfirmError :=
  let error_asset asset_id := if bool_decide (id asset = asset_id) then asset else fee_asset in
  match error with
  | TransferAmounts.InsufficientBalance asset_id required available =>
      InsufficientBalance (error_asset asset_id) (new_requirement required available)
  | TransferAmounts.InsufficientNetworkFee asset_id required available =>
      InsufficientNetworkFee (error_asset asset_id) (Some (new_requirement required available))
  | TransferAmounts.MinimumAccountBalanceTooLow asset_id required available =>
      MinimumAccountBalanceTooLow (error_asset asset_id) (new_requirement required available)
  end.

Definition amount_input (self : GemConfirmData) (metadata : GemConfirmMetadata) (fee_asset : Asset)
  : TransferAmounts.TransferAmountInput :=
  let transfer := confirm_transfer (confirm_input self) in
  TransferAmounts.MkAmountInput (into (transfer_type transfer)) (transfer_value transfer)
    (available_value transfer (asset_balance metadata)) (id fee_asset) (available (fee_asset_balance metadata))
    (GasPrices.fee (confirm_fee self)) (use_max_amount transfer) (transfer_minimum transfer).

Definition preload_amount (self : GemConfirmData) (metadata : GemConfirmMetadata) (fee_asset : Asset)
  : GemTransferAmountResult :=
  match TransferAmounts.calculate (amount_input self metadata fee_asset) with
  | Ok amount => Amount amount
  | Err error =>
      AmountError (amount_error error (asset (transfer_type (confirm_transfer (confirm_input self)))) fee_asset)
  end.

Definition selectable_fee_assets (assets : list Asset) (balances : list GemAssetBalance) (prices : list GemAssetPrice)
  : list GemFeeAsset :=
  omap (fun balance =>
    let?? asset := List.find (fun asset => bool_decide (id asset = balance_asset_id balance)) assets in
    let price := List.find (fun price => bool_decide (price_asset_id price = balance_asset_id balance)) prices in
    Some (MkFeeAsset asset balance price))
  (List.filter (fun balance => 0 <? available balance) balances).

Definition find_balance (balances : list GemAssetBalance) (asset_id : AssetId) : result GemConfirmError GemAssetBalance :=
  ok_or (List.find (fun balance => bool_decide (balance_asset_id balance = asset_id)) balances) (BalanceMissing asset_id).

Definition build_metadata (asset_id fee_asset_id : AssetId) (balances : list GemAssetBalance)
  (prices : list GemAssetPrice) : result GemConfirmError GemConfirmMetadata :=
  let? asset_balance := find_balance balances asset_id in
  let? fee_asset_balance := find_balance balances fee_asset_id in
  Ok (MkConfirmMetadata asset_balance fee_asset_balance prices).

Fixpoint validate_approvals (self : GemTransactionInputType) (transactions : list GemSignedTransaction)
  : result GemConfirmError () :=
  match transactions with
  | [] => Ok tt
  | transaction :: transactions =>
      let? _ := map_err ApprovalInvalid (approval self (signed_type transaction)) in
      validate_approvals self transactions
  end.

Definition acquire_asset_flow (chain : Chains.Chain) : GemAcquireAssetFlow :=
  match chain with Chains.Tron => OptionsFlow | _ => FiatFlow end.

Definition is_insufficient_network_fee (fee_asset_id : AssetId) (fee_available : string) : bool :=
  if bool_decide (AssetIds.chain fee_asset_id = Chains.HyperCore) || bool_decide (AssetIds.chain fee_asset_id = Chains.Tron)
     || negb (is_native fee_asset_id) then false
  else string_forall (fun character => Ascii.eqb character "0") (trim fee_available).

Definition simulation_payload (self : GemTransactionInputType) : option string :=
  match self with
  | GemGeneric _ metadata extra =>
      match app_source metadata with
      | PaymentSource =>
          let?? data := gem_data extra in if utf8_valid data then Some (string_of_bytes data) else None
      | WalletConnectSource => None
      end
  | _ => None
  end.

(** [skip_preflight] of the [BroadcastOptions] *)
Definition broadcast_options (self : GemTransactionInputType) : bool :=
  match chain_of (asset self), self with
  | Chains.Solana, (GemSwap _ _ _ | GemGeneric _ _ _) => true
  | _, _ => false
  end.

Definition broadcast_delay_milliseconds (chain : Chains.Chain) : Z :=
  match ChainMethods.chain_type chain with
  | Some (ChainTypes.Ethereum | ChainTypes.HyperCore) => 0
  | _ => 500
  end.

Definition validate_scan (scan : option ScanTransaction) (memo : option string) (symbol : string)
  : result GemConfirmError () :=
  match scan with
  | None => Ok tt
  | Some scan =>
      if bool_decide (is_malicious scan = Some true) then Err ScanMalicious
      else if bool_decide (is_memo_required scan = Some true) && bool_decide (trim (default EmptyString memo) = EmptyString)
      then Err (ScanMemoRequired symbol)
      else Ok tt
  end.

(** What [GemTransactionPreloadInput] is lowered to; the addresses of Ethereum are checksummed by Keccak-256. *)
Class AddressChecksum := ethereum_address_checksum : string -> option string.

Definition checksum_address `{AddressChecksum} (address : string) (chain : Chains.Chain) : string :=
  let address := trim address in
  match ChainMethods.chain_type chain with
  | Some (ChainTypes.Ethereum | ChainTypes.HyperCore) => default address (ethereum_address_checksum address)
  | _ => address
  end.

Definition get_website (input_type : InputTypes.TransactionInputType) : option string :=
  match input_type with InputTypes.Generic _ app_metadata _ => Some (app_url app_metadata) | _ => None end.

Definition scan_payload `{AddressChecksum} (input_type : GemTransactionInputType) (sender destination : string)
  : ScanTransactionPayload :=
  let input_type := into input_type in
  let destination := checksum_address destination (chain_of (InputTypes.get_asset input_type)) in
  MkPayload (MkTarget (id (InputTypes.get_asset input_type)) sender)
    (MkTarget (id (InputTypes.get_recipient_asset input_type)) destination)
    (get_website input_type) (InputTypes.transaction_type input_type).

Section pending.
Context `{MetadataJson} (now : Z).

(** The transaction at the place [index] of those that were signed *)
Definition pending_input (self : SendInput) (sender hash : string) (index : nat) (count : nat)
  (signed : GemSignedTransaction) : GemPendingTransactionInput :=
  MkPending sender (confirm_transfer (confirm_input (confirm self))) (send_value self) (signed_type signed) hash
    (confirm_fee (confirm self)) (send_fee self) (confirm_metadata (confirm self)) (send_simulation self)
    (as_u32 (Z.of_nat index)) (as_u32 (Z.of_nat count)).

(** The hashes from the place [index] on; a hash without a signed transaction is skipped. *)
Fixpoint pending_from (self : SendInput) (sender : string) (index : nat) (hashes : list string)
  (transactions : list GemSignedTransaction) : result GemConfirmError (list (option Transactions.Transactions.Transaction)) :=
  match hashes with
  | [] => Ok []
  | hash :: hashes =>
      match transactions !! index with
      | None => pending_from self sender (S index) hashes transactions
      | Some signed =>
          let? pending := map_err Record_
            (pending_transaction now (pending_input self sender hash index (length transactions) signed)) in
          let? rest := pending_from self sender (S index) hashes transactions in
          Ok (pending :: rest)
      end
  end.

Definition pending_transactions (self : SendInput) (hashes : list string) (transactions : list GemSignedTransaction)
  : result GemConfirmError (list Transactions.Transactions.Transaction) :=
  let? account := ok_or (account (wallet self) (chain_of_send self)) 
    (Record_ ("wallet has no " +:+ Chains.as_ref (chain_of_send self) +:+ " account")) in
  let? pending := pending_from self (Wallets.address account) 0 hashes transactions in
  Ok (omap (fun transaction => transaction) pending).

End pending.
End ConfirmRules.

(** ** [mod.rs] and [transfer.rs]: loading *)

Module ConfirmLoading.
Import Wallets Assets.Assets GemInputTypes TransferModels FeeRules ConfirmErrors TransferRules PendingTransactions.
Import ConfirmRules.

Record GemConfirmLoadOptions := MkLoadOptions { fee_selection : GemConfirmFeeSelection; fee_asset_id : option AssetId }.

(** The gateway, the scanner, the simulator and the stores of balances, prices and assets; a failing scan is [None], and
    an error of a store is its text. *)
Class ConfirmQueries := {
  get_transaction_preload : Chains.Chain -> GemTransactionInputType -> string -> string -> list string ->
    result GatewayError LoadMetadata.TransactionLoadMetadata;
  get_fee_rates : Chains.Chain -> GemTransactionInputType -> result GatewayError (list GemFeeRate);
  scan_transaction : ScanTransactionPayload -> option ScanTransaction;
  simulate_transaction : Chains.Chain -> string -> option string -> result string (option SimulationHeader);
  get_transaction_load : Chains.Chain -> GemTransactionLoadInput ->
    result GatewayError (TransactionFee * LoadMetadata.TransactionLoadMetadata);
  get_balances : WalletIds.WalletId -> list AssetId -> result string (list GemAssetBalance);
  get_prices : list AssetId -> result string (list GemAssetPrice);
  get_assets : list AssetId -> result string (list Asset)
}.

Section loading.
Context `{ConfirmQueries, AddressChecksum}.

Definition simulate (chain : Chains.Chain) (input : GemConfirmInput) : result GemConfirmError (option SimulationHeader) :=
  match simulation_payload (transfer_type (confirm_transfer input)) with
  | None => Ok None
  | Some transaction => map_err Load (simulate_transaction chain transaction (Some (Wallets.address (from input))))
  end.

Definition with_fee_asset (fee : TransactionFee) (fee_asset_id : option AssetId) : TransactionFee :=
  match fee_asset_id with
  | Some fee_asset_id =>
      MkFee (GasPrices.fee fee) (GasPrices.gas_price_type fee) (gas_limit fee) (options fee) fee_asset_id
  | None => fee
  end.

Definition load_input (input : GemConfirmInput) (value : Z) (rate : GemFeeRate)
  (metadata : LoadMetadata.TransactionLoadMetadata) : GemTransactionLoadInput :=
  let transfer := confirm_transfer input in
  MkGemLoad (transfer_type transfer) (Wallets.address (from input)) (recipient_address (recipient transfer)) value
    (FeeRules.gas_price_type rate) (recipient_memo (recipient transfer)) (use_max_amount transfer) metadata.

Definition load (input : GemConfirmInput) (options : GemConfirmLoadOptions) : result GemConfirmError GemConfirmData :=
  let transfer := confirm_transfer input in
  let asset := asset (transfer_type transfer) in
  let chain := chain_of asset in
  let destination := recipient_address (recipient transfer) in
  let scan := scan_transaction (scan_payload (transfer_type transfer) (Wallets.address (from input)) destination) in
  let? metadata := map_err load_error
    (get_transaction_preload chain (transfer_type transfer) (Wallets.address (from input)) destination
       (recipient_references (recipient transfer))) in
  let? fee_rates := map_err load_error (get_fee_rates chain (transfer_type transfer)) in
  let fee_rates := displayed_fee_rates fee_rates in
  let? simulation := simulate chain input in
  let? _ := validate_scan scan (recipient_memo (recipient transfer)) (symbol asset) in
  let? selected := ok_or (select_fee_rate (fee_selection options) fee_rates) FeeRatesMissing in
  let? value := ok_or (to_biguint (transfer_value transfer)) (Load "negative transfer value") in
  let? (fee, load_metadata) := map_err load_error (get_transaction_load chain (load_input input value selected metadata)) in
  Ok (MkConfirmData input (with_fee_asset fee (fee_asset_id options)) (priority selected) fee_rates load_metadata
        simulation).

Definition metadata (wallet_id : WalletIds.WalletId) (asset_id fee_asset_id : AssetId) (extra_asset_ids : list AssetId)
  : result GemConfirmError GemConfirmMetadata :=
  let asset_ids := metadata_asset_ids asset_id fee_asset_id extra_asset_ids in
  let? balances := map_err Load (get_balances wallet_id asset_ids) in
  let? prices := map_err Load (get_prices asset_ids) in
  build_metadata asset_id fee_asset_id balances prices.

Definition input_metadata (wallet_id : WalletIds.WalletId) (input_type : GemTransactionInputType) (fee_asset_id : AssetId)
  : result GemConfirmError GemConfirmMetadata :=
  metadata wallet_id (id (transaction_asset input_type)) fee_asset_id (asset_ids input_type).

(** [models/asset.rs] *)
Definition chain_fee_asset_ids (chain : Chains.Chain) : list AssetId :=
  match chain with Chains.Tempo => map id (KnownAssets.wallet_default_assets chain) | _ => [] end.

Definition fee_assets (wallet_id : WalletIds.WalletId) (chain : Chains.Chain) : result GemConfirmError (list GemFeeAsset) :=
  let fee_asset_ids := chain_fee_asset_ids chain in
  match fee_asset_ids with
  | [] => Ok []
  | _ =>
      let? assets := map_err Load (get_assets fee_asset_ids) in
      let? balances := map_err Load (get_balances wallet_id fee_asset_ids) in
      let? prices := map_err Load (get_prices fee_asset_ids) in
      Ok (selectable_fee_assets assets balances prices)
  end.

Record GemConfirmPreload := MkPreload {
  confirm_data : GemConfirmData;
  preload_metadata : GemConfirmMetadata;
  preload_fee_asset : Asset;
  preloaded_amount : GemTransferAmountResult
}.

Definition preload (wallet_id : WalletIds.WalletId) (input : GemConfirmInput) (options : GemConfirmLoadOptions)
  : result GemConfirmError GemConfirmPreload :=
  let? confirm_data := load input options in
  let fee_asset_id := GasPrices.fee_asset (confirm_fee confirm_data) in
  let? metadata := input_metadata wallet_id (transfer_type (confirm_transfer (confirm_input confirm_data))) fee_asset_id in
  let? assets := map_err Load (get_assets [fee_asset_id]) in
  let? fee_asset := ok_or (head assets) (BalanceMissing fee_asset_id) in
  Ok (MkPreload confirm_data metadata fee_asset (preload_amount confirm_data metadata fee_asset)).

(** [GemConfirmTransferService]: the balance is written out by [to_string]. *)
Definition missing_network_fee (wallet_id : WalletIds.WalletId) (input_type : GemTransactionInputType)
  : option GemConfirmError :=
  let?? metadata := ok (input_metadata wallet_id input_type (id (fee_asset input_type))) in
  let balance := fee_asset_balance metadata in
  if is_insufficient_network_fee (balance_asset_id balance) (pretty.pretty (available balance))
  then Some (InsufficientNetworkFee (asset_from_chain (AssetIds.chain (balance_asset_id balance))) None)
  else None.

Definition preload_or_fee_error (wallet_id : WalletIds.WalletId) (input : GemConfirmInput)
  (options : GemConfirmLoadOptions) : result GemConfirmError GemConfirmPreload :=
  match preload wallet_id input options with
  | Ok preload => Ok preload
  | Err error => Err (default error (missing_network_fee wallet_id (transfer_type (confirm_transfer input))))
  end.

(** [GemConfirmTransferService::confirm_input] *)
Definition confirm_input (wallet : Wallet) (transfer : GemTransferData) : result GemConfirmError GemConfirmInput :=
  let chain := chain_of (asset (transfer_type transfer)) in
  let? from := ok_or (account wallet chain) (AccountMissing chain) in
  Ok (MkConfirmInput from transfer).

End loading.
End ConfirmLoading.

(** ** [mod.rs] and [transfer.rs]: signing, sending and recording *)

Module ConfirmService.
Import Wallets Assets.Assets GemInputTypes TransferModels FeeRules ConfirmErrors TransferRules PendingTransactions.
Import ConfirmRules Transactions.Transactions.

Section service.
Context `{MetadataJson} (now : Z).

Inductive Event :=
| SignRequested (input : GemSignerInput)
| BroadcastSent (chain : Chains.Chain) (data : string) (skip_preflight : bool)
| Slept (milliseconds : Z)
| Stored (wallet_id : WalletIds.WalletId) (transactions : list Transaction)
| Tracked (wallet_id : WalletIds.WalletId) (transactions : list Transaction)
| ActivityAdded (activity : GemRecentActivity) (wallet_id : WalletIds.WalletId).

(** The answers of the signer, the gateway and the store, after the events so far *)
Class ConfirmServices := {
  sign : list Event -> Wallet -> GemSignerInput -> result GemstoneError (list GemSignedTransaction);
  transaction_broadcast : list Event -> Chains.Chain -> string -> bool -> result GatewayError string;
  add_transactions : list Event -> WalletIds.WalletId -> list Transaction -> result string ()
}.

Context `{ConfirmServices}.

(** The loop of [broadcast] from the place [index] of [count]; an error keeps the hashes collected so far. *)
Fixpoint broadcast_from (chain : Chains.Chain) (options : bool) (delay : Z) (index count : nat)
  (transactions : list GemSignedTransaction) (hashes : list string) (events : list Event)
  : list Event * result GemConfirmError (list string) :=
  match transactions with
  | [] => (events, Ok hashes)
  | transaction :: transactions =>
      let sent := events ++ [BroadcastSent chain (signed_data transaction) options] in
      match transaction_broadcast events chain (signed_data transaction) options with
      | Err error => (sent, Err (broadcast_error hashes error))
      | Ok hash =>
          let events := if (index <? count - 1)%nat && (0 <? delay) then sent ++ [Slept delay] else sent in
          broadcast_from chain options delay (S index) count transactions (hashes ++ [hash]) events
      end
  end.

Definition broadcast (input_type : GemTransactionInputType) (transactions : list GemSignedTransaction)
  (events : list Event) : list Event * result GemConfirmError (list string) :=
  let chain := chain_of (asset input_type) in
  broadcast_from chain (broadcast_options input_type) (broadcast_delay_milliseconds chain) 0 (length transactions)
    transactions [] events.

Definition record (input : SendInput) (hashes : list string) (signed : list GemSignedTransaction) (events : list Event)
  : list Event * result GemConfirmError (list Transaction) :=
  match pending_transactions now input hashes signed with
  | Err error => (events, Err error)
  | Ok [] => (events, Ok [])
  | Ok pending =>
      let wallet_id := Wallets.id (wallet input) in
      (events ++ [Stored wallet_id pending],
       match add_transactions events wallet_id pending with Ok _ => Ok pending | Err msg => Err (Record_ msg) end)
  end.

Definition store_pending (input : SendInput) (hashes : list string) (signed : list GemSignedTransaction)
  (events : list Event) : list Event * list Transaction :=
  let '(events, recorded) := record input hashes signed events in
  let stored := match recorded with Ok stored => stored | Err _ => [] end in
  (events ++ [Tracked (Wallets.id (wallet input)) stored], stored).

Record GemSendResult := MkSendResult { sent_hashes : list string; sent_transactions : list Transaction }.

Definition send (input : SendInput) (signed : list GemSignedTransaction) (events : list Event)
  : list Event * result GemConfirmError GemSendResult :=
  let '(events, answer) := broadcast (input_of input) signed events in
  match answer with
  | Ok hashes =>
      let '(events, transactions) := store_pending input hashes signed events in
      (events, Ok (MkSendResult hashes transactions))
  | Err (Broadcast hashes msg) =>
      let '(events, _) := store_pending input hashes signed events in (events, Err (Broadcast hashes msg))
  | Err error => (events, Err error)
  end.

Inductive GemExecuteResult := SignedResult (data : list string) | SentResult (hashes : list string) (transactions : list Transaction).

Definition NO_TRANSACTIONS : string := "no signed transactions".

(** What is checked between signing and sending *)
Definition check_signed (input : SendInput) (transactions : list GemSignedTransaction) : result GemConfirmError () :=
  match transactions with
  | [] => Err (SignFailed (SigningError NO_TRANSACTIONS) (chain_of_send input) NO_TRANSACTIONS)
  | _ => validate_approvals (input_of input) transactions
  end.

Definition execute (input : SendInput) (events : list Event) : list Event * result GemConfirmError GemExecuteResult :=
  match signer_input input with
  | Err error => (events, Err error)
  | Ok signer_input =>
      let requested := events ++ [SignRequested signer_input] in
      match sign events (wallet input) signer_input with
      | Err error => (requested, Err (sign_error (chain_of_send input) error))
      | Ok transactions =>
          match check_signed input transactions with
          | Err error => (requested, Err error)
          | Ok _ =>
              match transfer_output_action (output (input_of input)) with
              | Sign => (requested, Ok (SignedResult (map signed_data transactions)))
              | Send =>
                  let '(events, answer) := send input transactions requested in
                  (events, match answer with
                           | Ok result => Ok (SentResult (sent_hashes result) (sent_transactions result))
                           | Err error => Err error
                           end)
              end
          end
      end
  end.

Definition is_broadcast (result : GemExecuteResult) : bool :=
  match result with SentResult _ _ => true | SignedResult _ => false end.

(** [GemConfirmTransferService::execute]; a failing activity is ignored. *)
Definition execute_transfer (wallet : Wallet) (confirm : GemConfirmData) (value network_fee : Z)
  (simulation : option SimulationHeader) (events : list Event) : list Event * result GemConfirmError GemExecuteResult :=
  let input := MkSend wallet confirm value network_fee simulation in
  let '(events, answer) := execute input events in
  match answer with
  | Ok result =>
      if is_broadcast result then
        match recent_activity (input_of input) with
        | Some activity => (events ++ [ActivityAdded activity (Wallets.id wallet)], Ok result)
        | None => (events, Ok result)
        end
      else (events, Ok result)
  | Err error => (events, Err error)
  end.

End service.
End ConfirmService.

(** ** Facts about fees *)

Module FeeFacts.
Import FeeRules.

Lemma sort_rates_sorted l : Sorted.Sorted (fun a b => rate_key a <= rate_key b) (displayed_fee_rates l).
Proof.
  unfold displayed_fee_rates, BitcoinPlanner.sort_by. induction l as [|x l IH]; [constructor|]. cbn [foldr].
  induction IH as [|y l' S IH' F]; cbn [BitcoinPlanner.insert_by]; [repeat constructor|].
  destruct (Z.compare_spec (rate_key x) (rate_key y)); try (constructor; [by constructor|constructor; lia]).
  constructor; [exact IH'|]. destruct F as [|z l'' F]; cbn [BitcoinPlanner.insert_by]; [constructor; lia|].
  destruct (rate_key x ?= rate_key z); constructor; lia.
Qed.

(** A custom price is the total price of the selected rate, except on Solana, where the tip comes on top. *)
Lemma custom_total g price :
  total_fee (custom g price) = match g with SolanaPrice _ tip _ => price + tip | _ => price end.
Proof. destruct g; cbn; unfold total_fee; cbn; lia. Qed.

Lemma find_rate_Some rates p r : find_rate rates p = Some r -> r ∈ rates /\ priority r = p.
Proof. intros [I P]%List.find_some. apply bool_decide_eq_true in P. split; [by apply list_elem_of_In|done]. Qed.

(** The rates are offered in the order of their priority; the selected one is the rate with the selected
    priority, or one with the custom price; the rows show for each rate its part of the loaded fee, exactly the
    loaded fee for the selected one, and a higher rate never shows a lower fee. *)
Theorem fee_rows_consistent chain fee_asset offered selection selected loaded :
  let rates := displayed_fee_rates offered in
  select_fee_rate selection rates = Some selected ->
  (forall p, selection = Priority p -> is_Some (find_rate rates p)) ->
  (forall price, selection = CustomPrice price ->
     match FeeRules.gas_price_type selected with SolanaPrice _ tip _ => tip = 0 | _ => True end) ->
  0 < rate_value selected -> 0 <= loaded ->
  let shown := fee_rate_rows chain fee_asset rates selection loaded in
  rates ≡ₚ offered
  /\ Sorted.Sorted (fun a b => rate_key a <= rate_key b) rates
  /\ selected_total shown = Some (rate_value selected)
  /\ map unit_value (rows shown) = map rate_value rates
  /\ Forall (fun row => row_fee row = Some (loaded * unit_value row / rate_value selected)
              \/ unit_value row < 0) (rows shown)
  /\ Forall (fun row => unit_value row = rate_value selected -> row_fee row = Some loaded) (rows shown).
Proof.
  intros rates S P C V L shown.
  assert (T : selected_rate_total rates selection = Some (rate_value selected)).
  { destruct selection as [p|price]; cbn [selected_rate_total select_fee_rate] in *.
    - destruct (P p eq_refl) as [r R]. unfold rate_or_first in S. rewrite R in *. cbn. congruence.
    - destruct (rate_or_first rates Normal) as [base|]; [|done]. cbn in S. injection S as <-.
      unfold rate_value. cbn [FeeRules.gas_price_type] in *. rewrite custom_total.
      specialize (C price eq_refl). destruct (FeeRules.gas_price_type base); cbn in *; f_equal; lia. }
  subst shown. unfold fee_rate_rows. rewrite T. cbn [selected_total rows].
  rewrite (proj2 (Z.ltb_lt 0 (rate_value selected)) V).
  split_and!.
  - apply PlannerFacts.sort_permutation.
  - apply sort_rates_sorted.
  - done.
  - rewrite map_map. by apply map_ext.
  - apply Forall_map, Forall_forall. intros r _. cbn. destruct (decide (rate_value r < 0)); [by right|left].
    f_equal. apply Z.quot_div_nonneg; nia.
  - apply Forall_map, Forall_forall. intros r _. cbn. intros ->. f_equal. apply Z.quot_mul. lia.
Qed.

(** A custom fee is valid exactly when its rate is positive and between the smallest and the largest rate; the fee
    is then the part of the loaded fee that the rate asks for. *)
Lemma calculate_custom_valid rate loaded base normal multiplier minimum :
  is_valid (calculate_custom rate loaded base normal multiplier minimum) = true <->
  exists r, rate = Some r /\ 0 < r <= normal * multiplier /\ (forall m, minimum = Some m -> m <= r).
Proof.
  unfold calculate_custom. destruct rate as [r|]; [destruct (0 <? r) eqn:P|]; cbn; zbool.
  - destruct (normal * multiplier <? r) eqn:M; cbn; zbool; [split; [done|intros (? & [= <-] & ? & _); lia]|].
    destruct minimum as [m|]; [destruct (r <? m) eqn:B; cbn; zbool|cbn].
    + split; [done|]. intros (? & [= <-] & _ & Q). specialize (Q m eq_refl). lia.
    + split; [|done]. intros _. exists r. split_and!; try done. by intros ? [= <-].
    + split; [|done]. intros _. by exists r.
  - split; [done|]. intros (? & [= <-] & ? & _). lia.
  - split; [done|]. by intros (? & ? & _).
Qed.

End FeeFacts.

(** ** Facts about loading *)

Module LoadingFacts.
Import Wallets Assets.Assets GemInputTypes TransferModels FeeRules ConfirmErrors TransferRules PendingTransactions.
Import ConfirmRules ConfirmLoading.

Lemma validate_scan_Ok scan memo symbol :
  validate_scan scan memo symbol = Ok tt <->
  forall s, scan = Some s -> is_malicious s <> Some true
    /\ (is_memo_required s = Some true -> trim (default EmptyString memo) <> EmptyString).
Proof.
  unfold validate_scan. destruct scan as [s|]; [|by split]. case_bool_decide as M.
  { split; [done|]. intros H. by destruct (H s eq_refl). }
  destruct (bool_decide (is_memo_required s = Some true)) eqn:R; cbn [andb].
  - apply bool_decide_eq_true in R. case_bool_decide as T.
    + split; [done|]. intros H. destruct (H s eq_refl) as [_ K]. by apply K in R.
    + split; [|done]. by intros _ ? [= <-].
  - apply bool_decide_eq_false in R. split; [|done]. intros _ ? [= <-]. done.
Qed.

Lemma find_balance_Ok balances asset_id b :
  find_balance balances asset_id = Ok b -> b ∈ balances /\ balance_asset_id b = asset_id.
Proof.
  unfold find_balance. destruct (List.find _ balances) as [x|] eqn:E; [|done]. intros [= <-].
  apply List.find_some in E as [I P]. apply bool_decide_eq_true in P. split; [by apply list_elem_of_In|done].
Qed.

(** The ids are those asked for, each once, the two assets first. *)
Lemma push_new_spec l acc : NoDup acc ->
  NoDup (fold_left push_new l acc) /\ forall a, a ∈ fold_left push_new l acc <-> a ∈ acc \/ a ∈ l.
Proof.
  revert acc. induction l as [|x l IH]; intros acc N; cbn [fold_left]; [split; [done|set_solver]|].
  unfold push_new at 2 4. case_bool_decide as E.
  - destruct (IH acc N) as [I1 I2]. split; [done|]. intros a. rewrite I2, elem_of_cons. set_solver.
  - destruct (IH (acc ++ [x])) as [I1 I2]; [apply NoDup_app; split_and!; [done|set_solver|apply NoDup_singleton]|].
    split; [done|]. intros a. rewrite I2, elem_of_app, list_elem_of_singleton, elem_of_cons. tauto.
Qed.

Section facts.
Context `{ConfirmQueries, AddressChecksum}.

(** A transfer that is offered for confirmation was not reported as malicious, has a memo when its recipient asks
    for one, and keeps its sender and its data; its amount is calculated from the stored balance of its asset and
    from the stored balance of the asset that pays the fee: an amount that is offered is covered by them. *)
Theorem preload_is_covered wallet_id input options p amount :
  preload wallet_id input options = Ok p ->
  preloaded_amount p = Amount amount ->
  let transfer := confirm_transfer input in
  let fee := confirm_fee (confirm_data p) in
  ConfirmRules.confirm_input (confirm_data p) = input
  /\ (forall s, scan_transaction (scan_payload (transfer_type transfer) (Wallets.address (from input))
                  (recipient_address (recipient transfer))) = Some s ->
        is_malicious s <> Some true
        /\ (is_memo_required s = Some true -> trim (default EmptyString (recipient_memo (recipient transfer))) <> EmptyString))
  /\ balance_asset_id (asset_balance (preload_metadata p)) = id (transaction_asset (transfer_type transfer))
  /\ balance_asset_id (fee_asset_balance (preload_metadata p)) = GasPrices.fee_asset fee
  /\ TransferAmounts.network_fee amount = GasPrices.fee fee
  /\ (TransferAmounts.should_skip_fee_check (amount_input (confirm_data p) (preload_metadata p) (preload_fee_asset p)) = false ->
        GasPrices.fee fee <= available (fee_asset_balance (preload_metadata p)))
  /\ (InputTypes.spends_balance (into (transfer_type transfer)) = true -> 0 <= GasPrices.fee fee ->
        TransferAmounts.value amount <= available_value transfer (asset_balance (preload_metadata p)))
  /\ (forall m, transfer_minimum transfer = Some m -> m <= TransferAmounts.value amount).
Proof.
  unfold preload. destruct (load input options) as [d|] eqn:L; [|done].
  assert (D : ConfirmRules.confirm_input d = input
     /\ validate_scan (scan_transaction (scan_payload (transfer_type (confirm_transfer input)) (Wallets.address (from input))
          (recipient_address (recipient (confirm_transfer input))))) (recipient_memo (recipient (confirm_transfer input)))
          (symbol (asset (transfer_type (confirm_transfer input)))) = Ok tt).
  { unfold load in L. destruct (map_err load_error (get_transaction_preload _ _ _ _ _)) as [md|]; [|done].
    destruct (map_err load_error (get_fee_rates _ _)) as [rates|]; [|done].
    destruct (simulate _ input) as [sim|]; [|done]. destruct (validate_scan _ _ _) as [[]|] eqn:V; [|done].
    destruct (ok_or (select_fee_rate _ _) _) as [sel|]; [|done]. destruct (ok_or (to_biguint _) _) as [v|]; [|done].
    destruct (map_err load_error (get_transaction_load _ _)) as [[f lm]|]; [|done]. injection L as <-. by split. }
  destruct D as [DI DV]. rewrite DI.
  destruct (input_metadata _ _ _) as [m|] eqn:M; [|done].
  destruct (map_err Load (get_assets _)) as [assets|]; [|done]. destruct (ok_or (head assets) _) as [fa|]; [|done].
  intros E A. assert (p = MkPreload d m fa (preload_amount d m fa)) as -> by congruence. clear E. cbn in A |- *.
  unfold input_metadata, metadata in M. destruct (map_err Load (get_balances _ _)) as [bs|]; [|done].
  destruct (map_err Load (get_prices _)) as [ps|]; [|done]. unfold build_metadata in M.
  destruct (find_balance bs (id _)) as [b1|] eqn:B1; [|done]. destruct (find_balance bs (GasPrices.fee_asset _)) as [b2|] eqn:B2; [|done].
  assert (m = MkConfirmMetadata b1 b2 ps) as -> by congruence. clear M. cbn [asset_balance fee_asset_balance] in *.
  apply find_balance_Ok in B1 as [_ B1], B2 as [_ B2].
  unfold preload_amount in A. destruct (TransferAmounts.calculate _) as [a|] eqn:C; [|done].
  assert (a = amount) as -> by congruence. clear A. apply AmountFacts.calculate_Ok in C as (-> & R & F & _ & V).
  rewrite AmountFacts.required_spent in R.
  unfold amount_input in *. cbn [TransferAmounts.network_fee TransferAmounts.value TransferAmounts.fee TransferAmounts.input_type
    TransferAmounts.available_value TransferAmounts.fee_asset_balance TransferAmounts.minimum_value asset_balance fee_asset_balance] in *.
  rewrite DI in *.
  split_and!; try done.
  - exact (proj1 (validate_scan_Ok _ _ _) DV).
  - intros S. destruct F as [F|F]; [done|congruence].
  - intros S N. rewrite S in R. destruct (TransferAmounts.should_deduct_fee _); lia.
Qed.

End facts.
End LoadingFacts.

(** ** Facts about sending and recording *)

Module ServiceFacts.
Import Wallets Assets.Assets GemInputTypes TransferModels FeeRules ConfirmErrors TransferRules PendingTransactions.
Import Transactions.Transactions ConfirmRules ConfirmService.

Lemma validate_approvals_Ok t signed :
  validate_approvals t signed = Ok tt <->
  Forall (fun s => exists a, approval t (signed_type s) = Ok a) signed.
Proof.
  induction signed as [|s signed IH]; cbn [validate_approvals]; [by split|].
  rewrite Forall_cons. destruct (approval t (signed_type s)) as [a|e]; cbn [map_err].
  - rewrite IH. split; [|by intros [_ ?]]. intros F. split; [by exists a|done].
  - split; [done|]. by intros [[a A] _].
Qed.

Lemma signer_input_Ok input si :
  signer_input input = Ok si ->
  exists a, account (wallet input) (chain_of_send input) = Some a
  /\ Wallets.address a = Wallets.address (from (confirm_input (confirm input)))
  /\ sender_address (GemInputTypes.input si) = Wallets.address a
  /\ GemInputTypes.value (GemInputTypes.input si) = send_value input /\ 0 <= send_value input
  /\ GasPrices.fee (GemInputTypes.fee si) = send_fee input
  /\ destination_address (GemInputTypes.input si)
     = recipient_address (recipient (confirm_transfer (confirm_input (confirm input)))).
Proof.
  unfold signer_input. destruct (confirm_input (confirm input)) as [from_ transfer] eqn:C.
  unfold signing_address. destruct (account (wallet input) (chain_of_send input)) as [a|]; [cbn [ok_or]|done].
  destruct (String.eqb_spec (Wallets.address a) (Wallets.address from_)) as [E|]; [cbn [negb]|done].
  unfold to_biguint. destruct (0 <=? send_value input) eqn:V; [cbn [ok_or]|done]. zbool.
  intros X. inversion X; subst si; clear X. exists a. cbn. split_and!; done.
Qed.

Section facts.
Context `{MetadataJson} (now : Z) `{!ConfirmServices}.

(** What was handed to the gateway: the chain, the data and the options *)
Definition broadcasts (events : list Event) : list (Chains.Chain * string * bool) :=
  omap (fun e => match e with BroadcastSent chain data options => Some (chain, data, options) | _ => None end) events.

(** What the gateway answered to each, after the events before it *)
Fixpoint answered (before new : list Event) : list (result GatewayError string) :=
  match new with
  | [] => []
  | e :: new =>
      match e with BroadcastSent chain data options => [transaction_broadcast before chain data options] | _ => [] end
      ++ answered (before ++ [e]) new
  end.
Definition accepted (before new : list Event) : list string := omap ok (answered before new).

Lemma broadcasts_app e1 e2 : broadcasts (e1 ++ e2) = broadcasts e1 ++ broadcasts e2.
Proof. apply omap_app. Qed.
Lemma answered_app before e1 e2 : answered before (e1 ++ e2) = answered before e1 ++ answered (before ++ e1) e2.
Proof.
  revert before. induction e1 as [|e e1 IH]; intros before; cbn [answered app]; [by rewrite app_nil_r|].
  by rewrite IH, <- !app_assoc.
Qed.
Lemma answered_none before new : broadcasts new = [] -> answered before new = [].
Proof. revert before. induction new as [|[] new IH]; intros before B; cbn in *; try done; by apply IH. Qed.
Lemma accepted_length before new : (length (accepted before new) <= length (broadcasts new))%nat.
Proof.
  unfold accepted. revert before. induction new as [|[] new IH]; intros before; cbn; try done; try apply IH.
  destruct (transaction_broadcast _ _ _ _); [apply le_n_S|apply le_S]; apply IH.
Qed.
Lemma accepted_all before new hashes : answered before new = map Ok hashes -> accepted before new = hashes.
Proof. unfold accepted. intros ->. induction hashes as [|h hashes IH]; cbn; [done|]. by f_equal. Qed.
Lemma accepted_until before new hashes error : answered before new = map Ok hashes ++ [Err error] -> accepted before new = hashes.
Proof. unfold accepted. intros ->. induction hashes as [|h hashes IH]; cbn; [done|]. by f_equal. Qed.

Lemma broadcast_from_spec chain options delay count transactions : forall index hashes events,
  let '(events', answer) := broadcast_from chain options delay index count transactions hashes events in
  let requests := map (fun s => (chain, signed_data s, options)) transactions in
  exists new, events' = events ++ new
  /\ broadcasts new `prefix_of` requests
  /\ match answer with
     | Ok hashes' => broadcasts new = requests /\ exists fresh, hashes' = hashes ++ fresh /\ answered events new = map Ok fresh
     | Err (Broadcast hashes' msg) => exists fresh error, hashes' = hashes ++ fresh
         /\ answered events new = map Ok fresh ++ [Err error] /\ msg = gateway_text error
     | Err _ => hashes = [] /\ exists error, answered events new = [Err error]
     end.
Proof.
  induction transactions as [|x transactions IH]; intros index hashes events; cbn [broadcast_from].
  { exists []. rewrite app_nil_r. split_and!; try done. exists []. by rewrite app_nil_r. }
  set (sent := events ++ [BroadcastSent chain (signed_data x) options]).
  destruct (transaction_broadcast events chain (signed_data x) options) as [hash|error] eqn:X.
  - set (events1 := if _ && _ then sent ++ [Slept delay] else sent).
    assert (E : exists one, events1 = events ++ one /\ broadcasts one = [(chain, signed_data x, options)] /\ answered events one = [Ok hash]).
    { subst events1 sent. destruct (_ && _); [|exists [BroadcastSent chain (signed_data x) options]; cbn; by rewrite X].
      exists ([BroadcastSent chain (signed_data x) options] ++ [Slept delay]). cbn. rewrite X. split_and!; [by rewrite <- app_assoc|done|done]. }
    destruct E as (one & E1 & E2 & E3). rewrite E1. specialize (IH (S index) (hashes ++ [hash]) (events ++ one)).
    destruct (broadcast_from _ _ _ _ _ _ _ _) as [events' answer]. destruct IH as (new & I1 & I2 & I3).
    exists (one ++ new). split; [by rewrite I1, app_assoc|]. rewrite broadcasts_app, answered_app, E2, E3. cbn [map app].
    split; [by apply prefix_cons|].
    destruct answer as [hashes'|e].
    + destruct I3 as (-> & fresh & -> & L). split; [done|]. exists (hash :: fresh). rewrite <- app_assoc, L. done.
    + destruct e; try (destruct I3 as [I3 _]; by destruct hashes).
      destruct I3 as (fresh & error & -> & L & M). exists (hash :: fresh), error. by rewrite <- app_assoc, L.
  - exists [BroadcastSent chain (signed_data x) options]. split; [done|]. split; [by apply prefix_cons, prefix_nil|].
    cbn. rewrite X. unfold broadcast_error. destruct hashes as [|h hashes], error as [|msg|msg|c i]; cbn; try (split; [done|by eexists]);
      eexists [], _; rewrite ?app_nil_r; by split_and!.
Qed.

(** What is done once the hashes are known: the transactions that are built are stored, if there are any, and those that were
    stored are tracked. *)
Definition recorded_log (input : SendInput) (pending : list Transaction) (before : list Event) : list Event :=
  let wallet_id := Wallets.id (wallet input) in
  match pending with
  | [] => [Tracked wallet_id []]
  | _ => [Stored wallet_id pending; Tracked wallet_id (match add_transactions before wallet_id pending with Ok _ => pending | Err _ => [] end)]
  end.
Lemma store_pending_log input hashes signed events pending : pending_transactions now input hashes signed = Ok pending ->
  fst (store_pending now input hashes signed events) = events ++ recorded_log input pending events.
Proof.
  intros P. unfold store_pending, record. rewrite P. destruct pending as [|t pending]; [done|]. unfold recorded_log.
  destruct (add_transactions _ _ _); cbn [fst]; by rewrite <- app_assoc.
Qed.
Lemma store_pending_broadcasts input hashes signed events : exists rest,
  fst (store_pending now input hashes signed events) = events ++ rest /\ broadcasts rest = []
  /\ Tracked (Wallets.id (wallet input)) (snd (store_pending now input hashes signed events)) ∈ rest.
Proof.
  unfold store_pending, record. destruct (pending_transactions now input hashes signed) as [[|t ts]|e].
  - eexists. split_and!; [done|done|]. by left.
  - eexists. cbn [fst]. rewrite <- app_assoc. split_and!; [done|done|]. right. by left.
  - eexists. split_and!; [done|done|]. by left.
Qed.

(** Errors before the first broadcast are not errors of a broadcast. *)
Definition before_broadcast (e : GemConfirmError) : Prop := match e with Broadcast _ _ => False | _ => True end.

Lemma signer_input_error input e : signer_input input = Err e -> before_broadcast e.
Proof.
  unfold signer_input, signing_address. destruct (confirm_input (confirm input)).
  destruct (account _ _); cbn [ok_or]; [|by inversion 1]. destruct (negb _); [by inversion 1|].
  destruct (to_biguint _); [done|by inversion 1].
Qed.

Lemma check_signed_error input signed e : check_signed input signed = Err e -> before_broadcast e.
Proof.
  unfold check_signed. destruct signed as [|s signed]; [by inversion 1|]. generalize (s :: signed). clear.
  induction l as [|x l IH]; cbn; [done|]. destruct (approval _ _); cbn; [done|by intros [= <-]].
Qed.

Lemma check_signed_Ok input signed :
  check_signed input signed = Ok tt ->
  signed <> [] /\ Forall (fun s => exists a, approval (input_of input) (signed_type s) = Ok a) signed.
Proof. unfold check_signed. destruct signed as [|s signed]; [done|]. split; [done|]. by apply validate_approvals_Ok. Qed.

(** What a signed transaction is handed to the gateway as *)
Definition request (input : SendInput) (s : GemSignedTransaction) : Chains.Chain * string * bool :=
  (chain_of_send input, signed_data s, broadcast_options (input_of input)).

Lemma send_spec input signed events :
  let '(events', answer) := send now input signed events in
  exists sent, broadcasts sent `prefix_of` map (request input) signed
  /\ match answer with
     | Ok result => broadcasts sent = map (request input) signed /\ answered events sent = map Ok (sent_hashes result)
         /\ (events', sent_transactions result) = store_pending now input (sent_hashes result) signed (events ++ sent)
     | Err (Broadcast hashes msg) => exists error, answered events sent = map Ok hashes ++ [Err error] /\ msg = gateway_text error
         /\ events' = fst (store_pending now input hashes signed (events ++ sent))
     | Err _ => events' = events ++ sent /\ exists error, answered events sent = [Err error]
     end.
Proof.
  unfold send, broadcast. set (chain := chain_of (asset (input_of input))).
  pose proof (broadcast_from_spec chain (broadcast_options (input_of input)) (broadcast_delay_milliseconds chain)
    (length signed) signed 0 [] events) as B.
  destruct (broadcast_from _ _ _ _ _ _ _ _) as [events1 sent]. destruct B as (new & -> & P & B).
  destruct sent as [hashes|e].
  - destruct B as (B & fresh & -> & L). destruct (store_pending _ _ _ _ _) as [events2 stored] eqn:E. exists new. by split_and!.
  - destruct e; try (exists new; split_and!; [done|done|apply B]).
    destruct B as (fresh & error & -> & L & M). destruct (store_pending _ _ _ _ _) as [events2 stored] eqn:E. exists new. split; [done|].
    exists error. cbn [app] in E. cbn [app]. rewrite E. by split_and!.
Qed.

(** An execution that ends before anything is sent, or sends what was signed and checked *)
Lemma execute_sends input events events' answer : execute now input events = (events', answer) ->
  (exists new, events' = events ++ new /\ broadcasts new = []
     /\ match answer with Ok (SentResult _ _) => False | Ok _ => True | Err e => before_broadcast e end)
  \/ exists si signed, signer_input input = Ok si /\ sign events (wallet input) si = Ok signed /\ check_signed input signed = Ok tt
     /\ transfer_output_action (output (input_of input)) = Send
     /\ events' = fst (send now input signed (events ++ [SignRequested si]))
     /\ answer = match snd (send now input signed (events ++ [SignRequested si])) with
                 | Ok result => Ok (SentResult (sent_hashes result) (sent_transactions result)) | Err e => Err e end.
Proof.
  unfold execute. destruct (signer_input input) as [si|e] eqn:SI.
  2: { intros [= <- <-]. left. exists []. rewrite app_nil_r. apply signer_input_error in SI. by split_and!. }
  destruct (sign events (wallet input) si) as [signed|e] eqn:SG.
  2: { intros [= <- <-]. left. eexists. split_and!; [done|done|]. by destruct e. }
  destruct (check_signed input signed) as [[]|e] eqn:CH.
  2: { intros [= <- <-]. left. eexists. apply check_signed_error in CH. by split_and!. }
  destruct (transfer_output_action _) eqn:OUT.
  { intros [= <- <-]. left. eexists. by split_and!. }
  intros X. right. exists si, signed. destruct (send _ _ _ _) as [events1 sent]. injection X as <- <-. by split_and!.
Qed.

(** (C5) What leaves the wallet: nothing is handed to the gateway before the account of the wallet is the sender of the
    confirmed transfer, every signed transaction passed the check of its approval and the transfer is one to be
    sent; what is handed over is the signed data in order, each once, on the chain of the transfer; on success all of it, and the
    hashes of the result are those that the gateway answered, in order; an error after some were handed over carries exactly the
    hashes that the gateway answered before it refused, and every other error means that it accepted nothing. *)
Theorem execute_sends_signed input events events' answer :
  execute now input events = (events', answer) ->
  exists new, events' = events ++ new
  /\ (broadcasts new <> [] -> exists a si signed,
        account (wallet input) (chain_of_send input) = Some a
        /\ Wallets.address a = Wallets.address (from (confirm_input (confirm input)))
        /\ signer_input input = Ok si /\ sign events (wallet input) si = Ok signed
        /\ Forall (fun s => exists a, approval (input_of input) (signed_type s) = Ok a) signed
        /\ transfer_output_action (output (input_of input)) = Send
        /\ broadcasts new `prefix_of` map (request input) signed
        /\ (forall hashes stored, answer = Ok (SentResult hashes stored) -> broadcasts new = map (request input) signed))
  /\ match answer with
     | Ok (SignedResult _) => broadcasts new = []
     | Ok (SentResult hashes stored) => broadcasts new <> [] /\ answered events new = map Ok hashes
         /\ Tracked (Wallets.id (wallet input)) stored ∈ new
     | Err (Broadcast hashes msg) => exists error, answered events new = map Ok hashes ++ [Err error] /\ msg = gateway_text error
     | Err _ => accepted events new = []
     end.
Proof.
  intros X. apply execute_sends in X as [(new & -> & B & A)|(si & signed & SI & SG & CH & OUT & EV & AN)].
  { exists new. split_and!; [done|by rewrite B|]. destruct answer as [[]|[]]; cbn in A; try done; unfold accepted; by rewrite answered_none. }
  apply signer_input_Ok in SI as W. destruct W as (a & A1 & A2 & _). apply check_signed_Ok in CH as [NE AP].
  pose proof (send_spec input signed (events ++ [SignRequested si])) as S.
  destruct (send _ _ _ _) as [events1 sent]. cbn [fst snd] in EV, AN. subst events1. destruct S as (new & P & S).
  assert (G : forall rest hashes, broadcasts rest = [] -> answered (events ++ [SignRequested si]) new = hashes ->
    broadcasts ([SignRequested si] ++ new ++ rest) = broadcasts new /\ answered events ([SignRequested si] ++ new ++ rest) = hashes).
  { intros rest hashes R An. split; [by rewrite !broadcasts_app, R, app_nil_r|].
    by rewrite !answered_app, An, (answered_none _ rest), app_nil_r. }
  destruct sent as [result|e]; subst answer.
  - destruct S as (B & L & E). destruct (store_pending_broadcasts input (sent_hashes result) signed ((events ++ [SignRequested si]) ++ new)) as (rest & R1 & R2 & R3).
    rewrite <- E in R1, R3. cbn [fst snd] in R1, R3. exists ([SignRequested si] ++ new ++ rest). destruct (G rest _ R2 L) as [G1 G2]. rewrite G1, G2.
    split; [by rewrite R1, <- !app_assoc|]. split; [intros _; exists a, si, signed; split_and!; try done; by rewrite B|].
    split_and!; [rewrite B; by destruct signed|done|]. rewrite !elem_of_app. auto.
  - assert (exists rest, events' = events ++ [SignRequested si] ++ new ++ rest /\ broadcasts rest = []) as (rest & R1 & R2).
    { destruct e; try (exists []; rewrite app_nil_r; destruct S as [-> _]; by rewrite <- !app_assoc).
      destruct S as (err & _ & _ & ->). destruct (store_pending_broadcasts input hashes signed ((events ++ [SignRequested si]) ++ new)) as (rest & R1 & R2 & _).
      exists rest. by rewrite R1, <- !app_assoc. }
    exists ([SignRequested si] ++ new ++ rest). destruct (G rest _ R2 eq_refl) as [G1 G2]. rewrite G1. split; [by rewrite R1|].
    split; [intros _; exists a, si, signed; by split_and!|].
    destruct e; unfold accepted; rewrite G2; try (destruct S as (_ & err & ->); done). destruct S as (err & -> & -> & _). by exists err.
Qed.

End facts.
End ServiceFacts.

(** ** Facts about what is recorded *)

Module RecordFacts.
Import Wallets Assets.Assets GemInputTypes TransferModels FeeRules ConfirmErrors TransferRules PendingTransactions.
Import Transactions.Transactions ConfirmRules ConfirmService ServiceFacts.

Section facts.
Context `{MetadataJson} (now : Z) `{!ConfirmServices}.

(** The hashes that are tracked, from the place [index] of the signed transactions on *)
Fixpoint tracked_hashes (t : GemTransactionInputType) (signed : list GemSignedTransaction) (index : nat)
  (hashes : list string) : list string :=
  match hashes with
  | [] => []
  | hash :: hashes =>
      match signed !! index with
      | Some s =>
          if is_tracked t (signed_type s) hash (as_u32 (Z.of_nat index)) (as_u32 (Z.of_nat (length signed)))
          then [hash] else []
      | None => []
      end ++ tracked_hashes t signed (S index) hashes
  end.

Lemma tracked_hashes_all t signed : chain_of (asset t) <> Chains.HyperCore ->
  Forall (fun s => signed_type s <> TransactionTypes.PerpetualModifyPosition) signed ->
  forall hashes index, (index + length hashes <= length signed)%nat -> tracked_hashes t signed index hashes = hashes.
Proof.
  intros C F. induction hashes as [|h hashes IH]; intros index L; cbn [tracked_hashes]; [done|]. cbn [length] in L.
  destruct (lookup_lt_is_Some_2 signed index) as [s S]; [lia|]. rewrite S, IH by lia.
  eapply Forall_lookup_1 in F; [|exact S]. unfold is_tracked. by rewrite bool_decide_false, bool_decide_true.
Qed.

Lemma pending_transaction_total p a :
  approval (transfer_type (transfer p)) (pending_type p) = Ok a ->
  (forall v, exists json, PendingTransactions.to_value v = Ok json) -> 0 <= pending_value p -> 0 <= network_fee p ->
  exists t, pending_transaction now p = Ok t
  /\ Transactions.hash <$> t
     = if is_tracked (transfer_type (transfer p)) (pending_type p) (pending_hash p) (transaction_index p) (transaction_count p)
       then Some (pending_hash p) else None.
Proof.
  intros A J V F. unfold pending_transaction. destruct (is_tracked _ _ _ _ _); cbn [negb]; [|by exists None].
  rewrite A. unfold to_biguint. rewrite (proj2 (Z.leb_le 0 _) V), (proj2 (Z.leb_le 0 _) F). cbn [ok_or].
  destruct (pending_view _ _ _ _) as [[? ?] ?].
  assert (M : exists json, recorded_metadata (transfer_type (transfer p)) a = Ok json).
  { unfold recorded_metadata, PendingTransactions.metadata. destruct (transfer_type (transfer p)), a; try (by eexists);
      destruct (metadata_value _) as [v|]; try (by eexists); destruct (J v) as [j ->]; by eexists. }
  destruct M as [json ->]. eexists. split; [done|]. done.
Qed.

Lemma pending_from_total input signed sender :
  Forall (fun s => exists a, approval (input_of input) (signed_type s) = Ok a) signed ->
  (forall v, exists json, PendingTransactions.to_value v = Ok json) -> 0 <= send_value input -> 0 <= send_fee input ->
  forall hashes index, exists l, pending_from now input sender index hashes signed = Ok l
  /\ map Transactions.hash (omap (fun t => t) l) = tracked_hashes (input_of input) signed index hashes.
Proof.
  intros A J V F. induction hashes as [|h hashes IH]; intros index; cbn [pending_from tracked_hashes]; [by exists []|].
  destruct (IH (S index)) as (l & -> & L). destruct (signed !! index) as [s|] eqn:S; [|by exists l].
  eapply Forall_lookup_1 in A as [a A]; [|exact S].
  destruct (pending_transaction_total (pending_input input sender h index (length signed) s) a A J V F) as (t & -> & T).
  cbn [map_err]. eexists. split; [done|]. rewrite <- L. cbn in T. fold (input_of input) in T.
  destruct (is_tracked _ _ _ _ _), t as [t|]; try done. cbn. f_equal. by injection T.
Qed.

(** What [send] appends: what it sends, and what it does with the hashes once there are any *)
Lemma send_records input signed events : exists sent rest hashes,
  fst (send now input signed events) = events ++ sent ++ rest /\ broadcasts sent `prefix_of` map (request input) signed
  /\ accepted events sent = hashes /\ broadcasts rest = []
  /\ (hashes <> [] -> (events ++ sent) ++ rest = fst (store_pending now input hashes signed (events ++ sent))).
Proof.
  pose proof (send_spec now input signed events) as S. destruct (send _ _ _ _) as [events' answer]. cbn [fst]. destruct S as (sent & P & S).
  assert (forall hashes, accepted events sent = hashes -> events' = fst (store_pending now input hashes signed (events ++ sent)) ->
    exists sent0 rest hashes, events' = events ++ sent0 ++ rest /\ broadcasts sent0 `prefix_of` map (request input) signed
      /\ accepted events sent0 = hashes /\ broadcasts rest = []
      /\ (hashes <> [] -> (events ++ sent0) ++ rest = fst (store_pending now input hashes signed (events ++ sent0)))) as G.
  { intros hashes A E. destruct (store_pending_broadcasts now input hashes signed (events ++ sent)) as (rest & R & B & _).
    exists sent, rest, hashes. split_and!; [by rewrite E, R, <- app_assoc|done|done|done|by rewrite R]. }
  destruct answer as [result|e].
  - destruct S as (_ & A & E). apply (G (sent_hashes result)); [by apply accepted_all|by rewrite <- E].
  - destruct e; try (destruct S as (-> & err & A); exists sent, [], []; rewrite app_nil_r; split_and!; [done|done|by apply (accepted_until events sent [] err)|done|done]).
    destruct S as (err & A & _ & E). apply (G hashes); [by eapply accepted_until|done].
Qed.

(** (C6) Whatever the network accepted is recorded: when the gateway has answered with hashes in the course of an execution, also
    one that ends with an error because a later transaction was refused, and the network fee is not negative, then no
    transaction of these hashes fails to be built; those that are built are the tracked ones in order, which outside HyperCore
    are all that were accepted, a changed order of a perpetual apart; and the last that the execution does is to hand them to
    the store, if there are any, and to have tracked what was stored. *)
Theorem sent_is_recorded input events events' answer :
  (forall v, exists json, PendingTransactions.to_value v = Ok json) ->
  0 <= send_fee input ->
  execute now input events = (events', answer) ->
  exists new, events' = events ++ new
  /\ let hashes := accepted events new in
  (hashes <> [] -> exists si signed sent pending,
    signer_input input = Ok si /\ sign events (wallet input) si = Ok signed
    /\ pending_transactions now input hashes signed = Ok pending
    /\ map Transactions.hash pending = tracked_hashes (input_of input) signed 0 hashes
    /\ (chain_of_send input <> Chains.HyperCore ->
        Forall (fun s => signed_type s <> TransactionTypes.PerpetualModifyPosition) signed ->
        map Transactions.hash pending = hashes)
    /\ new = sent ++ recorded_log input pending (events ++ sent)).
Proof.
  intros J F X. apply execute_sends in X as [(new & -> & B & _)|(si & signed & SI & SG & CH & OUT & EV & _)].
  { exists new. split; [done|]. intros hashes N. destruct N. subst hashes. unfold accepted. by rewrite answered_none. }
  pose proof (send_records input signed (events ++ [SignRequested si])) as S. rewrite <- EV in S.
  destruct S as (sent & rest & hashes & -> & P & Ac & R & N). exists ([SignRequested si] ++ sent ++ rest). split; [by rewrite <- !app_assoc|].
  assert (accepted events ([SignRequested si] ++ sent ++ rest) = hashes) as ->.
  { rewrite <- Ac. unfold accepted. by rewrite !answered_app, (answered_none _ rest), app_nil_r. }
  intros hs Nh. subst hs. apply signer_input_Ok in SI as W. destruct W as (a & A & _ & _ & _ & V & _). apply check_signed_Ok in CH as [_ AP].
  assert (length hashes <= length signed)%nat as L.
  { subst hashes. pose proof (accepted_length (events ++ [SignRequested si]) sent). apply prefix_length in P. rewrite length_map in P. lia. }
  destruct (pending_from_total input signed (Wallets.address a) AP J V F hashes 0) as (l & Pl & T).
  assert (E : pending_transactions now input hashes signed = Ok (omap (fun t => t) l)).
  { unfold pending_transactions. rewrite A. cbn [ok_or]. by rewrite Pl. }
  exists si, signed, ([SignRequested si] ++ sent), (omap (fun t => t) l). split_and!; try done.
  - intros C M. rewrite T. by apply tracked_hashes_all.
  - specialize (N Nh). rewrite (store_pending_log _ _ _ _ _ _ E) in N. apply app_inv_head in N. rewrite N. by rewrite <- !app_assoc.
Qed.

End facts.
End RecordFacts.

(** ** A concrete confirmation *)

Module ConfirmConcrete.
Import Wallets Assets.Assets GemInputTypes TransferModels FeeRules ConfirmErrors TransferRules PendingTransactions.
Import Transactions.Transactions ConfirmRules ConfirmLoading ConfirmService ServiceFacts FeeFacts LoadingFacts RecordFacts.

#[local] Instance no_metadata : TransactionJson :=
  {| JsonValue := MetadataValue; asset_transfers := fun _ => None; swap_of := fun _ => None |}.
#[local] Instance own_metadata : MetadataJson := fun value => Ok value.

Definition btc : Asset := asset_from_chain Chains.Bitcoin.
Definition offered : list GemFeeRate := [MkRate Fast (Regular 20); MkRate Normal (Regular 10)].

(** The selected rate of 10 shows the loaded fee of 1500, the fast one twice as much. *)
Lemma fee_rows_consistent_witness :
  map row_fee (rows (fee_rate_rows Chains.Bitcoin btc (displayed_fee_rates offered) (Priority Normal) 1500))
    = [Some 1500; Some 3000]
  /\ Forall (fun row => unit_value row = 10 -> row_fee row = Some 1500)
       (rows (fee_rate_rows Chains.Bitcoin btc (displayed_fee_rates offered) (Priority Normal) 1500)).
Proof.
  split; [by vm_compute|].
  destruct (fee_rows_consistent Chains.Bitcoin btc offered (Priority Normal) (MkRate Normal (Regular 10)) 1500)
    as (_ & _ & _ & _ & _ & P); try done.
  intros p [= <-]. by eexists.
Defined.

Definition own_account : Account := MkAccount Chains.Bitcoin "mine" "m" None.
Definition own_wallet : Wallet :=
  MkWallet (WalletIds.MulticoinId "0x") None "Wallet" 0 WalletIds.Multicoin [own_account] false.
Definition payment : GemTransferData := MkTransfer (GemTransfer btc) (TransferModels.address "theirs") 50000 false None.
Definition payment_fee : TransactionFee := new_from_fee 1500 (from_chain Chains.Bitcoin).

#[local] Instance no_checksum : AddressChecksum := fun _ => None.
#[local] Instance node : ConfirmQueries := {|
  get_transaction_preload := fun _ _ _ _ _ => Ok (LoadMetadata.BitcoinMetadata []);
  get_fee_rates := fun _ _ => Ok offered;
  scan_transaction := fun _ => Some (MkScan (Some false) None);
  simulate_transaction := fun _ _ _ => Ok None;
  get_transaction_load := fun _ _ => Ok (payment_fee, LoadMetadata.BitcoinMetadata []);
  get_balances := fun _ ids => Ok (map (fun a => MkBalance a 60000 0 0 0 0 0 0 0 0 0 None) ids);
  get_prices := fun _ => Ok [];
  get_assets := fun _ => Ok [btc]
|}.

Definition payment_input : GemConfirmInput := MkConfirmInput own_account payment.
Definition payment_options : GemConfirmLoadOptions := MkLoadOptions (Priority Normal) None.

Lemma preload_is_covered_witness :
  exists p, preload (WalletIds.MulticoinId "0x") payment_input payment_options = Ok p
  /\ preloaded_amount p = Amount (TransferAmounts.MkAmount 50000 1500 false)
  /\ 50000 <= available (asset_balance (preload_metadata p)).
Proof.
  eexists. assert (E : preload (WalletIds.MulticoinId "0x") payment_input payment_options = Ok _)
    by (vm_compute; reflexivity).
  assert (A : preloaded_amount _ = Amount (TransferAmounts.MkAmount 50000 1500 false))
    by (match type of E with _ = Ok ?p => instantiate (1 := p) end; vm_compute; reflexivity).
  split; [exact E|]. split; [exact A|].
  destruct (preload_is_covered _ _ _ _ _ E A) as (_ & _ & _ & _ & _ & _ & C & _).
  apply C; [by vm_compute|apply Z.leb_le; by vm_compute].
Defined.

(** A signer that returns two transactions, and a gateway that accepts the first and refuses the second *)
Definition two_signed : list GemSignedTransaction :=
  [MkSigned "first" TransactionTypes.Transfer; MkSigned "second" TransactionTypes.Transfer].
#[local] Instance services : ConfirmServices := {|
  sign := fun _ _ _ => Ok two_signed;
  transaction_broadcast := fun _ _ data _ =>
    if String.eqb data "first" then Ok "hash 1" else Err (PlatformError "rejected");
  add_transactions := fun _ _ _ => Ok tt
|}.

Definition payment_send : SendInput :=
  MkSend own_wallet (MkConfirmData payment_input payment_fee Normal offered (LoadMetadata.BitcoinMetadata []) None)
    50000 1500 None.

Lemma execute_sends_signed_witness :
  snd (execute 0 payment_send []) = Err (Broadcast ["hash 1"] "Platform error: rejected")
  /\ exists new, fst (execute 0 payment_send []) = [] ++ new
     /\ exists error, answered [] new = [Ok "hash 1"; Err error] /\ "Platform error: rejected" = gateway_text error.
Proof.
  split; [by vm_compute|].
  destruct (execute_sends_signed 0 payment_send [] (fst (execute 0 payment_send []))
    (Err (Broadcast ["hash 1"] "Platform error: rejected"))) as (new & E & _ & L); [by vm_compute|].
  exists new. split; [exact E|exact L].
Defined.

(** The first transaction is recorded, although the second was refused. *)
Lemma sent_is_recorded_witness :
  exists new, fst (execute 0 payment_send []) = [] ++ new /\ accepted [] new = ["hash 1"]
  /\ exists sent pending, map Transactions.hash pending = ["hash 1"]
     /\ new = sent ++ [Stored (Wallets.id own_wallet) pending; Tracked (Wallets.id own_wallet) pending].
Proof.
  destruct (sent_is_recorded 0 payment_send [] (fst (execute 0 payment_send [])) (snd (execute 0 payment_send []))) as (new & E & R);
    [intros v; by exists v|done|apply surjective_pairing|].
  assert (accepted [] new = ["hash 1"]) as A by (cbn [app] in E; rewrite <- E; by vm_compute).
  exists new. split; [exact E|]. split; [exact A|]. cbn zeta in R. rewrite A in R.
  destruct R as (si & signed & sent & pending & S1 & S2 & _ & _ & Al & N); [done|].
  assert (map Transactions.hash pending = ["hash 1"]) as P.
  { apply Al; [by vm_compute|]. cbn in S2. injection S2 as <-. by repeat constructor. }
  exists sent, pending. split; [exact P|]. rewrite N. by destruct pending.
Defined.

End ConfirmConcrete.
