(* ===== verification/Signing.v ===== *)
(** * What the chain signers share

    Prefix codes: encoders whose output can be cut off what follows, as a class with instances for the fixed-width
    integers and the byte strings the wire formats are built from (module [PrefixCodes]).  The input of a signer with
    its metadata ([primitives/src/transaction_input_type.rs]; [SignerInputs]) and the keys of [crates/signer/src]
    ([Keys]), over the [ed25519_dalek], [k256], [base64], [bs58] and [base32] crates, which are classes. *)
From S2P Require Import Prelude HexText Text Crates ChainRegistry Assets BitcoinPlanner TransferAmount TransferRules.
Import BitcoinPlanner.

(** ** Codes that can be cut off what follows *)

Class PrefixCode {A} (enc : A -> bytes) (valid : A -> Prop) : Prop :=
  prefix_code : forall x y r s, valid x -> valid y -> enc x ++ r = enc y ++ s -> x = y /\ r = s.

Module PrefixCodes.

(** An encoder of a fixed length that can be inverted is a prefix code. *)
Lemma fixed_code {A} (enc : A -> bytes) (valid : A -> Prop) (n : nat) :
  (forall x, valid x -> length (enc x) = n) -> (forall x y, valid x -> valid y -> enc x = enc y -> x = y) ->
  PrefixCode enc valid.
Proof.
  intros L I x y r s Vx Vy E.
  apply app_inj_1 in E as [E ->]; [split; [by apply I|done]|by rewrite !L].
Qed.

#[export] Instance le_code n : PrefixCode (le_bytes n) (in_width (8 * Z.of_nat n)).
Proof.
  apply (fixed_code _ _ n); [intros; apply le_bytes_length|].
  intros x y Vx Vy E. apply (f_equal of_le) in E. rewrite !of_le_le_bytes in E.
  unfold in_width in *. by rewrite !Z.mod_small in E by lia.
Qed.

#[export] Instance be_code n : PrefixCode (be_bytes n) (in_width (8 * Z.of_nat n)).
Proof.
  apply (fixed_code _ _ n); [intros; apply be_bytes_length|].
  intros x y Vx Vy E. apply (f_equal of_be) in E. rewrite !of_be_be_bytes in E.
  unfold in_width in *. by rewrite !Z.mod_small in E by lia.
Qed.

#[export] Instance array_code n : PrefixCode (fun bs : bytes => bs) (fun bs => length bs = n).
Proof. by apply (fixed_code _ _ n). Qed.

(** A length written by a prefix code, before the bytes. *)
Lemma sized_code (enc : nat -> bytes) (valid : nat -> Prop) : PrefixCode enc valid ->
  PrefixCode (fun bs : bytes => enc (length bs) ++ bs) (fun bs => valid (length bs)).
Proof.
  intros C x y r s Vx Vy E. rewrite <- !app_assoc in E. apply C in E as [L E]; [|done..].
  by apply app_inj_1 in E.
Qed.

(** Two lists of the same length, entry by entry. *)
Lemma concat_code {A} (enc : A -> bytes) (valid : A -> Prop) : PrefixCode enc valid -> forall l1 l2 r s,
  Forall valid l1 -> Forall valid l2 -> length l1 = length l2 ->
  concat (map enc l1) ++ r = concat (map enc l2) ++ s -> l1 = l2 /\ r = s.
Proof.
  intros C. induction l1 as [|x l1 IH]; intros [|y l2] r s F1 F2 L E; try done.
  inversion_clear F1. inversion_clear F2. simpl in E. rewrite <- !app_assoc in E.
  apply C in E as [-> E]; [|done..]. injection L as L. by apply IH in E as [-> ->].
Qed.

(** The part of a text that is written as its bytes. *)
Lemma bytes_of_string_inj s t : bytes_of_string s = bytes_of_string t -> s = t.
Proof.
  intros E. rewrite <- (HexFacts.string_of_bytes_of_string s), <- (HexFacts.string_of_bytes_of_string t). by rewrite E.
Qed.

Lemma all_bytes_string s : all_bytes (bytes_of_string s).
Proof. induction s as [|a s IH]; [done|]. constructor; [|done]. destruct a as [[] [] [] [] [] [] [] []]; by vm_compute. Qed.

Lemma byte_singleton b : is_byte b -> all_bytes [b].
Proof. by intros; apply Forall_singleton. Qed.

Lemma as_u8_byte z : is_byte (as_u8 z).
Proof. by apply wrap_width. Qed.

(** *** Reading a number of bytes, for the readers the encoders are compared with *)

Definition read (n : nat) (bs : bytes) : option (bytes * bytes) :=
  if (n <=? length bs)%nat then Some (take n bs, drop n bs) else None.
Definition expect (b : Z) (bs : bytes) : option bytes :=
  match bs with b' :: rest => if b =? b' then Some rest else None | [] => None end.
Definition read_be (n : nat) (bs : bytes) : option (Z * bytes) :=
  let?? (word, rest) := read n bs in Some (of_be word, rest).

Lemma read_app bs rest : read (length bs) (bs ++ rest) = Some (bs, rest).
Proof.
  unfold read. rewrite length_app. destruct (Nat.leb_spec (length bs) (length bs + length rest)); [|lia].
  by rewrite take_app_length, drop_app_length.
Qed.

Lemma read_fixed n bs rest : length bs = n -> read n (bs ++ rest) = Some (bs, rest).
Proof. intros <-. apply read_app. Qed.

Lemma read_le n z rest : read n (le_bytes n z ++ rest) = Some (le_bytes n z, rest).
Proof. apply read_fixed, le_bytes_length. Qed.

Lemma read_be_app n v rest : in_width (8 * Z.of_nat n) v -> read_be n (be_bytes n v ++ rest) = Some (v, rest).
Proof.
  intros W. unfold read_be. rewrite read_fixed, of_be_be_bytes by apply be_bytes_length.
  unfold in_width in W. by rewrite Z.mod_small by lia.
Qed.

Lemma byte_be v : is_byte v -> [v] = be_bytes 1 v.
Proof. unfold in_width. intros B. unfold be_bytes, le_bytes. cbn [rev app]. by rewrite Z.mod_small by lia. Qed.

Lemma lor_prefix a b k : 0 <= k -> in_width k b -> Z.land a (Z.ones k) = 0 -> Z.lor a b = a + b.
Proof.
  intros K B A. rewrite <- Z.add_lor_land. replace (Z.land a b) with 0; [lia|].
  symmetry. apply in_width_land in B; [|done]. rewrite <- B, Z.land_comm, <- Z.land_assoc, (Z.land_comm _ a), A.
  apply Z.land_0_r.
Qed.

Lemma cons_eq {A} (x y : A) l l' : x :: l = y :: l' -> x = y /\ l = l'.
Proof. intros E. by inversion E. Qed.

End PrefixCodes.

(** [peel H] uses that the left-most parts of both sides of [H] are written by the same prefix code; the conditions
    on the values are left to [tac]. *)
Ltac peel_with H tac :=
  rewrite <- ?app_assoc in H; cbn [app] in H;
  match type of H with
  | ?a ++ _ = ?b ++ _ => apply prefix_code in H as [? H]; [|solve [tac]..]
  | _ :: _ = _ :: _ => apply PrefixCodes.cons_eq in H as [? H]
  end.
Tactic Notation "peel" hyp(H) "by" tactic3(tac) := peel_with H tac.

(** Splits a goal that a concatenation is made of bytes into its parts, and closes those of integers and texts. *)
Ltac bytes_parts :=
  repeat match goal with
  | |- Forall _ (be_bytes _ _) => apply be_bytes_bytes
  | |- Forall _ (le_bytes _ _) => apply le_bytes_bytes
  | |- Forall _ (bytes_of_string _) => apply PrefixCodes.all_bytes_string
  | |- Forall _ (replicate _ _) => apply Forall_replicate; by vm_compute
  | |- Forall _ (_ ++ _) => apply Forall_app_2
  end.

(** ** Crates of keys and texts *)

(** [ed25519_dalek]: the public key of a secret key, and the signature of a message *)
Class Ed25519 : Type := {
  ed25519_verifying_key : bytes -> bytes;
  ed25519_sign : bytes -> bytes -> bytes
}.
Class Ed25519Laws `{Ed25519} : Prop := {
  ed25519_key_length : forall key, length (ed25519_verifying_key key) = 32%nat;
  ed25519_signature_length : forall key message, length (ed25519_sign key message) = 64%nat;
  ed25519_key_bytes : forall key, all_bytes (ed25519_verifying_key key);
  ed25519_signature_bytes : forall key message, all_bytes (ed25519_sign key message)
}.

(** [k256]: whether bytes are a secret key, its compressed public key, and the recoverable signature of a digest *)
Class Secp256k1 : Type := {
  secp_valid_key : bytes -> bool;
  secp_public_key : bytes -> bytes;
  secp_sign_prehash : bytes -> bytes -> bytes * Z
}.
Class Secp256k1Laws `{Secp256k1} : Prop := {
  secp_key_length : forall key, secp_valid_key key = true -> length (secp_public_key key) = 33%nat;
  secp_key_bytes : forall key, all_bytes (secp_public_key key);
  secp_signature_length : forall digest key, length (fst (secp_sign_prehash digest key)) = 64%nat;
  secp_signature_bytes : forall digest key, all_bytes (fst (secp_sign_prehash digest key))
}.

(** [gem_encoding::{encode_base64, decode_base64}] *)
Class Base64Text : Type := { encode_base64 : bytes -> string; decode_base64 : string -> option bytes }.
Class Base64TextLaws `{Base64Text} : Prop := {
  base64_text_roundtrip : forall bs, all_bytes bs -> decode_base64 (encode_base64 bs) = Some bs
}.

(** [gem_encoding::{encode_base32, decode_base32}] *)
Class Base32Text : Type := { encode_base32 : bytes -> string; decode_base32 : string -> option bytes }.
Class Base32TextLaws `{Base32Text} : Prop := {
  base32_roundtrip : forall bs, all_bytes bs -> decode_base32 (encode_base32 bs) = Some bs;
  base32_bytes : forall s bs, decode_base32 s = Some bs -> all_bytes bs
}.

(** [bs58::decode(..).into_vec()], with the text of its error *)
Class Base58Text : Type := { bs58_encode : bytes -> string; bs58_decode : string -> result string bytes }.
Class Base58TextLaws `{Base58Text} : Prop := {
  bs58_text_roundtrip : forall bs, all_bytes bs -> bs58_decode (bs58_encode bs) = Ok bs;
  bs58_text_bytes : forall s bs, bs58_decode s = Ok bs -> all_bytes bs
}.

(** ** [crates/signer/src]: [ed25519.rs], [secp256k1.rs], [address.rs], [lib.rs] and [error.rs] *)

Module Keys.

Definition ED25519_KEY_TYPE : Z := 0.

Record Ed25519KeyPair := MkPair { signing_key : bytes; public_key_bytes : bytes }.

Section keys.
Context `{Ed25519} `{Secp256k1}.

Definition from_private_key (private_key : bytes) : result SignerError Ed25519KeyPair :=
  if (length private_key =? 32)%nat then Ok (MkPair private_key (ed25519_verifying_key private_key))
  else Err (InvalidInput "Invalid Ed25519 private key length").

Definition sign (self : Ed25519KeyPair) (digest : bytes) : bytes := ed25519_sign (signing_key self) digest.

(** [sign_digest] of [secp256k1.rs] *)
Definition secp_sign_digest (digest private_key : bytes) : result SignerError (bytes * Z) :=
  if secp_valid_key private_key then Ok (secp_sign_prehash digest private_key)
  else Err (SigningError "Invalid Secp256k1 private key").

Definition sign_digest_append_recovery (digest private_key : bytes) : result SignerError bytes :=
  let? (rs, v) := secp_sign_digest digest private_key in Ok (rs ++ [v]).

Definition public_key_from_private (private_key : bytes) : result SignerError bytes :=
  if secp_valid_key private_key then Ok (secp_public_key private_key)
  else Err (InvalidInput "Invalid Secp256k1 private key").

Inductive SignatureScheme := SchemeEd25519 | SchemeEd25519CardanoExtended | SchemeSecp256k1.

(** [Signer::sign_digest] *)
Definition sign_digest (scheme : SignatureScheme) (digest private_key : bytes) : result SignerError bytes :=
  match scheme with
  | SchemeEd25519 => let? key_pair := from_private_key private_key in Ok (sign key_pair digest)
  | SchemeEd25519CardanoExtended => Err (SigningError "Cardano extended key signing is handled by gem_cardano")
  | SchemeSecp256k1 => sign_digest_append_recovery digest private_key
  end.
End keys.

(** [Base32Address]: its payload, of 32 bytes *)
Definition Base32Address : Type := bytes.
Definition from_slice (bs : bytes) : result SignerError Base32Address :=
  if (length bs =? 32)%nat then Ok bs else Err (InvalidInput "invalid base32 address payload").
Definition payload (self : Base32Address) : bytes := self.

(** [InvalidInput::invalid_input] *)
Definition invalid_input {A} (self : option A) (msg : string) : result SignerError A := ok_or self (InvalidInput msg).

End Keys.

(** ** The input of a signer *)

Module SignerInputs.
Import Assets.AssetIds Assets.Assets GasPrices InputTypes LoadMetadata.

(** [SignerInput] with the [metadata] of its [TransactionLoadInput], which [InputTypes] leaves out *)
Record ChainSignerInput := MkChainInput { signer_input : InputTypes.SignerInput; metadata : TransactionLoadMetadata }.

(** [Deref] of a [SignerInput] *)
Definition load (self : ChainSignerInput) : TransactionLoadInput := InputTypes.input (signer_input self).
Definition fee_of (self : ChainSignerInput) : TransactionFee := InputTypes.fee (signer_input self).
Definition asset_of (self : ChainSignerInput) : Asset := get_asset (input_type (load self)).

(** [AssetId::get_token_id] *)
Definition get_token_id (self : AssetId) : result SignerError string :=
  ok_or (token_id self) (InvalidInput "Token ID required").

(** A getter of the metadata used with [?]: its message becomes an invalid input. *)
Definition from_box {A} (r : result string A) : result SignerError A := map_err InvalidInput r.

(** [options.get(&option)] *)
Definition get_option (option_ : FeeOption) (options : list (FeeOption * Z)) : option Z :=
  snd <$> List.find (fun entry => bool_decide (fst entry = option_)) options.

(** [to_u128], [to_u32] and [u128::try_from] of a [BigInt] or [BigUint] *)
Definition to_width (w : Z) (value : Z) : option Z := if (0 <=? value) && (value <? 2 ^ w) then Some value else None.

Lemma to_width_Some w value v : to_width w value = Some v -> v = value /\ in_width w v.
Proof.
  unfold to_width, in_width. destruct (_ && _) eqn:B; [|done]. intros E. apply andb_true_iff in B as [B1 B2].
  assert (v = value) as -> by congruence. lia.
Qed.

Lemma to_u64_Some value v : to_u64 value = Some v -> v = value /\ is_u64 v.
Proof.
  unfold to_u64, in_width, U64_MAX. destruct (_ && _) eqn:B; [|done]. intros E. apply andb_true_iff in B as [B1 B2].
  assert (v = value) as -> by congruence. lia.
Qed.

Lemma value_Ok input amount : InputTypes.value_as_u64 (load input) = Ok amount ->
  amount = InputTypes.input_value (load input) /\ is_u64 amount.
Proof.
  unfold InputTypes.value_as_u64. destruct (GasPrices.to_u64 _) as [v|] eqn:V; [|done].
  apply to_u64_Some in V as [-> V]. intros E. by assert (amount = InputTypes.input_value (load input)) as -> by (cbn in E; congruence).
Qed.

Lemma gas_limit_u64_range fee gas : GasPrices.gas_limit_u64 fee = Ok gas -> is_u64 gas.
Proof.
  unfold GasPrices.gas_limit_u64. destruct (GasPrices.to_u64 _) as [g|] eqn:G; [|done]. cbn. destruct (g =? 0); [done|].
  intros [= <-]. by eapply to_u64_Some.
Qed.

Lemma gas_price_u64_range fee price : GasPrices.gas_price_u64 fee = Ok price -> is_u64 price.
Proof.
  unfold GasPrices.gas_price_u64. destruct (GasPrices.to_u64 _) as [u|] eqn:U; [|done]. apply to_u64_Some in U as [_ U].
  intros E. by assert (price = u) as -> by (cbn in E; congruence).
Qed.

End SignerInputs.

(** ** Concrete parameters, to evaluate the signers on inputs *)

Module SigningConcrete.

(** A 32-byte and a 64-byte function of the input serve as a key and a signature, and bytes as their own text. *)
#[export] Instance toy_ed25519 : Ed25519 := {|
  ed25519_verifying_key key := be_bytes 32 (of_be key + 1);
  ed25519_sign key message := be_bytes 64 (of_be key * 65537 + of_be message)
|}.
#[export] Instance toy_ed25519_laws : Ed25519Laws.
Proof. split; intros; apply be_bytes_length || apply be_bytes_bytes. Qed.

#[export] Instance toy_secp256k1 : Secp256k1 := {|
  secp_valid_key key := (length key =? 32)%nat && negb (of_be key =? 0);
  secp_public_key key := 2 :: be_bytes 32 (of_be key + 1);
  secp_sign_prehash digest key := (be_bytes 64 (of_be key * 65537 + of_be digest), 0)
|}.
#[export] Instance toy_secp256k1_laws : Secp256k1Laws.
Proof.
  split; intros; cbn [fst secp_public_key secp_sign_prehash toy_secp256k1]; try apply be_bytes_length; try apply be_bytes_bytes.
  - cbn [length]. by rewrite be_bytes_length.
  - constructor; [by vm_compute|apply be_bytes_bytes].
Qed.

Definition to_bytes (s : string) : option bytes := Some (bytes_of_string s).
#[export] Instance toy_base64 : Base64Text := {| encode_base64 := string_of_bytes; decode_base64 := to_bytes |}.
#[export] Instance toy_base64_laws : Base64TextLaws.
Proof. split; intros bs B. cbn. unfold to_bytes. by rewrite HexFacts.bytes_of_string_of_bytes. Qed.
(** A text of 35 bytes has 56 characters and begins with [G], as a Stellar address does. *)
Definition base32_head : string := "GAAAAAAAAAAAAAAAAAAAA".
#[export] Instance toy_base32 : Base32Text := {|
  encode_base32 bs := (base32_head +:+ string_of_bytes bs)%string;
  decode_base32 s := bytes_of_string <$> strip_prefix base32_head s
|}.
#[export] Instance toy_base32_laws : Base32TextLaws.
Proof.
  split; cbn [encode_base32 decode_base32 toy_base32].
  - intros bs B. rewrite (proj2 (strip_prefix_iff _ _ _) eq_refl). cbn. by rewrite HexFacts.bytes_of_string_of_bytes.
  - intros s bs E. destruct (strip_prefix _ s) as [t|]; [|done]. inversion E. apply PrefixCodes.all_bytes_string.
Qed.
#[export] Instance toy_base58 : Base58Text := {| bs58_encode := string_of_bytes; bs58_decode s := Ok (bytes_of_string s) |}.
#[export] Instance toy_base58_laws : Base58TextLaws.
Proof.
  split; cbn; [intros bs B; by rewrite HexFacts.bytes_of_string_of_bytes|].
  intros s bs E. assert (bs = bytes_of_string s) as -> by congruence. apply PrefixCodes.all_bytes_string.
Qed.

Definition key : bytes := replicate 31 0 ++ [7].

(** A request for a transfer of an asset *)
Definition request (asset : Assets.Asset) (sender destination : string) (value : Z) (memo : option string) (fee : Z)
  (options : list (GasPrices.FeeOption * Z)) (metadata : LoadMetadata.TransactionLoadMetadata) : SignerInputs.ChainSignerInput :=
  SignerInputs.MkChainInput
    (InputTypes.MkSignerInput
       (InputTypes.MkLoadInput (InputTypes.Transfer asset) sender destination value (GasPrices.Regular 1) memo false)
       (GasPrices.MkFee fee (GasPrices.Regular 1) 0 options (AssetIds.from_chain (AssetIds.chain (Assets.id asset))))) metadata.

Definition coin (chain : Chains.Chain) (token_id : option string) (symbol : string) (decimals : Z) : Assets.Asset :=
  Assets.MkAsset (AssetIds.MkAssetId chain token_id) symbol symbol decimals AssetTypes.TOKEN.

End SigningConcrete.
