(* ===== verification/NearSigner.v ===== *)
(** * The NEAR signer

    Models [gem_near/src/signer]: the transactions a request is turned into ([models.rs]), their Borsh encoding
    ([serialization.rs]) and the signed text ([signing.rs], [chain_signer.rs]).  The JSON of the arguments of a
    contract call is the class [NearJson].  The theorem shows that the signed text holds the requested transaction
    and can be read as no other. *)
From stdpp Require Import pretty.
From S2P Require Import Prelude HexText Text Crates ChainRegistry Assets BitcoinPlanner TransferAmount TransferRules Signing.
Import BitcoinPlanner SignerInputs Keys.

(** [serde_json::to_vec] of [FungibleTokenTransferArgs] and of [StorageDepositArgs] *)
Record FungibleTokenTransferArgs := MkTransferArgs { args_receiver_id : string; args_amount : string; args_memo : option string }.
Record StorageDepositArgs := MkDepositArgs { args_account_id : string; registration_only : bool }.
Class NearJson : Type := {
  transfer_args_to_vec : FungibleTokenTransferArgs -> result string bytes;
  deposit_args_to_vec : StorageDepositArgs -> result string bytes
}.

Module NearSigner.

Definition FUNGIBLE_TOKEN_TRANSFER_DEPOSIT : Z := 1.
Definition FUNGIBLE_TOKEN_FUNCTION_CALL_GAS : Z := 30000000000000.
Definition FUNCTION_CALL_ACTION : Z := 2.
Definition TRANSFER_ACTION : Z := 3.

Inductive NearAction :=
| Transfer (deposit : Z)
| FunctionCall (method_name : string) (args : bytes) (gas deposit : Z).

Record NearTransaction := MkTransaction {
  signer_id : string;
  receiver_id : string;
  nonce : Z;
  block_hash : bytes;
  actions : list NearAction
}.

(** *** [serialization.rs] *)

Definition write_bytes (buffer value : bytes) : bytes := buffer ++ le_bytes 4 (as_u32 (Z.of_nat (length value))) ++ value.

(** One turn of the loop over the actions *)
Definition write_action (buffer : bytes) (action : NearAction) : bytes :=
  match action with
  | Transfer deposit => let buffer := buffer ++ [TRANSFER_ACTION] in buffer ++ le_bytes 16 deposit
  | FunctionCall method_name args gas deposit =>
      let buffer := buffer ++ [FUNCTION_CALL_ACTION] in
      let buffer := write_bytes buffer (bytes_of_string method_name) in
      let buffer := write_bytes buffer args in
      let buffer := buffer ++ le_bytes 8 gas in
      buffer ++ le_bytes 16 deposit
  end.

Definition encode_transaction (transaction : NearTransaction) (public_key : bytes) : bytes :=
  let buffer := write_bytes [] (bytes_of_string (signer_id transaction)) in
  let buffer := buffer ++ [ED25519_KEY_TYPE] in
  let buffer := buffer ++ public_key in
  let buffer := buffer ++ le_bytes 8 (nonce transaction) in
  let buffer := write_bytes buffer (bytes_of_string (receiver_id transaction)) in
  let buffer := buffer ++ block_hash transaction in
  let buffer := buffer ++ le_bytes 4 (as_u32 (Z.of_nat (length (actions transaction)))) in
  fold_left write_action (actions transaction) buffer.

(** *** [models.rs] *)

Section signer.
Context `{Ed25519} `{Sha256} `{Base64Text} `{Base58Text} `{NearJson}.

Definition new (input : ChainSignerInput) (receiver_id : string) (actions : list NearAction)
  : result SignerError NearTransaction :=
  let? text := from_box (LoadMetadata.get_block_hash (metadata input)) in
  let? decoded := map_err (fun error => InvalidInput ("invalid NEAR block hash: " +:+ error)) (bs58_decode text) in
  let? block_hash := if (length decoded =? 32)%nat then Ok decoded else Err (InvalidInput "NEAR block hash must be 32 bytes") in
  let? nonce := from_box (LoadMetadata.get_sequence (metadata input)) in
  Ok (MkTransaction (InputTypes.sender_address (load input)) receiver_id nonce block_hash actions).

Definition from_transfer_input (input : ChainSignerInput) : result SignerError NearTransaction :=
  let? deposit := ok_or (to_width 128 (InputTypes.input_value (load input))) (InvalidInput "NEAR amount is too large") in
  new input (InputTypes.destination_address (load input)) [Transfer deposit].

(** The storage deposit for an account the token does not know yet *)
Definition storage_deposit_actions (input : ChainSignerInput) : result SignerError (list NearAction) :=
  match get_option GasPrices.TokenAccountCreation (GasPrices.options (fee_of input)) with
  | Some deposit =>
      let? deposit := ok_or (to_width 128 deposit) (InvalidInput "invalid NEAR token account creation deposit") in
      let? args := map_err InvalidInput (deposit_args_to_vec (MkDepositArgs (InputTypes.destination_address (load input)) true)) in
      Ok [FunctionCall "storage_deposit" args FUNGIBLE_TOKEN_FUNCTION_CALL_GAS deposit]
  | None => Ok []
  end.

Definition from_token_transfer_input (input : ChainSignerInput) : result SignerError NearTransaction :=
  let? token_id := get_token_id (Assets.id (asset_of input)) in
  let? actions := storage_deposit_actions input in
  let? args := map_err InvalidInput (transfer_args_to_vec (MkTransferArgs (InputTypes.destination_address (load input))
                 (pretty (InputTypes.input_value (load input))) (InputTypes.get_memo (load input)))) in
  new input token_id
    (actions ++ [FunctionCall "ft_transfer" args FUNGIBLE_TOKEN_FUNCTION_CALL_GAS FUNGIBLE_TOKEN_TRANSFER_DEPOSIT]).

(** *** [signing.rs] and [chain_signer.rs] *)

Definition sign_transaction (transaction : NearTransaction) (private_key : bytes) : result SignerError string :=
  let? key_pair := from_private_key private_key in
  let encoded := encode_transaction transaction (public_key_bytes key_pair) in
  let signature := sign key_pair (sha256 encoded) in
  let signed := encoded in
  let signed := signed ++ [ED25519_KEY_TYPE] in
  let signed := signed ++ signature in
  Ok (encode_base64 signed).

Definition sign_transfer (input : ChainSignerInput) (private_key : bytes) : result SignerError string :=
  let? transaction := from_transfer_input input in sign_transaction transaction private_key.

Definition sign_token_transfer (input : ChainSignerInput) (private_key : bytes) : result SignerError string :=
  let? transaction := from_token_transfer_input input in sign_transaction transaction private_key.

End signer.
End NearSigner.

(** ** The encoding is a prefix code *)

Module NearFacts.
Import NearSigner.

Definition short {A} (l : list A) : Prop := Z.of_nat (length l) < 2 ^ 32.
Abbreviation short_text s := (short (bytes_of_string s)).

Definition action_ok (action : NearAction) : Prop :=
  match action with
  | Transfer deposit => is_u128 deposit
  | FunctionCall method_name args gas deposit => short_text method_name /\ short args /\ is_u64 gas /\ is_u128 deposit
  end.

Record transaction_ok (transaction : NearTransaction) : Prop := {
  ok_signer : short_text (signer_id transaction);
  ok_receiver : short_text (receiver_id transaction);
  ok_nonce : is_u64 (nonce transaction);
  ok_hash : length (block_hash transaction) = 32%nat;
  ok_count : short (actions transaction);
  ok_actions : Forall action_ok (actions transaction)
}.

Lemma write_bytes_app buffer value : write_bytes buffer value = buffer ++ write_bytes [] value.
Proof. reflexivity. Qed.

Lemma write_action_app buffer action : write_action buffer action = buffer ++ write_action [] action.
Proof. destruct action; unfold write_action, write_bytes; rewrite ?app_nil_l, <- ?app_assoc; reflexivity. Qed.

Lemma write_actions_app actions buffer : fold_left write_action actions buffer = buffer ++ concat (map (write_action []) actions).
Proof.
  revert buffer. induction actions as [|a l IH]; intros buffer; [by rewrite app_nil_r|].
  cbn [fold_left map concat]. by rewrite write_action_app, IH, app_assoc.
Qed.

Lemma near_encode_flat transaction key : encode_transaction transaction key =
  write_bytes [] (bytes_of_string (signer_id transaction)) ++ ED25519_KEY_TYPE :: key ++ le_bytes 8 (nonce transaction)
  ++ write_bytes [] (bytes_of_string (receiver_id transaction)) ++ block_hash transaction
  ++ le_bytes 4 (as_u32 (Z.of_nat (length (actions transaction)))) ++ concat (map (write_action []) (actions transaction)).
Proof.
  unfold encode_transaction. rewrite write_actions_app. rewrite (write_bytes_app (_ ++ le_bytes 8 _)).
  by rewrite <- ?app_assoc.
Qed.

Lemma as_u32_len {A} (l : list A) : short l -> as_u32 (Z.of_nat (length l)) = Z.of_nat (length l).
Proof. unfold short. intros S. apply wrap_small. unfold in_width. lia. Qed.

#[export] Instance length_code : PrefixCode (fun n => le_bytes 4 (as_u32 (Z.of_nat n))) (fun n => Z.of_nat n < 2 ^ 32).
Proof.
  intros x y r s Vx Vy E. unfold as_u32 in E. rewrite !wrap_small in E by (unfold in_width; lia).
  apply PrefixCodes.le_code in E as [E ->]; [|unfold in_width; lia..]. split; [lia|done].
Qed.

#[export] Instance write_bytes_code : PrefixCode (write_bytes []) short.
Proof. intros x y r s Vx Vy E. by apply (PrefixCodes.sized_code _ _ length_code) in E. Qed.

#[export] Existing Instances PrefixCodes.le_code PrefixCodes.be_code.

Lemma near_call_flat method_name args gas deposit : write_action [] (FunctionCall method_name args gas deposit) =
  FUNCTION_CALL_ACTION :: write_bytes [] (bytes_of_string method_name) ++ write_bytes [] args ++ le_bytes 8 gas
  ++ le_bytes 16 deposit.
Proof. unfold write_action, write_bytes. rewrite ?app_nil_l, <- ?app_assoc. reflexivity. Qed.

Lemma transfer_flat deposit : write_action [] (Transfer deposit) = TRANSFER_ACTION :: le_bytes 16 deposit.
Proof. reflexivity. Qed.

#[export] Instance action_code : PrefixCode (write_action []) action_ok.
Proof.
  intros [d1|m1 a1 g1 d1] [d2|m2 a2 g2 d2] r s V1 V2 E; rewrite ?near_call_flat, ?transfer_flat in E; try done.
  - peel E by idtac. peel E by assumption. by subst.
  - destruct V1 as (? & ? & ? & ?), V2 as (? & ? & ? & ?).
    peel E by idtac. do 4 peel E by assumption. subst.
    split; [|done]. f_equal. by apply PrefixCodes.bytes_of_string_inj.
Qed.

(** The bytes of a transaction and its key determine both, whatever follows them. *)
Lemma near_encode_inj t1 t2 k1 k2 r s : transaction_ok t1 -> transaction_ok t2 -> length k1 = length k2 ->
  encode_transaction t1 k1 ++ r = encode_transaction t2 k2 ++ s -> t1 = t2 /\ k1 = k2 /\ r = s.
Proof.
  intros [] [] K E. rewrite !near_encode_flat in E. peel E by assumption. peel E by idtac.
  rewrite <- ?app_assoc in E. apply app_inj_1 in E as [-> E]; [|done].
  do 2 peel E by assumption. rewrite <- ?app_assoc in E. apply app_inj_1 in E as [? E]; [|congruence].
  rewrite <- ?app_assoc in E. apply length_code in E as [? E]; [|assumption..].
  apply (PrefixCodes.concat_code _ _ action_code) in E as [? ->]; [|assumption..].
  split; [|done]. destruct t1, t2. cbn in *. f_equal; try done; by apply PrefixCodes.bytes_of_string_inj.
Qed.

End NearFacts.

(** ** What a signed request is *)

Class NearJsonLaws `{NearJson} : Prop := {
  transfer_args_bytes : forall args bs, transfer_args_to_vec args = Ok bs -> all_bytes bs;
  deposit_args_bytes : forall args bs, deposit_args_to_vec args = Ok bs -> all_bytes bs
}.

Module NearRequests.
Import NearSigner NearFacts.

Section requests.
Context `{Ed25519Laws} `{Sha256} `{Base64TextLaws} `{Base58TextLaws} `{NearJsonLaws}.

Definition transfer_args (input : ChainSignerInput) : FungibleTokenTransferArgs :=
  MkTransferArgs (InputTypes.destination_address (load input)) (pretty (InputTypes.input_value (load input)))
    (InputTypes.get_memo (load input)).
Definition deposit_args (input : ChainSignerInput) : StorageDepositArgs :=
  MkDepositArgs (InputTypes.destination_address (load input)) true.

(** The nonce is a [u64], and no text of the request is 4 GiB long. *)
Record request_fits (input : ChainSignerInput) : Prop := {
  fits_nonce : forall n, LoadMetadata.get_sequence (metadata input) = Ok n -> is_u64 n;
  fits_sender : short_text (InputTypes.sender_address (load input));
  fits_destination : short_text (InputTypes.destination_address (load input));
  fits_token : forall t, get_token_id (Assets.id (asset_of input)) = Ok t -> short_text t;
  fits_transfer : forall bs, transfer_args_to_vec (transfer_args input) = Ok bs -> short bs;
  fits_deposit : forall bs, deposit_args_to_vec (deposit_args input) = Ok bs -> short bs
}.

(** The parts every request shares *)
Record from_request (input : ChainSignerInput) (transaction : NearTransaction) : Prop := {
  request_signer : signer_id transaction = InputTypes.sender_address (load input);
  request_nonce : LoadMetadata.get_sequence (metadata input) = Ok (nonce transaction);
  request_block : exists text, LoadMetadata.get_block_hash (metadata input) = Ok text /\ bs58_decode text = Ok (block_hash transaction)
}.

(** The text holds the transaction, the key and the signature of their hash, and no other transaction or key. *)
Definition only_reading (text : string) (transaction : NearTransaction) (key : bytes) : Prop :=
  let public := ed25519_verifying_key key in
  let encoded := encode_transaction transaction public in
  decode_base64 text = Some (encoded ++ ED25519_KEY_TYPE :: ed25519_sign key (sha256 encoded))
  /\ forall transaction' public' rest, transaction_ok transaction' -> length public' = 32%nat ->
       decode_base64 text = Some (encode_transaction transaction' public' ++ rest) ->
       transaction' = transaction /\ public' = public.

Definition action_bytes (action : NearAction) : Prop :=
  match action with Transfer _ => True | FunctionCall _ args _ _ => all_bytes args end.

Lemma write_bytes_bytes value : all_bytes value -> all_bytes (write_bytes [] value).
Proof. intros. unfold write_bytes. rewrite app_nil_l. apply Forall_app_2; [apply le_bytes_bytes|done]. Qed.

Lemma write_action_bytes action : action_bytes action -> all_bytes (write_action [] action).
Proof.
  destruct action as [deposit|method_name args gas deposit]; intros A; rewrite ?near_call_flat, ?transfer_flat.
  - constructor; [by vm_compute|apply le_bytes_bytes].
  - constructor; [by vm_compute|]. apply Forall_app_2; [apply write_bytes_bytes, PrefixCodes.all_bytes_string|].
    apply Forall_app_2; [by apply write_bytes_bytes|]. apply Forall_app_2; apply le_bytes_bytes.
Qed.

Lemma near_encode_bytes transaction key : all_bytes key -> all_bytes (block_hash transaction) ->
  Forall action_bytes (actions transaction) -> all_bytes (encode_transaction transaction key).
Proof.
  intros K B A. rewrite near_encode_flat. apply Forall_app_2; [apply write_bytes_bytes, PrefixCodes.all_bytes_string|].
  constructor; [by vm_compute|]. apply Forall_app_2; [done|]. apply Forall_app_2; [apply le_bytes_bytes|].
  apply Forall_app_2; [apply write_bytes_bytes, PrefixCodes.all_bytes_string|]. apply Forall_app_2; [done|].
  apply Forall_app_2; [apply le_bytes_bytes|]. apply Forall_concat, Forall_map. eapply Forall_impl; [exact A|].
  intros a Ha. by apply write_action_bytes.
Qed.

Lemma new_Ok input receiver actions transaction : new input receiver actions = Ok transaction ->
  from_request input transaction /\ receiver_id transaction = receiver /\ NearSigner.actions transaction = actions
  /\ length (block_hash transaction) = 32%nat /\ all_bytes (block_hash transaction).
Proof.
  unfold new, from_box, map_err. intros E.
  destruct (LoadMetadata.get_block_hash _) as [text|] eqn:T; [|done].
  destruct (bs58_decode text) as [decoded|] eqn:D; [|done].
  destruct (Nat.eqb_spec (length decoded) 32); [|done].
  destruct (LoadMetadata.get_sequence _) as [n|] eqn:S; [|done].
  assert (transaction = MkTransaction (InputTypes.sender_address (load input)) receiver n decoded actions) as -> by congruence.
  split_and!; try done; [|by eapply bs58_text_bytes]. split; [done|done|by exists text].
Qed.

Lemma near_sign_reading transaction key text : transaction_ok transaction -> Forall action_bytes (actions transaction) ->
  all_bytes (block_hash transaction) -> sign_transaction transaction key = Ok text -> only_reading text transaction key.
Proof.
  unfold sign_transaction, from_private_key. intros T A B E. destruct (length key =? 32)%nat; [|done].
  cbn [public_key_bytes signing_key sign] in E. set (encoded := encode_transaction transaction (ed25519_verifying_key key)) in E.
  assert (D : decode_base64 text = Some (encoded ++ ED25519_KEY_TYPE :: ed25519_sign key (sha256 encoded))).
  { assert (text = encode_base64 ((encoded ++ [ED25519_KEY_TYPE]) ++ ed25519_sign key (sha256 encoded))) as -> by (unfold sign in E; cbn [signing_key] in E; congruence).
    rewrite base64_text_roundtrip, <- app_assoc; [done|]. apply Forall_app_2; [|apply ed25519_signature_bytes].
    apply Forall_app_2; [|constructor; [by vm_compute|done]]. apply near_encode_bytes; [apply ed25519_key_bytes|done..]. }
  split; [exact D|]. intros t' p' rest T' P' D'. rewrite D in D'.
  assert (encode_transaction t' p' ++ rest = encode_transaction transaction (ed25519_verifying_key key)
    ++ ED25519_KEY_TYPE :: ed25519_sign key (sha256 encoded)) as Q by (unfold encoded in *; congruence).
  apply near_encode_inj in Q as (-> & -> & _); [done..|]. by rewrite P', ed25519_key_length.
Qed.

(** The transaction of a request is well formed. *)
Lemma near_request_ok input transaction : request_fits input -> from_request input transaction ->
  short_text (receiver_id transaction) -> length (block_hash transaction) = 32%nat ->
  (length (actions transaction) <= 2)%nat -> Forall action_ok (actions transaction) -> transaction_ok transaction.
Proof.
  intros F R S L C A. split; [|done| |done| |done].
  - rewrite (request_signer _ _ R). by apply fits_sender.
  - apply (fits_nonce _ F), (request_nonce _ _ R).
  - unfold short. lia.
Qed.

Lemma transfer_ok input transaction : request_fits input -> from_request input transaction ->
  receiver_id transaction = InputTypes.destination_address (load input) ->
  actions transaction = [Transfer (InputTypes.input_value (load input))] ->
  is_u128 (InputTypes.input_value (load input)) -> length (block_hash transaction) = 32%nat -> transaction_ok transaction.
Proof.
  intros F R D A W L. apply (near_request_ok input); [done..| |done| |].
  - rewrite D. by apply fits_destination.
  - rewrite A. cbn. lia.
  - rewrite A. by apply Forall_singleton.
Qed.

Lemma deposit_actions input deposit : request_fits input -> storage_deposit_actions input = Ok deposit ->
  match get_option GasPrices.TokenAccountCreation (GasPrices.options (fee_of input)) with
  | Some amount => exists args', deposit_args_to_vec (deposit_args input) = Ok args'
      /\ deposit = [FunctionCall "storage_deposit" args' FUNGIBLE_TOKEN_FUNCTION_CALL_GAS amount]
  | None => deposit = []
  end /\ (length deposit <= 1)%nat /\ Forall action_ok deposit /\ Forall action_bytes deposit.
Proof.
  intros F. unfold storage_deposit_actions. destruct (get_option _ _) as [amount|].
  - destruct (to_width 128 amount) as [v|] eqn:W; [|done]. apply to_width_Some in W as [-> W]. cbn [ok_or map_err].
    fold (deposit_args input). destruct (deposit_args_to_vec _) as [args'|] eqn:J; [|done]. cbn [map_err]. intros E.
    assert (deposit = [FunctionCall "storage_deposit" args' FUNGIBLE_TOKEN_FUNCTION_CALL_GAS amount]) as -> by congruence.
    split_and!; [by exists args'|done| |].
    + constructor; [|done]. split_and!; [by vm_compute|by apply (fits_deposit _ F)|by vm_compute|done].
    + constructor; [|done]. by eapply deposit_args_bytes.
  - intros E. assert (deposit = []) as -> by congruence. split_and!; try done. cbn. lia.
Qed.

Lemma token_request input transaction : request_fits input -> from_token_transfer_input input = Ok transaction ->
  exists deposit args,
     from_request input transaction /\ get_token_id (Assets.id (asset_of input)) = Ok (receiver_id transaction)
     /\ actions transaction = deposit ++ [FunctionCall "ft_transfer" args FUNGIBLE_TOKEN_FUNCTION_CALL_GAS 1]
     /\ transfer_args_to_vec (transfer_args input) = Ok args
     /\ match get_option GasPrices.TokenAccountCreation (GasPrices.options (fee_of input)) with
        | Some amount => exists args', deposit_args_to_vec (deposit_args input) = Ok args'
            /\ deposit = [FunctionCall "storage_deposit" args' FUNGIBLE_TOKEN_FUNCTION_CALL_GAS amount]
        | None => deposit = []
        end
     /\ all_bytes (block_hash transaction)
     /\ (transaction_ok transaction /\ Forall action_bytes (actions transaction)).
Proof.
  unfold from_token_transfer_input. intros F E. destruct (get_token_id _) as [token|] eqn:T; [|done].
  destruct (storage_deposit_actions input) as [deposit|] eqn:S; [|done].
  apply deposit_actions in S as (O & C & AO & AB); [|done]. fold (transfer_args input) in E.
  destruct (transfer_args_to_vec _) as [args|] eqn:J; [|done]. cbn [map_err] in E.
  apply new_Ok in E as (R & D & A & L & B). exists deposit, args. rewrite D, A. split_and!; try done.
  - apply (near_request_ok input); [done..| |done| |].
    + rewrite D. by apply (fits_token _ F).
    + rewrite A, length_app. cbn [length]. lia.
    + rewrite A. apply Forall_app_2; [done|]. constructor; [|done].
      split_and!; [by vm_compute|by apply (fits_transfer _ F)|by vm_compute..].
  - apply Forall_app_2; [done|]. constructor; [|done]. by eapply transfer_args_bytes.
Qed.

End requests.
End NearRequests.

Module NearProperties.
Import NearSigner NearFacts NearRequests.

Section properties.
Context `{Ed25519Laws} `{Sha256} `{Base64TextLaws} `{Base58TextLaws} `{NearJsonLaws}.

(** (C15) What the NEAR signer signs is what was requested: a native transfer pays the requested amount to the
    destination; a token transfer calls the token's contract, first for the storage of a new account when the fee
    has that option, then for the transfer to the destination with one yocto attached.  Sender, nonce and block are
    those of the request, and the signed text can be read as no other transaction or key. *)
Theorem near_request_signed : forall input key text, request_fits input ->
  (sign_transfer input key = Ok text -> exists transaction,
     from_request input transaction /\ receiver_id transaction = InputTypes.destination_address (load input)
     /\ actions transaction = [Transfer (InputTypes.input_value (load input))]
     /\ is_u128 (InputTypes.input_value (load input)) /\ only_reading text transaction key)
  /\ (sign_token_transfer input key = Ok text -> exists transaction deposit args,
     from_request input transaction /\ get_token_id (Assets.id (asset_of input)) = Ok (receiver_id transaction)
     /\ actions transaction = deposit ++ [FunctionCall "ft_transfer" args FUNGIBLE_TOKEN_FUNCTION_CALL_GAS 1]
     /\ transfer_args_to_vec (transfer_args input) = Ok args
     /\ match get_option GasPrices.TokenAccountCreation (GasPrices.options (fee_of input)) with
        | Some amount => exists args', deposit_args_to_vec (deposit_args input) = Ok args'
            /\ deposit = [FunctionCall "storage_deposit" args' FUNGIBLE_TOKEN_FUNCTION_CALL_GAS amount]
        | None => deposit = []
        end
     /\ only_reading text transaction key).
Proof.
  intros input key text F. split.
  - unfold sign_transfer, from_transfer_input, ok_or. intros E.
    destruct (to_width 128 _) as [v|] eqn:W; [|done]. apply to_width_Some in W as [-> W].
    destruct (new _ _ _) as [transaction|] eqn:N; [|done]. apply new_Ok in N as (R & D & A & L & B).
    exists transaction. split_and!; [done..|]. apply near_sign_reading; [|by rewrite A; constructor|done..].
    by eapply transfer_ok.
  - unfold sign_token_transfer. intros E. destruct (from_token_transfer_input input) as [transaction|] eqn:T; [|done].
    apply token_request in T as (deposit & args & R & D & A & J & O & B & K); [|done].
    exists transaction, deposit, args. split_and!; [done..|]. destruct K. by apply near_sign_reading.
Qed.

End properties.
End NearProperties.

(** ** A concrete request *)

Module NearConcrete.
Import NearSigner NearFacts NearRequests NearProperties Concrete SigningConcrete.

#[local] Instance toy_json : NearJson := {|
  transfer_args_to_vec args := Ok (bytes_of_string (args_receiver_id args +:+ "," +:+ args_amount args));
  deposit_args_to_vec args := Ok (bytes_of_string (args_account_id args))
|}.
#[local] Instance toy_json_laws : NearJsonLaws.
Proof.
  split; intros args bs E; inversion E; apply PrefixCodes.all_bytes_string.
Qed.

Definition block : string := string_of_bytes (replicate 32 5).
Definition token_request_input : ChainSignerInput :=
  request (coin Chains.Near (Some "usdt.near") "USDT" 6) "alice.near" "bob.near" 250 None 10
    [(GasPrices.TokenAccountCreation, 125)] (LoadMetadata.Near 9 block).

Lemma token_fits : request_fits token_request_input.
Proof.
  split; [|by vm_compute|by vm_compute| | |].
  - intros n E. inversion E. by vm_compute.
  - intros t E. inversion E. by vm_compute.
  - intros bs E. inversion E. by vm_compute.
  - intros bs E. inversion E. by vm_compute.
Qed.

Lemma near_request_signed_witness : exists text,
  sign_token_transfer token_request_input key = Ok text /\ exists transaction deposit args,
     from_request token_request_input transaction
     /\ get_token_id (Assets.id (asset_of token_request_input)) = Ok (receiver_id transaction)
     /\ actions transaction = deposit ++ [FunctionCall "ft_transfer" args FUNGIBLE_TOKEN_FUNCTION_CALL_GAS 1]
     /\ transfer_args_to_vec (transfer_args token_request_input) = Ok args
     /\ match get_option GasPrices.TokenAccountCreation (GasPrices.options (fee_of token_request_input)) with
        | Some amount => exists args', deposit_args_to_vec (deposit_args token_request_input) = Ok args'
            /\ deposit = [FunctionCall "storage_deposit" args' FUNGIBLE_TOKEN_FUNCTION_CALL_GAS amount]
        | None => deposit = []
        end
     /\ only_reading text transaction key.
Proof.
  assert (S : exists text, sign_token_transfer token_request_input key = Ok text) by (eexists; vm_compute; reflexivity).
  destruct S as [text S]. exists text. split; [exact S|].
  exact (proj2 (near_request_signed token_request_input key text token_fits) S).
Defined.

End NearConcrete.
