(* ===== verification/StellarSigner.v ===== *)
(** * The Stellar signer

    Models [gem_stellar/src/address.rs] (module [StellarAddresses]), the transactions of [src/models/signing]
    ([StellarModels]), their XDR encoding and the signed envelope of [src/signer] ([StellarSigner]).  The theorems
    show that an accepted address is a checked public key, that every encoding is a sequence of whole XDR words, and
    that the signed text holds the requested operation and can be read as no other transaction. *)
From S2P Require Import Prelude HexText Text Crates ChainRegistry Assets BitcoinPlanner TransferAmount TransferRules Signing.
Import BitcoinPlanner SignerInputs Keys.

(** ** [address.rs] *)

Module StellarAddresses.

Definition ED25519_PUBLIC_KEY_VERSION : Z := 0x30.
Definition ADDRESS_LENGTH : nat := 56.
Definition DECODED_LENGTH : nat := 35.
Definition CRC16_XMODEM_POLY : Z := 0x1021.

Definition StellarAddress : Type := Base32Address.

(** One bit and one byte of the loop *)
Definition crc_bit (crc : Z) : Z :=
  if negb (Z.land crc 0x8000 =? 0) then Z.lxor (wrap 16 (Z.shiftl crc 1)) CRC16_XMODEM_POLY else wrap 16 (Z.shiftl crc 1).
Definition crc_byte (crc byte : Z) : Z := Nat.iter 8 crc_bit (Z.lxor crc (wrap 16 (Z.shiftl byte 8))).
Definition crc16_xmodem (data : bytes) : Z := fold_left crc_byte data 0.

Section address.
Context `{Base32Text}.

Definition try_parse (address : string) : option StellarAddress :=
  if negb (String.length address =? ADDRESS_LENGTH)%nat || negb (starts_with_char "G" address) then None else
  let?? decoded := decode_base32 address in
  if negb (length decoded =? DECODED_LENGTH)%nat || negb (hd 0 decoded =? ED25519_PUBLIC_KEY_VERSION) then None else
  let crc := of_le (drop 33 decoded) in
  if negb (crc16_xmodem (take 33 decoded) =? crc) then None else
  ok (from_slice (drop 1 (take 33 decoded))).

Definition as_bytes (self : StellarAddress) : bytes := payload self.

Definition encode (self : StellarAddress) : string :=
  let raw := [ED25519_PUBLIC_KEY_VERSION] ++ payload self in
  let crc := le_bytes 2 (crc16_xmodem raw) in
  encode_base32 (raw ++ crc).

Definition validate_address (address : string) : bool := match try_parse address with Some _ => true | None => false end.

End address.

Definition from_public_key (public_key_bytes : bytes) : result SignerError StellarAddress := from_slice public_key_bytes.

End StellarAddresses.

(** ** [models/signing] *)

Module StellarModels.
Import StellarAddresses.

Inductive StellarAssetCode := Alphanum4 (code : bytes) | Alphanum12 (code : bytes).
Record StellarAssetData := MkAssetData { issuer : StellarAddress; code : StellarAssetCode }.

Inductive Memo := NoMemo | MemoText (text : string) | MemoId (id : Z).

Inductive Operation :=
| CreateAccount (destination : StellarAddress) (amount : Z)
| Payment (destination : StellarAddress) (asset : option StellarAssetData) (amount : Z)
| ChangeTrust (asset : StellarAssetData).

Definition operation_type (self : Operation) : Z :=
  match self with CreateAccount _ _ => 0 | Payment _ _ _ => 1 | ChangeTrust _ => 6 end.

Definition MEMO_TEXT_MAX_BYTES : nat := 28.

Record StellarTransaction := MkTransaction {
  account : StellarAddress;
  fee : Z;
  sequence : Z;
  memo : Memo;
  time_bounds : option Z;
  operation : Operation
}.

(** [u8::is_ascii_alphanumeric]; a text of such bytes is ASCII. *)
Definition is_ascii_alphanumeric (b : Z) : bool :=
  ((48 <=? b) && (b <=? 57)) || ((65 <=? b) && (b <=? 90)) || ((97 <=? b) && (b <=? 122)).

(** [buf[..code.len()].copy_from_slice(code)] for a [buf] of [n] zeros *)
Definition copy_into (n : nat) (code : bytes) : bytes := code ++ replicate (n - length code) 0.

Definition asset_code (code : string) : result SignerError StellarAssetCode :=
  let code := bytes_of_string code in
  if negb (forallb is_ascii_alphanumeric code)
  then Err (InvalidInput "Stellar asset code must be ASCII alphanumeric") else
  if (1 <=? length code)%nat && (length code <=? 4)%nat then Ok (Alphanum4 (copy_into 4 code))
  else if (5 <=? length code)%nat && (length code <=? 12)%nat then Ok (Alphanum12 (copy_into 12 code))
  else Err (InvalidInput "Stellar asset code must be 1-12 characters").

Definition memo_of (value : option string) : result SignerError Memo :=
  match value with
  | Some text =>
      if (MEMO_TEXT_MAX_BYTES <? String.length text)%nat
      then Err (InvalidInput "Stellar memo text must be at most 28 bytes") else Ok (MemoText text)
  | None => Ok NoMemo
  end.

Definition fee_u32 (input : ChainSignerInput) : result SignerError Z :=
  invalid_input (to_width 32 (GasPrices.fee (fee_of input))) "invalid transaction fee".

Section models.
Context `{Base32Text}.

Definition new_asset (issuer code : string) : result SignerError StellarAssetData :=
  let? code := asset_code code in
  let? issuer := invalid_input (try_parse issuer) "invalid Stellar issuer address" in
  Ok (MkAssetData issuer code).

Definition asset_from_input (input : ChainSignerInput) : result SignerError StellarAssetData :=
  let? (issuer, code) := invalid_input (AssetIds.split_sub_token_parts (Assets.id (asset_of input))) "invalid Stellar token ID" in
  new_asset issuer code.

Definition build (input : ChainSignerInput) (fee : Z) (operation : Operation) : result SignerError StellarTransaction :=
  let? account := invalid_input (try_parse (InputTypes.sender_address (load input))) "invalid Stellar address" in
  let? sequence := from_box (LoadMetadata.get_sequence (metadata input)) in
  let? memo := memo_of (InputTypes.memo (load input)) in
  Ok (MkTransaction account fee sequence memo None operation).

Definition transfer (input : ChainSignerInput) : result SignerError StellarTransaction :=
  let? amount := InputTypes.value_as_u64 (load input) in
  let? destination := invalid_input (try_parse (InputTypes.destination_address (load input))) "invalid Stellar address" in
  let? is_destination_exist := from_box (LoadMetadata.get_is_destination_address_exist (metadata input)) in
  let operation := if (is_destination_exist : bool) then Payment destination None amount else CreateAccount destination amount in
  let? fee := fee_u32 input in
  build input fee operation.

Definition token_transfer (input : ChainSignerInput) : result SignerError StellarTransaction :=
  let? is_destination_exist := from_box (LoadMetadata.get_is_destination_address_exist (metadata input)) in
  if negb is_destination_exist then Err (InvalidInput "Stellar destination account not found for token transfer") else
  let? amount := InputTypes.value_as_u64 (load input) in
  let? destination := invalid_input (try_parse (InputTypes.destination_address (load input))) "invalid Stellar address" in
  let? asset := asset_from_input input in
  let operation := Payment destination (Some asset) amount in
  let? fee := fee_u32 input in
  build input fee operation.

Definition account_action (input : ChainSignerInput) : result SignerError StellarTransaction :=
  let? asset := asset_from_input input in
  let operation := ChangeTrust asset in
  let? fee := fee_u32 input in
  build input fee operation.

End models.
End StellarModels.

(** ** [signer/serialization.rs], [signing.rs] and [chain_signer.rs] *)

Module StellarSigner.
Import StellarAddresses StellarModels.

Definition ASSET_TYPE_NATIVE : Z := 0.
Definition ASSET_TYPE_ALPHANUM4 : Z := 1.
Definition ASSET_TYPE_ALPHANUM12 : Z := 2.
Definition I64_MAX : Z := 2 ^ 63 - 1.

Definition write_u32 (data : bytes) (value : Z) : bytes := data ++ be_bytes 4 value.
Definition write_u64 (data : bytes) (value : Z) : bytes := data ++ be_bytes 8 value.

Definition pad4 (data : bytes) : bytes :=
  let padding := ((4 - length data mod 4) mod 4)%nat in
  data ++ replicate padding 0.

Definition encode_address (data : bytes) (address : StellarAddress) : bytes :=
  write_u32 data ED25519_KEY_TYPE ++ as_bytes address.

Definition encode_asset (data : bytes) (asset : option StellarAssetData) : bytes :=
  match asset with
  | Some asset =>
      let data :=
        match code asset with
        | Alphanum4 code => write_u32 data ASSET_TYPE_ALPHANUM4 ++ code
        | Alphanum12 code => write_u32 data ASSET_TYPE_ALPHANUM12 ++ code
        end in
      encode_address data (issuer asset)
  | None => write_u32 data ASSET_TYPE_NATIVE
  end.

Definition encode_memo (data : bytes) (memo : Memo) : bytes :=
  match memo with
  | NoMemo => write_u32 data 0
  | MemoText text =>
      let data := write_u32 data 1 in
      let data := write_u32 data (as_u32 (Z.of_nat (String.length text))) in
      let data := data ++ bytes_of_string text in
      pad4 data
  | MemoId id => let data := write_u32 data 2 in write_u64 data id
  end.

Definition encode_time_bounds (data : bytes) (tx : StellarTransaction) : bytes :=
  match (let?? v := time_bounds tx in if 0 <? v then Some v else None) with
  | Some to => let data := write_u32 data 1 in let data := write_u64 data 0 in write_u64 data to
  | None => write_u32 data 0
  end.

Definition encode_create_account (data : bytes) (destination : StellarAddress) (amount : Z) : bytes :=
  let data := encode_address data destination in write_u64 data amount.

Definition encode_payment (data : bytes) (destination : StellarAddress) (asset : option StellarAssetData) (amount : Z)
  : bytes :=
  let data := encode_address data destination in
  let data := encode_asset data asset in
  write_u64 data amount.

Definition encode_change_trust (data : bytes) (asset : StellarAssetData) : bytes :=
  let data := encode_asset data (Some asset) in write_u64 data I64_MAX.

Definition encode_operation (data : bytes) (operation : Operation) : bytes :=
  match operation with
  | CreateAccount destination amount => encode_create_account data destination amount
  | Payment destination asset amount => encode_payment data destination asset amount
  | ChangeTrust asset => encode_change_trust data asset
  end.

Definition encode_transaction (tx : StellarTransaction) : bytes :=
  let data := encode_address [] (account tx) in
  let data := write_u32 data (fee tx) in
  let data := write_u64 data (sequence tx) in
  let data := encode_time_bounds data tx in
  let data := encode_memo data (memo tx) in
  let data := write_u32 data 1 in
  let data := write_u32 data 0 in
  let data := write_u32 data (operation_type (operation tx)) in
  let data := encode_operation data (operation tx) in
  write_u32 data 0.

Definition NETWORK_PASSPHRASE : string := "Public Global Stellar Network ; September 2015".
Definition ENVELOPE_TYPE_TX : bytes := be_bytes 4 2.
Definition SIGNATURE_COUNT : bytes := be_bytes 4 1.

Section signer.
Context `{Ed25519} `{Sha256} `{Base64Text} `{Base32Text}.

Definition sign_transaction (transaction : StellarTransaction) (private_key : bytes) : result SignerError string :=
  let encoded := encode_transaction transaction in
  let network_id := sha256 (bytes_of_string NETWORK_PASSPHRASE) in
  let preimage := network_id ++ ENVELOPE_TYPE_TX ++ encoded in
  let digest := sha256 preimage in
  let? key_pair := from_private_key private_key in
  let signature := sign key_pair digest in
  let envelope := encoded in
  let envelope := envelope ++ SIGNATURE_COUNT in
  let envelope := envelope ++ take 4 (drop 28 (public_key_bytes key_pair)) in
  let envelope := envelope ++ be_bytes 4 (as_u32 (Z.of_nat (length signature))) in
  let envelope := envelope ++ signature in
  Ok (encode_base64 envelope).

Definition sign_transfer (input : ChainSignerInput) (private_key : bytes) : result SignerError string :=
  let? transaction := transfer input in sign_transaction transaction private_key.
Definition sign_token_transfer (input : ChainSignerInput) (private_key : bytes) : result SignerError string :=
  let? transaction := token_transfer input in sign_transaction transaction private_key.
Definition sign_account_action (input : ChainSignerInput) (private_key : bytes) : result SignerError string :=
  let? transaction := account_action input in sign_transaction transaction private_key.

End signer.
End StellarSigner.

(** ** The encoding is made of whole words and is a prefix code *)

Module StellarFacts.
Import StellarAddresses StellarModels StellarSigner.
#[export] Existing Instances PrefixCodes.le_code PrefixCodes.be_code.

(** The checksum is the catalogued CRC-16/XMODEM. *)
Example crc16_check : crc16_xmodem (bytes_of_string "123456789") = 0x31C3.
Proof. vm_compute. reflexivity. Qed.

Definition code_ok (code : StellarAssetCode) : Prop :=
  match code with Alphanum4 bs => length bs = 4%nat | Alphanum12 bs => length bs = 12%nat end.
Definition asset_ok (asset : StellarAssetData) : Prop := length (issuer asset) = 32%nat /\ code_ok (code asset).
Definition option_asset_ok (asset : option StellarAssetData) : Prop :=
  match asset with Some asset => asset_ok asset | None => True end.
Definition operation_ok (operation : Operation) : Prop :=
  match operation with
  | CreateAccount destination amount => length destination = 32%nat /\ is_u64 amount
  | Payment destination asset amount => length destination = 32%nat /\ option_asset_ok asset /\ is_u64 amount
  | ChangeTrust asset => asset_ok asset
  end.
Definition memo_ok (memo : Memo) : Prop :=
  match memo with NoMemo => True | MemoText text => (String.length text <= 28)%nat | MemoId id => is_u64 id end.
(** A bound of 0 is written as no bound. *)
Definition bounds_ok (bounds : option Z) : Prop := match bounds with Some to => 0 < to < 2 ^ 64 | None => True end.

Record transaction_ok (tx : StellarTransaction) : Prop := {
  ok_account : length (account tx) = 32%nat;
  ok_fee : is_u32 (fee tx);
  ok_sequence : is_u64 (sequence tx);
  ok_bounds : bounds_ok (time_bounds tx);
  ok_memo : memo_ok (memo tx);
  ok_operation : operation_ok (operation tx)
}.

(** *** The pieces without the buffer *)

Definition padding (n : nat) : bytes := replicate ((4 - n mod 4) mod 4) 0.

Definition memo_bytes (memo : Memo) : bytes :=
  match memo with
  | NoMemo => be_bytes 4 0
  | MemoText text => be_bytes 4 1 ++ be_bytes 4 (as_u32 (Z.of_nat (String.length text))) ++ bytes_of_string text
      ++ padding (String.length text)
  | MemoId id => be_bytes 4 2 ++ be_bytes 8 id
  end.

Definition time_bytes (bounds : option Z) : bytes :=
  match bounds with
  | Some to => if 0 <? to then be_bytes 4 1 ++ be_bytes 8 0 ++ be_bytes 8 to else be_bytes 4 0
  | None => be_bytes 4 0
  end.

Definition whole (bs : bytes) : Prop := (length bs mod 4 = 0)%nat.

Lemma whole_app a b : whole a -> whole b -> whole (a ++ b).
Proof. unfold whole. rewrite length_app. intros A B. rewrite Nat.Div0.add_mod, A, B. done. Qed.

Lemma whole_be n z : (n mod 4 = 0)%nat -> whole (be_bytes n z).
Proof. unfold whole. by rewrite be_bytes_length. Qed.

Lemma whole_fixed n (bs : bytes) : length bs = n -> (n mod 4 = 0)%nat -> whole bs.
Proof. by intros <-. Qed.

(** Splits a goal about a concatenation into its parts and closes those of integers. *)
Ltac wholes :=
  repeat match goal with
  | |- whole (be_bytes _ _) => by apply whole_be
  | |- whole (_ ++ _) => apply whole_app
  end.

Lemma padding_shift a b : (a mod 4 = 0)%nat -> padding (a + b) = padding b.
Proof. intros A. unfold padding. by rewrite Nat.Div0.add_mod, A, Nat.add_0_l, Nat.Div0.mod_mod. Qed.

Lemma whole_padded bs : whole (bs ++ padding (length bs)).
Proof.
  unfold whole, padding. rewrite length_app, length_replicate.
  pose proof (Nat.mod_upper_bound (length bs) 4 ltac:(done)). rewrite Nat.Div0.add_mod, Nat.Div0.mod_mod.
  destruct (length bs mod 4)%nat as [|[|[|[|]]]]; try done; lia.
Qed.

Lemma encode_address_app data address : encode_address data address = data ++ encode_address [] address.
Proof. unfold encode_address, write_u32. by rewrite <- ?app_assoc. Qed.

Lemma encode_asset_app data asset : encode_asset data asset = data ++ encode_asset [] asset.
Proof.
  destruct asset as [[a [c|c]]|]; cbn [encode_asset code issuer]; unfold encode_address, write_u32;
    rewrite ?app_nil_l, <- ?app_assoc; reflexivity.
Qed.

Lemma encode_operation_app data operation : encode_operation data operation = data ++ encode_operation [] operation.
Proof.
  destruct operation as [d a|d s a|s]; cbn [encode_operation];
    unfold encode_create_account, encode_payment, encode_change_trust, write_u64;
    rewrite ?(encode_asset_app (encode_address _ _)), ?(encode_asset_app data), ?(encode_address_app data), <- ?app_assoc; reflexivity.
Qed.

Lemma encode_memo_app data memo : whole data -> encode_memo data memo = data ++ memo_bytes memo.
Proof.
  intros W. destruct memo as [|text|id]; cbn [encode_memo memo_bytes]; unfold write_u32, write_u64, pad4;
    rewrite <- ?app_assoc; try reflexivity.
  rewrite !length_app, !be_bytes_length, HexFacts.bytes_of_string_length, !Nat.add_assoc.
  fold (padding (length data + 4 + 4 + String.length text)). rewrite padding_shift; [done|].
  rewrite <- Nat.add_assoc, Nat.Div0.add_mod. unfold whole in W. by rewrite W.
Qed.

Lemma encode_time_app data tx : encode_time_bounds data tx = data ++ time_bytes (time_bounds tx).
Proof.
  unfold encode_time_bounds, time_bytes. destruct (time_bounds tx) as [t|]; [|done].
  destruct (0 <? t); unfold write_u32, write_u64; by rewrite <- ?app_assoc.
Qed.

Lemma whole_address address : length address = 32%nat -> whole (encode_address [] address).
Proof. intros L. apply whole_app; [by apply whole_be|]. by apply (whole_fixed 32). Qed.

Lemma whole_asset asset : option_asset_ok asset -> whole (encode_asset [] asset).
Proof.
  destruct asset as [[a [c|c]]|]; [intros [L C]..|intros _; by apply whole_be]; cbn [encode_asset code issuer];
    rewrite encode_address_app; (apply whole_app; [|by apply whole_address]); (apply whole_app; [by apply whole_be|]).
  - by apply (whole_fixed 4).
  - by apply (whole_fixed 12).
Qed.

Lemma whole_time bounds : whole (time_bytes bounds).
Proof. unfold time_bytes. destruct bounds as [t|]; [destruct (0 <? t)|]; wholes. Qed.

Lemma whole_memo memo : whole (memo_bytes memo).
Proof.
  destruct memo; cbn [memo_bytes]; [wholes| |wholes]. do 2 (apply whole_app; [wholes|]).
  rewrite <- HexFacts.bytes_of_string_length. apply whole_padded.
Qed.

Lemma whole_operation operation : operation_ok operation -> whole (encode_operation [] operation).
Proof.
  destruct operation as [d a|d s a|s]; cbn [encode_operation operation_ok]; intros O;
    unfold encode_create_account, encode_payment, encode_change_trust, write_u64; [destruct O as [L _]|destruct O as (L & S & _)|];
    (apply whole_app; [|by apply whole_be]).
  - by apply whole_address.
  - rewrite encode_asset_app. apply whole_app; [by apply whole_address|by apply whole_asset].
  - by apply whole_asset.
Qed.

(** The whole transaction, piece by piece *)
Lemma encode_flat tx : transaction_ok tx -> encode_transaction tx =
  encode_address [] (account tx) ++ be_bytes 4 (fee tx) ++ be_bytes 8 (sequence tx) ++ time_bytes (time_bounds tx)
  ++ memo_bytes (memo tx) ++ be_bytes 4 1 ++ be_bytes 4 0 ++ be_bytes 4 (operation_type (operation tx))
  ++ encode_operation [] (operation tx) ++ be_bytes 4 0.
Proof.
  intros [A _ _ _ _ _]. unfold encode_transaction, write_u32, write_u64. rewrite encode_operation_app, encode_memo_app.
  - rewrite encode_time_app, <- ?app_assoc. reflexivity.
  - rewrite encode_time_app. apply whole_app; [|apply whole_time]. wholes. by apply whole_address.
Qed.

Lemma encode_whole tx : transaction_ok tx -> whole (encode_transaction tx).
Proof.
  intros T. rewrite encode_flat by done. destruct T as [A _ _ _ _ O].
  wholes; [by apply whole_address|apply whole_time|apply whole_memo|by apply whole_operation].
Qed.

(** *** Prefix codes *)

#[export] Instance address_code : PrefixCode (encode_address []) (fun a => length a = 32%nat).
Proof.
  intros x y r s Vx Vy E. unfold encode_address, write_u32, as_bytes, payload in E. rewrite app_nil_l in E.
  rewrite <- ?app_assoc in E. apply app_inv_head in E. apply app_inj_1 in E; [done|congruence].
Qed.

(** Pieces that begin with different words differ. *)
Lemma be4_neq a b r s : is_u32 a -> is_u32 b -> a <> b -> be_bytes 4 a ++ r <> be_bytes 4 b ++ s.
Proof. intros A B N E. by apply (PrefixCodes.be_code 4) in E as [? _]. Qed.

Lemma asset_flat asset : encode_asset [] (Some asset) =
  match code asset with
  | Alphanum4 bs => be_bytes 4 1 ++ bs
  | Alphanum12 bs => be_bytes 4 2 ++ bs
  end ++ encode_address [] (issuer asset).
Proof. cbn [encode_asset]. rewrite encode_address_app. by destruct (code asset). Qed.

#[export] Instance asset_code_prefix : PrefixCode (encode_asset []) option_asset_ok.
Proof.
  assert (W : is_u32 0 /\ is_u32 1 /\ is_u32 2) by (split_and!; by vm_compute). destruct W as (W0 & W1 & W2).
  intros [[a1 c1]|] [[a2 c2]|] r s V1 V2 E; rewrite ?asset_flat in E; cbn [code issuer] in E; rewrite <- ?app_assoc in E.
  - destruct V1 as [L1 C1], V2 as [L2 C2]. cbn in L1, L2, C1, C2.
    destruct c1 as [b1|b1], c2 as [b2|b2]; rewrite <- ?app_assoc in E;
      try (exfalso; by apply be4_neq in E); apply app_inv_head in E;
      (apply app_inj_1 in E as [-> E]; [|congruence]); by apply address_code in E as [-> ->].
  - destruct c1; rewrite <- ?app_assoc in E; exfalso; by apply (be4_neq _ 0) in E.
  - destruct c2; rewrite <- ?app_assoc in E; exfalso; by apply (be4_neq 0) in E.
  - by apply app_inv_head in E.
Qed.

#[export] Instance time_code : PrefixCode time_bytes bounds_ok.
Proof.
  intros [t1|] [t2|] r s V1 V2 E; cbn [bounds_ok] in V1, V2; unfold time_bytes in E;
    rewrite ?(proj2 (Z.ltb_lt 0 _)) in E by lia; rewrite <- ?app_assoc in E.
  - do 2 apply app_inv_head in E. apply (PrefixCodes.be_code 8) in E as [-> ->]; [done|unfold in_width; lia..].
  - exfalso. by apply be4_neq in E.
  - exfalso. by apply be4_neq in E.
  - by apply app_inv_head in E.
Qed.

Lemma text_bytes_inj t1 t2 r s : (String.length t1 <= 28)%nat -> (String.length t2 <= 28)%nat ->
  be_bytes 4 (as_u32 (Z.of_nat (String.length t1))) ++ bytes_of_string t1 ++ padding (String.length t1) ++ r
  = be_bytes 4 (as_u32 (Z.of_nat (String.length t2))) ++ bytes_of_string t2 ++ padding (String.length t2) ++ s ->
  t1 = t2 /\ r = s.
Proof.
  intros L1 L2 E. unfold as_u32 in E. rewrite !wrap_small in E by (unfold in_width; lia).
  apply (PrefixCodes.be_code 4) in E as [L E]; [|unfold in_width; lia..]. apply Nat2Z.inj in L.
  apply app_inj_1 in E as [T E]; [|by rewrite !HexFacts.bytes_of_string_length].
  apply PrefixCodes.bytes_of_string_inj in T as ->. by apply app_inv_head in E.
Qed.

#[export] Instance memo_code : PrefixCode memo_bytes memo_ok.
Proof.
  intros [|t1|i1] [|t2|i2] r s V1 V2 E; cbn [memo_bytes memo_ok] in *; rewrite <- ?app_assoc in E;
    try (exfalso; by apply be4_neq in E); apply app_inv_head in E.
  - done.
  - by apply text_bytes_inj in E as [-> ->].
  - by apply (PrefixCodes.be_code 8) in E as [-> ->].
Qed.

Lemma operation_code o1 o2 r s : operation_ok o1 -> operation_ok o2 -> operation_type o1 = operation_type o2 ->
  encode_operation [] o1 ++ r = encode_operation [] o2 ++ s -> o1 = o2 /\ r = s.
Proof.
  destruct o1 as [d1 a1|d1 s1 a1|s1], o2 as [d2 a2|d2 s2 a2|s2]; try done; cbn [operation_ok encode_operation];
    unfold encode_create_account, encode_payment, encode_change_trust, write_u64; intros V1 V2 _ E.
  - destruct V1, V2. rewrite <- ?app_assoc in E. do 2 peel E by assumption. by subst.
  - destruct V1 as (? & ? & ?), V2 as (? & ? & ?). rewrite !(encode_asset_app (encode_address _ _)) in E.
    do 3 peel E by assumption. by subst.
  - rewrite <- ?app_assoc in E. apply asset_code_prefix in E as [S E]; [|done..]. apply app_inv_head in E.
    split; [congruence|done].
Qed.

(** The bytes of a transaction determine it, whatever follows them. *)
Lemma stellar_encode_inj t1 t2 r s : transaction_ok t1 -> transaction_ok t2 ->
  encode_transaction t1 ++ r = encode_transaction t2 ++ s -> t1 = t2.
Proof.
  intros T1 T2 E. rewrite !encode_flat in E by done. destruct T1, T2. rewrite <- ?app_assoc in E.
  do 5 peel E by assumption. rewrite <- ?app_assoc in E. do 2 apply app_inv_head in E.
  apply (PrefixCodes.be_code 4) in E as [O E]; [|by destruct (operation t1)|by destruct (operation t2)].
  apply operation_code in E as [? _]; [|done..]. destruct t1, t2. cbn in *. congruence.
Qed.

End StellarFacts.

(** ** What a signed request is *)

Module StellarRequests.
Import StellarAddresses StellarModels StellarSigner StellarFacts.

(** *** Codes of assets *)

Lemma copy_into_length n code : (length code <= n)%nat -> length (copy_into n code) = n.
Proof. intros L. unfold copy_into. rewrite length_app, length_replicate. lia. Qed.

Lemma alphanumeric_byte b : is_ascii_alphanumeric b = true -> is_byte b /\ b <> 0.
Proof. unfold is_ascii_alphanumeric, in_width. intros A. zbool; lia. Qed.

Lemma copy_into_inj n c1 c2 : forallb is_ascii_alphanumeric c1 = true -> forallb is_ascii_alphanumeric c2 = true ->
  copy_into n c1 = copy_into n c2 -> c1 = c2.
Proof.
  unfold copy_into. generalize (n - length c1)%nat, (n - length c2)%nat. revert c2.
  induction c1 as [|b1 c1 IH]; intros [|b2 c2] k1 k2 A1 A2 E; [done| | |]; cbn [forallb] in *;
    rewrite ?andb_true_iff in *; cbn [app] in E.
  - destruct A2 as [A2 _]. apply alphanumeric_byte in A2 as [_ N]. destruct k1; [done|]. by inversion E.
  - destruct A1 as [A1 _]. apply alphanumeric_byte in A1 as [_ N]. destruct k2; [done|]. by inversion E.
  - apply PrefixCodes.cons_eq in E as [-> E]. destruct A1, A2. f_equal. by eapply IH.
Qed.

Lemma copy_into_bytes n c : forallb is_ascii_alphanumeric c = true -> all_bytes (copy_into n c).
Proof.
  intros A. apply Forall_app_2; [|apply Forall_replicate; by vm_compute]. apply Forall_forall. intros b B.
  apply alphanumeric_byte. rewrite forallb_forall in A. by apply A, list_elem_of_In.
Qed.

Definition code_bytes (code : StellarAssetCode) : bytes := match code with Alphanum4 bs | Alphanum12 bs => bs end.

Lemma asset_code_Ok text code : asset_code text = Ok code ->
  forallb is_ascii_alphanumeric (bytes_of_string text) = true /\ code_ok code
  /\ code_bytes code = copy_into (length (code_bytes code)) (bytes_of_string text).
Proof.
  unfold asset_code. intros E. destruct (forallb _ _) eqn:A; [|done]. cbn [negb] in E. split; [done|].
  set (c := bytes_of_string text) in *. destruct (1 <=? length c)%nat eqn:L1, (length c <=? 4)%nat eqn:L4,
    (5 <=? length c)%nat eqn:L5, (length c <=? 12)%nat eqn:L12; cbn [andb] in E; try done;
    apply Nat.leb_le in L4 || apply Nat.leb_le in L12; inversion E; cbn [code_ok code_bytes];
    by rewrite !copy_into_length by lia.
Qed.

(** An asset code that is signed names one text. *)
Lemma asset_code_determined text1 text2 code : asset_code text1 = Ok code -> asset_code text2 = Ok code -> text1 = text2.
Proof.
  intros (A1 & _ & E1)%asset_code_Ok (A2 & _ & E2)%asset_code_Ok. apply PrefixCodes.bytes_of_string_inj.
  rewrite E1 in E2 at 1. by eapply copy_into_inj.
Qed.

Section requests.
Context `{Ed25519Laws} `{Sha256} `{Base64TextLaws} `{Base32TextLaws}.

(** An accepted address is the 32 bytes of a public key followed by their checksum. *)
Lemma stellar_try_parse_Some text address : try_parse text = Some address ->
  length address = 32%nat /\ all_bytes address
  /\ decode_base32 text = Some (ED25519_PUBLIC_KEY_VERSION :: address
       ++ le_bytes 2 (crc16_xmodem (ED25519_PUBLIC_KEY_VERSION :: address))).
Proof.
  unfold try_parse. destruct (_ || _); [done|]. destruct (decode_base32 text) as [decoded|] eqn:D; [|done].
  pose proof (base32_bytes _ _ D) as B. destruct (length decoded =? DECODED_LENGTH)%nat eqn:L; [|done].
  apply Nat.eqb_eq in L. destruct decoded as [|v rest]; [done|]. cbn [negb orb hd].
  destruct (Z.eqb_spec v ED25519_PUBLIC_KEY_VERSION) as [->|]; [|done]. cbn [negb].
  destruct (Z.eqb_spec (crc16_xmodem (take 33 (ED25519_PUBLIC_KEY_VERSION :: rest))) (of_le (drop 33 (ED25519_PUBLIC_KEY_VERSION :: rest)))) as [C|]; [|done].
  cbn [negb]. unfold from_slice. replace (drop 1 (take 33 (ED25519_PUBLIC_KEY_VERSION :: rest))) with (take 32 rest) by done.
  unfold DECODED_LENGTH in L. cbn [length] in L. destruct (length (take 32 rest) =? 32)%nat eqn:K; [|done].
  apply Nat.eqb_eq in K. intros E. assert (address = take 32 rest) as -> by (cbn [ok] in E; congruence).
  inversion_clear B as [|? ? _ B']. split_and!; [done|by apply Forall_take|]. f_equal. f_equal.
  change (take 33 (ED25519_PUBLIC_KEY_VERSION :: rest)) with (ED25519_PUBLIC_KEY_VERSION :: take 32 rest) in C.
  rewrite C. change (drop 33 (ED25519_PUBLIC_KEY_VERSION :: rest)) with (drop 32 rest).
  assert (length (drop 32 rest) = 2%nat) as M by (rewrite length_drop; lia).
  pose proof (le_bytes_of_le (drop 32 rest) ltac:(by apply Forall_drop)) as Q. rewrite M in Q.
  by rewrite Q, take_drop.
Qed.

(** *** The requests *)

Record built (input : ChainSignerInput) (tx : StellarTransaction) : Prop := {
  built_account : try_parse (InputTypes.sender_address (load input)) = Some (account tx);
  built_fee : fee tx = GasPrices.fee (fee_of input) /\ is_u32 (fee tx);
  built_sequence : LoadMetadata.get_sequence (metadata input) = Ok (sequence tx);
  built_bounds : time_bounds tx = None;
  built_memo : memo tx = match InputTypes.memo (load input) with Some text => MemoText text | None => NoMemo end;
  built_memo_ok : memo_ok (memo tx)
}.

(** The asset of the request, and no other issuer or code *)
Definition asset_of_request (input : ChainSignerInput) (asset : StellarAssetData) : Prop :=
  exists issuer_text code_text,
    AssetIds.split_sub_token_parts (Assets.id (asset_of input)) = Some (issuer_text, code_text)
    /\ try_parse issuer_text = Some (issuer asset) /\ asset_code code_text = Ok (code asset)
    /\ forall text, asset_code text = Ok (code asset) -> text = code_text.

Definition envelope (tx : StellarTransaction) (key : bytes) : bytes :=
  let encoded := encode_transaction tx in
  encoded ++ SIGNATURE_COUNT ++ take 4 (drop 28 (ed25519_verifying_key key)) ++ be_bytes 4 64
  ++ ed25519_sign key (sha256 (sha256 (bytes_of_string NETWORK_PASSPHRASE) ++ ENVELOPE_TYPE_TX ++ encoded)).

(** The text is the signed envelope of the transaction, in whole words, and of no other. *)
Definition only_reading (text : string) (tx : StellarTransaction) (key : bytes) : Prop :=
  decode_base64 text = Some (envelope tx key) /\ whole (envelope tx key)
  /\ forall tx' rest, transaction_ok tx' -> decode_base64 text = Some (encode_transaction tx' ++ rest) -> tx' = tx.

Lemma build_Ok input fee operation tx : fee_u32 input = Ok fee -> build input fee operation = Ok tx ->
  built input tx /\ StellarModels.operation tx = operation.
Proof.
  unfold fee_u32, build, invalid_input, from_box, map_err. intros F E.
  destruct (to_width 32 _) as [f|] eqn:W; [|done]. apply to_width_Some in W as [-> W].
  assert (fee = GasPrices.fee (fee_of input)) as -> by (cbn in F; congruence).
  destruct (try_parse _) as [a|] eqn:A; [|done]. destruct (LoadMetadata.get_sequence _) as [n|] eqn:N; [|done].
  cbn [ok_or] in E. unfold memo_of in E. destruct (InputTypes.memo (load input)) as [text|] eqn:M.
  - destruct (MEMO_TEXT_MAX_BYTES <? String.length text)%nat eqn:L; [done|]. apply Nat.ltb_ge in L.
    assert (tx = MkTransaction a (GasPrices.fee (fee_of input)) n (MemoText text) None operation) as -> by congruence.
    split; [|done]. split; try done. by rewrite M.
  - assert (tx = MkTransaction a (GasPrices.fee (fee_of input)) n NoMemo None operation) as -> by congruence.
    split; [|done]. split; try done. by rewrite M.
Qed.

Lemma asset_Ok input asset : asset_from_input input = Ok asset -> asset_of_request input asset /\ asset_ok asset
  /\ all_bytes (code_bytes (code asset)) /\ all_bytes (issuer asset).
Proof.
  unfold asset_from_input, new_asset, invalid_input. intros E.
  destruct (AssetIds.split_sub_token_parts _) as [[i c]|] eqn:S; [|done]. cbn [ok_or] in E.
  destruct (asset_code c) as [code|] eqn:C; [|done]. destruct (try_parse i) as [a|] eqn:A; [|done]. cbn [ok_or] in E.
  assert (asset = MkAssetData a code) as -> by congruence. pose proof (stellar_try_parse_Some _ _ A) as (L & B & _).
  pose proof (asset_code_Ok _ _ C) as (F & K & Q).
  split_and!; [|by split|change (all_bytes (code_bytes code)); rewrite Q; by apply copy_into_bytes|done]. exists i, c. split_and!; try done.
  intros text T. by eapply asset_code_determined.
Qed.

Definition operation_bytes (operation : Operation) : Prop :=
  let asset_bytes asset := all_bytes (issuer asset) /\ all_bytes (code_bytes (code asset)) in
  match operation with
  | CreateAccount destination _ => all_bytes destination
  | Payment destination asset _ =>
      all_bytes destination /\ match asset with Some asset => asset_bytes asset | None => True end
  | ChangeTrust asset => asset_bytes asset
  end.

Lemma address_bytes address : all_bytes address -> all_bytes (encode_address [] address).
Proof. intros. apply Forall_app_2; [apply be_bytes_bytes|done]. Qed.

Lemma asset_bytes asset : all_bytes (issuer asset) -> all_bytes (code_bytes (code asset)) ->
  all_bytes (encode_asset [] (Some asset)).
Proof.
  intros I C. rewrite asset_flat. apply Forall_app_2; [|by apply address_bytes].
  destruct (code asset); (apply Forall_app_2; [apply be_bytes_bytes|done]).
Qed.

Lemma operation_all_bytes operation : operation_bytes operation -> all_bytes (encode_operation [] operation).
Proof.
  destruct operation as [d a|d [s|] a|s]; cbn [operation_bytes encode_operation]; intros B;
    unfold encode_create_account, encode_payment, encode_change_trust, write_u64; apply Forall_app_2;
    try apply be_bytes_bytes.
  - by apply address_bytes.
  - destruct B as (D & I & C). rewrite encode_asset_app. apply Forall_app_2; [by apply address_bytes|by apply asset_bytes].
  - destruct B as [D _]. apply Forall_app_2; [by apply address_bytes|apply be_bytes_bytes].
  - destruct B. by apply asset_bytes.
Qed.

Lemma transaction_all_bytes tx : transaction_ok tx -> all_bytes (account tx) -> operation_bytes (operation tx) ->
  all_bytes (encode_transaction tx).
Proof.
  intros T A O. rewrite encode_flat by done. bytes_parts.
  - by apply address_bytes.
  - unfold time_bytes. destruct (time_bounds tx) as [t|]; [destruct (0 <? t)|]; bytes_parts.
  - destruct (memo tx); cbn [memo_bytes]; unfold padding; bytes_parts.
  - by apply operation_all_bytes.
Qed.

Lemma stellar_sign_reading tx key text : transaction_ok tx -> all_bytes (account tx) -> operation_bytes (operation tx) ->
  sign_transaction tx key = Ok text -> only_reading text tx key.
Proof.
  intros T A O E. unfold sign_transaction, from_private_key in E. destruct (length key =? 32)%nat; [|done].
  unfold sign in E. cbn [signing_key public_key_bytes] in E. rewrite ed25519_signature_length in E.
  assert (D : decode_base64 text = Some (envelope tx key)).
  { assert (text = encode_base64 (envelope tx key)) as ->.
    { unfold envelope. rewrite !app_assoc. rewrite !app_assoc in E. change (as_u32 (Z.of_nat 64)) with 64 in E. congruence. }
    apply base64_text_roundtrip. unfold envelope, SIGNATURE_COUNT. bytes_parts.
    - by apply transaction_all_bytes.
    - apply Forall_take, Forall_drop, ed25519_key_bytes.
    - apply ed25519_signature_bytes. }
  split_and!; [done| |].
  - unfold envelope. apply whole_app; [by apply encode_whole|]. apply whole_app; [by apply whole_be|].
    apply whole_app; [|apply whole_app; [by apply whole_be|]].
    + apply (whole_fixed 4); [|done]. by rewrite length_take, length_drop, ed25519_key_length.
    + apply (whole_fixed 64); [|done]. apply ed25519_signature_length.
  - intros tx' rest T' D'. rewrite D in D'. eapply stellar_encode_inj; [done..|]. unfold envelope in D'.
    symmetry. assert (Q := D'). inversion Q as [Q']. exact Q'.
Qed.

(** *** The transactions that are built *)

Lemma transfer_Ok input tx : transfer input = Ok tx -> exists destination exists_,
  built input tx /\ try_parse (InputTypes.destination_address (load input)) = Some destination
  /\ LoadMetadata.get_is_destination_address_exist (metadata input) = Ok exists_
  /\ is_u64 (InputTypes.input_value (load input))
  /\ operation tx = (if (exists_ : bool) then Payment destination None (InputTypes.input_value (load input))
                     else CreateAccount destination (InputTypes.input_value (load input)))
  /\ operation_ok (operation tx) /\ operation_bytes (operation tx).
Proof.
  unfold transfer, from_box, map_err, invalid_input. intros E.
  destruct (InputTypes.value_as_u64 _) as [amount|] eqn:V; [|done]. apply value_Ok in V as [-> V].
  destruct (try_parse _) as [d|] eqn:D; [|done]. cbn [ok_or] in E. pose proof (stellar_try_parse_Some _ _ D) as (L & DB & _).
  destruct (LoadMetadata.get_is_destination_address_exist _) as [x|] eqn:X; [|done].
  destruct (fee_u32 input) as [fee|] eqn:F; [|done]. apply build_Ok in E as [B O]; [|done].
  exists d, x. split_and!; try done; rewrite O; by destruct x.
Qed.

Lemma token_transfer_Ok input tx : token_transfer input = Ok tx -> exists destination asset,
  built input tx /\ try_parse (InputTypes.destination_address (load input)) = Some destination
  /\ LoadMetadata.get_is_destination_address_exist (metadata input) = Ok true
  /\ asset_of_request input asset
  /\ operation tx = Payment destination (Some asset) (InputTypes.input_value (load input))
  /\ operation_ok (operation tx) /\ operation_bytes (operation tx).
Proof.
  unfold token_transfer, from_box, map_err, invalid_input. intros E.
  destruct (LoadMetadata.get_is_destination_address_exist _) as [[]|] eqn:X; [|done..]. cbn [negb] in E.
  destruct (InputTypes.value_as_u64 _) as [amount|] eqn:V; [|done]. apply value_Ok in V as [-> V].
  destruct (try_parse _) as [d|] eqn:D; [|done]. cbn [ok_or] in E. pose proof (stellar_try_parse_Some _ _ D) as (L & DB & _).
  destruct (asset_from_input input) as [asset|] eqn:S; [|done]. apply asset_Ok in S as (S & SO & C & I).
  destruct (fee_u32 input) as [fee|] eqn:F; [|done]. apply build_Ok in E as [B O]; [|done].
  exists d, asset. by split_and!; try done; rewrite O.
Qed.

Lemma account_action_Ok input tx : account_action input = Ok tx -> exists asset,
  built input tx /\ asset_of_request input asset /\ operation tx = ChangeTrust asset
  /\ operation_ok (operation tx) /\ operation_bytes (operation tx).
Proof.
  unfold account_action. intros E.
  destruct (asset_from_input input) as [asset|] eqn:S; [|done]. apply asset_Ok in S as (S & SO & C & I).
  destruct (fee_u32 input) as [fee|] eqn:F; [|done]. apply build_Ok in E as [B O]; [|done].
  exists asset. by split_and!; try done; rewrite O.
Qed.

Lemma sign_built input tx key text : (forall n, LoadMetadata.get_sequence (metadata input) = Ok n -> is_u64 n) ->
  built input tx -> operation_ok (operation tx) -> operation_bytes (operation tx) ->
  sign_transaction tx key = Ok text -> only_reading text tx key.
Proof.
  intros N [A F S T _ M] O OB E. apply stellar_try_parse_Some in A as (L & AB & _).
  apply stellar_sign_reading; [split; try done|done..]; [apply F|by apply N|by rewrite T].
Qed.

End requests.
End StellarRequests.

Module StellarProperties.
Import StellarAddresses StellarModels StellarSigner StellarFacts StellarRequests.

Section properties.
Context `{Ed25519Laws} `{Sha256} `{Base64TextLaws} `{Base32TextLaws}.

(** (C12) What the Stellar signer signs is what was requested.  A transfer pays the requested amount to the destination,
    or creates its account with it when the account does not exist; a token transfer pays in the asset of the request,
    whose issuer and code it names uniquely, and only to an existing account; an account action trusts that asset.
    Sender, fee, sequence and memo are those of the request, and the signed envelope, a sequence of whole XDR words, can
    be read as no other transaction. *)
Theorem stellar_request_signed : forall input key text,
  (forall n, LoadMetadata.get_sequence (metadata input) = Ok n -> is_u64 n) ->
  (sign_transfer input key = Ok text -> exists tx destination exists_,
     built input tx /\ try_parse (InputTypes.destination_address (load input)) = Some destination
     /\ LoadMetadata.get_is_destination_address_exist (metadata input) = Ok exists_
     /\ is_u64 (InputTypes.input_value (load input))
     /\ operation tx = (if (exists_ : bool) then Payment destination None (InputTypes.input_value (load input))
                        else CreateAccount destination (InputTypes.input_value (load input)))
     /\ only_reading text tx key)
  /\ (sign_token_transfer input key = Ok text -> exists tx destination asset,
     built input tx /\ try_parse (InputTypes.destination_address (load input)) = Some destination
     /\ LoadMetadata.get_is_destination_address_exist (metadata input) = Ok true
     /\ asset_of_request input asset
     /\ operation tx = Payment destination (Some asset) (InputTypes.input_value (load input))
     /\ only_reading text tx key)
  /\ (sign_account_action input key = Ok text -> exists tx asset,
     built input tx /\ asset_of_request input asset /\ operation tx = ChangeTrust asset /\ only_reading text tx key).
Proof.
  intros input key text N. split_and!.
  - unfold sign_transfer. intros E. destruct (transfer input) as [tx|] eqn:T; [|done].
    apply transfer_Ok in T as (destination & exists_ & B & D & X & V & O & K & A).
    exists tx, destination, exists_. split_and!; [done..|]. by apply (sign_built input).
  - unfold sign_token_transfer. intros E. destruct (token_transfer input) as [tx|] eqn:T; [|done].
    apply token_transfer_Ok in T as (destination & asset & B & D & X & S & O & K & A).
    exists tx, destination, asset. split_and!; [done..|]. by apply (sign_built input).
  - unfold sign_account_action. intros E. destruct (account_action input) as [tx|] eqn:T; [|done].
    apply account_action_Ok in T as (asset & B & S & O & K & A).
    exists tx, asset. split_and!; [done..|]. by apply (sign_built input).
Qed.

End properties.
End StellarProperties.

(** ** A concrete request *)

Module StellarConcrete.
Import StellarAddresses StellarModels StellarSigner StellarFacts StellarRequests StellarProperties Concrete SigningConcrete.

Definition address_text (seed : Z) : string := encode (replicate 32 seed).

(** A payment of 5 XLM to an existing account, with a memo *)
Definition payment_input : ChainSignerInput :=
  request (coin Chains.Stellar (Some (address_text 3 +:+ "::USDC")%string) "USDC" 7) (address_text 1) (address_text 2)
    50000000 (Some "gift"%string) 100 [] (LoadMetadata.Stellar 7 true).

Lemma payment_sequence : forall n, LoadMetadata.get_sequence (metadata payment_input) = Ok n -> is_u64 n.
Proof. intros n E. inversion E. by vm_compute. Qed.

Lemma stellar_request_signed_witness : exists text,
  sign_token_transfer payment_input key = Ok text /\ exists tx destination asset,
     built payment_input tx /\ try_parse (InputTypes.destination_address (load payment_input)) = Some destination
     /\ LoadMetadata.get_is_destination_address_exist (metadata payment_input) = Ok true
     /\ asset_of_request payment_input asset
     /\ operation tx = Payment destination (Some asset) (InputTypes.input_value (load payment_input))
     /\ only_reading text tx key.
Proof.
  assert (S : exists text, sign_token_transfer payment_input key = Ok text) by (eexists; vm_compute; reflexivity).
  destruct S as [text S]. exists text. split; [exact S|].
  exact (proj1 (proj2 (stellar_request_signed payment_input key text payment_sequence)) S).
Defined.

(** An empty memo is signed as an empty text, where the other signers sign none. *)
Example empty_memo_is_text : memo_of (Some ""%string) = Ok (MemoText "").
Proof. reflexivity. Qed.

End StellarConcrete.
