(* ===== verification/AlgorandSigner.v ===== *)
(** * The Algorand signer

    Models [gem_algorand/src/address.rs] (module [AlgorandAddresses]), the transactions of [src/models/signing]
    ([AlgorandModels]) and their MessagePack encoding and signature ([src/signer]; [AlgorandSigner]).  The encoder is
    related to an independent reader of MessagePack maps ([MessagePack]): what it writes is read back as the fields of
    the transaction, in the order of their keys, and the signed text as no other transaction. *)
From Stdlib Require Import Sorting.Sorted.
From S2P Require Import Prelude HexText Text Crates ChainRegistry Assets BitcoinPlanner TransferAmount TransferRules Signing.
Import BitcoinPlanner SignerInputs Keys.

(** [gem_hash::sha2::sha512_256] *)
Class Sha512_256 : Type := sha512_256 : bytes -> bytes.
Class Sha512_256Laws `{Sha512_256} : Prop := { sha512_256_length : forall bs, length (sha512_256 bs) = 32%nat }.

(** ** [address.rs] *)

Module AlgorandAddresses.

Definition ADDRESS_DATA_LENGTH : nat := 32.
Definition ADDRESS_CHECKSUM_LENGTH : nat := 4.

Definition AlgorandAddress : Type := Base32Address.

Section address.
Context `{Base32Text} `{Sha512_256}.

Definition checksum (bs : bytes) : bytes :=
  let digest := sha512_256 bs in drop (length digest - ADDRESS_CHECKSUM_LENGTH) digest.

Definition try_parse (address : string) : option AlgorandAddress :=
  let?? decoded := decode_base32 address in
  if negb (length decoded =? ADDRESS_DATA_LENGTH + ADDRESS_CHECKSUM_LENGTH)%nat then None else
  let?? base32 := ok (from_slice (take ADDRESS_DATA_LENGTH decoded)) in
  if bool_decide (drop ADDRESS_DATA_LENGTH decoded = checksum (payload base32)) then Some base32 else None.

Definition as_bytes (self : AlgorandAddress) : bytes := payload self.

Definition encode (self : AlgorandAddress) : string :=
  let raw := payload self ++ checksum (payload self) in encode_base32 raw.

Definition validate_address (address : string) : bool := match try_parse address with Some _ => true | None => false end.

End address.

Definition from_public_key (public_key_bytes : bytes) : result SignerError AlgorandAddress := from_slice public_key_bytes.

End AlgorandAddresses.

(** ** [models/signing] *)

Module AlgorandModels.
Import AlgorandAddresses.

Definition TX_TYPE_PAYMENT : string := "pay".
Definition TX_TYPE_ASSET_TRANSFER : string := "axfer".
Definition PAYMENT_FIELDS : Z := 9.
Definition PAYMENT_ZERO_AMOUNT_FIELDS : Z := 8.
Definition ASSET_TRANSFER_FIELDS : Z := 10.
Definition ASSET_OPT_IN_FIELDS : Z := 9.

Inductive Operation :=
| Payment (destination : AlgorandAddress) (amount : Z)
| AssetTransfer (destination : AlgorandAddress) (amount asset_id : Z)
| AssetOptIn (asset_id : Z).

Definition tx_type (self : Operation) : string :=
  match self with Payment _ _ => TX_TYPE_PAYMENT | AssetTransfer _ _ _ | AssetOptIn _ => TX_TYPE_ASSET_TRANSFER end.

Definition size (self : Operation) : Z :=
  match self with
  | Payment _ amount => if amount =? 0 then PAYMENT_ZERO_AMOUNT_FIELDS else PAYMENT_FIELDS
  | AssetTransfer _ _ _ => ASSET_TRANSFER_FIELDS
  | AssetOptIn _ => ASSET_OPT_IN_FIELDS
  end.

Definition payment_amount (self : Operation) : option Z :=
  match self with Payment _ amount => if 0 <? amount then Some amount else None | _ => None end.

Definition TRANSACTION_VALIDITY_ROUNDS : Z := 1000.

Record AlgorandTransaction := MkTransaction {
  sender : AlgorandAddress;
  fee : Z;
  first_round : Z;
  last_round : Z;
  genesis_id : string;
  genesis_hash : bytes;
  note : bytes;
  operation : Operation
}.

Section models.
Context `{Base32Text} `{Sha512_256} `{Base64Text}.

Definition get_asset_id (input : ChainSignerInput) : result SignerError Z :=
  let? token_id := get_token_id (Assets.id (asset_of input)) in
  invalid_input (u64_from_str_radix 10 token_id) "invalid Algorand asset id".

(** [first_round + TRANSACTION_VALIDITY_ROUNDS] is not checked: it wraps. *)
Definition from_input (input : ChainSignerInput) (operation : Operation) : result SignerError AlgorandTransaction :=
  let? fee := invalid_input (GasPrices.to_u64 (GasPrices.fee (fee_of input))) "invalid transaction fee" in
  let? first_round := from_box (LoadMetadata.get_sequence (metadata input)) in
  let? sender := invalid_input (try_parse (InputTypes.sender_address (load input))) "invalid Algorand address" in
  let? genesis_id := from_box (LoadMetadata.get_chain_id (metadata input)) in
  let? block_hash := from_box (LoadMetadata.get_block_hash (metadata input)) in
  let? genesis_hash := invalid_input (decode_base64 block_hash) "invalid Algorand genesis hash" in
  Ok (MkTransaction sender fee first_round (as_u64 (first_round + TRANSACTION_VALIDITY_ROUNDS)) genesis_id genesis_hash
        (bytes_of_string (default EmptyString (InputTypes.memo (load input)))) operation).

Definition transfer (input : ChainSignerInput) : result SignerError AlgorandTransaction :=
  let? destination := invalid_input (try_parse (InputTypes.destination_address (load input))) "invalid Algorand address" in
  let? amount := InputTypes.value_as_u64 (load input) in
  from_input input (Payment destination amount).

Definition token_transfer (input : ChainSignerInput) : result SignerError AlgorandTransaction :=
  let? destination := invalid_input (try_parse (InputTypes.destination_address (load input))) "invalid Algorand address" in
  let? amount := InputTypes.value_as_u64 (load input) in
  let? asset_id := get_asset_id input in
  from_input input (AssetTransfer destination amount asset_id).

Definition account_action (input : ChainSignerInput) : result SignerError AlgorandTransaction :=
  let? asset_id := get_asset_id input in from_input input (AssetOptIn asset_id).

End models.
End AlgorandModels.

(** ** [signer/serialization.rs], [signing.rs] and [chain_signer.rs] *)

Module AlgorandSigner.
Import AlgorandAddresses AlgorandModels.

Definition SIGNED_TX_FIELDS : Z := 2.
Definition FIXMAP_PREFIX : Z := 0x80.
Definition FIXSTR_PREFIX : Z := 0xa0.
Definition FIXSTR_MAX_LEN : nat := 0x20.
Definition STR8_PREFIX : Z := 0xd9.
Definition UINT8_PREFIX : Z := 0xcc.
Definition UINT16_PREFIX : Z := 0xcd.
Definition UINT32_PREFIX : Z := 0xce.
Definition UINT64_PREFIX : Z := 0xcf.
Definition BIN8_PREFIX : Z := 0xc4.
Definition BIN16_PREFIX : Z := 0xc5.

Definition encode_string (value : string) (data : bytes) : bytes :=
  let len := String.length value in
  let data :=
    if (len <? FIXSTR_MAX_LEN)%nat then data ++ [Z.lor FIXSTR_PREFIX (as_u8 (Z.of_nat len))]
    else data ++ [STR8_PREFIX] ++ [as_u8 (Z.of_nat len)] in
  data ++ bytes_of_string value.

Definition encode_uint (value : Z) (data : bytes) : bytes :=
  if value <? 0x80 then data ++ [as_u8 value]
  else if value <? 0x100 then data ++ [UINT8_PREFIX] ++ [as_u8 value]
  else if value <? 0x10000 then data ++ [UINT16_PREFIX] ++ be_bytes 2 (as_u16 value)
  else if value <? 0x100000000 then data ++ [UINT32_PREFIX] ++ be_bytes 4 (as_u32 value)
  else data ++ [UINT64_PREFIX] ++ be_bytes 8 value.

Definition encode_bytes (bs : bytes) (data : bytes) : bytes :=
  let len := Z.of_nat (length bs) in
  let data :=
    if len <? 0x100 then data ++ [BIN8_PREFIX] ++ [as_u8 len]
    else data ++ [BIN16_PREFIX] ++ be_bytes 2 (as_u16 len) in
  data ++ bs.

Definition encode_address (address : AlgorandAddress) (data : bytes) : bytes := encode_bytes (as_bytes address) data.

Definition is_empty (bs : bytes) : bool := match bs with [] => true | _ => false end.

Definition encode_common_fields (tx : AlgorandTransaction) (data : bytes) : bytes :=
  let data := encode_string "fee" data in
  let data := encode_uint (fee tx) data in
  let data := encode_string "fv" data in
  let data := encode_uint (first_round tx) data in
  let data := encode_string "gen" data in
  let data := encode_string (genesis_id tx) data in
  let data := encode_string "gh" data in
  let data := encode_bytes (genesis_hash tx) data in
  let data := encode_string "lv" data in
  let data := encode_uint (last_round tx) data in
  if negb (is_empty (note tx)) then
    let data := encode_string "note" data in
    encode_bytes (note tx) data
  else data.

Definition encode_sender_and_type (tx : AlgorandTransaction) (data : bytes) : bytes :=
  let data := encode_string "snd" data in
  let data := encode_address (sender tx) data in
  let data := encode_string "type" data in
  encode_string (tx_type (operation tx)) data.

Definition encode_payment (tx : AlgorandTransaction) (destination : AlgorandAddress) (data : bytes) : bytes :=
  let data := encode_common_fields tx data in
  let data := encode_string "rcv" data in
  let data := encode_address destination data in
  encode_sender_and_type tx data.

Definition encode_asset_transfer (tx : AlgorandTransaction) (destination : AlgorandAddress) (amount asset_id : Z) (data : bytes)
  : bytes :=
  let data := encode_string "aamt" data in
  let data := encode_uint amount data in
  let data := encode_string "arcv" data in
  let data := encode_address destination data in
  let data := encode_common_fields tx data in
  let data := encode_sender_and_type tx data in
  let data := encode_string "xaid" data in
  encode_uint asset_id data.

Definition encode_asset_opt_in (tx : AlgorandTransaction) (asset_id : Z) (data : bytes) : bytes :=
  let data := encode_string "arcv" data in
  let data := encode_address (sender tx) data in
  let data := encode_common_fields tx data in
  let data := encode_sender_and_type tx data in
  let data := encode_string "xaid" data in
  encode_uint asset_id data.

Definition encode_transaction (tx : AlgorandTransaction) : result SignerError bytes :=
  let size := size (operation tx) in
  let size := if negb (is_empty (note tx)) then size + 1 else size in
  let data := [Z.lor FIXMAP_PREFIX size] in
  let data :=
    match payment_amount (operation tx) with
    | Some amount => let data := encode_string "amt" data in encode_uint amount data
    | None => data
    end in
  Ok (match operation tx with
      | Payment destination _ => encode_payment tx destination data
      | AssetTransfer destination amount asset_id => encode_asset_transfer tx destination amount asset_id data
      | AssetOptIn asset_id => encode_asset_opt_in tx asset_id data
      end).

Definition encode_signed_transaction (encoded_tx signature : bytes) : bytes :=
  let data := [Z.lor FIXMAP_PREFIX SIGNED_TX_FIELDS] in
  let data := encode_string "sig" data in
  let data := encode_bytes signature data in
  let data := encode_string "txn" data in
  data ++ encoded_tx.

Definition TX_TAG : bytes := bytes_of_string "TX".

Section signer.
Context `{Ed25519} `{Secp256k1} `{Hex} `{Base32Text} `{Sha512_256} `{Base64Text}.

Definition sign_transaction (transaction : AlgorandTransaction) (private_key : bytes) : result SignerError string :=
  let? encoded := encode_transaction transaction in
  let preimage := TX_TAG ++ encoded in
  let? signature := sign_digest SchemeEd25519 preimage private_key in
  let signed := encode_signed_transaction encoded signature in
  Ok (hex_encode signed).

Definition sign_transfer (input : ChainSignerInput) (private_key : bytes) : result SignerError string :=
  let? transaction := transfer input in sign_transaction transaction private_key.
Definition sign_token_transfer (input : ChainSignerInput) (private_key : bytes) : result SignerError string :=
  let? transaction := token_transfer input in sign_transaction transaction private_key.
Definition sign_account_action (input : ChainSignerInput) (private_key : bytes) : result SignerError string :=
  let? transaction := account_action input in sign_transaction transaction private_key.

End signer.
End AlgorandSigner.

(** ** A reader of MessagePack maps *)

Module MessagePack.

Import PrefixCodes.

Inductive Value := VUint (v : Z) | VStr (s : bytes) | VBin (bs : bytes).

Definition read_sized (n : nat) (value : bytes -> Value) (bs : bytes) : option (Value * bytes) :=
  let?? (len, rest) := read_be n bs in
  let?? (content, rest) := read (Z.to_nat len) rest in
  Some (value content, rest).
Definition read_uint (n : nat) (bs : bytes) : option (Value * bytes) :=
  let?? (v, rest) := read_be n bs in Some (VUint v, rest).

(** Unsigned integers, strings of up to 255 bytes and binaries of up to 65535 *)
Definition read_value (bs : bytes) : option (Value * bytes) :=
  match bs with
  | [] => None
  | b :: rest =>
      if (0 <=? b) && (b <? 0x80) then Some (VUint b, rest)
      else if (0xa0 <=? b) && (b <? 0xc0) then
        let?? (content, rest) := read (Z.to_nat (b - 0xa0)) rest in Some (VStr content, rest)
      else if b =? 0xd9 then read_sized 1 VStr rest
      else if b =? 0xc4 then read_sized 1 VBin rest
      else if b =? 0xc5 then read_sized 2 VBin rest
      else if b =? 0xcc then read_uint 1 rest
      else if b =? 0xcd then read_uint 2 rest
      else if b =? 0xce then read_uint 4 rest
      else if b =? 0xcf then read_uint 8 rest
      else None
  end.

(** A field is a string key and a value. *)
Definition read_field (bs : bytes) : option ((bytes * Value) * bytes) :=
  let?? (key, rest) := read_value bs in
  match key with
  | VStr key => let?? (value, rest) := read_value rest in Some ((key, value), rest)
  | _ => None
  end.

Fixpoint read_fields (n : nat) (bs : bytes) : option (list (bytes * Value) * bytes) :=
  match n with
  | O => Some ([], bs)
  | S n =>
      let?? (field, rest) := read_field bs in
      let?? (fields, rest) := read_fields n rest in
      Some (field :: fields, rest)
  end.

Definition read_map (bs : bytes) : option (list (bytes * Value) * bytes) :=
  match bs with
  | b :: rest => if (0x80 <=? b) && (b <? 0x90) then read_fields (Z.to_nat (b - 0x80)) rest else None
  | [] => None
  end.

(** *** It reads what the encoders write *)

Import AlgorandSigner.

Lemma read_encoded_uint v rest : is_u64 v -> read_value (encode_uint v [] ++ rest) = Some (VUint v, rest).
Proof.
  intros V. unfold in_width in V. unfold encode_uint. rewrite !app_nil_l.
  destruct (Z.ltb_spec v 0x80); [|destruct (Z.ltb_spec v 0x100); [|destruct (Z.ltb_spec v 0x10000);
    [|destruct (Z.ltb_spec v 0x100000000)]]]; rewrite <- ?app_assoc; cbn [app].
  - rewrite as_u8_small by (unfold in_width; lia). unfold read_value.
    by rewrite (proj2 (Z.leb_le _ _)), (proj2 (Z.ltb_lt _ _)) by lia.
  - change (read_uint 1 (as_u8 v :: rest) = Some (VUint v, rest)). rewrite as_u8_small by (unfold in_width; lia).
    change (v :: rest) with ([v] ++ rest). unfold read_uint. rewrite PrefixCodes.byte_be, PrefixCodes.read_be_app by (unfold in_width; lia). done.
  - change (read_uint 2 (be_bytes 2 (as_u16 v) ++ rest) = Some (VUint v, rest)). unfold as_u16, read_uint.
    rewrite wrap_small, PrefixCodes.read_be_app by (unfold in_width; lia). done.
  - change (read_uint 4 (be_bytes 4 (as_u32 v) ++ rest) = Some (VUint v, rest)). unfold as_u32, read_uint.
    rewrite wrap_small, PrefixCodes.read_be_app by (unfold in_width; lia). done.
  - change (read_uint 8 (be_bytes 8 v ++ rest) = Some (VUint v, rest)). unfold read_uint.
    rewrite PrefixCodes.read_be_app by (unfold in_width; lia). done.
Qed.

Lemma read_sized_app n value bs rest : in_width (8 * Z.of_nat n) (Z.of_nat (length bs)) ->
  read_sized n value (be_bytes n (Z.of_nat (length bs)) ++ bs ++ rest) = Some (value bs, rest).
Proof. intros W. unfold read_sized. rewrite PrefixCodes.read_be_app by done. by rewrite Nat2Z.id, PrefixCodes.read_app. Qed.

Lemma read_encoded_string s rest : (String.length s < 256)%nat ->
  read_value (encode_string s [] ++ rest) = Some (VStr (bytes_of_string s), rest).
Proof.
  intros L. unfold encode_string. rewrite <- (HexFacts.bytes_of_string_length s) in *. set (bs := bytes_of_string s) in *.
  destruct (Nat.ltb_spec (length bs) FIXSTR_MAX_LEN) as [F|F]; rewrite <- ?app_assoc; cbn [app].
  - rewrite as_u8_small by (unfold in_width; lia). unfold FIXSTR_MAX_LEN in F.
    rewrite (PrefixCodes.lor_prefix FIXSTR_PREFIX _ 5) by (try (unfold in_width; lia); reflexivity). unfold FIXSTR_PREFIX, read_value.
    rewrite (proj2 (Z.ltb_ge _ 0x80)), andb_false_r by lia.
    rewrite (proj2 (Z.leb_le _ _)), (proj2 (Z.ltb_lt _ 0xc0)) by lia. cbn [andb].
    replace (Z.to_nat _) with (length bs) by lia. by rewrite PrefixCodes.read_app.
  - change (read_sized 1 VStr (as_u8 (Z.of_nat (length bs)) :: bs ++ rest) = Some (VStr bs, rest)).
    rewrite as_u8_small by (unfold in_width; lia). change (?a :: bs ++ rest) with ([a] ++ bs ++ rest).
    rewrite PrefixCodes.byte_be by (unfold in_width; lia). apply read_sized_app. unfold in_width. lia.
Qed.

Lemma read_encoded_bytes bs rest : Z.of_nat (length bs) < 65536 ->
  read_value (encode_bytes bs [] ++ rest) = Some (VBin bs, rest).
Proof.
  intros L. unfold encode_bytes. destruct (Z.ltb_spec (Z.of_nat (length bs)) 0x100); rewrite <- ?app_assoc; cbn [app].
  - change (read_sized 1 VBin (as_u8 (Z.of_nat (length bs)) :: bs ++ rest) = Some (VBin bs, rest)).
    rewrite as_u8_small by (unfold in_width; lia). change (?a :: bs ++ rest) with ([a] ++ bs ++ rest).
    rewrite PrefixCodes.byte_be by (unfold in_width; lia). apply read_sized_app. unfold in_width. lia.
  - change (read_sized 2 VBin (be_bytes 2 (as_u16 (Z.of_nat (length bs))) ++ bs ++ rest) = Some (VBin bs, rest)).
    unfold as_u16. rewrite wrap_small by (unfold in_width; lia). apply read_sized_app. unfold in_width. lia.
Qed.

End MessagePack.

(** ** The fields of a transaction *)

Module AlgorandFacts.
Import AlgorandAddresses AlgorandModels AlgorandSigner MessagePack.

Inductive Entry := UintEntry (v : Z) | TextEntry (s : string) | BytesEntry (bs : bytes).

Definition value_of (entry : Entry) : Value :=
  match entry with UintEntry v => VUint v | TextEntry s => VStr (bytes_of_string s) | BytesEntry bs => VBin bs end.
Definition field_of (field : string * Entry) : bytes * Value := (bytes_of_string (fst field), value_of (snd field)).

Definition entry_ok (entry : Entry) : Prop :=
  match entry with
  | UintEntry v => is_u64 v
  | TextEntry s => (String.length s < 256)%nat
  | BytesEntry bs => Z.of_nat (length bs) < 65536
  end.

(** The fields of Algorand's documentation; an amount of zero and an empty note are left out. *)
Definition common_fields (tx : AlgorandTransaction) : list (string * Entry) :=
  [("fee", UintEntry (fee tx)); ("fv", UintEntry (first_round tx)); ("gen", TextEntry (genesis_id tx));
   ("gh", BytesEntry (genesis_hash tx)); ("lv", UintEntry (last_round tx))]
  ++ (if is_empty (note tx) then [] else [("note", BytesEntry (note tx))]).
Definition sender_and_type (tx : AlgorandTransaction) : list (string * Entry) :=
  [("snd", BytesEntry (sender tx)); ("type", TextEntry (tx_type (operation tx)))].

Definition fields (tx : AlgorandTransaction) : list (string * Entry) :=
  match operation tx with
  | Payment destination amount =>
      (if amount =? 0 then [] else [("amt", UintEntry amount)])
      ++ common_fields tx ++ [("rcv", BytesEntry destination)] ++ sender_and_type tx
  | AssetTransfer destination amount asset_id =>
      [("aamt", UintEntry amount); ("arcv", BytesEntry destination)]
      ++ common_fields tx ++ sender_and_type tx ++ [("xaid", UintEntry asset_id)]
  | AssetOptIn asset_id =>
      [("arcv", BytesEntry (sender tx))] ++ common_fields tx ++ sender_and_type tx ++ [("xaid", UintEntry asset_id)]
  end.

Definition operation_ok (operation : Operation) : Prop :=
  match operation with
  | Payment destination amount => length destination = 32%nat /\ is_u64 amount
  | AssetTransfer destination amount asset_id => length destination = 32%nat /\ is_u64 amount /\ is_u64 asset_id
  | AssetOptIn asset_id => is_u64 asset_id
  end.

Record transaction_ok (tx : AlgorandTransaction) : Prop := {
  ok_sender : length (sender tx) = 32%nat;
  ok_fee : is_u64 (fee tx);
  ok_first : is_u64 (first_round tx);
  ok_last : is_u64 (last_round tx);
  ok_genesis : (String.length (genesis_id tx) < 256)%nat;
  ok_hash : Z.of_nat (length (genesis_hash tx)) < 65536;
  ok_note : Z.of_nat (length (note tx)) < 65536;
  ok_operation : operation_ok (operation tx)
}.

(** *** The encoder writes the fields *)

Definition text (s : string) : bytes := encode_string s [].
Definition uint (v : Z) : bytes := encode_uint v [].
Definition binary (bs : bytes) : bytes := encode_bytes bs [].

Lemma encode_string_app s data : encode_string s data = data ++ text s.
Proof. unfold text, encode_string. destruct (_ <? _)%nat; by rewrite ?app_nil_l, <- ?app_assoc. Qed.
Lemma encode_uint_app v data : encode_uint v data = data ++ uint v.
Proof. unfold uint, encode_uint. repeat destruct (_ <? _); by rewrite ?app_nil_l, <- ?app_assoc. Qed.
Lemma encode_bytes_app bs data : encode_bytes bs data = data ++ binary bs.
Proof. unfold binary, encode_bytes. destruct (_ <? _); by rewrite ?app_nil_l, <- ?app_assoc. Qed.

Definition entry_bytes (entry : Entry) : bytes :=
  match entry with UintEntry v => uint v | TextEntry s => text s | BytesEntry bs => binary bs end.
Definition field_bytes (field : string * Entry) : bytes := text (fst field) ++ entry_bytes (snd field).

Lemma common_app tx data : encode_common_fields tx data = data ++ concat (map field_bytes (common_fields tx)).
Proof.
  unfold encode_common_fields, common_fields, encode_address. destruct (is_empty (note tx)); cbn [negb];
    rewrite ?encode_string_app, ?encode_uint_app, ?encode_bytes_app, ?encode_string_app;
    unfold field_bytes; cbn [map app concat fst snd entry_bytes]; rewrite ?app_nil_r, <- ?app_assoc; reflexivity.
Qed.

Lemma sender_app tx data : encode_sender_and_type tx data = data ++ concat (map field_bytes (sender_and_type tx)).
Proof.
  unfold encode_sender_and_type, sender_and_type, encode_address. rewrite !encode_string_app, !encode_bytes_app.
  unfold field_bytes; cbn [map app concat fst snd entry_bytes]; rewrite ?app_nil_r, <- ?app_assoc; reflexivity.
Qed.

(** The announced number of fields is the number of fields. *)
Lemma fields_count tx :
  (if negb (is_empty (note tx)) then size (operation tx) + 1 else size (operation tx)) = Z.of_nat (length (fields tx)).
Proof.
  unfold fields, size, common_fields. destruct (operation tx) as [d a|d a i|i];
    destruct (is_empty (note tx)); cbn [negb]; try destruct (a =? 0); reflexivity.
Qed.

Lemma fields_bound tx : (length (fields tx) <= 11)%nat.
Proof.
  unfold fields, common_fields. destruct (operation tx) as [d a|d a i|i]; destruct (is_empty (note tx));
    try destruct (a =? 0); cbn; lia.
Qed.

Lemma encode_fields tx : operation_ok (operation tx) ->
  encode_transaction tx = Ok (FIXMAP_PREFIX + Z.of_nat (length (fields tx)) :: concat (map field_bytes (fields tx))).
Proof.
  intros O. unfold encode_transaction. rewrite fields_count.
  rewrite (PrefixCodes.lor_prefix FIXMAP_PREFIX _ 4); [|done|pose proof (fields_bound tx); unfold in_width; lia|done].
  f_equal. unfold fields. destruct (operation tx) as [d a|d a i|i]; cbn [payment_amount].
  - destruct O as [_ A]. unfold in_width in A. destruct (Z.eqb_spec a 0) as [->|N]; [|rewrite (proj2 (Z.ltb_lt 0 a)) by lia];
      unfold encode_payment, encode_address;
      rewrite ?sender_app, ?encode_bytes_app, ?encode_string_app, ?common_app, ?encode_uint_app, ?encode_string_app,
        ?map_app, ?concat_app; unfold field_bytes at 1; cbn [map concat app fst snd entry_bytes];
      rewrite ?app_nil_r, <- ?app_assoc; reflexivity.
  - unfold encode_asset_transfer, encode_address.
    rewrite ?encode_uint_app, ?encode_string_app, ?sender_app, ?common_app, ?encode_bytes_app, ?encode_string_app,
      ?encode_uint_app, ?encode_string_app, !map_app, !concat_app. unfold field_bytes at 1 4.
    cbn [map concat app fst snd entry_bytes]. rewrite ?app_nil_r, <- ?app_assoc. reflexivity.
  - unfold encode_asset_opt_in, encode_address.
    rewrite ?encode_uint_app, ?encode_string_app, ?sender_app, ?common_app, ?encode_bytes_app, ?encode_string_app,
      !map_app, !concat_app. unfold field_bytes at 1 4.
    cbn [map concat app fst snd entry_bytes]. rewrite ?app_nil_r, <- ?app_assoc. reflexivity.
Qed.

(** *** The reader finds them *)

Definition field_ok (field : string * Entry) : Prop := (String.length (fst field) < 256)%nat /\ entry_ok (snd field).

Lemma read_entry entry rest : entry_ok entry -> read_value (entry_bytes entry ++ rest) = Some (value_of entry, rest).
Proof.
  destruct entry; [apply read_encoded_uint|apply read_encoded_string|apply read_encoded_bytes].
Qed.

Lemma read_fields_app l rest : Forall field_ok l ->
  read_fields (length l) (concat (map field_bytes l) ++ rest) = Some (map field_of l, rest).
Proof.
  induction 1 as [|[k e] l [K E] _ IH]; [done|]. cbn [length map concat read_fields].
  unfold field_bytes at 1, read_field. rewrite <- !app_assoc. cbn [fst snd] in *.
  unfold text. rewrite read_encoded_string, read_entry by done. by rewrite IH.
Qed.

(** A field whose value is known to fit *)
Lemma field_ok_intro k e : (String.length k <? 256)%nat = true -> entry_ok e -> field_ok (k, e).
Proof. intros K E. split; [by apply Nat.ltb_lt|done]. Qed.

Lemma address_ok (address : AlgorandAddress) : length address = 32%nat -> entry_ok (BytesEntry address).
Proof. intros L. cbn [entry_ok]. rewrite L. lia. Qed.

Lemma common_ok tx : transaction_ok tx -> Forall field_ok (common_fields tx).
Proof.
  intros [A F R L G H N O]. unfold common_fields.
  do 5 (constructor; [by apply field_ok_intro|]). destruct (is_empty _); [constructor|].
  constructor; [by apply field_ok_intro|done].
Qed.

Lemma sender_ok tx : length (sender tx) = 32%nat -> Forall field_ok (sender_and_type tx).
Proof.
  intros A%address_ok. constructor; [by apply field_ok_intro|]. constructor; [|done]. apply field_ok_intro; [done|].
  cbn [entry_ok]. destruct (operation tx); cbn; lia.
Qed.

Ltac fields_parts :=
  repeat first [done|by apply field_ok_intro
    |match goal with |- Forall _ (_ ++ _) => apply Forall_app_2 | |- Forall _ (_ :: _) => constructor end].

Lemma fields_ok tx : transaction_ok tx -> Forall field_ok (fields tx).
Proof.
  intros T. pose proof (common_ok tx T) as C. destruct T as [A _ _ _ _ _ _ O]. pose proof (sender_ok tx A) as S.
  apply address_ok in A. unfold fields. destruct (operation tx) as [d a|d a i|i]; cbn [operation_ok] in O.
  - destruct O as [D%address_ok V]. destruct (a =? 0); fields_parts.
  - destruct O as (D%address_ok & V & I). fields_parts.
  - fields_parts.
Qed.

Lemma read_transaction tx encoded rest : transaction_ok tx -> encode_transaction tx = Ok encoded ->
  read_map (encoded ++ rest) = Some (map field_of (fields tx), rest).
Proof.
  intros T. rewrite encode_fields by apply T. intros E. pose proof (fields_bound tx) as B.
  assert (encoded = FIXMAP_PREFIX + Z.of_nat (length (fields tx)) :: concat (map field_bytes (fields tx))) as -> by congruence.
  cbn [app]. unfold read_map, FIXMAP_PREFIX.
  rewrite (proj2 (Z.leb_le 0x80 _)), (proj2 (Z.ltb_lt _ 0x90)) by lia. cbn [andb].
  replace (Z.to_nat _) with (length (fields tx)) by lia. by apply read_fields_app, fields_ok.
Qed.

(** *** Order and determination *)

(** The order of keys as byte strings *)
Definition key_before (a b : string * Entry) : Prop := String.compare (fst a) (fst b) = Lt.

Lemma fields_sorted tx : Sorted key_before (fields tx).
Proof.
  unfold fields, common_fields. destruct (operation tx) as [d a|d a i|i]; destruct (is_empty (note tx));
    try destruct (a =? 0); repeat (constructor; try reflexivity).
Qed.

Lemma field_of_inj f g : field_of f = field_of g -> f = g.
Proof.
  destruct f as [k1 e1], g as [k2 e2]. unfold field_of. cbn [fst snd]. intros E.
  assert (bytes_of_string k1 = bytes_of_string k2 /\ value_of e1 = value_of e2) as [K V] by (split; congruence).
  apply PrefixCodes.bytes_of_string_inj in K as ->. f_equal.
  destruct e1, e2; cbn [value_of] in V; try done; try congruence.
  f_equal. apply PrefixCodes.bytes_of_string_inj. congruence.
Qed.

Lemma fields_inj t1 t2 : fields t1 = fields t2 -> t1 = t2.
Proof.
  unfold fields, common_fields, sender_and_type.
  destruct t1 as [s1 f1 fr1 lr1 g1 gh1 n1 [d1 a1|d1 a1 i1|i1]], t2 as [s2 f2 fr2 lr2 g2 gh2 n2 [d2 a2|d2 a2 i2|i2]];
    cbn [operation note sender fee first_round last_round genesis_id genesis_hash];
    destruct n1 as [|b1 n1], n2 as [|b2 n2]; cbn [is_empty];
    try (destruct (Z.eqb_spec a1 0)); try (destruct (Z.eqb_spec a2 0)); cbn [app]; intros E; try discriminate E;
    inversion E; by subst.
Qed.

End AlgorandFacts.

(** ** What a signed request is *)

Module AlgorandRequests.
Import AlgorandAddresses AlgorandModels AlgorandSigner MessagePack AlgorandFacts.

Section requests.
Context `{Ed25519Laws} `{Secp256k1} `{HexLaws} `{Base32TextLaws} `{Sha512_256} `{Base64TextLaws}.

(** The first round leaves room for the validity, and the texts of the request fit the lengths they are written with. *)
Record request_fits (input : ChainSignerInput) : Prop := {
  fits_round : forall n, LoadMetadata.get_sequence (metadata input) = Ok n -> 0 <= n < 2 ^ 64 - 1000;
  fits_genesis : forall s, LoadMetadata.get_chain_id (metadata input) = Ok s -> (String.length s < 256)%nat;
  fits_hash : forall s bs, LoadMetadata.get_block_hash (metadata input) = Ok s -> decode_base64 s = Some bs ->
    Z.of_nat (length bs) < 65536 /\ all_bytes bs;
  fits_note : Z.of_nat (String.length (default EmptyString (InputTypes.memo (load input)))) < 65536
}.

Record from_request (input : ChainSignerInput) (tx : AlgorandTransaction) : Prop := {
  request_sender : try_parse (InputTypes.sender_address (load input)) = Some (sender tx);
  request_fee : fee tx = GasPrices.fee (fee_of input);
  request_first : LoadMetadata.get_sequence (metadata input) = Ok (first_round tx);
  request_last : last_round tx = first_round tx + 1000;
  request_genesis : LoadMetadata.get_chain_id (metadata input) = Ok (genesis_id tx);
  request_hash : exists s, LoadMetadata.get_block_hash (metadata input) = Ok s /\ decode_base64 s = Some (genesis_hash tx);
  request_note : note tx = bytes_of_string (default EmptyString (InputTypes.memo (load input)))
}.

Definition signed (encoded key : bytes) : bytes := encode_signed_transaction encoded (ed25519_sign key (TX_TAG ++ encoded)).

(** The text is the signed map of the fields of the transaction, in the order of their keys, and of no other. *)
Definition only_reading (text : string) (tx : AlgorandTransaction) (key : bytes) : Prop :=
  exists encoded, encode_transaction tx = Ok encoded /\ hex_decode text = Some (signed encoded key)
  /\ read_map encoded = Some (map field_of (fields tx), []) /\ Sorted key_before (fields tx)
  /\ forall tx' encoded' signature, transaction_ok tx' -> encode_transaction tx' = Ok encoded' -> length signature = 64%nat ->
       hex_decode text = Some (encode_signed_transaction encoded' signature) -> tx' = tx.

(** An accepted address is 32 bytes and their checksum. *)
Lemma algorand_try_parse_Some text address : try_parse text = Some address ->
  length address = 32%nat /\ all_bytes address /\ decode_base32 text = Some (address ++ checksum address).
Proof.
  unfold try_parse, from_slice, ADDRESS_DATA_LENGTH. destruct (decode_base32 text) as [decoded|] eqn:D; [|done].
  pose proof (base32_bytes _ _ D) as B. destruct (negb _); [done|].
  destruct (Nat.eqb_spec (length (take 32 decoded)) 32) as [L|]; [|done]. cbn [ok].
  destruct (bool_decide_reflect (drop 32 decoded = checksum (payload (take 32 decoded)))) as [C|]; [|done].
  intros E. assert (address = take 32 decoded) as -> by congruence. unfold payload in C.
  split_and!; [done|by apply Forall_take|]. by rewrite <- C, take_drop.
Qed.

Lemma algorand_from_input_Ok input operation tx : request_fits input -> from_input input operation = Ok tx ->
  from_request input tx /\ AlgorandModels.operation tx = operation /\ is_u64 (fee tx) /\ is_u64 (first_round tx)
  /\ is_u64 (last_round tx) /\ all_bytes (genesis_hash tx).
Proof.
  unfold from_input, invalid_input, from_box, map_err. intros R E.
  destruct (GasPrices.to_u64 _) as [f|] eqn:F; [|done]. apply to_u64_Some in F as [-> F].
  destruct (LoadMetadata.get_sequence _) as [n|] eqn:N; [|done]. destruct (try_parse _) as [a|] eqn:A; [|done].
  destruct (LoadMetadata.get_chain_id _) as [g|] eqn:G; [|done]. destruct (LoadMetadata.get_block_hash _) as [h|] eqn:B; [|done].
  cbn [ok_or] in E. destruct (decode_base64 h) as [gh|] eqn:D; [|done]. cbn [ok_or] in E.
  pose proof (fits_round _ R n N) as L. pose proof (fits_hash _ R h gh B D) as [_ HB].
  unfold as_u64, TRANSACTION_VALIDITY_ROUNDS in E. rewrite wrap_small in E by (unfold in_width; lia).
  match type of E with Ok ?t = _ => assert (tx = t) as -> by congruence end. cbn [AlgorandModels.operation fee first_round last_round].
  split_and!; [|done|done|unfold in_width; lia..|done]. split; try done. by exists h.
Qed.

Lemma request_ok input tx : request_fits input -> from_request input tx -> is_u64 (fee tx) -> is_u64 (first_round tx) ->
  is_u64 (last_round tx) -> operation_ok (operation tx) -> transaction_ok tx.
Proof.
  intros F [A _ N _ G (h & B & D) M] FF FR FL O. split; try done.
  - by apply algorand_try_parse_Some in A as [? _].
  - by eapply fits_genesis.
  - by eapply fits_hash.
  - rewrite M, HexFacts.bytes_of_string_length. by apply fits_note.
Qed.

Definition entry_all_bytes (entry : Entry) : Prop := match entry with BytesEntry bs => all_bytes bs | _ => True end.

Lemma text_bytes s : all_bytes (text s).
Proof.
  unfold text, encode_string. rewrite !app_nil_l. destruct (_ <? _)%nat; bytes_parts; apply PrefixCodes.byte_singleton;
    [|by vm_compute|apply PrefixCodes.as_u8_byte]. apply in_width_lor; [done|by vm_compute|apply PrefixCodes.as_u8_byte].
Qed.

Lemma uint_bytes v : all_bytes (uint v).
Proof.
  unfold uint, encode_uint. rewrite !app_nil_l. repeat destruct (_ <? _); bytes_parts; apply PrefixCodes.byte_singleton;
    first [apply PrefixCodes.as_u8_byte|by vm_compute].
Qed.

Lemma binary_bytes bs : all_bytes bs -> all_bytes (binary bs).
Proof.
  intros B. unfold binary, encode_bytes. rewrite !app_nil_l. destruct (_ <? _); bytes_parts; try done; apply PrefixCodes.byte_singleton;
    first [apply PrefixCodes.as_u8_byte|by vm_compute].
Qed.

Lemma encoded_bytes tx encoded : transaction_ok tx -> Forall (fun f => entry_all_bytes (snd f)) (fields tx) ->
  encode_transaction tx = Ok encoded -> all_bytes encoded.
Proof.
  intros T B. rewrite encode_fields by apply T. intros E. pose proof (fields_bound tx) as L.
  match type of E with Ok ?t = _ => assert (encoded = t) as -> by congruence end.
  constructor; [unfold FIXMAP_PREFIX, in_width; lia|]. apply Forall_concat, Forall_map. pose proof (fields_ok tx T) as K.
  rewrite !Forall_forall in *. intros [k e] M. unfold field_bytes. apply Forall_app_2; [apply text_bytes|].
  pose proof (B _ M) as BE. pose proof (K _ M) as [_ KE]. cbn [snd] in *.
  destruct e; [apply uint_bytes|apply text_bytes|by apply binary_bytes].
Qed.

Lemma signed_flat encoded signature : encode_signed_transaction encoded signature =
  0x82 :: text "sig" ++ binary signature ++ text "txn" ++ encoded.
Proof.
  unfold encode_signed_transaction. rewrite encode_string_app, encode_bytes_app, encode_string_app, <- !app_assoc. reflexivity.
Qed.

Lemma signed_inj e1 e2 s1 s2 : length s1 = 64%nat -> length s2 = 64%nat ->
  encode_signed_transaction e1 s1 = encode_signed_transaction e2 s2 -> e1 = e2.
Proof.
  rewrite !signed_flat. intros L1 L2 E. apply PrefixCodes.cons_eq in E as [_ E]. apply app_inv_head in E.
  apply app_inj_1 in E as [_ E]; [by apply app_inv_head in E|].
  unfold binary, encode_bytes. rewrite L1, L2. cbn [app Z.ltb]. rewrite !length_app, L1, L2. reflexivity.
Qed.

Lemma sign_reading tx key text : transaction_ok tx -> Forall (fun f => entry_all_bytes (snd f)) (fields tx) ->
  sign_transaction tx key = Ok text -> only_reading text tx key.
Proof.
  intros T B. unfold sign_transaction, sign_digest, from_private_key. intros E.
  destruct (encode_transaction tx) as [encoded|] eqn:X; [|done]. destruct (length key =? 32)%nat; [|done].
  unfold sign in E. cbn [signing_key] in E.
  assert (D : hex_decode text = Some (signed encoded key)).
  { assert (text = hex_encode (signed encoded key)) as -> by (unfold signed; congruence).
    apply hex_roundtrip. unfold signed. rewrite signed_flat. constructor; [by vm_compute|].
    bytes_parts; [apply text_bytes|apply binary_bytes, ed25519_signature_bytes|apply text_bytes|].
    by eapply encoded_bytes. }
  exists encoded. split_and!; [done|done| |apply fields_sorted|].
  - rewrite <- (app_nil_r encoded). by apply read_transaction.
  - intros tx' encoded' signature T' X' L D'. rewrite D in D'.
    assert (encode_signed_transaction encoded (ed25519_sign key (TX_TAG ++ encoded)) = encode_signed_transaction encoded' signature) as Q
      by (unfold signed in D'; congruence).
    apply signed_inj in Q as <-; [|apply ed25519_signature_length|done].
    pose proof (read_transaction _ _ [] T X) as R. rewrite (read_transaction _ _ [] T' X') in R.
    assert (map field_of (fields tx') = map field_of (fields tx)) as M by congruence.
    apply fields_inj. eapply list_fmap_eq_inj; [|exact M]. intros f g. apply field_of_inj.
Qed.

Lemma asset_id_u64 input asset_id : get_asset_id input = Ok asset_id -> is_u64 asset_id.
Proof.
  unfold get_asset_id, invalid_input. destruct (get_token_id _) as [t|]; [|done].
  destruct (u64_from_str_radix 10 t) as [v|] eqn:V; [|done]. intros E. assert (asset_id = v) as -> by (cbn in E; congruence).
  by apply HexFacts.from_str_radix_u64 in V.
Qed.

(** What a built transaction needs to be signed readably *)
Lemma built_reading input operation_ tx key text : request_fits input -> from_input input operation_ = Ok tx ->
  operation_ok operation_ -> (match operation_ with Payment d _ | AssetTransfer d _ _ => all_bytes d | AssetOptIn _ => True end) ->
  sign_transaction tx key = Ok text -> from_request input tx /\ operation tx = operation_ /\ only_reading text tx key.
Proof.
  intros F E O B S. apply algorand_from_input_Ok in E as (R & <- & FF & F1 & F2 & G); [|done]. split_and!; [done..|].
  pose proof (request_ok _ _ F R FF F1 F2 O) as T. apply sign_reading; [done| |done].
  pose proof (algorand_try_parse_Some _ _ (request_sender _ _ R)) as (_ & SB & _).
  assert (NB : all_bytes (note tx)) by (rewrite (request_note _ _ R); apply PrefixCodes.all_bytes_string).
  unfold fields, common_fields, sender_and_type. destruct (operation tx) as [d a|d a i|i]; destruct (is_empty (note tx));
    try destruct (a =? 0); repeat (constructor; [done|]); done.
Qed.

End requests.
End AlgorandRequests.

Module AlgorandProperties.
Import AlgorandAddresses AlgorandModels AlgorandSigner MessagePack AlgorandFacts AlgorandRequests.

Section properties.
Context `{Ed25519Laws} `{Secp256k1} `{HexLaws} `{Base32TextLaws} `{Sha512_256} `{Base64TextLaws}.

(** (C13) What the Algorand signer signs is what was requested: a payment or a transfer of the asset of the request, of
    the requested amount to the destination, or the opt-in to that asset, with the fee, the rounds, the network and the
    note of the request.  An independent reader of MessagePack finds in the signed map exactly the fields of the
    transaction, as many as announced and in the order of their keys, and no other transaction has the same text. *)
Theorem algorand_request_signed : forall input key text, request_fits input ->
  (sign_transfer input key = Ok text -> exists tx destination,
     from_request input tx /\ try_parse (InputTypes.destination_address (load input)) = Some destination
     /\ operation tx = Payment destination (InputTypes.input_value (load input)) /\ only_reading text tx key)
  /\ (sign_token_transfer input key = Ok text -> exists tx destination asset_id,
     from_request input tx /\ try_parse (InputTypes.destination_address (load input)) = Some destination
     /\ get_asset_id input = Ok asset_id
     /\ operation tx = AssetTransfer destination (InputTypes.input_value (load input)) asset_id /\ only_reading text tx key)
  /\ (sign_account_action input key = Ok text -> exists tx asset_id,
     from_request input tx /\ get_asset_id input = Ok asset_id /\ operation tx = AssetOptIn asset_id
     /\ only_reading text tx key).
Proof.
  intros input key text F. split_and!.
  - unfold sign_transfer, transfer, invalid_input. intros E. destruct (try_parse _) as [d|] eqn:D; [|done]. cbn [ok_or] in E.
    destruct (InputTypes.value_as_u64 _) as [v|] eqn:V; [|done]. apply value_Ok in V as [-> V].
    destruct (from_input _ _) as [tx|] eqn:T; [|done]. pose proof (algorand_try_parse_Some _ _ D) as (L & B & _).
    destruct (built_reading _ _ _ _ _ F T (conj L V) B E) as (R & O & X). by exists tx, d.
  - unfold sign_token_transfer, token_transfer, invalid_input. intros E. destruct (try_parse _) as [d|] eqn:D; [|done].
    cbn [ok_or] in E. destruct (InputTypes.value_as_u64 _) as [v|] eqn:V; [|done]. apply value_Ok in V as [-> V].
    destruct (get_asset_id input) as [i|] eqn:I; [|done]. pose proof (asset_id_u64 _ _ I) as W.
    destruct (from_input _ _) as [tx|] eqn:T; [|done]. pose proof (algorand_try_parse_Some _ _ D) as (L & B & _).
    destruct (built_reading _ _ _ _ _ F T (conj L (conj V W)) B E) as (R & O & X). by exists tx, d, i.
  - unfold sign_account_action, account_action. intros E. destruct (get_asset_id input) as [i|] eqn:I; [|done].
    destruct (from_input _ _) as [tx|] eqn:T; [|done].
    destruct (built_reading _ _ _ _ _ F T (asset_id_u64 _ _ I) Logic.I E) as (R & O & X). by exists tx, i.
Qed.

End properties.
End AlgorandProperties.

(** ** A concrete request *)

Module AlgorandConcrete.
Import AlgorandAddresses AlgorandModels AlgorandSigner MessagePack AlgorandFacts AlgorandRequests AlgorandProperties.
Import Concrete SigningConcrete HexConcrete.

#[local] Instance toy_sha512_256 : Sha512_256 := fun bs => be_bytes 32 (of_be bs * 3 + 1).

Definition address_text (seed : Z) : string := encode (replicate 32 seed).
Definition transfer_input : ChainSignerInput :=
  request (coin Chains.Algorand (Some "31566704"%string) "USDC" 6) (address_text 1) (address_text 2)
    1000 (Some "rent"%string) 1000 [] (LoadMetadata.Algorand 500 "block" "mainnet-v1.0").

Lemma transfer_fits : request_fits transfer_input.
Proof.
  split.
  - intros n E. inversion E. lia.
  - intros s E. inversion E. cbn. lia.
  - intros s bs E D. inversion E. subst. inversion D. split; [by vm_compute|]. repeat (constructor; [by vm_compute|]). constructor.
  - by vm_compute.
Qed.

Lemma algorand_request_signed_witness : exists text,
  sign_token_transfer transfer_input key = Ok text /\ exists tx destination asset_id,
     from_request transfer_input tx /\ try_parse (InputTypes.destination_address (load transfer_input)) = Some destination
     /\ get_asset_id transfer_input = Ok asset_id
     /\ operation tx = AssetTransfer destination (InputTypes.input_value (load transfer_input)) asset_id
     /\ only_reading text tx key.
Proof.
  assert (S : exists text, sign_token_transfer transfer_input key = Ok text) by (eexists; vm_compute; reflexivity).
  destruct S as [text S]. exists text. split; [exact S|].
  exact (proj1 (proj2 (algorand_request_signed transfer_input key text transfer_fits)) S).
Defined.

(** The canonical form leaves zeros out, as the encoder does for a payment; it writes them for the amount of an asset
    and for a fee. *)
Example zero_asset_amount_is_written destination : In ("aamt"%string, UintEntry 0)
  (fields (MkTransaction destination 0 1 1001 "mainnet-v1.0" [] [] (AssetTransfer destination 0 31566704))).
Proof. by left. Qed.

End AlgorandConcrete.
