(* ===== verification/PolkadotSigner.v ===== *)
(** * The Polkadot signer

    Models [gem_polkadot/src/address.rs] (module [PolkadotAddresses]), the native transfers of [src/transfer.rs]
    ([PolkadotTransfers]) and [src/signer/chain_signer.rs] ([PolkadotSigner]).  The theorems show that compact integers
    and mortal eras are read back by the decoders of the SCALE codec, that the era covers the block it was made for,
    and that an independent reader finds the requested transfer in the signed extrinsic. *)
From S2P Require Import Prelude HexText Text Crates ChainRegistry Assets BitcoinPlanner TransferAmount TransferRules Signing.
Import BitcoinPlanner SignerInputs Keys.

(** [gem_hash::blake2] *)
Class Blake2 : Type := { blake2b_256 : bytes -> bytes; blake2b_512 : bytes -> bytes }.

(** [Display] of a [HexError], whose text is the [hex] crate's *)
Class HexErrorText : Type := hex_error_text : HexCodec.HexError -> string.

(** ** [address.rs] *)

Module PolkadotAddresses.

Definition POLKADOT_PREFIX : Z := 0.
Definition ADDRESS_DATA_LENGTH : nat := 32.
Definition ADDRESS_CHECKSUM_LENGTH : nat := 2.
Definition ADDRESS_LENGTH : nat := 1 + ADDRESS_DATA_LENGTH + ADDRESS_CHECKSUM_LENGTH.
Definition ADDRESS_MAX_STRING_LENGTH : nat := 60.
Definition SS58_CHECKSUM_PREFIX : bytes := bytes_of_string "SS58PRE".

Definition PolkadotAddress : Type := bytes.

Section address.
Context `{Base58Text} `{Blake2}.

Definition checksum (data : bytes) : bytes :=
  let prefixed := SS58_CHECKSUM_PREFIX ++ data in
  let hash := blake2b_512 prefixed in
  take ADDRESS_CHECKSUM_LENGTH hash.

Definition try_parse (value : string) : option PolkadotAddress :=
  if (ADDRESS_MAX_STRING_LENGTH <? String.length value)%nat then None else
  let?? decoded := ok (bs58_decode value) in
  if negb (length decoded =? ADDRESS_LENGTH)%nat || negb (hd 0 decoded =? POLKADOT_PREFIX) then None else
  if negb (bool_decide (drop (1 + ADDRESS_DATA_LENGTH) decoded = checksum (take (1 + ADDRESS_DATA_LENGTH) decoded))) then None
  else Some (drop 1 (take (1 + ADDRESS_DATA_LENGTH) decoded)).

Definition encode (self : PolkadotAddress) : string :=
  let raw := [POLKADOT_PREFIX] ++ self in
  let raw := raw ++ checksum raw in
  bs58_encode raw.

Definition parse (value : string) : result SignerError PolkadotAddress :=
  ok_or (try_parse value) (InvalidInput "invalid Polkadot address").

Definition validate_address (address : string) : bool := match try_parse address with Some _ => true | None => false end.

End address.

Definition account_id (self : PolkadotAddress) : bytes := self.

End PolkadotAddresses.

(** ** [transfer.rs] *)

Module PolkadotTransfers.
Import PolkadotAddresses.

Definition BALANCES_MODULE_INDEX : Z := 0x0a.
Definition TRANSFER_ALLOW_DEATH_METHOD_INDEX : Z := 0x00.
Definition SIGNATURE_TYPE_ED25519 : Z := 0x00.
Definition EXTRINSIC_VERSION_SIGNED : Z := 0x84.
Definition MULTI_ADDRESS_ID : Z := 0x00.
Definition CHARGE_ASSET_TRANSACTION_PAYMENT_NONE : Z := 0x00.
Definition CHECK_METADATA_MIN_SPEC_VERSION : Z := 1002005.
Definition MULTI_ADDRESS_MIN_SPEC_VERSION : Z := 28.
Definition MORTAL_ERA_MIN_PERIOD : Z := 4.
Definition MORTAL_ERA_MAX_PERIOD : Z := Z.shiftl 1 16.
Definition MAX_UNHASHED_PAYLOAD_SIZE : nat := 256.

(** *** [MortalEra] *)

Record MortalEra := MkEra { period : Z; phase : Z }.

(** [u64::checked_next_power_of_two] *)
Definition checked_next_power_of_two (z : Z) : option Z := if z <=? 2 ^ 63 then Some (2 ^ Z.log2_up z) else None.
Definition clamp (z low high : Z) : Z := if z <? low then low else if high <? z then high else z.

Definition new_era (period block_number : Z) : result SignerError MortalEra :=
  if period <? MORTAL_ERA_MIN_PERIOD then Err (InvalidInput "Polkadot mortal era period must be at least 4") else
  let period := clamp (default MORTAL_ERA_MAX_PERIOD (checked_next_power_of_two period)) MORTAL_ERA_MIN_PERIOD MORTAL_ERA_MAX_PERIOD in
  let quantize_factor := Z.max (Z.shiftr period 12) 1 in
  let phase := block_number mod period / quantize_factor * quantize_factor in
  Ok (MkEra period phase).

(** [u64::trailing_zeros] *)
Fixpoint positive_trailing_zeros (p : positive) : Z :=
  match p with xO p => 1 + positive_trailing_zeros p | _ => 0 end.
Definition trailing_zeros (z : Z) : Z := match z with Zpos p => positive_trailing_zeros p | _ => 64 end.

Definition encode_era (self : MortalEra) (output : bytes) : bytes :=
  let quantize_factor := Z.max (Z.shiftr (period self) 12) 1 in
  let encoded := Z.lor (as_u16 (clamp (trailing_zeros (period self) - 1) 1 15))
                   (as_u16 (Z.shiftl (phase self / quantize_factor) 4)) in
  output ++ le_bytes 2 encoded.

(** *** [encode_multi_address] and [encode_compact_integer] *)

Definition encode_multi_address (address : bytes) (uses_multi_address : bool) (output : bytes) : bytes :=
  let output := if uses_multi_address then output ++ [MULTI_ADDRESS_ID] else output in
  output ++ address.

(** [iter().rposition(|byte| *byte != 0)] *)
Fixpoint rposition (bs : bytes) : option nat :=
  match bs with
  | [] => None
  | b :: rest =>
      match rposition rest with
      | Some index => Some (S index)
      | None => if negb (b =? 0) then Some O else None
      end
  end.

Definition encode_compact_integer (value : Z) (output : bytes) : bytes :=
  if value <=? 63 then output ++ [as_u8 (Z.shiftl (as_u8 value) 2)]
  else if value <=? 16383 then output ++ le_bytes 2 (Z.lor (as_u16 (Z.shiftl (as_u16 value) 2)) 1)
  else if value <=? 1073741823 then output ++ le_bytes 4 (Z.lor (as_u32 (Z.shiftl (as_u32 value) 2)) 2)
  else
    let bs := le_bytes 16 value in
    let bytes_needed := match rposition bs with Some index => (index + 1)%nat | None => 1%nat end in
    let output := output ++ [Z.lor 3 (as_u8 (Z.shiftl (as_u8 (Z.of_nat bytes_needed - 4)) 2))] in
    output ++ take bytes_needed bs.

(** *** The transaction *)

Record NativeTransferSigningPayload := MkPayload {
  payload_spec_version : Z;
  transaction_version : Z;
  genesis_hash : bytes;
  block_hash : bytes
}.

Record NativeTransferTransaction := MkTransaction {
  call : bytes;
  extra : bytes;
  signer_account_id : bytes;
  transaction_uses_multi_address : bool;
  transaction_payload : NativeTransferSigningPayload
}.

Record NativeTransferParameters := MkParameters {
  sequence : Z;
  spec_version : Z;
  era : MortalEra;
  signing_payload_of : NativeTransferSigningPayload
}.

Inductive SigningPayload := Raw (payload : bytes) | Blake2b256 (payload_hash : bytes).

Definition as_ref (self : SigningPayload) : bytes := match self with Raw payload => payload | Blake2b256 hash => hash end.

Definition checks_metadata (spec_version : Z) : bool := CHECK_METADATA_MIN_SPEC_VERSION <=? spec_version.

Definition uses_multi_address (self : NativeTransferParameters) : bool := MULTI_ADDRESS_MIN_SPEC_VERSION <=? spec_version self.

Definition encode_extra (self : NativeTransferParameters) : bytes :=
  let extra := encode_era (era self) [] in
  let extra := encode_compact_integer (sequence self) extra in
  let extra := encode_compact_integer 0 extra in
  let extra := extra ++ [CHARGE_ASSET_TRANSACTION_PAYMENT_NONE] in
  if checks_metadata (spec_version self) then extra ++ [0] else extra.

Definition encode_call (destination : bytes) (value : Z) (uses_multi_address : bool) : bytes :=
  let call := [BALANCES_MODULE_INDEX] ++ [TRANSFER_ALLOW_DEATH_METHOD_INDEX] in
  let call := encode_multi_address destination uses_multi_address call in
  encode_compact_integer value call.

Definition encode_extrinsic (self : NativeTransferTransaction) (signature : bytes) : bytes :=
  let body := [EXTRINSIC_VERSION_SIGNED] in
  let body := encode_multi_address (signer_account_id self) (transaction_uses_multi_address self) body in
  let body := body ++ [SIGNATURE_TYPE_ED25519] in
  let body := body ++ signature in
  let body := body ++ extra self in
  let body := body ++ call self in
  let encoded := encode_compact_integer (Z.of_nat (length body)) [] in
  encoded ++ body.

(** [u32::try_from(..).map_err(SignerError::from_display)] *)
Definition u32_try_from (value : Z) : result SignerError Z :=
  ok_or (to_width 32 value) (InvalidInput "out of range integral type conversion attempted").

Section transfer.
Context `{Ed25519} `{Hex} `{HexErrorText} `{Base58Text} `{Blake2}.

Definition encode_hex (self : NativeTransferTransaction) (signature : bytes) : string :=
  ("0x" +:+ hex_encode (encode_extrinsic self signature))%string.

Definition new_payload (payload : bytes) : SigningPayload :=
  if (MAX_UNHASHED_PAYLOAD_SIZE <? length payload)%nat then Blake2b256 (blake2b_256 payload) else Raw payload.

Definition encode_payload (self : NativeTransferSigningPayload) (transaction : NativeTransferTransaction) : SigningPayload :=
  let include_metadata_hash := checks_metadata (payload_spec_version self) in
  let payload := call transaction in
  let payload := payload ++ extra transaction in
  let payload := payload ++ le_bytes 4 (payload_spec_version self) in
  let payload := payload ++ le_bytes 4 (transaction_version self) in
  let payload := payload ++ genesis_hash self in
  let payload := payload ++ block_hash self in
  let payload := if include_metadata_hash then payload ++ [0] else payload in
  new_payload payload.

Definition signing_payload (self : NativeTransferTransaction) : SigningPayload := encode_payload (transaction_payload self) self.

Definition hash_array (value : string) : result SignerError bytes :=
  map_err (fun e => InvalidInput (hex_error_text e)) (HexCodec.decode_hex_array 32 value).

Definition new_signing_payload (genesis_hash block_hash : string) (spec_version transaction_version : Z)
  : result SignerError NativeTransferSigningPayload :=
  let? transaction_version := u32_try_from transaction_version in
  let? genesis_hash := hash_array genesis_hash in
  let? block_hash := hash_array block_hash in
  Ok (MkPayload spec_version transaction_version genesis_hash block_hash).

Definition parameters_from_input (input : ChainSignerInput) : result SignerError NativeTransferParameters :=
  let? sequence := from_box (LoadMetadata.get_sequence (metadata input)) in
  match metadata input with
  | LoadMetadata.Polkadot _ genesis_hash block_hash block_number spec_version transaction_version period =>
      let? spec_version := u32_try_from spec_version in
      let? era := new_era period block_number in
      let? payload := new_signing_payload genesis_hash block_hash spec_version transaction_version in
      Ok (MkParameters sequence spec_version era payload)
  | _ => Err (InvalidInput "missing Polkadot metadata")
  end.

Definition from_input (input : ChainSignerInput) (signer_account_id : bytes) : result SignerError NativeTransferTransaction :=
  let? parameters := parameters_from_input input in
  let? destination := parse (InputTypes.destination_address (load input)) in
  let? value := ok_or (to_width 128 (InputTypes.input_value (load input))) (InvalidInput "polkadot amount is too large") in
  let uses_multi_address := uses_multi_address parameters in
  Ok (MkTransaction (encode_call (account_id destination) value uses_multi_address) (encode_extra parameters)
        signer_account_id uses_multi_address (signing_payload_of parameters)).

Definition fee_estimation_transaction_with_private_key (input : ChainSignerInput) (private_key : bytes)
  : result SignerError string :=
  let? key_pair := from_private_key private_key in
  let? transaction := from_input input (public_key_bytes key_pair) in
  let signing_payload := signing_payload transaction in
  let signature := sign key_pair (as_ref signing_payload) in
  Ok (encode_hex transaction signature).

End transfer.
End PolkadotTransfers.

(** ** [signer/chain_signer.rs] *)

Module PolkadotSigner.
Import PolkadotAddresses PolkadotTransfers.

Section signer.
Context `{Ed25519} `{Hex} `{HexErrorText} `{Base58Text} `{Blake2}.

Definition sign_transaction (input : ChainSignerInput) (private_key : bytes) : result SignerError string :=
  let? key_pair := from_private_key private_key in
  let? sender := parse (InputTypes.sender_address (load input)) in
  if negb (bool_decide (account_id sender = public_key_bytes key_pair))
  then Err (InvalidInput "Polkadot sender address does not match private key") else
  let? transaction := from_input input (public_key_bytes key_pair) in
  let signing_payload := signing_payload transaction in
  let signature := sign key_pair (as_ref signing_payload) in
  Ok (encode_hex transaction signature).

Definition sign_transfer (input : ChainSignerInput) (private_key : bytes) : result SignerError string :=
  sign_transaction input private_key.

End signer.
End PolkadotSigner.

(** ** The SCALE codec, from its specification *)

Module Scale.
Export PrefixCodes.

(** The two low bits of the first byte choose between one, two, four and more bytes. *)
Definition read_compact (bs : bytes) : option (Z * bytes) :=
  let?? mode := head bs in
  if mode mod 4 =? 0 then let?? (word, rest) := read 1 bs in Some (of_le word / 4, rest)
  else if mode mod 4 =? 1 then let?? (word, rest) := read 2 bs in Some (of_le word / 4, rest)
  else if mode mod 4 =? 2 then let?? (word, rest) := read 4 bs in Some (of_le word / 4, rest)
  else let?? (word, rest) := read (Z.to_nat (mode / 4 + 4)) (drop 1 bs) in Some (of_le word, rest).

(** A mortal era: the logarithm of its period and its phase in units of a 4096th of the period *)
Definition read_era (bs : bytes) : option (PolkadotTransfers.MortalEra * bytes) :=
  let?? (word, rest) := read 2 bs in
  let encoded := of_le word in
  let period := 2 ^ (encoded mod 16 + 1) in
  Some (PolkadotTransfers.MkEra period (encoded / 16 * Z.max (period / 4096) 1), rest).

(** The first block at which an era is valid, as seen from a block *)
Definition birth (era : PolkadotTransfers.MortalEra) (block_number : Z) : Z :=
  let period := PolkadotTransfers.period era in
  let phase := PolkadotTransfers.phase era in
  (Z.max block_number phase - phase) / period * period + phase.

Import PolkadotTransfers.

Lemma le_bytes_head n z rest : head (le_bytes (S n) z ++ rest) = Some (z mod 256).
Proof. reflexivity. Qed.

(** *** Compact integers *)

Lemma rposition_None bs : rposition bs = None -> of_le bs = 0.
Proof.
  induction bs as [|b bs IH]; [done|]. cbn [rposition]. destruct (rposition bs); [done|].
  destruct (Z.eqb_spec b 0) as [->|]; [|done]. intros _. change (0 + 256 * of_le bs = 0). rewrite IH by done. done.
Qed.

Lemma rposition_Some bs index : rposition bs = Some index -> (index < length bs)%nat /\ of_le (take (S index) bs) = of_le bs.
Proof.
  revert index. induction bs as [|b bs IH]; intros index; [done|]. cbn [rposition].
  destruct (rposition bs) as [i|] eqn:R.
  - intros E. assert (index = S i) as -> by congruence. destruct (IH i eq_refl) as [L V]. split; [cbn; lia|].
    change (b + 256 * of_le (take (S i) bs) = b + 256 * of_le bs). by rewrite V.
  - destruct (negb (b =? 0)); [|done]. intros E. assert (index = O) as -> by congruence. split; [cbn; lia|].
    change (b + 256 * of_le (take 0 bs) = b + 256 * of_le bs). by rewrite (rposition_None bs R).
Qed.

Lemma shifted_mode w v m : 2 <= w -> 0 <= m < 4 -> 0 <= v < 2 ^ (w - 2) -> Z.lor (wrap w (Z.shiftl (wrap w v) 2)) m = 4 * v + m.
Proof.
  intros W M V. assert (2 ^ w = 4 * 2 ^ (w - 2)) as P by (rewrite <- (Z.pow_add_r 2 2) by lia; f_equal; lia).
  rewrite (wrap_small w v) by (unfold in_width; lia). rewrite wrap_small; [|unfold in_width; rewrite Z.shiftl_mul_pow2 by lia; lia].
  rewrite lor_add_disjoint by (unfold in_width; lia). lia.
Qed.

Lemma compact_word n v m rest : 0 <= m < 3 -> in_width (8 * Z.of_nat (S n)) (4 * v + m) -> S n = (if m =? 0 then 1%nat else if m =? 1 then 2%nat else 4%nat) ->
  read_compact (le_bytes (S n) (4 * v + m) ++ rest) = Some (v, rest).
Proof.
  intros M W N. unfold read_compact. rewrite le_bytes_head.
  replace ((4 * v + m) mod 256 mod 4) with m by (unfold in_width in W; Z.to_euclidean_division_equations; lia).
  assert (m = 0 \/ m = 1 \/ m = 2) as [->|[->| ->]] by lia; cbn [Z.eqb Pos.eqb] in *; rewrite <- N, read_le, of_le_le_bytes;
    unfold in_width in W; rewrite Z.mod_small by lia; f_equal; f_equal; Z.to_euclidean_division_equations; lia.
Qed.

Lemma compact_app value output : encode_compact_integer value output = output ++ encode_compact_integer value [].
Proof. unfold encode_compact_integer. repeat destruct (_ <=? _); by rewrite ?app_nil_l, <- ?app_assoc. Qed.

Lemma read_encoded_compact value rest : is_u128 value ->
  read_compact (encode_compact_integer value [] ++ rest) = Some (value, rest).
Proof.
  intros V. unfold in_width in V. unfold encode_compact_integer. rewrite !app_nil_l.
  destruct (Z.leb_spec value 63); [|destruct (Z.leb_spec value 16383); [|destruct (Z.leb_spec value 1073741823)]].
  - unfold as_u8. rewrite <- (Z.lor_0_r (wrap 8 _)), (shifted_mode 8) by lia.
    replace [4 * value + 0] with (le_bytes 1 (4 * value + 0)) by (cbn [le_bytes]; f_equal; rewrite Z.mod_small; lia).
    apply compact_word; [lia|unfold in_width; lia|done].
  - unfold as_u16. rewrite (shifted_mode 16) by lia. apply compact_word; [lia|unfold in_width; lia|done].
  - unfold as_u32. rewrite (shifted_mode 32) by lia. apply compact_word; [lia|unfold in_width; lia|done].
  - destruct (rposition (le_bytes 16 value)) as [index|] eqn:R.
    2: { apply rposition_None in R. rewrite of_le_le_bytes, Z.mod_small in R by lia. lia. }
    apply rposition_Some in R as [L T]. rewrite le_bytes_length in L. rewrite of_le_le_bytes, Z.mod_small in T by lia.
    replace (index + 1)%nat with (S index) by lia. set (word := take (S index) (le_bytes 16 value)) in *.
    assert (LW : length word = S index) by (unfold word; rewrite length_take, le_bytes_length; lia).
    assert (B : of_le word < 2 ^ (8 * Z.of_nat (length word))) by (apply of_le_bound; unfold word; apply Forall_take, le_bytes_bytes).
    assert (N : (4 <= S index)%nat).
    { destruct (Nat.le_gt_cases 4 (S index)) as [|G]; [done|exfalso]. rewrite LW, T in B.
      assert (2 ^ (8 * Z.of_nat (S index)) <= 2 ^ 24) by (apply Z.pow_le_mono_r; lia). lia. }
    rewrite Z.lor_comm. unfold as_u8. rewrite (shifted_mode 8) by lia. unfold read_compact. cbn [head app].
    set (mode := 4 * (Z.of_nat (S index) - 4) + 3). replace (mode mod 4) with 3 by (unfold mode; Z.to_euclidean_division_equations; lia).
    cbn [Z.eqb Pos.eqb]. replace (Z.to_nat (mode / 4 + 4)) with (length word)
      by (unfold mode; rewrite LW; Z.to_euclidean_division_equations; lia).
    change (drop 1 (mode :: word ++ rest)) with (word ++ rest). by rewrite read_app, T.
Qed.

End Scale.

(** ** Eras and extrinsics *)

Module PolkadotFacts.
Import PolkadotAddresses PolkadotTransfers Scale.

(** *** Mortal eras *)

Lemma log2_up_bounds p : 4 <= p -> 2 <= Z.log2_up p /\ p <= 2 ^ Z.log2_up p < 2 * p.
Proof.
  intros P. pose proof (Z.log2_up_spec p ltac:(lia)) as [L U]. pose proof (Z.log2_up_le_mono 4 p P) as M.
  change (Z.log2_up 4) with 2 in M. split; [done|]. split; [done|].
  replace (Z.log2_up p) with (Z.succ (Z.pred (Z.log2_up p))) by lia. rewrite Z.pow_succ_r by lia. lia.
Qed.

(** The period is a power of two from 4 to 65536, within a factor of two of what was asked for. *)
Lemma new_era_period p block era : new_era p block = Ok era -> exists k, 2 <= k <= 16 /\ period era = 2 ^ k
  /\ phase era = block mod 2 ^ k / Z.max (2 ^ k / 4096) 1 * Z.max (2 ^ k / 4096) 1
  /\ 4 <= p /\ (p <= 65536 -> p <= period era < 2 * p).
Proof.
  unfold new_era, MORTAL_ERA_MIN_PERIOD. change MORTAL_ERA_MAX_PERIOD with (2 ^ 16).
  destruct (Z.ltb_spec p 4) as [|P]; [done|]. pose proof (log2_up_bounds p P) as [K U].
  set (c := clamp _ 4 (2 ^ 16)). intros E.
  assert (C : exists k, 2 <= k <= 16 /\ c = 2 ^ k /\ (p <= 65536 -> k = Z.log2_up p)).
  { unfold c, checked_next_power_of_two, clamp. destruct (Z.leb_spec p (2 ^ 63)) as [S|S]; unfold default, id.
    - pose proof (Z.pow_le_mono_r 2 2 (Z.log2_up p)). destruct (Z.ltb_spec (2 ^ Z.log2_up p) 4); [lia|].
      destruct (Z.ltb_spec (2 ^ 16) (2 ^ Z.log2_up p)) as [G|G].
      + exists 16. split_and!; [lia|lia|reflexivity|]. intros Q. pose proof (Z.log2_up_le_mono p (2 ^ 16) Q) as M.
        rewrite Z.log2_up_pow2 in M by lia. pose proof (Z.pow_le_mono_r 2 (Z.log2_up p) 16). lia.
      + exists (Z.log2_up p). split_and!; try done. destruct (Z.le_gt_cases (Z.log2_up p) 16) as [|G']; [done|].
        pose proof (Z.pow_lt_mono_r 2 16 (Z.log2_up p)). lia.
    - exists 16. split_and!; [lia|lia|reflexivity|intros; lia]. }
  destruct C as (k & B & C & I). exists k. rewrite C in E.
  assert (era = MkEra (2 ^ k) (block mod 2 ^ k / Z.max (2 ^ k / 4096) 1 * Z.max (2 ^ k / 4096) 1)) as ->
    by (rewrite Z.shiftr_div_pow2 in E by lia; change (2 ^ 12) with 4096 in E; congruence).
  cbn [period phase]. split_and!; try lia; try reflexivity; intros Q; rewrite (I Q); lia.
Qed.

Lemma trailing_zeros_pow2 k : 0 <= k -> trailing_zeros (2 ^ k) = k.
Proof.
  intros K. rewrite <- (Z2Nat.id k) by lia. induction (Z.to_nat k) as [|n IH]; [done|].
  rewrite Nat2Z.inj_succ, Z.pow_succ_r by lia. pose proof (Z.pow_pos_nonneg 2 (Z.of_nat n)).
  revert IH. destruct (2 ^ Z.of_nat n) as [|q|q] eqn:P; try lia. intros IH.
  change (1 + positive_trailing_zeros q = Z.succ (Z.of_nat n)). change (positive_trailing_zeros q = Z.of_nat n) in IH. lia.
Qed.

(** The unit of a phase divides the period; there are at most 4096 units. *)
Lemma era_unit k : 2 <= k <= 16 -> let q := Z.max (2 ^ k / 4096) 1 in 1 <= q <= 16 /\ exists u, 2 ^ k = u * q /\ 4 <= u <= 4096.
Proof.
  intros K. assert (k = 2 \/ k = 3 \/ k = 4 \/ k = 5 \/ k = 6 \/ k = 7 \/ k = 8 \/ k = 9 \/ k = 10 \/ k = 11 \/ k = 12 \/ k = 13
    \/ k = 14 \/ k = 15 \/ k = 16) as C by lia.
  repeat destruct C as [->|C]; [..|subst k]; cbn zeta;
    match goal with |- context [Z.max ?a 1] => let q := eval vm_compute in (Z.max a 1) in change (Z.max a 1) with q end;
    (split; [lia|]);
    match goal with |- context [2 ^ ?k = _ * ?q] => let u := eval vm_compute in (2 ^ k / q) in exists u end; (split; [reflexivity|lia]).
Qed.

Lemma read_encoded_era p block era rest : 0 <= block -> new_era p block = Ok era ->
  read_era (encode_era era [] ++ rest) = Some (era, rest).
Proof.
  intros B E. apply new_era_period in E as (k & K & P & F & _). pose proof (era_unit k K) as (Q & u & U & UB).
  set (q := Z.max (2 ^ k / 4096) 1) in *. unfold encode_era, read_era. rewrite app_nil_l, read_le, of_le_le_bytes.
  rewrite Z.shiftr_div_pow2 by lia. change (2 ^ 12) with 4096. rewrite P. fold q.
  pose proof (Z.mod_pos_bound block (2 ^ k) ltac:(lia)) as M.
  assert (PH : phase era / q = block mod 2 ^ k / q) by (rewrite F; apply Z.div_mul; lia).
  assert (W : 0 <= phase era / q < 4096).
  { rewrite PH. split; [apply Z.div_pos; lia|]. apply Z.lt_le_trans with u; [|lia]. apply Z.div_lt_upper_bound; lia. }
  rewrite trailing_zeros_pow2 by lia.
  assert (clamp (k - 1) 1 15 = k - 1) as ->.
  { unfold clamp. rewrite (proj2 (Z.ltb_ge (k - 1) 1)), (proj2 (Z.ltb_ge 15 (k - 1))) by lia. done. }
  unfold as_u16. rewrite (wrap_small 16 (k - 1)) by (unfold in_width; lia).
  rewrite (wrap_small 16 (Z.shiftl _ 4)) by (unfold in_width; rewrite Z.shiftl_mul_pow2 by lia; lia).
  rewrite Z.lor_comm, lor_add_disjoint by (unfold in_width; lia). set (f := phase era / q) in *.
  change (2 ^ (8 * Z.of_nat 2)) with 65536. rewrite (Z.mod_small (f * 2 ^ 4 + (k - 1))) by lia.
  replace ((f * 2 ^ 4 + (k - 1)) mod 16 + 1) with k by (Z.to_euclidean_division_equations; lia).
  replace ((f * 2 ^ 4 + (k - 1)) / 16) with f by (Z.to_euclidean_division_equations; lia). fold q.
  f_equal. f_equal. destruct era as [p' ph]. cbn [period phase] in *. rewrite P. f_equal. rewrite PH. by rewrite F.
Qed.

(** An era begins at most 15 blocks before the block it was made for, and so covers that block. *)
Lemma era_covers p block era : 0 <= block -> new_era p block = Ok era ->
  birth era block <= block < birth era block + 16 /\ block < birth era block + period era /\ 0 <= birth era block.
Proof.
  intros B E. apply new_era_period in E as (k & K & P & F & _). pose proof (era_unit k K) as (Q & u & U & UB).
  set (q := Z.max (2 ^ k / 4096) 1) in *. unfold birth. rewrite P. set (ph := phase era) in *.
  pose proof (Z.mod_pos_bound block (2 ^ k) ltac:(lia)) as M. pose proof (Z.div_mod block (2 ^ k) ltac:(lia)) as D.
  pose proof (Z.div_mod (block mod 2 ^ k) q ltac:(lia)) as D'. pose proof (Z.mod_pos_bound (block mod 2 ^ k) q ltac:(lia)) as M'.
  assert (PH : ph <= block mod 2 ^ k < ph + q) by (rewrite F; lia).
  assert (0 <= ph) by (rewrite F; apply Z.mul_nonneg_nonneg; [apply Z.div_pos|]; lia).
  assert (block mod 2 ^ k <= block) by (apply Z.mod_le; lia). rewrite Z.max_l by lia.
  assert ((block - ph) / 2 ^ k = block / 2 ^ k) as ->.
  { symmetry. apply Z.div_unique with (block mod 2 ^ k - ph); lia. }
  assert (0 <= block / 2 ^ k) by (apply Z.div_pos; lia). nia.
Qed.

End PolkadotFacts.

(** ** What a signed request is *)

Module PolkadotRequests.
Import PolkadotAddresses PolkadotTransfers PolkadotSigner Scale PolkadotFacts.

(** A signed transfer as the runtime reads it: [multi] says whether addresses have a type byte, [metadata_check]
    whether the extension that checks the metadata is present. *)
Record Extrinsic := MkExtrinsic {
  view_signer : bytes;
  view_signature : bytes;
  view_era : MortalEra;
  view_nonce : Z;
  view_tip : Z;
  view_destination : bytes;
  view_value : Z
}.

Definition read_address (multi : bool) (bs : bytes) : option (bytes * bytes) :=
  let?? bs := if multi then expect 0 bs else Some bs in read 32 bs.

Definition read_extrinsic (multi metadata_check : bool) (bs : bytes) : option Extrinsic :=
  let?? (len, r) := read_compact bs in
  if negb (len =? Z.of_nat (length r)) then None else
  let?? r := expect 0x84 r in
  let?? (signer, r) := read_address multi r in
  let?? r := expect 0 r in
  let?? (signature, r) := read 64 r in
  let?? (era, r) := read_era r in
  let?? (nonce, r) := read_compact r in
  let?? (tip, r) := read_compact r in
  let?? r := expect 0 r in
  let?? r := if metadata_check then expect 0 r else Some r in
  let?? r := expect 0x0a r in
  let?? r := expect 0 r in
  let?? (destination, r) := read_address multi r in
  let?? (value, r) := read_compact r in
  match r with [] => Some (MkExtrinsic signer signature era nonce tip destination value) | _ => None end.

Lemma read_address_app (multi : bool) address rest : length address = 32%nat ->
  read_address multi ((if multi then [0] else []) ++ address ++ rest) = Some (address, rest).
Proof. intros L. unfold read_address. destruct multi; cbn [app expect Z.eqb]; by apply read_fixed. Qed.

Lemma multi_app address (multi : bool) output :
  encode_multi_address address multi output = output ++ (if multi then [0] else []) ++ address.
Proof. unfold encode_multi_address. destruct multi; by rewrite <- ?app_assoc. Qed.

Lemma era_app era output : encode_era era output = output ++ encode_era era [].
Proof. reflexivity. Qed.

Lemma extra_flat parameters : encode_extra parameters =
  encode_era (era parameters) [] ++ encode_compact_integer (sequence parameters) [] ++ encode_compact_integer 0 []
  ++ 0 :: (if checks_metadata (spec_version parameters) then [0] else []).
Proof.
  unfold encode_extra. rewrite (compact_app 0 (encode_compact_integer _ _)), (compact_app _ (encode_era _ _)).
  destruct (checks_metadata _); by rewrite <- ?app_assoc.
Qed.

Lemma call_flat destination value multi : encode_call destination value multi =
  0x0a :: 0 :: (if multi then [0] else []) ++ destination ++ encode_compact_integer value [].
Proof. unfold encode_call. rewrite compact_app, multi_app, <- ?app_assoc. reflexivity. Qed.

(** What the reader needs of the parts of a transaction *)
Record parts_ok (parameters : NativeTransferParameters) (account destination signature : bytes) (value : Z) : Prop := {
  parts_account : length account = 32%nat;
  parts_destination : length destination = 32%nat;
  parts_signature : length signature = 64%nat;
  parts_value : is_u128 value;
  parts_sequence : is_u64 (sequence parameters);
  parts_era : exists p block, 0 <= block /\ new_era p block = Ok (era parameters)
}.

Definition transaction_of (parameters : NativeTransferParameters) (account destination : bytes) (value : Z)
  : NativeTransferTransaction :=
  MkTransaction (encode_call destination value (uses_multi_address parameters)) (encode_extra parameters) account
    (uses_multi_address parameters) (signing_payload_of parameters).

Lemma u64_u128 z : is_u64 z -> is_u128 z.
Proof. unfold in_width. lia. Qed.

Lemma compact_length value : (length (encode_compact_integer value []) <= 17)%nat.
Proof.
  unfold encode_compact_integer. repeat destruct (_ <=? _); rewrite ?app_nil_l, ?length_app, ?length_take, ?le_bytes_length;
    cbn [length]; lia.
Qed.

Lemma extra_length parameters : (length (encode_extra parameters) <= 38)%nat.
Proof.
  rewrite extra_flat. pose proof (compact_length (sequence parameters)). pose proof (compact_length 0).
  unfold encode_era. rewrite !length_app, le_bytes_length. destruct (checks_metadata _); cbn [length]; lia.
Qed.

Lemma call_length destination value multi : length destination = 32%nat ->
  (length (encode_call destination value multi) <= 52)%nat.
Proof.
  intros D. rewrite call_flat. pose proof (compact_length value).
  cbn [length]. rewrite !length_app, D. destruct multi; cbn [length]; lia.
Qed.

Lemma read_encoded_extrinsic parameters account destination signature value :
  parts_ok parameters account destination signature value ->
  read_extrinsic (uses_multi_address parameters) (checks_metadata (spec_version parameters))
    (encode_extrinsic (transaction_of parameters account destination value) signature)
  = Some (MkExtrinsic account signature (era parameters) (sequence parameters) 0 destination value).
Proof.
  intros [A D S V N (p & block & B & E)]. unfold encode_extrinsic, transaction_of.
  cbn [signer_account_id transaction_uses_multi_address extra call]. set (multi := uses_multi_address parameters).
  set (body := (((_ ++ [SIGNATURE_TYPE_ED25519]) ++ signature) ++ encode_extra parameters) ++ encode_call destination value multi).
  assert (L : (length body <= 300)%nat).
  { unfold body. rewrite multi_app, !length_app, A, S. pose proof (extra_length parameters).
    pose proof (call_length destination value multi D). destruct multi; cbn [length]; lia. }
  unfold read_extrinsic. rewrite read_encoded_compact by (unfold in_width; lia). rewrite Z.eqb_refl. cbn [negb].
  unfold body. rewrite multi_app, extra_flat, call_flat, <- ?app_assoc. cbn [app expect]. change (0x84 =? EXTRINSIC_VERSION_SIGNED) with true.
  cbv iota. rewrite read_address_app by done. cbn [app expect]. change (0 =? SIGNATURE_TYPE_ED25519) with true. cbv iota.
  rewrite read_fixed by done. rewrite (read_encoded_era p block) by done.
  rewrite <- ?app_assoc, read_encoded_compact by by apply u64_u128. rewrite read_encoded_compact by by unfold in_width.
  cbn [app expect Z.eqb]. destruct (checks_metadata (spec_version parameters)); cbn [app expect Z.eqb Pos.eqb];
    rewrite read_address_app by done; rewrite <- (app_nil_r (encode_compact_integer value [])), read_encoded_compact by done; done.
Qed.

(** *** Bytes *)

Lemma compact_bytes value : all_bytes (encode_compact_integer value []).
Proof.
  unfold encode_compact_integer. rewrite !app_nil_l. repeat destruct (_ <=? _); bytes_parts.
  - apply byte_singleton, as_u8_byte.
  - apply byte_singleton, in_width_lor; [done|by vm_compute|apply as_u8_byte].
  - apply Forall_take, le_bytes_bytes.
Qed.

Lemma call_bytes destination value multi : all_bytes destination -> all_bytes (encode_call destination value multi).
Proof.
  intros D. rewrite call_flat. do 2 (constructor; [by vm_compute|]). bytes_parts; [|done|apply compact_bytes].
  destruct multi; [by apply byte_singleton|done].
Qed.

Lemma extra_bytes parameters : all_bytes (encode_extra parameters).
Proof.
  rewrite extra_flat. unfold encode_era. rewrite app_nil_l. bytes_parts; try apply compact_bytes.
  constructor; [by vm_compute|]. destruct (checks_metadata _); [by apply byte_singleton|done].
Qed.

Lemma extrinsic_bytes parameters account destination signature value : all_bytes account -> all_bytes destination ->
  all_bytes signature -> all_bytes (encode_extrinsic (transaction_of parameters account destination value) signature).
Proof.
  intros A D S. unfold encode_extrinsic, transaction_of. cbn [signer_account_id transaction_uses_multi_address extra call].
  rewrite multi_app. bytes_parts; try done; try (by apply byte_singleton);
    [apply compact_bytes| |apply extra_bytes|by apply call_bytes].
  destruct (uses_multi_address parameters); [by apply byte_singleton|done].
Qed.

(** *** The request *)

Section requests.
Context `{Ed25519Laws} `{HexLaws} `{HexErrorText} `{Base58TextLaws} `{Blake2}.

(** An accepted address is the prefix, 32 bytes and their checksum. *)
Lemma try_parse_Some text address : try_parse text = Some address -> length address = 32%nat /\ all_bytes address
  /\ bs58_decode text = Ok (POLKADOT_PREFIX :: address ++ checksum (POLKADOT_PREFIX :: address)).
Proof.
  unfold try_parse, ADDRESS_LENGTH, ADDRESS_DATA_LENGTH, ADDRESS_CHECKSUM_LENGTH. destruct (_ <? _)%nat; [done|].
  destruct (bs58_decode text) as [decoded|] eqn:D; [|done]. pose proof (bs58_text_bytes _ _ D) as B. cbn [ok].
  destruct (Nat.eqb_spec (length decoded) (1 + 32 + 2)) as [L|]; [|done]. destruct decoded as [|p rest]; [done|].
  cbn [hd negb orb]. destruct (Z.eqb_spec p POLKADOT_PREFIX) as [->|]; [|done]. cbn [negb].
  change (drop (1 + 32) (POLKADOT_PREFIX :: rest)) with (drop 32 rest).
  change (take (1 + 32) (POLKADOT_PREFIX :: rest)) with (POLKADOT_PREFIX :: take 32 rest).
  destruct (bool_decide_reflect (drop 32 rest = checksum (POLKADOT_PREFIX :: take 32 rest))) as [C|]; [|done]. cbn [negb].
  change (drop 1 (POLKADOT_PREFIX :: take 32 rest)) with (take 32 rest). intros E.
  assert (address = take 32 rest) as -> by congruence. cbn [length] in L. inversion_clear B as [|? ? _ B'].
  split_and!; [rewrite length_take; lia|by apply Forall_take|]. f_equal. by rewrite <- C, take_drop.
Qed.

Lemma parse_Ok text address : parse text = Ok address -> length address = 32%nat /\ all_bytes address.
Proof.
  unfold parse. destruct (try_parse text) as [a|] eqn:P; [|done]. intros E. assert (address = a) as -> by (cbn in E; congruence).
  by apply try_parse_Some in P as (? & ? & _).
Qed.

(** The numbers of the metadata are [u64]s. *)
Definition metadata_fits (input : ChainSignerInput) : Prop :=
  match metadata input with
  | LoadMetadata.Polkadot sequence _ _ block_number _ _ _ => is_u64 sequence /\ is_u64 block_number
  | _ => True
  end.

(** The bytes that are signed for a transfer, which are always short enough not to be hashed *)
Definition payload_bytes (parameters : NativeTransferParameters) (destination : bytes) (value : Z) : bytes :=
  let payload := signing_payload_of parameters in
  encode_call destination value (uses_multi_address parameters) ++ encode_extra parameters
  ++ le_bytes 4 (payload_spec_version payload) ++ le_bytes 4 (transaction_version payload) ++ genesis_hash payload
  ++ block_hash payload ++ (if checks_metadata (payload_spec_version payload) then [0] else []).

Lemma payload_raw parameters account destination value : length destination = 32%nat ->
  length (genesis_hash (signing_payload_of parameters)) = 32%nat -> length (block_hash (signing_payload_of parameters)) = 32%nat ->
  signing_payload (transaction_of parameters account destination value) = Raw (payload_bytes parameters destination value).
Proof.
  intros D G B. unfold signing_payload, encode_payload, new_payload. cbn [transaction_of transaction_payload call extra].
  assert (L : forall flag : bool, (length ((encode_call destination value (uses_multi_address parameters) ++ encode_extra parameters
    ++ le_bytes 4 (payload_spec_version (signing_payload_of parameters)) ++ le_bytes 4 (transaction_version (signing_payload_of parameters))
    ++ genesis_hash (signing_payload_of parameters) ++ block_hash (signing_payload_of parameters) ++ (if flag then [0%Z] else [])))
    <= MAX_UNHASHED_PAYLOAD_SIZE)%nat).
  { intros flag. rewrite !length_app, !le_bytes_length, G, B. pose proof (extra_length parameters).
    pose proof (call_length destination value (uses_multi_address parameters) D). unfold MAX_UNHASHED_PAYLOAD_SIZE.
    destruct flag; cbn [length]; lia. }
  unfold payload_bytes. pose proof (L (checks_metadata (payload_spec_version (signing_payload_of parameters)))) as K.
  apply Nat.ltb_ge in K. destruct (checks_metadata _); rewrite <- ?app_assoc; [by rewrite K|].
  rewrite !app_nil_r in *. by rewrite K.
Qed.

Lemma hash_array_length text bs : hash_array text = Ok bs -> length bs = 32%nat.
Proof.
  unfold hash_array, HexCodec.decode_hex_array. destruct (HexCodec.decode_hex text) as [d|]; [|done]. cbn [map_err].
  destruct (Nat.eqb_spec (length d) 32); [|done]. intros E. by assert (bs = d) as -> by (cbn in E; congruence).
Qed.

(** The parameters and the destination of a transaction that was built *)
Lemma from_input_Ok input account transaction : from_input input account = Ok transaction ->
  exists sequence genesis block block_number spec_version transaction_version period era genesis_hash block_hash destination,
    metadata input = LoadMetadata.Polkadot sequence genesis block block_number spec_version transaction_version period
    /\ new_era period block_number = Ok era /\ hash_array genesis = Ok genesis_hash /\ hash_array block = Ok block_hash
    /\ parse (InputTypes.destination_address (load input)) = Ok destination
    /\ is_u128 (InputTypes.input_value (load input)) /\ is_u32 spec_version /\ is_u32 transaction_version
    /\ transaction = transaction_of (MkParameters sequence spec_version era
         (MkPayload spec_version transaction_version genesis_hash block_hash)) account destination (InputTypes.input_value (load input)).
Proof.
  unfold from_input, parameters_from_input, new_signing_payload, from_box, map_err, u32_try_from. intros E.
  destruct (metadata input) as [ | | | | | | | | | | | | |sequence genesis block block_number spec_version txv period| | | ] eqn:M;
    try (cbn in E; discriminate E). cbn [LoadMetadata.get_sequence] in E.
  destruct (to_width 32 spec_version) as [sv|] eqn:S; [|done]. apply to_width_Some in S as [-> S].
  destruct (new_era period block_number) as [e|] eqn:N; [|done].
  destruct (to_width 32 txv) as [tv|] eqn:T; [|done]. apply to_width_Some in T as [-> T]. cbn [ok_or] in E.
  destruct (hash_array genesis) as [gh|] eqn:G; [|done]. destruct (hash_array block) as [bh|] eqn:B; [|done].
  destruct (parse _) as [d|] eqn:D; [|done].
  destruct (to_width 128 _) as [v|] eqn:V; [|done]. apply to_width_Some in V as [-> V]. cbn [ok_or] in E.
  exists sequence, genesis, block, block_number, spec_version, txv, period, e, gh, bh, d.
  split_and!; try done. unfold transaction_of. unfold account_id in E. congruence.
Qed.

End requests.
End PolkadotRequests.

Module PolkadotProperties.
Import PolkadotAddresses PolkadotTransfers PolkadotSigner Scale PolkadotFacts PolkadotRequests.

Section properties.
Context `{Ed25519Laws} `{HexLaws} `{HexErrorText} `{Base58TextLaws} `{Blake2}.

(** (C14) What the Polkadot signer signs is what was requested: an independent reader of the SCALE codec, for the
    version of the runtime in the metadata, finds in the signed text a transfer of the requested amount from the
    address of the key, which is the sender's, to the destination, with the requested nonce, no tip and an era that
    begins at most 15 blocks before the block of the metadata and covers it; the signature is over the call, the
    extensions, the versions and the two hashes of the metadata, never over a hash of them. *)
Theorem polkadot_request_signed : forall input key text, metadata_fits input -> sign_transfer input key = Ok text ->
  exists sequence genesis block block_number spec_version transaction_version period era genesis_hash block_hash destination bs,
    metadata input = LoadMetadata.Polkadot sequence genesis block block_number spec_version transaction_version period
    /\ hash_array genesis = Ok genesis_hash /\ hash_array block = Ok block_hash
    /\ parse (InputTypes.sender_address (load input)) = Ok (ed25519_verifying_key key)
    /\ parse (InputTypes.destination_address (load input)) = Ok destination
    /\ new_era period block_number = Ok era
    /\ birth era block_number <= block_number < birth era block_number + Z.min 16 (PolkadotTransfers.period era)
    /\ HexCodec.decode_hex text = Ok bs
    /\ read_extrinsic (MULTI_ADDRESS_MIN_SPEC_VERSION <=? spec_version) (CHECK_METADATA_MIN_SPEC_VERSION <=? spec_version) bs
       = Some (MkExtrinsic (ed25519_verifying_key key)
                 (ed25519_sign key (payload_bytes (MkParameters sequence spec_version era
                    (MkPayload spec_version transaction_version genesis_hash block_hash)) destination
                    (InputTypes.input_value (load input))))
                 era sequence 0 destination (InputTypes.input_value (load input))).
Proof.
  intros input key text F. unfold sign_transfer, sign_transaction, from_private_key. intros E.
  destruct (length key =? 32)%nat; [|done]. cbn [public_key_bytes] in E.
  destruct (parse (InputTypes.sender_address (load input))) as [sender|] eqn:S; [|done].
  case_bool_decide as K; [|done]. unfold account_id in K. subst sender. cbn [negb] in E.
  destruct (from_input input _) as [transaction|] eqn:T; [|done].
  apply from_input_Ok in T as (n & g & b & bn & sv & tv & p & era & gh & bh & d & M & N & G & B & D & V & SV & TV & ->).
  pose proof (parse_Ok _ _ D) as [DL DB]. pose proof (parse_Ok _ _ S) as [AL AB].
  unfold metadata_fits in F. rewrite M in F. destruct F as [FN FB].
  rewrite payload_raw in E by (exact DL || exact (hash_array_length _ _ G) || exact (hash_array_length _ _ B)). unfold sign in E. cbn [signing_key as_ref] in E.
  set (parameters := MkParameters n sv era (MkPayload sv tv gh bh)) in *.
  set (signature := ed25519_sign key (payload_bytes parameters d (InputTypes.input_value (load input)))) in *.
  exists n, g, b, bn, sv, tv, p, era, gh, bh, d,
    (encode_extrinsic (transaction_of parameters (ed25519_verifying_key key) d (InputTypes.input_value (load input))) signature).
  assert (BN : 0 <= bn) by (unfold in_width in FB; lia). pose proof (era_covers p bn era BN N) as (C1 & C2 & C3).
  split_and!; try done; try lia.
  - assert (text = HexCodec.encode_with_0x (encode_extrinsic (transaction_of parameters (ed25519_verifying_key key) d
      (InputTypes.input_value (load input))) signature)) as -> by (unfold encode_hex in E; unfold HexCodec.encode_with_0x, HexCodec.encode; congruence).
    assert (all_bytes (encode_extrinsic (transaction_of parameters (ed25519_verifying_key key) d (InputTypes.input_value (load input))) signature))
      as X by (apply extrinsic_bytes; [done..|apply ed25519_signature_bytes]).
    apply (decode_encoded _ true X). unfold HexCodec.encode_with_0x, HexCodec.encode. by apply trim_0x_digits, hex_encode_digits.
  - apply (read_encoded_extrinsic parameters). split; try done; [apply ed25519_signature_length|by exists p, bn].
Qed.

End properties.
End PolkadotProperties.

(** ** A concrete request, and the vectors of the tests *)

Module PolkadotConcrete.
Import PolkadotAddresses PolkadotTransfers PolkadotSigner Scale PolkadotFacts PolkadotRequests PolkadotProperties.
Import SigningConcrete HexConcrete.

#[local] Instance toy_blake2 : Blake2 := {|
  blake2b_256 bs := be_bytes 32 (of_be bs + 1);
  blake2b_512 bs := be_bytes 64 (of_be bs + 2)
|}.
#[local] Instance toy_hex_error : HexErrorText := fun _ => "invalid hex"%string.

Example compact_integer_10000 : hex_encode (encode_compact_integer 10000 []) = "419c"%string.
Proof. vm_compute. reflexivity. Qed.
Example mortal_era_64 : (let? era := new_era 64 24666537 in Ok (hex_encode (encode_era era []))) = Ok "9502"%string.
Proof. vm_compute. reflexivity. Qed.

Definition address_text (account : bytes) : string := encode account.
Definition hash_text (byte : Z) : string := HexCodec.encode_with_0x (replicate 32 byte).

Definition transfer_input : ChainSignerInput :=
  request (coin Chains.Polkadot None "DOT" 10) (address_text (ed25519_verifying_key key)) (address_text (replicate 32 9))
    10000 None 10 [] (LoadMetadata.Polkadot 3 (hash_text 0x91) (hash_text 0x6e) 24666537 1003004 26 64).

Lemma polkadot_request_signed_witness : exists text, metadata_fits transfer_input /\ sign_transfer transfer_input key = Ok text
  /\ exists sequence genesis block block_number spec_version transaction_version period era genesis_hash block_hash destination bs,
    metadata transfer_input = LoadMetadata.Polkadot sequence genesis block block_number spec_version transaction_version period
    /\ hash_array genesis = Ok genesis_hash /\ hash_array block = Ok block_hash
    /\ parse (InputTypes.sender_address (load transfer_input)) = Ok (ed25519_verifying_key key)
    /\ parse (InputTypes.destination_address (load transfer_input)) = Ok destination
    /\ new_era period block_number = Ok era
    /\ birth era block_number <= block_number < birth era block_number + Z.min 16 (PolkadotTransfers.period era)
    /\ HexCodec.decode_hex text = Ok bs
    /\ read_extrinsic (MULTI_ADDRESS_MIN_SPEC_VERSION <=? spec_version) (CHECK_METADATA_MIN_SPEC_VERSION <=? spec_version) bs
       = Some (MkExtrinsic (ed25519_verifying_key key)
                 (ed25519_sign key (payload_bytes (MkParameters sequence spec_version era
                    (MkPayload spec_version transaction_version genesis_hash block_hash)) destination
                    (InputTypes.input_value (load transfer_input))))
                 era sequence 0 destination (InputTypes.input_value (load transfer_input))).
Proof.
  assert (F : metadata_fits transfer_input) by (vm_compute; repeat split; done).
  assert (S : exists text, sign_transfer transfer_input key = Ok text) by (eexists; vm_compute; reflexivity).
  destruct S as [text S]. exists text. split; [exact F|]. split; [exact S|].
  exact (polkadot_request_signed transfer_input key text F S).
Defined.

End PolkadotConcrete.
