(* ===== verification/NumberFormatter.v ===== *)
(** * Numbers as text

    Models [crates/number_formatter/src/big_number_formatter.rs]: the conversions between integer amounts and decimal
    text (module [BigNumberFormatter]), without the functions on [f64].  A [BigDecimal] is its digits and its scale, as
    documented by the crate; its operations are the class [BigDecimalCrate], with laws on the rational number it
    denotes.  The theorems show what integer an amount typed by the user stands for, and that an amount survives its
    decimal text.  The module [Digits] holds the lemmas on decimal digits that the files on numbers share. *)
From Stdlib Require Import QArith Qabs Qpower Qround.
From stdpp Require Import pretty.
From S2P Require Import Prelude HexText Text Crates.
#[local] Open Scope Z_scope.

(** ** Decimal digits *)

Module Digits.

(** The first [n] characters and the rest *)
Fixpoint take_str (n : nat) (s : string) : string :=
  match n, s with S n, String a s => String a (take_str n s) | _, _ => EmptyString end.
Fixpoint drop_str (n : nat) (s : string) : string :=
  match n, s with S n, String _ s => drop_str n s | _, _ => s end.

(** [c.repeat(n)] *)
Fixpoint repeat_char (c : Ascii.ascii) (n : nat) : string :=
  match n with O => EmptyString | S n => String c (repeat_char c n) end.

Definition is_digit (a : Ascii.ascii) : bool := match digit_value a with Some _ => true | None => false end.

Lemma take_drop_str n s : (take_str n s +:+ drop_str n s)%string = s.
Proof.
  revert s. induction n as [|n IH]; intros [|a s]; try done. cbn [take_str drop_str].
  rewrite string_app_cons. by rewrite IH.
Qed.

Lemma take_str_length n s : String.length (take_str n s) = Nat.min n (String.length s).
Proof. revert s. induction n as [|n IH]; intros [|a s]; try done. cbn. by rewrite IH. Qed.

Lemma drop_str_length n s : String.length (drop_str n s) = (String.length s - n)%nat.
Proof. revert s. induction n as [|n IH]; intros [|a s]; try done. cbn. apply IH. Qed.

Lemma repeat_length c n : String.length (repeat_char c n) = n.
Proof. induction n as [|n IH]; [done|]. cbn. by rewrite IH. Qed.

Lemma digit_bounds a d : digit_value a = Some d -> 0 <= d <= 9.
Proof. unfold digit_value. destruct (_ && _) eqn:B; [|done]. intros E. inversion E. zbool; lia. Qed.

(** Reading digits from an accumulated value *)
Lemma parse_digits_app acc s t : parse_digits acc (s +:+ t) = (let?? v := parse_digits acc s in parse_digits v t).
Proof.
  revert acc. induction s as [|a s IH]; intros acc; [done|]. rewrite string_app_cons. cbn [parse_digits].
  destruct (digit_value a); [apply IH|done].
Qed.

Lemma parse_digits_shift s v acc : parse_digits 0 s = Some v -> parse_digits acc s = Some (acc * 10 ^ Z.of_nat (String.length s) + v).
Proof.
  assert (G : forall a, parse_digits a s = (let?? w := parse_digits 0 s in Some (a * 10 ^ Z.of_nat (String.length s) + w))).
  { clear v acc. induction s as [|c s IH]; intros a; [cbn; f_equal; lia|]. cbn [parse_digits String.length].
    destruct (digit_value c) as [d|]; [|done]. rewrite (IH (a * 10 + d)), (IH (0 * 10 + d)).
    destruct (parse_digits 0 s) as [w|]; [|done]. f_equal. rewrite Nat2Z.inj_succ, Z.pow_succ_r by lia. ring. }
  intros P. rewrite G, P. done.
Qed.

Lemma parse_digits_range s v : parse_digits 0 s = Some v -> 0 <= v < 10 ^ Z.of_nat (String.length s).
Proof.
  revert v. induction s as [|a s IH]; intros v P; [inversion P; cbn; lia|]. cbn [parse_digits] in P.
  destruct (digit_value a) as [d|] eqn:D; [|done]. apply digit_bounds in D.
  assert (Q : exists w, parse_digits 0 s = Some w).
  { destruct (parse_digits 0 s) eqn:Q; [by eexists|]. exfalso. clear -P Q.
    revert P. generalize (0 * 10 + d). intros x. revert x Q. generalize 0 as y. induction s as [|c s IH]; intros y x; [done|].
    cbn [parse_digits]. destruct (digit_value c); [|done]. apply IH. }
  destruct Q as [w Q]. rewrite (parse_digits_shift s w) in P by done. apply IH in Q.
  cbn [String.length]. rewrite Nat2Z.inj_succ, Z.pow_succ_r by lia. assert (v = _) as -> by (symmetry; by inversion P). nia.
Qed.

Lemma parse_zeros n : parse_digits 0 (repeat_char "0" n) = Some 0.
Proof. induction n as [|n IH]; [done|]. cbn. apply IH. Qed.

(** *** [to_string] of a non-negative integer *)

Lemma digit_char d : (d < 10)%N -> digit_value (pretty.pretty_N_char d) = Some (Z.of_N d).
Proof.
  intros L. assert (d = 0 \/ d = 1 \/ d = 2 \/ d = 3 \/ d = 4 \/ d = 5 \/ d = 6 \/ d = 7 \/ d = 8 \/ d = 9)%N as C by lia.
  repeat destruct C as [->|C]; try reflexivity. by subst.
Qed.

Lemma parse_pretty_go x s : parse_digits 0 (pretty.pretty_N_go x s) = parse_digits (Z.of_N x) s.
Proof.
  revert s. induction (N.lt_wf_0 x) as [x _ IH]; intros s. destruct (N.eq_dec x 0%N) as [->|N]; [done|].
  rewrite pretty.pretty_N_go_step by lia. rewrite IH by (apply N.div_lt; lia). cbn [parse_digits].
  rewrite digit_char by (by apply N.mod_lt). f_equal. rewrite <- (N2Z.inj_mul _ 10), <- N2Z.inj_add. f_equal.
  pose proof (N.div_mod x 10 ltac:(done)). lia.
Qed.

Lemma parse_pretty z : 0 <= z -> parse_digits 0 (pretty z) = Some z.
Proof.
  intros P. destruct z as [|p|p]; [done| |lia].
  change (pretty (Z.pos p)) with (pretty.pretty_N_go (N.pos p) ""). by rewrite parse_pretty_go.
Qed.

Lemma pretty_nonempty z : 0 <= z -> (1 <= String.length (pretty z))%nat.
Proof.
  intros P. pose proof (parse_pretty z P) as R. destruct (pretty z) as [|a s] eqn:E; [|cbn; lia].
  assert (z = 0) as -> by (cbn in R; congruence). done.
Qed.

(** The text of a positive number has no leading zero, so its length is that of the number. *)
Lemma pretty_go_length x s : (0 < x)%N ->
  exists k, String.length (pretty.pretty_N_go x s) = (k + 1 + String.length s)%nat /\ (10 ^ N.of_nat k <= x)%N.
Proof.
  revert s. induction (N.lt_wf_0 x) as [x _ IH]; intros s P. rewrite pretty.pretty_N_go_step by done.
  destruct (N.eq_dec (x / 10)%N 0%N) as [Z|Z].
  - rewrite Z. exists 0%nat. split; [done|]. cbn. lia.
  - destruct (IH (x / 10)%N (N.div_lt x 10 P eq_refl) (String (pretty.pretty_N_char (x mod 10)%N) s) (proj1 (N.neq_0_lt_0 _) Z)) as (k & L & B).
    exists (S k). split; [rewrite L; cbn; lia|]. rewrite Nat2N.inj_succ, N.pow_succ_r'.
    pose proof (N.mul_div_le x 10 ltac:(done)). lia.
Qed.

Lemma pretty_length z : 0 < z -> 10 ^ (Z.of_nat (String.length (pretty z)) - 1) <= z < 10 ^ Z.of_nat (String.length (pretty z)).
Proof.
  intros P. split; [|apply parse_digits_range, parse_pretty; lia]. destruct z as [|p|p]; try lia.
  change (pretty (Z.pos p)) with (pretty.pretty_N_go (N.pos p) "").
  destruct (pretty_go_length (N.pos p) "" ltac:(lia)) as (k & L & B). rewrite L. cbn [String.length].
  replace (Z.of_nat (k + 1 + 0) - 1) with (Z.of_nat k) by lia. apply N2Z.inj_le in B.
  rewrite N2Z.inj_pow, nat_N_Z in B. exact B.
Qed.

(** *** Text without a character *)

Lemma split_once_free c s t : free_of c s = true -> split_once c (s +:+ String c t) = Some (s, t).
Proof.
  unfold free_of. induction s as [|a s IH]; intros F.
  - change ("" +:+ String c t)%string with (String c t). cbn [split_once]. by rewrite Ascii.eqb_refl.
  - rewrite string_app_cons. cbn in F |- *. apply andb_true_iff in F as [A F]. apply negb_true_iff in A. rewrite A, IH by done. done.
Qed.

Lemma split_once_absent c s : free_of c s = true -> split_once c s = None.
Proof.
  unfold free_of. induction s as [|a s IH]; intros F; [done|]. cbn in F |- *. apply andb_true_iff in F as [A F].
  apply negb_true_iff in A. by rewrite A, IH.
Qed.

Lemma free_app c s t : free_of c (s +:+ t) = free_of c s && free_of c t.
Proof. apply HexFacts.string_forall_app. Qed.

Lemma parse_free c acc s v : digit_value c = None -> parse_digits acc s = Some v -> free_of c s = true.
Proof.
  intros C. unfold free_of. revert acc. induction s as [|a s IH]; intros acc P; [done|]. cbn [parse_digits string_forall] in P |- *.
  destruct (digit_value a) as [d|] eqn:D; [|done]. rewrite (IH _ P). destruct (Ascii.eqb_spec a c) as [->|]; [congruence|done].
Qed.

End Digits.

(** ** [bigdecimal] *)

(** Ten to an integer power *)
Definition p10 (k : Z) : Q := Qpower 10 k.

Lemma p10_plus a b : (p10 (a + b) == p10 a * p10 b)%Q.
Proof. apply Qpower_plus. discriminate. Qed.

Lemma p10_int k : 0 <= k -> (p10 k == inject_Z (10 ^ k))%Q.
Proof. intros K. unfold p10. rewrite Zpower_Qpower by done. reflexivity. Qed.

Lemma p10_pos k : (0 < p10 k)%Q.
Proof. by apply Qpower_0_lt. Qed.

Lemma p10_cancel k : (p10 k * p10 (- k) == 1)%Q.
Proof. rewrite <- p10_plus. replace (k + - k) with 0 by lia. reflexivity. Qed.

Lemma inject_Z_eq a b : (inject_Z a == inject_Z b)%Q -> a = b.
Proof. apply inject_Z_injective. Qed.

(** The integer part, towards zero *)
Definition Qtrunc (q : Q) : Z := if Qle_bool 0 q then Qfloor q else - Qfloor (- q).

#[export] Instance Qtrunc_proper : Proper (Qeq ==> eq) Qtrunc.
Proof. intros x y E. unfold Qtrunc. rewrite E, (Qfloor_comp _ _ E), (Qfloor_comp (- x) (- y)) by by rewrite E. done. Qed.

Lemma Qtrunc_floor q : (0 <= q)%Q -> Qtrunc q = Qfloor q.
Proof. intros P. unfold Qtrunc. apply Qle_bool_iff in P. by rewrite P. Qed.

Lemma Qtrunc_int z : Qtrunc (inject_Z z) = z.
Proof.
  unfold Qtrunc. destruct (Qle_bool _ _); [apply Qfloor_Z|]. change (- inject_Z z)%Q with (inject_Z (- z)). rewrite Qfloor_Z. lia.
Qed.

(** [BigDecimal { int_val, scale }] denotes [int_val / 10^scale]. *)
Record BigDecimal := MkDecimal { int_val : Z; scale : Z }.
Definition denotes (d : BigDecimal) : Q := (inject_Z (int_val d) * p10 (- scale d))%Q.

Class BigDecimalCrate : Type := {
  bd_from_str : string -> result string BigDecimal;
  bd_to_string : BigDecimal -> string;
  bd_div : BigDecimal -> BigDecimal -> BigDecimal;
  bd_mul : BigDecimal -> BigDecimal -> BigDecimal;
  bd_with_scale : BigDecimal -> Z -> BigDecimal;
  bd_with_scale_down : BigDecimal -> Z -> BigDecimal;
  bd_round : BigDecimal -> Z -> BigDecimal;
  bd_normalized : BigDecimal -> BigDecimal;
  bd_is_integer : BigDecimal -> bool;
  bd_to_u64 : BigDecimal -> option Z
}.

(** A division keeps a hundred significant digits, so dividing a shorter integer by a power of ten is exact. *)
Class BigDecimalLaws `{BigDecimalCrate} : Prop := {
  bd_from_int : forall z, 0 <= z -> exists x, bd_from_str (pretty z) = Ok x /\ (denotes x == inject_Z z)%Q;
  bd_from_text : forall x, exists y, bd_from_str (bd_to_string x) = Ok y /\ (denotes y == denotes x)%Q;
  bd_int_text : forall z, bd_to_string (MkDecimal z 0) = pretty z;
  bd_div_power : forall a z d, 0 <= d -> 0 <= z < 10 ^ 100 -> (denotes a == inject_Z z)%Q ->
    (denotes (bd_div a (MkDecimal (10 ^ d) 0)) == inject_Z z * p10 (- d))%Q;
  bd_mul_denotes : forall a b, (denotes (bd_mul a b) == denotes a * denotes b)%Q;
  bd_scale_truncates : forall x, bd_with_scale x 0 = MkDecimal (Qtrunc (denotes x)) 0;
  bd_scale_down : forall x s, 0 <= s -> (denotes (bd_with_scale_down x s) == inject_Z (Qtrunc (denotes x * p10 s)) * p10 (- s))%Q;
  bd_is_integer_iff : forall x, bd_is_integer x = true <-> exists z, (denotes x == inject_Z z)%Q;
  bd_normalized_denotes : forall x, (denotes (bd_normalized x) == denotes x)%Q;
  bd_normalized_form : forall x, int_val (bd_normalized x) = 0 \/ int_val (bd_normalized x) mod 10 <> 0
}.

(** [parse::<BigUint>] reads the text of a non-negative integer, and refuses a negative one. *)
Class BigUintTextLaws `{BigUintParse} : Prop := {
  biguint_parse_pretty : forall z, 0 <= z -> biguint_parse (pretty z) = Some z;
  biguint_parse_negative : forall z, z < 0 -> biguint_parse (pretty z) = None
}.

(** ** [big_number_formatter.rs] *)

Module BigNumberFormatter.

Inductive NumberFormatterError := InvalidNumber (msg : string) | ConversionError (msg : string).

(** [Display] *)
Definition error_to_string (self : NumberFormatterError) : string :=
  match self with
  | InvalidNumber msg => ("Invalid number: " +:+ msg)%string
  | ConversionError msg => ("Conversion error: " +:+ msg)%string
  end.

(** [BigDecimal::from(BigInt::from(10).pow(decimals))] *)
Definition power_of_ten (decimals : Z) : BigDecimal := MkDecimal (10 ^ decimals) 0.

Section formatter.
Context `{BigDecimalCrate} `{BigUintParse}.

Definition big_decimal_value (value : string) (decimals : Z) : result NumberFormatterError BigDecimal :=
  let? decimal := map_err InvalidNumber (bd_from_str value) in
  Ok (bd_div decimal (power_of_ten decimals)).

Definition value_as_u64 (value : string) (decimals : Z) : result NumberFormatterError Z :=
  let? decimal := big_decimal_value value decimals in
  ok_or (bd_to_u64 decimal) (ConversionError "Cannot convert to u64").

(** [decimals] is an [i32], cast to [u32]. *)
Definition value (value : string) (decimals : Z) : result NumberFormatterError string :=
  let? decimal := big_decimal_value value (as_u32 decimals) in Ok (bd_to_string decimal).

Definition parse_amount (amount : string) : result NumberFormatterError BigDecimal :=
  map_err (fun _ => InvalidNumber amount) (bd_from_str amount).

Definition value_from_amount (amount : string) (decimals : Z) : result NumberFormatterError string :=
  let? big_decimal := parse_amount amount in
  let scaled_value := bd_mul big_decimal (power_of_ten decimals) in
  Ok (bd_to_string (bd_with_scale scaled_value 0)).

Definition value_from_amount_truncated (amount : string) (decimals : Z) : result NumberFormatterError string :=
  let? big_decimal := parse_amount amount in
  if int_val big_decimal <? 0 then Err (InvalidNumber amount) else
  let truncated := bd_with_scale_down big_decimal decimals in
  value_from_amount (bd_to_string truncated) decimals.

Definition value_from_amount_exact (amount : string) (decimals : Z) : result NumberFormatterError Z :=
  let? big_decimal := parse_amount amount in
  let scaled_value := bd_mul big_decimal (power_of_ten decimals) in
  if negb (bd_is_integer scaled_value) then Err (InvalidNumber amount) else
  let scaled_string := bd_to_string (bd_with_scale scaled_value 0) in
  ok_or (biguint_parse scaled_string) (ConversionError scaled_string).

Definition value_from_amount_biguint (amount : string) (decimals : Z) : result NumberFormatterError Z :=
  let? big_decimal := parse_amount amount in
  let scaled_value := bd_mul big_decimal (power_of_ten decimals) in
  let scaled_string := bd_to_string (bd_with_scale scaled_value 0) in
  ok_or (biguint_parse scaled_string) (ConversionError scaled_string).

Definition decimal_to_string (value : BigDecimal) (max_scale : Z) : string :=
  bd_to_string (bd_normalized (bd_round value max_scale)).

End formatter.
End BigNumberFormatter.

Module BigNumberFacts.
Import BigNumberFormatter.

Section facts.
Context `{BigDecimalLaws} `{BigUintParse} `{!BigUintParseLaws} `{!BigUintTextLaws}.

Lemma denotes_power d : 0 <= d -> (denotes (power_of_ten d) == p10 d)%Q.
Proof. intros D. unfold denotes, power_of_ten. cbn [int_val scale]. rewrite (p10_int d) by done. apply Qmult_1_r. Qed.

(** An amount that denotes [v / 10^d] is scaled to [v]. *)
Lemma scaled x v d : 0 <= d -> (denotes x == inject_Z v * p10 (- d))%Q ->
  (denotes (bd_mul x (power_of_ten d)) == inject_Z v)%Q.
Proof.
  intros D X. rewrite bd_mul_denotes, denotes_power, X, <- Qmult_assoc, (Qmult_comm (p10 (- d))), p10_cancel by done.
  apply Qmult_1_r.
Qed.

Lemma value_text v d : 0 <= d < 2 ^ 31 -> 0 <= v < 10 ^ 100 -> exists t x,
  value (pretty v) d = Ok t /\ bd_from_str t = Ok x /\ (denotes x == inject_Z v * p10 (- d))%Q.
Proof.
  intros D V. unfold value, big_decimal_value, as_u32. rewrite wrap_small by (unfold in_width; lia).
  destruct (bd_from_int v) as (y & -> & Y); [lia|]. cbn [map_err]. set (z := bd_div y (power_of_ten d)).
  destruct (bd_from_text z) as (x & X & E). exists (bd_to_string z), x. split_and!; [done..|].
  rewrite E. apply bd_div_power; [lia|done..].
Qed.

(** The text of the scaled amount *)
Lemma scaled_text x d : 0 <= d ->
  bd_to_string (bd_with_scale (bd_mul x (power_of_ten d)) 0) = pretty (Qtrunc (denotes x * p10 d)).
Proof. intros D. by rewrite bd_scale_truncates, bd_mul_denotes, denotes_power, bd_int_text. Qed.

Lemma denotes_sign x q : (denotes x == q)%Q -> (0 <= q)%Q -> (int_val x <? 0) = false.
Proof.
  intros E P. rewrite <- E in P. apply Z.ltb_ge. rewrite Zle_Qle. apply (Qmult_le_r _ _ (p10 (- scale x)) (p10_pos _)).
  rewrite Qmult_0_l. exact P.
Qed.

(** An integral amount is its own scaling. *)
Lemma scaled_integral q v d : (q == inject_Z v * p10 (- d))%Q -> Qtrunc (q * p10 d) = v.
Proof.
  intros E. rewrite E, <- Qmult_assoc, (Qmult_comm (p10 (- d))), p10_cancel, Qmult_1_r. apply Qtrunc_int.
Qed.

Lemma scaled_nonneg q d : (0 <= q)%Q -> (0 <= q * p10 d)%Q.
Proof. intros P. apply Qmult_le_0_compat; [done|]. apply Qlt_le_weak, p10_pos. Qed.

Lemma Qtrunc_nonneg q : (0 <= q)%Q -> 0 <= Qtrunc q.
Proof. intros P. rewrite Qtrunc_floor by done. apply (Qfloor_resp_le 0 q P). Qed.

Lemma integer_scaled x d : 0 <= d ->
  bd_is_integer (bd_mul x (power_of_ten d)) = Qeq_bool (denotes x * p10 d) (inject_Z (Qtrunc (denotes x * p10 d))).
Proof.
  intros D. apply eq_true_iff_eq. rewrite bd_is_integer_iff, Qeq_bool_iff. split.
  - intros [z Z]. rewrite bd_mul_denotes, denotes_power in Z by done. by rewrite Z, Qtrunc_int.
  - intros E. exists (Qtrunc (denotes x * p10 d)). by rewrite bd_mul_denotes, denotes_power.
Qed.

(** Towards zero, at the scale asked for *)
Lemma truncated_scaled x d : 0 <= d ->
  Qtrunc (denotes (bd_with_scale_down x d) * p10 d) = Qtrunc (denotes x * p10 d).
Proof. intros D. apply scaled_integral. by apply bd_scale_down. Qed.

End facts.

Section theorems.
Context `{BigDecimalLaws} `{BigUintParse} `{!BigUintParseLaws} `{!BigUintTextLaws}.

(** From an amount typed by the user to the integer the chain counts: an amount that denotes [q >= 0] gives
    [floor (q * 10^decimals)], the same integer as text, as a big integer and truncated; the exact conversion gives
    it only when nothing is cut off, and refuses the amount otherwise. *)
Theorem amount_scaling amount x decimals : 0 <= decimals -> bd_from_str amount = Ok x -> (0 <= denotes x)%Q ->
  let q := (denotes x * p10 decimals)%Q in
  let v := Qfloor q in
  0 <= v /\
  value_from_amount amount decimals = Ok (pretty v) /\
  value_from_amount_biguint amount decimals = Ok v /\
  value_from_amount_truncated amount decimals = Ok (pretty v) /\
  value_from_amount_exact amount decimals = if Qeq_bool q (inject_Z v) then Ok v else Err (InvalidNumber amount).
Proof.
  intros D X P q v. pose proof (scaled_nonneg _ decimals P) as Q. fold q in Q.
  assert (v = Qtrunc q) as V by (symmetry; by apply Qtrunc_floor).
  assert (0 <= v) as N by (rewrite V; by apply Qtrunc_nonneg).
  split; [done|]. unfold value_from_amount_truncated, value_from_amount_exact, value_from_amount_biguint, value_from_amount, parse_amount.
  rewrite X. cbn [map_err]. rewrite (denotes_sign x (denotes x)), integer_scaled, !scaled_text by done.
  change (denotes x * p10 decimals)%Q with q. rewrite <- V, biguint_parse_pretty by done. split_and!; [done..| |].
  - destruct (bd_from_text (bd_with_scale_down x decimals)) as (y & -> & Y). cbn [map_err].
    rewrite scaled_text, Y, truncated_scaled by done. change (denotes x * p10 decimals)%Q with q. by rewrite <- V.
  - by destruct (Qeq_bool q (inject_Z v)).
Qed.

(** An amount below zero is refused where an unsigned integer is asked for. *)
Theorem negative_amount_refused amount x decimals : 0 <= decimals -> bd_from_str amount = Ok x -> (denotes x < 0)%Q ->
  value_from_amount_truncated amount decimals = Err (InvalidNumber amount) /\
  is_ok (value_from_amount_exact amount decimals) = false.
Proof.
  intros D X N. split.
  - unfold value_from_amount_truncated, parse_amount. rewrite X. cbn [map_err].
    destruct (Z.ltb_spec (int_val x) 0) as [|G]; [done|]. exfalso. apply (Qlt_not_le _ _ N). unfold denotes.
    apply Qmult_le_0_compat; [by rewrite Zle_Qle in G|]. apply Qlt_le_weak, p10_pos.
  - unfold value_from_amount_exact, parse_amount. rewrite X. cbn [map_err].
    rewrite integer_scaled, scaled_text by done. set (q := (denotes x * p10 decimals)%Q).
    destruct (Qeq_bool q _) eqn:E; [|done]. cbn [negb]. apply Qeq_bool_iff in E. rewrite biguint_parse_negative; [done|].
    rewrite Zlt_Qlt, <- E. unfold q. rewrite <- (Qmult_0_l (p10 decimals)). apply Qmult_lt_r; [apply p10_pos|done].
Qed.

(** The decimal text of an integer amount reads back as that amount, in every conversion. *)
Theorem amount_text_roundtrip v decimals : 0 <= decimals < 2 ^ 31 -> 0 <= v < 10 ^ 100 -> exists text,
  value (pretty v) decimals = Ok text /\
  value_from_amount text decimals = Ok (pretty v) /\
  value_from_amount_biguint text decimals = Ok v /\
  value_from_amount_truncated text decimals = Ok (pretty v) /\
  value_from_amount_exact text decimals = Ok v.
Proof.
  intros D V. destruct (value_text v decimals D V) as (t & x & T & X & E). exists t. split; [done|].
  assert (Qtrunc (denotes x * p10 decimals) = v) as S by by apply scaled_integral.
  unfold value_from_amount_truncated, value_from_amount_exact, value_from_amount_biguint, value_from_amount, parse_amount.
  rewrite X. cbn [map_err]. rewrite (denotes_sign x _ E) by (apply scaled_nonneg; change 0%Q with (inject_Z 0); rewrite <- Zle_Qle; lia).
  rewrite integer_scaled, !scaled_text, S, biguint_parse_pretty by lia. split_and!; [done..| |].
  - destruct (bd_from_text (bd_with_scale_down x decimals)) as (y & -> & Y). cbn [map_err].
    by rewrite scaled_text, Y, truncated_scaled, S by lia.
  - assert (Qeq_bool (denotes x * p10 decimals) (inject_Z v) = true) as -> by
      (apply Qeq_bool_iff; by rewrite E, <- Qmult_assoc, (Qmult_comm (p10 (- decimals))), p10_cancel, Qmult_1_r).
    done.
Qed.

End theorems.
End BigNumberFacts.

(** ** A small instance, for the witnesses

    Numbers are read as [digits], [digits.digits] or [digits e exponent] and printed as the first or the last. *)

Module NumberConcrete.
Import Digits.

Definition signed (s : string) : option Z :=
  match s with
  | String a rest => if Ascii.eqb a "-" then let?? v := parse_digits 0 rest in Some (- v) else parse_digits 0 s
  | EmptyString => None
  end.

Definition read_decimal (s : string) : option BigDecimal :=
  match split_once "e" s with
  | Some (m, e) => let?? m := signed m in let?? e := signed e in Some (MkDecimal m (- e))
  | None =>
      match split_once "." s with
      | Some (i, f) => let?? m := signed (i +:+ f) in Some (MkDecimal m (Z.of_nat (String.length f)))
      | None => let?? m := signed s in Some (MkDecimal m 0)
      end
  end.

Definition print_decimal (d : BigDecimal) : string :=
  if scale d =? 0 then pretty (int_val d) else (pretty (int_val d) +:+ String "e" (pretty (- scale d)))%string.

(** Trailing zeros moved into the scale; the digits are enough fuel. *)
Fixpoint strip_zeros (fuel : nat) (d : BigDecimal) : BigDecimal :=
  match fuel with
  | O => d
  | S fuel => if int_val d mod 10 =? 0 then strip_zeros fuel (MkDecimal (int_val d / 10) (scale d - 1)) else d
  end.

#[export] Instance small_decimal : BigDecimalCrate := {
  bd_from_str s := ok_or (read_decimal s) "not a number";
  bd_to_string := print_decimal;
  bd_div a b := MkDecimal (int_val a) (scale a - scale b + Z.of_nat (String.length (pretty (int_val b))) - 1);
  bd_mul a b := MkDecimal (int_val a * int_val b) (scale a + scale b);
  bd_with_scale x s := MkDecimal (Qtrunc (denotes x * p10 s)) s;
  bd_with_scale_down x s := MkDecimal (Qtrunc (denotes x * p10 s)) s;
  bd_round x s := MkDecimal (Qtrunc (denotes x * p10 s)) s;
  bd_normalized x := strip_zeros (String.length (pretty (Z.abs (int_val x)))) x;
  bd_is_integer x := Qeq_bool (denotes x) (inject_Z (Qtrunc (denotes x)));
  bd_to_u64 x := let v := Qtrunc (denotes x) in if (0 <=? v) && (v <=? U64_MAX) then Some v else None
}.

#[export] Instance small_parse : BigUintParse :=
  fun s => match s with EmptyString => None | _ => parse_digits 0 s end.

Lemma pretty_negative z : z < 0 -> pretty z = String "-" (pretty (- z)).
Proof. by destruct z as [|p|p]. Qed.

Lemma signed_pretty (z : Z) : signed (pretty z) = Some z.
Proof.
  destruct (Z.lt_ge_cases z 0) as [N|P].
  - rewrite pretty_negative by done. cbn [signed]. change (Ascii.eqb "-" "-") with true. cbv iota.
    rewrite parse_pretty by lia. f_equal. lia.
  - pose proof (parse_pretty z P) as E. pose proof (pretty_nonempty z P) as L. destruct (pretty z) as [|a s]; [cbn in L; lia|].
    cbn [signed]. destruct (Ascii.eqb_spec a "-") as [->|]; [done|exact E].
Qed.

Lemma pretty_free c (z : Z) : digit_value c = None -> c <> "-"%char -> free_of c (pretty z) = true.
Proof.
  intros C M. destruct (Z.lt_ge_cases z 0) as [N|P].
  - rewrite pretty_negative by done. unfold free_of. cbn [string_forall]. destruct (Ascii.eqb_spec "-" c) as [E|]; [congruence|].
    apply (parse_free c 0 _ (- z)); [done|]. apply parse_pretty. lia.
  - apply (parse_free c 0 _ z); [done|]. by apply parse_pretty.
Qed.

Lemma read_int (z : Z) : read_decimal (pretty z) = Some (MkDecimal z 0).
Proof. unfold read_decimal. rewrite !split_once_absent by by apply pretty_free. by rewrite signed_pretty. Qed.

Lemma read_print d : read_decimal (print_decimal d) = Some d.
Proof.
  unfold print_decimal. destruct d as [n s]. cbn [scale int_val]. destruct (Z.eqb_spec s 0) as [->|]; [apply read_int|].
  unfold read_decimal. rewrite split_once_free by by apply pretty_free. rewrite !signed_pretty. do 2 f_equal. lia.
Qed.

Lemma pretty_power d : 0 <= d -> Z.of_nat (String.length (pretty (10 ^ d))) = d + 1.
Proof.
  intros D. assert (0 < 10 ^ d) as P by lia. destruct (pretty_length _ P) as [L U].
  pose proof (pretty_nonempty (10 ^ d) ltac:(lia)) as N. set (n := Z.of_nat _) in *.
  apply Z.pow_le_mono_r_iff in L; [|lia..]. apply Z.pow_lt_mono_r_iff in U; lia.
Qed.

Lemma strip_denotes fuel d : (denotes (strip_zeros fuel d) == denotes d)%Q.
Proof.
  revert d. induction fuel as [|fuel IH]; intros d; cbn [strip_zeros]; [reflexivity|].
  destruct (Z.eqb_spec (int_val d mod 10) 0) as [M|]; [|reflexivity]. rewrite IH. unfold denotes. cbn [int_val scale].
  replace (int_val d) with (int_val d / 10 * 10) at 2 by (pose proof (Z.div_mod (int_val d) 10); lia).
  replace (- (scale d - 1)) with (1 + - scale d) by lia. rewrite p10_plus, inject_Z_mult, Qmult_assoc. reflexivity.
Qed.

Lemma strip_form fuel d : Z.abs (int_val d) < 10 ^ Z.of_nat fuel ->
  int_val (strip_zeros fuel d) = 0 \/ int_val (strip_zeros fuel d) mod 10 <> 0.
Proof.
  revert d. induction fuel as [|fuel IH]; intros d B; [left; cbn in *; lia|]. cbn [strip_zeros].
  destruct (Z.eqb_spec (int_val d mod 10) 0) as [M|]; [|by right]. apply IH. cbn [int_val].
  rewrite Nat2Z.inj_succ, Z.pow_succ_r in B by lia. pose proof (Z.div_mod (int_val d) 10). lia.
Qed.

#[export] Instance small_decimal_laws : BigDecimalLaws.
Proof.
  split; cbn [bd_from_str bd_to_string bd_div bd_mul bd_with_scale bd_with_scale_down bd_round bd_normalized bd_is_integer bd_to_u64 small_decimal].
  - intros z _. exists (MkDecimal z 0). rewrite read_int. split; [done|]. apply Qmult_1_r.
  - intros x. exists x. rewrite read_print. done.
  - done.
  - intros a z d D _ A. unfold denotes at 1. cbn [int_val scale]. rewrite <- A. unfold denotes.
    replace (- _) with (- scale a + - d) by (pose proof (pretty_power d D); lia). by rewrite p10_plus, Qmult_assoc.
  - intros a b. unfold denotes. cbn [int_val scale]. replace (- (scale a + scale b)) with (- scale a + - scale b) by lia.
    rewrite p10_plus, inject_Z_mult. ring.
  - intros x. f_equal. apply Qtrunc_proper, Qmult_1_r.
  - done.
  - intros x. rewrite Qeq_bool_iff. split; [by eexists|]. intros [z E]. by rewrite E, Qtrunc_int.
  - intros x. apply strip_denotes.
  - intros x. apply strip_form, parse_digits_range, parse_pretty. lia.
Qed.

#[export] Instance small_parse_laws : BigUintParseLaws.
Proof. split. intros [|a s] v P; [done|]. apply (parse_digits_range (String a s)) in P. lia. Qed.

#[export] Instance small_text_laws : BigUintTextLaws.
Proof.
  split; intros z P; unfold biguint_parse, small_parse.
  - pose proof (parse_pretty z P) as E. pose proof (pretty_nonempty z P) as L. destruct (pretty z); [cbn in L; lia|done].
  - by rewrite pretty_negative.
Qed.

Import BigNumberFormatter.

Lemma amount_scaling_witness :
  let v := Qfloor (denotes (MkDecimal 1123 3) * p10 2) in
  0 <= v /\ value_from_amount "1.123" 2 = Ok (pretty v) /\ value_from_amount_biguint "1.123" 2 = Ok v /\
  value_from_amount_truncated "1.123" 2 = Ok (pretty v) /\
  value_from_amount_exact "1.123" 2 =
    if Qeq_bool (denotes (MkDecimal 1123 3) * p10 2) (inject_Z v) then Ok v else Err (InvalidNumber "1.123").
Proof. apply (BigNumberFacts.amount_scaling "1.123" (MkDecimal 1123 3) 2); [lia|reflexivity|discriminate]. Defined.

Lemma amount_text_roundtrip_witness : exists text,
  value (pretty 332131212) 8 = Ok text /\ value_from_amount text 8 = Ok (pretty 332131212) /\
  value_from_amount_biguint text 8 = Ok 332131212 /\ value_from_amount_truncated text 8 = Ok (pretty 332131212) /\
  value_from_amount_exact text 8 = Ok 332131212.
Proof. apply (BigNumberFacts.amount_text_roundtrip 332131212 8); [lia|]. split; [lia|reflexivity]. Defined.

(** The amounts of the unit tests *)
Example amounts : value_from_amount "1.123" 3 = Ok "1123" /\ value_from_amount_exact "0.0001" 8 = Ok 10000 /\
  value_from_amount_exact "0.000000001" 8 = Err (InvalidNumber "0.000000001") /\ is_ok (value_from_amount_exact "-1" 8) = false /\
  value_from_amount_truncated "1.183818719" 8 = Ok "118381871" /\ value_from_amount_truncated "-1" 9 = Err (InvalidNumber "-1").
Proof. vm_compute. done. Qed.

End NumberConcrete.
