(* ===== verification/ValueFormatter.v ===== *)
(** * Amounts on the screen

    Models [crates/number_formatter/src/value_formatter.rs] and the thousands separator of [currency.rs]: the full and
    the automatic display of a decimal amount, on the digits and the scale of a [BigDecimal], without the functions on
    [f64].  The specification is an independent reader [shown] of displayed text; the theorems show that the full
    display is exact, that the automatic display never overstates an amount and cuts off less than it may, and that the
    integer part is grouped by three digits. *)
From Stdlib Require Import QArith Qabs Qpower Qround.
From stdpp Require Import pretty.
From S2P Require Import Prelude HexText Text Crates NumberFormatter.
#[local] Open Scope Z_scope.

Module ValueFormatter.
Import Digits.

(** [value.contains('.')] and [trim_end_matches('0')] *)
Definition contains_char (c : Ascii.ascii) (s : string) : bool := negb (free_of c s).

Fixpoint trim_end_matches (c : Ascii.ascii) (s : string) : string :=
  match s with
  | EmptyString => EmptyString
  | String a s => match trim_end_matches c s with
                  | EmptyString => if Ascii.eqb a c then EmptyString else String a EmptyString
                  | rest => String a rest
                  end
  end.

(** [chars().take_while(|&c| c == '0').count()] *)
Fixpoint leading (c : Ascii.ascii) (s : string) : nat :=
  match s with String a s => if Ascii.eqb a c then S (leading c s) else O | EmptyString => O end.

(** The loop over [chars.iter().enumerate()], from index [i] of [len] characters *)
Fixpoint separated (thousands_sep : Ascii.ascii) (len i : nat) (chars : string) : string :=
  match chars with
  | EmptyString => EmptyString
  | String ch chars =>
      let rest := String ch (separated thousands_sep len (S i) chars) in
      if ((0 <? i) && ((len - i) mod 3 =? 0))%nat then String thousands_sep rest else rest
  end.

Definition add_thousands_separator (amount_str : string) (thousands_sep decimal_sep : Ascii.ascii) : string :=
  let '(integer_part, decimal_part) :=
    match split_once "." amount_str with Some (int, dec) => (int, Some dec) | None => (amount_str, None) end in
  let '(sign, integer_part) :=
    match strip_prefix "-" integer_part with Some stripped => ("-", stripped) | None => ("", integer_part) end in
  let result := (sign +:+ separated thousands_sep (String.length integer_part) 0 integer_part)%string in
  match decimal_part with
  | Some decimal => if String.eqb decimal "" then result else (result +:+ String decimal_sep decimal)%string
  | None => result
  end.

Definition apply_thousands_separator (value : string) : string := add_thousands_separator value "," ".".

Definition strip_trailing_zeros (value : string) : string :=
  if negb (contains_char "." value) then value else
  let trimmed := trim_end_matches "0" value in
  match strip_suffix "." trimmed with Some stripped => stripped | None => trimmed end.

Definition truncate_significant (value_str : string) (max_sig : nat) : string :=
  let '(is_negative, abs_str) :=
    match strip_prefix "-" value_str with Some stripped => (true, stripped) | None => (false, value_str) end in
  let fraction := match split_once "." abs_str with Some (_, fraction) => fraction | None => "" end in
  let leading_zeros := leading "0" fraction in
  let sig_end := Nat.min (leading_zeros + max_sig) (String.length fraction) in
  ((if is_negative : bool then "-" else "") +:+ "0." +:+ take_str sig_end fraction)%string.

(** [as_bigint_and_exponent] gives the digits and the scale. *)
Definition bigdecimal_to_plain_string (decimal : BigDecimal) : string :=
  let scale := scale decimal in
  let is_negative := int_val decimal <? 0 in
  let digits := pretty (Z.abs (int_val decimal)) in
  let result :=
    if scale <=? 0 then (digits +:+ repeat_char "0" (Z.to_nat (- scale)))%string
    else
      let scale := Z.to_nat scale in
      if (String.length digits <=? scale)%nat then
        ("0." +:+ repeat_char "0" (scale - String.length digits) +:+ digits)%string
      else
        let at_ := (String.length digits - scale)%nat in
        (take_str at_ digits +:+ "." +:+ drop_str at_ digits)%string in
  if is_negative then ("-" +:+ result)%string else result.

(** [format!("{:0<2}", fraction)] *)
Definition pad_zeros (width : nat) (fraction : string) : string :=
  (fraction +:+ repeat_char "0" (width - String.length fraction))%string.

Definition format_short (decimal : BigDecimal) : string :=
  let plain := bigdecimal_to_plain_string decimal in
  let '(integer, fraction) := match split_once "." plain with Some parts => parts | None => (plain, "") end in
  let fraction := if (2 <? String.length fraction)%nat then take_str 2 fraction else fraction in
  apply_thousands_separator (integer +:+ "." +:+ pad_zeros 2 fraction)%string.

Inductive ValueStyle := Full | Auto.

Section formatter.
Context `{BigDecimalCrate}.

Definition format_full (decimal : BigDecimal) : string :=
  let plain := bigdecimal_to_plain_string (bd_normalized decimal) in
  apply_thousands_separator (strip_trailing_zeros plain).

Definition format_middle (decimal : BigDecimal) : string :=
  truncate_significant (bigdecimal_to_plain_string (bd_normalized decimal)) 4.

(** Decimals compare as the numbers they denote. *)
Definition format_auto (decimal : BigDecimal) : string :=
  if int_val decimal =? 0 then "0" else
  let abs := denotes (MkDecimal (Z.abs (int_val decimal)) (scale decimal)) in
  let one := denotes (MkDecimal 1 0) in
  let threshold := denotes (MkDecimal 1 4) in
  if Qle_bool one abs then format_short decimal
  else if Qle_bool threshold abs then format_middle decimal
  else format_full decimal.

Definition format (style : ValueStyle) (value : string) (decimals : Z)
  : result BigNumberFormatter.NumberFormatterError string :=
  let? decimal := BigNumberFormatter.big_decimal_value value (as_u32 decimals) in
  match style with Full => Ok (format_full decimal) | Auto => Ok (format_auto decimal) end.

Definition format_with_symbol (style : ValueStyle) (value : string) (decimals : Z) (symbol : string)
  : result BigNumberFormatter.NumberFormatterError string :=
  let? formatted := format style value decimals in Ok (formatted +:+ " " +:+ symbol)%string.

End formatter.
End ValueFormatter.

(** ** What a displayed amount says *)

Module Display.
Import Digits ValueFormatter.

(** The text without a character *)
Fixpoint without (c : Ascii.ascii) (s : string) : string :=
  match s with
  | EmptyString => EmptyString
  | String a s => if Ascii.eqb a c then without c s else String a (without c s)
  end.

(** The number a reader of the screen sees: the thousands separators are left out, the sign and the point are read. *)
Definition shown (text : string) : option Q :=
  let text := without "," text in
  let '(sign, body) :=
    match text with String a s => if Ascii.eqb a "-" then ((-1)%Q, s) else (1%Q, text) | EmptyString => (1%Q, text) end in
  match split_once "." body with
  | None => let?? integer := parse_digits 0 body in Some (sign * inject_Z integer)%Q
  | Some (integer, fraction) =>
      let?? i := parse_digits 0 integer in
      let?? f := parse_digits 0 fraction in
      Some (sign * (inject_Z i + inject_Z f * p10 (- Z.of_nat (String.length fraction))))%Q
  end.

(** Groups of three digits, the first one possibly shorter *)
Inductive Grouped : string -> Prop :=
  | GroupedHead s : string_forall is_digit s = true -> (1 <= String.length s <= 3)%nat -> Grouped s
  | GroupedMore g s : Grouped g -> string_forall is_digit s = true -> String.length s = 3%nat -> Grouped (g +:+ String "," s)%string.

(** The shape of a displayed amount *)
Definition dotted (fraction : string) : string := if String.eqb fraction "" then "" else String "." fraction.
Definition decimal_text (negative : bool) (integer fraction : string) : string :=
  ((if negative then "-" else "") +:+ integer +:+ dotted fraction)%string.

Definition well_formed (text : string) : Prop := exists negative integer fraction,
  Grouped integer /\ string_forall is_digit fraction = true /\ text = decimal_text negative integer fraction.

End Display.

(** ** Facts *)

Module DisplayFacts.
Import Digits ValueFormatter Display.

Definition digits (s : string) : Prop := string_forall is_digit s = true.
Definition num (s : string) : Z := default 0 (parse_digits 0 s).
Definition size (s : string) : Z := Z.of_nat (String.length s).

(** The number [integer.fraction] *)
Definition amount (integer fraction : string) : Q := (inject_Z (num integer) + inject_Z (num fraction) * p10 (- size fraction))%Q.

(** *** Strings of digits *)

Lemma digits_app s t : digits (s +:+ t) <-> digits s /\ digits t.
Proof. unfold digits. rewrite HexFacts.string_forall_app, andb_true_iff. done. Qed.

Lemma digits_cut n s : digits s -> digits (take_str n s) /\ digits (drop_str n s).
Proof. intros D. apply digits_app. by rewrite take_drop_str. Qed.

Lemma digits_parse s : digits s <-> parse_digits 0 s = Some (num s).
Proof.
  assert (G : forall acc, digits s <-> exists v, parse_digits acc s = Some v).
  { unfold digits. induction s as [|a s IH]; intros acc; cbn [string_forall parse_digits]; [split; [by eexists|done]|].
    unfold is_digit at 1. destruct (digit_value a) as [d|]; [apply IH|]. split; [done|by intros [? ?]]. }
  rewrite (G 0). unfold num. destruct (parse_digits 0 s); (split; [|try done]).
  - done.
  - intros _. by eexists.
  - by intros [? ?].
Qed.

Lemma num_app s t : digits s -> digits t -> num (s +:+ t) = num s * 10 ^ size t + num t.
Proof.
  intros S T. apply digits_parse in S, T. unfold num at 1. rewrite parse_digits_app, S. cbn [mbind option_bind].
  by rewrite (parse_digits_shift _ _ _ T).
Qed.

Lemma num_bounds s : digits s -> 0 <= num s < 10 ^ size s.
Proof. intros D. apply parse_digits_range. by apply digits_parse. Qed.

Lemma size_app s t : size (s +:+ t) = size s + size t.
Proof. unfold size. rewrite string_length_app. lia. Qed.

Lemma digits_zeros n : digits (repeat_char "0" n).
Proof. induction n; done. Qed.

Lemma num_zeros n : num (repeat_char "0" n) = 0.
Proof. unfold num. by rewrite parse_zeros. Qed.

Lemma size_zeros n : size (repeat_char "0" n) = Z.of_nat n.
Proof. unfold size. by rewrite repeat_length. Qed.

Lemma digits_pretty z : 0 <= z -> digits (pretty z).
Proof. intros P. apply digits_parse. unfold num. by rewrite parse_pretty. Qed.

Lemma num_pretty z : 0 <= z -> num (pretty z) = z.
Proof. intros P. unfold num. by rewrite parse_pretty. Qed.

Lemma digits_free c s : is_digit c = false -> digits s -> free_of c s = true.
Proof.
  intros C. unfold digits, free_of. induction s as [|a s IH]; [done|]. cbn [string_forall]. rewrite !andb_true_iff.
  intros [A S]. split; [|by apply IH]. destruct (Ascii.eqb_spec a c) as [->|]; [congruence|done].
Qed.

Lemma digits_head a s : digits (String a s) -> Ascii.eqb a "-" = false.
Proof. intros D. apply (digits_free "-"%char) in D; [|done]. cbn in D. apply andb_true_iff in D as [D _]. by apply negb_true_iff. Qed.

(** *** Cutting characters *)

Lemma take_str_all n s : (String.length s <= n)%nat -> take_str n s = s.
Proof. revert s. induction n as [|n IH]; intros [|a s] L; try done; cbn in L |- *; [lia|]. rewrite IH; [done|lia]. Qed.

Lemma take_str_nonempty n s : (0 < n)%nat -> s <> "" -> take_str n s <> "".
Proof. intros N S. destruct n as [|n]; [lia|]. by destruct s. Qed.

Lemma trim_end_app c s a t : Ascii.eqb a c = false ->
  trim_end_matches c (s +:+ String a t) = (s +:+ String a (trim_end_matches c t))%string.
Proof.
  intros A. induction s as [|b s IH].
  - change (trim_end_matches c (String a t) = String a (trim_end_matches c t)). cbn. rewrite A. by destruct (trim_end_matches c t).
  - rewrite !string_app_cons. cbn [trim_end_matches]. rewrite IH. by destruct s.
Qed.

Lemma trim_end_spec c s : exists k, s = (trim_end_matches c s +:+ repeat_char c k)%string.
Proof.
  induction s as [|a s [k IH]]; [by exists 0%nat|]. cbn [trim_end_matches].
  destruct (trim_end_matches c s) as [|b t]; [|exists k; by rewrite string_app_cons, <- IH].
  change ("" +:+ repeat_char c k)%string with (repeat_char c k) in IH.
  destruct (Ascii.eqb_spec a c) as [->|]; [exists (S k)|exists k]; by rewrite IH at 1.
Qed.

Lemma display_strip_suffix_Some suffix s r : strip_suffix suffix s = Some r -> s = (r +:+ suffix)%string.
Proof.
  revert r. induction s as [|a s IH]; intros r; cbn [strip_suffix].
  - destruct (String.eqb_spec suffix "") as [->|]; [by intros [= <-]|done].
  - destruct (String.eqb_spec suffix (String a s)) as [->|]; [by intros [= <-]|].
    destruct (strip_suffix suffix s) as [t|]; [|done]. intros [= <-]. by rewrite (IH t).
Qed.

Lemma strip_point s : free_of "." s = true -> strip_suffix "." (s +:+ ".") = Some s.
Proof.
  induction s as [|a s IH]; intros F; [done|]. rewrite string_app_cons. unfold free_of in F, IH. cbn in F.
  apply andb_true_iff in F as [A F]. cbn [strip_suffix]. destruct (String.eqb_spec "." (String a (s +:+ "."))) as [E|].
  - by destruct s.
  - by rewrite IH.
Qed.

Lemma strip_no_point s t : t <> "" -> free_of "." t = true -> strip_suffix "." (s +:+ t) = None.
Proof.
  intros N F. assert (strip_suffix "." t = None) as T.
  { destruct (strip_suffix "." t) as [r|] eqn:E; [|done]. apply display_strip_suffix_Some in E. subst t.
    rewrite free_app in F. apply andb_true_iff in F as [_ F]. done. }
  induction s as [|a s IH]; [exact T|]. rewrite string_app_cons. cbn [strip_suffix].
  destruct (String.eqb_spec "." (String a (s +:+ t))) as [E|]; [|by rewrite IH]. exfalso. destruct s; [by destruct t|done].
Qed.

(** *** Amounts *)

Lemma p10_inv_int k : 0 <= k -> (inject_Z (10 ^ k) * p10 (- k) == 1)%Q.
Proof. intros K. rewrite <- p10_int by done. apply p10_cancel. Qed.

(** Digits before and after the point are one number at a scale. *)
Lemma amount_joined i f : digits i -> digits f -> (amount i f == inject_Z (num (i +:+ f)) * p10 (- size f))%Q.
Proof.
  intros I F. unfold amount. rewrite num_app, inject_Z_plus, inject_Z_mult, Qmult_plus_distr_l, <- Qmult_assoc by done.
  rewrite p10_inv_int, Qmult_1_r by (unfold size; lia). reflexivity.
Qed.

Lemma amount_tail i f g : digits f -> digits g ->
  (amount i (f +:+ g) == amount i f + inject_Z (num g) * p10 (- (size f + size g)))%Q.
Proof.
  intros F G. unfold amount. rewrite num_app, size_app, inject_Z_plus, inject_Z_mult by done.
  replace (- (size f + size g)) with (- size g + - size f) by lia. rewrite p10_plus.
  transitivity (inject_Z (num i) + (inject_Z (num f) * (inject_Z (10 ^ size g) * p10 (- size g)) * p10 (- size f) +
    inject_Z (num g) * (p10 (- size g) * p10 (- size f))))%Q; [ring|].
  rewrite p10_inv_int by (unfold size; lia). ring.
Qed.

Lemma tail_bounds g k : digits g -> (0 <= inject_Z (num g) * p10 (- (k + size g)) < p10 (- k))%Q.
Proof.
  intros G. pose proof (num_bounds g G) as [L U]. pose proof (p10_pos (- (k + size g))) as P. split.
  - apply Qmult_le_0_compat; [change 0%Q with (inject_Z 0); by rewrite <- Zle_Qle|by apply Qlt_le_weak].
  - apply (Qlt_le_trans _ (inject_Z (10 ^ size g) * p10 (- (k + size g)))).
    + apply Qmult_lt_r; [done|]. by rewrite <- Zlt_Qlt.
    + replace (- (k + size g)) with (- size g + - k) by lia.
      rewrite p10_plus, Qmult_assoc, p10_inv_int, Qmult_1_l by (unfold size; lia). apply Qle_refl.
Qed.

(** Digits dropped at the end make the amount smaller by less than a unit of the last one kept. *)
Lemma amount_cut i f n : digits f -> let kept := take_str n f in
  (amount i kept <= amount i f /\ amount i f < amount i kept + p10 (- size kept))%Q.
Proof.
  intros F kept. pose proof (digits_cut n f F) as [K D]. fold kept in K.
  assert (amount i f == amount i kept + inject_Z (num (drop_str n f)) * p10 (- (size kept + size (drop_str n f))))%Q as ->
    by (rewrite <- (take_drop_str n f) at 1; by apply amount_tail).
  pose proof (tail_bounds _ (size kept) D) as [L U]. split.
  - rewrite <- (Qplus_0_r (amount i kept)) at 1. by apply Qplus_le_r.
  - by apply Qplus_lt_r.
Qed.

Lemma amount_zeros i f k : digits f -> (amount i (f +:+ repeat_char "0" k) == amount i f)%Q.
Proof. intros F. rewrite amount_tail, num_zeros by (done || apply digits_zeros). ring. Qed.

Lemma amount_nonneg i f : digits i -> digits f -> (0 <= amount i f)%Q.
Proof.
  intros I F. rewrite amount_joined by done. apply Qmult_le_0_compat; [|by apply Qlt_le_weak, p10_pos].
  change 0%Q with (inject_Z 0). rewrite <- Zle_Qle. apply num_bounds. by apply digits_app.
Qed.

(** *** The thousands separator *)

Lemma without_app c s t : without c (s +:+ t) = (without c s +:+ without c t)%string.
Proof.
  induction s as [|a s IH]; [done|]. rewrite string_app_cons. cbn [without]. rewrite IH. by destruct (Ascii.eqb a c).
Qed.

Lemma without_free c s : free_of c s = true -> without c s = s.
Proof.
  unfold free_of. induction s as [|a s IH]; intros F; [done|]. cbn in F |- *. apply andb_true_iff in F as [A F].
  apply negb_true_iff in A. by rewrite A, IH.
Qed.

Lemma without_separated c len i s : free_of c s = true -> without c (separated c len i s) = s.
Proof.
  unfold free_of. revert i. induction s as [|a s IH]; intros i F; [done|]. cbn in F. apply andb_true_iff in F as [A F].
  apply negb_true_iff in A. cbn [separated]. destruct (_ && _); cbn [without]; rewrite ?Ascii.eqb_refl, A, IH by done; done.
Qed.

Lemma separated_app c len i s t :
  separated c len i (s +:+ t) = (separated c len i s +:+ separated c len (i + String.length s) t)%string.
Proof.
  revert i. induction s as [|a s IH]; intros i.
  - change ("" +:+ t)%string with t. cbn [String.length separated]. by rewrite Nat.add_0_r.
  - rewrite string_app_cons. cbn [String.length separated]. rewrite IH, Nat.add_succ_r. by destruct (_ && _).
Qed.

Lemma separated_shift c len i s : (i + String.length s <= len)%nat -> separated c (len + 3) i s = separated c len i s.
Proof.
  revert i. induction s as [|a s IH]; intros i L; [done|]. cbn [String.length separated] in L |- *. rewrite IH by lia.
  replace (len + 3 - i)%nat with (len - i + 1 * 3)%nat by lia. by rewrite Nat.Div0.mod_add.
Qed.

Lemma separated_short c s : (String.length s <= 3)%nat -> separated c (String.length s) 0 s = s.
Proof. intros L. destruct s as [|x [|y [|z [|]]]]; [done..|]. cbn in L. lia. Qed.

Lemma separated_group c i t : (0 < i)%nat -> String.length t = 3%nat -> separated c (i + 3) i t = String c t.
Proof.
  intros I L. destruct t as [|x [|y [|z [|]]]]; try done. cbn [separated].
  replace (i + 3 - i)%nat with 3%nat by lia. replace (i + 3 - S i)%nat with 2%nat by lia.
  replace (i + 3 - S (S i))%nat with 1%nat by lia. destruct i; [lia|done].
Qed.

Lemma separated_grouped s : digits s -> s <> "" -> Grouped (separated "," (String.length s) 0 s).
Proof.
  remember (String.length s) as n eqn:N. revert s N. induction (lt_wf n) as [n _ IH]. intros s -> D S.
  destruct (decide (String.length s <= 3)%nat) as [L|L].
  - rewrite separated_short by done. apply GroupedHead; [done|]. destruct s; [done|]. cbn in L |- *. lia.
  - set (k := (String.length s - 3)%nat). pose proof (take_drop_str k s) as E. pose proof (digits_cut k s D) as [T R].
    assert (String.length (take_str k s) = k) as TL by (rewrite take_str_length; lia).
    assert (String.length (drop_str k s) = 3%nat) as RL by (rewrite drop_str_length; lia).
    assert (take_str k s <> "") as TN by (intros X; rewrite X in TL; cbn in TL; lia).
    replace (String.length s) with (k + 3)%nat by lia. rewrite <- E, separated_app, TL.
    rewrite separated_group, separated_shift by (rewrite ?TL; lia). apply GroupedMore; [|done..].
    apply (IH k); [lia|done..].
Qed.

Lemma grouped_digits s : Grouped s -> digits (without "," s) /\ without "," s <> "".
Proof.
  assert (W : forall t, digits t -> without "," t = t) by (intros; by apply without_free, digits_free).
  induction 1 as [s D L|g s _ [IH N] D L].
  - rewrite W by done. split; [done|]. destruct s; [cbn in L; lia|done].
  - rewrite without_app. change (without "," (String "," s)) with (without "," s). rewrite (W s) by done; rewrite digits_app.
    split; [done|]. by destruct (without "," g).
Qed.

(** *** The texts of the display *)

Definition sign_of (negative : bool) : Q := if negative then (-1)%Q else 1%Q.

Lemma dotted_cons f : f <> "" -> dotted f = String "." f.
Proof. by destruct f. Qed.

Lemma sign_free (negative : bool) i : digits i -> free_of "." ((if negative then "-" else "") +:+ i) = true.
Proof. intros I. rewrite free_app, (digits_free "." i) by done. by destruct negative. Qed.

Lemma split_decimal_text negative i f : digits i -> digits f ->
  split_once "." (decimal_text negative i f) =
  if String.eqb f "" then None else Some (((if negative then "-" else "") +:+ i)%string, f).
Proof.
  intros I F. unfold decimal_text. rewrite <- string_app_assoc. destruct (String.eqb_spec f "") as [->|N].
  - apply split_once_absent. rewrite free_app, sign_free by done. done.
  - rewrite dotted_cons by done. by apply split_once_free, sign_free.
Qed.

Lemma strip_sign (negative : bool) i r : digits i -> i <> "" ->
  strip_prefix "-" ((if negative then "-" else "") +:+ i +:+ r) = if negative then Some (i +:+ r)%string else None.
Proof.
  intros I N. destruct negative; [by apply strip_prefix_iff|]. destruct i as [|a i]; [done|]. apply digits_head in I.
  change ("" +:+ String a i +:+ r)%string with (String a (i +:+ r)). cbn [strip_prefix]. by rewrite Ascii.eqb_sym, I.
Qed.

Lemma app_empty (s : string) : (s +:+ "")%string = s.
Proof. induction s as [|a s IH]; [done|]. by rewrite string_app_cons, IH. Qed.

Lemma separator_text negative i f : digits i -> i <> "" -> digits f ->
  apply_thousands_separator (decimal_text negative i f) = decimal_text negative (separated "," (String.length i) 0 i) f.
Proof.
  intros I N F. unfold apply_thousands_separator, add_thousands_separator. rewrite split_decimal_text by done.
  pose proof (strip_sign negative i "" I N) as S. rewrite app_empty in S.
  destruct (String.eqb_spec f "") as [->|NF].
  - unfold decimal_text. change (dotted "") with "". rewrite !app_empty, S. by destruct negative.
  - rewrite S. unfold decimal_text. rewrite (dotted_cons f) by done. destruct (String.eqb_spec f ""); [done|].
    rewrite <- string_app_assoc. by destruct negative.
Qed.

Lemma strip_zeros_text negative i f : digits i -> digits f ->
  strip_trailing_zeros (decimal_text negative i f) = decimal_text negative i (trim_end_matches "0" f).
Proof.
  intros I F. unfold strip_trailing_zeros, contains_char, decimal_text. rewrite <- !string_app_assoc, free_app, sign_free by done.
  destruct (String.eqb_spec f "") as [->|N]; [done|]. rewrite dotted_cons by done. cbn [andb negb].
  change (free_of "." (String "." f)) with false. cbn [negb]. rewrite trim_end_app by done.
  destruct (trim_end_spec "0" f) as [k E]. rewrite E in F. apply digits_app in F as [F _].
  destruct (trim_end_matches "0" f) as [|a t] eqn:T.
  - rewrite strip_point by by apply sign_free. change (dotted "") with "". by rewrite app_empty.
  - change (String "." (String a t)) with ("." +:+ String a t)%string. rewrite <- string_app_assoc, strip_no_point; [|done|by apply digits_free].
    by rewrite string_app_assoc.
Qed.

(** The reader sees the sign and the digits. *)
Lemma shown_text negative g f : Grouped g -> digits f ->
  exists q, shown (decimal_text negative g f) = Some q /\ (q == sign_of negative * amount (without "," g) f)%Q.
Proof.
  intros G F. apply grouped_digits in G as [I N]. unfold shown.
  assert (without "," (decimal_text negative g f) = decimal_text negative (without "," g) f) as ->.
  { unfold decimal_text. rewrite !without_app. f_equal; [by destruct negative|]. f_equal. unfold dotted.
    destruct (String.eqb_spec f ""); [done|]. apply without_free. cbn. by apply (digits_free ","). }
  set (i := without "," g) in *.
  assert (B : (match decimal_text negative i f with
    | String a s => if Ascii.eqb a "-" then ((-1)%Q, s) else (1%Q, decimal_text negative i f)
    | EmptyString => (1%Q, decimal_text negative i f) end) = (sign_of negative, decimal_text false i f)).
  { clearbody i. destruct negative; [done|]. destruct i as [|a i']; [done|].
    change (decimal_text false (String a i') f) with (String a (i' +:+ dotted f)). cbv iota. by rewrite (digits_head a i'). }
  rewrite B, split_decimal_text by done. apply digits_parse in I. pose proof F as F'. apply digits_parse in F'.
  destruct (String.eqb_spec f "") as [->|NF].
  - unfold decimal_text. change (dotted "") with "". rewrite app_empty. change ("" +:+ i)%string with i. rewrite I.
    eexists. split; [done|]. unfold amount. change (num "") with 0. ring.
  - change ("" +:+ i)%string with i. rewrite I, F'. by eexists.
Qed.

(** *** The digits and the scale of a decimal as text *)

Lemma denotes_abs d : (Qabs (denotes d) == inject_Z (Z.abs (int_val d)) * p10 (- scale d))%Q.
Proof.
  unfold denotes. rewrite Qabs_Qmult, (Qabs_pos (p10 _)) by apply Qlt_le_weak, p10_pos. reflexivity.
Qed.

Lemma denotes_signed d : (denotes d == sign_of (int_val d <? 0) * Qabs (denotes d))%Q.
Proof.
  rewrite denotes_abs. unfold denotes. destruct (Z.ltb_spec (int_val d) 0).
  - rewrite Z.abs_neq by lia. rewrite inject_Z_opp. unfold sign_of. ring.
  - rewrite Z.abs_eq by lia. unfold sign_of. ring.
Qed.

(** The text without its sign *)
Definition plain_digits (d : BigDecimal) : string :=
  let digits := pretty (Z.abs (int_val d)) in
  if scale d <=? 0 then (digits +:+ repeat_char "0" (Z.to_nat (- scale d)))%string
  else if (String.length digits <=? Z.to_nat (scale d))%nat then
    ("0." +:+ repeat_char "0" (Z.to_nat (scale d) - String.length digits) +:+ digits)%string
  else
    (take_str (String.length digits - Z.to_nat (scale d)) digits +:+ "." +:+
      drop_str (String.length digits - Z.to_nat (scale d)) digits)%string.

Lemma plain_view d : exists i f, bigdecimal_to_plain_string d = decimal_text (int_val d <? 0) i f /\
  digits i /\ i <> "" /\ digits f /\ (amount i f == Qabs (denotes d))%Q.
Proof.
  unfold bigdecimal_to_plain_string. set (n := Z.abs (int_val d)). set (s := pretty n).
  assert (N : 0 <= n) by lia. pose proof (digits_pretty n N) as D. pose proof (num_pretty n N) as V.
  pose proof (pretty_nonempty n N) as L. fold s in D, V, L.
  enough (exists i f, (if int_val d <? 0 then ("-" +:+ plain_digits d)%string else plain_digits d) = decimal_text (int_val d <? 0) i f /\
    digits i /\ i <> "" /\ digits f /\ (amount i f == inject_Z n * p10 (- scale d))%Q) as (i & f & E & I & NI & F & A).
  { exists i, f. split_and!; [exact E|done..|]. by rewrite denotes_abs. }
  unfold plain_digits. fold n. fold s.
  assert (G : forall i f, digits i -> i <> "" -> digits f -> (amount i f == inject_Z n * p10 (- scale d))%Q ->
    exists i0 f0, (if int_val d <? 0 then ("-" +:+ i +:+ dotted f)%string else (i +:+ dotted f)%string) = decimal_text (int_val d <? 0) i0 f0 /\
    digits i0 /\ i0 <> "" /\ digits f0 /\ (amount i0 f0 == inject_Z n * p10 (- scale d))%Q).
  { intros i f I NI F A. exists i, f. split_and!; [|done..]. by destruct (int_val d <? 0). }
  destruct (Z.leb_spec (scale d) 0) as [S|S].
  - set (z := repeat_char "0" (Z.to_nat (- scale d))).
    specialize (G (s +:+ z)%string ""). change (dotted "") with "" in G. rewrite app_empty in G. apply G.
    + apply digits_app. split; [done|apply digits_zeros].
    + by destruct s; [cbn in L; lia|].
    + done.
    + unfold amount, z. rewrite num_app, num_zeros, size_zeros, V, Z2Nat.id, Z.add_0_r by (apply digits_zeros || done || lia).
      change (num "") with 0. rewrite inject_Z_mult, <- p10_int by lia. ring.
  - assert (P : s <> "") by (destruct s; [cbn in L; lia|done]).
    set (k := Z.to_nat (scale d)). assert (K : scale d = Z.of_nat k) by (unfold k; lia).
    destruct (Nat.leb_spec (String.length s) k) as [B|B].
    + set (f := (repeat_char "0" (k - String.length s) +:+ s)%string). specialize (G "0" f).
      rewrite dotted_cons in G by (unfold f; destruct (k - String.length s)%nat; done). apply G; [done..| |].
      * apply digits_app. split; [apply digits_zeros|done].
      * unfold amount. assert (num f = n) as -> by (unfold f; rewrite num_app, num_zeros, V by (apply digits_zeros || done); lia).
        assert (size f = scale d) as -> by (unfold f, size; rewrite string_length_app, repeat_length; lia).
        change (num "0") with 0. ring.
    + pose proof (digits_cut (String.length s - k) s D) as [I F]. pose proof (take_drop_str (String.length s - k) s) as E.
      set (i := take_str _ s) in *. set (f := drop_str _ s) in *.
      assert (size f = scale d) as SF by (unfold f, size; rewrite drop_str_length; lia).
      specialize (G i f). rewrite dotted_cons in G by (intros X; rewrite X in SF; change (size "") with 0 in SF; lia). apply G; [done| |done|].
      * apply take_str_nonempty; [lia|done].
      * by rewrite amount_joined, E, V, SF by done.
Qed.

(** *** The three displays *)

Definition negative (d : BigDecimal) : bool := int_val d <? 0.

Lemma negative_denotes d : negative d = negb (Qle_bool 0 (denotes d)).
Proof.
  unfold negative. destruct (Qle_bool 0 (denotes d)) eqn:E.
  - apply Qle_bool_iff in E. by apply (BigNumberFacts.denotes_sign d (denotes d)).
  - destruct (Z.ltb_spec (int_val d) 0) as [|N]; [done|]. cbn [negb].
    assert (Qle_bool 0 (denotes d) = true) as T; [|congruence]. apply Qle_bool_iff. unfold denotes.
    apply Qmult_le_0_compat; [|by apply Qlt_le_weak, p10_pos]. change 0%Q with (inject_Z 0). by rewrite <- Zle_Qle.
Qed.

(** A text of the display that stands for [a], up to the sign *)
Definition displays (text : string) (neg : bool) (a : Q) : Prop := exists g f,
  text = decimal_text neg g f /\ Grouped g /\ digits f /\ (a == amount (without "," g) f)%Q.

Lemma displays_shown text neg a : displays text neg a ->
  well_formed text /\ exists q, shown text = Some q /\ (q == sign_of neg * a)%Q.
Proof.
  intros (g & f & -> & G & F & A). split; [by exists neg, g, f|].
  destruct (shown_text neg g f G F) as (q & S & E). exists q. split; [done|]. by rewrite E, A.
Qed.

Lemma separated_displays neg i f : digits i -> i <> "" -> digits f ->
  displays (apply_thousands_separator (decimal_text neg i f)) neg (amount i f).
Proof.
  intros I N F. exists (separated "," (String.length i) 0 i), f. rewrite separator_text by done. split_and!; [done| |done|].
  - by apply separated_grouped.
  - rewrite without_separated by by apply digits_free. reflexivity.
Qed.

#[export] Instance displays_proper text neg : Proper (Qeq ==> iff) (displays text neg).
Proof. intros x y E. unfold displays. setoid_rewrite E. done. Qed.

Lemma short_displays d : exists a, displays (format_short d) (negative d) a /\
  (0 <= a <= Qabs (denotes d) /\ Qabs (denotes d) < a + p10 (-2))%Q.
Proof.
  destruct (plain_view d) as (i & f & E & I & N & F & A). unfold format_short. rewrite E, split_decimal_text by done.
  set (k := take_str 2 f). pose proof (digits_cut 2 f F) as [K _]. fold k in K.
  assert (P : format_short d = apply_thousands_separator (decimal_text (negative d) i (pad_zeros 2 k))).
  { unfold format_short. rewrite E, split_decimal_text by done. unfold decimal_text at 2. rewrite dotted_cons by
      (unfold pad_zeros; destruct k as [|a [|b k']]; done).
    destruct (String.eqb_spec f "") as [X|_].
    - unfold k. rewrite X. unfold decimal_text. change (dotted "") with "". by rewrite app_empty, !string_app_assoc.
    - assert ((if (2 <? String.length f)%nat then take_str 2 f else f) = k) as ->; [|by rewrite !string_app_assoc].
      unfold k. destruct (Nat.ltb_spec 2 (String.length f)); [done|]. by rewrite take_str_all. }
  unfold format_short in P. rewrite E, split_decimal_text in P by done. rewrite P. exists (amount i (pad_zeros 2 k)).
  assert (digits (pad_zeros 2 k)) as D by (apply digits_app; split; [done|apply digits_zeros]).
  pose proof (amount_cut i f 2 F) as [L U]. fold k in L, U. rewrite A in L, U. unfold pad_zeros in *.
  split; [by apply separated_displays|]. rewrite (amount_zeros i k _ K). split_and!; [by apply amount_nonneg|done|].
  destruct (decide (String.length f <= 2)%nat) as [S|S].
  - unfold k. rewrite take_str_all, A by done. rewrite <- (Qplus_0_r (Qabs _)) at 1. apply Qplus_lt_r, p10_pos.
  - assert (- size k = -2) as <-; [|done]. unfold k, size. rewrite take_str_length. lia.
Qed.

Lemma num_cons a s d : digit_value a = Some d -> digits s -> num (String a s) = d * 10 ^ size s + num s.
Proof.
  intros A D. apply digits_parse in D. unfold num at 1. cbn [parse_digits]. rewrite A. cbn [mbind option_bind].
  by rewrite (parse_digits_shift _ _ _ D).
Qed.

(** The first digit that is not a zero *)
Lemma leading_bounds f : digits f -> num f <> 0 ->
  (leading "0" f < String.length f)%nat /\ 10 ^ (size f - Z.of_nat (leading "0" f) - 1) <= num f.
Proof.
  induction f as [|a f IH]; intros D N; [done|]. unfold digits in D. cbn [string_forall] in D. apply andb_true_iff in D as [A D].
  unfold is_digit in A. destruct (digit_value a) as [d|] eqn:V; [|done]. rewrite (num_cons a f d V D) in N |- *.
  pose proof (num_bounds f D) as B. unfold size in *. cbn [leading String.length]. destruct (Ascii.eqb_spec a "0") as [->|Z].
  - assert (d = 0) as -> by (vm_compute in V; congruence). destruct (IH D ltac:(lia)) as [L U]. split; [lia|].
    replace (Z.of_nat (S (String.length f)) - Z.of_nat (S (leading "0" f)) - 1) with
      (Z.of_nat (String.length f) - Z.of_nat (leading "0" f) - 1) by lia. lia.
  - assert (d <> 0) as X.
    { intros ->. apply Z. clear -V. unfold digit_value in V. destruct (_ && _); [|done].
      assert (Ascii.nat_of_ascii a = 48%nat) as E by (inversion V; lia). by rewrite <- (Ascii.ascii_nat_embedding a), E. }
    apply digit_bounds in V. split; [lia|]. replace (Z.of_nat (S (String.length f)) - Z.of_nat 0 - 1) with (Z.of_nat (String.length f)) by lia.
    nia.
Qed.

Lemma p10_le a b : a <= b -> (p10 a <= p10 b)%Q.
Proof. intros L. by apply Qpower_le_compat_l. Qed.

Lemma truncate_text neg i f n : digits i -> i <> "" -> digits f ->
  truncate_significant (decimal_text neg i f) n =
  ((if neg : bool then "-" else "") +:+ "0." +:+ take_str (Nat.min (leading "0" f + n) (String.length f)) f)%string.
Proof.
  intros I N F. unfold truncate_significant. unfold decimal_text. rewrite strip_sign by done.
  assert (split_once "." (i +:+ dotted f) = if String.eqb f "" then None else Some (i, f)) as S by exact (split_decimal_text false i f I F).
  destruct neg; [|change ("" +:+ i +:+ dotted f)%string with (i +:+ dotted f)%string];
    rewrite S; by destruct (String.eqb_spec f "") as [->|].
Qed.

(** An amount below one keeps four digits from the first that is not a zero. *)
Lemma significant_cut i f : digits i -> i <> "" -> digits f -> (amount i f < 1)%Q -> ~ (amount i f == 0)%Q -> forall neg,
  exists a, displays (truncate_significant (decimal_text neg i f) 4) neg a /\
  (0 <= a <= amount i f /\ amount i f - a <= amount i f / 1000)%Q.
Proof.
  intros I N F B P neg. pose proof (num_bounds i I) as NI. pose proof (tail_bounds f 0 F) as [TL _].
  assert (num i = 0) as Z.
  { destruct (decide (num i = 0)) as [|X]; [done|]. exfalso. apply (Qlt_not_le _ _ B). unfold amount.
    rewrite Z.add_0_l in TL. rewrite <- (Qplus_0_r 1). apply Qplus_le_compat; [|done]. change 1%Q with (inject_Z 1).
    rewrite <- Zle_Qle. lia. }
  assert (num f <> 0) as NF by (intros X; apply P; unfold amount; rewrite Z, X; ring).
  destruct (leading_bounds f F NF) as [L U]. rewrite truncate_text by done. set (z := leading "0" f) in *.
  set (k := Nat.min (z + 4) (String.length f)). pose proof (amount_cut i f k F) as [CL CU]. pose proof (digits_cut k f F) as [K _].
  assert (K0 : forall g, (amount "0" g == amount i g)%Q) by (intros g; unfold amount; rewrite Z; reflexivity).
  exists (amount i (take_str k f)). split.
  - exists "0", (take_str k f). split_and!; [|by apply GroupedHead; cbn; [|lia]|done|symmetry; apply K0].
    unfold decimal_text. rewrite dotted_cons; [by destruct neg|]. apply take_str_nonempty; [lia|]. intros ->. cbn in L. lia.
  - split; [split; [by apply amount_nonneg|done]|]. destruct (decide (String.length f <= z + 4)%nat) as [S|S].
    + rewrite take_str_all by lia. unfold Qminus. rewrite Qplus_opp_r. apply Qmult_le_0_compat; [by apply amount_nonneg|discriminate].
    + assert (size (take_str k f) = Z.of_nat z + 4) as SK by (unfold size; rewrite take_str_length; lia).
      rewrite SK in CU. apply (Qle_trans _ (p10 (- (Z.of_nat z + 4)))).
      * apply Qlt_le_weak, (Qplus_lt_l _ _ (amount i (take_str k f))). ring_simplify.
        exact CU.
      * replace (- (Z.of_nat z + 4)) with (- Z.of_nat z - 1 + -3) by lia. rewrite p10_plus.
        apply Qmult_le_compat_r; [|discriminate]. unfold amount. rewrite Z, Qplus_0_l.
        replace (- Z.of_nat z - 1) with (size f - Z.of_nat z - 1 + - size f) by lia. rewrite p10_plus.
        apply Qmult_le_compat_r; [|by apply Qlt_le_weak, p10_pos]. rewrite p10_int by (unfold size; lia). by rewrite <- Zle_Qle.
Qed.

Section displays.
Context `{BigDecimalLaws}.

Lemma normalized_same d : negative (bd_normalized d) = negative d /\ (Qabs (denotes (bd_normalized d)) == Qabs (denotes d))%Q.
Proof. rewrite !negative_denotes. split; by rewrite bd_normalized_denotes. Qed.

Lemma full_displays d : displays (format_full d) (negative d) (Qabs (denotes d)).
Proof.
  unfold format_full. destruct (plain_view (bd_normalized d)) as (i & f & -> & I & N & F & A).
  destruct (normalized_same d) as [S E]. unfold negative in S at 1. rewrite S, strip_zeros_text, <- E, <- A by done.
  destruct (trim_end_spec "0" f) as [k T]. pose proof F as D. rewrite T in D. apply digits_app in D as [D _].
  rewrite T at 2. rewrite amount_zeros by done. by apply separated_displays.
Qed.

Lemma middle_displays d : (Qabs (denotes d) < 1)%Q -> ~ (denotes d == 0)%Q -> exists a,
  displays (format_middle d) (negative d) a /\
  (0 <= a <= Qabs (denotes d) /\ Qabs (denotes d) - a <= Qabs (denotes d) / 1000)%Q.
Proof.
  intros B P. unfold format_middle. destruct (plain_view (bd_normalized d)) as (i & f & -> & I & N & F & A).
  destruct (normalized_same d) as [S E]. unfold negative in S at 1. rewrite S. rewrite E in A.
  destruct (significant_cut i f I N F) with (neg := negative d) as (a & D & L & U).
  - by rewrite A.
  - intros X. apply P. rewrite A in X. rewrite denotes_signed, X. ring.
  - exists a. rewrite <- A. done.
Qed.

Lemma auto_displays d : exists a, displays (format_auto d) (negative d) a /\
  (0 <= a <= Qabs (denotes d) /\
   (1 <= Qabs (denotes d) -> Qabs (denotes d) < a + 1 / 100) /\
   (Qabs (denotes d) < 1 -> Qabs (denotes d) - a <= Qabs (denotes d) / 1000))%Q.
Proof.
  unfold format_auto. destruct (Z.eqb_spec (int_val d) 0) as [Z|NZ].
  - exists 0%Q. assert (negative d = false) as -> by (unfold negative; by rewrite Z). split.
    + exists "0", "". split_and!; [done|by apply GroupedHead; cbn; [|lia]|done|done].
    + rewrite denotes_abs, Z. change (inject_Z (Z.abs 0)) with 0%Q. rewrite Qmult_0_l. split_and!; discriminate || done.
  - assert (forall x, denotes (MkDecimal x 0) == inject_Z x)%Q as I by (intros x; apply Qmult_1_r).
    change (denotes (MkDecimal (Z.abs (int_val d)) (scale d))) with (inject_Z (Z.abs (int_val d)) * p10 (- scale d))%Q.
    assert (NQ : ~ (denotes d == 0)%Q).
    { intros E. unfold denotes in E. apply Qmult_integral in E as [E|E].
      - apply NZ. by apply (inject_Z_injective _ 0).
      - pose proof (p10_pos (- scale d)) as P. rewrite E in P. discriminate. }
    destruct (Qle_bool _ _) eqn:A.
    + apply Qle_bool_iff in A. rewrite <- denotes_abs, I in A. destruct (short_displays d) as (a & D & B & L).
      exists a. split; [done|]. split; [done|]. split; [intros _; exact L|]. intros X. by apply Qlt_not_le in X.
    + assert (Qabs (denotes d) < 1)%Q as S.
      { apply Qnot_le_lt. intros X. assert (Qle_bool (denotes (MkDecimal 1 0)) (inject_Z (Z.abs (int_val d)) * p10 (- scale d)) = true); [|congruence].
        apply Qle_bool_iff. by rewrite <- denotes_abs, I. }
      clear A. destruct (Qle_bool (denotes (MkDecimal 1 4)) _).
      * destruct (middle_displays d S NQ) as (a & D & B & L). exists a. split; [done|]. split; [done|]. split; [|done].
        intros X. by apply Qlt_not_le in S.
      * exists (Qabs (denotes d)). split; [apply full_displays|]. split; [split; [apply Qabs_nonneg|apply Qle_refl]|]. split.
        -- intros X. by apply Qlt_not_le in S.
        -- intros _. unfold Qminus. rewrite Qplus_opp_r. apply Qmult_le_0_compat; [apply Qabs_nonneg|discriminate].
Qed.

End displays.
End DisplayFacts.

(** ** Theorems *)

Module DisplayTheorems.
Import Digits ValueFormatter Display DisplayFacts.

(** A signed decimal on the screen keeps its sign; the full text is the number, the automatic text never goes beyond
    it, and cuts off less than a hundredth from one on and at most a thousandth of a smaller number. *)
Theorem signed_display `{BigDecimalLaws} d :
  well_formed (format_full d) /\ well_formed (format_auto d) /\
  (exists q, shown (format_full d) = Some q /\ (q == denotes d)%Q) /\
  exists q, shown (format_auto d) = Some q /\
    (0 <= q * denotes d /\ Qabs q <= Qabs (denotes d) /\
     (1 <= Qabs (denotes d) -> Qabs (denotes d - q) < 1 / 100) /\
     (Qabs (denotes d) < 1 -> Qabs (denotes d - q) <= Qabs (denotes d) / 1000))%Q.
Proof.
  destruct (displays_shown _ _ _ (full_displays d)) as [W (q & S & Q)].
  destruct (auto_displays d) as (a & D & [N L] & B1 & B2). destruct (displays_shown _ _ _ D) as [W' (r & S' & R)].
  split; [done|]. split; [done|]. split; [exists q; split; [done|]; rewrite Q; symmetry; apply denotes_signed|].
  exists r. split; [done|]. pose proof (denotes_signed d) as E. fold (negative d) in E. set (m := Qabs (denotes d)) in *.
  assert (0 <= m)%Q as M by apply Qabs_nonneg.
  assert (SS : (sign_of (negative d) * sign_of (negative d) == 1)%Q) by by destruct (negative d).
  assert (AS : (Qabs (sign_of (negative d)) == 1)%Q) by by destruct (negative d).
  assert (Qabs r == a)%Q as AR by (rewrite R, Qabs_Qmult, AS, Qmult_1_l, Qabs_pos by done; reflexivity).
  assert (Qabs (denotes d - r) == m - a)%Q as AD.
  { transitivity (Qabs (sign_of (negative d) * (m - a))%Q); [apply Qabs_wd; rewrite E, R; ring|].
    rewrite Qabs_Qmult, AS, Qmult_1_l, Qabs_pos; [reflexivity|]. by apply Qle_minus_iff in L. }
  split_and!.
  - assert (r * denotes d == sign_of (negative d) * sign_of (negative d) * (a * m))%Q as -> by (rewrite R, E; ring).
    rewrite SS, Qmult_1_l. by apply Qmult_le_0_compat.
  - by rewrite AR.
  - intros X. rewrite AD. apply (Qplus_lt_l _ _ a). assert (m - a + a == m)%Q as -> by ring.
    rewrite Qplus_comm. by apply B1.
  - intros X. rewrite AD. by apply B2.
Qed.

(** What the screen says of an amount of [v] units at [decimals]: both displays succeed and are well formed (a
    sign, an integer part grouped by three, a fraction); the full one reads as exactly [v / 10^decimals]; the
    automatic one never shows more than the amount, less than a hundredth below it when it is one or more, and within
    a thousandth of it when it is smaller. *)
Theorem displayed_amount `{BigDecimalLaws} v decimals :
  0 <= decimals < 2 ^ 31 -> 0 <= v < 10 ^ 100 -> exists full auto x y,
  let exact := (inject_Z v * p10 (- decimals))%Q in
  format Full (pretty v) decimals = Ok full /\ format Auto (pretty v) decimals = Ok auto /\
  well_formed full /\ well_formed auto /\ shown full = Some x /\ shown auto = Some y /\
  (x == exact /\ 0 <= y <= exact /\ (1 <= exact -> exact < y + 1 / 100) /\ (exact < 1 -> exact - y <= exact / 1000))%Q.
Proof.
  intros D V. unfold format, BigNumberFormatter.big_decimal_value, as_u32. rewrite wrap_small by (unfold in_width; lia).
  destruct (bd_from_int v ltac:(lia)) as (b & -> & E). cbn [map_err].
  set (d := bd_div b (BigNumberFormatter.power_of_ten decimals)).
  assert (denotes d == inject_Z v * p10 (- decimals))%Q as X by by (apply bd_div_power; [lia|..]).
  assert (0 <= inject_Z v * p10 (- decimals))%Q as N.
  { apply Qmult_le_0_compat; [|by apply Qlt_le_weak, p10_pos]. change 0%Q with (inject_Z 0). rewrite <- Zle_Qle. lia. }
  assert (negative d = false) as NG by (rewrite negative_denotes, X; apply negb_false_iff; by apply Qle_bool_iff).
  destruct (displays_shown _ _ _ (full_displays d)) as [W (q & S & Q)].
  destruct (auto_displays d) as (a & DA & B). destruct (displays_shown _ _ _ DA) as [W' (r & S' & R)].
  rewrite NG in Q, R. unfold sign_of in Q, R. rewrite Qmult_1_l in Q, R. rewrite X, Qabs_pos in Q, B by done.
  exists (format_full d), (format_auto d), q, r. cbv zeta. do 6 (split; [done|]).
  split; [done|]. destruct B as ([L U] & B1 & B2). rewrite <- R in L, U, B1, B2. done.
Qed.

End DisplayTheorems.

(** ** Witness *)

Module DisplayConcrete.
Import ValueFormatter Display.
#[export] Existing Instances NumberConcrete.small_decimal NumberConcrete.small_decimal_laws.

Lemma displayed_amount_witness : exists full auto x y,
  let exact := (inject_Z 18761627355200464162 * p10 (- 18))%Q in
  format Full (pretty 18761627355200464162) 18 = Ok full /\ format Auto (pretty 18761627355200464162) 18 = Ok auto /\
  well_formed full /\ well_formed auto /\ shown full = Some x /\ shown auto = Some y /\
  (x == exact /\ 0 <= y <= exact /\ (1 <= exact -> exact < y + 1 / 100) /\ (exact < 1 -> exact - y <= exact / 1000))%Q.
Proof. apply (DisplayTheorems.displayed_amount 18761627355200464162 18); [lia|]. split; [lia|reflexivity]. Defined.

(** The displays of the unit tests *)
Example displays : format Full "1000000" 0 = Ok "1,000,000" /\ format Full "12344" 6 = Ok "0.012344" /\
  format Auto "123" 0 = Ok "123.00" /\ format Auto "1000000" 0 = Ok "1,000,000.00" /\ format Auto "12344" 6 = Ok "0.01234" /\
  format Auto "11112344" 10 = Ok "0.001111" /\ format Auto "1" 5 = Ok "0.00001" /\ format Auto "0" 0 = Ok "0" /\
  format_auto (MkDecimal (-12345) 2) = "-123.45" /\ format_auto (MkDecimal (-15000) 1) = "-1,500.00" /\
  format_with_symbol Full "2737071" 8 "BTC" = Ok "0.02737071 BTC".
Proof. vm_compute. done. Qed.

End DisplayConcrete.
