(* ===== verification/XrpSigner.v ===== *)
(** * The XRP signer

    Models [gem_xrp/src/address.rs] (module [XrpAddresses]), the amounts of [signer/amount.rs] ([XrpAmounts]), the binary
    form of transactions and their signature of [signer/transaction.rs] ([XrpTransactions]) and the requests of
    [signer/chain_signer.rs] ([XrpSigner]).  The theorems show which number the 64 bits of an issued amount stand for,
    and that an independent reader of the ledger's format finds in a signed text the fields of the requested
    transaction, in the canonical order, with the signature of the rest. *)
From Stdlib Require Import QArith Qabs Qpower Qround Sorting.Sorted.
From stdpp Require Import pretty.
From S2P Require Import Prelude HexText Text Crates ChainRegistry Assets BitcoinPlanner TransferAmount TransferRules Signing NumberFormatter.
Import BitcoinPlanner SignerInputs Keys.
#[local] Open Scope Z_scope.

(** [bs58] with the alphabet of Ripple, a checksum and the version byte 0, which both keep in front of the payload *)
Class RippleBase58 : Type := { ripple_encode : bytes -> string; ripple_decode : string -> option bytes }.
Class RippleBase58Laws `{RippleBase58} : Prop := {
  ripple_roundtrip : forall bs, all_bytes bs -> ripple_decode (ripple_encode (0 :: bs)) = Some (0 :: bs);
  ripple_bytes : forall s bs, ripple_decode s = Some bs -> all_bytes bs
}.

(** [gem_hash::sha2::sha512_half] *)
Class Sha512Half : Type := sha512_half : bytes -> bytes.

(** ** [address.rs] *)

Module XrpAddresses.

Definition CLASSIC_PUBLIC_KEY_HASH_LENGTH : nat := 20.
Definition CLASSIC_ADDRESS_LENGTH : nat := 21.
Definition CLASSIC_PREFIX : Z := 0x00.

Definition XrpAddress : Type := bytes.

Section address.
Context `{RippleBase58}.

Definition try_parse (value : string) : option XrpAddress :=
  let?? decoded := ripple_decode value in
  if negb (length decoded =? CLASSIC_ADDRESS_LENGTH)%nat then None else Some (drop 1 decoded).

Definition as_bytes (self : XrpAddress) : bytes := self.

Definition encode (self : XrpAddress) : string := ripple_encode (CLASSIC_PREFIX :: self).

Definition from_public_key_hash (public_key_hash : bytes) : XrpAddress := public_key_hash.

Definition parse (value : string) : result SignerError XrpAddress :=
  ok_or (try_parse value) (InvalidInput "invalid XRP classic address").

Definition validate_address (address : string) : bool := match try_parse address with Some _ => true | None => false end.

End address.
End XrpAddresses.

(** ** [signer/amount.rs] *)

Module XrpAmounts.
Import XrpAddresses.

Definition POS_SIGN_BIT_MASK : Z := 0x4000000000000000.
Definition ISSUED_CURRENCY_ZERO : Z := 0x8000000000000000.
Definition MIN_MANTISSA : Z := 1000000000000000.
Definition MAX_MANTISSA : Z := 9999999999999999.
Definition MIN_IOU_EXPONENT : Z := -96.
Definition MAX_IOU_EXPONENT : Z := 80.
Definition MAX_IOU_PRECISION : nat := 16.
Definition MAX_DROPS : Z := 100000000000000000.
Definition CURRENCY_CODE_LENGTH : nat := 20.
Definition STANDARD_CURRENCY_CODE_LENGTH : nat := 3.
Definition STANDARD_CURRENCY_CODE_OFFSET : nat := 12.

Record IssuedAmount := MkIssued { value : BigDecimal; currency : bytes; issuer : XrpAddress }.
Inductive XrpAmount := Native (drops : Z) | Issued (amount : IssuedAmount).

Definition native (value : string) : result SignerError XrpAmount :=
  let? amount := ok_or (u64_from_str_radix 10 value) (InvalidInput "invalid XRP amount") in
  if MAX_DROPS <? amount then Err (InvalidInput "XRP amount is too large") else Ok (Native amount).

(** [x as i32], and a negation that wraps *)
Definition as_i32 (z : Z) : Z := (z + 2 ^ 31) mod 2 ^ 32 - 2 ^ 31.
Definition neg_i32 (z : Z) : Z := as_i32 (- z).

(** [bytes[at_..at_ + value.len()].copy_from_slice(value)] *)
Definition copy_at (at_ : nat) (value bs : bytes) : bytes := take at_ bs ++ value ++ drop (at_ + length value) bs.

Definition currency_code_bytes `{Hex} (value : string) : result SignerError bytes :=
  if (String.length value =? CURRENCY_CODE_LENGTH * 2)%nat || starts_with "0x" value
  then map_err (fun _ => InvalidInput "invalid XRP currency code") (HexCodec.decode_hex_array CURRENCY_CODE_LENGTH value) else
  let bs := replicate CURRENCY_CODE_LENGTH 0 in
  let value := bytes_of_string value in
  if (CURRENCY_CODE_LENGTH <? length value)%nat then Err (InvalidInput "XRP currency symbol is too long") else
  if (length value =? STANDARD_CURRENCY_CODE_LENGTH)%nat then Ok (copy_at STANDARD_CURRENCY_CODE_OFFSET value bs)
  else Ok (copy_at 0 value bs).

(** The two loops of [encoded_value]: the mantissa is at most 39 digits long, so fewer than 40 steps are taken. *)
Fixpoint scale_up (fuel : nat) (mantissa exponent : Z) : Z * Z :=
  match fuel with
  | O => (mantissa, exponent)
  | S fuel =>
      if (mantissa <? MIN_MANTISSA) && (MIN_IOU_EXPONENT <? exponent)
      then scale_up fuel (mantissa * 10) (exponent - 1) else (mantissa, exponent)
  end.

Fixpoint scale_down (fuel : nat) (mantissa exponent : Z) : result SignerError (Z * Z) :=
  match fuel with
  | O => Ok (mantissa, exponent)
  | S fuel =>
      if MAX_MANTISSA <? mantissa then
        if MAX_IOU_EXPONENT <=? exponent then Err (InvalidInput "XRP token amount is too large")
        else scale_down fuel (mantissa / 10) (exponent + 1)
      else Ok (mantissa, exponent)
  end.

Definition fuel : nat := 40.

Section amounts.
Context `{BigDecimalCrate}.

(** [into_parts] gives the sign and the magnitude. *)
Definition issued_amount_precision (value : BigDecimal) : nat :=
  String.length (pretty (Z.abs (int_val (bd_normalized value)))).

Definition issued_amount_exponent (value : BigDecimal) : Z := neg_i32 (as_i32 (scale (bd_normalized value))).

Definition validate_issued_value (value : BigDecimal) : result SignerError unit :=
  if int_val value =? 0 then Ok () else
  if (MAX_IOU_PRECISION <? issued_amount_precision value)%nat
  then Err (InvalidInput "XRP token amount precision is too large") else
  let exponent := issued_amount_exponent value in
  if negb ((MIN_IOU_EXPONENT <=? exponent) && (exponent <=? MAX_IOU_EXPONENT))
  then Err (InvalidInput "XRP token amount exponent is out of range") else Ok ().

Definition encoded_value (self : IssuedAmount) : result SignerError Z :=
  let? _ := validate_issued_value (value self) in
  if int_val (value self) =? 0 then Ok ISSUED_CURRENCY_ZERO else
  let value := bd_normalized (value self) in
  let is_positive := 0 <? int_val value in
  let exponent := neg_i32 (as_i32 (scale value)) in
  let? mantissa := ok_or (to_width 128 (Z.abs (int_val value))) (InvalidInput "invalid XRP token amount") in
  let '(mantissa, exponent) := scale_up fuel mantissa exponent in
  let? (mantissa, exponent) := scale_down fuel mantissa exponent in
  if (exponent <? MIN_IOU_EXPONENT) || (mantissa <? MIN_MANTISSA) then Ok ISSUED_CURRENCY_ZERO else
  if (MAX_IOU_EXPONENT <? exponent) || (MAX_MANTISSA <? mantissa)
  then Err (InvalidInput "XRP token amount is too large") else
  let encoded := ISSUED_CURRENCY_ZERO in
  let encoded := if is_positive then Z.lor encoded POS_SIGN_BIT_MASK else encoded in
  let encoded := Z.lor encoded (as_u64 (Z.shiftl (as_u64 (exponent + 97)) 54)) in
  Ok (Z.lor encoded (as_u64 mantissa)).

Definition new_issued `{Hex} `{RippleBase58} (value currency issuer : string) : result SignerError IssuedAmount :=
  let? value := map_err (fun _ => InvalidInput "invalid XRP token amount") (bd_from_str value) in
  let? currency := currency_code_bytes currency in
  let? issuer := parse issuer in
  Ok (MkIssued value currency issuer).

Definition issued `{Hex} `{RippleBase58} (value currency issuer : string) : result SignerError XrpAmount :=
  let? amount := new_issued value currency issuer in Ok (Issued amount).

Definition encode_issued (self : IssuedAmount) (buffer : bytes) : result SignerError bytes :=
  let? encoded := encoded_value self in
  Ok (buffer ++ be_bytes 8 encoded ++ currency self ++ as_bytes (issuer self)).

Definition encode_amount (self : XrpAmount) (buffer : bytes) : result SignerError bytes :=
  match self with
  | Native amount => Ok (buffer ++ be_bytes 8 (Z.lor amount POS_SIGN_BIT_MASK))
  | Issued amount => encode_issued amount buffer
  end.

End amounts.
End XrpAmounts.

(** ** [signer/transaction.rs] *)

Module XrpTransactions.
Import XrpAddresses XrpAmounts.

Definition SIGNING_PREFIX : bytes := [0x53; 0x54; 0x58; 0x00].
Definition TRANSACTION_TYPE_PAYMENT : Z := 0.
Definition TRANSACTION_TYPE_TRUST_SET : Z := 20.

Definition TYPE_UINT16 : Z := 1.
Definition TYPE_UINT32 : Z := 2.
Definition TYPE_AMOUNT : Z := 6.
Definition TYPE_VL : Z := 7.
Definition TYPE_ACCOUNT_ID : Z := 8.
Definition TYPE_ST_OBJECT : Z := 14.
Definition TYPE_ST_ARRAY : Z := 15.

Definition FIELD_TRANSACTION_TYPE : Z := 2.
Definition FIELD_FLAGS : Z := 2.
Definition FIELD_SEQUENCE : Z := 4.
Definition FIELD_DESTINATION_TAG : Z := 14.
Definition FIELD_LAST_LEDGER_SEQUENCE : Z := 27.
Definition FIELD_AMOUNT : Z := 1.
Definition FIELD_LIMIT_AMOUNT : Z := 3.
Definition FIELD_FEE : Z := 8.
Definition FIELD_SIGNING_PUB_KEY : Z := 3.
Definition FIELD_TXN_SIGNATURE : Z := 4.
Definition FIELD_MEMO_DATA : Z := 13.
Definition FIELD_ACCOUNT : Z := 1.
Definition FIELD_DESTINATION : Z := 3.
Definition FIELD_MEMO : Z := 10.
Definition FIELD_MEMOS : Z := 9.

Definition OBJECT_END_MARKER : Z := 0xe1.
Definition ARRAY_END_MARKER : Z := 0xf1.

Inductive XrpPaymentMemo := NoMemo | DestinationTag (destination_tag : Z) | Memo (memo : bytes).

Inductive XrpOperation :=
| Payment (amount : XrpAmount) (destination : XrpAddress) (memo : XrpPaymentMemo)
| TrustSet (limit_amount : XrpAmount).

Record XrpTransaction := MkTransaction {
  sequence : Z;
  last_ledger_sequence : Z;
  fee : Z;
  signing_pub_key : bytes;
  account : XrpAddress;
  operation : XrpOperation
}.

Record XrpTransactionParams := MkParams {
  params_account : XrpAddress;
  params_fee : Z;
  params_sequence : Z;
  params_last_ledger_sequence : Z;
  params_signing_pub_key : bytes
}.

Definition new_payment `{RippleBase58} (params : XrpTransactionParams) (amount : XrpAmount) (destination : string)
  (memo : XrpPaymentMemo) : result SignerError XrpTransaction :=
  let? destination := parse destination in
  Ok (MkTransaction (params_sequence params) (params_last_ledger_sequence params) (params_fee params)
        (params_signing_pub_key params) (params_account params) (Payment amount destination memo)).

Definition new_trust_set (params : XrpTransactionParams) (limit_amount : XrpAmount) : XrpTransaction :=
  MkTransaction (params_sequence params) (params_last_ledger_sequence params) (params_fee params)
    (params_signing_pub_key params) (params_account params) (TrustSet limit_amount).

Definition transaction_type (self : XrpTransaction) : Z :=
  match operation self with Payment _ _ _ => TRANSACTION_TYPE_PAYMENT | TrustSet _ => TRANSACTION_TYPE_TRUST_SET end.

Definition append_header (buffer : bytes) (type_code field_code : Z) : bytes :=
  match type_code <? 16, field_code <? 16 with
  | true, true => buffer ++ [Z.lor (as_u8 (Z.shiftl type_code 4)) field_code]
  | true, false => buffer ++ [as_u8 (Z.shiftl type_code 4)] ++ [field_code]
  | false, true => buffer ++ [field_code] ++ [type_code]
  | false, false => buffer ++ [0] ++ [type_code] ++ [field_code]
  end.

Definition append_variable_length (buffer : bytes) (length : Z) : result SignerError bytes :=
  if length <=? 192 then Ok (buffer ++ [as_u8 length]) else
  if length <? 12481 then
    let length := length - 193 in
    Ok (buffer ++ [as_u8 (Z.shiftr length 8 + 193)] ++ [as_u8 (Z.land length 0xff)])
  else if length <=? 918744 then
    let length := length - 12481 in
    Ok (buffer ++ [as_u8 (Z.shiftr length 16 + 241)] ++ [as_u8 (Z.land (Z.shiftr length 8) 0xff)] ++ [as_u8 (Z.land length 0xff)])
  else Err (InvalidInput "XRP field is too large").

Definition append_u16 (buffer : bytes) (field value : Z) : bytes := append_header buffer TYPE_UINT16 field ++ be_bytes 2 value.
Definition append_u32 (buffer : bytes) (field value : Z) : bytes := append_header buffer TYPE_UINT32 field ++ be_bytes 4 value.

Definition append_blob (buffer : bytes) (field : Z) (value : bytes) : result SignerError bytes :=
  let buffer := append_header buffer TYPE_VL field in
  let? buffer := append_variable_length buffer (Z.of_nat (length value)) in
  Ok (buffer ++ value).

Definition append_address (buffer : bytes) (field : Z) (value : XrpAddress) : result SignerError bytes :=
  let buffer := append_header buffer TYPE_ACCOUNT_ID field in
  let? buffer := append_variable_length buffer (Z.of_nat (length (as_bytes value))) in
  Ok (buffer ++ as_bytes value).

Definition append_memo (buffer : bytes) (memo : XrpPaymentMemo) : result SignerError bytes :=
  match memo with
  | Memo memo =>
      let buffer := append_header buffer TYPE_ST_ARRAY FIELD_MEMOS in
      let buffer := append_header buffer TYPE_ST_OBJECT FIELD_MEMO in
      let? buffer := append_blob buffer FIELD_MEMO_DATA memo in
      Ok (buffer ++ [OBJECT_END_MARKER] ++ [ARRAY_END_MARKER])
  | NoMemo | DestinationTag _ => Ok buffer
  end.

(** [skip_while(|b| **b == 0)] *)
Fixpoint skip_zeros (value : bytes) : bytes :=
  match value with b :: rest => if b =? 0 then skip_zeros rest else value | [] => [] end.

Definition der_integer (value : bytes) : bytes :=
  let bs := skip_zeros value in
  let bs := match bs with [] => [0] | _ => bs end in
  let bs := if negb (Z.land (hd 0 bs) 0x80 =? 0) then 0 :: bs else bs in
  [0x02] ++ [as_u8 (Z.of_nat (length bs))] ++ bs.

Definition der_encode_signature (signature : bytes) : result SignerError bytes :=
  if negb (length signature =? 64)%nat then Err (SigningError "invalid secp256k1 signature length") else
  let r := der_integer (take 32 signature) in
  let s := der_integer (drop 32 signature) in
  let payload_len := (length r + length s)%nat in
  let? payload_len := ok_or (to_width 8 (Z.of_nat payload_len)) (SigningError "signature is too large") in
  Ok ([0x30] ++ [payload_len] ++ r ++ s).

Section transactions.
Context `{BigDecimalCrate}.

Definition append_amount (buffer : bytes) (field : Z) (amount : XrpAmount) : result SignerError bytes :=
  encode_amount amount (append_header buffer TYPE_AMOUNT field).

Definition encode (self : XrpTransaction) (signature : option bytes) : result SignerError bytes :=
  let buffer := append_u16 [] FIELD_TRANSACTION_TYPE (transaction_type self) in
  let buffer := append_u32 buffer FIELD_FLAGS 0 in
  let buffer := append_u32 buffer FIELD_SEQUENCE (sequence self) in
  let buffer := match operation self with
                | Payment _ _ (DestinationTag destination_tag) => append_u32 buffer FIELD_DESTINATION_TAG destination_tag
                | _ => buffer
                end in
  let buffer := append_u32 buffer FIELD_LAST_LEDGER_SEQUENCE (last_ledger_sequence self) in
  let? buffer := match operation self with
                 | Payment amount _ _ => append_amount buffer FIELD_AMOUNT amount
                 | TrustSet limit_amount => append_amount buffer FIELD_LIMIT_AMOUNT limit_amount
                 end in
  let? buffer := append_amount buffer FIELD_FEE (Native (fee self)) in
  let? buffer := append_blob buffer FIELD_SIGNING_PUB_KEY (signing_pub_key self) in
  let? buffer := match signature with
                 | Some signature => append_blob buffer FIELD_TXN_SIGNATURE signature
                 | None => Ok buffer
                 end in
  let? buffer := append_address buffer FIELD_ACCOUNT (account self) in
  match operation self with
  | Payment _ destination memo =>
      let? buffer := append_address buffer FIELD_DESTINATION destination in append_memo buffer memo
  | TrustSet _ => Ok buffer
  end.

Context `{Ed25519} `{Secp256k1} `{Hex} `{Sha512Half}.

Definition sign (self : XrpTransaction) (private_key : bytes) : result SignerError string :=
  let? unsigned := encode self None in
  let preimage := SIGNING_PREFIX ++ unsigned in
  let digest := sha512_half preimage in
  let? signature := sign_digest SchemeSecp256k1 digest private_key in
  if (length signature <? 64)%nat then Err (SigningError "secp256k1 signature too short") else
  let signature := take 64 signature in
  let? der_signature := der_encode_signature signature in
  let? encoded := encode self (Some der_signature) in
  Ok (hex_encode encoded).

End transactions.
End XrpTransactions.

(** ** [signer/chain_signer.rs] *)

Module XrpSigner.
Import XrpAddresses XrpAmounts XrpTransactions.

Definition LEDGER_SEQUENCE_OFFSET : Z := 12.
Definition TRUST_LINE_LIMIT : string := "690000000000".

(** [u32::try_from(..).map_err(SignerError::from_display)] *)
Definition u32_try_from (value : Z) : result SignerError Z :=
  ok_or (to_width 32 value) (InvalidInput "out of range integral type conversion attempted").

Definition payment_memo (memo : option string) : result SignerError XrpPaymentMemo :=
  match memo with
  | None => Ok NoMemo
  | Some memo =>
      match u64_from_str_radix 10 memo with
      | Some value => if value =? 0 then Ok NoMemo else let? tag := u32_try_from value in Ok (DestinationTag tag)
      | None => Ok (Memo (bytes_of_string (default memo (strip_prefix "0x" memo))))
      end
  end.

Definition token_memo (memo : option string) : result SignerError XrpPaymentMemo :=
  match memo with
  | None => Ok NoMemo
  | Some memo =>
      match u64_from_str_radix 10 memo with
      | Some value => if value =? 0 then Ok NoMemo else let? tag := u32_try_from value in Ok (DestinationTag tag)
      | None => Ok NoMemo
      end
  end.

Definition swap_memo (data : Payloads.SwapQuoteData) : XrpPaymentMemo :=
  match Payloads.quote_memo data with
  | Some memo => if negb (String.eqb memo "") then Memo (bytes_of_string memo)
                 else if String.eqb (Payloads.quote_data data) "" then NoMemo else Memo (bytes_of_string (Payloads.quote_data data))
  | None => if String.eqb (Payloads.quote_data data) "" then NoMemo else Memo (bytes_of_string (Payloads.quote_data data))
  end.

Section signer.
Context `{BigDecimalCrate} `{Ed25519} `{Secp256k1} `{Hex} `{Sha512Half} `{RippleBase58}.

Definition params (input : ChainSignerInput) (private_key : bytes) : result SignerError XrpTransactionParams :=
  let? block_number := from_box (LoadMetadata.get_block_number (metadata input)) in
  let? sequence := from_box (LoadMetadata.get_sequence (metadata input)) in
  let? last_ledger_sequence :=
    ok_or (checked_add block_number LEDGER_SEQUENCE_OFFSET) (InvalidInput "XRP last ledger sequence overflow") in
  let? account := parse (InputTypes.sender_address (load input)) in
  let? fee := ok_or (GasPrices.to_u64 (GasPrices.fee (fee_of input))) (InvalidInput "invalid XRP fee") in
  let? sequence := u32_try_from sequence in
  let? last_ledger_sequence := u32_try_from last_ledger_sequence in
  let? signing_pub_key := public_key_from_private private_key in
  Ok (MkParams account fee sequence last_ledger_sequence signing_pub_key).

Definition sign_payment (input : ChainSignerInput) (private_key : bytes) (amount : XrpAmount) (destination : string)
  (memo : XrpPaymentMemo) : result SignerError string :=
  let? params := params input private_key in
  let? transaction := new_payment params amount destination memo in
  sign transaction private_key.

Definition token_amount (input : ChainSignerInput) (value : string) : result SignerError XrpAmount :=
  let asset := asset_of input in
  let? value := map_err (fun e => InvalidInput (BigNumberFormatter.error_to_string e))
                  (BigNumberFormatter.value value (Assets.decimals asset)) in
  let? token_id := get_token_id (Assets.id asset) in
  issued value (Assets.symbol asset) token_id.

Definition trust_line_limit_amount (input : ChainSignerInput) : result SignerError XrpAmount :=
  let asset := asset_of input in
  let? token_id := get_token_id (Assets.id asset) in
  issued TRUST_LINE_LIMIT (Assets.symbol asset) token_id.

Definition sign_transfer (input : ChainSignerInput) (private_key : bytes) : result SignerError string :=
  let? amount := native (pretty (InputTypes.input_value (load input))) in
  let? memo := payment_memo (InputTypes.get_memo (load input)) in
  sign_payment input private_key amount (InputTypes.destination_address (load input)) memo.

Definition sign_token_transfer (input : ChainSignerInput) (private_key : bytes) : result SignerError string :=
  let? amount := token_amount input (pretty (InputTypes.input_value (load input))) in
  let? memo := token_memo (InputTypes.get_memo (load input)) in
  sign_payment input private_key amount (InputTypes.destination_address (load input)) memo.

Definition sign_swap (input : ChainSignerInput) (private_key : bytes) : result SignerError (list string) :=
  let? swap := from_box (InputTypes.get_swap_data (InputTypes.input_type (load input))) in
  let data := Payloads.swap_data swap in
  let? amount := native (pretty (Payloads.quote_value data)) in
  let? signed := sign_payment input private_key amount (Payloads.quote_to data) (swap_memo data) in
  Ok [signed].

Definition sign_account_action (input : ChainSignerInput) (private_key : bytes) : result SignerError string :=
  let? amount := trust_line_limit_amount input in
  let? params := params input private_key in
  sign (new_trust_set params amount) private_key.

End signer.
End XrpSigner.

(** ** The number of an issued amount *)

Module XrpAmountFacts.
Import XrpAddresses XrpAmounts.

(** What the ledger reads in 64 bits: the sign in bit 62, the exponent with an offset of 97 in the next eight bits, and
    the mantissa in the last 54; one value stands for zero. *)
Definition issued_number (raw : Z) : Q :=
  if raw =? 2 ^ 63 then 0%Q else
  let mantissa := raw mod 2 ^ 54 in
  let exponent := raw / 2 ^ 54 mod 2 ^ 8 - 97 in
  ((if Z.testbit raw 62 then 1 else -1) * (inject_Z mantissa * p10 exponent))%Q.

(** The bits put together *)
Definition packed (positive : bool) (mantissa exponent : Z) : Z :=
  2 ^ 63 + (if positive then 2 ^ 62 else 0) + (exponent + 97) * 2 ^ 54 + mantissa.

Lemma packed_bits (positive : bool) m e : 0 <= m < 2 ^ 54 -> -97 <= e < 159 ->
  packed positive m e mod 2 ^ 54 = m /\ packed positive m e / 2 ^ 54 mod 2 ^ 8 = e + 97 /\
  Z.testbit (packed positive m e) 62 = positive /\ is_u64 (packed positive m e).
Proof.
  intros M E. assert (P : packed positive m e = (((2 + (if positive then 1 else 0)) * 2 ^ 8) + (e + 97)) * 2 ^ 54 + m)
    by (unfold packed; destruct positive; lia).
  assert (D : packed positive m e / 2 ^ 54 = (2 + (if positive then 1 else 0)) * 2 ^ 8 + (e + 97)) by
    (rewrite P; rewrite Z.div_add_l, (Z.div_small m) by lia; lia).
  split_and!.
  - rewrite P, Z.add_comm, Z.mod_add by lia. by apply Z.mod_small.
  - rewrite D, Z.add_comm, Z.mod_add by lia. apply Z.mod_small. lia.
  - rewrite Z.testbit_eqb by lia. replace (2 ^ 62) with (2 ^ 54 * 2 ^ 8) by reflexivity. rewrite <- Z.div_div, D by lia.
    rewrite Z.div_add_l, (Z.div_small (e + 97)) by lia. by destruct positive.
  - unfold in_width. unfold packed. destruct positive; lia.
Qed.

Lemma packed_number (positive : bool) m e : 0 < m < 2 ^ 54 -> -97 <= e < 159 ->
  (issued_number (packed positive m e) == (if positive then 1 else -1) * (inject_Z m * p10 e))%Q.
Proof.
  intros M E. destruct (packed_bits positive m e) as (R & D & B & _); [lia|lia|]. unfold issued_number.
  rewrite R, D, B. replace (e + 97 - 97) with e by lia.
  destruct (Z.eqb_spec (packed positive m e) (2 ^ 63)) as [Q|]; [|reflexivity]. rewrite Q in R. vm_compute in R. lia.
Qed.

Lemma packed_lor (positive : bool) m e : 0 <= m < 2 ^ 54 -> -97 <= e < 159 ->
  Z.lor (Z.lor (if positive then Z.lor ISSUED_CURRENCY_ZERO POS_SIGN_BIT_MASK else ISSUED_CURRENCY_ZERO)
    (as_u64 (Z.shiftl (as_u64 (e + 97)) 54))) (as_u64 m) = packed positive m e.
Proof.
  intros M E. unfold as_u64. rewrite (wrap_small 64 m), (wrap_small 64 (e + 97)), (wrap_small 64 (Z.shiftl _ _)), Z.shiftl_mul_pow2 by
    (rewrite ?Z.shiftl_mul_pow2 by lia; unfold in_width; lia).
  set (top := (if positive then Z.lor ISSUED_CURRENCY_ZERO POS_SIGN_BIT_MASK else ISSUED_CURRENCY_ZERO)). assert (T : top = (2 + (if positive then 1 else 0)) * 2 ^ 62) by by destruct positive.
  rewrite (PrefixCodes.lor_prefix top _ 62), (PrefixCodes.lor_prefix _ m 54); [|lia|by unfold in_width; lia| |lia|unfold in_width; lia|].
  - unfold packed. rewrite T. destruct positive; lia.
  - rewrite Z.land_ones, T by lia.
    replace ((2 + (if positive then 1 else 0)) * 2 ^ 62 + (e + 97) * 2 ^ 54) with
      (((2 + (if positive then 1 else 0)) * 2 ^ 8 + (e + 97)) * 2 ^ 54) by lia. apply Z.mod_mul. lia.
  - by destruct positive.
Qed.

Lemma as_i32_small z : - 2 ^ 31 <= z < 2 ^ 31 -> as_i32 z = z.
Proof. intros B. unfold as_i32. rewrite Z.mod_small by lia. lia. Qed.

Lemma neg_scale z : - 2 ^ 31 < z < 2 ^ 31 -> neg_i32 (as_i32 z) = - z.
Proof. intros B. unfold neg_i32. rewrite !as_i32_small by (rewrite ?as_i32_small by lia; lia). done. Qed.

(** *** The loops *)

(** The mantissa grows by a power of ten, within sixteen digits, until it has them or the exponent cannot shrink. *)
Lemma scale_up_spec fuel m e : 1 <= m < 10 ^ 16 -> MIN_MANTISSA <= m * 10 ^ Z.of_nat fuel ->
  exists k, 0 <= k /\ scale_up fuel m e = (m * 10 ^ k, e - k) /\ m * 10 ^ k < 10 ^ 16 /\
  (MIN_IOU_EXPONENT <= e -> MIN_IOU_EXPONENT <= e - k) /\
  (MIN_MANTISSA <= m * 10 ^ k \/ e - k <= MIN_IOU_EXPONENT).
Proof.
  revert m e. induction fuel as [|fuel IH]; intros m e M F; cbn [scale_up].
  - exists 0. rewrite Z.mul_1_r, Z.sub_0_r. unfold MIN_MANTISSA in *. cbn in F. split_and!; [done|done|lia|done|left; lia].
  - destruct (Z.ltb_spec m MIN_MANTISSA) as [L|L]; [destruct (Z.ltb_spec MIN_IOU_EXPONENT e) as [G|G]|]; cbn [andb].
    + destruct (IH (m * 10) (e - 1)) as (k & K & S & B & X & C).
      * unfold MIN_MANTISSA in L. lia.
      * rewrite Nat2Z.inj_succ, Z.pow_succ_r in F by lia. lia.
      * exists (k + 1). replace (m * 10 ^ (k + 1)) with (m * 10 * 10 ^ k) by (rewrite Z.pow_add_r by lia; lia).
        rewrite S. split_and!; [lia|f_equal; lia|done|lia|]. destruct C; [by left|right; lia].
    + exists 0. rewrite Z.mul_1_r, Z.sub_0_r. split_and!; [done|done|lia|done|by right].
    + exists 0. rewrite Z.mul_1_r, Z.sub_0_r. split_and!; [done|done|lia|done|by left].
Qed.

Lemma scale_down_small fuel m e : m <= MAX_MANTISSA -> scale_down (S fuel) m e = Ok (m, e).
Proof. intros L. cbn [scale_down]. by rewrite (proj2 (Z.ltb_ge _ _)) by done. Qed.

(** *** The encoded value *)

Section encoded.
Context `{BigDecimalLaws}.

Lemma zero_denotes x : int_val x = 0 <-> (denotes x == 0)%Q.
Proof.
  unfold denotes. split; [intros ->; apply Qmult_0_l|]. intros E. apply Qmult_integral in E as [E|E].
  - by apply (inject_Z_eq (int_val x) 0).
  - pose proof (p10_pos (- scale x)) as P. rewrite E in P. discriminate.
Qed.

Lemma normalized_nonzero x : int_val x <> 0 -> int_val (bd_normalized x) <> 0.
Proof. intros N Z. apply N, zero_denotes. rewrite <- bd_normalized_denotes. by apply zero_denotes. Qed.

(** The digits of the normalised amount and the exponent of its last digit *)
Definition mantissa_of (a : IssuedAmount) : Z := Z.abs (int_val (bd_normalized (value a))).
Definition exponent_of (a : IssuedAmount) : Z := - scale (bd_normalized (value a)).
Definition positive_of (a : IssuedAmount) : bool := 0 <? int_val (bd_normalized (value a)).
Definition in_limits (a : IssuedAmount) : Prop := mantissa_of a < 10 ^ 16 /\ MIN_IOU_EXPONENT <= exponent_of a <= MAX_IOU_EXPONENT.

Lemma amount_denotes a : (denotes (value a) == (if positive_of a then 1 else -1) * (inject_Z (mantissa_of a) * p10 (exponent_of a)))%Q.
Proof.
  rewrite <- bd_normalized_denotes. unfold denotes, positive_of, mantissa_of, exponent_of. set (y := bd_normalized (value a)).
  destruct (Z.ltb_spec 0 (int_val y)).
  - rewrite Z.abs_eq by lia. ring.
  - rewrite Z.abs_neq, inject_Z_opp by lia. ring.
Qed.

Lemma digits_limit n k : 0 < n -> (String.length (pretty n) <= k)%nat <-> n < 10 ^ Z.of_nat k.
Proof.
  intros P. destruct (Digits.pretty_length n P) as [L U]. pose proof (Digits.pretty_nonempty n ltac:(lia)). split; intros B.
  - apply (Z.lt_le_trans _ _ _ U). apply Z.pow_le_mono_r; lia.
  - apply Nat2Z.inj_le. assert (10 ^ (Z.of_nat (String.length (pretty n)) - 1) < 10 ^ Z.of_nat k) as X by lia.
    apply Z.pow_lt_mono_r_iff in X; lia.
Qed.

Lemma encoded_view a : int_val (value a) <> 0 -> - 2 ^ 31 < scale (bd_normalized (value a)) < 2 ^ 31 ->
  match encoded_value a with
  | Err _ => ~ in_limits a
  | Ok raw => in_limits a /\ exists k, 0 <= k /\ mantissa_of a * 10 ^ k < 10 ^ 16 /\ MIN_IOU_EXPONENT <= exponent_of a - k /\
      ((MIN_MANTISSA <= mantissa_of a * 10 ^ k /\ raw = packed (positive_of a) (mantissa_of a * 10 ^ k) (exponent_of a - k)) \/
       (mantissa_of a * 10 ^ k < MIN_MANTISSA /\ exponent_of a - k = MIN_IOU_EXPONENT /\ raw = ISSUED_CURRENCY_ZERO))
  end.
Proof.
  intros N S. unfold encoded_value, validate_issued_value, issued_amount_precision, issued_amount_exponent.
  rewrite (proj2 (Z.eqb_neq _ _) N), neg_scale by done. pose proof (normalized_nonzero _ N) as NY.
  fold (mantissa_of a) (exponent_of a) (positive_of a). assert (0 < mantissa_of a) as P by (unfold mantissa_of; lia).
  pose proof (digits_limit (mantissa_of a) MAX_IOU_PRECISION P) as D. change (10 ^ Z.of_nat MAX_IOU_PRECISION) with (10 ^ 16) in D.
  unfold in_limits. destruct (Nat.ltb_spec MAX_IOU_PRECISION (String.length (pretty (mantissa_of a)))) as [L|L].
  { intros [X _]. apply D in X. lia. }
  apply D in L. destruct (Z.leb_spec MIN_IOU_EXPONENT (exponent_of a)) as [E1|E1]; [|cbn [andb negb]; lia].
  destruct (Z.leb_spec (exponent_of a) MAX_IOU_EXPONENT) as [E2|E2]; [|cbn [andb negb]; lia]. cbn [andb negb].
  assert (to_width 128 (mantissa_of a) = Some (mantissa_of a)) as ->.
  { unfold to_width. rewrite (proj2 (Z.leb_le 0 _)), (proj2 (Z.ltb_lt _ _)) by lia. done. }
  cbn [ok_or]. destruct (scale_up_spec fuel (mantissa_of a) (exponent_of a)) as (k & K & -> & B & X & C); [lia| |].
  { unfold MIN_MANTISSA. change (Z.of_nat fuel) with 40. lia. }
  specialize (X E1). unfold fuel. rewrite scale_down_small by (unfold MAX_MANTISSA; lia).
  rewrite (proj2 (Z.ltb_ge (exponent_of a - k) MIN_IOU_EXPONENT)) by lia. cbn [orb].
  destruct (Z.ltb_spec (mantissa_of a * 10 ^ k) MIN_MANTISSA) as [M|M].
  - split; [done|]. exists k. split_and!; [done..|]. right. split_and!; [done|lia|done].
  - rewrite (proj2 (Z.ltb_ge MAX_IOU_EXPONENT _)), (proj2 (Z.ltb_ge MAX_MANTISSA _)) by (unfold MAX_MANTISSA; lia). cbn [orb].
    split; [done|]. exists k. split_and!; [done..|]. left. split; [done|].
    unfold MIN_MANTISSA, MIN_IOU_EXPONENT, MAX_IOU_EXPONENT in *. apply packed_lor; lia.
Qed.

(** An accepted amount is encoded exactly; below the smallest number of the format it is encoded as zero. *)
Lemma encoded_exact a raw : - 2 ^ 31 < scale (bd_normalized (value a)) < 2 ^ 31 -> encoded_value a = Ok raw ->
  is_u64 raw /\ 2 ^ 63 <= raw /\
  ((issued_number raw == denotes (value a))%Q \/
   (raw = ISSUED_CURRENCY_ZERO /\ (Qabs (denotes (value a)) < p10 (-81))%Q)).
Proof.
  intros S E. destruct (decide (int_val (value a) = 0)) as [Z|N].
  - unfold encoded_value, validate_issued_value in E. rewrite Z in E. cbn in E. assert (raw = ISSUED_CURRENCY_ZERO) as -> by congruence.
    split; [by vm_compute|]. split; [by vm_compute|]. left. apply zero_denotes in Z. rewrite Z. reflexivity.
  - pose proof (encoded_view a N S) as V. rewrite E in V. destruct V as ([L1 L2] & k & K & B & X & [[M ->]|(M & EX & ->)]).
    + unfold MIN_MANTISSA, MIN_IOU_EXPONENT, MAX_IOU_EXPONENT in *.
      destruct (packed_bits (positive_of a) (mantissa_of a * 10 ^ k) (exponent_of a - k)) as (_ & _ & _ & U); [lia|lia|].
      split; [done|]. split; [unfold packed; destruct (positive_of a); lia|]. left.
      rewrite packed_number, amount_denotes, inject_Z_mult, <- p10_int by lia.
      replace (p10 (exponent_of a)) with (p10 (k + (exponent_of a - k))) by (f_equal; lia). rewrite p10_plus. ring.
    + split; [by vm_compute|]. split; [by vm_compute|]. right. split; [done|].
      assert (0 < mantissa_of a) as P by (pose proof (normalized_nonzero _ N); unfold mantissa_of; lia).
      rewrite amount_denotes, Qabs_Qmult, Qabs_Qmult, (Qabs_pos (p10 _)) by apply Qlt_le_weak, p10_pos.
      assert (Qabs (if positive_of a then 1 else -1) == 1)%Q as -> by by destruct (positive_of a). rewrite Qmult_1_l.
      change (Qabs (inject_Z (mantissa_of a))) with (inject_Z (Z.abs (mantissa_of a))). rewrite Z.abs_eq by lia.
      replace (exponent_of a) with (k + (exponent_of a - k)) by lia. rewrite EX, p10_plus, Qmult_assoc, p10_int, <- inject_Z_mult by done.
      replace (-81) with (15 + MIN_IOU_EXPONENT) by reflexivity. rewrite p10_plus, (p10_int 15) by done.
      apply Qmult_lt_r; [apply p10_pos|]. rewrite <- Zlt_Qlt. exact M.
Qed.

(** *** Integral amounts *)

(** The normal form of [v / 10^d] drops the trailing zeros of [v]. *)
Lemma normal_form x v d : 0 < v -> (denotes x == inject_Z v * p10 (- d))%Q ->
  exists j, 0 <= j /\ int_val (bd_normalized x) * 10 ^ j = v /\ scale (bd_normalized x) = d - j.
Proof.
  intros V E. rewrite <- bd_normalized_denotes in E. unfold denotes in E. destruct (bd_normalized_form x) as [Z|M].
  { exfalso. rewrite Z, Qmult_0_l in E. symmetry in E. apply Qmult_integral in E as [E|E].
    - apply (inject_Z_eq v 0) in E. lia.
    - pose proof (p10_pos (- d)) as P. rewrite E in P. discriminate. }
  set (n := int_val (bd_normalized x)) in *. set (s := scale (bd_normalized x)) in *.
  assert (G : forall k, (inject_Z n * p10 (k - s) == inject_Z v * p10 (k - d))%Q).
  { intros k. replace (k - s) with (- s + k) by lia. replace (k - d) with (- d + k) by lia.
    rewrite !p10_plus, !Qmult_assoc, E. reflexivity. }
  destruct (Z.le_ge_cases s d) as [L|L].
  - exists (d - s). split; [lia|]. split; [|lia]. specialize (G d). rewrite Z.sub_diag, (p10_int (d - s)), <- inject_Z_mult in G by lia.
    change (p10 0) with 1%Q in G. rewrite Qmult_1_r in G. exact (inject_Z_eq _ _ G).
  - specialize (G s). rewrite Z.sub_diag, (p10_int (s - d)), <- inject_Z_mult in G by lia. change (p10 0) with 1%Q in G.
    rewrite Qmult_1_r in G. apply inject_Z_eq in G. destruct (Z.eq_dec s d) as [->|N].
    + exists 0. rewrite Z.sub_diag in G. lia.
    + exfalso. apply M. rewrite G. replace (s - d) with (s - d - 1 + 1) by lia. rewrite Z.pow_add_r, Z.mul_assoc by lia.
      apply Z.mod_mul. lia.
Qed.

Lemma normal_scale x v d : 0 <= v < 10 ^ 100 -> 0 <= d < 2 ^ 31 -> (denotes x == inject_Z v * p10 (- d))%Q -> int_val x <> 0 ->
  - 2 ^ 31 < scale (bd_normalized x) < 2 ^ 31.
Proof.
  intros V D E N. assert (v <> 0) as NV.
  { intros ->. apply N, zero_denotes. rewrite E. apply Qmult_0_l. }
  destruct (normal_form x v d) as (j & J & P & ->); [lia|done|]. assert (j < 100); [|lia].
  assert (0 < 10 ^ j) by (apply Z.pow_pos_nonneg; lia).
  assert (0 < int_val (bd_normalized x)) by nia.
  assert (10 ^ j <= v) by nia. apply (Z.pow_lt_mono_r_iff 10); lia.
Qed.

(** At most sixteen digits, and at most 81 decimals *)
Lemma integral_exact a v d : 0 <= v < 10 ^ 16 -> 0 <= d <= 81 -> (denotes (value a) == inject_Z v * p10 (- d))%Q ->
  exists raw, encoded_value a = Ok raw /\ (issued_number raw == inject_Z v * p10 (- d))%Q.
Proof.
  intros V D E. destruct (decide (int_val (value a) = 0)) as [Z|N].
  - exists ISSUED_CURRENCY_ZERO. unfold encoded_value, validate_issued_value. rewrite Z. split; [done|].
    apply zero_denotes in Z. rewrite Z in E. by rewrite <- E.
  - assert (v <> 0) as NV by (intros ->; apply N, zero_denotes; rewrite E; apply Qmult_0_l).
    destruct (normal_form (value a) v d) as (j & J & P & S); [lia|done|].
    assert (0 < 10 ^ j) as PJ by (apply Z.pow_pos_nonneg; lia).
    assert (0 < int_val (bd_normalized (value a))) as PN by nia.
    assert (10 ^ j <= v) as JV by nia. assert (j < 16) as J16 by (apply (Z.pow_lt_mono_r_iff 10); lia).
    assert (SC : - 2 ^ 31 < scale (bd_normalized (value a)) < 2 ^ 31) by lia.
    pose proof (encoded_view a N SC) as W. assert (mantissa_of a * 10 ^ j = v) as MV by (unfold mantissa_of; lia).
    assert (exponent_of a = j - d) as EV by (unfold exponent_of; lia).
    assert (in_limits a) as L.
    { unfold in_limits, MIN_IOU_EXPONENT, MAX_IOU_EXPONENT. split; [|lia]. nia. }
    destruct (encoded_value a) as [raw|msg] eqn:R; [|done]. exists raw. split; [done|]. rewrite <- E.
    destruct (encoded_exact a raw SC R) as (_ & _ & [X|[-> _]]); [done|].
    destruct W as (_ & k & K & B & X & [[M Q]|(M & EX & _)]); exfalso.
    + destruct (packed_bits (positive_of a) (mantissa_of a * 10 ^ k) (exponent_of a - k)) as (RM & _);
        unfold MIN_MANTISSA, MIN_IOU_EXPONENT, MAX_IOU_EXPONENT, in_limits in *; [lia|lia|]. rewrite <- Q in RM.
      change (ISSUED_CURRENCY_ZERO mod 2 ^ 54) with 0 in RM. lia.
    + unfold MIN_MANTISSA, MIN_IOU_EXPONENT in *. assert (10 ^ 15 <= 10 ^ k) by (apply Z.pow_le_mono_r; lia).
      assert (1 <= mantissa_of a) by (unfold mantissa_of; lia). nia.
Qed.

End encoded.
End XrpAmountFacts.

(** ** A reader of the ledger's binary format *)

Module XrpFormat.
Import PrefixCodes.

(** A field is a type, a code and a value; the marks of objects and arrays are fields without a value. *)
Inductive Value :=
| VInt (v : Z)
| VNative (drops : Z)
| VIssued (raw : Z) (currency issuer : bytes)
| VBlob (bs : bytes)
| VMark.
Record Field := MkField { field_type : Z; field_code : Z; field_value : Value }.

(** The type and the code are in one byte when both are below 16; a zero announces a byte of its own. *)
Definition read_header (bs : bytes) : option (Z * Z * bytes) :=
  let?? (head, rest) := read_be 1 bs in
  let type_code := head / 16 in
  let field_code := head mod 16 in
  let?? (type_code, rest) := (if type_code =? 0 then read_be 1 rest else Some (type_code, rest)) in
  let?? (field_code, rest) := (if field_code =? 0 then read_be 1 rest else Some (field_code, rest)) in
  Some (type_code, field_code, rest).

Definition read_length (bs : bytes) : option (Z * bytes) :=
  let?? (b1, rest) := read_be 1 bs in
  if b1 <=? 192 then Some (b1, rest)
  else if b1 <=? 240 then let?? (b2, rest) := read_be 1 rest in Some (193 + (b1 - 193) * 256 + b2, rest)
  else if b1 <=? 254 then let?? (b2, rest) := read_be 2 rest in Some (12481 + (b1 - 241) * 65536 + b2, rest)
  else None.

Definition read_blob (bs : bytes) : option (Value * bytes) :=
  let?? (len, rest) := read_length bs in
  let?? (content, rest) := read (Z.to_nat len) rest in
  Some (VBlob content, rest).

(** The first bit tells an issued amount, the second one a positive native amount. *)
Definition read_amount (bs : bytes) : option (Value * bytes) :=
  let?? (word, rest) := read_be 8 bs in
  if word <? 2 ^ 63 then (if word <? 2 ^ 62 then None else Some (VNative (word - 2 ^ 62), rest))
  else
    let?? (currency, rest) := read 20 rest in
    let?? (issuer, rest) := read 20 rest in
    Some (VIssued word currency issuer, rest).

Definition read_int (n : nat) (bs : bytes) : option (Value * bytes) :=
  let?? (v, rest) := read_be n bs in Some (VInt v, rest).

Definition read_value (type_code : Z) (bs : bytes) : option (Value * bytes) :=
  if type_code =? 1 then read_int 2 bs
  else if type_code =? 2 then read_int 4 bs
  else if type_code =? 6 then read_amount bs
  else if (type_code =? 7) || (type_code =? 8) then read_blob bs
  else if (type_code =? 14) || (type_code =? 15) then Some (VMark, bs)
  else None.

Definition read_field (bs : bytes) : option (Field * bytes) :=
  let?? (header, rest) := read_header bs in
  let '(type_code, field_code) := header in
  let?? (value, rest) := read_value type_code rest in
  Some (MkField type_code field_code value, rest).

Fixpoint read_fields (fuel : nat) (bs : bytes) : option (list Field) :=
  match bs with
  | [] => Some []
  | _ =>
      match fuel with
      | O => None
      | S fuel =>
          let?? (field, rest) := read_field bs in
          let?? fields := read_fields fuel rest in
          Some (field :: fields)
      end
  end.

(** Every field takes a byte, so the length is enough fuel. *)
Definition read_object (bs : bytes) : option (list Field) := read_fields (length bs) bs.

(** DER: a sequence of two integers *)
Definition read_der_integer (bs : bytes) : option (Z * bytes) :=
  let?? rest := expect 0x02 bs in
  let?? (len, rest) := read_be 1 rest in
  let?? (content, rest) := read (Z.to_nat len) rest in
  if (1 <=? len) && (hd 0 content <? 128) then Some (of_be content, rest) else None.

Definition read_der (bs : bytes) : option (Z * Z) :=
  let?? rest := expect 0x30 bs in
  let?? (len, rest) := read_be 1 rest in
  if negb (Z.of_nat (length rest) =? len) then None else
  let?? (r, rest) := read_der_integer rest in
  let?? (s, rest) := read_der_integer rest in
  match rest with [] => Some (r, s) | _ => None end.

End XrpFormat.


(** ** The encoder writes fields the reader finds *)

Module XrpFacts.
Import XrpAddresses XrpAmounts XrpTransactions XrpAmountFacts XrpFormat PrefixCodes.

(** *** Headers and lengths *)

Lemma append_header_app buffer t f : append_header buffer t f = buffer ++ append_header [] t f.
Proof. unfold append_header. by destruct (t <? 16), (f <? 16). Qed.

Lemma shifted_byte t : 0 < t < 16 -> as_u8 (Z.shiftl t 4) = t * 16.
Proof. intros T. rewrite Z.shiftl_mul_pow2 by lia. apply as_u8_small. unfold in_width. lia. Qed.

Lemma nibbles t f : 0 <= f < 16 -> (t * 16 + f) / 16 = t /\ (t * 16 + f) mod 16 = f.
Proof. intros F. rewrite Z.div_add_l, (Z.div_small f), (Z.add_comm (t * 16) f), Z.mod_add by lia. split; [lia|by apply Z.mod_small]. Qed.

Lemma read_header_app t f rest : 0 < t < 256 -> 0 < f < 256 -> read_header (append_header [] t f ++ rest) = Some (t, f, rest).
Proof.
  intros T F. unfold append_header, read_header. destruct (Z.ltb_spec t 16), (Z.ltb_spec f 16); rewrite ?app_nil_l; cbn [app].
  - rewrite shifted_byte by lia. rewrite (lor_prefix (t * 16) f 4); [|lia|unfold in_width; lia|].
    + destruct (nibbles t f) as [D M]; [lia|]. change (read_be 1 (?x :: rest)) with (Some (x, rest)). cbv iota beta.
      rewrite D, M, !(proj2 (Z.eqb_neq _ 0)) by lia. done.
    + rewrite Z.land_ones by lia. by apply Z.mod_mul.
  - rewrite shifted_byte by lia. destruct (nibbles t 0) as [D M]; [lia|]. rewrite Z.add_0_r in D, M.
    change (read_be 1 (?x :: ?r)) with (Some (x, r)). cbv iota beta. rewrite D, M, (proj2 (Z.eqb_neq t 0)) by lia. done.
  - destruct (nibbles 0 f) as [D M]; [lia|]. rewrite Z.mul_0_l, Z.add_0_l in D, M.
    change (read_be 1 (?x :: ?r)) with (Some (x, r)). cbv iota beta. rewrite D, M, (proj2 (Z.eqb_neq f 0)) by lia. done.
  - done.
Qed.

Lemma header_bytes t f : 0 < t < 256 -> 0 < f < 256 -> all_bytes (append_header [] t f) /\ append_header [] t f <> [].
Proof.
  intros T F. unfold append_header. destruct (Z.ltb_spec t 16), (Z.ltb_spec f 16); split; try done;
    repeat (apply Forall_cons; split); try apply Forall_nil; try apply as_u8_byte; try (unfold in_width; lia); try by vm_compute.
  apply in_width_lor; [done|apply as_u8_byte|unfold in_width; lia].
Qed.

Lemma read_length_app n bs rest : 0 <= n -> append_variable_length [] n = Ok bs ->
  read_length (bs ++ rest) = Some (n, rest) /\ all_bytes bs.
Proof.
  intros N. unfold append_variable_length, read_length. rewrite !app_nil_l.
  destruct (Z.leb_spec n 192) as [A|A]; [|destruct (Z.ltb_spec n 12481) as [B|B]; [|destruct (Z.leb_spec n 918744) as [C|]; [|done]]];
    intros E; match type of E with Ok ?t = _ => assert (bs = t) as -> by congruence end; (split; [|bytes_parts; apply byte_singleton, as_u8_byte]);
    rewrite ?Z.shiftr_div_pow2 by lia; change 0xff with (Z.ones 8); rewrite ?Z.land_ones by lia; cbn [app];
    change (2 ^ 8) with 256; change (2 ^ 16) with 65536;
    rewrite !as_u8_small by (unfold in_width; Z.to_euclidean_division_equations; lia).
  - change (read_be 1 (?x :: ?r)) with (Some (x, r)). cbv iota beta. by rewrite (proj2 (Z.leb_le _ _)) by lia.
  - change (read_be 1 (?x :: ?r)) with (Some (x, r)). cbv iota beta. rewrite (proj2 (Z.leb_gt _ 192)), (proj2 (Z.leb_le _ 240)) by (Z.to_euclidean_division_equations; lia).
    change (read_be 1 (?x :: ?r)) with (Some (x, r)). cbv iota beta. do 2 f_equal. Z.to_euclidean_division_equations; lia.
  - change (read_be 1 (?x :: ?r)) with (Some (x, r)). cbv iota beta.
    rewrite (proj2 (Z.leb_gt _ 192)), (proj2 (Z.leb_gt _ 240)), (proj2 (Z.leb_le _ 254)) by (Z.to_euclidean_division_equations; lia).
    change (read_be 2 (?x :: ?y :: ?r)) with (Some (x * 256 + y, r)). cbv iota beta. do 2 f_equal. Z.to_euclidean_division_equations; lia.
Qed.

Lemma append_variable_length_app buffer n :
  append_variable_length buffer n = (let? bs := append_variable_length [] n in Ok (buffer ++ bs)).
Proof. unfold append_variable_length. by destruct (n <=? 192), (n <? 12481), (n <=? 918744). Qed.

(** *** Fields one after the other *)

Inductive Written : list Field -> bytes -> Prop :=
| WrittenNil : Written [] []
| WrittenCons f fs bs rest : bs <> [] -> (forall tail, read_field (bs ++ tail) = Some (f, tail)) -> Written fs rest ->
    Written (f :: fs) (bs ++ rest).

Lemma written_app fs1 bs1 fs2 bs2 : Written fs1 bs1 -> Written fs2 bs2 -> Written (fs1 ++ fs2) (bs1 ++ bs2).
Proof. induction 1 as [|f fs bs rest N R _ IH]; intros W; [done|]. rewrite <- app_assoc. cbn [app]. constructor; auto. Qed.

Lemma written_length fs bs : Written fs bs -> (length fs <= length bs)%nat.
Proof. induction 1 as [|f fs bs rest N _ _ IH]; [done|]. rewrite length_app. destruct bs; [done|]. cbn [length]. lia. Qed.

Lemma written_fields fuel fs bs : Written fs bs -> (length fs <= fuel)%nat -> read_fields fuel bs = Some fs.
Proof.
  intros W. revert fuel. induction W as [|f fs bs rest N R _ IH]; intros fuel L; [by destruct fuel|].
  destruct fuel as [|fuel]; [cbn in L; lia|]. cbn [length] in L. specialize (R rest).
  assert (bs ++ rest <> []) as M by by destruct bs. destruct (bs ++ rest) as [|b tail]; [done|].
  cbn [read_fields]. rewrite R, IH by lia. done.
Qed.

(** The reader finds what is written, so nothing else is written by the same bytes. *)
Lemma written_object fs bs : Written fs bs -> read_object bs = Some fs.
Proof. intros W. apply written_fields; [done|by apply written_length]. Qed.

(** An operation that appends fields to a buffer *)
Definition extends (fs : list Field) (buffer buffer' : bytes) : Prop :=
  exists bs, buffer' = buffer ++ bs /\ Written fs bs /\ all_bytes bs.

Lemma extends_refl buffer : extends [] buffer buffer.
Proof. exists []. rewrite app_nil_r. split_and!; [done|constructor|constructor]. Qed.

Lemma extends_trans fs1 fs2 b1 b2 b3 : extends fs1 b1 b2 -> extends fs2 b2 b3 -> extends (fs1 ++ fs2) b1 b3.
Proof.
  intros (c1 & -> & W1 & B1) (c2 & -> & W2 & B2). exists (c1 ++ c2). rewrite app_assoc.
  split_and!; [done|by apply written_app|by apply Forall_app_2].
Qed.

(** A header and a value *)
Lemma extends_field buffer t f bs value : 0 < t < 256 -> 0 < f < 256 -> all_bytes bs ->
  (forall tail, read_value t (bs ++ tail) = Some (value, tail)) ->
  extends [MkField t f value] buffer (append_header buffer t f ++ bs).
Proof.
  intros T F B R. destruct (header_bytes t f T F) as [HB HN]. exists (append_header [] t f ++ bs).
  rewrite append_header_app, <- app_assoc. split_and!; [done| |by apply Forall_app_2].
  rewrite <- (app_nil_r (_ ++ bs)). constructor; [by destruct (append_header [] t f)| |constructor].
  intros tail. unfold read_field. by rewrite <- app_assoc, read_header_app, R by done.
Qed.

Lemma extends_u16 buffer f v : 0 < f < 256 -> in_width 16 v -> extends [MkField 1 f (VInt v)] buffer (append_u16 buffer f v).
Proof.
  intros F V. apply extends_field; [done|done|apply be_bytes_bytes|]. intros tail.
  change (read_int 2 (be_bytes 2 v ++ tail) = Some (VInt v, tail)). unfold read_int. by rewrite read_be_app by done.
Qed.

Lemma extends_u32 buffer f v : 0 < f < 256 -> in_width 32 v -> extends [MkField 2 f (VInt v)] buffer (append_u32 buffer f v).
Proof.
  intros F V. apply extends_field; [done|done|apply be_bytes_bytes|]. intros tail.
  change (read_int 4 (be_bytes 4 v ++ tail) = Some (VInt v, tail)). unfold read_int. by rewrite read_be_app by done.
Qed.

Lemma extends_sized t buffer f bs buffer' : t = 7 \/ t = 8 -> 0 < f < 256 -> all_bytes bs ->
  (let? b := append_variable_length (append_header buffer t f) (Z.of_nat (length bs)) in Ok (b ++ bs)) = Ok buffer' ->
  extends [MkField t f (VBlob bs)] buffer buffer'.
Proof.
  intros T F B. rewrite append_variable_length_app. destruct (append_variable_length [] _) as [len|] eqn:L; [|done].
  intros E. match type of E with Ok ?x = _ => assert (buffer' = x) as -> by congruence end. rewrite <- app_assoc.
  assert (R : forall tail, read_length (len ++ tail) = Some (Z.of_nat (length bs), tail) /\ all_bytes len)
    by (intros tail; by apply read_length_app; [lia|]).
  apply extends_field; [lia|done|apply Forall_app_2; [apply (R [])|done]|]. intros tail.
  assert (read_value t ((len ++ bs) ++ tail) = read_blob ((len ++ bs) ++ tail)) as -> by by destruct T as [->| ->].
  unfold read_blob. rewrite <- app_assoc, (proj1 (R _)), Nat2Z.id, read_app. done.
Qed.

Lemma extends_blob buffer f bs buffer' : 0 < f < 256 -> all_bytes bs -> append_blob buffer f bs = Ok buffer' ->
  extends [MkField 7 f (VBlob bs)] buffer buffer'.
Proof. intros F B. apply (extends_sized 7); [by left|done..]. Qed.

Lemma extends_address buffer f address buffer' : 0 < f < 256 -> all_bytes address -> append_address buffer f address = Ok buffer' ->
  extends [MkField 8 f (VBlob address)] buffer buffer'.
Proof. intros F B. apply (extends_sized 8); [by right|done..]. Qed.

Lemma extends_mark buffer t f : t = 14 \/ t = 15 -> 0 < f < 256 -> extends [MkField t f VMark] buffer (append_header buffer t f).
Proof.
  intros T F. rewrite <- (app_nil_r (append_header _ _ _)). apply extends_field; [lia|done|constructor|]. intros tail.
  by destruct T as [->| ->].
Qed.

(** *** Amounts *)

Section amounts.
Context `{BigDecimalLaws}.

Definition raw_of (a : IssuedAmount) : Z := match encoded_value a with Ok raw => raw | Err _ => 0 end.

Definition amount_value (a : XrpAmount) : Value :=
  match a with Native drops => VNative drops | Issued a => VIssued (raw_of a) (currency a) (issuer a) end.

Definition amount_ok (a : XrpAmount) : Prop :=
  match a with
  | Native drops => in_width 62 drops
  | Issued a => length (currency a) = 20%nat /\ length (issuer a) = 20%nat /\ all_bytes (currency a) /\ all_bytes (issuer a) /\
      (int_val (value a) <> 0 -> - 2 ^ 31 < scale (bd_normalized (value a)) < 2 ^ 31)
  end.

Lemma raw_bounds a raw : amount_ok (Issued a) -> encoded_value a = Ok raw -> is_u64 raw /\ 2 ^ 63 <= raw.
Proof.
  intros (_ & _ & _ & _ & S) E. destruct (decide (int_val (value a) = 0)) as [Z|N].
  - unfold encoded_value, validate_issued_value in E. rewrite Z in E. cbn in E. assert (raw = ISSUED_CURRENCY_ZERO) as -> by congruence.
    split; by vm_compute.
  - by destruct (encoded_exact a raw (S N) E) as (U & L & _).
Qed.

Lemma extends_amount buffer f a buffer' : 0 < f < 256 -> amount_ok a -> append_amount buffer f a = Ok buffer' ->
  extends [MkField 6 f (amount_value a)] buffer buffer'.
Proof.
  intros F O. unfold append_amount, encode_amount, encode_issued, amount_value, TYPE_AMOUNT. destruct a as [drops|a]; intros E.
  - match type of E with Ok ?x = _ => assert (buffer' = x) as -> by congruence end.
    apply extends_field; [done|done|apply be_bytes_bytes|]. intros tail.
    change (read_amount (be_bytes 8 (Z.lor drops POS_SIGN_BIT_MASK) ++ tail) = Some (VNative drops, tail)). cbn in O. unfold in_width in O.
    rewrite Z.lor_comm, (lor_prefix POS_SIGN_BIT_MASK drops 62) by (done || reflexivity). unfold POS_SIGN_BIT_MASK, read_amount.
    rewrite read_be_app by (unfold in_width; change (8 * Z.of_nat 8) with 64; lia).
    rewrite (proj2 (Z.ltb_lt _ (2 ^ 63))), (proj2 (Z.ltb_ge _ (2 ^ 62))) by lia. do 3 f_equal. lia.
  - unfold raw_of. destruct (encoded_value a) as [raw|] eqn:R; [|done]. destruct (raw_bounds a raw O R) as [U L].
    match type of E with Ok ?x = _ => assert (buffer' = x) as -> by congruence end. destruct O as (LC & LI & BC & BI & _).
    apply extends_field; [done|done|by bytes_parts|]. intros tail.
    change (read_amount ((be_bytes 8 raw ++ currency a ++ as_bytes (issuer a)) ++ tail) = Some (VIssued raw (currency a) (issuer a), tail)).
    unfold read_amount, as_bytes. rewrite <- !app_assoc, read_be_app by done. rewrite (proj2 (Z.ltb_ge _ (2 ^ 63))) by lia.
    by rewrite !read_fixed by done.
Qed.

(** *** Memos and transactions *)

Definition memo_fields (memo : XrpPaymentMemo) : list Field :=
  match memo with Memo bs => [MkField 14 10 VMark; MkField 7 13 (VBlob bs); MkField 14 1 VMark; MkField 15 1 VMark] | _ => [] end.
Definition memo_head (memo : XrpPaymentMemo) : list Field := match memo with Memo _ => [MkField 15 9 VMark] | _ => [] end.
Definition memo_bytes_ok (memo : XrpPaymentMemo) : Prop :=
  match memo with NoMemo => True | DestinationTag tag => in_width 32 tag | Memo bs => all_bytes bs end.

Lemma extends_memo buffer memo buffer' : memo_bytes_ok memo -> append_memo buffer memo = Ok buffer' ->
  extends (memo_head memo ++ memo_fields memo) buffer buffer'.
Proof.
  intros M. unfold append_memo. destruct memo as [|tag|bs]; intros E; [replace buffer' with buffer by congruence; apply extends_refl..|].
  destruct (append_blob _ _ _) as [b|] eqn:B; [|done]. match type of E with Ok ?x = _ => assert (buffer' = x) as -> by congruence end.
  eapply (extends_trans [_]); [by apply extends_mark; [right|]|].
  eapply (extends_trans [_]); [by apply extends_mark; [left|]|]. eapply (extends_trans [_]); [by eapply extends_blob; [|exact M|exact B]|].
  rewrite app_assoc. eapply (extends_trans [_] [_]); [by apply (extends_mark b 14 1); [left|]|by apply (extends_mark _ 15 1); [right|]].
Qed.

Definition amount_field (tx : XrpTransaction) : Field :=
  match operation tx with Payment a _ _ => MkField 6 1 (amount_value a) | TrustSet a => MkField 6 3 (amount_value a) end.
Definition tag_field (tx : XrpTransaction) : list Field :=
  match operation tx with Payment _ _ (DestinationTag tag) => [MkField 2 14 (VInt tag)] | _ => [] end.
Definition signature_field (signature : option bytes) : list Field :=
  match signature with Some bs => [MkField 7 4 (VBlob bs)] | None => [] end.
Definition destination_fields (tx : XrpTransaction) : list Field :=
  match operation tx with Payment _ d memo => MkField 8 3 (VBlob d) :: memo_head memo | TrustSet _ => [] end.
Definition memo_of (tx : XrpTransaction) : XrpPaymentMemo := match operation tx with Payment _ _ memo => memo | TrustSet _ => NoMemo end.

(** The fields of a transaction: those of the object, and those inside its list of memos *)
Definition object_fields (tx : XrpTransaction) (signature : option bytes) : list Field :=
  [MkField 1 2 (VInt (transaction_type tx)); MkField 2 2 (VInt 0); MkField 2 4 (VInt (sequence tx))] ++ tag_field tx ++
  [MkField 2 27 (VInt (last_ledger_sequence tx)); amount_field tx; MkField 6 8 (VNative (fee tx)); MkField 7 3 (VBlob (signing_pub_key tx))] ++
  signature_field signature ++ [MkField 8 1 (VBlob (account tx))] ++ destination_fields tx.
Definition fields (tx : XrpTransaction) (signature : option bytes) : list Field := object_fields tx signature ++ memo_fields (memo_of tx).

Definition operation_ok (operation : XrpOperation) : Prop :=
  match operation with
  | Payment a d memo => amount_ok a /\ all_bytes d /\ memo_bytes_ok memo
  | TrustSet a => amount_ok a
  end.

Record transaction_ok (tx : XrpTransaction) : Prop := {
  ok_sequence : in_width 32 (sequence tx);
  ok_last : in_width 32 (last_ledger_sequence tx);
  ok_fee : in_width 62 (fee tx);
  ok_key : all_bytes (signing_pub_key tx);
  ok_account : all_bytes (account tx);
  ok_operation : operation_ok (operation tx)
}.

Definition signature_ok (signature : option bytes) : Prop := match signature with Some bs => all_bytes bs | None => True end.

Lemma xrp_encode_fields tx signature encoded : transaction_ok tx -> signature_ok signature -> encode tx signature = Ok encoded ->
  Written (fields tx signature) encoded /\ all_bytes encoded.
Proof.
  intros [Q L F K A O] S E. enough (extends (fields tx signature) [] encoded) as (bs & -> & W & B) by done.
  unfold fields, object_fields. rewrite <- !app_assoc. unfold encode in E.
  eapply (extends_trans [_]); [apply (extends_u16 [] 2); [done|destruct (operation tx) eqn:X; unfold transaction_type; rewrite X; by vm_compute]|].
  eapply (extends_trans [_]); [by apply (extends_u32 _ 2)|]. eapply (extends_trans [_]); [by apply (extends_u32 _ 4)|].
  set (b0 := append_u32 _ FIELD_SEQUENCE _) in *. set (b1 := match operation tx with Payment _ _ (DestinationTag _) => _ | _ => b0 end) in *.
  assert (T : extends (tag_field tx) b0 b1).
  { unfold tag_field, b1. destruct (operation tx) as [a d [|tag|bs]|a]; try apply extends_refl. by apply (extends_u32 _ 14); [|apply O]. }
  eapply (extends_trans (tag_field tx)); [exact T|]. clearbody b1.
  eapply (extends_trans [_]); [by apply (extends_u32 _ 27)|]. set (b2 := append_u32 b1 _ _) in *. clearbody b2.
  set (ra := match operation tx with Payment a _ _ => _ | TrustSet a => _ end) in E.
  assert (RA : forall b, ra = Ok b -> extends [amount_field tx] b2 b).
  { intros b. unfold ra, amount_field. destruct (operation tx) as [a d m|a]; apply extends_amount; try done; apply O. }
  destruct ra as [b3|]; [|done]. eapply (extends_trans [_]); [by apply RA|].
  destruct (append_amount b3 _ _) as [b4|] eqn:B4; [|done]. eapply (extends_trans [_]); [by eapply (extends_amount _ 8 (Native (fee tx))); [| |exact B4]|].
  destruct (append_blob b4 _ _) as [b5|] eqn:B5; [|done]. eapply (extends_trans [_]); [by eapply extends_blob; [| |exact B5]|].
  set (rs := match signature with Some s => _ | None => Ok b5 end) in E.
  assert (RS : forall b, rs = Ok b -> extends (signature_field signature) b5 b).
  { intros b. unfold rs, signature_field. destruct signature as [s|]; [by apply extends_blob|].
    intros X. replace b with b5 by congruence. apply extends_refl. }
  destruct rs as [b6|]; [|done]. eapply extends_trans; [by apply RS|].
  destruct (append_address b6 _ _) as [b7|] eqn:B7; [|done]. eapply (extends_trans [_]); [by eapply extends_address; [| |exact B7]|].
  unfold destination_fields, memo_of. destruct (operation tx) as [a d m|a].
  - destruct (append_address b7 _ _) as [b8|] eqn:B8; [|done]. destruct O as (_ & D & M).
    cbn [app]. eapply (extends_trans [_]); [by eapply extends_address; [| |exact B8]|]. by apply extends_memo.
  - replace encoded with b7 by congruence. apply extends_refl.
Qed.

(** *** The canonical order *)

(** By type, then by code *)
Definition field_key (f : Field) : Z := field_type f * 256 + field_code f.

Lemma object_sorted tx signature : Sorted Z.lt (map field_key (object_fields tx signature)).
Proof.
  unfold object_fields, tag_field, amount_field, signature_field, destination_fields.
  destruct (operation tx) as [a d [|tag|bs]|a]; destruct signature as [s|]; cbn [map app memo_head]; repeat (constructor; try (cbn; lia)).
Qed.

(** *** The fields determine the transaction *)

(** Two amounts with the same 64 bits, currency and issuer are the same amount to the ledger. *)
Definition same_operation (o1 o2 : XrpOperation) : Prop :=
  match o1, o2 with
  | Payment a1 d1 m1, Payment a2 d2 m2 => amount_value a1 = amount_value a2 /\ d1 = d2 /\ m1 = m2
  | TrustSet a1, TrustSet a2 => amount_value a1 = amount_value a2
  | _, _ => False
  end.

Definition same_transaction (t1 t2 : XrpTransaction) : Prop :=
  sequence t1 = sequence t2 /\ last_ledger_sequence t1 = last_ledger_sequence t2 /\ fee t1 = fee t2 /\
  signing_pub_key t1 = signing_pub_key t2 /\ account t1 = account t2 /\ same_operation (operation t1) (operation t2).

Lemma fields_determine t1 t2 s1 s2 : fields t1 s1 = fields t2 s2 -> same_transaction t1 t2 /\ s1 = s2.
Proof.
  unfold fields, object_fields, tag_field, amount_field, signature_field, destination_fields, memo_of, transaction_type, same_transaction.
  destruct t1 as [q1 l1 f1 k1 a1 [m1 d1 [|g1|b1]|m1]], t2 as [q2 l2 f2 k2 a2 [m2 d2 [|g2|b2]|m2]], s1 as [s1|], s2 as [s2|];
    cbn [operation sequence last_ledger_sequence fee signing_pub_key account memo_head memo_fields app]; intros E; try discriminate E;
    (assert (amount_value m1 = amount_value m2) as AV by congruence); inversion E; subst; by split_and!.
Qed.

End amounts.

(** *** The signature *)

Lemma high_bit b : is_byte b -> (Z.land b 0x80 =? 0) = (b <? 128).
Proof.
  intros B. assert (forallb (fun b => Bool.eqb (Z.land b 0x80 =? 0) (b <? 128)) (seqZ 0 256) = true) as A by by vm_compute.
  rewrite forallb_forall in A. apply eqb_prop, A. apply list_elem_of_In, elem_of_seqZ. unfold in_width in B. lia.
Qed.

Lemma skip_zeros_spec bs : exists k, bs = replicate k 0 ++ skip_zeros bs.
Proof.
  induction bs as [|b bs [k IH]]; [by exists 0%nat|]. cbn [skip_zeros]. destruct (Z.eqb_spec b 0) as [->|]; [|by exists 0%nat].
  exists (S k). cbn [replicate app]. by rewrite <- IH.
Qed.

Lemma der_integer_read bs tail : all_bytes bs -> (length bs <= 32)%nat ->
  read_der_integer (der_integer bs ++ tail) = Some (of_be bs, tail) /\ all_bytes (der_integer bs) /\
  (length (der_integer bs) <= 35)%nat.
Proof.
  intros B L. unfold der_integer. destruct (skip_zeros_spec bs) as [k K].
  assert (NB : all_bytes (skip_zeros bs)) by (rewrite K in B; by apply Forall_app in B as [_ B]).
  assert (NL : (length (skip_zeros bs) <= 32)%nat) by (rewrite K, length_app in L; lia).
  assert (V : of_be bs = of_be (skip_zeros bs)) by (rewrite K at 1; apply of_be_zeros).
  set (z := match skip_zeros bs with [] => [0] | _ => skip_zeros bs end).
  assert (Z : of_be z = of_be bs /\ all_bytes z /\ (1 <= length z <= 32)%nat).
  { rewrite V. unfold z. destruct (skip_zeros bs); [split_and!; [done|by constructor|cbn; lia..]|].
    split_and!; [done|done|cbn; lia|done]. }
  replace (match skip_zeros bs with [] => [0] | b :: l => b :: l end) with z by (unfold z; by destruct (skip_zeros bs)).
  clearbody z. destruct Z as (<- & ZB & ZL).
  set (w := if negb (Z.land (hd 0 z) 0x80 =? 0) then 0 :: z else z).
  assert (W : of_be w = of_be z /\ all_bytes w /\ (1 <= length w <= 33)%nat /\ (hd 0 w <? 128) = true).
  { unfold w. destruct z as [|b z]; [cbn in ZL; lia|]. cbn [hd]. pose proof ZB as ZB'. apply Forall_cons in ZB' as [HB _].
    rewrite high_bit by done. destruct (b <? 128) eqn:HD; cbn [negb].
    - split_and!; [done|done|lia|lia|done].
    - split_and!; [done|by constructor|cbn in ZL |- *; lia..|done]. }
  clearbody w. destruct W as (<- & WB & WL & H). rewrite as_u8_small by (unfold in_width; lia).
  split_and!; [|constructor; [by vm_compute|]; cbn [app]; constructor; [unfold in_width; lia|done]|cbn; lia].
  cbn [app]. unfold read_der_integer. cbn [expect]. rewrite Z.eqb_refl.
  change (read_be 1 (?x :: ?r)) with (Some (x, r)). cbv iota beta. rewrite Nat2Z.id, read_app, H, (proj2 (Z.leb_le 1 _)) by lia. done.
Qed.

(** The DER text of a signature reads as its two numbers. *)
Lemma der_signature_read signature : all_bytes signature -> length signature = 64%nat -> exists der,
  der_encode_signature signature = Ok der /\ all_bytes der /\
  read_der der = Some (of_be (take 32 signature), of_be (drop 32 signature)).
Proof.
  intros B L. unfold der_encode_signature. rewrite L. cbn [Nat.eqb negb].
  assert (all_bytes (take 32 signature) /\ all_bytes (drop 32 signature)) as [BR BS] by (split; [by apply Forall_take|by apply Forall_drop]).
  destruct (der_integer_read (take 32 signature) (der_integer (drop 32 signature)) BR) as (RR & DR & LR); [rewrite length_take; lia|].
  destruct (der_integer_read (drop 32 signature) [] BS) as (RS & DS & LS); [rewrite length_drop; lia|]. rewrite app_nil_r in RS.
  set (r := der_integer (take 32 signature)) in *. set (s := der_integer (drop 32 signature)) in *.
  assert (to_width 8 (Z.of_nat (length r + length s)) = Some (Z.of_nat (length r + length s))) as ->.
  { unfold to_width. rewrite (proj2 (Z.leb_le 0 _)), (proj2 (Z.ltb_lt _ (2 ^ 8))) by lia. done. }
  cbn [ok_or]. eexists. split; [done|]. cbn [app]. split.
  - constructor; [by vm_compute|]. constructor; [unfold in_width; lia|by apply Forall_app_2].
  - unfold read_der. cbn [expect]. rewrite Z.eqb_refl. change (read_be 1 (?x :: ?t)) with (Some (x, t)). cbv iota beta.
    rewrite length_app, Z.eqb_refl. cbn [negb]. by rewrite RR, RS.
Qed.

End XrpFacts.


(** ** What a signed request is *)

Module XrpRequests.
Import XrpAddresses XrpAmounts XrpTransactions XrpSigner XrpAmountFacts XrpFormat XrpFacts.

Section requests.
Context `{BigDecimalLaws} `{Ed25519} `{Secp256k1Laws} `{HexLaws} `{Sha512Half} `{RippleBase58Laws}.

(** A text that a reader finds to be one transaction, in the canonical order, with the signature of the rest of it *)
Definition signed_text (text : string) (tx : XrpTransaction) (key : bytes) : Prop := exists unsigned der encoded,
  encode tx None = Ok unsigned /\ read_object unsigned = Some (fields tx None) /\
  hex_decode text = Some encoded /\ read_object encoded = Some (fields tx (Some der)) /\
  Sorted Z.lt (map field_key (object_fields tx (Some der))) /\
  (let signature := fst (secp_sign_prehash (sha512_half (SIGNING_PREFIX ++ unsigned)) key) in
   read_der der = Some (of_be (take 32 signature), of_be (drop 32 signature))) /\
  forall tx' der', transaction_ok tx' -> all_bytes der' -> encode tx' (Some der') = Ok encoded ->
    same_transaction tx' tx /\ der' = der.

Lemma xrp_sign_reading tx key text : transaction_ok tx -> sign tx key = Ok text -> signed_text text tx key.
Proof.
  intros T. unfold sign, sign_digest, sign_digest_append_recovery, secp_sign_digest. intros E.
  destruct (encode tx None) as [unsigned|] eqn:U; [|done]. destruct (secp_valid_key key); [|done].
  set (digest := sha512_half _) in E. destruct (secp_sign_prehash digest key) as [rs v] eqn:S.
  pose proof (secp_signature_length digest key) as L. pose proof (secp_signature_bytes digest key) as B. rewrite S in L, B. cbn [fst] in L, B.
  destruct (_ <? 64)%nat; [done|]. rewrite <- L, take_app_length in E.
  destruct (der_signature_read rs B L) as (der & D & DB & R). rewrite D in E.
  destruct (encode tx (Some der)) as [encoded|] eqn:F; [|done]. assert (text = hex_encode encoded) as -> by congruence.
  destruct (xrp_encode_fields tx None unsigned T Logic.I U) as [WU _]. destruct (xrp_encode_fields tx (Some der) encoded T DB F) as [WF EB].
  exists unsigned, der, encoded. split_and!; [done|by apply written_object|by apply hex_roundtrip|by apply written_object| | |].
  - apply object_sorted.
  - fold digest. by rewrite S.
  - intros tx' der' T' DB' F'. destruct (xrp_encode_fields tx' (Some der') encoded T' DB' F') as [WF' _].
    apply written_object in WF, WF'. rewrite WF in WF'.
    assert (fields tx' (Some der') = fields tx (Some der)) as Q by congruence.
    apply fields_determine in Q as [Q X]. split; [done|congruence].
Qed.

(** The fee leaves room for the marks of a native amount, and a token has decimals and an amount of a hundred digits. *)
Record request_fits (input : ChainSignerInput) : Prop := {
  fits_fee : GasPrices.fee (fee_of input) < 2 ^ 62;
  fits_decimals : 0 <= Assets.decimals (asset_of input) < 2 ^ 31;
  fits_value : 0 <= InputTypes.input_value (load input) < 10 ^ 100
}.

Record from_request (input : ChainSignerInput) (key : bytes) (tx : XrpTransaction) : Prop := {
  request_account : try_parse (InputTypes.sender_address (load input)) = Some (account tx);
  request_fee : fee tx = GasPrices.fee (fee_of input);
  request_sequence : LoadMetadata.get_sequence (metadata input) = Ok (sequence tx);
  request_block : exists block, LoadMetadata.get_block_number (metadata input) = Ok block /\ last_ledger_sequence tx = block + 12;
  request_key : signing_pub_key tx = secp_public_key key
}.

(** An issued amount of the asset of the request, worth [q] *)
Definition amount_of_asset (input : ChainSignerInput) (a : IssuedAmount) (q : Q) : Prop :=
  (denotes (value a) == q)%Q /\ currency_code_bytes (Assets.symbol (asset_of input)) = Ok (currency a) /\
  exists token_id, get_token_id (Assets.id (asset_of input)) = Ok token_id /\ try_parse token_id = Some (issuer a).

(** The 64 bits of the amount are that number, or zero where the ledger has no smaller number. *)
Definition written_as (a : IssuedAmount) (q : Q) : Prop :=
  exists raw, encoded_value a = Ok raw /\ ((issued_number raw == q)%Q \/ (raw = ISSUED_CURRENCY_ZERO /\ (Qabs q < p10 (-81))%Q)).

Lemma xrp_try_parse_Some text address : try_parse text = Some address -> length address = 20%nat /\ all_bytes address.
Proof.
  unfold try_parse, CLASSIC_ADDRESS_LENGTH. destruct (ripple_decode text) as [decoded|] eqn:D; [|done]. apply ripple_bytes in D.
  destruct (Nat.eqb_spec (length decoded) 21) as [L|]; [|done]. cbn [negb]. intros E.
  assert (address = drop 1 decoded) as -> by congruence. rewrite length_drop, L. split; [done|by apply Forall_drop].
Qed.

Lemma xrp_parse_Ok text address : parse text = Ok address -> try_parse text = Some address.
Proof. unfold parse. destruct (try_parse text); [|done]. cbn. congruence. Qed.

Lemma currency_code_Ok symbol bs : currency_code_bytes symbol = Ok bs -> length bs = 20%nat /\ all_bytes bs.
Proof.
  unfold currency_code_bytes. destruct (_ || _).
  - unfold HexCodec.decode_hex_array. destruct (HexCodec.decode_hex symbol) as [d|] eqn:D; [|done].
    destruct (Nat.eqb_spec (length d) CURRENCY_CODE_LENGTH) as [L|]; [|done]. cbn [map_err]. intros E.
    assert (bs = d) as -> by congruence. split; [done|]. by eapply decode_hex_bytes.
  - set (v := bytes_of_string symbol). assert (VB : all_bytes v) by apply PrefixCodes.all_bytes_string.
    assert (ZB : all_bytes (replicate CURRENCY_CODE_LENGTH 0)) by (apply Forall_replicate; by vm_compute).
    assert (C : forall at_, (at_ + length v <= 20)%nat ->
      length (copy_at at_ v (replicate CURRENCY_CODE_LENGTH 0)) = 20%nat /\ all_bytes (copy_at at_ v (replicate CURRENCY_CODE_LENGTH 0))).
    { intros at_ L. unfold copy_at. split.
      - rewrite !length_app, length_take, length_drop, length_replicate. unfold CURRENCY_CODE_LENGTH. lia.
      - apply Forall_app_2; [by apply Forall_take|]. apply Forall_app_2; [done|by apply Forall_drop]. }
    destruct (Nat.ltb_spec CURRENCY_CODE_LENGTH (length v)) as [|L]; [done|].
    destruct (Nat.eqb_spec (length v) STANDARD_CURRENCY_CODE_LENGTH) as [X|X]; intros E;
      match type of E with Ok ?t = _ => assert (bs = t) as -> by congruence end; apply C.
    + rewrite X. unfold STANDARD_CURRENCY_CODE_OFFSET, STANDARD_CURRENCY_CODE_LENGTH. lia.
    + unfold CURRENCY_CODE_LENGTH in L. lia.
Qed.

(** *** The amounts of a request *)

Lemma radix_parse acc s v : radix_digits 10 acc s = Some v -> parse_digits acc s = Some v.
Proof.
  revert acc. induction s as [|a s IH]; intros acc; [done|]. cbn [radix_digits parse_digits]. intros E.
  destruct (to_digit 10 a) as [d|] eqn:D; [|done]. assert (digit_value a = Some d) as ->.
  { unfold to_digit in D. unfold digit_value. set (n := Z.of_nat (Ascii.nat_of_ascii a)) in *.
    destruct (Z.leb_spec 48 n), (Z.leb_spec n 57), (Z.leb_spec 97 n), (Z.leb_spec n 122), (Z.leb_spec 65 n), (Z.leb_spec n 90);
      cbn [andb] in D; destruct (Z.ltb_spec (n - 48) 10); destruct (Z.ltb_spec (n - 87) 10); destruct (Z.ltb_spec (n - 55) 10);
      try done; try lia; rewrite (proj2 (Z.leb_le 0 _)), (proj2 (Z.leb_le _ 9)) by lia; exact D. }
  destruct (_ <=? U64_MAX); [by apply IH|done].
Qed.

Lemma u64_pretty v r : u64_from_str_radix 10 (pretty v) = Some r -> r = v /\ 0 <= v.
Proof.
  intros E. destruct (Z.lt_ge_cases v 0) as [N|P].
  - rewrite NumberConcrete.pretty_negative in E by done. unfold u64_from_str_radix in E. cbn [Ascii.eqb] in E.
    change (Ascii.eqb "-" "+") with false in E. done.
  - split; [|done]. pose proof (Digits.parse_pretty v P) as R. unfold u64_from_str_radix in E.
    destruct (pretty v) as [|a s]; [done|]. destruct (Ascii.eqb_spec a "+") as [->|]; [done|].
    apply radix_parse in E. congruence.
Qed.

Lemma native_Ok v amount : native (pretty v) = Ok amount -> amount = Native v /\ 0 <= v <= MAX_DROPS.
Proof.
  unfold native. destruct (u64_from_str_radix 10 (pretty v)) as [r|] eqn:R; [|done]. apply u64_pretty in R as [-> P]. cbn [ok_or].
  destruct (Z.ltb_spec MAX_DROPS v); [done|]. intros E. split; [congruence|done].
Qed.

Lemma issued_Ok text symbol token_id amount : issued text symbol token_id = Ok amount -> exists a,
  amount = Issued a /\ bd_from_str text = Ok (value a) /\ currency_code_bytes symbol = Ok (currency a) /\ try_parse token_id = Some (issuer a).
Proof.
  unfold issued, new_issued. destruct (bd_from_str text) as [x|]; [|done]. cbn [map_err].
  destruct (currency_code_bytes symbol) as [c|]; [|done]. destruct (parse token_id) as [i|] eqn:P; [|done].
  intros E. exists (MkIssued x c i). split_and!; [congruence|done|done|by apply xrp_parse_Ok].
Qed.

(** An amount of the asset that is an integer at a scale can be written. *)
Lemma asset_amount_ok input a v d : 0 <= v < 10 ^ 100 -> 0 <= d < 2 ^ 31 ->
  amount_of_asset input a (inject_Z v * p10 (- d)) -> amount_ok (Issued a).
Proof.
  intros V D (E & C & t & _ & I). apply currency_code_Ok in C as [C CB]. apply xrp_try_parse_Some in I as [I IB].
  cbn [amount_ok]. split_and!; [done..|]. by apply (normal_scale (value a) v d).
Qed.

Lemma token_amount_Ok input v amount : 0 <= v < 10 ^ 100 -> 0 <= Assets.decimals (asset_of input) < 2 ^ 31 ->
  token_amount input (pretty v) = Ok amount -> exists a, amount = Issued a /\
  amount_of_asset input a (inject_Z v * p10 (- Assets.decimals (asset_of input))).
Proof.
  intros V D. unfold token_amount. destruct (BigNumberFacts.value_text v _ D V) as (t & x & -> & X & Q). cbn [map_err].
  destruct (get_token_id _) as [token_id|] eqn:T; [|done]. intros E. apply issued_Ok in E as (a & -> & A & C & I).
  exists a. split; [done|]. split_and!; [|done|by exists token_id]. assert (value a = x) as -> by congruence. done.
Qed.

Lemma trust_line_Ok input amount : trust_line_limit_amount input = Ok amount -> exists a, amount = Issued a /\
  amount_of_asset input a (inject_Z 690000000000 * p10 (- 0)).
Proof.
  unfold trust_line_limit_amount. destruct (get_token_id _) as [token_id|] eqn:T; [|done]. intros E.
  apply issued_Ok in E as (a & -> & A & C & I). exists a. split; [done|]. split_and!; [|done|by exists token_id].
  destruct (bd_from_int 690000000000) as (x & X & Q); [done|]. change (pretty 690000000000) with TRUST_LINE_LIMIT in X.
  assert (value a = x) as -> by congruence. rewrite Q. symmetry. apply Qmult_1_r.
Qed.

(** *** Memos and parameters *)

Lemma u32_Ok v w : u32_try_from v = Ok w -> w = v /\ in_width 32 v.
Proof.
  unfold u32_try_from. destruct (to_width 32 v) as [x|] eqn:W; [|done]. apply to_width_Some in W as [-> W]. intros E.
  split; [cbn in E; congruence|done].
Qed.

Lemma payment_memo_ok text memo : payment_memo text = Ok memo -> memo_bytes_ok memo.
Proof.
  unfold payment_memo. destruct text as [text|]; [|by intros [= <-]]. destruct (u64_from_str_radix 10 text) as [v|].
  - destruct (v =? 0); [by intros [= <-]|]. destruct (u32_try_from v) as [tag|] eqn:T; [|done]. apply u32_Ok in T as [-> T].
    intros E. assert (memo = DestinationTag v) as -> by congruence. done.
  - intros E. match type of E with Ok ?m = _ => assert (memo = m) as -> by congruence end. apply PrefixCodes.all_bytes_string.
Qed.

Lemma token_memo_ok text memo : token_memo text = Ok memo -> memo_bytes_ok memo.
Proof.
  unfold token_memo. destruct text as [text|]; [|by intros [= <-]]. destruct (u64_from_str_radix 10 text) as [v|]; [|by intros [= <-]].
  destruct (v =? 0); [by intros [= <-]|]. destruct (u32_try_from v) as [tag|] eqn:T; [|done]. apply u32_Ok in T as [-> T].
  intros E. assert (memo = DestinationTag v) as -> by congruence. done.
Qed.

Lemma swap_memo_ok data : memo_bytes_ok (swap_memo data).
Proof.
  unfold swap_memo. destruct (Payloads.quote_memo data) as [memo|]; [destruct (String.eqb memo "")|]; cbn [negb];
    try destruct (String.eqb _ ""); try done; apply PrefixCodes.all_bytes_string.
Qed.

(** The transaction with the parameters of the request *)
Definition with_operation (p : XrpTransactionParams) (o : XrpOperation) : XrpTransaction :=
  MkTransaction (params_sequence p) (params_last_ledger_sequence p) (params_fee p) (params_signing_pub_key p) (params_account p) o.

Lemma params_Ok input key p o : request_fits input -> params input key = Ok p ->
  from_request input key (with_operation p o) /\ (operation_ok o -> transaction_ok (with_operation p o)).
Proof.
  intros F. unfold params, from_box, public_key_from_private. intros E.
  destruct (LoadMetadata.get_block_number _) as [block|] eqn:B; [|done]. destruct (LoadMetadata.get_sequence _) as [n|] eqn:N; [|done].
  cbn [map_err] in E. destruct (checked_add block _) as [last|] eqn:L; [|done]. cbn [ok_or] in E.
  destruct (parse _) as [sender|] eqn:A; [|done]. apply xrp_parse_Ok in A.
  destruct (GasPrices.to_u64 _) as [f|] eqn:X; [|done]. apply to_u64_Some in X as [-> X]. cbn [ok_or] in E.
  destruct (u32_try_from n) as [q|] eqn:Q; [|done]. apply u32_Ok in Q as [-> Q].
  destruct (u32_try_from last) as [l|] eqn:R; [|done]. apply u32_Ok in R as [-> R].
  destruct (secp_valid_key key) eqn:K; [|done]. match type of E with Ok ?t = _ => assert (p = t) as -> by congruence end.
  assert (last = block + 12) as -> by (unfold checked_add, LEDGER_SEQUENCE_OFFSET in L; destruct (_ <=? _); [congruence|done]).
  split; [split; try done; by exists block|]. intros O. split; cbn [with_operation sequence last_ledger_sequence fee signing_pub_key account operation
    params_sequence params_last_ledger_sequence params_fee params_signing_pub_key params_account]; try done.
  - pose proof (fits_fee input F). unfold in_width in *. lia.
  - apply secp_key_bytes.
  - by apply xrp_try_parse_Some in A as [_ A].
Qed.

(** *** Signing *)

Lemma payment_Ok input key amount destination memo text : request_fits input -> amount_ok amount -> memo_bytes_ok memo ->
  sign_payment input key amount destination memo = Ok text -> exists tx d, from_request input key tx /\
  try_parse destination = Some d /\ operation tx = Payment amount d memo /\ signed_text text tx key.
Proof.
  intros F A M. unfold sign_payment, new_payment. intros E. destruct (params input key) as [p|] eqn:P; [|done].
  destruct (parse destination) as [d|] eqn:D; [|done]. apply xrp_parse_Ok in D.
  destruct (params_Ok input key p (Payment amount d memo) F P) as [R T]. exists (with_operation p (Payment amount d memo)), d.
  split_and!; [done..|]. apply xrp_sign_reading; [|exact E]. apply T. split_and!; [done| |done]. by apply xrp_try_parse_Some in D as [_ D].
Qed.

(** A signed transaction has an encoded amount. *)
Lemma signed_amount text tx key a q : signed_text text tx key ->
  (exists d m, operation tx = Payment (Issued a) d m) \/ operation tx = TrustSet (Issued a) ->
  (int_val (value a) <> 0 -> - 2 ^ 31 < scale (bd_normalized (value a)) < 2 ^ 31) -> (denotes (value a) == q)%Q -> written_as a q.
Proof.
  intros (unsigned & _ & _ & U & _) O S Q. unfold encode in U.
  assert (exists raw, encoded_value a = Ok raw) as [raw R].
  { destruct (encoded_value a) as [raw|] eqn:R; [by exists raw|]. exfalso.
    destruct O as [(d & m & O)|O]; rewrite O in U; unfold append_amount, encode_amount, encode_issued in U; rewrite R in U; done. }
  exists raw. split; [done|]. destruct (decide (int_val (value a) = 0)) as [Z|N].
  - left. unfold encoded_value, validate_issued_value in R. rewrite Z in R. assert (raw = ISSUED_CURRENCY_ZERO) as -> by (cbn in R; congruence).
    apply zero_denotes in Z. rewrite Z in Q. rewrite <- Q. reflexivity.
  - destruct (encoded_exact a raw (S N) R) as (_ & _ & [X|[X Y]]); [left|right]; by rewrite <- Q.
Qed.

End requests.
End XrpRequests.


Module XrpProperties.
Import XrpAddresses XrpAmounts XrpTransactions XrpSigner XrpAmountFacts XrpFormat XrpFacts XrpRequests.

Section properties.
Context `{BigDecimalLaws} `{Ed25519} `{Secp256k1Laws} `{HexLaws} `{Sha512Half} `{RippleBase58Laws}.

(** (C19) What the XRP signer signs is what was requested: a payment of the drops or of the tokens of the request, a payment
    of a swap, or a trust line, from the account, with the fee and the sequences of the request.  An independent reader
    of the ledger's format finds in the signed text exactly the fields of the transaction, in the canonical order, and
    no other transaction has the same text; its signature, in DER, is that of the text without it.  The 64 bits of a
    token amount stand for the requested number, or for zero when the number is below the smallest of the format. *)
Theorem xrp_request_signed : forall input key text texts, request_fits input ->
  (sign_transfer input key = Ok text -> exists tx d memo,
     from_request input key tx /\ try_parse (InputTypes.destination_address (load input)) = Some d /\
     payment_memo (InputTypes.get_memo (load input)) = Ok memo /\
     operation tx = Payment (Native (InputTypes.input_value (load input))) d memo /\ signed_text text tx key) /\
  (sign_token_transfer input key = Ok text -> exists tx d memo a,
     let q := (inject_Z (InputTypes.input_value (load input)) * p10 (- Assets.decimals (asset_of input)))%Q in
     from_request input key tx /\ try_parse (InputTypes.destination_address (load input)) = Some d /\
     token_memo (InputTypes.get_memo (load input)) = Ok memo /\ operation tx = Payment (Issued a) d memo /\
     amount_of_asset input a q /\ written_as a q /\ signed_text text tx key) /\
  (sign_swap input key = Ok texts -> exists text tx d swap,
     texts = [text] /\ InputTypes.get_swap_data (InputTypes.input_type (load input)) = Ok swap /\
     let data := Payloads.swap_data swap in
     from_request input key tx /\ try_parse (Payloads.quote_to data) = Some d /\
     operation tx = Payment (Native (Payloads.quote_value data)) d (swap_memo data) /\ signed_text text tx key) /\
  (sign_account_action input key = Ok text -> exists tx a,
     let q := (inject_Z 690000000000 * p10 (- 0))%Q in
     from_request input key tx /\ operation tx = TrustSet (Issued a) /\ amount_of_asset input a q /\ written_as a q /\
     signed_text text tx key).
Proof.
  intros input key text texts F. split_and!.
  - unfold sign_transfer. intros E. destruct (native _) as [amount|] eqn:N; [|done]. apply native_Ok in N as [-> V].
    destruct (payment_memo _) as [memo|] eqn:M; [|done]. apply payment_Ok in E as (tx & d & R & D & O & S); [|done| |by eapply payment_memo_ok].
    + by exists tx, d, memo.
    + cbn. unfold in_width, MAX_DROPS in *. lia.
  - unfold sign_token_transfer. intros E. destruct (token_amount _ _) as [amount|] eqn:N; [|done].
    pose proof (fits_value input F) as V. pose proof (fits_decimals input F) as DD.
    apply token_amount_Ok in N as (a & -> & A); [|done..]. destruct (token_memo _) as [memo|] eqn:M; [|done].
    pose proof (asset_amount_ok input a _ _ V DD A) as OK.
    apply payment_Ok in E as (tx & d & R & D & O & S); [|done|done|by eapply token_memo_ok].
    exists tx, d, memo, a. cbv zeta. do 5 (split; [done|]). split; [|done].
    apply (signed_amount text tx key); [done|left; by exists d, memo|apply OK|apply A].
  - unfold sign_swap, from_box. intros E. destruct (InputTypes.get_swap_data _) as [swap|] eqn:W; [|done]. cbn [map_err] in E.
    destruct (native _) as [amount|] eqn:N; [|done]. apply native_Ok in N as [-> V].
    destruct (sign_payment _ _ _ _ _) as [t|] eqn:E'; [|done]. apply payment_Ok in E' as (tx & d & R & D & O & S); [|done| |apply swap_memo_ok].
    + exists t, tx, d, swap. split; [congruence|]. done.
    + cbn. unfold in_width, MAX_DROPS in *. lia.
  - unfold sign_account_action. intros E. destruct (trust_line_limit_amount _) as [amount|] eqn:N; [|done].
    apply trust_line_Ok in N as (a & -> & A). destruct (params input key) as [p|] eqn:P; [|done].
    assert (OK : amount_ok (Issued a)) by (by apply (asset_amount_ok input a 690000000000 0)).
    destruct (params_Ok input key p (TrustSet (Issued a)) F P) as [R T].
    assert (S : signed_text text (with_operation p (TrustSet (Issued a))) key) by (apply xrp_sign_reading; [by apply T|exact E]).
    exists (with_operation p (TrustSet (Issued a))), a. cbv zeta. do 3 (split; [done|]). split; [|done].
    apply (signed_amount text (with_operation p (TrustSet (Issued a))) key); [done|by right|apply OK|apply A].
Qed.

(** A token amount of at most sixteen digits at up to 81 decimals is never rounded: it is accepted, and its 64 bits
    stand for exactly the requested number. *)
Theorem token_amount_exact : forall input v amount, 0 <= v < 10 ^ 16 -> 0 <= Assets.decimals (asset_of input) <= 81 ->
  token_amount input (pretty v) = Ok amount -> exists a raw, amount = Issued a /\ encoded_value a = Ok raw /\
  (issued_number raw == inject_Z v * p10 (- Assets.decimals (asset_of input)))%Q.
Proof.
  intros input v amount V D E. apply token_amount_Ok in E as (a & -> & A & _); [|lia..].
  destruct (integral_exact a v _ V D A) as (raw & R & Q). by exists a, raw.
Qed.

End properties.
End XrpProperties.

(** ** A concrete request *)

Module XrpConcrete.
Import XrpAddresses XrpAmounts XrpTransactions XrpSigner XrpAmountFacts XrpFormat XrpFacts XrpRequests XrpProperties.
Import Concrete SigningConcrete HexConcrete NumberConcrete.

#[local] Instance toy_sha512_half : Sha512Half := fun bs => be_bytes 32 (of_be bs * 3 + 1).
#[local] Instance toy_ripple : RippleBase58 := {| ripple_encode := string_of_bytes; ripple_decode s := Some (bytes_of_string s) |}.
#[local] Instance toy_ripple_laws : RippleBase58Laws.
Proof.
  split; cbn [ripple_encode ripple_decode toy_ripple].
  - intros bs B. rewrite HexFacts.bytes_of_string_of_bytes; [done|]. by constructor; [by vm_compute|].
  - intros s bs E. assert (bs = bytes_of_string s) as -> by congruence. apply PrefixCodes.all_bytes_string.
Qed.

Definition address_text (seed : Z) : string := XrpAddresses.encode (replicate 20 seed).
Definition token_input : ChainSignerInput :=
  request (coin Chains.Xrp (Some (address_text 3)) "RLUSD" 15) (address_text 1) (address_text 2)
    1000000000000000 (Some "77"%string) 12 [] (LoadMetadata.Xrp 93674951 187349938).

Lemma xrp_token_fits : request_fits token_input.
Proof. split; [by vm_compute|split; by vm_compute|split; by vm_compute]. Qed.

Lemma xrp_request_signed_witness : exists text, sign_token_transfer token_input key = Ok text /\ exists tx d memo a,
  let q := (inject_Z (InputTypes.input_value (load token_input)) * p10 (- Assets.decimals (asset_of token_input)))%Q in
  from_request token_input key tx /\ try_parse (InputTypes.destination_address (load token_input)) = Some d /\
  token_memo (InputTypes.get_memo (load token_input)) = Ok memo /\ operation tx = Payment (Issued a) d memo /\
  amount_of_asset token_input a q /\ written_as a q /\ signed_text text tx key.
Proof.
  assert (S : exists text, sign_token_transfer token_input key = Ok text) by (eexists; vm_compute; reflexivity).
  destruct S as [text S]. exists text. split; [exact S|].
  exact (proj1 (proj2 (xrp_request_signed token_input key text [] xrp_token_fits)) S).
Defined.

Lemma token_amount_exact_witness : exists amount, token_amount token_input (pretty 1000000000000000) = Ok amount /\
  exists a raw, amount = Issued a /\ encoded_value a = Ok raw /\
  (issued_number raw == inject_Z 1000000000000000 * p10 (- Assets.decimals (asset_of token_input)))%Q.
Proof.
  assert (S : exists amount, token_amount token_input (pretty 1000000000000000) = Ok amount) by (eexists; vm_compute; reflexivity).
  destruct S as [amount S]. exists amount. split; [exact S|].
  apply (token_amount_exact token_input 1000000000000000 amount); [lia|split; by vm_compute|exact S].
Defined.

Definition amount_text (value : string) : result SignerError Z :=
  let? amount := new_issued value "USD" (address_text 3) in encoded_value amount.

(** The vectors of the unit tests *)
Example xrp_vectors :
  amount_text "10" = Ok 0xd4c38d7ea4c68000 /\
  hex_encode (default [] (ok (append_variable_length [] 180))) = "b4" /\
  hex_encode (default [] (ok (append_variable_length [] 1000))) = "c427" /\
  hex_encode (default [] (ok (append_variable_length [] 12580))) = "f10063" /\
  (hex_encode <$> ok (currency_code_bytes "USD")) = Some "0000000000000000000000005553440000000000" /\
  (hex_encode <$> ok (currency_code_bytes "RLUSD")) = Some "524c555344000000000000000000000000000000" /\
  payment_memo (Some "123") = Ok (DestinationTag 123) /\ payment_memo (Some "0xhello") = Ok (Memo (bytes_of_string "hello")) /\
  payment_memo (Some "0") = Ok NoMemo /\ token_memo (Some "memo") = Ok NoMemo.
Proof. vm_compute. done. Qed.

(** The scale is cast to 32 bits before it is checked, so a number too small to be encoded is encoded as one; and a
    number whose exponent is accepted is encoded as zero when its digits do not reach the smallest mantissa. *)
Example scale_wraps : amount_text "1e-4294967296" = amount_text "1" /\ amount_text "1e-96" = Ok ISSUED_CURRENCY_ZERO.
Proof. vm_compute. done. Qed.

End XrpConcrete.
