(* ===== verification/CosmosSigner.v ===== *)
(** * The Cosmos signer

    Models [gem_cosmos/src/address.rs] (module [CosmosAddresses]), the messages of [models/message.rs], [contract.rs],
    [ibc.rs] and [long.rs] ([CosmosMessages]), their protobuf encoding and the documents of [signer/transaction.rs]
    ([CosmosTransactions]) over the encoders of [Protobuf], and the requests of [signer/chain_signer.rs]
    ([CosmosSigner]).  The JSON of swaps and of the broadcast is the class [CosmosJson].  The theorems show that the
    signed document determines the messages, the memo, the fee, the account and the chain, and that the signed text of
    a request holds what was requested. *)
From stdpp Require Import pretty.
From S2P Require Import Prelude HexText Text Crates Protobuf ChainRegistry Assets BitcoinPlanner TransferAmount TransferRules Signing NumberFormatter.
Import BitcoinPlanner SignerInputs Keys Encode.

(** [bech32]: [decode], [Hrp::parse] and [encode], with the text of their errors *)
Class Bech32 : Type := {
  bech32_decode : string -> result string (string * bytes);
  hrp_parse : string -> result string string;
  bech32_encode : string -> bytes -> result string string
}.
Class Bech32Laws `{Bech32} : Prop := { bech32_bytes : forall s hrp bs, bech32_decode s = Ok (hrp, bs) -> all_bytes bs }.

(** [gem_hash::keccak::keccak256], and an uncompressed point of [k256] *)
Class Keccak256 : Type := keccak256 : bytes -> bytes.
Class Sec1 : Type := sec1_uncompress : bytes -> option bytes.
Class Sec1Laws `{Sec1} : Prop := { sec1_bytes : forall key bs, sec1_uncompress key = Some bs -> all_bytes bs }.

(** ** [address.rs] *)

Module CosmosAddresses.
Import CosmosChains.

Record CosmosAddress := MkAddress { address_hrp : string; address_bytes : bytes }.

Section address.
Context `{Bech32}.

Definition from_public_key_hash (chain : Chains.Chain) (public_key_hash : bytes) : option CosmosAddress :=
  let?? cosmos_chain := from_chain chain in Some (MkAddress (hrp cosmos_chain) public_key_hash).

Definition try_parse (address : string) : option CosmosAddress :=
  let?? (hrp_, bs) := ok (bech32_decode address) in
  if existsb (fun chain => bool_decide (hrp chain = hrp_)) all && (length bs =? 20)%nat
  then Some (MkAddress hrp_ bs) else None.

Definition has_chain_hrp (address : string) (chain : Chains.Chain) : bool :=
  match from_chain chain with
  | None => false
  | Some cosmos_chain =>
      match try_parse address with Some address => bool_decide (address_hrp address = hrp cosmos_chain) | None => false end
  end.

Definition is_valid_for_chain (address : string) (chain : Chains.Chain) : bool := has_chain_hrp address chain.
Definition validate_address (address : string) (chain : Chains.Chain) : bool := is_valid_for_chain address chain.

Definition convert (address hrp_ : string) : result string string :=
  let? (_, decoded) := bech32_decode address in
  let? new_hrp := hrp_parse hrp_ in
  bech32_encode new_hrp decoded.

Definition as_bytes (self : CosmosAddress) : bytes := address_bytes self.

(** An error is the panic of [expect]. *)
Definition encode (self : CosmosAddress) : result string string :=
  let? hrp_ := hrp_parse (address_hrp self) in bech32_encode hrp_ (address_bytes self).

End address.
End CosmosAddresses.

(** ** [models] *)

Module CosmosMessages.

Definition MESSAGE_DELEGATE : string := "/cosmos.staking.v1beta1.MsgDelegate".
Definition MESSAGE_UNDELEGATE : string := "/cosmos.staking.v1beta1.MsgUndelegate".
Definition MESSAGE_REDELEGATE : string := "/cosmos.staking.v1beta1.MsgBeginRedelegate".
Definition MESSAGE_SEND_BETA : string := "/cosmos.bank.v1beta1.MsgSend".
Definition MESSAGE_REWARD_BETA : string := "/cosmos.distribution.v1beta1.MsgWithdrawDelegatorReward".
Definition MESSAGE_SEND : string := "/types.MsgSend".
Definition MESSAGE_EXECUTE_CONTRACT : string := "/cosmwasm.wasm.v1.MsgExecuteContract".
Definition MESSAGE_IBC_TRANSFER : string := "/ibc.applications.transfer.v1.MsgTransfer".

Record Coin := MkCoin { coin_denom : string; coin_amount : Z }.

Inductive CosmosMessage :=
| Send (from_address to_address : string) (amount : list Coin)
| ExecuteContract (sender contract : string) (msg : bytes) (funds : list Coin)
| IbcTransfer (source_port source_channel : string) (token : Coin) (sender receiver : string) (timeout_timestamp : Z) (memo : string)
| Delegate (delegator_address validator_address : string) (amount : Coin)
| Undelegate (delegator_address validator_address : string) (amount : Coin)
| BeginRedelegate (delegator_address validator_src_address validator_dst_address : string) (amount : Coin)
| WithdrawDelegatorReward (delegator_address validator_address : string).

(** The values of the messages, as [serde] reads them *)
Record MsgSend := MkMsgSend { send_from : string; send_to : string; send_amount : list Coin }.
Record ExecuteContractValue := MkExecute { execute_sender : string; execute_contract : string; execute_msg : string; execute_funds : list Coin }.
Record IbcTransferValue := MkIbc {
  ibc_source_port : string;
  ibc_source_channel : string;
  ibc_token : Coin;
  ibc_sender : string;
  ibc_receiver : string;
  ibc_timeout_timestamp : Z;
  ibc_memo : string
}.
Record MsgDelegate := MkDelegate { delegate_delegator : string; delegate_validator : string; delegate_amount : option Coin }.
Record MsgUndelegate := MkUndelegate { undelegate_delegator : string; undelegate_validator : string; undelegate_amount : option Coin }.
Record MsgBeginRedelegate := MkBeginRedelegate {
  redelegate_delegator : string;
  redelegate_src : string;
  redelegate_dst : string;
  redelegate_amount : option Coin
}.
Record MsgWithdrawDelegatorReward := MkWithdraw { withdraw_delegator : string; withdraw_validator : string }.

(** [Long]: a number in two signed halves *)
Record Long := MkLong { low : Z; high : Z }.
Definition to_uint64 (self : Long) : Z := Z.lor (Z.shiftl (as_u32 (high self)) 32) (as_u32 (low self)).

(** [deserialize_u64_from_long_or_int], of a value that is read *)
Inductive LongOrValue := LongNumber (n : Z) | LongStr (s : string) | LongHalves (l : Long).
Definition deserialize_u64_from_long_or_int (value : LongOrValue) : option Z :=
  match value with
  | LongNumber n => Some n
  | LongStr s => u64_from_str_radix 10 s
  | LongHalves l => Some (to_uint64 l)
  end.

(** [serde_json] on an abstract type of values; a reader gives the text of its error. *)
Class CosmosJson (Value : Type) : Type := {
  array_from_str : string -> result string (list Value);
  value_to_string : Value -> string;
  envelope_from_str : string -> result string (string * Value);
  send_from_value : Value -> result string MsgSend;
  execute_from_value : Value -> result string ExecuteContractValue;
  ibc_from_value : Value -> result string IbcTransferValue;
  delegate_from_value : Value -> result string MsgDelegate;
  undelegate_from_value : Value -> result string MsgUndelegate;
  redelegate_from_value : Value -> result string MsgBeginRedelegate;
  withdraw_from_value : Value -> result string MsgWithdrawDelegatorReward;
  broadcast_to_string : string -> string -> string
}.
(** The text of the broadcast determines its transaction, and the timeout that is read is a [u64]. *)
Class CosmosJsonLaws `{CosmosJson Value} : Prop := {
  broadcast_injective : forall mode tx_bytes tx_bytes',
    broadcast_to_string mode tx_bytes = broadcast_to_string mode tx_bytes' -> tx_bytes = tx_bytes';
  ibc_timeout : forall value v, ibc_from_value value = Ok v -> is_u64 (ibc_timeout_timestamp v)
}.

Section parse.
Context {Value : Type} `{CosmosJson Value}.

Definition json_error {A} (r : result string A) : result SignerError A := map_err InvalidInput r.

Definition parse (data : string) : result SignerError CosmosMessage :=
  let? (type_url, value) := json_error (envelope_from_str data) in
  if bool_decide (type_url = MESSAGE_SEND_BETA) || bool_decide (type_url = MESSAGE_SEND) then
    let? v := json_error (send_from_value value) in
    Ok (Send (send_from v) (send_to v) (send_amount v))
  else if bool_decide (type_url = MESSAGE_EXECUTE_CONTRACT) then
    let? v := json_error (execute_from_value value) in
    Ok (ExecuteContract (execute_sender v) (execute_contract v) (bytes_of_string (execute_msg v)) (execute_funds v))
  else if bool_decide (type_url = MESSAGE_IBC_TRANSFER) then
    let? v := json_error (ibc_from_value value) in
    Ok (IbcTransfer (ibc_source_port v) (ibc_source_channel v) (ibc_token v) (ibc_sender v) (ibc_receiver v)
          (ibc_timeout_timestamp v) (ibc_memo v))
  else if bool_decide (type_url = MESSAGE_DELEGATE) then
    let? v := json_error (delegate_from_value value) in
    let? amount := ok_or (delegate_amount v) (InvalidInput "missing delegate amount") in
    Ok (Delegate (delegate_delegator v) (delegate_validator v) amount)
  else if bool_decide (type_url = MESSAGE_UNDELEGATE) then
    let? v := json_error (undelegate_from_value value) in
    let? amount := ok_or (undelegate_amount v) (InvalidInput "missing undelegate amount") in
    Ok (Undelegate (undelegate_delegator v) (undelegate_validator v) amount)
  else if bool_decide (type_url = MESSAGE_REDELEGATE) then
    let? v := json_error (redelegate_from_value value) in
    let? amount := ok_or (redelegate_amount v) (InvalidInput "missing redelegate amount") in
    Ok (BeginRedelegate (redelegate_delegator v) (redelegate_src v) (redelegate_dst v) amount)
  else if bool_decide (type_url = MESSAGE_REWARD_BETA) then
    let? v := json_error (withdraw_from_value value) in
    Ok (WithdrawDelegatorReward (withdraw_delegator v) (withdraw_validator v))
  else Err (InvalidInput ("unsupported cosmos message type: " +:+ type_url)).

Definition parse_array (data : string) : result SignerError (list CosmosMessage) :=
  let? arr := json_error (array_from_str data) in
  collect (fun v => parse (value_to_string v)) arr.

End parse.
End CosmosMessages.

(** ** [signer/transaction.rs] *)

Module CosmosTransactions.
Import Payloads CosmosChains CosmosMessages.

Definition COSMOS_SECP256K1_PUBKEY_TYPE : string := "/cosmos.crypto.secp256k1.PubKey".
Definition INJECTIVE_ETHSECP256K1_PUBKEY_TYPE : string := "/injective.crypto.v1beta1.ethsecp256k1.PubKey".
Definition SIGN_MODE_DIRECT : Z := 1.

(** [&str] arguments of the encoders *)
Definition encode_text_field (field_number : Z) (value : string) : bytes := encode_string_field field_number (bytes_of_string value).

Definition transfer_message (input : ChainSignerInput) (denom : string) (amount : Z) : CosmosMessage :=
  Send (InputTypes.sender_address (load input)) (InputTypes.destination_address (load input)) [MkCoin denom amount].

Definition reward_messages (delegator_address : string) (validators : list DelegationValidator) : list CosmosMessage :=
  map (fun validator => WithdrawDelegatorReward delegator_address (validator_id validator)) validators.

Definition stake_messages (input : ChainSignerInput) (chain : CosmosChain) : result SignerError (list CosmosMessage) :=
  let? stake_type := map_err InvalidInput (InputTypes.get_stake_type (InputTypes.input_type (load input))) in
  let delegator_address := InputTypes.sender_address (load input) in
  let amount := MkCoin (denom_as_ref (denom chain)) (InputTypes.input_value (load input)) in
  match stake_type with
  | Stake validator => Ok [Delegate delegator_address (validator_id validator) amount]
  | Unstake delegation =>
      Ok (reward_messages delegator_address [validator delegation] ++
          [Undelegate delegator_address (validator_id (validator delegation)) amount])
  | Redelegate data =>
      Ok (reward_messages delegator_address [validator (redelegate_delegation data)] ++
          [BeginRedelegate delegator_address (validator_id (validator (redelegate_delegation data)))
             (validator_id (to_validator data)) amount])
  | Rewards validators => Ok (reward_messages delegator_address validators)
  | Withdraw _ => Err (InvalidInput "Cosmos withdraw operations are not supported")
  | Freeze _ | Unfreeze _ => Err (InvalidInput "Cosmos freeze operations are not supported")
  end.

Definition encode_coin (denom : string) (amount : Z) : bytes := encode_text_field 1 denom ++ encode_text_field 2 (pretty amount).

(** [iter().flat_map(|c| encode_message_field(n, &encode_coin(..)))] *)
Definition coin_fields (field_number : Z) (coins : list Coin) : bytes :=
  flat_map (fun c => encode_message_field field_number (encode_coin (coin_denom c) (coin_amount c))) coins.

Section encode.
Context `{Bech32}.

Definition encode_send (chain : CosmosChain) (from_address to_address : string) (amount : list Coin) : result SignerError bytes :=
  let coin_fields := coin_fields 3 amount in
  let? address_fields :=
    match chain with
    | Thorchain | Mayachain =>
        let parse addr := ok_or (CosmosAddresses.try_parse addr) (InvalidInput ("invalid cosmos address: " +:+ addr)) in
        let? from_ := parse from_address in
        let? to := parse to_address in
        Ok (encode_bytes_field 1 (CosmosAddresses.as_bytes from_) ++ encode_bytes_field 2 (CosmosAddresses.as_bytes to))
    | Cosmos | Osmosis | Celestia | Injective | Sei | Noble =>
        Ok (encode_text_field 1 from_address ++ encode_text_field 2 to_address)
    end in
  Ok (address_fields ++ coin_fields).

Definition type_url (self : CosmosMessage) (chain : CosmosChain) : string :=
  match self with
  | Send _ _ _ =>
      match chain with
      | Thorchain | Mayachain => MESSAGE_SEND
      | Cosmos | Osmosis | Celestia | Injective | Sei | Noble => MESSAGE_SEND_BETA
      end
  | ExecuteContract _ _ _ _ => MESSAGE_EXECUTE_CONTRACT
  | IbcTransfer _ _ _ _ _ _ _ => MESSAGE_IBC_TRANSFER
  | Delegate _ _ _ => MESSAGE_DELEGATE
  | Undelegate _ _ _ => MESSAGE_UNDELEGATE
  | BeginRedelegate _ _ _ _ => MESSAGE_REDELEGATE
  | WithdrawDelegatorReward _ _ => MESSAGE_REWARD_BETA
  end.

Definition encode_value (self : CosmosMessage) (chain : CosmosChain) : result SignerError bytes :=
  match self with
  | Send from_address to_address amount => encode_send chain from_address to_address amount
  | ExecuteContract sender contract msg funds =>
      let fund_fields := coin_fields 5 funds in
      Ok (encode_text_field 1 sender ++ encode_text_field 2 contract ++ encode_bytes_field 3 msg ++ fund_fields)
  | IbcTransfer source_port source_channel token sender receiver timeout_timestamp memo =>
      Ok (encode_text_field 1 source_port ++ encode_text_field 2 source_channel
          ++ encode_message_field 3 (encode_coin (coin_denom token) (coin_amount token))
          ++ encode_text_field 4 sender ++ encode_text_field 5 receiver
          ++ encode_varint_field 7 timeout_timestamp ++ encode_text_field 8 memo)
  | Delegate delegator_address validator_address amount | Undelegate delegator_address validator_address amount =>
      Ok (encode_text_field 1 delegator_address ++ encode_text_field 2 validator_address
          ++ encode_message_field 3 (encode_coin (coin_denom amount) (coin_amount amount)))
  | BeginRedelegate delegator_address validator_src_address validator_dst_address amount =>
      Ok (encode_text_field 1 delegator_address ++ encode_text_field 2 validator_src_address
          ++ encode_text_field 3 validator_dst_address
          ++ encode_message_field 4 (encode_coin (coin_denom amount) (coin_amount amount)))
  | WithdrawDelegatorReward delegator_address validator_address =>
      Ok (encode_text_field 1 delegator_address ++ encode_text_field 2 validator_address)
  end.

Definition encode_as_any (self : CosmosMessage) (chain : CosmosChain) : result SignerError bytes :=
  let? value := encode_value self chain in
  Ok (encode_text_field 1 (type_url self chain) ++ encode_bytes_field 2 value).

End encode.

Record CosmosTxParams := MkTxParams {
  body_bytes : bytes;
  chain_id : string;
  account_number : Z;
  sequence : Z;
  fee_coins : list Coin;
  gas_limit : Z;
  pubkey_type : string
}.

Definition encode_tx_body (messages : list bytes) (memo : string) : bytes :=
  let msg_fields := flat_map (encode_message_field 1) messages in
  msg_fields ++ encode_text_field 2 memo.

Definition encode_pubkey_any (pubkey_type : string) (pubkey_bytes : bytes) : bytes :=
  encode_text_field 1 pubkey_type ++ encode_bytes_field 2 (encode_bytes_field 1 pubkey_bytes).

Definition encode_mode_info_single : bytes := encode_message_field 1 (encode_varint_field 1 SIGN_MODE_DIRECT).

Definition encode_signer_info (pubkey_type : string) (pubkey_bytes : bytes) (sequence : Z) : bytes :=
  encode_message_field 1 (encode_pubkey_any pubkey_type pubkey_bytes)
  ++ encode_message_field 2 encode_mode_info_single ++ encode_varint_field 3 sequence.

Definition encode_fee (coins : list Coin) (gas_limit : Z) : bytes := coin_fields 1 coins ++ encode_varint_field 2 gas_limit.

Definition encode_auth_info (self : CosmosTxParams) (pubkey_bytes : bytes) : bytes :=
  encode_message_field 1 (encode_signer_info (pubkey_type self) pubkey_bytes (sequence self))
  ++ encode_message_field 2 (encode_fee (fee_coins self) (gas_limit self)).

Definition encode_sign_doc (self : CosmosTxParams) (body_bytes auth_info_bytes : bytes) : bytes :=
  encode_bytes_field 1 body_bytes ++ encode_bytes_field 2 auth_info_bytes
  ++ encode_text_field 3 (chain_id self) ++ encode_varint_field 4 (account_number self).

Definition encode_tx_raw (body_bytes auth_info_bytes signature : bytes) : bytes :=
  encode_bytes_field 1 body_bytes ++ encode_bytes_field 2 auth_info_bytes ++ encode_bytes_field 3 signature.

End CosmosTransactions.

(** ** [signer/chain_signer.rs] *)

Module CosmosSigner.
Import CosmosChains CosmosMessages CosmosTransactions.

Definition BASE_FEE_GAS_UNITS : Z := 200000.
Definition GAS_BUFFER_NUMERATOR : Z := 13.
Definition GAS_BUFFER_DENOMINATOR : Z := 10.
Definition DEFAULT_STAKE_MEMO : string := "Stake via Gem Wallet".

Definition chain_of (input : ChainSignerInput) : result SignerError CosmosChain :=
  ok_or (from_chain (AssetIds.chain (Assets.id (asset_of input)))) (InvalidInput "unsupported cosmos chain").

Definition pubkey_type_of (chain : CosmosChain) : string :=
  match chain with Injective => INJECTIVE_ETHSECP256K1_PUBKEY_TYPE | _ => COSMOS_SECP256K1_PUBKEY_TYPE end.

Definition gas_limit_of (input : ChainSignerInput) (message_count : Z) : result SignerError Z :=
  let? gas_limit := GasPrices.gas_limit_u64 (fee_of input) in
  ok_or (checked_mul gas_limit message_count) (InvalidInput "gas limit overflow").

Definition scale_fee (gas_limit base_fee : Z) : Z := gas_limit * base_fee / BASE_FEE_GAS_UNITS.

Definition fee_coins_of (chain : CosmosChain) (fee_amount : Z) : list Coin :=
  match chain with
  | Thorchain | Mayachain => []
  | Cosmos | Osmosis | Celestia | Injective | Sei | Noble => [MkCoin (denom_as_ref (denom chain)) fee_amount]
  end.

(** [fee.to_biguint()] *)
Definition fee_amount_of (input : ChainSignerInput) : result SignerError Z :=
  let fee := GasPrices.fee (fee_of input) in
  if 0 <=? fee then Ok fee else Err (InvalidInput "invalid cosmos fee").

Definition memo_of (input : ChainSignerInput) : string := default EmptyString (InputTypes.memo (load input)).
Definition stake_memo_of (input : ChainSignerInput) : string :=
  match InputTypes.memo (load input) with
  | Some m => if String.eqb m "" then DEFAULT_STAKE_MEMO else m
  | None => DEFAULT_STAKE_MEMO
  end.

(** The gas limit of a provider, if it is a positive number, with the buffer *)
Definition provider_gas_limit (gas_limit : option string) : option Z :=
  let?? text := gas_limit in
  let?? provider_gas := u64_from_str_radix 10 text in
  if 0 <? provider_gas then Some (as_u64 (provider_gas * GAS_BUFFER_NUMERATOR / GAS_BUFFER_DENOMINATOR)) else None.

Section signer.
Context `{Bech32} `{Sha256} `{Keccak256} `{Sec1} `{Ed25519} `{Secp256k1} `{Base64Text} {Value : Type} `{CosmosJson Value}.

Definition uncompress_public_key (public_key : bytes) : result SignerError bytes :=
  ok_or (sec1_uncompress public_key) (InvalidInput "invalid secp256k1 public key").

Definition public_key (chain : CosmosChain) (private_key : bytes) : result SignerError bytes :=
  let? public_key := public_key_from_private private_key in
  match chain with
  | Injective => uncompress_public_key public_key
  | Cosmos | Osmosis | Celestia | Thorchain | Mayachain | Sei | Noble => Ok public_key
  end.

Definition sign_doc_digest (chain : CosmosChain) (sign_doc_bytes : bytes) : bytes :=
  match chain with Injective => keccak256 sign_doc_bytes | _ => sha256 sign_doc_bytes end.

Definition encode_and_sign_tx (chain : CosmosChain) (params : CosmosTxParams) (private_key : bytes) : result SignerError string :=
  let? pubkey_bytes := public_key chain private_key in
  let auth_info_bytes := encode_auth_info params pubkey_bytes in
  let sign_doc_bytes := encode_sign_doc params (body_bytes params) auth_info_bytes in
  let digest := sign_doc_digest chain sign_doc_bytes in
  let? signature := sign_digest SchemeSecp256k1 digest private_key in
  if (length signature <? 64)%nat then Err (SigningError "secp256k1 signature too short") else
  let signature := take 64 signature in
  let tx_raw := encode_tx_raw (body_bytes params) auth_info_bytes signature in
  let tx_base64 := encode_base64 tx_raw in
  Ok (broadcast_to_string "BROADCAST_MODE_SYNC" tx_base64).

Definition sign_messages (chain : CosmosChain) (metadata : LoadMetadata.TransactionLoadMetadata) (messages : list CosmosMessage)
  (gas_limit fee_amount : Z) (memo : string) (private_key : bytes) : result SignerError string :=
  let? account_number := from_box (LoadMetadata.get_account_number metadata) in
  let? sequence := from_box (LoadMetadata.get_sequence metadata) in
  let? chain_id := from_box (LoadMetadata.get_chain_id metadata) in
  let? encoded := collect (fun m => encode_as_any m chain) messages in
  let body_bytes := encode_tx_body encoded memo in
  let params := MkTxParams body_bytes chain_id account_number sequence (fee_coins_of chain fee_amount) gas_limit (pubkey_type_of chain) in
  encode_and_sign_tx chain params private_key.

Definition sign_send (chain : CosmosChain) (input : ChainSignerInput) (denom : string) (private_key : bytes) : result SignerError string :=
  let amount := InputTypes.input_value (load input) in
  let message := transfer_message input denom amount in
  let? gas_limit := gas_limit_of input 1 in
  let? fee_amount := fee_amount_of input in
  sign_messages chain (metadata input) [message] gas_limit fee_amount (memo_of input) private_key.

Definition sign_transfer (input : ChainSignerInput) (private_key : bytes) : result SignerError string :=
  let? chain := chain_of input in
  sign_send chain input (denom_as_ref (denom chain)) private_key.

Definition sign_token_transfer (input : ChainSignerInput) (private_key : bytes) : result SignerError string :=
  let? chain := chain_of input in
  let? denom := get_token_id (Assets.id (asset_of input)) in
  sign_send chain input denom private_key.

Definition sign_swap (input : ChainSignerInput) (private_key : bytes) : result SignerError (list string) :=
  let? swap_data := from_box (InputTypes.get_swap_data (InputTypes.input_type (load input))) in
  let data := Payloads.swap_data swap_data in
  let? chain := chain_of input in
  let? messages := parse_array (Payloads.quote_data data) in
  let? gas_limit := match provider_gas_limit (Payloads.quote_gas_limit data) with
                    | Some gas_limit => Ok gas_limit
                    | None => gas_limit_of input (Z.of_nat (length messages))
                    end in
  let? gas_price := GasPrices.gas_price_u64 (fee_of input) in
  let fee_amount := scale_fee gas_limit gas_price in
  let? signed := sign_messages chain (metadata input) messages gas_limit fee_amount (memo_of input) private_key in
  Ok [signed].

Definition sign_stake (input : ChainSignerInput) (private_key : bytes) : result SignerError (list string) :=
  let? chain := chain_of input in
  let? messages := stake_messages input chain in
  let? gas_limit := gas_limit_of input (Z.of_nat (length messages)) in
  let? fee_amount := fee_amount_of input in
  let? signed := sign_messages chain (metadata input) messages gas_limit fee_amount (stake_memo_of input) private_key in
  Ok [signed].

End signer.
End CosmosSigner.

(** ** Facts on the encoders *)

Module CosmosFacts.
Import Fields FieldFacts Decode Payloads CosmosChains CosmosMessages CosmosTransactions.

(** *** Coins *)

Definition text_fields (n : Z) (s : string) : list Field := bytes_fields n (bytes_of_string s).

Lemma text_fields_inj n s t : text_fields n s = text_fields n t -> s = t.
Proof. intros E%bytes_fields_inj. by apply PrefixCodes.bytes_of_string_inj. Qed.

Definition coin_parts (c : Coin) : list Field := text_fields 1 (coin_denom c) ++ text_fields 2 (pretty (coin_amount c)).
Definition coin_bytes (c : Coin) : bytes := flat_map wire (coin_parts c).

Lemma text_wire n s : encode_text_field n s = flat_map wire (text_fields n s).
Proof. apply bytes_fields_wire. Qed.

Lemma coin_wire denom amount : encode_coin denom amount = coin_bytes (MkCoin denom amount).
Proof. unfold encode_coin, coin_bytes, coin_parts. rewrite !text_wire. by rewrite flat_map_app. Qed.

Lemma coins_wire n coins : coin_fields n coins = flat_map wire (flat_map (fun c => bytes_fields n (coin_bytes c)) coins).
Proof. apply repeated_wire. intros [denom amount]. cbn [coin_denom coin_amount]. rewrite coin_wire. apply message_fields_wire. Qed.

Lemma bytes_of_string_nonempty s : s <> EmptyString -> bytes_of_string s <> [].
Proof. by destruct s. Qed.

Lemma wire_nonempty_bytes n bs rest1 rest2 : bs <> [] -> flat_map wire (rest1 ++ bytes_fields n bs ++ rest2) <> [].
Proof.
  intros Hne E%(f_equal (@length Z)). rewrite !flat_map_app, !length_app in E. pose proof (inner_length n bs).
  destruct bs; [done|]. cbn [length] in *. lia.
Qed.

Lemma pretty_text (z : Z) : pretty z <> EmptyString.
Proof.
  destruct (decide (z < 0)) as [N|P].
  - rewrite NumberConcrete.pretty_negative by done. discriminate 1.
  - pose proof (Digits.pretty_nonempty z ltac:(lia)) as L. destruct (pretty z); [cbn in L; lia|done].
Qed.

Lemma coin_nonempty c : coin_bytes c <> [].
Proof.
  unfold coin_bytes, coin_parts. rewrite <- (app_nil_r (text_fields 2 _)).
  apply wire_nonempty_bytes, bytes_of_string_nonempty, pretty_text.
Qed.

Lemma text_ok n s : is_u32 n -> Forall field_ok (text_fields n s).
Proof. apply bytes_fields_ok. Qed.

Create HintDb cosmos discriminated.
#[export] Hint Resolve text_ok bytes_fields_ok nonzero_fields_ok @repeated_ok : cosmos.
#[export] Hint Extern 1 (is_u32 _) => (by vm_compute) : cosmos.
#[export] Hint Extern 1 (is_u64 _) => done : cosmos.

Ltac fields_ok := rewrite ?Forall_app; repeat match goal with |- _ /\ _ => split end; eauto with cosmos.
Ltac same_fields H := apply wire_inj in H; [|fields_ok|fields_ok|done].

Lemma select_text n m s : select n (text_fields m s) = if m =? n then text_fields m s else [].
Proof. apply select_bytes. Qed.
#[export] Hint Rewrite select_text : proto_select.

Lemma coin_inj c c' : fits (coin_bytes c) -> coin_bytes c = coin_bytes c' -> c = c'.
Proof.
  unfold coin_bytes, coin_parts. intros F E. same_fields E. select_field 1 E. select_field 2 E.
  apply text_fields_inj in Efield, Efield0. apply (inj pretty) in Efield0. destruct c, c'. by f_equal.
Qed.

(** Encodings that are not empty and determine what is encoded, one after the other *)
Lemma repeated_items {A} (R : A -> A -> Prop) n (g : A -> bytes) l l' :
  (forall x, x ∈ l ++ l' -> g x <> []) ->
  (forall x y, x ∈ l -> y ∈ l' -> fits (g x) -> g x = g y -> R x y) ->
  fits (flat_map wire (flat_map (fun v => bytes_fields n (g v)) l)) ->
  flat_map (fun v => bytes_fields n (g v)) l = flat_map (fun v => bytes_fields n (g v)) l' -> Forall2 R l l'.
Proof.
  intros Hne Hinj F E. rewrite (repeated_map n g l) in F. rewrite (repeated_map n g l), (repeated_map n g l') in E. apply repeated_inj in E.
  - assert (Hf : forall x, x ∈ l -> fits (g x)) by (intros x Hx; apply (fits_repeated n (map g l)); [done|by apply list_elem_of_fmap_2]).
    clear F Hne. revert l' E Hinj. induction l as [|x l IH]; intros [|y l'] E Hinj; try done.
    injection E as E1 E2. constructor; [apply Hinj; try done; try apply elem_of_cons; auto; apply Hf, elem_of_cons; auto|].
    apply IH; [intros; apply Hf, elem_of_cons; auto|done|]. intros; apply Hinj; try done; apply elem_of_cons; auto.
  - apply Forall_forall. intros b (x & -> & Hx)%list_elem_of_fmap. apply Hne, elem_of_app. auto.
  - apply Forall_forall. intros b (x & -> & Hx)%list_elem_of_fmap. apply Hne, elem_of_app. auto.
Qed.

Lemma coins_inj n l l' : fits (flat_map wire (flat_map (fun c => bytes_fields n (coin_bytes c)) l)) ->
  flat_map (fun c => bytes_fields n (coin_bytes c)) l = flat_map (fun c => bytes_fields n (coin_bytes c)) l' -> l = l'.
Proof.
  intros F E. apply list_eq_Forall2, (repeated_items _ n coin_bytes); [|intros; by apply coin_inj|done|done].
  intros. apply coin_nonempty.
Qed.

(** *** Messages *)

Section messages.
Context `{Bech32}.

(** What a message means on a chain: Thorchain and Mayachain write the bytes of the addresses of a send. *)
Definition address_bytes_of (address : string) : option bytes :=
  CosmosAddresses.as_bytes <$> CosmosAddresses.try_parse address.
Definition same_address (chain : CosmosChain) (a b : string) : Prop :=
  match chain with Thorchain | Mayachain => address_bytes_of a = address_bytes_of b | _ => a = b end.
Definition same_message (chain : CosmosChain) (m m' : CosmosMessage) : Prop :=
  match m, m' with
  | Send from_ to amount, Send from' to' amount' => same_address chain from_ from' /\ same_address chain to to' /\ amount = amount'
  | _, _ => m = m'
  end.

(** The timeout of a transfer is a [u64]. *)
Definition valid_message (m : CosmosMessage) : Prop :=
  match m with IbcTransfer _ _ _ _ _ timeout_timestamp _ => is_u64 timeout_timestamp | _ => True end.

Definition send_address_parts (chain : CosmosChain) (from_ to : string) : option (list Field) :=
  match chain with
  | Thorchain | Mayachain =>
      let?? a := address_bytes_of from_ in let?? b := address_bytes_of to in Some (bytes_fields 1 a ++ bytes_fields 2 b)
  | _ => Some (text_fields 1 from_ ++ text_fields 2 to)
  end.

Definition coins_parts (n : Z) (coins : list Coin) : list Field := flat_map (fun c => bytes_fields n (coin_bytes c)) coins.

Definition value_parts (chain : CosmosChain) (m : CosmosMessage) : option (list Field) :=
  match m with
  | Send from_ to amount => let?? address := send_address_parts chain from_ to in Some (address ++ coins_parts 3 amount)
  | ExecuteContract sender contract msg funds =>
      Some (text_fields 1 sender ++ text_fields 2 contract ++ bytes_fields 3 msg ++ coins_parts 5 funds)
  | IbcTransfer port channel token sender receiver timeout memo =>
      Some (text_fields 1 port ++ text_fields 2 channel ++ bytes_fields 3 (coin_bytes token) ++ text_fields 4 sender
            ++ text_fields 5 receiver ++ nonzero_fields 7 timeout ++ text_fields 8 memo)
  | Delegate delegator validator amount | Undelegate delegator validator amount =>
      Some (text_fields 1 delegator ++ text_fields 2 validator ++ bytes_fields 3 (coin_bytes amount))
  | BeginRedelegate delegator src dst amount =>
      Some (text_fields 1 delegator ++ text_fields 2 src ++ text_fields 3 dst ++ bytes_fields 4 (coin_bytes amount))
  | WithdrawDelegatorReward delegator validator => Some (text_fields 1 delegator ++ text_fields 2 validator)
  end.

Lemma coin_message_wire n c : encode_message_field n (encode_coin (coin_denom c) (coin_amount c)) = flat_map wire (bytes_fields n (coin_bytes c)).
Proof. rewrite coin_wire. destruct c. apply message_fields_wire. Qed.

Lemma send_wire chain from_ to amount bs : encode_send chain from_ to amount = Ok bs ->
  exists fs, send_address_parts chain from_ to = Some fs /\ bs = flat_map wire (fs ++ coins_parts 3 amount).
Proof.
  unfold encode_send, send_address_parts, address_bytes_of. rewrite coins_wire. fold (coins_parts 3 amount). intros E.
  destruct (CosmosAddresses.try_parse from_) as [a|], (CosmosAddresses.try_parse to) as [b|]; destruct chain; cbn in E |- *;
    try discriminate E; injection E as <-; eexists; (split; [reflexivity|]);
    rewrite ?text_wire, ?bytes_fields_wire, !flat_map_app; reflexivity.
Qed.

Lemma value_wire m chain bs : encode_value m chain = Ok bs -> exists fs, value_parts chain m = Some fs /\ bs = flat_map wire fs.
Proof.
  destruct m; cbn [encode_value value_parts]; intros E; [apply send_wire in E as (fs & -> & ->); by eexists|..];
    injection E as <-; eexists; (split; [done|]); rewrite ?coins_wire, ?coin_message_wire, ?text_wire; autorewrite with proto_wire;
    rewrite ?flat_map_app; reflexivity.
Qed.

Lemma coins_ok n coins : is_u32 n -> Forall field_ok (coins_parts n coins).
Proof. apply repeated_ok. Qed.
#[local] Hint Resolve coins_ok : cosmos.

Lemma value_ok chain m fs : valid_message m -> value_parts chain m = Some fs -> Forall field_ok fs.
Proof.
  intros V E. destruct m as [from_ to amount| | | | | |]; cbn [value_parts] in E; [|injection E as <-; fields_ok..].
  destruct (send_address_parts chain from_ to) as [fs'|] eqn:A; [|done]. injection E as <-.
  apply Forall_app. split; [|by apply coins_ok]. unfold send_address_parts in A. destruct chain; repeat res_step; fields_ok.
Qed.

Lemma select_coins n m coins : select n (coins_parts m coins) = if m =? n then coins_parts m coins else [].
Proof. apply select_repeated. Qed.
#[local] Hint Rewrite select_coins : proto_select.

Lemma fits_app fs gs : fits (flat_map wire (fs ++ gs)) -> fits (flat_map wire fs) /\ fits (flat_map wire gs).
Proof. unfold fits. rewrite flat_map_app, length_app. lia. Qed.
Lemma fits_bytes n bs : fits (flat_map wire (bytes_fields n bs)) -> fits bs.
Proof. unfold fits. pose proof (inner_length n bs). lia. Qed.

(** The parts of equal messages are equal. *)
Ltac select_parts E :=
  repeat match goal with F : fits (flat_map wire (_ ++ _)) |- _ => apply fits_app in F as [? ?] end;
  select_field 1 E; select_field 2 E; select_field 3 E; select_field 4 E; select_field 5 E; select_field 7 E; select_field 8 E; clear E;
  repeat match goal with
  | H : text_fields _ _ = text_fields _ _ |- _ => apply text_fields_inj in H
  | H : nonzero_fields _ _ = nonzero_fields _ _ |- _ => apply nonzero_fields_inj in H
  | H : bytes_fields _ (coin_bytes _) = bytes_fields _ (coin_bytes _) |- _ =>
      apply bytes_fields_inj, coin_inj in H; [|by eapply fits_bytes]
  | H : bytes_fields _ _ = bytes_fields _ _ |- _ => apply bytes_fields_inj in H
  | H : coins_parts _ _ = coins_parts _ _ |- _ => apply coins_inj in H; [|done]
  end.

Lemma send_inj chain from_ to from' to' amount amount' fs fs' :
  send_address_parts chain from_ to = Some fs -> send_address_parts chain from' to' = Some fs' ->
  fits (flat_map wire (fs ++ coins_parts 3 amount)) -> fs ++ coins_parts 3 amount = fs' ++ coins_parts 3 amount' ->
  same_address chain from_ from' /\ same_address chain to to' /\ amount = amount'.
Proof.
  unfold send_address_parts, same_address. intros A A' F E. destruct chain; repeat res_step; select_parts E; by subst.
Qed.

Lemma value_inj chain m m' fs : type_url m chain = type_url m' chain -> fits (flat_map wire fs) ->
  value_parts chain m = Some fs -> value_parts chain m' = Some fs -> same_message chain m m'.
Proof.
  intros U F E E'.
  destruct m as [from_ to amount|sender contract msg funds|port channel token sender receiver timeout memo|d v c|d v c|d s v c|d v],
    m' as [from' to' amount'|sender' contract' msg' funds'|port' channel' token' sender' receiver' timeout' memo'|d' v' c'|d' v' c'|d' s' v' c'|d' v'];
    try (destruct chain; discriminate U); clear U; cbn [value_parts same_message] in *.
  - destruct (send_address_parts chain from_ to) as [fs1|] eqn:A; [|done].
    destruct (send_address_parts chain from' to') as [fs2|] eqn:A'; [|done].
    injection E as <-. injection E' as E'. eapply send_inj; [exact A|exact A'|done|congruence].
  - injection E as <-. injection E' as E'. symmetry in E'. select_parts E'. by subst.
  - injection E as <-. injection E' as E'. symmetry in E'. select_parts E'. by subst.
  - injection E as <-. injection E' as E'. symmetry in E'. select_parts E'. by subst.
  - injection E as <-. injection E' as E'. symmetry in E'. select_parts E'. by subst.
  - injection E as <-. injection E' as E'. symmetry in E'. select_parts E'. by subst.
  - injection E as <-. injection E' as E'. symmetry in E'. select_parts E'. by subst.
Qed.

Lemma cosmos_any_wire m chain bs : encode_as_any m chain = Ok bs -> exists value,
  encode_value m chain = Ok value /\ bs = flat_map wire (text_fields 1 (type_url m chain) ++ bytes_fields 2 value).
Proof.
  unfold encode_as_any. intros E. destruct (encode_value m chain) as [value|] eqn:V; [|discriminate E]. injection E as <-.
  exists value. split; [done|]. by rewrite text_wire, bytes_fields_wire, flat_map_app.
Qed.

Lemma any_nonempty m chain bs : encode_as_any m chain = Ok bs -> bs <> [].
Proof.
  intros (value & _ & ->)%cosmos_any_wire. apply (wire_nonempty_bytes _ _ [] _), bytes_of_string_nonempty. destruct m, chain; discriminate 1.
Qed.

Lemma cosmos_any_inj m m' chain bs : valid_message m -> valid_message m' -> fits bs ->
  encode_as_any m chain = Ok bs -> encode_as_any m' chain = Ok bs -> same_message chain m m'.
Proof.
  intros V V' F (value & E & ->)%cosmos_any_wire (value' & E' & B)%cosmos_any_wire. unfold fits in F. same_fields B.
  apply value_wire in E as (fs & P & ->), E' as (fs' & P' & ->). apply fits_app in F as [_ F%fits_bytes].
  select_field 1 B. select_field 2 B. apply text_fields_inj in Efield. apply bytes_fields_inj in Efield0.
  apply wire_inj in Efield0; [|exact (value_ok _ _ _ V P)|exact (value_ok _ _ _ V' P')|done]. subst fs'. by eapply value_inj.
Qed.

Lemma messages_inj n chain messages messages' encoded encoded' :
  Forall valid_message messages -> Forall valid_message messages' ->
  collect (fun m => encode_as_any m chain) messages = Ok encoded ->
  collect (fun m => encode_as_any m chain) messages' = Ok encoded' ->
  fits (flat_map wire (flat_map (bytes_fields n) encoded)) ->
  flat_map (bytes_fields n) encoded = flat_map (bytes_fields n) encoded' -> Forall2 (same_message chain) messages messages'.
Proof.
  intros V V' C%collect_ok_iff C'%collect_ok_iff F E.
  assert (N : forall ms bss, Forall2 (fun m bs => encode_as_any m chain = Ok bs) ms bss -> Forall (fun v => v <> []) bss).
  { intros ms bss H2. induction H2; constructor; [by eapply any_nonempty|done]. }
  pose proof (fun bs Hin => fits_repeated n encoded bs F Hin) as Hf. apply repeated_inj in E; [|by eapply N..]. subst encoded'.
  clear F N. revert messages' V' C'. induction C as [|m bs ms bss E C IH]; intros messages' V' C'; inversion C'; subst; [constructor|].
  inversion V. inversion V'. subst. constructor; [|apply IH; try done; intros; apply Hf, elem_of_cons; auto].
  eapply (cosmos_any_inj _ _ _ bs); try done. apply Hf, elem_of_cons. auto.
Qed.
End messages.

(** *** Documents *)

Definition body_parts (messages : list bytes) (memo : string) : list Field := flat_map (bytes_fields 1) messages ++ text_fields 2 memo.
Lemma body_wire messages memo : encode_tx_body messages memo = flat_map wire (body_parts messages memo).
Proof.
  unfold encode_tx_body, body_parts. rewrite flat_map_app, text_wire. f_equal. apply repeated_wire, message_fields_wire.
Qed.

Definition key_parts (pubkey_type : string) (pubkey : bytes) : list Field :=
  text_fields 1 pubkey_type ++ bytes_fields 2 (flat_map wire (bytes_fields 1 pubkey)).
Lemma key_wire pubkey_type pubkey : encode_pubkey_any pubkey_type pubkey = flat_map wire (key_parts pubkey_type pubkey).
Proof. unfold encode_pubkey_any, key_parts. by rewrite text_wire, !bytes_fields_wire, flat_map_app. Qed.

Definition signer_parts (pubkey_type : string) (pubkey : bytes) (sequence : Z) : list Field :=
  bytes_fields 1 (flat_map wire (key_parts pubkey_type pubkey)) ++ bytes_fields 2 encode_mode_info_single ++ nonzero_fields 3 sequence.
Lemma signer_wire pubkey_type pubkey sequence :
  encode_signer_info pubkey_type pubkey sequence = flat_map wire (signer_parts pubkey_type pubkey sequence).
Proof. unfold encode_signer_info, signer_parts. by rewrite key_wire, !message_fields_wire, nonzero_fields_wire, !flat_map_app. Qed.

Definition fee_parts (coins : list Coin) (gas_limit : Z) : list Field := coins_parts 1 coins ++ nonzero_fields 2 gas_limit.
Lemma fee_wire coins gas_limit : encode_fee coins gas_limit = flat_map wire (fee_parts coins gas_limit).
Proof. unfold encode_fee, fee_parts. by rewrite coins_wire, nonzero_fields_wire, flat_map_app. Qed.

Definition auth_parts (params : CosmosTxParams) (pubkey : bytes) : list Field :=
  bytes_fields 1 (flat_map wire (signer_parts (pubkey_type params) pubkey (sequence params))) ++
  bytes_fields 2 (flat_map wire (fee_parts (fee_coins params) (gas_limit params))).
Lemma auth_wire params pubkey : encode_auth_info params pubkey = flat_map wire (auth_parts params pubkey).
Proof. unfold encode_auth_info, auth_parts. by rewrite signer_wire, fee_wire, !message_fields_wire, flat_map_app. Qed.

Definition doc_parts (params : CosmosTxParams) (body auth : bytes) : list Field :=
  bytes_fields 1 body ++ bytes_fields 2 auth ++ text_fields 3 (chain_id params) ++ nonzero_fields 4 (account_number params).
Lemma doc_wire params body auth : encode_sign_doc params body auth = flat_map wire (doc_parts params body auth).
Proof. unfold encode_sign_doc, doc_parts. by rewrite text_wire, !bytes_fields_wire, nonzero_fields_wire, !flat_map_app. Qed.

Definition raw_parts (body auth signature : bytes) : list Field := bytes_fields 1 body ++ bytes_fields 2 auth ++ bytes_fields 3 signature.
Lemma cosmos_raw_wire body auth signature : encode_tx_raw body auth signature = flat_map wire (raw_parts body auth signature).
Proof. unfold encode_tx_raw, raw_parts. by rewrite !bytes_fields_wire, !flat_map_app. Qed.

Lemma key_inj t t' k k' : fits (flat_map wire (key_parts t k)) ->
  flat_map wire (key_parts t k) = flat_map wire (key_parts t' k') -> t = t' /\ k = k'.
Proof.
  unfold key_parts. intros F E. same_fields E. apply fits_app in F as [_ F%fits_bytes]. select_field 1 E. select_field 2 E.
  apply text_fields_inj in Efield. apply bytes_fields_inj in Efield0. same_fields Efield0. by apply bytes_fields_inj in Efield0.
Qed.

Lemma signer_inj t t' k k' q q' : is_u64 q -> is_u64 q' -> fits (flat_map wire (signer_parts t k q)) ->
  flat_map wire (signer_parts t k q) = flat_map wire (signer_parts t' k' q') -> t = t' /\ k = k' /\ q = q'.
Proof.
  unfold signer_parts. intros Q Q' F E. same_fields E. apply fits_app in F as [F%fits_bytes _]. select_field 1 E. select_field 3 E.
  apply bytes_fields_inj in Efield. apply nonzero_fields_inj in Efield0. by apply key_inj in Efield as [-> ->].
Qed.

Lemma fee_inj c c' g g' : is_u64 g -> is_u64 g' -> fits (flat_map wire (fee_parts c g)) ->
  flat_map wire (fee_parts c g) = flat_map wire (fee_parts c' g') -> c = c' /\ g = g'.
Proof.
  unfold fee_parts, coins_parts. intros G G' F E. same_fields E. apply fits_app in F as [F _]. select_field 1 E. select_field 2 E.
  apply coins_inj in Efield; [|done]. by apply nonzero_fields_inj in Efield0.
Qed.

(** The numbers of the parameters are [u64]s. *)
Definition valid_params (params : CosmosTxParams) : Prop :=
  is_u64 (account_number params) /\ is_u64 (sequence params) /\ is_u64 (gas_limit params).

Lemma auth_inj p p' k k' : valid_params p -> valid_params p' -> fits (encode_auth_info p k) ->
  encode_auth_info p k = encode_auth_info p' k' ->
  pubkey_type p = pubkey_type p' /\ k = k' /\ sequence p = sequence p' /\ fee_coins p = fee_coins p' /\ gas_limit p = gas_limit p'.
Proof.
  rewrite !auth_wire. unfold auth_parts. intros (_ & Q & G) (_ & Q' & G') F E. same_fields E.
  apply fits_app in F as [F1%fits_bytes F2%fits_bytes]. select_field 1 E. select_field 2 E.
  apply bytes_fields_inj, signer_inj in Efield as (-> & -> & ->); [|done..].
  by apply bytes_fields_inj, fee_inj in Efield0 as (-> & ->).
Qed.

(** *** The documents are made of bytes *)

Lemma varint_bytes v : all_bytes (encode_varint v).
Proof.
  unfold encode_varint. generalize 9%nat as n. intros n. revert v.
  induction n as [|n IH]; intros v; cbn [Encode.varint_loop]; [constructor; [apply PrefixCodes.as_u8_byte|constructor]|].
  destruct (0x80 <=? v); (constructor; [|apply IH || constructor]); [|apply PrefixCodes.as_u8_byte].
  apply in_width_lor; [done|apply PrefixCodes.as_u8_byte|by vm_compute].
Qed.

(** The bytes of a field are those of its payload, with numbers. *)
Definition payload_bytes (f : Field) : Prop := match value f with Bytes bs => all_bytes bs | _ => True end.

Lemma wire_bytes fs : Forall payload_bytes fs -> all_bytes (flat_map wire fs).
Proof.
  induction 1 as [|[n []] fs P _ IH]; [constructor|..]; cbn [flat_map]; (apply Forall_app; split; [|exact IH]); unfold wire, field_tag;
    cbn [value number]; repeat (apply Forall_app; split); try apply varint_bytes; try apply le_bytes_bytes; [exact P|by repeat constructor].
Qed.

Lemma bytes_payload n bs : all_bytes bs -> Forall payload_bytes (bytes_fields n bs).
Proof. destruct bs; [constructor|]. intros B. by constructor. Qed.
Lemma text_payload n s : Forall payload_bytes (text_fields n s).
Proof. apply bytes_payload, PrefixCodes.all_bytes_string. Qed.
Lemma nonzero_payload n v : Forall payload_bytes (nonzero_fields n v).
Proof. unfold nonzero_fields. destruct (v =? 0); [constructor|]. by constructor. Qed.
Lemma coins_payload n coins : Forall payload_bytes (coins_parts n coins).
Proof.
  induction coins as [|c coins IH]; [constructor|]. apply Forall_app. split; [|exact IH]. apply bytes_payload, wire_bytes, Forall_app.
  split; apply text_payload.
Qed.
#[export] Hint Resolve bytes_payload text_payload nonzero_payload coins_payload wire_bytes : cosmos_bytes.

Ltac payloads := rewrite ?Forall_app; repeat match goal with |- _ /\ _ => split end; eauto with cosmos_bytes.

(** *** Reading a transaction back: the wire decoder of the program, and a reader of the published schemas *)

Definition fields_of (data : bytes) : MessageResult (list Field) := visit_fields data (fun s f => Ok (s ++ [f])) [].

Lemma fields_of_wire fs : Forall field_ok fs -> fits (flat_map wire fs) -> fields_of (flat_map wire fs) = Ok fs.
Proof.
  intros F L. unfold fields_of. rewrite visit_all by done.
  assert (T : forall hs s, try_fold (fun s f => Ok (s ++ [f]) : MessageResult (list Field)) s hs = Ok (s ++ hs)).
  { induction hs as [|h hs IH]; intros s; cbn; [by rewrite app_nil_r|]. by rewrite IH, <- app_assoc. }
  by rewrite T.
Qed.

Definition bytes_at (n : Z) (fs : list Field) : bytes :=
  match select n fs with Mk _ (Bytes bs) :: _ => bs | _ => [] end.
Definition text_at (n : Z) (fs : list Field) : string := string_of_bytes (bytes_at n fs).
Definition varint_at (n : Z) (fs : list Field) : Z :=
  match select n fs with Mk _ (Varint v) :: _ => v | _ => 0 end.
Definition all_at (n : Z) (fs : list Field) : list bytes :=
  omap (fun f => match value f with Bytes bs => Some bs | _ => None end) (select n fs).

Lemma bytes_at_field n fs bs : select n fs = bytes_fields n bs -> bytes_at n fs = bs.
Proof. unfold bytes_at. intros ->. by destruct bs. Qed.
Lemma text_at_field n fs s : select n fs = text_fields n s -> text_at n fs = s.
Proof. intros E. unfold text_at. by rewrite (bytes_at_field _ _ _ E), HexFacts.string_of_bytes_of_string. Qed.
Lemma varint_at_field n fs v : select n fs = nonzero_fields n v -> varint_at n fs = v.
Proof. unfold varint_at, nonzero_fields. intros ->. by destruct (Z.eqb_spec v 0) as [->|]. Qed.
Lemma all_at_fields n fs l : select n fs = flat_map (bytes_fields n) l -> Forall (fun bs => bs <> []) l -> all_at n fs = l.
Proof.
  unfold all_at. intros -> F. induction F as [|[|b bs] l N _ IH]; [done|done|]. cbn [flat_map bytes_fields app omap list_omap value].
  by f_equal.
Qed.

(** What a message says, by the schemas that the chains publish; a send has its addresses as bytes, and an amount is the text of
    its digits. *)
Inductive Decoded :=
| SendSays (from_ to : bytes) (amount : list (string * string))
| ExecuteSays (sender contract : string) (msg : bytes) (funds : list (string * string))
| TransferSays (port channel : string) (token : string * string) (sender receiver : string) (timeout_timestamp : Z) (memo : string)
| DelegateSays (delegator validator : string) (amount : string * string)
| UndelegateSays (delegator validator : string) (amount : string * string)
| RedelegateSays (delegator validator_src validator_dst : string) (amount : string * string)
| WithdrawSays (delegator validator : string)
| UnknownSays (type_url : string) (value : bytes).

(** What a signed transaction says *)
Record SignedTx := MkSignedTx {
  tx_messages : list Decoded;
  tx_memo : string;
  tx_pubkey_type : string;
  tx_pubkey : bytes;
  tx_sequence : Z;
  tx_fee : list (string * string);
  tx_gas : Z;
  tx_body : bytes;
  tx_auth : bytes;
  tx_signature : bytes
}.

Definition read_coin (bs : bytes) : MessageResult (string * string) :=
  let? fs := fields_of bs in Ok (text_at 1 fs, text_at 2 fs).

(** [cosmos.bank.v1beta1.MsgSend] and Thorchain's [types.MsgSend], [cosmwasm.wasm.v1.MsgExecuteContract],
    [ibc.applications.transfer.v1.MsgTransfer], [cosmos.staking.v1beta1] and [cosmos.distribution.v1beta1] *)
Definition read_value (type_url : string) (value : bytes) : MessageResult Decoded :=
  let? fs := fields_of value in
  if String.eqb type_url "/cosmos.bank.v1beta1.MsgSend" || String.eqb type_url "/types.MsgSend" then
    let? amount := collect read_coin (all_at 3 fs) in Ok (SendSays (bytes_at 1 fs) (bytes_at 2 fs) amount)
  else if String.eqb type_url "/cosmwasm.wasm.v1.MsgExecuteContract" then
    let? funds := collect read_coin (all_at 5 fs) in Ok (ExecuteSays (text_at 1 fs) (text_at 2 fs) (bytes_at 3 fs) funds)
  else if String.eqb type_url "/ibc.applications.transfer.v1.MsgTransfer" then
    let? token := read_coin (bytes_at 3 fs) in
    Ok (TransferSays (text_at 1 fs) (text_at 2 fs) token (text_at 4 fs) (text_at 5 fs) (varint_at 7 fs) (text_at 8 fs))
  else if String.eqb type_url "/cosmos.staking.v1beta1.MsgDelegate" then
    let? amount := read_coin (bytes_at 3 fs) in Ok (DelegateSays (text_at 1 fs) (text_at 2 fs) amount)
  else if String.eqb type_url "/cosmos.staking.v1beta1.MsgUndelegate" then
    let? amount := read_coin (bytes_at 3 fs) in Ok (UndelegateSays (text_at 1 fs) (text_at 2 fs) amount)
  else if String.eqb type_url "/cosmos.staking.v1beta1.MsgBeginRedelegate" then
    let? amount := read_coin (bytes_at 4 fs) in Ok (RedelegateSays (text_at 1 fs) (text_at 2 fs) (text_at 3 fs) amount)
  else if String.eqb type_url "/cosmos.distribution.v1beta1.MsgWithdrawDelegatorReward" then Ok (WithdrawSays (text_at 1 fs) (text_at 2 fs))
  else Ok (UnknownSays type_url value).

Definition read_message (bs : bytes) : MessageResult Decoded :=
  let? fs := fields_of bs in read_value (text_at 1 fs) (bytes_at 2 fs).

Definition read_tx (tx : bytes) : MessageResult SignedTx :=
  let? raw := fields_of tx in
  let? body := fields_of (bytes_at 1 raw) in
  let? messages := collect read_message (all_at 1 body) in
  let? auth := fields_of (bytes_at 2 raw) in
  let? signer_info := fields_of (bytes_at 1 auth) in
  let? pubkey := fields_of (bytes_at 1 signer_info) in
  let? key := fields_of (bytes_at 2 pubkey) in
  let? fee := fields_of (bytes_at 2 auth) in
  let? coins := collect read_coin (all_at 1 fee) in
  Ok (MkSignedTx messages (text_at 2 body) (text_at 1 pubkey) (bytes_at 1 key) (varint_at 3 signer_info) coins (varint_at 2 fee)
        (bytes_at 1 raw) (bytes_at 2 raw) (bytes_at 3 raw)).

Ltac at_field := unfold coins_parts in *; autorewrite with proto_select; cbn [Z.eqb Pos.eqb]; rewrite ?app_nil_r; reflexivity.
(** Reads one part of a message. *)
Ltac read_at :=
  first [erewrite text_at_field by at_field | erewrite bytes_at_field by at_field | erewrite varint_at_field by at_field].

Lemma read_one_coin c : fits (coin_bytes c) -> read_coin (coin_bytes c) = Ok (coin_denom c, pretty (coin_amount c)).
Proof.
  intros F. unfold read_coin, coin_bytes. rewrite fields_of_wire; [|unfold coin_parts; fields_ok|done]. unfold coin_parts. by repeat read_at.
Qed.
Lemma read_coins n coins : fits (flat_map wire (coins_parts n coins)) ->
  collect read_coin (map coin_bytes coins) = Ok (map (fun c => (coin_denom c, pretty (coin_amount c))) coins).
Proof.
  intros F. apply collect_ok_iff. assert (Hf : forall c, c ∈ coins -> fits (coin_bytes c)).
  { intros c Hc. unfold coins_parts in F. rewrite (repeated_map n coin_bytes) in F.
    eapply fits_repeated; [exact F|by apply list_elem_of_fmap_2]. }
  clear F. induction coins as [|c coins IH]; [constructor|]. constructor; [|apply IH; intros; apply Hf, elem_of_cons; auto].
  apply read_one_coin, Hf, elem_of_cons. auto.
Qed.

Lemma all_at_parts n fs coins : select n fs = coins_parts n coins -> all_at n fs = map coin_bytes coins.
Proof.
  intros R. apply all_at_fields.
  - rewrite R. apply repeated_map.
  - apply Forall_forall. intros b (c & -> & _)%list_elem_of_fmap. apply coin_nonempty.
Qed.
Lemma all_at_coins n rest coins : select n rest = [] -> all_at n (coins_parts n coins ++ rest) = map coin_bytes coins.
Proof. intros R. apply all_at_parts. by rewrite select_app, R, app_nil_r, select_coins, Z.eqb_refl. Qed.

Section reading.
Context `{Bech32}.

(** What a message is meant to say: its own parts.  On Thorchain and Mayachain the addresses of a send are their bytes. *)
Definition amount_of (c : Coin) : string * string := (coin_denom c, pretty (coin_amount c)).
Definition send_address (chain : CosmosChain) (address : string) : option bytes :=
  match chain with Thorchain | Mayachain => address_bytes_of address | _ => Some (bytes_of_string address) end.
Definition says (chain : CosmosChain) (m : CosmosMessage) (d : Decoded) : Prop :=
  match m with
  | Send from_address to_address amount => exists a b, send_address chain from_address = Some a /\ send_address chain to_address = Some b
      /\ d = SendSays a b (map amount_of amount)
  | ExecuteContract sender contract msg funds => d = ExecuteSays sender contract msg (map amount_of funds)
  | IbcTransfer source_port source_channel token sender receiver timeout_timestamp memo =>
      d = TransferSays source_port source_channel (amount_of token) sender receiver timeout_timestamp memo
  | Delegate delegator_address validator_address amount => d = DelegateSays delegator_address validator_address (amount_of amount)
  | Undelegate delegator_address validator_address amount => d = UndelegateSays delegator_address validator_address (amount_of amount)
  | BeginRedelegate delegator_address validator_src_address validator_dst_address amount =>
      d = RedelegateSays delegator_address validator_src_address validator_dst_address (amount_of amount)
  | WithdrawDelegatorReward delegator_address validator_address => d = WithdrawSays delegator_address validator_address
  end.

Ltac coins_at := unfold coins_parts in *; autorewrite with proto_select; cbn [Z.eqb Pos.eqb]; rewrite ?app_nil_r; reflexivity.
Ltac coin_fits := repeat match goal with F : fits (flat_map wire (_ ++ _)) |- _ => apply fits_app in F as [? ?] end; eauto using fits_bytes.

Lemma read_send chain from_ to amount value : fits value -> encode_send chain from_ to amount = Ok value ->
  exists d, says chain (Send from_ to amount) d /\ read_value (type_url (Send from_ to amount) chain) value = Ok d.
Proof.
  intros F V. apply send_wire in V as (fs & A & ->).
  assert (exists a b, send_address chain from_ = Some a /\ send_address chain to = Some b /\ fs = bytes_fields 1 a ++ bytes_fields 2 b) as (a & b & Ea & Eb & ->).
  { unfold send_address_parts in A. unfold send_address. destruct chain; repeat res_step; try (injection A as <-); eauto. }
  exists (SendSays a b (map amount_of amount)). split; [by exists a, b|]. unfold read_value.
  rewrite fields_of_wire; [|rewrite <- app_assoc; unfold coins_parts; fields_ok|done].
  assert (String.eqb (type_url (Send from_ to amount) chain) "/cosmos.bank.v1beta1.MsgSend" || String.eqb (type_url (Send from_ to amount) chain) "/types.MsgSend" = true) as ->
    by (destruct chain; reflexivity).
  rewrite (all_at_parts 3 _ amount) by coins_at. apply fits_app in F as [_ F]. rewrite (read_coins 3) by done. by repeat read_at.
Qed.

Lemma read_value_says m chain value : valid_message m -> fits value -> encode_value m chain = Ok value ->
  exists d, says chain m d /\ read_value (type_url m chain) value = Ok d.
Proof.
  intros V F E. destruct m as [from_ to amount| | | | | |]; [by apply read_send|..];
    (eexists; split; [reflexivity|]); pose proof (value_wire _ _ _ E) as (fs & P & ->); pose proof (value_ok _ _ _ V P) as K;
    cbn [value_parts] in P; injection P as <-; unfold read_value; rewrite fields_of_wire by done; clear E K V;
    cbn [type_url]; repeat match goal with |- context [String.eqb ?a ?b] => let e := eval vm_compute in (String.eqb a b) in change (String.eqb a b) with e end;
    cbn [orb].
  - rewrite (all_at_parts 5 _ funds) by coins_at. rewrite (read_coins 5) by coin_fits. by repeat read_at.
  - repeat read_at. rewrite read_one_coin by coin_fits. by repeat read_at.
  - repeat read_at. rewrite read_one_coin by coin_fits. by repeat read_at.
  - repeat read_at. rewrite read_one_coin by coin_fits. by repeat read_at.
  - repeat read_at. rewrite read_one_coin by coin_fits. by repeat read_at.
  - by repeat read_at.
Qed.

Lemma read_messages chain messages encoded : Forall valid_message messages -> fits (flat_map wire (flat_map (bytes_fields 1) encoded)) ->
  collect (fun m => encode_as_any m chain) messages = Ok encoded ->
  exists entries, collect read_message encoded = Ok entries /\ Forall2 (says chain) messages entries.
Proof.
  intros V F C%collect_ok_iff. pose proof (fun bs Hin => fits_repeated 1 encoded bs F Hin) as Hf. clear F.
  induction C as [|m bs ms bss E C IH]; [by exists []|]. apply Forall_cons in V as [V Vs].
  destruct IH as (entries & R & S); [done|intros; apply Hf, elem_of_cons; auto|].
  specialize (Hf bs ltac:(apply elem_of_cons; auto)). apply cosmos_any_wire in E as (value & E & ->).
  destruct (read_value_says m chain value) as (d & Sd & Rd); [done|by apply fits_app in Hf as [_ Hf%fits_bytes]|done|].
  exists (d :: entries). split; [|by constructor].
  cbn [collect]. rewrite R. unfold read_message. rewrite fields_of_wire; [|fields_ok|done]. repeat read_at. by rewrite Rd.
Qed.

Lemma select_body n encoded memo : select n (body_parts encoded memo)
  = (if 1 =? n then flat_map (bytes_fields 1) encoded else []) ++ (if 2 =? n then text_fields 2 memo else []).
Proof.
  unfold body_parts. rewrite select_app, select_text. f_equal.
  rewrite <- (map_id encoded), <- (repeated_map 1 (fun bs => bs) encoded). apply select_repeated.
Qed.

Lemma read_body chain messages encoded memo : Forall valid_message messages -> fits (encode_tx_body encoded memo) ->
  collect (fun m => encode_as_any m chain) messages = Ok encoded ->
  exists fs entries, fields_of (encode_tx_body encoded memo) = Ok fs /\ collect read_message (all_at 1 fs) = Ok entries
    /\ text_at 2 fs = memo /\ Forall2 (says chain) messages entries.
Proof.
  rewrite body_wire. intros V F C. pose proof F as [F1 _]%fits_app.
  destruct (read_messages chain messages encoded) as (entries & R & S); [done..|]. exists (body_parts encoded memo), entries.
  split_and!; [..|done].
  - apply fields_of_wire; [|done]. apply Forall_app. split; [|fields_ok].
    rewrite <- (map_id encoded), <- (repeated_map 1 (fun bs => bs) encoded). apply repeated_ok. by vm_compute.
  - rewrite (all_at_fields 1 _ encoded); [done|by rewrite select_body, app_nil_r|].
    apply collect_ok_iff in C. clear -C. induction C; constructor; [by eapply any_nonempty|done].
  - apply text_at_field. by rewrite select_body.
Qed.

Lemma read_signed chain params pubkey messages encoded memo signature :
  valid_params params -> Forall valid_message messages -> collect (fun m => encode_as_any m chain) messages = Ok encoded ->
  body_bytes params = encode_tx_body encoded memo ->
  fits (encode_tx_raw (body_bytes params) (encode_auth_info params pubkey) signature) ->
  exists entries, Forall2 (says chain) messages entries
    /\ read_tx (encode_tx_raw (body_bytes params) (encode_auth_info params pubkey) signature)
       = Ok (MkSignedTx entries memo (pubkey_type params) pubkey (sequence params)
               (map (fun c => (coin_denom c, pretty (coin_amount c))) (fee_coins params)) (gas_limit params)
               (body_bytes params) (encode_auth_info params pubkey) signature).
Proof.
  intros (_ & Q & G) V C -> F. rewrite cosmos_raw_wire in F |- *. pose proof F as [F1%fits_bytes F2]%fits_app.
  apply fits_app in F2 as [F2%fits_bytes _]. unfold read_tx. rewrite fields_of_wire; [|unfold raw_parts; fields_ok|done]. unfold raw_parts.
  do 3 read_at. destruct (read_body chain messages encoded memo V F1 C) as (fs & entries & -> & -> & -> & S).
  exists entries. split; [done|]. rewrite auth_wire in F2 |- *. rewrite fields_of_wire; [|unfold auth_parts; fields_ok|done].
  apply fits_app in F2 as [F3%fits_bytes F4%fits_bytes]. unfold auth_parts at 1 2. do 2 read_at.
  rewrite fields_of_wire; [|unfold signer_parts; fields_ok|done]. apply fits_app in F3 as [F3%fits_bytes _]. unfold signer_parts at 1.
  do 1 read_at. rewrite fields_of_wire; [|unfold key_parts; fields_ok|done]. apply fits_app in F3 as [_ F3%fits_bytes].
  unfold key_parts at 1. read_at. rewrite fields_of_wire; [|fields_ok|done].
  rewrite fields_of_wire; [|unfold fee_parts, coins_parts; fields_ok|done]. apply fits_app in F4 as [F4 _].
  unfold fee_parts at 1. rewrite all_at_coins by (rewrite select_nonzero; done). rewrite (read_coins 1) by done.
  unfold key_parts, signer_parts, fee_parts. by repeat read_at.
Qed.
End reading.

End CosmosFacts.

(** ** What signing promises *)

Module CosmosRequests.
Import Fields FieldFacts Payloads CosmosChains CosmosMessages CosmosTransactions CosmosFacts CosmosSigner.

Section requests.
Context `{Bech32} `{Sha256} `{Keccak256} `{Sec1} `{Ed25519} `{Secp256k1} `{Base64Text} {Value : Type} `{CosmosJson Value}.

(** The document that is signed *)
Definition sign_document (params : CosmosTxParams) (pubkey : bytes) : bytes :=
  encode_sign_doc params (body_bytes params) (encode_auth_info params pubkey).

(** The numbers of the account are [u64]s. *)
Record request_fits (input : ChainSignerInput) : Prop := MkFits {
  fits_account : forall n, LoadMetadata.get_account_number (metadata input) = Ok n -> is_u64 n;
  fits_sequence : forall n, LoadMetadata.get_sequence (metadata input) = Ok n -> is_u64 n
}.

(** The text is the broadcast of a transaction that the reader of the schemas reads as the given messages, memo, gas limit and fee, with
    the account's sequence and public key, and whose signature is that of the document of its parts on the chain. *)
Definition signed (chain : CosmosChain) (input : ChainSignerInput) (private_key : bytes) (messages : list CosmosMessage)
  (memo : string) (gas fee : Z) (text : string) : Prop :=
  exists account sequence chain_id pubkey tx body auth,
    LoadMetadata.get_account_number (metadata input) = Ok account
    /\ LoadMetadata.get_sequence (metadata input) = Ok sequence
    /\ LoadMetadata.get_chain_id (metadata input) = Ok chain_id
    /\ public_key chain private_key = Ok pubkey
    /\ text = broadcast_to_string "BROADCAST_MODE_SYNC" (encode_base64 tx)
    /\ decode_base64 (encode_base64 tx) = Some tx
    /\ let coins := fee_coins_of chain fee in
       let document := encode_sign_doc (MkTxParams body chain_id account sequence coins gas (pubkey_type_of chain)) body auth in
       let signature := fst (secp_sign_prehash (sign_doc_digest chain document) private_key) in
       fits tx -> exists entries, Forall2 (says chain) messages entries /\ read_tx tx = Ok (MkSignedTx entries memo (pubkey_type_of chain) pubkey sequence
                                    (map (fun c => (coin_denom c, pretty (coin_amount c))) coins) gas body auth signature).

(** The messages of a staking operation *)
Inductive stakes (delegator : string) (amount : Coin) : StakeType -> list CosmosMessage -> Prop :=
| stakes_stake v : stakes delegator amount (Stake v) [Delegate delegator (validator_id v) amount]
| stakes_unstake d : stakes delegator amount (Unstake d)
    [WithdrawDelegatorReward delegator (validator_id (validator d)); Undelegate delegator (validator_id (validator d)) amount]
| stakes_redelegate d : stakes delegator amount (Redelegate d)
    [WithdrawDelegatorReward delegator (validator_id (validator (redelegate_delegation d)));
     BeginRedelegate delegator (validator_id (validator (redelegate_delegation d))) (validator_id (to_validator d)) amount]
| stakes_rewards vs : stakes delegator amount (Rewards vs) (map (fun v => WithdrawDelegatorReward delegator (validator_id v)) vs).

Definition byte_message (m : CosmosMessage) : Prop := match m with ExecuteContract _ _ msg _ => all_bytes msg | _ => True end.
Definition good_message (m : CosmosMessage) : Prop := valid_message m /\ byte_message m.

Context `{!Bech32Laws} `{!Sec1Laws} `{!Secp256k1Laws} `{!Base64TextLaws} `{!CosmosJsonLaws}.

Lemma value_bytes m chain bs : byte_message m -> encode_value m chain = Ok bs -> all_bytes bs.
Proof.
  intros B (fs & P & ->)%value_wire. apply wire_bytes. destruct m as [from_ to amount| | | | | |]; cbn [value_parts byte_message] in *;
    [|injection P as <-; payloads; apply bytes_payload, wire_bytes; apply Forall_app; split; apply text_payload..].
  destruct (send_address_parts chain from_ to) as [fs'|] eqn:A; [|done]. injection P as <-. payloads.
  assert (T : forall a b, address_bytes_of a = Some b -> all_bytes b).
  { intros a b. unfold address_bytes_of, CosmosAddresses.try_parse. destruct (bech32_decode a) as [[hrp bs]|] eqn:D; [|done].
    cbn. destruct (_ && _); [|done]. intros E. assert (b = bs) as -> by (cbn in E; congruence). by eapply bech32_bytes. }
  unfold send_address_parts in A. destruct chain; repeat res_step; payloads.
Qed.

Lemma cosmos_encoded_bytes chain messages encoded : Forall byte_message messages ->
  collect (fun m => encode_as_any m chain) messages = Ok encoded -> Forall all_bytes encoded.
Proof.
  intros B C%collect_ok_iff. induction C as [|m bs ms bss E C IH]; [constructor|]. inversion B; subst. constructor; [|by apply IH].
  apply cosmos_any_wire in E as (value & E & ->). apply wire_bytes. payloads. apply bytes_payload. by eapply value_bytes.
Qed.

Lemma body_all_bytes encoded memo : Forall all_bytes encoded -> all_bytes (encode_tx_body encoded memo).
Proof.
  intros B. rewrite body_wire. apply wire_bytes. unfold body_parts. payloads.
  induction B; [constructor|]. apply Forall_app. split; [by apply bytes_payload|done].
Qed.

Lemma auth_all_bytes params pubkey : all_bytes pubkey -> all_bytes (encode_auth_info params pubkey).
Proof.
  intros B. rewrite auth_wire. unfold auth_parts, signer_parts, key_parts, fee_parts. apply wire_bytes, Forall_app.
  split; apply bytes_payload, wire_bytes; payloads; apply bytes_payload; [|by repeat constructor]. apply wire_bytes. payloads.
Qed.

Lemma public_key_bytes chain private_key pubkey : public_key chain private_key = Ok pubkey -> all_bytes pubkey.
Proof.
  unfold public_key, public_key_from_private, uncompress_public_key. destruct (secp_valid_key private_key); [|done].
  cbn [ok_or]. intros E. destruct chain; try (injection E as <-; apply secp_key_bytes).
  destruct (sec1_uncompress _) as [bs|] eqn:S; [|done]. injection E as <-. by eapply sec1_bytes.
Qed.

(** *** Every request goes through [sign_messages]. *)
Lemma sign_messages_signed chain input messages gas fee memo private_key text :
  request_fits input -> is_u64 gas -> Forall good_message messages ->
  sign_messages chain (metadata input) messages gas fee memo private_key = Ok text ->
  signed chain input private_key messages memo gas fee text.
Proof.
  intros [Fa Fs] G M S. unfold sign_messages, from_box, map_err in S.
  destruct (LoadMetadata.get_account_number (metadata input)) as [account|] eqn:A; [|done].
  destruct (LoadMetadata.get_sequence (metadata input)) as [sequence|] eqn:Q; [|done].
  destruct (LoadMetadata.get_chain_id (metadata input)) as [chain_id|] eqn:I; [|done].
  destruct (collect _ messages) as [encoded|] eqn:C; [|done].
  assert (Mv : Forall valid_message messages) by (eapply Forall_impl; [exact M|by intros ? []]).
  assert (Mb : Forall byte_message messages) by (eapply Forall_impl; [exact M|by intros ? []]). clear M.
  set (params := MkTxParams (encode_tx_body encoded memo) chain_id account sequence (fee_coins_of chain fee) gas (pubkey_type_of chain)) in S.
  unfold encode_and_sign_tx in S. destruct (public_key chain private_key) as [pubkey|] eqn:K; [|done].
  cbn [sign_digest] in S. unfold sign_digest_append_recovery, secp_sign_digest in S.
  destruct (secp_valid_key private_key) eqn:V; [|done].
  set (digest := sign_doc_digest _ _) in S. destruct (secp_sign_prehash digest private_key) as [rs v] eqn:R.
  pose proof (secp_signature_length digest private_key) as L. rewrite R in L. cbn [fst] in L.
  cbn zeta in S. rewrite length_app, L in S. cbn [length Nat.add Nat.ltb Nat.leb] in S.
  assert (T : text = broadcast_to_string "BROADCAST_MODE_SYNC"
    (encode_base64 (encode_tx_raw (body_bytes params) (encode_auth_info params pubkey) (take 64 (rs ++ [v]))))) by congruence. clear S.
  rewrite <- L, take_app_length in T.
  assert (B : all_bytes (encode_tx_raw (body_bytes params) (encode_auth_info params pubkey) rs)).
  { rewrite cosmos_raw_wire. apply wire_bytes. unfold raw_parts. payloads; apply bytes_payload.
    - by eapply body_all_bytes, cosmos_encoded_bytes.
    - by eapply auth_all_bytes, public_key_bytes.
    - pose proof (secp_signature_bytes digest private_key) as SB. by rewrite R in SB. }
  exists account, sequence, chain_id, pubkey, (encode_tx_raw (body_bytes params) (encode_auth_info params pubkey) rs),
    (body_bytes params), (encode_auth_info params pubkey). split_and!; try done; [by apply base64_text_roundtrip|].
  cbn zeta. intros F.
  destruct (read_signed chain params pubkey messages encoded memo rs) as (entries & S & RS); try done.
  { split_and!; [by apply Fa|by apply Fs|done]. }
  exists entries. split; [done|]. assert (E : fst (secp_sign_prehash digest private_key) = rs) by (rewrite R; reflexivity).
  rewrite RS, <- E. reflexivity.
Qed.
End requests.
End CosmosRequests.

(** ** Properties *)

Module CosmosProperties.
Import Fields FieldFacts Payloads CosmosChains CosmosMessages CosmosTransactions CosmosFacts CosmosSigner CosmosRequests.

Section properties.
Context `{Bech32} `{Sha256} `{Keccak256} `{Sec1} `{Ed25519} `{Secp256k1} `{Base64Text} {Value : Type} `{CosmosJson Value}.
Context `{!Bech32Laws} `{!Sec1Laws} `{!Secp256k1Laws} `{!Base64TextLaws} `{!CosmosJsonLaws}.

(** The signed document of a Cosmos transaction determines the transaction: two documents with the same bytes have
    the same messages in the same order (up to the spelling of the addresses of a Thorchain or Mayachain send, whose
    bytes are written), memo, chain id, account number, sequence, fee, gas limit and public key.  Fields of zero value
    and empty texts, which the encoder leaves out, are covered. *)
Theorem cosmos_signing_injective (chain : CosmosChain) (p p' : CosmosTxParams) (pubkey pubkey' : bytes)
  (messages messages' : list CosmosMessage) (encoded encoded' : list bytes) (memo memo' : string) :
  valid_params p -> valid_params p' -> Forall valid_message messages -> Forall valid_message messages' ->
  collect (fun m => encode_as_any m chain) messages = Ok encoded ->
  collect (fun m => encode_as_any m chain) messages' = Ok encoded' ->
  body_bytes p = encode_tx_body encoded memo -> body_bytes p' = encode_tx_body encoded' memo' ->
  fits (sign_document p pubkey) -> sign_document p pubkey = sign_document p' pubkey' ->
  Forall2 (same_message chain) messages messages' /\ memo = memo' /\
  chain_id p = chain_id p' /\ account_number p = account_number p' /\ sequence p = sequence p' /\
  fee_coins p = fee_coins p' /\ gas_limit p = gas_limit p' /\ pubkey_type p = pubkey_type p' /\ pubkey = pubkey'.
Proof.
  unfold sign_document. rewrite !doc_wire. unfold doc_parts. intros V V' M M' C C' B B' F E.
  pose proof V as (A & _). pose proof V' as (A' & _). same_fields E. apply fits_app in F as [F1%fits_bytes F2].
  apply fits_app in F2 as [F2%fits_bytes _]. select_field 1 E. select_field 2 E. select_field 3 E. select_field 4 E.
  apply bytes_fields_inj in Efield, Efield0. apply text_fields_inj in Efield1. apply nonzero_fields_inj in Efield2.
  apply auth_inj in Efield0 as (-> & -> & -> & -> & ->); [|done..].
  rewrite B in F1. rewrite B, B', !body_wire in Efield. rewrite body_wire in F1. unfold fits in F1.
  assert (ok : forall l t, Forall field_ok (body_parts l t)).
  { intros l t. apply Forall_app. split; [|fields_ok]. apply flat_fields_ok. intros. by apply bytes_fields_ok. }
  apply wire_inj in Efield; [|apply ok..|done]. apply fits_app in F1 as [F1 _].
  pose proof (f_equal (select 1) Efield) as E1. pose proof (f_equal (select 2) Efield) as E2. rewrite !select_body in E1, E2.
  cbn [Z.eqb Pos.eqb] in E1, E2. rewrite !app_nil_r in E1. cbn [app] in E2. apply text_fields_inj in E2.
  split; [by eapply messages_inj|done].
Qed.

Lemma gas_limit_of_spec input n gas : 0 <= n -> gas_limit_of input n = Ok gas ->
  exists unit, GasPrices.gas_limit_u64 (fee_of input) = Ok unit /\ gas = unit * n /\ is_u64 gas.
Proof.
  unfold gas_limit_of, checked_mul. intros N. destruct (GasPrices.gas_limit_u64 _) as [unit|] eqn:U; [|done].
  pose proof (gas_limit_u64_range _ _ U). destruct (unit * n <=? U64_MAX) eqn:L; [|done]. intros [= <-]. exists unit.
  split_and!; [done..|zlia|zlia].
Qed.

Lemma fee_amount_spec input fee : fee_amount_of input = Ok fee -> fee = GasPrices.fee (fee_of input) /\ 0 <= fee.
Proof. unfold fee_amount_of. destruct (0 <=? _) eqn:B; [|done]. intros [= <-]. zbool. done. Qed.

Lemma sign_send_signed chain input denom private_key text : request_fits input -> sign_send chain input denom private_key = Ok text ->
  exists gas, GasPrices.gas_limit_u64 (fee_of input) = Ok gas /\ 0 <= GasPrices.fee (fee_of input)
    /\ signed chain input private_key
         [Send (InputTypes.sender_address (load input)) (InputTypes.destination_address (load input))
            [MkCoin denom (InputTypes.input_value (load input))]]
         (memo_of input) gas (GasPrices.fee (fee_of input)) text.
Proof.
  unfold sign_send. intros R S. destruct (gas_limit_of input 1) as [gas|] eqn:G; [|done].
  apply gas_limit_of_spec in G as (unit & U & -> & W); [|lia]. rewrite Z.mul_1_r in *.
  destruct (fee_amount_of input) as [fee|] eqn:F; [|done]. apply fee_amount_spec in F as [-> F].
  exists unit. split_and!; [done..|]. apply sign_messages_signed; try done. by repeat constructor.
Qed.

Lemma stake_messages_spec input chain messages : stake_messages input chain = Ok messages ->
  exists type, InputTypes.get_stake_type (InputTypes.input_type (load input)) = Ok type
    /\ stakes (InputTypes.sender_address (load input)) (MkCoin (denom_as_ref (denom chain)) (InputTypes.input_value (load input))) type messages
    /\ Forall good_message messages.
Proof.
  unfold stake_messages. destruct (InputTypes.get_stake_type _) as [type|]; [|done]. cbn [map_err]. intros E. exists type. split; [done|].
  destruct type as [v|d|d|vs|u|u|w]; try discriminate E; injection E as <-; (split; [constructor|]); try by repeat constructor.
  induction vs; [constructor|]. by repeat constructor.
Qed.

Lemma parse_good data m : parse data = Ok m -> good_message m.
Proof.
  unfold parse, json_error, map_err. destruct (envelope_from_str data) as [[url value]|]; [|done].
  repeat case_match; intros E; repeat res_step; try done; split; cbn; try done.
  - apply PrefixCodes.all_bytes_string.
  - by eapply ibc_timeout.
Qed.

Lemma parse_array_good data messages : parse_array data = Ok messages -> Forall good_message messages.
Proof.
  unfold parse_array. destruct (json_error _) as [arr|]; [|done]. intros C%collect_ok_iff.
  induction C; constructor; [by eapply parse_good|done].
Qed.

(** What a swap asks for: the gas limit of the provider, if it gives a positive number, with three tenths added, or the
    loaded limit for each message *)
Definition swap_gas (input : ChainSignerInput) (provider : option string) (count gas : Z) : Prop :=
  match (let?? text := provider in u64_from_str_radix 10 text) with
  | Some g => if 0 <? g then gas = as_u64 (g * 13 / 10) else exists unit, GasPrices.gas_limit_u64 (fee_of input) = Ok unit /\ gas = unit * count
  | None => exists unit, GasPrices.gas_limit_u64 (fee_of input) = Ok unit /\ gas = unit * count
  end.

Lemma swap_gas_spec input provider count gas : 0 <= count ->
  match provider_gas_limit provider with Some gas_limit => Ok gas_limit | None => gas_limit_of input count end = Ok gas ->
  is_u64 gas /\ swap_gas input provider count gas.
Proof.
  unfold provider_gas_limit, swap_gas. intros N.
  assert (D : gas_limit_of input count = Ok gas -> is_u64 gas /\ exists unit, GasPrices.gas_limit_u64 (fee_of input) = Ok unit /\ gas = unit * count).
  { intros (unit & U & E & W)%gas_limit_of_spec; [|done]. split; [done|by exists unit]. }
  destruct provider as [text|]; [|exact D]. destruct (u64_from_str_radix 10 text) as [g|]; [|exact D].
  destruct (0 <? g); [|exact D]. intros E. assert (gas = as_u64 (g * GAS_BUFFER_NUMERATOR / GAS_BUFFER_DENOMINATOR)) as -> by congruence.
  split; [by apply wrap_width|reflexivity].
Qed.

(** (C16) A signed Cosmos request holds what was requested.  The text of a transfer is the broadcast of a transaction that
    a reader of the published schemas reads as a single send of the requested value, in the chain's denomination or the token's,
    from the sender to the destination; that of a stake operation as the reward withdrawals and the delegation, undelegation or
    redelegation asked for; that of a swap as the messages of the quote.  The memo, the gas limit and the fee are those
    of the request, and the signature is the key's, of the document of exactly these parts. *)
Theorem cosmos_request_signed (input : ChainSignerInput) (private_key : bytes) (text : string) (texts : list string) :
  request_fits input ->
  (sign_transfer input private_key = Ok text -> exists chain gas,
     chain_of input = Ok chain /\ GasPrices.gas_limit_u64 (fee_of input) = Ok gas /\ 0 <= GasPrices.fee (fee_of input)
     /\ signed chain input private_key
          [Send (InputTypes.sender_address (load input)) (InputTypes.destination_address (load input))
             [MkCoin (denom_as_ref (denom chain)) (InputTypes.input_value (load input))]]
          (default EmptyString (InputTypes.memo (load input))) gas (GasPrices.fee (fee_of input)) text)
  /\ (sign_token_transfer input private_key = Ok text -> exists chain token gas,
     chain_of input = Ok chain /\ AssetIds.token_id (Assets.id (asset_of input)) = Some token
     /\ GasPrices.gas_limit_u64 (fee_of input) = Ok gas /\ 0 <= GasPrices.fee (fee_of input)
     /\ signed chain input private_key
          [Send (InputTypes.sender_address (load input)) (InputTypes.destination_address (load input))
             [MkCoin token (InputTypes.input_value (load input))]]
          (default EmptyString (InputTypes.memo (load input))) gas (GasPrices.fee (fee_of input)) text)
  /\ (sign_stake input private_key = Ok texts -> exists chain type messages unit text,
     chain_of input = Ok chain /\ InputTypes.get_stake_type (InputTypes.input_type (load input)) = Ok type
     /\ stakes (InputTypes.sender_address (load input)) (MkCoin (denom_as_ref (denom chain)) (InputTypes.input_value (load input))) type messages
     /\ GasPrices.gas_limit_u64 (fee_of input) = Ok unit /\ 0 <= GasPrices.fee (fee_of input) /\ texts = [text]
     /\ signed chain input private_key messages (stake_memo_of input) (unit * Z.of_nat (length messages)) (GasPrices.fee (fee_of input)) text)
  /\ (sign_swap input private_key = Ok texts -> exists chain data messages gas price text,
     chain_of input = Ok chain /\ InputTypes.get_swap_data (InputTypes.input_type (load input)) = Ok data
     /\ parse_array (quote_data (swap_data data)) = Ok messages
     /\ swap_gas input (quote_gas_limit (swap_data data)) (Z.of_nat (length messages)) gas
     /\ GasPrices.gas_price_u64 (fee_of input) = Ok price /\ texts = [text]
     /\ signed chain input private_key messages (default EmptyString (InputTypes.memo (load input))) gas (gas * price / 200000) text).
Proof.
  intros R. split_and!; intros S.
  - unfold sign_transfer in S. destruct (chain_of input) as [chain|] eqn:C; [|done].
    apply sign_send_signed in S as (gas & S); [|done]. by exists chain, gas.
  - unfold sign_token_transfer, get_token_id in S. destruct (chain_of input) as [chain|] eqn:C; [|done].
    destruct (AssetIds.token_id _) as [token|]; [|done]. apply sign_send_signed in S as (gas & S); [|done]. by exists chain, token, gas.
  - unfold sign_stake in S. destruct (chain_of input) as [chain|] eqn:C; [|done].
    destruct (stake_messages input chain) as [messages|] eqn:M; [|done]. apply stake_messages_spec in M as (type & T & K & M).
    destruct (gas_limit_of input _) as [gas|] eqn:G; [|done]. apply gas_limit_of_spec in G as (unit & U & -> & W); [|lia].
    destruct (fee_amount_of input) as [fee|] eqn:F; [|done]. apply fee_amount_spec in F as [-> F].
    destruct (sign_messages _ _ _ _ _ _ _) as [text'|] eqn:T'; [|done]. apply sign_messages_signed in T'; [|done..].
    exists chain, type, messages, unit, text'. split_and!; try done. congruence.
  - unfold sign_swap, from_box, map_err in S. destruct (InputTypes.get_swap_data _) as [data|] eqn:D; [|done].
    destruct (chain_of input) as [chain|] eqn:C; [|done]. destruct (parse_array _) as [messages|] eqn:P; [|done].
    destruct (match provider_gas_limit _ with Some _ => _ | None => _ end) as [gas|] eqn:G; [|done].
    destruct (GasPrices.gas_price_u64 _) as [price|] eqn:U; [|done]. pose proof (parse_array_good _ _ P) as PG.
    destruct (sign_messages _ _ _ _ _ _ _) as [text'|] eqn:T'; [|done].
    assert (GS : is_u64 gas /\ swap_gas input (quote_gas_limit (swap_data data)) (Z.of_nat (length messages)) gas) by (apply swap_gas_spec; [lia|done]).
    destruct GS as [W GS]. apply sign_messages_signed in T'; [|done..].
    exists chain, data, messages, gas, price, text'. split_and!; try done. congruence.
Qed.

End properties.
End CosmosProperties.

(** ** The vectors of the unit tests, and the theorems on concrete requests *)

Module CosmosConcrete.
Import Fields Payloads CosmosChains CosmosMessages CosmosTransactions CosmosFacts CosmosSigner CosmosRequests CosmosProperties.
Import Concrete SigningConcrete.

(** An address of a prefix and a hexadecimal text *)
#[local] Instance toy_bech32 : Bech32 := {|
  bech32_decode s := match split_once "1" s with Some (hrp, data) => Ok (hrp, bytes_of_string data) | None => Err "no separator" end;
  hrp_parse s := Ok s;
  bech32_encode hrp bs := Ok (hrp +:+ "1" +:+ string_of_bytes bs)
|}.
#[local] Instance toy_bech32_laws : Bech32Laws.
Proof.
  split. intros s hrp bs. cbn. destruct (split_once "1" s) as [[h d]|]; [|done]. intros E.
  assert (bs = bytes_of_string d) as -> by congruence. apply PrefixCodes.all_bytes_string.
Qed.
#[local] Instance toy_keccak256 : Keccak256 := fun bs => be_bytes 32 (of_be bs * 3 + 1).
#[local] Instance toy_sec1 : Sec1 := fun key => if (length key =? 33)%nat then Some (be_bytes 65 (of_be key)) else None.
#[local] Instance toy_sec1_laws : Sec1Laws.
Proof.
  split. unfold sec1_uncompress, toy_sec1. intros key bs. destruct (_ =? _)%nat; [|done]. intros E.
  assert (bs = be_bytes 65 (of_be key)) as -> by congruence. apply be_bytes_bytes.
Qed.
(** A JSON value is a text, and the only message is an execution of a contract. *)
#[local] Instance toy_json : CosmosJson string := {|
  array_from_str s := Ok [s];
  value_to_string s := s;
  envelope_from_str s := Ok (MESSAGE_EXECUTE_CONTRACT, s);
  send_from_value _ := Err "send";
  execute_from_value s := Ok (MkExecute "osmo1sender" "osmo1contract" s [MkCoin "uosmo" 1000000]);
  ibc_from_value _ := Err "ibc";
  delegate_from_value _ := Err "delegate";
  undelegate_from_value _ := Err "undelegate";
  redelegate_from_value _ := Err "redelegate";
  withdraw_from_value _ := Err "withdraw";
  broadcast_to_string mode tx_bytes := (mode +:+ ":" +:+ tx_bytes)%string
|}.
#[local] Instance toy_json_laws : CosmosJsonLaws.
Proof. split; [|done]. intros mode t t' E. cbn in E. by simplify_eq. Qed.

Definition execute : CosmosMessage :=
  ExecuteContract "osmo1test" "osmo1contract" [0x7b; 0x22; 0x73; 0x77; 0x61; 0x70; 0x22; 0x3a; 0x7b; 0x7d; 0x7d] [MkCoin "uosmo" 1000000].
Definition quoted_memo : string := string_of_bytes
  ([0x7b; 0x22] ++ bytes_of_string "ibc_callback" ++ [0x22; 0x3a; 0x22] ++ bytes_of_string "osmo1contract" ++ [0x22; 0x7d]).
Definition transfer_out : CosmosMessage :=
  IbcTransfer "transfer" "channel-0" (MkCoin "uatom" 1000000) "cosmos1test" "osmo1test" 1773382733549000000 quoted_memo.

Example test_encode_execute_contract : HexConcrete.to_hex <$> ok (encode_as_any execute Osmosis) = Some
  ("0a242f636f736d7761736d2e7761736d2e76312e4d736745786563757465436f6e747261637412390a096f736d6f3174657374120d6f736d6f31636f6e7472616374"
   +:+ "1a0b7b2273776170223a7b7d7d2a100a05756f736d6f120731303030303030")%string.
Proof. by vm_compute. Qed.

Example test_encode_ibc_transfer : HexConcrete.to_hex <$> ok (encode_as_any transfer_out Cosmos) = Some
  ("0a292f6962632e6170706c69636174696f6e732e7472616e736665722e76312e4d73675472616e73666572126b0a087472616e7366657212096368616e6e656c2d30"
   +:+ "1a100a057561746f6d120731303030303030220b636f736d6f7331746573742a096f736d6f317465737438c0aaffdfb4c694ce1842207b226962635f63616c6c6261"
   +:+ "636b223a226f736d6f31636f6e7472616374227d")%string.
Proof. by vm_compute. Qed.

(** The buffer of a provider's gas limit is cast to 64 bits, not checked as the loaded limit is. *)
Example provider_gas_wraps : provider_gas_limit (Some "16000000000000000000") = Some 2353255926290448384.
Proof. by vm_compute. Qed.

Definition params (gas : Z) : CosmosTxParams :=
  MkTxParams (encode_tx_body (default [] (ok (collect (fun m => encode_as_any m Osmosis) [execute; transfer_out]))) "memo")
    "osmosis-1" 0 7 [MkCoin "uosmo" 500] gas COSMOS_SECP256K1_PUBKEY_TYPE.

Lemma cosmos_signing_injective_witness :
  Forall2 (same_message Osmosis) [execute; transfer_out] [execute; transfer_out] /\ gas_limit (params 200000) = 200000.
Proof.
  destruct (cosmos_signing_injective Osmosis (params 200000) (params 200000) [2; 3] [2; 3] [execute; transfer_out] [execute; transfer_out]
    (default [] (ok (collect (fun m => encode_as_any m Osmosis) [execute; transfer_out])))
    (default [] (ok (collect (fun m => encode_as_any m Osmosis) [execute; transfer_out]))) "memo" "memo") as (M & _).
  1, 2: split_and!; by vm_compute.
  1, 2: repeat constructor; by vm_compute.
  1, 2, 3, 4: vm_compute; reflexivity.
  1: vm_compute; discriminate 1.
  1: reflexivity.
  split; [exact M|reflexivity].
Defined.

Definition stake_input (value : Z) : ChainSignerInput :=
  let asset := coin Chains.Cosmos None "ATOM" 6 in
  let delegation := MkDelegation (MkDelegationBase (Assets.id asset) 10 0 0 "d" "v1") (MkValidator Chains.Cosmos "cosmosvaloper1" "one") in
  MkChainInput
    (InputTypes.MkSignerInput
       (InputTypes.MkLoadInput
          (InputTypes.StakeInput asset (Redelegate (MkRedelegate delegation (MkValidator Chains.Cosmos "cosmosvaloper2" "two"))))
          "cosmos1alice" "" value (GasPrices.Regular 1) None false)
       (GasPrices.MkFee 5000 (GasPrices.Regular 1) 250000 [] (AssetIds.from_chain Chains.Cosmos)))
    (LoadMetadata.Cosmos 12 3 "cosmoshub-4").

Lemma cosmos_request_signed_witness : exists text,
  sign_stake (stake_input 40) key = Ok [text] /\ exists type messages,
    stakes "cosmos1alice" (MkCoin "uatom" 40) type messages /\ length messages = 2%nat
    /\ signed Cosmos (stake_input 40) key messages "Stake via Gem Wallet" 500000 5000 text.
Proof.
  assert (S : exists text, sign_stake (stake_input 40) key = Ok [text]) by (eexists; vm_compute; reflexivity).
  destruct S as [text S]. exists text. split; [exact S|].
  destruct (cosmos_request_signed (stake_input 40) key text [text]) as (_ & _ & R & _).
  { split; intros n E; (assert (n = 12 \/ n = 3) as [-> | ->] by (inversion E; auto)); by vm_compute. }
  destruct (R S) as (chain & type & messages & unit & text' & C & T & M & U & _ & E & G).
  assert (chain = Cosmos) as -> by (vm_compute in C; congruence).
  assert (unit = 250000) as -> by (vm_compute in U; congruence).
  assert (text' = text) as -> by congruence.
  exists type, messages. split; [exact M|].
  assert (L : length messages = 2%nat) by (destruct M; [vm_compute in T; congruence..|reflexivity|vm_compute in T; congruence]).
  split; [exact L|]. rewrite L in G. exact G.
Defined.

End CosmosConcrete.
