(* ===== verification/SolanaTransaction.v ===== *)
(** * Solana transactions

    Models [gem_solana/src/transaction.rs] (module [SolanaReader]: what a transaction transfers, and its memo) and
    [gem_solana/src/signer/transaction.rs] ([SolanaBuilder]: the legacy transaction of a list of instructions) over the
    types of the [solana_primitives] crate ([SolanaTypes]), whose functions are the class [SolanaPrimitives].  The
    theorems show that the compiled transaction means the instructions it was built from, with no privilege more or
    less, and that a transaction is read as a transfer exactly when it holds one and nothing else of effect. *)
From S2P Require Import Prelude Utf8 HexText Text Crates ChainRegistry Assets BitcoinPlanner Transactions TransferAmount TransferRules Signing.
Import BitcoinPlanner SignerInputs Keys.

(** ** The types of [solana_primitives], by the fields the source uses *)

Module SolanaTypes.

(** The 32 bytes of a key *)
Definition Pubkey : Type := bytes.
#[export] Instance Pubkey_eq_dec : EqDecision Pubkey := _.
#[export] Instance Pubkey_countable : Countable Pubkey := _.

Record AccountMeta := MkMeta { pubkey : Pubkey; is_signer : bool; is_writable : bool }.
Definition new_readonly (pubkey : Pubkey) : AccountMeta := MkMeta pubkey false false.
Definition new_writable (pubkey : Pubkey) : AccountMeta := MkMeta pubkey false true.
Definition new_signer (pubkey : Pubkey) : AccountMeta := MkMeta pubkey true false.
Definition new_signer_writable (pubkey : Pubkey) : AccountMeta := MkMeta pubkey true true.

Record Instruction := MkInstruction { program_id : Pubkey; accounts : list AccountMeta; data : bytes }.
Record CompiledInstruction := MkCompiled { program_id_index : Z; account_indexes : list Z; compiled_data : bytes }.
Record MessageHeader := MkHeader {
  num_required_signatures : Z;
  num_readonly_signed_accounts : Z;
  num_readonly_unsigned_accounts : Z
}.
Record Message := MkMessage {
  header : MessageHeader;
  account_keys : list Pubkey;
  recent_blockhash : bytes;
  instructions : list CompiledInstruction
}.
Record Transaction := MkTransaction { signatures : list bytes; message : Message }.

(** [L] stands for the address lookups of a message of version 0. *)
Inductive VersionedTransaction (L : Type) :=
| Legacy (t : Transaction)
| V0 (t : Transaction) (lookups : L).
Arguments Legacy {L}.
Arguments V0 {L}.

Section versioned.
Context {L : Type}.
Definition body (self : VersionedTransaction L) : Transaction := match self with Legacy t | V0 t _ => t end.
Definition with_body (self : VersionedTransaction L) (t : Transaction) : VersionedTransaction L :=
  match self with Legacy _ => Legacy t | V0 _ lookups => V0 t lookups end.
Definition versioned_keys (self : VersionedTransaction L) : list Pubkey := account_keys (message (body self)).
Definition versioned_instructions (self : VersionedTransaction L) : list CompiledInstruction := instructions (message (body self)).
Definition versioned_signatures (self : VersionedTransaction L) : list bytes := signatures (body self).
End versioned.

(** The functions of the crate, with the text of their errors *)
Class SolanaPrimitives (L : Type) : Type := {
  from_base58 : string -> result string Pubkey;
  to_base58 : Pubkey -> string;
  find_program_address : Pubkey -> list bytes -> result string (Pubkey * Z);
  system_program : Pubkey;
  (** [instructions::{system, memo, token, associated_token, compute_budget}] *)
  transfer : Pubkey -> Pubkey -> Z -> Instruction;
  memo_instruction : string -> list Pubkey -> Instruction;
  transfer_checked_with_program_id : Pubkey -> Pubkey -> Pubkey -> Pubkey -> Z -> Z -> Pubkey -> Instruction;
  get_associated_token_address_with_program_id : Pubkey -> Pubkey -> Pubkey -> Pubkey;
  create_associated_token_account_idempotent : Pubkey -> Pubkey -> Pubkey -> Pubkey -> Instruction;
  set_compute_unit_price : Z -> Instruction;
  set_compute_unit_limit : Z -> Instruction;
  (** Signatures and the binary form *)
  sign_transaction : Transaction -> list bytes -> result string Transaction;
  sign_message : bytes -> bytes -> result string bytes;
  serialize_legacy : Transaction -> result string bytes;
  serialize : VersionedTransaction L -> result string bytes;
  serialize_message : VersionedTransaction L -> result string bytes;
  deserialize_with_version : bytes -> result string (VersionedTransaction L);
  (** The compute budget of a transaction *)
  get_compute_unit_limit : VersionedTransaction L -> option Z;
  transaction_set_unit_price : VersionedTransaction L -> Z -> result string (VersionedTransaction L);
  transaction_set_unit_limit : VersionedTransaction L -> Z -> result string (VersionedTransaction L)
}.

(** [solana_primitives::instructions::program_ids], the programs every Solana cluster has at these addresses *)
Definition SYSTEM_PROGRAM_ID : string := "11111111111111111111111111111111".
Definition TOKEN_PROGRAM_ID : string := "TokenkegQfeZyiNwAJbNbGKPFXCWuBvf9Ss623VQ5DA".
Definition TOKEN_2022_PROGRAM_ID : string := "TokenzQdBNbLqP5VEhdkAS6EPFLC1PHnBqCXEpPxuEb".
Definition ASSOCIATED_TOKEN_PROGRAM_ID : string := "ATokenGPvbdGVxr1b2hvZbsiqW5xWH25efTNsLJA8knL".
Definition MEMO_PROGRAM_ID : string := "MemoSq4gqABAXKb96qnH8TysNcWxMyWCqXgDLGmfcHr".
Definition COMPUTE_BUDGET_PROGRAM_ID : string := "ComputeBudget111111111111111111111111111111".

End SolanaTypes.

(** ** [transaction.rs] *)

Module SolanaReader.
Import SolanaTypes.

Record SolanaTransfer := MkTransfer { transfer_asset_id : AssetIds.AssetId; recipient : string; value : Z }.

Section reader.
Context {L : Type} `{SolanaPrimitives L} `{Base64Text} `{Base58Text}.

Definition instruction_account (instruction : CompiledInstruction) (account_keys : list Pubkey) (position : nat) : option Pubkey :=
  let?? index := account_indexes instruction !! position in get account_keys index.

Definition authorized (account : Pubkey) (signer : option Pubkey) : bool :=
  match signer with Some signer => bool_decide (account = signer) | None => true end.

(** [find_map] of an iterator *)
Fixpoint find_map {A B} (f : A -> option B) (l : list A) : option B :=
  match l with [] => None | x :: l => match f x with Some y => Some y | None => find_map f l end end.

Definition memo (self : VersionedTransaction L) : option string :=
  let account_keys := versioned_keys self in
  find_map (fun instruction =>
    let?? program := get account_keys (program_id_index instruction) in
    if negb (bool_decide (to_base58 program = MEMO_PROGRAM_ID)) then None else
    if utf8_valid (compiled_data instruction) then
      let memo := string_of_bytes (compiled_data instruction) in
      if bool_decide (memo = EmptyString) then None else Some memo
    else None) (versioned_instructions self).

Definition system_transfer (instruction : CompiledInstruction) (account_keys : list Pubkey) (signer : option Pubkey)
  : option SolanaTransfer :=
  let data := compiled_data instruction in
  if negb (length data =? 12)%nat then None else
  if negb (bool_decide (take 4 data = le_bytes 4 2)) then None else
  let?? from_ := instruction_account instruction account_keys 0 in
  if negb (authorized from_ signer) then None else
  let?? recipient := instruction_account instruction account_keys 1 in
  Some (MkTransfer (AssetIds.from_chain Chains.Solana) (to_base58 recipient) (of_le (drop 4 data))).

Definition associated_token_owner (transaction : VersionedTransaction L) (token_account : Pubkey) : option Pubkey :=
  let account_keys := versioned_keys transaction in
  find_map (fun instruction =>
    let?? program := get account_keys (program_id_index instruction) in
    let creates_account := bool_decide (compiled_data instruction = []) || bool_decide (compiled_data instruction = [1]) in
    if negb (bool_decide (to_base58 program = ASSOCIATED_TOKEN_PROGRAM_ID)) || negb creates_account then None else
    let?? account := instruction_account instruction account_keys 1 in
    if negb (bool_decide (account = token_account)) then None else
    instruction_account instruction account_keys 2) (versioned_instructions transaction).

Definition token_transfer (transaction : VersionedTransaction L) (instruction : CompiledInstruction) (account_keys : list Pubkey)
  (signer : option Pubkey) : option SolanaTransfer :=
  let data := compiled_data instruction in
  if negb (length data =? 10)%nat then None else
  if negb (data !!! 0%nat =? 12) then None else
  let?? owner := instruction_account instruction account_keys 3 in
  if negb (authorized owner signer) then None else
  let?? mint := instruction_account instruction account_keys 1 in
  let?? token_account := instruction_account instruction account_keys 2 in
  let recipient := default token_account (associated_token_owner transaction token_account) in
  Some (MkTransfer (AssetIds.from_token Chains.Solana (to_base58 mint)) (to_base58 recipient) (of_le (take 8 (drop 1 data)))).

(** One turn of the loop of [decode_transfer] *)
Definition decode_step (transaction : VersionedTransaction L) (signer : option Pubkey) (found : option SolanaTransfer)
  (instruction : CompiledInstruction) : option (option SolanaTransfer) :=
  let account_keys := versioned_keys transaction in
  let?? program := get account_keys (program_id_index instruction) in
  let program := to_base58 program in
  let?? decoded :=
    if bool_decide (program = SYSTEM_PROGRAM_ID) then Some <$> system_transfer instruction account_keys signer
    else if bool_decide (program = TOKEN_PROGRAM_ID) || bool_decide (program = TOKEN_2022_PROGRAM_ID) then
      Some <$> token_transfer transaction instruction account_keys signer
    else if bool_decide (program = ASSOCIATED_TOKEN_PROGRAM_ID) || bool_decide (program = MEMO_PROGRAM_ID)
            || bool_decide (program = COMPUTE_BUDGET_PROGRAM_ID) then Some None
    else None in
  match decoded with
  | None => Some found
  | Some decoded => match found with Some _ => None | None => Some (Some decoded) end
  end.

Fixpoint decode_loop (transaction : VersionedTransaction L) (signer : option Pubkey) (found : option SolanaTransfer)
  (instructions : list CompiledInstruction) : option SolanaTransfer :=
  match instructions with
  | [] => found
  | instruction :: rest =>
      let?? found := decode_step transaction signer found instruction in decode_loop transaction signer found rest
  end.
Definition decode_transfer (transaction : VersionedTransaction L) (signer : option Pubkey) : option SolanaTransfer :=
  decode_loop transaction signer None (versioned_instructions transaction).

Definition simple_transfer (self : VersionedTransaction L) (signer : Pubkey) : option SolanaTransfer := decode_transfer self (Some signer).
Definition transaction_type (self : VersionedTransaction L) : TransactionTypes.TransactionType :=
  match decode_transfer self None with Some _ => TransactionTypes.Transfer | None => TransactionTypes.SmartContractCall end.

Definition try_decode_transaction_bytes (transaction : bytes) : option (VersionedTransaction L) :=
  let?? decoded := ok (deserialize_with_version transaction) in
  let?? serialized := ok (serialize decoded) in
  if bool_decide (serialized = transaction) then Some decoded else None.
Definition try_decode_transaction (transaction_base64 : string) : option (VersionedTransaction L) :=
  let?? data := decode_base64 transaction_base64 in try_decode_transaction_bytes data.

Definition try_decode_transaction_message (message : bytes) : option (VersionedTransaction L) :=
  let transaction := 0 :: message in
  let?? decoded := ok (deserialize_with_version transaction) in
  let?? serialized := ok (serialize_message decoded) in
  if bool_decide (serialized = message) then Some decoded else None.
Definition is_transaction_bytes (transaction : bytes) : bool :=
  match try_decode_transaction_bytes transaction, try_decode_transaction_message transaction with
  | None, None => false
  | _, _ => true
  end.

Definition decode_transaction (transaction_base64 : string) : result string (VersionedTransaction L) :=
  ok_or (try_decode_transaction transaction_base64) "failed to decode transaction".

Definition try_decode_blockhash (blockhash : string) : option bytes :=
  let?? bs := ok (bs58_decode blockhash) in if (length bs =? 32)%nat then Some bs else None.

End reader.
End SolanaReader.

(** ** [signer/transaction.rs] *)

Module SolanaBuilder.
Import SolanaTypes.

Record AccountFlags := MkFlags { flag_signer : bool; flag_writable : bool }.

(** The maps of [build_legacy_transaction]: the flags of the accounts, and an order in which they were met *)
Abbreviation Flags := (gmap Pubkey AccountFlags).

Definition merge_account (flags : Flags) (order : list Pubkey) (pubkey : Pubkey) (is_signer is_writable : bool) : Flags * list Pubkey :=
  match flags !! pubkey with
  | Some entry => (<[pubkey := MkFlags (flag_signer entry || is_signer) (flag_writable entry || is_writable)]> flags, order)
  | None => (<[pubkey := MkFlags is_signer is_writable]> flags, order ++ [pubkey])
  end.

Definition keys_of (fee_payer : Pubkey) (buckets : list (list Pubkey)) : list Pubkey :=
  [fee_payer] ++ List.filter (fun pubkey => negb (bool_decide (pubkey = fee_payer))) (buckets !!! 0%nat) ++ concat (drop 1 buckets).

Definition account_index (key_to_index : gmap Pubkey Z) (pubkey : Pubkey) : result SignerError Z :=
  ok_or (key_to_index !! pubkey) (InvalidInput "missing Solana account key").

(** The two loops of [build_legacy_transaction] that merge accounts *)
Definition merge_accounts (flags : Flags) (order : list Pubkey) (accounts : list AccountMeta) : Flags * list Pubkey :=
  fold_left (fun '(flags, order) account => merge_account flags order (pubkey account) (is_signer account) (is_writable account))
    accounts (flags, order).
Definition merge_instructions (flags : Flags) (account_order program_order : list Pubkey) (instructions : list Instruction)
  : Flags * list Pubkey * list Pubkey :=
  fold_left (fun '(flags, account_order, program_order) instruction =>
    let '(flags, account_order) := merge_accounts flags account_order (accounts instruction) in
    let '(flags, program_order) := merge_account flags program_order (program_id instruction) false false in
    (flags, account_order, program_order)) instructions (flags, account_order, program_order).

Definition bucket_of (flags : AccountFlags) : nat :=
  match flag_signer flags, flag_writable flags with
  | true, true => 0
  | true, false => 1
  | false, true => 2
  | false, false => 3
  end.
Definition fill_buckets (flags : Flags) (order : list Pubkey) : result SignerError (list (list Pubkey)) :=
  try_fold (fun buckets pubkey =>
    let? entry := ok_or (flags !! pubkey) (InvalidInput "missing Solana account flags") in
    Ok (alter (fun bucket => bucket ++ [pubkey]) (bucket_of entry) buckets)) [[]; []; []; []] order.

Definition compile (key_to_index : gmap Pubkey Z) (instruction : Instruction) : result SignerError CompiledInstruction :=
  let? program_id_index := account_index key_to_index (program_id instruction) in
  let? accounts := collect (fun account => account_index key_to_index (pubkey account)) (accounts instruction) in
  Ok (MkCompiled program_id_index accounts (data instruction)).

(** [account_keys.iter().enumerate().map(..).collect::<HashMap<_, _>>()] *)
Definition index_of (account_keys : list Pubkey) : gmap Pubkey Z :=
  fold_left (fun m '(index, pubkey) => <[pubkey := as_u8 (Z.of_nat index)]> m) (zip (seq 0 (length account_keys)) account_keys) ∅.

Definition build_legacy_transaction (fee_payer : Pubkey) (recent_blockhash : bytes) (instructions : list Instruction)
  : result SignerError Transaction :=
  let '(flags, account_order) := merge_account ∅ [] fee_payer true true in
  let '(flags, account_order, program_order) := merge_instructions flags account_order [] instructions in
  let? buckets := fill_buckets flags (account_order ++ program_order) in
  let num_required_signatures := (length (buckets !!! 0%nat) + length (buckets !!! 1%nat))%nat in
  let account_keys := keys_of fee_payer buckets in
  if (255 <? length account_keys)%nat || (255 <? num_required_signatures)%nat then
    Err (InvalidInput "Solana transaction has too many account keys") else
  let key_to_index := index_of account_keys in
  let? compiled_instructions := collect (compile key_to_index) instructions in
  let header := MkHeader (as_u8 (Z.of_nat num_required_signatures)) (as_u8 (Z.of_nat (length (buckets !!! 1%nat))))
                  (as_u8 (Z.of_nat (length (buckets !!! 3%nat)))) in
  Ok (MkTransaction (replicate num_required_signatures (replicate 64 0))
        (MkMessage header account_keys recent_blockhash compiled_instructions)).

Section builder.
Context {L : Type} `{SolanaPrimitives L} `{Base64Text} `{Base58Text}.

Definition compute_budget_instructions (fee : GasPrices.TransactionFee) : result SignerError (list Instruction) :=
  let? unit_price := GasPrices.unit_price_u64 fee in
  let? gas_limit := ok_or (to_width 32 (GasPrices.gas_limit fee)) (InvalidInput "invalid gas limit") in
  Ok ((if 0 <? unit_price then [set_compute_unit_price unit_price] else [])
      ++ (if 0 <? gas_limit then [set_compute_unit_limit gas_limit] else [])).

Definition block_hash (input : ChainSignerInput) : result SignerError bytes :=
  let? block_hash := from_box (LoadMetadata.get_block_hash (metadata input)) in
  let? bs := map_err (fun _ => InvalidInput "invalid Solana block hash") (bs58_decode block_hash) in
  if (length bs =? 32)%nat then Ok bs else Err (InvalidInput "Solana block hash must be 32 bytes").

Definition sign_single_signer_instructions (input : ChainSignerInput) (private_key : bytes) (fee_payer : Pubkey)
  (instructions : list Instruction) : result SignerError string :=
  let? hash := block_hash input in
  let? transaction := build_legacy_transaction fee_payer hash instructions in
  if negb (num_required_signatures (header (message transaction)) =? 1) then
    Err (InvalidInput "Solana transaction requires more than one signer") else
  let? transaction := map_err (fun e => SigningError ("sign: " +:+ e)) (sign_transaction transaction [private_key]) in
  let? bs := map_err (fun e => SigningError ("serialize transaction: " +:+ e)) (serialize_legacy transaction) in
  Ok (encode_base64 bs).

End builder.
End SolanaBuilder.

(** ** The compiled transaction means its instructions *)

Module BuilderFacts.
Import SolanaTypes SolanaBuilder.

(** *** Who is mentioned, and with which privileges *)

Definition mentions (fee_payer : Pubkey) (instructions : list Instruction) : list AccountMeta :=
  new_signer_writable fee_payer :: flat_map (fun i => accounts i ++ [new_readonly (program_id i)]) instructions.

(** The privileges of a key: those of any of its mentions *)
Definition signs (ms : list AccountMeta) (k : Pubkey) : bool := existsb (fun m => bool_decide (pubkey m = k) && is_signer m) ms.
Definition writes (ms : list AccountMeta) (k : Pubkey) : bool := existsb (fun m => bool_decide (pubkey m = k) && is_writable m) ms.

Lemma signs_app ms ms' k : signs (ms ++ ms') k = signs ms k || signs ms' k.
Proof. apply existsb_app. Qed.
Lemma writes_app ms ms' k : writes (ms ++ ms') k = writes ms k || writes ms' k.
Proof. apply existsb_app. Qed.

Lemma signs_true ms k : signs ms k = true <-> exists m, m ∈ ms /\ pubkey m = k /\ is_signer m = true.
Proof.
  unfold signs. rewrite existsb_exists. split; intros (m & Hm & P); exists m; rewrite list_elem_of_In in *.
  - apply andb_true_iff in P as [P%bool_decide_eq_true S]. done.
  - split; [done|]. destruct P as [<- ->]. by rewrite bool_decide_true.
Qed.
Lemma writes_true ms k : writes ms k = true <-> exists m, m ∈ ms /\ pubkey m = k /\ is_writable m = true.
Proof.
  unfold writes. rewrite existsb_exists. split; intros (m & Hm & P); exists m; rewrite list_elem_of_In in *.
  - apply andb_true_iff in P as [P%bool_decide_eq_true S]. done.
  - split; [done|]. destruct P as [<- ->]. by rewrite bool_decide_true.
Qed.

(** The flags hold the privileges of the mentions, and the orders list each mentioned key once. *)
Record merged (ms : list AccountMeta) (flags : Flags) (order : list Pubkey) : Prop := MkMerged {
  merged_nodup : NoDup order;
  merged_order : forall k, k ∈ order <-> k ∈ map pubkey ms;
  merged_flags : forall k, flags !! k = if bool_decide (k ∈ map pubkey ms) then Some (MkFlags (signs ms k) (writes ms k)) else None
}.

Lemma merged_empty : merged [] ∅ [].
Proof. split; [constructor|done|]. intros k. by rewrite lookup_empty. Qed.

(** One more mention, whichever order it is listed in *)
Lemma merged_step ms flags before order after m flags' order' :
  merged ms flags (before ++ order ++ after) ->
  merge_account flags order (pubkey m) (is_signer m) (is_writable m) = (flags', order') ->
  merged (ms ++ [m]) flags' (before ++ order' ++ after).
Proof.
  intros [N O F] E. unfold merge_account in E. rewrite F in E.
  assert (G : forall k, k <> pubkey m -> signs (ms ++ [m]) k = signs ms k /\ writes (ms ++ [m]) k = writes ms k).
  { intros k Hk. rewrite signs_app, writes_app. cbn. rewrite bool_decide_false by done. by rewrite !orb_false_r. }
  assert (D : forall k, k ∈ map pubkey (ms ++ [m]) <-> k ∈ map pubkey ms \/ k = pubkey m).
  { intros k. rewrite map_app, elem_of_app. cbn. by rewrite list_elem_of_singleton. }
  destruct (bool_decide (pubkey m ∈ map pubkey ms)) eqn:B; injection E as <- <-.
  - apply bool_decide_eq_true in B. split; [done| |].
    + intros k. rewrite D, O. split; [by left|]. intros [Hk | ->]; [done|exact B].
    + intros k. rewrite (bool_decide_ext _ _ (D k)). destruct (decide (k = pubkey m)) as [->|Hk].
      * rewrite lookup_insert_eq, bool_decide_true by auto. rewrite signs_app, writes_app. cbn.
        rewrite bool_decide_true by done. by rewrite !orb_false_r.
      * rewrite lookup_insert_ne, F by done. destruct (G k Hk) as [-> ->]. by repeat case_bool_decide; naive_solver.
  - apply bool_decide_eq_false in B. split.
    + apply NoDup_app in N as (N1 & N2 & N3). apply NoDup_app in N3 as (N3 & N4 & N5). rewrite <- O in B.
      rewrite !elem_of_app in B. apply NoDup_app. split_and!; [done| |apply NoDup_app; split_and!].
      * intros k Hk. specialize (N2 k Hk). rewrite !elem_of_app in *. rewrite list_elem_of_singleton. naive_solver.
      * apply NoDup_app. split_and!; [done| |apply NoDup_singleton]. intros k Hk. rewrite list_elem_of_singleton. naive_solver.
      * intros k. rewrite elem_of_app, list_elem_of_singleton. naive_solver.
      * done.
    + intros k. rewrite D, <- O, !elem_of_app, list_elem_of_singleton. naive_solver.
    + intros k. rewrite (bool_decide_ext _ _ (D k)). destruct (decide (k = pubkey m)) as [->|Hk].
      * rewrite lookup_insert_eq, bool_decide_true by auto. rewrite signs_app, writes_app. cbn. rewrite bool_decide_true by done.
        assert (signs ms (pubkey m) = false /\ writes ms (pubkey m) = false) as [-> ->]; [|by rewrite !orb_false_r].
        split; apply not_true_iff_false; rewrite ?signs_true, ?writes_true; intros (m' & Hm & P & _); apply B; rewrite <- P;
          by apply list_elem_of_fmap_2.
      * rewrite lookup_insert_ne, F by done. destruct (G k Hk) as [-> ->]. by repeat case_bool_decide; naive_solver.
Qed.

Lemma merged_accounts accounts : forall ms flags order after flags' order',
  merged ms flags (order ++ after) -> merge_accounts flags order accounts = (flags', order') ->
  merged (ms ++ accounts) flags' (order' ++ after).
Proof.
  induction accounts as [|m accounts IH]; intros ms flags order after flags' order' M E; cbn in E.
  - injection E as <- <-. by rewrite app_nil_r.
  - destruct (merge_account flags order (pubkey m) (is_signer m) (is_writable m)) as [f o] eqn:S.
    change (m :: accounts) with ([m] ++ accounts). rewrite app_assoc. eapply IH; [|exact E].
    by apply (merged_step ms flags [] order after m).
Qed.

Lemma merged_instructions instructions : forall ms flags account_order program_order flags' account_order' program_order',
  merged ms flags (account_order ++ program_order) ->
  merge_instructions flags account_order program_order instructions = (flags', account_order', program_order') ->
  merged (ms ++ flat_map (fun i => accounts i ++ [new_readonly (program_id i)]) instructions) flags' (account_order' ++ program_order').
Proof.
  induction instructions as [|i l IH]; intros ms flags ao po flags' ao' po' M E; cbn in E.
  - injection E as <- <- <-. by rewrite app_nil_r.
  - destruct (merge_accounts flags ao (accounts i)) as [f1 o1] eqn:A.
    destruct (merge_account f1 po (program_id i) false false) as [f2 o2] eqn:P.
    cbn [flat_map]. rewrite !app_assoc. eapply IH; [|exact E]. apply merged_accounts with (after := po) (ms := ms) in A; [|done].
    pose proof (merged_step (ms ++ accounts i) f1 o1 po [] (new_readonly (program_id i)) f2 o2) as S. rewrite !app_nil_r in S. by apply S.
Qed.

(** *** The buckets *)

Definition class (flags : Flags) (b : nat) (k : Pubkey) : bool :=
  match flags !! k with Some entry => (bucket_of entry =? b)%nat | None => false end.

Lemma fill_buckets_spec flags order : (forall k, k ∈ order -> is_Some (flags !! k)) ->
  fill_buckets flags order = Ok (map (fun b => List.filter (class flags b) order) [0; 1; 2; 3]%nat).
Proof.
  unfold fill_buckets. intros D.
  assert (G : forall order bs, (forall k, k ∈ order -> is_Some (flags !! k)) -> length bs = 4%nat ->
    try_fold (fun buckets pubkey => let? entry := ok_or (flags !! pubkey) (InvalidInput "missing Solana account flags") in
      Ok (alter (fun bucket => bucket ++ [pubkey]) (bucket_of entry) buckets)) bs order
    = Ok (map (fun b => (bs !!! b) ++ List.filter (class flags b) order) [0; 1; 2; 3]%nat)); [|by rewrite G].
  clear D order. induction order as [|k order IH]; intros bs D Hl.
  - destruct bs as [|b0 [|b1 [|b2 [|b3 [|]]]]]; try done. cbn. by rewrite !app_nil_r.
  - destruct (D k) as [entry E]; [apply elem_of_cons; auto|]. cbn [try_fold]. rewrite E. cbn [ok_or].
    rewrite IH; [|intros; apply D, elem_of_cons; auto|by rewrite length_alter]. f_equal.
    destruct bs as [|b0 [|b1 [|b2 [|b3 [|]]]]]; try done. cbn [List.filter map].
    assert (C : forall b, class flags b k = (bucket_of entry =? b)%nat) by (intros; unfold class; by rewrite E).
    rewrite !C. destruct entry as [[] []]; cbn; by rewrite <- ?app_assoc.
Qed.

(** *** The account keys *)

(** What the header of a message says of the account at a position *)
Definition message_signer (h : MessageHeader) (i : nat) : bool := Z.of_nat i <? num_required_signatures h.
Definition message_writable (h : MessageHeader) (count i : nat) : bool :=
  if Z.of_nat i <? num_required_signatures h then Z.of_nat i <? num_required_signatures h - num_readonly_signed_accounts h
  else Z.of_nat i <? Z.of_nat count - num_readonly_unsigned_accounts h.

Definition others (fee_payer : Pubkey) (bucket : list Pubkey) : list Pubkey :=
  List.filter (fun pubkey => negb (bool_decide (pubkey = fee_payer))) bucket.

Lemma others_permutation fee_payer bucket : NoDup bucket -> fee_payer ∈ bucket -> fee_payer :: others fee_payer bucket ≡ₚ bucket.
Proof.
  induction bucket as [|k bucket IH]; intros N I; [by apply not_elem_of_nil in I|]. apply NoDup_cons in N as [N1 N2].
  unfold others in *. cbn [List.filter]. destruct (decide (k = fee_payer)) as [->|Hk].
  - rewrite bool_decide_true by done. cbn [negb]. f_equiv. clear IH I N2.
    induction bucket as [|k bucket IH]; [done|]. rewrite not_elem_of_cons in N1. cbn [List.filter].
    rewrite bool_decide_false by naive_solver. cbn. rewrite IH; naive_solver.
  - rewrite bool_decide_false by done. cbn. apply elem_of_cons in I as [->|I]; [done|]. rewrite <- IH at 2 by done. constructor.
Qed.

Lemma class_partition flags order : (forall k, k ∈ order -> is_Some (flags !! k)) ->
  List.filter (class flags 0) order ++ List.filter (class flags 1) order ++ List.filter (class flags 2) order
    ++ List.filter (class flags 3) order ≡ₚ order.
Proof.
  induction order as [|k order IH]; intros D; [done|]. destruct (D k) as [entry E]; [apply elem_of_cons; auto|].
  assert (C : forall b, class flags b k = (bucket_of entry =? b)%nat) by (intros; unfold class; by rewrite E).
  specialize (IH ltac:(intros; apply D, elem_of_cons; auto)). etransitivity; [|apply perm_skip, IH]. clear IH.
  cbn [List.filter]. rewrite !C. destruct entry as [[] []]; cbn -[List.filter].
  - done.
  - symmetry. apply Permutation_middle.
  - rewrite !(app_assoc (List.filter (class flags 0) order)). symmetry. apply Permutation_middle.
  - rewrite !(app_assoc (List.filter (class flags 0) order)), !(app_assoc (_ ++ List.filter (class flags 1) order)).
    symmetry. apply Permutation_middle.
Qed.

Lemma keys_four fee_payer b0 b1 b2 b3 : keys_of fee_payer [b0; b1; b2; b3] = (fee_payer :: others fee_payer b0) ++ b1 ++ b2 ++ b3.
Proof. unfold keys_of. cbn. by rewrite app_nil_r. Qed.

Lemma class_filter flags b order k : k ∈ List.filter (class flags b) order -> exists entry, flags !! k = Some entry /\ bucket_of entry = b.
Proof.
  rewrite list_elem_of_In, filter_In. intros [_ C]. unfold class in C. destruct (flags !! k) as [entry|]; [|done].
  apply Nat.eqb_eq in C. by exists entry.
Qed.

(** The position of a key in the four parts says its class. *)
Lemma parts_lookup {A} (P : nat -> A -> Prop) (c0 c1 c2 c3 : list A) i x :
  (forall y, y ∈ c0 -> P 0%nat y) -> (forall y, y ∈ c1 -> P 1%nat y) -> (forall y, y ∈ c2 -> P 2%nat y) -> (forall y, y ∈ c3 -> P 3%nat y) ->
  (c0 ++ c1 ++ c2 ++ c3) !! i = Some x ->
  (i < length c0 /\ P 0%nat x \/ length c0 <= i < length c0 + length c1 /\ P 1%nat x
   \/ length c0 + length c1 <= i < length c0 + length c1 + length c2 /\ P 2%nat x
   \/ length c0 + length c1 + length c2 <= i < length c0 + length c1 + length c2 + length c3 /\ P 3%nat x)%nat.
Proof.
  intros H0 H1 H2 H3 E. apply lookup_app_Some in E as [E|[L E]].
  { left. split; [by eapply lookup_lt_Some|]. by eapply H0, list_elem_of_lookup_2. }
  apply lookup_app_Some in E as [E|[L1 E]].
  { right. left. pose proof (lookup_lt_Some _ _ _ E). split; [lia|]. by eapply H1, list_elem_of_lookup_2. }
  apply lookup_app_Some in E as [E|[L2 E]]; pose proof (lookup_lt_Some _ _ _ E); apply list_elem_of_lookup_2 in E.
  - right. right. left. split; [lia|]. by apply H2.
  - right. right. right. split; [lia|]. by apply H3.
Qed.

(** *** The indexes *)

Lemma index_fold keys : forall s (m : gmap Pubkey Z) k, NoDup keys ->
  fold_left (fun m '(index, pubkey) => <[pubkey := as_u8 (Z.of_nat index)]> m) (zip (seq s (length keys)) keys) m !! k
  = match list_find (fun x => x = k) keys with Some (i, _) => Some (as_u8 (Z.of_nat (s + i))) | None => m !! k end.
Proof.
  induction keys as [|x keys IH]; intros s m k N; [done|]. apply NoDup_cons in N as [N1 N2]. 
  change (zip (seq s (length (x :: keys))) (x :: keys)) with ((s, x) :: zip (seq (S s) (length keys)) keys). cbn [fold_left].
  rewrite IH by done. cbn [list_find]. destruct (decide (x = k)) as [->|Hx].
  - assert (list_find (fun x => x = k) keys = None) as ->.
    { apply list_find_None, Forall_forall. by intros y Hy ->. }
    by rewrite lookup_insert_eq, Nat.add_0_r.
  - destruct (list_find (fun x => x = k) keys) as [[i y]|]; cbn; [by rewrite Nat.add_succ_r|]. by rewrite lookup_insert_ne.
Qed.

Lemma index_of_spec keys k : NoDup keys -> (length keys <= 255)%nat -> k ∈ keys ->
  exists i, index_of keys !! k = Some (Z.of_nat i) /\ keys !! i = Some k.
Proof.
  intros N L I. unfold index_of. rewrite index_fold by done.
  destruct (list_find (fun x => x = k) keys) as [[i y]|] eqn:F.
  - apply list_find_Some in F as (E & -> & _). exists i. split; [|done]. f_equal. apply as_u8_small.
    apply lookup_lt_Some in E. unfold in_width. lia.
  - apply list_find_None in F. rewrite Forall_forall in F. by destruct (F k I).
Qed.

(** What a compiled instruction refers to *)
Definition resolves (keys : list Pubkey) (i : Instruction) (c : CompiledInstruction) : Prop :=
  get keys (program_id_index c) = Some (program_id i)
  /\ Forall2 (fun account index => get keys index = Some (pubkey account)) (accounts i) (account_indexes c)
  /\ compiled_data c = data i.

Lemma account_index_spec keys k : NoDup keys -> (length keys <= 255)%nat -> k ∈ keys ->
  exists i, account_index (index_of keys) k = Ok i /\ get keys i = Some k.
Proof.
  intros N L I. destruct (index_of_spec keys k N L I) as (i & E & G). exists (Z.of_nat i). unfold account_index.
  by rewrite E, get_nat.
Qed.

Lemma compile_spec keys i : NoDup keys -> (length keys <= 255)%nat -> program_id i ∈ keys ->
  (forall a, a ∈ accounts i -> pubkey a ∈ keys) -> exists c, compile (index_of keys) i = Ok c /\ resolves keys i c.
Proof.
  intros N L P A. destruct (account_index_spec keys (program_id i) N L P) as (p & E & G). unfold compile. rewrite E.
  assert (C : exists ns, collect (fun account => account_index (index_of keys) (pubkey account)) (accounts i) = Ok ns
    /\ Forall2 (fun account index => get keys index = Some (pubkey account)) (accounts i) ns).
  { clear -N L A. induction (accounts i) as [|a l IH]; [by exists []|].
    destruct (account_index_spec keys (pubkey a) N L) as (n & E & G); [apply A, elem_of_cons; auto|].
    destruct IH as (ns & C & F); [intros; apply A, elem_of_cons; auto|]. exists (n :: ns). cbn [collect]. rewrite E, C. split; [done|by constructor]. }
  destruct C as (ns & -> & F). eexists. split; [reflexivity|]. done.
Qed.

Lemma compile_all keys instructions : NoDup keys -> (length keys <= 255)%nat ->
  (forall i, i ∈ instructions -> program_id i ∈ keys /\ forall a, a ∈ accounts i -> pubkey a ∈ keys) ->
  exists cs, collect (compile (index_of keys)) instructions = Ok cs /\ Forall2 (resolves keys) instructions cs.
Proof.
  intros N L A. induction instructions as [|i l IH]; [by exists []|].
  destruct (A i) as [P Q]; [apply elem_of_cons; auto|]. destruct (compile_spec keys i N L P Q) as (c & E & R).
  destruct IH as (cs & C & F); [intros; apply A, elem_of_cons; auto|]. exists (c :: cs). cbn [collect]. rewrite E, C.
  split; [done|by constructor].
Qed.
End BuilderFacts.

Module BuilderProperties.
Import SolanaTypes SolanaBuilder BuilderFacts.

(** The transaction means the instructions: its keys are the ones mentioned, each once and the payer first; every
    compiled instruction refers to the program and the accounts of its instruction; and the header gives each key the
    privileges of its mentions, no more and no less. *)
Record means (fee_payer : Pubkey) (hash : bytes) (l : list Instruction) (tx : Transaction) : Prop := MkMeans {
  means_payer : head (account_keys (message tx)) = Some fee_payer;
  means_nodup : NoDup (account_keys (message tx));
  means_keys : forall k, k ∈ account_keys (message tx) <-> k ∈ map pubkey (mentions fee_payer l);
  means_count : (length (account_keys (message tx)) <= 255)%nat;
  means_instructions : Forall2 (resolves (account_keys (message tx))) l (instructions (message tx));
  means_privileges : forall i k, account_keys (message tx) !! i = Some k ->
    message_signer (header (message tx)) i = signs (mentions fee_payer l) k
    /\ message_writable (header (message tx)) (length (account_keys (message tx))) i = writes (mentions fee_payer l) k;
  means_hash : recent_blockhash (message tx) = hash;
  means_signatures : signatures tx = replicate (Z.to_nat (num_required_signatures (header (message tx)))) (replicate 64 0)
}.

(** The account keys of a payer and the buckets of the merged flags *)
Lemma solana_keys_spec fee_payer l flags order : merged (mentions fee_payer l) flags order ->
  let b i := List.filter (class flags i) order in
  let keys := keys_of fee_payer [b 0; b 1; b 2; b 3]%nat in
  keys ≡ₚ order /\ length (fee_payer :: others fee_payer (b 0%nat)) = length (b 0%nat)
  /\ forall i k, keys !! i = Some k ->
       ((i < length (b 0)) /\ signs (mentions fee_payer l) k = true /\ writes (mentions fee_payer l) k = true
        \/ length (b 0) <= i < length (b 0) + length (b 1) /\ signs (mentions fee_payer l) k = true /\ writes (mentions fee_payer l) k = false
        \/ length (b 0) + length (b 1) <= i < length (b 0) + length (b 1) + length (b 2)
           /\ signs (mentions fee_payer l) k = false /\ writes (mentions fee_payer l) k = true
        \/ length (b 0) + length (b 1) + length (b 2) <= i < length (b 0) + length (b 1) + length (b 2) + length (b 3)
           /\ signs (mentions fee_payer l) k = false /\ writes (mentions fee_payer l) k = false)%nat.
Proof.
  intros [N O F] b keys. set (ms := mentions fee_payer l) in *.
  assert (D : forall k, k ∈ order -> flags !! k = Some (MkFlags (signs ms k) (writes ms k))).
  { intros k Hk. rewrite F, bool_decide_true; [done|by apply O]. }
  assert (P : fee_payer ∈ b 0%nat).
  { unfold b. rewrite list_elem_of_In, filter_In, <- list_elem_of_In. split; [apply O; cbn; apply elem_of_cons; auto|].
    unfold class. rewrite D by (apply O; cbn; apply elem_of_cons; auto).
    assert (signs ms fee_payer = true) as ->.
    { apply signs_true. exists (new_signer_writable fee_payer). split; [apply elem_of_cons; auto|done]. }
    assert (writes ms fee_payer = true) as ->; [|done].
    apply writes_true. exists (new_signer_writable fee_payer). split; [apply elem_of_cons; auto|done]. }
  assert (Nb : NoDup (b 0%nat)) by (rewrite NoDup_ListNoDup; apply List.NoDup_filter; by rewrite <- NoDup_ListNoDup).
  pose proof (others_permutation fee_payer (b 0%nat) Nb P) as C. split_and!.
  - unfold keys. rewrite keys_four, C. apply class_partition. intros k Hk. rewrite D by done. by eexists.
  - by rewrite C.
  - intros i k E. unfold keys in E. rewrite keys_four in E.
    assert (B : forall n y, y ∈ b n -> bucket_of (MkFlags (signs ms y) (writes ms y)) = n).
    { intros n y Hy. assert (y ∈ order) as Ho by (unfold b in Hy; rewrite list_elem_of_In, filter_In, <- list_elem_of_In in Hy; apply Hy).
      apply class_filter in Hy as (entry & E1 & <-). rewrite D in E1 by done. by injection E1 as <-. }
    apply (parts_lookup (fun n y => bucket_of (MkFlags (signs ms y) (writes ms y)) = n)) in E; [|by intros y Hy; apply B; rewrite <- ?C|by intros; apply B..].
    rewrite C in E. unfold bucket_of in E. cbn [flag_signer flag_writable] in E.
    destruct (signs ms k), (writes ms k); naive_solver lia.
Qed.

Lemma mentioned fee_payer l i : i ∈ l ->
  program_id i ∈ map pubkey (mentions fee_payer l) /\ forall a, a ∈ accounts i -> pubkey a ∈ map pubkey (mentions fee_payer l).
Proof.
  intros I. assert (M : forall m, m ∈ accounts i ++ [new_readonly (program_id i)] -> m ∈ mentions fee_payer l).
  { intros m Hm. apply elem_of_cons. right. rewrite list_elem_of_In, in_flat_map. exists i. by rewrite <- !list_elem_of_In. }
  split.
  - change (program_id i) with (pubkey (new_readonly (program_id i))). apply list_elem_of_fmap_2, M, elem_of_app. right. by apply list_elem_of_singleton.
  - intros a Ha. apply list_elem_of_fmap_2, M, elem_of_app. by left.
Qed.

Lemma build_spec fee_payer hash l :
  match build_legacy_transaction fee_payer hash l with
  | Ok tx => means fee_payer hash l tx
  | Err e => e = InvalidInput "Solana transaction has too many account keys" /\
      exists keys, NoDup keys /\ (forall k, k ∈ keys <-> k ∈ map pubkey (mentions fee_payer l)) /\ (255 < length keys)%nat
  end.
Proof.
  unfold build_legacy_transaction.
  destruct (merge_account ∅ [] fee_payer true true) as [f0 o0] eqn:E0.
  destruct (merge_instructions f0 o0 [] l) as [[flags ao] po] eqn:E1.
  assert (M : merged (mentions fee_payer l) flags (ao ++ po)).
  { change (mentions fee_payer l) with ([new_signer_writable fee_payer] ++ flat_map (fun i => accounts i ++ [new_readonly (program_id i)]) l).
    eapply merged_instructions; [|exact E1].
    pose proof (merged_step [] ∅ [] [] [] (new_signer_writable fee_payer) f0 o0) as S. by apply S; [apply merged_empty|]. }
  clear E0 E1 f0 o0. destruct (solana_keys_spec fee_payer l flags (ao ++ po) M) as (P & L & K).
  set (keys := keys_of fee_payer _) in P, K. destruct M as [N O F].
  rewrite fill_buckets_spec by (intros k Hk; rewrite F, bool_decide_true by (by apply O); by eexists). cbn [map].
  cbv beta zeta. change ([?a; ?b; ?c; ?d] !!! 0%nat) with a. change ([?a; ?b; ?c; ?d] !!! 1%nat) with b. change ([?a; ?b; ?c; ?d] !!! 3%nat) with d.
  fold keys. assert (NK : NoDup keys) by (by rewrite P). assert (OK : forall k, k ∈ keys <-> k ∈ map pubkey (mentions fee_payer l)).
  { intros k. rewrite <- O. by rewrite P. }
  assert (LK : length keys = (length (List.filter (class flags 0) (ao ++ po)) + length (List.filter (class flags 1) (ao ++ po))
    + length (List.filter (class flags 2) (ao ++ po)) + length (List.filter (class flags 3) (ao ++ po)))%nat).
  { unfold keys. rewrite keys_four, !length_app. cbn [length] in *. lia. }
  destruct (_ || _) eqn:B.
  { split; [done|]. exists keys. split_and!; [done|done|]. apply orb_true_iff in B as [B|B]; apply Nat.ltb_lt in B; lia. }
  apply orb_false_iff in B as [B _]. apply Nat.ltb_ge in B.
  destruct (compile_all keys l) as (cs & -> & R); [done|done|intros i I; rewrite OK; destruct (mentioned fee_payer l i I); naive_solver|].
  split; cbn [message account_keys header instructions recent_blockhash signatures num_required_signatures]; try done.
  - intros i k E. specialize (K i k E). unfold message_signer, message_writable.
    cbn [num_required_signatures num_readonly_signed_accounts num_readonly_unsigned_accounts].
    rewrite !as_u8_small by (unfold in_width; lia). rewrite LK.
    destruct K as [(? & -> & ->)|[(? & -> & ->)|[(? & -> & ->)|(? & -> & ->)]]];
      repeat (match goal with |- context [Z.ltb ?a ?b] => destruct (Z.ltb_spec a b) end); lia || done.
  - rewrite as_u8_small by (unfold in_width; lia). by rewrite Nat2Z.id.
Qed.

(** The transaction built from a list of instructions means exactly them.  Its account keys are the payer, which comes
    first, and the accounts and programs mentioned, each once; compiled instruction by instruction, the program, the
    accounts and the data are those given; and the header gives every key exactly the privileges (signer, writable) that
    some instruction asks for it, a key mentioned twice having the union.  The only failure is more than 255 keys. *)
Theorem legacy_transaction_means (fee_payer : Pubkey) (hash : bytes) (l : list Instruction) :
  match build_legacy_transaction fee_payer hash l with
  | Ok tx => means fee_payer hash l tx
  | Err e => e = InvalidInput "Solana transaction has too many account keys" /\
      exists keys, NoDup keys /\ (forall k, k ∈ keys <-> k ∈ map pubkey (mentions fee_payer l)) /\ (255 < length keys)%nat
  end.
Proof. apply build_spec. Qed.

End BuilderProperties.

(** ** What a transaction is read as *)

Module ReaderProperties.
Import SolanaTypes SolanaReader.

Section reader.
Context {L : Type} `{SolanaPrimitives L}.

Definition program_at (tx : VersionedTransaction L) (c : CompiledInstruction) : option string :=
  to_base58 <$> get (versioned_keys tx) (program_id_index c).
Definition account_at (tx : VersionedTransaction L) (c : CompiledInstruction) (position : nat) : option Pubkey :=
  instruction_account c (versioned_keys tx) position.

(** Instructions beside a transfer: the creation of a token account, memos and the compute budget *)
Definition harmless (tx : VersionedTransaction L) (c : CompiledInstruction) : Prop :=
  exists program, program_at tx c = Some program
    /\ (program = ASSOCIATED_TOKEN_PROGRAM_ID \/ program = MEMO_PROGRAM_ID \/ program = COMPUTE_BUDGET_PROGRAM_ID).

(** A transfer of lamports, or of a token with its mint and decimals, by an authorised owner *)
Inductive transfers (tx : VersionedTransaction L) (signer : option Pubkey) (c : CompiledInstruction) : SolanaTransfer -> Prop :=
| transfers_system from_ to amount :
    program_at tx c = Some SYSTEM_PROGRAM_ID -> compiled_data c = le_bytes 4 2 ++ amount -> length amount = 8%nat ->
    account_at tx c 0 = Some from_ -> authorized from_ signer = true -> account_at tx c 1 = Some to ->
    transfers tx signer c (MkTransfer (AssetIds.from_chain Chains.Solana) (to_base58 to) (of_le amount))
| transfers_token program mint account owner amount decimals :
    program_at tx c = Some program -> program = TOKEN_PROGRAM_ID \/ program = TOKEN_2022_PROGRAM_ID ->
    compiled_data c = [12] ++ amount ++ [decimals] -> length amount = 8%nat ->
    account_at tx c 1 = Some mint -> account_at tx c 2 = Some account ->
    account_at tx c 3 = Some owner -> authorized owner signer = true ->
    transfers tx signer c (MkTransfer (AssetIds.from_token Chains.Solana (to_base58 mint))
      (to_base58 (default account (associated_token_owner tx account))) (of_le amount)).

Lemma length_12 (bs : bytes) : length bs = 12%nat -> exists a b, bs = a ++ b /\ length a = 4%nat /\ length b = 8%nat.
Proof. intros E. exists (take 4 bs), (drop 4 bs). rewrite take_drop, length_take, length_drop, E. done. Qed.
Lemma length_10 (bs : bytes) : length bs = 10%nat -> exists x b d, bs = [x] ++ b ++ [d] /\ length b = 8%nat.
Proof.
  intros E. do 11 (destruct bs as [|? bs]; try discriminate E).
  match goal with |- exists x b d, ?x1 :: ?x2 :: ?x3 :: ?x4 :: ?x5 :: ?x6 :: ?x7 :: ?x8 :: ?x9 :: ?x10 :: [] = _ /\ _ =>
    exists x1, [x2; x3; x4; x5; x6; x7; x8; x9], x10 end. done.
Qed.

Lemma system_transfer_spec tx signer c t : program_at tx c = Some SYSTEM_PROGRAM_ID ->
  system_transfer c (versioned_keys tx) signer = Some t <-> transfers tx signer c t.
Proof.
  intros P. unfold system_transfer. split.
  - destruct (length (compiled_data c) =? 12)%nat eqn:L1; [|done]. apply Nat.eqb_eq, length_12 in L1 as (a & b & D & La & Lb).
    rewrite D, take_app_length', drop_app_length' by done. cbn [negb]. destruct (bool_decide (a = _)) eqn:A; [|done].
    apply bool_decide_eq_true in A as ->. cbn [negb]. destruct (instruction_account c _ 0) as [from_|] eqn:F; [|done].
    destruct (authorized from_ signer) eqn:U; [|done]. cbn [negb]. destruct (instruction_account c _ 1) as [to|] eqn:T; [|done].
    intros E. assert (t = MkTransfer (AssetIds.from_chain Chains.Solana) (to_base58 to) (of_le b)) as -> by congruence.
    by eapply transfers_system.
  - intros T. destruct T as [from_ to amount P' D La F U G|program mint account owner amount decimals P' Q]; [|exfalso; rewrite P in P'; destruct Q as [-> | ->]; discriminate P'].
    rewrite D, length_app, le_bytes_length, La. cbn [Nat.add Nat.eqb negb].
    rewrite take_app_le, take_ge by (rewrite le_bytes_length; lia). rewrite bool_decide_true by done. cbn [negb].
    unfold account_at in *. rewrite F, U, G. reflexivity.
Qed.

Lemma token_transfer_spec tx signer c t program : program_at tx c = Some program ->
  program = TOKEN_PROGRAM_ID \/ program = TOKEN_2022_PROGRAM_ID ->
  token_transfer tx c (versioned_keys tx) signer = Some t <-> transfers tx signer c t.
Proof.
  intros P Q. unfold token_transfer. split.
  - destruct (length (compiled_data c) =? 10)%nat eqn:L1; [|done]. apply Nat.eqb_eq, length_10 in L1 as (x & b & d & D & Lb).
    rewrite D. change (([x] ++ b ++ [d]) !!! 0%nat) with x. change (drop 1 ([x] ++ b ++ [d])) with (b ++ [d]). rewrite take_app_length' by done.
    cbn [negb]. destruct (x =? 12) eqn:X; [|done]. apply Z.eqb_eq in X as ->. cbn [negb].
    destruct (instruction_account c _ 3) as [owner|] eqn:O; [|done]. destruct (authorized owner signer) eqn:U; [|done]. cbn [negb].
    destruct (instruction_account c _ 1) as [mint|] eqn:M; [|done]. destruct (instruction_account c _ 2) as [account|] eqn:T; [|done].
    intros E. assert (t = MkTransfer (AssetIds.from_token Chains.Solana (to_base58 mint))
      (to_base58 (default account (associated_token_owner tx account))) (of_le b)) as -> by congruence.
    by eapply transfers_token.
  - intros T. inversion T as [from_ to amount P'|program' mint account owner amount decimals P' Q' D La M A O U]; subst.
    { exfalso. rewrite P in P'. destruct Q as [-> | ->]; discriminate P'. }
    rewrite D, !length_app, La. cbn [length Nat.add Nat.eqb negb]. change (([12] ++ amount ++ [decimals]) !!! 0%nat) with 12.
    change (drop 1 ([12] ++ amount ++ [decimals])) with (amount ++ [decimals]). cbn [Z.eqb Pos.eqb negb].
    unfold account_at in *. rewrite O, U, M, A. cbn [negb]. do 2 f_equal. by rewrite <- La, take_app_length.
Qed.

(** One instruction of the loop *)
Lemma step_harmless tx signer found c : harmless tx c -> decode_step tx signer found c = Some found.
Proof.
  intros (program & P & Q). unfold decode_step, program_at in *. destruct (get _ _) as [key|]; [|done]. cbn in P.
  injection P as P. rewrite P. destruct Q as [-> | [-> | ->]]; reflexivity.
Qed.

Lemma step_Some tx signer found c found' : decode_step tx signer found c = Some found' ->
  harmless tx c /\ found' = found \/ exists t, found = None /\ found' = Some t /\ transfers tx signer c t.
Proof.
  unfold decode_step. destruct (get (versioned_keys tx) (program_id_index c)) as [key|] eqn:K; [|done]. cbn zeta.
  assert (P : program_at tx c = Some (to_base58 key)) by (unfold program_at; by rewrite K).
  assert (F : forall t, match found with Some _ => None | None => Some (Some t) end = Some found' -> found = None /\ found' = Some t).
  { intros t. destruct found; [done|]. by intros [= <-]. }
  destruct (bool_decide (to_base58 key = SYSTEM_PROGRAM_ID)) eqn:B1.
  { apply bool_decide_eq_true in B1. destruct (system_transfer _ _ _) as [t|] eqn:S; [|done]. intros E%F. right. exists t.
    apply system_transfer_spec in S; [naive_solver|congruence]. }
  destruct (bool_decide (to_base58 key = TOKEN_PROGRAM_ID) || bool_decide (to_base58 key = TOKEN_2022_PROGRAM_ID)) eqn:B2.
  { rewrite orb_true_iff, !bool_decide_eq_true in B2. destruct (token_transfer _ _ _ _) as [t|] eqn:S; [|done]. intros E%F. right. exists t.
    eapply token_transfer_spec in S; [naive_solver|exact P|done]. }
  destruct (_ || _ || _) eqn:B3; [|done]. rewrite !orb_true_iff, !bool_decide_eq_true in B3. intros E. left.
  split; [|by injection E as ->]. eexists. split; [exact P|]. tauto.
Qed.

Lemma step_transfers tx signer c t : transfers tx signer c t -> decode_step tx signer None c = Some (Some t).
Proof.
  intros T. unfold decode_step. pose proof T as T'. destruct T' as [from_ to amount P|program mint account owner amount decimals P Q].
  - apply (system_transfer_spec tx signer c) in T; [|done]. unfold program_at in P.
    destruct (get _ _) as [key|]; [|done]. cbn in P. injection P as P. rewrite P. rewrite bool_decide_true by done. by rewrite T.
  - eapply token_transfer_spec in T; [|exact P|exact Q]. unfold program_at in P.
    destruct (get _ _) as [key|]; [|done]. cbn in P. injection P as P. rewrite P.
    rewrite bool_decide_false by (destruct Q as [-> | ->]; discriminate 1).
    assert (bool_decide (program = TOKEN_PROGRAM_ID) || bool_decide (program = TOKEN_2022_PROGRAM_ID) = true) as ->
      by (destruct Q as [-> | ->]; reflexivity). by rewrite T.
Qed.

Lemma loop_found tx signer t l : decode_loop tx signer (Some t) l = Some t <-> Forall (harmless tx) l.
Proof.
  induction l as [|c l IH]; [done|]. cbn [decode_loop]. split.
  - destruct (decode_step tx signer (Some t) c) as [found|] eqn:S; [|done]. apply step_Some in S as [[Hh ->]|(t' & D & _)]; [|done].
    intros E. constructor; [done|by apply IH].
  - intros F. inversion F; subst. rewrite step_harmless by done. by apply IH.
Qed.
Lemma loop_keeps tx signer t t' l : decode_loop tx signer (Some t) l = Some t' -> t' = t.
Proof.
  induction l as [|c l IH]; cbn [decode_loop]; [congruence|].
  destruct (decode_step tx signer (Some t) c) as [found|] eqn:S; [|done]. apply step_Some in S as [[_ ->]|(t'' & D & _)]; done.
Qed.

Lemma decode_transfer_spec tx signer t : decode_transfer tx signer = Some t <->
  exists before c after, versioned_instructions tx = before ++ [c] ++ after
    /\ Forall (harmless tx) (before ++ after) /\ transfers tx signer c t.
Proof.
  unfold decode_transfer. generalize (versioned_instructions tx) as l. induction l as [|c l IH]; cbn [decode_loop].
  { split; [done|]. intros (before & c' & after & E & _). by destruct before. }
  split.
  - destruct (decode_step tx signer None c) as [found|] eqn:S; [|done]. apply step_Some in S as [[Hh ->]|(t' & _ & -> & T)]; intros E.
    + apply IH in E as (before & c' & after & -> & F & T). exists (c :: before), c', after. split; [done|]. split; [by constructor|done].
    + pose proof (loop_keeps _ _ _ _ _ E) as ->. exists [], c, l. split_and!; [done|by eapply loop_found|done].
  - intros (before & c'' & after & E & F & T). destruct before as [|c' before]; cbn in E; injection E as E1 E2; subst.
    + rewrite (step_transfers _ _ _ t) by done. by apply loop_found.
    + inversion F; subst. rewrite step_harmless by done. apply IH. by exists before, c'', after.
Qed.

(** A transaction is read as a simple transfer exactly when it holds one: a single instruction that transfers lamports or
    a checked token amount, signed for by the given key, among instructions that only create a token account, write a
    memo or set the compute budget.  Two transfers, another program, an index out of range, data of another shape or a
    transfer by another key are never shown as a transfer. *)
Theorem simple_transfer_exact (tx : VersionedTransaction L) (signer : Pubkey) (t : SolanaTransfer) :
  simple_transfer tx signer = Some t <->
  exists before c after, versioned_instructions tx = before ++ [c] ++ after
    /\ Forall (harmless tx) (before ++ after) /\ transfers tx (Some signer) c t.
Proof. apply decode_transfer_spec. Qed.

End reader.
End ReaderProperties.
