(* ===== verification/SolanaSigner.v ===== *)
(** * The Solana signer

    Models [gem_solana/src/lib.rs] and [address.rs] (module [SolanaPrograms]), the instructions of
    [signer/instructions] ([SolanaInstructions]: transfers of lamports, tokens and NFTs, and staking) and the requests of
    [signer/chain_signer.rs] and [signer/swap.rs] ([SolanaSigner]).  The theorems show that the signed text of a request
    decodes to the transaction that means its instructions, is read by the application as exactly the requested
    transfer, and is signed by the sender alone; and that no message request signs a transaction. *)
From S2P Require Import Prelude Utf8 HexText Text Crates ChainRegistry Assets BitcoinPlanner Transactions TransferAmount TransferRules Signing SolanaTransaction.
Import BitcoinPlanner SignerInputs Keys.

(** ** [lib.rs], [address.rs], [token_account.rs] and the constants of [primitives/src/contract_constants.rs] *)

Module SolanaPrograms.
Import SolanaTypes LoadMetadata.

Definition WSOL_TOKEN_ADDRESS : string := "So11111111111111111111111111111111111111112".
Definition METAPLEX_PROGRAM : string := "metaqbxxUerdq28cj1RbAWkYQm3ybzjb6a8bt518x1s".
Definition METAPLEX_CORE_PROGRAM : string := "CoREENxT6tW1HoK8ypY1SxRMZTcVPm7R94rH4PZNhX7d".
Definition SOLANA_METAPLEX_AUTH_RULES_PROGRAM_ID : string := "auth9SigNpDKz4sJJ1DfCTuZrZNSAgh9sFD3rboVmgg".
Definition TOKEN_PROGRAM : string := "TokenkegQfeZyiNwAJbNbGKPFXCWuBvf9Ss623VQ5DA".
Definition TOKEN_PROGRAM_2022 : string := "TokenzQdBNbLqP5VEhdkAS6EPFLC1PHnBqCXEpPxuEb".
Definition SOLANA_SYSTEM_PROGRAM_ID : string := "11111111111111111111111111111111".
Definition STAKE_PROGRAM_ID : string := "Stake11111111111111111111111111111111111111".
Definition SYSVAR_CLOCK_ID : string := "SysvarC1ock11111111111111111111111111111111".
Definition SYSVAR_RENT_ID : string := "SysvarRent111111111111111111111111111111111".
Definition SYSVAR_INSTRUCTIONS_ID : string := "Sysvar1nstructions1111111111111111111111111".
Definition ASSOCIATED_TOKEN_ACCOUNT_PROGRAM : string := "ATokenGPvbdGVxr1b2hvZbsiqW5xWH25efTNsLJA8knL".

#[export] Instance SolanaTokenProgramId_eq_dec : EqDecision SolanaTokenProgramId.
Proof. solve_decision. Defined.

Definition get_token_program_by_id (id : SolanaTokenProgramId) : string :=
  match id with Token => TOKEN_PROGRAM | Token2022 => TOKEN_PROGRAM_2022 end.
Definition get_token_program_id_by_address (address : string) : option SolanaTokenProgramId :=
  if bool_decide (address = TOKEN_PROGRAM) then Some Token
  else if bool_decide (address = TOKEN_PROGRAM_2022) then Some Token2022 else None.

Section programs.
Context {L : Type} `{SolanaPrimitives L}.

Definition get_pubkey_by_asset (asset_id : AssetIds.AssetId) : option Pubkey :=
  match AssetIds.token_id asset_id with
  | Some token_id => ok (from_base58 token_id)
  | None => ok (from_base58 WSOL_TOKEN_ADDRESS)
  end.

(** [SolanaAddress], the key itself *)
Definition parse (address : string) : result string Pubkey := from_base58 address.
Definition from_bytes (bs : bytes) : Pubkey := bs.
Definition try_parse (address : string) : option Pubkey := ok (from_base58 address).
Definition as_bytes (self : Pubkey) : bytes := self.
Definition encode (self : Pubkey) : string := to_base58 self.
Definition validate_address (address : string) : bool := match try_parse address with Some _ => true | None => false end.

(** An error of the key of the program is a panic; the constant is a valid key. *)
Definition get_token_account (wallet token_mint token_program : string) : result string string :=
  let? owner := from_base58 wallet in
  let? token_program := from_base58 token_program in
  let? mint := from_base58 token_mint in
  let? program := from_base58 ASSOCIATED_TOKEN_ACCOUNT_PROGRAM in
  let? (address, _) := find_program_address program [owner; token_program; mint] in
  Ok (to_base58 address).

(** The derived addresses of [metaplex/metadata.rs] *)
Definition find_pda (mint : Pubkey) : option (Pubkey * Z) :=
  let?? mpl_id := ok (from_base58 METAPLEX_PROGRAM) in
  ok (find_program_address mpl_id [bytes_of_string "metadata"; mpl_id; mint]).
Definition find_master_edition_pda (mint : Pubkey) : option (Pubkey * Z) :=
  let?? mpl_id := ok (from_base58 METAPLEX_PROGRAM) in
  ok (find_program_address mpl_id [bytes_of_string "metadata"; mpl_id; mint; bytes_of_string "edition"]).
Definition find_token_record_pda (mint token_account : Pubkey) : option (Pubkey * Z) :=
  let?? mpl_id := ok (from_base58 METAPLEX_PROGRAM) in
  ok (find_program_address mpl_id [bytes_of_string "metadata"; mpl_id; mint; bytes_of_string "token_record"; token_account]).

End programs.
End SolanaPrograms.

(** ** [signer/instructions] *)

Module SolanaInstructions.
Import SolanaTypes SolanaPrograms SolanaBuilder LoadMetadata Payloads.

Definition SYSVAR_STAKE_HISTORY_ID : string := "SysvarStakeHistory1111111111111111111111111".
Definition STAKE_CONFIG_ID : string := "StakeConfig11111111111111111111111111111111".
Definition DEFAULT_STAKE_ACCOUNT_SPACE : Z := 200.
Definition SYSTEM_CREATE_ACCOUNT_WITH_SEED : Z := 3.
Definition STAKE_INITIALIZE : Z := 0.
Definition STAKE_DELEGATE : Z := 2.
Definition STAKE_WITHDRAW : Z := 4.
Definition STAKE_DEACTIVATE : Z := 5.
Definition MPL_CORE_TRANSFER_V1 : Z := 14.
Definition MPL_TOKEN_METADATA_TRANSFER_V1 : Z := 49.

(** A [String] slice [..n] at a character boundary *)
Definition str_prefix (s : string) (n : nat) : option string :=
  let bs := bytes_of_string s in
  match bs !! n with
  | Some b => if is_cont b then None else Some (string_of_bytes (take n bs))
  | None => if (n =? length bs)%nat then Some s else None
  end.

(** [format!("{:?}", asset_type)] *)
Definition asset_type_debug (asset_type : AssetTypes.AssetType) : string :=
  match asset_type with
  | AssetTypes.NATIVE => "NATIVE" | AssetTypes.ERC20 => "ERC20" | AssetTypes.BEP20 => "BEP20" | AssetTypes.SPL => "SPL"
  | AssetTypes.SPL2022 => "SPL2022" | AssetTypes.TRC20 => "TRC20" | AssetTypes.TIP20 => "TIP20" | AssetTypes.TOKEN => "TOKEN"
  | AssetTypes.IBC => "IBC" | AssetTypes.JETTON => "JETTON" | AssetTypes.SYNTH => "SYNTH" | AssetTypes.ASA => "ASA"
  | AssetTypes.PERPETUAL => "PERPETUAL" | AssetTypes.SPOT => "SPOT"
  end.

Section instructions.
Context {L : Type} `{SolanaPrimitives L} `{Sha256}.

(** [Pubkey::from_base58(..).map_err(SignerError::from_display)] *)
Definition pubkey_of (address : string) : result SignerError Pubkey := map_err InvalidInput (from_base58 address).

Definition reference_accounts (input : ChainSignerInput) : result SignerError (list AccountMeta) :=
  let? references := from_box (get_solana_references (metadata input)) in
  collect (fun reference => let? key := pubkey_of reference in Ok (new_readonly key)) references.

(** [Instruction { accounts: instruction.accounts.into_iter().chain(references).collect(), ..instruction }] *)
Definition with_references (instruction : Instruction) (references : list AccountMeta) : Instruction :=
  MkInstruction (program_id instruction) (accounts instruction ++ references) (data instruction).

(** The memo of a request, as an instruction *)
Definition memo_instructions (input : ChainSignerInput) : list Instruction :=
  match InputTypes.get_memo (load input) with Some memo_text => [memo_instruction memo_text []] | None => [] end.

(** [transfer.rs] *)
Definition native_transfer (input : ChainSignerInput) (sender : Pubkey) : result SignerError (list Instruction) :=
  let? recipient := pubkey_of (InputTypes.destination_address (load input)) in
  let? budget := compute_budget_instructions (fee_of input) in
  let? value := InputTypes.value_as_u64 (load input) in
  let? references := reference_accounts input in
  Ok (budget ++ memo_instructions input ++ [with_references (transfer sender recipient value) references]).

(** [token_transfer.rs] *)
Definition spl_transfer_checked (input : ChainSignerInput) (sender mint : Pubkey) (amount decimals : Z) (token_program_id : Pubkey)
  : result SignerError (list Instruction) :=
  let? sender_token_address := from_box (get_sender_token_address (metadata input)) in
  let? sender_token_address := ok_or sender_token_address (InvalidInput "missing sender token address") in
  let? sender_token_address := pubkey_of sender_token_address in
  let? budget := compute_budget_instructions (fee_of input) in
  let? recipient_token_address := from_box (get_recipient_token_address (metadata input)) in
  let? (creation, recipient_token_address) :=
    match recipient_token_address with
    | Some recipient_token_address => let? key := pubkey_of recipient_token_address in Ok ([], key)
    | None =>
        let? recipient := pubkey_of (InputTypes.destination_address (load input)) in
        Ok ([create_associated_token_account_idempotent sender recipient mint token_program_id],
            get_associated_token_address_with_program_id recipient mint token_program_id)
    end in
  let instruction :=
    transfer_checked_with_program_id sender_token_address mint recipient_token_address sender amount decimals token_program_id in
  let? references := reference_accounts input in
  Ok (budget ++ creation ++ memo_instructions input ++ [with_references instruction references]).

Definition token_program_id (input : ChainSignerInput) : result SignerError Pubkey :=
  let asset := asset_of input in
  let? asset_program := ok_or (from_asset_type (Assets.asset_type asset))
    (InvalidInput ("unsupported Solana token type: " +:+ asset_type_debug (Assets.asset_type asset))) in
  let? metadata_program := from_box (get_solana_token_program_id (metadata input)) in
  let mismatch := match metadata_program with Some metadata_program => negb (bool_decide (metadata_program = asset_program)) | None => false end in
  if mismatch then Err (InvalidInput "Solana token program metadata does not match asset type") else
  pubkey_of (get_token_program_by_id asset_program).

Definition token_decimals (asset : Assets.Asset) : result SignerError Z :=
  ok_or (to_width 8 (Assets.decimals asset)) (InvalidInput "invalid Solana token decimals").

Definition token_transfer (input : ChainSignerInput) (sender : Pubkey) : result SignerError (list Instruction) :=
  let asset := asset_of input in
  let? token_program_id := token_program_id input in
  let? token_id := get_token_id (Assets.id asset) in
  let? mint := pubkey_of token_id in
  let? decimals := token_decimals asset in
  let? amount := InputTypes.value_as_u64 (load input) in
  spl_transfer_checked input sender mint amount decimals token_program_id.

(** [nft_transfer.rs] *)
Definition spl_program (token_program : option SolanaTokenProgramId) : result SignerError SolanaTokenProgramId :=
  ok_or token_program (InvalidInput "missing SPL token program for NFT").

Definition spl_nft_transfer (input : ChainSignerInput) (sender : Pubkey) (nft_asset : NFTAsset) (token_program : SolanaTokenProgramId)
  : result SignerError (list Instruction) :=
  let? token_program_id := pubkey_of (get_token_program_by_id token_program) in
  let? mint := pubkey_of (nft_token_id nft_asset) in
  spl_transfer_checked input sender mint 1 0 token_program_id.

Definition metaplex_token_metadata_transfer (input : ChainSignerInput) (sender : Pubkey) (nft_asset : NFTAsset)
  (spl_token_program : SolanaTokenProgramId) (rule_set : option string) : result SignerError (list Instruction) :=
  let? mpl_program := pubkey_of METAPLEX_PROGRAM in
  let? token_program := pubkey_of (get_token_program_by_id spl_token_program) in
  let? ata_program := pubkey_of ASSOCIATED_TOKEN_PROGRAM_ID in
  let? sysvar_instructions := pubkey_of SYSVAR_INSTRUCTIONS_ID in
  let? mint := pubkey_of (nft_token_id nft_asset) in
  let? recipient := pubkey_of (InputTypes.destination_address (load input)) in
  let? sender_token_address := from_box (get_sender_token_address (metadata input)) in
  let? sender_token_address := ok_or sender_token_address (InvalidInput "missing sender token address") in
  let? sender_token_address := pubkey_of sender_token_address in
  let? recipient_token_address := from_box (get_recipient_token_address (metadata input)) in
  let? recipient_token_address :=
    match recipient_token_address with
    | Some address => pubkey_of address
    | None => Ok (get_associated_token_address_with_program_id recipient mint token_program)
    end in
  let? (metadata_pda, _) := ok_or (find_pda mint) (InvalidInput "failed to derive metadata PDA") in
  let? (master_edition, _) := ok_or (find_master_edition_pda mint) (InvalidInput "failed to derive master edition PDA") in
  let? (source_token_record, _) :=
    ok_or (find_token_record_pda mint sender_token_address) (InvalidInput "failed to derive source token record PDA") in
  let? (destination_token_record, _) :=
    ok_or (find_token_record_pda mint recipient_token_address) (InvalidInput "failed to derive destination token record PDA") in
  let? (auth_rules_program, auth_rules) :=
    match rule_set with
    | Some rule_set =>
        let? program := pubkey_of SOLANA_METAPLEX_AUTH_RULES_PROGRAM_ID in
        let? rules := map_err (fun _ => InvalidInput ("invalid Solana pNFT rule set: " +:+ rule_set)) (from_base58 rule_set) in
        Ok (program, rules)
    | None => Ok (mpl_program, mpl_program)
    end in
  let data := [MPL_TOKEN_METADATA_TRANSFER_V1] ++ [0] ++ le_bytes 8 1 ++ [0] in
  let? budget := compute_budget_instructions (fee_of input) in
  Ok (budget ++ memo_instructions input ++
    [MkInstruction mpl_program
       [new_writable sender_token_address; new_readonly sender; new_writable recipient_token_address; new_readonly recipient;
        new_readonly mint; new_writable metadata_pda; new_readonly master_edition; new_writable source_token_record;
        new_writable destination_token_record; new_signer sender; new_signer_writable sender; new_readonly system_program;
        new_readonly sysvar_instructions; new_readonly token_program; new_readonly ata_program; new_readonly auth_rules_program;
        new_readonly auth_rules] data]).

Definition metaplex_core_transfer (input : ChainSignerInput) (sender : Pubkey) (nft_asset : NFTAsset) (collection : option string)
  : result SignerError (list Instruction) :=
  let? core_program := pubkey_of METAPLEX_CORE_PROGRAM in
  let? system_program_id := pubkey_of SOLANA_SYSTEM_PROGRAM_ID in
  let? asset := pubkey_of (nft_token_id nft_asset) in
  let? new_owner := pubkey_of (InputTypes.destination_address (load input)) in
  let? collection_account :=
    match collection with
    | Some address => map_err (fun _ => InvalidInput ("invalid Solana Core NFT collection: " +:+ address)) (from_base58 address)
    | None => Ok core_program
    end in
  let? budget := compute_budget_instructions (fee_of input) in
  Ok (budget ++ memo_instructions input ++
    [MkInstruction core_program
       [new_writable asset; new_readonly collection_account; new_signer_writable sender; new_signer sender; new_readonly new_owner;
        new_readonly system_program_id; new_readonly core_program] [MPL_CORE_TRANSFER_V1; 0]]).

Definition nft_transfer (input : ChainSignerInput) (sender : Pubkey) : result SignerError (list Instruction) :=
  let? nft_asset := map_err InvalidInput (InputTypes.get_nft_asset (InputTypes.input_type (load input))) in
  match metadata input with
  | Solana _ _ token_program nft _ _ =>
      let? standard := ok_or nft (InvalidInput "missing Solana NFT standard") in
      match standard with
      | Core collection => metaplex_core_transfer input sender nft_asset collection
      | NonFungible => let? program := spl_program token_program in spl_nft_transfer input sender nft_asset program
      | ProgrammableNonFungible rule_set =>
          let? program := spl_program token_program in metaplex_token_metadata_transfer input sender nft_asset program rule_set
      end
  | _ => Err (InvalidInput "expected Solana metadata")
  end.

(** [stake_account.rs] *)
Definition program : result SignerError Pubkey := pubkey_of STAKE_PROGRAM_ID.

Definition seed_from_blockhash (input : ChainSignerInput) : result SignerError string :=
  let? block_hash := from_box (get_block_hash (metadata input)) in
  ok_or (str_prefix block_hash (Nat.min (length (bytes_of_string block_hash)) 32)) (InvalidInput "invalid Solana block hash").

Definition from_blockhash (sender : Pubkey) (input : ChainSignerInput) : result SignerError Pubkey :=
  let? seed := seed_from_blockhash input in
  let? stake_program := program in
  Ok (sha256 (sender ++ bytes_of_string seed ++ stake_program)).

Definition create_with_seed_instruction (sender stake_account : Pubkey) (seed : string) (lamports : Z) : result SignerError Instruction :=
  let? stake_program := program in
  let data := le_bytes 4 SYSTEM_CREATE_ACCOUNT_WITH_SEED ++ sender ++ le_bytes 8 (Z.of_nat (length (bytes_of_string seed)))
    ++ bytes_of_string seed ++ le_bytes 8 lamports ++ le_bytes 8 DEFAULT_STAKE_ACCOUNT_SPACE ++ stake_program in
  let? system := pubkey_of SOLANA_SYSTEM_PROGRAM_ID in
  Ok (MkInstruction system [MkMeta sender true true; MkMeta stake_account false true; MkMeta sender true false] data).

Definition initialize_instruction (stake_account authority : Pubkey) : result SignerError Instruction :=
  let data := le_bytes 4 STAKE_INITIALIZE ++ authority ++ authority ++ le_bytes 8 0 ++ le_bytes 8 0 ++ replicate 32 0 in
  let? program := program in
  let? rent := pubkey_of SYSVAR_RENT_ID in
  Ok (MkInstruction program [MkMeta stake_account false true; MkMeta rent false false] data).

Definition delegate_instruction (stake_account validator authority : Pubkey) : result SignerError Instruction :=
  let? program := program in
  let? clock := pubkey_of SYSVAR_CLOCK_ID in
  let? history := pubkey_of SYSVAR_STAKE_HISTORY_ID in
  let? config := pubkey_of STAKE_CONFIG_ID in
  Ok (MkInstruction program
    [MkMeta stake_account false true; MkMeta validator false false; MkMeta clock false false; MkMeta history false false;
     MkMeta config false false; MkMeta authority true false] (le_bytes 4 STAKE_DELEGATE)).

Definition delegate_instructions (sender validator stake_account : Pubkey) (seed : string) (lamports : Z)
  : result SignerError (list Instruction) :=
  let? create := create_with_seed_instruction sender stake_account seed lamports in
  let? initialize := initialize_instruction stake_account sender in
  let? delegate := delegate_instruction stake_account validator sender in
  Ok [create; initialize; delegate].

Definition deactivate_instruction (stake_account authority : Pubkey) : result SignerError Instruction :=
  let? program := program in
  let? clock := pubkey_of SYSVAR_CLOCK_ID in
  Ok (MkInstruction program [MkMeta stake_account false true; MkMeta clock false false; MkMeta authority true false]
    (le_bytes 4 STAKE_DEACTIVATE)).

Definition withdraw_instruction (stake_account recipient authority : Pubkey) (lamports : Z) : result SignerError Instruction :=
  let data := le_bytes 4 STAKE_WITHDRAW ++ le_bytes 8 lamports in
  let? program := program in
  let? clock := pubkey_of SYSVAR_CLOCK_ID in
  let? history := pubkey_of SYSVAR_STAKE_HISTORY_ID in
  Ok (MkInstruction program
    [MkMeta stake_account false true; MkMeta recipient false true; MkMeta clock false false; MkMeta history false false;
     MkMeta authority true false] data).

(** [stake.rs] *)
Definition stake (input : ChainSignerInput) (sender : Pubkey) : result SignerError (list Instruction) :=
  let? stake_type := map_err InvalidInput (InputTypes.get_stake_type (InputTypes.input_type (load input))) in
  let? instructions := compute_budget_instructions (fee_of input) in
  match stake_type with
  | Stake validator =>
      let? validator := pubkey_of (validator_id validator) in
      let? stake_account := from_blockhash sender input in
      let? seed := seed_from_blockhash input in
      let? value := InputTypes.value_as_u64 (load input) in
      let? delegation := delegate_instructions sender validator stake_account seed value in
      Ok (instructions ++ delegation ++ memo_instructions input)
  | Unstake delegation =>
      let? stake_account := pubkey_of (delegation_id (base delegation)) in
      let? deactivate := deactivate_instruction stake_account sender in
      Ok (instructions ++ [deactivate])
  | Withdraw delegation =>
      let? stake_account := pubkey_of (delegation_id (base delegation)) in
      let? value := InputTypes.value_as_u64 (load input) in
      let? withdraw := withdraw_instruction stake_account sender sender value in
      Ok (instructions ++ [withdraw])
  | Redelegate _ | Rewards _ => Err (InvalidInput "unsupported Solana stake action")
  | Freeze _ | Unfreeze _ => Err (InvalidInput "Solana does not support freeze operations")
  end.

End instructions.
End SolanaInstructions.

(** ** [signer/chain_signer.rs] and [signer/swap.rs] *)

Module SolanaSigner.
Import SolanaTypes SolanaReader SolanaBuilder SolanaInstructions Payloads.

Definition SIGN_MESSAGE_PAYLOAD_REJECTION : string :=
  "Serialized Solana transaction or transaction message received in signMessage request; use signTransaction instead".

(** [data_as_str] of [TransferDataExtra] *)
Definition data_as_str (self : TransferDataExtra) : result string string :=
  let? bs := ok_or (extra_data self) "missing data" in
  if utf8_valid bs then Ok (string_of_bytes bs) else Err "data is not valid utf8".

Section signer.
Context {L : Type} `{SolanaPrimitives L} `{Sha256} `{Base64Text} `{Base58Text}.

(** The requests that sign instructions of the sender *)
Definition sign_instructions (instructions : ChainSignerInput -> Pubkey -> result SignerError (list Instruction))
  (input : ChainSignerInput) (private_key : bytes) : result SignerError string :=
  let? sender := pubkey_of (InputTypes.sender_address (load input)) in
  let? instructions := instructions input sender in
  sign_single_signer_instructions input private_key sender instructions.

Definition sign_transfer (input : ChainSignerInput) (private_key : bytes) : result SignerError string :=
  sign_instructions native_transfer input private_key.
Definition sign_token_transfer (input : ChainSignerInput) (private_key : bytes) : result SignerError string :=
  sign_instructions token_transfer input private_key.
Definition sign_nft_transfer (input : ChainSignerInput) (private_key : bytes) : result SignerError string :=
  sign_instructions nft_transfer input private_key.
Definition sign_stake (input : ChainSignerInput) (private_key : bytes) : result SignerError (list string) :=
  let? signed := sign_instructions stake input private_key in Ok [signed].

Definition sign_message_text (message private_key : bytes) : result SignerError string :=
  if is_transaction_bytes message then Err (InvalidInput SIGN_MESSAGE_PAYLOAD_REJECTION) else
  let? signature := map_err (fun e => SigningError ("sign: " +:+ e)) (sign_message private_key message) in
  Ok (bs58_encode signature).

(** [*transaction.recent_blockhash_mut() = hash] and [transaction.signatures_mut()[0] = signature] *)
Definition with_blockhash (self : VersionedTransaction L) (hash : bytes) : VersionedTransaction L :=
  let t := body self in
  with_body self (MkTransaction (signatures t)
    (MkMessage (header (message t)) (account_keys (message t)) hash (instructions (message t)))).
Definition with_first_signature (self : VersionedTransaction L) (signature : bytes) : VersionedTransaction L :=
  let t := body self in
  with_body self (MkTransaction (match signatures t with [] => [signature] | _ :: rest => signature :: rest end) (message t)).

Definition sign_data (input : ChainSignerInput) (private_key : bytes) : result SignerError string :=
  let? extra := map_err InvalidInput (InputTypes.get_generic_data (InputTypes.input_type (load input))) in
  let? application := map_err InvalidInput (InputTypes.get_application_metadata (InputTypes.input_type (load input))) in
  let? data := map_err InvalidInput (data_as_str extra) in
  let? transaction := map_err InvalidInput (decode_transaction data) in
  match versioned_signatures transaction with
  | first :: _ =>
      if negb (bool_decide (first = replicate 64 0)) then Err (InvalidInput "user signature should be first") else
      let? transaction :=
        match app_source application with
        | PaymentSource => let? hash := block_hash input in Ok (with_blockhash transaction hash)
        | WalletConnectSource => Ok transaction
        end in
      let? message_bytes := map_err (fun e => SigningError ("serialize message: " +:+ e)) (serialize_message transaction) in
      let? signature := map_err (fun e => SigningError ("sign: " +:+ e)) (sign_message private_key message_bytes) in
      match output_type extra with
      | Signature => Ok (bs58_encode signature)
      | EncodedTransaction =>
          let? bs := map_err (fun e => SigningError ("serialize transaction: " +:+ e))
            (serialize (with_first_signature transaction signature)) in
          Ok (encode_base64 bs)
      end
  | [] => Err (InvalidInput "user signature should be first")
  end.

(** The compute budget of a swap with at most one signature *)
Definition set_budget (transaction : VersionedTransaction L) (unit_price : Z) (quote_gas_limit : option Z) (fee : GasPrices.TransactionFee)
  : result SignerError (VersionedTransaction L) :=
  let? gas_limit :=
    match (match quote_gas_limit with Some gas_limit => Some gas_limit | None => get_compute_unit_limit transaction end) with
    | Some gas_limit => Ok (Some gas_limit)
    | None =>
        let? gas_limit := ok_or (to_width 32 (GasPrices.gas_limit fee)) (InvalidInput "invalid gas limit") in
        Ok (if 0 <? gas_limit then Some gas_limit else None)
    end in
  let? transaction :=
    if 0 <? unit_price then
      map_err (fun e => InvalidInput ("set compute unit price: " +:+ e)) (transaction_set_unit_price transaction unit_price)
    else Ok transaction in
  match gas_limit with
  | Some gas_limit =>
      if 0 <? gas_limit then
        map_err (fun e => InvalidInput ("set compute unit limit: " +:+ e)) (transaction_set_unit_limit transaction gas_limit)
      else Ok transaction
  | None => Ok transaction
  end.

Definition swap_sign_transaction (transaction_base64 : string) (private_key : bytes) (unit_price : Z) (quote_gas_limit : option Z)
  (fee : GasPrices.TransactionFee) : result SignerError string :=
  let? transaction := map_err InvalidInput (decode_transaction transaction_base64) in
  let? transaction :=
    if (length (versioned_signatures transaction) <=? 1)%nat then set_budget transaction unit_price quote_gas_limit fee
    else Ok transaction in
  let? message_bytes := map_err (fun e => SigningError ("serialize message: " +:+ e)) (serialize_message transaction) in
  let? signature := map_err (fun e => SigningError ("sign: " +:+ e)) (sign_message private_key message_bytes) in
  let? bs := map_err (fun e => SigningError ("serialize transaction: " +:+ e)) (serialize (with_first_signature transaction signature)) in
  Ok (encode_base64 bs).

Definition sign_swap (input : ChainSignerInput) (private_key : bytes) : result SignerError (list string) :=
  let? swap_data := from_box (InputTypes.get_swap_data (InputTypes.input_type (load input))) in
  let transaction_base64 := quote_data (Payloads.swap_data swap_data) in
  let? unit_price := GasPrices.unit_price_u64 (fee_of input) in
  let? quote_gas_limit :=
    match quote_gas_limit (Payloads.swap_data swap_data) with
    | Some _ => let? gas_limit := map_err InvalidInput (gas_limit_as_u32 (Payloads.swap_data swap_data)) in Ok (Some gas_limit)
    | None => Ok None
    end in
  let? signed := swap_sign_transaction transaction_base64 private_key unit_price quote_gas_limit (fee_of input) in
  Ok [signed].

End signer.
End SolanaSigner.

(** ** What signing promises *)

Module SolanaFacts.
Import SolanaTypes SolanaReader SolanaBuilder BuilderFacts BuilderProperties ReaderProperties SolanaPrograms SolanaInstructions SolanaSigner.

(** The documented behaviour of [solana_primitives] the signer relies on: base58 is canonical, the instructions of the
    system, token, memo and compute budget programs have their published layouts, and the binary forms can be read back. *)
Definition wire_ok {L} (v : VersionedTransaction L) : Prop :=
  match v with Legacy t => num_required_signatures (header (message t)) < 128 | V0 _ _ => True end.

Class SolanaLaws {L : Type} `{SolanaPrimitives L} : Prop := {
  base58_canonical : forall s k, from_base58 s = Ok k -> to_base58 k = s;
  transfer_program : forall a b v, to_base58 (program_id (transfer a b v)) = SYSTEM_PROGRAM_ID;
  transfer_accounts : forall a b v, accounts (transfer a b v) = [new_signer_writable a; new_writable b];
  transfer_data : forall a b v, data (transfer a b v) = le_bytes 4 2 ++ le_bytes 8 v;
  memo_program : forall text ks, to_base58 (program_id (memo_instruction text ks)) = MEMO_PROGRAM_ID;
  memo_accounts : forall text, accounts (memo_instruction text []) = [];
  memo_data : forall text ks, data (memo_instruction text ks) = bytes_of_string text;
  checked_program : forall a b c d v n p, program_id (transfer_checked_with_program_id a b c d v n p) = p;
  checked_accounts : forall a b c d v n p, accounts (transfer_checked_with_program_id a b c d v n p)
    = [new_writable a; new_readonly b; new_writable c; new_signer d];
  checked_data : forall a b c d v n p, data (transfer_checked_with_program_id a b c d v n p) = [12] ++ le_bytes 8 v ++ [n];
  creation_program : forall a b c p, to_base58 (program_id (create_associated_token_account_idempotent a b c p)) = ASSOCIATED_TOKEN_PROGRAM_ID;
  creation_accounts : forall a b c p, exists system, accounts (create_associated_token_account_idempotent a b c p)
    = [new_signer_writable a; new_writable (get_associated_token_address_with_program_id b c p); new_readonly b; new_readonly c;
       new_readonly system; new_readonly p];
  creation_data : forall a b c p, data (create_associated_token_account_idempotent a b c p) = [1];
  price_program : forall v, to_base58 (program_id (set_compute_unit_price v)) = COMPUTE_BUDGET_PROGRAM_ID;
  price_accounts : forall v, accounts (set_compute_unit_price v) = [];
  limit_program : forall v, to_base58 (program_id (set_compute_unit_limit v)) = COMPUTE_BUDGET_PROGRAM_ID;
  limit_accounts : forall v, accounts (set_compute_unit_limit v) = [];
  sign_single : forall t t' key, num_required_signatures (header (message t)) = 1 -> sign_transaction t [key] = Ok t' ->
    exists m s, serialize_message (Legacy t) = Ok m /\ sign_message key m = Ok s /\ t' = MkTransaction [s] (message t);
  message_unsigned : forall v t, message t = message (body v) -> serialize_message (with_body v t) = serialize_message v;
  legacy_bytes : forall t bs, serialize_legacy t = Ok bs -> serialize (Legacy t) = Ok bs;
  serialized_bytes : forall v bs, serialize v = Ok bs -> all_bytes bs;
  transaction_roundtrip : forall v bs, wire_ok v -> serialize v = Ok bs -> deserialize_with_version bs = Ok v;
  price_ok : forall v p v', wire_ok v -> transaction_set_unit_price v p = Ok v' -> wire_ok v';
  limit_ok : forall v p v', wire_ok v -> transaction_set_unit_limit v p = Ok v' -> wire_ok v';
  deserialized_ok : forall bs v, deserialize_with_version bs = Ok v -> wire_ok v;
  message_roundtrip : forall v m, wire_ok v -> serialize_message v = Ok m ->
    exists v', deserialize_with_version (0 :: m) = Ok v' /\ serialize_message v' = Ok m
}.

Section facts.
Context {L : Type} `{SolanaPrimitives L} `{Sha256} `{Base64Text} `{Base58Text} `{!SolanaLaws} `{!Base64TextLaws}.

(** The text decodes to a transaction with the message built from the instructions, signed by the sender and by no one
    else: its one signature is that of its message, and no other key is asked to sign. *)
Definition signed_as (text : string) (private_key : bytes) (sender : Pubkey) (hash : bytes) (l : list Instruction) (tx : Transaction) : Prop :=
  decode_transaction text = Ok (Legacy tx)
  /\ (exists unsigned, means sender hash l unsigned /\ message tx = message unsigned)
  /\ (exists m s, serialize_message (Legacy tx) = Ok m /\ sign_message private_key m = Ok s /\ signatures tx = [s])
  /\ (forall k, signs (mentions sender l) k = true -> k = sender).

Lemma decode_serialized v bs : wire_ok v -> serialize v = Ok bs -> decode_transaction (encode_base64 bs) = Ok v.
Proof.
  intros W S. unfold decode_transaction, try_decode_transaction, try_decode_transaction_bytes.
  rewrite base64_text_roundtrip by (by eapply serialized_bytes). rewrite (transaction_roundtrip v bs W S). cbn [ok]. rewrite S. cbn [ok].
  by rewrite bool_decide_true.
Qed.

Lemma signs_mentioned ms k : signs ms k = true -> k ∈ map pubkey ms.
Proof. intros (m & Hm & <- & _)%signs_true. by apply list_elem_of_fmap_2. Qed.

Lemma single_signer fee_payer hash l tx : means fee_payer hash l tx -> num_required_signatures (header (message tx)) = 1 ->
  forall k, signs (mentions fee_payer l) k = true -> k = fee_payer.
Proof.
  intros M N k S. pose proof (signs_mentioned _ _ S) as I. apply (means_keys _ _ _ _ M), list_elem_of_lookup_1 in I as [i I].
  destruct (means_privileges _ _ _ _ M i k I) as [P _]. rewrite S in P. unfold message_signer in P. rewrite N in P.
  assert (i = 0%nat) as -> by (apply Z.ltb_lt in P; lia). pose proof (means_payer _ _ _ _ M) as Hd.
  destruct (account_keys (message tx)); cbn in *; congruence.
Qed.

Lemma sign_single_spec input private_key sender l text :
  sign_single_signer_instructions input private_key sender l = Ok text ->
  exists hash tx, block_hash input = Ok hash /\ signed_as text private_key sender hash l tx.
Proof.
  unfold sign_single_signer_instructions, map_err. destruct (block_hash input) as [hash|]; [|done].
  pose proof (build_spec sender hash l) as M. destruct (build_legacy_transaction sender hash l) as [tx|]; [|done].
  destruct (num_required_signatures (header (message tx)) =? 1) eqn:N; [|done]. cbn [negb]. apply Z.eqb_eq in N.
  destruct (sign_transaction tx [private_key]) as [tx'|] eqn:S; [|done]. destruct (serialize_legacy tx') as [bs|] eqn:B; [|done].
  intros [= <-]. exists hash, tx'. split; [done|]. apply sign_single in S as (m & s & Sm & Ss & ->); [|done].
  split_and!.
  - apply decode_serialized; [cbn; lia|by apply legacy_bytes].
  - by exists tx.
  - exists m, s. split_and!; [|done|done]. by rewrite <- Sm; apply (message_unsigned (Legacy tx) (MkTransaction [s] (message tx))).
  - by eapply single_signer.
Qed.

(** *** Reading the compiled instructions *)

Lemma resolved_program tx i c : resolves (account_keys (message tx)) i c ->
  program_at (Legacy tx : VersionedTransaction L) c = Some (to_base58 (program_id i)).
Proof. intros (P & _). unfold program_at, versioned_keys. cbn [body]. by rewrite P. Qed.

Lemma resolved_account tx i c n a : resolves (account_keys (message tx)) i c -> accounts i !! n = Some a ->
  account_at (Legacy tx : VersionedTransaction L) c n = Some (pubkey a).
Proof.
  intros (_ & F & _) A. unfold account_at, instruction_account, versioned_keys. cbn [body].
  apply (Forall2_lookup_l _ _ _ n a F) in A as (index & -> & G). exact G.
Qed.

(** Instructions that are read over *)
Definition beside (i : Instruction) : Prop :=
  to_base58 (program_id i) = ASSOCIATED_TOKEN_PROGRAM_ID \/ to_base58 (program_id i) = MEMO_PROGRAM_ID
  \/ to_base58 (program_id i) = COMPUTE_BUDGET_PROGRAM_ID.

Lemma beside_harmless tx l cs : Forall beside l -> Forall2 (resolves (account_keys (message tx))) l cs ->
  Forall (harmless (Legacy tx : VersionedTransaction L)) cs.
Proof.
  intros B F. induction F as [|i c l cs R F IH]; [constructor|]. inversion B; subst. constructor; [|by apply IH].
  eexists. split; [by apply resolved_program|done].
Qed.

Lemma find_map_skip {A B} (f : A -> option B) l1 l2 : Forall (fun x => f x = None) l1 -> find_map f (l1 ++ l2) = find_map f l2.
Proof. induction 1 as [|x l1 E _ IH]; [done|]. cbn. by rewrite E. Qed.
Lemma find_map_none {A B} (f : A -> option B) l : Forall (fun x => f x = None) l -> find_map f l = None.
Proof. induction 1 as [|x l E _ IH]; [done|]. cbn. by rewrite E. Qed.

Lemma budget_beside fee l : compute_budget_instructions fee = Ok l ->
  Forall (fun i => to_base58 (program_id i) = COMPUTE_BUDGET_PROGRAM_ID /\ accounts i = []) l.
Proof.
  unfold compute_budget_instructions. destruct (GasPrices.unit_price_u64 fee) as [p|]; [|done]. destruct (ok_or _ _) as [g|]; [|done].
  intros [= <-]. apply Forall_app. split; [destruct (0 <? p)|destruct (0 <? g)]; repeat constructor.
  1: apply price_program. 1: apply price_accounts. 1: apply limit_program. apply limit_accounts.
Qed.

Lemma memo_beside input : Forall (fun i => to_base58 (program_id i) = MEMO_PROGRAM_ID /\ accounts i = []) (memo_instructions input).
Proof. unfold memo_instructions. destruct (InputTypes.get_memo _); repeat constructor; [apply memo_program|apply memo_accounts]. Qed.

Definition text_memo (input : ChainSignerInput) : Prop :=
  forall m, InputTypes.get_memo (load input) = Some m -> utf8_valid (bytes_of_string m) = true.

Lemma get_memo_nonempty input m : InputTypes.get_memo (load input) = Some m -> m <> EmptyString.
Proof. unfold InputTypes.get_memo. destruct (InputTypes.memo _) as [t|]; [|done]. case_bool_decide; [done|]. by intros [= ->]. Qed.

(** The reading of a transaction of the form [before ++ memo ++ [transfer]] *)
Lemma read_memo input tx before last : text_memo input ->
  (forall i, i ∈ before ++ [last] -> to_base58 (program_id i) <> MEMO_PROGRAM_ID) ->
  Forall2 (resolves (account_keys (message tx))) (before ++ memo_instructions input ++ [last]) (instructions (message tx)) ->
  memo (Legacy tx : VersionedTransaction L) = InputTypes.get_memo (load input).
Proof.
  intros T N F. unfold memo, versioned_instructions, versioned_keys. cbn [body].
  set (f := fun instruction : CompiledInstruction => _).
  assert (S : forall i c, resolves (account_keys (message tx)) i c -> to_base58 (program_id i) <> MEMO_PROGRAM_ID -> f c = None).
  { intros i c (P & _) Q. unfold f. rewrite P. by rewrite bool_decide_false. }
  apply Forall2_app_inv_l in F as (cs1 & cs2 & F1 & F2 & ->). apply Forall2_app_inv_l in F2 as (cs3 & cs4 & F3 & F4 & ->).
  rewrite find_map_skip by (apply Forall_forall; intros c Hc; apply list_elem_of_lookup_1 in Hc as [n Hc];
    destruct (Forall2_lookup_r _ _ _ _ _ F1 Hc) as (i & I & R); eapply S; [exact R|]; apply N, elem_of_app; left; by eapply list_elem_of_lookup_2).
  assert (E4 : find_map f cs4 = None).
  { inversion F4 as [|i c l1 l2 R F5]; subst. inversion F5; subst. cbn. rewrite (S last c R); [done|]. apply N, elem_of_app. right. by apply list_elem_of_singleton. }
  unfold memo_instructions in F3. destruct (InputTypes.get_memo (load input)) as [m|] eqn:M.
  - inversion F3 as [|i c l1 l2 (P & _ & D) F5]; subst. inversion F5; subst. cbn [app find_map]. unfold f. rewrite P.
    rewrite bool_decide_true by apply memo_program. cbn [negb]. rewrite D, memo_data, (T m M).
    rewrite HexFacts.string_of_bytes_of_string, bool_decide_false by (by eapply get_memo_nonempty). done.
  - inversion F3; subst. exact E4.
Qed.

(** A transfer among instructions beside it *)
Lemma read_transfer tx before last t signer : Forall beside before ->
  Forall2 (resolves (account_keys (message tx))) (before ++ [last]) (instructions (message tx)) ->
  (forall c, resolves (account_keys (message tx)) last c -> transfers (Legacy tx : VersionedTransaction L) (Some signer) c t) ->
  simple_transfer (Legacy tx : VersionedTransaction L) signer = Some t.
Proof.
  intros B F T. apply decode_transfer_spec. apply Forall2_app_inv_l in F as (cs1 & cs2 & F1 & F2 & E).
  inversion F2 as [|i c l1 l2 R F3]; subst. inversion F3; subst. exists cs1, c, []. split_and!; [done| |by apply T].
  rewrite app_nil_r. by eapply beside_harmless.
Qed.

Lemma references_resolved (i : Instruction) references n a : accounts i !! n = Some a -> accounts (with_references i references) !! n = Some a.
Proof. intros A. cbn. by rewrite lookup_app, A. Qed.

Lemma pubkey_of_Ok s k : pubkey_of s = Ok k -> from_base58 s = Ok k /\ to_base58 k = s.
Proof.
  unfold pubkey_of, map_err. destruct (from_base58 s) as [k'|] eqn:E; [|done]. intros [= ->]. split; [done|]. by eapply base58_canonical.
Qed.

Lemma of_le_u64 v : is_u64 v -> of_le (le_bytes 8 v) = v.
Proof. intros V. exact (proj1 (of_le_be_small 8 v V)). Qed.

Lemma native_shown input sender l tx : text_memo input -> native_transfer input sender = Ok l ->
  Forall2 (resolves (account_keys (message tx))) l (instructions (message tx)) ->
  simple_transfer (Legacy tx : VersionedTransaction L) sender
    = Some (MkTransfer (AssetIds.from_chain Chains.Solana) (InputTypes.destination_address (load input)) (InputTypes.input_value (load input)))
  /\ memo (Legacy tx : VersionedTransaction L) = InputTypes.get_memo (load input).
Proof.
  intros T E F. unfold native_transfer in E. destruct (pubkey_of _) as [to|] eqn:D; [|done]. apply pubkey_of_Ok in D as [_ D].
  destruct (compute_budget_instructions _) as [budget|] eqn:B; [|done]. apply budget_beside in B.
  destruct (InputTypes.value_as_u64 _) as [v|] eqn:V; [|done]. apply value_Ok in V as [-> V].
  destruct (reference_accounts input) as [refs|]; [|done]. injection E as <-. pose proof (memo_beside input) as M. split.
  - rewrite app_assoc in F. eapply read_transfer; [|exact F|].
    + apply Forall_app. split; [eapply Forall_impl; [exact B|]|eapply Forall_impl; [exact M|]]; intros i [P _]; unfold beside; auto.
    + intros c R. rewrite <- D, <- (of_le_u64 (InputTypes.input_value (load input))) by done. eapply transfers_system.
      * rewrite (resolved_program _ _ _ R). f_equal. apply transfer_program.
      * destruct R as (_ & _ & ->). apply transfer_data.
      * apply le_bytes_length.
      * apply (resolved_account _ _ _ 0 (new_signer_writable sender) R). apply references_resolved. by rewrite transfer_accounts.
      * cbn. by rewrite bool_decide_true.
      * apply (resolved_account _ _ _ 1 (new_writable to) R). apply references_resolved. by rewrite transfer_accounts.
  - eapply read_memo; [done| |exact F]. intros i [I|I]%elem_of_app.
    + rewrite Forall_forall in B. destruct (B i I) as [-> _]. discriminate 1.
    + apply list_elem_of_singleton in I as ->. cbn. rewrite transfer_program. discriminate 1.
Qed.

(** *** Tokens *)

(** Who a token transfer is shown to reach: the given token account, or the destination whose account is created *)
Definition shown_recipient (input : ChainSignerInput) : string :=
  match LoadMetadata.get_recipient_token_address (metadata input) with
  | Ok (Some address) => address
  | _ => InputTypes.destination_address (load input)
  end.

Lemma owner_none tx l c : Forall2 (resolves (account_keys (message tx))) l (instructions (message tx)) ->
  (forall i, i ∈ l -> to_base58 (program_id i) <> ASSOCIATED_TOKEN_PROGRAM_ID) ->
  associated_token_owner (Legacy tx : VersionedTransaction L) c = None.
Proof.
  intros F N. unfold associated_token_owner, versioned_instructions, versioned_keys. cbn [body]. apply find_map_none, Forall_forall.
  intros x Hx. apply list_elem_of_lookup_1 in Hx as [n Hx]. destruct (Forall2_lookup_r _ _ _ _ _ F Hx) as (i & I & (P & _)).
  rewrite P. rewrite bool_decide_false; [done|]. apply N. by eapply list_elem_of_lookup_2.
Qed.

Lemma owner_created tx before payer owner mint program after :
  Forall2 (resolves (account_keys (message tx)))
    (before ++ [create_associated_token_account_idempotent payer owner mint program] ++ after) (instructions (message tx)) ->
  (forall i, i ∈ before -> to_base58 (program_id i) <> ASSOCIATED_TOKEN_PROGRAM_ID) ->
  associated_token_owner (Legacy tx : VersionedTransaction L) (get_associated_token_address_with_program_id owner mint program) = Some owner.
Proof.
  intros F N. unfold associated_token_owner, versioned_instructions, versioned_keys. cbn [body].
  apply Forall2_app_inv_l in F as (cs1 & cs2 & F1 & F2 & ->). inversion F2 as [|i c l1 l2 R F3]; subst.
  rewrite find_map_skip.
  - cbn [find_map]. destruct (creation_accounts payer owner mint program) as [system A].
    pose proof (resolved_account _ _ _ 1 (new_writable (get_associated_token_address_with_program_id owner mint program)) R ltac:(by rewrite A)) as A1.
    pose proof (resolved_account _ _ _ 2 (new_readonly owner) R ltac:(by rewrite A)) as A2.
    unfold account_at, versioned_keys in A1, A2. cbn [body pubkey new_writable new_readonly] in A1, A2. rewrite A1, A2.
    destruct R as (P & _ & D). rewrite P, D, creation_data. rewrite bool_decide_true by apply creation_program. cbn.
    rewrite (bool_decide_true ([1] = [1])) by done. cbn. by rewrite bool_decide_true.
  - apply Forall_forall. intros x Hx. apply list_elem_of_lookup_1 in Hx as [n Hx].
    destruct (Forall2_lookup_r _ _ _ _ _ F1 Hx) as (i & I & (P & _)). rewrite P. rewrite bool_decide_false; [done|].
    apply N. by eapply list_elem_of_lookup_2.
Qed.

Lemma token_program_spec input program : token_program_id input = Ok program ->
  to_base58 program = TOKEN_PROGRAM_ID \/ to_base58 program = TOKEN_2022_PROGRAM_ID.
Proof.
  unfold token_program_id, from_box, map_err. destruct (LoadMetadata.from_asset_type _) as [p|]; [|done]. cbn [ok_or].
  destruct (LoadMetadata.get_solana_token_program_id _) as [m|]; [|done]. destruct (match m with Some _ => _ | None => _ end); [done|].
  intros [_ E]%pubkey_of_Ok. destruct p; auto.
Qed.

Lemma token_shown input sender l tx : text_memo input -> token_transfer input sender = Ok l ->
  Forall2 (resolves (account_keys (message tx))) l (instructions (message tx)) ->
  exists token, AssetIds.token_id (Assets.id (asset_of input)) = Some token
  /\ simple_transfer (Legacy tx : VersionedTransaction L) sender
    = Some (MkTransfer (AssetIds.from_token Chains.Solana token) (shown_recipient input) (InputTypes.input_value (load input)))
  /\ memo (Legacy tx : VersionedTransaction L) = InputTypes.get_memo (load input).
Proof.
  intros T E F. unfold token_transfer in E. destruct (token_program_id input) as [program|] eqn:P; [|done].
  apply token_program_spec in P. unfold get_token_id in E. destruct (AssetIds.token_id _) as [token|]; [|done]. cbn [ok_or] in E.
  destruct (pubkey_of token) as [mint|] eqn:Mk; [|done]. apply pubkey_of_Ok in Mk as [_ Mk].
  destruct (token_decimals _) as [dec|]; [|done]. destruct (InputTypes.value_as_u64 _) as [v|] eqn:V; [|done]. apply value_Ok in V as [-> V].
  exists token. split; [done|]. unfold spl_transfer_checked, from_box, map_err in E.
  destruct (LoadMetadata.get_sender_token_address _) as [[src|]|]; [|done|done]. cbn [ok_or] in E.
  destruct (pubkey_of src) as [source|]; [|done]. destruct (compute_budget_instructions _) as [budget|] eqn:B; [|done]. apply budget_beside in B.
  unfold shown_recipient. destruct (LoadMetadata.get_recipient_token_address _) as [given|]; [|done].
  destruct (match given with Some _ => _ | None => _ end) as [[creation account]|] eqn:C; [|done].
  destruct (reference_accounts input) as [refs|]; [|done].
  set (instruction := transfer_checked_with_program_id _ _ _ _ _ _ _) in E. injection E as <-. pose proof (memo_beside input) as M.
  assert (Cb : Forall (fun i => to_base58 (program_id i) = ASSOCIATED_TOKEN_PROGRAM_ID) creation
    /\ to_base58 (default account (associated_token_owner (Legacy tx : VersionedTransaction L) account))
       = match given with Some address => address | None => InputTypes.destination_address (load input) end).
  { destruct given as [address|].
    - destruct (pubkey_of address) as [k|] eqn:K; [|done]. apply pubkey_of_Ok in K as [_ K]. injection C as <- <-. split; [constructor|].
      rewrite (owner_none tx _ k F); [done|]. intros i. rewrite !elem_of_app. rewrite Forall_forall in B, M. intros [I|[I|[I|I]]].
      + destruct (B i I) as [-> _]. discriminate 1.
      + by apply not_elem_of_nil in I.
      + destruct (M i I) as [-> _]. discriminate 1.
      + apply list_elem_of_singleton in I as ->. unfold instruction, with_references. cbn [program_id]. rewrite checked_program.
        destruct P as [-> | ->]; discriminate 1.
    - destruct (pubkey_of _) as [owner|] eqn:K; [|done]. apply pubkey_of_Ok in K as [_ K]. injection C as <- <-.
      split; [constructor; [apply creation_program|constructor]|]. rewrite (owner_created tx budget sender owner mint program _ F); [done|].
      rewrite Forall_forall in B. intros i I. destruct (B i I) as [-> _]. discriminate 1. }
  destruct Cb as [Cb Ow]. split.
  - rewrite !app_assoc in F. eapply read_transfer; [|exact F|].
    + rewrite !Forall_app. split_and!; [eapply Forall_impl; [exact B|]|eapply Forall_impl; [exact Cb|]|eapply Forall_impl; [exact M|]];
        unfold beside; naive_solver.
    + intros c R. rewrite <- Mk, <- Ow, <- (of_le_u64 (InputTypes.input_value (load input))) by done.
      eapply (transfers_token (Legacy tx) (Some sender) c (to_base58 program) mint account sender _ dec).
      * rewrite (resolved_program _ _ _ R). unfold instruction, with_references. cbn [program_id]. by rewrite checked_program.
      * done.
      * destruct R as (_ & _ & ->). apply checked_data.
      * apply le_bytes_length.
      * apply (resolved_account _ _ _ 1 (new_readonly mint) R), references_resolved. unfold instruction. by rewrite checked_accounts.
      * apply (resolved_account _ _ _ 2 (new_writable account) R), references_resolved. unfold instruction. by rewrite checked_accounts.
      * apply (resolved_account _ _ _ 3 (new_signer sender) R), references_resolved. unfold instruction. by rewrite checked_accounts.
      * cbn. by rewrite bool_decide_true.
  - rewrite (app_assoc budget creation) in F. eapply read_memo; [done| |exact F]. intros i. rewrite !elem_of_app.
    rewrite Forall_forall in B, Cb. intros [[I|I]|I].
    + destruct (B i I) as [-> _]. discriminate 1.
    + rewrite (Cb i I). discriminate 1.
    + apply list_elem_of_singleton in I as ->. unfold instruction, with_references. cbn [program_id]. rewrite checked_program.
      destruct P as [-> | ->]; discriminate 1.
Qed.

(** Equal messages hold equal instructions. *)
Lemma signed_resolves text key sender hash l tx : signed_as text key sender hash l tx ->
  Forall2 (resolves (account_keys (message tx))) l (instructions (message tx)).
Proof. intros (_ & (u & M & ->) & _). apply (means_instructions _ _ _ _ M). Qed.

Lemma sign_instructions_spec build input key text : sign_instructions build input key = Ok text ->
  exists sender hash l tx, from_base58 (InputTypes.sender_address (load input)) = Ok sender /\ block_hash input = Ok hash
    /\ build input sender = Ok l /\ signed_as text key sender hash l tx.
Proof.
  unfold sign_instructions. destruct (pubkey_of _) as [sender|] eqn:S; [|done]. apply pubkey_of_Ok in S as [S _].
  destruct (build input sender) as [l|] eqn:B; [|done]. intros (hash & tx & Hh & A)%sign_single_spec. by exists sender, hash, l, tx.
Qed.

End facts.
End SolanaFacts.

(** ** Properties *)

Module SolanaProperties.
Import SolanaTypes SolanaReader SolanaBuilder BuilderFacts BuilderProperties ReaderProperties SolanaPrograms SolanaInstructions SolanaSigner SolanaFacts.
Import Payloads.

Section properties.
Context {L : Type} `{SolanaPrimitives L} `{Sha256} `{Base64Text} `{Base58Text} `{!SolanaLaws} `{!Base64TextLaws}.

(** (C17) What is signed is what is shown.  The signed text of a Solana transfer decodes to a transaction that the
    application reads as a simple transfer by the sender of exactly the requested asset, recipient and value, with the
    requested memo; it means the instructions of the request, its one signature is that of its message, and no key but
    the sender's is asked to sign.  A token goes to the given token account, or to the destination whose account the
    transaction creates. *)
Theorem solana_transfer_shown (input : ChainSignerInput) (private_key : bytes) (text : string) : text_memo input ->
  (sign_transfer input private_key = Ok text -> exists sender hash l tx,
     from_base58 (InputTypes.sender_address (load input)) = Ok sender /\ block_hash input = Ok hash
     /\ native_transfer input sender = Ok l /\ signed_as text private_key sender hash l tx
     /\ simple_transfer (Legacy tx) sender
        = Some (MkTransfer (AssetIds.from_chain Chains.Solana) (InputTypes.destination_address (load input)) (InputTypes.input_value (load input)))
     /\ memo (Legacy tx) = InputTypes.get_memo (load input))
  /\ (sign_token_transfer input private_key = Ok text -> exists sender hash l tx token,
     from_base58 (InputTypes.sender_address (load input)) = Ok sender /\ block_hash input = Ok hash
     /\ token_transfer input sender = Ok l /\ signed_as text private_key sender hash l tx
     /\ AssetIds.token_id (Assets.id (asset_of input)) = Some token
     /\ simple_transfer (Legacy tx) sender
        = Some (MkTransfer (AssetIds.from_token Chains.Solana token) (shown_recipient input) (InputTypes.input_value (load input)))
     /\ memo (Legacy tx) = InputTypes.get_memo (load input)).
Proof.
  intros T. split; intros (sender & hash & l & tx & S & Hh & B & A)%sign_instructions_spec; pose proof (signed_resolves _ _ _ _ _ _ A) as F.
  - destruct (native_shown _ _ _ _ T B F). by exists sender, hash, l, tx.
  - destruct (token_shown _ _ _ _ T B F) as (token & ? & ? & ?). by exists sender, hash, l, tx, token.
Qed.

(** A message request never signs a transaction.  The bytes of a serialized transaction, and those of the message that a
    transaction signature would cover, are refused as messages, so a signature given for a message is never valid for a
    transaction; every other message is signed as it is. *)
Theorem message_is_no_transaction (private_key message : bytes) :
  (forall v : VersionedTransaction L, wire_ok v -> serialize v = Ok message \/ serialize_message v = Ok message ->
     sign_message_text message private_key = Err (InvalidInput SIGN_MESSAGE_PAYLOAD_REJECTION))
  /\ (forall text, sign_message_text message private_key = Ok text ->
        exists signature, sign_message private_key message = Ok signature /\ text = bs58_encode signature).
Proof.
  unfold sign_message_text, is_transaction_bytes. split.
  - intros v W [S|S].
    + unfold try_decode_transaction_bytes. rewrite (transaction_roundtrip v message W S). cbn [ok]. rewrite S. cbn [ok].
      by rewrite bool_decide_true.
    + destruct (message_roundtrip v message W S) as (v' & D & S'). unfold try_decode_transaction_message. rewrite D. cbn [ok]. rewrite S'.
      cbn [ok]. rewrite bool_decide_true by done. by destruct (try_decode_transaction_bytes message).
  - intros text. destruct (match try_decode_transaction_bytes message with Some _ => _ | None => _ end); [done|]. unfold map_err.
    destruct (sign_message private_key message) as [s|]; [|done]. intros [= <-]. by exists s.
Qed.

Lemma first_signature_message v s : serialize_message (with_first_signature v s) = serialize_message v.
Proof. unfold with_first_signature. by apply message_unsigned. Qed.

Lemma first_signature_wire (v : VersionedTransaction L) s : wire_ok v -> wire_ok (with_first_signature v s).
Proof. by destruct v. Qed.
Lemma blockhash_wire (v : VersionedTransaction L) hash : wire_ok v -> wire_ok (with_blockhash v hash).
Proof. by destruct v. Qed.

Lemma decoded_wire text v : decode_transaction text = Ok v -> wire_ok v.
Proof.
  unfold decode_transaction, try_decode_transaction, try_decode_transaction_bytes. destruct (decode_base64 text) as [bs|]; [|done].
  destruct (deserialize_with_version bs) as [v'|] eqn:D; [|done]. cbn [ok]. destruct (serialize v') as [bs'|]; [|done]. cbn [ok].
  destruct (bool_decide _); [|done]. intros [= ->]. by eapply deserialized_ok.
Qed.

Lemma budget_wire v v' price limit fee : wire_ok v -> set_budget v price limit fee = Ok v' -> wire_ok v'.
Proof.
  unfold set_budget, map_err. intros W. destruct (match match limit with Some _ => _ | None => _ end with Some _ => _ | None => _ end) as [g|]; [|done].
  destruct (if 0 <? price then _ else _) as [v1|] eqn:P; [|done].
  assert (W1 : wire_ok v1).
  { destruct (0 <? price); [|by injection P as <-]. destruct (transaction_set_unit_price v price) eqn:Q; [|done]. injection P as <-.
    by eapply price_ok. }
  destruct g as [g|]; [|by intros [= <-]]. destruct (0 <? g); [|by intros [= <-]].
  destruct (transaction_set_unit_limit v1 g) eqn:Q; [|done]. intros [= <-]. by eapply limit_ok.
Qed.

(** Signing the transaction of an application or of a swap provider.  The application's transaction must leave its first
    signature empty; the signature covers the message of the transaction that is returned, which is the one received
    but for the first signature and, for a payment, the block hash.  A swap with more than one signature is never
    modified, so the signatures of others stay valid; one with a single signature only gets a compute budget. *)
Theorem solana_data_signed (input : ChainSignerInput) (private_key : bytes) (text : string) (texts : list string) :
  (sign_data input private_key = Ok text -> exists extra application data v v' m s rest,
     InputTypes.get_generic_data (InputTypes.input_type (load input)) = Ok extra
     /\ InputTypes.get_application_metadata (InputTypes.input_type (load input)) = Ok application
     /\ data_as_str extra = Ok data /\ decode_transaction data = Ok v
     /\ versioned_signatures v = replicate 64 0 :: rest
     /\ match app_source application with
        | PaymentSource => exists hash, block_hash input = Ok hash /\ v' = with_blockhash v hash
        | WalletConnectSource => v' = v
        end
     /\ serialize_message v' = Ok m /\ sign_message private_key m = Ok s
     /\ match output_type extra with
        | Signature => text = bs58_encode s
        | EncodedTransaction => decode_transaction text = Ok (with_first_signature v' s)
                                /\ serialize_message (with_first_signature v' s) = Ok m
        end)
  /\ (sign_swap input private_key = Ok texts -> exists swap v v' m s text,
     InputTypes.get_swap_data (InputTypes.input_type (load input)) = Ok swap
     /\ decode_transaction (quote_data (swap_data swap)) = Ok v
     /\ ((1 < length (versioned_signatures v))%nat -> v' = v)
     /\ serialize_message v' = Ok m /\ sign_message private_key m = Ok s /\ texts = [text]
     /\ decode_transaction text = Ok (with_first_signature v' s) /\ serialize_message (with_first_signature v' s) = Ok m).
Proof.
  unfold sign_data, sign_swap, swap_sign_transaction, from_box, map_err. split; intros S.
  - destruct (InputTypes.get_generic_data _) as [extra|]; [|done]. destruct (InputTypes.get_application_metadata _) as [app|]; [|done].
    destruct (data_as_str extra) as [data|] eqn:Da; [|done]. destruct (decode_transaction data) as [v|] eqn:D; [|done]. pose proof (decoded_wire _ _ D) as W.
    destruct (versioned_signatures v) as [|first rest] eqn:Sg; [done|]. destruct (bool_decide (first = replicate 64 0)) eqn:Z; [|done].
    apply bool_decide_eq_true in Z as ->. cbn [negb] in S. destruct (match app_source app with PaymentSource => _ | _ => _ end) as [v'|] eqn:V; [|done].
    assert (V' : match app_source app with
        | PaymentSource => exists hash, block_hash input = Ok hash /\ v' = with_blockhash v hash
        | WalletConnectSource => v' = v end /\ wire_ok v').
    { destruct (app_source app); [by injection V as <-|]. destruct (block_hash input) as [hash|]; [|done]. injection V as <-.
      split; [by exists hash|by apply blockhash_wire]. }
    destruct V' as [V' W']. destruct (serialize_message v') as [m|] eqn:M; [|done]. destruct (sign_message private_key m) as [s|] eqn:Sm; [|done].
    exists extra, app, data, v, v', m, s, rest. split_and!; try done. destruct (output_type extra); [|by injection S as <-].
    destruct (serialize _) as [bs|] eqn:B; [|done]. injection S as <-. split; [|by rewrite first_signature_message].
    by apply decode_serialized; [apply first_signature_wire|].
  - destruct (InputTypes.get_swap_data _) as [swap|]; [|done]. destruct (GasPrices.unit_price_u64 _) as [price|]; [|done].
    destruct (match quote_gas_limit _ with Some _ => _ | None => _ end) as [limit|]; [|done].
    destruct (decode_transaction _) as [v|] eqn:D; [|done]. pose proof (decoded_wire _ _ D) as W.
    destruct (if (_ <=? 1)%nat then _ else _) as [v'|] eqn:V; [|done].
    assert (V' : wire_ok v' /\ ((1 < length (versioned_signatures v))%nat -> v' = v)).
    { destruct (Nat.leb_spec (length (versioned_signatures v)) 1); [split; [by eapply budget_wire|lia]|by injection V as <-]. }
    destruct V' as [W' V']. destruct (serialize_message v') as [m|] eqn:M; [|done]. destruct (sign_message private_key m) as [s|] eqn:Sm; [|done].
    destruct (serialize _) as [bs|] eqn:B; [|done]. exists swap, v, v', m, s, (encode_base64 bs). split_and!; try done; [congruence| |by rewrite first_signature_message].
    by apply decode_serialized; [apply first_signature_wire|].
Qed.

End properties.
End SolanaProperties.

(** ** A concrete crate, the unit tests and the theorems on concrete requests *)

Module SolanaConcrete.
Import SolanaTypes SolanaReader SolanaBuilder BuilderFacts BuilderProperties ReaderProperties SolanaPrograms SolanaInstructions SolanaSigner
  SolanaFacts SolanaProperties.
Import Payloads Concrete SigningConcrete.

(** A transaction as lists of numbers, these as one number, and the number as bits: a binary form that can be read back *)
Definition Wire : Type := list (list Z).

Definition to_wire (v : VersionedTransaction unit) : Wire :=
  let t := body v in let h := header (message t) in
  [match v with Legacy _ => 1 | V0 _ _ => 0 end; num_required_signatures h; num_readonly_signed_accounts h;
   num_readonly_unsigned_accounts h; Z.of_nat (length (signatures t)); Z.of_nat (length (account_keys (message t)))]
  :: recent_blockhash (message t) :: signatures t ++ account_keys (message t)
  ++ flat_map (fun c => [[program_id_index c]; account_indexes c; compiled_data c]) (instructions (message t)).

Fixpoint triples (w : Wire) : list CompiledInstruction :=
  match w with [p] :: i :: d :: w => MkCompiled p i d :: triples w | _ => [] end.
Definition of_wire (w : Wire) : option (VersionedTransaction unit) :=
  match w with
  | [legacy; a; b; c; n; k] :: hash :: w =>
      let keys := drop (Z.to_nat n) w in
      let t := MkTransaction (take (Z.to_nat n) w)
        (MkMessage (MkHeader a b c) (take (Z.to_nat k) keys) hash (triples (drop (Z.to_nat k) keys))) in
      Some (if legacy =? 1 then Legacy t else V0 t tt)
  | _ => None
  end.

Lemma of_to_wire v : of_wire (to_wire v) = Some v.
Proof.
  assert (M : forall l, triples (flat_map (fun c => [[program_id_index c]; account_indexes c; compiled_data c]) l) = l).
  { induction l as [|[p i d] l IH]; [done|]. cbn. by rewrite IH. }
  assert (T : of_wire (to_wire v) = Some (if match v with Legacy _ => 1 | V0 _ _ => 0 end =? 1 then Legacy (body v) else V0 (body v) tt)).
  { unfold of_wire, to_wire. rewrite !Nat2Z.id, take_app_length, drop_app_length, take_app_length, drop_app_length, M.
    by destruct (body v) as [s [[a b c] k h l]]. }
  rewrite T. by destruct v as [t|t []].
Qed.

Fixpoint bits (p : positive) : bytes := match p with xH => [] | xO p => 0 :: bits p | xI p => 1 :: bits p end.
Fixpoint unbits (bs : bytes) : positive := match bs with [] => xH | b :: bs => if b =? 0 then xO (unbits bs) else xI (unbits bs) end.
Lemma unbits_bits p : unbits (bits p) = p.
Proof. induction p; cbn; by f_equal. Qed.
Lemma bits_bytes p : all_bytes (bits p).
Proof. induction p; cbn; constructor; done. Qed.

Definition wire_bytes (v : VersionedTransaction unit) : bytes := bits (countable.encode (to_wire v)).
Definition wire_okb (v : VersionedTransaction unit) : bool :=
  match v with Legacy t => num_required_signatures (header (message t)) <? 128 | V0 _ _ => true end.
Definition read_wire (bs : bytes) : result string (VersionedTransaction unit) :=
  match (let?? w := countable.decode (A := Wire) (unbits bs) in of_wire w) with
  | Some v => if wire_okb v then Ok v else Err "version"
  | None => Err "invalid"
  end.
Lemma read_wire_bytes v : wire_ok v -> read_wire (wire_bytes v) = Ok v.
Proof.
  intros W. unfold read_wire, wire_bytes. rewrite unbits_bits, decode_encode, of_to_wire.
  assert (wire_okb v = true) as ->; [|done]. destruct v; [|done]. by apply Z.ltb_lt.
Qed.

(** A message is a transaction with no signatures. *)
Definition unsigned (v : VersionedTransaction unit) : VersionedTransaction unit := with_body v (MkTransaction [] (message (body v))).
Definition toy_sign (key m : bytes) : result string bytes := Ok (be_bytes 64 (of_be key + Z.of_nat (length m))).
Definition key_of (s : string) : Pubkey := bytes_of_string s.
Definition associated (owner mint program : Pubkey) : Pubkey := owner ++ mint ++ program.

#[local] Instance toy_solana : SolanaPrimitives unit := {|
  from_base58 s := Ok (key_of s);
  to_base58 := string_of_bytes;
  find_program_address program seeds := Ok (concat seeds ++ program, 255);
  system_program := key_of SYSTEM_PROGRAM_ID;
  transfer a b v := MkInstruction (key_of SYSTEM_PROGRAM_ID) [new_signer_writable a; new_writable b] (le_bytes 4 2 ++ le_bytes 8 v);
  memo_instruction text ks := MkInstruction (key_of MEMO_PROGRAM_ID) (map new_signer ks) (bytes_of_string text);
  transfer_checked_with_program_id a b c d v n p :=
    MkInstruction p [new_writable a; new_readonly b; new_writable c; new_signer d] ([12] ++ le_bytes 8 v ++ [n]);
  get_associated_token_address_with_program_id := associated;
  create_associated_token_account_idempotent a b c p :=
    MkInstruction (key_of ASSOCIATED_TOKEN_PROGRAM_ID)
      [new_signer_writable a; new_writable (associated b c p); new_readonly b; new_readonly c; new_readonly (key_of SYSTEM_PROGRAM_ID);
       new_readonly p] [1];
  set_compute_unit_price v := MkInstruction (key_of COMPUTE_BUDGET_PROGRAM_ID) [] (3 :: le_bytes 8 v);
  set_compute_unit_limit v := MkInstruction (key_of COMPUTE_BUDGET_PROGRAM_ID) [] (2 :: le_bytes 4 v);
  sign_transaction t keys :=
    match keys with
    | [key] => let? s := toy_sign key (wire_bytes (unsigned (Legacy t))) in Ok (MkTransaction [s] (message t))
    | _ => Err "keys"
    end;
  sign_message := toy_sign;
  serialize_legacy t := Ok (1 :: wire_bytes (Legacy t));
  serialize v := Ok (1 :: wire_bytes v);
  serialize_message v := Ok (wire_bytes (unsigned v));
  deserialize_with_version bs := match bs with b :: bs => if (b =? 0) || (b =? 1) then read_wire bs else Err "tag" | [] => Err "empty" end;
  get_compute_unit_limit _ := None;
  transaction_set_unit_price v _ := Ok v;
  transaction_set_unit_limit v _ := Ok v
|}.

#[local] Instance toy_solana_laws : SolanaLaws.
Proof.
  split; try done.
  - intros s k [= <-]. apply HexFacts.string_of_bytes_of_string.
  - intros. by eexists.
  - intros t t' key _ E. cbn in E. injection E as <-. by do 2 eexists.
  - intros v t E. cbn. unfold unsigned. by destruct v; cbn in *; rewrite E.
  - intros v bs [= <-]. constructor; [done|apply bits_bytes].
  - intros v bs W [= <-]. cbn. by apply read_wire_bytes.
  - intros v p v' W [= <-]. done.
  - intros v p v' W [= <-]. done.
  - intros [|b bs] v; cbn; [done|]. destruct (_ || _); [|done]. unfold read_wire. destruct (let?? w := countable.decode _ in of_wire w) as [w|]; [|done].
    destruct (wire_okb w) eqn:W; [|done]. intros [= <-]. destruct w; [|done]. by apply Z.ltb_lt.
  - intros v m W [= <-]. exists (unsigned v). cbn. split; [apply read_wire_bytes|]; by destruct v.
Qed.

(** The unit tests of [signer/transaction.rs] *)
Definition test_key (n : Z) : Pubkey := replicate 32 n.
Example test_preserves_account_order_by_bucket :
  let l := [MkInstruction (test_key 5) [MkMeta (test_key 1) true false; MkMeta (test_key 3) false false; MkMeta (test_key 2) false true] [1];
            MkInstruction (test_key 6) [MkMeta (test_key 4) false false] [2]] in
  (fun tx => (account_keys (message tx), header (message tx))) <$> ok (build_legacy_transaction (test_key 1) (replicate 32 0) l)
  = Some (map test_key [1; 2; 3; 4; 5; 6], MkHeader 1 0 4).
Proof. by vm_compute. Qed.
Example test_upgrades_duplicate_account_flags :
  let l := [MkInstruction (test_key 3) [MkMeta (test_key 2) false false] [1]; MkInstruction (test_key 3) [MkMeta (test_key 2) false true] [2]] in
  (fun tx => (account_keys (message tx), header (message tx))) <$> ok (build_legacy_transaction (test_key 1) (replicate 32 0) l)
  = Some (map test_key [1; 2; 3], MkHeader 1 0 1).
Proof. by vm_compute. Qed.

Definition usdc : Assets.Asset :=
  Assets.MkAsset (AssetIds.MkAssetId Chains.Solana (Some "mint")) "USDC" "USDC" 6 AssetTypes.SPL.
Definition token_input : ChainSignerInput :=
  MkChainInput
    (InputTypes.MkSignerInput
       (InputTypes.MkLoadInput (InputTypes.Transfer usdc) "alice" "bob" 1500000 (GasPrices.Regular 1) (Some "invoice 7") false)
       (GasPrices.MkFee 5000 (GasPrices.SolanaPrice 5000 0 20) 200000 [] (AssetIds.from_chain Chains.Solana)))
    (LoadMetadata.Solana (Some "alice-usdc") None (Some LoadMetadata.Token) None (string_of_bytes (replicate 32 65)) ["reference"]).

Lemma solana_transfer_shown_witness : exists text sender tx,
  sign_token_transfer token_input key = Ok text /\ decode_transaction text = Ok (Legacy tx)
  /\ simple_transfer (Legacy tx) sender = Some (MkTransfer (AssetIds.from_token Chains.Solana "mint") "bob" 1500000)
  /\ memo (Legacy tx) = Some "invoice 7"%string.
Proof.
  assert (K : is_ok (sign_token_transfer token_input key) = true) by (vm_compute; reflexivity).
  destruct (sign_token_transfer token_input key) as [text|] eqn:S; [|discriminate K].
  assert (T : text_memo token_input) by (intros m [= <-]; vm_compute; reflexivity).
  destruct (proj2 (solana_transfer_shown token_input key text T) S) as (sender & hash & l & tx & token & _ & _ & _ & A & D & R & M).
  exists text, sender, tx. split; [reflexivity|]. split; [apply A|].
  assert (token = "mint"%string) as -> by (vm_compute in D; congruence). split; [exact R|exact M].
Defined.

Definition small_transaction (hash : Z) : VersionedTransaction unit :=
  Legacy (MkTransaction [replicate 64 0] (MkMessage (MkHeader 1 0 1) [[1]; [2]] [hash] [MkCompiled 1 [0] [7]])).

Lemma message_is_no_transaction_witness :
  sign_message_text (wire_bytes (unsigned (small_transaction 5))) key = Err (InvalidInput SIGN_MESSAGE_PAYLOAD_REJECTION).
Proof.
  apply (proj1 (message_is_no_transaction key (wire_bytes (unsigned (small_transaction 5)))) (small_transaction 5)).
  - vm_compute. reflexivity.
  - right. vm_compute. reflexivity.
Defined.

Definition data_input : ChainSignerInput :=
  MkChainInput
    (InputTypes.MkSignerInput
       (InputTypes.MkLoadInput
          (InputTypes.Generic usdc (MkMetadata "app" "" "" "" WalletConnectSource)
             (MkExtra "" None None (Some (1 :: wire_bytes (small_transaction 5))) EncodedTransaction Send TransactionTypes.SmartContractCall))
          "alice" "" 0 (GasPrices.Regular 1) None false)
       (GasPrices.MkFee 5000 (GasPrices.SolanaPrice 5000 0 20) 200000 [] (AssetIds.from_chain Chains.Solana)))
    (LoadMetadata.Solana None None None None (string_of_bytes (replicate 32 65)) []).

Lemma solana_data_signed_witness : exists text s,
  sign_data data_input key = Ok text /\ decode_transaction text = Ok (with_first_signature (small_transaction 5) s).
Proof.
  assert (K : is_ok (sign_data data_input key) = true) by (vm_compute; reflexivity).
  destruct (sign_data data_input key) as [text|] eqn:S; [|discriminate K].
  destruct (proj1 (solana_data_signed data_input key text []) S) as (extra & app & data & v & v' & m & s & rest & E & A & D & V & _ & P & _ & _ & O).
  assert (extra = MkExtra "" None None (Some (1 :: wire_bytes (small_transaction 5))) EncodedTransaction Send TransactionTypes.SmartContractCall) as ->
    by (cbn in E; congruence).
  assert (app = MkMetadata "app" "" "" "" WalletConnectSource) as -> by (cbn in A; congruence).
  cbn in P. subst v'. exists text, s. split; [reflexivity|]. destruct O as [O _].
  assert (small_transaction 5 = v) as ->; [|exact O].
  assert (decode_transaction data = Ok (small_transaction 5)) as V'; [|congruence].
  assert (data = string_of_bytes (1 :: wire_bytes (small_transaction 5))) as -> by (vm_compute in D; vm_compute; congruence).
  vm_compute. reflexivity.
Defined.

End SolanaConcrete.
