(* ===== verification/Aptos.v ===== *)
(** * Aptos

    Models [gem_aptos/src/address.rs] and [token_id.rs] (module [AptosAddresses]), the Move types and values of
    [move/types.rs] and [move/values.rs] ([MoveTypes]) with their text and JSON readers of [move/parser.rs] ([MoveParser]),
    the payloads and documents of [signer/payload.rs], [signer/transaction.rs] and [models/signer_transaction.rs]
    ([AptosTransactions]) and the requests of [signer/chain_signer.rs] ([AptosSigner]).  The BCS form of a record is the
    concatenation of its fields, as [derive(Serialize)] gives them to the [bcs] crate, whose scalars are the class [Bcs].
    The theorems show that type tags are read back from their text, that every argument has the type of its parameter,
    and that the signed text of a request determines the transaction, which is the one requested. *)
From stdpp Require Import pretty.
From S2P Require Import Prelude Utf8 HexText Text Crates ChainRegistry Assets BitcoinPlanner Transactions TransferAmount TransferRules Signing NumberFormatter.
Import BitcoinPlanner SignerInputs Keys.

(** [gem_hash::sha3::sha3_256] *)
Class Sha3 : Type := sha3_256 : bytes -> bytes.
Class Sha3Laws `{Sha3} : Prop := { sha3_length : forall bs, length (sha3_256 bs) = 32%nat }.

(** The values of [serde_json], with its numbers *)
Class JsonNumbers (Number : Type) : Type := {
  number_to_string : Number -> string;
  number_as_u64 : Number -> option Z
}.
Inductive Value {Number : Type} :=
| JNull
| JBool (b : bool)
| JNumber (n : Number)
| JString (s : string)
| JArray (values : list Value)
| JObject (fields : list (string * Value)).
Arguments Value : clear implicits.

(** ** [address.rs] and [token_id.rs] *)

Module AptosAddresses.
Import HexCodec.

Definition ADDRESS_LENGTH : nat := 32.
Definition FUNGIBLE_ASSET_TOKEN_ID_LENGTH : nat := 66.

(** [AccountAddress]: its 32 bytes *)
Definition AccountAddress : Type := bytes.

(** [From<HexError>] of a [SignerError] keeps the text of the error. *)
Class HexErrorText : Type := hex_error_text : HexError -> string.

Section address.
Context `{Hex} `{HexErrorText}.

Definition decode_hex_ (value : string) : result SignerError bytes :=
  map_err (fun e => InvalidInput (hex_error_text e)) (decode_hex value).

Definition from_bytes (bs : bytes) : result SignerError AccountAddress :=
  if (ADDRESS_LENGTH <? length bs)%nat then Err (InvalidInput "Aptos address too long") else
  let offset := (ADDRESS_LENGTH - length bs)%nat in
  Ok (replicate offset 0 ++ bs).

Definition from_str (value : string) : result SignerError AccountAddress :=
  let? bs := decode_hex_ value in from_bytes bs.
Definition from_hex (value : string) : result SignerError AccountAddress := from_str value.

Definition one : AccountAddress := replicate 31 0 ++ [1].

Definition try_parse (address : string) : option AccountAddress := ok (from_hex address).
Definition as_bytes (self : AccountAddress) : bytes := self.
(** [Display] *)
Definition to_string (self : AccountAddress) : string := ("0x" +:+ hex_encode self)%string.
Definition encode (self : AccountAddress) : string := to_string self.
Definition validate_address (address : string) : bool := match try_parse address with Some _ => true | None => false end.

Definition is_fungible_asset_token_id (token_id : string) : bool :=
  match strip_prefix "0x" token_id with
  | Some _ =>
      (FUNGIBLE_ASSET_TOKEN_ID_LENGTH <=? String.length token_id)%nat
      && match decode_hex token_id with Ok bs => (length bs =? 32)%nat | Err _ => false end
  | None => false
  end.

End address.
End AptosAddresses.

(** ** [move/types.rs] and [move/values.rs] *)

Module MoveTypes.
Import AptosAddresses.

Record ModuleId := MkModule { module_address : AccountAddress; module_name : string }.

Inductive TypeTag :=
| TBool | TU8 | TU64 | TU128 | TAddress | TSigner
| TVector (inner : TypeTag)
| TStruct (address : AccountAddress) (module name : string) (type_args : list TypeTag)
| TU16 | TU32 | TU256.

Record EntryFunction := MkEntry { module : ModuleId; function : string; ty_args : list TypeTag; args : list bytes }.

Inductive MoveValue :=
| VBool (b : bool)
| VU8 (v : Z)
| VU16 (v : Z)
| VU32 (v : Z)
| VU64 (v : Z)
| VU128 (v : Z)
| VU256 (bs : bytes)
| VAddress (a : AccountAddress)
| VSigner (a : AccountAddress)
| VVector (values : list MoveValue).

End MoveTypes.

(** ** [move/parser.rs] *)

Module MoveParser.
Import AptosAddresses MoveTypes Digits.

Definition OPTION_MODULE : string := "option".
Definition OPTION_STRUCT : string := "Option".
Definition MAX_TYPE_TAG_DEPTH : nat := 64.

(** [str::split("::")] *)
Fixpoint split_colons (s : string) : list string :=
  match s with
  | EmptyString => [EmptyString]
  | String ":" (String ":" rest) => EmptyString :: split_colons rest
  | String c rest =>
      match split_colons rest with part :: parts => String c part :: parts | [] => [String c EmptyString] end
  end.

(** [ends_with(c)], with what comes before *)
Fixpoint strip_last (c : Ascii.ascii) (s : string) : option string :=
  match s with
  | EmptyString => None
  | String a EmptyString => if Ascii.eqb a c then Some EmptyString else None
  | String a s => let?? s := strip_last c s in Some (String a s)
  end.


Fixpoint find_top_level (depth index : nat) (input : string) (target : Ascii.ascii) : option nat :=
  match input with
  | EmptyString => None
  | String ch input =>
      if (depth =? 0)%nat && Ascii.eqb ch target then Some index else
      let depth := if Ascii.eqb ch "<" then S depth else if Ascii.eqb ch ">" then pred depth else depth in
      find_top_level depth (S index) input target
  end.
Definition find_top_level_char (input : string) (target : Ascii.ascii) : option nat := find_top_level 0 0 input target.

(** An argument of [split_type_args], pushed when it is not empty *)
Definition push_arg (arg : string) (args : list string) : list string :=
  let arg := trim arg in if String.eqb arg EmptyString then args else args ++ [arg].

(** The loop of [split_type_args]; [segment] is the slice [start..index]. *)
Fixpoint split_loop (args : list string) (depth : nat) (segment input : string) : result SignerError (list string) :=
  match input with
  | EmptyString => Ok (push_arg segment args)
  | String ch input =>
      if Ascii.eqb ch "<" then split_loop args (S depth) (segment +:+ String ch EmptyString) input
      else if Ascii.eqb ch ">" then
        match depth with
        | O => Err (InvalidInput "Invalid Aptos type arguments")
        | S depth => split_loop args depth (segment +:+ String ch EmptyString) input
        end
      else if Ascii.eqb ch "," && (depth =? 0)%nat then split_loop (push_arg segment args) depth EmptyString input
      else split_loop args depth (segment +:+ String ch EmptyString) input
  end.
Definition split_type_args (input : string) : result SignerError (list string) := split_loop [] 0 EmptyString input.

Section parser.
Context `{Hex} `{HexErrorText} `{Lowercase} `{BigUintFromBytes} `{BigUintParse} {Number : Type} `{JsonNumbers Number}.
Abbreviation Json := (Value Number).

Definition parse_function_id (function_id : string) : result SignerError (ModuleId * string) :=
  match split_colons function_id with
  | [address; module; function] => let? address := from_hex address in Ok (MkModule address module, function)
  | _ => Err (InvalidInput "Invalid Aptos function id")
  end.

(** [parse] reads a type one level deeper. *)
Definition parse_struct_tag_with (parse : string -> result SignerError TypeTag) (value : string) : result SignerError TypeTag :=
  let? (base, args) :=
    match find_top_level_char value "<" with
    | Some index =>
        match strip_last ">" value with
        | None => Err (InvalidInput "Invalid Aptos struct tag")
        | Some before => Ok (take_str index value, Some (drop_str (index + 1) before))
        end
    | None => Ok (value, None)
    end in
  match split_colons base with
  | [address; module; name] =>
      let? address := from_hex address in
      let? type_args :=
        match args with
        | Some args => let? args := split_type_args args in collect parse args
        | None => Ok []
        end in
      Ok (TStruct address module name type_args)
  | _ => Err (InvalidInput "Invalid Aptos struct tag")
  end.

(** [parse_type_tag_at_depth]; [levels] is what is left of the depth, [MAX_TYPE_TAG_DEPTH + 1 - depth]. *)
Fixpoint parse_type_tag_levels (levels : nat) (value : string) : result SignerError TypeTag :=
  match levels with
  | O => Err (InvalidInput "Aptos type tag nesting too deep")
  | S levels =>
      let trimmed := trim value in
      if String.eqb trimmed "bool" then Ok TBool
      else if String.eqb trimmed "u8" then Ok TU8
      else if String.eqb trimmed "u16" then Ok TU16
      else if String.eqb trimmed "u32" then Ok TU32
      else if String.eqb trimmed "u64" then Ok TU64
      else if String.eqb trimmed "u128" then Ok TU128
      else if String.eqb trimmed "u256" then Ok TU256
      else if String.eqb trimmed "address" then Ok TAddress
      else if String.eqb trimmed "signer" || String.eqb trimmed "&signer" then Ok TSigner
      else match (let?? rest := strip_prefix "vector<" trimmed in strip_last ">" rest) with
           | Some inner => let? inner := parse_type_tag_levels levels inner in Ok (TVector inner)
           | None => parse_struct_tag_with (parse_type_tag_levels levels) trimmed
           end
  end.
Definition parse_type_tag (value : string) : result SignerError TypeTag := parse_type_tag_levels (MAX_TYPE_TAG_DEPTH + 1) value.

(** *** Arguments *)

Definition starts_0x (s : string) : bool := match strip_prefix "0x" s with Some _ => true | None => false end.

Definition invalid (label : string) : SignerError := InvalidInput ("Invalid Aptos " +:+ label +:+ " argument")%string.

(** [text.parse::<u8>()] *)
Definition parse_dec_u8 (text : string) : option Z :=
  let?? v := u64_from_str_radix 10 text in if v <=? 255 then Some v else None.

Definition parse_u8_from_str (text : string) : result SignerError Z :=
  if starts_0x (trim text) then
    let? bs := decode_hex_ text in
    match bs with [b] => Ok b | _ => Err (InvalidInput "Invalid Aptos u8 argument") end
  else ok_or (parse_dec_u8 (trim text)) (InvalidInput "Invalid Aptos u8 argument").

Definition parse_numeric_string (value : Json) (label : string) : result SignerError string :=
  match value with
  | JNumber n => Ok (number_to_string n)
  | JString s => Ok s
  | _ => Err (invalid label)
  end.

Definition parse_big_uint_from_str (text label : string) : result SignerError Z :=
  let trimmed := trim text in
  if starts_0x trimmed then let? bs := decode_hex_ trimmed in Ok (biguint_from_bytes_be bs)
  else ok_or (biguint_parse trimmed) (invalid label).

(** [to_u128] and [T::try_from] of a [w]-bit type *)
Definition parse_unsigned_from_str (w : Z) (text label : string) : result SignerError Z :=
  let? big := parse_big_uint_from_str text label in
  let? value := ok_or (to_width 128 big) (invalid label) in
  ok_or (to_width w value) (invalid label).

Definition parse_u8 (value : Json) : result SignerError Z :=
  let? text := parse_numeric_string value "u8" in parse_u8_from_str text.
Definition parse_u16 (value : Json) : result SignerError Z :=
  let? text := parse_numeric_string value "u16" in parse_unsigned_from_str 16 text "u16".
Definition parse_u32 (value : Json) : result SignerError Z :=
  let? text := parse_numeric_string value "u32" in parse_unsigned_from_str 32 text "u32".
Definition parse_u64 (value : Json) : result SignerError Z :=
  let? text := parse_numeric_string value "u64" in parse_unsigned_from_str 64 text "u64".
Definition parse_u128 (value : Json) : result SignerError Z :=
  let? text := parse_numeric_string value "u128" in parse_unsigned_from_str 128 text "u128".

(** [to_bytes_le] has no zero at its end but that of zero; it is resized to 32 bytes. *)
Definition parse_u256 (value : Json) : result SignerError bytes :=
  let? text := parse_numeric_string value "u256" in
  let? value := parse_big_uint_from_str text "u256" in
  if 2 ^ 256 <=? value then Err (InvalidInput "Aptos u256 argument too large") else Ok (le_bytes 32 value).

Definition parse_bool (value : Json) : result SignerError bool :=
  match value with
  | JBool value => Ok value
  | JNumber number => Ok (negb (default 0 (number_as_u64 number) =? 0))
  | JString text =>
      let text := to_lowercase (trim text) in
      if String.eqb text "true" then Ok true
      else if String.eqb text "false" then Ok false
      else Err (InvalidInput "Invalid Aptos bool argument")
  | _ => Err (InvalidInput "Invalid Aptos bool argument")
  end.

Definition parse_address (value : Json) : result SignerError AccountAddress :=
  match value with
  | JString text => from_hex text
  | JNumber number => from_hex (number_to_string number)
  | _ => Err (InvalidInput "Invalid Aptos address argument")
  end.

Definition is_option_struct (address : AccountAddress) (module name : string) : bool :=
  bool_decide (address = one) && String.eqb module OPTION_MODULE && String.eqb name OPTION_STRUCT.

(** [parse_move_value], [parse_vector] and [parse_struct], by recursion on the type *)
Fixpoint parse_move_value (arg_type : TypeTag) (value : Json) : result SignerError MoveValue :=
  match arg_type with
  | TBool => let? b := parse_bool value in Ok (VBool b)
  | TU8 => let? v := parse_u8 value in Ok (VU8 v)
  | TU16 => let? v := parse_u16 value in Ok (VU16 v)
  | TU32 => let? v := parse_u32 value in Ok (VU32 v)
  | TU64 => let? v := parse_u64 value in Ok (VU64 v)
  | TU128 => let? v := parse_u128 value in Ok (VU128 v)
  | TU256 => let? bs := parse_u256 value in Ok (VU256 bs)
  | TAddress => let? a := parse_address value in Ok (VAddress a)
  | TSigner => let? a := parse_address value in Ok (VSigner a)
  | TVector inner =>
      match value with
      | JArray values => let? parsed := collect (parse_move_value inner) values in Ok (VVector parsed)
      | JString text =>
          match inner with
          | TU8 => let? bs := decode_hex_ text in Ok (VVector (map VU8 bs))
          | _ => Err (InvalidInput "Invalid Aptos vector argument")
          end
      | _ => Err (InvalidInput "Invalid Aptos vector argument")
      end
  | TStruct address module name type_args =>
      if is_option_struct address module name then
        match type_args with
        | [] => Err (InvalidInput "Option type missing inner type")
        | inner :: _ =>
            match value with
            | JNull => Ok (VVector [])
            | _ => let? inner_value := parse_move_value inner value in Ok (VVector [inner_value])
            end
        end
      else Err (InvalidInput "Unsupported Aptos struct argument")
  end.

(** *** Inference of the types of arguments *)

Definition is_u8_value (value : Json) : bool :=
  match value with
  | JNumber number => match number_as_u64 number with Some num => num <=? 255 | None => false end
  | JString text => is_ok (parse_u8_from_str text)
  | _ => false
  end.
Definition is_address_value (value : Json) : bool :=
  match value with JString text => starts_0x (trim text) | _ => false end.

Definition infer_vector_type (values : list Json) : TypeTag :=
  match values with
  | [] => TVector TU8
  | _ =>
      if forallb is_u8_value values then TVector TU8
      else if forallb is_address_value values then TVector TAddress
      else TVector TU64
  end.

Definition infer_type_tag (value : Json) : result SignerError TypeTag :=
  match value with
  | JBool _ => Ok TBool
  | JNumber _ => Ok TU64
  | JString text => if starts_0x (trim text) then Ok TAddress else Ok TU64
  | JArray values => Ok (infer_vector_type values)
  | JNull => Err (InvalidInput "Cannot infer Aptos type from null")
  | JObject _ => Err (InvalidInput "Unsupported Aptos object argument")
  end.
Definition infer_type_tags (arguments : list Json) : result SignerError (list TypeTag) := collect infer_type_tag arguments.

End parser.
End MoveParser.

(** ** The BCS form of the documents *)

(** The [bcs] crate: a bool, an integer of a number of bytes, and a length or a variant in ULEB128, which is refused when it is
    too large, with the text of the error *)
Class Bcs : Type := {
  bcs_bool : bool -> bytes;
  bcs_uint : nat -> Z -> bytes;
  bcs_uleb : Z -> result string bytes
}.

Module AptosBcs.
Import AptosAddresses MoveTypes.

Section bcs.
Context `{Bcs}.

Definition bcs_seq {A} (enc : A -> result string bytes) (l : list A) : result string bytes :=
  let? len := bcs_uleb (Z.of_nat (length l)) in
  let? items := collect enc l in
  Ok (len ++ concat items).
Definition bcs_vec_u8 (bs : bytes) : result string bytes := bcs_seq (fun b => Ok (bcs_uint 1 b)) bs.
Definition bcs_string (s : string) : result string bytes :=
  let? len := bcs_uleb (Z.of_nat (length (bytes_of_string s))) in Ok (len ++ bytes_of_string s).
(** [[u8; 32]], and the address that wraps one *)
Definition bcs_array (bs : bytes) : bytes := concat (map (bcs_uint 1) bs).

(** [impl Serialize for MoveValue] *)
Fixpoint bcs_value (self : MoveValue) : result string bytes :=
  match self with
  | VBool b => Ok (bcs_bool b)
  | VU8 v => Ok (bcs_uint 1 v)
  | VU16 v => Ok (bcs_uint 2 v)
  | VU32 v => Ok (bcs_uint 4 v)
  | VU64 v => Ok (bcs_uint 8 v)
  | VU128 v => Ok (bcs_uint 16 v)
  | VU256 bs => Ok (bcs_array bs)
  | VAddress a | VSigner a => Ok (bcs_array a)
  | VVector values => bcs_seq bcs_value values
  end.

(** The variants of a [TypeTag] by their position *)
Definition bcs_variant (index : Z) (fields : result string bytes) : result string bytes :=
  let? tag := bcs_uleb index in let? fields := fields in Ok (tag ++ fields).
Fixpoint bcs_type_tag (self : TypeTag) : result string bytes :=
  match self with
  | TBool => bcs_variant 0 (Ok [])
  | TU8 => bcs_variant 1 (Ok [])
  | TU64 => bcs_variant 2 (Ok [])
  | TU128 => bcs_variant 3 (Ok [])
  | TAddress => bcs_variant 4 (Ok [])
  | TSigner => bcs_variant 5 (Ok [])
  | TVector inner => bcs_variant 6 (bcs_type_tag inner)
  | TStruct address module name type_args =>
      bcs_variant 7
        (let? module := bcs_string module in
         let? name := bcs_string name in
         let? type_args := bcs_seq bcs_type_tag type_args in
         Ok (bcs_array address ++ module ++ name ++ type_args))
  | TU16 => bcs_variant 8 (Ok [])
  | TU32 => bcs_variant 9 (Ok [])
  | TU256 => bcs_variant 10 (Ok [])
  end.

Definition bcs_entry_function (self : EntryFunction) : result string bytes :=
  let? module_name := bcs_string (module_name (module self)) in
  let? function := bcs_string (function self) in
  let? ty_args := bcs_seq bcs_type_tag (ty_args self) in
  let? args := bcs_seq bcs_vec_u8 (args self) in
  Ok ((bcs_array (module_address (module self)) ++ module_name) ++ function ++ ty_args ++ args).

End bcs.
End AptosBcs.

(** ** [models/signer_transaction.rs], [signer/payload.rs] and [signer/transaction.rs] *)

Module AptosTransactions.
Import AptosAddresses MoveTypes MoveParser AptosBcs.

Record Script := MkScript { code : bytes; script_ty_args : list TypeTag; script_args : list bytes }.
Record DeprecatedPayload := MkDeprecated { modules : list bytes }.
Inductive TransactionPayloadBCS :=
| PayloadScript (script : Script)
| PayloadModuleBundle (payload : DeprecatedPayload)
| PayloadEntryFunction (entry_function : EntryFunction).

Record RawTransaction := MkRaw {
  sender : AccountAddress;
  sequence_number : Z;
  payload : TransactionPayloadBCS;
  max_gas_amount : Z;
  gas_unit_price : Z;
  expiration_timestamp_secs : Z;
  chain_id : Z
}.
Record Ed25519Authenticator := MkAuthenticator { public_key : bytes; signature : bytes }.
Inductive TransactionAuthenticator := AuthenticatorEd25519 (authenticator : Ed25519Authenticator).
Record SignedTransaction := MkSigned { raw_tx : RawTransaction; authenticator : TransactionAuthenticator }.
Record SubmitTransactionBcsRequest := MkSubmit { submit_bcs : string; bcs_encoding : string }.

Record EntryFunctionPayload {Number : Type} := MkPayload {
  payload_type : string;
  payload_function : string;
  type_arguments : list string;
  arguments : list (Value Number)
}.
Arguments EntryFunctionPayload : clear implicits.

(** The readers and writers of [serde_json], with the text of their errors *)
Class AptosJson (Number : Type) : Type := {
  payload_from_str : string -> result string (EntryFunctionPayload Number);
  submit_to_string : SubmitTransactionBcsRequest -> result string string
}.

Definition ENTRY_FUNCTION_PAYLOAD_TYPE : string := "entry_function_payload".
Definition RAW_TRANSACTION_SALT : bytes := bytes_of_string "APTOS::RawTransaction".
Definition MESSAGE_SALT : bytes := bytes_of_string "APTOS::Message".

Section transactions.
Context `{Hex} `{HexErrorText} `{Lowercase} `{BigUintFromBytes} `{BigUintParse} {Number : Type} `{JsonNumbers Number} `{Bcs} `{Sha3}
  `{Ed25519} `{AptosJson Number}.

Definition encode_argument (value : Value Number) (arg_type : TypeTag) : result SignerError bytes :=
  let? move_value := parse_move_value arg_type value in
  map_err (fun err => InvalidInput ("Failed to encode Aptos argument: " +:+ err)) (bcs_value move_value).

Definition to_entry_function (self : EntryFunctionPayload Number) (abi : option (list string)) : result SignerError EntryFunction :=
  if negb (String.eqb (payload_type self) ENTRY_FUNCTION_PAYLOAD_TYPE) then
    Err (InvalidInput ("Unsupported Aptos payload type: " +:+ payload_type self)) else
  let? (module, function) := parse_function_id (payload_function self) in
  let? ty_args := collect parse_type_tag (type_arguments self) in
  let? arg_types :=
    match abi with
    | Some abi_types =>
        if negb (length abi_types =? length (arguments self))%nat then
          Err (InvalidInput "Aptos ABI length does not match arguments")
        else collect parse_type_tag abi_types
    | None => infer_type_tags (arguments self)
    end in
  let? args := collect (fun '(value, arg_type) => encode_argument value arg_type) (zip (arguments self) arg_types) in
  Ok (MkEntry module function ty_args args).

Definition build_raw_transaction (sender : AccountAddress) (sequence_number : Z) (payload : EntryFunction)
  (max_gas_amount gas_unit_price expiration_timestamp_secs chain_id : Z) : RawTransaction :=
  MkRaw sender sequence_number (PayloadEntryFunction payload) max_gas_amount gas_unit_price expiration_timestamp_secs chain_id.

(** [derive(Serialize)]: the fields in their order *)
Definition bcs_payload (self : TransactionPayloadBCS) : result string bytes :=
  match self with
  | PayloadScript script =>
      bcs_variant 0
        (let? code := bcs_vec_u8 (code script) in
         let? ty_args := bcs_seq bcs_type_tag (script_ty_args script) in
         let? args := bcs_seq bcs_vec_u8 (script_args script) in
         Ok (code ++ ty_args ++ args))
  | PayloadModuleBundle payload => bcs_variant 1 (bcs_seq bcs_vec_u8 (modules payload))
  | PayloadEntryFunction entry_function => bcs_variant 2 (bcs_entry_function entry_function)
  end.
Definition bcs_raw (self : RawTransaction) : result string bytes :=
  let? payload := bcs_payload (payload self) in
  Ok (bcs_array (sender self) ++ bcs_uint 8 (sequence_number self) ++ payload ++ bcs_uint 8 (max_gas_amount self)
      ++ bcs_uint 8 (gas_unit_price self) ++ bcs_uint 8 (expiration_timestamp_secs self) ++ bcs_uint 1 (chain_id self)).
Definition bcs_authenticator (self : TransactionAuthenticator) : result string bytes :=
  let 'AuthenticatorEd25519 authenticator := self in
  bcs_variant 0
    (let? public_key := bcs_vec_u8 (public_key authenticator) in
     let? signature := bcs_vec_u8 (signature authenticator) in
     Ok (public_key ++ signature)).
Definition bcs_signed (self : SignedTransaction) : result string bytes :=
  let? raw := bcs_raw (raw_tx self) in
  let? authenticator := bcs_authenticator (authenticator self) in
  Ok (raw ++ authenticator).

Definition sign_ed25519 (preimage private_key : bytes) : result SignerError (bytes * bytes) :=
  let? key_pair := from_private_key private_key in
  Ok (sign key_pair preimage, public_key_bytes key_pair).

Definition sign_raw_transaction (raw_tx : RawTransaction) (private_key : bytes) : result SignerError (bytes * bytes) :=
  let? raw_tx_bytes := map_err (fun err => InvalidInput ("Failed to encode Aptos transaction: " +:+ err)) (bcs_raw raw_tx) in
  let seed := sha3_256 RAW_TRANSACTION_SALT in
  sign_ed25519 (seed ++ raw_tx_bytes) private_key.

Definition sign_message (message private_key : bytes) : result SignerError (bytes * bytes) :=
  let seed := sha3_256 MESSAGE_SALT in
  sign_ed25519 (seed ++ message) private_key.

Definition ensure_length (input : bytes) (expected : nat) (label : string) : result SignerError bytes :=
  if negb (length input =? expected)%nat then
    Err (InvalidInput ("Invalid Aptos " +:+ label +:+ " length: expected " +:+ pretty (Z.of_nat expected) +:+ ", got "
                       +:+ pretty (Z.of_nat (length input))))
  else Ok input.

Definition build_submit_transaction_bcs (raw_tx : RawTransaction) (signature public_key : bytes) : result SignerError string :=
  let? public_key := ensure_length public_key 32 "public key" in
  let? signature := ensure_length signature 64 "signature" in
  let signed := MkSigned raw_tx (AuthenticatorEd25519 (MkAuthenticator public_key signature)) in
  let? bcs_bytes := map_err (fun err => InvalidInput ("Failed to encode Aptos signed transaction: " +:+ err)) (bcs_signed signed) in
  let request := MkSubmit (hex_encode bcs_bytes) "hex" in
  map_err InvalidInput (submit_to_string request).

(** [now] is the time since the epoch in seconds, if the clock is not before it. *)
Definition expiration_secs (now : option Z) : result SignerError Z :=
  let? now := ok_or now (InvalidInput "Invalid system time") in Ok (now + 3600).

End transactions.
End AptosTransactions.

(** ** [provider/payload_builder.rs] *)

Module AptosPayloads.
Import AptosAddresses AptosTransactions Payloads.

Definition APTOS_TRANSFER_FUNCTION : string := "0x1::aptos_account::transfer".
Definition DELEGATION_POOL_ADD_STAKE_FUNCTION : string := "0x1::delegation_pool::add_stake".
Definition DELEGATION_POOL_UNLOCK_FUNCTION : string := "0x1::delegation_pool::unlock".
Definition DELEGATION_POOL_WITHDRAW_FUNCTION : string := "0x1::delegation_pool::withdraw".

Record TransactionPayload {Number : Type} := MkTransactionPayload {
  transaction_function : option string;
  transaction_type_arguments : list string;
  transaction_arguments : list (Value Number);
  transaction_payload_type : string
}.
Arguments TransactionPayload : clear implicits.

(** The reader and the writer of [serde_json] for a [TransactionPayload] *)
Class PayloadJson (Number : Type) : Type := {
  transaction_payload_to_string : TransactionPayload Number -> string;
  transaction_payload_from_str : string -> result string (TransactionPayload Number)
}.

Section payloads.
Context `{Hex} {Number : Type} `{PayloadJson Number}.
Abbreviation Payload := (TransactionPayload Number).

Definition build_payload (function first_argument amount : string) : Payload :=
  MkTransactionPayload _ (Some function) [] [JString first_argument; JString amount] ENTRY_FUNCTION_PAYLOAD_TYPE.

Definition build_stake_transaction_payload (pool_address amount : string) : Payload :=
  build_payload DELEGATION_POOL_ADD_STAKE_FUNCTION pool_address amount.
Definition build_unstake_transaction_payload (pool_address amount : string) : Payload :=
  build_payload DELEGATION_POOL_UNLOCK_FUNCTION pool_address amount.
Definition build_withdraw_transaction_payload (pool_address amount : string) : Payload :=
  build_payload DELEGATION_POOL_WITHDRAW_FUNCTION pool_address amount.
Definition build_transfer_transaction_payload (recipient amount : string) : Payload :=
  build_payload APTOS_TRANSFER_FUNCTION recipient amount.

Definition build_fungible_transfer_transaction_payload (token_id recipient amount : string) : Payload :=
  MkTransactionPayload _ (Some "0x1::primary_fungible_store::transfer"%string) ["0x1::object::ObjectCore"%string]
    [JString token_id; JString recipient; JString amount] ENTRY_FUNCTION_PAYLOAD_TYPE.

Definition build_token_transfer_transaction_payload (token_id recipient amount : string) : result string Payload :=
  if negb (is_fungible_asset_token_id token_id) then Err "Invalid Aptos token ID format"%string
  else Ok (build_fungible_transfer_transaction_payload token_id recipient amount).

Definition build_swap_transaction_payload (token_id : option string) (swap_data : SwapQuoteData) : result string Payload :=
  match data_type swap_data with
  | PlainTransfer =>
      match token_id with
      | None => Ok (build_transfer_transaction_payload (quote_to swap_data) (pretty (quote_value swap_data)))
      | Some token_id => build_token_transfer_transaction_payload token_id (quote_to swap_data) (pretty (quote_value swap_data))
      end
  | ContractCall => transaction_payload_from_str (quote_data swap_data)
  end.

Definition build_stake_payload_data (pool_address amount : string) : string :=
  transaction_payload_to_string (build_stake_transaction_payload pool_address amount).
Definition build_unstake_payload_data (pool_address amount : string) : string :=
  transaction_payload_to_string (build_unstake_transaction_payload pool_address amount).
Definition build_withdraw_payload_data (pool_address amount : string) : string :=
  transaction_payload_to_string (build_withdraw_transaction_payload pool_address amount).

End payloads.
End AptosPayloads.

(** ** [signer/chain_signer.rs] *)

Module AptosSigner.
Import AptosAddresses MoveTypes MoveParser AptosTransactions AptosPayloads Payloads.

Definition PANORA_ROUTER_MODULE : string := "panora_swap".
Definition PANORA_ROUTER_FUNCTION : string := "router_entry".
Definition PANORA_ROUTER_ENTRY_PARAMS : list string :=
  ["0x1::option::Option<signer>"; "address"; "u64"; "u8"; "vector<u8>"; "vector<vector<vector<u8>>>"; "vector<vector<vector<u64>>>";
   "vector<vector<vector<bool>>>"; "vector<vector<u8>>"; "vector<vector<vector<address>>>"; "vector<vector<address>>";
   "vector<vector<address>>"; "0x1::option::Option<vector<vector<vector<vector<vector<u8>>>>>>"; "vector<vector<vector<u64>>>";
   "0x1::option::Option<vector<vector<vector<u8>>>>"; "address"; "vector<u64>"; "u64"; "u64"; "address"].

Definition APTOS_CHAIN_ID : Z := 1.
Definition FUNGIBLE_TRANSFER_FUNCTION : string := "0x1::primary_fungible_store::transfer".
Definition OBJECT_CORE_TYPE : string := "0x1::object::ObjectCore".
Definition STAKE_ENTRY_PARAMS : list string := ["address"; "u64"].
Definition FUNGIBLE_TRANSFER_ENTRY_PARAMS : list string := ["address"; "address"; "u64"].

Section signer.
Context `{Hex} `{HexErrorText} `{Lowercase} `{BigUintFromBytes} `{BigUintParse} {Number : Type} `{JsonNumbers Number} `{Bcs} `{Sha3}
  `{Ed25519} `{AptosJson Number}.
Abbreviation Payload := (EntryFunctionPayload Number).

Definition get_payload_abi (payload : Payload) : option (list string) :=
  if String.eqb (payload_function payload) DELEGATION_POOL_ADD_STAKE_FUNCTION
     || String.eqb (payload_function payload) DELEGATION_POOL_UNLOCK_FUNCTION
     || String.eqb (payload_function payload) DELEGATION_POOL_WITHDRAW_FUNCTION
  then Some STAKE_ENTRY_PARAMS else None.

Definition is_panora_router (function_id : string) : bool :=
  match split_colons function_id with
  | _ :: module :: function :: _ => String.eqb module PANORA_ROUTER_MODULE && String.eqb function PANORA_ROUTER_FUNCTION
  | _ => false
  end.

Definition prepare_panora_payload (payload : Payload) : result SignerError (Payload * option (list string)) :=
  let expected := length PANORA_ROUTER_ENTRY_PARAMS in
  let before_len := length (arguments payload) in
  let payload :=
    if (before_len + 1 =? expected)%nat then
      MkPayload _ (payload_type payload) (payload_function payload) (type_arguments payload) (JNull :: arguments payload)
    else payload in
  if negb (length (arguments payload) =? expected)%nat then Err (InvalidInput "Aptos ABI length does not match arguments")
  else Ok (payload, Some PANORA_ROUTER_ENTRY_PARAMS).

Definition prepare_payload (payload : Payload) : result SignerError (Payload * option (list string)) :=
  if is_panora_router (payload_function payload) then prepare_panora_payload payload
  else let abi := get_payload_abi payload in Ok (payload, abi).

Definition sequence_from_metadata (metadata : LoadMetadata.TransactionLoadMetadata) : result SignerError Z :=
  match metadata with
  | LoadMetadata.Aptos sequence _ => Ok sequence
  | _ => Err (InvalidInput "Missing Aptos sequence")
  end.

Definition sign_entry_function (now : option Z) (entry_function : EntryFunction) (input : ChainSignerInput) (private_key : bytes)
  (gas_limit : Z) : result SignerError string :=
  let? sender := from_hex (InputTypes.sender_address (load input)) in
  let? sequence := sequence_from_metadata (metadata input) in
  let? gas_unit_price := GasPrices.gas_price_u64 (fee_of input) in
  let? expiration := expiration_secs now in
  let raw_tx := build_raw_transaction sender sequence entry_function gas_limit gas_unit_price expiration APTOS_CHAIN_ID in
  let? (signature, public_key) := sign_raw_transaction raw_tx private_key in
  build_submit_transaction_bcs raw_tx signature public_key.

Definition sign_payload (now : option Z) (payload : Payload) (abi : option (list string)) (input : ChainSignerInput) (private_key : bytes)
  (gas_limit : Z) : result SignerError string :=
  let? entry_function := to_entry_function payload abi in
  sign_entry_function now entry_function input private_key gas_limit.

Definition transfer_payload (input : ChainSignerInput) : Payload :=
  MkPayload _ ENTRY_FUNCTION_PAYLOAD_TYPE APTOS_TRANSFER_FUNCTION []
    [JString (InputTypes.destination_address (load input)); JString (pretty (InputTypes.input_value (load input)))].

Definition sign_transfer (now : option Z) (input : ChainSignerInput) (private_key : bytes) : result SignerError string :=
  let payload := transfer_payload input in
  let? gas_limit := GasPrices.gas_limit_u64 (fee_of input) in
  sign_payload now payload (Some STAKE_ENTRY_PARAMS) input private_key gas_limit.

Definition token_transfer_payload (input : ChainSignerInput) : result SignerError (Payload * list string) :=
  let asset := asset_of input in
  let? token_id := ok_or (AssetIds.token_id (Assets.id asset)) (InvalidInput "Missing Aptos token id") in
  if negb (is_fungible_asset_token_id token_id) then Err (InvalidInput "Invalid Aptos token ID format") else
  Ok (MkPayload _ ENTRY_FUNCTION_PAYLOAD_TYPE FUNGIBLE_TRANSFER_FUNCTION [OBJECT_CORE_TYPE]
        [JString token_id; JString (InputTypes.destination_address (load input)); JString (pretty (InputTypes.input_value (load input)))],
      FUNGIBLE_TRANSFER_ENTRY_PARAMS).

Definition sign_token_transfer (now : option Z) (input : ChainSignerInput) (private_key : bytes) : result SignerError string :=
  let? gas_limit := GasPrices.gas_limit_u64 (fee_of input) in
  let? (payload, abi) := token_transfer_payload input in
  sign_payload now payload (Some abi) input private_key gas_limit.

(** The payload of a text *)
Definition read_payload (data : string) : result SignerError Payload := map_err InvalidInput (payload_from_str data).

Definition sign_swap (now : option Z) (input : ChainSignerInput) (private_key : bytes) : result SignerError (list string) :=
  match InputTypes.input_type (load input) with
  | InputTypes.Swap _ _ swap_data =>
      let? payload := read_payload (quote_data (Payloads.swap_data swap_data)) in
      let? (payload, abi) := prepare_payload payload in
      let? entry_function := to_entry_function payload abi in
      let? gas_limit := GasPrices.gas_limit_u64 (fee_of input) in
      let? signed := sign_entry_function now entry_function input private_key gas_limit in
      Ok [signed]
  | _ => Err (InvalidInput "Expected Aptos swap input")
  end.

Definition sign_stake (now : option Z) (input : ChainSignerInput) (private_key : bytes) : result SignerError (list string) :=
  match metadata input with
  | LoadMetadata.Aptos _ (Some data) =>
      let? payload := read_payload data in
      let? (payload, abi) := prepare_payload payload in
      let? entry_function := to_entry_function payload abi in
      let? gas_limit := GasPrices.gas_limit_u64 (fee_of input) in
      let? signed := sign_entry_function now entry_function input private_key gas_limit in
      Ok [signed]
  | _ => Err (InvalidInput "Missing Aptos stake payload")
  end.

Definition sign_message_text (message private_key : bytes) : result SignerError string :=
  let? (signature, _) := sign_message message private_key in Ok ("0x" +:+ hex_encode signature)%string.

Definition get_generic_payload (input : ChainSignerInput) : result SignerError (Payload * Z) :=
  match InputTypes.input_type (load input) with
  | InputTypes.Generic _ _ extra =>
      let? json :=
        match extra_data extra with
        | Some [] => Err (InvalidInput "Missing Aptos payload data")
        | Some bs => if utf8_valid bs then Ok (string_of_bytes bs) else Err (InvalidInput "Aptos payload must be valid UTF-8")
        | None =>
            match metadata input with
            | LoadMetadata.Aptos _ (Some json) => Ok json
            | _ => Err (InvalidInput "Missing Aptos payload data")
            end
        end in
      let? payload := read_payload json in
      let? gas_limit := GasPrices.gas_limit_u64 (fee_of input) in
      Ok (payload, gas_limit)
  | _ => Err (InvalidInput "Expected Aptos generic input")
  end.

Definition sign_data (now : option Z) (input : ChainSignerInput) (private_key : bytes) : result SignerError string :=
  let? (payload, gas_limit) := get_generic_payload input in
  let? (payload, abi) := prepare_payload payload in
  let? entry_function := to_entry_function payload abi in
  sign_entry_function now entry_function input private_key gas_limit.

End signer.
End AptosSigner.
