(* ===== verification/AptosFacts.v ===== *)
(** * Aptos: theorems

    The text of a type tag ([tag_text]) and that [parse_type_tag] reads it back; the type of a Move value ([has_type]) and
    that every argument of an entry function has the type of its parameter; that the BCS form of a transaction determines it;
    and what a request signs. *)
From stdpp Require Import pretty.
From S2P Require Import Prelude Utf8 HexText Text Crates ChainRegistry Assets BitcoinPlanner Transactions TransferAmount TransferRules Signing NumberFormatter Aptos.
Import BitcoinPlanner SignerInputs Keys.

(** ** Type tags and their text *)

Module MoveText.
Import AptosAddresses MoveTypes MoveParser HexCodec HexFacts Digits.

(** The induction principle of a type with the types of its arguments *)
Section tag_ind.
Variable P : TypeTag -> Prop.
Hypothesis leaf : forall t, match t with TVector _ | TStruct _ _ _ _ => False | _ => True end -> P t.
Hypothesis vector : forall t, P t -> P (TVector t).
Hypothesis struct : forall a m n ts, Forall P ts -> P (TStruct a m n ts).
Fixpoint tag_ind (t : TypeTag) : P t :=
  match t with
  | TVector t => vector t (tag_ind t)
  | TStruct a m n ts =>
      struct a m n ts ((fix go ts := match ts return Forall P ts with
                                     | [] => Forall_nil_2 _
                                     | t :: ts => Forall_cons_2 _ _ _ (tag_ind t) (go ts)
                                     end) ts)
  | t => leaf t I
  end.
End tag_ind.

(** A character of a Move identifier: a letter, a digit or an underscore *)
Definition ident_char (a : Ascii.ascii) : bool :=
  let n := Z.of_nat (Ascii.nat_of_ascii a) in
  ((48 <=? n) && (n <=? 57)) || ((65 <=? n) && (n <=? 90)) || ((97 <=? n) && (n <=? 122)) || (n =? 95).
Definition ident (s : string) : bool := string_forall ident_char s.

(** The canonical text of a type, which the Move documentation gives *)
Fixpoint tag_text `{Hex} (t : TypeTag) : string :=
  match t with
  | TBool => "bool" | TU8 => "u8" | TU16 => "u16" | TU32 => "u32" | TU64 => "u64" | TU128 => "u128" | TU256 => "u256"
  | TAddress => "address" | TSigner => "signer"
  | TVector inner => "vector<" +:+ tag_text inner +:+ ">"
  | TStruct address module name type_args =>
      to_string address +:+ "::" +:+ module +:+ "::" +:+ name
      +:+ match type_args with [] => "" | _ => "<" +:+ join "," (map tag_text type_args) +:+ ">" end
  end%string.

Fixpoint tag_depth (t : TypeTag) : nat :=
  match t with
  | TVector inner => S (tag_depth inner)
  | TStruct _ _ _ type_args => S (max_list (map tag_depth type_args))
  | _ => 1
  end.

(** Addresses are 32 bytes, and names are identifiers. *)
Fixpoint tag_ok (t : TypeTag) : bool :=
  match t with
  | TVector inner => tag_ok inner
  | TStruct address module name type_args =>
      bool_decide (all_bytes address) && (length address =? ADDRESS_LENGTH)%nat && ident module && ident name
      && forallb tag_ok type_args
  | _ => true
  end.

(** *** Strings *)

Lemma aptos_app_empty (s : string) : (s +:+ "")%string = s.
Proof. induction s as [|a s IH]; [done|]. rewrite string_app_cons. by rewrite IH. Qed.

Lemma trim_id s : forallb plain (bytes_of_string s) = true -> trim s = s.
Proof.
  intros P. pose proof (trim_plain [] s [] eq_refl eq_refl) as T. cbn [concat string_of_bytes] in T.
  rewrite append_nil in T. by apply T.
Qed.

Lemma ident_sub (p : Ascii.ascii -> bool) s : (forall a, ident_char a = true -> p a = true) -> ident s = true -> string_forall p s = true.
Proof.
  intros I. unfold ident. induction s as [|a s IH]; [done|]. cbn [string_forall].
  intros [A S]%andb_true_iff. rewrite I by done. by apply IH.
Qed.

Lemma ident_free c s : ident_char c = false -> ident s = true -> free_of c s = true.
Proof.
  intros C. apply ident_sub. intros a A. destruct (Ascii.eqb_spec a c) as [->|]; [congruence|done].
Qed.

Lemma ident_plain s : ident s = true -> forallb plain (bytes_of_string s) = true.
Proof.
  unfold ident. induction s as [|a s IH]; [done|]. cbn [string_forall bytes_of_string forallb].
  intros [A S]%andb_true_iff. rewrite (IH S), andb_true_r. unfold ident_char in A. unfold plain.
  repeat (apply orb_prop in A as [A|A]); zbool; lia.
Qed.

Lemma hex_ident s : string_forall is_hex_digit s = true -> ident s = true.
Proof.
  unfold ident. induction s as [|a s IH]; [done|]. cbn [string_forall]. intros [A S]%andb_true_iff.
  rewrite (IH S), andb_true_r. unfold is_hex_digit in A. unfold ident_char.
  clear -A. destruct a as [[] [] [] [] [] [] [] []]; vm_compute in A |- *; congruence.
Qed.

Lemma split_colons_free s : free_of ":" s = true -> split_colons s = [s].
Proof.
  induction s as [|a s IH]; [done|]. unfold free_of in *. cbn [string_forall]. intros [A F]%andb_true_iff.
  apply IH in F. destruct (Ascii.eqb_spec a ":") as [->|N]; [done|]. cbn [split_colons].
  destruct a as [[] [] [] [] [] [] [] []]; try (by rewrite F).
Qed.

Lemma split_colons_app s t : free_of ":" s = true -> split_colons (s +:+ "::" +:+ t) = s :: split_colons t.
Proof.
  induction s as [|a s IH]; [done|]. unfold free_of in *. cbn [string_forall]. intros [A F]%andb_true_iff.
  apply IH in F. rewrite string_app_cons. destruct (Ascii.eqb_spec a ":") as [->|N]; [done|]. cbn [split_colons].
  destruct a as [[] [] [] [] [] [] [] []]; try (by rewrite F).
Qed.

Lemma strip_last_app c s : strip_last c (s +:+ String c "") = Some s.
Proof.
  induction s as [|a s IH].
  { change (strip_last c _) with (if Ascii.eqb c c then Some EmptyString else None). by rewrite Ascii.eqb_refl. }
  rewrite string_app_cons.
  cbn [strip_last]. rewrite IH. by destruct s.
Qed.

Lemma find_free i c s : free_of c s = true -> free_of "<" s = true -> find_top_level 0 i s c = None.
Proof.
  unfold free_of. revert i. induction s as [|a s IH]; intros i; [done|]. cbn [string_forall find_top_level].
  intros [A F]%andb_true_iff [B G]%andb_true_iff. apply negb_true_iff in A, B. rewrite A, B.
  destruct (Ascii.eqb a ">"); by apply IH.
Qed.

Lemma find_first i s t : free_of "<" s = true -> find_top_level 0 i (s +:+ String "<" t) "<" = Some (i + String.length s)%nat.
Proof.
  unfold free_of. revert i. induction s as [|a s IH]; intros i.
  - intros _. change (Some i = Some (i + 0)%nat). f_equal. lia.
  - cbn [string_forall]. intros [B G]%andb_true_iff. rewrite string_app_cons. cbn [find_top_level String.length].
    apply negb_true_iff in B. rewrite B. cbn [Nat.eqb andb].
    replace (i + S (String.length s))%nat with (S i + String.length s)%nat by lia.
    destruct (Ascii.eqb a ">"); by apply IH.
Qed.

Lemma take_str_app s t : take_str (String.length s) (s +:+ t) = s.
Proof. induction s as [|a s IH]; [by destruct t|]. rewrite string_app_cons. cbn [String.length take_str]. by rewrite IH. Qed.

Lemma drop_str_app n s t : drop_str (String.length s + n) (s +:+ t) = drop_str n t.
Proof. induction s as [|a s IH]; [done|]. rewrite string_app_cons. cbn [String.length Nat.add drop_str]. apply IH. Qed.

(** *** Splitting at the commas of the top level *)

(** A text that is kept in one piece at any depth from [d] on *)
Definition whole (d : nat) (s : string) : Prop :=
  forall args depth seg rest, (d <= depth)%nat -> split_loop args depth seg (s +:+ rest) = split_loop args depth (seg +:+ s) rest.

Lemma whole_nil d : whole d "".
Proof. intros args depth seg rest _. rewrite aptos_app_empty. done. Qed.

Lemma aptos_whole_app d s t : whole d s -> whole d t -> whole d (s +:+ t).
Proof. intros S T args depth seg rest L. rewrite string_app_assoc, S, T by done. by rewrite string_app_assoc. Qed.

Lemma whole_mono d e s : (d <= e)%nat -> whole d s -> whole e s.
Proof. intros L S args depth seg rest M. apply S. lia. Qed.

Lemma whole_comma : whole 1 ",".
Proof. intros args depth seg rest L. destruct depth; [lia|]. done. Qed.

Lemma whole_angles s : whole 1 s -> whole 0 ("<" +:+ s +:+ ">").
Proof.
  intros S args depth seg rest _. rewrite string_app_assoc, string_app_cons. cbn [split_loop].
  change (Ascii.eqb "<" "<") with true. cbv iota. rewrite string_app_assoc. change ("" +:+ s +:+ ">" +:+ rest)%string with (s +:+ ">" +:+ rest)%string.
  rewrite S by lia. change (">" +:+ rest)%string with (String ">" rest). cbn [split_loop].
  change (Ascii.eqb ">" "<") with false. change (Ascii.eqb ">" ">") with true. cbv iota. by rewrite !string_app_assoc.
Qed.

Lemma whole_plain s : free_of "<" s = true -> free_of ">" s = true -> free_of "," s = true -> whole 0 s.
Proof.
  unfold free_of. induction s as [|a s IH]; [intros _ _ _; apply whole_nil|]. cbn [string_forall].
  intros [A1 A2]%andb_true_iff [B1 B2]%andb_true_iff [C1 C2]%andb_true_iff args depth seg rest _.
  apply negb_true_iff in A1, B1, C1. rewrite string_app_cons. cbn [split_loop]. rewrite A1, B1, C1. cbn [andb].
  rewrite IH by (done || lia). by rewrite string_app_assoc.
Qed.

Lemma whole_ident s : ident s = true -> whole 0 s.
Proof. intros I. by apply whole_plain; apply ident_free. Qed.

Lemma whole_join l : Forall (whole 0) l -> whole 1 (join "," l).
Proof.
  induction 1 as [|s l S F IH]; [apply whole_nil|]. cbn [join].
  destruct l; [by apply (whole_mono 0); [lia|]|].
  apply aptos_whole_app; [by apply (whole_mono 0); [lia|]|]. apply aptos_whole_app; [apply whole_comma|done].
Qed.

Lemma split_loop_join args l : Forall (fun s => whole 0 s /\ trim s = s /\ s <> ""%string) l -> l <> [] ->
  split_loop args 0 "" (join "," l) = Ok (args ++ l).
Proof.
  intros F. revert args. induction F as [|s l (W & T & N) F IH]; intros args E; [done|]. clear E.
  assert (P : push_arg s args = args ++ [s]).
  { unfold push_arg. rewrite T. destruct (String.eqb_spec s ""); [done|]. done. }
  destruct l as [|t l].
  - cbn [join]. rewrite <- (aptos_app_empty s) at 1. rewrite W by lia. cbn [split_loop].
    change ("" +:+ s)%string with s. by rewrite P.
  - change (join "," (s :: t :: l)) with (s +:+ "," +:+ join "," (t :: l))%string. rewrite W by lia.
    change ("," +:+ join "," (t :: l))%string with (String "," (join "," (t :: l))). cbn [split_loop].
    change (Ascii.eqb "," "<") with false. change (Ascii.eqb "," ">") with false. change (Ascii.eqb "," "," && (0 =? 0)%nat) with true.
    cbv iota. change ("" +:+ s)%string with s. rewrite P, IH by done. by rewrite <- app_assoc.
Qed.

(** *** The text of a tag *)

Section text.
Context `{HexLaws} `{HexErrorText}.

Lemma address_text a : all_bytes a -> ident (to_string a) = true.
Proof. intros B. change (ident (hex_encode a) = true). apply hex_ident, hex_encode_digits, B. Qed.

Lemma from_hex_text a : all_bytes a -> length a = ADDRESS_LENGTH -> from_hex (to_string a) = Ok a.
Proof.
  intros B L. unfold from_hex, from_str, decode_hex_, to_string.
  rewrite (decode_encoded a true B) by (apply trim_0x_digits, hex_encode_digits, B). cbn [map_err].
  unfold from_bytes. rewrite L, Nat.ltb_irrefl, Nat.sub_diag. done.
Qed.

Lemma tag_ok_struct a m n ts : tag_ok (TStruct a m n ts) = true ->
  (all_bytes a /\ length a = ADDRESS_LENGTH) /\ ident m = true /\ ident n = true /\ Forall (fun t => tag_ok t = true) ts.
Proof.
  cbn [tag_ok]. intros [[[[B%bool_decide_eq_true L%Nat.eqb_eq]%andb_true_iff M]%andb_true_iff N]%andb_true_iff T]%andb_true_iff.
  split_and!; try done. by apply List.Forall_forall, forallb_forall.
Qed.

Definition base_text (a : AccountAddress) (m n : string) : string := (to_string a +:+ "::" +:+ m +:+ "::" +:+ n)%string.

Lemma tag_text_struct a m n ts : tag_text (TStruct a m n ts) =
  (base_text a m n +:+ match ts with [] => "" | _ => "<" +:+ join "," (map tag_text ts) +:+ ">" end)%string.
Proof. unfold base_text. cbn [tag_text]. by rewrite !string_app_assoc. Qed.

Lemma free_of_app c s t : free_of c s = true -> free_of c t = true -> free_of c (s +:+ t) = true.
Proof. intros S T. unfold free_of. rewrite string_forall_app. by apply andb_true_iff. Qed.

Lemma base_free c a m n : all_bytes a -> ident m = true -> ident n = true -> ident_char c = false -> c <> ":"%char ->
  free_of c (base_text a m n) = true.
Proof.
  intros A M N C D. unfold base_text.
  assert (free_of c "::" = true) by (unfold free_of; cbn [string_forall]; destruct (Ascii.eqb_spec ":" c); [congruence|done]).
  repeat apply free_of_app; try done; by apply ident_free; try apply address_text.
Qed.

Lemma split_base a m n : all_bytes a -> ident m = true -> ident n = true -> split_colons (base_text a m n) = [to_string a; m; n].
Proof.
  intros A M N. unfold base_text. rewrite !split_colons_app by (apply ident_free; [done|]; try done; by apply address_text).
  by rewrite split_colons_free by (by apply ident_free).
Qed.

Lemma tag_whole t : tag_ok t = true -> whole 0 (tag_text t).
Proof.
  induction t as [t L|t IH|a m n ts IH] using tag_ind; intros O.
  - destruct t; try done; by apply whole_plain.
  - cbn [tag_text]. change ("vector<" +:+ tag_text t +:+ ">")%string with ("vector" +:+ ("<" +:+ tag_text t +:+ ">"))%string.
    apply aptos_whole_app; [by apply whole_plain|]. apply whole_angles, (whole_mono 0); [lia|]. by apply IH.
  - rewrite tag_text_struct. apply tag_ok_struct in O as ((A & _) & M & N & T).
    apply aptos_whole_app; [by apply whole_plain; apply base_free|]. destruct ts as [|t ts]; [apply whole_nil|].
    apply whole_angles, whole_join, Forall_map. rewrite List.Forall_forall in *. auto.
Qed.

Lemma join_plain l : Forall (fun s => forallb plain (bytes_of_string s) = true) l -> forallb plain (bytes_of_string (join "," l)) = true.
Proof.
  induction 1 as [|s l S F IH]; [done|]. cbn [join]. destruct l; [done|]. by rewrite !bytes_of_string_app, !forallb_app, S, IH.
Qed.

Lemma tag_plain t : tag_ok t = true -> forallb plain (bytes_of_string (tag_text t)) = true.
Proof.
  induction t as [t L|t IH|a m n ts IH] using tag_ind; intros O.
  - by destruct t.
  - cbn [tag_text]. rewrite !bytes_of_string_app, !forallb_app, IH by done. done.
  - rewrite tag_text_struct. apply tag_ok_struct in O as ((A & _) & M & N & T). unfold base_text.
    rewrite !bytes_of_string_app, !forallb_app, (ident_plain m), (ident_plain n), (ident_plain (to_string a)) by (done || by apply address_text). cbn [andb].
    destruct ts as [|t ts]; [done|]. rewrite !bytes_of_string_app, !forallb_app, join_plain; [done|].
    apply Forall_map. rewrite List.Forall_forall in *. auto.
Qed.

Lemma tag_nonempty t : tag_text t <> ""%string.
Proof. by destruct t. Qed.

Lemma split_type_args_text ts : ts <> [] -> Forall (fun t => tag_ok t = true) ts ->
  split_type_args (join "," (map tag_text ts)) = Ok (map tag_text ts).
Proof.
  intros N F. unfold split_type_args. rewrite split_loop_join; [done| |by destruct ts].
  apply Forall_map. eapply Forall_impl; [exact F|]. intros t O. cbn. split_and!; [by apply tag_whole|by apply trim_id, tag_plain|apply tag_nonempty].
Qed.

Lemma parse_struct_text parse a m n ts : tag_ok (TStruct a m n ts) = true -> Forall (fun t => parse (tag_text t) = Ok t) ts ->
  parse_struct_tag_with parse (tag_text (TStruct a m n ts)) = Ok (TStruct a m n ts).
Proof.
  intros ((A & L) & M & N & T)%tag_ok_struct P. rewrite tag_text_struct. unfold parse_struct_tag_with, find_top_level_char.
  assert (F : free_of "<" (base_text a m n) = true) by (by apply base_free).
  destruct ts as [|t ts].
  - rewrite aptos_app_empty, find_free by done. cbv beta iota zeta. rewrite split_base, from_hex_text by done. done.
  - assert (N0 : t :: ts <> []) by done. revert P T N0. generalize (t :: ts). clear t ts. intros ts P T N0.
    change ("<" +:+ join "," (map tag_text ts) +:+ ">")%string with (String "<" (join "," (map tag_text ts) +:+ ">")).
    rewrite find_first by done.
    replace (base_text a m n +:+ String "<" (join "," (map tag_text ts) +:+ ">"))%string
      with ((base_text a m n +:+ String "<" (join "," (map tag_text ts))) +:+ ">")%string by (by rewrite string_app_assoc).
    rewrite strip_last_app. cbv beta iota zeta.
    change (0 + ?x)%nat with x. rewrite string_app_assoc, take_str_app, drop_str_app.
    change (drop_str 1 _) with (join "," (map tag_text ts)).
    rewrite split_base, from_hex_text by done. cbv beta iota zeta.
    rewrite split_type_args_text by done. cbv beta iota zeta.
    assert (collect parse (map tag_text ts) = Ok ts) as ->; [|done].
    apply collect_ok_iff, Forall2_fmap_l, Forall_Forall2_diag. done.
Qed.

Lemma parse_levels_text t : tag_ok t = true -> forall n, (tag_depth t <= n)%nat -> parse_type_tag_levels n (tag_text t) = Ok t.
Proof.
  induction t as [t L|t IH|a m n ts IH] using tag_ind; intros O levels D.
  - destruct levels; [by destruct t; cbn in D; lia|]. by destruct t.
  - destruct levels; [cbn in D; lia|]. cbn [parse_type_tag_levels]. rewrite trim_id by (by apply tag_plain).
    cbn [tag_text]. change ("vector<" +:+ tag_text t +:+ ">")%string with ("vector<" +:+ (tag_text t +:+ ">"))%string.
    rewrite !string_app_cons. cbn [String.eqb Ascii.eqb Bool.eqb orb strip_prefix].
    change ("" +:+ tag_text t +:+ ">")%string with (tag_text t +:+ String ">" "")%string. rewrite strip_last_app, IH; [done..|].
    cbn [tag_depth] in D. lia.
  - destruct levels; [cbn in D; lia|]. cbn [parse_type_tag_levels]. rewrite trim_id by (by apply tag_plain).
    rewrite <- (parse_struct_text (parse_type_tag_levels levels) a m n ts O) at 1.
    + rewrite tag_text_struct. unfold base_text, to_string. rewrite !string_app_assoc, !string_app_cons. done.
    + cbn [tag_depth] in D. apply tag_ok_struct in O as (_ & _ & _ & T). rewrite List.Forall_forall in *. intros t E. apply IH; auto.
      assert (tag_depth t <= max_list (map tag_depth ts))%nat; [|lia]. apply max_list_elem_of_le, list_elem_of_fmap_2, list_elem_of_In, E.
Qed.

(** (C39) [parse_type_tag] reads back the text of every type tag that is not nested too deep: any address of 32 bytes, any
    identifiers, any nesting of vectors and of generic structs up to the limit [MAX_TYPE_TAG_DEPTH]. *)
Theorem type_tag_roundtrip (t : TypeTag) : tag_ok t = true -> (tag_depth t <= MAX_TYPE_TAG_DEPTH + 1)%nat ->
  parse_type_tag (tag_text t) = Ok t.
Proof. intros O D. by apply parse_levels_text. Qed.

End text.
End MoveText.

(** ** The types of arguments *)

Module MoveTyping.
Import AptosAddresses MoveTypes MoveParser HexCodec HexFacts AptosBcs AptosTransactions.

(** An address is 32 bytes. *)
Definition is_address (a : bytes) : Prop := all_bytes a /\ length a = ADDRESS_LENGTH.

(** The type of a value; an option is a vector of at most one value. *)
Fixpoint has_type (t : TypeTag) (v : MoveValue) : Prop :=
  match t, v with
  | TBool, VBool _ => True
  | TU8, VU8 n => in_width 8 n
  | TU16, VU16 n => in_width 16 n
  | TU32, VU32 n => in_width 32 n
  | TU64, VU64 n => in_width 64 n
  | TU128, VU128 n => in_width 128 n
  | TU256, VU256 bs => all_bytes bs /\ length bs = 32%nat
  | TAddress, VAddress a | TSigner, VSigner a => is_address a
  | TVector inner, VVector vs => Forall (has_type inner) vs
  | TStruct address module name (inner :: _), VVector vs =>
      is_option_struct address module name = true /\ (length vs <= 1)%nat /\ Forall (has_type inner) vs
  | _, _ => False
  end.

Section typing.
Context `{HexLaws} `{HexErrorText} `{Lowercase} `{BigUintFromBytesLaws} `{BigUintParseLaws} {Number : Type} `{JsonNumbers Number}.

Lemma decode_bytes s bs : decode_hex_ s = Ok bs -> all_bytes bs.
Proof.
  unfold decode_hex_. destruct (decode_hex s) eqn:D; [|done]. intros E.
  assert (a = bs) as -> by (cbn in E; congruence). by apply decode_hex_bytes in D.
Qed.

Lemma from_hex_address s a : from_hex s = Ok a -> is_address a.
Proof.
  unfold from_hex, from_str. destruct (decode_hex_ s) as [bs|] eqn:D; [|done]. apply decode_bytes in D.
  unfold from_bytes. destruct (Nat.ltb_spec ADDRESS_LENGTH (length bs)); [done|]. intros E.
  assert (a = replicate (ADDRESS_LENGTH - length bs) 0 ++ bs) as -> by congruence. split.
  - apply Forall_app. split; [by apply Forall_replicate|done].
  - rewrite length_app, length_replicate. lia.
Qed.

Lemma parse_u8_typed (value : Value Number) v : parse_u8 value = Ok v -> in_width 8 v.
Proof.
  unfold parse_u8. destruct (parse_numeric_string value "u8") as [text|]; [|done].
  unfold parse_u8_from_str. destruct (starts_0x _).
  - destruct (decode_hex_ text) as [[|b [|? ?]]|] eqn:D; try done. intros E. assert (b = v) as -> by congruence.
    apply decode_bytes in D. by inversion D.
  - unfold parse_dec_u8. destruct (u64_from_str_radix 10 _) as [w|] eqn:R; [|done].
    destruct (Z.leb_spec w 255); [|done]. intros E. assert (w = v) as -> by (cbn in E; congruence).
    apply from_str_radix_u64 in R; [|done]. unfold in_width in *. lia.
Qed.

Lemma unsigned_typed w text label v : parse_unsigned_from_str w text label = Ok v -> in_width w v.
Proof.
  unfold parse_unsigned_from_str. destruct (parse_big_uint_from_str text label); [|done].
  destruct (to_width 128 _) as [big|]; [|done]. cbn. destruct (to_width w big) as [u|] eqn:T; [|done].
  intros E. assert (u = v) as -> by (cbn in E; congruence). by apply to_width_Some in T as [_ T].
Qed.

Lemma parse_address_typed (value : Value Number) a : parse_address value = Ok a -> is_address a.
Proof. destruct value; try done; apply from_hex_address. Qed.

Lemma parse_u256_typed (value : Value Number) bs : parse_u256 value = Ok bs -> all_bytes bs /\ length bs = 32%nat.
Proof.
  unfold parse_u256. destruct (parse_numeric_string value _); [|done]. destruct (parse_big_uint_from_str _ _); [|done].
  destruct (_ <=? _); [done|]. intros E. assert (bs = le_bytes 32 a0) as -> by congruence.
  split; [apply le_bytes_bytes|apply le_bytes_length].
Qed.

(** Every value the parser accepts has the type it was parsed for. *)
Lemma parse_move_value_typed t : forall value v, parse_move_value (Number := Number) t value = Ok v -> has_type t v.
Proof.
  induction t as [t L|t IH|a m n ts IH] using MoveText.tag_ind; intros value v.
  - destruct t; try done; cbn [parse_move_value]; intros P;
      (case_match; [|done]);
      match type of P with Ok ?w = _ => assert (v = w) as -> by congruence end; clear P; cbn [has_type]; try done.
    all: try by eapply parse_u8_typed.
    all: try by eapply parse_address_typed.
    all: try by eapply parse_u256_typed.
    all: match goal with X : _ = Ok _ |- in_width _ _ => revert X end;
      unfold parse_u16, parse_u32, parse_u64, parse_u128; (case_match; [apply unsigned_typed|done]).
  - cbn [parse_move_value]. destruct value; try done.
    + destruct t; try done. destruct (decode_hex_ s) as [bs|] eqn:D; [|done]. apply decode_bytes in D. intros E.
      assert (v = VVector (map VU8 bs)) as -> by congruence. cbn. apply Forall_map. done.
    + destruct (collect _ _) as [parsed|] eqn:C; [|done]. intros E. assert (v = VVector parsed) as -> by congruence.
      apply collect_ok_iff in C. cbn. clear E. induction C; constructor; eauto.
  - cbn [parse_move_value]. destruct (is_option_struct a m n) eqn:O; [|done]. destruct ts as [|t ts]; [done|].
    inversion IH as [|? ? It _]; subst.
    assert (G : forall r : result SignerError MoveValue, (let? x := r in Ok (VVector [x])) = Ok v -> (forall x, r = Ok x -> has_type t x) -> has_type (TStruct a m n (t :: ts)) v).
    { intros [x|] E R; [|done]. assert (v = VVector [x]) as -> by congruence. cbn. split_and!; [done..|]. apply Forall_singleton. auto. }
    destruct value; try (intros E; apply (G _ E); intros x X; by apply It in X).
    intros E. assert (v = VVector []) as -> by congruence. cbn. split_and!; [done|lia|constructor].
Qed.

End typing.
End MoveTyping.

(** ** The BCS form determines the document *)

(** The [bcs] crate: a bool is a byte, an integer is little-endian, and a length in ULEB128 can be cut off what follows. *)
Class BcsLaws `{Bcs} : Prop := {
  bcs_bool_spec : forall b, bcs_bool b = [if b then 1 else 0];
  bcs_uint_spec : forall n v, in_width (8 * Z.of_nat n) v -> bcs_uint n v = le_bytes n v;
  bcs_uleb_prefix : forall x y bx bY r s, 0 <= x -> 0 <= y -> bcs_uleb x = Ok bx -> bcs_uleb y = Ok bY -> bx ++ r = bY ++ s -> x = y /\ r = s;
  bcs_uleb_bytes : forall x bx, bcs_uleb x = Ok bx -> all_bytes bx
}.

Module BcsCodes.
Import AptosAddresses MoveTypes MoveParser AptosBcs AptosTransactions MoveText MoveTyping.

(** An encoder that can fail, whose output can be cut off what follows *)
Definition code_at {A} (enc : A -> result string bytes) (valid : A -> Prop) (x : A) : Prop :=
  forall y bx bY r s, valid y -> enc x = Ok bx -> enc y = Ok bY -> bx ++ r = bY ++ s -> x = y /\ r = s.
Definition code {A} (enc : A -> result string bytes) (valid : A -> Prop) : Prop := forall x, valid x -> code_at enc valid x.

(** The addresses of a tag are 32 bytes. *)
Definition addressb (a : bytes) : bool := bool_decide (all_bytes a) && (length a =? ADDRESS_LENGTH)%nat.
Fixpoint tag_fits (t : TypeTag) : bool :=
  match t with
  | TVector inner => tag_fits inner
  | TStruct address _ _ type_args => addressb address && forallb tag_fits type_args
  | _ => true
  end.

Definition entry_fits (e : EntryFunction) : Prop :=
  is_address (module_address (module e)) /\ Forall (fun t => tag_fits t = true) (ty_args e) /\ Forall all_bytes (args e).
Definition payload_fits (p : TransactionPayloadBCS) : Prop :=
  match p with
  | PayloadScript script =>
      all_bytes (AptosTransactions.code script) /\ Forall (fun t => tag_fits t = true) (script_ty_args script) /\ Forall all_bytes (script_args script)
  | PayloadModuleBundle payload => Forall all_bytes (modules payload)
  | PayloadEntryFunction e => entry_fits e
  end.
(** The fields have the width of their types. *)
Definition raw_fits (r : RawTransaction) : Prop :=
  is_address (sender r) /\ is_u64 (sequence_number r) /\ payload_fits (payload r) /\ is_u64 (max_gas_amount r)
  /\ is_u64 (gas_unit_price r) /\ is_u64 (expiration_timestamp_secs r) /\ in_width 8 (chain_id r).
Definition authenticator_fits (a : TransactionAuthenticator) : Prop :=
  let 'AuthenticatorEd25519 a := a in all_bytes (public_key a) /\ all_bytes (signature a).

Section codes.
Context `{BcsLaws}.

Lemma addressb_iff a : addressb a = true <-> is_address a.
Proof. unfold addressb, is_address. by rewrite andb_true_iff, bool_decide_eq_true, Nat.eqb_eq. Qed.

(** *** Scalars, lists and variants *)

Lemma uint_code n : PrefixCode (bcs_uint n) (in_width (8 * Z.of_nat n)).
Proof. intros x y r s X Y E. rewrite !bcs_uint_spec in E by done. by apply (PrefixCodes.le_code n) in E. Qed.

Lemma bool_code : PrefixCode bcs_bool (fun _ => True).
Proof. intros x y r s _ _ E. rewrite !bcs_bool_spec in E. destruct x, y; by inversion E. Qed.

Lemma array_id bs : all_bytes bs -> bcs_array bs = bs.
Proof.
  unfold bcs_array. induction 1 as [|b bs B F IH]; [done|]. cbn [map concat]. rewrite IH, bcs_uint_spec by done.
  unfold le_bytes. rewrite (Z.mod_small b) by zlia. done.
Qed.

Lemma vec_bytes bs e : all_bytes bs -> bcs_vec_u8 bs = Ok e -> exists len, bcs_uleb (Z.of_nat (length bs)) = Ok len /\ e = len ++ bs.
Proof.
  intros B. unfold bcs_vec_u8, bcs_seq. destruct (bcs_uleb _) as [len|]; [|done].
  rewrite (collect_ok_map _ (bcs_uint 1)) by done. intros E. exists len. split; [done|].
  pose proof (array_id bs B) as A. unfold bcs_array in A. rewrite A in E. congruence.
Qed.

Lemma pure_code {A} (enc : A -> bytes) valid : PrefixCode enc valid -> code (fun x => Ok (enc x)) valid.
Proof. intros C x X y bx bY r s Y Ex Ey E. apply (C x y); congruence. Qed.

Lemma code_weaken {A} (enc : A -> result string bytes) (v w : A -> Prop) : (forall x, w x -> v x) -> code enc v -> code enc w.
Proof. intros I C x X y bx bY r s Y. apply C; auto. Qed.

Lemma sized_len {A B} (l : list A) (l' : list B) bx bY r s :
  bcs_uleb (Z.of_nat (length l)) = Ok bx -> bcs_uleb (Z.of_nat (length l')) = Ok bY -> bx ++ r = bY ++ s -> length l = length l' /\ r = s.
Proof. intros X Y E. apply (bcs_uleb_prefix (Z.of_nat (length l)) (Z.of_nat (length l'))) in E as [L E]; [split; [lia|done]|lia|lia|done..]. Qed.

Lemma vec_code : code bcs_vec_u8 all_bytes.
Proof.
  intros x X y bx bY r s Y Ex Ey E. apply vec_bytes in Ex as (lx & Lx & ->); [|done]. apply vec_bytes in Ey as (ly & Ly & ->); [|done].
  rewrite <- !app_assoc in E. eapply sized_len in E as [L E]; [|done..]. by apply app_inj_1 in E.
Qed.

Lemma string_code : code bcs_string (fun _ => True).
Proof.
  intros x _ y bx bY r s _. unfold bcs_string. destruct (bcs_uleb _) as [lx|] eqn:Lx; [|done].
  destruct (bcs_uleb (Z.of_nat (length (bytes_of_string y)))) as [ly|] eqn:Ly; [|done]. intros Ex Ey E.
  assert (bx = lx ++ bytes_of_string x) as -> by congruence. assert (bY = ly ++ bytes_of_string y) as -> by congruence.
  rewrite <- !app_assoc in E. eapply sized_len in E as [L E]; [|done..]. apply app_inj_1 in E as [E ->]; [|done].
  split; [by apply PrefixCodes.bytes_of_string_inj|done].
Qed.

(** Two lists of the same length, entry by entry *)
Lemma items_code {A} (enc : A -> result string bytes) valid l : Forall (code_at enc valid) l -> forall l' bx bY r s,
  Forall valid l' -> length l = length l' -> collect enc l = Ok bx -> collect enc l' = Ok bY ->
  concat bx ++ r = concat bY ++ s -> l = l' /\ r = s.
Proof.
  induction 1 as [|x l C F IH]; intros [|y l'] bx bY r s V L; try done.
  - cbn. intros Ex Ey E. assert (bx = []) as -> by congruence. assert (bY = []) as -> by congruence. done.
  - cbn [collect]. destruct (enc x) as [ex|] eqn:Ex; [|done]. destruct (collect enc l) as [xs|] eqn:Xs; [|done].
    destruct (enc y) as [ey|] eqn:Ey; [|done]. destruct (collect enc l') as [ys|] eqn:Ys; [|done]. intros Bx By E.
    assert (bx = ex :: xs) as -> by congruence. assert (bY = ey :: ys) as -> by congruence. cbn [concat] in E.
    rewrite <- !app_assoc in E. inversion_clear V. apply (C y ex ey) in E as [-> E]; [|done..].
    cbn [length] in L. apply (IH l' xs ys) in E as [-> ->]; [done|done|lia|done..].
Qed.

Lemma seq_at {A} (enc : A -> result string bytes) valid l : Forall (code_at enc valid) l -> code_at (bcs_seq enc) (Forall valid) l.
Proof.
  intros C l' bx bY r s V. unfold bcs_seq. destruct (bcs_uleb _) as [lx|] eqn:Lx; [|done]. destruct (collect enc l) as [xs|] eqn:X; [|done].
  destruct (bcs_uleb (Z.of_nat (length l'))) as [ly|] eqn:Ly; [|done]. destruct (collect enc l') as [ys|] eqn:Y; [|done].
  intros Ex Ey E. assert (bx = lx ++ concat xs) as -> by congruence. assert (bY = ly ++ concat ys) as -> by congruence.
  rewrite <- !app_assoc in E. eapply sized_len in E as [L E]; [|done..]. by eapply items_code.
Qed.

Lemma seq_code {A} (enc : A -> result string bytes) valid : code enc valid -> code (bcs_seq enc) (Forall valid).
Proof. intros C l V. apply seq_at. eapply Forall_impl; [exact V|]. exact C. Qed.

Lemma variant_inv i j f g bx bY r s : 0 <= i -> 0 <= j -> bcs_variant i f = Ok bx -> bcs_variant j g = Ok bY -> bx ++ r = bY ++ s ->
  i = j /\ exists fx gy, f = Ok fx /\ g = Ok gy /\ fx ++ r = gy ++ s.
Proof.
  intros I J. unfold bcs_variant. destruct (bcs_uleb i) as [ti|] eqn:Ti; [|done]. destruct f as [fx|]; [|done].
  destruct (bcs_uleb j) as [tj|] eqn:Tj; [|done]. destruct g as [gy|]; [|done]. intros Ex Ey E.
  assert (bx = ti ++ fx) as -> by congruence. assert (bY = tj ++ gy) as -> by congruence. rewrite <- !app_assoc in E.
  apply (bcs_uleb_prefix i j) in E as [-> E]; [|done..]. split; [done|]. by exists fx, gy.
Qed.

(** *** Values, tags and documents *)

Lemma value_code t : code bcs_value (has_type t).
Proof.
  induction t as [t L|t IH|a m n ts IH] using tag_ind; intros x X y bx bY r s Y.
  - destruct t; try done; destruct x; try done; destruct y; try done; cbn [bcs_value has_type] in *; intros Ex Ey E;
      apply (f_equal (fun r => match r with Ok b => b | Err _ => [] end)) in Ex, Ey; cbn in Ex, Ey; subst bx bY.
    all: try (apply uint_code in E as [-> ->]; [done|done..]).
    1: by apply bool_code in E as [-> ->].
    all: destruct X as [X LX], Y as [Y LY]; rewrite !array_id in E by done; apply app_inj_1 in E as [-> ->]; [done|congruence].
  - destruct x as [| | | | | | | | |xs]; try done. destruct y as [| | | | | | | | |ys]; try done. cbn [bcs_value has_type] in *.
    intros Ex Ey E. assert (xs = ys /\ r = s) as [-> ->]; [|done]. eapply (seq_code _ _ IH); [exact X|exact Y|done..].
  - destruct ts as [|t ts]; [by destruct x|]. inversion_clear IH as [|? ? It _].
    destruct x as [| | | | | | | | |xs]; try done. destruct y as [| | | | | | | | |ys]; try done. cbn [bcs_value has_type] in *.
    destruct X as (_ & _ & X), Y as (_ & _ & Y).
    intros Ex Ey E. assert (xs = ys /\ r = s) as [-> ->]; [|done]. eapply (seq_code _ _ It); [exact X|exact Y|done..].
Qed.

(** The position of a tag among the variants, and its fields *)
Definition tag_index (t : TypeTag) : Z :=
  match t with
  | TBool => 0 | TU8 => 1 | TU64 => 2 | TU128 => 3 | TAddress => 4 | TSigner => 5 | TVector _ => 6 | TStruct _ _ _ _ => 7
  | TU16 => 8 | TU32 => 9 | TU256 => 10
  end.
Definition struct_fields (address : bytes) (module name : string) (type_args : list TypeTag) : result string bytes :=
  let? module := bcs_string module in
  let? name := bcs_string name in
  let? type_args := bcs_seq bcs_type_tag type_args in
  Ok (bcs_array address ++ module ++ name ++ type_args).
Definition tag_fields (t : TypeTag) : result string bytes :=
  match t with
  | TVector inner => bcs_type_tag inner
  | TStruct address module name type_args => struct_fields address module name type_args
  | _ => Ok []
  end.

Lemma tag_variant t : bcs_type_tag t = bcs_variant (tag_index t) (tag_fields t).
Proof. by destruct t. Qed.

Lemma address_prefix a b r s : is_address a -> is_address b -> bcs_array a ++ r = bcs_array b ++ s -> a = b /\ r = s.
Proof. intros [A LA] [B LB] E. rewrite !array_id in E by done. apply app_inj_1 in E; [done|congruence]. Qed.

Lemma struct_at a m n ts : is_address a -> Forall (code_at bcs_type_tag (fun t => tag_fits t = true)) ts ->
  forall b m' n' us bx bY r s, is_address b -> Forall (fun t => tag_fits t = true) us ->
  struct_fields a m n ts = Ok bx -> struct_fields b m' n' us = Ok bY -> bx ++ r = bY ++ s ->
  TStruct a m n ts = TStruct b m' n' us /\ r = s.
Proof.
  intros A C b m' n' us bx bY r s B F. unfold struct_fields. 
  destruct (bcs_string m) as [em|] eqn:Em; [|done]. destruct (bcs_string n) as [en|] eqn:En; [|done].
  destruct (bcs_seq bcs_type_tag ts) as [et|] eqn:Et; [|done]. destruct (bcs_string m') as [fm|] eqn:Fm; [|done].
  destruct (bcs_string n') as [fn|] eqn:Fn; [|done]. destruct (bcs_seq bcs_type_tag us) as [ft|] eqn:Ft; [|done]. intros Ex Ey E.
  assert (bx = bcs_array a ++ em ++ en ++ et) as -> by congruence. assert (bY = bcs_array b ++ fm ++ fn ++ ft) as -> by congruence.
  rewrite <- !app_assoc in E. apply address_prefix in E as [-> E]; [|done..].
  apply (string_code m I m' em fm) in E as [-> E]; [|done..]. apply (string_code n I n' en fn) in E as [-> E]; [|done..].
  apply (seq_at _ _ _ C us et ft) in E as [-> ->]; done.
Qed.

Lemma fits_struct a m n ts : tag_fits (TStruct a m n ts) = true -> is_address a /\ Forall (fun t => tag_fits t = true) ts.
Proof. cbn [tag_fits]. intros [A%addressb_iff T]%andb_true_iff. split; [done|]. by apply List.Forall_forall, forallb_forall. Qed.

Lemma type_tag_code : code bcs_type_tag (fun t => tag_fits t = true).
Proof.
  intros t. induction t as [t L|t IH|a m n ts IH] using tag_ind; intros X u bx bY r s Y Ex Ey E;
    rewrite tag_variant in Ex, Ey; (eapply variant_inv in E as [I (fx & gy & Fx & Fy & E)]; [|shelve|shelve|exact Ex|exact Ey]); clear Ex Ey.
  - destruct t; try done; destruct u; try done; cbn in Fx, Fy; assert (fx = []) as -> by congruence; assert (gy = []) as -> by congruence; done.
  - destruct u; try done. cbn in Fx, Fy. by apply (IH X u fx gy) in E as [-> ->].
  - destruct u; try done. cbn [tag_fields] in Fx, Fy. apply fits_struct in X as [A T], Y as [B F].
    eapply struct_at; [exact A| |exact B|exact F|exact Fx|exact Fy|exact E].
    rewrite List.Forall_forall in *. auto.
  Unshelve. all: destruct u; cbn; lia || (destruct t; cbn; lia).
Qed.

Lemma entry_code : code bcs_entry_function entry_fits.
Proof.
  intros [[a mn] fn ts gs] (A & T & G) [[a' mn'] fn' ts' gs'] bx bY r s (A' & T' & G').
  cbn [module module_address ty_args args] in *. unfold bcs_entry_function. cbn [module module_address module_name function ty_args args].
  destruct (bcs_string mn) as [e1|] eqn:E1; [|done]. destruct (bcs_string fn) as [e2|] eqn:E2; [|done].
  destruct (bcs_seq bcs_type_tag ts) as [e3|] eqn:E3; [|done]. destruct (bcs_seq bcs_vec_u8 gs) as [e4|] eqn:E4; [|done].
  destruct (bcs_string mn') as [f1|] eqn:F1; [|done]. destruct (bcs_string fn') as [f2|] eqn:F2; [|done].
  destruct (bcs_seq bcs_type_tag ts') as [f3|] eqn:F3; [|done]. destruct (bcs_seq bcs_vec_u8 gs') as [f4|] eqn:F4; [|done].
  intros Ex Ey E. assert (bx = (bcs_array a ++ e1) ++ e2 ++ e3 ++ e4) as -> by congruence.
  assert (bY = (bcs_array a' ++ f1) ++ f2 ++ f3 ++ f4) as -> by congruence. rewrite <- !app_assoc in E.
  apply address_prefix in E as [-> E]; [|done..]. apply (string_code mn I mn' e1 f1) in E as [-> E]; [|done..].
  apply (string_code fn I fn' e2 f2) in E as [-> E]; [|done..].
  apply (seq_code _ _ type_tag_code ts T ts' e3 f3) in E as [-> E]; [|done..].
  by apply (seq_code _ _ vec_code gs G gs' e4 f4) in E as [-> ->].
Qed.

Lemma script_code c1 t1 g1 c2 t2 g2 bx bY r s :
  payload_fits (PayloadScript (MkScript c1 t1 g1)) -> payload_fits (PayloadScript (MkScript c2 t2 g2)) ->
  (let? code := bcs_vec_u8 c1 in let? ty_args := bcs_seq bcs_type_tag t1 in let? args := bcs_seq bcs_vec_u8 g1 in Ok (code ++ ty_args ++ args)) = Ok bx ->
  (let? code := bcs_vec_u8 c2 in let? ty_args := bcs_seq bcs_type_tag t2 in let? args := bcs_seq bcs_vec_u8 g2 in Ok (code ++ ty_args ++ args)) = Ok bY ->
  bx ++ r = bY ++ s -> (c1, t1, g1) = (c2, t2, g2) /\ r = s.
Proof.
  intros (C & T & G) (C' & T' & G'). cbn [AptosTransactions.code script_ty_args script_args] in *.
  destruct (bcs_vec_u8 c1) as [e1|] eqn:E1; [|done].
  destruct (bcs_seq bcs_type_tag t1) as [e3|] eqn:E3; [|done]. destruct (bcs_seq bcs_vec_u8 g1) as [e4|] eqn:E4; [|done].
  destruct (bcs_vec_u8 c2) as [f1|] eqn:F1; [|done].
  destruct (bcs_seq bcs_type_tag t2) as [f3|] eqn:F3; [|done]. destruct (bcs_seq bcs_vec_u8 g2) as [f4|] eqn:F4; [|done].
  intros Ex Ey E. assert (bx = e1 ++ e3 ++ e4) as -> by congruence. assert (bY = f1 ++ f3 ++ f4) as -> by congruence.
  rewrite <- !app_assoc in E. apply (vec_code c1 C c2 e1 f1) in E as [-> E]; [|done..].
  apply (seq_code _ _ type_tag_code t1 T t2 e3 f3) in E as [-> E]; [|done..].
  by apply (seq_code _ _ vec_code g1 G g2 e4 f4) in E as [-> ->].
Qed.

Lemma payload_code : code bcs_payload payload_fits.
Proof.
  intros x X y bx bY r s Y Ex Ey E.
  destruct x as [[c t g]|[ms]|e], y as [[c' t' g']|[ms']|e']; cbn [bcs_payload] in Ex, Ey;
    (eapply variant_inv in E as [I (fx & gy & Fx & Fy & E)]; [|shelve|shelve|exact Ex|exact Ey]); clear Ex Ey; try done; cbn [AptosTransactions.code script_ty_args script_args modules] in *.
  - eapply script_code in E as [K ->]; [|exact X|exact Y|exact Fx|exact Fy]. by inversion K.
  - by apply (seq_code _ _ vec_code ms X ms' fx gy) in E as [-> ->].
  - by apply (entry_code e X e' fx gy) in E as [-> ->].
  Unshelve. all: lia.
Qed.

Lemma raw_code : code bcs_raw raw_fits.
Proof.
  intros x X y bx bY r s Y. destruct x as [a n p g u e c], y as [a' n' p' g' u' e' c'].
  destruct X as (XA & XN & XP & XG & XU & XE & XC), Y as (YA & YN & YP & YG & YU & YE & YC).
  unfold bcs_raw. cbn [sender sequence_number payload max_gas_amount gas_unit_price expiration_timestamp_secs chain_id] in *.
  destruct (bcs_payload p) as [ep|] eqn:Ep; [|done]. destruct (bcs_payload p') as [fp|] eqn:Fp; [|done].
  intros Ex Ey E. apply (f_equal (fun r => match r with Ok b => b | Err _ => [] end)) in Ex, Ey. cbv beta iota in Ex, Ey. subst bx bY.
  rewrite <- !app_assoc in E. apply address_prefix in E as [-> E]; [|done..]. apply uint_code in E as [-> E]; [|done..].
  apply (payload_code p XP p' ep fp) in E as [-> E]; [|done..].
  do 4 (apply uint_code in E as [-> E]; [|done..]). done.
Qed.

Lemma authenticator_code : code bcs_authenticator authenticator_fits.
Proof.
  intros [[k s1]] [K S] [[k' s2]] bx bY r s [K' S'] Ex Ey E. cbn [bcs_authenticator public_key signature] in *.
  eapply variant_inv in E as [I (fx & gy & Fx & Fy & E)]; [|done|done|exact Ex|exact Ey]. clear Ex Ey.
  destruct (bcs_vec_u8 k) as [e1|] eqn:E1; [|done]. destruct (bcs_vec_u8 s1) as [e2|] eqn:E2; [|done].
  destruct (bcs_vec_u8 k') as [f1|] eqn:F1; [|done]. destruct (bcs_vec_u8 s2) as [f2|] eqn:F2; [|done].
  assert (fx = e1 ++ e2) as -> by congruence. assert (gy = f1 ++ f2) as -> by congruence. rewrite <- !app_assoc in E.
  apply (vec_code k K k' e1 f1) in E as [-> E]; [|done..]. by apply (vec_code s1 S s2 e2 f2) in E as [-> ->].
Qed.

Lemma signed_code : code bcs_signed (fun t => raw_fits (raw_tx t) /\ authenticator_fits (authenticator t)).
Proof.
  intros [x a] [X A] [y b] bx bY r s [Y B]. unfold bcs_signed. cbn [raw_tx authenticator] in *.
  destruct (bcs_raw x) as [ex|] eqn:Ex; [|done]. destruct (bcs_authenticator a) as [ea|] eqn:Ea; [|done].
  destruct (bcs_raw y) as [ey|] eqn:Ey; [|done]. destruct (bcs_authenticator b) as [eb|] eqn:Eb; [|done].
  intros Bx By E. assert (bx = ex ++ ea) as -> by congruence. assert (bY = ey ++ eb) as -> by congruence.
  rewrite <- !app_assoc in E. apply (raw_code x X y ex ey) in E as [-> E]; [|done..].
  by apply (authenticator_code a A b ea eb) in E as [-> ->].
Qed.

End codes.
End BcsCodes.

(** ** What the requests sign *)

Module AptosProperties.
Import AptosAddresses MoveTypes MoveParser HexCodec HexFacts AptosBcs AptosTransactions AptosPayloads MoveText MoveTyping BcsCodes AptosSigner Payloads.

(** Distinct requests have distinct JSON texts. *)
Class AptosJsonLaws {Number} `{AptosJson Number} : Prop := {
  submit_to_string_inj : forall x y t, submit_to_string x = Ok t -> submit_to_string y = Ok t -> x = y
}.

Section properties.
Context `{HexLaws} `{HexErrorText} `{Lowercase} `{BigUintFromBytesLaws} `{BigUintParseLaws} {Number : Type} `{JsonNumbers Number}
  `{BcsLaws} `{Sha3} `{Ed25519Laws} `{AJ : AptosJson Number} `{AJL : !AptosJsonLaws}.

(** *** Entry functions *)

Lemma struct_fits parse value t : (forall s u, parse s = Ok u -> tag_fits u = true) -> parse_struct_tag_with parse value = Ok t -> tag_fits t = true.
Proof.
  intros P. unfold parse_struct_tag_with.
  destruct (match find_top_level_char value "<" with Some _ => _ | None => _ end) as [[base args]|]; [|done].
  destruct (split_colons base) as [|address [|m [|n [|? ?]]]]; try done.
  destruct (from_hex address) as [a|] eqn:A; [|done]. apply from_hex_address, addressb_iff in A.
  destruct (match args with Some _ => _ | None => _ end) as [ts|] eqn:T; [|done]. intros E.
  assert (t = TStruct a m n ts) as -> by congruence. cbn [tag_fits]. rewrite A. cbn [andb].
  destruct args as [args|]; [|by assert (ts = []) as -> by congruence].
  destruct (split_type_args args) as [l|]; [|done]. apply collect_ok_iff in T. clear E.
  induction T as [|x y l ts X T IH]; [done|]. cbn. rewrite (P _ _ X). done.
Qed.

Lemma levels_fits n : forall s t, parse_type_tag_levels n s = Ok t -> tag_fits t = true.
Proof.
  induction n as [|n IH]; intros s t; [done|]. cbn [parse_type_tag_levels].
  assert (L : forall u, Ok (E := SignerError) u = Ok t -> tag_fits u = true -> tag_fits t = true) by congruence.
  repeat (match goal with |- (if ?b then _ else _) = _ -> _ => destruct b; [intros E; by apply (L _ E)|] end).
  case_match; [|by apply struct_fits].
  destruct (parse_type_tag_levels n _) as [inner|] eqn:I; [|done]. intros E. apply (L _ E). cbn [tag_fits]. eapply IH, I.
Qed.

Lemma parse_tag_fits s t : parse_type_tag s = Ok t -> tag_fits t = true.
Proof. apply levels_fits. Qed.

Lemma vec_u8_bytes bs e : all_bytes bs -> bcs_vec_u8 bs = Ok e -> all_bytes e.
Proof. intros B E. apply vec_bytes in E as (len & L & ->); [|done]. apply bcs_uleb_bytes in L. by apply Forall_app. Qed.

Lemma seq_bytes {A} (enc : A -> result string bytes) (l : list A) e :
  Forall (fun x => forall b, enc x = Ok b -> all_bytes b) l -> bcs_seq enc l = Ok e -> all_bytes e.
Proof.
  intros F. unfold bcs_seq. destruct (bcs_uleb _) as [len|] eqn:L; [|done]. apply bcs_uleb_bytes in L.
  destruct (collect enc l) as [items|] eqn:C; [|done]. apply collect_ok_iff in C. intros E. assert (e = len ++ concat items) as -> by congruence.
  apply Forall_app. split; [done|]. clear -F C. induction C; [constructor|]. inversion_clear F. cbn. apply Forall_app. auto.
Qed.

Lemma aptos_value_bytes t : forall v b, has_type t v -> bcs_value v = Ok b -> all_bytes b.
Proof.
  assert (U : forall n v, in_width (8 * Z.of_nat n) v -> all_bytes (bcs_uint n v)) by (intros; rewrite bcs_uint_spec by done; apply le_bytes_bytes).
  induction t as [t L|t IH|a m n ts IH] using tag_ind; intros v b T E.
  - destruct t; try done; destruct v; try done; cbn [bcs_value has_type] in *; apply (f_equal (fun r => match r with Ok b => b | Err _ => [] end)) in E;
      cbv beta iota in E; subst b; try (by apply U).
    1: rewrite bcs_bool_spec; by destruct b0; apply PrefixCodes.byte_singleton.
    all: destruct T as [T _]; by rewrite array_id.
  - destruct v; try done. cbn [bcs_value has_type] in *. eapply seq_bytes; [|exact E]. eapply Forall_impl; [exact T|]. cbn. eauto.
  - destruct ts as [|t ts]; [by destruct v|]. destruct v; try done. inversion_clear IH as [|? ? It _]. cbn [bcs_value has_type] in *.
    destruct T as (_ & _ & T). eapply seq_bytes; [|exact E]. eapply Forall_impl; [exact T|]. cbn. eauto.
Qed.

(** The arguments of an entry function, their types and the values they are the BCS form of *)
Definition arguments_typed (types : list TypeTag) (arguments : list (Value Number)) (values : list MoveValue) (args : list bytes) : Prop :=
  length types = length arguments
  /\ Forall2 (fun '(argument, type) value => parse_move_value type argument = Ok value) (zip arguments types) values
  /\ Forall2 has_type types values /\ Forall2 (fun value bs => bcs_value value = Ok bs) values args.

Lemma encode_arguments types arguments args : length types = length arguments ->
  collect (fun '(value, arg_type) => encode_argument value arg_type) (zip arguments types) = Ok args ->
  exists values, arguments_typed types arguments values args.
Proof.
  intros L C. apply collect_ok_iff in C. unfold arguments_typed.
  assert (G : exists values, Forall2 (fun '(argument, type) value => parse_move_value type argument = Ok value) (zip arguments types) values
    /\ Forall2 has_type types values /\ Forall2 (fun value bs => bcs_value value = Ok bs) values args).
  { revert types args L C. induction arguments as [|x arguments IH]; intros [|t types] args L C; try done.
    - inversion_clear C. by exists [].
    - cbn [zip zip_with] in *. inversion_clear C as [|? bs ? rest X C']. cbn [length] in L. apply IH in C' as (values & P & T & B); [|lia].
      unfold encode_argument in X. destruct (parse_move_value t x) as [v|] eqn:V; [|done].
      destruct (bcs_value v) as [e|] eqn:E; [|done]. assert (e = bs) as -> by (cbn in X; congruence).
      exists (v :: values). split_and!; constructor; try done. by eapply parse_move_value_typed. }
  destruct G as (values & G). by exists values.
Qed.

(** What an entry function is built from *)
Definition built_from (p : EntryFunctionPayload Number) (types : list TypeTag) (values : list MoveValue) (e : EntryFunction) : Prop :=
  payload_type p = ENTRY_FUNCTION_PAYLOAD_TYPE /\ parse_function_id (payload_function p) = Ok (module e, function e)
  /\ Forall2 (fun s t => parse_type_tag s = Ok t) (type_arguments p) (ty_args e)
  /\ arguments_typed types (arguments p) values (args e).

Lemma entry_function_built p abi e : to_entry_function p abi = Ok e -> exists types values,
  match abi with
  | Some abi => Forall2 (fun s t => parse_type_tag s = Ok t) abi types
  | None => Forall2 (fun a t => infer_type_tag a = Ok t) (arguments p) types
  end /\ built_from p types values e.
Proof.
  unfold to_entry_function. destruct (String.eqb_spec (payload_type p) ENTRY_FUNCTION_PAYLOAD_TYPE) as [K|]; [|done]. cbn [negb].
  destruct (parse_function_id _) as [[md fn]|] eqn:F; [|done]. destruct (collect parse_type_tag (type_arguments p)) as [tys|] eqn:T; [|done].
  destruct (match abi with Some _ => _ | None => _ end) as [types|] eqn:A; [|done].
  destruct (collect _ (zip _ _)) as [gs|] eqn:G; [|done]. intros E. assert (e = MkEntry md fn tys gs) as -> by congruence. clear E.
  assert (length types = length (arguments p) /\ match abi with
    | Some abi => Forall2 (fun s t => parse_type_tag s = Ok t) abi types
    | None => Forall2 (fun a t => infer_type_tag a = Ok t) (arguments p) types end) as [L M].
  { destruct abi as [abi|].
    - destruct (Nat.eqb_spec (length abi) (length (arguments p))) as [L|]; [|done]. cbn [negb] in A. apply collect_ok_iff in A.
      split; [|done]. apply Forall2_length in A. congruence.
    - apply collect_ok_iff in A. split; [|done]. by apply Forall2_length in A. }
  apply encode_arguments in G as (values & G); [|done]. exists types, values. split; [done|]. split_and!; try done.
  by apply collect_ok_iff in T.
Qed.

Lemma entry_function_fits p abi e : to_entry_function p abi = Ok e -> entry_fits e.
Proof.
  intros (types & values & _ & _ & F & T & _ & _ & V & B)%entry_function_built. split_and!.
  - unfold parse_function_id in F. destruct (split_colons _) as [|a [|m [|f [|? ?]]]]; try done.
    destruct (from_hex a) as [a'|] eqn:A; [|done]. apply from_hex_address in A. by assert (module e = MkModule a' m) as -> by congruence.
  - induction T as [|s t l ts X T IH]; constructor; [by eapply parse_tag_fits|done].
  - clear T. revert V B. generalize (args e). intros gs V. revert gs.
    induction V; intros gs B; inversion_clear B; constructor; [by eapply aptos_value_bytes|auto].
Qed.

(** (C40) Every argument of an entry function is the BCS form of a value of the type of its parameter: the arguments are as
    many as the parameters the ABI gives, each is read as its parameter's type, and an integer that its width cannot hold,
    an address that is not 32 bytes or a nested value of another type is refused. *)
Theorem entry_function_typed (p : EntryFunctionPayload Number) (abi : list string) (e : EntryFunction) :
  to_entry_function p (Some abi) = Ok e -> exists types values,
  Forall2 (fun s t => parse_type_tag s = Ok t) abi types /\ built_from p types values e.
Proof. intros (types & values & A & B)%entry_function_built. by exists types, values. Qed.

(** *** Signed transactions *)

(** The text of a signed transaction, with the signature of the key over its BCS form *)
Definition signed_text (raw : RawTransaction) (key : bytes) (text : string) : Prop := exists kp preimage signed,
  from_private_key key = Ok kp /\ bcs_raw raw = Ok preimage
  /\ bcs_signed (MkSigned raw (AuthenticatorEd25519
       (MkAuthenticator (public_key_bytes kp) (sign kp (sha3_256 RAW_TRANSACTION_SALT ++ preimage))))) = Ok signed
  /\ submit_to_string (MkSubmit (hex_encode signed) "hex") = Ok text.

(** Whatever signed transaction has the text, its document is [raw]. *)
Definition only_document (raw : RawTransaction) (text : string) : Prop := forall other bs,
  raw_fits (raw_tx other) -> authenticator_fits (authenticator other) -> bcs_signed other = Ok bs ->
  submit_to_string (MkSubmit (hex_encode bs) "hex") = Ok text -> raw_tx other = raw.

Lemma encoded_inj b c : all_bytes b -> all_bytes c -> hex_encode b = hex_encode c -> b = c.
Proof. intros B C E. apply (f_equal hex_decode) in E. rewrite !hex_roundtrip in E by done. congruence. Qed.

Lemma variant_bytes i f b : (forall x, f = Ok x -> all_bytes x) -> bcs_variant i f = Ok b -> all_bytes b.
Proof.
  intros F. unfold bcs_variant. destruct (bcs_uleb i) as [t|] eqn:T; [|done]. apply bcs_uleb_bytes in T. destruct f as [x|]; [|done].
  intros E. assert (b = t ++ x) as -> by congruence. apply Forall_app. auto.
Qed.

Lemma string_bytes s b : bcs_string s = Ok b -> all_bytes b.
Proof.
  unfold bcs_string. destruct (bcs_uleb _) as [t|] eqn:T; [|done]. apply bcs_uleb_bytes in T. intros E.
  assert (b = t ++ bytes_of_string s) as -> by congruence. apply Forall_app. split; [done|apply PrefixCodes.all_bytes_string].
Qed.

Lemma aptos_address_bytes a : is_address a -> all_bytes (bcs_array a).
Proof. intros [A _]. by rewrite array_id. Qed.

Lemma tag_bytes t b : tag_fits t = true -> bcs_type_tag t = Ok b -> all_bytes b.
Proof.
  revert b. induction t as [t L|t IH|a m n ts IH] using tag_ind; intros b F; rewrite tag_variant; apply variant_bytes; intros x.
  - destruct t; try done; cbn; intros E; assert (x = []) as -> by congruence; constructor.
  - by apply IH.
  - apply fits_struct in F as [A F]. cbn [tag_fields]. unfold struct_fields.
    destruct (bcs_string m) as [em|] eqn:Em; [|done]. destruct (bcs_string n) as [en|] eqn:En; [|done].
    destruct (bcs_seq bcs_type_tag ts) as [et|] eqn:Et; [|done]. intros E. assert (x = bcs_array a ++ em ++ en ++ et) as -> by congruence.
    repeat (apply Forall_app; split); [by apply aptos_address_bytes|by eapply string_bytes|by eapply string_bytes|].
    eapply seq_bytes; [|exact Et]. rewrite List.Forall_forall in *. intros u U c C. apply (IH u U); [by apply F|done].
Qed.

Lemma tags_bytes ts b : Forall (fun t => tag_fits t = true) ts -> bcs_seq bcs_type_tag ts = Ok b -> all_bytes b.
Proof. intros F. apply seq_bytes. eapply Forall_impl; [exact F|]. cbn. intros t T c. by apply tag_bytes. Qed.
Lemma vecs_bytes l b : Forall all_bytes l -> bcs_seq bcs_vec_u8 l = Ok b -> all_bytes b.
Proof. intros F. apply seq_bytes. eapply Forall_impl; [exact F|]. cbn. intros t T c. by apply vec_u8_bytes. Qed.

Lemma payload_bytes p b : payload_fits p -> bcs_payload p = Ok b -> all_bytes b.
Proof.
  destruct p as [[c t g]|[ms]|e]; cbn [bcs_payload payload_fits]; intros F; apply variant_bytes; intros x.
  - destruct F as (C & T & G). cbn [AptosTransactions.code script_ty_args script_args] in *.
    destruct (bcs_vec_u8 c) as [e1|] eqn:E1; [|done]. destruct (bcs_seq bcs_type_tag t) as [e2|] eqn:E2; [|done].
    destruct (bcs_seq bcs_vec_u8 g) as [e3|] eqn:E3; [|done]. intros E. assert (x = e1 ++ e2 ++ e3) as -> by congruence.
    repeat (apply Forall_app; split); [by eapply vec_u8_bytes|by eapply tags_bytes|by eapply vecs_bytes].
  - by apply vecs_bytes.
  - destruct F as (A & T & G). unfold bcs_entry_function.
    destruct (bcs_string (module_name _)) as [e1|] eqn:E1; [|done]. destruct (bcs_string (function e)) as [e2|] eqn:E2; [|done].
    destruct (bcs_seq bcs_type_tag _) as [e3|] eqn:E3; [|done]. destruct (bcs_seq bcs_vec_u8 _) as [e4|] eqn:E4; [|done].
    intros E. assert (x = (bcs_array (module_address (module e)) ++ e1) ++ e2 ++ e3 ++ e4) as -> by congruence.
    repeat (apply Forall_app; split); [by apply aptos_address_bytes|by eapply string_bytes|by eapply string_bytes|by eapply tags_bytes|by eapply vecs_bytes].
Qed.

Lemma signed_bytes_bytes t b : raw_fits (raw_tx t) -> authenticator_fits (authenticator t) -> bcs_signed t = Ok b -> all_bytes b.
Proof.
  destruct t as [raw [[k s]]]. intros (XA & XN & XP & XG & XU & XE & XC) [K S]. cbn [raw_tx public_key signature] in *.
  unfold bcs_signed, bcs_raw. cbn [raw_tx authenticator]. destruct (bcs_payload (payload raw)) as [p|] eqn:P; [|done].
  destruct (bcs_authenticator _) as [a|] eqn:A; [|done]. intros E. apply (f_equal (fun r => match r with Ok b => b | Err _ => [] end)) in E.
  cbv beta iota in E. subst b. rewrite !bcs_uint_spec by done.
  repeat (apply Forall_app; split); try apply le_bytes_bytes; [by apply aptos_address_bytes|exact (payload_bytes _ _ XP P)|].
  eapply variant_bytes; [|exact A]. intros x. cbn [public_key signature].
  destruct (bcs_vec_u8 k) as [e1|] eqn:E1; [|done]. destruct (bcs_vec_u8 s) as [e2|] eqn:E2; [|done].
  intros E. assert (x = e1 ++ e2) as -> by congruence. apply Forall_app. split; [exact (vec_u8_bytes _ _ K E1)|exact (vec_u8_bytes _ _ S E2)].
Qed.

Lemma key_pair_fits key kp message : from_private_key key = Ok kp ->
  authenticator_fits (AuthenticatorEd25519 (MkAuthenticator (public_key_bytes kp) (sign kp message))).
Proof.
  unfold from_private_key. destruct (_ =? _)%nat; [|done]. intros E. assert (kp = MkPair key (ed25519_verifying_key key)) as -> by congruence.
  split; [apply ed25519_key_bytes|apply ed25519_signature_bytes].
Qed.

Lemma text_document raw key text : raw_fits raw -> signed_text raw key text -> only_document raw text.
Proof.
  intros F (kp & preimage & signed & K & P & S & T) other bs FO FA E U. apply (key_pair_fits _ _ (sha3_256 RAW_TRANSACTION_SALT ++ preimage)) in K.
  pose proof (submit_to_string_inj _ _ _ T U) as [= Q]. apply encoded_inj in Q as ->; [|exact (signed_bytes_bytes (MkSigned raw _) _ F K S)|exact (signed_bytes_bytes other bs FO FA E)].
  apply (signed_code (MkSigned raw _) (conj F K) other bs bs [] []) in E; [|by split|exact S|done]. destruct E as [E _]. by rewrite <- E.
Qed.

(** The bytes an Aptos key signs determine the transaction, and so does the text that is broadcast: two transactions
    whose fields have their widths, with the same BCS form before anything, are the same, whatever their payload (a
    script, a bundle of modules or an entry function with nested type arguments); and a broadcast text is that of one only. *)
Theorem aptos_transaction_injective (x y : RawTransaction) (bx bY r s key key' : bytes) (text : string) :
  raw_fits x -> raw_fits y ->
  (bcs_raw x = Ok bx -> bcs_raw y = Ok bY -> sha3_256 RAW_TRANSACTION_SALT ++ bx ++ r = sha3_256 RAW_TRANSACTION_SALT ++ bY ++ s -> x = y /\ r = s)
  /\ (signed_text x key text -> signed_text y key' text -> x = y).
Proof.
  intros X Y. split.
  - intros Ex Ey E%app_inv_head. by eapply raw_code.
  - intros Sx (kp & preimage & signed & K & P & S & T). apply text_document in Sx; [|done].
    symmetry. eapply (Sx (MkSigned y (AuthenticatorEd25519 (MkAuthenticator _ _))) signed Y (key_pair_fits _ _ _ K) S T).
Qed.

(** *** Requests *)

(** The sequence number and the clock are words of 64 bits, and an hour can be added to the time. *)
Definition request_fits (now : option Z) (input : ChainSignerInput) : Prop :=
  (forall sequence data, metadata input = LoadMetadata.Aptos sequence data -> is_u64 sequence)
  /\ (forall n, now = Some n -> 0 <= n <= U64_MAX - 3600).

(** The document with which the entry function is asked for *)
Definition carries (now : option Z) (input : ChainSignerInput) (e : EntryFunction) (raw : RawTransaction) : Prop :=
  from_hex (InputTypes.sender_address (load input)) = Ok (sender raw)
  /\ (exists data, metadata input = LoadMetadata.Aptos (sequence_number raw) data)
  /\ payload raw = PayloadEntryFunction e
  /\ GasPrices.gas_limit_u64 (fee_of input) = Ok (max_gas_amount raw)
  /\ GasPrices.gas_price_u64 (fee_of input) = Ok (gas_unit_price raw)
  /\ now = Some (expiration_timestamp_secs raw - 3600) /\ chain_id raw = APTOS_CHAIN_ID.

(** The text is that of a signed document that asks for the entry function, and of no other document. *)
Definition signs (now : option Z) (input : ChainSignerInput) (key : bytes) (e : EntryFunction) (text : string) : Prop :=
  exists raw, carries now input e raw /\ signed_text raw key text /\ only_document raw text.

Lemma key_pair_lengths key kp message : from_private_key key = Ok kp ->
  length (public_key_bytes kp) = 32%nat /\ length (sign kp message) = 64%nat.
Proof.
  unfold from_private_key. destruct (_ =? _)%nat; [|done]. intros E. assert (kp = MkPair key (ed25519_verifying_key key)) as -> by congruence.
  split; [apply ed25519_key_length|apply ed25519_signature_length].
Qed.

Lemma sign_raw_text raw key signature public_key text : sign_raw_transaction raw key = Ok (signature, public_key) ->
  build_submit_transaction_bcs raw signature public_key = Ok text -> signed_text raw key text.
Proof.
  unfold sign_raw_transaction, map_err, sign_ed25519. destruct (bcs_raw raw) as [preimage|] eqn:P; [|done].
  destruct (from_private_key key) as [kp|] eqn:K; [|done]. intros E.
  assert (signature = sign kp (sha3_256 RAW_TRANSACTION_SALT ++ preimage)) as -> by congruence.
  assert (public_key = public_key_bytes kp) as -> by congruence. clear E.
  destruct (key_pair_lengths key kp (sha3_256 RAW_TRANSACTION_SALT ++ preimage) K) as [L1 L2].
  unfold build_submit_transaction_bcs, ensure_length, map_err. rewrite L1, L2. cbn [Nat.eqb negb].
  destruct (bcs_signed _) as [signed|] eqn:S; [|done]. destruct (submit_to_string _) as [t|] eqn:T; [|done].
  intros E. assert (t = text) as -> by congruence. by exists kp, preimage, signed.
Qed.

Lemma sign_entry_signs now e input key gas text : request_fits now input -> entry_fits e -> GasPrices.gas_limit_u64 (fee_of input) = Ok gas ->
  sign_entry_function now e input key gas = Ok text -> signs now input key e text.
Proof.
  intros [FS FN] F G. pose proof (gas_limit_u64_range _ _ G) as WG. unfold sign_entry_function.
  destruct (from_hex _) as [a|] eqn:A; [|done]. destruct (sequence_from_metadata _) as [n|] eqn:N; [|done].
  destruct (GasPrices.gas_price_u64 _) as [u|] eqn:U; [|done]. destruct (expiration_secs now) as [x|] eqn:X; [|done].
  set (raw := build_raw_transaction a n e gas u x APTOS_CHAIN_ID).
  destruct (sign_raw_transaction raw key) as [[sg pk]|] eqn:S; [|done]. intros T.
  assert (M : exists data, metadata input = LoadMetadata.Aptos n data).
  { destruct (metadata input); try done. eexists. cbn in N. f_equal. congruence. }
  assert (W : now = Some (x - 3600)).
  { destruct now as [w|]; [|done]. f_equal. cbn in X. assert (x = w + 3600) by congruence. lia. }
  exists raw. assert (signed_text raw key text) as ST by (by eapply sign_raw_text).
  split_and!; [|done|].
  - split_and!; try done.
  - apply (text_document raw key); [|done]. split_and!; try done; cbn.
    + by eapply from_hex_address.
    + destruct M as [data M]. by eapply FS.
    + by eapply gas_price_u64_range.
    + apply FN in W. unfold in_width, U64_MAX in *. lia.
Qed.

(** *** Amounts and addresses as arguments *)

Lemma digits_ident s : forall acc v, parse_digits acc s = Some v -> ident s = true.
Proof.
  unfold ident. induction s as [|c s IH]; intros acc v; [done|]. cbn [parse_digits string_forall].
  destruct (digit_value c) as [d|] eqn:D; [|done]. intros P. rewrite (IH _ _ P), andb_true_r.
  unfold digit_value in D. unfold ident_char. destruct (_ && _) eqn:B in D; [|done].
  apply andb_true_iff in B as [B1%Z.leb_le B2%Z.leb_le].
  by rewrite (proj2 (Z.leb_le 48 (Z.of_nat (Ascii.nat_of_ascii c)))), (proj2 (Z.leb_le (Z.of_nat (Ascii.nat_of_ascii c)) 57)) by lia.
Qed.

Lemma pretty_plain (z : Z) : forallb plain (bytes_of_string (pretty z)) = true.
Proof.
  destruct (Z_lt_le_dec z 0) as [N|N].
  - assert (pretty z = String "-" (pretty (- z))) as -> by (destruct z; done).
    cbn [bytes_of_string forallb]. rewrite (ident_plain (pretty (- z))); [done|].
    eapply digits_ident. apply Digits.parse_pretty. lia.
  - apply ident_plain. eapply digits_ident. by apply Digits.parse_pretty.
Qed.

Lemma pretty_no_x (z : Z) : starts_0x (pretty z) = false.
Proof.
  assert (F : free_of "x" (pretty z) = true).
  { destruct (Z_lt_le_dec z 0) as [N|N].
    - assert (pretty z = String "-" (pretty (- z))) as -> by (destruct z; done). change (free_of "x" (pretty (- z)) = true).
      eapply (Digits.parse_free _ 0); [done|]. apply Digits.parse_pretty. lia.
    - eapply (Digits.parse_free _ 0); [done|]. by apply Digits.parse_pretty. }
  unfold starts_0x. destruct (strip_prefix "0x" (pretty z)) as [rest|] eqn:S; [|done].
  apply strip_prefix_iff in S. rewrite S in F. done.
Qed.

Context `{!BigUintTextLaws}.

Lemma amount_argument (z : Z) v : parse_move_value (Number := Number) TU64 (JString (pretty z)) = Ok v -> v = VU64 z /\ is_u64 z.
Proof.
  cbn [parse_move_value]. unfold parse_u64, parse_unsigned_from_str, parse_big_uint_from_str. cbn [parse_numeric_string].
  rewrite trim_id by apply pretty_plain. rewrite pretty_no_x.
  destruct (Z_lt_le_dec z 0) as [N|N]; [by rewrite biguint_parse_negative|]. rewrite biguint_parse_pretty by done. cbn [ok_or].
  destruct (to_width 128 z) as [w|] eqn:W; [|done]. apply to_width_Some in W as [-> _]. cbn [ok_or].
  destruct (to_width 64 z) as [w|] eqn:W; [|done]. apply to_width_Some in W as [-> W]. cbn [ok_or]. intros E.
  by assert (v = VU64 z) as -> by congruence.
Qed.

Lemma address_argument s v : parse_move_value (Number := Number) TAddress (JString s) = Ok v -> exists a, from_hex s = Ok a /\ v = VAddress a.
Proof.
  cbn [parse_move_value parse_address]. destruct (from_hex s) as [a|]; [|done]. intros E. exists a. split; [done|congruence].
Qed.

Lemma address_form a b : is_address a -> bcs_value (VAddress a) = Ok b -> b = a.
Proof. intros [A _] E. cbn [bcs_value] in E. rewrite array_id in E by done. congruence. Qed.

Lemma amount_form z b : is_u64 z -> bcs_value (VU64 z) = Ok b -> b = le_bytes 8 z.
Proof. intros W E. cbn [bcs_value] in E. rewrite bcs_uint_spec in E by done. congruence. Qed.

Lemma split_transfer : split_colons APTOS_TRANSFER_FUNCTION = ["0x1"; "aptos_account"; "transfer"]%string.
Proof. reflexivity. Qed.
Lemma split_fungible : split_colons FUNGIBLE_TRANSFER_FUNCTION = ["0x1"; "primary_fungible_store"; "transfer"]%string.
Proof. reflexivity. Qed.

(** An argument of an address and one of an amount, as they are written *)
Definition address_of (text : string) (bs : bytes) : Prop := from_hex text = Ok bs /\ is_address bs.
Definition amount_of (z : Z) (bs : bytes) : Prop := is_u64 z /\ bs = le_bytes 8 z.

Lemma address_value s v b : parse_move_value (Number := Number) TAddress (JString s) = Ok v -> bcs_value v = Ok b -> address_of s b.
Proof.
  intros (a & A & ->)%address_argument B. pose proof (from_hex_address _ _ A) as F. by apply address_form in B as ->.
Qed.

Lemma amount_value z v b : parse_move_value (Number := Number) TU64 (JString (pretty z)) = Ok v -> bcs_value v = Ok b -> amount_of z b.
Proof. intros [-> W]%amount_argument B. by apply amount_form in B as ->. Qed.

Lemma two_arguments {A B C} (P : A -> B -> Prop) (Q : B -> C -> Prop) (R : A -> C -> Prop) xs ys zs :
  Forall2 P xs ys -> Forall2 Q ys zs -> (forall x y z, x ∈ xs -> P x y -> Q y z -> R x z) -> Forall2 R xs zs.
Proof.
  intros F. revert zs. induction F as [|x y xs ys X F IH]; intros zs G I; inversion_clear G; constructor; [eapply I; [left|..]; done|].
  apply IH; [done|]. intros u v w U. apply I. by right.
Qed.

(** The written form of an address and of an amount given as text *)
Definition argument_form (argument : Value Number * TypeTag) (bs : bytes) : Prop :=
  match argument with
  | (JString s, TAddress) => address_of s bs
  | (JString s, TU64) => forall z : Z, s = pretty z -> amount_of z bs
  | _ => True
  end.

(** Addresses and amounts given as text, with the types of their parameters *)
Inductive plain_argument : Value Number * TypeTag -> Prop :=
| PlainAddress s : plain_argument (JString s, TAddress)
| PlainAmount (z : Z) : plain_argument (JString (pretty z), TU64).

Lemma plain_forms pairs values args : Forall plain_argument pairs ->
  Forall2 (fun '(argument, type) value => parse_move_value type argument = Ok value) pairs values ->
  Forall2 (fun value bs => bcs_value value = Ok bs) values args -> Forall2 argument_form pairs args.
Proof.
  intros Pl P B. eapply two_arguments; [exact P|exact B|]. intros x v b X V E. rewrite Forall_forall in Pl. apply Pl in X.
  destruct X as [s|z]; cbn.
  - by eapply address_value.
  - intros z' <-%(inj pretty). by eapply amount_value.
Qed.

Lemma types_read abi types types' : collect parse_type_tag abi = Ok types' -> Forall2 (fun s t => parse_type_tag s = Ok t) abi types -> types = types'.
Proof. intros C F. apply collect_ok_iff in F. congruence. Qed.

(** A payload that calls a function of the framework with an address and an amount *)
Lemma two_argument_call p m f (to : string) (z : Z) e : split_colons (payload_function p) = ["0x1"; m; f]%string -> type_arguments p = [] ->
  arguments p = [JString to; JString (pretty z)] -> to_entry_function (Number := Number) p (Some STAKE_ENTRY_PARAMS) = Ok e -> exists a d v,
  from_hex "0x1" = Ok a /\ address_of to d /\ amount_of z v /\ e = MkEntry (MkModule a m) f [] [d; v].
Proof.
  intros C TA AR (types & values & T & _ & F & Y & _ & P & _ & B)%entry_function_built. destruct e as [md fn tys gs].
  rewrite TA, AR in *. cbn [module function ty_args args] in *.
  unfold parse_function_id in F. rewrite C in F. destruct (from_hex "0x1") as [a|] eqn:A; [|done].
  apply (types_read _ _ [TAddress; TU64]) in T as ->; [|reflexivity].
  apply (fun pl => plain_forms _ _ _ pl P) in B; [|cbn [zip zip_with]; repeat constructor]. inversion_clear Y.
  inversion_clear B as [|? b1 ? gs' B1 B']. inversion_clear B' as [|? b2 ? gs'' B2 B]. inversion_clear B.
  exists a, b1, b2. split; [done|]. split; [exact B1|]. split; [by apply B2|]. congruence.
Qed.

Lemma fungible_built input p abi e : token_transfer_payload (Number := Number) input = Ok (p, abi) -> to_entry_function p (Some abi) = Ok e ->
  exists token a t d v, AssetIds.token_id (Assets.id (asset_of input)) = Some token /\ is_fungible_asset_token_id token = true
  /\ from_hex "0x1" = Ok a /\ address_of token t /\ address_of (InputTypes.destination_address (load input)) d
  /\ amount_of (InputTypes.input_value (load input)) v
  /\ e = MkEntry (MkModule a "primary_fungible_store") "transfer" [TStruct a "object" "ObjectCore" []] [t; d; v].
Proof.
  unfold token_transfer_payload. destruct (AssetIds.token_id _) as [token|] eqn:K; [|done]. cbn [ok_or].
  destruct (is_fungible_asset_token_id token) eqn:V; [|done]. cbn [negb]. intros E. 
  assert (abi = FUNGIBLE_TRANSFER_ENTRY_PARAMS) as -> by congruence.
  assert (p = MkPayload _ ENTRY_FUNCTION_PAYLOAD_TYPE FUNGIBLE_TRANSFER_FUNCTION [OBJECT_CORE_TYPE]
    [JString token; JString (InputTypes.destination_address (load input)); JString (pretty (InputTypes.input_value (load input)))]) as -> by congruence.
  clear E. intros (types & values & T & _ & F & Y & _ & P & _ & B)%entry_function_built. destruct e as [md fn tys gs].
  cbn [payload_function type_arguments arguments module function ty_args args] in *.
  unfold parse_function_id in F. rewrite split_fungible in F. destruct (from_hex "0x1") as [a|] eqn:A; [|done].
  apply (types_read _ _ [TAddress; TAddress; TU64]) in T as ->; [|reflexivity].
  apply (fun pl => plain_forms _ _ _ pl P) in B; [|cbn [zip zip_with]; repeat constructor].
  inversion_clear Y as [|? t1 ? tys' Y1 Y']. inversion_clear Y'.
  change (parse_type_tag OBJECT_CORE_TYPE) with (let? address := from_hex "0x1" in Ok (TStruct address "object" "ObjectCore" [])) in Y1.
  rewrite A in Y1.
  inversion_clear B as [|? b1 ? gs' B1 B']. inversion_clear B' as [|? b2 ? gs'' B2 B]. inversion_clear B as [|? b3 ? gs''' B3 B']. inversion_clear B'.
  exists token, a, b1, b2, b3. pose proof (B3 _ eq_refl) as [Z1 Z2]. split_and!; try done. congruence.
Qed.

(** The entry function of a payload given as text *)
Definition payload_entry (data : string) (e : EntryFunction) : Prop := exists p prepared abi,
  payload_from_str data = Ok p /\ prepare_payload p = Ok (prepared, abi) /\ to_entry_function prepared abi = Ok e.

(** The text from which the payload of a generic request is read *)
Definition generic_text (input : ChainSignerInput) (json : string) : Prop :=
  exists asset application extra, InputTypes.input_type (load input) = InputTypes.Generic asset application extra
  /\ match extra_data extra with
     | Some bs => bs <> [] /\ utf8_valid bs = true /\ json = string_of_bytes bs
     | None => exists sequence, metadata input = LoadMetadata.Aptos sequence (Some json)
     end.

Lemma payload_signs now input key data texts : request_fits now input ->
  (let? payload := read_payload data in
   let? (payload, abi) := prepare_payload payload in
   let? entry_function := to_entry_function payload abi in
   let? gas_limit := GasPrices.gas_limit_u64 (fee_of input) in
   let? signed := sign_entry_function now entry_function input key gas_limit in
   Ok [signed]) = Ok texts ->
  exists e text, payload_entry data e /\ texts = [text] /\ signs now input key e text.
Proof.
  intros F. unfold read_payload, map_err. destruct (payload_from_str data) as [p|] eqn:P; [|done].
  destruct (prepare_payload p) as [[q abi]|] eqn:Q; [|done]. destruct (to_entry_function q abi) as [e|] eqn:E; [|done].
  destruct (GasPrices.gas_limit_u64 _) as [gas|] eqn:G; [|done]. destruct (sign_entry_function _ _ _ _ _) as [text|] eqn:S; [|done].
  intros T. exists e, text. split; [by exists p, q, abi|]. split; [congruence|].
  apply entry_function_fits in E. by eapply sign_entry_signs.
Qed.

Lemma generic_read input p gas : get_generic_payload input = Ok (p, gas) ->
  exists json, generic_text input json /\ payload_from_str json = Ok p /\ GasPrices.gas_limit_u64 (fee_of input) = Ok gas.
Proof.
  unfold get_generic_payload. destruct (InputTypes.input_type (load input)) as [ | | | | |asset application extra| | | | ] eqn:I; try done.
  destruct (match extra_data extra with Some _ => _ | None => _ end) as [json|] eqn:J; [|done].
  unfold read_payload, map_err. destruct (payload_from_str json) as [q|] eqn:Q; [|done].
  destruct (GasPrices.gas_limit_u64 _) as [g|]; [|done]. intros E. exists json. split; [|split; congruence].
  exists asset, application, extra. split; [done|]. destruct (extra_data extra) as [[|b bs]|].
  - done.
  - destruct (utf8_valid (b :: bs)) eqn:U; [|done]. split_and!; try done. congruence.
  - destruct (metadata input); try done. destruct data as [data|]; [|done]. eexists. f_equal. congruence.
Qed.

(** (C18) A signed Aptos request is the request.  The text of a transfer is that of a signed document that calls
    [aptos_account::transfer] with the destination and the requested value; that of a token transfer calls
    [primary_fungible_store::transfer] with the token, the destination and the value; those of a swap, of a stake
    operation and of a dApp's request call the entry function of the payload given.  Its sequence number, gas and price
    are those of the request, it expires an hour after the clock, and no other document has the text. *)
Theorem aptos_request_signed (now : option Z) (input : ChainSignerInput) (key : bytes) (text : string) (texts : list string) :
  request_fits now input ->
  (sign_transfer (Number := Number) now input key = Ok text -> exists a d v,
     from_hex "0x1" = Ok a /\ address_of (InputTypes.destination_address (load input)) d /\ amount_of (InputTypes.input_value (load input)) v
     /\ signs now input key (MkEntry (MkModule a "aptos_account") "transfer" [] [d; v]) text)
  /\ (sign_token_transfer (Number := Number) now input key = Ok text -> exists token a t d v,
     AssetIds.token_id (Assets.id (asset_of input)) = Some token /\ is_fungible_asset_token_id token = true
     /\ from_hex "0x1" = Ok a /\ address_of token t /\ address_of (InputTypes.destination_address (load input)) d
     /\ amount_of (InputTypes.input_value (load input)) v
     /\ signs now input key
          (MkEntry (MkModule a "primary_fungible_store") "transfer" [TStruct a "object" "ObjectCore" []] [t; d; v]) text)
  /\ (sign_swap now input key = Ok texts -> exists from_asset to_asset data e text,
     InputTypes.input_type (load input) = InputTypes.Swap from_asset to_asset data /\ payload_entry (quote_data (swap_data data)) e
     /\ texts = [text] /\ signs now input key e text)
  /\ (sign_stake now input key = Ok texts -> exists sequence data e text,
     metadata input = LoadMetadata.Aptos sequence (Some data) /\ payload_entry data e /\ texts = [text] /\ signs now input key e text)
  /\ (sign_data now input key = Ok text -> exists json e,
     generic_text input json /\ payload_entry json e /\ signs now input key e text).
Proof.
  intros F. split_and!; intros S.
  - unfold sign_transfer, sign_payload in S. destruct (GasPrices.gas_limit_u64 _) as [gas|] eqn:G; [|done].
    destruct (to_entry_function _ _) as [e|] eqn:E; [|done]. pose proof (entry_function_fits _ _ _ E) as FE.
    apply (two_argument_call (transfer_payload input) _ _ _ _ _ split_transfer eq_refl eq_refl) in E as (a & d & v & A & D & V & ->). exists a, d, v. do 3 (split; [done|]). by eapply sign_entry_signs.
  - unfold sign_token_transfer, sign_payload in S. destruct (GasPrices.gas_limit_u64 _) as [gas|] eqn:G; [|done].
    destruct (token_transfer_payload _) as [[p abi]|] eqn:P; [|done].
    destruct (to_entry_function _ _) as [e|] eqn:E; [|done]. pose proof (entry_function_fits _ _ _ E) as FE.
    eapply fungible_built in E as (token & a & t & d & v & K & V & A & T & D & W & ->); [|exact P].
    exists token, a, t, d, v. do 6 (split; [done|]). by eapply sign_entry_signs.
  - unfold sign_swap in S. destruct (InputTypes.input_type _) as [ | |from_asset to_asset data| | | | | | | ] eqn:I; try done.
    eapply payload_signs in S as (e & text' & P & -> & R); [|done]. by exists from_asset, to_asset, data, e, text'.
  - unfold sign_stake in S. destruct (metadata input) eqn:M; try done. destruct data as [data|]; [|done].
    eapply payload_signs in S as (e & text' & P & -> & R); [|done]. by eexists _, data, e, text'.
  - unfold sign_data in S. destruct (get_generic_payload input) as [[p gas]|] eqn:G; [|done].
    apply generic_read in G as (json & J & P & G). destruct (prepare_payload p) as [[q abi]|] eqn:Q; [|done].
    destruct (to_entry_function q abi) as [e|] eqn:E; [|done]. pose proof (entry_function_fits _ _ _ E) as FE.
    exists json, e. split; [done|]. split; [by exists p, q, abi|]. by eapply sign_entry_signs.
Qed.

(** *** The payloads the program writes itself *)

(** A payload that names its function is read back from its text. *)
Context `{PayloadJson Number}.
Hypothesis payload_read_back : forall p f, transaction_function p = Some f ->
  payload_from_str (transaction_payload_to_string p)
  = Ok (MkPayload _ (transaction_payload_type p) f (transaction_type_arguments p) (transaction_arguments p)).

Definition build_payload_read (f pool : string) (z : Z) : EntryFunctionPayload Number :=
  MkPayload _ ENTRY_FUNCTION_PAYLOAD_TYPE f [] [JString pool; JString (pretty z)].

Lemma payload_called f m g pool (z : Z) e : split_colons f = ["0x1"; m; g]%string -> is_panora_router f = false ->
  get_payload_abi (build_payload_read f pool z) = Some STAKE_ENTRY_PARAMS ->
  payload_entry (transaction_payload_to_string (build_payload (Number := Number) f pool (pretty z))) e -> exists a d v,
  from_hex "0x1" = Ok a /\ address_of pool d /\ amount_of z v /\ e = MkEntry (MkModule a m) g [] [d; v].
Proof.
  intros C R G (p & q & abi & P & Q & E). rewrite (payload_read_back (build_payload f pool (pretty z)) f eq_refl) in P.
  assert (p = build_payload_read f pool z) as ->
    by (unfold build_payload_read; cbn [build_payload transaction_payload_type transaction_type_arguments transaction_arguments] in P; congruence).
  clear P.
  unfold prepare_payload in Q. change (payload_function (build_payload_read f pool z)) with f in Q. rewrite R, G in Q.
  assert (q = build_payload_read f pool z) as -> by congruence. assert (abi = Some STAKE_ENTRY_PARAMS) as -> by congruence.
  by apply (two_argument_call (build_payload_read f pool z) _ _ _ _ _ C eq_refl eq_refl) in E.
Qed.

(** (C0) The payload the program writes for a stake operation is the call the signer makes: [add_stake], [unlock] or
    [withdraw] of the delegation pool, with the pool and the amount. *)
Theorem stake_payload_called (pool : string) (z : Z) (e : EntryFunction) :
  let calls name := exists a d v, from_hex "0x1" = Ok a /\ address_of pool d /\ amount_of z v
    /\ e = MkEntry (MkModule a "delegation_pool") name [] [d; v] in
  (payload_entry (build_stake_payload_data (Number := Number) pool (pretty z)) e -> calls "add_stake"%string)
  /\ (payload_entry (build_unstake_payload_data (Number := Number) pool (pretty z)) e -> calls "unlock"%string)
  /\ (payload_entry (build_withdraw_payload_data (Number := Number) pool (pretty z)) e -> calls "withdraw"%string).
Proof.
  intros calls. unfold calls. split_and!; apply payload_called; reflexivity.
Qed.

End properties.
End AptosProperties.

(** ** Concrete parameters, to evaluate the signer on inputs *)

Module AptosConcrete.
Import AptosAddresses MoveTypes MoveParser AptosBcs AptosTransactions AptosPayloads MoveText MoveTyping BcsCodes AptosSigner AptosProperties Payloads.
Import HexConcrete NumberConcrete SigningConcrete.

#[export] Instance toy_hex_error : HexErrorText := fun _ => "bad hex"%string.
#[export] Instance toy_lowercase : Lowercase := fun s => s.
#[export] Instance toy_from_bytes : BigUintFromBytes := of_be.
#[export] Instance toy_from_bytes_laws : BigUintFromBytesLaws.
Proof. by split. Qed.
#[export] Instance toy_numbers : JsonNumbers Z := {| number_to_string := pretty; number_as_u64 v := to_width 64 v |}.
#[export] Instance toy_sha3 : Sha3 := fun bs => be_bytes 32 (Z.of_nat (length bs)).

(** A length or a variant below 128 is its own byte; longer ones are not needed here. *)
#[export] Instance short_bcs : Bcs := {|
  bcs_bool b := [if b then 1 else 0];
  bcs_uint := le_bytes;
  bcs_uleb v := if (0 <=? v) && (v <? 128) then Ok [v] else Err "too long"%string
|}.
#[export] Instance short_bcs_laws : BcsLaws.
Proof.
  split; [done|done| |].
  - intros x y bx bY r s _ _. unfold bcs_uleb, short_bcs. destruct (_ && _); [|done]. destruct ((0 <=? y) && _); [|done].
    intros Ex Ey E. assert (bx = [x]) as -> by congruence. assert (bY = [y]) as -> by congruence. by inversion E.
  - intros x bx. unfold bcs_uleb, short_bcs. destruct (_ && _) eqn:B; [|done]. intros E. assert (bx = [x]) as -> by congruence.
    apply PrefixCodes.byte_singleton. zbool. unfold in_width. lia.
Qed.

(** A stake payload is the one text read, and the hexadecimal text stands for a request. *)
Definition stake_text : string := "add_stake".
Definition stake_payload : EntryFunctionPayload Z :=
  MkPayload _ ENTRY_FUNCTION_PAYLOAD_TYPE DELEGATION_POOL_ADD_STAKE_FUNCTION [] [JString "0xb0"; JNumber 250].
#[export] Instance toy_json : AptosJson Z := {|
  payload_from_str s := if String.eqb s stake_text then Ok stake_payload else Err "not a payload"%string;
  submit_to_string r := if String.eqb (bcs_encoding r) "hex" then Ok (submit_bcs r) else Err "not hex"%string
|}.
#[export] Instance toy_json_laws : AptosJsonLaws (Number := Z).
Proof.
  split. intros [a x] [b y] t. unfold submit_to_string, toy_json. cbn [bcs_encoding submit_bcs].
  destruct (String.eqb_spec x "hex") as [->|]; [|done]. destruct (String.eqb_spec y "hex") as [->|]; [|done]. congruence.
Qed.

Definition nested : TypeTag :=
  TVector (TStruct (replicate 31 0 ++ [1]) "option" "Option" [TVector TU8; TStruct (replicate 32 171) "coin" "Pair_2" [TAddress; TU256]]).

Lemma type_tag_roundtrip_witness : parse_type_tag (tag_text nested) = Ok nested.
Proof. apply type_tag_roundtrip; [vm_compute; reflexivity|apply Nat.leb_le; vm_compute; reflexivity]. Defined.

Definition stake_entry : EntryFunction :=
  MkEntry (MkModule (replicate 31 0 ++ [1]) "delegation_pool") "add_stake" [] [replicate 31 0 ++ [176]; le_bytes 8 250].

Lemma entry_function_typed_witness : to_entry_function stake_payload (Some STAKE_ENTRY_PARAMS) = Ok stake_entry
  /\ exists types values, Forall2 (fun s t => parse_type_tag s = Ok t) STAKE_ENTRY_PARAMS types /\ built_from stake_payload types values stake_entry.
Proof.
  assert (E : to_entry_function stake_payload (Some STAKE_ENTRY_PARAMS) = Ok stake_entry) by (vm_compute; reflexivity).
  split; [exact E|]. exact (entry_function_typed stake_payload STAKE_ENTRY_PARAMS stake_entry E).
Defined.

Definition stake_raw (sequence : Z) : RawTransaction :=
  MkRaw (replicate 32 7) sequence (PayloadEntryFunction stake_entry) 2000 100 1700003600 1.

Lemma stake_raw_fits n : is_u64 n -> raw_fits (stake_raw n).
Proof.
  intros N. assert (A : forall a, addressb a = true -> is_address a) by apply addressb_iff.
  split_and!; try done; cbn; try (by vm_compute).
  - apply A. by vm_compute.
  - split_and!; [apply A; by vm_compute|constructor|]. repeat constructor; by vm_compute.
Qed.

Lemma aptos_transaction_injective_witness : exists text, signed_text (stake_raw 4) key text /\ ~ signed_text (stake_raw 5) key text.
Proof.
  assert (F4 : raw_fits (stake_raw 4)) by (apply stake_raw_fits; by vm_compute).
  assert (F5 : raw_fits (stake_raw 5)) by (apply stake_raw_fits; by vm_compute).
  assert (O : is_ok (let? (sg, pk) := sign_raw_transaction (stake_raw 4) key in build_submit_transaction_bcs (stake_raw 4) sg pk) = true)
    by (vm_compute; reflexivity).
  destruct (sign_raw_transaction (stake_raw 4) key) as [[sg pk]|] eqn:R; [|discriminate O].
  destruct (build_submit_transaction_bcs (stake_raw 4) sg pk) as [text|] eqn:B; [|discriminate O].
  pose proof (sign_raw_text (stake_raw 4) key sg pk text R B) as S. exists text. split; [exact S|]. intros S5.
  pose proof (proj2 (aptos_transaction_injective (stake_raw 4) (stake_raw 5) [] [] [] [] key key text F4 F5) S S5) as Q.
  apply (f_equal sequence_number) in Q. discriminate Q.
Defined.

Definition token : string := to_string (replicate 32 9).
Definition token_input (value : Z) : ChainSignerInput :=
  MkChainInput
    (InputTypes.MkSignerInput
       (InputTypes.MkLoadInput (InputTypes.Transfer (coin Chains.Aptos (Some token) "USDT" 6)) "0xa11ce" "0xb0b" value (GasPrices.Regular 100) None false)
       (GasPrices.MkFee 200000 (GasPrices.Regular 100) 2000 [] (AssetIds.from_chain Chains.Aptos)))
    (LoadMetadata.Aptos 4 (Some stake_text)).

Lemma token_input_fits value : request_fits (Some 1700000000) (token_input value).
Proof.
  split.
  - intros n data E. assert (n = 4) as -> by (cbn in E; congruence). by vm_compute.
  - intros n E. assert (n = 1700000000) as -> by congruence. unfold U64_MAX. lia.
Qed.

Lemma aptos_request_signed_witness : exists text, sign_token_transfer (Some 1700000000) (token_input 250) key = Ok text
  /\ signs (Some 1700000000) (token_input 250) key
       (MkEntry (MkModule one "primary_fungible_store") "transfer" [TStruct one "object" "ObjectCore" []]
          [replicate 32 9; replicate 30 0 ++ [11; 11]; le_bytes 8 250]) text.
Proof.
  assert (O : is_ok (sign_token_transfer (Some 1700000000) (token_input 250) key) = true) by (vm_compute; reflexivity).
  destruct (sign_token_transfer (Some 1700000000) (token_input 250) key) as [text|] eqn:S; [|discriminate O]. exists text. split; [reflexivity|].
  destruct (aptos_request_signed (Some 1700000000) (token_input 250) key text [] (token_input_fits 250)) as (_ & R & _).
  destruct (R S) as (token & a & t & d & v & K & _ & A & [T _] & [D _] & [_ ->] & G).
  assert (token = AptosConcrete.token) as -> by (cbn in K; congruence).
  assert (a = one) as -> by (vm_compute in A; vm_compute; congruence).
  assert (t = replicate 32 9) as -> by (vm_compute in T; vm_compute; congruence).
  assert (d = replicate 30 0 ++ [11; 11]) as -> by (vm_compute in D; vm_compute; congruence).
  exact G.
Defined.

End AptosConcrete.
