(* ===== verification/Floats.v ===== *)
(** * Floating-point numbers

    An [f64] is a [spec_float] of the standard library with 53 bits of mantissa and the operations of IEEE 754; a cast to an
    integer truncates and saturates, and what is no number becomes zero. *)
From Stdlib Require Import SpecFloat.
From S2P Require Import Prelude.

(** ** Numbers *)

Module F64.

Definition wrap_i64 (z : Z) : Z := (z + 2 ^ 63) mod 2 ^ 64 - 2 ^ 63.
Definition I64_MAX : Z := 2 ^ 63 - 1.
Definition I64_MIN : Z := - 2 ^ 63.
Definition clamp_i64 (z : Z) : Z := Z.max I64_MIN (Z.min I64_MAX z).

(** [i64 as f64] and [f64 as i64] *)
Definition of_i64 (z : Z) : spec_float := binary_normalize 53 1024 z 0 false.
Definition to_i64 (f : spec_float) : Z :=
  match f with
  | S754_nan => 0
  | S754_infinity sign => if sign then I64_MIN else I64_MAX
  | S754_zero _ => 0
  | S754_finite sign m e => clamp_i64 (Z.quot (cond_Zopp sign (Z.pos m) * 2 ^ Z.max e 0) (2 ^ Z.max (- e) 0))
  end.

Definition add : spec_float -> spec_float -> spec_float := SFadd 53 1024.
Definition mul : spec_float -> spec_float -> spec_float := SFmul 53 1024.
Definition div : spec_float -> spec_float -> spec_float := SFdiv 53 1024.

(** [f64::round]: half away from zero *)
Definition round_i64 (f : spec_float) : Z :=
  match f with
  | S754_finite sign m e => clamp_i64 (cond_Zopp sign ((2 * (Z.pos m * 2 ^ Z.max e 0) + 2 ^ Z.max (- e) 0) / (2 * 2 ^ Z.max (- e) 0)))
  | _ => to_i64 f
  end.

(** [f64 as u32] *)
Definition to_u32 (f : spec_float) : Z :=
  match f with
  | S754_infinity false => 2 ^ 32 - 1
  | S754_finite false m e => Z.min (2 ^ 32 - 1) (Z.pos m * 2 ^ Z.max e 0 / 2 ^ Z.max (- e) 0)
  | _ => 0
  end.

End F64.
