(* ===== verification/RewardsStore.v ===== *)
(** * Rewards: the tables and their store

    Models the statuses and events of [primitives/src/rewards.rs] and the rows of [storage/src/models/reward.rs] and
    [username.rs] (module [RewardsModels]), and the statements of [storage/src/database/usernames.rs], [rewards.rs],
    [rewards_redemptions.rs] and [referrals.rs] ([RewardsStore]) over the tables that
    [storage/src/migrations/2025-12-10-120000_rewards/up.sql] and [2025-12-16-011051_rewards_redemptions/up.sql] declare:
    a table is the list of its rows, and a statement checks the keys, references, ranges and CHECK clauses of the
    declaration.  A transaction either happens or leaves the tables as they were.  The tables of wallets and devices
    belong to another part of the store: their readers are the class [WalletsStore], and the assets [AssetsTable].  What is
    counted of the signals of risk is in [RiskSignals], the leaderboard in [RewardsNotices].  The widths of text columns and
    the deletion of rows, which no code here asks for, are left out. *)
From S2P Require Import Prelude Text Crates ChainRegistry Assets Wallets.

(** ** Statuses, events and rows *)

Module RewardsModels.

Inductive RewardRedemptionType := AssetRedemption | GiftAsset.
Inductive RewardStatus := Unverified | Pending | Verified | Trusted | Attribution | Disabled.
Inductive RewardEventType := CreateUsername | InvitePending | InviteNew | Joined | EnabledEvent | DisabledEvent | Redeemed.
Inductive RedemptionStatus := RedemptionPending | RedemptionProcessing | RedemptionCompleted | RedemptionFailed.
Inductive UsernameStatus := UsernameUnverified | UsernameVerified.

#[export] Instance status_eq_dec : EqDecision RewardStatus. Proof. solve_decision. Defined.
#[export] Instance event_eq_dec : EqDecision RewardEventType. Proof. solve_decision. Defined.
#[export] Instance redemption_status_eq_dec : EqDecision RedemptionStatus. Proof. solve_decision. Defined.
#[export] Instance redemption_type_eq_dec : EqDecision RewardRedemptionType. Proof. solve_decision. Defined.

Definition is_verified (self : RewardStatus) : bool :=
  match self with
  | Verified | Trusted => true
  | Unverified | Pending | Attribution | Disabled => false
  end.
Definition is_disabled (self : RewardStatus) : bool :=
  match self with
  | Disabled => true
  | Unverified | Pending | Verified | Trusted | Attribution => false
  end.

Definition event_points (self : RewardEventType) : Z :=
  match self with
  | CreateUsername => 25
  | InvitePending => 0
  | InviteNew => 100
  | Joined => 10
  | EnabledEvent => 50
  | DisabledEvent => 0
  | Redeemed => 0
  end.

(** The systems of a device and the stores of its application, and what an address of the internet is used for *)
Inductive Platform := IOS | Android.
Inductive PlatformStore := AppStore | GooglePlay | Fdroid | Huawei | SolanaStore | SamsungStore | ApkUniversal | Emerald | LocalStore.
Inductive IpUsageType := DataCenter | Hosting | Isp | Mobile | Business | Education | Government | UnknownUsage.

#[export] Instance platform_eq_dec : EqDecision Platform. Proof. solve_decision. Defined.
#[export] Instance usage_eq_dec : EqDecision IpUsageType. Proof. solve_decision. Defined.

(** Times are in nanoseconds. *)
Definition SECOND : Z := 1000000000.
Definition DAY : Z := 86400 * SECOND.

Record UsernameRow := MkUsername { username : string; wallet_id : Z; username_status : UsernameStatus }.

(** [(4..=16).contains(&len) && chars().all(|c| c.is_ascii_alphanumeric())] *)
Definition ascii_alphanumeric (a : Ascii.ascii) : bool :=
  let n := Z.of_nat (Ascii.nat_of_ascii a) in
  ((48 <=? n) && (n <=? 57)) || ((65 <=? n) && (n <=? 90)) || ((97 <=? n) && (n <=? 122)).
Definition has_custom_username (self : UsernameRow) : bool :=
  let len := String.length (username self) in
  (4 <=? len)%nat && (len <=? 16)%nat && HexText.string_forall ascii_alphanumeric (username self).

Record RewardsRow := MkRewards {
  rewards_username : string;
  status : RewardStatus;
  level : option string;
  points : Z;
  referrer_username : option string;
  referral_count : Z;
  device_id : Z;
  comment : option string;
  disable_reason : option string;
  verify_after : option Z;
  created_at : Z
}.

(** [NewRewardsRow::new], with the default of [created_at] *)
Definition new_rewards_row (username : string) (device_id now : Z) : RewardsRow :=
  MkRewards username Unverified None 0 None 0 device_id None None None now.

Record RewardReferralRow := MkReferral {
  referral_id : Z;
  referrer : string;
  referred_username : string;
  referred_device_id : Z;
  referral_signal_id : option Z;
  verified_at : option Z;
  referral_created_at : Z
}.
Record NewRewardReferralRow := MkNewReferral {
  new_referrer : string;
  new_referred : string;
  new_referred_device_id : Z;
  new_signal_id : option Z;
  new_verified_at : option Z
}.

Record RewardEventRow := MkEvent { event_id : Z; event_username : string; event_type : RewardEventType; event_created_at : Z }.

Record RewardRedemptionRow := MkRedemption {
  redemption_id : Z;
  redemption_username : string;
  option_id : string;
  redemption_device_id : Z;
  redemption_wallet_id : Z;
  transaction_id : option string;
  redemption_status : RedemptionStatus;
  redemption_error : option string;
  redemption_created_at : Z
}.
Record NewRewardRedemptionRow := MkNewRedemption {
  new_redemption_username : string;
  new_option_id : string;
  new_redemption_device_id : Z;
  new_redemption_wallet_id : Z;
  new_redemption_status : RedemptionStatus
}.
Record RewardRedemptionOptionRow := MkOption {
  option_row_id : string;
  redemption_type : RewardRedemptionType;
  option_points : Z;
  option_asset_id : option AssetIds.AssetId;
  option_value : string;
  remaining : option Z
}.

(** An option with the row of its asset *)
Record RedemptionOptionFull := MkFull { full_option : RewardRedemptionOptionRow; full_asset : option Assets.Asset }.

Record ReferralAttemptRow := MkAttempt {
  attempt_referrer : string;
  attempt_wallet_id : Z;
  attempt_device_id : Z;
  attempt_signal_id : option Z;
  reason : string
}.

(** A signal of risk that is kept with a referral: [metadata] is a JSON object of numbers. *)
Record RiskSignalRow := MkSignal {
  signal_id : Z;
  signal_fingerprint : string;
  signal_referrer : string;
  signal_device_id : Z;
  signal_platform : Platform;
  signal_platform_store : PlatformStore;
  signal_os : string;
  signal_model : string;
  signal_locale : string;
  signal_currency : string;
  signal_ip_address : string;
  signal_country : string;
  signal_usage : IpUsageType;
  signal_isp : string;
  signal_abuse_score : Z;
  signal_risk_score : Z;
  signal_user_agent : string;
  signal_metadata : option (list (string * Z));
  signal_created_at : Z
}.
Record NewRiskSignalRow := MkNewSignal {
  new_signal_fingerprint : string;
  new_signal_referrer : string;
  new_signal_device_id : Z;
  new_signal_platform : Platform;
  new_signal_platform_store : PlatformStore;
  new_signal_os : string;
  new_signal_model : string;
  new_signal_locale : string;
  new_signal_currency : string;
  new_signal_ip_address : string;
  new_signal_country : string;
  new_signal_usage : IpUsageType;
  new_signal_isp : string;
  new_signal_abuse_score : Z;
  new_signal_risk_score : Z;
  new_signal_user_agent : string;
  new_signal_metadata : option (list (string * Z))
}.

Record WalletRow := MkWallet { wallet_row_id : Z; wallet_identifier : WalletIds.WalletId }.
Record DeviceRow := MkDevice {
  device_row_id : Z;
  device_row_name : string;
  device_platform : Platform;
  device_platform_store : PlatformStore;
  device_token : string;
  device_locale : string;
  device_currency : string;
  is_push_enabled : bool;
  is_price_alerts_enabled : bool;
  device_version : string;
  subscriptions_version : Z;
  device_os : string;
  device_model : string;
  device_updated_at : Z;
  device_created_at : Z
}.

End RewardsModels.

(** ** The state and its statements *)

(** [lower] of the database *)
Class SqlLower : Type := sql_lower : string -> string.

(** [diesel::result::Error], as far as the code tells its values apart *)
Inductive DieselError :=
| NotFound
| RollbackTransaction
| Violation (constraint : string)
| OutOfRange.

(** The readers of the tables of wallets and devices, in [storage/src/database/wallets.rs] *)
Class WalletsStore : Type := {
  get_wallet : string -> result DieselError RewardsModels.WalletRow;
  get_wallet_by_id : Z -> result DieselError RewardsModels.WalletRow;
  get_devices_by_wallet_id : Z -> result DieselError (list RewardsModels.DeviceRow);
  get_first_subscription_date_by_wallet_id : Z -> result DieselError (option Z);
  get_device_addresses : Z -> result DieselError (list string);
  get_confirmed_transactions_since : Z -> Z -> result DieselError (list string);
  device_exists : Z -> bool
}.

(** The rows of the table of assets, as [AssetRow::as_primitive] *)
Class AssetsTable : Type := asset_row : AssetIds.AssetId -> option Assets.Asset.

(** The clock: the time it shows after a reading *)
Class Clock : Type := tick : Z -> Z.

Module RewardsStore.
Import RewardsModels.

(** An attempt is kept with its [created_at]. *)
Record Db := MkDb {
  clock : Z;
  usernames : list UsernameRow;
  rewards : list RewardsRow;
  referrals : list RewardReferralRow;
  events : list RewardEventRow;
  options : list RewardRedemptionOptionRow;
  redemptions : list RewardRedemptionRow;
  attempts : list (ReferralAttemptRow * Z);
  signals : list RiskSignalRow;
  next_signal : Z;
  next_referral : Z;
  next_event : Z;
  next_redemption : Z
}.

Definition set_clock t db := MkDb t (usernames db) (rewards db) (referrals db) (events db) (options db) (redemptions db) (attempts db) (signals db) (next_signal db) (next_referral db) (next_event db) (next_redemption db).
Definition set_usernames l db := MkDb (clock db) l (rewards db) (referrals db) (events db) (options db) (redemptions db) (attempts db) (signals db) (next_signal db) (next_referral db) (next_event db) (next_redemption db).
Definition set_rewards l db := MkDb (clock db) (usernames db) l (referrals db) (events db) (options db) (redemptions db) (attempts db) (signals db) (next_signal db) (next_referral db) (next_event db) (next_redemption db).
Definition set_referrals l n db := MkDb (clock db) (usernames db) (rewards db) l (events db) (options db) (redemptions db) (attempts db) (signals db) (next_signal db) n (next_event db) (next_redemption db).
Definition set_events l n db := MkDb (clock db) (usernames db) (rewards db) (referrals db) l (options db) (redemptions db) (attempts db) (signals db) (next_signal db) (next_referral db) n (next_redemption db).
Definition set_options l db := MkDb (clock db) (usernames db) (rewards db) (referrals db) (events db) l (redemptions db) (attempts db) (signals db) (next_signal db) (next_referral db) (next_event db) (next_redemption db).
Definition set_redemptions l n db := MkDb (clock db) (usernames db) (rewards db) (referrals db) (events db) (options db) l (attempts db) (signals db) (next_signal db) (next_referral db) (next_event db) n.
Definition set_attempts l db := MkDb (clock db) (usernames db) (rewards db) (referrals db) (events db) (options db) (redemptions db) l (signals db) (next_signal db) (next_referral db) (next_event db) (next_redemption db).
Definition set_signals l n db := MkDb (clock db) (usernames db) (rewards db) (referrals db) (events db) (options db) (redemptions db) (attempts db) l n (next_referral db) (next_event db) (next_redemption db).

(** The statements of a transaction: an error leaves no tables. *)
Definition Tx (A : Type) : Type := Db -> result DieselError (A * Db).
(** An operation on the store, whose effects an error does not undo *)
Definition M (E A : Type) : Type := Db -> result E A * Db.

Definition transaction {A} (tx : Tx A) : M DieselError A :=
  fun db => match tx db with Ok (a, db') => (Ok a, db') | Err e => (Err e, db) end.
Definition query {E A} (f : Db -> result E A) : M E A := fun db => (f db, db).
Definition ret {E A} (a : A) : M E A := fun db => (Ok a, db).
Definition fail {E A} (e : E) : M E A := fun db => (Err e, db).
Definition bind {E A B} (m : M E A) (k : A -> M E B) : M E B :=
  fun db => match m db with (Ok a, db) => k a db | (Err e, db) => (Err e, db) end.
(** [map_err] of the result *)
Definition with_error {E F A} (f : E -> F) (m : M E A) : M F A := fun db => let '(r, db) := m db in (map_err f r, db).

(** *** Statements *)

Definition I32_MAX : Z := 2 ^ 31 - 1.
Definition in_i32 (v : Z) : bool := (- 2 ^ 31 <=? v) && (v <=? I32_MAX).

(** [insert_into] of a row that satisfies the declaration of its table *)
Definition check (condition : bool) (constraint : string) : result DieselError unit :=
  if condition then Ok tt else Err (Violation constraint).

(** [update(table.filter(p)).set(f)]: the rows after it, and how many were changed *)
Definition update {A} (p : A -> bool) (f : A -> A) (table : list A) : list A := map (fun row => if p row then f row else row) table.
#[global] Arguments update : simpl never.
Definition count {A} (p : A -> bool) (table : list A) : Z := Z.of_nat (length (List.filter p table)).

Definition has_username (name : string) (db : Db) : bool := existsb (fun row => String.eqb (username row) name) (usernames db).
Definition has_rewards (name : string) (db : Db) : bool := existsb (fun row => String.eqb (rewards_username row) name) (rewards db).
Definition has_option (id : string) (db : Db) : bool := existsb (fun row => String.eqb (option_row_id row) id) (options db).
Definition has_signal (id : Z) (db : Db) : bool := existsb (fun row => signal_id row =? id) (signals db).
Definition opt_all {A} (p : A -> bool) (o : option A) : bool := match o with Some a => p a | None => true end.

Section store.
Context `{Lowercase} `{SqlLower} `{WalletsStore} `{Clock}.

Definition wallet_exists (id : Z) : bool := is_ok (get_wallet_by_id id).

(** [now()] *)
Definition now {E} : M E Z := fun db => (Ok (clock db), set_clock (tick (clock db)) db).

(** *** [usernames.rs] *)

Inductive UsernameLookup := ByUsername (username : string) | ByWalletId (wallet_id : Z).

Definition get_username (lookup : UsernameLookup) : M DieselError UsernameRow :=
  query (fun db => ok_or (find (fun row =>
    match lookup with
    | ByUsername name => String.eqb (sql_lower (username row)) (to_lowercase name)
    | ByWalletId id => wallet_id row =? id
    end) (usernames db)) NotFound).

Definition create_username (row : UsernameRow) : M DieselError UsernameRow :=
  transaction (fun db =>
    let? _ := check (negb (has_username (username row) db)) "usernames_pkey" in
    let? _ := check (negb (existsb (fun other => wallet_id other =? wallet_id row) (usernames db))) "usernames_wallet_id_key" in
    let? _ := check (wallet_exists (wallet_id row)) "usernames_wallet_id_fkey" in
    Ok (row, set_usernames (usernames db ++ [row]) db)).

(** A new name reaches the rows that refer to the old one: [ON UPDATE CASCADE]. *)
Definition renamed (old new name : string) : string := if String.eqb name old then new else name.
Definition rename_rewards (old new : string) (row : RewardsRow) : RewardsRow :=
  MkRewards (renamed old new (rewards_username row)) (status row) (level row) (points row) (renamed old new <$> referrer_username row)
    (referral_count row) (device_id row) (comment row) (disable_reason row) (verify_after row) (created_at row).
Definition rename_referral (old new : string) (row : RewardReferralRow) : RewardReferralRow :=
  MkReferral (referral_id row) (renamed old new (referrer row)) (renamed old new (referred_username row)) (referred_device_id row)
    (referral_signal_id row) (verified_at row) (referral_created_at row).
Definition rename_event (old new : string) (row : RewardEventRow) : RewardEventRow :=
  MkEvent (event_id row) (renamed old new (event_username row)) (event_type row) (event_created_at row).
Definition rename_redemption (old new : string) (row : RewardRedemptionRow) : RewardRedemptionRow :=
  MkRedemption (redemption_id row) (renamed old new (redemption_username row)) (option_id row) (redemption_device_id row)
    (redemption_wallet_id row) (transaction_id row) (redemption_status row) (redemption_error row) (redemption_created_at row).
Definition rename_attempt (old new : string) (row : ReferralAttemptRow) : ReferralAttemptRow :=
  MkAttempt (renamed old new (attempt_referrer row)) (attempt_wallet_id row) (attempt_device_id row) (attempt_signal_id row) (reason row).
Definition rename_signal (old new : string) (row : RiskSignalRow) : RiskSignalRow :=
  MkSignal (signal_id row) (signal_fingerprint row) (renamed old new (signal_referrer row)) (signal_device_id row) (signal_platform row)
    (signal_platform_store row) (signal_os row) (signal_model row) (signal_locale row) (signal_currency row) (signal_ip_address row)
    (signal_country row) (signal_usage row) (signal_isp row) (signal_abuse_score row) (signal_risk_score row) (signal_user_agent row)
    (signal_metadata row) (signal_created_at row).
Definition cascade (old new : string) (db : Db) : Db :=
  MkDb (clock db)
    (map (fun row => MkUsername (renamed old new (username row)) (wallet_id row) (username_status row)) (usernames db))
    (map (rename_rewards old new) (rewards db)) (map (rename_referral old new) (referrals db)) (map (rename_event old new) (events db))
    (options db) (map (rename_redemption old new) (redemptions db)) (map (fun '(row, time) => (rename_attempt old new row, time)) (attempts db))
    (map (rename_signal old new) (signals db)) (next_signal db)
    (next_referral db) (next_event db) (next_redemption db).

Definition update_username (wallet_id_ : Z) (new_username : string) : M DieselError UsernameRow :=
  transaction (fun db =>
    match find (fun row => wallet_id row =? wallet_id_) (usernames db) with
    | None => Err NotFound
    | Some row =>
        let? _ := check (String.eqb (username row) new_username || negb (has_username new_username db)) "usernames_pkey" in
        Ok (MkUsername new_username (wallet_id row) (username_status row), cascade (username row) new_username db)
    end).

(** *** [rewards.rs] *)

Inductive RewardsUpdate := UpdateStatus (status : RewardStatus) | UpdateVerifyAfter (dt : Z) | ClearVerifyAfter.
Inductive RewardsFilter := FilterUsername (username : string) | FilterStatuses (statuses : list RewardStatus) | FilterLimit (limit : Z).

Definition with_status (s : RewardStatus) (row : RewardsRow) : RewardsRow :=
  MkRewards (rewards_username row) s (level row) (points row) (referrer_username row) (referral_count row) (device_id row) (comment row)
    (disable_reason row) (verify_after row) (created_at row).
Definition with_verify_after (dt : option Z) (row : RewardsRow) : RewardsRow :=
  MkRewards (rewards_username row) (status row) (level row) (points row) (referrer_username row) (referral_count row) (device_id row)
    (comment row) (disable_reason row) dt (created_at row).
Definition with_points (p : Z) (row : RewardsRow) : RewardsRow :=
  MkRewards (rewards_username row) (status row) (level row) p (referrer_username row) (referral_count row) (device_id row) (comment row)
    (disable_reason row) (verify_after row) (created_at row).
Definition with_referrer (r : string) (row : RewardsRow) : RewardsRow :=
  MkRewards (rewards_username row) (status row) (level row) (points row) (Some r) (referral_count row) (device_id row) (comment row)
    (disable_reason row) (verify_after row) (created_at row).
Definition with_referral_count (n : Z) (row : RewardsRow) : RewardsRow :=
  MkRewards (rewards_username row) (status row) (level row) (points row) (referrer_username row) n (device_id row) (comment row)
    (disable_reason row) (verify_after row) (created_at row).
Definition with_disabled (reason comment : string) (row : RewardsRow) : RewardsRow :=
  MkRewards (rewards_username row) Disabled (level row) (points row) (referrer_username row) (referral_count row) (device_id row)
    (Some comment) (Some reason) (verify_after row) (created_at row).

Definition of_user (name : string) (row : RewardsRow) : bool := String.eqb (rewards_username row) name.

(** A filter adds a condition, and the last limit counts. *)
Definition rewards_filter (filter : RewardsFilter) (row : RewardsRow) : bool :=
  match filter with
  | FilterUsername name => of_user name row
  | FilterStatuses statuses => bool_decide (status row ∈ statuses)
  | FilterLimit _ => true
  end.
Definition filter_limit (filters : list RewardsFilter) (rows : list RewardsRow) : list RewardsRow :=
  fold_left (fun taken filter => match filter with FilterLimit limit => take (Z.to_nat limit) rows | _ => taken end) filters rows.
Definition get_rewards_by_filter (filters : list RewardsFilter) : M DieselError (list RewardsRow) :=
  query (fun db => Ok (filter_limit filters (List.filter (fun row => forallb (fun f => rewards_filter f row) filters) (rewards db)))).

Definition create_rewards (name : string) (device_id : Z) : M DieselError RewardsRow :=
  transaction (fun db =>
    let row := new_rewards_row name device_id (clock db) in
    let? _ := check (negb (has_rewards name db)) "rewards_pkey" in
    let? _ := check (has_username name db) "rewards_username_fkey" in
    let? _ := check (device_exists device_id) "rewards_device_id_fkey" in
    Ok (row, set_rewards (rewards db ++ [row]) db)).

Definition update_rewards (name : string) (change : RewardsUpdate) : M DieselError Z :=
  transaction (fun db =>
    let set_row := match change with
                   | UpdateStatus s => with_status s
                   | UpdateVerifyAfter dt => with_verify_after (Some dt)
                   | ClearVerifyAfter => with_verify_after None
                   end in
    Ok (count (of_user name) (rewards db), set_rewards (update (of_user name) set_row (rewards db)) db)).

(** The insertion of an event *)
Definition insert_event (name : string) (type : RewardEventType) : Tx RewardEventRow :=
  fun db =>
    let row := MkEvent (next_event db) name type (clock db) in
    let? _ := check (has_username name db) "rewards_events_username_fkey" in
    Ok (row, set_events (events db ++ [row]) (next_event db + 1) db).

(** [points + n] of the rows of a user, which has to fit the column; no row is [NotFound]. *)
Definition add_points (name : string) (n : Z) : Tx string :=
  fun db =>
    if negb (has_rewards name db) then Err NotFound
    else if negb (forallb (fun row => negb (of_user name row) || in_i32 (points row + n)) (rewards db)) then Err OutOfRange
    else Ok (name, set_rewards (update (of_user name) (fun row => with_points (points row + n) row) (rewards db)) db).

Definition add_event (name : string) (type : RewardEventType) (n : Z) : M DieselError RewardEventRow :=
  if n <? 0 then fail RollbackTransaction else
  transaction (fun db =>
    let? (event, db) := insert_event name type db in
    let? (_, db) := add_points name n db in
    Ok (event, db)).

Definition get_event (id : Z) : M DieselError RewardEventRow :=
  query (fun db => ok_or (find (fun row => event_id row =? id) (events db)) NotFound).
(** The events of a user, the latest first *)
Definition get_events (name : string) : M DieselError (list RewardEventRow) :=
  query (fun db => Ok (rev (List.filter (fun row => String.eqb (event_username row) name) (events db)))).

Definition disable_rewards (name reason comment : string) : M DieselError Z :=
  transaction (fun db =>
    let db := set_rewards (update (of_user name) (with_disabled reason comment) (rewards db)) db in
    let? (event, db) := insert_event name DisabledEvent db in
    Ok (event_id event, db)).

(** *** [rewards_redemptions.rs] *)

Inductive RedemptionUpdate :=
| RedemptionStatusTo (status : RedemptionStatus)
| RedemptionTransactionId (id : string)
| RedemptionErrorText (error : string).

Definition take_one (row : RewardRedemptionOptionRow) : RewardRedemptionOptionRow :=
  MkOption (option_row_id row) (redemption_type row) (option_points row) (option_asset_id row) (option_value row)
    ((fun n => n - 1) <$> remaining row).
(** [id = option AND (remaining IS NULL OR remaining > 0)] *)
Definition available (id : string) (row : RewardRedemptionOptionRow) : bool :=
  String.eqb (option_row_id row) id && opt_all (fun n => 0 <? n) (remaining row).

(** [points - n] of the rows of a user that have them *)
Definition spend_points (name : string) (n : Z) : Tx string :=
  fun db =>
    let can row := of_user name row && (n <=? points row) in
    if negb (existsb can (rewards db)) then Err NotFound
    else Ok (name, set_rewards (update can (fun row => with_points (points row - n) row) (rewards db)) db).

Definition insert_redemption (new : NewRewardRedemptionRow) : Tx Z :=
  fun db =>
    let row := MkRedemption (next_redemption db) (new_redemption_username new) (new_option_id new) (new_redemption_device_id new)
                 (new_redemption_wallet_id new) None (new_redemption_status new) None (clock db) in
    let? _ := check (has_rewards (new_redemption_username new) db) "rewards_redemptions_username_fkey" in
    let? _ := check (has_option (new_option_id new) db) "rewards_redemptions_option_id_fkey" in
    let? _ := check (device_exists (new_redemption_device_id new)) "rewards_redemptions_device_id_fkey" in
    let? _ := check (wallet_exists (new_redemption_wallet_id new)) "rewards_redemptions_wallet_id_fkey" in
    Ok (next_redemption db, set_redemptions (redemptions db ++ [row]) (next_redemption db + 1) db).

Definition add_redemption (name : string) (n : Z) (new : NewRewardRedemptionRow) : M DieselError Z :=
  if n <? 0 then fail RollbackTransaction else
  transaction (fun db =>
    let rows_updated := count (available (new_option_id new)) (options db) in
    let db := set_options (update (available (new_option_id new)) take_one (options db)) db in
    if rows_updated =? 0 then Err NotFound else
    let? db := if 0 <? n then let? (_, db) := spend_points name n db in Ok db else Ok db in
    insert_redemption new db).

Definition with_redemption (change : RedemptionUpdate) (row : RewardRedemptionRow) : RewardRedemptionRow :=
  match change with
  | RedemptionStatusTo s =>
      MkRedemption (redemption_id row) (redemption_username row) (option_id row) (redemption_device_id row) (redemption_wallet_id row)
        (transaction_id row) s (redemption_error row) (redemption_created_at row)
  | RedemptionTransactionId id =>
      MkRedemption (redemption_id row) (redemption_username row) (option_id row) (redemption_device_id row) (redemption_wallet_id row)
        (Some id) (redemption_status row) (redemption_error row) (redemption_created_at row)
  | RedemptionErrorText error =>
      MkRedemption (redemption_id row) (redemption_username row) (option_id row) (redemption_device_id row) (redemption_wallet_id row)
        (transaction_id row) (redemption_status row) (Some error) (redemption_created_at row)
  end.
Definition update_redemption_once (id : Z) (change : RedemptionUpdate) : M DieselError unit :=
  transaction (fun db =>
    Ok (tt, set_redemptions (update (fun row => redemption_id row =? id) (with_redemption change) (redemptions db)) (next_redemption db) db)).
(** The updates one by one *)
Fixpoint update_redemption (id : Z) (updates : list RedemptionUpdate) : M DieselError unit :=
  match updates with
  | [] => ret tt
  | change :: updates => bind (update_redemption_once id change) (fun _ => update_redemption id updates)
  end.

Definition get_redemption (id : Z) : M DieselError RewardRedemptionRow :=
  query (fun db => ok_or (find (fun row => redemption_id row =? id) (redemptions db)) NotFound).
(** [left_join] of the assets *)
Definition with_asset `{AssetsTable} (row : RewardRedemptionOptionRow) : RedemptionOptionFull := MkFull row (option_asset_id row ≫= asset_row).
Definition get_redemption_options `{AssetsTable} (types : list RewardRedemptionType) : M DieselError (list RedemptionOptionFull) :=
  query (fun db => Ok (map with_asset (List.filter (fun row => bool_decide (redemption_type row ∈ types)) (options db)))).
Definition get_redemption_option `{AssetsTable} (id : string) : M DieselError RedemptionOptionFull :=
  query (fun db => ok_or (with_asset <$> find (fun row => String.eqb (option_row_id row) id) (options db)) NotFound).
Definition count_redemptions_since (name : string) (since : Z) : M DieselError Z :=
  query (fun db => Ok (count (fun row => String.eqb (redemption_username row) name && (since <=? redemption_created_at row)) (redemptions db))).

(** *** [referrals.rs] *)

Definition insert_referral (new : NewRewardReferralRow) : Tx unit :=
  fun db =>
    let row := MkReferral (next_referral db) (new_referrer new) (new_referred new) (new_referred_device_id new) (new_signal_id new)
                 (new_verified_at new) (clock db) in
    let? _ := check (has_rewards (new_referrer new) db) "rewards_referrals_referrer_username_fkey" in
    let? _ := check (has_rewards (new_referred new) db) "rewards_referrals_referred_username_fkey" in
    let? _ := check (negb (existsb (fun other => String.eqb (referred_username other) (new_referred new)) (referrals db)))
                "rewards_referrals_referred_username_key" in
    let? _ := check (device_exists (new_referred_device_id new)) "rewards_referrals_referred_device_id_fkey" in
    let? _ := check (opt_all (fun id => has_signal id db) (new_signal_id new)) "rewards_referrals_risk_signal_id_fkey" in
    Ok (tt, set_referrals (referrals db ++ [row]) (next_referral db + 1) db).

Definition add_referral (new : NewRewardReferralRow) : M DieselError unit :=
  transaction (fun db =>
    let? (_, db) := insert_referral new db in
    let db := set_rewards (update (of_user (new_referred new)) (with_referrer (new_referrer new)) (rewards db)) db in
    if negb (forallb (fun row => negb (of_user (new_referrer new) row) || in_i32 (referral_count row + 1)) (rewards db)) then Err OutOfRange else
    Ok (tt, set_rewards (update (of_user (new_referrer new)) (fun row => with_referral_count (referral_count row + 1) row) (rewards db)) db)).

Definition get_referral_by_referred_device_id (id : Z) : M DieselError (option RewardReferralRow) :=
  query (fun db => Ok (find (fun row => referred_device_id row =? id) (referrals db))).
Definition get_referral_by_username (name : string) : M DieselError (option RewardReferralRow) :=
  query (fun db => Ok (find (fun row => String.eqb (referred_username row) name) (referrals db))).

(** [ReferralUpdate::VerifiedAt] *)
Definition verify_row (timestamp : Z) (row : RewardReferralRow) : RewardReferralRow :=
  MkReferral (referral_id row) (referrer row) (referred_username row) (referred_device_id row) (referral_signal_id row) (Some timestamp)
    (referral_created_at row).
Definition update_referral (id timestamp : Z) : M DieselError unit :=
  transaction (fun db =>
    Ok (tt, set_referrals (update (fun row => referral_id row =? id) (verify_row timestamp) (referrals db)) (next_referral db) db)).

Definition store_referral_attempt (attempt : ReferralAttemptRow) : M DieselError unit :=
  transaction (fun db =>
    let? _ := check (has_rewards (attempt_referrer attempt) db) "rewards_referral_attempts_referrer_username_fkey" in
    let? _ := check (wallet_exists (attempt_wallet_id attempt)) "rewards_referral_attempts_wallet_id_fkey" in
    let? _ := check (device_exists (attempt_device_id attempt)) "rewards_referral_attempts_device_id_fkey" in
    let? _ := check (opt_all (fun id => has_signal id db) (attempt_signal_id attempt)) "rewards_referral_attempts_risk_signal_id_fkey" in
    Ok (tt, set_attempts (attempts db ++ [(attempt, clock db)]) db)).

Definition add_risk_signal (new : NewRiskSignalRow) : M DieselError Z :=
  transaction (fun db =>
    let row := MkSignal (next_signal db) (new_signal_fingerprint new) (new_signal_referrer new) (new_signal_device_id new) (new_signal_platform new)
                 (new_signal_platform_store new) (new_signal_os new) (new_signal_model new) (new_signal_locale new) (new_signal_currency new)
                 (new_signal_ip_address new) (new_signal_country new) (new_signal_usage new) (new_signal_isp new) (new_signal_abuse_score new)
                 (new_signal_risk_score new) (new_signal_user_agent new) (new_signal_metadata new) (clock db) in
    let? _ := check (has_rewards (new_signal_referrer new) db) "rewards_risk_signals_referrer_username_fkey" in
    let? _ := check (device_exists (new_signal_device_id new)) "rewards_risk_signals_device_id_fkey" in
    Ok (next_signal db, set_signals (signals db ++ [row]) (next_signal db + 1) db)).

Definition count_referrals_since (name : string) (since : Z) : M DieselError Z :=
  query (fun db => Ok (count (fun row => String.eqb (referrer row) name && (since <=? referral_created_at row)) (referrals db))).

End store.
End RewardsStore.
