(* ===== verification/RewardsLedger.v ===== *)
(** * Rewards: the ledger

    What holds of the tables of [RewardsStore] whatever statements run and in whatever order: the points of every user
    are those of its events less those it has redeemed, its count of referrals is the number of its referrals, no name
    is referred twice, and an option of limited stock is not redeemed more often than its stock allows.  Then what one
    redemption takes. *)
From S2P Require Import Prelude Text Crates ChainRegistry Assets Wallets RewardsStore.

(** ** The ledger *)

Module RewardsLedger.
Import RewardsModels RewardsStore.

(** The total of a value over the rows of a user *)
Definition total {A} (user : A -> string) (value : A -> Z) (name : string) (rows : list A) : Z :=
  foldr (fun row acc => (if String.eqb (user row) name then value row else 0) + acc) 0 rows.
#[global] Arguments total : simpl never.

(** The points and referrals of a user, and what its events and redemptions account for *)
Definition option_cost (options : list RewardRedemptionOptionRow) (id : string) : Z :=
  match find (fun row => String.eqb (option_row_id row) id) options with Some row => option_points row | None => 0 end.
Definition held (rewards : list RewardsRow) : string -> Z := fun name => total rewards_username points name rewards.
Definition counted (rewards : list RewardsRow) : string -> Z := fun name => total rewards_username referral_count name rewards.
Definition earned (events : list RewardEventRow) : string -> Z :=
  fun name => total event_username (fun row => event_points (event_type row)) name events.
Definition spent (options : list RewardRedemptionOptionRow) (redemptions : list RewardRedemptionRow) : string -> Z :=
  fun name => total redemption_username (fun row => option_cost options (option_id row)) name redemptions.
Definition invited (referrals : list RewardReferralRow) : string -> Z := fun name => total referrer (fun _ => 1) name referrals.

(** What holds of the tables at any time *)
Record sound (db : Db) : Prop := {
  usernames_unique : NoDup (map username (usernames db));
  rewards_unique : NoDup (map rewards_username (rewards db));
  rewards_named : Forall (fun name => name ∈ map username (usernames db)) (map rewards_username (rewards db));
  referred_unique : NoDup (map referred_username (referrals db));
  referrals_named : Forall (fun name => name ∈ map rewards_username (rewards db)) (map referred_username (referrals db));
  points_balance : forall name, held (rewards db) name = earned (events db) name - spent (options db) (redemptions db) name;
  counts_balance : forall name, counted (rewards db) name = invited (referrals db) name;
  points_nonneg : Forall (fun row => 0 <= points row <= I32_MAX) (rewards db);
  options_unique : NoDup (map option_row_id (options db));
  remaining_nonneg : Forall (fun row => opt_all (fun n => 0 <=? n) (remaining row) = true) (options db)
}.

Lemma total_app {A} user value name (l1 l2 : list A) : total user value name (l1 ++ l2) = total user value name l1 + total user value name l2.
Proof. unfold total. induction l1 as [|x l1 IH]; cbn [app foldr]; [done|]. rewrite IH. lia. Qed.

Lemma total_ext {A B} (user : A -> string) (value : A -> Z) (user' : B -> string) value' (f : A -> B) name l :
  (forall x, x ∈ l -> user' (f x) = user x) -> (forall x, x ∈ l -> value' (f x) = value x) ->
  total user' value' name (map f l) = total user value name l.
Proof.
  unfold total. induction l as [|x l IH]; intros U V; cbn [map foldr]; [done|].
  rewrite (U x), (V x), IH by (try (intros; apply U || apply V); set_solver). done.
Qed.

(** Renaming moves the total of the old name to the new one. *)
Lemma total_renamed {A} (user : A -> string) value user' value' (f : A -> A) old new name l :
  (forall x, user' (f x) = renamed old new (user x)) -> (forall x, value' (f x) = value x) ->
  total user' value' name (map f l)
  = (if String.eqb new name then total user value old l + (if String.eqb old name then 0 else total user value name l)
     else if String.eqb old name then 0 else total user value name l).
Proof.
  intros U V. unfold total. induction l as [|x l IH]; cbn [map foldr]; [by destruct (String.eqb new name), (String.eqb old name)|].
  rewrite U, V, IH. unfold renamed.
  destruct (String.eqb_spec (user x) old), (String.eqb_spec new name), (String.eqb_spec old name); subst;
    rewrite ?String.eqb_refl; try congruence; try lia; destruct (String.eqb_spec (user x) name); congruence || lia.
Qed.

(** An update that adds [n] to the value of the rows it takes *)
Lemma total_update {A} (user : A -> string) value (p : A -> bool) (f : A -> A) n name l :
  (forall x, user (f x) = user x) -> (forall x, p x = true -> value (f x) = value x + n) ->
  total user value name (update p f l) = total user value name l + n * total user (fun x => if p x then 1 else 0) name l.
Proof.
  intros U V. unfold total, update. induction l as [|x l IH]; cbn [map foldr]; [lia|]. rewrite IH.
  destruct (p x) eqn:P; [rewrite U, (V x P)|]; destruct (String.eqb (user x) name); lia.
Qed.

Lemma total_none {A} (user : A -> string) value name l : Forall (fun x => user x <> name) l -> total user value name l = 0.
Proof.
  induction 1 as [|x l N F IH]; [done|]. unfold total in *. cbn [foldr]. rewrite IH.
  by destruct (String.eqb_spec (user x) name).
Qed.

(** *** Keys and references *)

Lemma exists_key {A} (key : A -> string) name l : existsb (fun row => String.eqb (key row) name) l = true <-> name ∈ map key l.
Proof.
  rewrite existsb_exists. split.
  - intros (x & X & E%String.eqb_eq). rewrite <- E. apply list_elem_of_In, in_map_iff. eauto.
  - intros (x & E & X)%list_elem_of_In%in_map_iff. exists x. split; [done|]. by apply String.eqb_eq.
Qed.

Lemma absent_key {A} (key : A -> string) name l : negb (existsb (fun row => String.eqb (key row) name) l) = true <-> name ∉ map key l.
Proof. rewrite negb_true_iff, <- not_true_iff_false, exists_key. done. Qed.

Lemma check_Ok c k u : check c k = Ok u -> c = true.
Proof. unfold check. by destruct c. Qed.

Lemma map_update {A B} (key : A -> B) p (f : A -> A) l : (forall x, key (f x) = key x) -> map key (update p f l) = map key l.
Proof. intros K. unfold update. rewrite map_map. apply map_ext. intros x. by destruct (p x). Qed.

Lemma Forall_update {A} (P : A -> Prop) p (f : A -> A) l : (forall x, P x -> p x = true -> P (f x)) -> Forall P l -> Forall P (update p f l).
Proof. intros I F. unfold update. apply Forall_map. eapply Forall_impl; [exact F|]. intros x X. cbn. destruct (p x) eqn:E; auto. Qed.

Lemma total_keeps {A} (user : A -> string) value p (f : A -> A) name l : (forall x, user (f x) = user x) -> (forall x, value (f x) = value x) ->
  total user value name (update p f l) = total user value name l.
Proof.
  intros U V. unfold total, update. induction l as [|x l IH]; cbn [map foldr]; [done|]. rewrite IH. destruct (p x); by rewrite ?U, ?V.
Qed.

(** [n] goes to the row of a user. *)
Lemma total_taken {A} (key : A -> string) p name user (rows : list A) : NoDup (map key rows) -> existsb p rows = true ->
  (forall row, p row = true -> key row = name) ->
  total key (fun row => if p row then 1 else 0) user rows = if String.eqb name user then 1 else 0.
Proof.
  intros N E K. induction rows as [|x rows IH]; [done|]. cbn [map existsb] in N, E. inversion_clear N as [|? ? X ND].
  unfold total in *. cbn [foldr]. destruct (p x) eqn:P.
  - pose proof (total_none key (fun row => if p row then 1 else 0) name rows) as T. rewrite (K x P) in *.
    destruct (String.eqb_spec name user) as [<-|_].
    + unfold total in T. rewrite T; [done|]. apply List.Forall_forall. intros y Y Q. apply X. rewrite <- Q.
      apply list_elem_of_In, in_map_iff. eauto.
    + clear IH T E ND. induction rows as [|y rows IH]; [done|]. cbn [foldr]. destruct (p y) eqn:Q.
      * exfalso. apply X. cbn. rewrite (K y Q). by left.
      * rewrite Z.add_0_l in *. rewrite IH; [by destruct (String.eqb _ _)|]. intros I. apply X. cbn. by right.
  - rewrite IH by done. by destruct (String.eqb (key x) user).
Qed.

Lemma total_credited {A} (key : A -> string) value p (f : A -> A) name n user rows : NoDup (map key rows) -> existsb p rows = true ->
  (forall row, p row = true -> key row = name) -> (forall row, key (f row) = key row) -> (forall row, value (f row) = value row + n) ->
  total key value user (update p f rows) = total key value user rows + (if String.eqb name user then n else 0).
Proof.
  intros N E K U V. rewrite (total_update _ _ _ _ n) by auto. rewrite (total_taken _ _ name) by done. destruct (String.eqb name user); lia.
Qed.

Lemma of_user_true name row : of_user name row = true -> rewards_username row = name.
Proof. apply String.eqb_eq. Qed.

Lemma Forall_update_if {A} (P : A -> Prop) (q p : A -> bool) (f : A -> A) l : forallb q l = true ->
  (forall x, P x -> q x = true -> p x = true -> P (f x)) -> Forall P l -> Forall P (update p f l).
Proof.
  intros Q I F. unfold update. apply Forall_map, List.Forall_forall. intros x X. cbn. rewrite forallb_forall in Q.
  rewrite List.Forall_forall in F. destruct (p x) eqn:E; auto.
Qed.

Lemma nodup_app_one {A} (l : list A) x : NoDup l -> x ∉ l -> NoDup (l ++ [x]).
Proof. intros N X. apply NoDup_app. split_and!; [done| |by apply NoDup_singleton]. intros y Y ->%list_elem_of_singleton. done. Qed.

Lemma nodup_renamed old new (l : list string) : NoDup l -> (new ∉ l \/ new = old) -> NoDup (map (renamed old new) l).
Proof.
  intros N [F| ->].
  - induction N as [|x l X N IH]; [constructor|]. cbn. constructor; [|by apply IH; set_solver].
    intros (y & E & Y)%list_elem_of_In%in_map_iff. apply list_elem_of_In in Y. unfold renamed in E.
    destruct (String.eqb_spec x old), (String.eqb_spec y old); subst; set_solver.
  - assert (map (renamed old old) l = l) as ->; [|done]. rewrite <- (map_id l) at 2. apply map_ext. intros x. unfold renamed.
    by destruct (String.eqb_spec x old).
Qed.

Lemma has_row name db row : row ∈ rewards db -> rewards_username row = name -> existsb (of_user name) (rewards db) = true.
Proof. intros R E. apply existsb_exists. exists row. split; [by apply list_elem_of_In|]. by apply String.eqb_eq. Qed.

(** *** Every statement keeps the tables sound *)

Section sound.
Context `{Lowercase} `{SqlLower} `{WalletsStore} `{Clock}.

Lemma sound_clock t db : sound db -> sound (set_clock t db).
Proof. intros []. by constructor. Qed.

Lemma transaction_sound {A} (tx : Tx A) db : (forall a db', tx db = Ok (a, db') -> sound db') -> sound db -> sound (snd (transaction tx db)).
Proof. intros T S. unfold transaction. destruct (tx db) as [[a db']|] eqn:E; [by eapply T|done]. Qed.

Lemma ok_db {E A} (a b : A) (db1 db2 : Db) : Ok (E := E) (a, db1) = Ok (b, db2) -> db2 = db1.
Proof. congruence. Qed.
Ltac ok_inv E := apply ok_db in E; subst.

(** A reference to a row outlives the addition of another. *)
Lemma named_added {A} (key : A -> string) (l : list A) x (names : list string) :
  Forall (fun name => name ∈ map key l) names -> Forall (fun name => name ∈ map key (l ++ [x])) names.
Proof. intros F. eapply Forall_impl; [exact F|]. intros r R. rewrite map_app. apply elem_of_app. by left. Qed.

Lemma create_username_sound row db : sound db -> sound (snd (create_username row db)).
Proof.
  intros S. apply transaction_sound; [|done]. intros a db' E. destruct (check (negb (has_username _ _)) _) eqn:C; [|done].
  destruct (check (negb (existsb _ _)) _); [|done]. destruct (check (wallet_exists _) _); [|done]. ok_inv E.
  apply check_Ok, absent_key in C. destruct S. constructor; cbn; try done.
  - rewrite map_app. by apply nodup_app_one.
  - by apply named_added.
Qed.

(** The totals after a row is added *)
Lemma total_added {A} user value name (l : list A) x : total user value name (l ++ [x]) = total user value name l + (if String.eqb (user x) name then value x else 0).
Proof. rewrite total_app. unfold total at 2. cbn. lia. Qed.

Lemma create_rewards_sound name device db : sound db -> sound (snd (create_rewards name device db)).
Proof.
  intros S. apply transaction_sound; [|done]. intros a db' E. destruct (check (negb (has_rewards _ _)) _) eqn:C; [|done].
  destruct (check (has_username _ _) _) eqn:U; [|done]. destruct (check (device_exists _) _); [|done]. ok_inv E.
  apply check_Ok, absent_key in C. apply check_Ok, exists_key in U. destruct S. constructor; cbn; try done.
  - rewrite map_app. by apply nodup_app_one.
  - rewrite map_app. apply Forall_app. split; [done|]. by apply Forall_singleton.
  - by apply named_added.
  - intros n. rewrite <- points_balance0. unfold held. rewrite total_added. cbn. destruct (String.eqb _ _); lia.
  - intros n. rewrite <- counts_balance0. unfold counted. rewrite total_added. cbn. destruct (String.eqb _ _); lia.
  - apply Forall_app. split; [done|]. apply Forall_singleton. cbn. unfold I32_MAX. lia.
Qed.

(** A change of a row that keeps its user, its points and its count *)
Lemma rewards_kept_sound p f db : (forall row, rewards_username (f row) = rewards_username row) -> (forall row, points (f row) = points row) ->
  (forall row, referral_count (f row) = referral_count row) -> sound db -> sound (set_rewards (update p f (rewards db)) db).
Proof.
  intros U P C S. destruct S. constructor; cbn; try done.
  - by rewrite map_update.
  - by rewrite map_update.
  - by rewrite map_update.
  - intros name. unfold held. rewrite total_keeps by done. apply points_balance0.
  - intros name. unfold counted. rewrite total_keeps by done. apply counts_balance0.
  - apply Forall_update; [|done]. intros x. by rewrite P.
Qed.

Lemma update_rewards_sound name change db : sound db -> sound (snd (update_rewards name change db)).
Proof.
  intros S. apply transaction_sound; [|done]. intros a db' E. ok_inv E. destruct change; by apply rewards_kept_sound.
Qed.

(** An event of no points *)
Lemma insert_event_sound name type db event db' : event_points type = 0 -> insert_event name type db = Ok (event, db') -> sound db -> sound db'.
Proof.
  intros Z E S. unfold insert_event in E. destruct (check _ _); [|done]. ok_inv E. destruct S. constructor; cbn; try done.
  intros n. rewrite points_balance0. unfold earned. rewrite total_added. cbn. rewrite Z. destruct (String.eqb name n); lia.
Qed.

Lemma disable_rewards_sound name reason comment db : sound db -> sound (snd (disable_rewards name reason comment db)).
Proof.
  intros S. apply transaction_sound; [|done]. intros a db' E. cbv zeta in E. destruct (insert_event _ _ _) as [[event db2]|] eqn:I; [|done]. ok_inv E.
  eapply insert_event_sound in I; [done|done|]. by apply rewards_kept_sound.
Qed.

Lemma add_event_sound name type db : sound db -> sound (snd (add_event name type (event_points type) db)).
Proof.
  intros S. unfold add_event. destruct (Z.ltb_spec (event_points type) 0); [done|]. apply transaction_sound; [|done]. intros a db' E.
  unfold insert_event, add_points in E. destruct (check _ _); [|done]. cbn [has_rewards rewards set_events] in E.
  destruct (has_rewards name _) eqn:R; [|done]. cbn [negb] in E. destruct (forallb _ _) eqn:F; [|done]. cbn [negb] in E. ok_inv E.
  change (has_rewards name db = true) in R. destruct S. constructor; cbn; try done.
  - by rewrite map_update.
  - by rewrite map_update.
  - by rewrite map_update.
  - intros user. unfold held, earned. rewrite (total_credited _ _ _ _ name (event_points type)), total_added by (done || apply of_user_true). specialize (points_balance0 user).
    unfold held, earned in points_balance0. cbn. destruct (String.eqb name user); lia.
  - intros user. unfold counted. rewrite total_keeps by done. apply counts_balance0.
  - eapply Forall_update_if; [exact F| |done]. intros x X Q P. cbn. cbv beta in Q. rewrite P in Q. unfold in_i32, I32_MAX in *. zbool. lia.
Qed.

(** *** Redemptions *)

Lemma option_cost_taken id p options : option_cost (update p take_one options) id = option_cost options id.
Proof.
  unfold option_cost, update. induction options as [|x options IH]; [done|]. cbn [map find].
  destruct (p x); cbn [option_row_id take_one]; by destruct (String.eqb (option_row_id x) id).
Qed.

Lemma spent_taken p options redemptions name : spent (update p take_one options) redemptions name = spent options redemptions name.
Proof.
  unfold spent, total. induction redemptions as [|x redemptions IH]; [done|]. cbn [foldr]. by rewrite IH, option_cost_taken.
Qed.

Lemma take_one_sound id db : sound db -> sound (set_options (update (available id) take_one (options db)) db).
Proof.
  intros S. destruct S. constructor; cbn; try done.
  - intros name. rewrite spent_taken. apply points_balance0.
  - by rewrite map_update.
  - apply Forall_update; [|done]. intros [] R P%andb_true_iff. unfold available in *. cbn in *. destruct remaining0; [|done].
    cbn in *. zbool. lia.
Qed.

(** The charge of [n] points *)
Lemma spend_charges name n db db1 : sound db -> 0 <= n ->
  (if 0 <? n then let? (_, db) := spend_points name n db in Ok db else Ok db) = Ok db1 ->
  exists rows, db1 = set_rewards rows db /\ map rewards_username rows = map rewards_username (rewards db) /\
    Forall (fun row => 0 <= points row <= I32_MAX) rows /\ (forall user, counted rows user = counted (rewards db) user) /\
    (forall user, held rows user = held (rewards db) user - (if String.eqb name user then n else 0)).
Proof.
  intros S N E. destruct S. destruct (Z.ltb_spec 0 n).
  - unfold spend_points in E. cbv zeta in E. destruct (existsb _ (rewards db)) eqn:X; [|done]. cbn [negb] in E. injection E as <-.
    eexists. split; [done|]. split; [by apply map_update|]. split; [|split].
    + apply Forall_update; [|done]. intros x B P%andb_true_iff. cbn. zbool. unfold I32_MAX in *. lia.
    + intros user. by apply total_keeps.
    + intros user. unfold held. rewrite (total_credited _ _ _ _ name (- n)); try done.
      * destruct (String.eqb name user); lia.
      * by intros row [U%of_user_true _]%andb_true_iff.
  - injection E as <-. exists (rewards db). split; [by destruct db|]. do 3 (split; [done|]). intros user. destruct (String.eqb name user); lia.
Qed.

Lemma add_redemption_sound name new db : new_redemption_username new = name ->
  sound db -> sound (snd (add_redemption name (option_cost (options db) (new_option_id new)) new db)).
Proof.
  intros N S. unfold add_redemption. destruct (Z.ltb_spec (option_cost (options db) (new_option_id new)) 0); [done|].
  apply transaction_sound; [|done]. intros a db' E. cbv zeta in E. destruct (Z.eqb _ 0); [done|].
  pose proof (take_one_sound (new_option_id new) db S) as S0. destruct (if 0 <? _ then _ else _) as [db1|] eqn:C; [|done].
  apply spend_charges in C as (rows & -> & U & B & K & C); [|done|done]. clear S. cbn [rewards set_options] in U, K, C.
  unfold insert_redemption in E. do 4 (destruct (check _ _); [|done]). ok_inv E. destruct S0. constructor; cbn; try done.
  - by rewrite U.
  - by rewrite U.
  - by rewrite U.
  - intros user. unfold spent. rewrite C, total_added. specialize (points_balance0 user). cbn in points_balance0. rewrite points_balance0.
    unfold spent. cbn. rewrite option_cost_taken. destruct (String.eqb _ user); lia.
  - intros user. rewrite K. apply counts_balance0.
Qed.

Lemma update_redemption_sound id updates db : sound db -> sound (snd (update_redemption id updates db)).
Proof.
  revert db. induction updates as [|change updates IH]; intros db S; [done|]. cbn [update_redemption]. unfold bind.
  assert (O : sound (snd (update_redemption_once id change db))).
  - apply transaction_sound; [|done]. intros a db' E. ok_inv E. destruct S. constructor; cbn; try done.
    intros name. unfold spent. rewrite total_keeps by (intros; by destruct change). apply points_balance0.
  - destruct (update_redemption_once id change db) as [[]]; cbn in O; auto.
Qed.

(** *** Referrals *)

Lemma add_referral_sound new db : sound db -> sound (snd (add_referral new db)).
Proof.
  intros S. apply transaction_sound; [|done]. intros a db' E. cbv zeta in E.
  destruct (insert_referral new db) as [[[] db1]|] eqn:I; [|done]. destruct (forallb _ _) eqn:Q; [|done]. cbn [negb] in E. ok_inv E.
  unfold insert_referral in I. cbv zeta in I. destruct (check (has_rewards (new_referrer new) db) _) eqn:R; [|done].
  destruct (check (has_rewards (new_referred new) db) _) eqn:R'; [|done]. destruct (check (negb _) _) eqn:X; [|done].
  destruct (check (device_exists _) _); [|done]. destruct (check (opt_all _ _) _); [|done]. ok_inv I. apply check_Ok in R, R'. apply check_Ok, absent_key in X. destruct S.
  assert (R2 : existsb (of_user (new_referrer new)) (update (of_user (new_referred new)) (with_referrer (new_referrer new)) (rewards db)) = true).
  { apply exists_key. rewrite map_update by done. by apply exists_key. }
  constructor; cbn; rewrite ?map_update by done; try done.
  - rewrite map_app. by apply nodup_app_one.
  - rewrite map_app. apply Forall_app. split; [done|]. apply Forall_singleton. by apply exists_key.
  - intros user. unfold held. rewrite !total_keeps by done. apply points_balance0.
  - intros user. unfold counted, invited. rewrite (total_credited _ _ _ _ (new_referrer new) 1), total_keeps, total_added
      by (done || apply of_user_true || by rewrite map_update). specialize (counts_balance0 user). unfold counted, invited in counts_balance0.
    cbn. destruct (String.eqb _ user); lia.
  - do 2 (apply Forall_update; [done|]). done.
Qed.

Lemma update_referral_sound id timestamp db : sound db -> sound (snd (update_referral id timestamp db)).
Proof.
  intros S. apply transaction_sound; [|done]. intros a db' E. ok_inv E. destruct S. constructor; cbn; try done.
  - by rewrite map_update.
  - by rewrite map_update.
  - intros name. unfold invited. rewrite total_keeps by done. apply counts_balance0.
Qed.

Lemma store_referral_attempt_sound attempt db : sound db -> sound (snd (store_referral_attempt attempt db)).
Proof.
  intros S. apply transaction_sound; [|done]. intros a db' E. destruct (check _ _); [|done]. destruct (check _ _); [|done].
  destruct (check _ _); [|done]. destruct (check _ _); [|done]. ok_inv E. by destruct S.
Qed.

Lemma add_risk_signal_sound new db : sound db -> sound (snd (add_risk_signal new db)).
Proof.
  intros S. apply transaction_sound; [|done]. intros a db' E. cbv zeta in E. destruct (check _ _); [|done]. destruct (check _ _); [|done].
  ok_inv E. by destruct S.
Qed.

(** *** Renaming *)

Lemma map_renamed {A} (key key' : A -> string) (f : A -> A) old new (rows : list A) : (forall x, key (f x) = renamed old new (key x)) ->
  map key (map f rows) = map (renamed old new) (map key rows).
Proof. intros K. rewrite !map_map. by apply map_ext. Qed.

Lemma named_renamed old new names keys : Forall (fun name => name ∈ keys) names ->
  Forall (fun name => name ∈ map (renamed old new) keys) (map (renamed old new) names).
Proof.
  intros F. apply Forall_map. eapply Forall_impl; [exact F|]. intros x X. apply list_elem_of_In, in_map. by apply list_elem_of_In.
Qed.

Lemma update_username_sound id name db : sound db -> sound (snd (update_username id name db)).
Proof.
  intros S. apply transaction_sound; [|done]. intros a db' E. destruct (find _ _) as [row|] eqn:W; [|done]. destruct (check _ _) eqn:C; [|done].
  ok_inv E. apply check_Ok in C. apply find_some in W as [W _].
  assert (F : name ∉ map username (usernames db) \/ name = username row).
  { apply orb_true_iff in C as [E%String.eqb_eq|E]; [by right|]. left. by apply absent_key in E. }
  assert (G : forall old, map username (map (fun row => MkUsername (renamed old name (username row)) (wallet_id row) (username_status row)) (usernames db))
    = map (renamed old name) (map username (usernames db))) by (intros; by apply map_renamed).
  assert (K : forall old, map rewards_username (map (rename_rewards old name) (rewards db)) = map (renamed old name) (map rewards_username (rewards db)))
    by (intros; by apply map_renamed).
  assert (L : forall old, map referred_username (map (rename_referral old name) (referrals db)) = map (renamed old name) (map referred_username (referrals db)))
    by (intros; by apply map_renamed).
  destruct S. constructor; cbn; rewrite ?G, ?K, ?L; try done.
  - by apply nodup_renamed.
  - apply nodup_renamed; [done|]. destruct F as [F|]; [left|by right]. intros X. apply F. rewrite Forall_forall in rewards_named0. auto.
  - by apply named_renamed.
  - apply nodup_renamed; [done|]. destruct F as [F|]; [left|by right]. intros X. apply F. rewrite Forall_forall in rewards_named0, referrals_named0. auto.
  - by apply named_renamed.
  - intros user. unfold held, earned, spent.
    rewrite (total_renamed rewards_username points _ _ _ (username row) name), (total_renamed event_username (fun row => event_points (event_type row)) _ _ _ (username row) name),
      (total_renamed redemption_username (fun row => option_cost (options db) (option_id row)) _ _ _ (username row) name) by done.
    pose proof (points_balance0 user). pose proof (points_balance0 (username row)). unfold held, earned, spent in *.
    destruct (String.eqb name user), (String.eqb (username row) user); lia.
  - intros user. unfold counted, invited.
    rewrite (total_renamed rewards_username referral_count _ _ _ (username row) name), (total_renamed referrer (fun _ => 1) _ _ _ (username row) name) by done.
    pose proof (counts_balance0 user). pose proof (counts_balance0 (username row)). unfold counted, invited in *.
    destruct (String.eqb name user), (String.eqb (username row) user); lia.
  - apply Forall_map. eapply Forall_impl; [exact points_nonneg0|]. done.
Qed.

(** ** Every run of the statements *)

(** One statement of the store; a statement that fails is a step too. *)
Inductive store_step : Db -> Db -> Prop :=
| StepClock db : store_step db (snd (now (E := DieselError) db))
| StepCreateUsername row db : store_step db (snd (create_username row db))
| StepUpdateUsername id name db : store_step db (snd (update_username id name db))
| StepCreateRewards name device db : store_step db (snd (create_rewards name device db))
| StepUpdateRewards name change db : store_step db (snd (update_rewards name change db))
| StepAddEvent name type db : store_step db (snd (add_event name type (event_points type) db))
| StepDisableRewards name reason comment db : store_step db (snd (disable_rewards name reason comment db))
| StepAddRedemption new db :
    store_step db (snd (add_redemption (new_redemption_username new) (option_cost (options db) (new_option_id new)) new db))
| StepUpdateRedemption id updates db : store_step db (snd (update_redemption id updates db))
| StepAddReferral new db : store_step db (snd (add_referral new db))
| StepUpdateReferral id timestamp db : store_step db (snd (update_referral id timestamp db))
| StepReferralAttempt attempt db : store_step db (snd (store_referral_attempt attempt db))
| StepRiskSignal new db : store_step db (snd (add_risk_signal new db)).

Lemma store_step_sound db db' : store_step db db' -> sound db -> sound db'.
Proof.
  destruct 1; [apply sound_clock|apply create_username_sound|apply update_username_sound|apply create_rewards_sound|apply update_rewards_sound
    |apply add_event_sound|apply disable_rewards_sound|by apply add_redemption_sound|apply update_redemption_sound|apply add_referral_sound
    |apply update_referral_sound|apply store_referral_attempt_sound|apply add_risk_signal_sound].
Qed.

(** *** Options of limited stock *)

Definition remaining_of (options : list RewardRedemptionOptionRow) (id : string) : option Z :=
  match find (fun row => String.eqb (option_row_id row) id) options with Some row => remaining row | None => None end.
Definition sold (redemptions : list RewardRedemptionRow) (id : string) : Z := total (fun id => id) (fun _ => 1) id (map option_id redemptions).

(** The stock is what it was at the start, less what was redeemed, at the same cost. *)
Definition stocked (stock : list RewardRedemptionOptionRow) (db : Db) : Prop :=
  (forall id, option_cost (options db) id = option_cost stock id) /\
  (forall id k, remaining_of stock id = Some k -> remaining_of (options db) id = Some (k - sold (redemptions db) id)).

Lemma remaining_taken options id other k : remaining_of options other = Some k ->
  remaining_of (update (available id) take_one options) other = Some (if String.eqb id other && (0 <? k) then k - 1 else k).
Proof.
  unfold remaining_of, update. induction options as [|[rid type points asset value left] options IH]; [done|]. cbn [map find].
  unfold available at 1 2. cbn [option_row_id remaining]. destruct (String.eqb_spec rid other) as [->|N].
  - cbn [remaining]. intros ->. cbn [opt_all]. rewrite (String.eqb_sym id). destruct (String.eqb other id); cbn [andb]; [destruct (0 <? k)|];
      cbn [option_row_id take_one]; by rewrite String.eqb_refl.
  - intros K. destruct (String.eqb rid id && _); [unfold take_one at 1|]; cbn [option_row_id]; rewrite (proj2 (String.eqb_neq rid other) N); by apply IH.
Qed.

Lemma sold_nonneg redemptions id : 0 <= sold redemptions id.
Proof. unfold sold, total. induction redemptions as [|x l IH]; cbn [foldr map]; [done|]. destruct (String.eqb _ _); lia. Qed.

Lemma sold_added redemptions row id : sold (redemptions ++ [row]) id = sold redemptions id + (if String.eqb (option_id row) id then 1 else 0).
Proof. unfold sold. rewrite map_app. cbn [map]. by rewrite total_added. Qed.

(** Something of the option was left. *)
Lemma available_remaining options id k : NoDup (map option_row_id options) -> remaining_of options id = Some k ->
  count (available id) options <> 0 -> 0 < k.
Proof.
  unfold remaining_of, count. induction options as [|x options IH]; [done|]. cbn [map find List.filter]. intros ND%NoDup_cons K C.
  destruct ND as [X ND]. destruct (String.eqb_spec (option_row_id x) id) as [E|N].
  - unfold available in C at 1. rewrite <- E, String.eqb_refl, K in C. cbn [opt_all andb] in C. destruct (Z.ltb_spec 0 k); [done|].
    assert (List.filter (available (option_row_id x)) options = []) as F; [|by rewrite F in C].
    clear -X. induction options as [|y options IH]; [done|]. cbn [List.filter map] in *. apply not_elem_of_cons in X as [X1 X2].
    unfold available at 1. destruct (String.eqb_spec (option_row_id y) (option_row_id x)); [congruence|]. by apply IH.
  - unfold available in C at 1. destruct (String.eqb_spec (option_row_id x) id); [done|]. by apply IH.
Qed.

(** A statement that leaves the options and what is redeemed *)
Lemma stocked_kept stock db db' : options db' = options db -> map option_id (redemptions db') = map option_id (redemptions db) ->
  stocked stock db -> stocked stock db'.
Proof. intros O R [S1 S2]. unfold stocked, sold. rewrite O, R. by split. Qed.

Lemma transaction_stocked {A} stock (tx : Tx A) db : (forall a db', tx db = Ok (a, db') -> options db' = options db /\
    map option_id (redemptions db') = map option_id (redemptions db)) ->
  stocked stock db -> stocked stock (snd (transaction tx db)).
Proof.
  intros T. unfold transaction. destruct (tx db) as [[a db']|] eqn:E; [|done]. destruct (T _ _ eq_refl). by apply stocked_kept.
Qed.

Lemma add_redemption_stocked stock name n new db : NoDup (map option_row_id (options db)) -> stocked stock db -> stocked stock (snd (add_redemption name n new db)).
Proof.
  intros ND S. unfold add_redemption. destruct (n <? 0); [done|]. unfold transaction. cbv zeta.
  destruct (Z.eqb_spec (count (available (new_option_id new)) (options db)) 0) as [|C]; [done|].
  destruct (if 0 <? n then _ else _) as [db1|] eqn:P; [|done].
  assert (exists rows, db1 = set_rewards rows (set_options (update (available (new_option_id new)) take_one (options db)) db)) as [rows ->].
  { destruct (0 <? n); [|injection P as <-; exists (rewards db); by destruct db]. unfold spend_points in P. cbv zeta in P.
    destruct (negb _); [done|]. injection P as <-. eauto. }
  unfold insert_redemption. do 4 (destruct (check _ _); [|done]). destruct S as [S1 S2]. split; cbn.
  - intros id. by rewrite option_cost_taken.
  - intros id k K. specialize (S2 id k K). rewrite (remaining_taken _ _ _ _ S2), sold_added. cbn [option_id].
    destruct (String.eqb_spec (new_option_id new) id) as [E|]; cbn [andb]; [|f_equal; lia].
    subst. pose proof (available_remaining _ _ _ ND S2 C). destruct (Z.ltb_spec 0 (k - sold (redemptions db) (new_option_id new))); [f_equal|]; lia.
Qed.

(** The statements whose transaction leaves the options and what is redeemed *)
Ltac leaves_stock :=
  apply transaction_stocked; [|done]; let a := fresh "a" in let db' := fresh "db'" in let E := fresh "E" in intros a db' E;
  unfold insert_event, add_points, insert_referral in E; cbv zeta in E;
  repeat (match type of E with context [check ?c ?k] => destruct (check c k); [|done] end);
  repeat (match type of E with context [if ?c then Err _ else _] => destruct c; [done|] end);

  ok_inv E; split; done.

Lemma update_redemption_stocked stock id updates db : stocked stock db -> stocked stock (snd (update_redemption id updates db)).
Proof.
  revert db. induction updates as [|change updates IH]; intros db K; [done|]. cbn [update_redemption]. unfold bind.
  assert (O : stocked stock (snd (update_redemption_once id change db))).
  - apply transaction_stocked; [|done]. intros a db' E. ok_inv E. split; [done|]. cbn. apply map_update. by destruct change.
  - destruct (update_redemption_once id change db) as [[]]; cbn in O; auto.
Qed.

Lemma update_username_stocked stock id name db : stocked stock db -> stocked stock (snd (update_username id name db)).
Proof.
  apply transaction_stocked. intros a db' E. destruct (find _ _); [|done]. destruct (check _ _); [|done]. ok_inv E. split; [done|]. cbn.
  by rewrite map_map.
Qed.

Lemma store_step_stocked stock db db' : store_step db db' -> sound db -> stocked stock db -> stocked stock db'.
Proof.
  destruct 1; intros S K; try (leaves_stock); [done|by apply update_username_stocked| |apply add_redemption_stocked; [by destruct S|done]
    |by apply update_redemption_stocked].
  unfold add_event. destruct (_ <? 0); [done|]. leaves_stock.
Qed.

(** The tables before anything ran: the options on offer *)
Definition empty (stock : list RewardRedemptionOptionRow) (time : Z) : Db := MkDb time [] [] [] [] stock [] [] [] 1 1 1 1.

Lemma reachable_sound stock time db : NoDup (map option_row_id stock) ->
  Forall (fun row => opt_all (fun n => 0 <=? n) (remaining row) = true) stock -> rtc store_step (empty stock time) db -> sound db /\ stocked stock db.
Proof.
  intros U R. revert db. apply rtc_ind_r.
  - split; [|split; [done|]].
    + constructor; cbn; try constructor; done.
    + intros id k K. cbn. rewrite K. by rewrite Z.sub_0_r.
  - intros db1 db2 _ T [S K]. split; [by eapply store_step_sound|by eapply store_step_stocked].
Qed.

(** *** What a user holds, and what can be redeemed *)

Lemma total_row {A} (key : A -> string) value (rows : list A) row : NoDup (map key rows) -> row ∈ rows -> total key value (key row) rows = value row.
Proof.
  intros N R. unfold total. induction rows as [|x rows IH]; [set_solver|]. cbn [map foldr] in *. inversion_clear N as [|? ? X ND].
  apply elem_of_cons in R as [->|R].
  - rewrite String.eqb_refl. pose proof (total_none key value (key x) rows) as T. unfold total in T. rewrite T; [lia|].
    apply List.Forall_forall. intros y Y Q. apply X. rewrite <- Q. by apply list_elem_of_In, in_map.
  - rewrite IH by done. destruct (String.eqb_spec (key x) (key row)) as [Q|]; [|lia]. exfalso. apply X. rewrite Q.
    by apply list_elem_of_In, in_map, list_elem_of_In.
Qed.

Lemma has_enough db name n : sound db -> 0 < n -> existsb (fun row => of_user name row && (n <=? points row)) (rewards db) = (n <=? held (rewards db) name).
Proof.
  intros S P. apply eq_true_iff_eq. rewrite existsb_exists, Z.leb_le. split.
  - intros (row & R%list_elem_of_In & [<-%of_user_true L%Z.leb_le]%andb_true_iff). unfold held. rewrite total_row; [done|by destruct S|done].
  - intros L. destruct (existsb (of_user name) (rewards db)) eqn:E.
    + apply existsb_exists in E as (row & R & U). exists row. split; [done|]. rewrite U. apply Z.leb_le. apply of_user_true in U. subst.
      unfold held in L. rewrite total_row in L; [done|by destruct S|by apply list_elem_of_In].
    + unfold held in L. rewrite total_none in L; [lia|]. apply List.Forall_forall. intros row R U. apply not_true_iff_false in E. apply E.
      apply existsb_exists. exists row. split; [done|]. by apply String.eqb_eq.
Qed.

Lemma count_zero {A} (p : A -> bool) l : (count p l =? 0) = negb (existsb p l).
Proof. unfold count. induction l as [|x l IH]; [done|]. cbn [List.filter existsb]. by destruct (p x). Qed.

Lemma offered_exists id db : existsb (available id) (options db) = true -> has_option id db = true.
Proof. unfold has_option. rewrite !existsb_exists. intros (row & R & [E _]%andb_true_iff). eauto. Qed.

Lemma enough_has_rewards name n db : existsb (fun row => of_user name row && (n <=? points row)) (rewards db) = true -> has_rewards name db = true.
Proof. unfold has_rewards. rewrite !existsb_exists. intros (row & R & [E _]%andb_true_iff). eauto. Qed.

End sound.
End RewardsLedger.

(** ** What holds of the ledger *)

Module RewardsProperties.
Import RewardsModels RewardsStore RewardsLedger.

Section properties.
Context `{Lowercase} `{SqlLower} `{WalletsStore} `{Clock}.

(** (C25) Whatever statements the store runs from empty tables and in whatever order, failing ones included: the points of
    every user are those of its events less the cost of what it has redeemed, are not negative and fit the column; its
    count of referrals is the number of referrals it made; and an option with a stock of [k] has been redeemed at most [k]
    times. *)
Theorem rewards_ledger stock time db : NoDup (map option_row_id stock) ->
  Forall (fun row => opt_all (fun n => 0 <=? n) (remaining row) = true) stock -> rtc store_step (empty stock time) db ->
  (forall row, row ∈ rewards db ->
     0 <= points row <= I32_MAX /\
     points row = earned (events db) (rewards_username row) - spent stock (redemptions db) (rewards_username row) /\
     referral_count row = invited (referrals db) (rewards_username row)) /\
  (forall id k, remaining_of stock id = Some k -> 0 <= sold (redemptions db) id <= k).
Proof.
  intros U R T. destruct (reachable_sound _ _ _ U R T) as [[] [C K]]. split.
  - intros row X. rewrite Forall_forall in points_nonneg0. split; [auto|]. split.
    + specialize (points_balance0 (rewards_username row)). unfold held in points_balance0. rewrite total_row in points_balance0 by done.
      rewrite points_balance0. f_equal. unfold spent, total. clear -C. induction (redemptions db) as [|x l IH]; [done|]. cbn [foldr].
      by rewrite IH, C.
    + specialize (counts_balance0 (rewards_username row)). unfold counted in counts_balance0. by rewrite total_row in counts_balance0.
  - intros id k E. split; [apply sold_nonneg|]. specialize (K id k E). unfold remaining_of in K. destruct (find _ _) as [row|] eqn:F; [|done].
    apply find_some in F as [F _]. rewrite List.Forall_forall in remaining_nonneg0. specialize (remaining_nonneg0 row F). rewrite K in remaining_nonneg0.
    cbn in remaining_nonneg0. zbool. lia.
Qed.

(** (C32) A redemption of [n] points happens exactly when the option is offered and not sold out, the user holds the points,
    and the device and the wallet exist.  It then takes the points from that user alone and one item from that option
    alone, and adds one row to the redemptions; otherwise no table changes. *)
Theorem redemption_exact db name n new : sound db -> 0 < n -> new_redemption_username new = name ->
  let '(r, db') := add_redemption name n new db in
  is_ok r = existsb (available (new_option_id new)) (options db) && (n <=? held (rewards db) name)
            && device_exists (new_redemption_device_id new) && wallet_exists (new_redemption_wallet_id new) /\
  match r with
  | Ok id =>
      id = next_redemption db /\
      (forall user, held (rewards db') user = held (rewards db) user - (if String.eqb name user then n else 0)) /\
      (forall other k, remaining_of (options db) other = Some k ->
         remaining_of (options db') other = Some (if String.eqb (new_option_id new) other then k - 1 else k)) /\
      redemptions db' = redemptions db ++ [MkRedemption id name (new_option_id new) (new_redemption_device_id new)
        (new_redemption_wallet_id new) None (new_redemption_status new) None (clock db)] /\
      (usernames db', referrals db', events db') = (usernames db, referrals db, events db)
  | Err _ => db' = db
  end.
Proof.
  intros S P N. unfold add_redemption, transaction. destruct (Z.ltb_spec n 0); [lia|]. cbv zeta. rewrite count_zero.
  destruct (existsb (available _) _) eqn:A; cbn [negb andb]; [|done].
  pose proof (take_one_sound (new_option_id new) db S) as S0. pose proof (has_enough db name n S P) as G.
  destruct (if 0 <? n then _ else _) as [db1|e] eqn:C; rewrite <- G.
  - pose proof C as C'. apply spend_charges in C' as (rows & -> & U & _ & _ & K); [|done|lia]. cbn [rewards set_options] in U, K.
    assert (existsb (fun row => of_user name row && (n <=? points row)) (rewards db) = true) as E.
    { destruct (Z.ltb_spec 0 n); [|lia]. unfold spend_points in C. cbv zeta in C. cbn [rewards set_options] in C.
      by destruct (existsb _ (rewards db)). }
    rewrite E. unfold insert_redemption. cbv zeta.
    assert (has_rewards (new_redemption_username new) (set_rewards rows (set_options (update (available (new_option_id new)) take_one (options db)) db))
      = true) as ->.
    { apply exists_key. cbn. rewrite U, N. apply exists_key. by eapply enough_has_rewards. }
    assert (has_option (new_option_id new) (set_rewards rows (set_options (update (available (new_option_id new)) take_one (options db)) db))
      = true) as ->.
    { apply exists_key. cbn. rewrite map_update by done. apply exists_key. by apply offered_exists. }
    cbn [check negb andb]. destruct (device_exists _); [|done]. destruct (wallet_exists _); [|done]. split; [done|]. split; [done|].
    split; [done|]. split; [|by rewrite N]. intros other k R. cbn. rewrite (remaining_taken _ _ _ _ R).
    destruct (String.eqb_spec (new_option_id new) other) as [E'|]; [|done]. subst. cbn [andb].
    assert (0 < k) by (eapply available_remaining; [by destruct S|done|]; rewrite <- Z.eqb_neq, count_zero, A; done).
    destruct (Z.ltb_spec 0 k); [done|lia].
  - split; [|done]. destruct (Z.ltb_spec 0 n); [|lia]. unfold spend_points in C. cbv zeta in C. cbn [rewards set_options] in C.
    by destruct (existsb _ (rewards db)).
Qed.

End properties.
End RewardsProperties.

(** ** Concrete runs *)

Module RewardsConcrete.
Import RewardsModels RewardsStore RewardsLedger RewardsProperties.

#[export] Instance ascii_lowercase : Lowercase := to_ascii_lowercase.
#[export] Instance ascii_sql_lower : SqlLower := to_ascii_lowercase.
#[export] Instance every_second : Clock := fun t => t + SECOND.

Definition phone (id : Z) : DeviceRow :=
  MkDevice id "phone" IOS AppStore "token" "en" "USD" true false "1.0" 1 "18.0" "iPhone15,2" (5 * DAY) (5 * DAY).

(** Wallet [n] has an address of 18 characters, one device of the same number, active since the beginning. *)
#[export] Instance small_world : WalletsStore := {|
  get_wallet _ := Err NotFound;
  get_wallet_by_id id := if (1 <=? id) && (id <=? 9) then Ok (MkWallet id (WalletIds.MulticoinId ("0x000000000000000" ++ pretty id))) else Err NotFound;
  get_devices_by_wallet_id id := Ok [phone id];
  get_first_subscription_date_by_wallet_id _ := Ok (Some 0);
  get_device_addresses _ := Ok [];
  get_confirmed_transactions_since _ _ := Ok ["tx"];
  device_exists id := (1 <=? id) && (id <=? 9)
|}.

Definition stock : list RewardRedemptionOptionRow := [MkOption "five" AssetRedemption 30 None "5" (Some 2)].
Definition claim (name : string) : NewRewardRedemptionRow := MkNewRedemption name "five" 1 1 RedemptionPending.

(** A user is created and enabled, and redeems once. *)
Definition enabled_user : Db :=
  snd (add_event "alice" EnabledEvent (event_points EnabledEvent)
    (snd (create_rewards "alice" 1 (snd (create_username (MkUsername "alice" 1 UsernameUnverified) (empty stock 0)))))).
Definition after_claim : Db := snd (add_redemption "alice" (option_cost (options enabled_user) "five") (claim "alice") enabled_user).

Lemma reached_enabled : rtc store_step (empty stock 0) enabled_user.
Proof.
  eapply rtc_l; [exact (StepCreateUsername (MkUsername "alice" 1 UsernameUnverified) (empty stock 0))|].
  eapply rtc_l; [exact (StepCreateRewards "alice" 1 _)|]. eapply rtc_l; [exact (StepAddEvent "alice" EnabledEvent _)|]. apply rtc_refl.
Qed.

Lemma reached_claim : rtc store_step (empty stock 0) after_claim.
Proof. eapply rtc_r; [exact reached_enabled|]. exact (StepAddRedemption (claim "alice") enabled_user). Qed.

Lemma stock_unique : NoDup (map option_row_id stock).
Proof. apply NoDup_singleton. Qed.
Lemma stock_nonneg : Forall (fun row => opt_all (fun n => 0 <=? n) (remaining row) = true) stock.
Proof. by apply Forall_singleton. Qed.

Lemma rewards_ledger_witness :
  map points (rewards after_claim) = [20] /\ remaining_of (options after_claim) "five" = Some 1 /\
  (forall row, row ∈ rewards after_claim -> points row = earned (events after_claim) "alice" - spent stock (redemptions after_claim) "alice") /\
  0 <= sold (redemptions after_claim) "five" <= 2.
Proof.
  destruct (rewards_ledger stock 0 after_claim stock_unique stock_nonneg reached_claim) as [U S].
  split; [by vm_compute|]. split; [by vm_compute|]. split; [|by apply S].
  intros row R. destruct (U row R) as (_ & P & _). assert (rewards_username row = "alice"%string) as E; [|by rewrite E in P].
  assert (rewards after_claim = [MkRewards "alice" Unverified None 20 None 0 1 None None None 0]) as Q by (vm_compute; reflexivity).
  rewrite Q in R. apply list_elem_of_singleton in R. by rewrite R.
Defined.

(** The first redemption takes the points and the item; the second one, for which the points are missing, nothing. *)
Lemma redemption_exact_witness : sound enabled_user /\
  fst (add_redemption "alice" 30 (claim "alice") enabled_user) = Ok 1 /\ held (rewards after_claim) "alice" = 20 /\
  add_redemption "alice" 30 (claim "alice") after_claim = (Err NotFound, after_claim).
Proof.
  assert (S : sound enabled_user) by apply (reachable_sound stock 0 enabled_user stock_unique stock_nonneg reached_enabled).
  assert (S' : sound after_claim) by apply (reachable_sound stock 0 after_claim stock_unique stock_nonneg reached_claim).
  pose proof (redemption_exact enabled_user "alice" 30 (claim "alice") S eq_refl eq_refl) as T.
  pose proof (redemption_exact after_claim "alice" 30 (claim "alice") S' eq_refl eq_refl) as T'.
  split; [exact S|]. split; [by vm_compute|]. split.
  - change after_claim with (snd (add_redemption "alice" 30 (claim "alice") enabled_user)).
    destruct (add_redemption "alice" 30 (claim "alice") enabled_user) as [[id|e] db'] eqn:E; [|by vm_compute in E].
    destruct T as (_ & _ & T & _). cbn [snd]. rewrite (T "alice"%string). by vm_compute.
  - destruct (add_redemption "alice" 30 (claim "alice") after_claim) as [r db'] eqn:E. destruct T' as [O T'].
    assert (r = Err NotFound) as -> by (change r with (fst (r, db')); rewrite <- E; vm_compute; reflexivity).
    by rewrite T'.
Defined.

End RewardsConcrete.
