(* ===== verification/RewardsRepository.v ===== *)
(** * Rewards: the repository

    Models [storage/src/error.rs] (module [DatabaseErrors]), the handlers of [storage/src/repositories/rewards_repository.rs]
    and [rewards_redemptions_repository.rs] ([RewardsRepository]), [gem_rewards/src/redemption.rs], and the payment of
    redemptions in [daemon/src/consumers/rewards/rewards_redemption_consumer.rs] ([RedemptionConsumer]).  A handler is a
    sequence of statements of [RewardsStore], each of which sees what the ones before it left; an error ends the handler
    and undoes nothing.  The configuration is the class [RewardsConfig], the text of a driver's error [DieselText].  The
    leaderboard is in [RewardsNotices]; a duration that overflows the calendar, for which the code panics, is not excluded here. *)
From S2P Require Import Prelude Text Crates ChainRegistry Assets Transactions Wallets RewardsStore.

(** ** Errors *)

(** [Display] of an error of the driver, and of the parser of numbers *)
Class DieselText : Type := diesel_text : DieselError -> string.
Class ParseBigIntText : Type := parse_bigint_text : string -> string.

Module DatabaseErrors.
Import RewardsModels RewardsStore.

Inductive NotFoundLookup := Public (lookup : string) | Internal (lookup : string).
Inductive DatabaseError :=
| DbNotFound (resource : string) (lookup : NotFoundLookup)
| ConnectionPool
| DbError (message : string).

Definition fmt (self : DatabaseError) : string :=
  match self with
  | DbNotFound resource (Public lookup) => resource ++ " " ++ lookup ++ " not found"
  | DbNotFound resource (Internal _) => resource ++ " not found"
  | ConnectionPool => "Database connection pool unavailable"
  | DbError message => message
  end.

Definition not_found (resource lookup : string) : DatabaseError := DbNotFound resource (Public lookup).
Definition not_found_internal (resource lookup : string) : DatabaseError := DbNotFound resource (Internal lookup).
Definition is_not_found (self : DatabaseError) : bool := match self with DbNotFound _ _ => true | _ => false end.

Inductive ReferralValidationError :=
| CodeDoesNotExist
| DeviceAlreadyUsed
| CannotReferSelf
| EligibilityExpired (days : Z)
| RewardsNotEnabled (user : string)
| ReferralDatabase (error : DatabaseError).

Inductive UsernameValidationError :=
| Invalid (message : string)
| AlreadyTaken
| UsernameDatabase (error : DatabaseError).

Section errors.
Context `{DieselText}.

Definition from_diesel (error : DieselError) : DatabaseError :=
  match error with
  | NotFound => DbError "Unexpected database record not found without lookup context"
  | e => DbError (diesel_text e)
  end.

(** [or_not_found] and [or_not_found_internal], with the name of the resource *)
Definition or_not_found_for {A} (resource lookup : string) (self : M DieselError A) : M DatabaseError A :=
  with_error (fun error => match error with NotFound => not_found resource lookup | e => from_diesel e end) self.
Definition or_not_found_internal_for {A} (resource lookup : string) (self : M DieselError A) : M DatabaseError A :=
  with_error (fun error => match error with NotFound => not_found_internal resource lookup | e => from_diesel e end) self.
(** [?] on an error of the driver *)
Definition lift {A} (self : M DieselError A) : M DatabaseError A := with_error from_diesel self.

End errors.
End DatabaseErrors.

(** The values of the configuration that the handlers read: the delay of a verification in seconds, and its divisor for
    verified referrers *)
Class RewardsConfig : Type := {
  referral_verification_delay_config : result DatabaseErrors.DatabaseError Z;
  referral_verified_multiplier : result DatabaseErrors.DatabaseError Z
}.

(** [let! x := m in k] runs [m], and [k] on its value unless it fails. *)
Notation "'let!' x := m 'in' k" := (RewardsStore.bind m (fun x => k)) (at level 10, x pattern, m at level 200, k at level 200) : rust_scope.

(** ** The handlers *)

Module RewardsRepository.
Import RewardsModels RewardsStore DatabaseErrors.

(** The records of [primitives/src/rewards.rs] *)
Record RewardRedemptionOption := MkRedemptionOption {
  redemption_option_id : string;
  redemption_option_type : RewardRedemptionType;
  redemption_option_points : Z;
  redemption_option_asset : option Assets.Asset;
  redemption_option_value : Z;
  redemption_option_remaining : option Z
}.
Record RewardRedemption := MkRewardRedemption {
  reward_redemption_id : Z;
  reward_redemption_option : RewardRedemptionOption;
  reward_redemption_status : RedemptionStatus;
  reward_redemption_transaction : option string;
  reward_redemption_created_at : Z
}.
Record RewardEvent := MkRewardEvent { reward_username : string; reward_event : RewardEventType; reward_points : Z; reward_created_at : Z }.
Record Rewards := MkRewardsView {
  code : option string;
  invite_reward_points : Z;
  view_referral_count : Z;
  view_points : Z;
  used_referral_code : option string;
  view_status : RewardStatus;
  view_created_at : Z;
  view_verify_after : option Z;
  redemption_options : list RewardRedemptionOption;
  view_disable_reason : option string
}.
Record RewardsEligibilityConfig := MkEligibility { activity_cutoff : Z; transactions_required : Z }.
Record ReferrerInfo := MkReferrerInfo { info_status : RewardStatus; info_referral_count : Z; info_wallet_id : Z }.

Definition event_as_primitive (self : RewardEventRow) : RewardEvent :=
  MkRewardEvent (event_username self) (event_type self) (event_points (event_type self)) (event_created_at self).
Definition redemption_as_primitive (option : RewardRedemptionOption) (self : RewardRedemptionRow) : RewardRedemption :=
  MkRewardRedemption (redemption_id self) option (redemption_status self) (transaction_id self) (redemption_created_at self).

(** A time [days] before another *)
Definition days_ago (days : Z) (self : Z) : Z := self - days * DAY.

(** [max_by_key]: the last of the greatest *)
Definition max_by_key {A} (key : A -> Z) (l : list A) : option A :=
  fold_left (fun best x => match best with Some b => if key b <=? key x then Some x else Some b | None => Some x end) l None.

Section repository.
Context `{Lowercase} `{SqlLower} `{WalletsStore} `{AssetsTable} `{Clock} `{DieselText} `{ParseBigIntText} `{BigUintParse} `{RewardsConfig}.

(** An operation of the tables of wallets *)
Definition of_wallets {A} (r : result DieselError A) : M DieselError A := query (fun _ => r).

Definition option_as_primitive (self : RedemptionOptionFull) : result DatabaseError RewardRedemptionOption :=
  let row := full_option self in
  match biguint_parse (option_value row) with
  | Some value => Ok (MkRedemptionOption (option_row_id row) (redemption_type row) (option_points row) (full_asset self) value (remaining row))
  | None => Err (DbError ("Redemption option " ++ option_row_id row ++ " has an invalid value: " ++ parse_bigint_text (option_value row)))
  end.

Definition create_username_and_rewards (wallet_id : Z) (address : string) (device_id : Z) : M DatabaseError RewardsRow :=
  let! _ := lift (create_username (MkUsername address wallet_id UsernameUnverified)) in
  lift (create_rewards address device_id).

Definition validate_username (username : string) : result UsernameValidationError unit :=
  let len := String.length username in
  if (len <? 4)%nat then Err (Invalid "Username must be at least 4 characters")
  else if (16 <? len)%nat then Err (Invalid "Username must be at most 16 characters")
  else if negb (HexText.string_forall ascii_alphanumeric username) then Err (Invalid "Username must contain only letters and digits")
  else Ok tt.

Definition find_username (lookup : UsernameLookup) : M DatabaseError (option UsernameRow) :=
  fun db => match get_username lookup db with
            | (Ok username, db) => (Ok (Some username), db)
            | (Err NotFound, db) => (Ok None, db)
            | (Err error, db) => (Err (from_diesel error), db)
            end.

Definition require_username (lookup : UsernameLookup) : M DatabaseError UsernameRow :=
  match lookup with
  | ByUsername username => or_not_found_for "Username" username (get_username lookup)
  | ByWalletId wallet_id => or_not_found_internal_for "Username" (pretty wallet_id) (get_username lookup)
  end.

Definition require_rewards (username : string) : M DatabaseError RewardsRow :=
  let! rows := lift (get_rewards_by_filter [FilterUsername username]) in
  match rows with
  | row :: _ => ret row
  | [] => fail (not_found "Rewards" username)
  end.

Definition require_reward_event (event_id : Z) : M DatabaseError RewardEventRow :=
  or_not_found_internal_for "RewardEvent" (pretty event_id) (get_event event_id).

Definition find_wallet (identifier : string) : M DatabaseError (option WalletRow) :=
  query (fun _ => match get_wallet identifier with
                  | Ok wallet => Ok (Some wallet)
                  | Err NotFound => Ok None
                  | Err error => Err (from_diesel error)
                  end).

Definition require_wallet_by_id (wallet_id : Z) : M DatabaseError WalletRow :=
  or_not_found_internal_for "Wallet" (pretty wallet_id) (of_wallets (get_wallet_by_id wallet_id)).

(** A delay in seconds *)
Definition compute_verification_delay (base_delay multiplier : Z) (referrer_status : RewardStatus) : option Z :=
  if bool_decide (referrer_status = Trusted) || (multiplier <=? 0) then None else Some (base_delay / multiplier).

Definition referral_verification_delay (referrer_status : RewardStatus) : result DatabaseError (option Z) :=
  let? base_delay := referral_verification_delay_config in
  let? multiplier := if is_verified referrer_status || bool_decide (referrer_status = Attribution) then referral_verified_multiplier else Ok 1 in
  Ok (compute_verification_delay base_delay multiplier referrer_status).

(** The clock is read only for a user that is not verified. *)
Definition can_verify_referral (status : RewardStatus) (verify_after : option Z) : M DatabaseError bool :=
  if is_verified status then ret true
  else match verify_after with
       | Some dt => let! time := now in ret (dt <=? time)
       | None => ret false
       end.

Definition is_matching_pending_referral_confirmation (referral : RewardReferralRow) (referrer_username referred_username_ : string) : bool :=
  negb (bool_decide (is_Some (verified_at referral))) && String.eqb (referrer referral) referrer_username
  && String.eqb (referred_username referral) referred_username_.

Definition latest_wallet_device_id (wallet_id : Z) : M DatabaseError Z :=
  let! devices := lift (of_wallets (get_devices_by_wallet_id wallet_id)) in
  match max_by_key device_updated_at devices with
  | Some device => ret (device_row_id device)
  | None => fail (DbError ("Wallet " ++ pretty wallet_id ++ " has no subscribed devices"))
  end.

Definition wallet_address (wallet : WalletRow) : string := WalletIds.address (wallet_identifier wallet).

Definition referred_username_of (wallet_id : Z) : M DatabaseError string :=
  let! found := find_username (ByWalletId wallet_id) in
  match found with
  | Some row => ret (username row)
  | None => let! wallet := require_wallet_by_id wallet_id in ret (wallet_address wallet)
  end.

(** [is_err] of a query *)
Definition fails {E A} (m : M E A) : M DatabaseError bool := fun db => let '(r, db) := m db in (Ok (negb (is_ok r)), db).

Definition ensure_wallet_reward_identity (wallet_id : Z) : M DatabaseError UsernameRow :=
  let! device_id := latest_wallet_device_id wallet_id in
  let! found := find_username (ByWalletId wallet_id) in
  match found with
  | Some row =>
      let! missing := fails (require_rewards (username row)) in
      if (missing : bool) then let! _ := lift (create_rewards (username row) device_id) in ret row else ret row
  | None =>
      let! wallet := require_wallet_by_id wallet_id in
      let! _ := create_username_and_rewards wallet_id (wallet_address wallet) device_id in
      require_username (ByWalletId wallet_id)
  end.

Definition add_referral_verified_event_rows (referrer_username : string) (referrer_status : RewardStatus) (referred_username : string) :
    M DatabaseError (list RewardEventRow) :=
  let! events :=
    if bool_decide (referrer_status = Attribution) then ret []
    else let! event := lift (add_event referrer_username InviteNew (event_points InviteNew)) in ret [event] in
  let! referred_event := lift (add_event referred_username Joined (event_points Joined)) in
  ret (events ++ [referred_event]).

Definition add_referral_verified_events (referrer_username : string) (referrer_status : RewardStatus) (referred_username : string) :
    M DatabaseError (list RewardEvent) :=
  let! events := add_referral_verified_event_rows referrer_username referrer_status referred_username in
  ret (map event_as_primitive events).

Definition add_referral_pending_events (referrer_username : string) (referrer_status : RewardStatus) : M DatabaseError (list RewardEvent) :=
  if bool_decide (referrer_status = Attribution) then ret []
  else
    let! event := lift (add_event referrer_username InvitePending (event_points InvitePending)) in
    ret [event_as_primitive event].

Definition add_referral_with_events (referrer_username referred_username : string) (device_id : Z) (risk_signal_id verified_at : option Z)
    (referrer_status : RewardStatus) : M DatabaseError (list RewardEvent) :=
  let! _ := lift (add_referral (MkNewReferral referrer_username referred_username device_id risk_signal_id verified_at)) in
  if bool_decide (is_Some verified_at) then add_referral_verified_events referrer_username referrer_status referred_username
  else add_referral_pending_events referrer_username referrer_status.

Definition complete_referral (referred_username : string) : M DatabaseError (list Z) :=
  let! found := lift (get_referral_by_username referred_username) in
  match found with
  | None => ret []
  | Some referral =>
      if bool_decide (is_Some (verified_at referral)) then ret [] else
      let! time := now in
      let! _ := lift (update_referral (referral_id referral) time) in
      let! rewards := require_rewards (referrer referral) in
      let! events := add_referral_verified_event_rows (referrer referral) (status rewards) referred_username in
      ret (map event_id events)
  end.

(** *** [RewardsRedemptionsRepository] *)

(** [collect] of results: the first error *)
Fixpoint collect_options (l : list RedemptionOptionFull) : result DatabaseError (list RewardRedemptionOption) :=
  match l with
  | [] => Ok []
  | x :: l => let? option := option_as_primitive x in let? options := collect_options l in Ok (option :: options)
  end.

Definition repo_get_redemption_options (types : list RewardRedemptionType) : M DatabaseError (list RewardRedemptionOption) :=
  let! results := lift (get_redemption_options types) in
  query (fun _ => collect_options results).

Definition repo_get_redemption_option (id : string) : M DatabaseError RewardRedemptionOption :=
  let! full := or_not_found_for "RewardRedemptionOption" id (get_redemption_option id) in
  query (fun _ => option_as_primitive full).

Definition repo_get_redemption (id : Z) : M DatabaseError RewardRedemptionRow :=
  or_not_found_internal_for "RewardRedemption" (pretty id) (get_redemption id).

Definition repo_update_redemption (id : Z) (updates : list RedemptionUpdate) : M DatabaseError unit := lift (update_redemption id updates).

Definition repo_count_redemptions_since (username : string) (since : Z) : M DatabaseError Z := lift (count_redemptions_since username since).

Definition repo_add_redemption (username option_id : string) (device_id wallet_id : Z) : M DatabaseError RewardRedemption :=
  let! full := or_not_found_for "RewardRedemptionOption" option_id (get_redemption_option option_id) in
  let! rewards := require_rewards username in
  let option := full_option full in
  if points rewards <? option_points option then fail (DbError "Not enough points")
  else if bool_decide (remaining option = Some 0) then fail (DbError "Redemption option is no longer available")
  else
    let! redemption_id := lift (add_redemption username (option_points option)
                                  (MkNewRedemption username option_id device_id wallet_id RedemptionPending)) in
    let! option := query (fun _ => option_as_primitive full) in
    let! row := repo_get_redemption redemption_id in
    ret (redemption_as_primitive option row).

(** [redeem_points]: the redemption and its id *)
Definition redeem_points (username option_id : string) (device_id wallet_id : Z) : M DatabaseError (RewardRedemption * Z) :=
  let! redemption := repo_add_redemption username option_id device_id wallet_id in
  ret (redemption, reward_redemption_id redemption).

(** *** [RewardsRepository] *)

Definition get_reward_by_wallet_id (wallet_id : Z) : M DatabaseError Rewards :=
  let! user := ensure_wallet_reward_identity wallet_id in
  let! rewards := require_rewards (username user) in
  let code := if has_custom_username user then Some (username user) else None in
  let is_attribution := bool_decide (status rewards = Attribution) in
  let! options :=
    if is_attribution then ret []
    else
      let! options := repo_get_redemption_options [AssetRedemption] in
      ret (List.filter (fun option => 0 <? default 0 (redemption_option_remaining option)) options) in
  ret (MkRewardsView code (if is_attribution then 0 else event_points InviteNew) (referral_count rewards) (points rewards)
         (referrer_username rewards) (status rewards) (created_at rewards) (verify_after rewards) options (disable_reason rewards)).

Definition get_username_by_wallet_id (wallet_id : Z) : M DatabaseError (option string) :=
  let! found := find_username (ByWalletId wallet_id) in ret (username <$> found).

Definition get_reward_events_by_wallet_id (wallet_id : Z) : M DatabaseError (list RewardEvent) :=
  let! user := ensure_wallet_reward_identity wallet_id in
  let! events := lift (get_events (username user)) in
  ret (map event_as_primitive events).

Definition get_reward_event (event_id : Z) : M DatabaseError RewardEvent :=
  let! event := require_reward_event event_id in ret (event_as_primitive event).

Definition create_reward (wallet_id : Z) (new_username : string) : M UsernameValidationError (Rewards * Z) :=
  let! _ := query (fun _ => validate_username new_username) in
  let! taken := with_error UsernameDatabase (find_username (ByUsername new_username)) in
  if bool_decide (is_Some taken) then fail AlreadyTaken else
  let! existing := with_error UsernameDatabase (ensure_wallet_reward_identity wallet_id) in
  if has_custom_username existing then fail (Invalid "Wallet already has a username") else
  with_error UsernameDatabase (
    let! _ := or_not_found_internal_for "Username" (pretty wallet_id) (update_username wallet_id new_username) in
    let! event := lift (add_event new_username CreateUsername (event_points CreateUsername)) in
    let! rewards := get_reward_by_wallet_id wallet_id in
    ret (rewards, event_id event)).

Definition get_referral_code (code : string) : M DatabaseError (option string) :=
  let! found := find_username (ByUsername code) in ret (username <$> found).

Definition get_referrer_info (name : string) : M DatabaseError ReferrerInfo :=
  let! row := require_username (ByUsername name) in
  let! rewards := require_rewards name in
  ret (MkReferrerInfo (status rewards) (referral_count rewards) (wallet_id row)).

(** [Err(_) => return Ok(false)] *)
Definition or_false (m : M DatabaseError bool) : M DatabaseError bool :=
  fun db => match m db with (Err _, db) => (Ok false, db) | r => r end.

Definition is_pending_referral (referrer_username : string) (wallet_id device_id : Z) : M DatabaseError bool :=
  let! referred_name := referred_username_of wallet_id in
  let! pending := or_false (let! rewards := require_rewards referred_name in ret (bool_decide (status rewards = Pending))) in
  if negb pending then ret false else
  let! found := lift (get_referral_by_referred_device_id device_id) in
  match found with
  | Some referral => ret (is_matching_pending_referral_confirmation referral referrer_username referred_name)
  | None => ret false
  end.

(** *** [validate_referral_use] *)

(** [first_subscription_at.is_older_than_days(days)], when there is one *)
Definition subscription_expired (wallet_id days : Z) : M DatabaseError bool :=
  let! first := lift (of_wallets (get_first_subscription_date_by_wallet_id wallet_id)) in
  match first with
  | Some first => let! time := now in ret (negb (days_ago days time <? first))
  | None => ret false
  end.

Definition check_device_age (wallet_id device_created_at : Z) (eligibility_days : option Z) : M ReferralValidationError unit :=
  match eligibility_days with
  | None => ret tt
  | Some days =>
      let! time := now in
      if device_created_at <=? days_ago days time then fail (EligibilityExpired days) else
      let! expired := with_error ReferralDatabase (subscription_expired wallet_id days) in
      if (expired : bool) then fail (EligibilityExpired days) else ret tt
  end.

Fixpoint check_addresses (referrer_wallet_id : Z) (eligibility_days : option Z) (addresses : list string) : M ReferralValidationError unit :=
  match addresses with
  | [] => ret tt
  | address :: addresses =>
      let! found := with_error ReferralDatabase (find_wallet (WalletIds.to_string (WalletIds.MulticoinId address))) in
      match found with
      | None => check_addresses referrer_wallet_id eligibility_days addresses
      | Some wallet =>
          let! expired := match eligibility_days with
                          | Some days => with_error ReferralDatabase (subscription_expired (wallet_row_id wallet) days)
                          | None => ret false
                          end in
          if (expired : bool) then fail (EligibilityExpired (default 0 eligibility_days))
          else if referrer_wallet_id =? wallet_row_id wallet then fail CannotReferSelf
          else check_addresses referrer_wallet_id eligibility_days addresses
      end
  end.

Definition validate_referral_use (referrer_username : string) (referrer_wallet_id wallet_id device_id device_created_at : Z)
    (eligibility_days : option Z) : M ReferralValidationError unit :=
  let! _ := check_device_age wallet_id device_created_at eligibility_days in
  let! addresses := with_error ReferralDatabase (lift (of_wallets (get_device_addresses device_id))) in
  let! _ := check_addresses referrer_wallet_id eligibility_days addresses in
  let! used := with_error ReferralDatabase (lift (get_referral_by_referred_device_id device_id)) in
  match used with
  | None => ret tt
  | Some referral =>
      let! referred_name := with_error ReferralDatabase (referred_username_of wallet_id) in
      if is_matching_pending_referral_confirmation referral referrer_username referred_name then ret tt else fail DeviceAlreadyUsed
  end.

Definition add_referral_attempt (referrer_username : string) (wallet_id device_id : Z) (risk_signal_id : option Z) (reason : string) :
    M DatabaseError unit :=
  lift (store_referral_attempt (MkAttempt referrer_username wallet_id device_id risk_signal_id reason)).

Definition get_wallet_id_by_username (name : string) : M DatabaseError Z :=
  let! row := require_username (ByUsername name) in ret (wallet_id row).

Definition get_referrer_username (referred_username : string) : M DatabaseError (option string) :=
  let! referral := lift (get_referral_by_username referred_username) in ret (referrer <$> referral).

Definition get_address_by_username (name : string) : M DatabaseError string :=
  let! row := require_username (ByUsername name) in
  let! wallet := require_wallet_by_id (wallet_id row) in
  ret (wallet_address wallet).

Definition get_status_by_username (name : string) : M DatabaseError RewardStatus :=
  let! rewards := require_rewards name in ret (status rewards).

Definition repo_disable_rewards (name reason comment : string) : M DatabaseError Z := lift (disable_rewards name reason comment).
Definition repo_get_rewards_by_filter (filters : list RewardsFilter) : M DatabaseError (list RewardsRow) := lift (get_rewards_by_filter filters).
Definition repo_count_referrals_since (name : string) (since : Z) : M DatabaseError Z := lift (count_referrals_since name since).

(** The clock is read only when there is a date to compare. *)
Definition verification_due (verify_after : option Z) : M DatabaseError bool :=
  match verify_after with Some dt => let! time := now in ret (dt <=? time) | None => ret true end.

Definition check_eligibility (name : string) (eligibility : RewardsEligibilityConfig) : M DatabaseError (option Z) :=
  let! row := require_username (ByUsername name) in
  let! rewards := require_rewards (username row) in
  if negb (bool_decide (status rewards = Unverified)) then ret None else
  let! due := verification_due (verify_after rewards) in
  if negb due then ret None else
  let! first := lift (of_wallets (get_first_subscription_date_by_wallet_id (wallet_id row))) in
  match first with
  | None => ret None
  | Some first_subscription_at =>
      if activity_cutoff eligibility <? first_subscription_at then ret None else
      let! devices := lift (of_wallets (get_devices_by_wallet_id (wallet_id row))) in
      match max_by_key device_updated_at devices with
      | None => ret None
      | Some latest =>
          if device_updated_at latest <? activity_cutoff eligibility then ret None else
          let! transactions := lift (of_wallets (get_confirmed_transactions_since (wallet_id row) first_subscription_at)) in
          if Z.of_nat (length transactions) <? transactions_required eligibility then ret None else ret (Some (wallet_id row))
      end
  end.

Definition promote_to_verified (name : string) : M DatabaseError (list Z) :=
  let! _ := lift (update_rewards name (UpdateStatus Verified)) in
  let! enabled_event := lift (add_event name EnabledEvent (event_points EnabledEvent)) in
  let! completed := complete_referral name in
  ret (event_id enabled_event :: completed).

(** *** [use_or_verify_referral] *)

Definition confirm_pending_referral (referral : RewardReferralRow) (referrer_username : string) (referrer_status : RewardStatus)
    (referred_username : string) (device_id : Z) (can_verify : bool) : M DatabaseError (list RewardEvent) :=
  if negb (String.eqb (referrer referral) referrer_username) then fail (DbError "Referral code does not match pending referral")
  else if negb (referred_device_id referral =? device_id) then fail (DbError "Must verify from same device")
  else if can_verify then
    let! time := now in
    let! _ := lift (update_referral (referral_id referral) time) in
    add_referral_verified_events (referrer referral) referrer_status referred_username
  else ret [].

Definition delay_verification (referred_username : string) (delay : Z) : M DatabaseError unit :=
  let! time := now in
  let! _ := lift (update_rewards referred_username (UpdateVerifyAfter (time + delay * SECOND))) in
  let! _ := lift (update_rewards referred_username (UpdateStatus Pending)) in
  ret tt.

Definition create_new_referral (referrer_username referred_username : string) (device_id : Z) (risk_signal_id : option Z) (can_verify : bool)
    (referrer_status : RewardStatus) : M DatabaseError (list RewardEvent) :=
  let! delay := query (fun _ => referral_verification_delay referrer_status) in
  let! _ := match delay with
            | Some delay => if can_verify then ret tt else delay_verification referred_username delay
            | None => ret tt
            end in
  let skip_delay := can_verify || bool_decide (delay = None) in
  let! verified_at := let! time := now in ret (if skip_delay then Some time else None) in
  add_referral_with_events referrer_username referred_username device_id risk_signal_id verified_at referrer_status.

Definition use_or_verify_referral (referrer_username : string) (referrer_status : RewardStatus) (referred_wallet_id device_id : Z)
    (risk_signal_id : option Z) : M DatabaseError (list RewardEvent) :=
  let! user := ensure_wallet_reward_identity referred_wallet_id in
  let referred_username := username user in
  let! referred_rewards := require_rewards referred_username in
  let! can_verify := can_verify_referral (status referred_rewards) (verify_after referred_rewards) in
  let! _ :=
    if can_verify && negb (is_verified (status referred_rewards)) then
      let! _ := lift (update_rewards referred_username (UpdateStatus Unverified)) in
      let! _ := lift (update_rewards referred_username ClearVerifyAfter) in
      ret tt
    else ret tt in
  let! found := lift (get_referral_by_username referred_username) in
  match found with
  | Some referral =>
      if bool_decide (is_Some (verified_at referral)) then fail (DbError "Referral already verified")
      else confirm_pending_referral referral referrer_username referrer_status referred_username device_id can_verify
  | None => create_new_referral referrer_username referred_username device_id risk_signal_id can_verify referrer_status
  end.

End repository.
End RewardsRepository.

(** ** The payment of redemptions *)

(** What is paid: to whom, and how much of which asset *)
Record RedemptionRequest := MkRequest { recipient_address : string; request_asset : option (Assets.Asset * Z) }.

(** The service that pays: the transaction or the text of the error, of a call after a number of others *)
Class RedemptionService : Type := process_redemption : nat -> RedemptionRequest -> result string string.
(** The queues of pending transactions and of notifications *)
Class StreamProducer : Type := {
  publish_pending_transaction : TransactionIds.TransactionId -> result string unit;
  publish_in_app_notifications : Z -> AssetIds.AssetId -> string -> Z -> Z -> result string unit
}.
(** The store out of reach: the error of the operation that follows a number of others, if it has one of its own.  It then leaves
    the tables as they are. *)
Class StoreFaults : Type := fault : nat -> option DatabaseErrors.DatabaseError.

Module RedemptionConsumer.
Import RewardsModels RewardsStore DatabaseErrors RewardsRepository.

Record RedemptionRetryConfig := MkRetry { max_retries : nat; errors : list string }.

(** A call of the service made for a redemption *)
Record Payment := MkPayment { payment_for : Z; payment_request : RedemptionRequest; payment_result : result string string }.
(** What was published for a redemption *)
Inductive Publication :=
| PendingTransaction (id : TransactionIds.TransactionId)
| RedeemedNotification (wallet_id : Z) (asset_id : AssetIds.AssetId) (transaction_id : string) (points value : Z).
(** The tables, the calls made so far, the messages published and the number of operations of the store *)
Record World := MkWorldAt { tables : Db; payments : list Payment; published : list Publication; turn : nat }.
Definition MkWorld (db : Db) (ps : list Payment) : World := MkWorldAt db ps [] 0.

Inductive ConsumerError := DatabaseFailed (error : DatabaseError) | ServiceFailed (error : string).
Definition W (A : Type) : Type := World -> result ConsumerError A * World.

Section consumer.
Context `{Lowercase} `{SqlLower} `{WalletsStore} `{AssetsTable} `{Clock} `{DieselText} `{ParseBigIntText} `{BigUintParse}
  `{RedemptionService} `{StreamProducer} `{StoreFaults}.
Variable config : RedemptionRetryConfig.

(** An operation of the repository, which fails by itself or because the store is out of reach *)
Definition on_tables {A} (m : M DatabaseError A) : W A :=
  fun w => match fault (turn w) with
           | Some e => (Err (DatabaseFailed e), MkWorldAt (tables w) (payments w) (published w) (S (turn w)))
           | None => let '(r, db) := m (tables w) in (map_err DatabaseFailed r, MkWorldAt db (payments w) (published w) (S (turn w)))
           end.
Definition and_then {A B} (m : W A) (k : A -> W B) : W B :=
  fun w => match m w with (Ok a, w) => k a w | (Err e, w) => (Err e, w) end.

(** The updates of a redemption are statements of their own: those before a failing one stay. *)
Fixpoint update_redemption_ (id : Z) (updates : list RedemptionUpdate) : W unit :=
  match updates with
  | [] => fun w => (Ok tt, w)
  | change :: updates => and_then (on_tables (repo_update_redemption id [change])) (fun _ => update_redemption_ id updates)
  end.

Definition call_service (id : Z) (request : RedemptionRequest) (w : World) : result string string * World :=
  let result := process_redemption (length (payments w)) request in
  (result, MkWorldAt (tables w) (payments w ++ [MkPayment id request result]) (published w) (turn w)).

Definition is_retryable (error : string) : bool := existsb (fun pattern => contains pattern error) (errors config).

(** [retries] are the attempts left. *)
Fixpoint attempt (retries : nat) (id : Z) (request : RedemptionRequest) (w : World) : result string string * World :=
  match call_service id request w with
  | (Ok transaction, w) => (Ok transaction, w)
  | (Err e, w) =>
      match retries with
      | S retries => if is_retryable e then attempt retries id request w else (Err e, w)
      | O => (Err e, w)
      end
  end.
Definition process_with_retry (id : Z) (request : RedemptionRequest) (w : World) : result string string * World :=
  attempt (max_retries config) id request w.

Definition should_process (id : Z) : W bool :=
  on_tables (let! redemption := repo_get_redemption id in ret (bool_decide (redemption_status redemption = RedemptionPending))).

Definition publish (message : Publication) (w : World) : World := MkWorldAt (tables w) (payments w) (published w ++ [message]) (turn w).

(** The transaction is followed up if it can be published: an error of that is logged. *)
Definition publish_pending (id : TransactionIds.TransactionId) : W unit :=
  fun w => (Ok tt, if is_ok (publish_pending_transaction id) then publish (PendingTransaction id) w else w).
Definition notify_redeemed (redemption : RewardRedemptionRow) (option : RewardRedemptionOption) (asset_id : AssetIds.AssetId) (transaction : string) : W unit :=
  fun w =>
    let '(wallet, points, value) := (redemption_wallet_id redemption, redemption_option_points option, redemption_option_value option) in
    match publish_in_app_notifications wallet asset_id transaction points value with
    | Ok _ => (Ok tt, publish (RedeemedNotification wallet asset_id transaction points value) w)
    | Err e => (Err (ServiceFailed e), w)
    end.
Definition publish_redeemed (redemption : RewardRedemptionRow) (option : RewardRedemptionOption) (transaction : string) : W unit :=
  match redemption_option_asset option with
  | Some asset =>
      and_then (publish_pending (TransactionIds.MkTransactionId (AssetIds.chain (Assets.id asset)) transaction)) (fun _ =>
      notify_redeemed redemption option (Assets.id asset) transaction)
  | None => fun w => (Ok tt, w)
  end.

Definition process (id : Z) : W RedemptionStatus :=
  and_then (on_tables (repo_get_redemption id)) (fun redemption =>
  and_then (update_redemption_ id [RedemptionStatusTo RedemptionProcessing]) (fun _ =>
  and_then (on_tables (get_address_by_username (redemption_username redemption))) (fun recipient =>
  and_then (on_tables (repo_get_redemption_option (option_id redemption))) (fun option =>
  let request := MkRequest recipient ((fun asset => (asset, redemption_option_value option)) <$> redemption_option_asset option) in
  fun w =>
    match process_with_retry id request w with
    | (Ok transaction, w) =>
        and_then (update_redemption_ id [RedemptionTransactionId transaction; RedemptionStatusTo RedemptionCompleted]) (fun _ =>
        and_then (publish_redeemed redemption option transaction) (fun _ => fun w => (Ok RedemptionCompleted, w))) w
    | (Err error, w) =>
        and_then (update_redemption_ id [RedemptionStatusTo RedemptionFailed; RedemptionErrorText error]) (fun _ =>
        fun w => (Ok RedemptionFailed, w)) w
    end)))).

(** [process_message] of the stream: [None] is a skipped message. *)
Definition process_message (id : Z) : W (option RedemptionStatus) :=
  and_then (should_process id) (fun due =>
  if (due : bool) then and_then (process id) (fun status => fun w => (Ok (Some status), w)) else fun w => (Ok None, w)).

End consumer.
End RedemptionConsumer.
