(* ===== verification/RewardsFacts.v ===== *)
(** * Rewards: theorems on the handlers

    Every handler of [RewardsRepository] runs statements of the store ([handlers_refine_store]), so that the ledger of
    [RewardsLedger] holds after any requests.  Requests that are served one after the other award a referral at most once
    ([referral_awarded_once]); two that confirm it at the same time award it twice ([stale_confirmation]).  A redemption
    is paid at most once ([redemption_paid_once]).

    A property of the tables that the statements keep is a [Kept] predicate; the handlers keep every such predicate. *)
From S2P Require Import Prelude Text Crates ChainRegistry Assets Wallets RewardsStore RewardsLedger RewardsRepository.

(** ** Predicates that handlers keep *)

Module KeptPredicates.
Import RewardsModels RewardsStore RewardsLedger DatabaseErrors RewardsRepository.

Definition keeps {E A} (P : Db -> Prop) (m : M E A) : Prop := forall db, P db -> P (snd (m db)).

Section keeps.
Context (P : Db -> Prop).

Lemma keeps_ret {E A} (a : A) : keeps P (ret (E := E) a).
Proof. by intros db. Qed.
Lemma keeps_fail {E A} (e : E) : keeps P (fail (A := A) e).
Proof. by intros db. Qed.
Lemma keeps_query {E A} (f : Db -> result E A) : keeps P (query f).
Proof. by intros db. Qed.
Lemma keeps_bind {E A B} (m : M E A) (k : A -> M E B) : keeps P m -> (forall a, keeps P (k a)) -> keeps P (bind m k).
Proof. intros M K db X. unfold bind. specialize (M db X). destruct (m db) as [[a|e] db']; [by apply K|done]. Qed.
Lemma keeps_with_error {E F A} (f : E -> F) (m : M E A) : keeps P m -> keeps P (with_error f m).
Proof. intros M db X. unfold with_error. specialize (M db X). by destruct (m db) as [r db']. Qed.

End keeps.

Create HintDb keeps.
#[export] Hint Resolve keeps_ret keeps_fail keeps_query keeps_bind keeps_with_error : keeps.

(** Runs through a handler: its sequences, its branches and the operations that are known to keep the predicate. *)
Ltac keeps :=
  intros; unfold lift, or_not_found_for, or_not_found_internal_for, of_wallets in *;
  repeat first
    [ done
    | solve [eauto 4 with keeps]
    | apply keeps_bind; [|intros ?]
    | apply keeps_with_error
    | match goal with
      | |- keeps _ (match ?x with _ => _ end) => destruct x
      | |- keeps _ (if ?b then _ else _) => destruct b
      end ].

Section kept.
Context `{Lowercase} `{SqlLower} `{WalletsStore} `{AssetsTable} `{Clock} `{DieselText} `{ParseBigIntText} `{BigUintParse} `{RewardsConfig}.

(** What a predicate has to withstand of a handler that reads: the clock goes on. *)
Class KeptClock (P : Db -> Prop) : Prop := { kept_now {E} : keeps P (now (E := E)) }.
(** What it has to withstand of the others: the statements, and the three sequences that touch referrals *)
Class Kept (P : Db -> Prop) : Prop := {
  kept_clock :: KeptClock P;
  kept_create_username row : keeps P (create_username row);
  kept_update_username id name : keeps P (update_username id name);
  kept_create_rewards name device : keeps P (create_rewards name device);
  kept_update_rewards name change : keeps P (update_rewards name change);
  kept_event name type : type <> Joined -> type <> InviteNew -> keeps P (add_event name type (event_points type));
  kept_disable name reason comment : keeps P (disable_rewards name reason comment);
  kept_redemption new db : P db -> P (snd (add_redemption (new_redemption_username new) (option_cost (options db) (new_option_id new)) new db));
  kept_attempt attempt : keeps P (store_referral_attempt attempt);
  kept_signal new : keeps P (add_risk_signal new);
  kept_complete name : keeps P (complete_referral name);
  kept_confirm referral referrer_name referrer_status name device can_verify db : P db ->
    find (fun row => String.eqb (referred_username row) name) (referrals db) = Some referral -> verified_at referral = None ->
    P (snd (confirm_pending_referral referral referrer_name referrer_status name device can_verify db));
  kept_new_referral referrer_name name device signal verified status :
    keeps P (add_referral_with_events referrer_name name device signal verified status)
}.

(** The progress of a redemption *)
Class KeptUpdates (P : Db -> Prop) : Prop := kept_update_redemption id updates : keeps P (update_redemption id updates).

Section reads.
Context (P : Db -> Prop) `{!KeptClock P}.

Hint Resolve kept_now : keeps.

Lemma keeps_find_username lookup : keeps P (find_username lookup).
Proof. intros db X. unfold find_username, get_username, query. by destruct (ok_or _ _) as [|[]]. Qed.
Hint Resolve keeps_find_username : keeps.

Lemma keeps_require_username lookup : keeps P (require_username lookup).
Proof. destruct lookup; apply keeps_with_error, keeps_query. Qed.

Lemma keeps_require_rewards name : keeps P (require_rewards name).
Proof. unfold require_rewards. keeps. Qed.
Hint Resolve keeps_require_username keeps_require_rewards : keeps.

Lemma keeps_fails {E A} (m : M E A) : keeps P m -> keeps P (fails m).
Proof. intros M db X. unfold fails. specialize (M db X). by destruct (m db). Qed.
Hint Resolve keeps_fails : keeps.

Lemma keeps_require_wallet id : keeps P (require_wallet_by_id id).
Proof. unfold require_wallet_by_id. keeps. Qed.
Hint Resolve keeps_require_wallet : keeps.

Lemma keeps_latest_device id : keeps P (latest_wallet_device_id id).
Proof. unfold latest_wallet_device_id. keeps. Qed.
Hint Resolve keeps_latest_device : keeps.

Lemma keeps_options types : keeps P (repo_get_redemption_options types).
Proof. unfold repo_get_redemption_options. keeps. Qed.
Hint Resolve keeps_options : keeps.

Lemma keeps_can_verify status after : keeps P (can_verify_referral status after).
Proof. unfold can_verify_referral. keeps. Qed.
Hint Resolve keeps_can_verify : keeps.

Lemma keeps_validate referrer_name referrer_wallet wallet device created days : keeps P (validate_referral_use referrer_name referrer_wallet wallet device created days).
Proof.
  assert (E : forall id n, keeps P (subscription_expired id n)) by (intros; unfold subscription_expired; keeps).
  assert (A : forall n d l, keeps P (check_addresses n d l)).
  { intros n d l. induction l as [|address l IH]; [keeps|]. cbn [check_addresses]. unfold find_wallet. keeps. }
  unfold validate_referral_use, check_device_age, referred_username_of. keeps.
Qed.

Lemma keeps_referred_username id : keeps P (referred_username_of id).
Proof. unfold referred_username_of. keeps. Qed.

Lemma keeps_or_false m : keeps P m -> keeps P (or_false m).
Proof. intros M db X. unfold or_false. specialize (M db X). by destruct (m db) as [[]]. Qed.
Hint Resolve keeps_referred_username keeps_or_false : keeps.

Lemma keeps_referrer_info name : keeps P (get_referrer_info name).
Proof. unfold get_referrer_info. keeps. Qed.

Lemma keeps_is_pending name wallet device : keeps P (is_pending_referral name wallet device).
Proof. unfold is_pending_referral. keeps. Qed.

Lemma keeps_check_eligibility name eligibility : keeps P (check_eligibility name eligibility).
Proof. unfold check_eligibility, verification_due. keeps. Qed.

End reads.

Context (P : Db -> Prop) `{!Kept P}.

Hint Resolve kept_create_username kept_update_username kept_create_rewards kept_update_rewards kept_event kept_disable
  kept_attempt kept_signal kept_complete kept_new_referral : keeps.
Hint Resolve kept_clock kept_now keeps_find_username keeps_require_username keeps_require_rewards keeps_fails keeps_require_wallet keeps_latest_device
  keeps_options keeps_can_verify : keeps.

Lemma keeps_identity id : keeps P (ensure_wallet_reward_identity id).
Proof. unfold ensure_wallet_reward_identity, create_username_and_rewards. keeps. Qed.
Hint Resolve keeps_identity : keeps.

Lemma keeps_get_reward id : keeps P (get_reward_by_wallet_id id).
Proof. unfold get_reward_by_wallet_id. keeps. Qed.
Hint Resolve keeps_get_reward : keeps.

Lemma keeps_get_events id : keeps P (get_reward_events_by_wallet_id id).
Proof. unfold get_reward_events_by_wallet_id. keeps. Qed.

Lemma keeps_create_reward id name : keeps P (create_reward id name).
Proof. unfold create_reward. keeps. Qed.

Lemma keeps_promote name : keeps P (promote_to_verified name).
Proof. unfold promote_to_verified. keeps. Qed.

Lemma keeps_new_referral referrer_name name device signal can_verify status :
  keeps P (create_new_referral referrer_name name device signal can_verify status).
Proof. unfold create_new_referral, delay_verification. keeps. Qed.
Hint Resolve keeps_new_referral : keeps.

(** What is read is what is confirmed. *)
Lemma keeps_find_referral {A} name (confirm : option RewardReferralRow -> M DatabaseError A) :
  (forall db, P db -> P (snd (confirm (find (fun row => String.eqb (referred_username row) name) (referrals db)) db))) ->
  keeps P (bind (lift (get_referral_by_username name)) confirm).
Proof. intros C db X. by apply C. Qed.

Lemma keeps_use_referral referrer_name status id device signal : keeps P (use_or_verify_referral referrer_name status id device signal).
Proof.
  unfold use_or_verify_referral. apply keeps_bind; [keeps|]. intros user. apply keeps_bind; [keeps|]. intros rewards.
  apply keeps_bind; [keeps|]. intros can_verify. apply keeps_bind; [keeps|]. intros _. apply keeps_find_referral. intros db X.
  destruct (find _ _) as [referral|] eqn:F; [|by apply keeps_new_referral]. destruct (verified_at referral) eqn:V; [done|].
  cbn. by apply kept_confirm.
Qed.

Lemma require_rewards_reads name db : snd (require_rewards name db) = db.
Proof. unfold require_rewards, bind, lift, with_error, get_rewards_by_filter, query. cbn. by destruct (List.filter _ _). Qed.

Lemma keeps_redeem name option device wallet : keeps P (redeem_points name option device wallet).
Proof.
  unfold redeem_points. apply keeps_bind; [|keeps]. unfold repo_add_redemption. intros db X. unfold bind at 1.
  destruct (or_not_found_for _ option (get_redemption_option option) db) as [[full|e] db1] eqn:E; unfold or_not_found_for, with_error in E;
    cbn in E; injection E as E <-; [|done].
  unfold get_redemption_option in E. destruct (find _ (options db)) as [row|] eqn:F; [|done]. injection E as <-.
  unfold bind at 1. pose proof (require_rewards_reads name db) as R. destruct (require_rewards name db) as [[rewards|e] db1]; cbn [snd] in R; subst db1; [|done].
  cbv zeta. destruct (_ <? _); [done|]. destruct (bool_decide _); [done|].
  unfold bind at 1. pose proof (kept_redemption (MkNewRedemption name option device wallet RedemptionPending) db X) as K. unfold option_cost in K.
  cbn [new_redemption_username new_option_id] in K. rewrite F in K. cbn [full_option with_asset]. unfold lift, with_error.
  destruct (add_redemption name (option_points row) _ db) as [[id|e] db1]; [|done]. cbn [map_err].
  apply (keeps_bind P); [keeps|keeps|done].
Qed.

Lemma keeps_referral_attempt referrer_name wallet device signal reason : keeps P (add_referral_attempt referrer_name wallet device signal reason).
Proof. unfold add_referral_attempt. keeps. Qed.

Lemma keeps_disable name reason comment : keeps P (repo_disable_rewards name reason comment).
Proof. unfold repo_disable_rewards. keeps. Qed.

(** ** Requests *)

(** The handlers that change the tables *)
Inductive request :=
| GetReward (wallet_id : Z)
| GetRewardEvents (wallet_id : Z)
| CreateReward (wallet_id : Z) (username : string)
| ValidateReferral (referrer_username : string) (referrer_wallet_id wallet_id device_id created_at : Z) (days : option Z)
| UseReferral (referrer_username : string) (referrer_status : RewardStatus) (wallet_id device_id : Z) (signal : option Z)
| AddAttempt (referrer_username : string) (wallet_id device_id : Z) (signal : option Z) (reason : string)
| DisableRewards (username reason comment : string)
| CheckEligibility (username : string) (eligibility : RewardsEligibilityConfig)
| PromoteToVerified (username : string)
| RedeemPoints (username option_id : string) (device_id wallet_id : Z).

(** The tables after a request, whether it succeeds or fails *)
Definition serve (r : request) (db : Db) : Db :=
  match r with
  | GetReward id => snd (get_reward_by_wallet_id id db)
  | GetRewardEvents id => snd (get_reward_events_by_wallet_id id db)
  | CreateReward id name => snd (create_reward id name db)
  | ValidateReferral name referrer id device created days => snd (validate_referral_use name referrer id device created days db)
  | UseReferral name status id device signal => snd (use_or_verify_referral name status id device signal db)
  | AddAttempt name id device signal reason => snd (add_referral_attempt name id device signal reason db)
  | DisableRewards name reason comment => snd (repo_disable_rewards name reason comment db)
  | CheckEligibility name eligibility => snd (check_eligibility name eligibility db)
  | PromoteToVerified name => snd (promote_to_verified name db)
  | RedeemPoints name option device wallet => snd (redeem_points name option device wallet db)
  end.

Lemma serve_keeps r db : P db -> P (serve r db).
Proof.
  destruct r; [apply keeps_get_reward|apply keeps_get_events|apply keeps_create_reward|apply (keeps_validate P)|apply keeps_use_referral
    |apply keeps_referral_attempt|apply keeps_disable|apply (keeps_check_eligibility P)|apply keeps_promote|apply keeps_redeem].
Qed.

End kept.
End KeptPredicates.

(** ** Handlers run statements *)

Module Refinement.
Import RewardsModels RewardsStore RewardsLedger DatabaseErrors RewardsRepository KeptPredicates.

Section refinement.
Context `{Lowercase} `{SqlLower} `{WalletsStore} `{AssetsTable} `{Clock} `{DieselText} `{ParseBigIntText} `{BigUintParse} `{RewardsConfig}.

Definition reached (start db : Db) : Prop := rtc store_step start db.

Lemma reached_now {E} start : keeps (reached start) (now (E := E)).
Proof. intros db X. eapply rtc_r; [exact X|]. exact (StepClock db). Qed.
Lemma reached_event start name type : keeps (reached start) (add_event name type (event_points type)).
Proof. intros db X. eapply rtc_r; [exact X|]. constructor. Qed.
Lemma reached_update_referral start id time : keeps (reached start) (update_referral id time).
Proof. intros db X. eapply rtc_r; [exact X|]. constructor. Qed.
Lemma reached_add_referral start new : keeps (reached start) (add_referral new).
Proof. intros db X. eapply rtc_r; [exact X|]. constructor. Qed.
Hint Resolve reached_now reached_event reached_update_referral reached_add_referral keeps_require_rewards : keeps.

Lemma reached_verified_rows start referrer_name status name : keeps (reached start) (add_referral_verified_event_rows referrer_name status name).
Proof. unfold add_referral_verified_event_rows. keeps. Qed.
Hint Resolve reached_verified_rows : keeps.

#[export] Instance reached_kept start : Kept (reached start).
Proof.
  split; intros; try (intros ? X; eapply rtc_r; [exact X|constructor]).
  - split. intros E. apply reached_now.
  - eapply rtc_r; [done|]. constructor.
  - unfold complete_referral. keeps.
  - apply (fun k : keeps (reached start) (confirm_pending_referral referral referrer_name referrer_status name device can_verify) => k db); [|done].
    unfold confirm_pending_referral, add_referral_verified_events. keeps.
  - unfold add_referral_with_events, add_referral_verified_events, add_referral_pending_events. keeps.
Qed.

#[export] Instance reached_updates start : KeptUpdates (reached start).
Proof. intros id updates db X. eapply rtc_r; [exact X|]. constructor. Qed.

End refinement.
End Refinement.

(** ** A referral is awarded once *)

Module Awards.
Import RewardsModels RewardsStore RewardsLedger DatabaseErrors RewardsRepository KeptPredicates.

Definition flag (b : bool) : Z := if b then 1 else 0.

(** The awards of a user, as referred and as referrer, and the verified referrals they are for *)
Definition of_type (type : RewardEventType) (row : RewardEventRow) : Z := flag (bool_decide (event_type row = type)).
Definition awards (type : RewardEventType) (events : list RewardEventRow) (name : string) : Z := total event_username (of_type type) name events.
Definition settled (row : RewardReferralRow) : Z := flag (bool_decide (is_Some (verified_at row))).
Definition joined_by (referrals : list RewardReferralRow) (name : string) : Z := total referred_username settled name referrals.
Definition brought_by (referrals : list RewardReferralRow) (name : string) : Z := total referrer settled name referrals.

(** The awards never exceed the verified referrals; [due] more [Joined] and [InviteNew] are owed to the two users. *)
Definition owed (due : option string) (name : string) : Z := match due with Some n => flag (String.eqb n name) | None => 0 end.
Record awarded (joined invited : option string) (db : Db) : Prop := {
  awarded_sound : sound db;
  awarded_joined : forall name, awards Joined (events db) name + owed joined name <= joined_by (referrals db) name;
  awarded_invited : forall name, awards InviteNew (events db) name + owed invited name <= brought_by (referrals db) name
}.

Lemma owed_nonneg due name : 0 <= owed due name.
Proof. unfold owed, flag. destruct due as [n|]; [destruct (String.eqb n name)|]; lia. Qed.

Lemma awarded_weaken joined invited db : awarded joined invited db -> awarded None None db.
Proof.
  intros [S J I]. split; [done|intros name; specialize (J name)|intros name; specialize (I name)];
    (pose proof (owed_nonneg joined name); pose proof (owed_nonneg invited name); cbn; lia).
Qed.

(** What does not touch events and referrals *)
Lemma awarded_same joined invited db db' : events db' = events db -> referrals db' = referrals db -> sound db' ->
  awarded joined invited db -> awarded joined invited db'.
Proof. intros E R S [_ J I]. split; [done| |]; by rewrite E, R. Qed.

Lemma awarded_transaction {A} joined invited (tx : Tx A) db : sound (snd (transaction tx db)) ->
  (forall a db', tx db = Ok (a, db') -> events db' = events db /\ referrals db' = referrals db) ->
  awarded joined invited db -> awarded joined invited (snd (transaction tx db)).
Proof.
  unfold transaction. intros S T X. destruct (tx db) as [[a db']|] eqn:E; [|done]. destruct (T _ _ eq_refl). by eapply awarded_same.
Qed.

Section awards.
Context `{Lowercase} `{SqlLower} `{WalletsStore} `{AssetsTable} `{Clock} `{DieselText} `{ParseBigIntText} `{BigUintParse} `{RewardsConfig}.

Lemma awarded_now {E} joined invited : keeps (awarded joined invited) (now (E := E)).
Proof. intros db X. apply (awarded_same _ _ db); [done|done| |done]. apply sound_clock. by destruct X. Qed.

(** An event pays for what is owed. *)
Definition pays (type : RewardEventType) (name : string) (joined invited : option string) : Prop :=
  match type with
  | Joined => joined = Some name
  | InviteNew => invited = Some name
  | _ => True
  end.
Definition rest (type paid : RewardEventType) (due : option string) : option string := if bool_decide (type = paid) then None else due.

Lemma insert_event_effect name type db event db' : insert_event name type db = Ok (event, db') ->
  exists row, events db' = events db ++ [row] /\ event_username row = name /\ event_type row = type /\ referrals db' = referrals db.
Proof. unfold insert_event. destruct (check _ _); [|done]. intros [= <- <-]. eauto 10. Qed.

Lemma add_event_effect name type n db : let '(r, db') := add_event name type n db in
  match r with
  | Ok _ => exists row, events db' = events db ++ [row] /\ event_username row = name /\ event_type row = type /\ referrals db' = referrals db
  | Err _ => db' = db
  end.
Proof.
  unfold add_event. destruct (_ <? _); [done|]. unfold transaction. destruct (insert_event name type db) as [[event db1]|] eqn:E; [|done].
  destruct (add_points name n db1) as [[a db2]|] eqn:A; [|done]. apply insert_event_effect in E as (row & E & U & T & R).
  unfold add_points in A. destruct (negb _); [done|]. destruct (negb _); [done|]. injection A as <- <-. eauto 10.
Qed.

Lemma awards_added type events row name :
  awards type (events ++ [row]) name = awards type events name + (if String.eqb (event_username row) name then of_type type row else 0).
Proof. apply total_added. Qed.

Lemma awarded_event joined invited name type db : pays type name joined invited -> awarded joined invited db ->
  let '(r, db') := add_event name type (event_points type) db in
  match r with
  | Ok _ => awarded (rest Joined type joined) (rest InviteNew type invited) db'
  | Err _ => awarded joined invited db'
  end.
Proof.
  intros Y X. pose proof (add_event_sound name type db (awarded_sound _ _ _ X)) as S. pose proof (add_event_effect name type (event_points type) db) as E.
  destruct (add_event _ _ _ _) as [[event|e] db'] eqn:A; cbn in S; [|by subst].
  destruct E as (row & E & U & T & R). destruct X as [_ J I].
  split; [done| |]; intros n; [specialize (J n); revert J|specialize (I n); revert I];
    rewrite E, R, awards_added, U; unfold of_type, rest; rewrite T;
    destruct type; cbn in Y; rewrite ?Y; repeat (case_bool_decide; try congruence); cbn; unfold flag; destruct (String.eqb name n); lia.
Qed.

Lemma awarded_plain joined invited name type : type <> Joined -> type <> InviteNew ->
  keeps (awarded joined invited) (add_event name type (event_points type)).
Proof.
  intros NJ NI db X. assert (Y : pays type name joined invited) by (by destruct type). pose proof (awarded_event joined invited name type db Y X) as A.
  destruct (add_event _ _ _ _) as [[] db']; [|done]. by destruct type.
Qed.

(** What holds of the value and the tables when an operation succeeds; when it fails, nothing is owed any more. *)
Definition after {E A} (m : M E A) (Q : A -> Db -> Prop) (db : Db) : Prop :=
  match m db with (Ok a, db') => Q a db' | (Err _, db') => awarded None None db' end.

Lemma after_bind {E A B} (m : M E A) (k : A -> M E B) Q db : after m (fun a => after (k a) Q) db -> after (bind m k) Q db.
Proof. unfold after, bind. by destruct (m db) as [[a|e] db']. Qed.
Lemma after_ret {E A} (a : A) (Q : A -> Db -> Prop) db : Q a db -> after (ret (E := E) a) Q db.
Proof. done. Qed.
Lemma after_with_error {E F A} (f : E -> F) (m : M E A) Q db : after m Q db -> after (with_error f m) Q db.
Proof. unfold after, with_error. by destruct (m db) as [[a|e] db']. Qed.
Lemma after_weaken {E A} (m : M E A) (Q R : A -> Db -> Prop) db : after m Q db -> (forall a db', Q a db' -> R a db') -> after m R db.
Proof. unfold after. destruct (m db) as [[a|e] db']; auto. Qed.
Lemma after_keeps {E A} (m : M E A) db : after m (fun _ => awarded None None) db -> awarded None None (snd (m db)).
Proof. unfold after. by destruct (m db) as [[a|e] db']. Qed.
Lemma keeps_after {E A} (P : Db -> Prop) (m : M E A) db : keeps P m -> (forall db', P db' -> awarded None None db') -> P db -> after m (fun _ => P) db.
Proof. intros K W X. specialize (K db X). unfold after. destruct (m db) as [[a|e] db']; auto. Qed.

Lemma after_event joined invited name type db : pays type name joined invited -> awarded joined invited db ->
  after (lift (add_event name type (event_points type))) (fun _ => awarded (rest Joined type joined) (rest InviteNew type invited)) db.
Proof.
  intros Y X. apply after_with_error. pose proof (awarded_event _ _ _ _ _ Y X) as A. unfold after.
  destruct (add_event _ _ _ _) as [[event|e] db']; [done|]. by eapply awarded_weaken.
Qed.

Lemma awarded_verified_rows referrer_name referrer_status name db : awarded (Some name) (Some referrer_name) db ->
  after (add_referral_verified_event_rows referrer_name referrer_status name) (fun _ => awarded None None) db.
Proof.
  intros X. unfold add_referral_verified_event_rows. apply after_bind.
  apply (after_weaken _ (fun _ db' => exists invited, awarded (Some name) invited db')).
  - destruct (bool_decide _); [apply after_ret; by exists (Some referrer_name)|]. apply after_bind.
    eapply after_weaken; [exact (after_event (Some name) (Some referrer_name) referrer_name InviteNew db eq_refl X)|]. intros event db' A. exists None. exact A.
  - intros rows db' [invited Y]. apply after_bind. eapply after_weaken; [exact (after_event (Some name) invited name Joined db' eq_refl Y)|].
    intros event db2 A. apply after_ret. eapply awarded_weaken. exact A.
Qed.

(** *** The statements *)

Lemma settled_verify (p : RewardReferralRow -> bool) time row : settled row <= settled (if p row then verify_row time row else row).
Proof.
  destruct (p row); [|done]. unfold settled. cbn [verified_at verify_row]. rewrite (bool_decide_eq_true_2 (is_Some (Some time))) by eauto. by destruct (bool_decide _).
Qed.

(** Verifying a row that was not pays for both of its users. *)
Lemma total_verified (user : RewardReferralRow -> string) p time referral name referrals :
  (forall row, user (verify_row time row) = user row) -> referral ∈ referrals -> p referral = true -> verified_at referral = None ->
  total user settled name referrals + flag (String.eqb (user referral) name) <= total user settled name (update p (verify_row time) referrals).
Proof.
  intros U R P V. unfold total, update.
  assert (G : forall l, foldr (fun row acc => (if String.eqb (user row) name then settled row else 0) + acc) 0 l
    <= foldr (fun row acc => (if String.eqb (user row) name then settled row else 0) + acc) 0 (map (fun row => if p row then verify_row time row else row) l)).
  { induction l as [|x l IH]; cbn [map foldr]; [done|]. pose proof (settled_verify p time x).
    destruct (p x); rewrite ?U; destruct (String.eqb (user x) name); lia. }
  induction referrals as [|x referrals IH]; [set_solver|]. cbn [map foldr]. apply elem_of_cons in R as [<-|R].
  - rewrite P, U. specialize (G referrals). unfold settled at 1 3. cbn [verified_at verify_row]. rewrite V.
    rewrite bool_decide_eq_false_2, bool_decide_eq_true_2 by (eauto || by intros []). unfold flag. destruct (String.eqb _ name); lia.
  - specialize (IH R). pose proof (settled_verify p time x). destruct (p x); rewrite ?U; destruct (String.eqb (user x) name); lia.
Qed.

Lemma awarded_update_referral referral time db : awarded None None db -> referral ∈ referrals db -> verified_at referral = None ->
  after (update_referral (referral_id referral) time) (fun _ => awarded (Some (referred_username referral)) (Some (referrer referral))) db.
Proof.
  intros X R V. unfold after. pose proof (update_referral_sound (referral_id referral) time db (awarded_sound _ _ _ X)) as S.
  destruct X as [_ J I]. split; [exact S| |]; intros name; [specialize (J name)|specialize (I name)]; cbn [events referrals set_referrals owed] in *.
  - pose proof (total_verified referred_username (fun row => referral_id row =? referral_id referral) time referral name (referrals db)) as T.
    unfold joined_by in *. cbn in J. etransitivity; [|apply T]; try done; [|apply Z.eqb_refl]. unfold owed. lia.
  - pose proof (total_verified referrer (fun row => referral_id row =? referral_id referral) time referral name (referrals db)) as T.
    unfold brought_by in *. cbn in I. etransitivity; [|apply T]; try done; [|apply Z.eqb_refl]. unfold owed. lia.
Qed.

(** A transaction that leaves events and referrals: its checks pass and its other tables change. *)
Ltac same_tables S :=
  apply awarded_transaction; [exact S|let a := fresh "a" in let db' := fresh "db'" in let E := fresh "E" in intros a db' E; cbv zeta in E;
  repeat (match type of E with context [check ?c ?k] => destruct (check c k); [|done] end); apply ok_db in E; by subst].

Lemma awarded_create_username row : keeps (awarded None None) (create_username row).
Proof. intros db X. pose proof (create_username_sound row db (awarded_sound _ _ _ X)) as S. revert X. same_tables S. Qed.

Lemma awarded_create_rewards name device : keeps (awarded None None) (create_rewards name device).
Proof. intros db X. pose proof (create_rewards_sound name device db (awarded_sound _ _ _ X)) as S. revert X. same_tables S. Qed.

Lemma awarded_update_rewards name change : keeps (awarded None None) (update_rewards name change).
Proof. intros db X. pose proof (update_rewards_sound name change db (awarded_sound _ _ _ X)) as S. revert X. same_tables S. Qed.

Lemma awarded_attempt attempt : keeps (awarded None None) (store_referral_attempt attempt).
Proof. intros db X. pose proof (store_referral_attempt_sound attempt db (awarded_sound _ _ _ X)) as S. revert X. same_tables S. Qed.

Lemma awarded_signal new : keeps (awarded None None) (add_risk_signal new).
Proof. intros db X. pose proof (add_risk_signal_sound new db (awarded_sound _ _ _ X)) as S. revert X. same_tables S. Qed.

Lemma awarded_update_redemption id updates : keeps (awarded None None) (update_redemption id updates).
Proof.
  induction updates as [|change updates IH]; [by intros db|]. cbn [update_redemption]. apply keeps_bind; [|done]. intros db X.
  apply (awarded_same _ _ db); [done|done| |done].
  assert (S : sound (snd (update_redemption id [change] db))) by (apply update_redemption_sound; by destruct X). exact S.
Qed.

Lemma awarded_redemption new db : awarded None None db ->
  awarded None None (snd (add_redemption (new_redemption_username new) (option_cost (options db) (new_option_id new)) new db)).
Proof.
  intros X. pose proof (add_redemption_sound (new_redemption_username new) new db eq_refl (awarded_sound _ _ _ X)) as S.
  revert S. unfold add_redemption. destruct (Z.ltb_spec (option_cost (options db) (new_option_id new)) 0); [done|]. intros S. apply awarded_transaction; [done| |done]. intros a db' E. cbv zeta in E.
  destruct (_ =? 0); [done|]. destruct (if 0 <? _ then _ else _) as [db1|] eqn:C; [|done].
  apply spend_charges in C as (rows & -> & _); [|by apply take_one_sound; destruct X|done].
  unfold insert_redemption in E. repeat (match type of E with context [check ?c ?k] => destruct (check c k); [|done] end).
  apply ok_db in E. by subst.
Qed.

Lemma awarded_disable name reason comment : keeps (awarded None None) (disable_rewards name reason comment).
Proof.
  intros db X. pose proof (disable_rewards_sound name reason comment db (awarded_sound _ _ _ X)) as S. revert S.
  unfold disable_rewards, transaction. destruct (insert_event _ _ _) as [[event db1]|] eqn:E; [|done]. intros S.
  apply insert_event_effect in E as (row & E & U & T & R). destruct X as [_ J I].
  split; [exact S|intros n; specialize (J n)|intros n; specialize (I n)]; cbn [snd] in *; rewrite E, R, awards_added; unfold of_type; rewrite T;
    rewrite bool_decide_eq_false_2 by done; cbn in *; destruct (String.eqb _ _); lia.
Qed.

(** The awards and the referrals of a user follow its name. *)
Lemma awarded_update_username id name : keeps (awarded None None) (update_username id name).
Proof.
  intros db X. pose proof (update_username_sound id name db (awarded_sound _ _ _ X)) as S. revert S.
  unfold update_username, transaction. destruct (find _ _) as [row|]; [|done]. destruct (check _ _); [|done]. cbn [snd]. intros S.
  destruct X as [_ J I].
  assert (E : forall type n, awards type (map (rename_event (username row) name) (events db)) n
    = (if String.eqb name n then awards type (events db) (username row) + (if String.eqb (username row) n then 0 else awards type (events db) n)
       else if String.eqb (username row) n then 0 else awards type (events db) n)) by (intros; by apply total_renamed).
  split; [exact S| |]; intros n; cbn [events referrals cascade owed]; rewrite E; unfold joined_by, brought_by.
  - rewrite (total_renamed referred_username settled _ _ _ (username row) name) by done. pose proof (J n). pose proof (J (username row)).
    unfold joined_by, owed in *. destruct (String.eqb name n), (String.eqb (username row) n); lia.
  - rewrite (total_renamed referrer settled _ _ _ (username row) name) by done. pose proof (I n). pose proof (I (username row)).
    unfold brought_by, owed in *. destruct (String.eqb name n), (String.eqb (username row) n); lia.
Qed.

(** *** The sequences *)

(** Verifying a referral and adding its events *)
Lemma awarded_verify {S A} referral (read : M DatabaseError S) (status_of : S -> RewardStatus) (k : list RewardEventRow -> A) db :
  (forall joined invited, keeps (awarded joined invited) read) -> awarded None None db -> referral ∈ referrals db -> verified_at referral = None ->
  after (let! time := now in
         let! _ := lift (update_referral (referral_id referral) time) in
         let! found := read in
         let! events := add_referral_verified_event_rows (referrer referral) (status_of found) (referred_username referral) in
         ret (k events)) (fun _ => awarded None None) db.
Proof.
  intros K X R V. apply after_bind. unfold after at 1, now. cbn.
  assert (X' : awarded None None (set_clock (tick (clock db)) db)) by (apply (awarded_now (E := DatabaseError) _ _ db X)).
  apply after_bind, after_with_error. eapply after_weaken; [by apply awarded_update_referral|]. intros [] db1 X1. apply after_bind.
  eapply after_weaken; [apply (keeps_after (awarded (Some (referred_username referral)) (Some (referrer referral)))); [apply K| |done];
    intros; by eapply awarded_weaken|].
  intros found db2 X2. apply after_bind. eapply after_weaken; [by apply awarded_verified_rows|]. intros events db3 X3. by apply after_ret.
Qed.

Lemma find_referral name db referral : find (fun row => String.eqb (referred_username row) name) (referrals db) = Some referral ->
  referral ∈ referrals db /\ referred_username referral = name.
Proof. intros [F E%String.eqb_eq]%find_some. by rewrite list_elem_of_In. Qed.

Lemma awarded_complete name : keeps (awarded None None) (complete_referral name).
Proof.
  apply (keeps_find_referral (awarded None None)). intros db X. destruct (find _ _) as [referral|] eqn:F; [|done].
  apply find_referral in F as [F <-]. destruct (verified_at referral) eqn:V; [done|]. apply after_keeps.
  apply (awarded_verify referral (require_rewards (referrer referral)) status (map event_id)); [|done..]. intros. apply keeps_require_rewards.
Qed.

Lemma awarded_confirm referral referrer_name referrer_status name device can_verify db : awarded None None db ->
  find (fun row => String.eqb (referred_username row) name) (referrals db) = Some referral -> verified_at referral = None ->
  awarded None None (snd (confirm_pending_referral referral referrer_name referrer_status name device can_verify db)).
Proof.
  intros X F V. apply find_referral in F as [F <-]. unfold confirm_pending_referral. destruct (negb _); [done|]. destruct (negb _); [done|].
  destruct can_verify; [|done]. apply after_keeps.
  apply (awarded_verify referral (ret tt) (fun _ => referrer_status) (map event_as_primitive)); [|done..]. intros. apply keeps_ret.
Qed.

Lemma joined_added (user : RewardReferralRow -> string) referrals row name :
  total user settled name (referrals ++ [row]) = total user settled name referrals + (if String.eqb (user row) name then settled row else 0).
Proof. apply total_added. Qed.

Lemma awarded_add_referral new db : awarded None None db ->
  after (add_referral new) (fun _ db' => match new_verified_at new with
    | Some _ => awarded (Some (new_referred new)) (Some (new_referrer new)) db'
    | None => awarded None None db'
    end) db.
Proof.
  intros X. pose proof (add_referral_sound new db (awarded_sound _ _ _ X)) as S. revert S. unfold after, add_referral, transaction.
  destruct (insert_referral new db) as [[[] db1]|] eqn:I; [|done]. destruct (negb (forallb _ _)); [done|]. cbn [snd]. intros S.
  unfold insert_referral in I. cbv zeta in I. repeat (match type of I with context [check ?c ?k] => destruct (check c k); [|done] end).
  apply ok_db in I. subst db1. destruct X as [_ J K].
  destruct (new_verified_at new) as [time|] eqn:V; (split; [exact S|intros n; specialize (J n)|intros n; specialize (K n)]);
    cbn [events referrals set_rewards set_referrals owed] in *; unfold joined_by, brought_by in *; rewrite joined_added;
    cbn [referred_username referrer]; unfold settled at 2; cbn [verified_at]; rewrite ?V;
    rewrite ?(bool_decide_eq_true_2 (is_Some (Some time))), ?(bool_decide_eq_false_2 (is_Some (@None Z))) by (eauto || by intros []);
    unfold flag; destruct (String.eqb _ n); lia.
Qed.

Lemma awarded_new_referral referrer_name name device signal verified referrer_status :
  keeps (awarded None None) (add_referral_with_events referrer_name name device signal verified referrer_status).
Proof.
  intros db X. apply after_keeps. unfold add_referral_with_events. apply after_bind, after_with_error.
  eapply after_weaken; [by apply awarded_add_referral|]. intros [] db' X'. cbn [new_verified_at new_referred new_referrer] in X'.
  destruct verified as [time|]; cbn.
  - apply after_bind. eapply after_weaken; [by apply awarded_verified_rows|]. intros events db2 X2. by apply after_ret.
  - unfold add_referral_pending_events. destruct (bool_decide _); [done|]. apply after_bind.
    eapply after_weaken; [exact (after_event None None referrer_name InvitePending db' I X')|]. intros event db2 X2. by apply after_ret.
Qed.

#[export] Instance awarded_kept : Kept (awarded None None).
Proof.
  split.
  - split. intros E. apply awarded_now.
  - apply awarded_create_username.
  - apply awarded_update_username.
  - apply awarded_create_rewards.
  - apply awarded_update_rewards.
  - intros. by apply awarded_plain.
  - apply awarded_disable.
  - apply awarded_redemption.
  - apply awarded_attempt.
  - apply awarded_signal.
  - apply awarded_complete.
  - apply awarded_confirm.
  - apply awarded_new_referral.
Qed.

#[export] Instance awarded_updates : KeptUpdates (awarded None None).
Proof. exact awarded_update_redemption. Qed.

Lemma awarded_empty stock time : NoDup (map option_row_id stock) -> Forall (fun row => opt_all (fun n => 0 <=? n) (remaining row) = true) stock ->
  awarded None None (empty stock time).
Proof. intros U R. split; [|done|done]. by apply (reachable_sound stock time). Qed.

(** A user is referred once. *)
Lemma joined_once db name : sound db -> joined_by (referrals db) name <= 1.
Proof.
  intros S. unfold joined_by. destruct S. destruct (existsb (fun row => String.eqb (referred_username row) name) (referrals db)) eqn:E.
  - apply existsb_exists in E as (row & R%list_elem_of_In & <-%String.eqb_eq). rewrite total_row by done. unfold settled, flag. by destruct (bool_decide _).
  - rewrite total_none; [done|]. apply List.Forall_forall. intros row R U. apply not_true_iff_false in E. apply E. apply existsb_exists.
    exists row. split; [done|]. by apply String.eqb_eq.
Qed.

End awards.
End Awards.

(** ** A redemption is paid once *)

Module Payments.
Import RewardsModels RewardsStore RewardsLedger DatabaseErrors RewardsRepository RedemptionConsumer KeptPredicates.

Definition status_of (db : Db) (id : Z) : option RedemptionStatus :=
  redemption_status <$> find (fun row => redemption_id row =? id) (redemptions db).

Section payments.
Context `{Lowercase} `{SqlLower} `{WalletsStore} `{AssetsTable} `{Clock} `{DieselText} `{ParseBigIntText} `{BigUintParse} `{RewardsConfig}
  `{RedemptionService} `{StreamProducer} `{StoreFaults}.

(** *** The status of a redemption under the other statements *)

Definition has_status (id : Z) (s : RedemptionStatus) (db : Db) : Prop := status_of db id = Some s.

Lemma status_same id s {A} (tx : Tx A) db : (forall a db', tx db = Ok (a, db') -> has_status id s db -> has_status id s db') ->
  has_status id s db -> has_status id s (snd (transaction tx db)).
Proof. unfold transaction. intros T X. destruct (tx db) as [[a db']|] eqn:E; [|done]. by eapply T. Qed.

Ltac status_kept :=
  intros db X; apply status_same; [|exact X]; let a := fresh "a" in let db' := fresh "db'" in let E := fresh "E" in intros a db' E; cbv zeta in E;
  unfold insert_event, add_points, insert_referral in E; cbv zeta in E;
  repeat (match type of E with context [check ?c ?k] => destruct (check c k); [|done] end);
  repeat (match type of E with context [if ?c then Err _ else _] => destruct c; [done|] end);
  apply ok_db in E; subst; exact id.

Lemma find_app_some {A} (p : A -> bool) l l' x : find p l = Some x -> find p (l ++ l') = Some x.
Proof. induction l as [|y l IH]; [done|]. cbn. by destruct (p y). Qed.

Lemma find_map {A} (p : A -> bool) (f : A -> A) l : (forall x, p (f x) = p x) -> find p (map f l) = f <$> find p l.
Proof. intros K. induction l as [|y l IH]; [done|]. cbn. rewrite K. by destruct (p y). Qed.

Lemma status_event id s name type n : keeps (has_status id s) (add_event name type n).
Proof. unfold add_event. destruct (_ <? _); [apply keeps_fail|]. status_kept. Qed.
Lemma status_now {E} id s : keeps (has_status id s) (now (E := E)).
Proof. by intros db X. Qed.
Lemma status_update_referral id s i time : keeps (has_status id s) (update_referral i time).
Proof. status_kept. Qed.
Lemma status_add_referral id s new : keeps (has_status id s) (add_referral new).
Proof. status_kept. Qed.
Hint Resolve status_event status_now status_update_referral status_add_referral keeps_require_rewards : keeps.

Lemma status_verified_rows id s referrer_name status name : keeps (has_status id s) (add_referral_verified_event_rows referrer_name status name).
Proof. unfold add_referral_verified_event_rows. keeps. Qed.
Hint Resolve status_verified_rows : keeps.

Lemma status_update_username id s i name : keeps (has_status id s) (update_username i name).
Proof.
  intros db X. apply status_same; [|exact X]. intros a db' E. destruct (find _ _); [|done]. destruct (check _ _); [|done]. apply ok_db in E. subst.
  unfold has_status, status_of. cbn. rewrite find_map by done. by destruct (find _ _).
Qed.

Lemma status_add_redemption id s name n new : keeps (has_status id s) (add_redemption name n new).
Proof.
  unfold add_redemption. destruct (_ <? _); [apply keeps_fail|]. intros db X. apply status_same; [|exact X]. intros a db' E. cbv zeta in E.
  destruct (_ =? 0); [done|]. destruct (if 0 <? n then _ else _) as [db1|] eqn:C; [|done].
  assert (redemptions db1 = redemptions db) as R.
  { destruct (0 <? n); [|by injection C as <-]. unfold spend_points in C. cbv zeta in C. destruct (negb _); [done|]. by injection C as <-. }
  unfold insert_redemption in E. repeat (match type of E with context [check ?c ?k] => destruct (check c k); [|done] end).
  apply ok_db in E. subst. unfold has_status, status_of. cbn. rewrite R. intros F.
  destruct (find _ (redemptions db)) as [row|] eqn:G; [|done]. by rewrite (find_app_some _ _ _ _ G).
Qed.

#[export] Instance status_is_kept id s : Kept (has_status id s).
Proof.
  split; intros; try solve [status_kept].
  - split. intros E. apply status_now.
  - apply status_update_username.
  - apply status_event.
  - by apply status_add_redemption.
  - unfold complete_referral. keeps.
  - apply (fun k : keeps (has_status id s) (confirm_pending_referral referral referrer_name referrer_status name device can_verify) => k db); [|done].
    unfold confirm_pending_referral, add_referral_verified_events. keeps.
  - unfold add_referral_with_events, add_referral_verified_events, add_referral_pending_events. keeps.
Qed.

(** *** Redemptions that are no longer pending *)

Definition closed (id : Z) (db : Db) : Prop := exists s, s <> RedemptionPending /\ has_status id s db.
Definition closing (change : RedemptionUpdate) : Prop := change <> RedemptionStatusTo RedemptionPending.

Lemma status_updated id change db other : status_of (snd (update_redemption_once id change db)) other =
  match change with
  | RedemptionStatusTo s => if other =? id then (fun _ => s) <$> status_of db other else status_of db other
  | _ => status_of db other
  end.
Proof.
  unfold status_of. cbn. unfold update. rewrite find_map by (intros x; destruct (redemption_id x =? id); by destruct change).
  destruct (find _ (redemptions db)) as [row|] eqn:F; [|by destruct change; [destruct (other =? id)| |]].
  apply find_some in F as [_ F%Z.eqb_eq]. cbn. rewrite F. destruct (other =? id); by destruct change.
Qed.

Lemma closed_updates id updates other : Forall closing updates -> keeps (closed other) (update_redemption id updates).
Proof.
  induction 1 as [|change updates C F IH]; [by intros db|]. cbn [update_redemption]. apply keeps_bind; [|done]. intros db (s & N & X).
  unfold closed, has_status in *. rewrite status_updated. destruct change as [s'| |]; [|by exists s..]. destruct (other =? id); [|by exists s].
  rewrite X. exists s'. split; [|done]. intros ->. by apply C.
Qed.

Lemma processing_closes id db : is_Some (status_of db id) -> closed id (snd (update_redemption id [RedemptionStatusTo RedemptionProcessing] db)).
Proof.
  intros [s S]. exists RedemptionProcessing. split; [done|]. unfold has_status. cbn [update_redemption]. unfold bind.
  pose proof (status_updated id (RedemptionStatusTo RedemptionProcessing) db id) as T. rewrite Z.eqb_refl, S in T. exact T.
Qed.

(** *** The calls of the service *)

Definition paid (p : Payment) : bool := is_ok (payment_result p).

Lemma attempt_effect config retries id request w : let '(r, w') := attempt config retries id request w in
  tables w' = tables w /\ exists ps, payments w' = payments w ++ ps /\ Forall (fun p => payment_for p = id) ps /\ (length ps <= S retries)%nat /\
    length (List.filter paid ps) = (if is_ok r then 1 else 0)%nat.
Proof.
  revert w. induction retries as [|retries IH]; intros w; cbn [attempt]; unfold call_service;
    destruct (process_redemption (length (payments w)) request) as [transaction|e] eqn:E.
  1,2,3: split; [done|]; eexists; (split; [done|]); (split; [by apply Forall_singleton|]); by (split; [cbn; lia|]).
  destruct (is_retryable config e); [|split; [done|]; eexists; (split; [done|]); (split; [by apply Forall_singleton|]); by (split; [cbn; lia|])].
  specialize (IH (MkWorldAt (tables w) (payments w ++ [MkPayment id request (Err e)]) (published w) (turn w))).
  destruct (attempt _ _ _ _ _) as [r w']. destruct IH as (T & ps & P & F & L & C). split; [exact T|].
  exists (MkPayment id request (Err e) :: ps). cbn [payments] in P. split; [by rewrite P, <- app_assoc|]. split; [by constructor|].
  split; [cbn; lia|]. exact C.
Qed.

(** *** A message *)

(** Updates of one redemption, one after the other *)
Definition updated (id : Z) (updates : list (list RedemptionUpdate)) (db : Db) : Db :=
  fold_left (fun db updates => snd (update_redemption id updates db)) updates db.

Lemma updated_keeps (P : Db -> Prop) id updates db : Forall (fun updates => keeps P (update_redemption id updates)) updates -> P db -> P (updated id updates db).
Proof. intros F. revert db. induction F as [|u us K F IH]; intros db X; [done|]. by apply IH, K. Qed.

Lemma updated_closed id updates db other : Forall (Forall closing) updates -> closed other db -> closed other (updated id updates db).
Proof. intros F. apply updated_keeps. eapply Forall_impl; [exact F|]. intros us U. by apply closed_updates. Qed.

(** What a message does: calls for its redemption only, if that was pending, and updates of it that never make it pending again *)
Definition message_effect (config : RedemptionRetryConfig) (id : Z) (w w' : World) : Prop :=
  exists ps, payments w' = payments w ++ ps /\ Forall (fun p => payment_for p = id) ps /\ (length ps <= S (max_retries config))%nat /\
    (length (List.filter paid ps) <= 1)%nat /\ (ps <> [] -> has_status id RedemptionPending (tables w) /\ closed id (tables w')) /\
    exists updates, Forall (Forall closing) updates /\ tables w' = updated id updates (tables w).

Lemma effect_none config id updates w w' : payments w' = payments w -> Forall (Forall closing) updates -> tables w' = updated id updates (tables w) ->
  message_effect config id w w'.
Proof. intros P U T. exists []. rewrite app_nil_r. do 4 (split; [done || (cbn; lia)|]). split; [done|]. by exists updates. Qed.

(** An operation that reads *)
Lemma on_tables_reads {A} (m : M DatabaseError A) w : (forall db, snd (m db) = db) ->
  exists r, on_tables m w = (r, MkWorldAt (tables w) (payments w) (published w) (S (turn w))).
Proof. intros R. unfold on_tables. destruct (fault _); [eauto|]. specialize (R (tables w)). destruct (m (tables w)) as [r db]. cbn in R. subst. eauto. Qed.

Lemma reads_keeps {A} (m : M DatabaseError A) : (forall db, keeps (fun d => d = db) m) -> forall db, snd (m db) = db.
Proof. intros K db. by apply K. Qed.

Lemma reads_redemption id db : snd (repo_get_redemption id db) = db.
Proof. revert db. apply reads_keeps. intros. unfold repo_get_redemption. keeps. Qed.
Lemma reads_address name db : snd (get_address_by_username name db) = db.
Proof.
  revert db. apply reads_keeps. intros. unfold get_address_by_username. pose proof (fun lookup => keeps_require_username (fun d => d = db) lookup).
  pose proof (fun id => keeps_require_wallet (fun d => d = db) id). keeps.
Qed.
Lemma reads_option id db : snd (repo_get_redemption_option id db) = db.
Proof. revert db. apply reads_keeps. intros. unfold repo_get_redemption_option. keeps. Qed.

(** Updates are made up to the one that fails. *)
Lemma update_effect id updates w : let '(r, w') := update_redemption_ id updates w in
  payments w' = payments w /\ exists made, made `prefix_of` updates /\ tables w' = snd (update_redemption id made (tables w)) /\ (is_ok r = true -> made = updates).
Proof.
  revert w. induction updates as [|change updates IH]; intros w; cbn [update_redemption_]; [split; [done|]; by exists []|].
  unfold and_then, on_tables. destruct (fault (turn w)) as [e|]; [split; [done|]; exists []; split_and!; [apply prefix_nil|done|done]|].
  cbn [repo_update_redemption]. unfold repo_update_redemption, lift, with_error. cbn [update_redemption]. unfold bind, ret.
  destruct (update_redemption_once id change (tables w)) as [r db] eqn:U. unfold update_redemption_once, transaction in U. injection U as <- <-. cbn [map_err].
  match goal with |- context [update_redemption_ id updates ?w1] => specialize (IH w1) end.
  destruct (update_redemption_ _ _ _) as [r w']. destruct IH as (P & made & PR & T & K). split; [done|].
  exists (change :: made). split; [by apply prefix_cons|]. split; [exact T|]. intros O. by rewrite (K O).
Qed.

Lemma closing_prefix made updates : made `prefix_of` updates -> Forall closing updates -> Forall closing made.
Proof. intros [rest ->]. by intros [? _]%Forall_app. Qed.

(** After the calls: the last update of the redemption *)
Lemma effect_after config id last w w1 w2 ps : has_status id RedemptionPending (tables w) -> payments w1 = payments w ->
  tables w1 = snd (update_redemption id [RedemptionStatusTo RedemptionProcessing] (tables w)) -> payments w2 = payments w1 ++ ps ->
  Forall (fun p => payment_for p = id) ps -> (length ps <= S (max_retries config))%nat -> (length (List.filter paid ps) <= 1)%nat ->
  Forall closing last -> tables w2 = snd (update_redemption id last (tables w1)) -> message_effect config id w w2.
Proof.
  intros X P T Q F L N C U. exists ps. rewrite Q, P. do 4 (split; [done|]). split.
  - intros _. split; [done|]. rewrite U, T. apply closed_updates; [done|]. apply processing_closes. by eexists.
  - exists [[RedemptionStatusTo RedemptionProcessing]; last]. split; [by repeat constructor|]. by rewrite U, T.
Qed.

(** Publishing touches neither the tables nor the calls. *)
Lemma publish_effect redemption option transaction w :
  let w' := snd (publish_redeemed redemption option transaction w) in tables w' = tables w /\ payments w' = payments w.
Proof.
  unfold publish_redeemed. destruct (redemption_option_asset option) as [asset|]; [|done]. unfold and_then, publish_pending, notify_redeemed, publish.
  destruct (is_ok _), (publish_in_app_notifications _ _ _ _ _); done.
Qed.

Lemma effect_same config id w w1 w2 : tables w2 = tables w1 -> payments w2 = payments w1 -> message_effect config id w w1 -> message_effect config id w w2.
Proof. unfold message_effect. by intros -> ->. Qed.

Lemma process_effect config id w : has_status id RedemptionPending (tables w) -> message_effect config id w (snd (process config id w)).
Proof.
  intros X. unfold process, and_then at 1. destruct (on_tables_reads (repo_get_redemption id) w (reads_redemption id)) as [r ->].
  destruct r as [redemption|e]; [|by apply (effect_none _ _ [])]. unfold and_then at 1.
  set (w0 := MkWorldAt _ _ _ _). pose proof (update_effect id [RedemptionStatusTo RedemptionProcessing] w0) as U.
  destruct (update_redemption_ id _ w0) as [r w1]. destruct U as (P & made & PR & U & K).
  assert (N : message_effect config id w w1).
  { apply (effect_none _ _ [made]); [done| |done]. repeat constructor. eapply closing_prefix; [exact PR|]. by repeat constructor. }
  destruct r as [[]|e]; [|done]. rewrite K in U by done. unfold and_then at 1.
  destruct (on_tables_reads (get_address_by_username (redemption_username redemption)) w1 (reads_address _)) as [r ->].
  destruct r as [recipient|e]; [|by eapply effect_same]. unfold and_then at 1.
  set (w2 := MkWorldAt _ _ _ _). destruct (on_tables_reads (repo_get_redemption_option (option_id redemption)) w2 (reads_option _)) as [r ->].
  destruct r as [option|e]; [|by eapply effect_same]. cbv zeta. unfold process_with_retry. set (w3 := MkWorldAt _ _ _ _).
  set (request := MkRequest _ _). pose proof (attempt_effect config (max_retries config) id request w3) as A.
  destruct (attempt config (max_retries config) id request w3) as [[transaction|error] w4]; destruct A as (T & ps & Q & F & L & C);
    cbn [is_ok] in C; unfold and_then at 1.
  - set (last := [RedemptionTransactionId transaction; RedemptionStatusTo RedemptionCompleted]). pose proof (update_effect id last w4) as V.
    destruct (update_redemption_ _ _ w4) as [r w5]. destruct V as (R & made' & PR' & V & _).
    assert (M : message_effect config id w w5).
    { apply (effect_after config id made' w w1 w5 ps); try done; [by rewrite R, Q|lia| |by rewrite V, T]. eapply closing_prefix; [exact PR'|]. by repeat constructor. }
    destruct r as [[]|e]; [|done]. unfold and_then. pose proof (publish_effect redemption option transaction w5) as [TP PP].
    destruct (publish_redeemed _ _ _ w5) as [[|] w6]; by eapply effect_same.
  - set (last := [RedemptionStatusTo RedemptionFailed; RedemptionErrorText error]). pose proof (update_effect id last w4) as V.
    destruct (update_redemption_ _ _ w4) as [r w5]. destruct V as (R & made' & PR' & V & _).
    assert (M : message_effect config id w w5).
    { apply (effect_after config id made' w w1 w5 ps); try done; [by rewrite R, Q|lia| |by rewrite V, T]. eapply closing_prefix; [exact PR'|]. by repeat constructor. }
    by destruct r as [[]|e].
Qed.

Lemma process_message_effect config id w : message_effect config id w (snd (process_message config id w)).
Proof.
  unfold process_message, and_then at 1, should_process.
  set (read := bind (repo_get_redemption id) _).
  assert (R : read (tables w) = match status_of (tables w) id with
      | Some s => (Ok (bool_decide (s = RedemptionPending)), tables w)
      | None => (Err (not_found_internal "RewardRedemption" (pretty id)), tables w)
      end).
  { subst read. unfold bind, repo_get_redemption, or_not_found_internal_for, with_error, get_redemption, query, status_of.
    by destruct (find _ (redemptions (tables w))). }
  unfold on_tables at 1. destruct (fault (turn w)) as [e|]; [by apply (effect_none _ _ [])|]. rewrite R. destruct w as [db ps pub n]. cbn [tables payments published turn] in *.
  destruct (status_of db id) as [s|] eqn:S; cbn [map_err]; [|by apply (effect_none _ _ [])].
  destruct (decide (s = RedemptionPending)) as [->|N]; [|rewrite bool_decide_eq_false_2 by done; by apply (effect_none _ _ [])].
  rewrite bool_decide_eq_true_2 by done. pose proof (process_effect config id (MkWorldAt db ps pub (Datatypes.S n)) S) as E. unfold and_then.
  by destruct (process config id (MkWorldAt db ps pub (Datatypes.S n))) as [[]].
Qed.

(** *** Requests and messages, one after the other *)

Inductive happening := Served (r : request) | Received (redemption_id : Z).
Definition happen (config : RedemptionRetryConfig) (w : World) (h : happening) : World :=
  match h with
  | Served r => MkWorldAt (serve r (tables w)) (payments w) (published w) (turn w)
  | Received id => snd (process_message config id w)
  end.

(** At most one call of a redemption paid it, and none that was called for is pending. *)
Definition payments_of (id : Z) (ps : list Payment) : list Payment := List.filter (fun p => payment_for p =? id) ps.
Definition paid_once (config : RedemptionRetryConfig) (w : World) : Prop := forall id,
  ((length (List.filter paid (payments_of id (payments w))) <= 1)%nat /\ (length (payments_of id (payments w)) <= S (max_retries config))%nat) /\ (payments_of id (payments w) <> [] -> closed id (tables w)).

Lemma payments_of_same id ps : Forall (fun p => payment_for p = id) ps -> forall other, payments_of other ps = if other =? id then ps else [].
Proof.
  intros F other. unfold payments_of. induction F as [|p ps E F IH]; [by destruct (other =? id)|]. cbn [List.filter]. rewrite E, IH, Z.eqb_sym.
  by destruct (other =? id).
Qed.

Lemma happen_keeps P `{!Kept P} `{!KeptUpdates P} config w h : P (tables w) -> P (tables (happen config w h)).
Proof.
  intros X. destruct h as [r|id]; cbn [happen tables]; [by apply serve_keeps|].
  destruct (process_message_effect config id w) as (_ & _ & _ & _ & _ & _ & us & _ & ->). apply updated_keeps; [|done].
  apply List.Forall_forall. intros u _. apply kept_update_redemption.
Qed.

Lemma all_happen_keeps P `{!Kept P} `{!KeptUpdates P} config hs w : P (tables w) -> P (tables (fold_left (happen config) hs w)).
Proof. revert w. induction hs as [|h hs IH]; intros w X; [done|]. by apply IH, happen_keeps. Qed.

Lemma paid_once_happen config w h : paid_once config w -> paid_once config (happen config w h).
Proof.
  intros X. destruct h as [r|id]; cbn [happen].
  - intros other. destruct (X other) as [O C]. split; [done|]. intros N. destruct (C N) as (s & D & S). exists s. split; [done|]. exact (serve_keeps (has_status other s) r (tables w) S).
  - destruct (process_message_effect config id w) as (ps & P & F & L & N & U & us & V & Q).
    assert (K : forall other, closed other (tables w) -> closed other (tables (snd (process_message config id w)))).
    { intros other. rewrite Q. by apply updated_closed. }
    intros other. destruct (X other) as [O C].
    rewrite P. unfold payments_of in *. rewrite !List.filter_app. fold (payments_of other ps). rewrite (payments_of_same id ps F).
    destruct (Z.eqb_spec other id) as [->|NE]; [|rewrite !app_nil_r; auto].
    destruct ps as [|p ps]; [rewrite !app_nil_r; auto|]. destruct U as [S D]; [done|].
    assert (List.filter (fun p => payment_for p =? id) (payments w) = []) as ->.
    { destruct (List.filter _ (payments w)) as [|q l] eqn:E; [done|]. destruct C as (s & NS & T); [done|]. unfold has_status in *. congruence. }
    by split.
Qed.

End payments.
End Payments.

(** ** What holds of the handlers *)

Module HandlerProperties.
Import RewardsModels RewardsStore RewardsLedger DatabaseErrors RewardsRepository RedemptionConsumer KeptPredicates Refinement Awards Payments.

Section properties.
Context `{Lowercase} `{SqlLower} `{WalletsStore} `{AssetsTable} `{Clock} `{DieselText} `{ParseBigIntText} `{BigUintParse} `{RewardsConfig}
  `{RedemptionService} `{StreamProducer} `{StoreFaults}.

(** Whatever requests are served and messages received, and wherever one of them fails, the tables are those of a run of
    the statements of the store; so the ledger of [RewardsLedger] holds after them. *)
Theorem handlers_refine_store config hs db ps : rtc store_step db (tables (fold_left (happen config) hs (MkWorld db ps))).
Proof. apply (all_happen_keeps (reached db)). apply rtc_refl. Qed.

(** (C27) After any requests and messages, one after the other, from empty tables: a user has been awarded for joining at most
    once, and a referrer was awarded at most once for each of its verified referrals. *)
Theorem referral_awarded_once config stock time hs name : NoDup (map option_row_id stock) ->
  Forall (fun row => opt_all (fun n => 0 <=? n) (remaining row) = true) stock ->
  let db := tables (fold_left (happen config) hs (MkWorld (empty stock time) [])) in
  awards Joined (events db) name <= 1 /\ awards InviteNew (events db) name <= brought_by (referrals db) name.
Proof.
  intros U R db. destruct (all_happen_keeps (awarded None None) config hs (MkWorld (empty stock time) []) (awarded_empty stock time U R)) as [S J I].
  specialize (J name). specialize (I name). pose proof (joined_once _ name S). cbn [owed] in *. unfold db. lia.
Qed.

(** (C28) A redemption is paid at most once, with at most the configured attempts, whatever requests and repeated messages
    are handled one after the other, and wherever the service, the store or the queue of notifications fails. *)
Theorem redemption_paid_once config hs db id :
  let calls := payments_of id (payments (fold_left (happen config) hs (MkWorld db []))) in
  (length (List.filter paid calls) <= 1)%nat /\ (length calls <= S (max_retries config))%nat.
Proof.
  assert (X : forall w, paid_once config w -> paid_once config (fold_left (happen config) hs w)).
  { induction hs as [|h hs' IH]; intros w X; [done|]. by apply IH, paid_once_happen. }
  apply (X (MkWorld db [])). intros other. split; [split; cbn; lia|]. by intros N.
Qed.

End properties.
End HandlerProperties.

(** ** Concrete runs *)

Module HandlersConcrete.
Import RewardsModels RewardsStore RewardsLedger DatabaseErrors RewardsRepository RedemptionConsumer KeptPredicates Awards Payments HandlerProperties RewardsConcrete.

#[export] Instance no_assets : AssetsTable := fun _ => None.
#[export] Instance plain_error : DieselText := fun _ => "error"%string.
#[export] Instance plain_number_error : ParseBigIntText := fun s => s.
#[export] Instance small_number : BigUintParse := fun s => if String.eqb s "5" then Some 5 else None.
#[export] Instance hour_delay : RewardsConfig := {| referral_verification_delay_config := Ok 3600; referral_verified_multiplier := Ok 2 |}.
(** A service that times out once *)
#[export] Instance late_service : RedemptionService := fun n _ => if (n =? 0)%nat then Err "timeout"%string else Ok "0xabc"%string.
#[export] Instance open_queue : StreamProducer := {| publish_pending_transaction _ := Ok tt; publish_in_app_notifications _ _ _ _ _ := Ok tt |}.
#[export] Instance no_faults : StoreFaults := fun _ => None.
Definition twice : RedemptionRetryConfig := MkRetry 2 ["timeout"].

Definition second : string := "0x0000000000000002".

(** Two users, the second referred by the first, who is verified *)
Definition referral_run : list happening :=
  [Served (CreateReward 1 "alice"); Served (PromoteToVerified "alice"); Served (UseReferral "alice" Verified 2 2 None);
   Served (PromoteToVerified second); Served (UseReferral "alice" Verified 2 2 None)].
Definition referral_db : Db := tables (fold_left (happen twice) referral_run (MkWorld (empty stock 0) [])).

(** The second user's referral is pending, is verified when the user is promoted, and is refused when it is used again. *)
Lemma referral_awarded_once_witness : awards Joined (events referral_db) second = 1 /\ awards InviteNew (events referral_db) "alice" = 1 /\
  map points (rewards referral_db) = [175; 60].
Proof.
  pose proof (referral_awarded_once twice stock 0 referral_run second stock_unique stock_nonneg) as [J _].
  pose proof (referral_awarded_once twice stock 0 referral_run "alice" stock_unique stock_nonneg) as [_ I].
  assert (E : awards Joined (events referral_db) second = 1) by (vm_compute; reflexivity).
  assert (B : awards InviteNew (events referral_db) "alice" = 1) by (vm_compute; reflexivity).
  split; [exact E|]. split; [exact B|]. vm_compute. reflexivity.
Defined.

(** Two requests that read the same pending referral before either of them confirms it: both users are awarded twice. *)
Definition pending_db : Db := tables (fold_left (happen twice)
  [Served (CreateReward 1 "alice"); Served (PromoteToVerified "alice"); Served (UseReferral "alice" Verified 2 2 None)] (MkWorld (empty stock 0) [])).
Definition confirm (referral : RewardReferralRow) (db : Db) : Db :=
  snd (confirm_pending_referral referral "alice" Verified second 2 true db).

Lemma stale_confirmation : exists referral, find (fun row => String.eqb (referred_username row) second) (referrals pending_db) = Some referral /\
  verified_at referral = None /\
  awards Joined (events (confirm referral (confirm referral pending_db))) second = 2 /\
  awards InviteNew (events (confirm referral (confirm referral pending_db))) "alice" = 2.
Proof.
  destruct (find (fun row => String.eqb (referred_username row) second) (referrals pending_db)) as [referral|] eqn:E; [|by vm_compute in E].
  exists referral. vm_compute in E. injection E as <-. split; [done|]. split; [done|]. split; vm_compute; reflexivity.
Qed.

(** A redemption whose first payment times out, and whose message arrives twice *)
Lemma paid_in_two_calls : let w := fold_left (happen twice) [Served (RedeemPoints "alice" "five" 1 1); Received 1; Received 1] (MkWorld enabled_user []) in
  map payment_result (payments w) = [Err "timeout"%string; Ok "0xabc"%string] /\ status_of (tables w) 1 = Some RedemptionCompleted.
Proof. by vm_compute. Qed.

(** A store that is out of reach when the payment is to be recorded: the redemption was paid, stays in processing, and is not paid
    again when its message is repeated. *)
Lemma paid_unrecorded : let faults : StoreFaults := fun n => if (n =? 6)%nat then Some (DbError "connection refused") else None in
  let w := fold_left (happen twice) [Served (RedeemPoints "alice" "five" 1 1); Received 1; Received 1; Received 1] (MkWorld enabled_user []) in
  map payment_result (payments w) = [Err "timeout"%string; Ok "0xabc"%string] /\ status_of (tables w) 1 = Some RedemptionProcessing.
Proof. by vm_compute. Qed.

(** An error between the two updates leaves a redemption that no message takes up again: here its user is missing. *)
Lemma stuck_in_processing : let bad := fold_left (happen twice) [Served (RedeemPoints "alice" "five" 1 1)] (MkWorld enabled_user []) in
  let broken := MkWorld (set_usernames [] (tables bad)) [] in
  let w := fold_left (happen twice) [Received 1; Received 1; Received 1] broken in
  payments w = [] /\ status_of (tables w) 1 = Some RedemptionProcessing.
Proof. by vm_compute. Qed.

(** A disabled user whose date of verification has passed is made unverified by the next referral code it uses. *)
Definition disabled_db : Db :=
  let db := tables (fold_left (happen twice) [Served (DisableRewards second "abuse" "")] (MkWorld pending_db [])) in set_clock (clock db + DAY) db.
Lemma disabled_is_reset :
  map status (rewards disabled_db) = [Verified; Disabled] /\
  map status (rewards (serve (UseReferral "alice" Verified 2 2 None) disabled_db)) = [Verified; Unverified].
Proof. by vm_compute. Qed.

End HandlersConcrete.
