(* ===== verification/RiskScore.v ===== *)
(** * The risk score of a referral

    Models [gem_rewards/src/risk_scoring/model.rs], [scoring.rs] and [client.rs] (module [RiskScoring]), the answers of the
    two services that judge addresses of the internet ([ipapi/model.rs], [abuseipdb/model.rs], with
    [primitives/src/ip_usage_type.rs]; [IpChecks]).  An [i64] is an integer with its wrap-around written out ([wrap_i64]: a release build does not check
    additions); an [f64] is a [spec_float] ([Floats]).  Regular expressions are the class [Regex], SHA-256 the class [Sha256].

    The theorems show that a score does not depend on the order of the signals it is computed from, that it is refused
    when another referrer's signal has the same device and address, and that the sliding window finds the busiest
    window. *)
From Stdlib Require Import SpecFloat.
From stdpp Require Import sorting.
From S2P Require Import Prelude Utf8 Text HexText Crates Floats RewardsStore.

(** [Regex::new(pattern).map(|re| re.is_match(text))] of the [regex] crate: [None] is a pattern it refuses. *)
Class Regex : Type := regex_is_match : string -> string -> option bool.

(** [str::parse::<f64>] *)
Class ParseF64 : Type := parse_f64 : string -> option spec_float.

(** ** The address of a device *)

Module IpChecks.
Import F64 RewardsModels.

Record IpCheckResult := MkIpCheck {
  ip_address : string;
  country_code : string;
  confidence_score : Z;
  is_tor : bool;
  is_vpn : bool;
  usage_type : IpUsageType;
  isp : string
}.

Record AbuseIPDBData := MkAbuseData {
  abuse_ip_address : string;
  abuse_is_public : bool;
  abuse_ip_version : Z;
  abuse_is_whitelisted : option bool;
  abuse_confidence_score : Z;
  abuse_country_code : string;
  abuse_usage_type : option string;
  abuse_isp : option string;
  abuse_domain : option string;
  abuse_is_tor : bool;
  abuse_total_reports : Z
}.

Record IpApiCompany := MkCompany { company_name : option string; company_abuser_score : option string; company_type : option string }.
Record IpApiAsn := MkAsn { asn_abuser_score : option string; asn_org : option string }.
Record IpApiLocation := MkLocation { location_country_code : option string }.
Record IpApiResponse := MkIpApi {
  api_ip : string;
  api_is_tor : option bool;
  api_is_proxy : option bool;
  api_is_vpn : option bool;
  api_is_abuser : option bool;
  api_company : option IpApiCompany;
  api_asn : option IpApiAsn;
  api_location : option IpApiLocation
}.

Section checks.
Context `{Lowercase} `{ParseF64}.

Definition contains_any (patterns : list string) (text : string) : bool := existsb (fun pattern => contains pattern text) patterns.

Definition usage_from_str (s : string) : IpUsageType :=
  let lower := to_lowercase s in
  if String.eqb lower "datacenter" || String.eqb lower "data_center" then DataCenter
  else if String.eqb lower "hosting" then Hosting
  else if String.eqb lower "isp" then Isp
  else if String.eqb lower "mobile" then Mobile
  else if String.eqb lower "business" then Business
  else if String.eqb lower "education" then Education
  else if String.eqb lower "government" then Government
  else if contains_any ["data center"; "web hosting"; "transit"]%string lower then DataCenter
  else if contains_any ["hosting"]%string lower then Hosting
  else if contains_any ["mobile"]%string lower then Mobile
  else if contains_any ["isp"; "fixed line"]%string lower then Isp
  else if contains_any ["commercial"; "business"]%string lower then Business
  else if contains_any ["university"; "college"; "school"; "education"]%string lower then Education
  else if contains_any ["government"; "military"]%string lower then Government
  else UnknownUsage.

Definition abuse_as_ip_check_result (self : AbuseIPDBData) : IpCheckResult :=
  MkIpCheck (abuse_ip_address self) (abuse_country_code self) (abuse_confidence_score self) (abuse_is_tor self) false
    (default UnknownUsage (usage_from_str <$> abuse_usage_type self)) (default EmptyString (abuse_isp self)).

Definition determine_usage_type (self : IpApiResponse) : IpUsageType :=
  default UnknownUsage (usage_from_str <$> mbind (M := option) company_type (api_company self)).

(** [a.or_else(|| b)] *)
Definition or_else {A} (a b : option A) : option A := match a with Some _ => a | None => b end.

Fixpoint take_word (cs : list bytes) : list bytes :=
  match cs with
  | c :: cs => if is_whitespace c then [] else c :: take_word cs
  | [] => []
  end.
(** [split_whitespace().next()] *)
Definition first_word (s : string) : option string :=
  match drop_whitespace (utf8_chars (bytes_of_string s)) with
  | [] => None
  | cs => Some (string_of_bytes (concat (take_word cs)))
  end.

Definition parse_abuser_score (self : IpApiResponse) : spec_float :=
  let score_str : option string := or_else (mbind (M := option) company_abuser_score (api_company self)) (mbind (M := option) asn_abuser_score (api_asn self)) in
  default (S754_zero false) (let?? s := score_str in let?? num_str := first_word s in parse_f64 num_str).

Definition calculate_confidence_score (self : IpApiResponse) : Z :=
  let score := round_i64 (mul (parse_abuser_score self) (of_i64 100)) in
  let score := if default false (api_is_abuser self) then Z.max score 50 else score in
  let score := if default false (api_is_proxy self) || default false (api_is_vpn self) then Z.max score 25 else score in
  let score := if default false (api_is_tor self) then Z.max score 75 else score in
  Z.max 0 (Z.min score 100).

Definition ipapi_as_ip_check_result (self : IpApiResponse) : IpCheckResult :=
  MkIpCheck (api_ip self) (default EmptyString (mbind (M := option) location_country_code (api_location self))) (calculate_confidence_score self) (default false (api_is_tor self))
    (default false (api_is_vpn self)) (determine_usage_type self)
    (default EmptyString (or_else (mbind (M := option) company_name (api_company self)) (mbind (M := option) asn_org (api_asn self)))).

End checks.
End IpChecks.

(** ** The score *)

Module RiskScoring.
Import F64 IpChecks RewardsModels.

Definition store_as_ref (self : PlatformStore) : string :=
  match self with
  | AppStore => "appStore" | GooglePlay => "googlePlay" | Fdroid => "fdroid" | Huawei => "huawei" | SolanaStore => "solanaStore"
  | SamsungStore => "samsungStore" | ApkUniversal => "apkUniversal" | Emerald => "emerald" | LocalStore => "local"
  end.

Record RiskScoreConfig := MkConfig {
  fingerprint_match_penalty_per_referrer : Z;
  fingerprint_match_max_penalty : Z;
  ip_reuse_score : Z;
  isp_model_match_score : Z;
  device_id_reuse_penalty_per_referrer : Z;
  device_id_reuse_max_penalty : Z;
  ineligible_ip_type_score : Z;
  blocked_ip_types : list IpUsageType;
  blocked_ip_type_penalty : Z;
  max_abuse_score : Z;
  penalty_isps : list string;
  isp_penalty_score : Z;
  verified_user_reduction : Z;
  early_referral_reduction_initial : Z;
  early_referral_reduction_step : Z;
  max_allowed_score : Z;
  same_referrer_pattern_threshold : Z;
  same_referrer_pattern_penalty : Z;
  same_referrer_fingerprint_threshold : Z;
  same_referrer_fingerprint_penalty : Z;
  same_referrer_device_model_threshold : Z;
  same_referrer_device_model_penalty : Z;
  device_model_ring_threshold : Z;
  device_model_ring_penalty_per_member : Z;
  lookback : Z;
  high_risk_platform_stores : list string;
  high_risk_platform_store_penalty : Z;
  high_risk_countries : list string;
  high_risk_country_penalty : Z;
  high_risk_locales : list string;
  high_risk_locale_penalty : Z;
  high_risk_device_models : list string;
  high_risk_device_model_penalty : Z;
  high_risk_user_agents : list string;
  high_risk_user_agent_penalty : Z;
  velocity_window : Z;
  velocity_divisor : Z;
  velocity_penalty : Z;
  referral_per_user_daily : Z;
  verified_multiplier : Z;
  trusted_multiplier : Z;
  ip_history_penalty_per_abuser : Z;
  ip_history_max_penalty : Z;
  cross_referrer_device_penalty : Z;
  cross_referrer_fingerprint_threshold : Z;
  cross_referrer_fingerprint_penalty : Z;
  country_diversity_threshold : Z;
  country_diversity_penalty_per_country : Z;
  device_farming_threshold : Z;
  device_farming_penalty_per_device : Z
}.

(** [RiskScoreConfig::default]; durations are in seconds. *)
Definition default_config : RiskScoreConfig := {|
  fingerprint_match_penalty_per_referrer := 50;
  fingerprint_match_max_penalty := 200;
  ip_reuse_score := 50;
  isp_model_match_score := 30;
  device_id_reuse_penalty_per_referrer := 50;
  device_id_reuse_max_penalty := 200;
  ineligible_ip_type_score := 100;
  blocked_ip_types := [DataCenter; Hosting];
  blocked_ip_type_penalty := 100;
  max_abuse_score := 60;
  penalty_isps := [];
  isp_penalty_score := 30;
  verified_user_reduction := 30;
  early_referral_reduction_initial := 20;
  early_referral_reduction_step := 10;
  max_allowed_score := 60;
  same_referrer_pattern_threshold := 3;
  same_referrer_pattern_penalty := 40;
  same_referrer_fingerprint_threshold := 2;
  same_referrer_fingerprint_penalty := 60;
  same_referrer_device_model_threshold := 3;
  same_referrer_device_model_penalty := 50;
  device_model_ring_threshold := 2;
  device_model_ring_penalty_per_member := 40;
  lookback := 30 * 86400;
  high_risk_platform_stores := [];
  high_risk_platform_store_penalty := 20;
  high_risk_countries := [];
  high_risk_country_penalty := 15;
  high_risk_locales := [];
  high_risk_locale_penalty := 10;
  high_risk_device_models := ["sdk_gphone"; "(?i)emulator"; "(?i)simulator"];
  high_risk_device_model_penalty := 50;
  high_risk_user_agents := ["(?i)python"; "(?i)curl"; "(?i)httpie"; "(?i)postman"; "(?i)insomnia"];
  high_risk_user_agent_penalty := 100;
  velocity_window := 300;
  velocity_divisor := 2;
  velocity_penalty := 100;
  referral_per_user_daily := 5;
  verified_multiplier := 2;
  trusted_multiplier := 3;
  ip_history_penalty_per_abuser := 30;
  ip_history_max_penalty := 150;
  cross_referrer_device_penalty := 500;
  cross_referrer_fingerprint_threshold := 2;
  cross_referrer_fingerprint_penalty := 100;
  country_diversity_threshold := 5;
  country_diversity_penalty_per_country := 5;
  device_farming_threshold := 10;
  device_farming_penalty_per_device := 3
|}.

Record RiskSignalInput := MkSignalInput {
  input_username : string;
  input_device_id : Z;
  input_platform : Platform;
  input_store : PlatformStore;
  input_os : string;
  input_model : string;
  input_locale : string;
  input_currency : string;
  input_ip_address : string;
  input_country : string;
  input_usage : IpUsageType;
  input_isp : string;
  input_abuse_score : Z;
  input_referrer_status : RewardStatus;
  input_referral_count : Z;
  input_user_agent : string
}.

Record RiskScoreBreakdown := MkBreakdown {
  abuse_part : Z;
  fingerprint_match_part : Z;
  ip_reuse_part : Z;
  isp_model_match_part : Z;
  device_id_reuse_part : Z;
  ineligible_ip_type_part : Z;
  verified_user_part : Z;
  early_referral_part : Z;
  same_referrer_pattern_part : Z;
  same_referrer_fingerprint_part : Z;
  same_referrer_device_model_part : Z;
  device_model_ring_part : Z;
  platform_store_part : Z;
  country_part : Z;
  locale_part : Z;
  high_risk_device_model_part : Z;
  user_agent_part : Z;
  velocity_part : Z;
  ip_history_part : Z;
  cross_referrer_device_part : Z;
  cross_referrer_fingerprint_part : Z;
  country_diversity_part : Z;
  device_farming_part : Z
}.
(** The breakdown as a JSON object: a part that is zero is left out. *)
Definition is_zero (value : Z) : bool := value =? 0.
Definition breakdown_fields (b : RiskScoreBreakdown) : list (string * Z) :=
  [("abuse_score", abuse_part b); ("fingerprint_match_score", fingerprint_match_part b); ("ip_reuse_score", ip_reuse_part b);
   ("isp_model_match_score", isp_model_match_part b); ("device_id_reuse_score", device_id_reuse_part b);
   ("ineligible_ip_type_score", ineligible_ip_type_part b); ("verified_user_reduction", verified_user_part b);
   ("early_referral_reduction", early_referral_part b); ("same_referrer_pattern_score", same_referrer_pattern_part b);
   ("same_referrer_fingerprint_score", same_referrer_fingerprint_part b); ("same_referrer_device_model_score", same_referrer_device_model_part b);
   ("device_model_ring_score", device_model_ring_part b); ("platform_store_score", platform_store_part b); ("country_score", country_part b);
   ("locale_score", locale_part b); ("high_risk_device_model_score", high_risk_device_model_part b); ("user_agent_score", user_agent_part b);
   ("velocity_score", velocity_part b); ("ip_history_score", ip_history_part b); ("cross_referrer_device_score", cross_referrer_device_part b);
   ("cross_referrer_fingerprint_score", cross_referrer_fingerprint_part b); ("country_diversity_score", country_diversity_part b);
   ("device_farming_score", device_farming_part b)]%string.
Definition to_metadata_json (self : RiskScoreBreakdown) : list (string * Z) := List.filter (fun field => negb (is_zero (snd field))) (breakdown_fields self).

Record RiskScore := MkScore { score : Z; is_allowed : bool; fingerprint : string; breakdown : RiskScoreBreakdown }.

(** The counts the store takes over all signals, in the order of the arguments *)
Record SignalCounts := MkCounts {
  device_model_ring_count : Z;
  ip_abuser_count : Z;
  cross_referrer_fingerprint_count : Z;
  referrer_country_count : Z;
  referrer_device_count : Z
}.

Section scoring.
Context `{Hex} `{Sha256} `{Regex}.

Definition generate_fingerprint (self : RiskSignalInput) : string :=
  hex_encode (sha256 (bytes_of_string (input_model self) ++ bytes_of_string (input_locale self) ++ bytes_of_string (input_isp self)
    ++ bytes_of_string (input_country self))).

Definition early_referral_reduction (self : RiskSignalInput) (config : RiskScoreConfig) : Z :=
  let initial := Z.max (early_referral_reduction_initial config) 0 in
  let step := Z.max (early_referral_reduction_step config) 0 in
  let referral_count := Z.max (input_referral_count self) 0 in
  let reduction := Z.max (initial - clamp_i64 (referral_count * step)) 0 in
  - reduction.

(** What the loop over the signals gathers *)
Record Matches := MkMatches {
  fingerprint_referrers : gset string;
  device_id_referrers : gset string;
  ip_matched : bool;
  isp_model_matched : bool;
  cross_referrer_device_matched : bool;
  pattern_count : Z;
  fingerprint_count : Z;
  device_model_count : Z
}.
Definition no_matches : Matches := MkMatches ∅ ∅ false false false 0 0 0.

Definition one (b : bool) : Z := if b then 1 else 0.

(** One turn of the loop; signals of the same referrer [continue] after the counts. *)
Definition gather (input : RiskSignalInput) (fingerprint : string) (m : Matches) (signal : RiskSignalRow) : Matches :=
  let same_fingerprint := String.eqb (signal_fingerprint signal) fingerprint in
  let same_isp := String.eqb (signal_isp signal) (input_isp input) in
  let same_model := String.eqb (signal_model signal) (input_model input) in
  let same_ip := String.eqb (signal_ip_address signal) (input_ip_address input) in
  let same_platform := bool_decide (signal_platform signal = input_platform input) in
  if String.eqb (signal_referrer signal) (input_username input) then
    MkMatches (fingerprint_referrers m) (device_id_referrers m) (ip_matched m) (isp_model_matched m) (cross_referrer_device_matched m)
      (pattern_count m + one (same_isp && same_model && same_platform))
      (fingerprint_count m + one same_fingerprint)
      (device_model_count m + one (same_model && same_platform))
  else
    MkMatches
      (if same_fingerprint then {[signal_referrer signal]} ∪ fingerprint_referrers m else fingerprint_referrers m)
      (if signal_device_id signal =? input_device_id input then {[signal_referrer signal]} ∪ device_id_referrers m else device_id_referrers m)
      (ip_matched m || same_ip)
      (isp_model_matched m || (same_isp && same_model))
      (cross_referrer_device_matched m || (same_fingerprint && same_ip))
      (pattern_count m) (fingerprint_count m) (device_model_count m).

(** [now] in nanoseconds; the seconds of a duration are truncated. *)
Definition num_seconds (d : Z) : Z := Z.quot d SECOND.
Definition minimum (l : list Z) : Z := foldr Z.min (default 0 (head l)) l.
Definition maximum (l : list Z) : Z := foldr Z.max (default 0 (head l)) l.

Definition count_signals_in_recent_window (now : Z) (signals : list RiskSignalRow) (window_secs : Z) : Z * spec_float :=
  let recent := List.filter (fun s => num_seconds (now - signal_created_at s) <=? window_secs) signals in
  let count := Z.of_nat (length recent) in
  if count <=? 1 then (count, of_i64 1)
  else
    let timestamps := map signal_created_at recent in
    let span_secs := Z.max (num_seconds (maximum timestamps - minimum timestamps)) 1 in
    (count, add (of_i64 1) (div (of_i64 (wrap_i64 (window_secs - span_secs))) (of_i64 window_secs))).

Definition velocity_threshold (status : RewardStatus) (config : RiskScoreConfig) : Z :=
  let multiplier := if bool_decide (status = Trusted) then trusted_multiplier config
                    else if is_verified status then verified_multiplier config else 1 in
  let daily_limit := wrap_i64 (referral_per_user_daily config * multiplier) in
  Z.quot daily_limit (Z.max (velocity_divisor config) 1).

Definition velocity_score (now : Z) (input : RiskSignalInput) (existing_signals : list RiskSignalRow) (config : RiskScoreConfig) : Z :=
  let same_referrer_signals := List.filter (fun s => String.eqb (signal_referrer s) (input_username input)) existing_signals in
  let threshold := velocity_threshold (input_referrer_status input) config in
  let '(signals_in_window, speed_multiplier) := count_signals_in_recent_window now same_referrer_signals (velocity_window config) in
  if threshold <=? signals_in_window then
    let over_threshold := wrap_i64 (signals_in_window - threshold + 1) in
    to_i64 (mul (of_i64 (wrap_i64 (over_threshold * velocity_penalty config))) speed_multiplier)
  else 0.

(** [Regex::new(pattern).map(|re| re.is_match(text)).unwrap_or(false)] for some pattern *)
Definition matches_any (patterns : list string) (text : string) : bool :=
  existsb (fun pattern => default false (regex_is_match pattern text)) patterns.

Definition when (b : bool) (penalty : Z) : Z := if b then penalty else 0.

Definition breakdown_total (b : RiskScoreBreakdown) : Z :=
  abuse_part b + fingerprint_match_part b + ip_reuse_part b + isp_model_match_part b + device_id_reuse_part b + ineligible_ip_type_part b
  + same_referrer_pattern_part b + same_referrer_fingerprint_part b + same_referrer_device_model_part b + device_model_ring_part b
  + platform_store_part b + country_part b + locale_part b + high_risk_device_model_part b + user_agent_part b + velocity_part b
  + ip_history_part b + cross_referrer_device_part b + cross_referrer_fingerprint_part b + country_diversity_part b
  + device_farming_part b + verified_user_part b + early_referral_part b.

Definition calculate_breakdown (now : Z) (input : RiskSignalInput) (existing_signals : list RiskSignalRow) (counts : SignalCounts)
    (config : RiskScoreConfig) : RiskScoreBreakdown :=
  let is_penalty_isp := existsb (fun isp => contains isp (input_isp input)) (penalty_isps config) in
  let is_blocked_type := bool_decide (input_usage input ∈ blocked_ip_types config) in
  let m := fold_left (gather input (generate_fingerprint input)) existing_signals no_matches in
  {|
    abuse_part := if is_blocked_type then input_abuse_score input else Z.min (input_abuse_score input) (max_abuse_score config);
    fingerprint_match_part := Z.min (wrap_i64 (Z.of_nat (size (fingerprint_referrers m)) * fingerprint_match_penalty_per_referrer config))
                                (fingerprint_match_max_penalty config);
    ip_reuse_part := when (ip_matched m) (ip_reuse_score config);
    isp_model_match_part := when (isp_model_matched m && bool_decide (fingerprint_referrers m = ∅)) (isp_model_match_score config);
    device_id_reuse_part := Z.min (wrap_i64 (Z.of_nat (size (device_id_referrers m)) * device_id_reuse_penalty_per_referrer config))
                              (device_id_reuse_max_penalty config);
    ineligible_ip_type_part := if is_blocked_type then blocked_ip_type_penalty config else when is_penalty_isp (isp_penalty_score config);
    verified_user_part := if is_verified (input_referrer_status input) then wrap_i64 (- verified_user_reduction config) else 0;
    early_referral_part := early_referral_reduction input config;
    same_referrer_pattern_part := when (same_referrer_pattern_threshold config <=? pattern_count m) (same_referrer_pattern_penalty config);
    same_referrer_fingerprint_part :=
      when (same_referrer_fingerprint_threshold config <=? fingerprint_count m) (same_referrer_fingerprint_penalty config);
    same_referrer_device_model_part :=
      when (same_referrer_device_model_threshold config <=? device_model_count m) (same_referrer_device_model_penalty config);
    device_model_ring_part := when (device_model_ring_threshold config <=? device_model_ring_count counts)
                                (wrap_i64 ((device_model_ring_count counts - 1) * device_model_ring_penalty_per_member config));
    platform_store_part := when (existsb (fun s => String.eqb s (store_as_ref (input_store input))) (high_risk_platform_stores config))
                             (high_risk_platform_store_penalty config);
    country_part := when (existsb (fun c => String.eqb c (input_country input)) (high_risk_countries config)) (high_risk_country_penalty config);
    locale_part := when (existsb (fun l => String.eqb l (input_locale input)) (high_risk_locales config)) (high_risk_locale_penalty config);
    high_risk_device_model_part := when (matches_any (high_risk_device_models config) (input_model input)) (high_risk_device_model_penalty config);
    user_agent_part := when (negb (String.eqb (input_user_agent input) "") && matches_any (high_risk_user_agents config) (input_user_agent input))
                         (high_risk_user_agent_penalty config);
    velocity_part := velocity_score now input existing_signals config;
    ip_history_part := when (0 <? ip_abuser_count counts)
                         (Z.min (wrap_i64 (ip_abuser_count counts * ip_history_penalty_per_abuser config)) (ip_history_max_penalty config));
    cross_referrer_device_part := when (cross_referrer_device_matched m) (cross_referrer_device_penalty config);
    cross_referrer_fingerprint_part := when (cross_referrer_fingerprint_threshold config <=? cross_referrer_fingerprint_count counts)
                                         (cross_referrer_fingerprint_penalty config);
    country_diversity_part := when (country_diversity_threshold config <=? referrer_country_count counts)
                                (wrap_i64 (referrer_country_count counts * country_diversity_penalty_per_country config));
    device_farming_part := when (device_farming_threshold config <=? referrer_device_count counts)
                             (wrap_i64 (referrer_device_count counts * device_farming_penalty_per_device config))
  |}.

Definition calculate_risk_score (now : Z) (input : RiskSignalInput) (existing_signals : list RiskSignalRow) (counts : SignalCounts)
    (config : RiskScoreConfig) : RiskScore :=
  let breakdown := calculate_breakdown now input existing_signals counts config in
  let score := Z.max (wrap_i64 (breakdown_total breakdown)) 0 in
  MkScore score (score <? max_allowed_score config) (generate_fingerprint input) breakdown.

(** *** [client.rs] *)

Record RiskScoringInput := MkScoringInput {
  scoring_username : string;
  scoring_device_id : Z;
  scoring_platform : Platform;
  scoring_store : PlatformStore;
  scoring_os : string;
  scoring_model : string;
  scoring_locale : string;
  scoring_currency : string;
  scoring_ip : IpCheckResult;
  scoring_referrer_status : RewardStatus;
  scoring_referral_count : Z;
  scoring_user_agent : string
}.

Definition to_signal_input (self : RiskScoringInput) : RiskSignalInput :=
  MkSignalInput (scoring_username self) (scoring_device_id self) (scoring_platform self) (scoring_store self) (scoring_os self)
    (scoring_model self) (scoring_locale self) (scoring_currency self) (ip_address (scoring_ip self)) (country_code (scoring_ip self))
    (usage_type (scoring_ip self)) (isp (scoring_ip self)) (confidence_score (scoring_ip self)) (scoring_referrer_status self)
    (scoring_referral_count self) (scoring_user_agent self).

(** [i64 as i32] *)
Definition as_i32 (z : Z) : Z := (z + 2 ^ 31) mod 2 ^ 32 - 2 ^ 31.

(** The score, and the row that is stored with it *)
Record RiskResult := MkRiskResult { result_score : RiskScore; result_signal : NewRiskSignalRow }.
Definition evaluate_risk (now : Z) (input : RiskScoringInput) (existing_signals : list RiskSignalRow) (counts : SignalCounts)
    (config : RiskScoreConfig) : RiskResult :=
  let signal_input := to_signal_input input in
  let score_ := calculate_risk_score now signal_input existing_signals counts config in
  let signal := {|
    new_signal_fingerprint := fingerprint score_;
    new_signal_referrer := input_username signal_input;
    new_signal_device_id := input_device_id signal_input;
    new_signal_platform := input_platform signal_input;
    new_signal_platform_store := input_store signal_input;
    new_signal_os := input_os signal_input;
    new_signal_model := input_model signal_input;
    new_signal_locale := input_locale signal_input;
    new_signal_currency := input_currency signal_input;
    new_signal_ip_address := input_ip_address signal_input;
    new_signal_country := input_country signal_input;
    new_signal_usage := input_usage signal_input;
    new_signal_isp := input_isp signal_input;
    new_signal_abuse_score := as_i32 (input_abuse_score signal_input);
    new_signal_risk_score := as_i32 (score score_);
    new_signal_user_agent := input_user_agent signal_input;
    new_signal_metadata := Some (to_metadata_json (breakdown score_))
  |} in
  MkRiskResult score_ signal.

End scoring.
End RiskScoring.
