(* ===== verification/RiskSignals.v ===== *)
(** * The signals of risk that are stored

    Models the statements of [storage/src/database/referrals.rs] that read the table of risk signals (module
    [RiskSignalsStore]; the one that writes it, [add_risk_signal], is in [RewardsStore]), with the patterns of abuse they
    are summed up in and the sliding window over the times of the signals ([SignalWindows]), and
    [storage/src/repositories/risk_signals_repository.rs], which turns their errors into errors of the repository
    ([RiskSignalsRepository]).  The order in which a hash set is visited does not reach a maximum, and lists stand for
    such sets here. *)
From stdpp Require Import sorting.
From S2P Require Import Prelude Text Crates Floats RewardsStore RewardsRepository RiskScore.

(** ** The busiest window *)

Module SignalWindows.
Import RiskScoring.

(** The pointer at the left moves while its signal is too far from the one at the right. [None] is an index out of range. *)
Fixpoint advance (fuel : nat) (timestamps : list Z) (hi lo : nat) (window_secs : Z) : option nat :=
  match fuel with
  | O => None
  | S fuel =>
      match timestamps !! hi, timestamps !! lo with
      | Some r, Some l => if window_secs <? num_seconds (r - l) then advance fuel timestamps hi (S lo) window_secs else Some lo
      | _, _ => None
      end
  end.

(** The loop over the right ends, with the left pointer and the maximum so far *)
Fixpoint slide (his : list nat) (timestamps : list Z) (lo : nat) (max_count window_secs : Z) : option Z :=
  match his with
  | [] => Some max_count
  | hi :: his =>
      let?? lo := advance (S (length timestamps)) timestamps hi lo window_secs in
      slide his timestamps lo (Z.max max_count (Z.of_nat hi - Z.of_nat lo + 1)) window_secs
  end.

Definition calculate_max_signals_in_window (created : list Z) (window_secs : Z) : option Z :=
  match created with
  | [] => Some 0
  | _ =>
      let timestamps := merge_sort Z.le created in
      slide (seq 0 (length timestamps)) timestamps 0 1 window_secs
  end.

End SignalWindows.

(** ** Statements *)

Module RiskSignalsStore.
Import RewardsModels RewardsStore SignalWindows.

Record AbusePatterns := MkPatterns {
  max_countries_per_device : Z;
  max_referrers_per_device : Z;
  max_referrers_per_fingerprint : Z;
  max_devices_per_ip : Z;
  signals_in_velocity_window : Z
}.
Definition default_patterns : AbusePatterns := MkPatterns 0 0 0 0 0.

Definition since_ (since : Z) (row : RiskSignalRow) : bool := since <=? signal_created_at row.

(** [count(column).aggregate_distinct()] *)
Definition count_distinct {A} `{EqDecision A} (column : list A) : Z := Z.of_nat (length (remove_dups column)).

Definition has_fingerprint_for_referrer (fingerprint referrer : string) (since : Z) : M DieselError bool :=
  query (fun db => Ok (existsb (fun row => String.eqb (signal_fingerprint row) fingerprint && String.eqb (signal_referrer row) referrer
    && since_ since row) (signals db))).

(** The conditions of [get_matching_risk_signals] *)
Definition matching (fingerprint ip_address isp model : string) (device_id : Z) (row : RiskSignalRow) : bool :=
  String.eqb (signal_fingerprint row) fingerprint || String.eqb (signal_ip_address row) ip_address
  || (String.eqb (signal_isp row) isp && String.eqb (signal_model row) model) || (signal_device_id row =? device_id).

(** [order(created_at.desc())] *)
Definition later (a b : RiskSignalRow) : Prop := signal_created_at b <= signal_created_at a.
#[export] Instance later_dec : RelDecision later := fun a b => decide (signal_created_at b <= signal_created_at a).

Definition get_matching_risk_signals (fingerprint ip_address isp model : string) (device_id since : Z) : M DieselError (list RiskSignalRow) :=
  query (fun db => Ok (take 100 (merge_sort later
    (List.filter (fun row => since_ since row && matching fingerprint ip_address isp model device_id row) (signals db))))).

Definition sum_risk_scores_for_referrer (referrer : string) (since : Z) : M DieselError Z :=
  query (fun db => Ok (foldr Z.add 0 (map signal_risk_score
    (List.filter (fun row => String.eqb (signal_referrer row) referrer && since_ since row) (signals db))))).

Definition count_attempts_for_referrer (name : string) (since : Z) : M DieselError Z :=
  query (fun db => Ok (count (fun '(row, time) => String.eqb (attempt_referrer row) name && (since <=? time)
    && bool_decide (is_Some (attempt_signal_id row))) (attempts db))).

(** The referrers of enough referrals that are neither sources of attribution nor disabled, in no particular order *)
Definition get_referrer_usernames_with_referrals (since min_referrals : Z) : M DieselError (list string) :=
  query (fun db =>
    let active name := existsb (fun row => of_user name row && negb (bool_decide (status row = Attribution)) && negb (bool_decide (status row = Disabled)))
                         (rewards db) in
    let names := map referrer (List.filter (fun row => active (referrer row) && (since <=? referral_created_at row)) (referrals db)) in
    Ok (List.filter (fun name => min_referrals <=? count (String.eqb name) names) (remove_dups names))).

(** The number of different values of a column in the rows that satisfy a condition *)
Definition distinct_of {A} `{EqDecision A} (column : RiskSignalRow -> A) (p : RiskSignalRow -> bool) (db : Db) : Z :=
  count_distinct (map column (List.filter p (signals db))).

Definition count_unique_countries_for_device (device_id since : Z) : M DieselError Z :=
  query (fun db => Ok (distinct_of signal_country (fun row => (signal_device_id row =? device_id) && since_ since row) db)).
Definition count_unique_referrers_for_device (device_id since : Z) : M DieselError Z :=
  query (fun db => Ok (distinct_of signal_referrer (fun row => (signal_device_id row =? device_id) && since_ since row) db)).
Definition count_unique_referrers_for_fingerprint (fingerprint : string) (since : Z) : M DieselError Z :=
  query (fun db => Ok (distinct_of signal_referrer (fun row => String.eqb (signal_fingerprint row) fingerprint && since_ since row) db)).
Definition count_unique_devices_for_ip (ip_address : string) (since : Z) : M DieselError Z :=
  query (fun db => Ok (distinct_of signal_device_id (fun row => String.eqb (signal_ip_address row) ip_address && since_ since row) db)).
Definition count_unique_referrers_for_device_model_pattern (model : string) (platform : Platform) (locale : string) (since : Z) : M DieselError Z :=
  query (fun db => Ok (distinct_of signal_referrer (fun row => String.eqb (signal_model row) model && bool_decide (signal_platform row = platform)
    && String.eqb (signal_locale row) locale && since_ since row) db)).
Definition count_unique_countries_for_referrer (name : string) (since : Z) : M DieselError Z :=
  query (fun db => Ok (distinct_of signal_country (fun row => String.eqb (signal_referrer row) name && since_ since row) db)).
Definition count_unique_devices_for_referrer (name : string) (since : Z) : M DieselError Z :=
  query (fun db => Ok (distinct_of signal_device_id (fun row => String.eqb (signal_referrer row) name && since_ since row) db)).

(** The inner join of the signals with their referrers that are disabled *)
Definition is_disabled_user (db : Db) (name : string) : bool :=
  existsb (fun row => of_user name row && bool_decide (status row = Disabled)) (rewards db).
Definition count_disabled_users_by_ip (ip_address : string) (since : Z) : M DieselError Z :=
  query (fun db => Ok (distinct_of signal_referrer (fun row => String.eqb (signal_ip_address row) ip_address && since_ since row
    && is_disabled_user db (signal_referrer row)) db)).
Definition count_disabled_users_by_device (device_id since : Z) : M DieselError Z :=
  query (fun db => Ok (distinct_of signal_referrer (fun row => (signal_device_id row =? device_id) && since_ since row
    && is_disabled_user db (signal_referrer row)) db)).

(** A loop that keeps the maximum of a count *)
Fixpoint max_over {A} (f : A -> M DieselError Z) (l : list A) (best : Z) : M DieselError Z :=
  match l with
  | [] => ret best
  | x :: l => bind (f x) (fun n => max_over f l (Z.max best n))
  end.

(** [None] of the window, an index out of range, does not happen for a window of no negative length. *)
Definition get_abuse_patterns_for_referrer (referrer : string) (since velocity_window_secs : Z) : M DieselError AbusePatterns :=
  let! rows := query (fun db => Ok (List.filter (fun row => String.eqb (signal_referrer row) referrer && since_ since row) (signals db))) in
  match rows with
  | [] => ret default_patterns
  | _ =>
      let unique_devices := remove_dups (map signal_device_id rows) in
      let unique_fingerprints := remove_dups (map signal_fingerprint rows) in
      let unique_ips := remove_dups (map signal_ip_address rows) in
      let! countries := max_over (fun device => count_unique_countries_for_device device since) unique_devices 0 in
      let! referrers := max_over (fun device => count_unique_referrers_for_device device since) unique_devices 0 in
      let! ring := max_over (fun fingerprint => count_unique_referrers_for_fingerprint fingerprint since) unique_fingerprints 0 in
      let! devices := max_over (fun ip => count_unique_devices_for_ip ip since) unique_ips 0 in
      ret (MkPatterns countries referrers ring devices
        (default 0 (calculate_max_signals_in_window (map signal_created_at rows) velocity_window_secs)))
  end.

End RiskSignalsStore.

(** ** The repository *)

Module RiskSignalsRepository.
Import RewardsModels RewardsStore DatabaseErrors RiskSignalsStore.

Section repository.
Context `{WalletsStore} `{DieselText}.

Definition repo_add_risk_signal (signal : NewRiskSignalRow) : M DatabaseError Z := lift (add_risk_signal signal).
Definition repo_has_fingerprint_for_referrer (fingerprint referrer : string) (since : Z) : M DatabaseError bool :=
  lift (has_fingerprint_for_referrer fingerprint referrer since).
Definition repo_get_matching_risk_signals (fingerprint ip_address isp model : string) (device_id since : Z) : M DatabaseError (list RiskSignalRow) :=
  lift (get_matching_risk_signals fingerprint ip_address isp model device_id since).
Definition repo_sum_risk_scores_for_referrer (name : string) (since : Z) : M DatabaseError Z := lift (sum_risk_scores_for_referrer name since).
Definition repo_count_attempts_for_referrer (name : string) (since : Z) : M DatabaseError Z := lift (count_attempts_for_referrer name since).
Definition repo_get_referrer_usernames_with_referrals (since min_referrals : Z) : M DatabaseError (list string) :=
  lift (get_referrer_usernames_with_referrals since min_referrals).
Definition repo_count_unique_referrers_for_fingerprint (fingerprint : string) (since : Z) : M DatabaseError Z :=
  lift (count_unique_referrers_for_fingerprint fingerprint since).
Definition repo_count_unique_referrers_for_device_model_pattern (model : string) (platform : Platform) (locale : string) (since : Z) : M DatabaseError Z :=
  lift (count_unique_referrers_for_device_model_pattern model platform locale since).
Definition repo_get_abuse_patterns_for_referrer (name : string) (since velocity_window_secs : Z) : M DatabaseError AbusePatterns :=
  lift (get_abuse_patterns_for_referrer name since velocity_window_secs).
Definition repo_count_disabled_users_by_ip (ip_address : string) (since : Z) : M DatabaseError Z := lift (count_disabled_users_by_ip ip_address since).
Definition repo_count_disabled_users_by_device (device_id since : Z) : M DatabaseError Z := lift (count_disabled_users_by_device device_id since).
Definition repo_count_unique_countries_for_referrer (name : string) (since : Z) : M DatabaseError Z := lift (count_unique_countries_for_referrer name since).
Definition repo_count_unique_devices_for_referrer (name : string) (since : Z) : M DatabaseError Z := lift (count_unique_devices_for_referrer name since).

End repository.
End RiskSignalsRepository.
