(* ===== verification/RiskFacts.v ===== *)
(** * The risk score: theorems

    The order of the signals does not matter ([score_order_independent]); a signal of another referrer with the same device
    and the same address refuses the referral ([shared_device_refused]); the sliding window finds the busiest window
    ([window_finds_busiest]). *)
From Stdlib Require Import SpecFloat Sorted.
From stdpp Require Import sorting.
From S2P Require Import Prelude Utf8 Text HexText Crates Floats RewardsStore RiskScore RiskSignals.

(** ** Order *)

Module ScoreOrder.
Import F64 IpChecks RewardsModels RiskScoring.

Lemma fold_left_perm {A B} (f : A -> B -> A) l l' a : (forall a x y, f (f a x) y = f (f a y) x) -> Permutation l l' ->
  fold_left f l a = fold_left f l' a.
Proof.
  intros C P. revert a. induction P as [|x l l' P IH|x y l|l l' l'' P1 IH1 P2 IH2]; intros a; cbn; [done|auto|by rewrite C|].
  by rewrite IH1, IH2.
Qed.

Lemma gather_comm input fingerprint m s t : gather input fingerprint (gather input fingerprint m s) t = gather input fingerprint (gather input fingerprint m t) s.
Proof.
  unfold gather. destruct (String.eqb (signal_referrer s) _), (String.eqb (signal_referrer t) _); cbn; try done; f_equal; try lia.
  all: try (rewrite <- !orb_assoc; f_equal; apply orb_comm).
  all: repeat case_match; set_solver by idtac.
Qed.

Lemma filter_perm {A} (p : A -> bool) l l' : Permutation l l' -> Permutation (List.filter p l) (List.filter p l').
Proof. induction 1 as [|x l l' P IH|x y l|l l' l'' P1 IH1 P2 IH2]; cbn; repeat case_match; eauto using Permutation. Qed.

Lemma minimum_spec l x : x ∈ l -> minimum l ∈ l /\ (forall y, y ∈ l -> minimum l <= y).
Proof.
  assert (G : forall d l, (foldr Z.min d l = d \/ foldr Z.min d l ∈ l) /\ foldr Z.min d l <= d /\ (forall y, y ∈ l -> foldr Z.min d l <= y)).
  { intros d l0. induction l0 as [|z l0 (I & D & L)]; cbn; [split; [by left|]; split; [lia|]; set_solver|]. split; [|split; [lia|]].
    - destruct (Z.min_spec z (foldr Z.min d l0)) as [[_ ->]|[_ ->]]; [right; by left|]. destruct I as [->|I]; [by left|right; by right].
    - intros y [->|Y]%elem_of_cons; [lia|]. specialize (L y Y). lia. }
  intros X. destruct l as [|z l]; [set_solver|]. change (minimum (z :: l)) with (foldr Z.min z (z :: l)). destruct (G z (z :: l)) as (I & D & L). split; [|exact L].
  destruct I as [->|I]; [by left|done].
Qed.

Lemma maximum_spec l x : x ∈ l -> maximum l ∈ l /\ (forall y, y ∈ l -> y <= maximum l).
Proof.
  assert (G : forall d l, (foldr Z.max d l = d \/ foldr Z.max d l ∈ l) /\ d <= foldr Z.max d l /\ (forall y, y ∈ l -> y <= foldr Z.max d l)).
  { intros d l0. induction l0 as [|z l0 (I & D & L)]; cbn; [split; [by left|]; split; [lia|]; set_solver|]. split; [|split; [lia|]].
    - destruct (Z.max_spec z (foldr Z.max d l0)) as [[_ ->]|[_ ->]]; [|right; by left]. destruct I as [->|I]; [by left|right; by right].
    - intros y [->|Y]%elem_of_cons; [lia|]. specialize (L y Y). lia. }
  intros X. destruct l as [|z l]; [set_solver|]. change (maximum (z :: l)) with (foldr Z.max z (z :: l)). destruct (G z (z :: l)) as (I & D & L). split; [|exact L].
  destruct I as [->|I]; [by left|done].
Qed.

Lemma minimum_perm l l' : Permutation l l' -> minimum l = minimum l'.
Proof.
  intros P. destruct l as [|z l]; [by apply Permutation_nil in P as ->|].
  destruct (minimum_spec (z :: l) z) as [I L]; [by left|]. destruct (minimum_spec l' z) as [I' L']; [rewrite <- P; by left|].
  apply Z.le_antisymm; [apply L; by rewrite P|apply L'; by rewrite <- P].
Qed.

Lemma maximum_perm l l' : Permutation l l' -> maximum l = maximum l'.
Proof.
  intros P. destruct l as [|z l]; [by apply Permutation_nil in P as ->|].
  destruct (maximum_spec (z :: l) z) as [I L]; [by left|]. destruct (maximum_spec l' z) as [I' L']; [rewrite <- P; by left|].
  apply Z.le_antisymm; [apply L'; by rewrite <- P|apply L; by rewrite P].
Qed.

Lemma window_perm now l l' w : Permutation l l' -> count_signals_in_recent_window now l w = count_signals_in_recent_window now l' w.
Proof.
  intros P. unfold count_signals_in_recent_window. pose proof (filter_perm (fun s => num_seconds (now - signal_created_at s) <=? w) l l' P) as F.
  rewrite (Permutation_length F). rewrite (maximum_perm _ _ (Permutation_map signal_created_at F)), (minimum_perm _ _ (Permutation_map signal_created_at F)).
  done.
Qed.

Lemma velocity_perm now input l l' config : Permutation l l' -> velocity_score now input l config = velocity_score now input l' config.
Proof. intros P. unfold velocity_score. by rewrite (window_perm _ _ _ _ (filter_perm _ _ _ P)). Qed.

End ScoreOrder.

(** ** The sign of a floating-point number *)

Module FloatSigns.
Import F64.

(** Zero, a positive number, positive infinity, or not a number *)
Definition nonnegative (f : spec_float) : Prop :=
  match f with S754_zero s => s = false | S754_infinity s => s = false | S754_finite s _ _ => s = false | S754_nan => True end.

Lemma nonnegative_round m e l : nonnegative (binary_round_aux 53 1024 false m e l).
Proof.
  unfold binary_round_aux. destruct (shr_fexp 53 1024 m e l) as [mrs e1]. destruct (shr_fexp 53 1024 _ e1 loc_Exact) as [mrs2 e2].
  by destruct (shr_m mrs2) as [|q|q]; cbn; [|destruct (_ <=? _)|].
Qed.

Lemma nonnegative_normalize m e : 0 <= m -> nonnegative (binary_normalize 53 1024 m e false).
Proof. intros M. destruct m as [|p|p]; [done| |lia]. unfold binary_normalize, binary_round. destruct (shl_align _ _ _). apply nonnegative_round. Qed.

Lemma nonnegative_of_i64 z : 0 <= z -> nonnegative (of_i64 z).
Proof. apply nonnegative_normalize. Qed.

Lemma nonnegative_mul x y : nonnegative x -> nonnegative y -> nonnegative (mul x y).
Proof. destruct x, y; cbn; intros; subst; try done. apply nonnegative_round. Qed.

Lemma nonnegative_div x y : nonnegative x -> nonnegative y -> nonnegative (div x y).
Proof.
  destruct x, y; intros X Y; cbn in X, Y; subst; try done. unfold div, SFdiv. destruct (SFdiv_core_binary _ _ _ _ _ _) as [[q ?] l]. apply nonnegative_round.
Qed.

Lemma nonnegative_add x y : nonnegative x -> nonnegative y -> nonnegative (add x y).
Proof.
  destruct x, y; intros X Y; cbn in X, Y; subst; try done. unfold add, SFadd. apply nonnegative_normalize. cbn. lia.
Qed.

Lemma to_i64_nonnegative f : nonnegative f -> 0 <= to_i64 f.
Proof.
  destruct f; cbn [nonnegative to_i64]; intros; subst; [lia|done|lia|]. unfold clamp_i64, cond_Zopp, I64_MIN, I64_MAX.
  assert (0 <= Z.quot (Z.pos m * 2 ^ Z.max e 0) (2 ^ Z.max (- e) 0)); [|lia].
  apply Z.quot_pos; [|apply Z.pow_pos_nonneg; lia]. apply Z.mul_nonneg_nonneg; [lia|apply Z.pow_nonneg; lia].
Qed.

Lemma wrap_i64_small z : I64_MIN <= z <= I64_MAX -> wrap_i64 z = z.
Proof. unfold wrap_i64, I64_MIN, I64_MAX. intros Z. rewrite Z.mod_small; lia. Qed.

End FloatSigns.

(** ** The score *)

Module ScoreProperties.
Import F64 IpChecks RewardsModels RiskScoring ScoreOrder FloatSigns.

Section scoring.
Context `{Hex} `{Sha256} `{Regex}.

(** The score of a referral depends on which signals the store holds and not on the order in which it returns them: the
    loop that gathers the matches and the velocity give the same breakdown for every permutation. *)
Theorem score_order_independent now input signals signals' counts config :
  Permutation signals signals' ->
  calculate_risk_score now input signals counts config = calculate_risk_score now input signals' counts config.
Proof.
  intros P. assert (B : calculate_breakdown now input signals counts config = calculate_breakdown now input signals' counts config).
  { unfold calculate_breakdown. rewrite (fold_left_perm _ _ _ _ (gather_comm input (generate_fingerprint input)) P). by rewrite (velocity_perm _ _ _ _ config P). }
  unfold calculate_risk_score. by rewrite B.
Qed.

(** The velocity is no reduction, when no signal is from the future. *)
Lemma minimum_recent now l w x : x ∈ l -> (forall y, y ∈ l -> num_seconds (now - y) <= w /\ y <= now) -> num_seconds (maximum l - minimum l) <= w.
Proof.
  intros X B. destruct (minimum_spec l x X) as [I _], (maximum_spec l x X) as [J _]. destruct (B _ I) as [W _], (B _ J) as [_ N].
  etrans; [|exact W]. unfold num_seconds. apply Z.quot_le_mono; [unfold SECOND; lia|lia].
Qed.

Lemma elem_of_filterb {A} (p : A -> bool) l x : x ∈ List.filter p l <-> x ∈ l /\ p x = true.
Proof. rewrite !list_elem_of_In. apply List.filter_In. Qed.

Lemma speed_nonnegative now signals w : 1 <= w <= 2 ^ 32 -> Forall (fun s => signal_created_at s <= now) signals ->
  nonnegative (snd (count_signals_in_recent_window now signals w)).
Proof.
  intros W P. unfold count_signals_in_recent_window. set (recent := List.filter _ signals). case_match eqn:C; [done|]. cbn [snd].
  assert (X : exists s, s ∈ recent) by (destruct recent as [|s r]; [done|exists s; by left]). destruct X as [s S].
  assert (L : num_seconds (maximum (map signal_created_at recent) - minimum (map signal_created_at recent)) <= w).
  { apply (minimum_recent now _ _ (signal_created_at s)); [by apply list_elem_of_fmap_2|].
    intros y (t & -> & T)%list_elem_of_fmap. apply elem_of_filterb in T as [T1 T2]. split; [zbool; lia|]. by eapply Forall_forall in P. }
  apply nonnegative_add; [done|]. apply nonnegative_div; [|apply nonnegative_of_i64; lia].
  apply nonnegative_of_i64. rewrite wrap_i64_small; [lia|unfold I64_MIN, I64_MAX; lia].
Qed.

(** A signal that shares the device and the address is found by the loop, and the sets of referrers stay small. *)
Lemma gather_keeps input fp m s : cross_referrer_device_matched m = true -> ip_matched m = true -> fingerprint_referrers m <> ∅ ->
  let m' := gather input fp m s in cross_referrer_device_matched m' = true /\ ip_matched m' = true /\ fingerprint_referrers m' <> ∅.
Proof. intros C I F. unfold gather. case_match; cbn; [done|]. rewrite C, I. split_and!; [done..|]. case_match; [set_solver|done]. Qed.

Lemma gather_found input fp signals s m : s ∈ signals -> signal_referrer s <> input_username input -> signal_fingerprint s = fp ->
  signal_ip_address s = input_ip_address input ->
  let m' := fold_left (gather input fp) signals m in cross_referrer_device_matched m' = true /\ ip_matched m' = true /\ fingerprint_referrers m' <> ∅.
Proof.
  intros S N F I. revert m. induction signals as [|t l IH]; intros m; [set_solver|]. cbn [fold_left]. apply elem_of_cons in S as [<-|S]; [|by apply IH].
  assert (G : let m' := gather input fp m s in cross_referrer_device_matched m' = true /\ ip_matched m' = true /\ fingerprint_referrers m' <> ∅).
  { unfold gather. rewrite (proj2 (String.eqb_neq _ _) N), F, I, !String.eqb_refl. cbn. rewrite !orb_true_r. split_and!; [done..|set_solver]. }
  clear IH. revert G. generalize (gather input fp m s) as m1. induction l as [|u l IH]; intros m1 (A & B & D); [done|].
  cbn [fold_left]. by apply IH, gather_keeps.
Qed.

Lemma gather_sizes input fp signals m : let m' := fold_left (gather input fp) signals m in
  (size (fingerprint_referrers m') <= size (fingerprint_referrers m) + length signals)%nat
  /\ (size (device_id_referrers m') <= size (device_id_referrers m) + length signals)%nat.
Proof.
  revert m. induction signals as [|s l IH]; intros m; cbn [fold_left length]; [cbn; lia|]. specialize (IH (gather input fp m s)). cbn in IH.
  assert (U : forall X : gset string, (size ({[signal_referrer s]} ∪ X) <= S (size X))%nat).
  { intros X. rewrite size_union_alt, size_singleton. pose proof (subseteq_size (X ∖ {[signal_referrer s]}) X ltac:(set_solver by idtac)). lia. }
  pose proof (U (fingerprint_referrers m)). pose proof (U (device_id_referrers m)). clear U. unfold gather in *.
  repeat case_match; cbn in *; lia.
Qed.

(** A configuration of no negative penalties, whose factors are too small for a product to wrap around *)
Record sensible (config : RiskScoreConfig) : Prop := {
  penalties : Forall (Z.le 0) [max_abuse_score config; fingerprint_match_max_penalty config; ip_reuse_score config; isp_model_match_score config;
    device_id_reuse_max_penalty config; blocked_ip_type_penalty config; isp_penalty_score config; same_referrer_pattern_penalty config;
    same_referrer_fingerprint_penalty config; same_referrer_device_model_penalty config; high_risk_platform_store_penalty config;
    high_risk_country_penalty config; high_risk_locale_penalty config; high_risk_device_model_penalty config; high_risk_user_agent_penalty config;
    ip_history_max_penalty config; cross_referrer_device_penalty config; cross_referrer_fingerprint_penalty config];
  factors : Forall (fun n => 0 <= n <= 2 ^ 30) [fingerprint_match_penalty_per_referrer config; device_id_reuse_penalty_per_referrer config;
    device_model_ring_penalty_per_member config; velocity_penalty config; referral_per_user_daily config; verified_multiplier config;
    trusted_multiplier config; ip_history_penalty_per_abuser config; country_diversity_penalty_per_country config;
    device_farming_penalty_per_device config];
  reductions : 0 <= verified_user_reduction config <= 2 ^ 62 /\ 0 <= early_referral_reduction_initial config <= 2 ^ 62;
  ring : 1 <= device_model_ring_threshold config;
  window : 1 <= velocity_window config <= 2 ^ 32
}.

(** What a shared device and address cost, less all that a referrer may be let off *)
Definition shared_device_floor (config : RiskScoreConfig) : Z :=
  cross_referrer_device_penalty config + ip_reuse_score config
  + Z.min (fingerprint_match_penalty_per_referrer config) (fingerprint_match_max_penalty config)
  - verified_user_reduction config - early_referral_reduction_initial config.

Ltac factors S := let F := fresh "F" in pose proof (factors _ S) as F; rewrite !Forall_cons, Forall_nil in F; destruct_and! F.
Ltac penalties S := let F := fresh "F" in pose proof (penalties _ S) as F; rewrite !Forall_cons, Forall_nil in F; destruct_and! F.

Lemma threshold_nonnegative status config : sensible config -> 0 <= velocity_threshold status config.
Proof.
  intros S. factors S. unfold velocity_threshold. apply Z.quot_pos; [|lia].
  rewrite wrap_i64_small; repeat case_match; unfold I64_MIN, I64_MAX; nia.
Qed.

Lemma length_filterb {A} (p : A -> bool) l : (length (List.filter p l) <= length l)%nat.
Proof. apply List.filter_length_le. Qed.

Lemma window_count now signals w : fst (count_signals_in_recent_window now signals w) <= Z.of_nat (length signals).
Proof.
  unfold count_signals_in_recent_window. pose proof (length_filterb (fun s => num_seconds (now - signal_created_at s) <=? w) signals).
  case_match; cbn [fst]; lia.
Qed.

Lemma velocity_nonnegative now input signals config : sensible config -> Z.of_nat (length signals) <= 2 ^ 32 ->
  Forall (fun s => signal_created_at s <= now) signals -> 0 <= velocity_score now input signals config.
Proof.
  intros S L P. unfold velocity_score. set (own := List.filter _ signals). pose proof (threshold_nonnegative (input_referrer_status input) config S) as T.
  pose proof (length_filterb (fun s => String.eqb (signal_referrer s) (input_username input)) signals) as F.
  pose proof (window_count now own (velocity_window config)) as W.
  pose proof (speed_nonnegative now own (velocity_window config) (window _ S)) as M.
  destruct (count_signals_in_recent_window now own _) as [n f]. cbn [fst snd] in *. fold own in F. case_match eqn:E; [|done]. zbool. factors S.
  apply to_i64_nonnegative, nonnegative_mul; [|apply M].
  - apply nonnegative_of_i64. rewrite (wrap_i64_small (n - _ + 1)), wrap_i64_small; unfold I64_MIN, I64_MAX; nia.
  - apply Forall_forall. intros s [I _]%elem_of_filterb. by eapply Forall_forall in P.
Qed.

Lemma early_bounds input config : sensible config -> - early_referral_reduction_initial config <= early_referral_reduction input config <= 0.
Proof.
  intros S. destruct (reductions _ S). unfold early_referral_reduction.
  assert (0 <= clamp_i64 (Z.max (input_referral_count input) 0 * Z.max (early_referral_reduction_step config) 0)) by (unfold clamp_i64, I64_MIN, I64_MAX; nia). lia.
Qed.

Lemma when_nonnegative b z : (b = true -> 0 <= z) -> 0 <= when b z.
Proof. destruct b; cbn; auto with lia. Qed.

(** Counts and signals of a size at which no product wraps around *)
Definition moderate (signals : list RiskSignalRow) (counts : SignalCounts) : Prop :=
  Z.of_nat (length signals) <= 2 ^ 32
  /\ 0 <= device_model_ring_count counts <= 2 ^ 32 /\ 0 <= ip_abuser_count counts <= 2 ^ 32 /\ 0 <= referrer_country_count counts <= 2 ^ 32
  /\ 0 <= referrer_device_count counts <= 2 ^ 32.

(** A penalty per occurrence is no reduction. *)
Lemma times_nonnegative n p : 0 <= n <= 2 ^ 32 -> 0 <= p <= 2 ^ 30 -> 0 <= wrap_i64 (n * p).
Proof. intros N P. rewrite wrap_i64_small; unfold I64_MIN, I64_MAX; nia. Qed.
Lemma times_once n p : 1 <= n <= 2 ^ 32 -> 0 <= p <= 2 ^ 30 -> p <= wrap_i64 (n * p).
Proof. intros N P. rewrite wrap_i64_small; unfold I64_MIN, I64_MAX; nia. Qed.

Lemma shared_device_total now input signals counts config s : sensible config ->
  s ∈ signals -> signal_referrer s <> input_username input -> signal_fingerprint s = generate_fingerprint input ->
  signal_ip_address s = input_ip_address input -> 0 <= input_abuse_score input -> moderate signals counts ->
  Forall (fun s => signal_created_at s <= now) signals ->
  shared_device_floor config <= breakdown_total (calculate_breakdown now input signals counts config).
Proof.
  intros C S N F I A (L & R & B & CC & D) T. unfold breakdown_total, calculate_breakdown.
  destruct (gather_found input _ signals s no_matches S N F I) as (X & IP & FP).
  destruct (gather_sizes input (generate_fingerprint input) signals no_matches) as [SF SD].
  set (m := fold_left _ signals no_matches) in *. rewrite X, IP. pose proof (early_bounds input config C) as E. pose proof (velocity_nonnegative now input signals config C L T) as V.
  assert (Z1 : size (fingerprint_referrers m) <> 0%nat) by (intros Z; by apply size_empty_inv, leibniz_equiv in Z).
  change (size (fingerprint_referrers no_matches)) with 0%nat in SF. change (size (device_id_referrers no_matches)) with 0%nat in SD.
  pose proof (ring _ C) as RG. destruct (reductions _ C) as [VR IR]. penalties C. factors C. unfold shared_device_floor.
  cbn -[Z.add Z.mul Z.sub Z.min Z.le Z.leb Z.ltb Z.of_nat Z.pow wrap_i64 when velocity_score early_referral_reduction bool_decide size m matches_any existsb].
  pose proof (times_once (Z.of_nat (size (fingerprint_referrers m))) (fingerprint_match_penalty_per_referrer config)) as P1.
  pose proof (times_nonnegative (Z.of_nat (size (device_id_referrers m))) (device_id_reuse_penalty_per_referrer config)) as P2.
  lapply P1; [clear P1; intros P1|lia]. lapply P1; [clear P1; intros P1|lia]. lapply P2; [clear P2; intros P2|lia]. lapply P2; [clear P2; intros P2|lia].
  change (when true (ip_reuse_score config)) with (ip_reuse_score config).
  change (when true (cross_referrer_device_penalty config)) with (cross_referrer_device_penalty config).
  repeat match goal with |- context [when ?b ?z] =>
    let W := fresh "W" in assert (W : 0 <= when b z) by (apply when_nonnegative; intros; zbool; first [lia | apply times_nonnegative; lia
      | apply Z.min_glb; [apply times_nonnegative; lia|lia]]);
    revert W; generalize (when b z); intros ? W end.
  rewrite (wrap_i64_small (- _)) by (unfold I64_MIN, I64_MAX in *; lia). repeat case_match; lia.
Qed.

(** (C33) A referral is refused when a signal of another referrer has the device fingerprint and the address of this one, under
    every configuration whose penalties for that, less the reductions a referrer can have, reach the maximum that is allowed:
    the score is at least that difference, whatever the status of the referrer and the other signals are. The penalties are not
    negative, the factors are at most 2^30 and the counts at most 2^32, no signal is from the future, and the sum of the parts
    does not overflow. *)
Theorem shared_device_refused now input signals counts config s : sensible config -> max_allowed_score config <= shared_device_floor config ->
  s ∈ signals -> signal_referrer s <> input_username input -> signal_fingerprint s = generate_fingerprint input ->
  signal_ip_address s = input_ip_address input -> 0 <= input_abuse_score input -> moderate signals counts ->
  Forall (fun s => signal_created_at s <= now) signals ->
  breakdown_total (calculate_breakdown now input signals counts config) <= I64_MAX ->
  let result := calculate_risk_score now input signals counts config in
  is_allowed result = false /\ shared_device_floor config <= score result.
Proof.
  intros C MA S N F I A M T O. pose proof (shared_device_total now input signals counts config s C S N F I A M T) as B.
  assert (LO : I64_MIN <= shared_device_floor config).
  { unfold shared_device_floor. destruct (reductions _ C). penalties C. factors C. unfold I64_MIN. lia. }
  unfold calculate_risk_score. cbn [is_allowed score].
  rewrite wrap_i64_small by lia. split; [apply Z.ltb_ge; lia|lia].
Qed.

End scoring.
End ScoreProperties.

(** ** The busiest window *)

Module WindowProperties.
Import RewardsModels RiskScoring SignalWindows ScoreProperties.

(** The signals that were made no later than one at [r] and at most [w] seconds before it *)
Definition in_window (w r l : Z) : bool := (l <=? r) && (num_seconds (r - l) <=? w).
Definition window_size (created : list Z) (w r : Z) : Z := Z.of_nat (length (List.filter (in_window w r) created)).
(** The reference: the greatest number of signals in the window before one of them *)
Definition busiest (created : list Z) (w : Z) : Z := foldr Z.max 0 (map (window_size created w) created).

Lemma num_seconds_mono a b : a <= b -> num_seconds a <= num_seconds b.
Proof. apply Z.quot_le_mono. unfold SECOND. lia. Qed.

Lemma window_size_perm l l' w r : Permutation l l' -> window_size l w r = window_size l' w r.
Proof. intros P. unfold window_size. by rewrite (Permutation_length (ScoreOrder.filter_perm _ _ _ P)). Qed.

Lemma filterb_all {A} (p : A -> bool) l : (forall x, x ∈ l -> p x = true) -> List.filter p l = l.
Proof. intros P. apply List.forallb_filter_id, List.forallb_forall. intros x X%list_elem_of_In. auto. Qed.

Lemma filterb_none {A} (p : A -> bool) l : (forall x, x ∈ l -> p x = false) -> List.filter p l = [].
Proof. induction l as [|x l IH]; intros P; cbn; [done|]. rewrite (P x) by left. apply IH. intros y Y. apply P. by right. Qed.

Section window.
Context (ts : list Z) (w : Z) (W : 0 <= w) (S : forall i j x y, (i <= j)%nat -> ts !! i = Some x -> ts !! j = Some y -> x <= y).

(** The left pointer is right for the right end: everything on its left is too far, and its own signal is not. *)
Definition far_before (r : Z) (lo : nat) : Prop := forall i x, (i < lo)%nat -> ts !! i = Some x -> w < num_seconds (r - x).

Lemma advance_spec fuel hi lo r : ts !! hi = Some r -> (lo <= hi)%nat -> (hi - lo < fuel)%nat -> far_before r lo ->
  exists lo' l, advance fuel ts hi lo w = Some lo' /\ (lo' <= hi)%nat /\ ts !! lo' = Some l /\ num_seconds (r - l) <= w /\ far_before r lo'.
Proof.
  intros R. revert lo. induction fuel as [|fuel IH]; intros lo LE F B; [lia|]. cbn [advance]. rewrite R.
  destruct (lookup_lt_is_Some_2 ts lo) as [l L]; [apply lookup_lt_Some in R; lia|]. rewrite L. case_match eqn:E; zbool.
  - assert (lo <> hi) by (intros ->; rewrite R in L; injection L as ->; rewrite Z.sub_diag in E; change (num_seconds 0) with 0 in E; lia).
    apply IH; [lia|lia|]. intros i x I X.
    destruct (decide (i = lo)) as [->|]; [by rewrite L in X; injection X as ->|]. apply (B i); [lia|done].
  - by exists lo, l.
Qed.

(** The signals between the two pointers are in the window, and they are all of it at the last signal of an instant. *)
Lemma pointers_inside hi lo r l : ts !! hi = Some r -> (lo <= hi)%nat -> ts !! lo = Some l -> num_seconds (r - l) <= w ->
  Z.of_nat hi - Z.of_nat lo + 1 <= window_size ts w r.
Proof.
  intros R LE L N. unfold window_size. pose proof (lookup_lt_Some _ _ _ R) as B.
  rewrite <- (take_drop lo ts), List.filter_app, length_app. rewrite <- (take_drop (Datatypes.S hi - lo) (drop lo ts)), List.filter_app, length_app.
  rewrite (filterb_all _ (take _ (drop lo ts))); [rewrite length_take, length_drop; lia|].
  intros x (i & X)%list_elem_of_lookup. pose proof (lookup_lt_Some _ _ _ X) as I. rewrite length_take, length_drop in I.
  rewrite lookup_take_lt, lookup_drop in X by lia. unfold in_window. pose proof (S _ _ _ _ (ltac:(lia) : (lo + i <= hi)%nat) X R).
  pose proof (S _ _ _ _ (ltac:(lia) : (lo <= lo + i)%nat) L X). pose proof (num_seconds_mono (r - x) (r - l) ltac:(lia)). apply andb_true_iff; split; zbool; lia.
Qed.

Lemma pointers_all hi lo r : ts !! hi = Some r -> (lo <= hi)%nat -> far_before r lo -> (forall j x, (hi < j)%nat -> ts !! j = Some x -> r < x) ->
  window_size ts w r <= Z.of_nat hi - Z.of_nat lo + 1.
Proof.
  intros R LE F A. unfold window_size. pose proof (lookup_lt_Some _ _ _ R) as B.
  rewrite <- (take_drop lo ts), List.filter_app, length_app. rewrite <- (take_drop (Datatypes.S hi - lo) (drop lo ts)), List.filter_app, length_app.
  rewrite (filterb_none _ (take lo ts)), (filterb_none _ (drop _ (drop lo ts))).
  - pose proof (length_filterb (in_window w r) (take (Datatypes.S hi - lo) (drop lo ts))) as G. rewrite length_take, length_drop in G. cbn [length]. lia.
  - intros x (i & X)%list_elem_of_lookup. rewrite !lookup_drop in X. unfold in_window. rewrite andb_false_iff; left. apply Z.leb_gt.
    by apply (A (lo + (Datatypes.S hi - lo + i))%nat); [lia|].
  - intros x (i & X)%list_elem_of_lookup. pose proof (lookup_lt_Some _ _ _ X) as I. rewrite length_take in I. rewrite lookup_take_lt in X by lia.
    unfold in_window. rewrite andb_false_iff; right. apply Z.leb_gt. apply (F i); [lia|done].
Qed.

(** What is far from a right end is far from the next one. *)
Lemma far_next hi r r' lo : ts !! hi = Some r -> ts !! Datatypes.S hi = Some r' -> far_before r lo -> far_before r' lo.
Proof.
  intros R R' F i x I X. specialize (F i x I X). pose proof (S hi (Datatypes.S hi) r r' ltac:(lia) R R'). pose proof (num_seconds_mono (r - x) (r' - x) ltac:(lia)). lia.
Qed.

Lemma slide_spec n hi lo mx : (hi + n = length ts)%nat -> (lo <= hi)%nat -> (forall r, ts !! hi = Some r -> far_before r lo) ->
  exists c, slide (seq hi n) ts lo mx w = Some c /\ mx <= c
    /\ (forall b, mx <= b -> (forall r, r ∈ ts -> window_size ts w r <= b) -> c <= b)
    /\ (forall h r, (hi <= h)%nat -> ts !! h = Some r -> (forall j x, (h < j)%nat -> ts !! j = Some x -> r < x) -> window_size ts w r <= c).
Proof.
  revert hi lo mx. induction n as [|n IH]; intros hi lo mx LEN LE F; cbn [seq slide].
  - exists mx. split_and!; [done|lia|auto|]. intros h r H R. apply lookup_lt_Some in R. lia.
  - destruct (lookup_lt_is_Some_2 ts hi ltac:(lia)) as [r R].
    destruct (advance_spec (Datatypes.S (length ts)) hi lo r R LE ltac:(lia) (F r R)) as (lo' & l & -> & LE' & L & N & F'). cbn.
    pose proof (pointers_inside hi lo' r l R LE' L N) as IN.
    destruct (IH (Datatypes.S hi) lo' (Z.max mx (Z.of_nat hi - Z.of_nat lo' + 1))) as (c & -> & M & U & A); [lia|lia|intros r' R'; exact (far_next hi r r' lo' R R' F')|].
    exists c. split_and!; [done|lia| |].
    + intros b MB B. apply U; [|done]. specialize (B r ltac:(by eapply list_elem_of_lookup_2)). lia.
    + intros h r0 H R0 LAST. destruct (decide (h = hi)) as [->|]; [|by apply (A h); [lia|..]].
      rewrite R in R0. injection R0 as <-. pose proof (pointers_all hi lo' r R LE' F' LAST). lia.
Qed.

(** Every instant has a last signal. *)
Lemma last_of r : r ∈ ts -> exists h, ts !! h = Some r /\ (forall j x, (h < j)%nat -> ts !! j = Some x -> r < x).
Proof.
  intros (i & I)%list_elem_of_lookup.
  assert (G : forall n i, ts !! i = Some r -> (length ts - i <= n)%nat -> exists h, ts !! h = Some r /\ (forall j x, (h < j)%nat -> ts !! j = Some x -> r < x)).
  { clear i I. induction n as [|n IH]; intros i I LE; [apply lookup_lt_Some in I; lia|]. destruct (ts !! Datatypes.S i) as [y|] eqn:Y.
    - destruct (decide (y = r)) as [->|N]; [apply (IH _ Y); lia|]. exists i. split; [done|]. intros j x J X.
      pose proof (S _ _ _ _ (ltac:(lia) : (i <= Datatypes.S i)%nat) I Y). pose proof (S _ _ _ _ (ltac:(lia) : (Datatypes.S i <= j)%nat) Y X). lia.
    - exists i. split; [done|]. intros j x J X. apply lookup_ge_None in Y. apply lookup_lt_Some in X. lia. }
  by apply (G (length ts) i); [|lia].
Qed.

End window.

Lemma foldr_max_spec l b : 0 <= b -> (forall x, x ∈ l -> x <= b) -> foldr Z.max 0 l <= b.
Proof. intros B. induction l as [|x l IH]; intros A; cbn; [done|]. specialize (A x ltac:(by left)) as X. specialize (IH ltac:(intros; apply A; by right)). lia. Qed.
Lemma foldr_max_in l x : x ∈ l -> x <= foldr Z.max 0 l.
Proof. induction l as [|y l IH]; cbn; [set_solver|]. intros [->|X]%elem_of_cons; [lia|specialize (IH X); lia]. Qed.

Lemma merge_sort_lookup l i j x y : (i <= j)%nat -> merge_sort Z.le l !! i = Some x -> merge_sort Z.le l !! j = Some y -> x <= y.
Proof.
  intros LE X Y. destruct (decide (i = j)) as [->|N]; [rewrite X in Y; injection Y as ->; lia|].
  pose proof (StronglySorted_merge_sort Z.le l) as S. rewrite <- (take_drop j (merge_sort Z.le l)) in S.
  apply (StronglySorted_app_1_elem_of _ _ _ _ _ S); [apply (list_elem_of_lookup_2 _ i); rewrite lookup_take_lt by lia; done|].
  apply (list_elem_of_lookup_2 _ 0). by rewrite lookup_drop, Nat.add_0_r.
Qed.

(** (C34) The two-pointer loop over the sorted signals finds the greatest number of signals in the window before one of them: it
    does not run out of the list, and gives the same number as counting the window of every signal. *)
Theorem window_finds_busiest created w : 0 <= w -> calculate_max_signals_in_window created w = Some (busiest created w).
Proof.
  intros W. destruct created as [|c0 created]; [done|]. set (l := c0 :: created).
  change (calculate_max_signals_in_window l w) with (slide (seq 0 (length (merge_sort Z.le l))) (merge_sort Z.le l) 0 1 w).
  pose proof (merge_sort_Permutation Z.le l) as P.
  destruct (slide_spec (merge_sort Z.le l) w W (merge_sort_lookup l) (length (merge_sort Z.le l)) 0 0 1) as (c & -> & M & U & A); [done|done|by intros r _ i x I; apply Nat.nlt_0_r in I|].
  f_equal. apply Z.le_antisymm.
  - apply U.
    + etrans; [|apply foldr_max_in; by left]. unfold window_size. cbn [List.filter l]. unfold in_window at 1. rewrite Z.sub_diag, Z.leb_refl.
      change (num_seconds 0) with 0. rewrite (proj2 (Z.leb_le 0 w) W). cbn [andb length]. lia.
    + intros r R. rewrite (window_size_perm _ _ w r P). apply foldr_max_in, list_elem_of_fmap_2. by rewrite <- P.
  - apply foldr_max_spec; [lia|]. intros x (r & -> & R)%list_elem_of_fmap. rewrite <- (window_size_perm _ _ w r P). rewrite <- P in R.
    destruct (last_of (merge_sort Z.le l) (merge_sort_lookup l) r R) as (h & H & LAST). by apply (A h); [lia|..].
Qed.

End WindowProperties.

(** ** Concrete scores *)

Module RiskConcrete.
Import Crates.Concrete HexConcrete F64 IpChecks RewardsModels RiskScoring SignalWindows ScoreProperties WindowProperties.

(** A pattern that is the text it looks for *)
#[local] Instance plain_regex : Regex := fun pattern text => Some (contains pattern text).

Definition input : RiskSignalInput :=
  MkSignalInput "user1" 1 IOS AppStore "18.0" "iPhone15,2" "en-US" "USD" "192.168.1.1" "US" Isp "Comcast" 0 Unverified 2 "".
Definition same_device : string := generate_fingerprint input.
Definition signal (referrer fp ip : string) (at_ : Z) : RiskSignalRow := 
  MkSignal 1 fp referrer 2 IOS AppStore "18.0" "iPhone15,2" "en-US" "USD" ip "US" Isp "Verizon" 0 0 "" None at_.
Definition no_counts : SignalCounts := MkCounts 0 0 0 0 0.
Definition now : Z := 1000 * SECOND.
Definition own (t : Z) : RiskSignalRow := signal "user1" "x" "10.0.0.1" (t * SECOND).

Lemma score_order_independent_witness :
  let a := signal "other" same_device "192.168.1.1" 0 in let b := own 900 in
  calculate_risk_score now input [a; b; b] no_counts default_config = calculate_risk_score now input [b; a; b] no_counts default_config.
Proof. apply score_order_independent, perm_swap. Defined.

(** The configuration of the default values that the service loads; it differs from [default_config] in the reduction of a
    verified user and in the period of review. *)
Definition loaded_config : RiskScoreConfig := {|
  fingerprint_match_penalty_per_referrer := 50;
  fingerprint_match_max_penalty := 200;
  ip_reuse_score := 50;
  isp_model_match_score := 30;
  device_id_reuse_penalty_per_referrer := 50;
  device_id_reuse_max_penalty := 200;
  ineligible_ip_type_score := 100;
  blocked_ip_types := [DataCenter; Hosting];
  blocked_ip_type_penalty := 100;
  max_abuse_score := 60;
  penalty_isps := [];
  isp_penalty_score := 30;
  verified_user_reduction := 20;
  early_referral_reduction_initial := 20;
  early_referral_reduction_step := 10;
  max_allowed_score := 60;
  same_referrer_pattern_threshold := 3;
  same_referrer_pattern_penalty := 40;
  same_referrer_fingerprint_threshold := 2;
  same_referrer_fingerprint_penalty := 60;
  same_referrer_device_model_threshold := 3;
  same_referrer_device_model_penalty := 50;
  device_model_ring_threshold := 2;
  device_model_ring_penalty_per_member := 40;
  lookback := 90 * 86400;
  high_risk_platform_stores := [];
  high_risk_platform_store_penalty := 20;
  high_risk_countries := [];
  high_risk_country_penalty := 15;
  high_risk_locales := [];
  high_risk_locale_penalty := 10;
  high_risk_device_models := ["sdk_gphone"; "(?i)emulator"; "(?i)simulator"];
  high_risk_device_model_penalty := 50;
  high_risk_user_agents := ["(?i)python"; "(?i)curl"; "(?i)httpie"; "(?i)postman"; "(?i)insomnia"];
  high_risk_user_agent_penalty := 100;
  velocity_window := 300;
  velocity_divisor := 2;
  velocity_penalty := 100;
  referral_per_user_daily := 5;
  verified_multiplier := 2;
  trusted_multiplier := 3;
  ip_history_penalty_per_abuser := 30;
  ip_history_max_penalty := 150;
  cross_referrer_device_penalty := 500;
  cross_referrer_fingerprint_threshold := 2;
  cross_referrer_fingerprint_penalty := 100;
  country_diversity_threshold := 5;
  country_diversity_penalty_per_country := 5;
  device_farming_threshold := 10;
  device_farming_penalty_per_device := 3
|}.

Lemma loaded_sensible : sensible loaded_config.
Proof. split; repeat constructor; cbn; lia. Qed.

(** The difference is 560, and the maximum 60. *)
Lemma shared_device_refused_witness : shared_device_floor loaded_config = 560 /\ max_allowed_score loaded_config = 60
  /\ is_allowed (calculate_risk_score now input [own 900; signal "other" same_device "192.168.1.1" 0] no_counts loaded_config) = false.
Proof.
  split; [reflexivity|]. split; [reflexivity|].
  refine (proj1 (shared_device_refused now input [own 900; signal "other" same_device "192.168.1.1" 0] no_counts loaded_config
    (signal "other" same_device "192.168.1.1" 0) loaded_sensible _ _ _ _ _ _ _ _ _)).
  - discriminate.
  - right. left.
  - discriminate.
  - reflexivity.
  - reflexivity.
  - discriminate.
  - unfold moderate. cbn. lia.
  - repeat constructor; discriminate.
  - vm_compute. discriminate.
Defined.

Lemma window_finds_busiest_witness : calculate_max_signals_in_window (map (Z.mul SECOND) [500; 0; 10; 300; 290; 301]) 300 = Some 4
  /\ busiest (map (Z.mul SECOND) [500; 0; 10; 300; 290; 301]) 300 = 4.
Proof.
  assert (B : busiest (map (Z.mul SECOND) [500; 0; 10; 300; 290; 301]) 300 = 4) by reflexivity. split; [|exact B].
  rewrite (window_finds_busiest (map (Z.mul SECOND) [500; 0; 10; 300; 290; 301]) 300); [by rewrite B|discriminate].
Defined.

(** A clean referral is allowed. *)
Example clean_allowed : is_allowed (calculate_risk_score now input [] no_counts default_config) = true.
Proof. reflexivity. Qed.

(** Two referrals of one user in one second cost 199 points; a burst of three costs 399. *)
Definition velocity (signals : list RiskSignalRow) : Z := velocity_part (calculate_breakdown now input signals no_counts default_config).
Example burst_of_two : velocity [own 999; own 999] = 199. Proof. vm_compute. reflexivity. Qed.
Example burst_of_three : velocity [own 999; own 999; own 999] = 399. Proof. vm_compute. reflexivity. Qed.

(** One more referral at the other end of the window makes the burst cheaper: the speed is that of the whole window. *)
Example more_signals_cost_less : velocity [own 700; own 999; own 999; own 999] < velocity [own 999; own 999; own 999].
Proof. vm_compute. reflexivity. Qed.

End RiskConcrete.
