(* ===== verification/RateLimits.v ===== *)
(** * Limits of requests, and the configuration

    Models the windows, keys and limits of [primitives/src/config_param_key.rs] and the keys of
    [primitives/src/config_key.rs] with their default values (module [ConfigKeys]), the counters of
    [cacher/src/rate_limiter.rs] and [keys.rs] ([RateLimiter]), [primitives/src/async_result.rs] and the checks of internet
    addresses of [gem_rewards/src/ip_security_client.rs] ([IpSecurity]).  The server that keeps the counters is the class
    [Cacher], the services that judge an address the class [IpProviders].  The value of a key, which
    [storage/src/config_cacher.rs] reads and parses, is the class [ConfigCacher]. *)
From Stdlib Require Import SpecFloat.
From S2P Require Import Prelude Text Crates Floats RewardsStore RewardsRepository RiskScore.

(** ** Windows, limits and keys *)

Module ConfigKeys.
Import F64 RewardsModels DatabaseErrors.

Inductive RateLimitWindow := Minute | Hour | Day | Week.
Inductive RateLimitKey :=
| FiatQuoteRequestPerDeviceLimit
| FiatQuoteRequestPerIpLimit
| FiatQuoteUrlRequestPerDeviceLimit
| FiatQuoteUrlRequestPerIpLimit
| UsernameCreationGlobalLimit
| UsernameCreationPerCountryLimit
| UsernameCreationPerDeviceLimit
| UsernameCreationPerIpLimit
| ReferralGlobalLimit
| ReferralPerCountryLimit
| ReferralPerDeviceLimit
| ReferralPerIpLimit
| ReferralPerUserLimit
| RedemptionPerUserLimit.

Definition ALL : list RateLimitWindow := [Minute; Hour; Day; Week].
Definition multiplier (self : RateLimitWindow) : Z := match self with Minute => 1 | Hour => 5 | Day => 25 | Week => 100 end.
(** In seconds *)
Definition duration (self : RateLimitWindow) : Z :=
  match self with Minute => 60 | Hour => 60 * 60 | Day => 24 * 60 * 60 | Week => 7 * 24 * 60 * 60 end.
Definition window_as_ref (self : RateLimitWindow) : string :=
  match self with Minute => "minute" | Hour => "hour" | Day => "day" | Week => "week" end.
Definition key_as_ref (self : RateLimitKey) : string :=
  match self with
  | FiatQuoteRequestPerDeviceLimit => "fiatQuoteRequestPerDeviceLimit"
  | FiatQuoteRequestPerIpLimit => "fiatQuoteRequestPerIpLimit"
  | FiatQuoteUrlRequestPerDeviceLimit => "fiatQuoteUrlRequestPerDeviceLimit"
  | FiatQuoteUrlRequestPerIpLimit => "fiatQuoteUrlRequestPerIpLimit"
  | UsernameCreationGlobalLimit => "usernameCreationGlobalLimit"
  | UsernameCreationPerCountryLimit => "usernameCreationPerCountryLimit"
  | UsernameCreationPerDeviceLimit => "usernameCreationPerDeviceLimit"
  | UsernameCreationPerIpLimit => "usernameCreationPerIpLimit"
  | ReferralGlobalLimit => "referralGlobalLimit"
  | ReferralPerCountryLimit => "referralPerCountryLimit"
  | ReferralPerDeviceLimit => "referralPerDeviceLimit"
  | ReferralPerIpLimit => "referralPerIpLimit"
  | ReferralPerUserLimit => "referralPerUserLimit"
  | RedemptionPerUserLimit => "redemptionPerUserLimit"
  end.

Record RateLimit := MkRateLimit { minute : Z; hour : Z; day : Z; week : Z }.
Definition scaled (limit : Z) : RateLimit :=
  MkRateLimit (limit * multiplier Minute) (limit * multiplier Hour) (limit * multiplier Day) (limit * multiplier Week).
Definition flat (limit : Z) : RateLimit := MkRateLimit limit limit limit limit.
Definition daily (limit : Z) : RateLimit := MkRateLimit limit limit limit (limit * 7).
Definition get (self : RateLimit) (window : RateLimitWindow) : Z :=
  match window with Minute => minute self | Hour => hour self | Day => day self | Week => week self end.

Definition default_limit (self : RateLimitKey) : RateLimit :=
  match self with
  | FiatQuoteRequestPerDeviceLimit => scaled 30
  | FiatQuoteRequestPerIpLimit => scaled 300
  | FiatQuoteUrlRequestPerDeviceLimit => scaled 20
  | FiatQuoteUrlRequestPerIpLimit => scaled 100
  | UsernameCreationGlobalLimit => daily 1000
  | UsernameCreationPerCountryLimit => daily 100
  | UsernameCreationPerDeviceLimit => flat 5
  | UsernameCreationPerIpLimit => flat 10
  | ReferralGlobalLimit => daily 1000
  | ReferralPerCountryLimit => daily 100
  | ReferralPerDeviceLimit => daily 1
  | ReferralPerIpLimit => MkRateLimit 3 3 3 10
  | ReferralPerUserLimit => MkRateLimit 2 2 5 15
  | RedemptionPerUserLimit => MkRateLimit 1 1 1 3
  end.

Inductive ConfigKey :=
| ReferralVerifiedMultiplier
| ReferralTrustedMultiplier
| ReferralCooldown
| ReferralIneligibleCountries
| ReferralVerificationDelay
| ReferralEligibility
| RedemptionMinAccountAge
| RedemptionCooldownAfterReferral
| RedemptionRetryMaxRetries
| RedemptionRetryDelay
| RedemptionRetryErrors
| ReferralIpConfidenceScoreThreshold
| ReferralBlockedIpTypes
| ReferralBlockedIpTypePenalty
| ReferralMaxAbuseScore
| ReferralPenaltyIsps
| ReferralPenaltyIspsScore
| ReferralIpTorAllowed
| ReferralRiskScoreFingerprintMatchPerReferrer
| ReferralRiskScoreFingerprintMatchMaxPenalty
| ReferralRiskScoreIpReuse
| ReferralRiskScoreIspModelMatch
| ReferralRiskScoreDeviceIdReusePerReferrer
| ReferralRiskScoreDeviceIdReuseMaxPenalty
| ReferralRiskScoreIneligibleIpType
| ReferralRiskScoreVerifiedUserReduction
| ReferralRiskScoreEarlyReferralReductionInitial
| ReferralRiskScoreEarlyReferralReductionStep
| ReferralRiskScoreMaxAllowed
| ReferralRiskScoreLookback
| ReferralRiskScoreSameReferrerPatternThreshold
| ReferralRiskScoreSameReferrerPatternPenalty
| ReferralRiskScoreSameReferrerFingerprintThreshold
| ReferralRiskScoreSameReferrerFingerprintPenalty
| ReferralRiskScoreSameReferrerDeviceModelThreshold
| ReferralRiskScoreSameReferrerDeviceModelPenalty
| ReferralRiskScoreDeviceModelRingThreshold
| ReferralRiskScoreDeviceModelRingPenaltyPerMember
| ReferralRiskScoreHighRiskPlatformStores
| ReferralRiskScoreHighRiskPlatformStorePenalty
| ReferralRiskScoreHighRiskCountries
| ReferralRiskScoreHighRiskCountryPenalty
| ReferralRiskScoreHighRiskLocales
| ReferralRiskScoreHighRiskLocalePenalty
| ReferralRiskScoreHighRiskDeviceModels
| ReferralRiskScoreHighRiskDeviceModelPenalty
| ReferralRiskScoreHighRiskUserAgents
| ReferralRiskScoreHighRiskUserAgentPenalty
| ReferralRiskScoreIpHistoryPenaltyPerAbuser
| ReferralRiskScoreIpHistoryMaxPenalty
| ReferralRiskScoreCrossReferrerDevicePenalty
| ReferralRiskScoreCrossReferrerFingerprintThreshold
| ReferralRiskScoreCrossReferrerFingerprintPenalty
| ReferralRiskScoreCountryDiversityThreshold
| ReferralRiskScoreCountryDiversityPenaltyPerCountry
| ReferralRiskScoreDeviceFarmingThreshold
| ReferralRiskScoreDeviceFarmingPenaltyPerDevice
| ReferralAbuseDisableThreshold
| ReferralAbuseAttemptPenalty
| ReferralAbuseVerifiedThresholdMultiplier
| ReferralAbuseLookback
| ReferralAbuseMinReferralsToEvaluate
| ReferralAbuseCountryRotationThreshold
| ReferralAbuseCountryRotationPenalty
| ReferralAbuseRingReferrersPerDeviceThreshold
| ReferralAbuseRingReferrersPerFingerprintThreshold
| ReferralAbuseRingPenalty
| ReferralAbuseDeviceFarmingThreshold
| ReferralAbuseDeviceFarmingPenalty
| ReferralAbuseVelocityWindow
| ReferralAbuseVelocityDivisor
| ReferralAbuseVelocityPenaltyPerSignal
| ReferralAbuseDisabledReferrerPenalty
| FiatValidateSubscription
| TransactionsMaxAssetTransferCount
| TransactionsMinAmountUsd
| TransactionsOutdatedBlockCount
| TransactionsOutdatedMinTimeout
| AlerterPriceAlertsTimer
| AlerterPriceAlertsCooldown
| AlerterPriceAlertsThreshold
| AlerterPriceAlertsRankDivisor
| AlerterPriceAlertsMilestones
| AlerterStakeRewardsTimer
| AlerterStakeRewardsThreshold
| AlerterStakeRewardsLookback
| PriceTimerTopMarketCap
| PriceTimerHighMarketCap
| PriceTimerLowMarketCap
| PriceTimerFiatRates
| PriceTimerChartsHourly
| PriceTimerChartsDaily
| PriceTimerMarkets
| PriceTimerPrices
| PriceTimerMetrics
| PriceTimerAssets
| PriceTimerAssetsNew
| PriceTimerAssetsMetadata
| PriceTimerChartsHistory
| PriceTimerCleanOutdated
| PriceTimerCleanupChartsRaw
| PriceTimerCleanupChartsHourly
| PriceChartsRetentionRaw
| PriceChartsRetentionHourly
| PriceChartsRetentionDaily
| PriceOutdated
| PricePrimaryMaxAge
| PriceMissingPublishInterval
| AssetsSpamMarkers
| AssetsFraudulentAssets
| AssetsTimerUpdateSuspicious
| AssetsTimerUpdateStakeApy
| AssetsTimerUpdatePerpetuals
| AssetsTimerUpdateUsageRank
| AssetsUsageRankBatchSize
| AssetsTimerUpdateImages
| AssetsTimerUpdateHasPrice
| ListsTimerUpdateLists
| FiatTimerUpdateAssets
| FiatTimerUpdateProviderCountries
| FiatTimerUpdateBuyableAssets
| FiatTimerUpdateSellableAssets
| FiatTimerUpdateTrending
| ScanTimerUpdateValidators
| ScanTimerUpdateValidatorsStatic
| ScanEnable
| ScanTimeout
| RewardsTimerAbuseChecker
| RewardsTimerEligibilityChecker
| RewardsEligibilityActiveDuration
| RewardsEligibilityTransactionsCount
| RewardsEligibilityPromotionLimit
| DeviceTimerUpdater
| DeviceTimerInactiveObserver
| DeviceStreamRetention
| DeviceStreamHistoryLimit
| VersionTimerUpdateStoreVersions
| TransactionTimerCleanup
| TransactionTimerInTransitUpdate
| TransactionTimerPendingUpdate
| TransactionTimerSwapVaultAddresses
| TransactionInTransitTimeout
| TransactionInTransitQueryLimit
| TransactionInTransitMaxCheckInterval
| TransactionInTransitCheckIntervalFactor
| TransactionSwapOutdatedTimeout
| TransactionCleanupAddressMaxCount
| TransactionCleanupAddressLimit
| TransactionCleanupLookback
| PerpetualClassifierInterval
| PerpetualClassifierConcurrency
| PerpetualObserverInterval
| PerpetualAddressRefreshInterval
| PerpetualPriorityObserverInterval
| PerpetualPriorityTriggerBps
| PerpetualPriorityLiquidationBps
| SearchAssetsUpdateInterval
| SearchAssetListsUpdateInterval
| SearchPerpetualsUpdateInterval
| SearchNftsUpdateInterval
| SearchIndexBatchSize
| SearchAssetsLastUpdatedAt
| SearchPerpetualsLastUpdatedAt
| SearchNftsLastUpdatedAt
| ParserCatchupReloadInterval
| ParserMinCheckInterval
| ParserMaxCheckInterval
| ParserErrorInterval
| PriceObservedFetchInterval
| PriceObservedMaxAssets
| PriceObservedMinObservers.

(** A JSON text, whose quotation marks are written as apostrophes *)
Fixpoint json (s : string) : string :=
  match s with
  | EmptyString => EmptyString
  | String c s => String (if Ascii.eqb c (Ascii.ascii_of_nat 39) then Ascii.ascii_of_nat 34 else c) (json s)
  end.

Definition default_value (self : ConfigKey) : string :=
  match self with
  | ReferralVerifiedMultiplier => "2"
  | ReferralTrustedMultiplier => "3"
  | ReferralCooldown => "1m"
  | ReferralIneligibleCountries => "[]"
  | ReferralVerificationDelay => "24h"
  | ReferralEligibility => "7d"
  | RedemptionMinAccountAge => "1h"
  | RedemptionCooldownAfterReferral => "1m"
  | RedemptionRetryMaxRetries => "1"
  | RedemptionRetryDelay => "15s"
  | RedemptionRetryErrors => json "['transaction gas price below minimum']"
  | ReferralIpConfidenceScoreThreshold => "10"
  | ReferralBlockedIpTypes => json "['dataCenter', 'hosting']"
  | ReferralBlockedIpTypePenalty => "100"
  | ReferralMaxAbuseScore => "60"
  | ReferralPenaltyIsps => json "[]"
  | ReferralPenaltyIspsScore => "30"
  | ReferralIpTorAllowed => "false"
  | ReferralRiskScoreFingerprintMatchPerReferrer => "50"
  | ReferralRiskScoreFingerprintMatchMaxPenalty => "200"
  | ReferralRiskScoreIpReuse => "50"
  | ReferralRiskScoreIspModelMatch => "30"
  | ReferralRiskScoreDeviceIdReusePerReferrer => "50"
  | ReferralRiskScoreDeviceIdReuseMaxPenalty => "200"
  | ReferralRiskScoreIneligibleIpType => "100"
  | ReferralRiskScoreVerifiedUserReduction => "20"
  | ReferralRiskScoreEarlyReferralReductionInitial => "20"
  | ReferralRiskScoreEarlyReferralReductionStep => "10"
  | ReferralRiskScoreMaxAllowed => "60"
  | ReferralRiskScoreLookback => "90d"
  | ReferralRiskScoreSameReferrerPatternThreshold => "3"
  | ReferralRiskScoreSameReferrerPatternPenalty => "40"
  | ReferralRiskScoreSameReferrerFingerprintThreshold => "2"
  | ReferralRiskScoreSameReferrerFingerprintPenalty => "60"
  | ReferralRiskScoreSameReferrerDeviceModelThreshold => "3"
  | ReferralRiskScoreSameReferrerDeviceModelPenalty => "50"
  | ReferralRiskScoreDeviceModelRingThreshold => "2"
  | ReferralRiskScoreDeviceModelRingPenaltyPerMember => "40"
  | ReferralRiskScoreHighRiskPlatformStores => "[]"
  | ReferralRiskScoreHighRiskPlatformStorePenalty => "20"
  | ReferralRiskScoreHighRiskCountries => "[]"
  | ReferralRiskScoreHighRiskCountryPenalty => "15"
  | ReferralRiskScoreHighRiskLocales => "[]"
  | ReferralRiskScoreHighRiskLocalePenalty => "10"
  | ReferralRiskScoreHighRiskDeviceModels => json "['sdk_gphone', '(?i)emulator', '(?i)simulator']"
  | ReferralRiskScoreHighRiskDeviceModelPenalty => "50"
  | ReferralRiskScoreHighRiskUserAgents => json "['(?i)python', '(?i)curl', '(?i)httpie', '(?i)postman', '(?i)insomnia']"
  | ReferralRiskScoreHighRiskUserAgentPenalty => "100"
  | ReferralRiskScoreIpHistoryPenaltyPerAbuser => "30"
  | ReferralRiskScoreIpHistoryMaxPenalty => "150"
  | ReferralRiskScoreCrossReferrerDevicePenalty => "500"
  | ReferralRiskScoreCrossReferrerFingerprintThreshold => "2"
  | ReferralRiskScoreCrossReferrerFingerprintPenalty => "100"
  | ReferralRiskScoreCountryDiversityThreshold => "5"
  | ReferralRiskScoreCountryDiversityPenaltyPerCountry => "5"
  | ReferralRiskScoreDeviceFarmingThreshold => "10"
  | ReferralRiskScoreDeviceFarmingPenaltyPerDevice => "3"
  | ReferralAbuseDisableThreshold => "200"
  | ReferralAbuseAttemptPenalty => "15"
  | ReferralAbuseVerifiedThresholdMultiplier => "2"
  | ReferralAbuseLookback => "7d"
  | ReferralAbuseMinReferralsToEvaluate => "2"
  | ReferralAbuseCountryRotationThreshold => "2"
  | ReferralAbuseCountryRotationPenalty => "50"
  | ReferralAbuseRingReferrersPerDeviceThreshold => "2"
  | ReferralAbuseRingReferrersPerFingerprintThreshold => "2"
  | ReferralAbuseRingPenalty => "80"
  | ReferralAbuseDeviceFarmingThreshold => "5"
  | ReferralAbuseDeviceFarmingPenalty => "10"
  | ReferralAbuseVelocityWindow => "5m"
  | ReferralAbuseVelocityDivisor => "2"
  | ReferralAbuseVelocityPenaltyPerSignal => "100"
  | ReferralAbuseDisabledReferrerPenalty => "80"
  | FiatValidateSubscription => "false"
  | TransactionsMaxAssetTransferCount => "10"
  | TransactionsMinAmountUsd => "0.05"
  | TransactionsOutdatedBlockCount => "12"
  | TransactionsOutdatedMinTimeout => "15m"
  | AlerterPriceAlertsTimer => "60s"
  | AlerterPriceAlertsCooldown => "24h"
  | AlerterPriceAlertsThreshold => "5.0"
  | AlerterPriceAlertsRankDivisor => "5.0"
  | AlerterPriceAlertsMilestones => "[1, 5, 10, 50, 100, 500, 1000, 5000, 10000, 50000, 100000, 500000, 1000000]"
  | AlerterStakeRewardsTimer => "6h"
  | AlerterStakeRewardsThreshold => "0.01"
  | AlerterStakeRewardsLookback => "30d"
  | PriceTimerTopMarketCap => "60s"
  | PriceTimerHighMarketCap => "5m"
  | PriceTimerLowMarketCap => "15m"
  | PriceTimerFiatRates => "6m"
  | PriceTimerChartsHourly => "60s"
  | PriceTimerChartsDaily => "6m"
  | PriceTimerMarkets => "1h"
  | PriceTimerPrices => "60s"
  | PriceTimerMetrics => "5m"
  | PriceTimerAssets => "1d"
  | PriceTimerAssetsNew => "15m"
  | PriceTimerAssetsMetadata => "30d"
  | PriceTimerChartsHistory => "1d"
  | PriceTimerCleanOutdated => "1d"
  | PriceTimerCleanupChartsRaw => "1d"
  | PriceTimerCleanupChartsHourly => "1d"
  | PriceChartsRetentionRaw => "7d"
  | PriceChartsRetentionHourly => "31d"
  | PriceChartsRetentionDaily => "10000d"
  | PriceOutdated => "7d"
  | PricePrimaryMaxAge => "24h"
  | PriceMissingPublishInterval => "1h"
  | AssetsSpamMarkers => json "['www.']"
  | AssetsFraudulentAssets => json "[{'name':'Tether','symbols':['USDT']},{'name':'Tether USD','symbols':['USDT','$USD₮']},{'name':'USD Coin','symbols':['USDC']}]"
  | AssetsTimerUpdateSuspicious => "1h"
  | AssetsTimerUpdateStakeApy => "1d"
  | AssetsTimerUpdatePerpetuals => "1h"
  | AssetsTimerUpdateUsageRank => "1h"
  | AssetsUsageRankBatchSize => "1000"
  | AssetsTimerUpdateImages => "8h"
  | AssetsTimerUpdateHasPrice => "1h"
  | ListsTimerUpdateLists => "1d"
  | FiatTimerUpdateAssets => "1h"
  | FiatTimerUpdateProviderCountries => "1h"
  | FiatTimerUpdateBuyableAssets => "1h"
  | FiatTimerUpdateSellableAssets => "1h"
  | FiatTimerUpdateTrending => "1h"
  | ScanTimerUpdateValidators => "1d"
  | ScanTimerUpdateValidatorsStatic => "1h"
  | ScanEnable => "true"
  | ScanTimeout => "1200ms"
  | RewardsTimerAbuseChecker => "60s"
  | RewardsTimerEligibilityChecker => "60s"
  | RewardsEligibilityActiveDuration => "7d"
  | RewardsEligibilityTransactionsCount => "3"
  | RewardsEligibilityPromotionLimit => "1"
  | DeviceTimerUpdater => "1d"
  | DeviceTimerInactiveObserver => "1d"
  | DeviceStreamRetention => "7d"
  | DeviceStreamHistoryLimit => "25"
  | VersionTimerUpdateStoreVersions => "1h"
  | TransactionTimerCleanup => "1d"
  | TransactionTimerInTransitUpdate => "60s"
  | TransactionTimerPendingUpdate => "30s"
  | TransactionTimerSwapVaultAddresses => "5m"
  | TransactionInTransitTimeout => "12h"
  | TransactionInTransitQueryLimit => "100"
  | TransactionInTransitMaxCheckInterval => "5m"
  | TransactionInTransitCheckIntervalFactor => "2.0"
  | TransactionSwapOutdatedTimeout => "2h"
  | TransactionCleanupAddressMaxCount => "5000"
  | TransactionCleanupAddressLimit => "200"
  | TransactionCleanupLookback => "90d"
  | PerpetualClassifierInterval => "15m"
  | PerpetualClassifierConcurrency => "3"
  | PerpetualObserverInterval => "1m"
  | PerpetualAddressRefreshInterval => "1h"
  | PerpetualPriorityObserverInterval => "10s"
  | PerpetualPriorityTriggerBps => "100"
  | PerpetualPriorityLiquidationBps => "300"
  | SearchAssetsUpdateInterval => "30m"
  | SearchAssetListsUpdateInterval => "30m"
  | SearchPerpetualsUpdateInterval => "30m"
  | SearchNftsUpdateInterval => "30m"
  | SearchIndexBatchSize => "10000"
  | SearchAssetsLastUpdatedAt => "0"
  | SearchPerpetualsLastUpdatedAt => "0"
  | SearchNftsLastUpdatedAt => "0"
  | ParserCatchupReloadInterval => "50"
  | ParserMinCheckInterval => "1s"
  | ParserMaxCheckInterval => "8s"
  | ParserErrorInterval => "30s"
  | PriceObservedFetchInterval => "30s"
  | PriceObservedMaxAssets => "100"
  | PriceObservedMinObservers => "2"
  end.

End ConfigKeys.

(** The values of the configuration: an [i64], a duration in seconds, ... *)
Class ConfigCacher : Type := {
  get_i64 : ConfigKeys.ConfigKey -> result DatabaseErrors.DatabaseError Z;
  get_f64 : ConfigKeys.ConfigKey -> result DatabaseErrors.DatabaseError spec_float;
  get_bool : ConfigKeys.ConfigKey -> result DatabaseErrors.DatabaseError bool;
  get_duration : ConfigKeys.ConfigKey -> result DatabaseErrors.DatabaseError Z;
  get_vec_string : ConfigKeys.ConfigKey -> result DatabaseErrors.DatabaseError (list string);
  get_vec_usage : ConfigKeys.ConfigKey -> result DatabaseErrors.DatabaseError (list RewardsModels.IpUsageType);
  get_rate_limit : ConfigKeys.RateLimitKey -> result DatabaseErrors.DatabaseError ConfigKeys.RateLimit
}.

(** The server of short-lived values: a counter that is created with a time to live in seconds and counts up, and the cached
    judgements of addresses.  An error is its text. *)
Class Cacher : Type := {
  CacheState : Type;
  increment_with_ttl : string -> Z -> CacheState -> result string Z * CacheState;
  get_ip_value : string -> CacheState -> result string IpChecks.IpCheckResult;
  set_ip_value : string -> IpChecks.IpCheckResult -> Z -> CacheState -> result string unit * CacheState
}.

(** The services that judge an address, in the order in which they are asked *)
Class IpProviders : Type := ip_providers : list (string -> result string IpChecks.IpCheckResult).

(** ** Counters *)

Module RateLimiter.
Import ConfigKeys.

Definition GLOBAL_RATE_LIMIT_SCOPE : string := "global".

Inductive CacheKey := ReferralIpCheck (ip_address : string) | RateLimitCount (key : RateLimitKey) (scope : string) (window : RateLimitWindow).
Definition cache_key (self : CacheKey) : string :=
  match self with
  | ReferralIpCheck ip_address => "referral:ip_check:" ++ ip_address
  | RateLimitCount key scope window => "rate_limit:" ++ key_as_ref key ++ ":" ++ window_as_ref window ++ ":" ++ scope
  end.
Definition ttl (self : CacheKey) : Z :=
  match self with
  | ReferralIpCheck _ => 30 * (24 * 60 * 60)
  | RateLimitCount _ _ window => duration window
  end.

Section limiter.
Context `{Cacher}.

Definition increment_cached (key : CacheKey) (cache : CacheState) : result string Z * CacheState :=
  increment_with_ttl (cache_key key) (ttl key) cache.

(** The counters of the windows go up one by one, those after a refusal too. *)
Fixpoint consume_windows (windows : list RateLimitWindow) (key : RateLimitKey) (scope : string) (limit : RateLimit) (allowed : bool)
    (cache : CacheState) : result string bool * CacheState :=
  match windows with
  | [] => (Ok allowed, cache)
  | window :: windows =>
      match increment_cached (RateLimitCount key scope window) cache with
      | (Ok count, cache) => consume_windows windows key scope limit (allowed && (count <=? get limit window)) cache
      | (Err e, cache) => (Err e, cache)
      end
  end.
Definition consume (key : RateLimitKey) (scope : string) (limit : RateLimit) (cache : CacheState) : result string bool * CacheState :=
  consume_windows ALL key scope limit true cache.

End limiter.
End RateLimiter.

(** ** Addresses *)

Module IpSecurity.
Import IpChecks RateLimiter.

(** [try_in_order]: the first success, or the last error *)
Fixpoint try_from {E T} (operations : list (result E T)) (last_error : option E) : result E (option T) :=
  match operations with
  | [] => match last_error with Some error => Err error | None => Ok None end
  | Ok value :: _ => Ok (Some value)
  | Err error :: operations => try_from operations (Some error)
  end.
Definition try_in_order {E T} (operations : list (result E T)) : result E (option T) := try_from operations None.

Section security.
Context `{Cacher} `{IpProviders}.

Definition check_ip_with_fallback (ip_address : string) : result string IpCheckResult :=
  match try_in_order (map (fun provider => provider ip_address) ip_providers) with
  | Ok (Some result) => Ok result
  | Ok None => Err "No IP check providers configured"%string
  | Err e => Err e
  end.

(** [get_or_set_cached] *)
Definition check_ip (ip_address : string) (cache : CacheState) : result string IpCheckResult * CacheState :=
  let key := ReferralIpCheck ip_address in
  match get_ip_value (cache_key key) cache with
  | Ok cached => (Ok cached, cache)
  | Err _ =>
      match check_ip_with_fallback ip_address with
      | Err e => (Err e, cache)
      | Ok fresh =>
          match set_ip_value (cache_key key) fresh (ttl key) cache with
          | (Ok _, cache) => (Ok fresh, cache)
          | (Err e, cache) => (Err e, cache)
          end
      end
  end.

End security.
End IpSecurity.
