(* ===== verification/RewardsServices.v ===== *)
(** * Rewards: the services around the handlers

    Models [gem_rewards/src/error.rs] (module [RewardsErrors]) and the clients that the API and the daemon build from the
    handlers of [RewardsRepository]: [api/src/devices/clients/rewards.rs] ([RewardsClient]), which screens a referral,
    [rewards_redemption.rs] ([RewardsRedemptionClient]), which limits redemptions, and the jobs of
    [daemon/src/worker/rewards/] ([RewardsEligibilityChecker], [RewardsAbuseChecker]).  A service works on the tables and on the
    server of counters; an error ends it and undoes nothing.  The pool of connections is the class [DbPool], the texts of the
    localizer [LanguageLocalizer], the check of a device's token [PusherClient], the queues [EventQueue]; the wallets that are
    created belong to another part of the store ([WalletsWriter]). *)
From Stdlib Require Import SpecFloat.
From S2P Require Import Prelude Text HexText Crates ChainRegistry Assets Wallets Floats RewardsStore RewardsRepository RiskScore RiskSignals RateLimits.

(** [Database::client] at a time *)
Class DbPool : Type := db_client : Z -> result DatabaseErrors.DatabaseError unit.
(** [LanguageLocalizer::new_with_language(locale).message(arguments)] *)
Class LanguageLocalizer : Type := localizer : string -> string -> list string -> string.
(** [PusherClient::is_device_token_valid] *)
Class PusherClient : Type := is_device_token_valid : string -> Z -> result string bool.
(** [WalletsStore::create_wallet] of a wallet of several coins that is imported *)
Class WalletsWriter : Type := create_wallet : string -> result DieselError RewardsModels.WalletRow.
(** The queues of events and of redemptions *)
Class EventQueue : Type := {
  publish_rewards_events : list Z -> result string unit;
  publish_rewards_redemption : Z -> result string unit
}.
(** [format!] of a float with a number of digits after the point *)
Class FormatF64 : Type := format_f64 : nat -> spec_float -> string.

(** ** Errors *)

Module RewardsErrors.
Import RewardsModels DatabaseErrors ConfigKeys.

Inductive RewardsError := UsernameMessage (message : string) | ReferralMessage (message : string).

Inductive ReferralError :=
| Validation (error : ReferralValidationError)
| ReferrerLimitReached
| RiskScoreExceeded (score max_allowed : Z)
| DuplicateAttempt
| IpTorNotAllowed
| IpCountryIneligible (country : string)
| LimitReached
| InvalidDeviceToken (reason : string)
| Database (error : DatabaseError).

Inductive RewardsRedemptionError :=
| NotEligible (message : string)
| RedemptionLimitReached
| AccountTooNew
| CooldownNotElapsed
| NotEnoughPoints
| OptionNotAvailable
| NoUsername.

Inductive UsernameError := UsernameLimitReached (key : RateLimitKey) | UsernameValidation (error : UsernameValidationError).

(** [Box<dyn Error>] *)
Inductive ServiceError :=
| RewardsFailed (error : RewardsError)
| RedemptionRefused (error : RewardsRedemptionError)
| UsernameRefused (error : UsernameError)
| StorageFailed (error : DatabaseError)
| Failed (message : string).

(** *** [Display] *)

Definition rewards_error_text (self : RewardsError) : string := match self with UsernameMessage message | ReferralMessage message => message end.

Definition validation_text (self : ReferralValidationError) : string :=
  match self with
  | CodeDoesNotExist => "Referral code does not exist"
  | DeviceAlreadyUsed => "This device has already been used to apply a referral code"
  | CannotReferSelf => "Cannot use your own referral code"
  | EligibilityExpired days => "eligibility_expired: " ++ pretty days ++ " days"
  | RewardsNotEnabled user => "Rewards are not enabled for " ++ user
  | ReferralDatabase e => DatabaseErrors.fmt e
  end.
Definition username_validation_text (self : UsernameValidationError) : string :=
  match self with
  | Invalid message => message
  | AlreadyTaken => "Username already taken"
  | UsernameDatabase e => DatabaseErrors.fmt e
  end.
Definition referral_error_text (self : ReferralError) : string :=
  match self with
  | Validation e => validation_text e
  | ReferrerLimitReached => "referrer_limit_reached"
  | RiskScoreExceeded score max_allowed => "risk_score: " ++ pretty score ++ " (max allowed: " ++ pretty max_allowed ++ ")"
  | DuplicateAttempt => "duplicate_attempt"
  | IpTorNotAllowed => "ip_tor_not_allowed"
  | IpCountryIneligible country => "ip_country_ineligible: " ++ country
  | LimitReached => "limit_reached"
  | InvalidDeviceToken reason => "invalid_device_token: " ++ reason
  | Database e => DatabaseErrors.fmt e
  end.
Definition redemption_error_text (self : RewardsRedemptionError) : string :=
  match self with
  | NotEligible message => message
  | RedemptionLimitReached => "Redemption limit reached"
  | AccountTooNew => "Account too new for redemption"
  | CooldownNotElapsed => "Must wait after recent referral activity"
  | NotEnoughPoints => "Not enough points"
  | OptionNotAvailable => "Redemption option is no longer available"
  | NoUsername => "No username found for address"
  end.
Definition username_error_text (self : UsernameError) : string :=
  match self with
  | UsernameLimitReached key => "Username creation limit reached: " ++ key_as_ref key
  | UsernameValidation e => username_validation_text e
  end.
Definition service_text (self : ServiceError) : string :=
  match self with
  | RewardsFailed e => rewards_error_text e
  | RedemptionRefused e => redemption_error_text e
  | UsernameRefused e => username_error_text e
  | StorageFailed e => DatabaseErrors.fmt e
  | Failed message => message
  end.

(** *** [Localize] *)

Section localize.
Context `{LanguageLocalizer}.

Definition localize_referral (self : ReferralError) (locale : string) : string :=
  match self with
  | Validation CodeDoesNotExist => localizer locale "rewards_error_referral_code_not_exist" []
  | Validation DeviceAlreadyUsed => localizer locale "rewards_error_referral_device_already_used" []
  | Validation CannotReferSelf => localizer locale "rewards_error_referral_cannot_refer_self" []
  | Validation (EligibilityExpired days) => localizer locale "rewards_error_referral_eligibility_expired" [pretty days]
  | Validation (RewardsNotEnabled _) => localizer locale "rewards_error_referral_rewards_not_enabled" []
  | Validation (ReferralDatabase _) => localizer locale "errors_generic" []
  | ReferrerLimitReached => localizer locale "rewards_error_referral_referrer_limit_reached" []
  | IpCountryIneligible country => localizer locale "rewards_error_referral_country_ineligible" [country]
  | RiskScoreExceeded _ _ | DuplicateAttempt | IpTorNotAllowed | LimitReached | InvalidDeviceToken _ =>
      localizer locale "rewards_error_referral_limit_reached" []
  | Database _ => localizer locale "errors_generic" []
  end.
Definition localize_username (self : UsernameError) (locale : string) : string :=
  match self with
  | UsernameLimitReached _ => localizer locale "rewards_error_username_daily_limit_reached" []
  | UsernameValidation e => username_validation_text e
  end.

End localize.

(** [From<Box<dyn Error>>] *)
Definition from_box (error : ServiceError) : ReferralError := Database (DbError (service_text error)).

End RewardsErrors.

(** ** Effects *)

(** The tables, and what the server of counters holds *)
Record Services `{Cacher} := MkServices { tables : RewardsStore.Db; cache : CacheState }.
Arguments MkServices {_} _ _.
Arguments tables {_} _.
Arguments cache {_} _.

Module ServiceMonad.
Import RewardsModels RewardsStore DatabaseErrors.

Section monad.
Context `{Cacher} `{DbPool}.

Definition S (E A : Type) : Type := Services -> result E A * Services.
Definition ret {E A} (a : A) : S E A := fun s => (Ok a, s).
Definition fail {E A} (e : E) : S E A := fun s => (Err e, s).
Definition of_result {E A} (r : result E A) : S E A := fun s => (r, s).
Definition bind {E A B} (m : S E A) (k : A -> S E B) : S E B :=
  fun s => match m s with (Ok a, s) => k a s | (Err e, s) => (Err e, s) end.
Definition with_error {E F A} (f : E -> F) (m : S E A) : S F A := fun s => let '(r, s) := m s in (map_err f r, s).
(** [match result { Ok(a) => ..., Err(e) => ... }] *)
Definition catch {E F A} (m : S E A) : S F (result E A) := fun s => let '(r, s) := m s in (Ok r, s).

(** An operation on the tables, and one on the server of counters *)
Definition on_tables {E A} (m : M E A) : S E A := fun s => let '(r, db) := m (tables s) in (r, MkServices db (cache s)).
Definition on_cache {E A} (f : CacheState -> result E A * CacheState) : S E A :=
  fun s => let '(r, c) := f (cache s) in (r, MkServices (tables s) c).

Definition client : S DatabaseError unit := fun s => (db_client (clock (tables s)), s).

End monad.
End ServiceMonad.

(** [let^ x := m in k] runs [m], and [k] on its value unless it fails. *)
Notation "'let^' x := m 'in' k" := (ServiceMonad.bind m (fun x => k)) (at level 10, x pattern, m at level 200, k at level 200) : rust_scope.

(** ** Referrals *)

Module RewardsClient.
Import RewardsModels RewardsStore DatabaseErrors ConfigKeys RateLimiter IpSecurity RewardsErrors ServiceMonad.
Import F64 IpChecks RiskScoring RiskSignalsRepository RewardsRepository.

Inductive ReferralProcessResult :=
| ProcessSuccess (risk_signal_id : Z) (referrer_status : RewardStatus)
| ProcessFailed (error : ReferralError)
| ProcessScoreExceeded (risk_signal_id : Z) (error : ReferralError).

Record ReferralSecurityConfig := MkSecurity { tor_allowed : bool; ineligible_countries : list string }.

Section client.
Context `{Lowercase} `{SqlLower} `{WalletsStore} `{WalletsWriter} `{AssetsTable} `{Clock} `{DieselText} `{ParseBigIntText} `{BigUintParse}
  `{RewardsConfig} `{Hex} `{Sha256} `{Regex} `{ConfigCacher} `{Cacher} `{IpProviders} `{DbPool} `{LanguageLocalizer} `{PusherClient} `{EventQueue}.

(** A time before another, of a duration in seconds *)
Definition ago (duration self : Z) : Z := self - duration * SECOND.
Definition now_ {E} : S E Z := on_tables now.

Definition referrer_multiplier (status : RewardStatus) : result DatabaseError Z :=
  if bool_decide (status = Trusted) then get_i64 ReferralTrustedMultiplier else get_i64 ReferralVerifiedMultiplier.

Definition consume_rate_limit (key : RateLimitKey) (scope : string) : S ServiceError bool :=
  let^ limit := of_result (map_err StorageFailed (get_rate_limit key)) in
  with_error Failed (on_cache (consume key scope limit)).

(** All the limits are consumed before the refusal. *)
Fixpoint consume_all (limits : list (RateLimitKey * string)) (allowed : bool) : S ServiceError bool :=
  match limits with
  | [] => ret allowed
  | (key, scope) :: limits => let^ ok := consume_rate_limit key scope in consume_all limits (allowed && ok)
  end.
Definition consume_referral_limits (limits : list (RateLimitKey * string)) : S ReferralError unit :=
  let^ allowed := with_error from_box (consume_all limits true) in
  if (allowed : bool) then ret tt else fail LimitReached.

Definition load_referral_security_config : result DatabaseError ReferralSecurityConfig :=
  let? tor := get_bool ReferralIpTorAllowed in
  let? countries := get_vec_string ReferralIneligibleCountries in
  Ok (MkSecurity tor countries).

Definition load_risk_score_config : result DatabaseError RiskScoreConfig :=
  let? fingerprint_match := get_i64 ReferralRiskScoreFingerprintMatchPerReferrer in
  let? fingerprint_max := get_i64 ReferralRiskScoreFingerprintMatchMaxPenalty in
  let? ip_reuse := get_i64 ReferralRiskScoreIpReuse in
  let? isp_model := get_i64 ReferralRiskScoreIspModelMatch in
  let? device_reuse := get_i64 ReferralRiskScoreDeviceIdReusePerReferrer in
  let? device_max := get_i64 ReferralRiskScoreDeviceIdReuseMaxPenalty in
  let? ineligible := get_i64 ReferralRiskScoreIneligibleIpType in
  let? blocked := get_vec_usage ReferralBlockedIpTypes in
  let? blocked_penalty := get_i64 ReferralBlockedIpTypePenalty in
  let? abuse := get_i64 ReferralMaxAbuseScore in
  let? isps := get_vec_string ReferralPenaltyIsps in
  let? isps_score := get_i64 ReferralPenaltyIspsScore in
  let? verified := get_i64 ReferralRiskScoreVerifiedUserReduction in
  let? early_initial := get_i64 ReferralRiskScoreEarlyReferralReductionInitial in
  let? early_step := get_i64 ReferralRiskScoreEarlyReferralReductionStep in
  let? max_allowed := get_i64 ReferralRiskScoreMaxAllowed in
  let? pattern_threshold := get_i64 ReferralRiskScoreSameReferrerPatternThreshold in
  let? pattern_penalty := get_i64 ReferralRiskScoreSameReferrerPatternPenalty in
  let? same_fingerprint_threshold := get_i64 ReferralRiskScoreSameReferrerFingerprintThreshold in
  let? same_fingerprint_penalty := get_i64 ReferralRiskScoreSameReferrerFingerprintPenalty in
  let? model_threshold := get_i64 ReferralRiskScoreSameReferrerDeviceModelThreshold in
  let? model_penalty := get_i64 ReferralRiskScoreSameReferrerDeviceModelPenalty in
  let? ring_threshold := get_i64 ReferralRiskScoreDeviceModelRingThreshold in
  let? ring_penalty := get_i64 ReferralRiskScoreDeviceModelRingPenaltyPerMember in
  let? lookback_ := get_duration ReferralRiskScoreLookback in
  let? stores := get_vec_string ReferralRiskScoreHighRiskPlatformStores in
  let? stores_penalty := get_i64 ReferralRiskScoreHighRiskPlatformStorePenalty in
  let? countries := get_vec_string ReferralRiskScoreHighRiskCountries in
  let? countries_penalty := get_i64 ReferralRiskScoreHighRiskCountryPenalty in
  let? locales := get_vec_string ReferralRiskScoreHighRiskLocales in
  let? locales_penalty := get_i64 ReferralRiskScoreHighRiskLocalePenalty in
  let? models := get_vec_string ReferralRiskScoreHighRiskDeviceModels in
  let? models_penalty := get_i64 ReferralRiskScoreHighRiskDeviceModelPenalty in
  let? agents := get_vec_string ReferralRiskScoreHighRiskUserAgents in
  let? agents_penalty := get_i64 ReferralRiskScoreHighRiskUserAgentPenalty in
  let? history := get_i64 ReferralRiskScoreIpHistoryPenaltyPerAbuser in
  let? history_max := get_i64 ReferralRiskScoreIpHistoryMaxPenalty in
  let? window := get_duration ReferralAbuseVelocityWindow in
  let? divisor := get_i64 ReferralAbuseVelocityDivisor in
  let? velocity := get_i64 ReferralAbuseVelocityPenaltyPerSignal in
  let? user_limit := get_rate_limit ReferralPerUserLimit in
  let? verified_multiplier_ := get_i64 ReferralVerifiedMultiplier in
  let? trusted_multiplier_ := get_i64 ReferralTrustedMultiplier in
  let? cross_device := get_i64 ReferralRiskScoreCrossReferrerDevicePenalty in
  let? cross_threshold := get_i64 ReferralRiskScoreCrossReferrerFingerprintThreshold in
  let? cross_penalty := get_i64 ReferralRiskScoreCrossReferrerFingerprintPenalty in
  let? diversity_threshold := get_i64 ReferralRiskScoreCountryDiversityThreshold in
  let? diversity_penalty := get_i64 ReferralRiskScoreCountryDiversityPenaltyPerCountry in
  let? farming_threshold := get_i64 ReferralRiskScoreDeviceFarmingThreshold in
  let? farming_penalty := get_i64 ReferralRiskScoreDeviceFarmingPenaltyPerDevice in
  Ok {|
    fingerprint_match_penalty_per_referrer := fingerprint_match;
    fingerprint_match_max_penalty := fingerprint_max;
    ip_reuse_score := ip_reuse;
    isp_model_match_score := isp_model;
    device_id_reuse_penalty_per_referrer := device_reuse;
    device_id_reuse_max_penalty := device_max;
    ineligible_ip_type_score := ineligible;
    blocked_ip_types := blocked;
    blocked_ip_type_penalty := blocked_penalty;
    max_abuse_score := abuse;
    penalty_isps := isps;
    isp_penalty_score := isps_score;
    verified_user_reduction := verified;
    early_referral_reduction_initial := early_initial;
    early_referral_reduction_step := early_step;
    max_allowed_score := max_allowed;
    same_referrer_pattern_threshold := pattern_threshold;
    same_referrer_pattern_penalty := pattern_penalty;
    same_referrer_fingerprint_threshold := same_fingerprint_threshold;
    same_referrer_fingerprint_penalty := same_fingerprint_penalty;
    same_referrer_device_model_threshold := model_threshold;
    same_referrer_device_model_penalty := model_penalty;
    device_model_ring_threshold := ring_threshold;
    device_model_ring_penalty_per_member := ring_penalty;
    lookback := lookback_;
    high_risk_platform_stores := stores;
    high_risk_platform_store_penalty := stores_penalty;
    high_risk_countries := countries;
    high_risk_country_penalty := countries_penalty;
    high_risk_locales := locales;
    high_risk_locale_penalty := locales_penalty;
    high_risk_device_models := models;
    high_risk_device_model_penalty := models_penalty;
    high_risk_user_agents := agents;
    high_risk_user_agent_penalty := agents_penalty;
    velocity_window := window;
    velocity_divisor := divisor;
    velocity_penalty := velocity;
    referral_per_user_daily := get user_limit Day;
    verified_multiplier := verified_multiplier_;
    trusted_multiplier := trusted_multiplier_;
    ip_history_penalty_per_abuser := history;
    ip_history_max_penalty := history_max;
    cross_referrer_device_penalty := cross_device;
    cross_referrer_fingerprint_threshold := cross_threshold;
    cross_referrer_fingerprint_penalty := cross_penalty;
    country_diversity_threshold := diversity_threshold;
    country_diversity_penalty_per_country := diversity_penalty;
    device_farming_threshold := farming_threshold;
    device_farming_penalty_per_device := farming_penalty
  |}.

(** [?] on errors of the storage and of other services *)
Definition db_ {A} (m : M DatabaseError A) : S ReferralError A := with_error Database (on_tables m).
Definition config_ {A} (r : result DatabaseError A) : S ReferralError A := of_result (map_err Database r).
Definition client_ : S ReferralError unit := with_error Database client.

Definition check_referrer_rate_limit (referrer_username : string) (since limit : Z) : S ReferralError unit :=
  let^ count := db_ (repo_count_referrals_since referrer_username since) in
  if limit <=? count then fail ReferrerLimitReached else ret tt.

Fixpoint check_windows (windows : list RateLimitWindow) (referrer_username : string) (current : Z) (limits : RateLimit) (multiplier : Z) :
    S ReferralError unit :=
  match windows with
  | [] => ret tt
  | window :: windows =>
      let^ _ := check_referrer_rate_limit referrer_username (ago (duration window) current) (wrap_i64 (get limits window * multiplier)) in
      check_windows windows referrer_username current limits multiplier
  end.

(** *** The parts of [validate_and_score_referral_inner] *)

(** The referrer is verified and below its limits, and the device and wallet may be referred. *)
Definition check_referrer (device : DeviceRow) (wallet_id : Z) (referrer_username : string) : S ReferralError ReferrerInfo :=
  let^ _ := client_ in
  let^ referrer_info := db_ (get_referrer_info referrer_username) in
  if negb (is_verified (info_status referrer_info)) then fail (Validation (RewardsNotEnabled referrer_username)) else
  let^ multiplier := config_ (referrer_multiplier (info_status referrer_info)) in
  let^ current := now_ in
  let^ cooldown := config_ (get_duration ReferralCooldown) in
  let^ limits := config_ (get_rate_limit ReferralPerUserLimit) in
  let^ _ := check_windows ALL referrer_username current limits multiplier in
  let^ recent := db_ (repo_count_referrals_since referrer_username (ago cooldown current)) in
  if 1 <=? recent then fail ReferrerLimitReached else
  let^ eligibility := config_ (get_duration ReferralEligibility) in
  let eligibility_days := eligibility / 86400 in
  let^ _ := with_error Validation (on_tables (validate_referral_use referrer_username (info_wallet_id referrer_info) wallet_id (device_row_id device)
              (device_created_at device) (Some eligibility_days))) in
  ret referrer_info.

Definition platform_as_i32 (self : Platform) : Z := match self with IOS => 1 | Android => 2 end.

Definition check_device_token (device : DeviceRow) : S ReferralError unit :=
  if bool_decide (device_platform device = Android) then
    match is_device_token_valid (device_token device) (platform_as_i32 (device_platform device)) with
    | Ok true => ret tt
    | Ok false => fail (InvalidDeviceToken "token_not_registered")
    | Err e => fail (InvalidDeviceToken e)
    end
  else ret tt.

(** The address is neither of Tor nor of an ineligible country, and the country is below its limit. *)
Definition check_address (ip_address : string) : S ReferralError IpCheckResult :=
  let^ ip_result := with_error from_box (with_error Failed (on_cache (check_ip ip_address))) in
  let^ security_config := config_ load_referral_security_config in
  if negb (tor_allowed security_config) && is_tor ip_result then fail IpTorNotAllowed
  else if bool_decide (country_code ip_result ∈ ineligible_countries security_config) then fail (IpCountryIneligible (country_code ip_result))
  else
    let^ _ := consume_referral_limits [(ReferralPerCountryLimit, country_code ip_result)] in
    ret ip_result.

(** [unwrap_or(false)] *)
Definition or_else_false (m : S ReferralError bool) : S ReferralError bool := let^ r := catch m in ret (match r with Ok b => b | Err _ => false end).

Definition to_scoring_input (device : DeviceRow) (referrer_username : string) (referrer_info : ReferrerInfo) (ip_result : IpCheckResult)
    (user_agent : string) : RiskScoringInput :=
  MkScoringInput referrer_username (device_row_id device) (device_platform device) (device_platform_store device) (device_os device)
    (device_model device) (device_locale device) (device_currency device) ip_result (info_status referrer_info)
    (info_referral_count referrer_info) user_agent.

(** What the store says about a signal: those that match it, and the counts over all of them *)
Definition gather_signals (signal_input : RiskSignalInput) (since : Z) : S ReferralError (list RiskSignalRow * SignalCounts) :=
  let fingerprint := generate_fingerprint signal_input in
  let^ existing_signals := db_ (repo_get_matching_risk_signals fingerprint (input_ip_address signal_input) (input_isp signal_input)
                             (input_model signal_input) (input_device_id signal_input) since) in
  let^ ring := db_ (repo_count_unique_referrers_for_device_model_pattern (input_model signal_input) (input_platform signal_input)
                 (input_locale signal_input) since) in
  let^ abusers := db_ (repo_count_disabled_users_by_ip (input_ip_address signal_input) since) in
  let^ cross := db_ (repo_count_unique_referrers_for_fingerprint fingerprint since) in
  let^ countries := db_ (repo_count_unique_countries_for_referrer (input_username signal_input) since) in
  let^ devices := db_ (repo_count_unique_devices_for_referrer (input_username signal_input) since) in
  ret (existing_signals, MkCounts ring abusers cross countries devices).

Definition score_referral (device : DeviceRow) (referrer_username user_agent : string) (referrer_info : ReferrerInfo) (ip_result : IpCheckResult) :
    S ReferralError ReferralProcessResult :=
  let^ risk_score_config := config_ load_risk_score_config in
  let^ current := now_ in
  let since := ago (lookback risk_score_config) current in
  let^ _ := client_ in
  let^ disabled := db_ (repo_count_disabled_users_by_device (device_row_id device) since) in
  if 0 <? disabled then fail LimitReached else
  let scoring_input := to_scoring_input device referrer_username referrer_info ip_result user_agent in
  let signal_input := to_signal_input scoring_input in
  let^ duplicate := or_else_false (db_ (repo_has_fingerprint_for_referrer (generate_fingerprint signal_input) referrer_username since)) in
  if (duplicate : bool) then fail DuplicateAttempt else
  let^ (existing_signals, counts) := gather_signals signal_input since in
  let^ time := now_ in
  let risk_result := evaluate_risk time scoring_input existing_signals counts risk_score_config in
  let^ risk_signal_id := db_ (repo_add_risk_signal (result_signal risk_result)) in
  if is_allowed (result_score risk_result) then ret (ProcessSuccess risk_signal_id (info_status referrer_info))
  else ret (ProcessScoreExceeded risk_signal_id (RiskScoreExceeded (score (result_score risk_result)) (max_allowed_score risk_score_config))).

Definition validate_and_score_referral_inner (device : DeviceRow) (wallet_id : Z) (referrer_username ip_address user_agent : string) :
    S ReferralError ReferralProcessResult :=
  let^ _ := consume_referral_limits [(ReferralGlobalLimit, GLOBAL_RATE_LIMIT_SCOPE); (ReferralPerDeviceLimit, pretty (device_row_id device));
              (ReferralPerIpLimit, ip_address)] in
  let^ referrer_info := check_referrer device wallet_id referrer_username in
  let^ _ := check_device_token device in
  let^ ip_result := check_address ip_address in
  score_referral device referrer_username user_agent referrer_info ip_result.

Definition validate_and_score_referral (device : DeviceRow) (wallet_id : Z) (referrer_username ip_address user_agent : string) :
    S ServiceError ReferralProcessResult :=
  let^ r := catch (validate_and_score_referral_inner device wallet_id referrer_username ip_address user_agent) in
  ret (match r with Ok result => result | Err e => ProcessFailed e end).

(** *** [use_referral_code] *)

Definition get_or_create_wallet (identifier : string) : result DatabaseError WalletRow :=
  match get_wallet identifier with
  | Ok existing => Ok existing
  | Err NotFound => map_err from_diesel (create_wallet identifier)
  | Err error => Err (from_diesel error)
  end.

(** [?] on an error of the storage, and a localized error of a referral *)
Definition stored {A} (m : M DatabaseError A) : S ServiceError A := with_error StorageFailed (on_tables m).
Definition connected : S ServiceError unit := with_error StorageFailed client.
Definition refused (locale : string) (e : ReferralError) : ServiceError := RewardsFailed (ReferralMessage (localize_referral e locale)).
(** [let _ = ...] *)
Definition ignored {A} (m : S ServiceError A) : S ServiceError unit := let^ _ := catch m in ret tt.

Definition use_pending (device : DeviceRow) (wallet_id : Z) (referrer_username : string) (referrer_info : ReferrerInfo) :
    S ServiceError (list RewardEvent) :=
  if negb (is_verified (info_status referrer_info)) && negb (bool_decide (info_status referrer_info = Attribution)) then
    fail (refused (device_locale device) (Validation (RewardsNotEnabled referrer_username)))
  else stored (use_or_verify_referral referrer_username (info_status referrer_info) wallet_id (device_row_id device) None).

Definition use_attribution (device : DeviceRow) (wallet_id : Z) (referrer_username : string) (referrer_info : ReferrerInfo) :
    S ServiceError (list RewardEvent) :=
  let^ _ := with_error (fun e => refused (device_locale device) (Validation e))
              (on_tables (validate_referral_use referrer_username (info_wallet_id referrer_info) wallet_id (device_row_id device)
                (device_created_at device) None)) in
  stored (use_or_verify_referral referrer_username (info_status referrer_info) wallet_id (device_row_id device) None).

(** An attempt is kept when a connection can be had for it. *)
Definition keep_attempt (referrer_username : string) (wallet_id device_id : Z) (signal : option Z) (error : ReferralError) : S ServiceError unit :=
  let^ _ := connected in ignored (stored (add_referral_attempt referrer_username wallet_id device_id signal (referral_error_text error))).

Definition use_screened (device : DeviceRow) (wallet_id : Z) (referrer_username ip_address user_agent : string) :
    S ServiceError (list RewardEvent) :=
  let^ result := validate_and_score_referral device wallet_id referrer_username ip_address user_agent in
  match result with
  | ProcessSuccess risk_signal_id referrer_status =>
      let^ _ := connected in
      stored (use_or_verify_referral referrer_username referrer_status wallet_id (device_row_id device) (Some risk_signal_id))
  | ProcessFailed error =>
      let^ _ := keep_attempt referrer_username wallet_id (device_row_id device) None error in
      fail (refused (device_locale device) error)
  | ProcessScoreExceeded risk_signal_id error =>
      let^ _ := keep_attempt referrer_username wallet_id (device_row_id device) (Some risk_signal_id) error in
      fail (refused (device_locale device) error)
  end.

Definition use_referral_code (device : DeviceRow) (address code ip_address user_agent : string) : S ServiceError (list RewardEvent) :=
  let wallet_identifier := WalletIds.to_string (WalletIds.MulticoinId address) in
  let^ _ := connected in
  let^ wallet := of_result (map_err StorageFailed (get_or_create_wallet wallet_identifier)) in
  let wallet_id := wallet_row_id wallet in
  let^ _ := connected in
  let^ found := stored (get_referral_code code) in
  match found with
  | None => fail (refused (device_locale device) (Validation CodeDoesNotExist))
  | Some referrer_username =>
      let^ referrer_info := stored (get_referrer_info referrer_username) in
      let^ pending := stored (is_pending_referral referrer_username wallet_id (device_row_id device)) in
      if (pending : bool) then use_pending device wallet_id referrer_username referrer_info
      else if bool_decide (info_status referrer_info = Attribution) then use_attribution device wallet_id referrer_username referrer_info
      else use_screened device wallet_id referrer_username ip_address user_agent
  end.

(** *** Reading *)

(** [Rewards::default] *)
Definition default_rewards : Rewards := MkRewardsView None (event_points InviteNew) 0 0 None Unverified 0 None [] None.

Definition get_rewards_by_wallet_id (wallet_id : Z) : S ServiceError Rewards :=
  let^ _ := connected in
  let^ r := catch (on_tables (get_reward_by_wallet_id wallet_id)) in
  match r with
  | Ok r => ret r
  | Err error => if is_not_found error then ret default_rewards else fail (StorageFailed error)
  end.
Definition get_rewards_events_by_wallet_id (wallet_id : Z) : S ServiceError (list RewardEvent) :=
  let^ _ := connected in stored (get_reward_events_by_wallet_id wallet_id).
Definition get_rewards_redemption_option (code : string) : S ServiceError RewardRedemptionOption :=
  let^ _ := connected in stored (repo_get_redemption_option code).

(** *** [create_username] *)

Definition publish_events (event_ids : list Z) : S ServiceError unit := of_result (map_err Failed (publish_rewards_events event_ids)).

Definition map_username_error (error : ServiceError) (locale : string) : ServiceError :=
  RewardsFailed (UsernameMessage (match error with UsernameRefused e => localize_username e locale | e => service_text e end)).

Definition consume_username_creation_limit (key : RateLimitKey) (scope : string) : S ServiceError unit :=
  let^ allowed := consume_rate_limit key scope in
  if (allowed : bool) then ret tt else fail (UsernameRefused (UsernameLimitReached key)).

Definition consume_username_creation_limits (ip_address : string) (device_id : Z) : S ServiceError unit :=
  let^ _ := consume_username_creation_limit UsernameCreationGlobalLimit GLOBAL_RATE_LIMIT_SCOPE in
  let^ _ := consume_username_creation_limit UsernameCreationPerIpLimit ip_address in
  consume_username_creation_limit UsernameCreationPerDeviceLimit (pretty device_id).

Definition create_username_ (wallet_identifier code : string) (device_id : Z) (ip_address locale : string) : S ServiceError Rewards :=
  let^ _ := connected in
  let^ wallet := stored (or_not_found_for "Wallet" wallet_identifier (of_wallets (get_wallet wallet_identifier))) in
  let^ _ := with_error (fun e => map_username_error e locale) (consume_username_creation_limits ip_address device_id) in
  let^ ip_result := with_error Failed (on_cache (check_ip ip_address)) in
  let^ _ := with_error (fun e => map_username_error e locale) (consume_username_creation_limit UsernameCreationPerCountryLimit (country_code ip_result)) in
  let^ _ := connected in
  let^ (rewards, event_id) := with_error (fun e => RewardsFailed (UsernameMessage (localize_username (UsernameValidation e) locale)))
                                (on_tables (create_reward (wallet_row_id wallet) code)) in
  let^ _ := publish_events [event_id] in
  ret rewards.

End client.
End RewardsClient.

(** ** Redemptions *)

Module RewardsRedemptionClient.
Import RewardsModels RewardsStore DatabaseErrors ConfigKeys RewardsErrors ServiceMonad RewardsClient RewardsRepository.

Section client.
Context `{Lowercase} `{SqlLower} `{WalletsStore} `{AssetsTable} `{Clock} `{DieselText} `{ParseBigIntText} `{BigUintParse}
  `{ConfigCacher} `{Cacher} `{DbPool} `{EventQueue}.

Fixpoint check_redemption_windows (windows : list RateLimitWindow) (username : string) (current : Z) (limits : RateLimit) : S ServiceError unit :=
  match windows with
  | [] => ret tt
  | window :: windows =>
      let^ _ := connected in
      let^ count := stored (repo_count_redemptions_since username (ago (duration window) current)) in
      if get limits window <=? count then fail (RedemptionRefused RedemptionLimitReached)
      else check_redemption_windows windows username current limits
  end.

Definition config_value {A} (r : result DatabaseError A) : S ServiceError A := of_result (map_err StorageFailed r).

Definition check_redemption_limits (username : string) (rewards : Rewards) : S ServiceError unit :=
  let^ current := now_ in
  let^ min_age := config_value (get_duration RedemptionMinAccountAge) in
  if ago min_age current <? view_created_at rewards then fail (RedemptionRefused AccountTooNew) else
  let^ cooldown := config_value (get_duration RedemptionCooldownAfterReferral) in
  let^ _ := connected in
  let^ recent := stored (repo_count_referrals_since username (ago cooldown current)) in
  if 0 <? recent then fail (RedemptionRefused CooldownNotElapsed) else
  let^ limits := config_value (get_rate_limit RedemptionPerUserLimit) in
  check_redemption_windows ALL username current limits.

Definition redeem_by_wallet_id (wallet_id : Z) (id : string) (device_id : Z) : S ServiceError RewardRedemption :=
  let^ _ := connected in
  let^ rewards := stored (get_reward_by_wallet_id wallet_id) in
  if negb (is_verified (view_status rewards)) then fail (RedemptionRefused (NotEligible "Not eligible for rewards")) else
  let^ username := of_result (ok_or (code rewards) (RedemptionRefused NoUsername)) in
  let^ _ := check_redemption_limits username rewards in
  let^ _ := connected in
  let^ (redemption, redemption_id) := stored (redeem_points username id device_id wallet_id) in
  let^ _ := of_result (map_err Failed (publish_rewards_redemption redemption_id)) in
  ret redemption.

End client.
End RewardsRedemptionClient.

(** ** The promotion of users *)

Module RewardsEligibilityChecker.
Import RewardsModels RewardsStore DatabaseErrors ConfigKeys RewardsErrors ServiceMonad RewardsClient RewardsRedemptionClient RewardsRepository.

Section checker.
Context `{Lowercase} `{SqlLower} `{WalletsStore} `{AssetsTable} `{Clock} `{DieselText} `{ConfigCacher} `{Cacher} `{DbPool} `{EventQueue}.

Definition evaluate_and_promote (username : string) (eligibility : RewardsEligibilityConfig) : S ServiceError bool :=
  let^ _ := connected in
  let^ eligible := stored (check_eligibility username eligibility) in
  match eligible with
  | None => ret false
  | Some _ =>
      let^ _ := connected in
      let^ reward_event_ids := stored (promote_to_verified username) in
      let^ _ := of_result (map_err Failed (publish_rewards_events reward_event_ids)) in
      ret true
  end.

(** The users one by one; an error is logged and the next one is taken. *)
Fixpoint promote_users (usernames : list string) (eligibility : RewardsEligibilityConfig) (promotion_limit promoted : Z) : S ServiceError Z :=
  match usernames with
  | [] => ret promoted
  | username :: usernames =>
      if promotion_limit <=? promoted then ret promoted else
      let^ result := catch (evaluate_and_promote username eligibility) in
      promote_users usernames eligibility promotion_limit (match result with Ok true => promoted + 1 | _ => promoted end)
  end.

(** [i64 as usize] *)
Definition as_usize (z : Z) : Z := z mod 2 ^ 64.

Definition check : S ServiceError Z :=
  let^ promotion_limit := config_value (get_i64 RewardsEligibilityPromotionLimit) in
  let^ active_duration := config_value (get_duration RewardsEligibilityActiveDuration) in
  let^ current := now_ in
  let^ transactions := config_value (get_i64 RewardsEligibilityTransactionsCount) in
  let eligibility := MkEligibility (ago active_duration current) transactions in
  let^ _ := connected in
  let^ rows := stored (repo_get_rewards_by_filter [FilterStatuses [Unverified]]) in
  promote_users (map rewards_username rows) eligibility (as_usize promotion_limit) 0.

End checker.
End RewardsEligibilityChecker.

(** ** The detection of abuse *)

Module RewardsAbuseChecker.
Import F64 RewardsModels RewardsStore DatabaseErrors ConfigKeys RewardsErrors ServiceMonad RewardsClient RewardsRedemptionClient RewardsRepository.
Import RiskSignalsStore RiskSignalsRepository.

Record AbuseDetectionConfig := MkAbuseConfig {
  disable_threshold : Z;
  attempt_penalty : Z;
  verified_threshold_multiplier : spec_float;
  abuse_lookback : Z;
  min_referrals_to_evaluate : Z;
  country_rotation_threshold : Z;
  country_rotation_penalty : Z;
  ring_referrers_per_device_threshold : Z;
  ring_referrers_per_fingerprint_threshold : Z;
  ring_penalty : Z;
  abuse_device_farming_threshold : Z;
  abuse_device_farming_penalty : Z;
  abuse_velocity_window : Z;
  abuse_velocity_divisor : Z;
  abuse_velocity_penalty : Z;
  abuse_referral_per_user_daily : Z;
  abuse_verified_multiplier : Z;
  abuse_trusted_multiplier : Z;
  disabled_referrer_penalty : Z
}.

Record AbuseScoreBreakdown := MkAbuseScore {
  base_score : spec_float;
  risk_score_per_referral : spec_float;
  attempts_per_referral : spec_float;
  attempt_penalty_score : spec_float
}.
Record PatternPenaltyBreakdown := MkPenalty {
  country_rotation_part : spec_float;
  ring_part : spec_float;
  farming_part : spec_float;
  velocity_burst_part : spec_float
}.
Definition total (self : PatternPenaltyBreakdown) : spec_float :=
  add (add (add (country_rotation_part self) (ring_part self)) (farming_part self)) (velocity_burst_part self).

Record AbuseEvaluation := MkEvaluation {
  evaluated : string;
  evaluated_status : RewardStatus;
  evaluated_referrals : Z;
  evaluated_attempts : Z;
  evaluated_risk_score : Z;
  patterns : AbusePatterns;
  abuse_breakdown : AbuseScoreBreakdown;
  pattern_penalty : PatternPenaltyBreakdown;
  referrer_disabled : bool;
  referrer_penalty : spec_float;
  threshold : spec_float;
  abuse_score_ : spec_float;
  abuse_percent : spec_float
}.

Definition calculate_abuse_score_breakdown (risk_score_sum attempt_count referral_count : Z) (config : AbuseDetectionConfig) : AbuseScoreBreakdown :=
  let referrals := of_i64 (Z.max referral_count 1) in
  let risk := div (of_i64 risk_score_sum) referrals in
  let attempts := div (of_i64 attempt_count) referrals in
  let penalty := mul attempts (of_i64 (attempt_penalty config)) in
  MkAbuseScore (add risk penalty) risk attempts penalty.

Definition calculate_abuse_threshold (config : AbuseDetectionConfig) (status : RewardStatus) : spec_float :=
  let multiplier := if bool_decide (status = Trusted) then of_i64 (abuse_trusted_multiplier config)
                    else if is_verified status then verified_threshold_multiplier config else of_i64 1 in
  mul (of_i64 (disable_threshold config)) multiplier.

Definition zero : spec_float := S754_zero false.
Definition penalty_when (b : bool) (penalty : Z) : spec_float := if b then of_i64 penalty else zero.

Definition calculate_pattern_penalty_breakdown (p : AbusePatterns) (config : AbuseDetectionConfig) (status : RewardStatus) : PatternPenaltyBreakdown :=
  let multiplier := if bool_decide (status = Trusted) then abuse_trusted_multiplier config
                    else if is_verified status then abuse_verified_multiplier config else 1 in
  let daily_limit := wrap_i64 (abuse_referral_per_user_daily config * multiplier) in
  let velocity_threshold := Z.quot daily_limit (Z.max (abuse_velocity_divisor config) 1) in
  let over_threshold := wrap_i64 (signals_in_velocity_window p - velocity_threshold + 1) in
  MkPenalty
    (penalty_when (country_rotation_threshold config <=? max_countries_per_device p) (country_rotation_penalty config))
    (penalty_when ((ring_referrers_per_device_threshold config <=? max_referrers_per_device p)
       || (ring_referrers_per_fingerprint_threshold config <=? max_referrers_per_fingerprint p)) (ring_penalty config))
    (penalty_when (abuse_device_farming_threshold config <=? max_devices_per_ip p) (abuse_device_farming_penalty config))
    (penalty_when (velocity_threshold <=? signals_in_velocity_window p) (wrap_i64 (over_threshold * abuse_velocity_penalty config))).

(** [f64::min]: a value that is no number gives way to the other. *)
Definition fmin (a b : spec_float) : spec_float :=
  match a, b with
  | S754_nan, _ => b
  | _, S754_nan => a
  | _, _ => if SFltb b a then b else a
  end.

Section checker.
Context `{Lowercase} `{SqlLower} `{WalletsStore} `{AssetsTable} `{Clock} `{DieselText} `{ConfigCacher} `{Cacher} `{DbPool} `{EventQueue} `{FormatF64}.

Definition load_config : result DatabaseError AbuseDetectionConfig :=
  let? disable := get_i64 ReferralAbuseDisableThreshold in
  let? attempt := get_i64 ReferralAbuseAttemptPenalty in
  let? verified_threshold := get_f64 ReferralAbuseVerifiedThresholdMultiplier in
  let? lookback := get_duration ReferralAbuseLookback in
  let? min_referrals := get_i64 ReferralAbuseMinReferralsToEvaluate in
  let? rotation_threshold := get_i64 ReferralAbuseCountryRotationThreshold in
  let? rotation_penalty := get_i64 ReferralAbuseCountryRotationPenalty in
  let? ring_device := get_i64 ReferralAbuseRingReferrersPerDeviceThreshold in
  let? ring_fingerprint := get_i64 ReferralAbuseRingReferrersPerFingerprintThreshold in
  let? ring := get_i64 ReferralAbuseRingPenalty in
  let? farming_threshold := get_i64 ReferralAbuseDeviceFarmingThreshold in
  let? farming_penalty := get_i64 ReferralAbuseDeviceFarmingPenalty in
  let? window := get_duration ReferralAbuseVelocityWindow in
  let? divisor := get_i64 ReferralAbuseVelocityDivisor in
  let? velocity := get_i64 ReferralAbuseVelocityPenaltyPerSignal in
  let? user_limit := get_rate_limit ReferralPerUserLimit in
  let? verified := get_i64 ReferralVerifiedMultiplier in
  let? trusted := get_i64 ReferralTrustedMultiplier in
  let? disabled := get_i64 ReferralAbuseDisabledReferrerPenalty in
  Ok {|
    disable_threshold := disable;
    attempt_penalty := attempt;
    verified_threshold_multiplier := verified_threshold;
    abuse_lookback := lookback;
    min_referrals_to_evaluate := min_referrals;
    country_rotation_threshold := rotation_threshold;
    country_rotation_penalty := rotation_penalty;
    ring_referrers_per_device_threshold := ring_device;
    ring_referrers_per_fingerprint_threshold := ring_fingerprint;
    ring_penalty := ring;
    abuse_device_farming_threshold := farming_threshold;
    abuse_device_farming_penalty := farming_penalty;
    abuse_velocity_window := window;
    abuse_velocity_divisor := divisor;
    abuse_velocity_penalty := velocity;
    abuse_referral_per_user_daily := get user_limit Day;
    abuse_verified_multiplier := verified;
    abuse_trusted_multiplier := trusted;
    disabled_referrer_penalty := disabled
  |}.

(** [get_referrer_username(..).ok().flatten().and_then(..)] is the status of who referred the user, if all of it can be read. *)
Definition referrer_is_disabled (username : string) : S ServiceError bool :=
  let^ found := catch (stored (get_referrer_username username)) in
  match found with
  | Ok (Some referrer) =>
      let^ status := catch (stored (get_status_by_username referrer)) in
      ret (match (status : result ServiceError RewardStatus) with Ok s => bool_decide (s = Disabled) | Err _ => false end)
  | _ => ret false
  end.

Definition evaluate_user (username : string) (config : AbuseDetectionConfig) : S ServiceError AbuseEvaluation :=
  let^ _ := connected in
  let^ status := stored (get_status_by_username username) in
  let^ current := now_ in
  let since := ago (abuse_lookback config) current in
  let^ referral_count := stored (repo_count_referrals_since username since) in
  let^ attempt_count := stored (repo_count_attempts_for_referrer username since) in
  let^ risk_score_sum := stored (repo_sum_risk_scores_for_referrer username since) in
  let^ patterns := stored (repo_get_abuse_patterns_for_referrer username since (abuse_velocity_window config)) in
  let score := calculate_abuse_score_breakdown risk_score_sum attempt_count referral_count config in
  let pattern_penalty := calculate_pattern_penalty_breakdown patterns config status in
  let^ referrer_disabled := referrer_is_disabled username in
  let referrer_penalty := penalty_when referrer_disabled (disabled_referrer_penalty config) in
  let abuse_score := add (add (base_score score) (total pattern_penalty)) referrer_penalty in
  let threshold := calculate_abuse_threshold config status in
  let abuse_percent := fmin (mul (div abuse_score threshold) (of_i64 100)) (of_i64 100) in
  ret (MkEvaluation username status referral_count attempt_count risk_score_sum patterns score pattern_penalty referrer_disabled referrer_penalty
         threshold abuse_score abuse_percent).

(** [filter_map(|username| evaluate_user(..).ok())] *)
Fixpoint evaluate_users (usernames : list string) (config : AbuseDetectionConfig) : S ServiceError (list AbuseEvaluation) :=
  match usernames with
  | [] => ret []
  | username :: usernames =>
      let^ evaluation := catch (evaluate_user username config) in
      let^ evaluations := evaluate_users usernames config in
      ret (match (evaluation : result ServiceError AbuseEvaluation) with Ok e => e :: evaluations | Err _ => evaluations end)
  end.

(** The stable sort by [b.abuse_percent.partial_cmp(&a.abuse_percent)], where what cannot be compared is equal *)
Fixpoint insert_by_percent (e : AbuseEvaluation) (l : list AbuseEvaluation) : list AbuseEvaluation :=
  match l with
  | [] => [e]
  | x :: l => if SFltb (abuse_percent e) (abuse_percent x) then x :: insert_by_percent e l else e :: x :: l
  end.
Definition sort_by_percent (l : list AbuseEvaluation) : list AbuseEvaluation := foldr insert_by_percent [] l.

Definition disable_comment (eval : AbuseEvaluation) : string :=
  "abuse_score=" ++ format_f64 0 (abuse_score_ eval) ++ ", threshold=" ++ format_f64 0 (threshold eval)
  ++ ", base_score=" ++ format_f64 2 (base_score (abuse_breakdown eval)) ++ ", risk_scores=" ++ pretty (evaluated_risk_score eval)
  ++ ", attempts=" ++ pretty (evaluated_attempts eval) ++ ", referrals=" ++ pretty (evaluated_referrals eval)
  ++ ", risk_score/referral=" ++ format_f64 2 (risk_score_per_referral (abuse_breakdown eval))
  ++ ", attempts/referral=" ++ format_f64 2 (attempts_per_referral (abuse_breakdown eval))
  ++ ", attempt_penalty_score=" ++ format_f64 2 (attempt_penalty_score (abuse_breakdown eval))
  ++ ", pattern_penalty=" ++ format_f64 0 (total (pattern_penalty eval))
  ++ ", country_rotation_penalty=" ++ format_f64 0 (country_rotation_part (pattern_penalty eval))
  ++ ", ring_penalty=" ++ format_f64 0 (ring_part (pattern_penalty eval))
  ++ ", device_farming_penalty=" ++ format_f64 0 (farming_part (pattern_penalty eval))
  ++ ", velocity_penalty=" ++ format_f64 0 (velocity_burst_part (pattern_penalty eval))
  ++ ", disabled_referrer_penalty=" ++ format_f64 0 (referrer_penalty eval)
  ++ ", countries/device=" ++ pretty (max_countries_per_device (patterns eval))
  ++ ", referrers/device=" ++ pretty (max_referrers_per_device (patterns eval))
  ++ ", referrers/fingerprint=" ++ pretty (max_referrers_per_fingerprint (patterns eval))
  ++ ", devices/ip=" ++ pretty (max_devices_per_ip (patterns eval))
  ++ ", velocity_burst=" ++ pretty (signals_in_velocity_window (patterns eval))
  ++ ", referrer_disabled=" ++ (if referrer_disabled eval then "true" else "false").

Definition disable_user (eval : AbuseEvaluation) : S ServiceError Z :=
  let^ _ := connected in
  stored (repo_disable_rewards (evaluated eval) "Auto-disabled due to abuse detection" (disable_comment eval)).

(** [abuse_score >= threshold] *)
Definition is_abuse (eval : AbuseEvaluation) : bool := SFleb (threshold eval) (abuse_score_ eval).

Fixpoint disable_users (evaluations : list AbuseEvaluation) (disabled_count : Z) : S ServiceError Z :=
  match evaluations with
  | [] => ret disabled_count
  | eval :: evaluations =>
      if is_abuse eval then
        let^ event_id := disable_user eval in
        let^ _ := of_result (map_err Failed (publish_rewards_events [event_id])) in
        disable_users evaluations (disabled_count + 1)
      else disable_users evaluations disabled_count
  end.

Definition check : S ServiceError Z :=
  let^ _ := connected in
  let^ config := config_value load_config in
  let^ current := now_ in
  let since := ago (abuse_lookback config) current in
  let^ usernames := stored (repo_get_referrer_usernames_with_referrals since (min_referrals_to_evaluate config)) in
  let^ evaluations := evaluate_users usernames config in
  disable_users (sort_by_percent evaluations) 0.

End checker.
End RewardsAbuseChecker.
