(* ===== verification/RewardsServicesFacts.v ===== *)
(** * Rewards: theorems on the services

    Whatever the services are asked to do and wherever they fail, they run statements of the store, so that the ledger of
    [RewardsLedger] holds of their tables ([services_refine_store]).  A referral of a user that is no source of attribution
    was screened: its risk was scored, stored and below the limit ([referral_screened]).  A redemption leaves every window of
    time within its limit ([redemption_within_limits]).  The detection of abuse disables the users whose score reaches the
    threshold and nobody else ([abuse_disables_exactly]). *)
From Stdlib Require Import SpecFloat.
From S2P Require Import Prelude Text HexText Crates ChainRegistry Assets Wallets Floats RewardsStore RewardsLedger RewardsRepository RewardsFacts RiskScore RiskSignals RiskFacts RateLimits RewardsServices.

(** ** Predicates of the tables that services keep *)

Module ServicesKeep.
Import RewardsModels RewardsStore RewardsLedger DatabaseErrors RewardsErrors ConfigKeys ServiceMonad KeptPredicates.

Definition skeeps `{Cacher} {E A} (P : Db -> Prop) (m : S E A) : Prop := forall s, P (tables s) -> P (tables (snd (m s))).

Section keeps.
Context `{Cacher} `{DbPool} (P : Db -> Prop).

Lemma skeeps_ret {E A} (a : A) : skeeps P (ServiceMonad.ret (E := E) a).
Proof. by intros s. Qed.
Lemma skeeps_fail {E A} (e : E) : skeeps P (ServiceMonad.fail (A := A) e).
Proof. by intros s. Qed.
Lemma skeeps_of_result {E A} (r : result E A) : skeeps P (of_result r).
Proof. by intros s. Qed.
Lemma skeeps_bind {E A B} (m : S E A) (k : A -> S E B) : skeeps P m -> (forall a, skeeps P (k a)) -> skeeps P (ServiceMonad.bind m k).
Proof. intros M K s X. unfold ServiceMonad.bind. specialize (M s X). destruct (m s) as [[a|e] s']; [by apply K|done]. Qed.
Lemma skeeps_with_error {E F A} (f : E -> F) (m : S E A) : skeeps P m -> skeeps P (ServiceMonad.with_error f m).
Proof. intros M s X. unfold ServiceMonad.with_error. specialize (M s X). by destruct (m s). Qed.
Lemma skeeps_catch {E F A} (m : S E A) : skeeps P m -> skeeps P (catch (F := F) m).
Proof. intros M s X. unfold catch. specialize (M s X). by destruct (m s). Qed.
Lemma skeeps_on_cache {E A} (f : CacheState -> result E A * CacheState) : skeeps P (on_cache f).
Proof. intros s X. unfold on_cache. by destruct (f (cache s)). Qed.
Lemma skeeps_on_tables {E A} (m : M E A) : keeps P m -> skeeps P (on_tables m).
Proof. intros M s X. unfold on_tables. specialize (M (tables s) X). by destruct (m (tables s)). Qed.
Lemma skeeps_client : skeeps P client.
Proof. by intros s. Qed.

End keeps.

Create HintDb skeeps.
#[export] Hint Resolve skeeps_ret skeeps_fail skeeps_of_result skeeps_bind skeeps_with_error skeeps_catch skeeps_on_cache skeeps_on_tables
  skeeps_client : skeeps.

(** Runs through a service as [keeps] runs through a handler. *)
Ltac skeeps :=
  intros;
  repeat first
    [ done
    | solve [eauto 4 with skeeps keeps]
    | apply skeeps_bind; [|intros ?]
    | apply skeeps_with_error
    | apply skeeps_catch
    | apply skeeps_on_tables
    | match goal with
      | |- skeeps _ (match ?x with _ => _ end) => destruct x
      | |- skeeps _ (if ?b then _ else _) => destruct b
      | |- skeeps _ (let '_ := ?x in _) => destruct x
      end
    | progress keeps ].

End ServicesKeep.

(** ** Services run statements *)

Module ServicesRefinement.
Import RewardsModels RewardsStore RewardsLedger DatabaseErrors RewardsErrors ConfigKeys RateLimiter IpSecurity KeptPredicates Refinement ServicesKeep.
Import RiskSignalsStore RiskSignalsRepository RewardsRepository RewardsClient RewardsRedemptionClient.

Section services.
Context `{Lowercase} `{SqlLower} `{WalletsStore} `{WalletsWriter} `{AssetsTable} `{Clock} `{DieselText} `{ParseBigIntText} `{BigUintParse}
  `{RewardsConfig} `{Hex} `{Sha256} `{Regex} `{ConfigCacher} `{Cacher} `{IpProviders} `{DbPool} `{LanguageLocalizer} `{PusherClient} `{EventQueue}
  `{FormatF64}.

(** The parts that read: they keep whatever the passing of time keeps. *)
Section reads.
Context (P : Db -> Prop) `{!KeptClock P}.

Hint Resolve kept_now keeps_validate keeps_check_eligibility keeps_referrer_info keeps_is_pending keeps_find_username keeps_require_username
  keeps_require_rewards : keeps.

Lemma skeeps_now {E} : skeeps P (now_ (E := E)).
Proof. unfold now_. skeeps. Qed.
Lemma skeeps_limit key scope : skeeps P (consume_rate_limit key scope).
Proof. unfold consume_rate_limit. skeeps. Qed.
Hint Resolve skeeps_now skeeps_limit : skeeps.

Lemma skeeps_consume_all limits allowed : skeeps P (consume_all limits allowed).
Proof. revert allowed. induction limits as [|[key scope] limits IH]; intros allowed; cbn [consume_all]; skeeps. Qed.
Hint Resolve skeeps_consume_all : skeeps.
Lemma skeeps_referral_limits limits : skeeps P (consume_referral_limits limits).
Proof. unfold consume_referral_limits. skeeps. Qed.
Hint Resolve skeeps_referral_limits : skeeps.

Lemma skeeps_windows windows name current limits m : skeeps P (check_windows windows name current limits m).
Proof. induction windows as [|w windows IH]; cbn [check_windows]; unfold check_referrer_rate_limit, db_, repo_count_referrals_since; skeeps. Qed.
Hint Resolve skeeps_windows : skeeps.
Lemma skeeps_check_referrer device wallet name : skeeps P (check_referrer device wallet name).
Proof. unfold check_referrer, client_, db_, config_, repo_count_referrals_since. skeeps. Qed.
Lemma skeeps_token device : skeeps P (check_device_token device).
Proof. unfold check_device_token. skeeps. Qed.
Lemma skeeps_address ip : skeeps P (check_address ip).
Proof. unfold check_address, config_. skeeps. Qed.
Lemma skeeps_gather input since : skeeps P (gather_signals input since).
Proof.
  unfold gather_signals, db_, repo_get_matching_risk_signals, repo_count_unique_referrers_for_device_model_pattern, repo_count_disabled_users_by_ip,
    repo_count_unique_referrers_for_fingerprint, repo_count_unique_countries_for_referrer, repo_count_unique_devices_for_referrer. skeeps.
Qed.

Lemma skeeps_creation_limit key scope : skeeps P (consume_username_creation_limit key scope).
Proof. unfold consume_username_creation_limit. skeeps. Qed.

Lemma skeeps_redemption_windows windows name current limits : skeeps P (check_redemption_windows windows name current limits).
Proof. induction windows as [|w windows IH]; cbn [check_redemption_windows]; unfold connected, stored, repo_count_redemptions_since; skeeps. Qed.
Hint Resolve skeeps_redemption_windows : skeeps.
Lemma skeeps_redemption_limits name rewards : skeeps P (check_redemption_limits name rewards).
Proof. unfold check_redemption_limits, config_value, connected, stored, repo_count_referrals_since. skeeps. Qed.

Lemma keeps_max_over {A} (f : A -> M DieselError Z) l best : (forall x, keeps P (f x)) -> keeps P (max_over f l best).
Proof. intros F. revert best. induction l as [|x l IH]; intros best; cbn [max_over]; keeps. Qed.
Lemma keeps_patterns name since w : keeps P (get_abuse_patterns_for_referrer name since w).
Proof. unfold get_abuse_patterns_for_referrer. keeps; apply keeps_max_over; keeps. Qed.
Hint Resolve keeps_patterns : keeps.
Lemma skeeps_evaluate name config : skeeps P (RewardsAbuseChecker.evaluate_user name config).
Proof.
  unfold RewardsAbuseChecker.evaluate_user, RewardsAbuseChecker.referrer_is_disabled, connected, stored, get_status_by_username, get_referrer_username,
    repo_count_referrals_since, repo_count_attempts_for_referrer, repo_sum_risk_scores_for_referrer, repo_get_abuse_patterns_for_referrer. skeeps.
Qed.
Hint Resolve skeeps_evaluate : skeeps.
Lemma skeeps_evaluate_users names config : skeeps P (RewardsAbuseChecker.evaluate_users names config).
Proof. induction names as [|name names IH]; cbn [RewardsAbuseChecker.evaluate_users]; skeeps. Qed.

End reads.

(** The services *)
Section writes.
Context (P : Db -> Prop) `{!Kept P}.

Hint Resolve kept_clock kept_now kept_signal kept_attempt keeps_find_username keeps_identity keeps_get_reward keeps_create_reward keeps_promote
  keeps_use_referral keeps_redeem keeps_referral_attempt keeps_disable keeps_validate keeps_check_eligibility keeps_referrer_info keeps_is_pending : keeps.
Hint Resolve kept_clock skeeps_now skeeps_referral_limits skeeps_check_referrer skeeps_token skeeps_address skeeps_gather skeeps_creation_limit
  skeeps_redemption_limits skeeps_evaluate_users : skeeps.

Lemma skeeps_score device name agent info ip : skeeps P (score_referral device name agent info ip).
Proof.
  unfold score_referral, client_, config_, or_else_false, db_, repo_count_disabled_users_by_device, repo_has_fingerprint_for_referrer, repo_add_risk_signal. skeeps.
Qed.
Hint Resolve skeeps_score : skeeps.

Lemma skeeps_screen device wallet name ip agent : skeeps P (validate_and_score_referral device wallet name ip agent).
Proof. unfold validate_and_score_referral, validate_and_score_referral_inner. skeeps. Qed.
Hint Resolve skeeps_screen : skeeps.

Lemma skeeps_use_referral_code device address code ip agent : skeeps P (use_referral_code device address code ip agent).
Proof.
  unfold use_referral_code, use_pending, use_attribution, use_screened, keep_attempt, ignored, connected, stored, get_referral_code. skeeps.
Qed.

Lemma skeeps_create_username wallet code device ip locale : skeeps P (create_username_ wallet code device ip locale).
Proof. unfold create_username_, publish_events, consume_username_creation_limits, connected, stored. skeeps. Qed.

Lemma skeeps_redeem_by_wallet wallet id device : skeeps P (redeem_by_wallet_id wallet id device).
Proof. unfold redeem_by_wallet_id, connected, stored. skeeps. Qed.

Lemma skeeps_promote_users names eligibility limit promoted : skeeps P (RewardsEligibilityChecker.promote_users names eligibility limit promoted).
Proof.
  revert promoted. induction names as [|name names IH]; intros promoted; cbn [RewardsEligibilityChecker.promote_users];
    unfold RewardsEligibilityChecker.evaluate_and_promote, connected, stored; skeeps.
Qed.
Hint Resolve skeeps_promote_users : skeeps.
Lemma skeeps_eligibility : skeeps P RewardsEligibilityChecker.check.
Proof. unfold RewardsEligibilityChecker.check, config_value, connected, stored, repo_get_rewards_by_filter. skeeps. Qed.

Lemma skeeps_disable_users evaluations n : skeeps P (RewardsAbuseChecker.disable_users evaluations n).
Proof.
  revert n. induction evaluations as [|e evaluations IH]; intros n; cbn [RewardsAbuseChecker.disable_users];
    unfold RewardsAbuseChecker.disable_user, connected, stored; skeeps.
Qed.
Hint Resolve skeeps_disable_users : skeeps.
Lemma skeeps_abuse : skeeps P RewardsAbuseChecker.check.
Proof. unfold RewardsAbuseChecker.check, config_value, connected, stored, repo_get_referrer_usernames_with_referrals. skeeps. Qed.

Lemma skeeps_get_rewards wallet : skeeps P (get_rewards_by_wallet_id wallet).
Proof. unfold get_rewards_by_wallet_id, connected. skeeps. Qed.

(** What the services are asked to do *)
Inductive service_call :=
| UseReferralCode (device : DeviceRow) (address code ip_address user_agent : string)
| CreateUsernameCall (wallet_identifier code : string) (device_id : Z) (ip_address locale : string)
| Redeem (wallet_id : Z) (id : string) (device_id : Z)
| GetRewards (wallet_id : Z)
| CheckRewardsEligibility
| CheckRewardsAbuse.

(** The state after a call, whether it succeeds or fails *)
Definition call (s : Services) (c : service_call) : Services :=
  match c with
  | UseReferralCode device address code ip agent => snd (use_referral_code device address code ip agent s)
  | CreateUsernameCall wallet code device ip locale => snd (create_username_ wallet code device ip locale s)
  | Redeem wallet id device => snd (redeem_by_wallet_id wallet id device s)
  | GetRewards wallet_id => snd (get_rewards_by_wallet_id wallet_id s)
  | CheckRewardsEligibility => snd (RewardsEligibilityChecker.check s)
  | CheckRewardsAbuse => snd (RewardsAbuseChecker.check s)
  end.

Lemma calls_keep calls s : P (tables s) -> P (tables (fold_left call calls s)).
Proof.
  revert s. induction calls as [|c calls IH]; intros s X; [done|]. apply IH.
  destruct c; [by apply skeeps_use_referral_code|by apply skeeps_create_username|by apply skeeps_redeem_by_wallet|by apply skeeps_get_rewards|by apply skeeps_eligibility|by apply skeeps_abuse].
Qed.

End writes.
End services.

Section refinement.
Context `{Lowercase} `{SqlLower} `{WalletsStore} `{WalletsWriter} `{AssetsTable} `{Clock} `{DieselText} `{ParseBigIntText} `{BigUintParse}
  `{RewardsConfig} `{Hex} `{Sha256} `{Regex} `{ConfigCacher} `{Cacher} `{IpProviders} `{DbPool} `{LanguageLocalizer} `{PusherClient} `{EventQueue}
  `{FormatF64}.

(** (C31) Whatever the services are asked to do - to use a referral code, to create a name, to redeem or to show points, to
    promote users, to look for abuse - and wherever a call fails, the tables after it are those of a run of the statements of the store; from
    empty tables, the ledger of points, referrals and stock holds. *)
Theorem services_refine_store stock time calls s :
  NoDup (map option_row_id stock) -> Forall (fun row => opt_all (fun n => 0 <=? n) (remaining row) = true) stock ->
  rtc store_step (empty stock time) (tables s) ->
  rtc store_step (tables s) (tables (fold_left call calls s)) /\ sound (tables (fold_left call calls s)) /\ stocked stock (tables (fold_left call calls s)).
Proof.
  intros U R X. assert (Y : rtc store_step (tables s) (tables (fold_left call calls s))) by (apply (calls_keep (reached (tables s))), rtc_refl).
  split; [done|]. apply (reachable_sound stock time); [done|done|]. by etrans.
Qed.

End refinement.
End ServicesRefinement.

(** ** A referral is screened *)

Module Screening.
Import F64 IpChecks RiskScoring.
Import RewardsModels RewardsStore RewardsLedger DatabaseErrors RewardsErrors ConfigKeys RateLimiter IpSecurity KeptPredicates ServicesKeep.
Import RiskSignalsStore RiskSignalsRepository RewardsRepository RewardsClient.

(** The rows of referrals are old, or those of one referrer, device and signal. *)
Record referred_by (old : list RewardReferralRow) (sg : list RiskSignalRow) (name : string) (device : Z) (signal : option Z) (db : Db) : Prop := {
  same_signals : signals db = sg;
  new_referrals : Forall (fun row => (exists row0, row0 ∈ old /\ referral_id row0 = referral_id row)
    \/ (referrer row = name /\ referred_device_id row = device /\ referral_signal_id row = signal)) (referrals db)
}.

Lemma referred_start db name device signal : referred_by (referrals db) (signals db) name device signal db.
Proof. split; [done|]. apply Forall_forall. intros row R. left. eauto. Qed.

Lemma sbind_run `{Cacher} {E A B} (m : ServiceMonad.S E A) (k : A -> ServiceMonad.S E B) s :
  (exists a s1, m s = (Ok a, s1) /\ ServiceMonad.bind m k s = k a s1) \/ (exists e s1, m s = (Err e, s1) /\ snd (ServiceMonad.bind m k s) = s1).
Proof. unfold ServiceMonad.bind. destruct (m s) as [[a|e] s1]; [left|right]; eauto. Qed.

Lemma sbind_ok `{Cacher} {E A B} (m : ServiceMonad.S E A) (k : A -> ServiceMonad.S E B) s b s' :
  ServiceMonad.bind m k s = (Ok b, s') -> exists a s1, m s = (Ok a, s1) /\ k a s1 = (Ok b, s').
Proof. unfold ServiceMonad.bind. destruct (m s) as [[a|e] s1]; [eauto|done]. Qed.

Lemma swith_ok `{Cacher} {E F A} (f : E -> F) (m : ServiceMonad.S E A) s b s' : ServiceMonad.with_error f m s = (Ok b, s') -> m s = (Ok b, s').
Proof. unfold ServiceMonad.with_error. by destruct (m s) as [[a|e] s1]; intros [= -> ->]. Qed.

Lemma bind_ok {E A B} (m : M E A) (k : A -> M E B) db b db' : bind m k db = (Ok b, db') -> exists a db1, m db = (Ok a, db1) /\ k a db1 = (Ok b, db').
Proof. unfold bind. destruct (m db) as [[a|e] db1]; [eauto|done]. Qed.

Lemma with_ok {E F A} (f : E -> F) (m : M E A) db b db' : with_error f m db = (Ok b, db') -> m db = (Ok b, db').
Proof. unfold with_error. by destruct (m db) as [[a|e] db1]; intros [= -> ->]. Qed.

Lemma on_tables_ok `{Cacher} {E A} (m : M E A) s b s' : ServiceMonad.on_tables m s = (Ok b, s') -> m (tables s) = (Ok b, tables s').
Proof. unfold ServiceMonad.on_tables. by destruct (m (tables s)) as [r db]; intros [= -> <-]. Qed.

Section screening.
Context `{Lowercase} `{SqlLower} `{WalletsStore} `{WalletsWriter} `{AssetsTable} `{Clock} `{DieselText} `{ParseBigIntText} `{BigUintParse}
  `{RewardsConfig} `{Hex} `{Sha256} `{Regex} `{ConfigCacher} `{Cacher} `{IpProviders} `{DbPool} `{LanguageLocalizer} `{PusherClient} `{EventQueue}.

(** A transaction whose guards are followed by writes to other tables *)
Ltac row_transaction := let db := fresh "db" in let a := fresh "a" in let db' := fresh "db'" in let E := fresh "E" in intros db a db' E; cbv zeta in E;
  unfold insert_event, add_points in E; cbv zeta in E;
  repeat (match type of E with
          | context [check ?c ?k] => destruct (check c k); [|done]
          | context [if ?c then Err _ else _] => destruct c; [done|]
          end); apply ok_db in E; by subst.

(** *** What the handlers of a referral add *)

Section added.
Context (old : list RewardReferralRow) (sg : list RiskSignalRow) (name : string) (device : Z) (signal : option Z).
Notation F := (referred_by old sg name device signal).

Lemma referred_transaction {A} (tx : Tx A) : (forall db a db', tx db = Ok (a, db') -> signals db' = signals db /\ referrals db' = referrals db) ->
  keeps F (transaction tx).
Proof.
  intros T db [S R]. unfold transaction. destruct (tx db) as [[a db']|] eqn:E; [|done]. destruct (T _ _ _ E) as [S' R'].
  cbn. split; [by rewrite S'|by rewrite R'].
Qed.

#[local] Instance referred_clock : KeptClock F.
Proof. split. intros E db [S R]. by split. Qed.
Lemma referred_username_row row : keeps F (create_username row).
Proof. apply referred_transaction. row_transaction. Qed.
Lemma referred_rewards_row n d : keeps F (create_rewards n d).
Proof. apply referred_transaction. row_transaction. Qed.
Lemma referred_update n change : keeps F (update_rewards n change).
Proof. apply referred_transaction. row_transaction. Qed.
Lemma referred_event n type points : keeps F (add_event n type points).
Proof. unfold add_event. destruct (_ <? _); [by intros db X|]. apply referred_transaction. row_transaction. Qed.

Lemma referred_verified id time : keeps F (update_referral id time).
Proof.
  intros db [S R]. split; [done|]. cbn. unfold update. apply Forall_map. eapply Forall_impl; [exact R|]. intros row X. cbn.
  destruct (_ =? _); done.
Qed.

Lemma referred_added n verified : keeps F (add_referral (MkNewReferral name n device signal verified)).
Proof.
  intros db [S R]. unfold add_referral, transaction, insert_referral. cbv zeta.
  repeat (match goal with |- context [check ?c ?k] => destruct (check c k); [|by split] end). cbn [new_referrer new_referred].
  match goal with |- context [if ?c then Err OutOfRange else _] => destruct c; [by split|] end. cbn. split; [done|]. cbn.
  apply Forall_app. split; [done|]. apply Forall_singleton. by right.
Qed.

Hint Resolve kept_now keeps_find_username keeps_require_username keeps_require_rewards keeps_fails keeps_require_wallet keeps_latest_device
  keeps_can_verify referred_clock referred_username_row referred_rewards_row referred_update referred_event referred_verified referred_added : keeps.

Lemma referred_use status wallet : keeps F (use_or_verify_referral name status wallet device signal).
Proof.
  unfold use_or_verify_referral, ensure_wallet_reward_identity, create_username_and_rewards, confirm_pending_referral, create_new_referral,
    delay_verification, add_referral_with_events, add_referral_verified_events, add_referral_verified_event_rows, add_referral_pending_events,
    get_referral_by_username. keeps.
Qed.

End added.

(** *** A pending referral is confirmed, not made again *)

Definition only_old (old : list RewardReferralRow) (db : Db) : Prop :=
  Forall (fun row => exists row0, row0 ∈ old /\ referral_id row0 = referral_id row) (referrals db).

Lemma only_old_start db : only_old (referrals db) db.
Proof. apply Forall_forall. eauto. Qed.

Lemma bind_run {E A B} (m : M E A) (k : A -> M E B) db :
  (exists a db1, m db = (Ok a, db1) /\ bind m k db = k a db1) \/ (exists e db1, m db = (Err e, db1) /\ bind m k db = (Err e, db1)).
Proof. unfold bind. destruct (m db) as [[a|e] db1]; [left|right]; eauto. Qed.

(** The table of referrals stays as it is. *)
Definition same_referrals (old : list RewardReferralRow) (db : Db) : Prop := referrals db = old.
#[local] Instance same_clock old : KeptClock (same_referrals old).
Proof. split. by intros E db X. Qed.

Lemma same_transaction {A} (tx : Tx A) old : (forall db a db', tx db = Ok (a, db') -> referrals db' = referrals db) -> keeps (same_referrals old) (transaction tx).
Proof. intros T db X. unfold transaction, same_referrals. destruct (tx db) as [[a db']|] eqn:E; [|done]. cbn. by rewrite (T _ _ _ E). Qed.

Lemma same_username_row old row : keeps (same_referrals old) (create_username row).
Proof. apply same_transaction. row_transaction. Qed.
Lemma same_rewards_row old n d : keeps (same_referrals old) (create_rewards n d).
Proof. apply same_transaction. row_transaction. Qed.
Lemma same_update old n change : keeps (same_referrals old) (update_rewards n change).
Proof. apply same_transaction. row_transaction. Qed.
Lemma same_event old n type points : keeps (same_referrals old) (add_event n type points).
Proof. unfold add_event. destruct (_ <? _); [by intros db X|]. apply same_transaction. row_transaction. Qed.
Hint Resolve kept_now keeps_find_username keeps_require_username keeps_require_rewards keeps_fails keeps_require_wallet keeps_latest_device
  keeps_can_verify same_clock same_username_row same_rewards_row same_update same_event : keeps.

Lemma same_identity old wallet : keeps (same_referrals old) (ensure_wallet_reward_identity wallet).
Proof. unfold ensure_wallet_reward_identity, create_username_and_rewards. keeps. Qed.
Hint Resolve same_identity : keeps.

Lemma same_only {E A} (m : M E A) old : (forall rows, keeps (same_referrals rows) m) -> keeps (only_old old) m.
Proof. intros K db X. unfold only_old. by rewrite (K (referrals db) db eq_refl). Qed.

Lemma only_event old n type points : keeps (only_old old) (add_event n type points).
Proof. apply same_only. intros rows. apply same_event. Qed.
#[local] Instance only_clock old : KeptClock (only_old old).
Proof. split. by intros E db X. Qed.
Lemma only_verified old id time : keeps (only_old old) (update_referral id time).
Proof.
  intros db R. unfold only_old. cbn. unfold update. apply Forall_map. eapply Forall_impl; [exact R|]. intros row X. cbn. destruct (_ =? _); done.
Qed.
Hint Resolve only_event only_clock only_verified : keeps.

Lemma only_confirm old referral name status n device can_verify : keeps (only_old old) (confirm_pending_referral referral name status n device can_verify).
Proof. unfold confirm_pending_referral, add_referral_verified_events, add_referral_verified_event_rows. keeps. Qed.

(** The name of the wallet is the one it is referred by. *)
Lemma find_app_last {A} (p : A -> bool) l x : find p l = None -> p x = true -> find p (l ++ [x]) = Some x.
Proof. intros N X. induction l as [|y l IH]; cbn in *; [by rewrite X|]. destruct (p y); [done|auto]. Qed.

Lemma identity_name wallet n db user db' : fst (referred_username_of wallet db) = Ok n -> ensure_wallet_reward_identity wallet db = (Ok user, db') -> username user = n.
Proof.
  unfold referred_username_of, ensure_wallet_reward_identity. intros R I. apply bind_ok in I as (device & db1 & D & I).
  assert (db1 = db) as -> by (pose proof (keeps_latest_device (fun x => x = db) wallet db eq_refl) as K; by rewrite D in K).
  clear D. unfold bind at 1 in R. apply bind_ok in I as (found & db2 & F & I). unfold find_username, get_username, query in *.
  destruct (find _ (usernames db)) as [row|] eqn:G; cbn in F; cbn -[require_wallet_by_id] in R; injection F as <- <-.
  - injection R as <-. apply bind_ok in I as (missing & db3 & _ & I). destruct missing; [apply bind_ok in I as (r & db4 & _ & I)|]; by injection I as <- _.
  - unfold bind in R, I. destruct (require_wallet_by_id wallet db) as [[w|e] db3] eqn:W; [|done]. cbn in R. injection R as <-.
    assert (db3 = db) as -> by (unfold require_wallet_by_id, or_not_found_internal_for, of_wallets, with_error, query in W; by injection W).
    unfold create_username_and_rewards, bind in I. destruct (lift (create_username _) db) as [[u|e] db4] eqn:C; [|done].
    destruct (lift (create_rewards _ _) db4) as [[r|e] db5] eqn:D; [|done].
    assert (usernames db4 = usernames db ++ [MkUsername (wallet_address w) wallet UsernameUnverified]) as U.
    { apply with_ok in C. unfold create_username, transaction in C. repeat (destruct (check _ _); [|done]). by injection C as _ <-. }
    assert (usernames db5 = usernames db4) as V.
    { apply with_ok in D. unfold create_rewards, transaction in D. cbv zeta in D. repeat (destruct (check _ _); [|done]). by injection D as _ <-. }
    unfold require_username, or_not_found_internal_for, get_username, with_error, query in I. rewrite V, U in I.
    rewrite (find_app_last _ _ _ G) in I by apply Z.eqb_refl. by injection I as <- _.
Qed.

Lemma pending_row name wallet device db db' : is_pending_referral name wallet device db = (Ok true, db') ->
  exists n row, fst (referred_username_of wallet db) = Ok n /\ row ∈ referrals db /\ referred_username row = n.
Proof.
  unfold is_pending_referral. intros I. apply bind_ok in I as (n & db1 & R & I). exists n.
  assert (db1 = db) as -> by (pose proof (keeps_referred_username (fun x => x = db) wallet db eq_refl) as K; by rewrite R in K).
  apply bind_ok in I as (pending & db2 & O & I).
  assert (db2 = db) as ->.
  { assert (K : keeps (fun x => x = db) (or_false (bind (require_rewards n) (fun rewards => ret (bool_decide (status rewards = Pending)))))).
    { apply (keeps_or_false (fun x => x = db)). apply keeps_bind; [apply (keeps_require_rewards (fun x => x = db))|]. intros a. apply keeps_ret. }
    specialize (K db eq_refl). by rewrite O in K. }
  destruct pending; [|done]. cbn [negb] in I. apply bind_ok in I as (found & db3 & F & I).
  unfold lift, with_error, get_referral_by_referred_device_id, query in F. cbn in F. injection F as <- <-.
  destruct (find _ (referrals db)) as [row|] eqn:G; [|done]. injection I as M _. exists row.
  unfold is_matching_pending_referral_confirmation in M. zbool. apply find_some in G as [G _]. rewrite R. split; [done|]. split; [by apply list_elem_of_In|].
  by apply String.eqb_eq.
Qed.

(** So no row is added. *)
Lemma pending_only_old name status wallet device signal n db row : fst (referred_username_of wallet db) = Ok n -> row ∈ referrals db ->
  referred_username row = n -> only_old (referrals db) (snd (use_or_verify_referral name status wallet device signal db)).
Proof.
  intros R I U. assert (O : forall db', same_referrals (referrals db) db' -> only_old (referrals db) db') by (intros db' S; unfold only_old; rewrite S; apply (only_old_start db)).
  unfold use_or_verify_referral.
  destruct (ensure_wallet_reward_identity wallet db) as [[user|e] db1] eqn:E1; unfold bind at 1; rewrite E1;
    pose proof (same_identity (referrals db) wallet db eq_refl) as S1; rewrite E1 in S1; cbn [snd] in *; [|by apply O].
  pose proof (identity_name wallet n db user db1 R E1) as N. rewrite N. clear E1 N.
  assert (K : forall A (m : M DatabaseError A) (k : A -> M DatabaseError (list RewardEvent)), keeps (same_referrals (referrals db)) m ->
    (forall a db', same_referrals (referrals db) db' -> only_old (referrals db) (snd (k a db'))) ->
    forall db', same_referrals (referrals db) db' -> only_old (referrals db) (snd (bind m k db'))).
  { intros A m k KM KK db' X. unfold bind. specialize (KM db' X). destruct (m db') as [[a|e] db2]; [by apply KK|by apply O]. }
  apply K; [keeps| |done]. intros rewards db2 S2. apply K; [keeps| |done]. intros can_verify db3 S3. apply K; [keeps| |done]. intros _ db4 S4.
  unfold get_referral_by_username, lift, with_error, query, bind at 1. cbn [map_err]. rewrite S4.
  destruct (find _ (referrals db)) as [found|] eqn:G.
  - destruct (bool_decide _); [by apply O|]. apply only_confirm. by apply O.
  - apply (find_none _ _ G) in I || (apply list_elem_of_In in I; apply (find_none _ _ G) in I). by rewrite U, String.eqb_refl in I.
Qed.


(** *** The score of a referral *)

(** What a statement answers over some tables *)
Definition answers {E A} (m : M E A) (db : Db) (a : A) : Prop := fst (m db) = Ok a.

(** The signals and the counts are those that the store has for a signal. *)
Record gathered (signal : RiskSignalInput) (since : Z) (db : Db) (existing : list RiskSignalRow) (counts : SignalCounts) : Prop := {
  existing_signals : answers (get_matching_risk_signals (generate_fingerprint signal) (input_ip_address signal) (input_isp signal)
    (input_model signal) (input_device_id signal) since) db existing;
  ring_count : answers (count_unique_referrers_for_device_model_pattern (input_model signal) (input_platform signal) (input_locale signal) since)
    db (device_model_ring_count counts);
  abuser_count : answers (count_disabled_users_by_ip (input_ip_address signal) since) db (ip_abuser_count counts);
  cross_count : answers (count_unique_referrers_for_fingerprint (generate_fingerprint signal) since) db (cross_referrer_fingerprint_count counts);
  country_count : answers (count_unique_countries_for_referrer (input_username signal) since) db (referrer_country_count counts);
  device_count : answers (count_unique_devices_for_referrer (input_username signal) since) db (referrer_device_count counts)
}.

(** A row holds the signal that was computed, and the time it was stored at. *)
Record holds (new : NewRiskSignalRow) (id time : Z) (row : RiskSignalRow) : Prop := {
  held_id : signal_id row = id;
  held_fingerprint : signal_fingerprint row = new_signal_fingerprint new;
  held_referrer : signal_referrer row = new_signal_referrer new;
  held_device : signal_device_id row = new_signal_device_id new;
  held_address : signal_ip_address row = new_signal_ip_address new;
  held_score : signal_risk_score row = new_signal_risk_score new;
  held_time : signal_created_at row = time
}.

(** The limits that a request for a referral takes from *)
Definition request_limits (device : DeviceRow) (ip_address : string) : list (RateLimitKey * string) :=
  [(ReferralGlobalLimit, GLOBAL_RATE_LIMIT_SCOPE); (ReferralPerDeviceLimit, pretty (device_row_id device)); (ReferralPerIpLimit, ip_address)].

(** The request that came in the state [s] was within its limits; its address, as the providers or their cache describe it then,
    is of no refused kind; no disabled user has the device, and the referrer no signal of the same fingerprint; and the signal
    [id], stored last, has the score that follows from the configuration, the referrer and the signals in the tables of [s]
    since the start of the period of review, and that is allowed. The clock is read twice on the way, and the second time is
    that of the score. *)
Definition screened (device : DeviceRow) (name ip_address agent : string) (s : Services) (db : Db) (id : Z) : Prop :=
  exists config security info ip disabled existing counts row cache1 n,
    let current := Nat.iter n tick (clock (tables s)) in
    let since := ago (lookback config) current in
    let input := to_scoring_input device name info ip agent in
    let result := evaluate_risk (tick current) input existing counts config in
    load_risk_score_config = Ok config /\ load_referral_security_config = Ok security
    /\ consume_referral_limits (request_limits device ip_address) s = (Ok tt, MkServices (tables s) cache1)
    /\ answers (get_referrer_info name) (tables s) info
    /\ fst (check_ip ip_address cache1) = Ok ip
    /\ (tor_allowed security = true \/ is_tor ip = false) /\ country_code ip ∉ ineligible_countries security
    /\ answers (count_disabled_users_by_device (device_row_id device) since) (tables s) disabled /\ disabled <= 0
    /\ answers (has_fingerprint_for_referrer (generate_fingerprint (to_signal_input input)) name since) (tables s) false
    /\ gathered (to_signal_input input) since (tables s) existing counts
    /\ is_allowed (result_score result) = true
    /\ row ∈ signals db /\ holds (result_signal result) id (tick (tick current)) row.

(** The tables are those of before, some readings of the clock later. *)
Definition waited (db0 db : Db) : Prop := exists n, db = set_clock (Nat.iter n tick (clock db0)) db0.
#[local] Instance waited_clock db0 : KeptClock (waited db0).
Proof. split. intros E db [n ->]. by exists (Datatypes.S n). Qed.
Lemma waited_refl db : waited db db.
Proof. exists 0%nat. by destruct db. Qed.

Lemma add_risk_signal_ok new db id db' : repo_add_risk_signal new db = (Ok id, db') ->
  exists row, row ∈ signals db' /\ holds new id (clock db) row.
Proof.
  intros A. apply with_ok in A. unfold add_risk_signal, transaction in A. cbv zeta in A. repeat (destruct (check _ _); [|done]).
  injection A as <- <-. eexists. split; [apply elem_of_app; right; by left|done].
Qed.

Lemma services_address_ok ip s result s' : check_address ip s = (Ok result, s') -> exists security, load_referral_security_config = Ok security
  /\ fst (check_ip ip (cache s)) = Ok result /\ (tor_allowed security = true \/ is_tor result = false) /\ country_code result ∉ ineligible_countries security.
Proof.
  unfold check_address. intros C. apply sbind_ok in C as (r & s1 & A & C). apply sbind_ok in C as (security & s2 & L & C).
  apply swith_ok, swith_ok in A. unfold ServiceMonad.on_cache in A. destruct (check_ip ip (cache s)) as [r0 c0]. injection A as -> _.
  unfold config_, ServiceMonad.of_result in L. destruct load_referral_security_config as [c|]; [|done]. injection L as <- <-. exists c.
  destruct (negb (tor_allowed c) && is_tor r) eqn:T; [done|]. case_bool_decide as D; [done|]. apply sbind_ok in C as (u & s3 & _ & C).
  injection C as <- <-. split; [done|]. split; [done|]. split; [|done]. destruct (tor_allowed c), (is_tor r); auto.
Qed.

(** An answer of the store, which leaves the state as it is *)
Lemma db_lift {A} (q : Db -> result DieselError A) s a s' : db_ (lift (query q)) s = (Ok a, s') -> s' = s /\ q (tables s) = Ok a.
Proof. unfold db_, lift, with_error, ServiceMonad.with_error, ServiceMonad.on_tables, query. destruct s as [db c]. cbn. by destruct (q db); intros [= -> <-]. Qed.

Lemma gather_ok signal since s existing counts s' : gather_signals signal since s = (Ok (existing, counts), s') ->
  s' = s /\ gathered signal since (tables s) existing counts.
Proof.
  unfold gather_signals. intros G. cbv zeta in G.
  apply sbind_ok in G as (l & ? & [-> Q1]%db_lift & G). apply sbind_ok in G as (c1 & ? & [-> Q2]%db_lift & G).
  apply sbind_ok in G as (c2 & ? & [-> Q3]%db_lift & G). apply sbind_ok in G as (c3 & ? & [-> Q4]%db_lift & G).
  apply sbind_ok in G as (c4 & ? & [-> Q5]%db_lift & G). apply sbind_ok in G as (c5 & ? & [-> Q6]%db_lift & G). injection G as <- <- <-.
  split; [done|]. by split.
Qed.

Lemma unless_ok (q : Db -> result DieselError bool) s r s' : (exists b, q (tables s) = Ok b) -> or_else_false (db_ (lift (query q))) s = (Ok r, s') ->
  s' = s /\ q (tables s) = Ok r.
Proof.
  intros [b Q]. unfold or_else_false, ServiceMonad.bind, ServiceMonad.catch. destruct (db_ (lift (query q)) s) as [[a|e] s1] eqn:D.
  - apply db_lift in D as [-> D]. by intros [= -> ->].
  - unfold db_, lift, with_error, ServiceMonad.with_error, ServiceMonad.on_tables, query in D. by rewrite Q in D.
Qed.

Lemma score_ok device name agent info ip s id st s' : score_referral device name agent info ip s = (Ok (ProcessSuccess id st), s') ->
  st = info_status info /\ exists config disabled existing counts row,
    let current := clock (tables s) in
    let since := ago (lookback config) current in
    let input := to_scoring_input device name info ip agent in
    let result := evaluate_risk (tick current) input existing counts config in
    load_risk_score_config = Ok config
    /\ answers (count_disabled_users_by_device (device_row_id device) since) (tables s) disabled /\ disabled <= 0
    /\ answers (has_fingerprint_for_referrer (generate_fingerprint (to_signal_input input)) name since) (tables s) false
    /\ gathered (to_signal_input input) since (tables s) existing counts
    /\ is_allowed (result_score result) = true /\ row ∈ signals (tables s') /\ holds (result_signal result) id (tick (tick current)) row.
Proof.
  intros C. unfold score_referral in C. apply sbind_ok in C as (config & s1 & LC & C). unfold config_, ServiceMonad.of_result in LC.
  destruct load_risk_score_config as [cfg|] eqn:LR; [|done]. injection LC as <- <-.
  apply sbind_ok in C as (current & s2 & N & C). unfold now_, now, ServiceMonad.on_tables in N. cbn in N. injection N as <- <-.
  apply sbind_ok in C as (u & s3 & CL & C). unfold client_, ServiceMonad.client in CL. apply swith_ok in CL. injection CL as _ <-.
  apply sbind_ok in C as (disabled & s4 & [-> DI]%db_lift & C). destruct (0 <? disabled) eqn:D0; [done|].
  apply sbind_ok in C as (duplicate & s5 & DU & C). apply unless_ok in DU as [-> DU]; [|eauto]. destruct duplicate; [done|].
  apply sbind_ok in C as ([existing counts] & s6 & [-> G]%gather_ok & C).
  apply sbind_ok in C as (time & s7 & N & C). unfold now_, now, ServiceMonad.on_tables in N. cbn in N. injection N as <- <-.
  apply sbind_ok in C as (signal & s8 & A & C). apply swith_ok, on_tables_ok in A. apply add_risk_signal_ok in A as (row & R & I).
  destruct (is_allowed _) eqn:OK; [|done]. injection C as <- <- <-. split; [done|]. exists cfg, disabled, existing, counts, row. cbv zeta.
  apply Z.ltb_ge in D0. destruct G. split_and!; [exact LR || reflexivity|exact DI|exact D0|exact DU|by split|exact OK|exact R|exact I].
Qed.

Lemma require_rewards_ok name db row db' : require_rewards name db = (Ok row, db') -> db' = db /\ row ∈ rewards db /\ rewards_username row = name.
Proof.
  intros R. split; [by pose proof (keeps_require_rewards (fun x => x = db) name db eq_refl) as K; rewrite R in K|].
  unfold require_rewards in R. apply bind_ok in R as (rows & db1 & F & R). apply with_ok in F. unfold get_rewards_by_filter, query in F. injection F as <- <-.
  cbn [filter_limit fold_left] in R. destruct (List.filter _ _) as [|found rest] eqn:FL; [done|]. injection R as -> _.
  assert (I : row ∈ row :: rest) by left. rewrite <- FL in I. apply list_elem_of_In, filter_In in I as [I P]. split; [by apply list_elem_of_In|].
  cbn in P. rewrite andb_true_r in P. by apply of_user_true.
Qed.

Lemma referrer_info_ok name db info db' : get_referrer_info name db = (Ok info, db') ->
  exists row, row ∈ rewards db /\ rewards_username row = name /\ status row = info_status info.
Proof.
  unfold get_referrer_info. intros G. apply bind_ok in G as (row & db1 & U & G). apply bind_ok in G as (rw & db2 & RW & G). injection G as <- _.
  assert (db1 = db) as -> by (pose proof (keeps_require_username (fun x => x = db) (ByUsername name) _ eq_refl) as K; by rewrite U in K).
  apply require_rewards_ok in RW as (_ & R & N). by exists rw.
Qed.

(** The server of counters is left alone. *)
Definition still {E A} (m : ServiceMonad.S E A) : Prop := forall s, cache (snd (m s)) = cache s.

Lemma still_tables {E A} (m : M E A) : still (ServiceMonad.on_tables m).
Proof. intros s. unfold ServiceMonad.on_tables. by destruct (m (tables s)). Qed.
Lemma still_with_error {E F A} (f : E -> F) (m : ServiceMonad.S E A) : still m -> still (ServiceMonad.with_error f m).
Proof. intros M s. unfold ServiceMonad.with_error. specialize (M s). by destruct (m s). Qed.
Lemma still_bind {E A B} (m : ServiceMonad.S E A) (k : A -> ServiceMonad.S E B) : still m -> (forall a, still (k a)) -> still (ServiceMonad.bind m k).
Proof. intros M K s. unfold ServiceMonad.bind. specialize (M s). destruct (m s) as [[a|e] s1]; cbn in M; [by rewrite K|done]. Qed.
Hint Resolve still_tables still_with_error still_bind : still.
Ltac still := repeat first [done | solve [eauto 3 with still] | apply still_bind; [|intros ?] | apply still_with_error
  | match goal with |- still (if ?b then _ else _) => destruct b end].

Lemma still_windows windows name current limits m : still (check_windows windows name current limits m).
Proof. induction windows as [|w windows IH]; cbn [check_windows]; [done|]. unfold check_referrer_rate_limit, db_. still. Qed.
Hint Resolve still_windows : still.
Lemma still_referrer device wallet name : still (check_referrer device wallet name).
Proof. unfold check_referrer, client_, db_, config_, now_. still. Qed.
Lemma still_token device : still (check_device_token device).
Proof. unfold check_device_token. destruct (bool_decide _); [|done]. by destruct (is_device_token_valid _ _) as [[]|]. Qed.

Lemma info_clock name t db : fst (get_referrer_info name (set_clock t db)) = fst (get_referrer_info name db).
Proof.
  unfold get_referrer_info, require_username, require_rewards, or_not_found_internal_for, get_username, get_rewards_by_filter, with_error, query, bind.
  cbn -[List.filter]. destruct (find _ _) as [row|]; [|done]. cbn -[List.filter]. by destruct (List.filter _ _).
Qed.

Lemma screen_ok device wallet name ip agent s id st s' :
  validate_and_score_referral device wallet name ip agent s = (Ok (ProcessSuccess id st), s') ->
  screened device name ip agent s (tables s') id /\ is_verified st = true
    /\ exists row, row ∈ rewards (tables s) /\ rewards_username row = name /\ status row = st.
Proof.
  intros C. unfold validate_and_score_referral in C. apply sbind_ok in C as (r & s1 & C & E). unfold ServiceMonad.catch in C.
  destruct (validate_and_score_referral_inner _ _ _ _ _ s) as [r0 s0] eqn:I. injection C as <- <-. destruct r0 as [res|e]; [|done]. injection E as -> <-.
  unfold validate_and_score_referral_inner in I. apply sbind_ok in I as ([] & s2 & L & I).
  assert (T2 : tables s2 = tables s).
  { pose proof (ServicesRefinement.skeeps_referral_limits (fun db => db = tables s) (request_limits device ip) s eq_refl) as K. unfold request_limits in K.
    by rewrite L in K. }
  apply sbind_ok in I as (info & s3 & CR & I). apply sbind_ok in I as (u2 & s4 & TK & I). apply sbind_ok in I as (addr & s5 & A & I).
  assert (W : waited (tables s) (tables s5)).
  { rewrite <- T2. pose proof (ServicesRefinement.skeeps_check_referrer (waited (tables s2)) device wallet name s2 (waited_refl _)) as K. rewrite CR in K. cbn [snd] in K.
    apply (ServicesRefinement.skeeps_token (waited (tables s2)) device) in K. rewrite TK in K. cbn [snd] in K.
    apply (ServicesRefinement.skeeps_address (waited (tables s2)) ip) in K. by rewrite A in K. }
  pose proof (still_referrer device wallet name s2) as K3. rewrite CR in K3. pose proof (still_token device s3) as K4. rewrite TK in K4. cbn [snd] in K3, K4.
  apply services_address_ok in A as (security & LS & IP & T & N). rewrite K4, K3 in IP. clear K3 K4 TK.
  apply score_ok in I as (-> & config & disabled & existing & counts & row & LC & DI & D0 & DU & G & OK & R & HO). cbv zeta in *.
  unfold check_referrer in CR. apply sbind_ok in CR as (u3 & s6 & CL & CR). unfold client_, ServiceMonad.client in CL. apply swith_ok in CL. injection CL as _ <-.
  apply sbind_ok in CR as (info' & s7 & GI & CR). destruct (negb (is_verified _)) eqn:V; [done|].
  assert (info' = info) as ->.
  { repeat (apply sbind_ok in CR as (? & ? & _ & CR)). destruct (1 <=? _); [done|]. repeat (apply sbind_ok in CR as (? & ? & _ & CR)). by injection CR as <- _. }
  apply negb_false_iff in V. apply swith_ok, on_tables_ok in GI. rewrite T2 in GI. split; [|split; [done|by apply referrer_info_ok in GI]].
  destruct W as [n W]. exists config, security, info, addr, disabled, existing, counts, row, (cache s2), n. cbv zeta.
  assert (CK : clock (tables s5) = Nat.iter n tick (clock (tables s))) by (by rewrite W). rewrite CK in *.
  split; [done|]. split; [done|]. split; [unfold request_limits; rewrite L; f_equal; rewrite <- T2; by destruct s2|].
  split; [unfold answers; by rewrite GI|]. split; [done|]. split; [done|]. split; [done|]. rewrite W in DI, DU, G.
  split; [exact DI|]. split; [exact D0|]. split; [exact DU|]. split; [by destruct G; split|]. split; [exact OK|]. by split.
Qed.

Lemma same_signal old new : keeps (same_referrals old) (add_risk_signal new).
Proof. apply same_transaction. row_transaction. Qed.
Lemma same_attempt old attempt : keeps (same_referrals old) (store_referral_attempt attempt).
Proof. apply same_transaction. row_transaction. Qed.
Hint Resolve same_signal same_attempt keeps_referrer_info keeps_is_pending keeps_validate : keeps.
Hint Resolve same_clock ServicesRefinement.skeeps_now ServicesRefinement.skeeps_referral_limits ServicesRefinement.skeeps_check_referrer
  ServicesRefinement.skeeps_token ServicesRefinement.skeeps_address ServicesRefinement.skeeps_gather : skeeps.

Lemma same_screen old device wallet name ip agent : skeeps (same_referrals old) (validate_and_score_referral device wallet name ip agent).
Proof.
  unfold validate_and_score_referral, validate_and_score_referral_inner, score_referral, client_, config_, or_else_false, db_,
    repo_count_disabled_users_by_device, repo_has_fingerprint_for_referrer, repo_add_risk_signal. skeeps.
Qed.

Lemma same_keep_attempt old name wallet device signal error : skeeps (same_referrals old) (keep_attempt name wallet device signal error).
Proof. unfold keep_attempt, ignored, connected, stored, add_referral_attempt. skeeps. Qed.

(** What a new row stands for *)
Definition justified (device : DeviceRow) (ip_address agent : string) (s : Services) (db' : Db) : Prop :=
  forall row, row ∈ referrals db' -> (forall old, old ∈ referrals (tables s) -> referral_id old <> referral_id row) ->
    referred_device_id row = device_row_id device /\
    exists user, user ∈ rewards (tables s) /\ rewards_username user = referrer row
      /\ (status user = Attribution
           \/ (is_verified (status user) = true
               /\ exists id, referral_signal_id row = Some id /\ screened device (referrer row) ip_address agent s db' id)).

Section paths.
Context (device : DeviceRow) (ip agent : string).

Lemma justified_same s db' : same_referrals (referrals (tables s)) db' -> justified device ip agent s db'.
Proof. intros S row R N. rewrite S in R. by destruct (N row R). Qed.

Lemma justified_old s db' : only_old (referrals (tables s)) db' -> justified device ip agent s db'.
Proof. intros S row R N. unfold only_old in S. rewrite Forall_forall in S. destruct (S row R) as (old & O & I). by destruct (N old O). Qed.

Lemma srun {E A B} (Q : Services -> Prop) (m : ServiceMonad.S E A) (k : A -> ServiceMonad.S E B) s :
  (forall e s1, m s = (Err e, s1) -> Q s1) -> (forall a s1, m s = (Ok a, s1) -> Q (snd (k a s1))) -> Q (snd (ServiceMonad.bind m k s)).
Proof. intros E0 K. unfold ServiceMonad.bind. destruct (m s) as [[a|e] s1] eqn:M; [by apply K|by eapply E0]. Qed.

(** The handler adds rows of the referrer and the signal it is given. *)
Lemma use_justified name st wallet signal s db1 user : referrals db1 = referrals (tables s) -> user ∈ rewards (tables s) -> rewards_username user = name ->
  (status user = Attribution \/ (is_verified (status user) = true /\ exists id, signal = Some id /\ screened device name ip agent s db1 id)) ->
  justified device ip agent s (snd (use_or_verify_referral name st wallet (device_row_id device) signal db1)).
Proof.
  intros R U N J row I O.
  destruct (referred_use (referrals db1) (signals db1) name (device_row_id device) signal st wallet db1 (referred_start _ _ _ _)) as [S F].
  rewrite Forall_forall in F. destruct (F row I) as [(old & X & Y)|(X & Y & Z)].
  - rewrite R in X. by destruct (O old X).
  - split; [done|]. exists user. rewrite X. split; [done|]. split; [done|]. destruct J as [J|(V & id & -> & SC)]; [by left|right].
    split; [done|]. exists id. split; [done|]. unfold screened in *. by rewrite S.
Qed.

(** Reading leaves the tables as they are. *)
Lemma stored_reads {A} (m : M DatabaseError A) s r s' : keeps (fun db => db = tables s) m -> stored m s = (r, s') -> tables s' = tables s.
Proof.
  intros K E. assert (X : skeeps (fun db => db = tables s) (stored m)) by (apply skeeps_with_error, skeeps_on_tables, K).
  specialize (X s eq_refl). by rewrite E in X.
Qed.
Lemma stored_same {A} (m : M DatabaseError A) s r s' : keeps (fun db => db = tables s) m -> stored m s = (r, s') -> s' = s.
Proof.
  intros K E. pose proof (stored_reads m s r s' K E) as T. unfold stored, ServiceMonad.with_error, ServiceMonad.on_tables in E.
  destruct (m (tables s)) as [r0 db]. injection E as _ <-. cbn in T. rewrite T. by destruct s.
Qed.
Lemma stored_ok {A} (m : M DatabaseError A) s a s' : stored m s = (Ok a, s') -> m (tables s) = (Ok a, tables s').
Proof. intros E. by apply swith_ok, on_tables_ok in E. Qed.

Lemma screened_path wallet name s : justified device ip agent s (tables (snd (use_screened device wallet name ip agent s))).
Proof.
  assert (SS : skeeps (same_referrals (referrals (tables s))) (validate_and_score_referral device wallet name ip agent)) by apply same_screen.
  specialize (SS s eq_refl). apply (srun (fun s' => justified device ip agent s (tables s'))).
  - intros e s1 E. rewrite E in SS. by apply justified_same.
  - intros result s1 E. rewrite E in SS. cbn [snd] in SS. destruct result as [id st|error|id error].
    + destruct (screen_ok _ _ _ _ _ _ _ _ _ E) as (SC & V & user & U & N & ST).
      apply (srun (fun s' => justified device ip agent s (tables s'))); intros e s2 C; unfold connected, ServiceMonad.with_error, ServiceMonad.client in C;
        injection C as _ <-; [by apply justified_same|]. unfold stored, ServiceMonad.with_error, ServiceMonad.on_tables.
      pose proof (use_justified name st wallet (Some id) s (tables s1) user SS U N) as J.
      destruct (use_or_verify_referral _ _ _ _ _ _) as [r db']. apply J. right. rewrite ST. eauto.
    + apply justified_same. apply (skeeps_bind (same_referrals (referrals (tables s)))); [apply same_keep_attempt|intros; apply skeeps_fail|done].
    + apply justified_same. apply (skeeps_bind (same_referrals (referrals (tables s)))); [apply same_keep_attempt|intros; apply skeeps_fail|done].
Qed.

Lemma then_ {E A B} (m : ServiceMonad.S E A) (k : A -> ServiceMonad.S E B) s : (forall r s1, m s = (r, s1) -> s1 = s) ->
  (forall a, m s = (Ok a, s) -> justified device ip agent s (tables (snd (k a s)))) -> justified device ip agent s (tables (snd (ServiceMonad.bind m k s))).
Proof.
  intros R K. apply (srun (fun s' => justified device ip agent s (tables s'))).
  - intros e s1 X. apply justified_same. by rewrite (R _ _ X).
  - intros a s1 X. pose proof (R _ _ X). subst s1. by apply K.
Qed.

Lemma reads_connected s r s1 : connected s = (r, s1) -> tables s1 = tables s.
Proof. unfold connected, ServiceMonad.with_error, ServiceMonad.client. by intros [= _ <-]. Qed.
Lemma reads_result {E A} (x : result E A) s r s1 : ServiceMonad.of_result x s = (r, s1) -> tables s1 = tables s.
Proof. unfold ServiceMonad.of_result. by intros [= _ <-]. Qed.

Lemma connected_same s r s1 : connected s = (r, s1) -> s1 = s.
Proof. unfold connected, ServiceMonad.with_error, ServiceMonad.client. by intros [= _ <-]. Qed.
Lemma result_same {E A} (x : result E A) s r s1 : ServiceMonad.of_result x s = (r, s1) -> s1 = s.
Proof. unfold ServiceMonad.of_result. by intros [= _ <-]. Qed.

Lemma pending_path wallet name info s : (exists n row, fst (referred_username_of wallet (tables s)) = Ok n /\ row ∈ referrals (tables s)
  /\ referred_username row = n) -> justified device ip agent s (tables (snd (use_pending device wallet name info s))).
Proof.
  intros (n & row & R & I & U). unfold use_pending. destruct (negb _ && negb _); [by apply justified_same|]. unfold stored, ServiceMonad.with_error, ServiceMonad.on_tables.
  pose proof (pending_only_old name (info_status info) wallet (device_row_id device) None n (tables s) row R I U) as O.
  destruct (use_or_verify_referral _ _ _ _ _ _) as [r db']. by apply justified_old.
Qed.

Lemma attribution_path wallet name info s user : user ∈ rewards (tables s) -> rewards_username user = name -> status user = Attribution ->
  justified device ip agent s (tables (snd (use_attribution device wallet name info s))).
Proof.
  intros U N A. unfold use_attribution. apply (srun (fun s' => justified device ip agent s (tables s'))).
  - intros e s1 E. apply justified_same.
    assert (K : keeps (same_referrals (referrals (tables s))) (validate_referral_use name (info_wallet_id info) wallet (device_row_id device) (device_created_at device) None))
      by (apply keeps_validate, _). apply (skeeps_on_tables _ _ ) in K. specialize (K s eq_refl).
    unfold ServiceMonad.with_error in E. destruct (ServiceMonad.on_tables _ s) as [r s2]. injection E as _ <-. exact K.
  - intros a s1 E. assert (K : keeps (same_referrals (referrals (tables s))) (validate_referral_use name (info_wallet_id info) wallet (device_row_id device) (device_created_at device) None))
      by (apply keeps_validate, _). apply (skeeps_on_tables _ _ ) in K. specialize (K s eq_refl).
    unfold ServiceMonad.with_error in E. destruct (ServiceMonad.on_tables _ s) as [r s2]. injection E as _ <-. cbn [snd] in K.
    unfold stored, ServiceMonad.with_error, ServiceMonad.on_tables.
    pose proof (use_justified name (info_status info) wallet None s (tables s2) user K U N (or_introl A)) as J.
    by destruct (use_or_verify_referral _ _ _ _ _ _) as [r2 db'].
Qed.

End paths.

(** (C26) A new referral is justified: the referrer had a user that is a source of attribution, or that was verified and whose
    referral was screened. A screened request was within its limits, and its address is neither of Tor, unless that is allowed,
    nor of an ineligible country. The risk was computed under the configuration, from the referrer's figures, the matching
    signals and the five counts that the store had in the period of review before the request; it is below the limit, and it is
    stored, at the time of the check, in the signal that the referral names. No failure in between leaves a referral that is
    not. *)
Theorem referral_screened device address code ip_address agent s :
  justified device ip_address agent s (tables (snd (use_referral_code device address code ip_address agent s))).
Proof.
  unfold use_referral_code. apply then_; [apply connected_same|]. intros _ _. apply then_; [apply result_same|]. intros wallet _.
  apply then_; [apply connected_same|]. intros _ _.
  apply then_; [intros r s4; apply stored_same; unfold get_referral_code; keeps; apply keeps_find_username|]. intros found _.
  destruct found as [name|]; [|by apply justified_same].
  apply then_; [intros r s5; apply stored_same, keeps_referrer_info|]. intros info I. apply stored_ok, referrer_info_ok in I as (user & U & N & ST).
  apply then_; [intros r s6; apply stored_same, keeps_is_pending|]. intros pending PE.
  destruct pending; [by apply pending_path, pending_row with name (device_row_id device) (tables s), stored_ok|].
  case_bool_decide as A; [|by apply screened_path]. eapply attribution_path; [exact U|done|congruence].
Qed.

End screening.
End Screening.

(** ** Redemptions and their limits *)

Module RedemptionLimits.
Import RewardsModels RewardsStore RewardsLedger DatabaseErrors RewardsErrors ConfigKeys KeptPredicates ServicesKeep Screening.
Import RewardsRepository RewardsClient RewardsRedemptionClient.

Section limits.
Context `{Lowercase} `{SqlLower} `{WalletsStore} `{AssetsTable} `{Clock} `{DieselText} `{ParseBigIntText} `{BigUintParse}
  `{ConfigCacher} `{Cacher} `{DbPool} `{EventQueue}.

(** The redemptions of a user since a time *)
Definition redeemed_since (name : string) (since : Z) (db : Db) : Z :=
  count (fun row => String.eqb (redemption_username row) name && (since <=? redemption_created_at row)) (redemptions db).

(** The redemptions stay. *)
Definition no_redemption (db0 db : Db) : Prop := redemptions db = redemptions db0.
#[local] Instance no_redemption_clock db0 : KeptClock (no_redemption db0).
Proof. split. by intros E db R. Qed.

(** They stay, and the clock is not read. *)
Definition at_once (db0 db : Db) : Prop := redemptions db = redemptions db0 /\ clock db = clock db0.
Lemma at_once_username db0 row : keeps (at_once db0) (create_username row).
Proof. intros db X. unfold create_username, transaction. repeat (destruct (check _ _); [|done]). exact X. Qed.
Lemma at_once_rewards db0 n d : keeps (at_once db0) (create_rewards n d).
Proof. intros db X. unfold create_rewards, transaction. cbv zeta. repeat (destruct (check _ _); [|done]). exact X. Qed.

Hint Resolve kept_now no_redemption_clock at_once_username at_once_rewards keeps_find_username keeps_require_username
  keeps_require_rewards keeps_fails keeps_require_wallet keeps_latest_device keeps_options : keeps.

Lemma at_once_get_reward db0 id : keeps (at_once db0) (get_reward_by_wallet_id id).
Proof. unfold get_reward_by_wallet_id, ensure_wallet_reward_identity, create_username_and_rewards. keeps. Qed.

(** What a redemption adds *)
Definition redeems (name : string) (db0 db : Db) : Prop :=
  redemptions db = redemptions db0
  \/ exists row, redemptions db = redemptions db0 ++ [row] /\ redemption_username row = name /\ redemption_created_at row = clock db0.

Lemma add_redemption_adds name n option device wallet db :
  redeems name db (snd (add_redemption name n (MkNewRedemption name option device wallet RedemptionPending) db)).
Proof.
  unfold add_redemption. destruct (n <? 0); [by left|]. unfold transaction. cbv zeta. destruct (_ =? 0); [by left|].
  destruct (if 0 <? n then _ else _) as [db1|e] eqn:C; [|by left].
  assert (R : redemptions db1 = redemptions db /\ clock db1 = clock db).
  { destruct (0 <? n); [|by injection C as <-]. unfold spend_points in C. cbv zeta in C. destruct (negb _); [done|]. by injection C as <-. }
  unfold insert_redemption. cbv zeta. repeat (destruct (check _ _); [|by left]). right. eexists. cbn. destruct R as [-> ->]. by split_and!.
Qed.

Lemma mrun {E A B} (Q : Db -> Prop) (m : M E A) (k : A -> M E B) db :
  (forall e db1, m db = (Err e, db1) -> Q db1) -> (forall a db1, m db = (Ok a, db1) -> Q (snd (k a db1))) -> Q (snd (bind m k db)).
Proof. intros E0 K. unfold bind. destruct (m db) as [[a|e] db1] eqn:X; [by apply K|by eapply E0]. Qed.

(** A step that reads *)
Lemma mread {E A B} (Q : Db -> Prop) (m : M E A) (k : A -> M E B) db : keeps (fun x => x = db) m -> Q db -> (forall a, Q (snd (k a db))) -> Q (snd (bind m k db)).
Proof. intros R X K. specialize (R db eq_refl). apply mrun; intros ? db1 Y; rewrite Y in R; cbn in R; by subst. Qed.

Lemma repo_add_redemption_adds name option device wallet db : redeems name db (snd (repo_add_redemption name option device wallet db)).
Proof.
  unfold repo_add_redemption. apply (mread (redeems name db)); [unfold or_not_found_for, get_redemption_option; keeps|by left|]. intros full.
  apply (mread (redeems name db)); [apply (keeps_require_rewards (fun x => x = db))|by left|]. intros rewards. cbv zeta.
  destruct (_ <? _); [by left|]. destruct (bool_decide _); [by left|].
  pose proof (add_redemption_adds name (option_points (full_option full)) option device wallet db) as A.
  assert (Z : forall db1, redeems name db db1 -> redeems name db db1) by done.
  apply (mrun (redeems name db)).
  - intros e db1 X. unfold lift, with_error in X. destruct (add_redemption _ _ _ db) as [r db2]. by injection X as _ <-.
  - intros a db1 X. unfold lift, with_error in X. destruct (add_redemption _ _ _ db) as [r db2]. injection X as _ <-. cbn [snd] in A. revert A.
    clear. intros A. match goal with |- redeems name db (snd (?m db2)) => assert (K : keeps (redeems name db) m); [|by apply K] end.
    unfold repo_get_redemption, or_not_found_internal_for, get_redemption. keeps.
Qed.

Lemma redeem_points_adds name option device wallet db : redeems name db (snd (redeem_points name option device wallet db)).
Proof.
  unfold redeem_points. pose proof (repo_add_redemption_adds name option device wallet db) as A.
  apply (mrun (redeems name db)); intros ? db1 X; rewrite X in A; done.
Qed.

(** The windows *)
Lemma windows_ok windows name current limits s s' : check_redemption_windows windows name current limits s = (Ok tt, s') ->
  tables s' = tables s /\ forall w, w ∈ windows -> redeemed_since name (ago (duration w) current) (tables s) < get limits w.
Proof.
  revert s. induction windows as [|w windows IH]; intros s C; cbn [check_redemption_windows] in C.
  - injection C as <-. split; [done|]. intros w W. by apply elem_of_nil in W.
  - apply sbind_ok in C as (u & s1 & U & C). apply sbind_ok in C as (n & s2 & N & C). destruct (get limits w <=? n) eqn:G; [done|].
    apply IH in C as [T W]. assert (tables s1 = tables s) as T1 by (unfold connected, ServiceMonad.with_error, ServiceMonad.client in U; by injection U as _ <-).
    apply stored_ok in N. unfold repo_count_redemptions_since, lift, with_error, count_redemptions_since, query in N. injection N as N T2.
    split; [congruence|]. intros w' [->|W']%elem_of_cons; [|rewrite <- T1, T2; by apply W].
    unfold redeemed_since. rewrite <- T1, N. zbool. lia.
Qed.

Lemma limits_ok name view s s' : check_redemption_limits name view s = (Ok tt, s') ->
  exists limits, get_rate_limit RedemptionPerUserLimit = Ok limits
    /\ rewards (tables s') = rewards (tables s) /\ redemptions (tables s') = redemptions (tables s) /\ clock (tables s') = tick (clock (tables s))
    /\ forall w, w ∈ ALL -> redeemed_since name (ago (duration w) (clock (tables s))) (tables s') < get limits w.
Proof.
  unfold check_redemption_limits. intros C. apply sbind_ok in C as (current & s1 & N & C). unfold now_, now, ServiceMonad.on_tables in N. cbn in N. injection N as <- <-.
  apply sbind_ok in C as (age & s2 & A & C). unfold config_value, ServiceMonad.of_result in A. destruct (map_err _ _); [|done]. injection A as <- <-.
  destruct (_ <? view_created_at view); [done|]. apply sbind_ok in C as (cooldown & s3 & CD & C). unfold config_value, ServiceMonad.of_result in CD.
  destruct (map_err _ _); [|done]. injection CD as <- <-. apply sbind_ok in C as (u & s4 & U & C). apply reads_connected in U.
  apply sbind_ok in C as (recent & s5 & R & C). apply stored_reads in R; [|apply keeps_with_error, keeps_query].
  destruct (0 <? recent); [done|]. apply sbind_ok in C as (limits & s6 & L & C). unfold config_value, ServiceMonad.of_result in L.
  destruct (get_rate_limit RedemptionPerUserLimit) as [lim|]; [|done]. injection L as <- <-. apply windows_ok in C as [T W].
  exists lim. rewrite T, R, U. cbn. split; [done|]. split; [done|]. split; [done|]. split; [done|].
  intros w I. specialize (W w I). by rewrite R, U in W.
Qed.

(** The user that a wallet stands for *)
Lemma get_reward_ok id db view db' : get_reward_by_wallet_id id db = (Ok view, db') ->
  forall name, code view = Some name -> exists user, user ∈ rewards db' /\ rewards_username user = name /\ status user = view_status view.
Proof.
  unfold get_reward_by_wallet_id. intros G name C. apply bind_ok in G as (user & db1 & U & G). apply bind_ok in G as (row & db2 & R & G). clear U.
  apply require_rewards_ok in R as (-> & R & N).
  apply bind_ok in G as (options & db3 & O & G).
  assert (db3 = db1) as ->.
  { match type of O with ?m db1 = _ => assert (K : keeps (fun x => x = db1) m) by (destruct (bool_decide _); keeps; apply (keeps_options (fun x => x = db1))) end.
    specialize (K db1 eq_refl). by rewrite O in K. }
  injection G as <- <-. cbn [code view_status] in *. destruct (has_custom_username user); [|done]. injection C as <-.
  by exists row.
Qed.

(** A user keeps its name and status when it redeems. *)
Definition has_user (name : string) (st : RewardStatus) (db : Db) : Prop := exists user, user ∈ rewards db /\ rewards_username user = name /\ status user = st.

Lemma has_user_redeems name st name' n new : keeps (has_user name st) (add_redemption name' n new).
Proof.
  intros db (user & U & N & ST). unfold add_redemption. destruct (n <? 0); [by exists user|]. unfold transaction. cbv zeta. destruct (_ =? 0); [by exists user|].
  destruct (if 0 <? n then _ else _) as [db1|e] eqn:C; [|by exists user].
  assert (R : has_user name st db1).
  { destruct (0 <? n); [|injection C as <-; by exists user]. unfold spend_points in C. cbv zeta in C. destruct (negb _); [done|]. injection C as <-.
    unfold has_user. cbn. unfold update. exists (if of_user name' user && (n <=? points user) then with_points (points user - n) user else user).
    split; [by apply (list_elem_of_fmap_2 (fun row => if of_user name' row && (n <=? points row) then with_points (points row - n) row else row))|]. destruct (_ && _); by split. }
  unfold insert_redemption. cbv zeta. repeat (destruct (check _ _); [|by exists user]). exact R.
Qed.
Hint Resolve has_user_redeems : keeps.

Lemma has_user_points name st name' option device wallet : keeps (has_user name st) (redeem_points name' option device wallet).
Proof.
  unfold redeem_points, repo_add_redemption, or_not_found_for, get_redemption_option, repo_get_redemption, or_not_found_internal_for, get_redemption. keeps.
Qed.

Lemma redeemed_app name since db db' row : redemptions db' = redemptions db ++ [row] -> redeemed_since name since db' <= redeemed_since name since db + 1.
Proof.
  intros R. unfold redeemed_since, count. rewrite R, List.filter_app, length_app. cbn [List.filter]. destruct (_ && _); cbn [length]; lia.
Qed.

(** What the service may leave after it started from [db0] *)
Definition within_limits (db0 db : Db) : Prop :=
  redemptions db = redemptions db0
  \/ exists row limits user,
       redemptions db = redemptions db0 ++ [row] /\ get_rate_limit RedemptionPerUserLimit = Ok limits /\ redemption_created_at row = tick (clock db0)
       /\ user ∈ rewards db /\ rewards_username user = redemption_username row /\ is_verified (status user) = true
       /\ forall w, w ∈ ALL -> redeemed_since (redemption_username row) (ago (duration w) (clock db0)) db <= get limits w.

(** The last steps: the limits, and the redemption *)
Lemma redeem_steps name view wallet id device s db0 : at_once db0 (tables s) -> is_verified (view_status view) = true ->
  has_user name (view_status view) (tables s) ->
  within_limits db0 (tables (snd (ServiceMonad.bind (check_redemption_limits name view) (fun _ => ServiceMonad.bind connected (fun _ =>
    ServiceMonad.bind (stored (redeem_points name id device wallet)) (fun '(redemption, redemption_id) =>
    ServiceMonad.bind (ServiceMonad.of_result (map_err Failed (publish_rewards_redemption redemption_id))) (fun _ => ServiceMonad.ret redemption)))) s))).
Proof.
  intros [R L] V U. apply (srun (fun s' => within_limits db0 (tables s'))).
  - intros e s1 C. left. pose proof (ServicesRefinement.skeeps_redemption_limits (no_redemption db0) name view s R) as K. by rewrite C in K.
  - intros [] s1 C. apply limits_ok in C as (limits & LM & RW & RD & CK & W).
    apply (srun (fun s' => within_limits db0 (tables s'))); intros ? s2 C2; apply reads_connected in C2; [left; congruence|].
    assert (F : within_limits db0 (tables (snd (stored (redeem_points name id device wallet) s2)))).
    { unfold stored, ServiceMonad.with_error, ServiceMonad.on_tables. pose proof (redeem_points_adds name id device wallet (tables s2)) as A.
      assert (H' : has_user name (view_status view) (tables s2)) by (rewrite C2; unfold has_user; by rewrite RW).
      apply (has_user_points name (view_status view) name id device wallet) in H'.
      destruct (redeem_points name id device wallet (tables s2)) as [r db3]. cbn [snd tables] in *. destruct A as [A|(row & A & N & T)]; [left; congruence|].
      right. destruct H' as (user & I & NU & ST). exists row, limits, user. rewrite C2 in A, T. split; [congruence|]. split; [done|].
      split; [congruence|]. split; [done|]. split; [congruence|]. split; [by rewrite ST|]. intros w IW. specialize (W w IW). rewrite N, <- L.
      pose proof (redeemed_app name (ago (duration w) (clock (tables s))) (tables s1) db3 row A). lia. }
    apply (srun (fun s' => within_limits db0 (tables s'))).
    + intros e s3 C3. by rewrite C3 in F.
    + intros [redemption rid] s3 C3. rewrite C3 in F. cbn [snd] in F. unfold ServiceMonad.bind, ServiceMonad.of_result. by destruct (map_err _ _).
Qed.

(** (C29) A redemption that the service makes is one of a verified user, and leaves each window of time that ends at the request
    within its limit: the redemptions of the user since the start of the window, the new one counted, are no more than the limit
    of that window. The new row is stored at the next reading of the clock after the one that ends the windows. The service makes
    one redemption or none, whatever fails after it. *)
Theorem redemption_within_limits wallet id device s :
  within_limits (tables s) (tables (snd (redeem_by_wallet_id wallet id device s))).
Proof.
  unfold redeem_by_wallet_id. apply (srun (fun s' => within_limits (tables s) (tables s'))); intros ? s1 C1; apply reads_connected in C1; [left; by rewrite C1|].
  assert (G : at_once (tables s) (tables (snd (stored (get_reward_by_wallet_id wallet) s1)))).
  { apply (skeeps_with_error (at_once (tables s))); [apply skeeps_on_tables, at_once_get_reward|by rewrite C1]. }
  apply (srun (fun s' => within_limits (tables s) (tables s'))).
  - intros e s2 C2. rewrite C2 in G. left. by destruct G.
  - intros view s2 C2. rewrite C2 in G. cbn [snd] in G. apply stored_ok in C2. destruct (negb _) eqn:V; [left; by destruct G|]. apply negb_false_iff in V.
    destruct (code view) as [name|] eqn:CV; [|left; by destruct G]. cbn [ok_or]. pose proof (get_reward_ok _ _ _ _ C2 name CV) as U. by apply (redeem_steps name view).
Qed.

End limits.
End RedemptionLimits.

(** ** The detection of abuse *)

Module AbuseDetection.
Import RewardsModels RewardsStore RewardsLedger DatabaseErrors RewardsErrors ConfigKeys KeptPredicates ServicesKeep Screening.
Import RiskSignalsStore RiskSignalsRepository RewardsRepository RewardsClient RewardsRedemptionClient RewardsAbuseChecker.

(** Names with their statuses, before and after some evaluations are acted on *)
Definition statuses (rows : list RewardsRow) : list (string * RewardStatus) := map (fun row => (rewards_username row, status row)) rows.
Definition abusive (evaluations : list AbuseEvaluation) (name : string) : bool := existsb (fun e => is_abuse e && String.eqb (evaluated e) name) evaluations.
Definition disabled_by (evaluations : list AbuseEvaluation) (users : list (string * RewardStatus)) : list (string * RewardStatus) :=
  map (fun '(name, status) => (name, if abusive evaluations name then Disabled else status)) users.
Definition abuses (evaluations : list AbuseEvaluation) : Z := Z.of_nat (length (List.filter is_abuse evaluations)).

Lemma disabled_none users : disabled_by [] users = users.
Proof. unfold disabled_by. rewrite <- (map_id users) at 2. by apply map_ext; intros []. Qed.

Lemma disabled_app e evaluations users : disabled_by (e :: evaluations) users = disabled_by evaluations (disabled_by [e] users).
Proof.
  unfold disabled_by. rewrite map_map. apply map_ext. intros [name st]. unfold abusive. cbn [existsb]. rewrite orb_false_r.
  destruct (is_abuse e && String.eqb (evaluated e) name), (existsb _ evaluations); done.
Qed.

Lemma disabled_clean e users : is_abuse e = false -> disabled_by [e] users = users.
Proof. intros C. unfold disabled_by, abusive. cbn [existsb]. rewrite C. cbn. rewrite <- (map_id users) at 2. by apply map_ext; intros []. Qed.

Lemma insert_elem x e l : x ∈ insert_by_percent e l <-> x = e \/ x ∈ l.
Proof. induction l as [|y l IH]; cbn; [set_solver|]. destruct (SFltb _ _); rewrite !elem_of_cons, ?IH; naive_solver. Qed.
Lemma sort_elem x l : x ∈ sort_by_percent l <-> x ∈ l.
Proof. induction l as [|y l IH]; cbn; [set_solver|]. rewrite insert_elem, elem_of_cons. unfold sort_by_percent in IH. by rewrite IH. Qed.
Lemma insert_perm e l : insert_by_percent e l ≡ₚ e :: l.
Proof. induction l as [|y l IH]; cbn; [done|]. destruct (SFltb _ _); [rewrite IH; constructor|done]. Qed.
Lemma sort_perm l : sort_by_percent l ≡ₚ l.
Proof. induction l as [|y l IH]; cbn; [done|]. rewrite insert_perm. unfold sort_by_percent in IH. by rewrite IH. Qed.

Section abuse.
Context `{Lowercase} `{SqlLower} `{WalletsStore} `{AssetsTable} `{Clock} `{DieselText} `{ConfigCacher} `{Cacher} `{DbPool} `{EventQueue} `{FormatF64}.

(** Some readings of the clock later *)
Definition ticked (n : nat) (s : Services) : Services := MkServices (set_clock (Nat.iter n tick (clock (tables s))) (tables s)) (cache s).
Lemma ticked_zero s : ticked 0 s = s.
Proof. by destruct s as [[] c]. Qed.
Lemma ticked_more m n s : ticked m (ticked n s) = ticked (m + n) s.
Proof. unfold ticked. cbn. by rewrite Nat.iter_add. Qed.

(** Who referred the user is disabled. *)
Definition by_disabled (name : string) (db : Db) : Prop :=
  exists referrer, answers (get_referrer_username name) db (Some referrer) /\ answers (get_status_by_username referrer) db Disabled.

(** What an evaluation says of a user: the figures that the store has for the period of review, and the score and the threshold
    that follow from them *)
Record measured (config : AbuseDetectionConfig) (since : Z) (db : Db) (e : AbuseEvaluation) : Prop := {
  measured_status : answers (get_status_by_username (evaluated e)) db (evaluated_status e);
  measured_referrals : answers (count_referrals_since (evaluated e) since) db (evaluated_referrals e);
  measured_attempts : answers (count_attempts_for_referrer (evaluated e) since) db (evaluated_attempts e);
  measured_risk : answers (sum_risk_scores_for_referrer (evaluated e) since) db (evaluated_risk_score e);
  measured_patterns : answers (get_abuse_patterns_for_referrer (evaluated e) since (abuse_velocity_window config)) db (patterns e);
  measured_referrer : referrer_disabled e = true <-> by_disabled (evaluated e) db;
  measured_score : abuse_score_ e
    = F64.add (F64.add (base_score (calculate_abuse_score_breakdown (evaluated_risk_score e) (evaluated_attempts e) (evaluated_referrals e) config))
        (total (calculate_pattern_penalty_breakdown (patterns e) config (evaluated_status e))))
        (penalty_when (referrer_disabled e) (disabled_referrer_penalty config));
  measured_threshold : threshold e = calculate_abuse_threshold config (evaluated_status e)
}.

(** The evaluation of a user that is neither a source of attribution nor disabled, at one of the readings of the clock that
    follow the start of a job in the state [s] *)
Definition assessed (config : AbuseDetectionConfig) (s : Services) (e : AbuseEvaluation) : Prop :=
  (exists n, (1 <= n <= length (referrals (tables s)))%nat
     /\ measured config (ago (abuse_lookback config) (Nat.iter n tick (clock (tables s)))) (tables s) e)
  /\ exists user, user ∈ rewards (tables s) /\ rewards_username user = evaluated e /\ status user <> Attribution /\ status user <> Disabled.

(** A listed user whose evaluation fails at one of these readings *)
Definition unassessed (config : AbuseDetectionConfig) (s : Services) (name : string) : Prop :=
  exists n error, (1 <= n <= length (referrals (tables s)))%nat /\ fst (evaluate_user name config (ticked n s)) = Err error.

Lemma evaluated_name name config s e s' : evaluate_user name config s = (Ok e, s') -> evaluated e = name.
Proof. unfold evaluate_user. intros E. repeat (apply sbind_ok in E as (? & ? & _ & E)). by injection E as <- _. Qed.

Lemma sbind_cases {E A B} (m : ServiceMonad.S E A) (k : A -> ServiceMonad.S E B) s r s' : ServiceMonad.bind m k s = (r, s') ->
  (exists e, m s = (Err e, s') /\ r = Err e) \/ exists a s1, m s = (Ok a, s1) /\ k a s1 = (r, s').
Proof. unfold ServiceMonad.bind. destruct (m s) as [[a|e] s1]; [intros K; right; by exists a, s1|]. intros [= <- <-]. left. by exists e. Qed.

Lemma catch_ok {E F A} (m : ServiceMonad.S E A) s (r : result F (result E A)) s' : ServiceMonad.catch m s = (r, s') -> exists r0, m s = (r0, s') /\ r = Ok r0.
Proof. unfold ServiceMonad.catch. destruct (m s) as [r0 s0]. intros [= <- <-]. eauto. Qed.

Lemma status_reads name db : keeps (fun x => x = db) (get_status_by_username name).
Proof. unfold get_status_by_username. keeps. Qed.
Lemma referrer_reads name db : keeps (fun x => x = db) (get_referrer_username name).
Proof. unfold get_referrer_username. keeps. Qed.
Lemma patterns_reads name since w db : keeps (fun x => x = db) (repo_get_abuse_patterns_for_referrer name since w).
Proof. apply keeps_with_error, ServicesRefinement.keeps_patterns. Qed.

Lemma referrer_same name s r s' : referrer_is_disabled name s = (r, s') -> s' = s /\ exists b, r = Ok b /\ (b = true <-> by_disabled name (tables s)).
Proof.
  unfold referrer_is_disabled. intros D. apply sbind_cases in D as [(e & (r0 & _ & [=])%catch_ok & _)|(found & s1 & (r0 & S & [= ->])%catch_ok & D)].
  assert (R : r0 = map_err StorageFailed (fst (get_referrer_username name (tables s)))).
  { unfold stored, ServiceMonad.with_error, ServiceMonad.on_tables in S. destruct (get_referrer_username name (tables s)). by injection S as <- _. }
  apply stored_same in S as ->; [|apply referrer_reads]. unfold by_disabled, answers. destruct (fst (get_referrer_username name (tables s))) as [[n|]|e]; subst r0.
  2,3: injection D as <- <-; split; [done|]; exists false; split; [done|]; split; [done|]; by intros (n & [=] & _).
  apply sbind_cases in D as [(e & (r1 & _ & [=])%catch_ok & _)|(st & s2 & (r1 & S & [= ->])%catch_ok & D)].
  assert (R : r1 = map_err StorageFailed (fst (get_status_by_username n (tables s)))).
  { unfold stored, ServiceMonad.with_error, ServiceMonad.on_tables in S. destruct (get_status_by_username n (tables s)). by injection S as <- _. }
  apply stored_same in S as ->; [|apply status_reads]. injection D as <- <-. split; [done|]. eexists. split; [done|]. subst r1.
  split.
  - intros X. exists n. split; [done|]. destruct (fst (get_status_by_username n (tables s))) as [st|]; [|done]. by apply bool_decide_eq_true in X as ->.
  - intros (n' & [= <-] & X). rewrite X. by apply bool_decide_eq_true.
Qed.

(** The clock is no part of what is read. *)
Lemma status_clock name c db : fst (get_status_by_username name (set_clock c db)) = fst (get_status_by_username name db).
Proof.
  unfold get_status_by_username, require_rewards, get_rewards_by_filter, with_error, query, bind. cbn -[List.filter]. by destruct (List.filter _ _).
Qed.
Lemma by_clock name c db : by_disabled name (set_clock c db) <-> by_disabled name db.
Proof. unfold by_disabled, answers. by setoid_rewrite status_clock. Qed.
Lemma max_clock {A} (f : A -> M DieselError Z) l best c db : (forall x db, exists n, f x db = (Ok n, db) /\ f x (set_clock c db) = (Ok n, set_clock c db)) ->
  exists n, max_over f l best db = (Ok n, db) /\ max_over f l best (set_clock c db) = (Ok n, set_clock c db).
Proof.
  intros F. revert best. induction l as [|x l IH]; intros best; cbn [max_over]; [by exists best|]. destruct (F x db) as (n & E1 & E2).
  unfold bind. rewrite E1, E2. apply IH.
Qed.
Lemma patterns_clock name since w c db : fst (get_abuse_patterns_for_referrer name since w (set_clock c db)) = fst (get_abuse_patterns_for_referrer name since w db).
Proof.
  unfold get_abuse_patterns_for_referrer, bind, query. set (rows := List.filter _ (signals db)). change (List.filter _ (signals (set_clock c db))) with rows.
  destruct rows as [|row rows]; [done|]. cbv zeta.
  repeat match goal with |- context [max_over ?f ?l ?b db] =>
    let n := fresh "n" in let E := fresh "E" in let E' := fresh "E'" in
    destruct (max_clock f l b c db) as (n & E & E'); [intros; eexists; split; reflexivity|]; rewrite E, E'; clear E E'
  end. done.
Qed.

(** An evaluation reads the clock once, or fails before. *)
Lemma evaluate_ok name config s e s' : evaluate_user name config s = (Ok e, s') ->
  s' = ticked 1 s /\ measured config (ago (abuse_lookback config) (clock (tables s))) (tables s) e.
Proof.
  intros E. pose proof (evaluated_name _ _ _ _ _ E) as N. unfold evaluate_user in E.
  apply sbind_ok in E as (u & s1 & ->%connected_same & E). apply sbind_ok in E as (st & s2 & Q0 & E).
  pose proof (stored_same _ _ _ _ (status_reads _ _) Q0) as ->. apply stored_ok in Q0.
  apply sbind_ok in E as (current & s3 & N1 & E). unfold now_, now, ServiceMonad.on_tables in N1. cbn in N1. injection N1 as <- <-.
  change (MkServices (set_clock (tick (clock (tables s))) (tables s)) (cache s)) with (ticked 1 s) in E. cbv zeta in E.
  apply sbind_ok in E as (n1 & ? & Q1 & E). pose proof (stored_same _ _ _ _ (keeps_with_error _ _ _ (keeps_query _ _)) Q1) as ->.
  apply sbind_ok in E as (n2 & ? & Q2 & E). pose proof (stored_same _ _ _ _ (keeps_with_error _ _ _ (keeps_query _ _)) Q2) as ->.
  apply sbind_ok in E as (n3 & ? & Q3 & E). pose proof (stored_same _ _ _ _ (keeps_with_error _ _ _ (keeps_query _ _)) Q3) as ->.
  apply sbind_ok in E as (n4 & ? & Q4 & E). pose proof (stored_same _ _ _ _ (patterns_reads _ _ _ _) Q4) as ->.
  apply sbind_ok in E as (b & ? & [-> (b0 & [= ->] & B)]%referrer_same & E).
  injection E as <- <-. split; [done|].
  apply stored_ok in Q1, Q2, Q3, Q4. unfold repo_count_referrals_since, repo_count_attempts_for_referrer, repo_sum_risk_scores_for_referrer,
    repo_get_abuse_patterns_for_referrer, lift in *. apply with_ok in Q1, Q2, Q3, Q4. split; try done; unfold answers; cbn [evaluated patterns evaluated_status].
  - by rewrite Q0.
  - injection Q1 as Q1. by rewrite <- Q1.
  - injection Q2 as Q2. by rewrite <- Q2.
  - injection Q3 as Q3. by rewrite <- Q3.
  - rewrite <- (patterns_clock _ _ _ (tick (clock (tables s)))). by apply (f_equal fst) in Q4.
  - by rewrite <- (by_clock _ (tick (clock (tables s)))).
Qed.

Lemma measured_clock config since c db e : measured config since (set_clock c db) e -> measured config since db e.
Proof.
  intros [S R A K P B SC T]. unfold answers in S, P. rewrite status_clock in S. rewrite patterns_clock in P. rewrite by_clock in B. by split.
Qed.

Lemma evaluate_err name config s e s' : evaluate_user name config s = (Err e, s') -> exists n, (n <= 1)%nat /\ s' = ticked n s.
Proof.
  intros E. unfold evaluate_user in E.
  apply sbind_cases in E as [(x & ->%connected_same & _)|(u & s1 & ->%connected_same & E)]; [exists 0%nat; rewrite ticked_zero; auto|].
  apply sbind_cases in E as [(x & Q & _)|(st & s2 & Q & E)]; apply stored_same in Q as ->; try apply status_reads; [exists 0%nat; rewrite ticked_zero; auto|].
  exists 1%nat. split; [done|].
  apply sbind_cases in E as [(x & N & _)|(current & s3 & N & E)]; unfold now_, now, ServiceMonad.on_tables in N; cbn in N; [done|]. injection N as <- <-.
  change (MkServices (set_clock (tick (clock (tables s))) (tables s)) (cache s)) with (ticked 1 s) in E. cbv zeta in E.
  do 3 (apply sbind_cases in E as [(? & Q & _)|(? & ? & Q & E)]; (apply stored_same in Q as ->; [|apply keeps_with_error, keeps_query]); [done|]).
  apply sbind_cases in E as [(? & Q & _)|(? & ? & Q & E)]; (apply stored_same in Q as ->; [|apply patterns_reads]); [done|].
  apply sbind_cases in E as [(? & [-> _]%referrer_same & _)|(b & ? & [-> _]%referrer_same & E)]; [done|]. by injection E as _ <-.
Qed.

Lemma remove_dups_length {A} `{EqDecision A} (l : list A) : (length (remove_dups l) <= length l)%nat.
Proof. apply submseteq_length, NoDup_submseteq; [apply NoDup_remove_dups|]. intros x. by rewrite elem_of_remove_dups. Qed.

Lemma active_names since n db names db' : get_referrer_usernames_with_referrals since n db = (Ok names, db') -> db' = db /\ NoDup names
  /\ (length names <= length (referrals db))%nat /\ forall name, name ∈ names ->
  exists user, user ∈ rewards db /\ rewards_username user = name /\ status user <> Attribution /\ status user <> Disabled.
Proof.
  unfold get_referrer_usernames_with_referrals, query. intros [= <- <-]. split; [done|]. split; [|split].
  - apply NoDup_ListNoDup, List.NoDup_filter, NoDup_ListNoDup, NoDup_remove_dups.
  - etrans; [apply List.filter_length_le|]. etrans; [apply remove_dups_length|]. rewrite length_map. apply List.filter_length_le.
  - intros name N. apply list_elem_of_In, filter_In in N as [N _].
    apply list_elem_of_In, elem_of_remove_dups, list_elem_of_fmap in N as (row & -> & R). apply list_elem_of_In, filter_In in R as [_ R].
    apply andb_true_iff in R as [R _]. apply existsb_exists in R as (user & U & R). apply andb_true_iff in R as [[N A]%andb_true_iff D].
    apply negb_true_iff, bool_decide_eq_false in A. apply negb_true_iff, bool_decide_eq_false in D. exists user.
    split; [by apply list_elem_of_In|]. split; [by apply of_user_true|]. by split.
Qed.

(** The evaluations of a list of users, one after the other *)
Lemma evaluate_users_ok names config s r s' : evaluate_users names config s = (r, s') -> exists evaluations m, r = Ok evaluations
  /\ (m <= length names)%nat /\ s' = ticked m s /\ sublist (map evaluated evaluations) names
  /\ (forall e, e ∈ evaluations -> exists n, (n < length names)%nat
        /\ measured config (ago (abuse_lookback config) (Nat.iter n tick (clock (tables s)))) (tables s) e)
  /\ (forall name, name ∈ names -> (exists e, e ∈ evaluations /\ evaluated e = name)
        \/ exists n error, (n < length names)%nat /\ fst (evaluate_user name config (ticked n s)) = Err error).
Proof.
  revert s r s'. induction names as [|name names IH]; intros s r s' E; cbn [evaluate_users] in E.
  - injection E as <- <-. exists [], 0%nat. rewrite ticked_zero. split_and!; [done|done|done|constructor| |]; intros ? X; by apply elem_of_nil in X.
  - apply sbind_cases in E as [(x & (r0 & _ & [=])%catch_ok & _)|(r1 & s1 & (r0 & EV & [= ->])%catch_ok & E)].
    assert (T : exists k, (k <= 1)%nat /\ s1 = ticked k s).
    { destruct r0; [exists 1%nat; split; [done|]; by apply evaluate_ok in EV as [-> _]|by apply evaluate_err in EV]. }
    destruct T as (k & K1 & ->).
    apply sbind_cases in E as [(x & (evs & m & [=] & _)%IH & _)|(rest & s2 & (evs & m & [= <-] & M & -> & SU & F & T)%IH & E)].
    injection E as <- <-. rewrite ticked_more. exists (match r0 with Ok e => e :: rest | Err _ => rest end), (m + k)%nat.
    split; [done|]. split; [cbn; lia|]. split; [done|].
    assert (G : forall e, e ∈ rest -> exists n, (n < length (name :: names))%nat
        /\ measured config (ago (abuse_lookback config) (Nat.iter n tick (clock (tables s)))) (tables s) e).
    { intros e X. destruct (F e X) as (n & L & ME). exists (n + k)%nat. split; [cbn; lia|]. rewrite Nat.iter_add. by apply measured_clock in ME. }
    assert (U : forall n0, n0 ∈ names -> (exists e, e ∈ rest /\ evaluated e = n0)
        \/ exists n error, (n < length (name :: names))%nat /\ fst (evaluate_user n0 config (ticked n s)) = Err error).
    { intros n0 X. destruct (T n0 X) as [?|(n & x & L & ER)]; [by left|right]. exists (n + k)%nat, x. rewrite ticked_more in ER. split; [cbn; lia|done]. }
    destruct r0 as [e0|x]; (split; [|split]).
    + cbn [map]. rewrite (evaluated_name _ _ _ _ _ EV). by constructor.
    + intros e [->|X]%elem_of_cons; [|by apply G]. exists 0%nat. split; [cbn; lia|]. by apply evaluate_ok in EV as [_ ME].
    + intros n [->|X]%elem_of_cons; [left; exists e0; split; [by left|by apply (evaluated_name _ _ _ _ _ EV)]|].
      destruct (U n X) as [(e & I & N)|?]; [left; exists e; split; [by right|done]|by right].
    + by constructor.
    + exact G.
    + intros n [->|X]%elem_of_cons; [|by apply U]. right. exists 0%nat, x. rewrite ticked_zero, EV. split; [cbn; lia|done].
Qed.

(** Disabling one user *)
Lemma disable_ok e s r s' : is_abuse e = true -> disable_user e s = (r, s') ->
  match r with
  | Ok _ => statuses (rewards (tables s')) = disabled_by [e] (statuses (rewards (tables s)))
  | Err _ => tables s' = tables s
  end.
Proof.
  intros A D. unfold disable_user, ServiceMonad.bind in D. destruct (connected s) as [[u|x] s1] eqn:C; pose proof (reads_connected _ _ _ C) as T;
    [|by injection D as <- <-]. rewrite <- T. clear C T. unfold stored, ServiceMonad.with_error, ServiceMonad.on_tables, repo_disable_rewards, lift, with_error,
    disable_rewards, transaction in D. cbv zeta in D. unfold insert_event in D. cbv zeta in D. destruct (RewardsStore.check _ _); injection D as <- <-; [|done].
  cbn. unfold statuses, disabled_by, update. rewrite !map_map. apply map_ext. intros row. unfold abusive. cbn [existsb]. rewrite A, orb_false_r. cbn [andb].
  unfold of_user. rewrite String.eqb_sym. by destruct (String.eqb _ _).
Qed.

Lemma disable_err e s x s' : disable_user e s = (Err x, s') -> is_abuse e = true -> s' = s.
Proof.
  intros D A. pose proof (disable_ok e s _ _ A D) as T. cbn in T. unfold disable_user in D.
  apply sbind_cases in D as [(y & ->%connected_same & _)|(u & s1 & ->%connected_same & D)]; [done|].
  unfold stored, ServiceMonad.with_error, ServiceMonad.on_tables in D. destruct (repo_disable_rewards _ _ _ _) as [[id|y] db]; [done|].
  injection D as _ <-. cbn in T. rewrite T. by destruct s.
Qed.

(** Why the disabling of users ended with an error: the next user cannot be disabled, or what was done to the last one cannot be published. *)
Definition stuck (error : ServiceError) (handled rest : list AbuseEvaluation) (s : Services) : Prop :=
  (exists e rest', rest = e :: rest' /\ is_abuse e = true /\ fst (disable_user e s) = Err error)
  \/ exists init e id, handled = init ++ [e] /\ is_abuse e = true /\ map_err Failed (publish_rewards_events [id]) = Err error.

Lemma stuck_more error e handled rest s : stuck error handled rest s -> stuck error (e :: handled) rest s.
Proof. intros [X|(init & e0 & id & -> & X)]; [by left|right]. by exists (e :: init), e0, id. Qed.

Lemma disable_users_ok evaluations n s r s' : disable_users evaluations n s = (r, s') -> exists handled rest, evaluations = handled ++ rest
  /\ statuses (rewards (tables s')) = disabled_by handled (statuses (rewards (tables s)))
  /\ match r with Ok k => rest = [] /\ k = n + abuses handled | Err error => stuck error handled rest s' end.
Proof.
  revert n s. induction evaluations as [|e evaluations IH]; intros n s D; cbn [disable_users] in D.
  - injection D as <- <-. exists [], []. rewrite disabled_none. split_and!; [done..|]. unfold abuses. cbn. lia.
  - destruct (is_abuse e) eqn:A.
    + apply sbind_cases in D as [(x & DU & ->)|(id & s1 & DU & D)].
      * pose proof (disable_err _ _ _ _ DU A) as ->. exists [], (e :: evaluations). rewrite disabled_none. split_and!; [done..|].
        left. exists e, evaluations. by rewrite DU.
      * pose proof (disable_ok e s _ s1 A DU) as S1. cbn in S1. unfold ServiceMonad.bind, ServiceMonad.of_result in D.
        destruct (map_err Failed (publish_rewards_events [id])) as [u|x] eqn:PE.
        -- destruct (IH _ _ D) as (handled & rest & -> & S2 & K). exists (e :: handled), rest. split; [done|]. rewrite disabled_app, <- S1. split; [done|].
           destruct r as [k|x]; [|by apply stuck_more]. destruct K as [-> ->]. split; [done|]. unfold abuses. cbn [List.filter]. rewrite A. cbn [length]. lia.
        -- injection D as <- <-. exists [e], evaluations. split_and!; [done..|]. right. by exists [], e, id.
    + destruct (IH _ _ D) as (handled & rest & -> & S2 & K). exists (e :: handled), rest. split; [done|]. rewrite disabled_app, disabled_clean by done.
      split; [done|]. destruct r as [k|x]; [|by apply stuck_more]. destruct K as [-> ->]. split; [done|]. unfold abuses. cbn [List.filter]. by rewrite A.
Qed.

(** The users that have referred enough since a time, and may be disabled *)
Definition referred_enough (config : AbuseDetectionConfig) (current : Z) (db : Db) (name : string) : Prop :=
  (exists user, user ∈ rewards db /\ rewards_username user = name /\ status user <> Attribution /\ status user <> Disabled)
  /\ Z.max 1 (min_referrals_to_evaluate config)
     <= count (fun row => String.eqb name (referrer row) && (ago (abuse_lookback config) current <=? referral_created_at row)) (referrals db).

Lemma count_names (active : string -> bool) (p : RewardReferralRow -> bool) name rows : active name = true ->
  count (String.eqb name) (map referrer (List.filter (fun row => active (referrer row) && p row) rows)) = count (fun row => String.eqb name (referrer row) && p row) rows.
Proof.
  intros A. unfold count. induction rows as [|row rows IH]; [done|]. cbn [List.filter]. destruct (String.eqb_spec name (referrer row)) as [->|N].
  - rewrite A. cbn [andb]. destruct (p row); [|done]. cbn [map List.filter]. rewrite String.eqb_refl. cbn [length]. lia.
  - cbn [andb]. destruct (active _ && p row); [|done]. cbn [map List.filter]. apply String.eqb_neq in N. by rewrite N.
Qed.

Lemma enough_listed config current db name names db' : referred_enough config current db name ->
  get_referrer_usernames_with_referrals (ago (abuse_lookback config) current) (min_referrals_to_evaluate config) db = (Ok names, db') -> name ∈ names.
Proof.
  intros [(user & U & N & A & D) C]. unfold get_referrer_usernames_with_referrals, query. intros [= <- <-].
  set (active := fun name => existsb (fun row => of_user name row && negb (bool_decide (status row = Attribution)) && negb (bool_decide (status row = Disabled))) (rewards db)).
  assert (T : active name = true).
  { apply existsb_exists. exists user. split; [by apply list_elem_of_In|]. unfold of_user. rewrite N, String.eqb_refl.
    by rewrite !bool_decide_eq_false_2. }
  rewrite <- (count_names active (fun row => ago (abuse_lookback config) current <=? referral_created_at row) name _ T) in C.
  apply list_elem_of_In, filter_In. split; [|apply Z.leb_le; etrans; [|exact C]; apply Z.le_max_r]. apply list_elem_of_In, elem_of_remove_dups.
  set (listed := map referrer _) in *. unfold count in C. destruct (List.filter (String.eqb name) listed) as [|x l] eqn:F; [cbn in C; lia|].
  assert (X : In x (List.filter (String.eqb name) listed)) by (rewrite F; by left). apply filter_In in X as [X E]. apply String.eqb_eq in E as ->. by apply list_elem_of_In.
Qed.

(** (C30) The job that looks for abuse fails before it does anything, because it has no connection or no configuration, or it
    looks at all users that had referred enough by its start, and are neither sources of attribution nor disabled: each of them
    is evaluated once, from the figures of the store for the period of review, unless its evaluation fails. Of the evaluated
    users it then gets to, it disables those whose score reaches the threshold, and the statuses of all others are what they
    were. If it ends without an error it got to all of them, and its answer is the number of the users that it disabled; if it
    ends with an error, the next user cannot be disabled or the last event cannot be published. *)
Theorem abuse_disables_exactly s r s' : RewardsAbuseChecker.check s = (r, s') ->
  (exists error, r = Err error) /\ s' = s /\ ((exists e, db_client (clock (tables s)) = Err e) \/ exists e, load_config = Err e)
  \/ exists config handled rest,
       load_config = Ok config
       /\ (forall e, e ∈ handled ++ rest -> assessed config s e) /\ NoDup (map evaluated (handled ++ rest))
       /\ (forall name, referred_enough config (clock (tables s)) (tables s) name ->
             (exists e, e ∈ handled ++ rest /\ evaluated e = name) \/ unassessed config s name)
       /\ statuses (rewards (tables s')) = disabled_by handled (statuses (rewards (tables s)))
       /\ match r with Ok n => rest = [] /\ n = abuses handled | Err error => stuck error handled rest s' end.
Proof.
  unfold RewardsAbuseChecker.check. intros C. apply sbind_cases in C as [(e & U & ->)|(u & s1 & U%connected_same & C)].
  { left. pose proof (connected_same _ _ _ U) as ->. split; [eauto|]. split; [done|]. left. unfold connected, ServiceMonad.with_error, ServiceMonad.client in U.
    destruct (db_client _) as [?|x]; [done|eauto]. }
  subst s1. apply sbind_cases in C as [(e & L & ->)|(config0 & s2 & L & C)]; unfold config_value, ServiceMonad.of_result in L;
    destruct load_config as [config|] eqn:LC; try done; [injection L as _ <-; left; eauto 6|]. injection L as <- <-.
  apply sbind_cases in C as [(e & N & _)|(current & s3 & N & C)]; unfold now_, now, ServiceMonad.on_tables in N; [done|]. injection N as <- <-.
  change (MkServices _ _) with (ticked 1 s) in C. cbv zeta in C.
  apply sbind_cases in C as [(e & G & _)|(names & s5 & G & C)]; [done|].
  pose proof (stored_same _ _ _ _ (keeps_with_error _ _ _ (keeps_query _ _)) G) as ->.
  apply stored_ok in G. unfold repo_get_referrer_usernames_with_referrals, lift in G. apply with_ok in G.
  destruct (active_names _ _ _ _ _ G) as (_ & ND & LE & ACT).
  apply sbind_cases in C as [(e & (? & ? & [=] & _)%evaluate_users_ok & _)|(evaluations & s6 & EV & C)].
  apply evaluate_users_ok in EV as (evs & m & [= <-] & _ & -> & SU & EV & ALL_).
  destruct (disable_users_ok _ _ _ _ _ C) as (handled & rest & S & ST & K). right. exists config, handled, rest.
  assert (IN : forall e, e ∈ handled ++ rest <-> e ∈ evaluations) by (intros e; rewrite <- S; apply sort_elem).
  split; [done|]. split; [|split; [|split; [|by split]]].
  - intros e I%IN. destruct (EV e I) as (n & L & ME). split.
    + exists (n + 1)%nat. cbn [length tables ticked] in *. split; [cbn in LE; lia|]. rewrite Nat.iter_add. by apply measured_clock in ME.
    + apply ACT. eapply (sublist_subseteq _ _ SU), list_elem_of_fmap. eauto.
  - rewrite <- S. rewrite (sort_perm evaluations). by eapply sublist_NoDup.
  - intros name RE. pose proof (enough_listed config _ (tables (ticked 1 s)) _ _ _ RE G) as I. destruct (ALL_ name I) as [(e & IE & NE)|(n & x & L & ER)]; [left|right].
    + exists e. by rewrite IN.
    + exists (n + 1)%nat, x. rewrite ticked_more in ER. split; [cbn in LE; lia|done].
Qed.

End abuse.
End AbuseDetection.

(** ** Concrete runs *)

Module ServicesConcrete.
Import Crates.Concrete HexConcrete F64 IpChecks RiskScoring.
Import RewardsModels RewardsStore RewardsLedger DatabaseErrors RewardsErrors ConfigKeys RateLimiter IpSecurity KeptPredicates Refinement ServicesKeep Awards Payments.
Import ServicesRefinement Screening RedemptionLimits AbuseDetection.
Import RiskSignalsStore RiskSignalsRepository RewardsRepository RewardsClient RewardsRedemptionClient RewardsConcrete HandlersConcrete.

(** A configuration of the default values *)
Definition number (text : string) : Z := default 0 (u64_from_str_radix 10 text).
Definition seconds (text : string) : Z :=
  let n := (String.length text - 1)%nat in
  let unit := String.substring n 1 text in
  number (String.substring 0 n text) * (if String.eqb unit "m" then 60 else if String.eqb unit "h" then 3600 else if String.eqb unit "d" then 86400 else 1).
Definition texts (key : ConfigKey) : list string :=
  match key with
  | ReferralRiskScoreHighRiskDeviceModels => ["sdk_gphone"; "(?i)emulator"; "(?i)simulator"]
  | ReferralRiskScoreHighRiskUserAgents => ["(?i)python"; "(?i)curl"; "(?i)httpie"; "(?i)postman"; "(?i)insomnia"]
  | _ => []
  end.
#[export] Instance default_settings : ConfigCacher := {|
  get_i64 key := Ok (number (default_value key));
  get_f64 key := Ok (of_i64 (number (default_value key)));
  get_bool key := Ok (String.eqb (default_value key) "true");
  get_duration key := Ok (seconds (default_value key));
  get_vec_string key := Ok (texts key);
  get_vec_usage key := Ok [DataCenter; Hosting];
  get_rate_limit key := Ok (default_limit key)
|}.

(** The configuration of the score that it gives is the one that [RiskFacts] refuses a shared device under. *)
Example defaults_loaded : load_risk_score_config = Ok RiskConcrete.loaded_config.
Proof. reflexivity. Qed.

(** Counters that never expire, and no cached address *)
#[export] Instance counters : Cacher := {|
  CacheState := list string;
  increment_with_ttl key _ cache := (Ok (count (String.eqb key) cache + 1), key :: cache);
  get_ip_value _ _ := Err "missing"%string;
  set_ip_value _ _ _ cache := (Ok tt, cache)
|}.
#[export] Instance one_country : IpProviders := [fun ip => Ok (MkIpCheck ip "US" 0 false false Isp "Comcast")].
#[export] Instance connects : DbPool := fun _ => Ok tt.
#[export] Instance keys_as_texts : LanguageLocalizer := fun _ key _ => key.
#[export] Instance valid_tokens : PusherClient := fun _ _ => Ok true.
#[export] Instance wallet_two : WalletsWriter := fun id => Ok (MkWallet 2 (WalletIds.MulticoinId second)).
#[export] Instance open_queues : EventQueue := {| publish_rewards_events _ := Ok tt; publish_rewards_redemption _ := Ok tt |}.
#[export] Instance no_digits : FormatF64 := fun _ _ => EmptyString.
#[export] Instance plain_regex : Regex := fun pattern text => Some (contains pattern text).

(** Alice, verified by requests to the handlers *)
Definition verified_run : list happening := [Served (CreateReward 1 "alice"); Served (PromoteToVerified "alice")].
Definition verified_db : Db := RedemptionConsumer.tables (fold_left (happen twice) verified_run (RedemptionConsumer.MkWorld (empty stock 0) [])).
Definition start : Services := MkServices verified_db [].

Lemma start_reached : rtc store_step (empty stock 0) (tables start).
Proof. apply (all_happen_keeps (reached (empty stock 0)) twice verified_run (RedemptionConsumer.MkWorld (empty stock 0) [])). apply rtc_refl. Qed.

(** The number of rows of the users, the signals and the referrals *)
Definition rows_of (s : Services) : list (string * RewardStatus) * nat * nat :=
  (statuses (rewards (tables s)), length (signals (tables s)), length (referrals (tables s))).

(** A second device uses the code of Alice. *)
Definition invited : service_call := UseReferralCode (phone 2) second "alice" "10.0.0.2" "agent".

(** It is screened, allowed and referred; when it asks again, its referral is pending and no second one is made. *)
Lemma services_refine_store_witness : let s := fold_left call [invited; invited] start in
  rows_of s = ([("alice", Verified); (second, Pending)], 1%nat, 1%nat) /\ sound (tables s) /\ stocked stock (tables s).
Proof.
  split; [vm_compute; reflexivity|]. exact (proj2 (services_refine_store stock 0 [invited; invited] start stock_unique stock_nonneg start_reached)).
Defined.

(** Its referral names a signal that was screened. *)
Lemma referral_screened_witness : let s := snd (use_referral_code (phone 2) second "alice" "10.0.0.2" "agent" start) in
  map referral_signal_id (referrals (tables s)) = [Some 1] /\ screened (phone 2) "alice" "10.0.0.2" "agent" start (tables s) 1.
Proof.
  split; [vm_compute; reflexivity|]. set (row := MkReferral 1 "alice" second 2 (Some 1) None 7000000000).
  destruct (referral_screened (phone 2) second "alice" "10.0.0.2" "agent" start row) as (_ & user & U & _ & [A|(_ & id & I & SC)]).
  - vm_compute. left.
  - vm_compute. intros old O. inversion O.
  - vm_compute in U. apply list_elem_of_singleton in U. subst user. discriminate.
  - injection I as <-. exact SC.
Defined.

(** A device whose address is of Tor is not referred: what is kept is the attempt. *)
Example tor_refused : let providers : IpProviders := [fun ip => Ok (MkIpCheck ip "US" 0 true false Isp "Comcast")] in
  let '(r, s) := use_referral_code (phone 2) second "alice" "10.0.0.2" "agent" start in
  r = Err (RewardsFailed (ReferralMessage "rewards_error_referral_limit_reached")) /\ rows_of s = ([("alice", Verified)], 0%nat, 0%nat)
  /\ map (fun row => reason (fst row)) (attempts (tables s)) = ["ip_tor_not_allowed"].
Proof. vm_compute. by split_and!. Qed.

Definition next_day : Services := MkServices (set_clock DAY verified_db) [].

(** Alice redeems a day after she joined, and the windows that end then hold one redemption of hers, the daily one no more than one. *)
Lemma redemption_within_limits_witness : let db := tables (snd (redeem_by_wallet_id 1 "five" 1 next_day)) in
  redeemed_since "alice" (ago (duration Day) DAY) db = 1
  /\ exists row limits, redemptions db = [row] /\ redemption_username row = "alice"%string /\ get_rate_limit RedemptionPerUserLimit = Ok limits
     /\ redemption_created_at row = tick DAY
     /\ forall w, w ∈ ALL -> redeemed_since "alice" (ago (duration w) DAY) db <= get limits w.
Proof.
  split; [vm_compute; reflexivity|].
  destruct (redemption_within_limits 1 "five" 1 next_day) as [E|(row & limits & user & R & L & T & _ & _ & _ & W)].
  - exfalso. vm_compute in E. discriminate.
  - assert (N : redemption_username row = "alice"%string).
    { match type of R with ?l = _ => assert (A : map redemption_username l = ["alice"%string]) by (vm_compute; reflexivity) end.
      rewrite R in A. by injection A. }
    rewrite N in W. exists row, limits. exact (conj R (conj N (conj L (conj T W)))).
Defined.

(** Alice redeems; she asks again on the same day, and is refused. *)
Example one_redemption_a_day : let redeem := redeem_by_wallet_id 1 "five" 1 in
  let s := MkServices (set_clock DAY verified_db) [] in let s1 := snd (redeem s) in
  length (redemptions (tables s1)) = 1%nat /\ fst (redeem s1) = Err (RedemptionRefused RedemptionLimitReached)
  /\ length (redemptions (tables (snd (redeem (MkServices (set_clock (3 * DAY) (tables s1)) []))))) = 2%nat.
Proof. vm_compute. by split_and!. Qed.

(** Two referrals of Alice, each after [n] attempts whose risk was too high *)
Definition attempted (n : nat) : Services :=
  let row i := MkReferral i "alice" second 2 None None 0 in
  MkServices (set_attempts (repeat (MkAttempt "alice" 2 2 (Some 1) "risk_score: 100 (max allowed: 60)", 0) (2 * n)) (set_referrals [row 1; row 2] 3 verified_db)) [].

(** A verified user is disabled at 400 points: 27 attempts for a referral cost 405 points, 26 cost 390. *)
Lemma abuse_disables_exactly_witness : let '(r, s) := RewardsAbuseChecker.check (attempted 27) in
  fst (RewardsAbuseChecker.check (attempted 26)) = Ok 0 /\ r = Ok 1 /\ statuses (rewards (tables s)) = [("alice", Disabled)]
  /\ exists config handled, RewardsAbuseChecker.load_config = Ok config /\ (forall e, e ∈ handled -> assessed config (attempted 27) e)
     /\ abuses handled = 1 /\ disabled_by handled [("alice", Verified)] = [("alice", Disabled)].
Proof.
  destruct (RewardsAbuseChecker.check (attempted 27)) as [r s] eqn:C.
  assert (R : r = Ok 1 /\ statuses (rewards (tables s)) = [("alice", Disabled)]).
  { change r with (fst (r, s)). change s with (snd (r, s)) at 2. rewrite <- C. split; vm_compute; reflexivity. }
  destruct R as [-> ST]. split; [vm_compute; reflexivity|]. split; [done|]. split; [done|].
  destruct (abuse_disables_exactly (attempted 27) _ _ C) as [[[e [=]] _]|(config & handled & rest & L & AS & _ & _ & D & -> & N)].
  exists config, handled. rewrite app_nil_r in AS. split; [done|]. split; [done|]. split; [done|]. by rewrite <- ST, D.
Defined.

End ServicesConcrete.
