(* ===== verification/RewardsNotices.v ===== *)
(** * Rewards: the leaderboard and the notifications

    Models [get_top_referrers_since] of [storage/src/database/rewards.rs] and [get_rewards_leaderboard] of
    [storage/src/repositories/rewards_repository.rs] (module [Leaderboard]), and the consumer of
    [daemon/src/consumers/rewards/rewards_consumer.rs], which turns the events of users into notifications
    ([RewardsConsumer]).  Users with equally many referrals come in no particular order; the model takes that of their first
    events.  The queue of notifications is the class [NotificationQueue].

    A board lists users that may be shown with their referrals of its days, the most first, and leaves out nobody who has
    more ([leaderboard_ranks]); an event is announced to the wallet of its user, that of a user who joined to its referrer
    ([event_notified]). *)
From stdpp Require Import sorting.
From S2P Require Import Prelude Text HexText Crates ChainRegistry Assets Wallets Floats RewardsStore RewardsRepository RewardsFacts RiskScore RiskSignals RateLimits RewardsServices RewardsServicesFacts.

(** ** The leaderboard *)

Module Leaderboard.
Import RewardsModels RewardsStore DatabaseErrors RewardsRepository.

Record ReferralLeader := MkLeader { leader_username : string; leader_referrals : Z; leader_points : Z }.
Record ReferralLeaderboard := MkLeaderboard { daily : list ReferralLeader; weekly : list ReferralLeader; monthly : list ReferralLeader }.

(** The users whose events are counted: the rows of [rewards] that [inner_join] finds and the filters on the status keep *)
Definition ranked (db : Db) (name : string) : bool :=
  existsb (fun row => of_user name row && negb (bool_decide (status row = Attribution)) && negb (bool_decide (status row = Disabled))) (rewards db).

(** [order_by(count_star().desc())] *)
Definition more (a b : string * Z) : Prop := snd b <= snd a.
#[export] Instance more_dec : RelDecision more := fun a b => decide (snd b <= snd a).

Definition get_top_referrers_since (event_types : list RewardEventType) (since limit : Z) : M DieselError (list (string * Z)) :=
  query (fun db =>
    let names := map event_username (List.filter (fun row => ranked db (event_username row) && bool_decide (event_type row ∈ event_types)
                                                             && (since <=? event_created_at row)) (events db)) in
    Ok (take (Z.to_nat limit) (merge_sort more (map (fun name => (name, count (String.eqb name) names)) (remove_dups names))))).

Definition map_entry (entry : string * Z) : ReferralLeader :=
  let '(username, referrals) := entry in
  MkLeader username (RiskScoring.as_i32 referrals) (RiskScoring.as_i32 (F64.wrap_i64 (referrals * event_points InviteNew))).

Section repository.
Context `{Clock} `{DieselText}.

Definition get_rewards_leaderboard : M DatabaseError ReferralLeaderboard :=
  let! current := now in
  let limit := 10 in
  let! daily := lift (get_top_referrers_since [InviteNew] (days_ago 1 current) limit) in
  let! weekly := lift (get_top_referrers_since [InviteNew] (days_ago 7 current) limit) in
  let! monthly := lift (get_top_referrers_since [InviteNew] (days_ago 30 current) limit) in
  ret (MkLeaderboard (map map_entry daily) (map map_entry weekly) (map map_entry monthly)).

End repository.
End Leaderboard.

(** ** Notifications *)

Module Notifications.

Inductive NotificationType := ReferralJoined | RewardsEnabled | RewardsCodeDisabled | RewardsRedeemed | RewardsCreateUsername | RewardsInvite.

(** A field of a JSON object *)
Inductive JsonField := JsonNull | JsonText (s : string) | JsonNumber (n : Z).

Record NotificationRewardsMetadata := MkMetadata { metadata_username : option string; metadata_points : option Z }.
Record InAppNotificationPayload := MkPayload {
  payload_wallet_id : Z;
  payload_asset_id : option AssetIds.AssetId;
  notification_type : NotificationType;
  payload_metadata : option (list (string * JsonField))
}.

(** [serde_json::to_value]: a missing name is null, missing points are left out. *)
Definition metadata_json (self : NotificationRewardsMetadata) : list (string * JsonField) :=
  ("username"%string, match metadata_username self with Some name => JsonText name | None => JsonNull end)
  :: match metadata_points self with Some n => [("points"%string, JsonNumber n)] | None => [] end.

Definition new_payload (wallet_id : Z) (type : NotificationType) (metadata : option (list (string * JsonField))) : InAppNotificationPayload :=
  MkPayload wallet_id None type metadata.

End Notifications.

Class NotificationQueue : Type := publish_notifications : list Notifications.InAppNotificationPayload -> result string unit.

Module RewardsConsumer.
Import RewardsModels RewardsStore DatabaseErrors RewardsErrors RewardsRepository ServiceMonad RewardsClient Notifications.

Section consumer.
Context `{Lowercase} `{SqlLower} `{WalletsStore} `{AssetsTable} `{Clock} `{DieselText} `{Cacher} `{DbPool} `{NotificationQueue}.

(** The wallet of a user, by a connection of its own *)
Definition wallet_of (username : string) : S ServiceError Z := let^ _ := connected in stored (get_wallet_id_by_username username).

Definition create_in_app_notification_payloads (event : RewardEvent) : S ServiceError (list InAppNotificationPayload) :=
  let metadata := MkMetadata (Some (reward_username event)) (if 0 <? reward_points event then Some (reward_points event) else None) in
  let metadata_value := Some (metadata_json metadata) in
  let to username type := let^ wallet_id := wallet_of username in ret [new_payload wallet_id type metadata_value] in
  match reward_event event with
  | CreateUsername => to (reward_username event) RewardsCreateUsername
  | InvitePending | InviteNew => to (reward_username event) RewardsInvite
  | Joined =>
      let^ _ := connected in
      let^ referrer := stored (get_referrer_username (reward_username event)) in
      match referrer with
      | None => ret []
      | Some referrer => to referrer ReferralJoined
      end
  | EnabledEvent => to (reward_username event) RewardsEnabled
  | DisabledEvent => to (reward_username event) RewardsCodeDisabled
  | Redeemed => to (reward_username event) RewardsRedeemed
  end.

Definition process (event_id : Z) : S ServiceError Z :=
  let^ _ := connected in
  let^ event := stored (get_reward_event event_id) in
  let^ notifications := create_in_app_notification_payloads event in
  let count := Z.of_nat (length notifications) in
  let^ _ := of_result (map_err Failed (publish_notifications notifications)) in
  ret count.

End consumer.
End RewardsConsumer.

(** ** What the boards show *)

Module LeaderboardFacts.
Import RewardsModels RewardsStore DatabaseErrors RewardsRepository Leaderboard.

(** The events of some types of a user since a time *)
Definition events_of (types : list RewardEventType) (since : Z) (db : Db) (name : string) : Z :=
  count (fun row => String.eqb name (event_username row) && (bool_decide (event_type row ∈ types) && (since <=? event_created_at row))) (events db).

(** The entries of a board of [limit] users *)
Record ranks (types : list RewardEventType) (since : Z) (limit : nat) (db : Db) (entries : list (string * Z)) : Prop := {
  no_user_twice : NoDup (map fst entries);
  at_most_limit : (length entries <= limit)%nat;
  most_first : StronglySorted more entries;
  true_counts : forall name n, (name, n) ∈ entries -> ranked db name = true /\ n = events_of types since db name /\ 0 < n;
  nobody_left_out : forall name, ranked db name = true -> 0 < events_of types since db name ->
    (name, events_of types since db name) ∈ entries
    \/ length entries = limit /\ forall name' n', (name', n') ∈ entries -> events_of types since db name <= n'
}.

#[export] Instance more_total : Total more.
Proof. intros a b. unfold more. lia. Qed.
#[export] Instance more_trans : Transitive more.
Proof. intros a b c. unfold more. lia. Qed.

(** The names in the counted events *)
Lemma counted_names (p : RewardEventRow -> bool) name rows :
  count (String.eqb name) (map event_username (List.filter p rows)) = count (fun row => String.eqb name (event_username row) && p row) rows.
Proof.
  unfold count. induction rows as [|row rows IH]; [done|]. cbn [List.filter]. destruct (p row) eqn:P, (String.eqb name (event_username row)) eqn:N;
    cbn [andb map List.filter]; rewrite ?N; cbn [length]; lia.
Qed.

Lemma events_of_ranked types since db name : ranked db name = true ->
  count (String.eqb name) (map event_username (List.filter (fun row => ranked db (event_username row) && bool_decide (event_type row ∈ types)
    && (since <=? event_created_at row)) (events db))) = events_of types since db name.
Proof.
  intros R. rewrite counted_names. unfold events_of, count. do 2 f_equal. apply List.filter_ext. intros row.
  destruct (String.eqb_spec name (event_username row)) as [E|]; [|done]. by rewrite <- E, R.
Qed.

Lemma count_elem name names : 0 < count (String.eqb name) names <-> name ∈ names.
Proof.
  unfold count. rewrite list_elem_of_In. split.
  - intros C. destruct (List.filter _ names) as [|x l] eqn:F; [cbn in C; lia|].
    assert (X : In x (List.filter (String.eqb name) names)) by (rewrite F; by left). by apply filter_In in X as [X ->%String.eqb_eq].
  - intros I. assert (X : In name (List.filter (String.eqb name) names)) by (apply filter_In; by rewrite String.eqb_refl).
    destruct (List.filter _ names); [done|cbn; lia].
Qed.

(** What is cut off comes after what is kept. *)
Lemma cut_off k l x y : StronglySorted more l -> x ∈ take k l -> y ∈ drop k l -> more x y.
Proof.
  intros S X Y. rewrite <- (take_drop k l) in S. apply StronglySorted_app in S as (F & _ & _). by apply F.
Qed.

Lemma sorted_take k l : StronglySorted more l -> StronglySorted more (take k l).
Proof. intros S. rewrite <- (take_drop k l) in S. by apply StronglySorted_app in S as (_ & S & _). Qed.

Lemma top_ranks types since limit db entries db' : get_top_referrers_since types since (Z.of_nat limit) db = (Ok entries, db') ->
  db' = db /\ ranks types since limit db entries.
Proof.
  unfold get_top_referrers_since, query. rewrite Nat2Z.id. intros [= <- <-]. split; [done|].
  set (names := map event_username _). set (all := map _ (remove_dups names)).
  pose proof (merge_sort_Permutation more all) as P. pose proof (StronglySorted_merge_sort more all) as S.
  set (sorted := merge_sort more all) in *.
  assert (IN : forall e, e ∈ all <-> fst e ∈ names /\ e = (fst e, count (String.eqb (fst e)) names)).
  { intros [name n]. unfold all. rewrite list_elem_of_fmap. cbn [fst]. setoid_rewrite elem_of_remove_dups. split.
    - intros (x & [= -> ->] & X). done.
    - intros [X [= ->]]. by exists name. }
  assert (RK : forall name, name ∈ names -> ranked db name = true).
  { intros name N. apply list_elem_of_fmap in N as (row & -> & R). apply list_elem_of_In, filter_In in R as [_ R]. by apply andb_true_iff in R as [[R _]%andb_true_iff _]. }
  assert (TC : forall name n, (name, n) ∈ all -> ranked db name = true /\ n = events_of types since db name /\ 0 < n).
  { intros name n [X E]%IN. injection E as ->. pose proof (RK _ X) as R. split; [done|]. split; [by apply events_of_ranked|]. by apply count_elem. }
  split.
  - assert (ND : NoDup (map fst sorted)).
    { change (NoDup (fst <$> sorted)). rewrite P. unfold all. rewrite <- list_fmap_compose. cbn. rewrite list_fmap_id. apply NoDup_remove_dups. }
    rewrite <- (take_drop limit sorted), map_app in ND. by apply NoDup_app in ND as [ND _].
  - rewrite length_take. lia.
  - by apply sorted_take.
  - intros name n X. apply TC. rewrite <- P. by eapply elem_of_take in X as (i & X & _); apply list_elem_of_lookup_2 in X.
  - intros name R C. rewrite <- (events_of_ranked types since db name R) in *. fold names in C |- *.
    assert (X : (name, count (String.eqb name) names) ∈ sorted) by (rewrite P; apply IN; split; [by apply count_elem|done]).
    rewrite <- (take_drop limit sorted) in X. apply elem_of_app in X as [X|X]; [by left|right]. split.
    + rewrite length_take. destruct (le_lt_dec limit (length sorted)); [lia|]. rewrite drop_ge in X by lia. by apply elem_of_nil in X.
    + intros name' n' X'. exact (cut_off limit sorted _ _ S X' X).
Qed.

Section board.
Context `{Clock} `{DieselText}.

(** The leaderboard is always shown.  Its three boards count the invitations of the last day, of the last seven and of the
    last thirty days: at most ten users each, none twice, the most invitations first, with the number of their invitations and
    points for each of them.  No user is listed who is a source of attribution or disabled, and one who may be listed and has an
    invitation is left out only for ten users who have at least as many. *)
Theorem leaderboard_ranks db : exists boards, fst (get_rewards_leaderboard db) = Ok boards /\
  forall days leaders, (days, leaders) ∈ [(1, daily boards); (7, weekly boards); (30, monthly boards)] ->
    exists entries, ranks [InviteNew] (days_ago days (clock db)) 10 db entries /\ leaders = map map_entry entries.
Proof.
  unfold get_rewards_leaderboard, bind at 1, now. cbn [snd fst]. set (db1 := set_clock _ db).
  assert (X : forall days, exists entries, lift (get_top_referrers_since [InviteNew] (days_ago days (clock db)) 10) db1 = (Ok entries, db1)
    /\ ranks [InviteNew] (days_ago days (clock db)) 10 db entries).
  { intros days. unfold lift, with_error. destruct (get_top_referrers_since _ _ 10 db1) as [[entries|e] db2] eqn:E; [|done].
    destruct (top_ranks _ _ 10 _ _ _ E) as [-> R]. exists entries. split; [done|]. destruct R as [N L S T B]. by split. }
  destruct (X 1) as (d & D & RD), (X 7) as (w & W & RW), (X 30) as (m & M & RM).
  exists (MkLeaderboard (map map_entry d) (map map_entry w) (map map_entry m)). unfold bind. rewrite D, W, M. split; [done|]. cbn [daily weekly monthly].
  intros days leaders. rewrite !elem_of_cons, elem_of_nil. intros [[= -> ->]|[[= -> ->]|[[= -> ->]|[]]]]; eauto.
Qed.

End board.
End LeaderboardFacts.

(** ** What is announced *)

Module NotificationFacts.
Import RewardsModels RewardsStore RewardsLedger DatabaseErrors RewardsErrors RewardsRepository ServiceMonad RewardsClient Notifications RewardsConsumer KeptPredicates.
Import ServicesKeep Screening.

(** Who is told of an event: its user, and the referrer of a user who joined *)
Definition told (db : Db) (event : RewardEventRow) : option string :=
  if bool_decide (event_type event = Joined)
  then referrer <$> find (fun row => String.eqb (referred_username row) (event_username event)) (referrals db)
  else Some (event_username event).

Definition announced_as (type : RewardEventType) : NotificationType :=
  match type with
  | CreateUsername => RewardsCreateUsername
  | InvitePending | InviteNew => RewardsInvite
  | Joined => ReferralJoined
  | EnabledEvent => RewardsEnabled
  | DisabledEvent => RewardsCodeDisabled
  | Redeemed => RewardsRedeemed
  end.

Section announced.
Context `{Lowercase} `{SqlLower} `{WalletsStore} `{AssetsTable} `{Clock} `{DieselText} `{Cacher} `{DbPool} `{NotificationQueue}.

(** The notification of an event to the wallet that has a name, with the name of the event's user and the points if there are any *)
Definition announces (db : Db) (event : RewardEventRow) (name : string) (payload : InAppNotificationPayload) : Prop :=
  exists user, user ∈ usernames db /\ sql_lower (username user) = to_lowercase name /\
    payload = MkPayload (wallet_id user) None (announced_as (event_type event))
      (Some (("username"%string, JsonText (event_username event))
             :: if 0 <? event_points (event_type event) then [("points"%string, JsonNumber (event_points (event_type event)))] else [])).

Lemma wallet_of_ok name s id s' : wallet_of name s = (Ok id, s') ->
  tables s' = tables s /\ exists user, user ∈ usernames (tables s) /\ sql_lower (username user) = to_lowercase name /\ id = wallet_id user.
Proof.
  unfold wallet_of. intros W. apply sbind_ok in W as (u & s1 & C & W). apply reads_connected in C. apply stored_ok in W. rewrite C in W.
  unfold get_wallet_id_by_username, RewardsStore.bind, require_username, or_not_found_for, RewardsStore.with_error, get_username, query in W.
  destruct (find _ (usernames (tables s))) as [user|] eqn:F; [|done]. cbn in W. injection W as <- <-. split; [done|].
  apply find_some in F as [I E]. exists user. split; [by apply list_elem_of_In|]. split; [by apply String.eqb_eq|done].
Qed.

Lemma process_reads id db : skeeps (fun db' => db' = db) (RewardsConsumer.process id).
Proof.
  assert (W : forall name, skeeps (fun db' => db' = db) (wallet_of name)).
  { intros name. unfold wallet_of, connected, stored, get_wallet_id_by_username. skeeps. }
  unfold RewardsConsumer.process, create_in_app_notification_payloads, connected, stored, get_reward_event, require_reward_event, or_not_found_internal_for,
    get_event, get_referrer_username, get_referral_by_username. skeeps.
Qed.

(** What a consumed event leads to: the tables stay as they are, and if it was processed *)
Definition notified (id : Z) (db : Db) (count : Z) : Prop :=
  exists event payloads, event ∈ events db /\ event_id event = id /\ publish_notifications payloads = Ok tt /\ count = Z.of_nat (length payloads) /\
    match told db event with
    | None => payloads = []
    | Some name => exists payload, payloads = [payload] /\ announces db event name payload
    end.

Lemma payloads_ok event s payloads s' : create_in_app_notification_payloads (event_as_primitive event) s = (Ok payloads, s') ->
  match told (tables s) event with
  | None => payloads = []
  | Some name => exists payload, payloads = [payload] /\ announces (tables s) event name payload
  end.
Proof.
  set (db := tables s). unfold create_in_app_notification_payloads. cbv zeta. cbn [reward_username reward_event reward_points event_as_primitive].
  set (metadata := metadata_json _).
  assert (M : metadata = ("username"%string, JsonText (event_username event))
             :: if 0 <? event_points (event_type event) then [("points"%string, JsonNumber (event_points (event_type event)))] else [])
    by (unfold metadata, metadata_json; cbn; by destruct (0 <? _)).
  assert (TO : forall name s0, tables s0 = db -> (let^ wallet_id := wallet_of name in ServiceMonad.ret [new_payload wallet_id (announced_as (event_type event)) (Some metadata)]) s0
      = (Ok payloads, s') -> exists payload, payloads = [payload] /\ announces db event name payload).
  { intros name s0 T W. apply sbind_ok in W as (w & s1 & W & E). apply wallet_of_ok in W as (_ & user & U & N & ->). injection E as <- _. eexists. split; [done|].
    exists user. rewrite T in U. split; [done|]. split; [done|]. unfold new_payload. by rewrite M. }
  unfold told. destruct (event_type event) eqn:T; try (rewrite bool_decide_eq_false_2 by done; by apply TO).
  rewrite bool_decide_eq_true_2 by done. intros E. apply sbind_ok in E as (u & s1 & C & E). apply reads_connected in C.
  apply sbind_ok in E as (found & s2 & R & E). apply stored_ok in R. unfold get_referrer_username, get_referral_by_username, lift, RewardsStore.with_error, query, RewardsStore.bind in R.
  cbn in R. unfold RewardsStore.ret in R. injection R as <- R2. rewrite C in *. fold db in R2, E |- *. destruct (find _ (referrals db)) as [row|].
  2: { by injection E as <- _. }
  apply (TO (referrer row) s2); [by rewrite R2|done].
Qed.

(** The consumer of events changes no table.  An event that it processes is one of the table; it publishes one notification,
    to the wallet that has the name of the event's user, with that name and the points of the event if there are any - for a user
    who joined, to the wallet of who referred the user, and nothing if nobody did - and its answer is the number it published. *)
Theorem event_notified id s : let '(r, s') := RewardsConsumer.process id s in
  tables s' = tables s /\ forall n, r = Ok n -> notified id (tables s) n.
Proof.
  destruct (RewardsConsumer.process id s) as [r s'] eqn:E. split; [pose proof (process_reads id (tables s) s eq_refl) as K; by rewrite E in K|].
  intros n ->. unfold RewardsConsumer.process in E. apply sbind_ok in E as (u & s1 & C & E). apply reads_connected in C.
  apply sbind_ok in E as (event & s2 & G & E). apply stored_ok in G. rewrite C in G.
  unfold get_reward_event, require_reward_event, or_not_found_internal_for, get_event, RewardsStore.bind, RewardsStore.with_error, query in G.
  destruct (find _ (events (tables s))) as [row|] eqn:F; [|done]. cbn in G. injection G as <- T2. apply find_some in F as [I N].
  apply sbind_ok in E as (payloads & s3 & P & E). apply payloads_ok in P. apply sbind_ok in E as (v & s4 & Q & E). injection E as <- _.
  unfold of_result in Q. injection Q as Q _. exists row, payloads. split; [by apply list_elem_of_In|]. split; [by apply Z.eqb_eq|].
  split; [by destruct (publish_notifications payloads) as [[]|]|]. split; [done|]. by rewrite <- T2 in P.
Qed.


End announced.
End NotificationFacts.

(** ** Concrete runs *)

Module NoticesConcrete.
Import RewardsModels RewardsStore RewardsLedger RewardsRepository RewardsClient Leaderboard Notifications RewardsConsumer.
Import RewardsConcrete HandlersConcrete ServicesConcrete.

#[export] Instance open_notifications : NotificationQueue := fun _ => Ok tt.

(** The user that joined is announced to Alice, whose invitation is on the board. *)
Example joined_is_announced : let s := MkServices referral_db [] in
  fst (create_in_app_notification_payloads (MkRewardEvent second Joined 10 0) s)
    = Ok [MkPayload 1 None ReferralJoined (Some [("username"%string, JsonText second); ("points"%string, JsonNumber 10)])]
  /\ daily <$> match fst (get_rewards_leaderboard referral_db) with Ok boards => Some boards | Err _ => None end = Some [MkLeader "alice" 1 100].
Proof. vm_compute. by split. Qed.

End NoticesConcrete.
