(* ===== verification/TransactionStates.v ===== *)
(** * The state of sent transactions

    Models [gemstone/src/services/transaction_state]: the rules of [rules.rs] with [primitives/src/chain_transaction_timeout.rs],
    [transaction_update.rs] and [services/collections.rs] (module [StateRules]), the service of [mod.rs] with [model.rs] and the
    trait of [store.rs] ([StateService], [StateUpdates]).  The tracker is in [TransactionTracker].  The service is asynchronous: other work runs whenever it waits.  A program is therefore a tree whose nodes are
    the calls it waits for - of the gateway, the clock, the store and the services for balances, stakes and collectibles - so
    that other programs can run between any two of its calls.  A time is a number of nanoseconds; [TransactionMetadata] is
    written to JSON by the class [StateJson]. *)
From Stdlib Require Import SpecFloat.
From S2P Require Import Prelude HexText Text ChainRegistry Assets Transactions Wallets TransferAmount Floats.
Import Assets.AssetIds.

(** ** Rules *)

Module StateRules.
Import TransactionTypes Transactions Chains.

(** *** [chain_transaction_timeout.rs], in milliseconds; every chain has a block time ([StateFacts.chain_configured]). *)

Definition chain_transaction_timeout (chain : Chain) : Z :=
  match ChainMethods.chain_type chain, ChainMethods.block_time chain with
  | Some ChainTypes.Bitcoin, _ => 1209600000
  | Some ChainTypes.Solana, Some t => t * 150
  | Some ChainTypes.Ethereum, Some t => t * 120
  | Some _, Some t => t * 600
  | _, _ => 0
  end.

Definition DAY_MS : Z := 24 * 60 * 60 * 1000.
Definition swap_transaction_timeout (source_chain destination_chain : Chain) : Z :=
  let source_timeout := chain_transaction_timeout source_chain in
  if bool_decide (source_chain = destination_chain) then source_timeout
  else
    let destination_timeout := chain_transaction_timeout destination_chain in
    Z.max ((source_timeout + destination_timeout) * 3) DAY_MS.

(** *** [transaction_update.rs] *)

Inductive PerpetualProvider := Hypercore.
Record TransactionPerpetualMetadata := MkPerpetualMetadata {
  pnl : spec_float;
  price : spec_float;
  perpetual_direction : Payloads.PerpetualDirection;
  is_liquidation : option bool;
  perpetual_provider : option PerpetualProvider
}.
Inductive TransactionMetadata := PerpetualMetadata (perpetual : TransactionPerpetualMetadata) | SwapMetadata (swap : TransactionSwapMetadata).
Inductive TransactionChange :=
| HashChange (old new : string)
| MetadataChange (metadata : TransactionMetadata)
| BlockNumberChange (number : string)
| NetworkFee (fee : Z)
| ConfirmationEtaSeconds (seconds : Z).
Record TransactionUpdate := MkUpdate { update_state : TransactionState; changes : list TransactionChange }.
Definition new_state (state : TransactionState) : TransactionUpdate := MkUpdate state [].

(** *** [collections.rs]: the first of equal items stay. *)
Fixpoint unique_from {A} `{Countable A} (seen : gset A) (items : list A) : list A :=
  match items with
  | [] => []
  | item :: items => if bool_decide (item ∈ seen) then unique_from seen items else item :: unique_from ({[item]} ∪ seen) items
  end.
Definition unique {A} `{Countable A} (items : list A) : list A := unique_from ∅ items.

Section rules.
Context `{TransactionJson}.

Definition destination_chain (transaction : Transaction) : option Chain :=
  if bool_decide (state transaction = InTransit) then (fun metadata => AssetIds.chain (to_asset metadata)) <$> swap_metadata transaction else None.

Definition num_milliseconds (d : Z) : Z := Z.quot d 1000000.

Definition has_timed_out (transaction : Transaction) (now : Z) : bool :=
  if is_completed (state transaction) then false
  else
    let chain := AssetIds.chain (asset_id transaction) in
    let timeout_ms := swap_transaction_timeout chain (default chain (destination_chain transaction)) in
    timeout_ms <? num_milliseconds (now - created_at transaction).

Record TransactionPostProcessing := MkPostProcessing {
  balance_asset_ids : list AssetId;
  stake_chains : list Chain;
  earn_asset_ids : list AssetId;
  sync_nfts : bool
}.

(** The order of the ids that come from a [HashSet] is not determined; the model takes that of [elements]. *)
Definition post_processing (transaction : Transaction) (previous_state state : TransactionState) : option TransactionPostProcessing :=
  let entered_transit := bool_decide (previous_state = Pending) && bool_decide (state = InTransit) in
  if negb (is_completed state) && negb entered_transit then None
  else
    let balance_asset_ids := elements (associated_asset_ids transaction) in
    if negb (is_completed state) then Some (MkPostProcessing balance_asset_ids [] [] false)
    else Some
      match transaction_type transaction with
      | StakeDelegate | StakeUndelegate | StakeRewards | StakeRedelegate | StakeWithdraw | StakeFreeze | StakeUnfreeze =>
          MkPostProcessing balance_asset_ids (unique (map AssetIds.chain (elements (asset_ids transaction)))) [] false
      | EarnDeposit | EarnWithdraw => MkPostProcessing balance_asset_ids [] (elements (asset_ids transaction)) false
      | TransferNFT => MkPostProcessing balance_asset_ids [] [] true
      | _ => MkPostProcessing balance_asset_ids [] [] false
      end.

Fixpoint new_hash (changes : list TransactionChange) : option string :=
  match changes with
  | [] => None
  | HashChange _ new :: _ => Some new
  | _ :: changes => new_hash changes
  end.

Definition assets_to_enable (transactions : list Transaction) : list AssetId :=
  unique (List.filter (fun asset_id => negb (bool_decide (AssetIds.chain asset_id = HyperCore)))
    (flat_map (fun transaction => elements (asset_ids transaction)) transactions)).

End rules.

(** *** The fields that an update writes *)

Record GemTransactionStateUpdate := MkStateUpdate {
  field_state : TransactionState;
  field_fee : option Z;
  field_block_number : option string;
  field_metadata : option string;
  field_eta_seconds : option Z
}.
Definition new_update (state : TransactionState) : GemTransactionStateUpdate := MkStateUpdate state None None None None.
Definition is_some {A} (o : option A) : bool := match o with Some _ => true | None => false end.
Definition has_field_changes (self : GemTransactionStateUpdate) : bool :=
  is_some (field_fee self) || is_some (field_block_number self) || is_some (field_metadata self) || is_some (field_eta_seconds self).

End StateRules.

(** [serde_json::to_string] of the metadata *)
Class StateJson : Type := metadata_json : StateRules.TransactionMetadata -> result string string.

(** ** The service *)

Module StateService.
Import TransactionTypes Transactions StateRules.

Inductive GemServiceError :=
| ApiError (msg : string) | GatewayError (msg : string) | StoreError (msg : string) | CoreError (msg : string) | PlatformError (msg : string)
| InvalidInput (msg : string) | NotFoundError (msg : string) | Unsupported (msg : string) | Cancelled.
Definition fmt (self : GemServiceError) : string :=
  match self with
  | ApiError msg | GatewayError msg | StoreError msg | CoreError msg | PlatformError msg | InvalidInput msg | NotFoundError msg | Unsupported msg => msg
  | Cancelled => "cancelled"
  end.

Inductive GemPostProcessingStep := StepBalances | StepStake | StepEarn | StepNfts.
Record GemPostProcessingFailure := MkFailure { failed_step : GemPostProcessingStep; message : string }.

Definition apply_change `{StateJson} (update : GemTransactionStateUpdate) (change : TransactionChange) : result string GemTransactionStateUpdate :=
  match change with
  | NetworkFee fee => Ok (MkStateUpdate (field_state update) (Some fee) (field_block_number update) (field_metadata update) (field_eta_seconds update))
  | BlockNumberChange number => Ok (MkStateUpdate (field_state update) (field_fee update) (Some number) (field_metadata update) (field_eta_seconds update))
  | MetadataChange metadata =>
      let? text := metadata_json metadata in
      Ok (MkStateUpdate (field_state update) (field_fee update) (field_block_number update) (Some text) (field_eta_seconds update))
  | ConfirmationEtaSeconds seconds =>
      Ok (MkStateUpdate (field_state update) (field_fee update) (field_block_number update) (field_metadata update) (Some seconds))
  | HashChange _ _ => Ok update
  end.
Fixpoint apply_changes `{StateJson} (changes : list TransactionChange) (update : GemTransactionStateUpdate) : result string GemTransactionStateUpdate :=
  match changes with
  | [] => Ok update
  | change :: changes => let? update := apply_change update change in apply_changes changes update
  end.
Definition state_update `{StateJson} (state : TransactionState) (changes : list TransactionChange) : result string GemTransactionStateUpdate :=
  apply_changes changes (new_update state).

Section service.
Context `{TransactionJson}.

Record GemTransactionStateResult := MkResult {
  result_id : TransactionIds.TransactionId;
  result_state : TransactionState;
  failures : list GemPostProcessingFailure
}.
Record GemPendingTransaction := MkPending { pending_wallet : Wallets.Wallet; pending_transaction : Transaction }.

(** *** What the service waits for, and what it is answered *)

Inductive Call :=
| GetTransactionUpdate (transaction : Transaction)
| UtcNow
| GetPendingTransactions
| GetTransaction (wallet_id : WalletIds.WalletId) (transaction_id : TransactionIds.TransactionId)
| AddTransactions (wallet_id : WalletIds.WalletId) (transactions : list Transaction)
| GetState (wallet_id : WalletIds.WalletId) (transaction_id : TransactionIds.TransactionId)
| RenameTransaction (wallet_id : WalletIds.WalletId) (transaction_id new_transaction_id : TransactionIds.TransactionId)
| DeleteTransaction (wallet_id : WalletIds.WalletId) (transaction_id : TransactionIds.TransactionId)
| UpdateTransaction (wallet_id : WalletIds.WalletId) (transaction_id : TransactionIds.TransactionId) (update : GemTransactionStateUpdate)
| SetAssetsEnabled (wallet_id : WalletIds.WalletId) (asset_ids : list AssetId) (enabled : bool)
| OpenWalletAsset (wallet : Wallets.Wallet) (asset_id : AssetId)
| UpdateBalances (wallet_id : WalletIds.WalletId) (asset_ids : list AssetId)
| SyncStake (wallet_id : WalletIds.WalletId) (chain : Chains.Chain) (address : string)
| SyncEarn (wallet_id : WalletIds.WalletId) (asset_id : AssetId) (address : string)
| SyncNfts (wallet_id : WalletIds.WalletId).

Definition Answer (call : Call) : Type :=
  match call with
  | GetTransactionUpdate _ => result string TransactionUpdate
  | UtcNow => Z
  | GetPendingTransactions => result GemServiceError (list GemPendingTransaction)
  | GetTransaction _ _ => result GemServiceError (option GemPendingTransaction)
  | GetState _ _ => result GemServiceError (option TransactionState)
  | UpdateTransaction _ _ _ => result GemServiceError bool
  | OpenWalletAsset _ _ => result GemServiceError (option Assets.Asset)
  | _ => result GemServiceError unit
  end.

(** A program: its value, or a call and what it does with each answer *)
Inductive Prog (A : Type) := Return (a : A) | Await (call : Call) (continue : Answer call -> Prog A).
#[global] Arguments Return {A} a.
#[global] Arguments Await {A} call continue.

Definition await (call : Call) : Prog (Answer call) := Await call Return.
Fixpoint bind {A B} (p : Prog A) (k : A -> Prog B) : Prog B :=
  match p with
  | Return a => k a
  | Await call continue => Await call (fun answer => bind (continue answer) k)
  end.
(** [?] after [.await] *)
Definition try_bind {A B} (p : Prog (result GemServiceError A)) (k : A -> Prog (result GemServiceError B)) : Prog (result GemServiceError B) :=
  bind p (fun r => match r with Ok a => k a | Err e => Return (Err e) end).

End service.
End StateService.

Notation "'await!' x := p 'in' k" := (StateService.bind p (fun x => k)) (at level 10, x pattern, p at level 200, k at level 200) : rust_scope.
Notation "'await?' x := p 'in' k" := (StateService.try_bind p (fun x => k)) (at level 10, x pattern, p at level 200, k at level 200) : rust_scope.

(** *** [mod.rs] *)

Module StateUpdates.
Import TransactionTypes Transactions StateRules StateService.

Section service.
Context `{TransactionJson} `{StateJson}.

Definition rename (wallet_id : WalletIds.WalletId) (transaction : Transaction) (hash : string) :
    Prog (result GemServiceError (TransactionIds.TransactionId * TransactionState)) :=
  let new_transaction_id := TransactionIds.MkTransactionId (AssetIds.chain (asset_id transaction)) hash in
  await? found := await (GetState wallet_id new_transaction_id) in
  match (found : option TransactionState) with
  | Some existing_state =>
      await? _ := await (DeleteTransaction wallet_id (id transaction)) in
      Return (Ok (new_transaction_id, existing_state))
  | None =>
      await? _ := await (RenameTransaction wallet_id (id transaction) new_transaction_id) in
      Return (Ok (new_transaction_id, state transaction))
  end.

Definition next_state (timed_out : bool) (current_state updated : TransactionState) : TransactionState :=
  let state := merged_with current_state updated in
  if timed_out && negb (is_completed state) then Failed else state.

Definition apply (wallet_id : WalletIds.WalletId) (transaction : Transaction) (update : result string TransactionUpdate) (now : Z) :
    Prog (result GemServiceError (option GemTransactionStateResult)) :=
  let timed_out := has_timed_out transaction now in
  match match update with Ok update => Ok update | Err msg => if timed_out then Ok (new_state Failed) else Err (GatewayError msg) end with
  | Err e => Return (Err e)
  | Ok update =>
      await? (transaction_id, current_state) :=
        match new_hash (changes update) with
        | Some hash => rename wallet_id transaction hash
        | None => Return (Ok (id transaction, state transaction))
        end in
      let next := next_state timed_out current_state (update_state update) in
      match state_update next (changes update) with
      | Err msg => Return (Err (CoreError msg))
      | Ok fields =>
          if bool_decide (next = current_state) && negb (has_field_changes fields) then
            await? state := await (GetState wallet_id transaction_id) in
            Return (Ok ((fun state => MkResult transaction_id state []) <$> (state : option TransactionState)))
          else
            await? written := await (UpdateTransaction wallet_id transaction_id fields) in
            Return (Ok (if (written : bool) then Some (MkResult transaction_id next []) else None))
      end
  end.

(** [record]: a failed step is noted, and the next one runs. *)
Definition record (step : GemPostProcessingStep) (p : Prog (result GemServiceError unit)) (failures : list GemPostProcessingFailure) :
    Prog (list GemPostProcessingFailure) :=
  await! r := p in Return (match r with Ok _ => failures | Err e => failures ++ [MkFailure step (fmt e)] end).
Fixpoint record_all {A} (step : GemPostProcessingStep) (p : A -> Prog (result GemServiceError unit)) (items : list A)
    (failures : list GemPostProcessingFailure) : Prog (list GemPostProcessingFailure) :=
  match items with
  | [] => Return failures
  | item :: items => await! failures := record step (p item) failures in record_all step p items failures
  end.

Definition post_process (wallet_id : WalletIds.WalletId) (transaction : Transaction) (previous_state state : TransactionState) :
    Prog (list GemPostProcessingFailure) :=
  match post_processing transaction previous_state state with
  | None => Return []
  | Some processing =>
      await! failures := record StepBalances (await (UpdateBalances wallet_id (balance_asset_ids processing))) [] in
      await! failures := record_all StepStake (fun chain => await (SyncStake wallet_id chain (from transaction))) (stake_chains processing) failures in
      await! failures := record_all StepEarn (fun asset_id => await (SyncEarn wallet_id asset_id (from transaction))) (earn_asset_ids processing) failures in
      if sync_nfts processing then record StepNfts (await (SyncNfts wallet_id)) failures else Return failures
  end.

Definition update (wallet_id : WalletIds.WalletId) (transaction : Transaction) : Prog (result GemServiceError (option GemTransactionStateResult)) :=
  await! update := await (GetTransactionUpdate transaction) in
  await! now := await UtcNow in
  await? result := apply wallet_id transaction update now in
  match result with
  | None => Return (Ok None)
  | Some result =>
      await! failures := post_process wallet_id transaction (state transaction) (result_state result) in
      Return (Ok (Some (MkResult (result_id result) (result_state result) failures)))
  end.

Definition enable_transaction_assets (wallet_id : WalletIds.WalletId) (transactions : list Transaction) : Prog (result GemServiceError unit) :=
  match assets_to_enable transactions with
  | [] => Return (Ok tt)
  | asset_ids => await (SetAssetsEnabled wallet_id asset_ids true)
  end.
Definition add_transactions (wallet_id : WalletIds.WalletId) (transactions : list Transaction) : Prog (result GemServiceError unit) :=
  await (AddTransactions wallet_id transactions).
Definition add_notification_transaction (wallet : Wallets.Wallet) (asset_id : AssetId) (transaction : Transaction) :
    Prog (result GemServiceError (option Assets.Asset)) :=
  await? asset := await (OpenWalletAsset wallet asset_id) in
  match (asset : option Assets.Asset) with
  | None => Return (Ok None)
  | Some asset => await? _ := add_transactions (Wallets.id wallet) [transaction] in Return (Ok (Some asset))
  end.

(** What [track_pending] and [track] start to poll *)
Definition to_track_pending : Prog (result GemServiceError (list (WalletIds.WalletId * Transaction))) :=
  await? pending := await GetPendingTransactions in
  Return (Ok (map (fun p => (Wallets.id (pending_wallet p), pending_transaction p)) (pending : list GemPendingTransaction))).
Definition to_track (wallet_id : WalletIds.WalletId) (transactions : list Transaction) :
    Prog (result GemServiceError (list (WalletIds.WalletId * Transaction))) :=
  await? _ := enable_transaction_assets wallet_id transactions in
  Return (Ok (map (fun transaction => (wallet_id, transaction)) transactions)).

End service.
End StateUpdates.
