(* ===== verification/TransactionTracker.v ===== *)
(** * The tracker of sent transactions

    Models [gemstone/src/services/transaction_state/tracker.rs] and [primitives/src/job_configuration.rs] (module [Tracker]), and
    what a program of [TransactionStates] does when its calls are answered (module [Store]).  The store of transactions belongs to
    the mobile applications: its answers are those of a table of rows by wallet and id, as [TransactionStateStore.swift] and
    [TransactionStateStore.kt] write it, or errors that change nothing; the gateway and the other services may answer
    anything.  A poll is a loop that sleeps, updates its transaction and reads it again; the world of [Tracker] holds the
    polls that run, and one step is one answer to one of them.

    What holds of all this is in [TransactionStateFacts]. *)
From Stdlib Require Import SpecFloat.
From S2P Require Import Prelude HexText Text ChainRegistry Assets Transactions Wallets TransferAmount Floats TransactionStates.
Import Assets.AssetIds.

#[export] Existing Instance WalletIds.WalletId_eq_dec.
#[export] Instance TransactionId_eq_dec : EqDecision TransactionIds.TransactionId.
Proof. solve_decision. Defined.
#[export] Instance TransactionId_countable : Countable TransactionIds.TransactionId.
Proof.
  by apply (inj_countable' (fun i => (TransactionIds.chain i, TransactionIds.hash i)) (fun p => TransactionIds.MkTransactionId (fst p) (snd p))); intros [].
Defined.
#[export] Instance WalletId_countable : Countable WalletIds.WalletId.
Proof.
  apply (inj_countable' (fun i => (match WalletIds.wallet_type i with WalletIds.Multicoin => 0 | WalletIds.Single => 1 | WalletIds.PrivateKey => 2 | WalletIds.View => 3 end,
      WalletIds.chain i, WalletIds.address i))
    (fun p => match p with
              | (1, Some chain, address) => WalletIds.SingleId chain address
              | (2, Some chain, address) => WalletIds.PrivateKeyId chain address
              | (3, Some chain, address) => WalletIds.ViewId chain address
              | (_, _, address) => WalletIds.MulticoinId address
              end)). by intros [].
Defined.

(** ** Polls *)

Module Tracker.
Import TransactionTypes Transactions StateRules StateService StateUpdates.

(** *** [job_configuration.rs] *)

Record JobConfiguration := MkJob { initial_interval_ms : Z; max_interval_ms : Z; step_factor : spec_float }.

(** [1.1f32], and [f64::from] of an [f32] *)
Definition f32_1_1 : spec_float := SFdiv 24 128 (binary_normalize 24 128 11 0 false) (binary_normalize 24 128 10 0 false).
Definition from_f32 (f : spec_float) : spec_float :=
  match f with S754_finite s m e => binary_normalize 53 1024 (cond_Zopp s (Z.pos m)) e s | _ => f end.

Definition default_job : JobConfiguration := MkJob 5000 60000 f32_1_1.
Definition clamp (z low high : Z) : Z := Z.max low (Z.min z high).
Definition transaction_state (chain : Chains.Chain) : JobConfiguration :=
  MkJob (clamp (default 0 (ChainMethods.block_time chain)) 1 (initial_interval_ms default_job)) (max_interval_ms default_job) (step_factor default_job).
Definition next_interval_ms (self : JobConfiguration) (current_interval_ms : Z) : Z :=
  let max_interval_ms := Z.max (max_interval_ms self) (initial_interval_ms self) in
  let next_interval_ms := F64.to_u32 (F64.mul (F64.of_i64 current_interval_ms) (from_f32 (step_factor self))) in
  clamp next_interval_ms (initial_interval_ms self) max_interval_ms.
Definition max_interval_steps (self : JobConfiguration) : Z :=
  let n := Z.max (max_interval_ms self) (initial_interval_ms self) in
  let d := Z.max (initial_interval_ms self) 1 in
  (n + d - 1) / d.

(** *** [Tracking]: the number of the last poll, and the poll that owns each id *)

Record Tracking := MkTracking { last_poll : Z; polls : gmap TransactionIds.TransactionId Z }.
Definition no_tracking : Tracking := MkTracking 0 ∅.

Definition start (transaction_id : TransactionIds.TransactionId) (self : Tracking) : option (Z * Tracking) :=
  if bool_decide (is_Some (polls self !! transaction_id)) then None
  else
    let poll := last_poll self + 1 in
    Some (poll, MkTracking poll (<[transaction_id := poll]> (polls self))).
Definition cancel (self : Tracking) : Tracking := MkTracking (last_poll self) ∅.
Definition is_tracking (poll : Z) (self : Tracking) : bool := bool_decide (map_Exists (fun _ p => p = poll) (polls self)).
Definition follow (poll : Z) (transaction_id : TransactionIds.TransactionId) (self : Tracking) : Tracking :=
  MkTracking (last_poll self) (<[transaction_id := poll]> (polls self)).
(** [Drop] *)
Definition release (poll : Z) (self : Tracking) : Tracking := MkTracking (last_poll self) (filter (fun p => snd p <> poll) (polls self)).

Section poll.
Context `{TransactionJson} `{StateJson}.

(** *** [poll], cut at what it waits for *)

Inductive Phase :=
| Sleeping (current : Transaction)
| Updating (current : Transaction) (p : Prog (result GemServiceError (option GemTransactionStateResult)))
| Fetching (p : Prog (result GemServiceError (option GemPendingTransaction))).

Record Task := MkTask { poll_number : Z; configuration : JobConfiguration; interval : Z; task_wallet : WalletIds.WalletId; phase : Phase }.
Definition with_phase (phase : Phase) (task : Task) : Task :=
  MkTask (poll_number task) (configuration task) (interval task) (task_wallet task) phase.

(** Until the first [sleep]: [None] if the transaction is tracked already *)
Definition start_poll (wallet_id : WalletIds.WalletId) (transaction : Transaction) (tracking : Tracking) : option (Task * Tracking) :=
  match start (id transaction) tracking with
  | None => None
  | Some (poll, tracking) =>
      let configuration := transaction_state (AssetIds.chain (asset_id transaction)) in
      Some (MkTask poll configuration (initial_interval_ms configuration) wallet_id (Sleeping transaction), tracking)
  end.

(** After [sleep]: [None] is [break]. *)
Definition woken (task : Task) (current : Transaction) (tracking : Tracking) : option Task :=
  if is_tracking (poll_number task) tracking
  then Some (MkTask (poll_number task) (configuration task) (next_interval_ms (configuration task) (interval task)) (task_wallet task)
               (Updating current (update (task_wallet task) current)))
  else None.

(** After [update]: [None] is [break], [Sleeping] is [continue]. *)
Definition updated (task : Task) (current : Transaction) (answer : result GemServiceError (option GemTransactionStateResult)) (tracking : Tracking) :
    option Task * Tracking :=
  match answer with
  | Ok (Some result) =>
      (Some (with_phase (Fetching (await (GetTransaction (task_wallet task) (result_id result)))) task),
       if bool_decide (result_id result = id current) then tracking else follow (poll_number task) (result_id result) tracking)
  | Ok None => (None, tracking)
  | Err _ => (Some (with_phase (Sleeping current) task), tracking)
  end.

(** After [get_transaction] *)
Definition fetched (task : Task) (stored : result GemServiceError (option GemPendingTransaction)) : option Task :=
  match stored with
  | Ok (Some pending) =>
      if is_completed (state (pending_transaction pending)) then None else Some (with_phase (Sleeping (pending_transaction pending)) task)
  | _ => None
  end.

End poll.
End Tracker.

(** ** Answers *)

Module Store.
Import TransactionTypes Transactions StateRules StateService.

Section answers.
Context `{TransactionJson}.

(** The table of transactions, and the time *)
Record Env := MkEnv { rows : gmap (WalletIds.WalletId * TransactionIds.TransactionId) Transaction; clock : Z }.

Definition with_id (i : TransactionIds.TransactionId) (t : Transaction) : Transaction :=
  MkTransaction i (asset_id t) (from t) (to t) (contract t) (transaction_type t) (state t) (block_number t) (sequence t) (fee t) (fee_asset_id t)
    (value t) (memo t) (direction t) (utxo_inputs t) (utxo_outputs t) (metadata t) (data t) (created_at t).

(** What an update leaves of a row: the state and the fee are those of the update, what it does not carry stays.  The number of
    the block and the metadata are written in other forms, of which nothing is said here. *)
Definition written (u : GemTransactionStateUpdate) (t t' : Transaction) : Prop :=
  state t' = field_state u /\ fee t' = default (fee t) (field_fee u) /\ id t' = id t /\ asset_id t' = asset_id t /\ created_at t' = created_at t
  /\ transaction_type t' = transaction_type t /\ from t' = from t /\ to t' = to t.

Definition kept (s s' : Env) : Prop := rows s' = rows s /\ clock s <= clock s'.

(** Answers to a call; only a store that is not [reliable] fails. *)
Definition answers (reliable : bool) (call : Call) : Answer call -> Env -> Env -> Prop :=
  match call return Answer call -> Env -> Env -> Prop with
  | UtcNow => fun now s s' => kept s s' /\ now = clock s'
  | GetTransaction w i => fun r s s' => kept s s' /\
      match r with Ok found => pending_transaction <$> found = rows s !! (w, i) | Err _ => reliable = false end
  | GetState w i => fun r s s' => kept s s' /\ match r with Ok found => found = state <$> rows s !! (w, i) | Err _ => reliable = false end
  | RenameTransaction w i j => fun r s s' => clock s <= clock s' /\
      match r with
      | Ok _ => rows s !! (w, j) = None /\
          rows s' = match rows s !! (w, i) with Some t => <[(w, j) := with_id j t]> (delete (w, i) (rows s)) | None => rows s end
      | Err _ => rows s' = rows s /\ (reliable = false \/ is_Some (rows s !! (w, j)))
      end
  | DeleteTransaction w i => fun r s s' => clock s <= clock s' /\
      match r with Ok _ => rows s' = delete (w, i) (rows s) | Err _ => rows s' = rows s /\ reliable = false end
  | UpdateTransaction w i u => fun r s s' => clock s <= clock s' /\
      match r with
      | Ok true => exists t t', rows s !! (w, i) = Some t /\ written u t t' /\ rows s' = <[(w, i) := t']> (rows s)
      | Ok false => rows s !! (w, i) = None /\ rows s' = rows s
      | Err _ => rows s' = rows s /\ reliable = false
      end
  | AddTransactions _ _ => fun _ s s' => clock s <= clock s'
  | _ => fun _ s s' => kept s s'
  end.

(** A program whose calls are answered one after the other *)
Fixpoint runs (reliable : bool) {A} (p : Prog A) (s : Env) (a : A) (s' : Env) : Prop :=
  match p with
  | Return b => b = a /\ s' = s
  | Await call continue => exists answer s1, answers reliable call answer s s1 /\ runs reliable (continue answer) s1 a s'
  end.

End answers.
End Store.

(** ** The world of polls *)

Module Polling.
Import TransactionTypes Transactions StateRules StateService StateUpdates Tracker Store.

Section world.
Context `{TransactionJson} `{StateJson}.

Record World := MkWorld { env : Env; tracking : Tracking; tasks : list Task }.

(** The poll at a place goes on, or ends and is dropped. *)
Definition becomes (i : nat) (task : option Task) (poll : Z) (tracking : Tracking) (env : Env) (w : World) : World :=
  match task with
  | Some task => MkWorld env tracking (<[i := task]> (tasks w))
  | None => MkWorld env (release poll tracking) (delete i (tasks w))
  end.

(** One step: a poll starts, wakes, is answered or goes on after its update; all polls are cancelled; one is dropped while it
    waits; somebody else changes the table. *)
Inductive step : World -> World -> Prop :=
| StepStart wallet_id transaction task tr w : start_poll wallet_id transaction (tracking w) = Some (task, tr) ->
    step w (MkWorld (env w) tr (tasks w ++ [task]))
| StepWake i task current e w : tasks w !! i = Some task -> phase task = Sleeping current -> kept (env w) e ->
    step w (becomes i (woken task current (tracking w)) (poll_number task) (tracking w) e w)
| StepUpdate i task current call continue answer e w : tasks w !! i = Some task -> phase task = Updating current (Await call continue) ->
    answers false call answer (env w) e ->
    step w (becomes i (Some (with_phase (Updating current (continue answer)) task)) (poll_number task) (tracking w) e w)
| StepUpdated i task current answer w : tasks w !! i = Some task -> phase task = Updating current (Return answer) ->
    step w (becomes i (fst (updated task current answer (tracking w))) (poll_number task) (snd (updated task current answer (tracking w))) (env w) w)
| StepFetch i task call continue answer e w : tasks w !! i = Some task -> phase task = Fetching (Await call continue) ->
    answers false call answer (env w) e ->
    step w (becomes i (Some (with_phase (Fetching (continue answer)) task)) (poll_number task) (tracking w) e w)
| StepFetched i task answer w : tasks w !! i = Some task -> phase task = Fetching (Return answer) ->
    step w (becomes i (fetched task answer) (poll_number task) (tracking w) (env w) w)
| StepCancel w : step w (MkWorld (env w) (cancel (tracking w)) (tasks w))
| StepDrop i task w : tasks w !! i = Some task -> step w (becomes i None (poll_number task) (tracking w) (env w) w)
| StepOther e w : step w (MkWorld e (tracking w) (tasks w)).

Definition no_polls (e : Env) : World := MkWorld e no_tracking [].

(** *** A poll that nothing interrupts *)

(** One turn of the loop, which sleeps for at least its interval; [None] is its end. *)
Definition turn (reliable : bool) (task : Task) (current : Transaction) (tr : Tracking) (s : Env) (next : option Task) (tr' : Tracking) (s' : Env) : Prop :=
  exists s1, rows s1 = rows s /\ clock s + interval task * 1000000 <= clock s1 /\
  match woken task current tr with
  | None => next = None /\ tr' = tr /\ s' = s1
  | Some task1 =>
      exists answer s2, runs reliable (update (task_wallet task) current) s1 answer s2 /\
      let '(task2, tr2) := updated task1 current answer tr in
      tr' = tr2 /\
      match task2 with
      | Some task2 =>
          match phase task2 with
          | Fetching p => exists stored, runs reliable p s2 stored s' /\ next = fetched task2 stored
          | _ => next = Some task2 /\ s' = s2
          end
      | None => next = None /\ s' = s2
      end
  end.

(** A number of turns after which the poll goes on *)
Inductive turns (reliable : bool) : nat -> Task -> Tracking -> Env -> Task -> Tracking -> Env -> Prop :=
| NoTurn task tr s : turns reliable 0 task tr s task tr s
| OneTurn n task current tr s task1 tr1 s1 task2 tr2 s2 : phase task = Sleeping current -> turn reliable task current tr s (Some task1) tr1 s1 ->
    turns reliable n task1 tr1 s1 task2 tr2 s2 -> turns reliable (S n) task tr s task2 tr2 s2.

End world.
End Polling.
