(* ===== verification/TransactionStateFacts.v ===== *)
(** * Facts about the state of sent transactions

    What holds of the definitions of [TransactionStates] and [TransactionTracker]: the timeouts and intervals ([StateFacts]),
    the programs ([ProgFacts]), what an update leaves in the table ([UpdateFacts]), the polls that run at one time ([Exclusion])
    and one poll that nothing interrupts ([Ending]).

    A transaction is tracked by at most one poll, and a poll that has ended tracks nothing ([tracking_exclusive]); a poll
    whose store does not fail ends in time ([polling_ends]), and leaves a transaction that is settled or gone
    ([poll_settles]); an update that nothing interrupts only moves transactions forward ([update_progresses]), one that others
    interrupt may not ([stale_update_reopens]). *)
From Stdlib Require Import SpecFloat.
From S2P Require Import Prelude HexText Text ChainRegistry Assets Transactions Wallets TransferAmount Floats TransactionStates TransactionTracker.
Import Assets.AssetIds.

(** ** Timeouts and intervals *)

Module StateFacts.
Import TransactionTypes Transactions StateRules Tracker.

(** No chain is without a type or a time between blocks, so [chain_transaction_timeout] and [transaction_state] use no default. *)
Lemma chain_configured chain : is_Some (ChainMethods.chain_type chain) /\ exists t, ChainMethods.block_time chain = Some t /\ 0 < t < 2 ^ 32.
Proof. destruct chain; (split; [by eexists|eexists; split; [vm_compute; reflexivity|lia]]). Qed.

(** The longest timeout of a chain, and of a swap, in milliseconds: none overflows. *)
Definition CHAIN_TIMEOUT_MAX : Z := 1209600000.
Definition TIMEOUT_MAX : Z := 7257600000.
Lemma chain_timeout_bounds chain : 0 < chain_transaction_timeout chain <= CHAIN_TIMEOUT_MAX.
Proof. destruct chain; vm_compute; by split. Qed.
Lemma swap_timeout_bounds a b : 0 < swap_transaction_timeout a b <= TIMEOUT_MAX.
Proof.
  pose proof (chain_timeout_bounds a). pose proof (chain_timeout_bounds b). unfold swap_transaction_timeout, TIMEOUT_MAX, CHAIN_TIMEOUT_MAX, DAY_MS in *.
  case_bool_decide; lia.
Qed.

Section timeouts.
Context `{TransactionJson}.

(** Long after its creation every transaction has timed out. *)
Lemma timed_out_at t now : is_completed (state t) = false -> created_at t + (TIMEOUT_MAX + 1) * 1000000 <= now -> has_timed_out t now = true.
Proof.
  intros C L. unfold has_timed_out, num_milliseconds. rewrite C. apply Z.ltb_lt.
  pose proof (swap_timeout_bounds (AssetIds.chain (asset_id t)) (default (AssetIds.chain (asset_id t)) (destination_chain t))) as B.
  unfold TIMEOUT_MAX in *. rewrite Z.quot_div_nonneg by lia. pose proof (Z.div_le_mono (7257600001 * 1000000) (now - created_at t) 1000000). 
  rewrite Z.div_mul in *; lia.
Qed.
End timeouts.

Lemma initial_interval chain : 1 <= initial_interval_ms (transaction_state chain) <= 5000.
Proof. unfold transaction_state, clamp, default_job; cbn [initial_interval_ms]. lia. Qed.
Lemma next_interval configuration i : initial_interval_ms configuration <= next_interval_ms configuration i.
Proof. unfold next_interval_ms, clamp. lia. Qed.

End StateFacts.

(** ** Programs and their runs *)

Module ProgFacts.
Import TransactionTypes Transactions StateRules StateService Store.

Section programs.
Context `{TransactionJson}.

Lemma runs_bind {A B} reliable (p : Prog A) (k : A -> Prog B) s b s' :
  runs reliable (bind p k) s b s' <-> exists a s1, runs reliable p s a s1 /\ runs reliable (k a) s1 b s'.
Proof.
  revert s. induction p as [a|call continue IH]; intros s; cbn [bind runs].
  - split; [by intros ?; exists a, s|]. by intros (a' & s1 & [-> ->] & ?).
  - split.
    + intros (answer & s1 & A1 & R). apply IH in R as (a & s2 & R1 & R2). exists a, s2. split; [|done]. by exists answer, s1.
    + intros (a & s2 & (answer & s1 & A1 & R1) & R2). exists answer, s1. split; [done|]. apply IH. eauto.
Qed.
Lemma runs_await reliable call s answer s' : runs reliable (await call) s answer s' <-> answers reliable call answer s s'.
Proof. cbn. split; [by intros (a & s1 & A & -> & ->)|]. intros A. by exists answer, s'. Qed.
Lemma runs_try {A B} reliable (p : Prog (result GemServiceError A)) (k : A -> Prog (result GemServiceError B)) s b s' :
  runs reliable (try_bind p k) s b s' <->
  exists r s1, runs reliable p s r s1 /\ match r with Ok a => runs reliable (k a) s1 b s' | Err e => b = Err e /\ s' = s1 end.
Proof.
  unfold try_bind. rewrite runs_bind. split; intros (r & s1 & R & K); exists r, s1; (split; [done|]).
  - destruct r; [done|]. cbn in K. by destruct K as [-> ->].
  - destruct r; [done|]. cbn. by destruct K as [-> ->].
Qed.

End programs.
End ProgFacts.

(** ** What an update leaves in the table *)

Module UpdateFacts.
Import TransactionTypes Transactions StateRules StateService StateUpdates Store StateFacts ProgFacts.

Lemma state_update_keeps `{StateJson} state changes fields : state_update state changes = Ok fields -> field_state fields = state.
Proof.
  unfold state_update. change state with (field_state (new_update state)) at 2. generalize (new_update state) as u.
  induction changes as [|change changes IH]; intros u E; cbn in E; [by injection E as <-|].
  destruct change; cbn in E; try (by rewrite (IH _ E)).
  destruct (metadata_json _); [|done]. by rewrite (IH _ E).
Qed.
Lemma state_update_total `{StateJson} (T : forall metadata, exists text, metadata_json metadata = Ok text) state changes :
  exists fields, state_update state changes = Ok fields.
Proof.
  unfold state_update. generalize (new_update state) as u.
  induction changes as [|change changes IH]; intros u; cbn; [by eexists|].
  destruct change; cbn; try apply IH. match goal with |- context [metadata_json ?x] => destruct (T x) as [text ->] end. apply IH.
Qed.

(** The state after a timeout is a final one. *)
Lemma next_state_timed_out current updated : is_completed (next_state true current updated) = true.
Proof. unfold next_state. by destruct (is_completed (merged_with current updated)) eqn:E. Qed.

Section updates.
Context `{TransactionJson} `{StateJson}.
Implicit Types (w : WalletIds.WalletId) (t : Transaction) (s : Env).

Lemma record_kept reliable step p failures s r s' : (forall a s0 s1, runs reliable p s0 a s1 -> kept s0 s1) ->
  runs reliable (record step p failures) s r s' -> kept s s'.
Proof. intros K R. unfold record in R. apply runs_bind in R as (a & s1 & R & _ & ->). eauto. Qed.
Lemma kept_refl s : kept s s.
Proof. by split. Qed.
Lemma kept_trans s1 s2 s3 : kept s1 s2 -> kept s2 s3 -> kept s1 s3.
Proof. intros [E1 ?] [E2 ?]. split; [congruence|lia]. Qed.
Lemma record_all_kept {A} reliable step (p : A -> Prog (result GemServiceError unit)) items failures s r s' :
  (forall x a s0 s1, runs reliable (p x) s0 a s1 -> kept s0 s1) -> runs reliable (record_all step p items failures) s r s' -> kept s s'.
Proof.
  intros K. revert failures s. induction items as [|x items IH]; intros failures s R; cbn in R; [destruct R as [_ ->]; apply kept_refl|].
  apply runs_bind in R as (a & s1 & R1 & R2). eapply kept_trans; [eapply record_kept; [|exact R1]; eauto|eauto].
Qed.

(** The work after an update does not touch the table. *)
Lemma post_process_kept reliable w t a b s r s' : runs reliable (post_process w t a b) s r s' -> kept s s'.
Proof.
  unfold post_process. intros R. destruct (post_processing t a b) as [processing|]; [|destruct R as [_ ->]; apply kept_refl].
  apply runs_bind in R as (f1 & s1 & R1 & R). apply runs_bind in R as (f2 & s2 & R2 & R). apply runs_bind in R as (f3 & s3 & R3 & R).
  apply record_kept in R1; [|by intros ??? ?%runs_await]. apply record_all_kept in R2; [|by intros ???? ?%runs_await].
  apply record_all_kept in R3; [|by intros ???? ?%runs_await].
  assert (kept s3 s') as K.
  { destruct (sync_nfts processing); [|destruct R as [_ ->]; apply kept_refl]. apply record_kept in R; [done|by intros ??? ?%runs_await]. }
  eauto using kept_trans.
Qed.

Notation table := (gmap (WalletIds.WalletId * TransactionIds.TransactionId) Transaction).

(** Where a transaction is after its hash may have changed, and in which state it was: it is where it was, it is the row that has
    the new hash already, or it has moved there. *)
Inductive located w t (m : table) (j : TransactionIds.TransactionId) : TransactionState -> table -> Prop :=
| Stays : j = id t -> located w t m j (state t) m
| Merged row : m !! (w, j) = Some row -> located w t m j (state row) (delete (w, id t) m)
| Moved : m !! (w, j) = None ->
    located w t m j (state t) (match m !! (w, id t) with Some row => <[(w, j) := with_id j row]> (delete (w, id t) m) | None => m end).

Lemma rename_runs reliable w t hash s r s' : runs reliable (rename w t hash) s r s' ->
  clock s <= clock s' /\
  match r with
  | Ok (j, st) => located w t (rows s) j st (rows s')
  | Err _ => rows s' = rows s /\ reliable = false
  end.
Proof.
  unfold rename. intros R. apply runs_try in R as (found & s1 & [[K1 K2] F]%runs_await & R).
  destruct found as [found|e]; [|destruct R as [-> ->]; by rewrite K1]. destruct found as [st|].
  - apply runs_try in R as (done & s2 & [C D]%runs_await & R). symmetry in F. apply fmap_Some in F as (row & Fr & ->).
    destruct done; [destruct R as [<- ->]|destruct R as [-> ->]; rewrite K1 in D; destruct D as [-> D]; split; [lia|done]].
    split; [lia|]. rewrite D, K1. by apply Merged.
  - apply runs_try in R as (done & s2 & [C D]%runs_await & R). symmetry in F. apply fmap_None in F.
    destruct done; [destruct R as [<- ->]|destruct R as [-> ->]].
    + split; [lia|]. destruct D as [N D]. rewrite D, K1. by apply Moved.
    + rewrite K1 in D. destruct D as [-> [D|D]]; [split; [lia|done]|]. rewrite F in D. by destruct D.
Qed.

(** The three ends of an update *)
Definition finished reliable w t s (r : result GemServiceError (option GemTransactionStateResult)) s' (now : Z) : Prop :=
  match r with
  | Err _ => (rows s' = rows s \/ exists j st, located w t (rows s) j st (rows s')) /\ (reliable = true -> has_timed_out t now = false /\ rows s' = rows s)
  | Ok None => exists j st, located w t (rows s) j st (rows s') /\ rows s' !! (w, j) = None
  | Ok (Some result) => exists st m, located w t (rows s) (result_id result) st m /\
      ((rows s' = m /\ is_Some (m !! (w, result_id result)) /\ (has_timed_out t now = true -> is_completed st = true))
       \/ exists row row' u updated, m !! (w, result_id result) = Some row /\ written u row row' /\
            field_state u = next_state (has_timed_out t now) st updated /\ rows s' = <[(w, result_id result) := row']> m)
  end.

Lemma locate_runs reliable w t found s r s' :
  runs reliable (match found with Some hash => rename w t hash | None => Return (Ok (id t, state t)) end) s r s' ->
  clock s <= clock s' /\
  match r with
  | Ok (j, st) => located w t (rows s) j st (rows s')
  | Err _ => rows s' = rows s /\ reliable = false
  end.
Proof.
  destruct found; [apply rename_runs|]. intros [<- ->]. split; [done|]. by apply Stays.
Qed.

Context (T : forall metadata, exists text, metadata_json metadata = Ok text).

Lemma apply_runs reliable w t update now s r s' : runs reliable (apply w t update now) s r s' ->
  clock s <= clock s' /\ finished reliable w t s r s' now.
Proof.
  unfold apply. intros R.
  assert (exists u, match update with Ok update => Ok update | Err msg => if has_timed_out t now then Ok (new_state Failed) else Err (GatewayError msg) end = Ok u
    \/ exists e, u = new_state Failed /\ match update with Ok update => Ok update | Err msg => if has_timed_out t now then Ok (new_state Failed) else Err (GatewayError msg) end = Err e /\ has_timed_out t now = false) as (u & [E|(e & -> & E & N)]).
  { destruct update as [u|]; [by exists u; left|]. exists (new_state Failed). destruct (has_timed_out t now); [by left|right; eauto]. }
  2:{ rewrite E in R. destruct R as [<- ->]. split; [done|]. split; [by left|done]. }
  rewrite E in R. clear E. apply runs_try in R as (found & s1 & R1 & R). apply locate_runs in R1 as [C1 L].
  destruct found as [[j st]|e]; [|destruct R as [-> ->]; destruct L as [L ->]; split; [done|]; split; [by left|done]].
  destruct (state_update_total T (next_state (has_timed_out t now) st (update_state u)) (changes u)) as [fields F].
  rewrite F in R. destruct (bool_decide _ && _) eqn:B.
  - apply andb_true_iff in B as [B _]. apply bool_decide_eq_true in B.
    apply runs_try in R as (found & s2 & [[K1 K2] G]%runs_await & R). destruct found as [found|e]; [destruct R as [<- ->]|destruct R as [-> ->]].
    + split; [lia|]. destruct found as [st'|]; cbn.
      * exists st, (rows s1). split; [done|]. left. symmetry in G. apply fmap_Some in G as (row & G & _). split_and!; [done|by eexists|].
        intros O. rewrite O in B. rewrite <- B. apply next_state_timed_out.
      * exists j, st. rewrite K1. split; [done|]. symmetry in G. by apply fmap_None in G.
    + split; [lia|]. split; [right; exists j, st; by rewrite K1|]. by rewrite G.
  - apply runs_try in R as (done & s2 & [C2 G]%runs_await & R). destruct done as [[]|e]; [destruct R as [<- ->]..|destruct R as [-> ->]].
    + split; [lia|]. destruct G as (row & row' & Gr & W & D). exists st, (rows s1). split; [done|]. right.
      exists row, row', fields, (update_state u). split_and!; try done. by rewrite (state_update_keeps _ _ _ F).
    + split; [lia|]. destruct G as [G D]. exists j, st. by rewrite D.
    + split; [lia|]. destruct G as [D G]. split; [right; exists j, st; by rewrite D|]. by rewrite G.
Qed.

Lemma update_runs reliable w t s r s' : runs reliable (update w t) s r s' ->
  exists now, clock s <= now <= clock s' /\ finished reliable w t s r s' now.
Proof.
  unfold update. intros R. apply runs_bind in R as (u & s1 & [K1 C1]%runs_await & R). apply runs_bind in R as (now & s2 & [[K2 C2] ->]%runs_await & R).
  apply runs_try in R as (result & s3 & R & P). apply apply_runs in R as [C3 F]. exists (clock s2).
  assert (rows s2 = rows s) as E by congruence. unfold finished in F. rewrite E in F.
  destruct result as [[result|]|e].
  - apply runs_bind in P as (failures & s4 & [K4 C4]%post_process_kept & [<- ->]). split; [lia|].
    cbn. by rewrite K4.
  - destruct P as [<- ->]. split; [lia|done].
  - destruct P as [-> ->]. split; [lia|done].
Qed.

End updates.
End UpdateFacts.

(** ** Each transaction has one poll *)

Module Exclusion.
Import TransactionTypes Transactions StateRules StateService StateUpdates Tracker Store Polling.

Section exclusion.
Context `{TransactionJson} `{StateJson}.

(** The numbers of the polls that run are different, and only they own transactions. *)
Definition owned (numbers : list Z) (tr : Tracking) : Prop :=
  NoDup numbers /\ Forall (fun n => n <= last_poll tr) numbers /\ forall i p, polls tr !! i = Some p -> p ∈ numbers.
Definition numbers (w : World) : list Z := poll_number <$> tasks w.

Lemma start_owned numbers i tr poll tr' : owned numbers tr -> start i tr = Some (poll, tr') -> owned (numbers ++ [poll]) tr'.
Proof.
  intros (N & L & O) S. unfold start in S. case_bool_decide; [done|]. injection S as <- <-. rewrite Forall_forall in L.
  split_and!; cbn.
  - apply NoDup_app. split_and!; [done| |apply NoDup_singleton]. intros n En ->%list_elem_of_singleton. apply L in En. lia.
  - apply Forall_app. split; [|by repeat constructor]. apply Forall_forall. intros n En. apply L in En. lia.
  - intros j p. rewrite elem_of_app. destruct (decide (i = j)) as [<-|]; [rewrite lookup_insert_eq|rewrite lookup_insert_ne by done].
    + intros [= <-]. right. by apply list_elem_of_singleton.
    + eauto.
Qed.
(** What a poll of a transaction that is not tracked starts with *)
Definition new_poll (w : WalletIds.WalletId) (t : Transaction) (tr : Tracking) : Task :=
  let configuration := transaction_state (AssetIds.chain (asset_id t)) in
  MkTask (last_poll tr + 1) configuration (initial_interval_ms configuration) w (Sleeping t).
Definition new_tracking (t : Transaction) (tr : Tracking) : Tracking := MkTracking (last_poll tr + 1) (<[id t := last_poll tr + 1]> (polls tr)).
Lemma start_poll_fresh w t tr : polls tr !! id t = None -> start_poll w t tr = Some (new_poll w t tr, new_tracking t tr).
Proof. intros F. unfold start_poll, start. rewrite bool_decide_eq_false_2; [done|]. rewrite F. by intros []. Qed.
Lemma new_poll_wakes w t tr : exists interval, woken (new_poll w t tr) t (new_tracking t tr)
  = Some (MkTask (last_poll tr + 1) (transaction_state (AssetIds.chain (asset_id t))) interval w (Updating t (update w t))).
Proof.
  unfold woken, is_tracking. rewrite bool_decide_eq_true_2; [by eexists|]. exists (id t), (last_poll tr + 1). split; [apply lookup_insert_eq|done].
Qed.
Lemma follow_owned numbers poll i tr : owned numbers tr -> poll ∈ numbers -> owned numbers (follow poll i tr).
Proof.
  intros (N & L & O) P. split_and!; [done|done|]. intros j p. cbn. destruct (decide (i = j)) as [<-|]; [rewrite lookup_insert_eq|rewrite lookup_insert_ne by done].
  - by intros [= <-].
  - apply O.
Qed.
Lemma release_owned numbers poll k tr : owned numbers tr -> numbers !! k = Some poll -> owned (delete k numbers) (release poll tr).
Proof.
  intros (N & L & O) P. split_and!.
  - eapply sublist_NoDup; [exact N|apply sublist_delete].
  - rewrite Forall_forall in L |- *. intros n En. apply L. eapply elem_of_sublist; [done|apply sublist_delete].
  - intros j p. cbn. intros [Lk D]%map_lookup_filter_Some. apply O in Lk. cbn in D.
    apply list_elem_of_lookup in Lk as [k' Lk]. apply list_elem_of_lookup.
    destruct (Nat.lt_total k' k) as [?|[->|?]]; [exists k'; by rewrite list_lookup_delete_lt|congruence|].
    exists (pred k'). rewrite list_lookup_delete_ge by lia. by replace (S (pred k')) with k' by lia.
Qed.

Lemma becomes_owned (w : World) k task next tr e : tasks w !! k = Some task -> owned (numbers w) tr ->
  (forall task', next = Some task' -> poll_number task' = poll_number task) ->
  owned (numbers (becomes k next (poll_number task) tr e w)) (tracking (becomes k next (poll_number task) tr e w)).
Proof.
  intros K O N. unfold becomes, numbers. destruct next as [task'|]; cbn [tasks tracking].
  - rewrite list_fmap_insert, (N task') by done. rewrite list_insert_id; [done|]. by rewrite list_lookup_fmap, K.
  - rewrite list_fmap_delete. apply release_owned; [done|]. by rewrite list_lookup_fmap, K.
Qed.

Lemma step_owned w w' : step w w' -> owned (numbers w) (tracking w) -> owned (numbers w') (tracking w').
Proof.
  intros S O. destruct S as [wallet_id t task tr w S|k task current e w K P Ke|k task current call continue answer e w K P A|k task current answer w K P
    |k task call continue answer e w K P A|k task answer w K P|w|k task w K|e w].
  - unfold start_poll in S. destruct (start _ _) as [[poll tr']|] eqn:E; [|done]. injection S as <- <-.
    unfold numbers. cbn [tasks tracking]. rewrite fmap_app. by eapply start_owned.
  - apply becomes_owned; [done|done|]. intros task'. unfold woken. destruct (is_tracking _ _); [|done]. by intros [= <-].
  - apply becomes_owned; [done|done|]. by intros task' [= <-].
  - apply becomes_owned; [done| |].
    + destruct answer as [[result|]|]; cbn; try done. case_bool_decide; [done|]. apply follow_owned; [done|].
      apply list_elem_of_lookup. exists k. unfold numbers. by rewrite list_lookup_fmap, K.
    + intros task'. destruct answer as [[result|]|]; cbn; try done; by intros [= <-].
  - apply becomes_owned; [done|done|]. by intros task' [= <-].
  - apply becomes_owned; [done|done|]. intros task'. unfold fetched. destruct answer as [[pending|]|]; try done.
    destruct (is_completed _); [done|]. by intros [= <-].
  - destruct O as (N & L & _). split_and!; [done|done|]. intros i p. cbn. by rewrite lookup_empty.
  - by apply becomes_owned.
  - done.
Qed.

Lemma reachable_owned e w : rtc step (no_polls e) w -> owned (numbers w) (tracking w).
Proof.
  intros R. remember (no_polls e) as w0 eqn:E. assert (owned (numbers w0) (tracking w0)) as O.
  { rewrite E. split_and!; [apply NoDup_nil_2|constructor|]. intros i p. cbn. by rewrite lookup_empty. }
  clear E. induction R as [|w0 w1 w2 S R IH]; [done|]. apply IH. by eapply step_owned.
Qed.

(** (C7) In every order in which polls start, wait, are answered, are cancelled, dropped and end, while others change the store, no
    two polls that run have one number; each transaction is owned by at most one of them, and by none that has ended, so that
    with no polls nothing stays marked as tracked; and a poll of a transaction is refused exactly if one that runs owns it. *)
Theorem tracking_exclusive e w (R : rtc step (no_polls e) w) :
  NoDup (poll_number <$> tasks w)
  /\ (forall i p, polls (tracking w) !! i = Some p -> exists task, task ∈ tasks w /\ poll_number task = p)
  /\ (tasks w = [] -> polls (tracking w) = ∅)
  /\ (forall wallet_id t, start_poll wallet_id t (tracking w) = None <-> exists task, task ∈ tasks w /\ polls (tracking w) !! id t = Some (poll_number task)).
Proof.
  pose proof (reachable_owned e w R) as (N & L & O).
  assert (forall i p, polls (tracking w) !! i = Some p -> exists task, task ∈ tasks w /\ poll_number task = p) as E.
  { intros i p P. apply O in P. apply list_elem_of_fmap in P as (task & -> & T). eauto. }
  split_and!; [done|done| |].
  - intros Nil. apply map_empty. intros i. apply eq_None_not_Some. intros [p P]. apply E in P as (task & T & _). rewrite Nil in T. by apply elem_of_nil in T.
  - intros wallet_id t. unfold start_poll, start. case_bool_decide as D; split; try done.
    + intros _. destruct D as [p P]. destruct (E _ _ P) as (task & T & <-). eauto.
    + intros (task & T & P). destruct D. by eexists.
Qed.

(** A poll that sleeps while all are cancelled ends when it wakes. *)
Lemma cancelled_poll_ends task current tr : woken task current (cancel tr) = None.
Proof.
  unfold woken, is_tracking. rewrite bool_decide_eq_false_2; [done|]. intros (i & p & P & _). cbn in P. by rewrite lookup_empty in P.
Qed.
(** One whose transaction gets another hash by an update that was under way goes on. *)
Lemma cancelled_poll_follows task current result tr : result_id result <> id current ->
  is_tracking (poll_number task) (snd (updated task current (Ok (Some result)) (cancel tr))) = true.
Proof.
  intros N. cbn. rewrite bool_decide_eq_false_2 by done. apply bool_decide_eq_true_2. exists (result_id result), (poll_number task).
  split; [|done]. unfold follow. cbn [polls]. by rewrite lookup_insert_eq.
Qed.

End exclusion.
End Exclusion.

(** ** Polls end, and transactions only go forward *)

Module Ending.
Import TransactionTypes Transactions StateRules StateService StateUpdates Tracker Store Polling StateFacts ProgFacts UpdateFacts.

Section ending.
Context `{TransactionJson} `{StateJson}.
Implicit Types (w : WalletIds.WalletId) (t : Transaction) (s : Env).
Notation table := (gmap (WalletIds.WalletId * TransactionIds.TransactionId) Transaction).

(** *** Every call can be answered *)

Definition a_wallet (w : WalletIds.WalletId) : Wallets.Wallet := Wallets.MkWallet w None "" 0 WalletIds.Multicoin [] false.
Lemma answers_exist call s : exists answer s', answers true call answer s s'.
Proof.
  destruct call as [t| | |w i|w ts|w i|w i j|w i|w i u|w ids b|wl a|w ids|w c a|w a x|w]; cbn [Answer answers];
    try (by exists (Ok tt), s; cbn); try (by exists (Ok []), s; cbn); try (by exists (Ok None), s; cbn).
  - by exists (Err ""), s.
  - by exists (clock s), s.
  - exists (Ok (MkPending (a_wallet w) <$> rows s !! (w, i))), s. split; [done|]. by destruct (rows s !! (w, i)).
  - exists (Ok (state <$> rows s !! (w, i))), s. by split.
  - destruct (rows s !! (w, j)) as [t|] eqn:J.
    + exists (Err Cancelled), s. split; [done|]. split; [done|]. right. by eexists.
    + exists (Ok tt), (MkEnv (match rows s !! (w, i) with Some t => <[(w, j) := with_id j t]> (delete (w, i) (rows s)) | None => rows s end) (clock s)). by split.
  - exists (Ok tt), (MkEnv (delete (w, i) (rows s)) (clock s)). by split.
  - destruct (rows s !! (w, i)) as [t|] eqn:I; [|by exists (Ok false), s].
    set (t' := MkTransaction (id t) (asset_id t) (from t) (to t) (contract t) (transaction_type t) (field_state u) (block_number t) (sequence t)
      (default (fee t) (field_fee u)) (fee_asset_id t) (value t) (memo t) (direction t) (utxo_inputs t) (utxo_outputs t) (metadata t) (data t) (created_at t)).
    exists (Ok true), (MkEnv (<[(w, i) := t']> (rows s)) (clock s)). split; [done|]. by exists t, t'.
Qed.
Lemma runs_exist {A} (p : Prog A) s : exists a s', runs true p s a s'.
Proof.
  revert s. induction p as [a|call continue IH]; intros s; [by exists a, s|]. destruct (answers_exist call s) as (answer & s1 & A1).
  destruct (IH answer s1) as (a & s2 & R). exists a, s2, answer, s1. by split.
Qed.
Lemma turn_exists task current tr s : exists next tr' s', turn true task current tr s next tr' s'.
Proof.
  set (s1 := MkEnv (rows s) (clock s + interval task * 1000000)). unfold turn.
  destruct (woken task current tr) as [task1|] eqn:W; [|exists None, tr, s1; by exists s1].
  destruct (runs_exist (update (task_wallet task) current) s1) as (answer & s2 & R).
  destruct (updated task1 current answer tr) as [[task2|] tr2] eqn:U; [|exists None, tr2, s2, s1; split_and!; [done|done|]; exists answer, s2; by rewrite U].
  destruct (phase task2) as [t2|t2 p2|p] eqn:P.
  1-2: exists (Some task2), tr2, s2, s1; split_and!; [done|done|]; exists answer, s2; rewrite U, P; by split_and!.
  destruct (runs_exist p s2) as (stored & s3 & R3). exists (fetched task2 stored), tr2, s3, s1. split_and!; [done|done|]. exists answer, s2. rewrite U, P. eauto.
Qed.

(** *** What is in the table after an update *)

Definition settled (m : table) (k : WalletIds.WalletId * TransactionIds.TransactionId) : Prop := forall row, m !! k = Some row -> is_completed (state row) = true.

(** A row of the table that an update leaves comes from one before. *)
Lemma located_comes w t m j st m' k row' : located w t m j st m' -> m' !! k = Some row' ->
  exists k0 row, m !! k0 = Some row /\ (k0 = k \/ k0 = (w, id t) /\ k = (w, j)) /\ state row' = state row /\ created_at row' = created_at row /\ asset_id row' = asset_id row.
Proof.
  intros [J|row J|J] L.
  - exists k, row'. by split_and!; [|left|..].
  - apply lookup_delete_Some in L as [_ L]. exists k, row'. by split_and!; [|left|..].
  - destruct (m !! (w, id t)) as [row|] eqn:I; [|exists k, row'; by split_and!; [|left|..]].
    apply lookup_insert_Some in L as [[<- <-]|[_ [_ L]%lookup_delete_Some]].
    + exists (w, id t), row. by split_and!; [|right|..].
    + exists k, row'. by split_and!; [|left|..].
Qed.
(** After a change of the hash nothing is left where the transaction was. *)
Lemma located_gone w t m j st m' : located w t m j st m' -> j = id t /\ m' = m \/ m' !! (w, id t) = None.
Proof.
  intros [J|row J|J]; [by left|right; apply lookup_delete_eq|]. right.
  destruct (m !! (w, id t)) as [row|] eqn:I; [|done].
  rewrite lookup_insert_ne by congruence. apply lookup_delete_eq.
Qed.
(** The row of the transaction is in the state that its place says. *)
Lemma located_state w t m j st m' row : located w t m j st m' -> (forall row, m !! (w, id t) = Some row -> state row = state t) ->
  m' !! (w, j) = Some row -> state row = st.
Proof.
  intros [->|row0 J|J] F L; [by apply F| |].
  - apply lookup_delete_Some in L as [_ L]. congruence.
  - destruct (m !! (w, id t)) as [row0|] eqn:I; [|congruence]. rewrite lookup_insert_eq in L. injection L as <-. cbn. by apply F.
Qed.

Definition progresses (a b : TransactionState) : Prop := a = b \/ a = Pending \/ is_completed b = true.
Lemma next_state_progresses timed_out current updated : progresses current (next_state timed_out current updated).
Proof.
  unfold progresses, next_state, merged_with. destruct (bool_decide (current = Pending)) eqn:P; [apply bool_decide_eq_true in P; auto|].
  cbn [orb]. destruct (is_completed updated) eqn:U; [rewrite U, andb_false_r; auto|]. destruct timed_out; cbn [andb]; [|auto].
  destruct (is_completed current) eqn:C; cbn [negb]; auto.
Qed.

Context (T : forall metadata, exists text, metadata_json metadata = Ok text).

(** (C9) An update of a transaction as it is stored only moves transactions forward, whatever the gateway and the other services
    answer and whichever calls of the store fail: each row it leaves comes from a row of before with the same creation and asset,
    in the same state, or in a later one - from pending to any, from any to a completed one, and from a completed one to no other
    kind - and no row but that of the transaction disappears. *)
Theorem update_progresses reliable w t s r s'
  (F : forall row, rows s !! (w, id t) = Some row -> state row = state t) (R : runs reliable (update w t) s r s') :
  (forall k row', rows s' !! k = Some row' -> exists k0 row, rows s !! k0 = Some row /\ (k0 = k \/ k0 = (w, id t))
     /\ progresses (state row) (state row') /\ created_at row' = created_at row /\ asset_id row' = asset_id row)
  /\ (forall k, k <> (w, id t) -> is_Some (rows s !! k) -> is_Some (rows s' !! k)).
Proof.
  apply update_runs in R as (now & _ & R); [|done].
  assert (forall m' j st, located w t (rows s) j st m' ->
    (forall k row', m' !! k = Some row' -> exists k0 row, rows s !! k0 = Some row /\ (k0 = k \/ k0 = (w, id t))
       /\ progresses (state row) (state row') /\ created_at row' = created_at row /\ asset_id row' = asset_id row)
    /\ (forall k, k <> (w, id t) -> is_Some (rows s !! k) -> is_Some (m' !! k))) as L.
  { intros m' j st L. split.
    - intros k row' K. destruct (located_comes _ _ _ _ _ _ _ _ L K) as (k0 & row & K0 & Ek & S & C & A). exists k0, row.
      split_and!; [done|naive_solver|by left|done|done].
    - intros k N [row K]. destruct L as [J|row0 J|J]; [by eexists|rewrite lookup_delete_ne by done; by eexists|].
      destruct (rows s !! (w, id t)); [|by eexists]. destruct (decide (k = (w, j))) as [->|]; [rewrite lookup_insert_eq; by eexists|].
      rewrite lookup_insert_ne, lookup_delete_ne by done. by eexists. }
  destruct r as [[result|]|e].
  - destruct R as (st & m & Lo & [[-> _]|(row & row' & u & updated & M & W & U & ->)]); [by eapply L|].
    destruct (L _ _ _ Lo) as [L1 L2]. pose proof (located_state _ _ _ _ _ _ _ Lo F M) as S.
    destruct W as (W1 & _ & W3 & W4 & W5 & _). split.
    + intros k row0 K. apply lookup_insert_Some in K as [[<- <-]|[_ K]]; [|by apply L1].
      destruct (located_comes _ _ _ _ _ _ _ _ Lo M) as (k0 & row0 & K0 & Ek & S0 & C & A). exists k0, row0.
      split_and!; [done|naive_solver| |congruence|congruence]. rewrite <- S0, S, W1, U. apply next_state_progresses.
    + intros k N K. destruct (decide (k = (w, result_id result))) as [->|]; [rewrite lookup_insert_eq; by eexists|].
      rewrite lookup_insert_ne by done. by apply L2.
  - destruct R as (j & st & Lo & _). by eapply L.
  - destruct R as [[->|(j & st & Lo)] _]; [|by eapply L].
    apply (L _ (id t) (state t)). by apply Stays.
Qed.

(** *** A poll that nothing interrupts *)

(** After an update that succeeded, a transaction that had timed out is settled. *)
Lemma timed_out_settled w t s result s' now : is_completed (state t) = false -> has_timed_out t now = true ->
  finished true w t s (Ok (Some result)) s' now -> settled (rows s') (w, result_id result).
Proof.
  intros C O (st & m & Lo & [(-> & [row M] & D)|(row & row' & u & updated & M & W & U & ->)]) row1 R1.
  - specialize (D O). destruct Lo as [J|row0 J|J]; [congruence| |congruence]. apply lookup_delete_Some in R1 as [_ R1]. congruence.
  - rewrite lookup_insert_eq in R1. injection R1 as <-. destruct W as [-> _]. rewrite U, O. apply next_state_timed_out.
Qed.
(** The place that a transaction has left is empty. *)
Lemma finished_gone w t s result s' now reliable : finished reliable w t s (Ok (Some result)) s' now ->
  result_id result = id t \/ rows s' !! (w, id t) = None.
Proof.
  intros (st & m & Lo & R). destruct (located_gone _ _ _ _ _ _ Lo) as [[-> _]|G]; [by left|].
  destruct R as [[-> _]|(row & row' & u & updated & M & W & U & ->)]; [by right|].
  destruct (decide (result_id result = id t)); [by left|right]. rewrite lookup_insert_ne by congruence. done.
Qed.

Definition created_by (C : Z) (m : table) : Prop := forall k row, m !! k = Some row -> created_at row <= C.
Lemma finished_created w t s r s' now reliable C : finished reliable w t s r s' now -> created_by C (rows s) -> created_by C (rows s').
Proof.
  intros R B. assert (forall j st m, located w t (rows s) j st m -> created_by C m) as L.
  { intros j st m Lo k row K. destruct (located_comes _ _ _ _ _ _ _ _ Lo K) as (k0 & row0 & K0 & _ & _ & -> & _). by eapply B. }
  destruct r as [[result|]|e].
  - destruct R as (st & m & Lo & [[-> _]|(row & row' & u & updated & M & W & U & ->)]); [by eapply L|].
    intros k row0 K. apply lookup_insert_Some in K as [[<- <-]|[_ K]]; [|by eapply L].
    destruct W as (_ & _ & _ & _ & -> & _). by eapply L.
  - destruct R as (j & st & Lo & _). by eapply L.
  - destruct R as [[->|(j & st & Lo)] _]; [done|by eapply L].
Qed.

(** A turn after which the poll goes on: its transaction had not timed out when it was updated. *)
Lemma turn_continues task current tr s next tr' s' : is_completed (state current) = false -> turn true task current tr s (Some next) tr' s' ->
  exists now current', clock s + interval task * 1000000 <= now <= clock s' /\ has_timed_out current now = false
    /\ phase next = Sleeping current' /\ is_completed (state current') = false
    /\ configuration next = configuration task /\ interval next = next_interval_ms (configuration task) (interval task)
    /\ (forall C, created_by C (rows s) -> created_at current <= C -> created_by C (rows s') /\ created_at current' <= C).
Proof.
  intros C (s1 & R1 & C1 & R). unfold woken in R. destruct (is_tracking _ _); [|by destruct R as [? _]].
  destruct R as (answer & s2 & U & R). apply update_runs in U as (now & B & F); [|done].
  assert (forall C, created_by C (rows s) -> created_by C (rows s2)) as K.
  { intros M Bm. eapply finished_created; [exact F|]. by rewrite R1. }
  exists now. destruct answer as [[result|]|e]; cbn in R.
  - destruct R as [_ (stored & (stored0 & s3 & [[Ks Cs] G] & -> & ->) & N)]. destruct stored as [[pending|]|]; cbn in N; try done. symmetry in G. cbn in G.
    destruct (is_completed (state (pending_transaction pending))) eqn:P; [done|]. injection N as ->. exists (pending_transaction pending).
    split_and!; [lia|lia| |done|done|done|done|].
    + destruct (has_timed_out current now) eqn:O; [|done].
      pose proof (timed_out_settled _ _ _ _ _ _ C O F _ G). congruence.
    + intros M Bm _. rewrite Ks. split; [by apply K|]. by eapply K.
  - by destruct R as [_ [? _]].
  - destruct R as [_ [N ->]]. injection N as ->. destruct F as [_ F]. destruct (F eq_refl) as [O Rs]. exists current.
    split_and!; [lia|lia|done|done|done|done|done|]. intros M Bm Cm. split; [by apply K|done].
Qed.

(** After an error the poll sleeps again. *)
Lemma turn_failed reliable task current tr s s1 task1 e s' : rows s1 = rows s -> clock s + interval task * 1000000 <= clock s1 ->
  woken task current tr = Some task1 -> runs reliable (update (task_wallet task) current) s1 (Err e) s' ->
  turn reliable task current tr s (Some (with_phase (Sleeping current) task1)) tr s'.
Proof. intros R C W U. exists s1. split_and!; [done|done|]. rewrite W. exists (Err e), s'. by split_and!. Qed.

(** A poll that waits for a transaction that is not completed, and can only see those created in time *)
Definition waiting (C : Z) (task : Task) (s : Env) : Prop :=
  created_by C (rows s) /\ initial_interval_ms (configuration task) <= interval task
  /\ exists current, phase task = Sleeping current /\ is_completed (state current) = false /\ created_at current <= C.

Lemma turns_waiting n task tr s task' tr' s' C : turns true n task tr s task' tr' s' -> waiting C task s -> 0 <= initial_interval_ms (configuration task) ->
  waiting C task' s' /\ configuration task' = configuration task
  /\ (n = 0%nat \/ clock s + Z.of_nat n * initial_interval_ms (configuration task) * 1000000 < C + (TIMEOUT_MAX + 1) * 1000000).
Proof.
  intros R. induction R as [task tr s|n task current tr s task1 tr1' s1 task2 tr2 s2 Ph R Rs IH]; intros (Cs & I & cur & Ph' & P & Ct) N; [split_and!; [|done|by left]; repeat split; eauto|].
  rewrite Ph in Ph'. injection Ph' as <-. destruct (turn_continues _ _ _ _ _ _ _ P R) as (now & current' & B & O & Ph1 & P1 & E1 & E2 & K).
  destruct (K C Cs Ct) as [K1 K2]. pose proof (next_interval (configuration task) (interval task)) as Ni. rewrite <- E2 in Ni.
  destruct IH as (W & Ec & L); [repeat split; eauto; congruence|congruence|]. rewrite E1 in *. split_and!; [done|done|right].
  assert (now < C + (TIMEOUT_MAX + 1) * 1000000).
  { apply Z.nle_gt. intros Lt. rewrite (timed_out_at current now) in O; [done|done|lia]. }
  rewrite Nat2Z.inj_succ. destruct L as [->|L]; lia.
Qed.

(** (C8) A poll of a transaction that is not completed ends in time while the calls of the store do not fail, whatever the gateway
    and the other services answer: after as many turns as fit between the time of its start and the longest timeout after the
    creation of the transactions it can see, it does not go on; and until then each turn comes to its end. *)
Theorem polling_ends wallet_id t tr0 task tr s n task' tr' s' C (S : start_poll wallet_id t tr0 = Some (task, tr))
  (P : is_completed (state t) = false) (Ct : created_at t <= C) (Cs : created_by C (rows s)) (R : turns true n task tr s task' tr' s') :
  (n = 0%nat \/ clock s + Z.of_nat n * initial_interval_ms (configuration task) * 1000000 < C + (TIMEOUT_MAX + 1) * 1000000)
  /\ 1 <= initial_interval_ms (configuration task)
  /\ exists current next tr2 s2, phase task' = Sleeping current /\ turn true task' current tr' s' next tr2 s2.
Proof.
  unfold start_poll in S. destruct (start (id t) tr0) as [[poll tr1]|]; [|done]. injection S as <- <-.
  pose proof (initial_interval (AssetIds.chain (asset_id t))) as I.
  destruct (turns_waiting _ _ _ _ _ _ _ C R) as ((_ & _ & cur & Ph & _) & _ & L); [repeat split; eauto; done|cbn [configuration]; lia|].
  split_and!; [done|exact (proj1 I)|]. destruct (turn_exists task' cur tr' s') as (next & tr2 & s2 & N). by exists cur, next, tr2, s2.
Qed.

(** A poll that nothing cancels and that ends leaves its transaction settled or gone, where it was and where it has moved. *)
Theorem poll_settles task current tr s tr' s' (P : is_completed (state current) = false) (R : turn true task current tr s None tr' s') :
  woken task current tr = None
  \/ exists j, tr' = (if bool_decide (j = id current) then tr else follow (poll_number task) j tr)
      /\ settled (rows s') (task_wallet task, id current) /\ settled (rows s') (task_wallet task, j).
Proof.
  destruct R as (s1 & R1 & C1 & R). unfold woken in *. destruct (is_tracking _ _); [right|by left].
  destruct R as (answer & s2 & U & R). apply update_runs in U as (now & B & F); [|done].
  destruct answer as [[result|]|e]; cbn in R.
  - destruct R as [-> (stored & (stored0 & s3 & [[Ks Cs] G] & -> & ->) & N)]. rewrite Ks. exists (result_id result).
    assert (settled (rows s2) (task_wallet task, result_id result)) as S.
    { intros row L. destruct stored as [[pending|]|]; cbn in G, N; [|congruence|done].
      rewrite L in G. injection G as G. rewrite G in N. by destruct (is_completed (state row)). }
    split_and!; [done| |done]. destruct (finished_gone _ _ _ _ _ _ _ F) as [<-|E]; [done|]. intros row L. congruence.
  - destruct R as (-> & _ & ->). exists (id current). rewrite bool_decide_eq_true_2 by done. destruct F as (j & st & Lo & Rj).
    assert (settled (rows s2) (task_wallet task, id current)) as S; [|done].
    intros row L. destruct (located_gone _ _ _ _ _ _ Lo) as [[-> _]|E]; congruence.
  - by destruct R as [_ [? _]].
Qed.

End ending.
End Ending.

(** ** A transaction on Ethereum *)

Module StateConcrete.
Import TransactionTypes Transactions StateRules StateService StateUpdates Tracker Store Polling StateFacts ProgFacts UpdateFacts Exclusion Ending.

#[local] Instance no_metadata : TransactionJson := {| JsonValue := unit; asset_transfers := fun _ => None; swap_of := fun _ => None |}.
#[local] Instance empty_text : StateJson := fun _ => Ok "{}".

Definition sent (hash : string) (state : TransactionState) : Transaction :=
  new hash (from_chain Chains.Ethereum) "0xa" "0xb" None Transfer state 1 (from_chain Chains.Ethereum) 10 None None 0.
Definition wallet : WalletIds.WalletId := WalletIds.MulticoinId "0xa".
Definition key (hash : string) : WalletIds.WalletId * TransactionIds.TransactionId := (wallet, id (sent hash Pending)).
Definition stored (state : TransactionState) (now : Z) : Env := MkEnv {[key "a" := sent "a" state]} now.

Lemma text_exists : forall metadata, exists text, metadata_json metadata = Ok text.
Proof. by eexists. Qed.

(** Two polls start; the transaction of the first is refused a third. *)
Definition first : Tracking := new_tracking (sent "a" Pending) no_tracking.
Definition second : Tracking := new_tracking (sent "b" Pending) first.
Definition both : World :=
  MkWorld (stored Pending 0) second [new_poll wallet (sent "a" Pending) no_tracking; new_poll wallet (sent "b" Pending) first].
Lemma tracking_exclusive_witness : rtc step (no_polls (stored Pending 0)) both
  /\ NoDup (poll_number <$> tasks both) /\ start_poll wallet (sent "a" Pending) (tracking both) = None.
Proof.
  assert (rtc step (no_polls (stored Pending 0)) both) as R.
  { eapply rtc_l; [apply (StepStart wallet (sent "a" Pending)), start_poll_fresh, lookup_empty|].
    eapply rtc_l; [apply (StepStart wallet (sent "b" Pending)), start_poll_fresh; by vm_compute|]. apply rtc_refl. }
  destruct (tracking_exclusive _ _ R) as (N & _ & _ & E). split; [exact R|]. split; [exact N|].
  apply E. exists (new_poll wallet (sent "a" Pending) no_tracking). split; [by left|by vm_compute].
Defined.

(** The gateway cannot be reached, and the poll goes on after its first turn; it does so at most 1,451,520 times. *)
Lemma polling_ends_witness : exists task' tr' s', let task := new_poll wallet (sent "a" Pending) no_tracking in
  start_poll wallet (sent "a" Pending) no_tracking = Some (task, first)
  /\ turns true 1 task first (stored Pending 0) task' tr' s' /\ clock s' = 5000000000
  /\ exists current next tr2 s2, phase task' = Sleeping current /\ turn true task' current tr' s' next tr2 s2.
Proof.
  destruct (new_poll_wakes wallet (sent "a" Pending) no_tracking) as [interval W].
  pose proof (start_poll_fresh wallet (sent "a" Pending) no_tracking (lookup_empty _)) as S.
  set (task := new_poll wallet (sent "a" Pending) no_tracking) in *. set (s' := stored Pending 5000000000).
  set (task1 := MkTask _ _ _ _ _) in W. set (task' := with_phase (Sleeping (sent "a" Pending)) task1).
  assert (turns true 1 task first (stored Pending 0) task' first s') as R.
  { eapply OneTurn; [reflexivity| |apply NoTurn]. apply (turn_failed true _ _ _ _ s' _ (GatewayError "offline")); [reflexivity|by vm_compute|exact W|].
    exists (Err "offline"), s'. split; [by split|]. exists 5000000000, s'. split; [by repeat split|]. split; reflexivity. }
  assert (created_by 0 (rows (stored Pending 0))) as C.
  { intros k row K. unfold stored in K. cbn [rows] in K. apply lookup_singleton_Some in K as [_ K]. rewrite <- K. apply Z.le_refl. }
  exists task', first, s'. split; [exact S|]. split; [exact R|]. split; [reflexivity|].
  exact (proj2 (proj2 (polling_ends text_exists wallet (sent "a" Pending) no_tracking task first (stored Pending 0) 1 task' first s' 0 S eq_refl (Z.le_refl 0) C R))).
Defined.

(** The gateway says that the transaction is confirmed, and it is stored so. *)
Lemma update_progresses_witness : let s' := stored Confirmed 7 in
  runs true (update wallet (sent "a" Pending)) (stored Pending 7) (Ok (Some (MkResult (id (sent "a" Pending)) Confirmed []))) s'
  /\ forall k row', rows s' !! k = Some row' -> exists k0 row, rows (stored Pending 7) !! k0 = Some row /\ progresses (state row) (state row').
Proof.
  intros s'. assert (runs true (update wallet (sent "a" Pending)) (stored Pending 7) (Ok (Some (MkResult (id (sent "a" Pending)) Confirmed []))) s') as R.
  { exists (Ok (MkUpdate Confirmed [])), (stored Pending 7). split; [done|]. exists 7, (stored Pending 7). split; [done|].
    exists (Ok true), s'. split; [|exists (Ok tt), s'; split; [by split|split; reflexivity]].
    split; [done|]. exists (sent "a" Pending), (sent "a" Confirmed). split; [apply lookup_singleton_eq|]. split; [by repeat split|]. symmetry. apply insert_singleton_eq. }
  assert (forall row, rows (stored Pending 7) !! key "a" = Some row -> state row = state (sent "a" Pending)) as F.
  { intros row E. unfold stored in E. cbn [rows] in E. rewrite lookup_singleton_eq in E. by injection E as <-. }
  split; [exact R|]. intros k row' K.
  destruct (proj1 (update_progresses text_exists true wallet (sent "a" Pending) (stored Pending 7) _ s' F R) k row' K) as (k0 & row & K0 & _ & G & _).
  by exists k0, row.
Defined.

(** While the gateway is asked, the row is confirmed by others.  It has answered that the transaction is pending and what its fee
    is: the row is pending again. *)
Example stale_update_reopens : exists s' row,
  runs true (update wallet (sent "a" Pending)) (stored Confirmed 7) (Ok (Some (MkResult (id (sent "a" Pending)) Pending []))) s'
  /\ rows s' !! key "a" = Some row /\ state row = Pending.
Proof.
  exists (stored Pending 7), (sent "a" Pending). split; [|split; [apply lookup_singleton_eq|reflexivity]].
  exists (Ok (MkUpdate Pending [NetworkFee 1])), (stored Confirmed 7). split; [done|]. exists 7, (stored Confirmed 7). split; [done|].
  exists (Ok true), (stored Pending 7). split; [|split; reflexivity].
  split; [done|]. exists (sent "a" Confirmed), (sent "a" Pending). split; [apply lookup_singleton_eq|]. split; [by repeat split|]. symmetry. apply insert_singleton_eq.
Qed.

End StateConcrete.
